(* ===== verification/_CoqProject ===== *)
-Q . S2P
Prelude.v
State.v
Memory.v
Queue.v
Bytes.v
Ring.v
CString.v
Spinlock.v
Segment.v
Kalloc.v
Sched.v
Handoff.v
Console.v
ConsoleSpec.v
Kbd.v
Devices.v
Ide.v
Mp.v
Vm.v
VmSpec.v
Crt.v
VmCopy.v
Bio.v
Cache.v
IdeSpec.v
Machine.v
Log.v
Fs.v
FsFormat.v
Icache.v
Pipe.v
File.v
Proc.v
ForkSpec.v
I386.v
Asm.v
BootAsm.v
Exec.v
Boot.v
Syscall.v
Sysproc.v
Sysfile.v
Trap.v
Types.v
LogSpec.v
Crash.v
Transaction.v
Tx.v
Balloc.v
Contents.v
Lookup.v
Mkfs.v
MkfsSpec.v
Image.v
User.v
Ulib.v
Grep.v
Utils.v
ShParse.v
ShSpec.v
ShPrint.v
ShRun.v
Umalloc.v
CustomShell.v
CustomSpec.v
