(* ===== verification/Prelude.v ===== *)
(** * Verification of an xv6 system and of a small shell

    This library models the two programs of the repository and proves what makes
    their parts correct:
    - the xv6 kernel for i386 with the system calls [cps], [shm_alloc] and
      [describe] added to it, its user library and its user programs
      (src/Project 1/xv6-public);
    - a shell for Unix with five built-in commands (src/Project 2).

    ** How the code is modelled

    The kernel is a shallow embedding.  A routine is a function in the monad [M]
    of this file: it runs on a state and either finishes, calls [panic], or
    waits for ever ([Done], [Panic], [Stuck]).  The state [kstate] (State.v) has a
    field for each global variable of the kernel, the memory as a map from
    addresses to bytes, and the disk as a map from block numbers to bytes
    together with the list of all writes.  What the other processors and
    processes do while a routine spins on a lock or sleeps is an argument, the
    environment: a list of state transformers, one of which is applied at each wait.
    Integers are numbers in [Z] with the conversions [u8], [u16], [u32], [s8], [s16],
    [s32] written where the code wraps.  Where the interleaving itself is the
    subject, the code is a step relation: each step of a CPU on one spin-lock is one
    access to the shared lock, and each step of a process on one sleep-lock is one
    statement, between the acquisitions of the spin-locks that protect it.

    A user program is an interaction tree over the system calls (User.v), run
    against a model of the system.  The custom shell is in the monad [M] again, on
    byte arrays; reading outside an array is the panic [undefined].

    Loops that are not structural carry fuel.  In the kernel the fuel is computed
    from the data (the number of buffers, blocks, inodes, bytes, or waits left in
    the environment) so that it is never used up before the C loop would end; the
    theorems that an operation finishes show it.  The fuel of the shell's parser
    is a function of the length of the line, and [parsecmd_ends] shows that it is
    enough.  For [malloc], [free] and [cd] the fuel is an argument and the
    theorems hold for all that is large enough.

    ** The files

    Foundations.
    - Prelude: machine integers, little-endian numbers, the monad with its
      control flow and its notion of total correctness, the tactics.
    - State: proc.h, file.h, buf.h, fs.h, spinlock.h, sleeplock.h, the trap
      frame of x86.h, and the constants.
    - Memory, Queue, Bytes, Ring: byte memory, ring buffers, integers in disk blocks,
      circular lists.
    - Machine: a concrete machine on which the theorems are instantiated.
    - Devices: the ports and registers of the devices.  Every access is recorded, and
      what a read returns is the parameter [Hardware], a function of the
      accesses so far.  picirq.c, ioapic.c, lapic.c, uart.c and the controller of
      the keyboard are definitions on it.

    The kernel.
    - CString: string.c.
    - Spinlock: spinlock.c, [mycpu] and [myproc].  Several CPUs that run [acquire]
      and [release] in any interleaving exclude each other and never panic.
    - Segment: the descriptors of mmu.h, [seginit] of vm.c, [tvinit] of trap.c.  The
      segments are flat, and user code can raise the system call only.
    - Kalloc: kalloc.c.  Free pages and pages handed out partition memory.
    - Sched, Handoff: [sched], [sleep], [wakeup] of proc.c and sleeplock.c.  Any
      number of processes on one sleep-lock: exclusion, no lost wake-up, no
      deadlock.
    - Console, ConsoleSpec, Kbd: console.c, kbd.c.  [printint] prints its number,
      the cursor stays on the screen, and [consoleintr] on its ring refines a line
      editor.
    - Crt: [consputc] and [cgaputc] of console.c on the ports and the memory of the
      display and on the serial line, and what [panic] prints.  They refine the
      screen of Console: the cells, the cursor and the characters sent agree.
    - Vm, VmSpec, VmCopy: vm.c.  A page directory and its tables in memory as a map
      from pages to entries; [mappages], [allocuvm], [deallocuvm], [setupkvm],
      [copyuvm] and [freevm] keep it well-formed, lose no page of memory when
      they run out of it, and [copyuvm] makes a separate copy.
    - Bio, Cache: bio.c over memide.c.  The cache refines a map from blocks to their
      contents and replaces the least recently used buffer.
    - Ide, IdeSpec: ide.c.  The controller is assumed to be an ATA disk that becomes
      ready, reports no error and delivers the sector asked for ([AtaDisk]).  The
      linked queue, the interrupts and the sleeping processes refine a queue
      of requests; [iderw] returns with the buffer synchronised, and does to
      the buffer and the disk what [iderw] of memide.c does.
    - Mp: mp.c.  [mpinit] counts the processors of a table of known entries; on
      any other entry it does not end.  Its fuel is an argument.
    - Boot: bootmain.c.  The segments of the kernel on the disk come to their
      places in memory.
    - Log, LogSpec, Crash, Transaction: log.c.  After a crash at any write of
      [commit], recovery leaves all of the transaction or none of it; recovery can
      itself be interrupted; [begin_op], [log_write] and [end_op] as transactions.
      [log_write_overflow] is a case in which the log panics although room was reserved.
    - Fs, FsFormat, Icache, Tx, Balloc, Contents, Lookup: fs.c.  Path names, on-disk
      inodes, the reference counts of the inode table; inside a transaction, the
      block allocator, [readi] and [writei] on the contents of a file with its
      direct and indirect blocks, allocated on demand and apart from other files,
      and [namei], which walks the directories on the disk and gives back every
      reference but one.
    - Mkfs, MkfsSpec, Image: mkfs.c, the program that makes the disk.  Its image is a
      file system with exactly the given files, except that a full root directory gets
      a size too large, and the kernel opens and reads the files under their names.
    - Pipe, File: pipe.c, file.c.  A pipe is a first-in first-out queue, whatever its
      counters and however readers and writers take turns.
    - Proc, Exec, Syscall, Sysproc, Sysfile, Trap: proc.c, exec.c, syscall.c,
      sysproc.c, sysfile.c, trap.c and main.c as definitions; [argptr] accepts
      exactly the blocks inside the process.
    - ForkSpec: [fork] makes a child with a copy of the memory, the files and the
      trap frame of its parent, or gives everything back when memory is short.
    - Types: what [main], [trap] and all the routines below them keep, also when they
      panic or wait: every pointer in the tables designates an entry of its table, a
      file has the pointer that its type selects, the rings of pipes and console
      never overflow.  A judgment [safe_at], a rule for each construct of the
      monad, a lemma for each routine and a tactic that follows the control flow.

    The assembly.
    - I386: the instructions that the sources use, on a machine with registers,
      selectors, descriptor tables, interrupts and a byte memory.  A program is the
      list of its lines; where they lie is the parameter [Layout], and what the
      manuals leave open the parameter [Processor].
    - Asm: swtch.S, trapasm.S, vectors.pl, usys.S, initcode.S and entry.S line by
      line.  [swtch] returns when its thread is switched to again; an interrupt
      is invisible to the interrupted program; the child of [fork] enters user mode with
      the registers of its parent and 0 as result; each stub makes its system call.
      The C functions called are any change of machine that returns as C does.
    - BootAsm: bootasm.S, entryother.S and asm.h.  From the first instruction of a
      processor to the first C function, with flat segments, the stack and paging.

    User space.
    - User: user.h.  Ulib: ulib.c, printf.c; [atoi] reads what [printf] prints.
    - Grep: grep.c.  [match] decides the language of its pattern; [grep] prints the
      matching lines of a file, and loses input that arrives in pieces.
    - Utils: cat.c, wc.c, ls.c, init.c and the other small programs.
    - ShParse, ShSpec, ShPrint, ShRun: sh.c.  The parser ends, its strings are the
      words of the line, it inverts printing, and [runcmd] connects the programs
      as the command says.
    - Umalloc: umalloc.c.  [malloc] and [free] on the ring of free blocks.

    The custom shell.
    - CustomShell, CustomSpec: main.c and commands.c of Project 2.  Splitting a
      line, [cd], [cp] and [mv]; a name on which [cd] hangs.

    ** Not modelled

    usertests.c is a test program without a contract of its own.  halt.c and halt.S are
    not linked into the kernel, kernel.ld is the linker's, and its addresses are the
    parameter [Linker].  In the models of the C routines a context switch is one step of the
    environment, [consputc] appends to a list, and [panic] ends the run; Asm and Crt
    have the instructions and the ports below them.  Paging is in the
    definitions of vm.c and not in the machine of I386, whose memory has the
    addresses that the running code uses.  Files under build directories are generated. *)

From stdpp Require Import base gmap list strings.
From Stdlib Require Import ZArith Lia.

Open Scope Z_scope.

(** ** Machine integers

    A C integer of width [w] is kept as a [Z]; [u8], [u16] and [u32] are the
    conversions to the unsigned types, [s8], [s16] and [s32] the conversions to
    the signed ones (two's complement, as gcc defines them on i386). *)

Definition u8 (z : Z) : Z := z mod 2 ^ 8.
Definition u16 (z : Z) : Z := z mod 2 ^ 16.
Definition u32 (z : Z) : Z := z mod 2 ^ 32.

Definition s8 (z : Z) : Z := let u := u8 z in if u <? 2 ^ 7 then u else u - 2 ^ 8.
Definition s16 (z : Z) : Z := let u := u16 z in if u <? 2 ^ 15 then u else u - 2 ^ 16.
Definition s32 (z : Z) : Z := let u := u32 z in if u <? 2 ^ 31 then u else u - 2 ^ 32.

(** The newline at the end of a C message. *)
Definition newline : string := String (Ascii.ascii_of_nat 10) EmptyString.

(** A C truth value. *)
Definition truth (z : Z) : bool := negb (z =? 0).
Definition of_bool (b : bool) : Z := if b then 1 else 0.

Lemma u32_bounds z : 0 <= u32 z < 2 ^ 32.
Proof. unfold u32. apply Z.mod_pos_bound. lia. Qed.

Lemma u8_bounds z : 0 <= u8 z < 2 ^ 8.
Proof. unfold u8. apply Z.mod_pos_bound. lia. Qed.

Lemma u32_small z : 0 <= z < 2 ^ 32 -> u32 z = z.
Proof. intros H. unfold u32. by apply Z.mod_small. Qed.

Lemma u32_wrap z : 2 ^ 32 <= z < 2 ^ 33 -> u32 z = z - 2 ^ 32.
Proof.
  intros H. unfold u32. rewrite <- (Z.mod_small (z - 2 ^ 32) (2 ^ 32)) by lia.
  by rewrite <- (Z.mod_add (z - 2 ^ 32) 1), Z.mul_1_l, Z.sub_add by lia.
Qed.

Lemma u32_idemp z : u32 (u32 z) = u32 z.
Proof. apply u32_small, u32_bounds. Qed.

Lemma u32_add_l a b : u32 (u32 a + b) = u32 (a + b).
Proof. unfold u32. by rewrite Zplus_mod_idemp_l. Qed.

Lemma u32_add_r a b : u32 (a + u32 b) = u32 (a + b).
Proof. unfold u32. by rewrite Zplus_mod_idemp_r. Qed.

Lemma u32_sub_l a b : u32 (u32 a - b) = u32 (a - b).
Proof. unfold u32. by rewrite Zminus_mod_idemp_l. Qed.

Lemma u32_sub_r a b : u32 (a - u32 b) = u32 (a - b).
Proof. unfold u32. by rewrite Zminus_mod_idemp_r. Qed.

Lemma u32_add_inj a i j : 0 <= i < 2 ^ 32 -> 0 <= j < 2 ^ 32 -> u32 (a + i) = u32 (a + j) -> i = j.
Proof.
  intros Hi Hj H. rewrite <- (u32_small i), <- (u32_small j) by done.
  replace i with (a + i - a) by lia. replace j with (a + j - a) by lia.
  by rewrite <- !(u32_sub_l (_ + _)), H.
Qed.

Lemma s32_bounds z : - 2 ^ 31 <= s32 z < 2 ^ 31.
Proof.
  unfold s32. pose proof (u32_bounds z).
  destruct (Z.ltb_spec (u32 z) (2 ^ 31)); lia.
Qed.

Lemma s32_small z : - 2 ^ 31 <= z < 2 ^ 31 -> s32 z = z.
Proof.
  intros H. unfold s32, u32.
  destruct (Z.ltb_spec (z mod 2 ^ 32) (2 ^ 31)) as [Hlt|Hge].
  - destruct (decide (0 <= z)); [by apply Z.mod_small; lia|].
    rewrite <- (Z.mod_add z 1 (2 ^ 32)) in Hlt by lia.
    rewrite Z.mod_small in Hlt; lia.
  - destruct (decide (0 <= z)); [rewrite Z.mod_small in Hge; lia|].
    rewrite <- (Z.mod_add z 1 (2 ^ 32)) by lia.
    rewrite Z.mod_small; lia.
Qed.

Lemma u32_s32 z : u32 (s32 z) = u32 z.
Proof.
  unfold s32. destruct (_ <? _); [apply u32_idemp|].
  unfold u32. rewrite <- (Z.mod_add (z mod 2 ^ 32 - 2 ^ 32) 1) by lia.
  replace (z mod 2 ^ 32 - 2 ^ 32 + 1 * 2 ^ 32) with (z mod 2 ^ 32) by lia.
  apply Z.mod_mod; lia.
Qed.

(** Rounding down with a mask, as the page macros do. *)
Lemma land_mask_down x n :
  0 <= n <= 32 -> 0 <= x < 2 ^ 32 ->
  Z.land x (u32 (Z.lnot (2 ^ n - 1))) = x / 2 ^ n * 2 ^ n.
Proof.
  intros Hn Hx. unfold u32. rewrite <- Z.land_ones by lia.
  rewrite (Z.land_comm (Z.lnot _)), Z.land_assoc, Z.land_ones, Z.mod_small by lia.
  replace (2 ^ n - 1) with (Z.ones n) by (rewrite Z.ones_equiv; lia).
  rewrite <- Z.ldiff_land, Z.ldiff_ones_r by lia.
  by rewrite Z.shiftl_mul_pow2, Z.shiftr_div_pow2 by lia.
Qed.

(** ** Little-endian bytes *)

Fixpoint le_bytes (n : nat) (z : Z) : list Z :=
  match n with
  | O => []
  | S n => z mod 256 :: le_bytes n (z / 256)
  end.

Fixpoint le_val (l : list Z) : Z :=
  match l with
  | [] => 0
  | b :: l => b + 256 * le_val l
  end.

Definition is_byte (b : Z) : Prop := 0 <= b < 256.

Lemma length_le_bytes n z : length (le_bytes n z) = n.
Proof. revert z. induction n as [|n IH]; intros z; simpl; [done|by rewrite IH]. Qed.

Lemma le_bytes_is_byte n z : Forall is_byte (le_bytes n z).
Proof.
  revert z. induction n as [|n IH]; intros z; simpl; constructor; [|apply IH].
  apply Z.mod_pos_bound. lia.
Qed.

Lemma le_val_bytes n z : le_val (le_bytes n z) = z mod 2 ^ (8 * Z.of_nat n).
Proof.
  revert z. induction n as [|n IH]; intros z; simpl.
  - by rewrite Z.mod_1_r.
  - rewrite IH. replace (8 * Z.of_nat (S n)) with (8 + 8 * Z.of_nat n) by lia.
    rewrite Z.pow_add_r by lia. change (2 ^ 8) with 256.
    rewrite Z.rem_mul_r by (try apply Z.pow_nonzero; lia). done.
Qed.

Lemma le_val_bounds l : Forall is_byte l -> 0 <= le_val l < 2 ^ (8 * Z.of_nat (length l)).
Proof.
  induction 1 as [|b l Hb Hl IH]; simpl; [lia|].
  replace (8 * Z.of_nat (S (length l))) with (8 + 8 * Z.of_nat (length l)) by lia.
  rewrite Z.pow_add_r by lia. unfold is_byte in Hb. change (2 ^ 8) with 256. lia.
Qed.

Lemma le_bytes_val l : Forall is_byte l -> le_bytes (length l) (le_val l) = l.
Proof.
  induction 1 as [|b l Hb Hl IH]; simpl; [done|].
  unfold is_byte in Hb. f_equal.
  - rewrite Z.mul_comm, Z.mod_add, Z.mod_small; lia.
  - rewrite Z.mul_comm, Z.div_add, Z.div_small by lia. by rewrite Z.add_0_l.
Qed.

(** ** Tables updated in place *)

Lemma alter_self {A} (f : A -> A) (l : list A) i x :
  l !! i = Some x -> f x = x -> alter f i l = l.
Proof.
  intros H1 H2. apply list_eq. intros j. rewrite list_lookup_alter.
  case_decide; [|done]. subst. rewrite H1. simpl. by rewrite H2.
Qed.

Lemma alter_alter {A} (f g : A -> A) (l : list A) i :
  alter f i (alter g i l) = alter (fun x => f (g x)) i l.
Proof.
  apply list_eq. intros j. rewrite !list_lookup_alter.
  repeat case_decide; [|done..]. by destruct (l !! i).
Qed.

(** The index of the first element that satisfies [f]. *)
Fixpoint first_index {A} (f : A -> bool) (l : list A) : option nat :=
  match l with
  | [] => None
  | x :: l => if f x then Some O else S <$> first_index f l
  end.

Lemma first_index_Some {A} (f : A -> bool) (l : list A) i :
  first_index f l = Some i ->
  exists x, l !! i = Some x /\ f x = true
    /\ forall j y, (j < i)%nat -> l !! j = Some y -> f y = false.
Proof.
  revert i. induction l as [|x l IH]; intros i; simpl; [done|].
  destruct (f x) eqn:E; [intros [= <-]; exists x; repeat split; [done..|lia]|].
  destruct (first_index f l) as [j|]; [|done]. intros [= <-].
  destruct (IH j eq_refl) as (y & H1 & H2 & H3). exists y. repeat split; [done..|].
  intros [|j'] z Hj; simpl; [congruence|]. apply H3. lia.
Qed.

Lemma first_index_None {A} (f : A -> bool) (l : list A) :
  first_index f l = None <-> Forall (fun x => f x = false) l.
Proof.
  induction l as [|x l IH]; simpl; [done|]. rewrite Forall_cons.
  destruct (f x); [naive_solver|]. rewrite <- IH. destruct (first_index f l); naive_solver.
Qed.

(** ** The kernel monad

    A routine of the kernel runs on a state [S].  It can finish ([Done]), call
    [panic] ([Panic]), or wait for another CPU or process that never acts
    ([Stuck]).  What the others do while the routine waits (spinning on a lock,
    sleeping on a channel) is the list [e]: each wait consumes one element, a
    state transformer applied before the routine goes on.  A routine that waits
    with no element left is [Stuck]. *)

Section Monad.
Context {S : Type}.

Definition environment : Type := list (S -> S).

Inductive outcome (A : Type) : Type :=
| Done (a : A) (s : S) (e : environment)
| Panic (msg : string) (s : S)
| Stuck (s : S).

Definition M (A : Type) : Type := S -> environment -> outcome A.

End Monad.

Arguments environment : clear implicits.
Arguments outcome : clear implicits.
Arguments M : clear implicits.
Arguments Done {S A} a s e.
Arguments Panic {S A} msg s.
Arguments Stuck {S A} s.

Definition ret {S A} (a : A) : M S A := fun s e => Done a s e.

Definition bind {S A B} (m : M S A) (f : A -> M S B) : M S B := fun s e =>
  match m s e with
  | Done a s' e' => f a s' e'
  | Panic msg s' => Panic msg s'
  | Stuck s' => Stuck s'
  end.

Declare Scope c_scope.
Delimit Scope c_scope with c.
Notation "x <- m ;; f" := (bind m (fun x => f))
  (at level 100, m at next level, f at level 200, right associativity) : c_scope.
Notation "m ;; f" := (bind m (fun _ => f))
  (at level 100, f at level 200, right associativity) : c_scope.
Open Scope c_scope.

Definition panic {S A} (msg : string) : M S A := fun s _ => Panic msg s.
Definition get {S} : M S S := fun s e => Done s s e.
Definition gets {S A} (f : S -> A) : M S A := fun s e => Done (f s) s e.
Definition modify {S} (f : S -> S) : M S unit := fun s e => Done tt (f s) e.

(** One step of the other CPUs and processes. *)
Definition others {S} : M S unit := fun s e =>
  match e with
  | [] => Stuck s
  | f :: e' => Done tt (f s) e'
  end.

(** C control flow: [when c m] is [if(c) m;], [for_each f l] runs [f] over the
    values of a loop counter, and [iter n body a] is a loop of at most [n]
    rounds whose body either goes on ([inl]) or leaves ([inr]). *)
Definition when {S} (c : bool) (m : M S unit) : M S unit := if c then m else ret tt.

Fixpoint for_each {S A} (f : A -> M S unit) (l : list A) : M S unit :=
  match l with
  | [] => ret tt
  | a :: l => f a ;; for_each f l
  end.

Fixpoint iter {S A B} (n : nat) (body : A -> M S (A + B)) (a : A) : M S B :=
  match n with
  | O => fun s _ => Stuck s
  | S n => r <- body a;; match r with inl a' => iter n body a' | inr b => ret b end
  end.

(** A loop each round of which waits for the others at least once runs at most
    once more than there are elements in the environment. *)
Definition waiting {S A B} (body : A -> M S (A + B)) (a : A) : M S B := fun s e =>
  iter (1 + length e)%nat body a s e.

(** ** Total correctness

    [wp m s e Q]: started in [s], [m] finishes, without a panic and without
    waiting forever, in a state that satisfies [Q]. *)
Definition wp {S A} (m : M S A) (s : S) (e : environment S)
    (Q : A -> S -> environment S -> Prop) : Prop :=
  match m s e with
  | Done a s' e' => Q a s' e'
  | _ => False
  end.

Lemma wp_ret {S A} (a : A) (s : S) e Q : Q a s e -> wp (ret a) s e Q.
Proof. done. Qed.

Lemma wp_bind {S A B} (m : M S A) (f : A -> M S B) s e Q :
  wp m s e (fun a s' e' => wp (f a) s' e' Q) -> wp (bind m f) s e Q.
Proof. unfold wp, bind. by destruct (m s e). Qed.

Lemma wp_mono {S A} (m : M S A) s e (Q Q' : A -> S -> environment S -> Prop) :
  wp m s e Q -> (forall a s' e', Q a s' e' -> Q' a s' e') -> wp m s e Q'.
Proof. unfold wp. destruct (m s e); eauto. Qed.

Lemma wp_done {S A} (m : M S A) s e Q a s' e' :
  m s e = Done a s' e' -> Q a s' e' -> wp m s e Q.
Proof. unfold wp. by intros ->. Qed.

Lemma wp_elim {S A} (m : M S A) s e Q :
  wp m s e Q -> exists a s' e', m s e = Done a s' e' /\ Q a s' e'.
Proof. unfold wp. destruct (m s e); [eauto 10|done..]. Qed.

Lemma bind_done {S A B} (m : M S A) (f : A -> M S B) s e a s' e' :
  m s e = Done a s' e' -> bind m f s e = f a s' e'.
Proof. unfold bind. by intros ->. Qed.

Lemma bind_done_inv {S A B} (m : M S A) (f : A -> M S B) s e b s'' e'' :
  bind m f s e = Done b s'' e'' ->
  exists a s' e', m s e = Done a s' e' /\ f a s' e' = Done b s'' e''.
Proof. unfold bind. destruct (m s e); [eauto 10|done..]. Qed.

Lemma bind_assoc {S A B C} (m : M S A) (f : A -> M S B) (g : B -> M S C) s e :
  bind (bind m f) g s e = bind m (fun a => bind (f a) g) s e.
Proof. unfold bind. by destruct (m s e). Qed.

Lemma bind_gets {S A B} (f : S -> A) (g : A -> M S B) s e : bind (gets f) g s e = g (f s) s e.
Proof. done. Qed.

Lemma bind_modify {S B} (f : S -> S) (g : unit -> M S B) s e :
  bind (modify f) g s e = g tt (f s) e.
Proof. done. Qed.

Lemma bind_ret {S A B} (a : A) (g : A -> M S B) s e : bind (ret a) g s e = g a s e.
Proof. done. Qed.

(** [keeps f m]: when [m] finishes, the component [f] of the state is as before. *)
Definition keeps {S A B} (f : S -> B) (m : M S A) : Prop :=
  forall s e a s' e', m s e = Done a s' e' -> f s' = f s.

Lemma keeps_bind {S A A' B} (f : S -> B) (m : M S A) (g : A -> M S A') :
  keeps f m -> (forall a, keeps f (g a)) -> keeps f (bind m g).
Proof.
  intros Hm Hg s e b s' e' (a & s1 & e1 & H1 & H2)%bind_done_inv.
  by rewrite (Hg _ _ _ _ _ _ H2), (Hm _ _ _ _ _ H1).
Qed.

Lemma keeps_ret {S A B} (f : S -> B) (a : A) : keeps f (ret a).
Proof. intros s e b s' e' [= <- <- <-]. done. Qed.

Lemma keeps_gets {S A B} (f : S -> B) (g : S -> A) : keeps f (gets g).
Proof. intros s e b s' e' [= <- <- <-]. done. Qed.

Lemma keeps_panic {S A B} (f : S -> B) msg : keeps f (panic (A := A) msg).
Proof. by intros s e b s' e'. Qed.

Lemma keeps_modify {S B} (f : S -> B) (g : S -> S) : (forall s, f (g s) = f s) -> keeps f (modify g).
Proof. intros H s e b s' e' [= <- <- <-]. apply H. Qed.

(** ** Automation

    [div_lia] is [lia] on goals with divisions by constants; [run H] executes the
    first statement of a sequence with the equation [H] of that statement; [c_simpl] runs the statements that only read or write the
    state.  The hint database [kernel] holds the side conditions that are solved
    by search, and the lemmas on fields the updates leave alone. *)
Ltac div_lia := Z.div_mod_to_equations; lia.

Ltac run H :=
  first [rewrite (bind_done _ _ _ _ _ _ _ H) | erewrite (bind_done _ _ _ _ _ _ _) by (apply H)];
  cbv beta.

Ltac c_simpl := repeat (first [rewrite bind_gets | rewrite bind_modify | rewrite bind_ret]; cbv beta).

(** Solves [keeps f m] by following the structure of [m]. *)
Ltac keeps :=
  repeat first
    [ assumption
    | apply keeps_ret | apply keeps_gets | apply keeps_panic
    | apply keeps_modify; intros; reflexivity
    | apply keeps_bind; [|intros]
    | match goal with |- keeps _ (if ?c then _ else _) => destruct c end
    | match goal with |- keeps _ (match ?c with _ => _ end) => destruct c end
    | match goal with |- keeps _ (when ?c _) => destruct c; unfold when end ].

Create HintDb kernel.
