(* ===== verification/State.v ===== *)
(** * Data types and the kernel state

    The structures of the kernel's header files as records, the constants of
    [param.h], [mmu.h], [memlayout.h], [fs.h], [buf.h], [stat.h] and [fcntl.h],
    and the record [kstate] of every global variable of the kernel.

    Pointers into the static tables ([ptable.proc], [ftable.file],
    [icache.inode], [bcache.buf]) are indices, [None] being the null pointer;
    pointers into memory handed out by [kalloc] are addresses, 0 being null. *)

From stdpp Require Import base gmap list strings.
From Stdlib Require Import ZArith Lia.
From S2P Require Import Prelude.

(** ** Constants *)

Definition NPROC : nat := 64.
Definition KSTACKSIZE : Z := 4096.
Definition NOFILE : nat := 16.
Definition NFILE : nat := 100.
Definition NINODE : nat := 50.
Definition NDEV : Z := 10.
Definition ROOTDEV : Z := 1.
Definition MAXARG : nat := 32.
Definition MAXOPBLOCKS : Z := 10.
Definition LOGSIZE : nat := 30.
Definition NBUF : nat := 30.
Definition FSSIZE : Z := 1000.

Definition FL_IF : Z := 0x200.
Definition PGSIZE : Z := 4096.
Definition NPDENTRIES : Z := 1024.
Definition PTXSHIFT : Z := 12.
Definition PDXSHIFT : Z := 22.
Definition PTE_P : Z := 0x001.
Definition PTE_W : Z := 0x002.
Definition PTE_U : Z := 0x004.
Definition PDX (va : Z) : Z := Z.land (Z.shiftr (u32 va) PDXSHIFT) 0x3FF.
Definition PTX (va : Z) : Z := Z.land (Z.shiftr (u32 va) PTXSHIFT) 0x3FF.
Definition PGADDR (d t o : Z) : Z :=
  u32 (Z.lor (Z.lor (Z.shiftl d PDXSHIFT) (Z.shiftl t PTXSHIFT)) o).
Definition PGROUNDUP (sz : Z) : Z := Z.land (u32 (sz + PGSIZE - 1)) (u32 (Z.lnot (PGSIZE - 1))).
Definition PGROUNDDOWN (a : Z) : Z := Z.land (u32 a) (u32 (Z.lnot (PGSIZE - 1))).
Definition PTE_ADDR (pte : Z) : Z := Z.land (u32 pte) (u32 (Z.lnot 0xFFF)).
Definition PTE_FLAGS (pte : Z) : Z := Z.land (u32 pte) 0xFFF.

Definition EXTMEM : Z := 0x100000.
Definition PHYSTOP : Z := 0xE000000.
Definition DEVSPACE : Z := 0xFE000000.
Definition KERNBASE : Z := 0x80000000.
Definition KERNLINK : Z := KERNBASE + EXTMEM.
Definition V2P (a : Z) : Z := u32 (a - KERNBASE).
Definition P2V (a : Z) : Z := u32 (a + KERNBASE).

Definition BSIZE : nat := 512.
Definition ROOTINO : Z := 1.
Definition NDIRECT : nat := 12.
Definition NINDIRECT : nat := 128.
Definition MAXFILE : Z := 140.
Definition IPB : Z := 8.
Definition BPB : Z := 4096.
Definition DIRSIZ : nat := 14.
Definition B_VALID : Z := 0x2.
Definition B_DIRTY : Z := 0x4.
Definition T_DIR : Z := 1.
Definition T_FILE : Z := 2.
Definition T_DEV : Z := 3.
Definition PIPESIZE : nat := 512.
Definition INPUT_BUF : nat := 128.

(** ** Enumerations, locks and sleep channels *)

(** States of a process (proc.h). *)
Inductive procstate : Type :=
| UNUSED | EMBRYO | SLEEPING | RUNNABLE | RUNNING | ZOMBIE.

(** Kinds of open file (file.h). *)
Inductive fdtype : Type := FD_NONE | FD_PIPE | FD_INODE.

(** The sleep-locks: one in each buffer and in each in-memory inode. *)
Inductive sleeplockid : Type := SL_buf (i : nat) | SL_inode (i : nat).

(** The spin-locks. *)
Inductive lockid : Type :=
| L_kmem | L_ptable | L_tickslock | L_ftable | L_icache | L_bcache | L_log | L_idelock
| L_cons | L_pipe (p : Z) | L_sleep (l : sleeplockid).

(** The addresses the kernel sleeps on: a process (in [wait]), [&ticks], a
    sleep-lock, [&log], the [nread] and [nwrite] fields of a pipe, a buffer (in
    [iderw]) and [&input.r]. *)
Inductive channel : Type :=
| Ch_proc (i : nat) | Ch_ticks | Ch_sleeplock (l : sleeplockid) | Ch_log
| Ch_nread (p : Z) | Ch_nwrite (p : Z) | Ch_buf (i : nat) | Ch_input.

#[export] Instance procstate_eq_dec : EqDecision procstate.
Proof. solve_decision. Defined.
#[export] Instance fdtype_eq_dec : EqDecision fdtype.
Proof. solve_decision. Defined.
#[export] Instance sleeplockid_eq_dec : EqDecision sleeplockid.
Proof. solve_decision. Defined.
#[export] Instance lockid_eq_dec : EqDecision lockid.
Proof. solve_decision. Defined.
#[export] Instance channel_eq_dec : EqDecision channel.
Proof. solve_decision. Defined.

Definition lockid_code (l : lockid) : Z * Z :=
  match l with
  | L_kmem => (0, 0) | L_ptable => (1, 0) | L_tickslock => (2, 0) | L_ftable => (3, 0)
  | L_icache => (4, 0) | L_bcache => (5, 0) | L_log => (6, 0) | L_idelock => (7, 0)
  | L_cons => (8, 0) | L_pipe p => (9, p)
  | L_sleep (SL_buf i) => (10, Z.of_nat i) | L_sleep (SL_inode i) => (11, Z.of_nat i)
  end.

Definition lockid_decode (c : Z * Z) : option lockid :=
  let '(t, x) := c in
  match t with
  | 0 => Some L_kmem | 1 => Some L_ptable | 2 => Some L_tickslock | 3 => Some L_ftable
  | 4 => Some L_icache | 5 => Some L_bcache | 6 => Some L_log | 7 => Some L_idelock
  | 8 => Some L_cons | 9 => Some (L_pipe x)
  | 10 => Some (L_sleep (SL_buf (Z.to_nat x))) | 11 => Some (L_sleep (SL_inode (Z.to_nat x)))
  | _ => None
  end.

Lemma lockid_decode_code l : lockid_decode (lockid_code l) = Some l.
Proof. destruct l as [| | | | | | | | | |[]]; simpl; by rewrite ?Nat2Z.id. Qed.

#[export] Instance lockid_countable : Countable lockid :=
  inj_countable lockid_code lockid_decode lockid_decode_code.

(** ** Structures *)

(** Mutual exclusion lock (spinlock.h). The recorded call stack [pcs] is debugging
    output about the C stack, which the model does not have. *)
Record spinlock : Type := mk_spinlock {
  lk_locked : Z;
  lk_name : string;
  lk_cpu : option nat
}.

(** Long-term lock (sleeplock.h). Its inner spin-lock is the entry [L_sleep] of the
    lock table below. *)
Record sleeplock : Type := mk_sleeplock {
  sl_locked : Z;
  sl_name : string;
  sl_pid : Z
}.

(** Per-CPU state (proc.h), without the segment tables. *)
Record cpu : Type := mk_cpu {
  c_apicid : Z;
  c_started : Z;
  c_ncli : Z;
  c_intena : Z;
  c_proc : option nat
}.

(** Saved kernel registers (proc.h). *)
Record context : Type := mk_context {
  ctx_edi : Z;
  ctx_esi : Z;
  ctx_ebx : Z;
  ctx_ebp : Z;
  ctx_eip : Z
}.

(** The trap frame built by the hardware and trapasm.S (x86.h). *)
Record trapframe : Type := mk_trapframe {
  tf_edi : Z;
  tf_esi : Z;
  tf_ebp : Z;
  tf_oesp : Z;
  tf_ebx : Z;
  tf_edx : Z;
  tf_ecx : Z;
  tf_eax : Z;
  tf_gs : Z;
  tf_fs : Z;
  tf_es : Z;
  tf_ds : Z;
  tf_trapno : Z;
  tf_err : Z;
  tf_eip : Z;
  tf_cs : Z;
  tf_eflags : Z;
  tf_esp : Z;
  tf_ss : Z
}.

(** Per-process state (proc.h). [p_tf] and [p_context] are addresses in the kernel
    stack; what they point to is in [k_tf] and [k_ctx]. *)
Record proc : Type := mk_proc {
  p_sz : Z;
  p_pgdir : Z;
  p_kstack : Z;
  p_state : procstate;
  p_pid : Z;
  p_parent : option nat;
  p_tf : Z;
  p_context : Z;
  p_chan : option channel;
  p_killed : Z;
  p_ofile : list (option nat);
  p_cwd : option nat;
  p_name : list Z
}.

(** An open file (file.h). *)
Record file : Type := mk_file {
  f_type : fdtype;
  f_ref : Z;
  f_readable : Z;
  f_writable : Z;
  f_pipe : Z;
  f_ip : option nat;
  f_off : Z
}.

(** In-memory copy of an inode (file.h). *)
Record inode : Type := mk_inode {
  i_dev : Z;
  i_inum : Z;
  i_ref : Z;
  i_lock : sleeplock;
  i_valid : Z;
  i_type : Z;
  i_major : Z;
  i_minor : Z;
  i_nlink : Z;
  i_size : Z;
  i_addrs : list Z
}.

(** A cached disk block (buf.h). *)
Record buf : Type := mk_buf {
  b_flags : Z;
  b_dev : Z;
  b_blockno : Z;
  b_lock : sleeplock;
  b_refcnt : Z;
  b_prev : nat;
  b_next : nat;
  b_qnext : option nat;
  b_data : list Z
}.

(** The super block (fs.h). *)
Record superblock : Type := mk_superblock {
  sb_size : Z;
  sb_nblocks : Z;
  sb_ninodes : Z;
  sb_nlog : Z;
  sb_logstart : Z;
  sb_inodestart : Z;
  sb_bmapstart : Z
}.

(** The log (log.c): [struct log] with its [struct logheader] inlined as [lh_n] and
    [lh_block]. *)
Record log_t : Type := mk_log_t {
  log_start : Z;
  log_size : Z;
  log_outstanding : Z;
  log_committing : Z;
  log_dev : Z;
  lh_n : Z;
  lh_block : list Z
}.

(** A pipe (pipe.c). Its spin-lock is the entry [L_pipe] of the lock table. *)
Record pipe : Type := mk_pipe {
  pi_data : list Z;
  pi_nread : Z;
  pi_nwrite : Z;
  pi_readopen : Z;
  pi_writeopen : Z
}.

(** The console's input buffer (console.c). *)
Record input_t : Type := mk_input_t {
  in_buf : list Z;
  in_r : Z;
  in_w : Z;
  in_e : Z
}.

(** ** Devices

    An access to a port or to a register in memory: what was read or written, the
    bytes for the repeated instructions. *)
Inductive io_event : Type :=
| Port_in (port v : Z)
| Port_out (port v : Z)
| Port_ins (port : Z) (data : list Z)
| Port_outs (port : Z) (data : list Z)
| Mem_read (a v : Z)
| Mem_write (a v : Z).

(** A segment descriptor, a gate descriptor and what the kernel stores in a task state segment
    (mmu.h). *)
Record segdesc : Type := mk_segdesc {
  sd_lim_15_0 : Z;
  sd_base_15_0 : Z;
  sd_base_23_16 : Z;
  sd_type : Z;
  sd_s : Z;
  sd_dpl : Z;
  sd_p : Z;
  sd_lim_19_16 : Z;
  sd_avl : Z;
  sd_rsv1 : Z;
  sd_db : Z;
  sd_g : Z;
  sd_base_31_24 : Z
}.

Record gatedesc : Type := mk_gatedesc {
  gd_off_15_0 : Z;
  gd_cs : Z;
  gd_args : Z;
  gd_rsv1 : Z;
  gd_type : Z;
  gd_s : Z;
  gd_dpl : Z;
  gd_p : Z;
  gd_off_31_16 : Z
}.

Record taskstate : Type := mk_taskstate {
  ts_esp0 : Z;
  ts_ss0 : Z;
  ts_iomb : Z
}.

(** The accesses, the last one first; the variables of ide.c, uart.c, lapic.c, ioapic.c, mp.c and
    kbd.c; the descriptor table and the task state of each CPU and the interrupt descriptor
    table, with the registers that refer to them: the CPU whose descriptor table is loaded, the
    task register, and whether the interrupt descriptor table is loaded. *)
Record hw : Type := mk_hw {
  h_io : list io_event;
  idequeue : option nat;
  havedisk1 : Z;
  uart : Z;
  lapic : Z;
  ioapic : Z;
  ioapicid : Z;
  kbd_shift : Z;
  gdt : gmap nat (gmap Z segdesc);
  gdtr : option nat;
  ts : gmap nat taskstate;
  tr : Z;
  idt : gmap Z gatedesc;
  idtr : bool
}.

Definition zero_hw : hw := mk_hw [] None 0 0 0 0 0 0 ∅ None ∅ 0 ∅ false.

Definition set_h_io (v : list io_event) (h : hw) : hw :=
  mk_hw v (idequeue h) (havedisk1 h) (uart h) (lapic h) (ioapic h) (ioapicid h) (kbd_shift h) (gdt h) (gdtr h) (ts h) (tr h) (idt h) (idtr h).
Definition set_idequeue (v : option nat) (h : hw) : hw :=
  mk_hw (h_io h) v (havedisk1 h) (uart h) (lapic h) (ioapic h) (ioapicid h) (kbd_shift h) (gdt h) (gdtr h) (ts h) (tr h) (idt h) (idtr h).
Definition set_havedisk1 (v : Z) (h : hw) : hw :=
  mk_hw (h_io h) (idequeue h) v (uart h) (lapic h) (ioapic h) (ioapicid h) (kbd_shift h) (gdt h) (gdtr h) (ts h) (tr h) (idt h) (idtr h).
Definition set_uart (v : Z) (h : hw) : hw :=
  mk_hw (h_io h) (idequeue h) (havedisk1 h) v (lapic h) (ioapic h) (ioapicid h) (kbd_shift h) (gdt h) (gdtr h) (ts h) (tr h) (idt h) (idtr h).
Definition set_lapic (v : Z) (h : hw) : hw :=
  mk_hw (h_io h) (idequeue h) (havedisk1 h) (uart h) v (ioapic h) (ioapicid h) (kbd_shift h) (gdt h) (gdtr h) (ts h) (tr h) (idt h) (idtr h).
Definition set_ioapic (v : Z) (h : hw) : hw :=
  mk_hw (h_io h) (idequeue h) (havedisk1 h) (uart h) (lapic h) v (ioapicid h) (kbd_shift h) (gdt h) (gdtr h) (ts h) (tr h) (idt h) (idtr h).
Definition set_ioapicid (v : Z) (h : hw) : hw :=
  mk_hw (h_io h) (idequeue h) (havedisk1 h) (uart h) (lapic h) (ioapic h) v (kbd_shift h) (gdt h) (gdtr h) (ts h) (tr h) (idt h) (idtr h).
Definition set_kbd_shift (v : Z) (h : hw) : hw :=
  mk_hw (h_io h) (idequeue h) (havedisk1 h) (uart h) (lapic h) (ioapic h) (ioapicid h) v (gdt h) (gdtr h) (ts h) (tr h) (idt h) (idtr h).
Definition set_gdt (v : gmap nat (gmap Z segdesc)) (h : hw) : hw :=
  mk_hw (h_io h) (idequeue h) (havedisk1 h) (uart h) (lapic h) (ioapic h) (ioapicid h) (kbd_shift h) v (gdtr h) (ts h) (tr h) (idt h) (idtr h).
Definition set_gdtr (v : option nat) (h : hw) : hw :=
  mk_hw (h_io h) (idequeue h) (havedisk1 h) (uart h) (lapic h) (ioapic h) (ioapicid h) (kbd_shift h) (gdt h) v (ts h) (tr h) (idt h) (idtr h).
Definition set_ts (v : gmap nat taskstate) (h : hw) : hw :=
  mk_hw (h_io h) (idequeue h) (havedisk1 h) (uart h) (lapic h) (ioapic h) (ioapicid h) (kbd_shift h) (gdt h) (gdtr h) v (tr h) (idt h) (idtr h).
Definition set_tr (v : Z) (h : hw) : hw :=
  mk_hw (h_io h) (idequeue h) (havedisk1 h) (uart h) (lapic h) (ioapic h) (ioapicid h) (kbd_shift h) (gdt h) (gdtr h) (ts h) v (idt h) (idtr h).
Definition set_idt (v : gmap Z gatedesc) (h : hw) : hw :=
  mk_hw (h_io h) (idequeue h) (havedisk1 h) (uart h) (lapic h) (ioapic h) (ioapicid h) (kbd_shift h) (gdt h) (gdtr h) (ts h) (tr h) v (idtr h).
Definition set_idtr (v : bool) (h : hw) : hw :=
  mk_hw (h_io h) (idequeue h) (havedisk1 h) (uart h) (lapic h) (ioapic h) (ioapicid h) (kbd_shift h) (gdt h) (gdtr h) (ts h) (tr h) (idt h) v.

(** ** The kernel state

    The processor running the modelled code is described by [k_apicid] (what
    [lapicid()] reads), [k_if] (the interrupt flag of its [eflags]) and [k_cr3].
    [k_mem] is RAM, one byte per kernel virtual address, as [kalloc] hands it
    out; [k_tf], [k_ctx] and [k_pipes] are the trap frames, contexts and pipes
    that the kernel keeps in such pages, by address.  [k_buf] has [NBUF + 1]
    elements, the last one being [bcache.head].  [k_disk] holds the blocks of the
    disk and [k_writes] the history of the writes it received, which only the
    crash model reads.  [k_out] is everything passed to [consputc].  [k_hw] has the
    accesses to device registers so far and the variables of the drivers. *)

Record kstate : Type := mk_kstate {
  k_cpus : list cpu;
  k_apicid : Z;
  k_if : bool;
  k_cr3 : Z;
  k_locks : gmap lockid spinlock;
  k_mem : gmap Z Z;
  k_use_lock : Z;
  k_freelist : Z;
  k_kpgdir : Z;
  k_proc : list proc;
  k_initproc : option nat;
  k_nextpid : Z;
  k_first : Z;
  k_tf : gmap Z trapframe;
  k_ctx : gmap Z context;
  k_ticks : Z;
  k_file : list file;
  k_pipes : gmap Z pipe;
  k_inode : list inode;
  k_sb : superblock;
  k_buf : list buf;
  k_log : log_t;
  k_disk : gmap Z (list Z);
  k_disksize : Z;
  k_writes : list (Z * list Z);
  k_locking : Z;
  k_input : input_t;
  k_out : list Z;
  k_hw : hw
}.

(** ** Field updates *)

Definition set_lk_locked (v : Z) (r : spinlock) : spinlock :=
  {| lk_locked := v; lk_name := lk_name r; lk_cpu := lk_cpu r |}.
Definition set_lk_name (v : string) (r : spinlock) : spinlock :=
  {| lk_locked := lk_locked r; lk_name := v; lk_cpu := lk_cpu r |}.
Definition set_lk_cpu (v : option nat) (r : spinlock) : spinlock :=
  {| lk_locked := lk_locked r; lk_name := lk_name r; lk_cpu := v |}.

Definition set_sl_locked (v : Z) (r : sleeplock) : sleeplock :=
  {| sl_locked := v; sl_name := sl_name r; sl_pid := sl_pid r |}.
Definition set_sl_name (v : string) (r : sleeplock) : sleeplock :=
  {| sl_locked := sl_locked r; sl_name := v; sl_pid := sl_pid r |}.
Definition set_sl_pid (v : Z) (r : sleeplock) : sleeplock :=
  {| sl_locked := sl_locked r; sl_name := sl_name r; sl_pid := v |}.

Definition set_c_apicid (v : Z) (r : cpu) : cpu :=
  {| c_apicid := v; c_started := c_started r; c_ncli := c_ncli r; c_intena := c_intena r; c_proc := c_proc r |}.
Definition set_c_started (v : Z) (r : cpu) : cpu :=
  {| c_apicid := c_apicid r; c_started := v; c_ncli := c_ncli r; c_intena := c_intena r; c_proc := c_proc r |}.
Definition set_c_ncli (v : Z) (r : cpu) : cpu :=
  {| c_apicid := c_apicid r; c_started := c_started r; c_ncli := v; c_intena := c_intena r; c_proc := c_proc r |}.
Definition set_c_intena (v : Z) (r : cpu) : cpu :=
  {| c_apicid := c_apicid r; c_started := c_started r; c_ncli := c_ncli r; c_intena := v; c_proc := c_proc r |}.
Definition set_c_proc (v : option nat) (r : cpu) : cpu :=
  {| c_apicid := c_apicid r; c_started := c_started r; c_ncli := c_ncli r; c_intena := c_intena r; c_proc := v |}.

Definition set_ctx_edi (v : Z) (r : context) : context :=
  {| ctx_edi := v; ctx_esi := ctx_esi r; ctx_ebx := ctx_ebx r; ctx_ebp := ctx_ebp r; ctx_eip := ctx_eip r |}.
Definition set_ctx_esi (v : Z) (r : context) : context :=
  {| ctx_edi := ctx_edi r; ctx_esi := v; ctx_ebx := ctx_ebx r; ctx_ebp := ctx_ebp r; ctx_eip := ctx_eip r |}.
Definition set_ctx_ebx (v : Z) (r : context) : context :=
  {| ctx_edi := ctx_edi r; ctx_esi := ctx_esi r; ctx_ebx := v; ctx_ebp := ctx_ebp r; ctx_eip := ctx_eip r |}.
Definition set_ctx_ebp (v : Z) (r : context) : context :=
  {| ctx_edi := ctx_edi r; ctx_esi := ctx_esi r; ctx_ebx := ctx_ebx r; ctx_ebp := v; ctx_eip := ctx_eip r |}.
Definition set_ctx_eip (v : Z) (r : context) : context :=
  {| ctx_edi := ctx_edi r; ctx_esi := ctx_esi r; ctx_ebx := ctx_ebx r; ctx_ebp := ctx_ebp r; ctx_eip := v |}.

Definition set_tf_edi (v : Z) (r : trapframe) : trapframe :=
  {| tf_edi := v; tf_esi := tf_esi r; tf_ebp := tf_ebp r; tf_oesp := tf_oesp r; tf_ebx := tf_ebx r; tf_edx := tf_edx r; tf_ecx := tf_ecx r; tf_eax := tf_eax r; tf_gs := tf_gs r; tf_fs := tf_fs r; tf_es := tf_es r; tf_ds := tf_ds r; tf_trapno := tf_trapno r; tf_err := tf_err r; tf_eip := tf_eip r; tf_cs := tf_cs r; tf_eflags := tf_eflags r; tf_esp := tf_esp r; tf_ss := tf_ss r |}.
Definition set_tf_esi (v : Z) (r : trapframe) : trapframe :=
  {| tf_edi := tf_edi r; tf_esi := v; tf_ebp := tf_ebp r; tf_oesp := tf_oesp r; tf_ebx := tf_ebx r; tf_edx := tf_edx r; tf_ecx := tf_ecx r; tf_eax := tf_eax r; tf_gs := tf_gs r; tf_fs := tf_fs r; tf_es := tf_es r; tf_ds := tf_ds r; tf_trapno := tf_trapno r; tf_err := tf_err r; tf_eip := tf_eip r; tf_cs := tf_cs r; tf_eflags := tf_eflags r; tf_esp := tf_esp r; tf_ss := tf_ss r |}.
Definition set_tf_ebp (v : Z) (r : trapframe) : trapframe :=
  {| tf_edi := tf_edi r; tf_esi := tf_esi r; tf_ebp := v; tf_oesp := tf_oesp r; tf_ebx := tf_ebx r; tf_edx := tf_edx r; tf_ecx := tf_ecx r; tf_eax := tf_eax r; tf_gs := tf_gs r; tf_fs := tf_fs r; tf_es := tf_es r; tf_ds := tf_ds r; tf_trapno := tf_trapno r; tf_err := tf_err r; tf_eip := tf_eip r; tf_cs := tf_cs r; tf_eflags := tf_eflags r; tf_esp := tf_esp r; tf_ss := tf_ss r |}.
Definition set_tf_oesp (v : Z) (r : trapframe) : trapframe :=
  {| tf_edi := tf_edi r; tf_esi := tf_esi r; tf_ebp := tf_ebp r; tf_oesp := v; tf_ebx := tf_ebx r; tf_edx := tf_edx r; tf_ecx := tf_ecx r; tf_eax := tf_eax r; tf_gs := tf_gs r; tf_fs := tf_fs r; tf_es := tf_es r; tf_ds := tf_ds r; tf_trapno := tf_trapno r; tf_err := tf_err r; tf_eip := tf_eip r; tf_cs := tf_cs r; tf_eflags := tf_eflags r; tf_esp := tf_esp r; tf_ss := tf_ss r |}.
Definition set_tf_ebx (v : Z) (r : trapframe) : trapframe :=
  {| tf_edi := tf_edi r; tf_esi := tf_esi r; tf_ebp := tf_ebp r; tf_oesp := tf_oesp r; tf_ebx := v; tf_edx := tf_edx r; tf_ecx := tf_ecx r; tf_eax := tf_eax r; tf_gs := tf_gs r; tf_fs := tf_fs r; tf_es := tf_es r; tf_ds := tf_ds r; tf_trapno := tf_trapno r; tf_err := tf_err r; tf_eip := tf_eip r; tf_cs := tf_cs r; tf_eflags := tf_eflags r; tf_esp := tf_esp r; tf_ss := tf_ss r |}.
Definition set_tf_edx (v : Z) (r : trapframe) : trapframe :=
  {| tf_edi := tf_edi r; tf_esi := tf_esi r; tf_ebp := tf_ebp r; tf_oesp := tf_oesp r; tf_ebx := tf_ebx r; tf_edx := v; tf_ecx := tf_ecx r; tf_eax := tf_eax r; tf_gs := tf_gs r; tf_fs := tf_fs r; tf_es := tf_es r; tf_ds := tf_ds r; tf_trapno := tf_trapno r; tf_err := tf_err r; tf_eip := tf_eip r; tf_cs := tf_cs r; tf_eflags := tf_eflags r; tf_esp := tf_esp r; tf_ss := tf_ss r |}.
Definition set_tf_ecx (v : Z) (r : trapframe) : trapframe :=
  {| tf_edi := tf_edi r; tf_esi := tf_esi r; tf_ebp := tf_ebp r; tf_oesp := tf_oesp r; tf_ebx := tf_ebx r; tf_edx := tf_edx r; tf_ecx := v; tf_eax := tf_eax r; tf_gs := tf_gs r; tf_fs := tf_fs r; tf_es := tf_es r; tf_ds := tf_ds r; tf_trapno := tf_trapno r; tf_err := tf_err r; tf_eip := tf_eip r; tf_cs := tf_cs r; tf_eflags := tf_eflags r; tf_esp := tf_esp r; tf_ss := tf_ss r |}.
Definition set_tf_eax (v : Z) (r : trapframe) : trapframe :=
  {| tf_edi := tf_edi r; tf_esi := tf_esi r; tf_ebp := tf_ebp r; tf_oesp := tf_oesp r; tf_ebx := tf_ebx r; tf_edx := tf_edx r; tf_ecx := tf_ecx r; tf_eax := v; tf_gs := tf_gs r; tf_fs := tf_fs r; tf_es := tf_es r; tf_ds := tf_ds r; tf_trapno := tf_trapno r; tf_err := tf_err r; tf_eip := tf_eip r; tf_cs := tf_cs r; tf_eflags := tf_eflags r; tf_esp := tf_esp r; tf_ss := tf_ss r |}.
Definition set_tf_gs (v : Z) (r : trapframe) : trapframe :=
  {| tf_edi := tf_edi r; tf_esi := tf_esi r; tf_ebp := tf_ebp r; tf_oesp := tf_oesp r; tf_ebx := tf_ebx r; tf_edx := tf_edx r; tf_ecx := tf_ecx r; tf_eax := tf_eax r; tf_gs := v; tf_fs := tf_fs r; tf_es := tf_es r; tf_ds := tf_ds r; tf_trapno := tf_trapno r; tf_err := tf_err r; tf_eip := tf_eip r; tf_cs := tf_cs r; tf_eflags := tf_eflags r; tf_esp := tf_esp r; tf_ss := tf_ss r |}.
Definition set_tf_fs (v : Z) (r : trapframe) : trapframe :=
  {| tf_edi := tf_edi r; tf_esi := tf_esi r; tf_ebp := tf_ebp r; tf_oesp := tf_oesp r; tf_ebx := tf_ebx r; tf_edx := tf_edx r; tf_ecx := tf_ecx r; tf_eax := tf_eax r; tf_gs := tf_gs r; tf_fs := v; tf_es := tf_es r; tf_ds := tf_ds r; tf_trapno := tf_trapno r; tf_err := tf_err r; tf_eip := tf_eip r; tf_cs := tf_cs r; tf_eflags := tf_eflags r; tf_esp := tf_esp r; tf_ss := tf_ss r |}.
Definition set_tf_es (v : Z) (r : trapframe) : trapframe :=
  {| tf_edi := tf_edi r; tf_esi := tf_esi r; tf_ebp := tf_ebp r; tf_oesp := tf_oesp r; tf_ebx := tf_ebx r; tf_edx := tf_edx r; tf_ecx := tf_ecx r; tf_eax := tf_eax r; tf_gs := tf_gs r; tf_fs := tf_fs r; tf_es := v; tf_ds := tf_ds r; tf_trapno := tf_trapno r; tf_err := tf_err r; tf_eip := tf_eip r; tf_cs := tf_cs r; tf_eflags := tf_eflags r; tf_esp := tf_esp r; tf_ss := tf_ss r |}.
Definition set_tf_ds (v : Z) (r : trapframe) : trapframe :=
  {| tf_edi := tf_edi r; tf_esi := tf_esi r; tf_ebp := tf_ebp r; tf_oesp := tf_oesp r; tf_ebx := tf_ebx r; tf_edx := tf_edx r; tf_ecx := tf_ecx r; tf_eax := tf_eax r; tf_gs := tf_gs r; tf_fs := tf_fs r; tf_es := tf_es r; tf_ds := v; tf_trapno := tf_trapno r; tf_err := tf_err r; tf_eip := tf_eip r; tf_cs := tf_cs r; tf_eflags := tf_eflags r; tf_esp := tf_esp r; tf_ss := tf_ss r |}.
Definition set_tf_trapno (v : Z) (r : trapframe) : trapframe :=
  {| tf_edi := tf_edi r; tf_esi := tf_esi r; tf_ebp := tf_ebp r; tf_oesp := tf_oesp r; tf_ebx := tf_ebx r; tf_edx := tf_edx r; tf_ecx := tf_ecx r; tf_eax := tf_eax r; tf_gs := tf_gs r; tf_fs := tf_fs r; tf_es := tf_es r; tf_ds := tf_ds r; tf_trapno := v; tf_err := tf_err r; tf_eip := tf_eip r; tf_cs := tf_cs r; tf_eflags := tf_eflags r; tf_esp := tf_esp r; tf_ss := tf_ss r |}.
Definition set_tf_err (v : Z) (r : trapframe) : trapframe :=
  {| tf_edi := tf_edi r; tf_esi := tf_esi r; tf_ebp := tf_ebp r; tf_oesp := tf_oesp r; tf_ebx := tf_ebx r; tf_edx := tf_edx r; tf_ecx := tf_ecx r; tf_eax := tf_eax r; tf_gs := tf_gs r; tf_fs := tf_fs r; tf_es := tf_es r; tf_ds := tf_ds r; tf_trapno := tf_trapno r; tf_err := v; tf_eip := tf_eip r; tf_cs := tf_cs r; tf_eflags := tf_eflags r; tf_esp := tf_esp r; tf_ss := tf_ss r |}.
Definition set_tf_eip (v : Z) (r : trapframe) : trapframe :=
  {| tf_edi := tf_edi r; tf_esi := tf_esi r; tf_ebp := tf_ebp r; tf_oesp := tf_oesp r; tf_ebx := tf_ebx r; tf_edx := tf_edx r; tf_ecx := tf_ecx r; tf_eax := tf_eax r; tf_gs := tf_gs r; tf_fs := tf_fs r; tf_es := tf_es r; tf_ds := tf_ds r; tf_trapno := tf_trapno r; tf_err := tf_err r; tf_eip := v; tf_cs := tf_cs r; tf_eflags := tf_eflags r; tf_esp := tf_esp r; tf_ss := tf_ss r |}.
Definition set_tf_cs (v : Z) (r : trapframe) : trapframe :=
  {| tf_edi := tf_edi r; tf_esi := tf_esi r; tf_ebp := tf_ebp r; tf_oesp := tf_oesp r; tf_ebx := tf_ebx r; tf_edx := tf_edx r; tf_ecx := tf_ecx r; tf_eax := tf_eax r; tf_gs := tf_gs r; tf_fs := tf_fs r; tf_es := tf_es r; tf_ds := tf_ds r; tf_trapno := tf_trapno r; tf_err := tf_err r; tf_eip := tf_eip r; tf_cs := v; tf_eflags := tf_eflags r; tf_esp := tf_esp r; tf_ss := tf_ss r |}.
Definition set_tf_eflags (v : Z) (r : trapframe) : trapframe :=
  {| tf_edi := tf_edi r; tf_esi := tf_esi r; tf_ebp := tf_ebp r; tf_oesp := tf_oesp r; tf_ebx := tf_ebx r; tf_edx := tf_edx r; tf_ecx := tf_ecx r; tf_eax := tf_eax r; tf_gs := tf_gs r; tf_fs := tf_fs r; tf_es := tf_es r; tf_ds := tf_ds r; tf_trapno := tf_trapno r; tf_err := tf_err r; tf_eip := tf_eip r; tf_cs := tf_cs r; tf_eflags := v; tf_esp := tf_esp r; tf_ss := tf_ss r |}.
Definition set_tf_esp (v : Z) (r : trapframe) : trapframe :=
  {| tf_edi := tf_edi r; tf_esi := tf_esi r; tf_ebp := tf_ebp r; tf_oesp := tf_oesp r; tf_ebx := tf_ebx r; tf_edx := tf_edx r; tf_ecx := tf_ecx r; tf_eax := tf_eax r; tf_gs := tf_gs r; tf_fs := tf_fs r; tf_es := tf_es r; tf_ds := tf_ds r; tf_trapno := tf_trapno r; tf_err := tf_err r; tf_eip := tf_eip r; tf_cs := tf_cs r; tf_eflags := tf_eflags r; tf_esp := v; tf_ss := tf_ss r |}.
Definition set_tf_ss (v : Z) (r : trapframe) : trapframe :=
  {| tf_edi := tf_edi r; tf_esi := tf_esi r; tf_ebp := tf_ebp r; tf_oesp := tf_oesp r; tf_ebx := tf_ebx r; tf_edx := tf_edx r; tf_ecx := tf_ecx r; tf_eax := tf_eax r; tf_gs := tf_gs r; tf_fs := tf_fs r; tf_es := tf_es r; tf_ds := tf_ds r; tf_trapno := tf_trapno r; tf_err := tf_err r; tf_eip := tf_eip r; tf_cs := tf_cs r; tf_eflags := tf_eflags r; tf_esp := tf_esp r; tf_ss := v |}.

Definition set_p_sz (v : Z) (r : proc) : proc :=
  {| p_sz := v; p_pgdir := p_pgdir r; p_kstack := p_kstack r; p_state := p_state r; p_pid := p_pid r; p_parent := p_parent r; p_tf := p_tf r; p_context := p_context r; p_chan := p_chan r; p_killed := p_killed r; p_ofile := p_ofile r; p_cwd := p_cwd r; p_name := p_name r |}.
Definition set_p_pgdir (v : Z) (r : proc) : proc :=
  {| p_sz := p_sz r; p_pgdir := v; p_kstack := p_kstack r; p_state := p_state r; p_pid := p_pid r; p_parent := p_parent r; p_tf := p_tf r; p_context := p_context r; p_chan := p_chan r; p_killed := p_killed r; p_ofile := p_ofile r; p_cwd := p_cwd r; p_name := p_name r |}.
Definition set_p_kstack (v : Z) (r : proc) : proc :=
  {| p_sz := p_sz r; p_pgdir := p_pgdir r; p_kstack := v; p_state := p_state r; p_pid := p_pid r; p_parent := p_parent r; p_tf := p_tf r; p_context := p_context r; p_chan := p_chan r; p_killed := p_killed r; p_ofile := p_ofile r; p_cwd := p_cwd r; p_name := p_name r |}.
Definition set_p_state (v : procstate) (r : proc) : proc :=
  {| p_sz := p_sz r; p_pgdir := p_pgdir r; p_kstack := p_kstack r; p_state := v; p_pid := p_pid r; p_parent := p_parent r; p_tf := p_tf r; p_context := p_context r; p_chan := p_chan r; p_killed := p_killed r; p_ofile := p_ofile r; p_cwd := p_cwd r; p_name := p_name r |}.
Definition set_p_pid (v : Z) (r : proc) : proc :=
  {| p_sz := p_sz r; p_pgdir := p_pgdir r; p_kstack := p_kstack r; p_state := p_state r; p_pid := v; p_parent := p_parent r; p_tf := p_tf r; p_context := p_context r; p_chan := p_chan r; p_killed := p_killed r; p_ofile := p_ofile r; p_cwd := p_cwd r; p_name := p_name r |}.
Definition set_p_parent (v : option nat) (r : proc) : proc :=
  {| p_sz := p_sz r; p_pgdir := p_pgdir r; p_kstack := p_kstack r; p_state := p_state r; p_pid := p_pid r; p_parent := v; p_tf := p_tf r; p_context := p_context r; p_chan := p_chan r; p_killed := p_killed r; p_ofile := p_ofile r; p_cwd := p_cwd r; p_name := p_name r |}.
Definition set_p_tf (v : Z) (r : proc) : proc :=
  {| p_sz := p_sz r; p_pgdir := p_pgdir r; p_kstack := p_kstack r; p_state := p_state r; p_pid := p_pid r; p_parent := p_parent r; p_tf := v; p_context := p_context r; p_chan := p_chan r; p_killed := p_killed r; p_ofile := p_ofile r; p_cwd := p_cwd r; p_name := p_name r |}.
Definition set_p_context (v : Z) (r : proc) : proc :=
  {| p_sz := p_sz r; p_pgdir := p_pgdir r; p_kstack := p_kstack r; p_state := p_state r; p_pid := p_pid r; p_parent := p_parent r; p_tf := p_tf r; p_context := v; p_chan := p_chan r; p_killed := p_killed r; p_ofile := p_ofile r; p_cwd := p_cwd r; p_name := p_name r |}.
Definition set_p_chan (v : option channel) (r : proc) : proc :=
  {| p_sz := p_sz r; p_pgdir := p_pgdir r; p_kstack := p_kstack r; p_state := p_state r; p_pid := p_pid r; p_parent := p_parent r; p_tf := p_tf r; p_context := p_context r; p_chan := v; p_killed := p_killed r; p_ofile := p_ofile r; p_cwd := p_cwd r; p_name := p_name r |}.
Definition set_p_killed (v : Z) (r : proc) : proc :=
  {| p_sz := p_sz r; p_pgdir := p_pgdir r; p_kstack := p_kstack r; p_state := p_state r; p_pid := p_pid r; p_parent := p_parent r; p_tf := p_tf r; p_context := p_context r; p_chan := p_chan r; p_killed := v; p_ofile := p_ofile r; p_cwd := p_cwd r; p_name := p_name r |}.
Definition set_p_ofile (v : list (option nat)) (r : proc) : proc :=
  {| p_sz := p_sz r; p_pgdir := p_pgdir r; p_kstack := p_kstack r; p_state := p_state r; p_pid := p_pid r; p_parent := p_parent r; p_tf := p_tf r; p_context := p_context r; p_chan := p_chan r; p_killed := p_killed r; p_ofile := v; p_cwd := p_cwd r; p_name := p_name r |}.
Definition set_p_cwd (v : option nat) (r : proc) : proc :=
  {| p_sz := p_sz r; p_pgdir := p_pgdir r; p_kstack := p_kstack r; p_state := p_state r; p_pid := p_pid r; p_parent := p_parent r; p_tf := p_tf r; p_context := p_context r; p_chan := p_chan r; p_killed := p_killed r; p_ofile := p_ofile r; p_cwd := v; p_name := p_name r |}.
Definition set_p_name (v : list Z) (r : proc) : proc :=
  {| p_sz := p_sz r; p_pgdir := p_pgdir r; p_kstack := p_kstack r; p_state := p_state r; p_pid := p_pid r; p_parent := p_parent r; p_tf := p_tf r; p_context := p_context r; p_chan := p_chan r; p_killed := p_killed r; p_ofile := p_ofile r; p_cwd := p_cwd r; p_name := v |}.

Definition set_f_type (v : fdtype) (r : file) : file :=
  {| f_type := v; f_ref := f_ref r; f_readable := f_readable r; f_writable := f_writable r; f_pipe := f_pipe r; f_ip := f_ip r; f_off := f_off r |}.
Definition set_f_ref (v : Z) (r : file) : file :=
  {| f_type := f_type r; f_ref := v; f_readable := f_readable r; f_writable := f_writable r; f_pipe := f_pipe r; f_ip := f_ip r; f_off := f_off r |}.
Definition set_f_readable (v : Z) (r : file) : file :=
  {| f_type := f_type r; f_ref := f_ref r; f_readable := v; f_writable := f_writable r; f_pipe := f_pipe r; f_ip := f_ip r; f_off := f_off r |}.
Definition set_f_writable (v : Z) (r : file) : file :=
  {| f_type := f_type r; f_ref := f_ref r; f_readable := f_readable r; f_writable := v; f_pipe := f_pipe r; f_ip := f_ip r; f_off := f_off r |}.
Definition set_f_pipe (v : Z) (r : file) : file :=
  {| f_type := f_type r; f_ref := f_ref r; f_readable := f_readable r; f_writable := f_writable r; f_pipe := v; f_ip := f_ip r; f_off := f_off r |}.
Definition set_f_ip (v : option nat) (r : file) : file :=
  {| f_type := f_type r; f_ref := f_ref r; f_readable := f_readable r; f_writable := f_writable r; f_pipe := f_pipe r; f_ip := v; f_off := f_off r |}.
Definition set_f_off (v : Z) (r : file) : file :=
  {| f_type := f_type r; f_ref := f_ref r; f_readable := f_readable r; f_writable := f_writable r; f_pipe := f_pipe r; f_ip := f_ip r; f_off := v |}.

Definition set_i_dev (v : Z) (r : inode) : inode :=
  {| i_dev := v; i_inum := i_inum r; i_ref := i_ref r; i_lock := i_lock r; i_valid := i_valid r; i_type := i_type r; i_major := i_major r; i_minor := i_minor r; i_nlink := i_nlink r; i_size := i_size r; i_addrs := i_addrs r |}.
Definition set_i_inum (v : Z) (r : inode) : inode :=
  {| i_dev := i_dev r; i_inum := v; i_ref := i_ref r; i_lock := i_lock r; i_valid := i_valid r; i_type := i_type r; i_major := i_major r; i_minor := i_minor r; i_nlink := i_nlink r; i_size := i_size r; i_addrs := i_addrs r |}.
Definition set_i_ref (v : Z) (r : inode) : inode :=
  {| i_dev := i_dev r; i_inum := i_inum r; i_ref := v; i_lock := i_lock r; i_valid := i_valid r; i_type := i_type r; i_major := i_major r; i_minor := i_minor r; i_nlink := i_nlink r; i_size := i_size r; i_addrs := i_addrs r |}.
Definition set_i_lock (v : sleeplock) (r : inode) : inode :=
  {| i_dev := i_dev r; i_inum := i_inum r; i_ref := i_ref r; i_lock := v; i_valid := i_valid r; i_type := i_type r; i_major := i_major r; i_minor := i_minor r; i_nlink := i_nlink r; i_size := i_size r; i_addrs := i_addrs r |}.
Definition set_i_valid (v : Z) (r : inode) : inode :=
  {| i_dev := i_dev r; i_inum := i_inum r; i_ref := i_ref r; i_lock := i_lock r; i_valid := v; i_type := i_type r; i_major := i_major r; i_minor := i_minor r; i_nlink := i_nlink r; i_size := i_size r; i_addrs := i_addrs r |}.
Definition set_i_type (v : Z) (r : inode) : inode :=
  {| i_dev := i_dev r; i_inum := i_inum r; i_ref := i_ref r; i_lock := i_lock r; i_valid := i_valid r; i_type := v; i_major := i_major r; i_minor := i_minor r; i_nlink := i_nlink r; i_size := i_size r; i_addrs := i_addrs r |}.
Definition set_i_major (v : Z) (r : inode) : inode :=
  {| i_dev := i_dev r; i_inum := i_inum r; i_ref := i_ref r; i_lock := i_lock r; i_valid := i_valid r; i_type := i_type r; i_major := v; i_minor := i_minor r; i_nlink := i_nlink r; i_size := i_size r; i_addrs := i_addrs r |}.
Definition set_i_minor (v : Z) (r : inode) : inode :=
  {| i_dev := i_dev r; i_inum := i_inum r; i_ref := i_ref r; i_lock := i_lock r; i_valid := i_valid r; i_type := i_type r; i_major := i_major r; i_minor := v; i_nlink := i_nlink r; i_size := i_size r; i_addrs := i_addrs r |}.
Definition set_i_nlink (v : Z) (r : inode) : inode :=
  {| i_dev := i_dev r; i_inum := i_inum r; i_ref := i_ref r; i_lock := i_lock r; i_valid := i_valid r; i_type := i_type r; i_major := i_major r; i_minor := i_minor r; i_nlink := v; i_size := i_size r; i_addrs := i_addrs r |}.
Definition set_i_size (v : Z) (r : inode) : inode :=
  {| i_dev := i_dev r; i_inum := i_inum r; i_ref := i_ref r; i_lock := i_lock r; i_valid := i_valid r; i_type := i_type r; i_major := i_major r; i_minor := i_minor r; i_nlink := i_nlink r; i_size := v; i_addrs := i_addrs r |}.
Definition set_i_addrs (v : list Z) (r : inode) : inode :=
  {| i_dev := i_dev r; i_inum := i_inum r; i_ref := i_ref r; i_lock := i_lock r; i_valid := i_valid r; i_type := i_type r; i_major := i_major r; i_minor := i_minor r; i_nlink := i_nlink r; i_size := i_size r; i_addrs := v |}.

Definition set_b_flags (v : Z) (r : buf) : buf :=
  {| b_flags := v; b_dev := b_dev r; b_blockno := b_blockno r; b_lock := b_lock r; b_refcnt := b_refcnt r; b_prev := b_prev r; b_next := b_next r; b_qnext := b_qnext r; b_data := b_data r |}.
Definition set_b_dev (v : Z) (r : buf) : buf :=
  {| b_flags := b_flags r; b_dev := v; b_blockno := b_blockno r; b_lock := b_lock r; b_refcnt := b_refcnt r; b_prev := b_prev r; b_next := b_next r; b_qnext := b_qnext r; b_data := b_data r |}.
Definition set_b_blockno (v : Z) (r : buf) : buf :=
  {| b_flags := b_flags r; b_dev := b_dev r; b_blockno := v; b_lock := b_lock r; b_refcnt := b_refcnt r; b_prev := b_prev r; b_next := b_next r; b_qnext := b_qnext r; b_data := b_data r |}.
Definition set_b_lock (v : sleeplock) (r : buf) : buf :=
  {| b_flags := b_flags r; b_dev := b_dev r; b_blockno := b_blockno r; b_lock := v; b_refcnt := b_refcnt r; b_prev := b_prev r; b_next := b_next r; b_qnext := b_qnext r; b_data := b_data r |}.
Definition set_b_refcnt (v : Z) (r : buf) : buf :=
  {| b_flags := b_flags r; b_dev := b_dev r; b_blockno := b_blockno r; b_lock := b_lock r; b_refcnt := v; b_prev := b_prev r; b_next := b_next r; b_qnext := b_qnext r; b_data := b_data r |}.
Definition set_b_prev (v : nat) (r : buf) : buf :=
  {| b_flags := b_flags r; b_dev := b_dev r; b_blockno := b_blockno r; b_lock := b_lock r; b_refcnt := b_refcnt r; b_prev := v; b_next := b_next r; b_qnext := b_qnext r; b_data := b_data r |}.
Definition set_b_next (v : nat) (r : buf) : buf :=
  {| b_flags := b_flags r; b_dev := b_dev r; b_blockno := b_blockno r; b_lock := b_lock r; b_refcnt := b_refcnt r; b_prev := b_prev r; b_next := v; b_qnext := b_qnext r; b_data := b_data r |}.
Definition set_b_qnext (v : option nat) (r : buf) : buf :=
  {| b_flags := b_flags r; b_dev := b_dev r; b_blockno := b_blockno r; b_lock := b_lock r; b_refcnt := b_refcnt r; b_prev := b_prev r; b_next := b_next r; b_qnext := v; b_data := b_data r |}.
Definition set_b_data (v : list Z) (r : buf) : buf :=
  {| b_flags := b_flags r; b_dev := b_dev r; b_blockno := b_blockno r; b_lock := b_lock r; b_refcnt := b_refcnt r; b_prev := b_prev r; b_next := b_next r; b_qnext := b_qnext r; b_data := v |}.

Definition set_sb_size (v : Z) (r : superblock) : superblock :=
  {| sb_size := v; sb_nblocks := sb_nblocks r; sb_ninodes := sb_ninodes r; sb_nlog := sb_nlog r; sb_logstart := sb_logstart r; sb_inodestart := sb_inodestart r; sb_bmapstart := sb_bmapstart r |}.
Definition set_sb_nblocks (v : Z) (r : superblock) : superblock :=
  {| sb_size := sb_size r; sb_nblocks := v; sb_ninodes := sb_ninodes r; sb_nlog := sb_nlog r; sb_logstart := sb_logstart r; sb_inodestart := sb_inodestart r; sb_bmapstart := sb_bmapstart r |}.
Definition set_sb_ninodes (v : Z) (r : superblock) : superblock :=
  {| sb_size := sb_size r; sb_nblocks := sb_nblocks r; sb_ninodes := v; sb_nlog := sb_nlog r; sb_logstart := sb_logstart r; sb_inodestart := sb_inodestart r; sb_bmapstart := sb_bmapstart r |}.
Definition set_sb_nlog (v : Z) (r : superblock) : superblock :=
  {| sb_size := sb_size r; sb_nblocks := sb_nblocks r; sb_ninodes := sb_ninodes r; sb_nlog := v; sb_logstart := sb_logstart r; sb_inodestart := sb_inodestart r; sb_bmapstart := sb_bmapstart r |}.
Definition set_sb_logstart (v : Z) (r : superblock) : superblock :=
  {| sb_size := sb_size r; sb_nblocks := sb_nblocks r; sb_ninodes := sb_ninodes r; sb_nlog := sb_nlog r; sb_logstart := v; sb_inodestart := sb_inodestart r; sb_bmapstart := sb_bmapstart r |}.
Definition set_sb_inodestart (v : Z) (r : superblock) : superblock :=
  {| sb_size := sb_size r; sb_nblocks := sb_nblocks r; sb_ninodes := sb_ninodes r; sb_nlog := sb_nlog r; sb_logstart := sb_logstart r; sb_inodestart := v; sb_bmapstart := sb_bmapstart r |}.
Definition set_sb_bmapstart (v : Z) (r : superblock) : superblock :=
  {| sb_size := sb_size r; sb_nblocks := sb_nblocks r; sb_ninodes := sb_ninodes r; sb_nlog := sb_nlog r; sb_logstart := sb_logstart r; sb_inodestart := sb_inodestart r; sb_bmapstart := v |}.

Definition set_log_start (v : Z) (r : log_t) : log_t :=
  {| log_start := v; log_size := log_size r; log_outstanding := log_outstanding r; log_committing := log_committing r; log_dev := log_dev r; lh_n := lh_n r; lh_block := lh_block r |}.
Definition set_log_size (v : Z) (r : log_t) : log_t :=
  {| log_start := log_start r; log_size := v; log_outstanding := log_outstanding r; log_committing := log_committing r; log_dev := log_dev r; lh_n := lh_n r; lh_block := lh_block r |}.
Definition set_log_outstanding (v : Z) (r : log_t) : log_t :=
  {| log_start := log_start r; log_size := log_size r; log_outstanding := v; log_committing := log_committing r; log_dev := log_dev r; lh_n := lh_n r; lh_block := lh_block r |}.
Definition set_log_committing (v : Z) (r : log_t) : log_t :=
  {| log_start := log_start r; log_size := log_size r; log_outstanding := log_outstanding r; log_committing := v; log_dev := log_dev r; lh_n := lh_n r; lh_block := lh_block r |}.
Definition set_log_dev (v : Z) (r : log_t) : log_t :=
  {| log_start := log_start r; log_size := log_size r; log_outstanding := log_outstanding r; log_committing := log_committing r; log_dev := v; lh_n := lh_n r; lh_block := lh_block r |}.
Definition set_lh_n (v : Z) (r : log_t) : log_t :=
  {| log_start := log_start r; log_size := log_size r; log_outstanding := log_outstanding r; log_committing := log_committing r; log_dev := log_dev r; lh_n := v; lh_block := lh_block r |}.
Definition set_lh_block (v : list Z) (r : log_t) : log_t :=
  {| log_start := log_start r; log_size := log_size r; log_outstanding := log_outstanding r; log_committing := log_committing r; log_dev := log_dev r; lh_n := lh_n r; lh_block := v |}.

Definition set_pi_data (v : list Z) (r : pipe) : pipe :=
  {| pi_data := v; pi_nread := pi_nread r; pi_nwrite := pi_nwrite r; pi_readopen := pi_readopen r; pi_writeopen := pi_writeopen r |}.
Definition set_pi_nread (v : Z) (r : pipe) : pipe :=
  {| pi_data := pi_data r; pi_nread := v; pi_nwrite := pi_nwrite r; pi_readopen := pi_readopen r; pi_writeopen := pi_writeopen r |}.
Definition set_pi_nwrite (v : Z) (r : pipe) : pipe :=
  {| pi_data := pi_data r; pi_nread := pi_nread r; pi_nwrite := v; pi_readopen := pi_readopen r; pi_writeopen := pi_writeopen r |}.
Definition set_pi_readopen (v : Z) (r : pipe) : pipe :=
  {| pi_data := pi_data r; pi_nread := pi_nread r; pi_nwrite := pi_nwrite r; pi_readopen := v; pi_writeopen := pi_writeopen r |}.
Definition set_pi_writeopen (v : Z) (r : pipe) : pipe :=
  {| pi_data := pi_data r; pi_nread := pi_nread r; pi_nwrite := pi_nwrite r; pi_readopen := pi_readopen r; pi_writeopen := v |}.

Definition set_in_buf (v : list Z) (r : input_t) : input_t :=
  {| in_buf := v; in_r := in_r r; in_w := in_w r; in_e := in_e r |}.
Definition set_in_r (v : Z) (r : input_t) : input_t :=
  {| in_buf := in_buf r; in_r := v; in_w := in_w r; in_e := in_e r |}.
Definition set_in_w (v : Z) (r : input_t) : input_t :=
  {| in_buf := in_buf r; in_r := in_r r; in_w := v; in_e := in_e r |}.
Definition set_in_e (v : Z) (r : input_t) : input_t :=
  {| in_buf := in_buf r; in_r := in_r r; in_w := in_w r; in_e := v |}.

Definition set_k_cpus (v : list cpu) (r : kstate) : kstate :=
  {| k_cpus := v; k_apicid := k_apicid r; k_if := k_if r; k_cr3 := k_cr3 r; k_locks := k_locks r; k_mem := k_mem r; k_use_lock := k_use_lock r; k_freelist := k_freelist r; k_kpgdir := k_kpgdir r; k_proc := k_proc r; k_initproc := k_initproc r; k_nextpid := k_nextpid r; k_first := k_first r; k_tf := k_tf r; k_ctx := k_ctx r; k_ticks := k_ticks r; k_file := k_file r; k_pipes := k_pipes r; k_inode := k_inode r; k_sb := k_sb r; k_buf := k_buf r; k_log := k_log r; k_disk := k_disk r; k_disksize := k_disksize r; k_writes := k_writes r; k_locking := k_locking r; k_input := k_input r; k_out := k_out r; k_hw := k_hw r |}.
Definition set_k_apicid (v : Z) (r : kstate) : kstate :=
  {| k_cpus := k_cpus r; k_apicid := v; k_if := k_if r; k_cr3 := k_cr3 r; k_locks := k_locks r; k_mem := k_mem r; k_use_lock := k_use_lock r; k_freelist := k_freelist r; k_kpgdir := k_kpgdir r; k_proc := k_proc r; k_initproc := k_initproc r; k_nextpid := k_nextpid r; k_first := k_first r; k_tf := k_tf r; k_ctx := k_ctx r; k_ticks := k_ticks r; k_file := k_file r; k_pipes := k_pipes r; k_inode := k_inode r; k_sb := k_sb r; k_buf := k_buf r; k_log := k_log r; k_disk := k_disk r; k_disksize := k_disksize r; k_writes := k_writes r; k_locking := k_locking r; k_input := k_input r; k_out := k_out r; k_hw := k_hw r |}.
Definition set_k_if (v : bool) (r : kstate) : kstate :=
  {| k_cpus := k_cpus r; k_apicid := k_apicid r; k_if := v; k_cr3 := k_cr3 r; k_locks := k_locks r; k_mem := k_mem r; k_use_lock := k_use_lock r; k_freelist := k_freelist r; k_kpgdir := k_kpgdir r; k_proc := k_proc r; k_initproc := k_initproc r; k_nextpid := k_nextpid r; k_first := k_first r; k_tf := k_tf r; k_ctx := k_ctx r; k_ticks := k_ticks r; k_file := k_file r; k_pipes := k_pipes r; k_inode := k_inode r; k_sb := k_sb r; k_buf := k_buf r; k_log := k_log r; k_disk := k_disk r; k_disksize := k_disksize r; k_writes := k_writes r; k_locking := k_locking r; k_input := k_input r; k_out := k_out r; k_hw := k_hw r |}.
Definition set_k_cr3 (v : Z) (r : kstate) : kstate :=
  {| k_cpus := k_cpus r; k_apicid := k_apicid r; k_if := k_if r; k_cr3 := v; k_locks := k_locks r; k_mem := k_mem r; k_use_lock := k_use_lock r; k_freelist := k_freelist r; k_kpgdir := k_kpgdir r; k_proc := k_proc r; k_initproc := k_initproc r; k_nextpid := k_nextpid r; k_first := k_first r; k_tf := k_tf r; k_ctx := k_ctx r; k_ticks := k_ticks r; k_file := k_file r; k_pipes := k_pipes r; k_inode := k_inode r; k_sb := k_sb r; k_buf := k_buf r; k_log := k_log r; k_disk := k_disk r; k_disksize := k_disksize r; k_writes := k_writes r; k_locking := k_locking r; k_input := k_input r; k_out := k_out r; k_hw := k_hw r |}.
Definition set_k_locks (v : gmap lockid spinlock) (r : kstate) : kstate :=
  {| k_cpus := k_cpus r; k_apicid := k_apicid r; k_if := k_if r; k_cr3 := k_cr3 r; k_locks := v; k_mem := k_mem r; k_use_lock := k_use_lock r; k_freelist := k_freelist r; k_kpgdir := k_kpgdir r; k_proc := k_proc r; k_initproc := k_initproc r; k_nextpid := k_nextpid r; k_first := k_first r; k_tf := k_tf r; k_ctx := k_ctx r; k_ticks := k_ticks r; k_file := k_file r; k_pipes := k_pipes r; k_inode := k_inode r; k_sb := k_sb r; k_buf := k_buf r; k_log := k_log r; k_disk := k_disk r; k_disksize := k_disksize r; k_writes := k_writes r; k_locking := k_locking r; k_input := k_input r; k_out := k_out r; k_hw := k_hw r |}.
Definition set_k_mem (v : gmap Z Z) (r : kstate) : kstate :=
  {| k_cpus := k_cpus r; k_apicid := k_apicid r; k_if := k_if r; k_cr3 := k_cr3 r; k_locks := k_locks r; k_mem := v; k_use_lock := k_use_lock r; k_freelist := k_freelist r; k_kpgdir := k_kpgdir r; k_proc := k_proc r; k_initproc := k_initproc r; k_nextpid := k_nextpid r; k_first := k_first r; k_tf := k_tf r; k_ctx := k_ctx r; k_ticks := k_ticks r; k_file := k_file r; k_pipes := k_pipes r; k_inode := k_inode r; k_sb := k_sb r; k_buf := k_buf r; k_log := k_log r; k_disk := k_disk r; k_disksize := k_disksize r; k_writes := k_writes r; k_locking := k_locking r; k_input := k_input r; k_out := k_out r; k_hw := k_hw r |}.
Definition set_k_use_lock (v : Z) (r : kstate) : kstate :=
  {| k_cpus := k_cpus r; k_apicid := k_apicid r; k_if := k_if r; k_cr3 := k_cr3 r; k_locks := k_locks r; k_mem := k_mem r; k_use_lock := v; k_freelist := k_freelist r; k_kpgdir := k_kpgdir r; k_proc := k_proc r; k_initproc := k_initproc r; k_nextpid := k_nextpid r; k_first := k_first r; k_tf := k_tf r; k_ctx := k_ctx r; k_ticks := k_ticks r; k_file := k_file r; k_pipes := k_pipes r; k_inode := k_inode r; k_sb := k_sb r; k_buf := k_buf r; k_log := k_log r; k_disk := k_disk r; k_disksize := k_disksize r; k_writes := k_writes r; k_locking := k_locking r; k_input := k_input r; k_out := k_out r; k_hw := k_hw r |}.
Definition set_k_freelist (v : Z) (r : kstate) : kstate :=
  {| k_cpus := k_cpus r; k_apicid := k_apicid r; k_if := k_if r; k_cr3 := k_cr3 r; k_locks := k_locks r; k_mem := k_mem r; k_use_lock := k_use_lock r; k_freelist := v; k_kpgdir := k_kpgdir r; k_proc := k_proc r; k_initproc := k_initproc r; k_nextpid := k_nextpid r; k_first := k_first r; k_tf := k_tf r; k_ctx := k_ctx r; k_ticks := k_ticks r; k_file := k_file r; k_pipes := k_pipes r; k_inode := k_inode r; k_sb := k_sb r; k_buf := k_buf r; k_log := k_log r; k_disk := k_disk r; k_disksize := k_disksize r; k_writes := k_writes r; k_locking := k_locking r; k_input := k_input r; k_out := k_out r; k_hw := k_hw r |}.
Definition set_k_kpgdir (v : Z) (r : kstate) : kstate :=
  {| k_cpus := k_cpus r; k_apicid := k_apicid r; k_if := k_if r; k_cr3 := k_cr3 r; k_locks := k_locks r; k_mem := k_mem r; k_use_lock := k_use_lock r; k_freelist := k_freelist r; k_kpgdir := v; k_proc := k_proc r; k_initproc := k_initproc r; k_nextpid := k_nextpid r; k_first := k_first r; k_tf := k_tf r; k_ctx := k_ctx r; k_ticks := k_ticks r; k_file := k_file r; k_pipes := k_pipes r; k_inode := k_inode r; k_sb := k_sb r; k_buf := k_buf r; k_log := k_log r; k_disk := k_disk r; k_disksize := k_disksize r; k_writes := k_writes r; k_locking := k_locking r; k_input := k_input r; k_out := k_out r; k_hw := k_hw r |}.
Definition set_k_proc (v : list proc) (r : kstate) : kstate :=
  {| k_cpus := k_cpus r; k_apicid := k_apicid r; k_if := k_if r; k_cr3 := k_cr3 r; k_locks := k_locks r; k_mem := k_mem r; k_use_lock := k_use_lock r; k_freelist := k_freelist r; k_kpgdir := k_kpgdir r; k_proc := v; k_initproc := k_initproc r; k_nextpid := k_nextpid r; k_first := k_first r; k_tf := k_tf r; k_ctx := k_ctx r; k_ticks := k_ticks r; k_file := k_file r; k_pipes := k_pipes r; k_inode := k_inode r; k_sb := k_sb r; k_buf := k_buf r; k_log := k_log r; k_disk := k_disk r; k_disksize := k_disksize r; k_writes := k_writes r; k_locking := k_locking r; k_input := k_input r; k_out := k_out r; k_hw := k_hw r |}.
Definition set_k_initproc (v : option nat) (r : kstate) : kstate :=
  {| k_cpus := k_cpus r; k_apicid := k_apicid r; k_if := k_if r; k_cr3 := k_cr3 r; k_locks := k_locks r; k_mem := k_mem r; k_use_lock := k_use_lock r; k_freelist := k_freelist r; k_kpgdir := k_kpgdir r; k_proc := k_proc r; k_initproc := v; k_nextpid := k_nextpid r; k_first := k_first r; k_tf := k_tf r; k_ctx := k_ctx r; k_ticks := k_ticks r; k_file := k_file r; k_pipes := k_pipes r; k_inode := k_inode r; k_sb := k_sb r; k_buf := k_buf r; k_log := k_log r; k_disk := k_disk r; k_disksize := k_disksize r; k_writes := k_writes r; k_locking := k_locking r; k_input := k_input r; k_out := k_out r; k_hw := k_hw r |}.
Definition set_k_nextpid (v : Z) (r : kstate) : kstate :=
  {| k_cpus := k_cpus r; k_apicid := k_apicid r; k_if := k_if r; k_cr3 := k_cr3 r; k_locks := k_locks r; k_mem := k_mem r; k_use_lock := k_use_lock r; k_freelist := k_freelist r; k_kpgdir := k_kpgdir r; k_proc := k_proc r; k_initproc := k_initproc r; k_nextpid := v; k_first := k_first r; k_tf := k_tf r; k_ctx := k_ctx r; k_ticks := k_ticks r; k_file := k_file r; k_pipes := k_pipes r; k_inode := k_inode r; k_sb := k_sb r; k_buf := k_buf r; k_log := k_log r; k_disk := k_disk r; k_disksize := k_disksize r; k_writes := k_writes r; k_locking := k_locking r; k_input := k_input r; k_out := k_out r; k_hw := k_hw r |}.
Definition set_k_first (v : Z) (r : kstate) : kstate :=
  {| k_cpus := k_cpus r; k_apicid := k_apicid r; k_if := k_if r; k_cr3 := k_cr3 r; k_locks := k_locks r; k_mem := k_mem r; k_use_lock := k_use_lock r; k_freelist := k_freelist r; k_kpgdir := k_kpgdir r; k_proc := k_proc r; k_initproc := k_initproc r; k_nextpid := k_nextpid r; k_first := v; k_tf := k_tf r; k_ctx := k_ctx r; k_ticks := k_ticks r; k_file := k_file r; k_pipes := k_pipes r; k_inode := k_inode r; k_sb := k_sb r; k_buf := k_buf r; k_log := k_log r; k_disk := k_disk r; k_disksize := k_disksize r; k_writes := k_writes r; k_locking := k_locking r; k_input := k_input r; k_out := k_out r; k_hw := k_hw r |}.
Definition set_k_tf (v : gmap Z trapframe) (r : kstate) : kstate :=
  {| k_cpus := k_cpus r; k_apicid := k_apicid r; k_if := k_if r; k_cr3 := k_cr3 r; k_locks := k_locks r; k_mem := k_mem r; k_use_lock := k_use_lock r; k_freelist := k_freelist r; k_kpgdir := k_kpgdir r; k_proc := k_proc r; k_initproc := k_initproc r; k_nextpid := k_nextpid r; k_first := k_first r; k_tf := v; k_ctx := k_ctx r; k_ticks := k_ticks r; k_file := k_file r; k_pipes := k_pipes r; k_inode := k_inode r; k_sb := k_sb r; k_buf := k_buf r; k_log := k_log r; k_disk := k_disk r; k_disksize := k_disksize r; k_writes := k_writes r; k_locking := k_locking r; k_input := k_input r; k_out := k_out r; k_hw := k_hw r |}.
Definition set_k_ctx (v : gmap Z context) (r : kstate) : kstate :=
  {| k_cpus := k_cpus r; k_apicid := k_apicid r; k_if := k_if r; k_cr3 := k_cr3 r; k_locks := k_locks r; k_mem := k_mem r; k_use_lock := k_use_lock r; k_freelist := k_freelist r; k_kpgdir := k_kpgdir r; k_proc := k_proc r; k_initproc := k_initproc r; k_nextpid := k_nextpid r; k_first := k_first r; k_tf := k_tf r; k_ctx := v; k_ticks := k_ticks r; k_file := k_file r; k_pipes := k_pipes r; k_inode := k_inode r; k_sb := k_sb r; k_buf := k_buf r; k_log := k_log r; k_disk := k_disk r; k_disksize := k_disksize r; k_writes := k_writes r; k_locking := k_locking r; k_input := k_input r; k_out := k_out r; k_hw := k_hw r |}.
Definition set_k_ticks (v : Z) (r : kstate) : kstate :=
  {| k_cpus := k_cpus r; k_apicid := k_apicid r; k_if := k_if r; k_cr3 := k_cr3 r; k_locks := k_locks r; k_mem := k_mem r; k_use_lock := k_use_lock r; k_freelist := k_freelist r; k_kpgdir := k_kpgdir r; k_proc := k_proc r; k_initproc := k_initproc r; k_nextpid := k_nextpid r; k_first := k_first r; k_tf := k_tf r; k_ctx := k_ctx r; k_ticks := v; k_file := k_file r; k_pipes := k_pipes r; k_inode := k_inode r; k_sb := k_sb r; k_buf := k_buf r; k_log := k_log r; k_disk := k_disk r; k_disksize := k_disksize r; k_writes := k_writes r; k_locking := k_locking r; k_input := k_input r; k_out := k_out r; k_hw := k_hw r |}.
Definition set_k_file (v : list file) (r : kstate) : kstate :=
  {| k_cpus := k_cpus r; k_apicid := k_apicid r; k_if := k_if r; k_cr3 := k_cr3 r; k_locks := k_locks r; k_mem := k_mem r; k_use_lock := k_use_lock r; k_freelist := k_freelist r; k_kpgdir := k_kpgdir r; k_proc := k_proc r; k_initproc := k_initproc r; k_nextpid := k_nextpid r; k_first := k_first r; k_tf := k_tf r; k_ctx := k_ctx r; k_ticks := k_ticks r; k_file := v; k_pipes := k_pipes r; k_inode := k_inode r; k_sb := k_sb r; k_buf := k_buf r; k_log := k_log r; k_disk := k_disk r; k_disksize := k_disksize r; k_writes := k_writes r; k_locking := k_locking r; k_input := k_input r; k_out := k_out r; k_hw := k_hw r |}.
Definition set_k_pipes (v : gmap Z pipe) (r : kstate) : kstate :=
  {| k_cpus := k_cpus r; k_apicid := k_apicid r; k_if := k_if r; k_cr3 := k_cr3 r; k_locks := k_locks r; k_mem := k_mem r; k_use_lock := k_use_lock r; k_freelist := k_freelist r; k_kpgdir := k_kpgdir r; k_proc := k_proc r; k_initproc := k_initproc r; k_nextpid := k_nextpid r; k_first := k_first r; k_tf := k_tf r; k_ctx := k_ctx r; k_ticks := k_ticks r; k_file := k_file r; k_pipes := v; k_inode := k_inode r; k_sb := k_sb r; k_buf := k_buf r; k_log := k_log r; k_disk := k_disk r; k_disksize := k_disksize r; k_writes := k_writes r; k_locking := k_locking r; k_input := k_input r; k_out := k_out r; k_hw := k_hw r |}.
Definition set_k_inode (v : list inode) (r : kstate) : kstate :=
  {| k_cpus := k_cpus r; k_apicid := k_apicid r; k_if := k_if r; k_cr3 := k_cr3 r; k_locks := k_locks r; k_mem := k_mem r; k_use_lock := k_use_lock r; k_freelist := k_freelist r; k_kpgdir := k_kpgdir r; k_proc := k_proc r; k_initproc := k_initproc r; k_nextpid := k_nextpid r; k_first := k_first r; k_tf := k_tf r; k_ctx := k_ctx r; k_ticks := k_ticks r; k_file := k_file r; k_pipes := k_pipes r; k_inode := v; k_sb := k_sb r; k_buf := k_buf r; k_log := k_log r; k_disk := k_disk r; k_disksize := k_disksize r; k_writes := k_writes r; k_locking := k_locking r; k_input := k_input r; k_out := k_out r; k_hw := k_hw r |}.
Definition set_k_sb (v : superblock) (r : kstate) : kstate :=
  {| k_cpus := k_cpus r; k_apicid := k_apicid r; k_if := k_if r; k_cr3 := k_cr3 r; k_locks := k_locks r; k_mem := k_mem r; k_use_lock := k_use_lock r; k_freelist := k_freelist r; k_kpgdir := k_kpgdir r; k_proc := k_proc r; k_initproc := k_initproc r; k_nextpid := k_nextpid r; k_first := k_first r; k_tf := k_tf r; k_ctx := k_ctx r; k_ticks := k_ticks r; k_file := k_file r; k_pipes := k_pipes r; k_inode := k_inode r; k_sb := v; k_buf := k_buf r; k_log := k_log r; k_disk := k_disk r; k_disksize := k_disksize r; k_writes := k_writes r; k_locking := k_locking r; k_input := k_input r; k_out := k_out r; k_hw := k_hw r |}.
Definition set_k_buf (v : list buf) (r : kstate) : kstate :=
  {| k_cpus := k_cpus r; k_apicid := k_apicid r; k_if := k_if r; k_cr3 := k_cr3 r; k_locks := k_locks r; k_mem := k_mem r; k_use_lock := k_use_lock r; k_freelist := k_freelist r; k_kpgdir := k_kpgdir r; k_proc := k_proc r; k_initproc := k_initproc r; k_nextpid := k_nextpid r; k_first := k_first r; k_tf := k_tf r; k_ctx := k_ctx r; k_ticks := k_ticks r; k_file := k_file r; k_pipes := k_pipes r; k_inode := k_inode r; k_sb := k_sb r; k_buf := v; k_log := k_log r; k_disk := k_disk r; k_disksize := k_disksize r; k_writes := k_writes r; k_locking := k_locking r; k_input := k_input r; k_out := k_out r; k_hw := k_hw r |}.
Definition set_k_log (v : log_t) (r : kstate) : kstate :=
  {| k_cpus := k_cpus r; k_apicid := k_apicid r; k_if := k_if r; k_cr3 := k_cr3 r; k_locks := k_locks r; k_mem := k_mem r; k_use_lock := k_use_lock r; k_freelist := k_freelist r; k_kpgdir := k_kpgdir r; k_proc := k_proc r; k_initproc := k_initproc r; k_nextpid := k_nextpid r; k_first := k_first r; k_tf := k_tf r; k_ctx := k_ctx r; k_ticks := k_ticks r; k_file := k_file r; k_pipes := k_pipes r; k_inode := k_inode r; k_sb := k_sb r; k_buf := k_buf r; k_log := v; k_disk := k_disk r; k_disksize := k_disksize r; k_writes := k_writes r; k_locking := k_locking r; k_input := k_input r; k_out := k_out r; k_hw := k_hw r |}.
Definition set_k_disk (v : gmap Z (list Z)) (r : kstate) : kstate :=
  {| k_cpus := k_cpus r; k_apicid := k_apicid r; k_if := k_if r; k_cr3 := k_cr3 r; k_locks := k_locks r; k_mem := k_mem r; k_use_lock := k_use_lock r; k_freelist := k_freelist r; k_kpgdir := k_kpgdir r; k_proc := k_proc r; k_initproc := k_initproc r; k_nextpid := k_nextpid r; k_first := k_first r; k_tf := k_tf r; k_ctx := k_ctx r; k_ticks := k_ticks r; k_file := k_file r; k_pipes := k_pipes r; k_inode := k_inode r; k_sb := k_sb r; k_buf := k_buf r; k_log := k_log r; k_disk := v; k_disksize := k_disksize r; k_writes := k_writes r; k_locking := k_locking r; k_input := k_input r; k_out := k_out r; k_hw := k_hw r |}.
Definition set_k_disksize (v : Z) (r : kstate) : kstate :=
  {| k_cpus := k_cpus r; k_apicid := k_apicid r; k_if := k_if r; k_cr3 := k_cr3 r; k_locks := k_locks r; k_mem := k_mem r; k_use_lock := k_use_lock r; k_freelist := k_freelist r; k_kpgdir := k_kpgdir r; k_proc := k_proc r; k_initproc := k_initproc r; k_nextpid := k_nextpid r; k_first := k_first r; k_tf := k_tf r; k_ctx := k_ctx r; k_ticks := k_ticks r; k_file := k_file r; k_pipes := k_pipes r; k_inode := k_inode r; k_sb := k_sb r; k_buf := k_buf r; k_log := k_log r; k_disk := k_disk r; k_disksize := v; k_writes := k_writes r; k_locking := k_locking r; k_input := k_input r; k_out := k_out r; k_hw := k_hw r |}.
Definition set_k_writes (v : list (Z * list Z)) (r : kstate) : kstate :=
  {| k_cpus := k_cpus r; k_apicid := k_apicid r; k_if := k_if r; k_cr3 := k_cr3 r; k_locks := k_locks r; k_mem := k_mem r; k_use_lock := k_use_lock r; k_freelist := k_freelist r; k_kpgdir := k_kpgdir r; k_proc := k_proc r; k_initproc := k_initproc r; k_nextpid := k_nextpid r; k_first := k_first r; k_tf := k_tf r; k_ctx := k_ctx r; k_ticks := k_ticks r; k_file := k_file r; k_pipes := k_pipes r; k_inode := k_inode r; k_sb := k_sb r; k_buf := k_buf r; k_log := k_log r; k_disk := k_disk r; k_disksize := k_disksize r; k_writes := v; k_locking := k_locking r; k_input := k_input r; k_out := k_out r; k_hw := k_hw r |}.
Definition set_k_locking (v : Z) (r : kstate) : kstate :=
  {| k_cpus := k_cpus r; k_apicid := k_apicid r; k_if := k_if r; k_cr3 := k_cr3 r; k_locks := k_locks r; k_mem := k_mem r; k_use_lock := k_use_lock r; k_freelist := k_freelist r; k_kpgdir := k_kpgdir r; k_proc := k_proc r; k_initproc := k_initproc r; k_nextpid := k_nextpid r; k_first := k_first r; k_tf := k_tf r; k_ctx := k_ctx r; k_ticks := k_ticks r; k_file := k_file r; k_pipes := k_pipes r; k_inode := k_inode r; k_sb := k_sb r; k_buf := k_buf r; k_log := k_log r; k_disk := k_disk r; k_disksize := k_disksize r; k_writes := k_writes r; k_locking := v; k_input := k_input r; k_out := k_out r; k_hw := k_hw r |}.
Definition set_k_input (v : input_t) (r : kstate) : kstate :=
  {| k_cpus := k_cpus r; k_apicid := k_apicid r; k_if := k_if r; k_cr3 := k_cr3 r; k_locks := k_locks r; k_mem := k_mem r; k_use_lock := k_use_lock r; k_freelist := k_freelist r; k_kpgdir := k_kpgdir r; k_proc := k_proc r; k_initproc := k_initproc r; k_nextpid := k_nextpid r; k_first := k_first r; k_tf := k_tf r; k_ctx := k_ctx r; k_ticks := k_ticks r; k_file := k_file r; k_pipes := k_pipes r; k_inode := k_inode r; k_sb := k_sb r; k_buf := k_buf r; k_log := k_log r; k_disk := k_disk r; k_disksize := k_disksize r; k_writes := k_writes r; k_locking := k_locking r; k_input := v; k_out := k_out r; k_hw := k_hw r |}.
Definition set_k_out (v : list Z) (r : kstate) : kstate :=
  {| k_cpus := k_cpus r; k_apicid := k_apicid r; k_if := k_if r; k_cr3 := k_cr3 r; k_locks := k_locks r; k_mem := k_mem r; k_use_lock := k_use_lock r; k_freelist := k_freelist r; k_kpgdir := k_kpgdir r; k_proc := k_proc r; k_initproc := k_initproc r; k_nextpid := k_nextpid r; k_first := k_first r; k_tf := k_tf r; k_ctx := k_ctx r; k_ticks := k_ticks r; k_file := k_file r; k_pipes := k_pipes r; k_inode := k_inode r; k_sb := k_sb r; k_buf := k_buf r; k_log := k_log r; k_disk := k_disk r; k_disksize := k_disksize r; k_writes := k_writes r; k_locking := k_locking r; k_input := k_input r; k_out := v; k_hw := k_hw r |}.
Definition set_k_hw (v : hw) (r : kstate) : kstate :=
  {| k_cpus := k_cpus r; k_apicid := k_apicid r; k_if := k_if r; k_cr3 := k_cr3 r; k_locks := k_locks r; k_mem := k_mem r; k_use_lock := k_use_lock r; k_freelist := k_freelist r; k_kpgdir := k_kpgdir r; k_proc := k_proc r; k_initproc := k_initproc r; k_nextpid := k_nextpid r; k_first := k_first r; k_tf := k_tf r; k_ctx := k_ctx r; k_ticks := k_ticks r; k_file := k_file r; k_pipes := k_pipes r; k_inode := k_inode r; k_sb := k_sb r; k_buf := k_buf r; k_log := k_log r; k_disk := k_disk r; k_disksize := k_disksize r; k_writes := k_writes r; k_locking := k_locking r; k_input := k_input r; k_out := k_out r; k_hw := v |}.

Definition upd_hw (f : hw -> hw) (k : kstate) : kstate := set_k_hw (f (k_hw k)) k.

(** ** The kernel monad at this state *)

Abbreviation K := (M kstate).

Definition zero_lock : spinlock := mk_spinlock 0 EmptyString None.
Definition zero_sleeplock : sleeplock := mk_sleeplock 0 EmptyString 0.
Definition zero_cpu : cpu := mk_cpu 0 0 0 0 None.
Definition zero_proc : proc :=
  mk_proc 0 0 0 UNUSED 0 None 0 0 None 0 (replicate NOFILE None) None (replicate 16 0).
Definition zero_file : file := mk_file FD_NONE 0 0 0 0 None 0.
Definition zero_inode : inode :=
  mk_inode 0 0 0 zero_sleeplock 0 0 0 0 0 0 (replicate (NDIRECT + 1) 0).
Definition zero_buf : buf := mk_buf 0 0 0 zero_sleeplock 0 0 0 None (replicate BSIZE 0).
Definition zero_superblock : superblock := mk_superblock 0 0 0 0 0 0 0.
Definition zero_log : log_t := mk_log_t 0 0 0 0 0 0 (replicate LOGSIZE 0).
Definition zero_pipe : pipe := mk_pipe (replicate PIPESIZE 0) 0 0 0 0.
Definition zero_input : input_t := mk_input_t (replicate INPUT_BUF 0) 0 0 0.

(** The element of a table a pointer designates, and its update in place. *)
Definition cpu_at (k : kstate) (i : nat) : cpu := default zero_cpu (k_cpus k !! i).
Definition proc_at (k : kstate) (i : nat) : proc := default zero_proc (k_proc k !! i).
Definition file_at (k : kstate) (i : nat) : file := default zero_file (k_file k !! i).
Definition inode_at (k : kstate) (i : nat) : inode := default zero_inode (k_inode k !! i).
Definition buf_at (k : kstate) (i : nat) : buf := default zero_buf (k_buf k !! i).
Definition lock_at (k : kstate) (l : lockid) : spinlock := default zero_lock (k_locks k !! l).
Definition pipe_at (k : kstate) (p : Z) : pipe := default zero_pipe (k_pipes k !! p).

Definition upd_cpu (i : nat) (f : cpu -> cpu) (k : kstate) : kstate :=
  set_k_cpus (alter f i (k_cpus k)) k.
Definition upd_proc (i : nat) (f : proc -> proc) (k : kstate) : kstate :=
  set_k_proc (alter f i (k_proc k)) k.
Definition upd_file (i : nat) (f : file -> file) (k : kstate) : kstate :=
  set_k_file (alter f i (k_file k)) k.
Definition upd_inode (i : nat) (f : inode -> inode) (k : kstate) : kstate :=
  set_k_inode (alter f i (k_inode k)) k.
Definition upd_buf (i : nat) (f : buf -> buf) (k : kstate) : kstate :=
  set_k_buf (alter f i (k_buf k)) k.
Definition upd_lock (l : lockid) (f : spinlock -> spinlock) (k : kstate) : kstate :=
  set_k_locks (<[l := f (lock_at k l)]> (k_locks k)) k.
Definition upd_log (f : log_t -> log_t) (k : kstate) : kstate := set_k_log (f (k_log k)) k.
Definition upd_pipe (p : Z) (f : pipe -> pipe) (k : kstate) : kstate :=
  set_k_pipes (<[p := f (pipe_at k p)]> (k_pipes k)) k.

(** The kernel's global variables before [main] runs: zero, on a machine with the
    given processors, disk and disk size (in blocks). *)
Definition boot_state (cpus : list cpu) (disk : gmap Z (list Z)) (disksize : Z) : kstate :=
  {| k_cpus := cpus; k_apicid := 0; k_if := false; k_cr3 := 0; k_locks := ∅;
     k_mem := ∅; k_use_lock := 0; k_freelist := 0; k_kpgdir := 0;
     k_proc := replicate NPROC zero_proc; k_initproc := None; k_nextpid := 1; k_first := 1;
     k_tf := ∅; k_ctx := ∅; k_ticks := 0;
     k_file := replicate NFILE zero_file; k_pipes := ∅;
     k_inode := replicate NINODE zero_inode; k_sb := zero_superblock;
     k_buf := replicate (NBUF + 1) zero_buf; k_log := zero_log;
     k_disk := disk; k_disksize := disksize; k_writes := [];
     k_locking := 0; k_input := zero_input; k_out := []; k_hw := zero_hw |}.

(** ** Addresses the linker chooses

    [end] (the first address after the kernel), [data] (the start of its writable
    data), the entry points [forkret] and [trapret] and the address of [cpus] come from the link, not
    from the sources; the model takes them as parameters.  [kernel_sym] is the
    layout recorded in [kernel.sym]. *)
Class Linker : Type := {
  ld_end : Z;
  ld_data : Z;
  ld_forkret : Z;
  ld_trapret : Z;
  ld_cpus : Z
}.

Definition kernel_sym : Linker := {|
  ld_end := 0x801164d0; ld_data := 0x80109000;
  ld_forkret := 0x80103890; ld_trapret := 0x80105ccc; ld_cpus := 0x801127a0 |}.

(** What the code relies on: the kernel is linked above [KERNBASE] and fits in
    the memory that [kinit1] and [kinit2] hand to the allocator. *)
Class LinkerOk {L : Linker} : Prop := {
  ld_end_range : KERNBASE < ld_end < KERNBASE + PHYSTOP
}.

#[export] Instance kernel_sym_ok : @LinkerOk kernel_sym.
Proof. split. vm_compute. split; congruence. Qed.
