(* ===== verification/Memory.v ===== *)
(** * Byte-addressed memory

    Memory is a finite map from addresses to bytes (an address never written
    reads as 0).  [load32]/[store32] are the 32-bit little-endian accesses of the
    i386, [load_bytes]/[store_bytes] move a run of bytes. *)

From stdpp Require Import base gmap list.
From Stdlib Require Import ZArith Lia.
From S2P Require Import Prelude.

Definition load8 (m : gmap Z Z) (a : Z) : Z := default 0 (m !! a).
Definition store8 (a v : Z) (m : gmap Z Z) : gmap Z Z := <[a := u8 v]> m.

Fixpoint store_bytes (a : Z) (l : list Z) (m : gmap Z Z) : gmap Z Z :=
  match l with
  | [] => m
  | v :: l => store_bytes (a + 1) l (store8 a v m)
  end.

Definition load_bytes (m : gmap Z Z) (a : Z) (n : nat) : list Z :=
  (fun i => load8 m (a + Z.of_nat i)) <$> seq 0 n.

Definition load32 (m : gmap Z Z) (a : Z) : Z := le_val (load_bytes m a 4).
Definition store32 (a v : Z) (m : gmap Z Z) : gmap Z Z := store_bytes a (le_bytes 4 v) m.

(** Every byte of the memory is one. *)
Definition mem_ok (m : gmap Z Z) : Prop := forall a, is_byte (load8 m a).

Lemma load8_store8 m a v x :
  load8 (store8 a v m) x = if decide (a = x) then u8 v else load8 m x.
Proof. unfold load8, store8. rewrite lookup_insert. by case_decide. Qed.

Lemma load8_store8_eq m a v : load8 (store8 a v m) a = u8 v.
Proof. rewrite load8_store8. by case_decide. Qed.

Lemma load8_store8_ne m a v x : a <> x -> load8 (store8 a v m) x = load8 m x.
Proof. intros ?. rewrite load8_store8. by case_decide. Qed.

Lemma load8_store_bytes m a l x :
  load8 (store_bytes a l m) x =
  if decide (a <= x < a + Z.of_nat (length l))
  then u8 (default 0 (l !! Z.to_nat (x - a))) else load8 m x.
Proof.
  revert a m. induction l as [|v l IH]; intros a m; simpl.
  - case_decide; [lia|done].
  - rewrite IH, load8_store8.
    destruct (decide (a = x)) as [->|Hne].
    + rewrite decide_False by lia. rewrite decide_True by lia.
      by rewrite Z.sub_diag.
    + destruct (decide (a + 1 <= x < a + 1 + Z.of_nat (length l))).
      * rewrite decide_True by lia.
        by replace (Z.to_nat (x - a)) with (S (Z.to_nat (x - (a + 1)))) by lia.
      * by rewrite decide_False by lia.
Qed.

Lemma load8_store_bytes_out m a l x :
  ~ (a <= x < a + Z.of_nat (length l)) -> load8 (store_bytes a l m) x = load8 m x.
Proof. intros. rewrite load8_store_bytes. by case_decide. Qed.

Lemma length_load_bytes m a n : length (load_bytes m a n) = n.
Proof. unfold load_bytes. by rewrite length_fmap, length_seq. Qed.

Lemma lookup_load_bytes m a n i :
  (i < n)%nat -> load_bytes m a n !! i = Some (load8 m (a + Z.of_nat i)).
Proof.
  intros. unfold load_bytes. rewrite list_lookup_fmap.
  rewrite (proj2 (lookup_seq 0 n i i)); [done|lia].
Qed.

Lemma load_bytes_ext m m' a n :
  (forall x, a <= x < a + Z.of_nat n -> load8 m x = load8 m' x) ->
  load_bytes m a n = load_bytes m' a n.
Proof.
  intros H. apply list_eq. intros i.
  destruct (decide (i < n)%nat).
  - rewrite !lookup_load_bytes by done. f_equal. apply H. lia.
  - rewrite !lookup_ge_None_2; [done|rewrite length_load_bytes; lia..].
Qed.

Lemma load_bytes_store_same m a l :
  Forall is_byte l -> load_bytes (store_bytes a l m) a (length l) = l.
Proof.
  intros Hl. apply list_eq. intros i.
  destruct (decide (i < length l)%nat) as [Hi|].
  - rewrite lookup_load_bytes by done. rewrite load8_store_bytes, decide_True by lia.
    replace (Z.to_nat (a + Z.of_nat i - a)) with i by lia.
    destruct (lookup_lt_is_Some_2 l i Hi) as [v Hv]. rewrite Hv. simpl.
    rewrite Forall_lookup in Hl. specialize (Hl i v Hv). unfold is_byte in Hl.
    unfold u8. by rewrite Z.mod_small by lia.
  - rewrite !lookup_ge_None_2; [done|lia|rewrite length_load_bytes; lia].
Qed.

Lemma load32_store32_same m a v : load32 (store32 a v m) a = u32 v.
Proof.
  unfold load32, store32. pose proof (load_bytes_store_same m a (le_bytes 4 v)) as H.
  rewrite length_le_bytes in H. rewrite H by apply le_bytes_is_byte.
  apply (le_val_bytes 4).
Qed.

Lemma load32_store_bytes_out m a l x :
  x + 4 <= a \/ a + Z.of_nat (length l) <= x ->
  load32 (store_bytes a l m) x = load32 m x.
Proof.
  intros. unfold load32. f_equal. apply load_bytes_ext. intros y Hy.
  apply load8_store_bytes_out. lia.
Qed.

Lemma load32_store32_out m a v x :
  x + 4 <= a \/ a + 4 <= x -> load32 (store32 a v m) x = load32 m x.
Proof. intros. apply load32_store_bytes_out. rewrite length_le_bytes. lia. Qed.

Lemma load32_ext m m' a :
  (forall x, a <= x < a + 4 -> load8 m x = load8 m' x) -> load32 m a = load32 m' a.
Proof. intros. unfold load32. f_equal. apply load_bytes_ext. auto. Qed.

Lemma mem_ok_empty : mem_ok ∅.
Proof. intros a. unfold load8. rewrite lookup_empty. unfold is_byte. simpl. lia. Qed.

Lemma mem_ok_store8 m a v : mem_ok m -> mem_ok (store8 a v m).
Proof.
  intros H x. rewrite load8_store8. case_decide; [|apply H].
  pose proof (u8_bounds v). unfold is_byte. lia.
Qed.

Lemma mem_ok_store_bytes m a l : mem_ok m -> mem_ok (store_bytes a l m).
Proof. revert a m. induction l; intros; simpl; eauto using mem_ok_store8. Qed.

Lemma load32_bounds m a : mem_ok m -> 0 <= load32 m a < 2 ^ 32.
Proof.
  intros H. unfold load32.
  pose proof (le_val_bounds (load_bytes m a 4)) as B. rewrite length_load_bytes in B.
  apply B, Forall_lookup. intros i v Hi.
  assert (i < 4)%nat by (apply lookup_lt_Some in Hi; by rewrite length_load_bytes in Hi).
  rewrite lookup_load_bytes in Hi by done. simplify_eq. apply H.
Qed.
