(* ===== verification/Queue.v ===== *)
(** * Circular buffers

    The console and the pipes keep a queue in an array used as a ring, with
    free-running 32-bit counters: position [n] is element [n % size].  [holds]
    says that the array has the elements of a list from a position on. *)

From stdpp Require Import base list.
From Stdlib Require Import ZArith Lia.
From S2P Require Import Prelude.

(** Element [n] of the ring. *)
Definition slot (size : nat) (n : Z) : nat := Z.to_nat (n mod Z.of_nat size).

Definition holds (size : nat) (buf : list Z) (r : Z) (l : list Z) : Prop :=
  forall j x, l !! j = Some x -> buf !! slot size (r + Z.of_nat j) = Some x.

Lemma slot_lt size n : (0 < size)%nat -> (slot size n < size)%nat.
Proof.
  intros H. unfold slot. pose proof (Z.mod_pos_bound n (Z.of_nat size)). lia.
Qed.

Lemma slot_u32 size n m : (0 < size)%nat -> (Z.of_nat size | 2 ^ 32) ->
  slot size (u32 n + m) = slot size (n + m).
Proof.
  intros H Hd. unfold slot, u32. f_equal.
  rewrite <- (Z.add_mod_idemp_l (n mod _)) by lia.
  by rewrite (Z.mod_mod_divide n _ _ Hd), Z.add_mod_idemp_l by lia.
Qed.

(** Two positions less than [size] apart are different slots. *)
Lemma slot_inj size r i j :
  0 <= i < Z.of_nat size -> 0 <= j < Z.of_nat size ->
  slot size (r + i) = slot size (r + j) -> i = j.
Proof.
  intros Hi Hj H. unfold slot in H.
  pose proof (Z.mod_pos_bound (r + i) (Z.of_nat size)).
  pose proof (Z.mod_pos_bound (r + j) (Z.of_nat size)).
  assert (E : (r + i) mod Z.of_nat size = (r + j) mod Z.of_nat size) by lia.
  pose proof (Z.div_mod (r + i) (Z.of_nat size)). pose proof (Z.div_mod (r + j) (Z.of_nat size)).
  assert ((r + i) / Z.of_nat size = (r + j) / Z.of_nat size); nia.
Qed.

Lemma holds_nil size buf r : holds size buf r [].
Proof. intros j x H. by rewrite lookup_nil in H. Qed.

Lemma holds_app_l size buf r l l' : holds size buf r (l ++ l') -> holds size buf r l.
Proof. intros H j x Hj. apply H. by apply lookup_app_l_Some. Qed.

Lemma holds_u32 size buf r l : (0 < size)%nat -> (Z.of_nat size | 2 ^ 32) ->
  holds size buf (u32 r) l <-> holds size buf r l.
Proof. intros Hs Hd. unfold holds. by setoid_rewrite slot_u32. Qed.

Lemma holds_push size buf r l c :
  length buf = size -> (length l < size)%nat -> holds size buf r l ->
  holds size (<[slot size (r + Z.of_nat (length l)) := c]> buf) r (l ++ [c]).
Proof.
  intros Hb Hl H j x Hj.
  assert (Hj' : (j <= length l)%nat).
  { apply lookup_lt_Some in Hj. rewrite length_app in Hj. simpl in Hj. lia. }
  destruct (decide (j = length l)) as [->|Hne].
  - rewrite lookup_app_r, Nat.sub_diag in Hj by done. simplify_eq/=.
    apply list_lookup_insert_eq. apply slot_lt. lia.
  - rewrite lookup_app_l in Hj by lia. rewrite list_lookup_insert_ne; [by apply H|].
    intros E. apply slot_inj in E; lia.
Qed.

Lemma holds_pop size buf r x l :
  holds size buf r (x :: l) -> buf !! slot size r = Some x /\ holds size buf (r + 1) l.
Proof.
  intros H. split.
  - specialize (H 0%nat x eq_refl). by rewrite Z.add_0_r in H.
  - intros j y Hj. specialize (H (S j) y Hj).
    by replace (r + 1 + Z.of_nat j) with (r + Z.of_nat (S j)) by lia.
Qed.

Lemma holds_last size buf r l x :
  holds size buf r (l ++ [x]) -> buf !! slot size (r + Z.of_nat (length l)) = Some x.
Proof. intros H. apply H. rewrite lookup_app_r, Nat.sub_diag; done. Qed.
