(* ===== verification/Bytes.v ===== *)
(** * Integers in the bytes of a disk block

    The structures on disk (log header, super block, inodes, indirect blocks,
    directory entries) are accessed by the kernel through casts of a block's
    bytes.  [rd n off data] is the [n]-byte little-endian integer at offset
    [off], [wr n off v data] stores one. *)

From stdpp Require Import base list.
From Stdlib Require Import ZArith Lia.
From S2P Require Import Prelude.

Definition rd (n off : nat) (data : list Z) : Z := le_val (take n (drop off data)).
Definition wr (n off : nat) (v : Z) (data : list Z) : list Z :=
  list_inserts off (le_bytes n v) data.

Lemma length_wr n off v data : length (wr n off v data) = length data.
Proof. apply length_inserts. Qed.

(** Two blocks that agree on the bytes of a range have the same integer there. *)
Lemma rd_ext n off data data' :
  (forall i, (off <= i < off + n)%nat -> data !! i = data' !! i) ->
  rd n off data = rd n off data'.
Proof.
  intros H. unfold rd. f_equal. apply list_eq. intros i.
  destruct (decide (i < n)%nat).
  - rewrite !lookup_take_lt, !lookup_drop by done. apply H. lia.
  - rewrite !lookup_take_ge by lia. done.
Qed.

Lemma take_drop_inserts off (l data : list Z) :
  (off + length l <= length data)%nat ->
  take (length l) (drop off (list_inserts off l data)) = l.
Proof.
  intros H. apply list_eq. intros i. destruct (decide (i < length l)%nat).
  - rewrite lookup_take_lt, lookup_drop, list_lookup_inserts by lia. f_equal. lia.
  - rewrite lookup_take_ge by lia. symmetry. apply lookup_ge_None. lia.
Qed.

Lemma rd_wr_same n off v data :
  (off + n <= length data)%nat -> rd n off (wr n off v data) = v mod 2 ^ (8 * Z.of_nat n).
Proof.
  intros H. unfold rd, wr. rewrite <- (length_le_bytes n v) at 1.
  rewrite take_drop_inserts by (by rewrite length_le_bytes). apply le_val_bytes.
Qed.

Lemma rd_wr_out n m off off' v data :
  (off + n <= off' \/ off' + m <= off)%nat -> rd n off (wr m off' v data) = rd n off data.
Proof.
  intros H. apply rd_ext. intros i Hi. unfold wr. destruct H.
  - apply list_lookup_inserts_lt. lia.
  - apply list_lookup_inserts_ge. rewrite length_le_bytes. lia.
Qed.

Lemma lookup_wr_out n off v data i :
  (i < off \/ off + n <= i)%nat -> wr n off v data !! i = data !! i.
Proof.
  intros [H|H]; unfold wr; [by apply list_lookup_inserts_lt|].
  apply list_lookup_inserts_ge. by rewrite length_le_bytes.
Qed.

Lemma Forall_is_byte_wr n off v data : Forall is_byte data -> Forall is_byte (wr n off v data).
Proof.
  intros H. apply Forall_lookup. intros i x Hx. unfold wr in Hx.
  apply list_lookup_inserts_Some in Hx as [[_ Hx]|(_ & _ & Hx)].
  - by apply (Forall_lookup_1 _ _ _ _ H Hx).
  - by apply (Forall_lookup_1 _ _ _ _ (le_bytes_is_byte n v) Hx).
Qed.

Lemma rd_bounds n off data :
  Forall is_byte data -> (off + n <= length data)%nat -> 0 <= rd n off data < 2 ^ (8 * Z.of_nat n).
Proof.
  intros H Hl. unfold rd.
  pose proof (le_val_bounds (take n (drop off data))) as B.
  rewrite length_take, length_drop, Nat.min_l in B by lia. apply B.
  by apply Forall_take, Forall_drop.
Qed.

(** An unsigned and a signed 32-bit integer read back as they were written. *)
Lemma rd32_wr32 off v data :
  (off + 4 <= length data)%nat -> rd 4 off (wr 4 off v data) = u32 v.
Proof. intros. by rewrite rd_wr_same. Qed.
