(* ===== verification/Ring.v ===== *)
(** * Circular doubly linked lists

    The list of buffers of bio.c, as the two functions [nx] and [pv] that give
    the successor and the predecessor of an element, with a sentinel [h]. *)

From stdpp Require Import base list sets.
From Stdlib Require Import Lia.

Definition fupd (f : nat -> nat) (i v : nat) : nat -> nat :=
  fun j => if decide (j = i) then v else f j.

(** Following [lk] from [x] visits [l] and arrives at [y]. *)
Fixpoint chain (lk : nat -> nat) (x : nat) (l : list nat) (y : nat) : Prop :=
  match l with
  | [] => lk x = y
  | a :: l => lk x = a /\ chain lk a l y
  end.

Lemma fupd_eq f i v : fupd f i v i = v.
Proof. unfold fupd. by rewrite decide_True. Qed.

Lemma fupd_ne f i v j : j <> i -> fupd f i v j = f j.
Proof. intros. unfold fupd. by rewrite decide_False. Qed.

Lemma chain_app lk x l1 b l2 y :
  chain lk x (l1 ++ b :: l2) y <-> chain lk x l1 b /\ chain lk b l2 y.
Proof. revert x. induction l1 as [|a l1 IH]; intros x; simpl; [tauto|]. rewrite IH. tauto. Qed.

Lemma chain_hd lk x l y : chain lk x l y -> lk x = hd y l.
Proof. destruct l; simpl; tauto. Qed.

(** The chain depends only on the links it follows; it can start elsewhere. *)
Lemma chain_start lk lk' x z l y :
  chain lk x l y -> lk' z = lk x -> (forall a, a ∈ l -> lk' a = lk a) -> chain lk' z l y.
Proof.
  revert x z. induction l as [|a l IH]; intros x z H Hz Hl; simpl in *; [congruence|].
  destruct H as [H1 H2]. split; [congruence|].
  apply (IH a); [done|apply Hl; set_solver|intros; apply Hl; set_solver].
Qed.

Lemma last_in (l : list nat) x : List.last l x ∈ x :: l.
Proof.
  destruct l as [|z l _] using rev_ind; [set_solver|]. rewrite List.last_last. set_solver.
Qed.

Lemma last_cons (l : list nat) a x : List.last (a :: l) x = List.last l a.
Proof.
  destruct l as [|z l _] using rev_ind; [done|]. by rewrite app_comm_cons, !List.last_last.
Qed.

(** Bypassing [b]: the element before it gets the link of [b]. *)
Lemma chain_unlink lk x l1 b l2 y :
  chain lk x (l1 ++ b :: l2) y -> NoDup (x :: l1 ++ b :: l2) ->
  chain (fupd lk (List.last l1 x) (lk b)) x (l1 ++ l2) y.
Proof.
  revert x. induction l1 as [|a l1 IH]; intros x H Hn; simpl in *.
  - destruct H as [_ H]. apply (chain_start lk _ b); [done|apply fupd_eq|].
    intros a Ha. apply fupd_ne. intros ->. apply NoDup_cons in Hn as [Hn _]. set_solver.
  - destruct H as [H1 H2]. apply NoDup_cons in Hn as [Hx Hn].
    change (match l1 with [] => a | _ :: _ => List.last l1 x end) with (List.last (a :: l1) x).
    rewrite last_cons. pose proof (last_in l1 a).
    split; [|by apply IH]. rewrite fupd_ne; [done|]. intros E. apply Hx. rewrite E.
    rewrite app_comm_cons, elem_of_app. by left.
Qed.

(** Appending [b] at the end. *)
Lemma chain_snoc lk x l b y :
  chain lk x l y -> NoDup (x :: l) -> b ∉ x :: l ->
  chain (fupd (fupd lk b y) (List.last l x) b) x (l ++ [b]) y.
Proof.
  intros H Hn Hb. apply chain_app. simpl.
  pose proof (last_in l x) as Hlast.
  split; [|rewrite fupd_ne, fupd_eq; [done|set_solver]].
  destruct l as [|z l _] using rev_ind; simpl.
  { by rewrite fupd_eq. }
  rewrite List.last_last. apply chain_app in H as [H1 _]. apply chain_app. simpl.
  split; [|by rewrite fupd_eq].
  apply (chain_start lk _ x); [done|..].
  - rewrite !fupd_ne; [done|set_solver|]. apply NoDup_cons in Hn as [Hn _]. set_solver.
  - intros a Ha. rewrite !fupd_ne; [done|set_solver|]. intros ->.
    apply NoDup_cons in Hn as [_ Hn]. apply NoDup_app in Hn as (_ & Hd & _).
    apply (Hd z Ha). set_solver.
Qed.

Section Ring.
Context (h : nat).

Record ring (nx pv : nat -> nat) (l : list nat) : Prop := {
  ring_nodup : NoDup (h :: l);
  ring_next : chain nx h l h;
  ring_prev : chain pv h (rev l) h
}.

Lemma nodup_rev l : NoDup (h :: l) -> NoDup (h :: rev l).
Proof. intros H. by rewrite <- (Permutation_rev l). Qed.

Lemma hd_rev l : hd h (rev l) = List.last l h.
Proof.
  destruct l as [|z l _] using rev_ind; [done|]. by rewrite rev_app_distr, List.last_last.
Qed.

Lemma ring_unlink nx pv l1 b l2 :
  ring nx pv (l1 ++ b :: l2) ->
  ring (fupd nx (pv b) (nx b)) (fupd pv (nx b) (pv b)) (l1 ++ l2).
Proof.
  intros [Hn Hx Hp]. pose proof (nodup_rev _ Hn) as Hn'.
  assert (E : rev (l1 ++ b :: l2) = rev l2 ++ b :: rev l1)
    by (rewrite rev_app_distr; simpl; by rewrite <- app_assoc).
  rewrite E in Hp, Hn'.
  assert (Hpb : pv b = List.last l1 h).
  { apply chain_app in Hp as [_ Hp]. apply chain_hd in Hp. by rewrite Hp, hd_rev. }
  assert (Hnb : nx b = List.last (rev l2) h).
  { apply chain_app in Hx as [_ Hx]. apply chain_hd in Hx. by rewrite Hx, <- hd_rev, rev_involutive. }
  split.
  - apply NoDup_cons in Hn as [H1 H2]. apply NoDup_cons. split; [set_solver|].
    apply NoDup_app in H2 as (A & B & C). apply NoDup_cons in C as [C1 C2].
    apply NoDup_app. split_and!; [done| |done]. set_solver.
  - rewrite Hpb. by apply chain_unlink.
  - rewrite rev_app_distr, Hnb. by apply chain_unlink.
Qed.

Lemma ring_push nx pv l b :
  ring nx pv l -> b ∉ h :: l ->
  ring (fupd (fupd nx b (nx h)) h b) (fupd (fupd pv b h) (nx h) b) (b :: l).
Proof.
  intros [Hn Hx Hp] Hb. split.
  - apply NoDup_cons in Hn as [H1 H2]. apply NoDup_cons. split; [set_solver|].
    apply NoDup_cons. set_solver.
  - simpl. split; [by rewrite fupd_eq|]. apply (chain_start nx _ h); [done|..].
    + rewrite fupd_ne, fupd_eq; [done|set_solver].
    + intros a Ha. apply NoDup_cons in Hn as [Hn _]. rewrite !fupd_ne; [done|set_solver..].
  - simpl. assert (Hnh : nx h = List.last (rev l) h).
    { apply chain_hd in Hx. by rewrite Hx, <- hd_rev, rev_involutive. }
    rewrite Hnh. apply chain_snoc; [done|by apply nodup_rev|].
    by rewrite <- (Permutation_rev l).
Qed.

End Ring.
