(* ===== verification/CString.v ===== *)
(** * string.c: the kernel's memory and string routines

    The routines of [string.c] on byte memory, pointer loops and all, and the
    theorems that give their meaning on runs of bytes. *)

From stdpp Require Import base gmap list.
From Stdlib Require Import ZArith Lia.
From S2P Require Import Prelude Memory.

(** [rep stosb] and [rep stosl] (x86.h). *)
Fixpoint stosb (addr data : Z) (cnt : nat) (m : gmap Z Z) : gmap Z Z :=
  match cnt with
  | O => m
  | S cnt => stosb (addr + 1) data cnt (store8 addr data m)
  end.

Fixpoint stosl (addr data : Z) (cnt : nat) (m : gmap Z Z) : gmap Z Z :=
  match cnt with
  | O => m
  | S cnt => stosl (addr + 4) data cnt (store32 addr data m)
  end.

(** The word [(c<<24)|(c<<16)|(c<<8)|c]. *)
Definition splat (c : Z) : Z :=
  Z.lor (Z.lor (Z.lor (Z.shiftl c 24) (Z.shiftl c 16)) (Z.shiftl c 8)) c.

Definition memset (dst c n : Z) (m : gmap Z Z) : gmap Z Z :=
  if (Z.rem (s32 dst) 4 =? 0) && (n mod 4 =? 0) then
    let c := Z.land c 0xFF in stosl dst (splat c) (Z.to_nat (n / 4)) m
  else stosb dst c (Z.to_nat n) m.

Fixpoint memcmp (m : gmap Z Z) (s1 s2 : Z) (n : nat) : Z :=
  match n with
  | O => 0
  | S n =>
      if load8 m s1 =? load8 m s2 then memcmp m (s1 + 1) (s2 + 1) n
      else load8 m s1 - load8 m s2
  end.

(** The two copying loops of [memmove]: downwards from the ends, upwards from
    the starts. *)
Fixpoint copy_down (d s : Z) (n : nat) (m : gmap Z Z) : gmap Z Z :=
  match n with
  | O => m
  | S n => copy_down (d - 1) (s - 1) n (store8 (d - 1) (load8 m (s - 1)) m)
  end.

Fixpoint copy_up (d s : Z) (n : nat) (m : gmap Z Z) : gmap Z Z :=
  match n with
  | O => m
  | S n => copy_up (d + 1) (s + 1) n (store8 d (load8 m s) m)
  end.

Definition memmove (dst src n : Z) (m : gmap Z Z) : gmap Z Z :=
  if (src <? dst) && (src + n >? dst) then copy_down (dst + n) (src + n) (Z.to_nat n) m
  else copy_up dst src (Z.to_nat n) m.

Fixpoint strncmp (m : gmap Z Z) (p q : Z) (n : nat) : Z :=
  match n with
  | O => 0
  | S n' =>
      if truth (load8 m p) && (load8 m p =? load8 m q)
      then strncmp m (p + 1) (q + 1) n'
      else load8 m p - load8 m q
  end.

Fixpoint strncpy (s t : Z) (n : nat) (m : gmap Z Z) : gmap Z Z :=
  match n with
  | O => m
  | S n =>
      let c := load8 m t in
      let m := store8 s c m in
      if truth c then strncpy (s + 1) (t + 1) n m else stosb (s + 1) 0 n m
  end.

(** The loop of [safestrcpy] with [n] already decremented: copy up to [n] bytes,
    then end the string. *)
Fixpoint safestrcpy_loop (s t : Z) (n : nat) (m : gmap Z Z) : gmap Z Z :=
  match n with
  | O => store8 s 0 m
  | S n =>
      let c := load8 m t in
      let m := store8 s c m in
      if truth c then safestrcpy_loop (s + 1) (t + 1) n m else store8 (s + 1) 0 m
  end.

Definition safestrcpy (s t n : Z) (m : gmap Z Z) : gmap Z Z :=
  if n <=? 0 then m else safestrcpy_loop s t (Z.to_nat (n - 1)) m.

(** [strlen] searches for the terminating zero; [fuel] bounds the search. *)
Fixpoint strlen (fuel : nat) (m : gmap Z Z) (s : Z) : option Z :=
  match fuel with
  | O => None
  | S fuel =>
      if load8 m s =? 0 then Some 0 else (fun n => n + 1) <$> strlen fuel m (s + 1)
  end.

(** ** What the loops do to each byte *)

Lemma u8_load8 m a : mem_ok m -> u8 (load8 m a) = load8 m a.
Proof. intros H. unfold u8. apply Z.mod_small. specialize (H a). unfold is_byte in H. lia. Qed.

Lemma load8_stosb m addr data cnt x :
  load8 (stosb addr data cnt m) x =
  if decide (addr <= x < addr + Z.of_nat cnt) then u8 data else load8 m x.
Proof.
  revert addr m. induction cnt as [|cnt IH]; intros addr m; simpl.
  - by rewrite decide_False by lia.
  - rewrite IH, load8_store8. repeat case_decide; done || lia.
Qed.

Lemma splat_bytes c : is_byte c -> le_bytes 4 (splat c) = [c; c; c; c].
Proof.
  intros Hc. unfold is_byte in Hc.
  assert (T : forallb (fun n => bool_decide
      (le_bytes 4 (splat (Z.of_nat n)) = replicate 4 (Z.of_nat n))) (seq 0 256) = true)
    by (vm_compute; reflexivity).
  rewrite forallb_forall in T. specialize (T (Z.to_nat c)).
  rewrite in_seq, bool_decide_eq_true, Z2Nat.id in T by lia. apply T. lia.
Qed.

Lemma load8_stosl m addr c cnt x :
  is_byte c ->
  load8 (stosl addr (splat c) cnt m) x =
  if decide (addr <= x < addr + 4 * Z.of_nat cnt) then c else load8 m x.
Proof.
  intros Hc. revert addr m. induction cnt as [|cnt IH]; intros addr m; cbn [stosl].
  - by rewrite decide_False by lia.
  - rewrite IH. unfold store32. rewrite splat_bytes by done.
    rewrite load8_store_bytes. cbn [length].
    destruct (decide (addr + 4 <= x < addr + 4 + 4 * Z.of_nat cnt)).
    + by rewrite decide_True by lia.
    + destruct (decide (addr <= x < addr + Z.of_nat 4)).
      * rewrite decide_True by lia.
        assert (C : u8 c = c) by (apply Z.mod_small; apply Hc).
        assert (H : x = addr \/ x = addr + 1 \/ x = addr + 2 \/ x = addr + 3) by lia.
        destruct H as [->|[->|[->| ->]]];
          rewrite ?Z.sub_diag, ?Z.add_simpl_l; simpl; done.
      * by rewrite decide_False by lia.
Qed.

Lemma load8_copy_up m d s n x :
  d <= s \/ s + Z.of_nat n <= d ->
  load8 (copy_up d s n m) x =
  if decide (d <= x < d + Z.of_nat n) then u8 (load8 m (s + (x - d))) else load8 m x.
Proof.
  revert d s m. induction n as [|n IH]; intros d s m H; cbn [copy_up].
  - by rewrite decide_False by lia.
  - rewrite IH by lia. rewrite !load8_store8.
    destruct (decide (d = x)) as [->|Hne].
    + rewrite !decide_False by lia. rewrite decide_True by lia.
      by rewrite Z.sub_diag, Z.add_0_r.
    + destruct (decide (d + 1 <= x < d + 1 + Z.of_nat n)).
      * rewrite (decide_False (P := d = _)) by lia. rewrite decide_True by lia.
        do 2 f_equal. lia.
      * by rewrite decide_False by lia.
Qed.

Lemma load8_copy_down m d s n x :
  s <= d ->
  load8 (copy_down d s n m) x =
  if decide (d - Z.of_nat n <= x < d) then u8 (load8 m (s + (x - d))) else load8 m x.
Proof.
  revert d s m. induction n as [|n IH]; intros d s m H; cbn [copy_down].
  - by rewrite decide_False by lia.
  - rewrite IH by lia. rewrite !load8_store8.
    destruct (decide (d - 1 = x)) as [<-|Hne].
    + rewrite !decide_False by lia. rewrite decide_True by lia. do 2 f_equal. lia.
    + destruct (decide (d - 1 - Z.of_nat n <= x < d - 1)).
      * rewrite (decide_False (P := d - 1 = _)) by lia. rewrite decide_True by lia.
        do 2 f_equal. lia.
      * by rewrite decide_False by lia.
Qed.

(** Two runs of bytes compared up to a zero: the meaning of [strncmp]. *)
Definition same_cstr (m : gmap Z Z) (p q : Z) (n : nat) : Prop :=
  forall i, (i < n)%nat ->
  (forall j, (j < i)%nat -> load8 m (p + Z.of_nat j) <> 0) ->
  load8 m (p + Z.of_nat i) = load8 m (q + Z.of_nat i).

Lemma strncmp_zero m p q n : strncmp m p q n = 0 <-> same_cstr m p q n.
Proof.
  revert p q. induction n as [|n IH]; intros p q; cbn [strncmp].
  - split; [intros _ i Hi; lia|done].
  - unfold truth. destruct (Z.eqb_spec (load8 m p) 0) as [Hz|Hnz]; cbn [negb andb].
    { split.
      - intros H i Hi Hj. destruct i as [|i].
        + rewrite !Z.add_0_r. lia.
        + specialize (Hj O ltac:(lia)). rewrite Z.add_0_r in Hj. done.
      - intros H. specialize (H O ltac:(lia) ltac:(lia)). rewrite !Z.add_0_r in H. lia. }
    destruct (Z.eqb_spec (load8 m p) (load8 m q)) as [He|Hne].
    + rewrite IH. split; intros H i Hi Hj.
      * destruct i as [|i]; [by rewrite !Z.add_0_r|].
        replace (p + Z.of_nat (S i)) with (p + 1 + Z.of_nat i) by lia.
        replace (q + Z.of_nat (S i)) with (q + 1 + Z.of_nat i) by lia.
        apply H; [lia|]. intros j Hji. specialize (Hj (S j) ltac:(lia)).
        by replace (p + 1 + Z.of_nat j) with (p + Z.of_nat (S j)) by lia.
      * replace (p + 1 + Z.of_nat i) with (p + Z.of_nat (S i)) by lia.
        replace (q + 1 + Z.of_nat i) with (q + Z.of_nat (S i)) by lia.
        apply H; [lia|]. intros [|j] Hji; [by rewrite Z.add_0_r|].
        replace (p + Z.of_nat (S j)) with (p + 1 + Z.of_nat j) by lia. apply Hj. lia.
    + split; [lia|]. intros H. specialize (H O ltac:(lia) ltac:(lia)).
      rewrite !Z.add_0_r in H. done.
Qed.

Lemma load8_safestrcpy_loop_out m s t n x :
  ~ (s <= x < s + Z.of_nat (S n)) -> load8 (safestrcpy_loop s t n m) x = load8 m x.
Proof.
  revert s t m. induction n as [|n IH]; intros s t m Hx; cbn [safestrcpy_loop].
  - rewrite load8_store8_ne; [done|lia].
  - destruct (truth _); [rewrite IH by lia|rewrite load8_store8_ne by lia];
      rewrite load8_store8_ne; done || lia.
Qed.

Lemma safestrcpy_loop_prefix m s t n :
  mem_ok m ->
  s + Z.of_nat (S n) <= t \/ t + Z.of_nat n <= s ->
  exists k, (k <= n)%nat
    /\ (forall i, (i < k)%nat -> load8 m (t + Z.of_nat i) <> 0)
    /\ (k = n \/ load8 m (t + Z.of_nat k) = 0)
    /\ (forall i, (i < k)%nat ->
          load8 (safestrcpy_loop s t n m) (s + Z.of_nat i) = load8 m (t + Z.of_nat i))
    /\ load8 (safestrcpy_loop s t n m) (s + Z.of_nat k) = 0.
Proof.
  revert s t m. induction n as [|n IH]; intros s t m Hm Hd; cbn [safestrcpy_loop].
  - exists O. repeat split; [lia..|by left|lia|]. by rewrite Z.add_0_r, load8_store8_eq.
  - unfold truth. destruct (Z.eqb_spec (load8 m t) 0) as [Hz|Hnz]; cbn [negb].
    { exists O. rewrite !Z.add_0_r. repeat split; [lia..|by right|lia|].
      rewrite load8_store8_ne by lia. by rewrite load8_store8_eq, Hz. }
    destruct (IH (s + 1) (t + 1) (store8 s (load8 m t) m)) as (k & Hk & Hnn & Hend & Hcp & H0);
      [by apply mem_ok_store8|lia|].
    assert (F : forall i, (i <= n)%nat -> i <> n \/ load8 m (t + 1 + Z.of_nat i) = 0 \/ True ->
      (i < n)%nat -> load8 (store8 s (load8 m t) m) (t + 1 + Z.of_nat i) = load8 m (t + Z.of_nat (S i))).
    { intros i _ _ Hi. rewrite load8_store8_ne by lia. f_equal. lia. }
    exists (S k). repeat split; [lia|..].
    + intros [|i] Hi; [by rewrite Z.add_0_r|]. rewrite <- F by (auto; lia). apply Hnn. lia.
    + destruct Hend as [->|Hend]; [by left|]. destruct (decide (k = n)) as [->|]; [by left|].
      right. by rewrite <- F by (auto; lia).
    + intros [|i] Hi.
      * rewrite !Z.add_0_r. rewrite load8_safestrcpy_loop_out by lia.
        rewrite load8_store8_eq. by apply u8_load8.
      * replace (s + Z.of_nat (S i)) with (s + 1 + Z.of_nat i) by lia.
        rewrite Hcp by lia. apply F; auto; lia.
    + by replace (s + Z.of_nat (S k)) with (s + 1 + Z.of_nat k) by lia.
Qed.

Lemma load8_memset (m : gmap Z Z) (dst c n x : Z) :
  0 <= n ->
  load8 (memset dst c n m) x = if decide (dst <= x < dst + n) then u8 c else load8 m x.
Proof.
intros Hn. unfold memset. destruct (_ && _) eqn:E.
  - apply andb_true_iff in E as [_ E]. apply Z.eqb_eq in E.
    assert (L : Z.land c 0xFF = u8 c) by (apply (Z.land_ones c 8); lia).
    rewrite L, load8_stosl by (pose proof (u8_bounds c); unfold is_byte; lia).
    rewrite Z2Nat.id by (apply Z.div_pos; lia).
    replace (4 * (n / 4)) with n; [done|]. apply Z_div_exact_full_2; lia.
  - rewrite load8_stosb, Z2Nat.id by lia. done.
Qed.

Lemma load8_memmove (m : gmap Z Z) (dst src n x : Z) :
  0 <= n ->
  load8 (memmove dst src n m) x =
  if decide (dst <= x < dst + n) then u8 (load8 m (src + (x - dst))) else load8 m x.
Proof.
  intros Hn. unfold memmove. destruct (_ && _) eqn:C.
  - apply andb_true_iff in C as [C _]. apply Z.ltb_lt in C.
    rewrite load8_copy_down, Z2Nat.id by lia.
    replace (dst + n - n) with dst by lia.
    by replace (src + n + (x - (dst + n))) with (src + (x - dst)) by lia.
  - rewrite andb_false_iff, Z.ltb_ge, Z.gtb_ltb, Z.ltb_ge in C.
    rewrite load8_copy_up, Z2Nat.id by lia. done.
Qed.

(** ** Properties *)

(** [memset] fills exactly the [n] bytes at [dst] with the low byte of [c],
    also when it takes the word-at-a-time path, and touches no other byte. *)
Theorem memset_fills (m : gmap Z Z) (dst c n : Z) :
  0 <= n ->
  load_bytes (memset dst c n m) dst (Z.to_nat n) = replicate (Z.to_nat n) (u8 c)
  /\ forall x, ~ (dst <= x < dst + n) -> load8 (memset dst c n m) x = load8 m x.
Proof.
  intros Hn. split; [|intros; by rewrite load8_memset, decide_False].
  apply list_eq. intros i. destruct (decide (i < Z.to_nat n)%nat).
  - rewrite lookup_load_bytes, load8_memset, decide_True, lookup_replicate_2 by lia. done.
  - rewrite !lookup_ge_None_2; [done|rewrite ?length_load_bytes, ?length_replicate; lia..].
Qed.

Lemma memset_fills_witness :
  load_bytes (memset 8 0x1ff 12 ∅) 8 12 = replicate 12 0xff
  /\ load8 (memset 8 0x1ff 12 ∅) 20 = 0.
Proof.
  destruct (memset_fills ∅ 8 0x1ff 12 ltac:(lia)) as [H1 H2].
  split; [exact H1|]. rewrite H2 by lia. reflexivity.
Defined.

(** [memmove] leaves at [dst] the [n] bytes that were at [src], whatever the
    overlap of the two runs, and changes nothing outside the destination. *)
Theorem memmove_copies (m : gmap Z Z) (dst src n : Z) :
  mem_ok m -> 0 <= n ->
  load_bytes (memmove dst src n m) dst (Z.to_nat n) = load_bytes m src (Z.to_nat n)
  /\ forall x, ~ (dst <= x < dst + n) -> load8 (memmove dst src n m) x = load8 m x.
Proof.
  intros Hm Hn. split; intros; [|by rewrite load8_memmove, decide_False].
  apply list_eq. intros i. destruct (decide (i < Z.to_nat n)%nat).
  - rewrite !lookup_load_bytes, load8_memmove, decide_True, u8_load8 by (done || lia).
    do 2 f_equal. lia.
  - rewrite !lookup_ge_None_2; [done|rewrite length_load_bytes; lia..].
Qed.

Lemma memmove_copies_witness :
  let m := store_bytes 100 [1; 2; 3; 4; 5; 6] ∅ in
  load_bytes (memmove 102 100 4 m) 102 4 = [1; 2; 3; 4]
  /\ load8 (memmove 102 100 4 m) 101 = 2.
Proof.
  intros m.
  assert (Hm : mem_ok m) by (apply mem_ok_store_bytes, mem_ok_empty).
  destruct (memmove_copies m 102 100 4 Hm ltac:(lia)) as [H1 H2].
  split; [exact H1|]. rewrite H2 by lia. reflexivity.
Defined.

(** [safestrcpy] writes only the [n] bytes of its destination and leaves in
    it a zero-terminated string: the longest prefix of the source string that
    fits in [n - 1] bytes. *)
Theorem safestrcpy_terminates_string (m : gmap Z Z) (s t n : Z) :
  mem_ok m -> 0 < n -> s + n <= t \/ t + (n - 1) <= s ->
  exists k : nat, Z.of_nat k < n
    /\ (forall i, (i < k)%nat -> load8 m (t + Z.of_nat i) <> 0)
    /\ (Z.of_nat k = n - 1 \/ load8 m (t + Z.of_nat k) = 0)
    /\ load_bytes (safestrcpy s t n m) s k = load_bytes m t k
    /\ load8 (safestrcpy s t n m) (s + Z.of_nat k) = 0
    /\ forall x, ~ (s <= x < s + n) -> load8 (safestrcpy s t n m) x = load8 m x.
Proof.
  intros Hm Hn Hd. unfold safestrcpy. destruct (Z.leb_spec n 0); [lia|].
  destruct (safestrcpy_loop_prefix m s t (Z.to_nat (n - 1)) Hm) as (k & Hk & Hnn & He & Hc & H0);
    [lia|].
  exists k. split_and!; [lia|done| |..].
  - destruct He; [left; lia|by right].
  - apply list_eq. intros i. destruct (decide (i < k)%nat).
    + rewrite !lookup_load_bytes by done. f_equal. by apply Hc.
    + rewrite !lookup_ge_None_2; [done|rewrite length_load_bytes; lia..].
  - done.
  - intros x Hx. apply load8_safestrcpy_loop_out. lia.
Qed.

Lemma safestrcpy_terminates_string_witness :
  let m := store_bytes 100 [115; 104; 0] ∅ in
  exists k : nat, Z.of_nat k < 16 /\ load8 (safestrcpy 0 100 16 m) (0 + Z.of_nat k) = 0.
Proof.
  intros m.
  assert (Hm : mem_ok m) by (apply mem_ok_store_bytes, mem_ok_empty).
  destruct (safestrcpy_terminates_string m 0 100 16 Hm ltac:(lia) ltac:(lia))
    as (k & Hk & _ & _ & _ & H0 & _).
  exists k. split; [exact Hk|exact H0].
Defined.
