(* ===== verification/Spinlock.v ===== *)
(** * spinlock.c: spin-locks and interrupt disabling

    [mycpu], [cpuid] and [myproc] of [proc.c], the routines of [spinlock.c], the
    exact effect of a critical section on the kernel state, and a step relation
    of several CPUs contending for one lock. *)

From stdpp Require Import base gmap list strings.
From Stdlib Require Import ZArith Lia.
From S2P Require Import Prelude State Memory.

(** ** Processor primitives (x86.h) *)

Definition readeflags : K Z := gets (fun k => if k_if k then FL_IF else 0).
Definition cli : K unit := modify (set_k_if false).
Definition sti : K unit := modify (set_k_if true).

(** The loop of [mycpu] over [cpus]. *)
Fixpoint find_cpu (apicid : Z) (i : nat) (cpus : list cpu) : option nat :=
  match cpus with
  | [] => None
  | c :: cpus => if c_apicid c =? apicid then Some i else find_cpu apicid (S i) cpus
  end.

Definition mycpu : K nat :=
  fl <- readeflags;;
  if truth (Z.land fl FL_IF) then panic ("mycpu called with interrupts enabled" +:+ newline) else
  k <- get;;
  match find_cpu (k_apicid k) 0 (k_cpus k) with
  | Some i => ret i
  | None => panic ("unknown apicid" +:+ newline)
  end.

(** [cpuid]: the index in [cpus] of the pointer [mycpu] returns. *)
Definition cpuid : K Z := c <- mycpu;; ret (Z.of_nat c).

Definition pushcli : K unit :=
  eflags <- readeflags;;
  cli;;
  c <- mycpu;;
  ncli <- gets (fun k => c_ncli (cpu_at k c));;
  when (ncli =? 0) (c <- mycpu;; modify (upd_cpu c (set_c_intena (Z.land eflags FL_IF))));;
  c <- mycpu;;
  modify (upd_cpu c (fun r => set_c_ncli (c_ncli r + 1) r)).

Definition popcli : K unit :=
  eflags <- readeflags;;
  if truth (Z.land eflags FL_IF) then panic "popcli - interruptible" else
  c <- mycpu;;
  modify (upd_cpu c (fun r => set_c_ncli (c_ncli r - 1) r));;
  ncli <- gets (fun k => c_ncli (cpu_at k c));;
  if ncli <? 0 then panic "popcli" else
  c <- mycpu;;
  r <- gets (fun k => cpu_at k c);;
  when ((c_ncli r =? 0) && truth (c_intena r)) sti.

Definition myproc : K (option nat) :=
  pushcli;;
  c <- mycpu;;
  p <- gets (fun k => c_proc (cpu_at k c));;
  popcli;;
  ret p.

(** ** Locks *)

Definition initlock (lk : lockid) (name : string) : K unit :=
  modify (upd_lock lk (fun l => set_lk_cpu None (set_lk_locked 0 (set_lk_name name l)))).

(** The test of [holding] for CPU [c]. *)
Definition held_by (c : nat) (l : spinlock) : bool :=
  truth (lk_locked l) && bool_decide (lk_cpu l = Some c).

Definition holding (lk : lockid) : K bool :=
  pushcli;;
  l <- gets (fun k => lock_at k lk);;
  r <- (if truth (lk_locked l) then c <- mycpu;; ret (held_by c l) else ret false);;
  popcli;;
  ret r.

(** The atomic exchange of [acquire]. *)
Definition xchg_locked (lk : lockid) (newval : Z) : K Z :=
  old <- gets (fun k => lk_locked (lock_at k lk));;
  modify (upd_lock lk (set_lk_locked newval));;
  ret old.

Definition acquire (lk : lockid) : K unit :=
  pushcli;;
  h <- holding lk;;
  if h then panic "acquire" else
  waiting (fun _ : unit =>
    old <- xchg_locked lk 1;;
    if truth old then others;; ret (inl tt) else ret (inr tt)) tt;;
  c <- mycpu;;
  modify (upd_lock lk (set_lk_cpu (Some c))).

Definition release (lk : lockid) : K unit :=
  h <- holding lk;;
  if negb h then panic "release" else
  modify (upd_lock lk (set_lk_cpu None));;
  modify (upd_lock lk (set_lk_locked 0));;
  popcli.

(** [getcallerpcs] follows the chain of saved frame pointers from [v], the
    address of the caller's first argument. *)
Fixpoint getcallerpcs_loop (n : nat) (m : gmap Z Z) (ebp : Z) : list Z :=
  match n with
  | O => []
  | S n' =>
      if (ebp =? 0) || (ebp <? KERNBASE) || (ebp =? 0xffffffff) then replicate n 0
      else load32 m (ebp + 4) :: getcallerpcs_loop n' m (load32 m ebp)
  end.

Definition getcallerpcs (m : gmap Z Z) (v : Z) : list Z := getcallerpcs_loop 10 m (v - 8).

(** ** The state of a CPU between lock operations

    [settled k c]: the running CPU is [cpus[c]] and its [ncli], [intena] and
    interrupt flag agree, as they do whenever [pushcli] and [popcli] are the only
    code that changed them. *)
Record settled (k : kstate) (c : nat) : Prop := {
  st_find : find_cpu (k_apicid k) 0 (k_cpus k) = Some c;
  st_ncli : 0 <= c_ncli (cpu_at k c);
  st_off : 0 < c_ncli (cpu_at k c) -> k_if k = false;
  st_intena : c_ncli (cpu_at k c) = 0 -> c_intena (cpu_at k c) = if k_if k then FL_IF else 0
}.

(** The state after [pushcli], and after [acquire] of the lock [lk]. *)
Definition push (c : nat) (k : kstate) : kstate :=
  set_k_if false (upd_cpu c (fun r => set_c_ncli (c_ncli r + 1) r) k).

Definition locked (c : nat) (lk : lockid) (k : kstate) : kstate :=
  upd_lock lk (fun l => set_lk_cpu (Some c) (set_lk_locked 1 l)) (push c k).

(** A lock nobody holds. *)
Definition lock_free (k : kstate) (lk : lockid) : Prop :=
  exists name, k_locks k !! lk = Some (mk_spinlock 0 name None).

Lemma find_cpu_lookup apicid i cpus c :
  find_cpu apicid i cpus = Some c ->
  exists r, cpus !! (c - i)%nat = Some r /\ c_apicid r = apicid /\ (i <= c)%nat.
Proof.
  revert i. induction cpus as [|r cpus IH]; intros i H; simpl in H; [done|].
  destruct (Z.eqb_spec (c_apicid r) apicid).
  - simplify_eq. exists r. rewrite Nat.sub_diag. simpl. auto.
  - apply IH in H as (r' & H1 & H2 & H3). exists r'. split_and!; [|done|lia].
    by replace (c - i)%nat with (S (c - S i)) by lia.
Qed.

Lemma find_cpu_alter apicid i cpus f j :
  (forall r, c_apicid (f r) = c_apicid r) ->
  find_cpu apicid i (alter f j cpus) = find_cpu apicid i cpus.
Proof.
  intros Hf. revert i j. induction cpus as [|r cpus IH]; intros i [|j]; simpl; [done..| |].
  - by rewrite Hf.
  - destruct (_ =? _); [done|apply IH].
Qed.

Lemma settled_lookup k c : settled k c -> k_cpus k !! c = Some (cpu_at k c).
Proof.
  intros [H _ _ _]. apply find_cpu_lookup in H as (r & H & _ & _).
  rewrite Nat.sub_0_r in H. unfold cpu_at. by rewrite H.
Qed.

Lemma cpu_at_upd k c f :
  is_Some (k_cpus k !! c) -> cpu_at (upd_cpu c f k) c = f (cpu_at k c).
Proof.
  intros [r Hr]. unfold cpu_at, upd_cpu. simpl. rewrite list_lookup_alter.
  rewrite decide_True by done. by rewrite Hr.
Qed.

Lemma upd_cpu_id k c f :
  k_cpus k !! c = Some (cpu_at k c) -> f (cpu_at k c) = cpu_at k c -> upd_cpu c f k = k.
Proof.
  intros H1 H2. unfold upd_cpu. rewrite (alter_self _ _ _ _ H1 H2). by destruct k.
Qed.

(** [settled] and [lock_free] look at few fields of the state. *)
Lemma settled_ext k k' c :
  k_apicid k' = k_apicid k -> k_cpus k' = k_cpus k -> k_if k' = k_if k ->
  settled k c -> settled k' c.
Proof.
  intros H1 H2 H3 [A B C D]. unfold cpu_at in *. split; unfold cpu_at; rewrite ?H1, ?H2, ?H3; done.
Qed.

Lemma lock_free_ext k k' lk : k_locks k' = k_locks k -> lock_free k lk -> lock_free k' lk.
Proof. intros E [n H]. exists n. by rewrite E. Qed.

(** Solves [settled] and [lock_free] of a state that differs from one in the
    context in other fields. *)
Ltac other_fields :=
  match goal with
  | H : settled ?k ?c |- settled _ ?c => apply (settled_ext k); [reflexivity..|exact H]
  | H : lock_free ?k ?lk |- lock_free _ ?lk => apply (lock_free_ext k); [reflexivity|exact H]
  end.

Lemma mycpu_off k c e :
  k_if k = false -> find_cpu (k_apicid k) 0 (k_cpus k) = Some c -> mycpu k e = Done c k e.
Proof.
  intros H1 H2. unfold mycpu, bind, readeflags, gets, get, ret. rewrite H1. simpl.
  by rewrite H2.
Qed.

Lemma settled_push k c : settled k c -> settled (push c k) c.
Proof.
  intros Hs. pose proof (settled_lookup k c Hs) as Hl. destruct Hs as [H1 H2 H3 H4].
  assert (E : cpu_at (push c k) c = set_c_ncli (c_ncli (cpu_at k c) + 1) (cpu_at k c)).
  { unfold push. change (cpu_at (set_k_if false ?x) c) with (cpu_at x c).
    by rewrite cpu_at_upd by (rewrite Hl; eauto). }
  split; rewrite ?E; simpl; [|lia|done|lia].
  by rewrite find_cpu_alter by done.
Qed.

Lemma pushcli_settled k c e : settled k c -> pushcli k e = Done tt (push c k) e.
Proof.
  intros Hs. pose proof (settled_lookup k c Hs) as Hl. destruct Hs as [H1 H2 H3 H4].
  unfold pushcli, cli, readeflags, gets, modify. unfold bind at 1 2.
  set (k1 := set_k_if false k).
  assert (M1 : forall e, mycpu k1 e = Done c k1 e) by (intros; by apply mycpu_off).
  rewrite (bind_done _ _ _ _ _ _ _ (M1 e)). unfold bind at 1.
  assert (W : when (c_ncli (cpu_at k1 c) =? 0) (c <- mycpu;; (fun s e => Done tt
     (upd_cpu c (set_c_intena (Z.land (if k_if k then FL_IF else 0) FL_IF)) s) e)) k1 e
     = Done tt k1 e).
  { unfold when. destruct (Z.eqb_spec (c_ncli (cpu_at k1 c)) 0) as [Hz|]; [|done].
    rewrite (bind_done _ _ _ _ _ _ _ (M1 e)). f_equal. apply upd_cpu_id; [done|].
    change (cpu_at k1 c) with (cpu_at k c). specialize (H4 Hz).
    destruct (cpu_at k c); simpl in *. rewrite H4. by destruct (k_if k). }
  rewrite (bind_done _ _ _ _ _ _ _ W). by rewrite (bind_done _ _ _ _ _ _ _ (M1 e)).
Qed.

Lemma popcli_push k c e : settled k c -> popcli (push c k) e = Done tt k e.
Proof.
  intros Hs. pose proof (settled_lookup k c Hs) as Hl. pose proof (settled_push k c Hs) as Hp.
  pose proof (st_find _ _ Hp) as Hf. destruct Hs as [H1 H2 H3 H4].
  set (k1 := set_k_if false k).
  assert (E : upd_cpu c (fun r => set_c_ncli (c_ncli r - 1) r) (push c k) = k1).
  { unfold push, upd_cpu. simpl. rewrite alter_alter.
    rewrite (alter_self _ _ _ _ Hl); [by destruct k|].
    destruct (cpu_at k c). unfold set_c_ncli. simpl. f_equal. lia. }
  assert (M1 : forall e, mycpu k1 e = Done c k1 e) by (intros; by apply mycpu_off).
  unfold popcli, readeflags, gets, modify, sti. unfold bind at 1. simpl (k_if (push c k)).
  cbn iota. change (truth (Z.land 0 FL_IF)) with false. cbn iota.
  rewrite (bind_done _ _ _ _ _ _ _ (mycpu_off (push c k) c e eq_refl Hf)).
  unfold bind at 1. rewrite E. unfold bind at 1.
  change (cpu_at k1 c) with (cpu_at k c).
  destruct (Z.ltb_spec (c_ncli (cpu_at k c)) 0); [lia|].
  rewrite (bind_done _ _ _ _ _ _ _ (M1 e)). unfold bind at 1.
  change (cpu_at k1 c) with (cpu_at k c). unfold when.
  destruct (Z.eqb_spec (c_ncli (cpu_at k c)) 0) as [Hz|Hnz]; cbn [andb].
  - rewrite (H4 Hz). destruct (k_if k) eqn:Hif; cbn; f_equal; destruct k; simpl in *;
      by subst.
  - unfold ret. f_equal. assert (k_if k = false) as Hif by (apply H3; lia).
    destruct k; simpl in *; by subst.
Qed.

(** ** The exact effect of the lock routines *)

Lemma upd_lock_upd_lock lk f g k :
  upd_lock lk f (upd_lock lk g k) = upd_lock lk (fun l => f (g l)) k.
Proof.
  unfold upd_lock, lock_at. simpl. rewrite lookup_insert_eq. simpl.
  by rewrite insert_insert_eq.
Qed.

Lemma settled_upd_lock k c lk f : settled k c -> settled (upd_lock lk f k) c.
Proof. intros []. by split. Qed.

Lemma settled_locked k c lk : settled k c -> settled (locked c lk k) c.
Proof. intros. by apply settled_upd_lock, settled_push. Qed.

Lemma lock_at_free k lk : lock_free k lk -> lk_locked (lock_at k lk) = 0.
Proof. intros [name H]. unfold lock_at. by rewrite H. Qed.

Lemma lock_at_locked k c lk :
  lock_at (locked c lk k) lk = set_lk_cpu (Some c) (set_lk_locked 1 (lock_at k lk)).
Proof. unfold locked, lock_at at 1, upd_lock. simpl. by rewrite lookup_insert_eq. Qed.

Lemma held_by_locked k c lk : held_by c (lock_at (locked c lk k) lk) = true.
Proof. rewrite lock_at_locked. unfold held_by. simpl. by rewrite bool_decide_true. Qed.

Lemma lock_free_locked k c lk lk' :
  lk <> lk' -> lock_free k lk' -> lock_free (locked c lk k) lk'.
Proof. intros ? [n H]. exists n. simpl. by rewrite lookup_insert_ne. Qed.

Lemma holding_settled k c lk e :
  settled k c -> holding lk k e = Done (held_by c (lock_at k lk)) k e.
Proof.
  intros Hs. unfold holding. run (pushcli_settled k c e Hs). unfold bind at 1, gets.
  change (lock_at (push c k) lk) with (lock_at k lk).
  pose proof (settled_push k c Hs) as Hp.
  assert (E : (if truth (lk_locked (lock_at k lk))
      then c <- mycpu;; ret (held_by c (lock_at k lk)) else ret false) (push c k) e
      = Done (held_by c (lock_at k lk)) (push c k) e).
  { unfold held_by. destruct (truth _); [|done].
    by run (mycpu_off (push c k) c e eq_refl (st_find _ _ Hp)). }
  run E. by run (popcli_push k c e Hs).
Qed.

Lemma acquire_free k c lk e :
  settled k c -> lock_free k lk -> acquire lk k e = Done tt (locked c lk k) e.
Proof.
  intros Hs Hf. unfold acquire. run (pushcli_settled k c e Hs).
  pose proof (settled_push k c Hs) as Hp. run (holding_settled _ _ lk e Hp).
  change (lock_at (push c k) lk) with (lock_at k lk).
  unfold held_by. rewrite (lock_at_free k lk Hf). cbn [truth negb Z.eqb andb].
  set (k1 := upd_lock lk (set_lk_locked 1) (push c k)).
  assert (W : waiting (fun _ : unit => old <- xchg_locked lk 1;;
      (if truth old then others;; ret (inl tt) else ret (inr tt))) tt (push c k) e
      = Done tt k1 e).
  { unfold waiting. cbn [iter Nat.add]. unfold bind at 1 2, xchg_locked, gets, modify.
    unfold bind at 1 2. change (lock_at (push c k) lk) with (lock_at k lk).
    by rewrite (lock_at_free k lk Hf). }
  run W. run (mycpu_off k1 c e eq_refl (st_find _ _ Hp)).
  unfold modify. f_equal. unfold k1, locked. by rewrite upd_lock_upd_lock.
Qed.

Lemma release_locked k c lk e :
  settled k c -> lock_free k lk -> release lk (locked c lk k) e = Done tt k e.
Proof.
  intros Hs Hf. unfold release. run (holding_settled _ _ lk e (settled_locked k c lk Hs)).
  rewrite held_by_locked. cbn [negb]. unfold bind at 1 2, modify.
  unfold locked. rewrite !upd_lock_upd_lock.
  replace (upd_lock lk _ (push c k)) with (push c k); [by apply popcli_push|].
  destruct Hf as [name Hf]. unfold upd_lock, lock_at. simpl. rewrite Hf. simpl.
  unfold set_lk_locked, set_lk_cpu. simpl. rewrite insert_id by done. by destruct k.
Qed.

Lemma myproc_settled k c e :
  settled k c -> myproc k e = Done (c_proc (cpu_at k c)) k e.
Proof.
  intros Hs. unfold myproc. run (pushcli_settled k c e Hs).
  pose proof (settled_push k c Hs) as Hp.
  run (mycpu_off (push c k) c e eq_refl (st_find _ _ Hp)). unfold bind at 1, gets.
  run (popcli_push k c e Hs). unfold ret. f_equal. unfold push.
  change (cpu_at (set_k_if false ?x) c) with (cpu_at x c).
  rewrite cpu_at_upd; [done|]. rewrite (settled_lookup k c Hs). eauto.
Qed.

Lemma acquire_held k c lk e :
  settled k c -> held_by c (lock_at k lk) = true ->
  acquire lk k e = Panic "acquire" (push c k).
Proof.
  intros Hs Hh. unfold acquire. run (pushcli_settled k c e Hs).
  run (holding_settled _ _ lk e (settled_push k c Hs)).
  change (lock_at (push c k) lk) with (lock_at k lk). by rewrite Hh.
Qed.

Lemma release_not_held k c lk e :
  settled k c -> held_by c (lock_at k lk) = false -> release lk k e = Panic "release" k.
Proof.
  intros Hs Hh. unfold release. run (holding_settled _ _ lk e Hs). by rewrite Hh.
Qed.

(** A critical section: what runs between [acquire] and [release] sees the lock
    held and may change anything else. *)
Lemma critical_section {A} lk (body : K A) k c e k' e' (a : A) :
  settled k c -> lock_free k lk ->
  settled k' c -> lock_free k' lk ->
  body (locked c lk k) e = Done a (locked c lk k') e' ->
  (acquire lk;; a <- body;; release lk;; ret a) k e = Done a k' e'.
Proof.
  intros Hs Hf Hs' Hf' Hb. run (acquire_free k c lk e Hs Hf). run Hb.
  by run (release_locked k' c lk e' Hs' Hf').
Qed.

Fixpoint times (n : nat) (m : K unit) : K unit :=
  match n with
  | O => ret tt
  | S n => m;; times n m
  end.

Lemma times_snoc n m k e : times (S n) m k e = (times n m;; m) k e.
Proof.
  revert k e. induction n as [|n IH]; intros k e.
  - cbn [times]. unfold bind, ret. by destruct (m k e) as [[]| |].
  - change (times (S (S n)) m) with (m;; times (S n) m).
    change (times (S n) m) with (m;; times n m) at 2. rewrite bind_assoc.
    unfold bind at 1 2. destruct (m k e); [apply IH|done..].
Qed.

Lemma times_pushcli n k c e :
  settled k c -> times n pushcli k e = Done tt (Nat.iter n (push c) k) e
    /\ settled (Nat.iter n (push c) k) c.
Proof.
  intros Hs. induction n as [|n [IH1 IH2]]; [done|].
  rewrite times_snoc. run IH1. simpl. split; [by apply pushcli_settled|by apply settled_push].
Qed.

Lemma times_popcli n k c e :
  settled k c -> times n popcli (Nat.iter n (push c) k) e = Done tt k e.
Proof.
  intros Hs. induction n as [|n IH]; [done|]. cbn [times Nat.iter].
  by run (popcli_push _ _ e (proj2 (times_pushcli n k c e Hs))).
Qed.

(** ** Several CPUs and one lock

    Each CPU runs [acquire] and [release] on the same lock forever.  A step is one
    access of one CPU to the shared lock; between two of its accesses any other CPU may run. *)
Module Contention.

(** Where a CPU is: outside; in the [holding] of [acquire], having read [lk->locked]; in the [xchg]
    loop; between the successful [xchg] and the store to [lk->cpu]; in the critical section; in the [holding]
    of [release], having read [lk->locked]; before the store that clears [lk->cpu]; before the one that clears
    [lk->locked]; or in [panic]. *)
Inductive pc : Type :=
  Outside | Checking | Spinning | Acquired | Critical | Confirming | Clearing | Releasing | Panicked.

Record mstate : Type := { m_lock : spinlock; m_pc : nat -> pc }.

Definition goto (c : nat) (p : pc) (l : spinlock) (s : mstate) : mstate :=
  {| m_lock := l; m_pc := fun d => if decide (d = c) then p else m_pc s d |}.

Inductive step : mstate -> mstate -> Prop :=
| step_check c s :
    m_pc s c = Outside ->
    step s (goto c (if truth (lk_locked (m_lock s)) then Checking else Spinning) (m_lock s) s)
| step_check_cpu c s :
    m_pc s c = Checking ->
    step s (goto c (if bool_decide (lk_cpu (m_lock s) = Some c) then Panicked else Spinning) (m_lock s) s)
| step_xchg c s :
    m_pc s c = Spinning ->
    step s (goto c (if truth (lk_locked (m_lock s)) then Spinning else Acquired)
              (set_lk_locked 1 (m_lock s)) s)
| step_record c s :
    m_pc s c = Acquired ->
    step s (goto c Critical (set_lk_cpu (Some c) (m_lock s)) s)
| step_confirm c s :
    m_pc s c = Critical ->
    step s (goto c (if truth (lk_locked (m_lock s)) then Confirming else Panicked) (m_lock s) s)
| step_confirm_cpu c s :
    m_pc s c = Confirming ->
    step s (goto c (if bool_decide (lk_cpu (m_lock s) = Some c) then Clearing else Panicked) (m_lock s) s)
| step_clear c s :
    m_pc s c = Clearing ->
    step s (goto c Releasing (set_lk_cpu None (m_lock s)) s)
| step_unlock c s :
    m_pc s c = Releasing ->
    step s (goto c Outside (set_lk_locked 0 (m_lock s)) s).

Definition initial (name : string) : mstate :=
  {| m_lock := mk_spinlock 0 name None; m_pc := fun _ => Outside |}.

Definition owns (p : pc) : bool :=
  match p with Acquired | Critical | Confirming | Clearing | Releasing => true | _ => false end.

(** While it is recorded in [lk->cpu]. *)
Definition recorded (p : pc) : bool :=
  match p with Critical | Confirming | Clearing => true | _ => false end.

(** At most one CPU owns the lock, the lock word is set while one does, and
    [lk->cpu] names the CPU that has recorded itself there, if there is one. *)
Record inv (s : mstate) : Prop := {
  inv_panic : forall c, m_pc s c <> Panicked;
  inv_unique : forall c d, owns (m_pc s c) = true -> owns (m_pc s d) = true -> c = d;
  inv_locked : forall c, owns (m_pc s c) = true -> truth (lk_locked (m_lock s)) = true;
  inv_cpu : forall c, lk_cpu (m_lock s) = Some c <-> recorded (m_pc s c) = true
}.

Lemma inv_initial name : inv (initial name).
Proof. split; simpl; done. Qed.

Lemma recorded_owns p : recorded p = true -> owns p = true.
Proof. by destruct p. Qed.

Lemma held_by_recorded s c : inv s -> held_by c (m_lock s) = true <-> recorded (m_pc s c) = true.
Proof.
  intros I. unfold held_by. rewrite andb_true_iff, bool_decide_eq_true, (inv_cpu _ I c).
  split; [tauto|]. intros H. split; [|done]. by apply (inv_locked _ I c), recorded_owns.
Qed.

Lemma inv_goto s c p l :
  inv s -> p <> Panicked ->
  (owns p = true -> forall d, d <> c -> owns (m_pc s d) = false) ->
  (owns p = true -> truth (lk_locked l) = true) ->
  (forall d, d <> c -> owns (m_pc s d) = true -> truth (lk_locked l) = true) ->
  (lk_cpu l = Some c <-> recorded p = true) ->
  (forall d, d <> c -> lk_cpu l = Some d <-> recorded (m_pc s d) = true) ->
  inv (goto c p l s).
Proof.
  intros [Ip Iu Il Ic] H1 H2 H3 H4 H5 H6. split; simpl.
  - intros d. case_decide; [done|apply Ip].
  - intros d d'. repeat case_decide; subst; intros Hd Hd'; [done|..].
    + by rewrite H2 in Hd'.
    + by rewrite H2 in Hd.
    + by apply Iu.
  - intros d. case_decide; eauto.
  - intros d. case_decide; [by subst|by apply H6].
Qed.

(** The other CPUs do not own the lock when [c] does. *)
Lemma inv_others s c d : inv s -> owns (m_pc s c) = true -> d <> c -> owns (m_pc s d) = false.
Proof.
  intros I Hc Hd. apply not_true_iff_false. intros H. by apply Hd, (inv_unique _ I).
Qed.

Lemma not_recorded p : owns p = false -> recorded p = false.
Proof. by destruct p. Qed.

(** A step that only changes where an owner is. *)
Lemma inv_move s c p : inv s -> owns (m_pc s c) = true -> owns p = true -> recorded p = recorded (m_pc s c) -> inv (goto c p (m_lock s) s).
Proof.
  intros I Hc Hp Hr. apply inv_goto; try done.
  - by intros ->.
  - intros _ d Hd. by apply (inv_others s c).
  - intros _. by apply (inv_locked _ I c).
  - intros d _. apply (inv_locked _ I).
  - rewrite Hr. apply (inv_cpu _ I).
  - intros d _. apply (inv_cpu _ I).
Qed.

(** A step that only changes where another CPU is. *)
Lemma inv_wait s c p : inv s -> owns (m_pc s c) = false -> owns p = false -> p <> Panicked -> inv (goto c p (m_lock s) s).
Proof.
  intros I Hc Hp Hn. apply inv_goto; try done.
  - by rewrite Hp.
  - by rewrite Hp.
  - intros d _. apply (inv_locked _ I).
  - by rewrite (inv_cpu _ I), !not_recorded.
  - intros d _. apply (inv_cpu _ I).
Qed.

Lemma inv_step s s' : step s s' -> inv s -> inv s'.
Proof.
  intros Hstep I. pose proof (inv_others s) as Ho. pose proof (inv_locked _ I) as Il.
  pose proof (inv_cpu _ I) as Ic.
  destruct Hstep as [c s Hc|c s Hc|c s Hc|c s Hc|c s Hc|c s Hc|c s Hc|c s Hc].
  - apply inv_wait; try done; [by rewrite Hc|by destruct (truth _)..].
  - rewrite bool_decide_eq_false_2 by (rewrite Ic, Hc; done). apply inv_wait; try done. by rewrite Hc.
  - destruct (truth (lk_locked (m_lock s))) eqn:E; apply inv_goto; try done;
      [by rewrite Ic, Hc| |by simpl; rewrite Ic, Hc].
    intros _ d _. apply not_true_iff_false. intros H. specialize (Il d H). congruence.
  - assert (Hd : forall d, d <> c -> owns (m_pc s d) = false)
      by (intros; apply (Ho c); by rewrite ?Hc).
    apply inv_goto; try done; [intros _; apply (Il c); by rewrite Hc|eauto|].
    intros d ?. simpl. rewrite not_recorded by auto. split; [intros; by simplify_eq|done].
  - rewrite (Il c) by (by rewrite Hc). apply inv_move; try done; by rewrite Hc.
  - rewrite bool_decide_eq_true_2 by (by rewrite Ic, Hc). apply inv_move; try done; by rewrite Hc.
  - assert (Hd : forall d, d <> c -> owns (m_pc s d) = false)
      by (intros; apply (Ho c); by rewrite ?Hc).
    apply inv_goto; try done; [intros _; apply (Il c); by rewrite Hc|eauto|].
    intros d ?. simpl. by rewrite not_recorded by auto.
  - assert (Hd : forall d, d <> c -> owns (m_pc s d) = false)
      by (intros; apply (Ho c); by rewrite ?Hc).
    apply inv_goto; try done; [|by simpl; rewrite Ic, Hc].
    intros d Hne H. by rewrite Hd in H.
Qed.

Lemma inv_reachable name s : rtc step (initial name) s -> inv s.
Proof.
  intros H. remember (initial name) as s0 eqn:E. assert (inv s0) as I by (subst; apply inv_initial).
  clear E. induction H as [|s0 s1 s2 Hs _ IH]; [done|]. by eapply IH, inv_step.
Qed.

(** C3: however the accesses of the CPUs to the lock word interleave, two CPUs
    are never both between [acquire] and [release], the check of [acquire] never
    takes a CPU for the holder when it is not (so no CPU panics), and that of
    [release] always recognises the holder.  The two reads of [holding] and the two stores of [release]
    are steps of their own. *)
Theorem mutual_exclusion (name : string) (s : mstate) :
  rtc step (initial name) s ->
  (forall c d, owns (m_pc s c) = true -> owns (m_pc s d) = true -> c = d)
  /\ (forall c, m_pc s c <> Panicked)
  /\ (forall c, held_by c (m_lock s) = true <-> recorded (m_pc s c) = true).
Proof.
  intros H%inv_reachable. split_and!; [apply H|apply H|]. intros c. by apply held_by_recorded.
Qed.

(** CPU 1 takes the lock while CPU 0 spins. *)
Lemma mutual_exclusion_witness :
  exists s, rtc step (initial EmptyString) s
    /\ m_pc s 1%nat = Critical /\ m_pc s 0%nat = Spinning
    /\ (forall c d, owns (m_pc s c) = true -> owns (m_pc s d) = true -> c = d).
Proof.
  eexists. assert (R : rtc step (initial EmptyString)
    (goto 0 Spinning (mk_spinlock 1 EmptyString (Some 1%nat))
    (goto 1 Critical (mk_spinlock 1 EmptyString (Some 1%nat))
    (goto 1 Acquired (mk_spinlock 1 EmptyString None)
    (goto 1 Spinning (mk_spinlock 0 EmptyString None)
    (goto 0 Spinning (mk_spinlock 0 EmptyString None) (initial EmptyString))))))).
  { eapply rtc_l; [by apply (step_check 0)|]. eapply rtc_l; [by apply (step_check 1)|].
    eapply rtc_l; [by apply (step_xchg 1)|]. eapply rtc_l; [by apply (step_record 1)|].
    eapply rtc_l; [by apply (step_xchg 0)|]. apply rtc_refl. }
  split; [exact R|]. split; [reflexivity|]. split; [reflexivity|].
  apply (mutual_exclusion EmptyString _ R).
Defined.

End Contention.

(** ** Properties of the sequential routines *)

(** [pushcli] and [popcli] are matched: after [n] of the first, interrupts are
    off (for [n > 0]), and [n] of the second restore the state of the CPU,
    interrupt flag included, without a panic. *)
Theorem pushcli_popcli_matched (n : nat) (k : kstate) (c : nat) (e : environment kstate) :
  settled k c ->
  exists k', times n pushcli k e = Done tt k' e
    /\ ((0 < n)%nat -> k_if k' = false)
    /\ times n popcli k' e = Done tt k e.
Proof.
  intros Hs. exists (Nat.iter n (push c) k).
  split; [by apply times_pushcli|]. split; [by destruct n; [lia|]|by apply times_popcli].
Qed.

(** One CPU with interrupts on. *)
Definition cpu0_state : kstate :=
  set_k_if true (boot_state [mk_cpu 0 1 0 FL_IF None] ∅ 0).

Lemma cpu0_settled : settled cpu0_state 0.
Proof. split; vm_compute; done. Qed.

Lemma pushcli_popcli_matched_witness :
  exists k', times 3 pushcli cpu0_state [] = Done tt k' []
    /\ k_if k' = false /\ times 3 popcli k' [] = Done tt cpu0_state [].
Proof.
  destruct (pushcli_popcli_matched 3 cpu0_state 0 [] cpu0_settled) as (k' & H1 & H2 & H3).
  exists k'. split; [exact H1|]. split; [apply H2; lia|exact H3].
Defined.

(** on a free lock [acquire] succeeds at once, with interrupts off and the
    lock recorded as held by this CPU; [release] then restores the state as it
    was; while the lock is held, a second [acquire] by the same CPU panics, and
    so does a [release] by a CPU that does not hold it. *)
Theorem acquire_release (k : kstate) (c : nat) (lk : lockid) (e : environment kstate) :
  settled k c -> lock_free k lk ->
  exists k1, acquire lk k e = Done tt k1 e
    /\ k_if k1 = false /\ held_by c (lock_at k1 lk) = true
    /\ release lk k1 e = Done tt k e
    /\ (exists k2, acquire lk k1 e = Panic "acquire" k2)
    /\ release lk k e = Panic "release" k.
Proof.
  intros Hs Hf. exists (locked c lk k). split_and!.
  - by apply acquire_free.
  - done.
  - apply held_by_locked.
  - by apply release_locked.
  - eexists. eapply acquire_held; [by apply settled_locked|apply held_by_locked].
  - apply (release_not_held k c); [done|]. unfold held_by. by rewrite lock_at_free.
Qed.

Lemma acquire_release_witness :
  let k := upd_lock L_kmem (fun _ => mk_spinlock 0 EmptyString None) cpu0_state in
  exists k1, acquire L_kmem k [] = Done tt k1 [] /\ release L_kmem k1 [] = Done tt k [].
Proof.
  intros k.
  assert (Hs : settled k 0) by (apply settled_upd_lock, cpu0_settled).
  assert (Hf : lock_free k L_kmem) by (exists EmptyString; reflexivity).
  destruct (acquire_release k 0 L_kmem [] Hs Hf) as (k1 & H1 & _ & _ & H2 & _).
  exists k1. split; [exact H1|exact H2].
Defined.
