(* ===== verification/Segment.v ===== *)
(** * Segment and gate descriptors (mmu.h, [seginit] of vm.c, [tvinit] and [idtinit] of trap.c)

    The descriptor tables of the CPUs and the interrupt descriptor table, with
    what the processor reads in them. *)

From stdpp Require Import base gmap list strings.
From Stdlib Require Import ZArith Lia.
From S2P Require Import Prelude State Spinlock.

Definition SEG_KCODE : Z := 1.
Definition SEG_KDATA : Z := 2.
Definition SEG_UCODE : Z := 3.
Definition SEG_UDATA : Z := 4.
Definition SEG_TSS : Z := 5.
Definition DPL_USER : Z := 3.
Definition STA_X : Z := 0x8.
Definition STA_W : Z := 0x2.
Definition STA_R : Z := 0x2.
Definition STS_T32A : Z := 0x9.
Definition STS_IG32 : Z := 0xE.
Definition STS_TG32 : Z := 0xF.
Definition T_SYSCALL : Z := 64.

Definition SEG (type base lim dpl : Z) : segdesc :=
  mk_segdesc (Z.land (Z.shiftr lim 12) 0xffff) (Z.land (u32 base) 0xffff)
    (Z.land (Z.shiftr (u32 base) 16) 0xff) type 1 dpl 1
    (Z.shiftr (u32 lim) 28) 0 0 1 1 (Z.shiftr (u32 base) 24).

Definition SEG16 (type base lim dpl : Z) : segdesc :=
  mk_segdesc (Z.land lim 0xffff) (Z.land (u32 base) 0xffff)
    (Z.land (Z.shiftr (u32 base) 16) 0xff) type 1 dpl 1
    (Z.shiftr (u32 lim) 16) 0 0 1 0 (Z.shiftr (u32 base) 24).

Definition set_sd_s (v : Z) (d : segdesc) : segdesc :=
  mk_segdesc (sd_lim_15_0 d) (sd_base_15_0 d) (sd_base_23_16 d) (sd_type d) v (sd_dpl d) (sd_p d)
    (sd_lim_19_16 d) (sd_avl d) (sd_rsv1 d) (sd_db d) (sd_g d) (sd_base_31_24 d).

Definition SETGATE (istrap : bool) (sel off d : Z) : gatedesc :=
  mk_gatedesc (Z.land (u32 off) 0xffff) sel 0 0 (if istrap then STS_TG32 else STS_IG32) 0 d 1 (Z.shiftr (u32 off) 16).

(** [c->gdt[n] = d] and [idt[n] = g] *)
Definition set_seg (c : nat) (n : Z) (d : segdesc) : K unit :=
  modify (upd_hw (fun h => set_gdt (<[c := <[n := d]> (default ∅ (gdt h !! c))]> (gdt h)) h)).
Definition set_gate (n : Z) (g : gatedesc) : K unit := modify (upd_hw (fun h => set_idt (<[n := g]> (idt h)) h)).

Definition lgdt (c : nat) : K unit := modify (upd_hw (set_gdtr (Some c))).
Definition ltr (sel : Z) : K unit := modify (upd_hw (set_tr sel)).
Definition lidt : K unit := modify (upd_hw (set_idtr true)).

Definition seginit : K unit :=
  c <- cpuid;;
  let c := Z.to_nat c in
  set_seg c SEG_KCODE (SEG (Z.lor STA_X STA_R) 0 0xffffffff 0);;
  set_seg c SEG_KDATA (SEG STA_W 0 0xffffffff 0);;
  set_seg c SEG_UCODE (SEG (Z.lor STA_X STA_R) 0 0xffffffff DPL_USER);;
  set_seg c SEG_UDATA (SEG STA_W 0 0xffffffff DPL_USER);;
  lgdt c.

(** [vectors], which vectors.pl generates, has the addresses of the entry points. *)
Definition tvinit (vectors : Z -> Z) : K unit :=
  for_each (fun i => set_gate i (SETGATE false (Z.shiftl SEG_KCODE 3) (vectors i) 0)) (seqZ 0 256);;
  set_gate T_SYSCALL (SETGATE true (Z.shiftl SEG_KCODE 3) (vectors T_SYSCALL) DPL_USER);;
  initlock L_tickslock "time".

Definition idtinit : K unit := lidt.

(** ** What the processor reads *)

Definition seg_base (d : segdesc) : Z := sd_base_15_0 d + 2 ^ 16 * sd_base_23_16 d + 2 ^ 24 * sd_base_31_24 d.
Definition seg_limit (d : segdesc) : Z :=
  let lim := sd_lim_15_0 d + 2 ^ 16 * sd_lim_19_16 d in
  if sd_g d =? 1 then lim * 4096 + 4095 else lim.
Definition gate_offset (g : gatedesc) : Z := gd_off_15_0 g + 2 ^ 16 * gd_off_31_16 g.

(** [int n] at privilege level [cpl] is let through. *)
Definition int_allowed (h : hw) (cpl n : Z) : bool :=
  match idt h !! n with
  | Some g => (gd_p g =? 1) && (cpl <=? gd_dpl g)
  | None => false
  end.

Lemma split_offset v : let o := u32 v in Z.land o 0xffff + 2 ^ 16 * Z.shiftr o 16 = o.
Proof.
  cbv zeta. change 0xffff with (Z.ones 16). rewrite Z.land_ones, Z.shiftr_div_pow2 by lia. pose proof (Z.div_mod (u32 v) (2 ^ 16) ltac:(lia)). lia.
Qed.

Lemma gate_offset_set istrap sel off d : gate_offset (SETGATE istrap sel off d) = u32 off.
Proof. apply (split_offset off). Qed.

Lemma seg_base_set type base lim dpl : seg_base (SEG type base lim dpl) = u32 base.
Proof.
  unfold seg_base, SEG. cbn [sd_base_15_0 sd_base_23_16 sd_base_31_24]. change 0xffff with (Z.ones 16). change 0xff with (Z.ones 8).
  rewrite !Z.land_ones, !Z.shiftr_div_pow2 by lia. set (b := u32 base).
  change (2 ^ 16) with 65536. change (2 ^ 24) with 16777216. change (2 ^ 8) with 256. div_lia.
Qed.

(** Storing a gate for each number of a list. *)
Lemma gates_stored (g : Z -> gatedesc) l e : forall k, exists k', for_each (fun i => set_gate i (g i)) l k e = Done tt k' e
  /\ forall n, idt (k_hw k') !! n = if decide (n ∈ l) then Some (g n) else idt (k_hw k) !! n.
Proof.
  induction l as [|i l IH]; intros k; cbn [for_each].
  - exists k. split; [done|]. intros n. rewrite decide_False; [done|]. apply not_elem_of_nil.
  - unfold set_gate at 1. rewrite bind_modify. destruct (IH (upd_hw (fun h => set_idt (<[i := g i]> (idt h)) h) k)) as (k' & E & H). exists k'.
    split; [exact E|]. intros n. rewrite H. simpl. destruct (decide (n ∈ l)) as [Hn|Hn].
    + rewrite decide_True; [done|]. by apply list_elem_of_further.
    + destruct (decide (i = n)) as [->|Hne].
      * rewrite lookup_insert_eq, decide_True; [done|]. apply list_elem_of_here.
      * rewrite lookup_insert_ne, decide_False by (done || rewrite elem_of_cons; naive_solver). done.
Qed.

(** The gates that [tvinit] stores.  Every one of the 256 interrupts and exceptions enters
    the kernel's code segment at the entry point that [vectors] has for it; the one of the system
    calls leaves interrupts on and all others turn them off; and an [int] instruction is
    let through from user mode for the system call only, and from the kernel for
    every number. *)
Theorem tvinit_gates (vectors : Z -> Z) (k : kstate) (e : environment kstate) :
  exists k', tvinit vectors k e = Done tt k' e /\ forall n, n ∈ seqZ 0 256 ->
    (exists g, idt (k_hw k') !! n = Some g /\ gate_offset g = u32 (vectors n) /\ Z.shiftr (gd_cs g) 3 = SEG_KCODE
       /\ gd_type g = if n =? T_SYSCALL then STS_TG32 else STS_IG32)
    /\ int_allowed (k_hw k') 0 n = true /\ int_allowed (k_hw k') DPL_USER n = (n =? T_SYSCALL).
Proof.
  destruct (gates_stored (fun i => SETGATE false (Z.shiftl SEG_KCODE 3) (vectors i) 0) (seqZ 0 256) e k) as (k1 & E & H).
  unfold tvinit. run E. unfold set_gate at 1. rewrite bind_modify. eexists. split; [reflexivity|]. intros n Hn.
  assert (Hi : exists t d, idt (set_idt (<[T_SYSCALL := SETGATE true (Z.shiftl SEG_KCODE 3) (vectors T_SYSCALL) DPL_USER]> (idt (k_hw k1))) (k_hw k1)) !! n
    = Some (SETGATE t (Z.shiftl SEG_KCODE 3) (vectors n) d) /\ t = (n =? T_SYSCALL) /\ d = if n =? T_SYSCALL then DPL_USER else 0).
  { destruct (Z.eqb_spec n T_SYSCALL) as [->|Hne]; simpl.
    - rewrite lookup_insert_eq. by eexists _, _.
    - rewrite lookup_insert_ne by done. rewrite H, decide_True by done. by eexists _, _. }
  destruct Hi as (t & d & Hi & -> & ->). unfold int_allowed. cbn [k_hw set_k_hw upd_hw upd_lock set_k_locks]. rewrite Hi. split.
  - eexists. split; [reflexivity|]. rewrite gate_offset_set. split; [done|]. split; [done|]. by destruct (n =? T_SYSCALL).
  - by destruct (n =? T_SYSCALL).
Qed.

(** The segments of the kernel and of user code and data: all of the address space, at
    the two privilege levels. *)
Definition flat (h : hw) (c : nat) (n type dpl : Z) : Prop :=
  exists d, (default ∅ (gdt h !! c)) !! n = Some d /\ seg_base d = 0 /\ seg_limit d = 2 ^ 32 - 1 /\ sd_type d = type /\ sd_dpl d = dpl /\ sd_p d = 1.

(** After [seginit] the descriptor table of the CPU is loaded, and its segments are flat:
    addresses are not changed by segmentation, the code segments can be executed
    and the data segments written, and only those for user mode have privilege level 3. *)
Theorem seginit_flat (k : kstate) (c : nat) (e : environment kstate) :
  settled k c -> k_if k = false ->
  exists k', seginit k e = Done tt k' e /\ gdtr (k_hw k') = Some c
    /\ flat (k_hw k') c SEG_KCODE (Z.lor STA_X STA_R) 0 /\ flat (k_hw k') c SEG_KDATA STA_W 0
    /\ flat (k_hw k') c SEG_UCODE (Z.lor STA_X STA_R) DPL_USER /\ flat (k_hw k') c SEG_UDATA STA_W DPL_USER.
Proof.
  intros Hs Hi. unfold seginit, cpuid. rewrite bind_assoc. run (mycpu_off k c e Hi (st_find _ _ Hs)). rewrite bind_ret, Nat2Z.id. cbv zeta.
  unfold set_seg, lgdt. rewrite !bind_modify. eexists. split; [reflexivity|]. split; [done|].
  unfold flat. cbn [k_hw set_k_hw upd_hw gdt set_gdt set_gdtr]. rewrite !lookup_insert_eq. cbn [default from_option id].
  repeat split; eexists; (split; [by simplify_map_eq|done]).
Qed.

Lemma seginit_flat_witness :
  let k := boot_state [mk_cpu 0 1 0 0 None; mk_cpu 1 0 0 0 None] ∅ 0 in
  exists k', seginit k [] = Done tt k' [] /\ gdtr (k_hw k') = Some 0%nat
    /\ flat (k_hw k') 0 SEG_KCODE (Z.lor STA_X STA_R) 0 /\ flat (k_hw k') 0 SEG_KDATA STA_W 0
    /\ flat (k_hw k') 0 SEG_UCODE (Z.lor STA_X STA_R) DPL_USER /\ flat (k_hw k') 0 SEG_UDATA STA_W DPL_USER.
Proof. intros k. apply (seginit_flat k 0 []); [by split|reflexivity]. Defined.
