(* ===== verification/Kalloc.v ===== *)
(** * kalloc.c: the physical page allocator

    The free list lives in the free pages themselves: the first word of a free
    page is the address of the next one.  The model keeps it there, in [k_mem]. *)

From stdpp Require Import base gmap list strings.
From Stdlib Require Import ZArith Lia.
From S2P Require Import Prelude State Memory CString Spinlock.

Section Kalloc.
Context {L : Linker}.

(** The guard of [kfree]. *)
Definition kfree_bad (v : Z) : bool :=
  truth (u32 v mod PGSIZE) || (v <? ld_end) || (V2P v >=? PHYSTOP).

Definition kfree (v : Z) : K unit :=
  if kfree_bad v then panic "kfree" else
  modify (fun k => set_k_mem (memset v 1 PGSIZE (k_mem k)) k);;
  use_lock <- gets k_use_lock;;
  when (truth use_lock) (acquire L_kmem);;
  modify (fun k => set_k_mem (store32 v (k_freelist k) (k_mem k)) k);;
  modify (set_k_freelist v);;
  use_lock <- gets k_use_lock;;
  when (truth use_lock) (release L_kmem).

Definition kalloc : K Z :=
  use_lock <- gets k_use_lock;;
  when (truth use_lock) (acquire L_kmem);;
  r <- gets k_freelist;;
  when (truth r) (modify (fun k => set_k_freelist (load32 (k_mem k) r) k));;
  use_lock <- gets k_use_lock;;
  when (truth use_lock) (release L_kmem);;
  ret r.

(** [freerange]: the loop runs at most once per page of the range. *)
Definition freerange_body (vend p : Z) : K (Z + unit) :=
  if p + PGSIZE <=? vend then kfree p;; ret (inl (p + PGSIZE)) else ret (inr tt).

Definition freerange (vstart vend : Z) : K unit :=
  let p := PGROUNDUP vstart in
  iter (S (Z.to_nat ((vend - p) / PGSIZE))) (freerange_body vend) p.

Definition kinit1 (vstart vend : Z) : K unit :=
  initlock L_kmem "kmem";;
  modify (set_k_use_lock 0);;
  freerange vstart vend.

Definition kinit2 (vstart vend : Z) : K unit :=
  freerange vstart vend;;
  modify (set_k_use_lock 1).

(** ** The free list *)

(** A page the allocator may own. *)
Definition page_ok (p : Z) : Prop :=
  (PGSIZE | p) /\ ld_end <= p /\ 0 < p /\ p + PGSIZE <= KERNBASE + PHYSTOP.

(** The pages linked from [a]. *)
Fixpoint chain (m : gmap Z Z) (a : Z) (l : list Z) : Prop :=
  match l with
  | [] => a = 0
  | p :: l => a = p /\ chain m (load32 m p) l
  end.

(** The free pages, in list order, are [l]. *)
Record freelist (k : kstate) (l : list Z) : Prop := {
  fl_chain : chain (k_mem k) (k_freelist k) l;
  fl_nodup : NoDup l;
  fl_pages : Forall page_ok l
}.

(** The lock of the allocator can be taken, if it is in use. *)
Definition kmem_lock_ok (k : kstate) : Prop :=
  truth (k_use_lock k) = true -> exists c, settled k c /\ lock_free k L_kmem.

Lemma chain_ext m m' a l :
  (forall p, p ∈ l -> load32 m' p = load32 m p) -> chain m a l -> chain m' a l.
Proof.
  revert a. induction l as [|p l IH]; intros a H; simpl; [done|].
  intros [-> Hc]. split; [done|]. rewrite H by (rewrite elem_of_cons; auto).
  apply IH; [|done]. intros q Hq. apply H. rewrite elem_of_cons. auto.
Qed.

(** Two different pages do not overlap. *)
Lemma pages_apart p q :
  (PGSIZE | p) -> (PGSIZE | q) -> p <> q -> p + PGSIZE <= q \/ q + PGSIZE <= p.
Proof. unfold PGSIZE. intros [a ->] [b ->] H. lia. Qed.

(** The memory after [kfree v]: junk in the page, the old head in its first word. *)
Definition freed (v head : Z) (m : gmap Z Z) : gmap Z Z :=
  store32 v head (memset v 1 PGSIZE m).

Lemma load8_freed v head m x :
  ~ (v <= x < v + PGSIZE) -> load8 (freed v head m) x = load8 m x.
Proof.
  intros H. unfold freed, store32. rewrite load8_store_bytes_out.
  - rewrite load8_memset by (unfold PGSIZE; lia). by rewrite decide_False.
  - rewrite length_le_bytes. unfold PGSIZE in H. lia.
Qed.

Lemma page_ok_not_bad `{!LinkerOk} v : page_ok v -> kfree_bad v = false.
Proof.
  intros (Hd & He & Hp & Ht). pose proof ld_end_range as R. unfold kfree_bad.
  unfold V2P, KERNBASE, PHYSTOP, PGSIZE in *.
  rewrite (u32_small v), (u32_small (v - _)) by lia.
  rewrite (proj2 (Z.mod_divide v 4096 ltac:(done)) Hd). simpl.
  rewrite orb_false_iff, Z.ltb_ge, Z.geb_leb, Z.leb_gt. lia.
Qed.

(** [when use_lock acquire/release] around a change that leaves the lock alone. *)
Definition with_kmem (k : kstate) : kstate :=
  if truth (k_use_lock k)
  then match find_cpu (k_apicid k) 0 (k_cpus k) with
       | Some c => locked c L_kmem k
       | None => k
       end
  else k.

Lemma kmem_enter k e :
  kmem_lock_ok k -> when (truth (k_use_lock k)) (acquire L_kmem) k e = Done tt (with_kmem k) e.
Proof.
  intros H. unfold when, with_kmem. destruct (truth _) eqn:E; [|done].
  destruct (H E) as (c & Hs & Hf). rewrite (st_find _ _ Hs). by apply acquire_free.
Qed.

Lemma kmem_leave k e :
  kmem_lock_ok k ->
  when (truth (k_use_lock k)) (release L_kmem) (with_kmem k) e = Done tt k e.
Proof.
  intros H. unfold when, with_kmem. destruct (truth _) eqn:E; [|done].
  destruct (H E) as (c & Hs & Hf). rewrite (st_find _ _ Hs). by apply release_locked.
Qed.

Lemma with_kmem_use_lock k : k_use_lock (with_kmem k) = k_use_lock k.
Proof. unfold with_kmem. destruct (truth _); [|done]. by destruct (find_cpu _ _ _). Qed.

Lemma with_kmem_freelist k : k_freelist (with_kmem k) = k_freelist k.
Proof. unfold with_kmem. destruct (truth _); [|done]. by destruct (find_cpu _ _ _). Qed.

Lemma with_kmem_mem k : k_mem (with_kmem k) = k_mem k.
Proof. unfold with_kmem. destruct (truth _); [|done]. by destruct (find_cpu _ _ _). Qed.

Lemma with_kmem_set k m h :
  with_kmem (set_k_freelist h (set_k_mem m k)) = set_k_freelist h (set_k_mem m (with_kmem k)).
Proof.
  unfold with_kmem. simpl. destruct (truth _); [|done]. by destruct (find_cpu _ _ _).
Qed.

Lemma kmem_lock_ok_set k m h :
  kmem_lock_ok k -> kmem_lock_ok (set_k_freelist h (set_k_mem m k)).
Proof. intros H E. destruct (H E) as (c & [] & Hf). exists c. by split. Qed.


(** The state after [kfree v]. *)
Definition after_kfree (v : Z) (k : kstate) : kstate :=
  set_k_freelist v (set_k_mem (freed v (k_freelist k) (k_mem k)) k).

Lemma kfree_done `{!LinkerOk} k v e :
  page_ok v -> kmem_lock_ok k -> kfree v k e = Done tt (after_kfree v k) e.
Proof.
  intros Hv Hk. unfold kfree. rewrite page_ok_not_bad by done.
  unfold modify, gets. unfold bind at 1 2.
  set (k1 := set_k_mem (memset v 1 PGSIZE (k_mem k)) k).
  assert (Hk1 : kmem_lock_ok k1).
  { replace k1 with (set_k_freelist (k_freelist k) k1) by (by destruct k).
    by apply kmem_lock_ok_set. }
  run (kmem_enter k1 e Hk1). unfold bind at 1 2 3.
  rewrite with_kmem_mem, with_kmem_freelist. simpl.
  change (set_k_freelist v (set_k_mem (store32 v (k_freelist k1) (k_mem k1)) (with_kmem k1)))
    with (set_k_freelist v (set_k_mem (freed v (k_freelist k) (k_mem k)) (with_kmem k1))).
  rewrite <- with_kmem_set, with_kmem_use_lock.
  exact (kmem_leave (after_kfree v k) e (kmem_lock_ok_set _ _ _ Hk)).
Qed.

Lemma freelist_after_kfree `{!LinkerOk} k v l :
  freelist k l -> page_ok v -> v ∉ l -> freelist (after_kfree v k) (v :: l).
Proof.
  intros [Hc Hn Hp] Hv Hni. split; [|by constructor..].
  assert (Hr : 0 <= k_freelist k < 2 ^ 32).
  { destruct l as [|p l]; simpl in Hc; [lia|]. destruct Hc as [-> _].
    apply Forall_inv in Hp as (_ & _ & H1 & H2).
    unfold PGSIZE, KERNBASE, PHYSTOP in H2. lia. }
  split; [done|]. simpl k_mem. unfold freed. rewrite load32_store32_same.
  rewrite u32_small by done. revert Hc. apply chain_ext. intros p Hpl.
  apply load32_ext. intros x Hx. apply (load8_freed v (k_freelist k)).
  rewrite Forall_forall in Hp. destruct (Hp p Hpl) as [Hd _]. destruct Hv as [Hdv _].
  destruct (pages_apart v p Hdv Hd) as [?|?]; [by intros ->| |];
    unfold PGSIZE in *; lia.
Qed.

Lemma kalloc_done k p l e :
  freelist k (p :: l) -> kmem_lock_ok k ->
  kalloc k e = Done p (set_k_freelist (load32 (k_mem k) p) k) e.
Proof.
  intros [[Hh Hc] Hn Hp] Hk. apply Forall_inv in Hp as (_ & _ & Hpos & _).
  unfold kalloc, modify, gets. unfold bind at 1. run (kmem_enter k e Hk).
  unfold bind at 1. rewrite with_kmem_freelist, Hh. unfold when at 1, truth at 1.
  destruct (Z.eqb_spec p 0); [lia|]. cbn [negb]. unfold bind at 1 2.
  rewrite with_kmem_mem.
  replace (set_k_freelist (load32 (k_mem k) p) (with_kmem k))
    with (with_kmem (set_k_freelist (load32 (k_mem k) p) k))
    by (unfold with_kmem; simpl; destruct (truth _); [|done]; by destruct (find_cpu _ _ _)).
  rewrite with_kmem_use_lock.
  assert (Hk' : kmem_lock_ok (set_k_freelist (load32 (k_mem k) p) k)).
  { intros E. destruct (Hk E) as (c & [] & Hf). exists c. by split. }
  by run (kmem_leave _ e Hk').
Qed.

Lemma kalloc_empty k e : freelist k [] -> kmem_lock_ok k -> kalloc k e = Done 0 k e.
Proof.
  intros [Hh _ _] Hk. simpl in Hh. unfold kalloc, modify, gets. unfold bind at 1.
  run (kmem_enter k e Hk). unfold bind at 1. rewrite with_kmem_freelist, Hh.
  unfold when at 1. cbn [truth negb Z.eqb]. unfold bind at 1 2, ret at 1.
  rewrite with_kmem_use_lock. by run (kmem_leave k e Hk).
Qed.

Lemma freelist_tail k p l :
  freelist k (p :: l) -> freelist (set_k_freelist (load32 (k_mem k) p) k) l.
Proof.
  intros [[_ Hc] Hn Hp]. split; [done|by apply NoDup_cons in Hn as []|by apply Forall_inv_tail in Hp].
Qed.

(** ** Filling the free list *)

(** [n] pages from [p] on. *)
Definition pages_from (p : Z) (n : nat) : list Z :=
  (fun i => p + Z.of_nat i * PGSIZE) <$> seq 0 n.

Lemma pages_from_S p n : pages_from p (S n) = p :: pages_from (p + PGSIZE) n.
Proof.
  unfold pages_from. rewrite <- cons_seq, fmap_cons. f_equal; [lia|].
  rewrite <- fmap_S_seq, <- list_fmap_compose. apply list_fmap_ext.
  intros ? i _. simpl. lia.
Qed.

Lemma elem_of_pages_from p n x :
  x ∈ pages_from p n <-> exists i, (i < n)%nat /\ x = p + Z.of_nat i * PGSIZE.
Proof.
  unfold pages_from. rewrite list_elem_of_fmap. setoid_rewrite elem_of_seq.
  split; intros (i & H1 & H2); exists i; [split; [lia|done]|split; [done|lia]].
Qed.

Lemma PGROUNDUP_eq v : 0 <= v -> v + PGSIZE <= 2 ^ 32 -> PGROUNDUP v = (v + 4095) / 4096 * 4096.
Proof.
  intros ? H. unfold PGROUNDUP, PGSIZE in *. rewrite u32_small by lia.
  rewrite (land_mask_down _ 12) by lia. f_equal. f_equal. lia.
Qed.

Lemma freerange_loop `{!LinkerOk} n : forall fuel vend p k l e,
  (n < fuel)%nat ->
  (forall i, (i < n)%nat -> page_ok (p + Z.of_nat i * PGSIZE)) ->
  (forall x, x ∈ pages_from p n -> x ∉ l) ->
  p + Z.of_nat n * PGSIZE <= vend < p + Z.of_nat (S n) * PGSIZE ->
  freelist k l -> kmem_lock_ok k ->
  exists k', iter fuel (freerange_body vend) p k e = Done tt k' e
    /\ freelist k' (rev (pages_from p n) ++ l)
    /\ kmem_lock_ok k' /\ k_use_lock k' = k_use_lock k /\ k_locks k' = k_locks k.
Proof.
  induction n as [|n IH]; intros fuel vend p k l e Hf Hp Hl Hv Hfl Hk;
    (destruct fuel as [|fuel]; [lia|]); cbn [iter]; unfold bind at 1, freerange_body at 1.
  - destruct (Z.leb_spec (p + PGSIZE) vend); [unfold PGSIZE in *; lia|].
    exists k. by split_and!.
  - destruct (Z.leb_spec (p + PGSIZE) vend); [|unfold PGSIZE in *; lia].
    assert (Hpp : page_ok p) by (specialize (Hp O ltac:(lia)); by rewrite Z.add_0_r in Hp).
    run (kfree_done k p e Hpp Hk). cbn [ret].
    rewrite pages_from_S in Hl |- *.
    destruct (IH fuel vend (p + PGSIZE) (after_kfree p k) (p :: l) e) as (k' & H1 & H2 & H3 & H4 & H5).
    + lia.
    + intros i Hi. specialize (Hp (S i) ltac:(lia)).
      by replace (p + PGSIZE + Z.of_nat i * PGSIZE) with (p + Z.of_nat (S i) * PGSIZE) by lia.
    + intros x Hx. rewrite not_elem_of_cons. split; [|apply Hl; rewrite elem_of_cons; auto].
      apply elem_of_pages_from in Hx as (i & _ & ->). unfold PGSIZE. lia.
    + unfold PGSIZE in *. lia.
    + apply freelist_after_kfree; [done..|]. apply Hl. rewrite elem_of_cons. auto.
    + by apply kmem_lock_ok_set.
    + exists k'. simpl in *. rewrite <- app_assoc. by split_and!.
Qed.

(** ** The allocator and its clients

    The rest of the kernel calls [kalloc] and [kfree] and writes to the pages it
    has been given.  [owned] lists those pages. *)
Definition in_pages (l : list Z) (x : Z) : Prop :=
  exists p, p ∈ l /\ p <= x < p + PGSIZE.

Inductive client_step : kstate * list Z -> kstate * list Z -> Prop :=
| client_alloc k k' owned p :
    kalloc k [] = Done p k' [] -> p <> 0 -> client_step (k, owned) (k', p :: owned)
| client_alloc_fail k k' owned :
    kalloc k [] = Done 0 k' [] -> client_step (k, owned) (k', owned)
| client_free k k' l1 l2 p :
    kfree p k [] = Done tt k' [] -> client_step (k, l1 ++ p :: l2) (k', l1 ++ l2)
| client_write k m owned :
    (forall x, ~ in_pages owned x -> load8 m x = load8 (k_mem k) x) ->
    client_step (k, owned) (set_k_mem m k, owned).

(** The free and the owned pages together are the pages [all]. *)
Definition pages_inv (all : list Z) (s : kstate * list Z) : Prop :=
  kmem_lock_ok s.1 /\ exists l, freelist s.1 l /\ Permutation (s.2 ++ l) all.

Lemma pages_inv_nodup (all : list Z) (s : kstate * list Z) l :
  NoDup all -> Permutation (s.2 ++ l) all -> (forall p, p ∈ s.2 -> p ∉ l) /\ NoDup s.2.
Proof.
  intros Hn HP. rewrite <- HP in Hn. apply NoDup_app in Hn as (H1 & H2 & H3).
  split; [intros p Hp; by apply H2|done].
Qed.

Lemma freelist_write all k owned m l :
  NoDup all -> Forall page_ok all -> Permutation (owned ++ l) all ->
  (forall x, ~ in_pages owned x -> load8 m x = load8 (k_mem k) x) ->
  freelist k l -> freelist (set_k_mem m k) l.
Proof.
  intros Hn Hp HP Hm [Hc Hnd Hpl]. split; [|done..]. revert Hc. apply chain_ext.
  intros p Hl. apply load32_ext. intros x Hx. apply Hm. intros (q & Hq & Hxq).
  assert (Hpq : q <> p).
  { intros ->. by apply (proj1 (pages_inv_nodup all (k, owned) l Hn HP) p). }
  rewrite Forall_forall in Hp.
  destruct (Hp p) as [Hd _]; [rewrite <- HP, elem_of_app; auto|].
  destruct (Hp q) as [Hd' _]; [rewrite <- HP, elem_of_app; auto|].
  destruct (pages_apart q p Hd' Hd Hpq); unfold PGSIZE in *; lia.
Qed.

Lemma pages_inv_step `{!LinkerOk} all s s' :
  NoDup all -> Forall page_ok all -> client_step s s' -> pages_inv all s -> pages_inv all s'.
Proof.
  intros Hn Hp Hs (Hk & l & Hl & HP). pose proof (pages_inv_nodup all s l Hn HP) as [Hd _].
  destruct Hs as [k k' owned p Hr Hp0|k k' owned Hr|k k' l1 l2 p Hr|k m owned Hm]; simpl in *.
  - destruct l as [|q l].
    { rewrite kalloc_empty in Hr by done. by simplify_eq. }
    rewrite (kalloc_done k q l) in Hr by done. simplify_eq.
    split; [|exists l; split; [by apply freelist_tail|]].
    + intros E. destruct (Hk E) as (c & [] & Hf). exists c. by split.
    + simpl. rewrite <- HP. by rewrite Permutation_middle.
  - destruct l as [|q l].
    { rewrite kalloc_empty in Hr by done. simplify_eq. split; [done|]. by exists []. }
    pose proof (fl_pages _ _ Hl) as (_ & _ & ? & _)%Forall_inv.
    rewrite (kalloc_done k q l) in Hr by done. simplify_eq. lia.
  - assert (page_ok p) as Hpp.
    { rewrite Forall_forall in Hp. apply Hp. rewrite <- HP, !elem_of_app, elem_of_cons. auto. }
    rewrite kfree_done in Hr by done. simplify_eq. split; [by apply kmem_lock_ok_set|].
    exists (p :: l). split.
    + apply freelist_after_kfree; [done..|]. apply Hd. rewrite elem_of_app, elem_of_cons. auto.
    + simpl. rewrite <- HP, <- !app_assoc. apply Permutation_app_head. simpl.
      by rewrite Permutation_middle.
  - split; [|exists l; split; [by eapply freelist_write|done]].
    intros E. destruct (Hk E) as (c & [] & Hf). exists c. by split.
Qed.

Lemma pages_inv_reachable `{!LinkerOk} all s s' :
  NoDup all -> Forall page_ok all -> rtc client_step s s' -> pages_inv all s -> pages_inv all s'.
Proof.
  intros Hn Hp. induction 1 as [|s s1 s2 Hs _ IH]; [done|]. eauto using pages_inv_step.
Qed.

(** C14: from a state whose free pages are [all] and none handed out, whatever the
    sequence of allocations, frees of pages handed out and writes to them: the
    free list stays well formed, every page is either free or handed out and
    never both nor twice, [kalloc] always returns, with a page nobody owns as
    long as one is free and 0 otherwise, and [kfree] of an owned page succeeds. *)
Theorem allocator_sound `{!LinkerOk} (all : list Z) (k0 k : kstate) (owned : list Z) :
  freelist k0 all -> kmem_lock_ok k0 -> rtc client_step (k0, []) (k, owned) ->
  exists l, freelist k l /\ Permutation (owned ++ l) all /\ NoDup (owned ++ l)
    /\ (exists p k', kalloc k [] = Done p k' []
          /\ (p <> 0 -> p ∈ l /\ p ∉ owned) /\ (p = 0 <-> l = []))
    /\ (forall p, p ∈ owned -> exists k', kfree p k [] = Done tt k' []).
Proof.
  intros Hf Hk Hr. pose proof (fl_nodup _ _ Hf) as Hn. pose proof (fl_pages _ _ Hf) as Hp.
  destruct (pages_inv_reachable all _ _ Hn Hp Hr) as (Hk' & l & Hl & HP);
    [by split; [|exists all]|]. simpl in *.
  pose proof (pages_inv_nodup all (k, owned) l Hn HP) as [Hd _]. exists l. split_and!; [done..| | |].
  - by rewrite HP.
  - destruct l as [|q l].
    + exists 0, k. by rewrite kalloc_empty.
    + exists q. eexists. rewrite (kalloc_done k q l) by done. split; [done|].
      pose proof (fl_pages _ _ Hl) as (_ & _ & ? & _)%Forall_inv. split; [|split; [lia|done]].
      intros _. split; [by left|]. intros Ho. apply (Hd q Ho). by left.
  - intros p Ho. eexists. apply kfree_done; [|done].
    rewrite Forall_forall in Hp. apply Hp. rewrite <- HP, elem_of_app. auto.
Qed.

(** [kfree] of an address that is not a page of the allocator's memory panics
    and changes nothing. *)
Theorem kfree_rejects `{!LinkerOk} (v : Z) (k : kstate) (e : environment kstate) :
  0 <= v < 2 ^ 32 -> ~ page_ok v -> kfree v k e = Panic "kfree" k.
Proof.
  intros Hv Hp. unfold kfree. destruct (kfree_bad v) eqn:B; [done|]. exfalso. apply Hp.
  pose proof ld_end_range as R. unfold kfree_bad in B. unfold page_ok.
  rewrite !orb_false_iff, Z.ltb_ge, Z.geb_leb, Z.leb_gt in B. destruct B as [[B1 B2] B3].
  unfold truth in B1. apply negb_false_iff, Z.eqb_eq in B1. rewrite u32_small in B1 by done.
  apply Z.mod_divide in B1; [|done]. unfold V2P, KERNBASE, PHYSTOP, PGSIZE in *.
  rewrite u32_small in B3 by lia. destruct B1 as [q ->]. split_and!; [by exists q|lia..].
Qed.

(** [kinit1] on a fresh kernel puts every whole page of the range on the free
    list, exactly once, and nothing else. *)
Theorem kinit1_frees_range `{!LinkerOk} (vstart vend : Z) (k : kstate) (e : environment kstate) :
  ld_end <= vstart <= vend -> PGROUNDUP vstart <= vend -> vend <= KERNBASE + PHYSTOP ->
  k_freelist k = 0 ->
  exists k', kinit1 vstart vend k e = Done tt k' e
    /\ freelist k' (rev (pages_from (PGROUNDUP vstart) (Z.to_nat ((vend - PGROUNDUP vstart) / PGSIZE))))
    /\ k_use_lock k' = 0 /\ lock_free k' L_kmem.
Proof.
  intros H1 H2 H3 H4. pose proof ld_end_range as R. unfold kinit1, initlock, modify.
  unfold bind at 1 2. set (k1 := set_k_use_lock 0 _).
  assert (Hr : vstart <= PGROUNDUP vstart /\ (PGSIZE | PGROUNDUP vstart)).
  { rewrite PGROUNDUP_eq by (unfold PGSIZE, KERNBASE, PHYSTOP in *; lia).
    split; [div_lia|apply Z.divide_factor_r]. }
  assert (Hq : PGSIZE * ((vend - PGROUNDUP vstart) / PGSIZE) <= vend - PGROUNDUP vstart
    < PGSIZE * ((vend - PGROUNDUP vstart) / PGSIZE) + PGSIZE) by (unfold PGSIZE; div_lia).
  assert (Hq0 : 0 <= (vend - PGROUNDUP vstart) / PGSIZE) by (apply Z.div_pos; unfold PGSIZE; lia).
  destruct (freerange_loop (Z.to_nat ((vend - PGROUNDUP vstart) / PGSIZE))
    (S (Z.to_nat ((vend - PGROUNDUP vstart) / PGSIZE))) vend (PGROUNDUP vstart) k1 [] e)
    as (k' & R1 & R2 & R3 & R4 & R5).
  - lia.
  - intros i Hi. destruct Hr as [Hr1 Hr2]. revert Hi Hq Hq0.
    generalize ((vend - PGROUNDUP vstart) / PGSIZE). intros q Hi Hq Hq0.
    unfold page_ok, PGSIZE, KERNBASE, PHYSTOP in *.
    split_and!; [|lia..]. apply Z.divide_add_r; [done|apply Z.divide_factor_r].
  - intros x _. apply not_elem_of_nil.
  - revert Hq Hq0. generalize ((vend - PGROUNDUP vstart) / PGSIZE). unfold PGSIZE. lia.
  - split; simpl; [done|constructor|constructor].
  - intros E. done.
  - exists k'. rewrite app_nil_r in R2. split_and!; [done|done|done|].
    exists "kmem"%string. rewrite R5. simpl. by rewrite lookup_insert_eq.
Qed.

End Kalloc.

(** ** Witnesses, at the layout of [kernel.sym] *)

Definition page1 : Z := 0x80118000.
Definition page2 : Z := 0x80119000.

Definition two_pages : kstate :=
  after_kfree page2 (after_kfree page1 (boot_state [] ∅ 0)).

Lemma page_ok_1 : @page_ok kernel_sym page1.
Proof. split_and!; [by exists (0x80118)|vm_compute; congruence..]. Qed.

Lemma page_ok_2 : @page_ok kernel_sym page2.
Proof. split_and!; [by exists (0x80119)|vm_compute; congruence..]. Qed.

Lemma two_pages_free : @freelist kernel_sym two_pages [page2; page1].
Proof.
  apply (@freelist_after_kfree kernel_sym kernel_sym_ok).
  - apply (@freelist_after_kfree kernel_sym kernel_sym_ok);
      [split; [done|constructor..]|apply page_ok_1|apply not_elem_of_nil].
  - apply page_ok_2.
  - rewrite list_elem_of_singleton. done.
Qed.

Lemma two_pages_next : load32 (k_mem two_pages) page2 = page1.
Proof. vm_compute. reflexivity. Qed.

Lemma allocator_sound_witness :
  exists l, @freelist kernel_sym (set_k_freelist page1 two_pages) l
    /\ Permutation ([page2] ++ l) [page2; page1].
Proof.
  assert (Hk : kmem_lock_ok two_pages) by (intros H; discriminate H).
  assert (R : rtc (@client_step kernel_sym) (two_pages, []) (set_k_freelist page1 two_pages, [page2])).
  { eapply rtc_l; [|apply rtc_refl]. apply client_alloc; [|done].
    rewrite (@kalloc_done kernel_sym two_pages page2 [page1] [] two_pages_free Hk).
    by rewrite two_pages_next. }
  destruct (@allocator_sound kernel_sym kernel_sym_ok _ _ _ _ two_pages_free Hk R)
    as (l & H1 & H2 & _).
  exists l. split; [exact H1|exact H2].
Defined.

Lemma kfree_rejects_witness :
  @kfree kernel_sym (page1 + 4) two_pages [] = Panic "kfree" two_pages.
Proof.
  apply (@kfree_rejects kernel_sym kernel_sym_ok).
  - vm_compute. split; congruence.
  - intros [[q Hq] _]. unfold page1, PGSIZE in Hq. lia.
Defined.

Lemma kinit1_frees_range_witness :
  exists k', @kinit1 kernel_sym 0x801164d0 0x8011a000 (boot_state [] ∅ 0) [] = Done tt k' []
    /\ @freelist kernel_sym k' [0x80119000; 0x80118000; 0x80117000].
Proof.
  destruct (@kinit1_frees_range kernel_sym kernel_sym_ok 0x801164d0 0x8011a000
    (boot_state [] ∅ 0) []) as (k' & H1 & H2 & _).
  - vm_compute. split; congruence.
  - vm_compute. congruence.
  - vm_compute. congruence.
  - reflexivity.
  - exists k'. split; [exact H1|exact H2].
Defined.
