(* ===== verification/Sched.v ===== *)
(** * Sleeping and waking up (proc.c) and sleep-locks (sleeplock.c)

    [sched], [yield], [sleep], [wakeup] and the sleep-locks built on them.  A
    process that gives up the CPU in [sched] continues after one step of the
    environment, which stands for everything that runs until the scheduler
    switches back to it. *)

From stdpp Require Import base gmap list strings.
From Stdlib Require Import ZArith Lia.
From S2P Require Import Prelude State Memory Spinlock.

(** Dereferencing a null process pointer faults, and [trap] panics. *)
Definition deref (p : option nat) : K nat :=
  match p with
  | Some i => ret i
  | None => panic "trap"
  end.

(** [swtch(&p->context, mycpu()->scheduler)], up to the switch back. *)
Definition swtch_to_scheduler : K unit := others.

Definition sched : K unit :=
  p <- myproc;;
  h <- holding L_ptable;;
  if negb h then panic "sched ptable.lock" else
  c <- mycpu;;
  ncli <- gets (fun k => c_ncli (cpu_at k c));;
  if negb (ncli =? 1) then panic "sched locks" else
  p <- deref p;;
  state <- gets (fun k => p_state (proc_at k p));;
  if bool_decide (state = RUNNING) then panic "sched running" else
  eflags <- readeflags;;
  if truth (Z.land eflags FL_IF) then panic "sched interruptible" else
  c <- mycpu;;
  intena <- gets (fun k => c_intena (cpu_at k c));;
  swtch_to_scheduler;;
  c <- mycpu;;
  modify (upd_cpu c (set_c_intena intena)).

Definition yield : K unit :=
  acquire L_ptable;;
  p <- myproc;;
  p <- deref p;;
  modify (upd_proc p (set_p_state RUNNABLE));;
  sched;;
  release L_ptable.

(** The body of the loop of [wakeup1], for one process. *)
Definition wakeup1_proc (chan : option channel) (p : proc) : proc :=
  if bool_decide (p_state p = SLEEPING) && bool_decide (p_chan p = chan)
  then set_p_state RUNNABLE p else p.

Definition wakeup1 (chan : option channel) : K unit :=
  modify (fun k => set_k_proc (wakeup1_proc chan <$> k_proc k) k).

Definition wakeup (chan : channel) : K unit :=
  acquire L_ptable;;
  wakeup1 (Some chan);;
  release L_ptable.

Definition sleep (chan : channel) (lk : option lockid) : K unit :=
  p <- myproc;;
  match p with
  | None => panic "sleep"
  | Some p =>
  match lk with
  | None => panic "sleep without lk"
  | Some lk =>
  when (negb (bool_decide (lk = L_ptable))) (acquire L_ptable;; release lk);;
  modify (upd_proc p (set_p_chan (Some chan)));;
  modify (upd_proc p (set_p_state SLEEPING));;
  sched;;
  modify (upd_proc p (set_p_chan None));;
  when (negb (bool_decide (lk = L_ptable))) (release L_ptable;; acquire lk)
  end
  end.

(** ** Sleep-locks *)

Definition sleeplock_at (k : kstate) (l : sleeplockid) : sleeplock :=
  match l with
  | SL_buf i => b_lock (buf_at k i)
  | SL_inode i => i_lock (inode_at k i)
  end.

Definition upd_sleeplock (l : sleeplockid) (f : sleeplock -> sleeplock) (k : kstate) : kstate :=
  match l with
  | SL_buf i => upd_buf i (fun b => set_b_lock (f (b_lock b)) b) k
  | SL_inode i => upd_inode i (fun n => set_i_lock (f (i_lock n)) n) k
  end.

Definition initsleeplock (l : sleeplockid) (name : string) : K unit :=
  initlock (L_sleep l) "sleep lock";;
  modify (upd_sleeplock l (set_sl_name name));;
  modify (upd_sleeplock l (set_sl_locked 0));;
  modify (upd_sleeplock l (set_sl_pid 0)).

Definition acquiresleep (l : sleeplockid) : K unit :=
  acquire (L_sleep l);;
  waiting (fun _ : unit =>
    locked <- gets (fun k => sl_locked (sleeplock_at k l));;
    if truth locked
    then sleep (Ch_sleeplock l) (Some (L_sleep l));; ret (inl tt)
    else ret (inr tt)) tt;;
  modify (upd_sleeplock l (set_sl_locked 1));;
  p <- myproc;;
  p <- deref p;;
  modify (fun k => upd_sleeplock l (set_sl_pid (p_pid (proc_at k p))) k);;
  release (L_sleep l).

Definition releasesleep (l : sleeplockid) : K unit :=
  acquire (L_sleep l);;
  modify (upd_sleeplock l (set_sl_locked 0));;
  modify (upd_sleeplock l (set_sl_pid 0));;
  wakeup (Ch_sleeplock l);;
  release (L_sleep l).

Definition holdingsleep (l : sleeplockid) : K bool :=
  acquire (L_sleep l);;
  s <- gets (fun k => sleeplock_at k l);;
  r <- (if truth (sl_locked s)
        then p <- myproc;; p <- deref p;; gets (fun k => sl_pid s =? p_pid (proc_at k p))
        else ret false);;
  release (L_sleep l);;
  ret r.

(** ** The routines that do not have to wait

    [running k c p]: the code runs on CPU [c] on behalf of process [p]. *)
Definition running (k : kstate) (c p : nat) : Prop :=
  settled k c /\ c_proc (cpu_at k c) = Some p.

(** Nobody sleeps on [ch]. *)
Definition no_sleeper (k : kstate) (ch : channel) : Prop :=
  Forall (fun p => ~ (p_state p = SLEEPING /\ p_chan p = Some ch)) (k_proc k).

Definition woken (ch : option channel) (k : kstate) : kstate :=
  set_k_proc (wakeup1_proc ch <$> k_proc k) k.

Lemma woken_no_sleeper k ch : no_sleeper k ch -> woken (Some ch) k = k.
Proof.
  intros H. unfold woken. replace (wakeup1_proc (Some ch) <$> k_proc k) with (k_proc k);
    [by destruct k|].
  symmetry. rewrite <- (list_fmap_id (k_proc k)) at 2. apply Forall_fmap_ext_1.
  eapply Forall_impl; [exact H|]. intros p Hp. unfold wakeup1_proc.
  destruct (bool_decide_reflect (p_state p = SLEEPING)); [|done]. simpl.
  destruct (bool_decide_reflect (p_chan p = Some ch)); [|done]. exfalso. by apply Hp.
Qed.

Lemma settled_woken k c ch : settled k c -> settled (woken ch k) c.
Proof. intros. other_fields. Qed.

Lemma wakeup_done k c ch e :
  settled k c -> lock_free k L_ptable -> wakeup ch k e = Done tt (woken (Some ch) k) e.
Proof.
  intros Hs Hf. unfold wakeup. run (acquire_free k c L_ptable e Hs Hf).
  unfold wakeup1, modify. unfold bind at 1.
  apply (release_locked (woken (Some ch) k) c); other_fields.
Qed.

Lemma myproc_locked k c p lk e :
  running k c p -> myproc (locked c lk k) e = Done (Some p) (locked c lk k) e.
Proof.
  intros [Hs Hp]. rewrite (myproc_settled _ c) by (by apply settled_locked).
  f_equal. rewrite <- Hp. unfold locked, push.
  change (cpu_at (upd_lock lk ?f (set_k_if false ?x)) c) with (cpu_at x c).
  rewrite cpu_at_upd; [done|]. rewrite (settled_lookup k c Hs). eauto.
Qed.

Lemma acquiresleep_free k c p l e :
  running k c p -> lock_free k (L_sleep l) -> sl_locked (sleeplock_at k l) = 0 ->
  acquiresleep l k e =
  Done tt (upd_sleeplock l (set_sl_pid (p_pid (proc_at k p)))
    (upd_sleeplock l (set_sl_locked 1) k)) e.
Proof.
  intros Hr Hf Hl. pose proof Hr as [Hs Hp]. unfold acquiresleep.
  run (acquire_free k c (L_sleep l) e Hs Hf). set (lk := L_sleep l).
  assert (W : waiting (fun _ : unit =>
      locked <- gets (fun k => sl_locked (sleeplock_at k l));;
      (if truth locked then sleep (Ch_sleeplock l) (Some lk);; ret (inl tt)
       else ret (inr tt))) tt (locked c lk k) e = Done tt (locked c lk k) e).
  { unfold waiting. cbn [iter Nat.add]. unfold bind at 1 2, gets.
    change (sleeplock_at (locked c lk k) l) with (sleeplock_at k l). by rewrite Hl. }
  run W. unfold modify. unfold bind at 1. set (k1 := upd_sleeplock l (set_sl_locked 1) k).
  replace (upd_sleeplock l (set_sl_locked 1) (locked c lk k)) with (locked c lk k1)
    by (by destruct l).
  assert (Hr1 : running k1 c p) by (split; [|by destruct l]; destruct l; other_fields).
  run (myproc_locked k1 c p lk e Hr1). unfold deref, ret at 1. unfold bind at 1 2.
  set (k2 := upd_sleeplock l (set_sl_pid (p_pid (proc_at k p))) k1).
  replace (upd_sleeplock l _ (locked c lk k1)) with (locked c lk k2) by (by destruct l).
  apply release_locked; [destruct l; other_fields|].
  apply (lock_free_ext k); [by destruct l|done].
Qed.

Lemma releasesleep_done k c l e :
  settled k c -> lock_free k (L_sleep l) -> lock_free k L_ptable ->
  no_sleeper k (Ch_sleeplock l) ->
  releasesleep l k e =
  Done tt (upd_sleeplock l (set_sl_pid 0) (upd_sleeplock l (set_sl_locked 0) k)) e.
Proof.
  intros Hs Hf Hfp Hn. unfold releasesleep. run (acquire_free k c (L_sleep l) e Hs Hf).
  unfold modify. unfold bind at 1 2. set (lk := L_sleep l).
  set (k1 := upd_sleeplock l (set_sl_pid 0) (upd_sleeplock l (set_sl_locked 0) k)).
  replace (upd_sleeplock l _ (upd_sleeplock l _ (locked c lk k))) with (locked c lk k1)
    by (by destruct l).
  assert (settled k1 c) by (destruct l; other_fields).
  assert (lock_free k1 lk) by (apply (lock_free_ext k); [by destruct l|done]).
  assert (lock_free (locked c lk k1) L_ptable).
  { apply lock_free_locked; [done|]. apply (lock_free_ext k); [by destruct l|done]. }
  rewrite (bind_done _ _ _ _ _ _ _ (wakeup_done (locked c lk k1) c (Ch_sleeplock l) e
    ltac:(by apply settled_locked) ltac:(done))).
  rewrite woken_no_sleeper by (by destruct l). by apply release_locked.
Qed.

Lemma holdingsleep_done k c p l e :
  running k c p -> lock_free k (L_sleep l) ->
  holdingsleep l k e =
  Done (truth (sl_locked (sleeplock_at k l)) && (sl_pid (sleeplock_at k l) =? p_pid (proc_at k p))) k e.
Proof.
  intros Hr Hf. pose proof Hr as [Hs Hp]. unfold holdingsleep.
  run (acquire_free k c (L_sleep l) e Hs Hf). unfold bind at 1, gets at 1.
  replace (sleeplock_at (locked c (L_sleep l) k) l) with (sleeplock_at k l) by (by destruct l).
  set (s := sleeplock_at k l).
  assert (E : (if truth (sl_locked s)
      then p <- myproc;; p <- deref p;; gets (fun k => sl_pid s =? p_pid (proc_at k p))
      else ret false) (locked c (L_sleep l) k) e
    = Done (truth (sl_locked s) && (sl_pid s =? p_pid (proc_at k p))) (locked c (L_sleep l) k) e).
  { destruct (truth _); [|done]. by run (myproc_locked k c p (L_sleep l) e Hr). }
  run E. by run (release_locked k c (L_sleep l) e Hs Hf).
Qed.

(** ** Sleeping and being resumed

    A process that sleeps leaves the CPU with [ptable.lock] held; whatever runs
    until it is scheduled again is one step of the environment, which gives the
    CPU back in the same shape. *)

Lemma locked_comm k c lk lk' : lk <> lk' -> locked c lk (locked c lk' k) = locked c lk' (locked c lk k).
Proof.
  intros H. unfold locked, push, upd_lock, lock_at. simpl.
  rewrite !lookup_insert_ne by done. by rewrite insert_insert_ne.
Qed.

Definition asleep (p : nat) (ch : channel) (k : kstate) : kstate :=
  upd_proc p (set_p_state SLEEPING) (upd_proc p (set_p_chan (Some ch)) k).

Definition alive (k : kstate) (p : nat) : Prop := is_Some (k_proc k !! p).

Lemma proc_at_upd k p f : alive k p -> proc_at (upd_proc p f k) p = f (proc_at k p).
Proof.
  intros [x Hx]. unfold proc_at, upd_proc. simpl. by rewrite list_lookup_alter_eq, Hx.
Qed.

Lemma alive_upd k p q f : alive k p -> alive (upd_proc q f k) p.
Proof.
  intros [x Hx]. unfold alive. simpl. rewrite list_lookup_alter.
  case_decide; [subst|]; rewrite Hx; simpl; eauto.
Qed.

Lemma cpu_locked k c lk :
  settled k c -> cpu_at (locked c lk k) c = set_c_ncli (c_ncli (cpu_at k c) + 1) (cpu_at k c).
Proof.
  intros Hs. unfold locked, push. change (cpu_at (upd_lock lk ?f (set_k_if false ?x)) c) with (cpu_at x c).
  rewrite cpu_at_upd; [done|]. rewrite (settled_lookup k c Hs). eauto.
Qed.

(** [sched] from the shape in which [sleep] calls it. *)
Lemma sched_resumes k c p f e k2 :
  running k c p -> alive k p -> lock_free k L_ptable -> c_ncli (cpu_at k c) = 0 ->
  p_state (proc_at k p) <> RUNNING ->
  f (locked c L_ptable k) = locked c L_ptable k2 ->
  settled k2 c -> c_intena (cpu_at k2 c) = c_intena (cpu_at k c) ->
  sched (locked c L_ptable k) (f :: e) = Done tt (locked c L_ptable k2) e.
Proof.
  intros Hr Ha Hf Hn Hst Hfk Hs2 Hi. pose proof Hr as [Hs Hp].
  pose proof (settled_locked k c L_ptable Hs) as Hl.
  pose proof (settled_locked k2 c L_ptable Hs2) as Hl2.
  unfold sched. run (myproc_locked k c p L_ptable (f :: e) Hr).
  run (holding_settled _ c L_ptable (f :: e) Hl). rewrite held_by_locked. cbn [negb].
  run (mycpu_off (locked c L_ptable k) c (f :: e) eq_refl (st_find _ _ Hl)). c_simpl.
  rewrite (cpu_locked k c L_ptable Hs). rewrite Hn. change (negb (c_ncli (set_c_ncli (0 + 1) (cpu_at k c)) =? 1)) with false. cbv iota.
  unfold deref at 1. c_simpl.
  change (proc_at (locked c L_ptable k) p) with (proc_at k p).
  rewrite bool_decide_eq_false_2 by done. unfold readeflags. c_simpl.
  change (truth (Z.land (if k_if (locked c L_ptable k) then FL_IF else 0) FL_IF)) with false.
  cbv iota.
  run (mycpu_off (locked c L_ptable k) c (f :: e) eq_refl (st_find _ _ Hl)). c_simpl.
  rewrite (cpu_locked k c L_ptable Hs). unfold swtch_to_scheduler, others. unfold bind at 1.
  rewrite Hfk.
  run (mycpu_off (locked c L_ptable k2) c e eq_refl (st_find _ _ Hl2)).
  unfold modify. f_equal. simpl c_intena. rewrite <- Hi.
  apply upd_cpu_id; [by apply settled_lookup|].
  rewrite (cpu_locked k2 c L_ptable Hs2). by destruct (cpu_at k2 c).
Qed.

Lemma running_upd_proc k c p q f : running k c p -> running (upd_proc q f k) c p.
Proof. intros [Hs Hp]. split; [other_fields|done]. Qed.

Lemma sleep_resumes k c p ch lk f e k2 :
  running k c p -> alive k p -> c_ncli (cpu_at k c) = 0 ->
  lk <> L_ptable -> lock_free k lk -> lock_free k L_ptable ->
  f (locked c L_ptable (asleep p ch k)) = locked c L_ptable k2 ->
  settled k2 c -> lock_free k2 lk -> lock_free k2 L_ptable ->
  c_intena (cpu_at k2 c) = c_intena (cpu_at k c) ->
  sleep ch (Some lk) (locked c lk k) (f :: e)
  = Done tt (locked c lk (upd_proc p (set_p_chan None) k2)) e.
Proof.
  intros Hr Ha Hn Hne Hf Hfp Hfk Hs2 Hf2 Hfp2 Hi. pose proof Hr as [Hs _].
  unfold sleep. run (myproc_locked k c p lk (f :: e) Hr).
  rewrite bool_decide_eq_false_2 by done. cbn [negb when]. rewrite bind_assoc.
  rewrite (bind_done _ _ _ _ _ _ _ (acquire_free (locked c lk k) c L_ptable (f :: e)
    ltac:(by apply settled_locked) ltac:(by apply lock_free_locked))).
  rewrite locked_comm by done.
  rewrite (bind_done _ _ _ _ _ _ _ (release_locked (locked c L_ptable k) c lk (f :: e)
    ltac:(by apply settled_locked) ltac:(by apply lock_free_locked))).
  c_simpl. change (upd_proc p _ (upd_proc p _ (locked c L_ptable k)))
    with (locked c L_ptable (asleep p ch k)).
  rewrite (bind_done _ _ _ _ _ _ _ (sched_resumes (asleep p ch k) c p f e k2
    ltac:(by apply running_upd_proc, running_upd_proc) ltac:(by apply alive_upd, alive_upd)
    ltac:(apply (lock_free_ext k); done) Hn
    ltac:(unfold asleep; rewrite proc_at_upd by (by apply alive_upd); done) Hfk Hs2 Hi)).
  c_simpl. change (upd_proc p _ (locked c L_ptable k2))
    with (locked c L_ptable (upd_proc p (set_p_chan None) k2)).
  set (k3 := upd_proc p (set_p_chan None) k2).
  assert (settled k3 c) by other_fields. assert (lock_free k3 L_ptable) by other_fields.
  assert (lock_free k3 lk) by other_fields.
  rewrite (bind_done _ _ _ _ _ _ _ (release_locked k3 c L_ptable e ltac:(done) ltac:(done))).
  by apply acquire_free.
Qed.
