(* ===== verification/Handoff.v ===== *)
(** * Sleep-locks under contention: sleep and wakeup never miss each other

    Any number of processes call [acquiresleep] and [releasesleep] (sleeplock.c)
    on one sleep-lock, and their steps, the ones inside [sleep] and [wakeup]
    (proc.c) included, interleave in every possible way.  [move] is one step of
    one process, and the theorems are about every reachable state. *)

From stdpp Require Import base gmap list strings relations.
From Stdlib Require Import ZArith Lia.
From S2P Require Import Prelude State Spinlock Sched.

Module Handoff.

(** Where a process is, by the statement it executes next. *)
Inductive pc : Type :=
| Idle          (** outside *)
| Enter         (** [acquiresleep]: [acquire(&lk->lk)] *)
| Test          (** [while (lk->locked)] *)
| SleepLock     (** [sleep]: [acquire(&ptable.lock)] *)
| SleepRelease  (** [release(lk)] *)
| SleepChan     (** [p->chan = chan] *)
| SleepState    (** [p->state = SLEEPING] *)
| Swtch         (** [sched()]; the scheduler then releases [ptable.lock] *)
| Off           (** switched out *)
| Resumed       (** back from [sched()]: [p->chan = 0] *)
| Unlock        (** [release(&ptable.lock)] *)
| Relock        (** [acquire(lk)] *)
| Take          (** [lk->locked = 1] *)
| TakePid       (** [lk->pid = myproc()->pid] *)
| TakeRelease   (** [release(&lk->lk)] *)
| Holding       (** between [acquiresleep] and [releasesleep] *)
| Leave         (** [releasesleep]: [acquire(&lk->lk)] *)
| Drop          (** [lk->locked = 0] *)
| DropPid       (** [lk->pid = 0] *)
| WakeLock      (** [wakeup]: [acquire(&ptable.lock)] *)
| WakeScan      (** [wakeup1(chan)] *)
| WakeRelease   (** [release(&ptable.lock)] *)
| LeaveRelease. (** [release(&lk->lk)] *)

#[export] Instance pc_eq_dec : EqDecision pc.
Proof. solve_decision. Defined.

(** The two spin-locks are represented by their holder.  [h_owner] is a ghost:
    the process that owns the sleep-lock. *)
Record hstate : Type := mk_hstate {
  h_lk : option nat;
  h_pt : option nat;
  h_sl : sleeplock;
  h_proc : nat -> proc;
  h_pc : nat -> pc;
  h_owner : option nat
}.

Section Protocol.
Context (ch : channel).

Definition goto (i : nat) (p : pc) (s : hstate) : hstate :=
  mk_hstate (h_lk s) (h_pt s) (h_sl s) (h_proc s)
    (fun j => if decide (j = i) then p else h_pc s j) (h_owner s).
Definition set_lk (l : option nat) (s : hstate) : hstate :=
  mk_hstate l (h_pt s) (h_sl s) (h_proc s) (h_pc s) (h_owner s).
Definition set_pt (l : option nat) (s : hstate) : hstate :=
  mk_hstate (h_lk s) l (h_sl s) (h_proc s) (h_pc s) (h_owner s).
Definition set_sl (f : sleeplock -> sleeplock) (o : option nat) (s : hstate) : hstate :=
  mk_hstate (h_lk s) (h_pt s) (f (h_sl s)) (h_proc s) (h_pc s) o.
Definition set_proc (i : nat) (f : proc -> proc) (s : hstate) : hstate :=
  mk_hstate (h_lk s) (h_pt s) (h_sl s)
    (fun j => if decide (j = i) then f (h_proc s j) else h_proc s j) (h_pc s) (h_owner s).
Definition scan (s : hstate) : hstate :=
  mk_hstate (h_lk s) (h_pt s) (h_sl s)
    (fun j => wakeup1_proc (Some ch) (h_proc s j)) (h_pc s) (h_owner s).

(** Taking a spin-lock is possible when nobody holds it. *)
Definition take (l : option nat) (s : hstate) : option hstate :=
  match l with None => Some s | Some _ => None end.

Definition move (i : nat) (s : hstate) : option hstate :=
  match h_pc s i with
  | Idle => Some (goto i Enter s)
  | Enter => take (h_lk s) (goto i Test (set_lk (Some i) s))
  | Test => Some (goto i (if truth (sl_locked (h_sl s)) then SleepLock else Take) s)
  | SleepLock => take (h_pt s) (goto i SleepRelease (set_pt (Some i) s))
  | SleepRelease => Some (goto i SleepChan (set_lk None s))
  | SleepChan => Some (goto i SleepState (set_proc i (set_p_chan (Some ch)) s))
  | SleepState => Some (goto i Swtch (set_proc i (set_p_state SLEEPING) s))
  | Swtch => Some (goto i Off (set_pt None s))
  | Off =>
      if bool_decide (p_state (h_proc s i) = RUNNABLE)
      then take (h_pt s) (goto i Resumed (set_pt (Some i) (set_proc i (set_p_state RUNNING) s)))
      else None
  | Resumed => Some (goto i Unlock (set_proc i (set_p_chan None) s))
  | Unlock => Some (goto i Relock (set_pt None s))
  | Relock => take (h_lk s) (goto i Test (set_lk (Some i) s))
  | Take => Some (goto i TakePid (set_sl (set_sl_locked 1) (Some i) s))
  | TakePid => Some (goto i TakeRelease (set_sl (set_sl_pid (p_pid (h_proc s i))) (h_owner s) s))
  | TakeRelease => Some (goto i Holding (set_lk None s))
  | Holding => Some (goto i Leave s)
  | Leave => take (h_lk s) (goto i Drop (set_lk (Some i) s))
  | Drop => Some (goto i DropPid (set_sl (set_sl_locked 0) None s))
  | DropPid => Some (goto i WakeLock (set_sl (set_sl_pid 0) (h_owner s) s))
  | WakeLock => take (h_pt s) (goto i WakeScan (set_pt (Some i) s))
  | WakeScan => Some (goto i WakeRelease (scan s))
  | WakeRelease => Some (goto i LeaveRelease (set_pt None s))
  | LeaveRelease => Some (goto i Idle (set_lk None s))
  end.

Definition step (s s' : hstate) : Prop := exists i, move i s = Some s'.

Definition initial (name : string) (pid : nat -> Z) : hstate :=
  mk_hstate None None (mk_sleeplock 0 name 0)
    (fun i => set_p_pid (pid i) (set_p_state RUNNING zero_proc)) (fun _ => Idle) None.

(** ** What each place of the code owns *)

Definition in_lk (p : pc) : bool :=
  match p with
  | Test | SleepLock | SleepRelease | Take | TakePid | TakeRelease
  | Drop | DropPid | WakeLock | WakeScan | WakeRelease | LeaveRelease => true
  | _ => false
  end.
Definition in_pt (p : pc) : bool :=
  match p with
  | SleepRelease | SleepChan | SleepState | Swtch | Resumed | Unlock | WakeScan | WakeRelease => true
  | _ => false
  end.
Definition owns (p : pc) : bool :=
  match p with TakePid | TakeRelease | Holding | Leave | Drop => true | _ => false end.
Definition has_pid (p : pc) : bool :=
  match p with TakeRelease | Holding | Leave | Drop => true | _ => false end.
(** The sleep-lock is known to be free. *)
Definition free (p : pc) : bool := match p with Take | DropPid => true | _ => false end.
(** On the way to sleep. *)
Definition going (p : pc) : bool :=
  match p with SleepLock | SleepRelease | SleepChan | SleepState | Swtch => true | _ => false end.
(** The lock is free but its waiters have not been woken yet. *)
Definition waking (p : pc) : bool :=
  match p with DropPid | WakeLock | WakeScan => true | _ => false end.
Definition asleep (s : hstate) (i : nat) : Prop :=
  h_pc s i = Off /\ p_state (h_proc s i) = SLEEPING.

Definition shape (p : pc) (r : proc) : Prop :=
  match p with
  | SleepState => p_state r = RUNNING /\ p_chan r = Some ch
  | Swtch => p_state r = SLEEPING /\ p_chan r = Some ch
  | Off => p_chan r = Some ch /\ (p_state r = SLEEPING \/ p_state r = RUNNABLE)
  | _ => p_state r = RUNNING
  end.

(** The invariant, for one process: it holds the spin-locks and owns the
    sleep-lock exactly where the code says so. *)
Record pinv (s : hstate) (i : nat) : Prop := {
  pi_lk : in_lk (h_pc s i) = true <-> h_lk s = Some i;
  pi_pt : in_pt (h_pc s i) = true <-> h_pt s = Some i;
  pi_owner : owns (h_pc s i) = true <-> h_owner s = Some i;
  pi_free : free (h_pc s i) = true -> h_owner s = None;
  pi_pid : has_pid (h_pc s i) = true -> sl_pid (h_sl s) = p_pid (h_proc s i);
  pi_shape : shape (h_pc s i) (h_proc s i)
}.

(** A wakeup is on its way, or the lock is owned. *)
Definition waker (s : hstate) : Prop :=
  h_owner s <> None \/ exists j, h_lk s = Some j /\ waking (h_pc s j) = true.

Record inv (s : hstate) : Prop := {
  inv_proc : forall i, pinv s i;
  inv_locked : truth (sl_locked (h_sl s)) = true <-> h_owner s <> None;
  inv_wait : forall i, going (h_pc s i) = true \/ asleep s i -> waker s
}.

Lemma hinv_initial name pid : inv (initial name pid).
Proof.
  split; [|by split|intros i [?|[? ?]]; done]. intros i. split; simpl; done.
Qed.

Lemma take_inv l s s' : take l s = Some s' -> l = None /\ s' = s.
Proof. destruct l; simpl; intros; by simplify_eq. Qed.

(** Cases of a move: by the place of the process, the spin-lock it takes free. *)
Ltac moves Hm :=
  unfold move in Hm;
  match type of Hm with context [h_pc ?s ?i] => destruct (h_pc s i) eqn:Epc end;
  repeat case_match; try discriminate;
  try (apply take_inv in Hm as [? ->]); simplify_eq.

Lemma wakeup1_proc_shape p r : shape p r -> p <> Swtch -> shape p (wakeup1_proc (Some ch) r).
Proof.
  unfold wakeup1_proc. intros H Hp. destruct (bool_decide_reflect (p_state r = SLEEPING)); [|done].
  case_match; [|done]. destruct p; simpl in *; try done; intuition congruence.
Qed.

Lemma wakeup1_proc_pid r : p_pid (wakeup1_proc (Some ch) r) = p_pid r.
Proof. unfold wakeup1_proc. by case_match. Qed.

Lemma pinv_mover i s s' : inv s -> move i s = Some s' -> pinv s' i.
Proof.
  intros [Ip Il _] Hm. destruct (Ip i) as [A B C D E F].
  moves Hm; simpl in *; split; simpl; rewrite ?decide_True by done; simpl; try done;
  try (split; congruence).
  - intros _. destruct (h_owner s); [|done]. destruct Il as [_ Il]. by specialize (Il ltac:(done)).
  - tauto.
  - tauto.
  - by apply (wakeup1_proc_shape WakeScan).
Qed.

Lemma pinv_other i j s s' : inv s -> move i s = Some s' -> j <> i -> pinv s' j.
Proof.
  intros [Ip Il _] Hm Hj. destruct (Ip i) as [A B C D E F]. destruct (Ip j) as [A' B' C' D' E' F'].
  assert (Hown : has_pid (h_pc s j) = true -> h_owner s = Some j).
  { intros. apply C'. by destruct (h_pc s j). }
  assert (Hfree : free (h_pc s j) = true -> h_lk s = Some j).
  { intros. apply A'. by destruct (h_pc s j). }
  assert (Hsw : h_pc s j = Swtch -> h_pt s = Some j).
  { intros X. apply B'. by rewrite X. }
  moves Hm; simpl in *; try (pose proof (proj1 A eq_refl)); try (pose proof (proj1 B eq_refl));
    try (pose proof (proj1 C eq_refl)); try (specialize (D eq_refl));
    split; simpl; rewrite ?decide_False by done; simpl; try done;
    try (split; [first [intros X%A'|intros X%B'|intros X%C']|]; congruence);
    try (intros X; first [specialize (Hown X)|specialize (Hfree X)]; congruence).
  - intros. rewrite wakeup1_proc_pid. by apply E'.
  - apply wakeup1_proc_shape; [done|]. intros X%Hsw. congruence.
Qed.

Lemma locked_move i s s' :
  inv s -> move i s = Some s' -> truth (sl_locked (h_sl s')) = true <-> h_owner s' <> None.
Proof. intros [_ Il _] Hm. moves Hm; simpl in *; try done; by rewrite H. Qed.

(** Only the scan of [wakeup1] removes the need for a wakeup. *)
Lemma waker_move i s s' :
  inv s -> move i s = Some s' -> h_pc s i <> WakeScan -> waker s -> waker s'.
Proof.
  intros [Ip Il _] Hm Hscan [Ho|(j & Hj & Hw)]; destruct (Ip i) as [A _ _ _ _ _].
  - unfold waker. moves Hm; simpl in *; try done; try (by left).
    right. exists i. rewrite decide_True by done. split; [by apply A|done].
  - destruct (decide (j = i)) as [->|Hne]; unfold waker; moves Hm; simpl in *; try done;
      try (pose proof (proj1 A eq_refl)); try congruence; right; exists (default 0%nat (h_lk s));
      rewrite Hj; simpl; rewrite ?decide_True, ?decide_False by done; try done.
Qed.

(** After the scan nobody sleeps or is on the way to sleep. *)
Lemma scan_none i s s' :
  inv s -> move i s = Some s' -> h_pc s i = WakeScan ->
  forall j, ~ (going (h_pc s' j) = true \/ asleep s' j).
Proof.
  intros [Ip _ _] Hm Hi j. destruct (Ip i) as [A B _ _ _ _]. destruct (Ip j) as [A' B' _ _ _ F'].
  unfold move in Hm. rewrite Hi in *. simplify_eq. unfold asleep. simpl in *.
  pose proof (proj1 A eq_refl). pose proof (proj1 B eq_refl).
  case_decide as Hj; [intros [?|[? _]]; done|]. intros [Hg|[Hoff Hsl]].
  - destruct (h_pc s j) eqn:E; simpl in *; try done;
      first [pose proof (proj1 A' eq_refl)|pose proof (proj1 B' eq_refl)]; congruence.
  - rewrite Hoff in F'. destruct F' as [Hch _]. unfold wakeup1_proc in Hsl.
    case_match eqn:E; [done|]. rewrite Hsl, Hch in E. by rewrite !bool_decide_true in E.
Qed.

(** A process starts going to sleep only while the lock is owned. *)
Lemma going_move i s s' :
  inv s -> move i s = Some s' -> h_pc s i <> WakeScan ->
  forall j, going (h_pc s' j) = true \/ asleep s' j ->
  going (h_pc s j) = true \/ asleep s j \/ waker s'.
Proof.
  intros [Ip Il _] Hm Hi j Hj. destruct (Ip i) as [_ _ _ _ _ F]. unfold asleep, waker in *.
  destruct (decide (j = i)) as [->|Hne]; moves Hm; simpl in *; try done; try (by left);
    rewrite ?decide_True, ?decide_False in Hj by done; simpl in *; try tauto;
    destruct Hj as [?|[? ?]]; try done; try tauto.
Qed.

Lemma hinv_step s s' : step s s' -> inv s -> inv s'.
Proof.
  intros [i Hm] I. split.
  - intros j. destruct (decide (j = i)) as [->|]; [by eapply pinv_mover|by eapply pinv_other].
  - by eapply locked_move.
  - intros j Hj. destruct (decide (h_pc s i = WakeScan)) as [Hi|Hi].
    + by destruct (scan_none i s s' I Hm Hi j).
    + destruct (going_move i s s' I Hm Hi j Hj) as [?|[?|?]]; [..|done];
        apply (waker_move i s); try done; apply (inv_wait _ I j); auto.
Qed.

Lemma hinv_reachable name pid s : rtc step (initial name pid) s -> inv s.
Proof.
  intros H. remember (initial name pid) as s0 eqn:E.
  assert (inv s0) as I by (subst; apply hinv_initial).
  clear E. induction H as [|s0 s1 s2 Hs _ IH]; [done|]. by eapply IH, hinv_step.
Qed.

(** The holder of [ptable.lock] can always go on. *)
Lemma pt_holder_moves s i : inv s -> h_pt s = Some i -> is_Some (move i s) /\ h_pc s i <> Idle.
Proof.
  intros I H%(pi_pt _ _ (inv_proc _ I i)). unfold move. destruct (h_pc s i); simpl in *; try done; eauto.
Qed.

(** So some process inside can go on when a given one holds [lk->lk]. *)
Lemma lk_holder_moves s i :
  inv s -> h_lk s = Some i -> exists j, is_Some (move j s) /\ h_pc s j <> Idle.
Proof.
  intros I H%(pi_lk _ _ (inv_proc _ I i)). destruct (h_pt s) as [j|] eqn:Hpt.
  { exists j. by apply pt_holder_moves. }
  exists i. unfold move. rewrite Hpt. destruct (h_pc s i); simpl in *; try done; eauto.
Qed.

Lemma waker_moves s : inv s -> waker s -> exists j, is_Some (move j s) /\ h_pc s j <> Idle.
Proof.
  intros I [Ho|(j & Hj & _)]; [|by eapply lk_holder_moves].
  destruct (h_owner s) as [j|] eqn:E; [|done]. apply (pi_owner _ _ (inv_proc _ I j)) in E.
  destruct (h_lk s) as [l|] eqn:Hl; [by eapply lk_holder_moves|].
  exists j. unfold move. rewrite Hl. destruct (h_pc s j); simpl in *; try done; eauto.
Qed.

(** C30: however the steps of the processes interleave, at most one process is
    between [acquiresleep] and [releasesleep]; the lock word is set exactly when
    one is, and [lk->pid], which [holdingsleep] reads, is then its pid. *)
Theorem sleeplock_exclusion (name : string) (pid : nat -> Z) (s : hstate) :
  rtc step (initial name pid) s ->
  (forall i j, owns (h_pc s i) = true -> owns (h_pc s j) = true -> i = j)
  /\ (truth (sl_locked (h_sl s)) = true <-> exists i, owns (h_pc s i) = true)
  /\ (forall i, h_pc s i = Holding -> sl_pid (h_sl s) = p_pid (h_proc s i)).
Proof.
  intros I%hinv_reachable. pose proof (fun i => pi_owner _ _ (inv_proc _ I i)) as Ho. split_and!.
  - intros i j Hi%Ho Hj%Ho. congruence.
  - rewrite (inv_locked _ I). destruct (h_owner s) as [i|] eqn:E.
    + split; [|done]. intros _. exists i. by apply Ho.
    + split; [done|]. by intros [i Hi%Ho].
  - intros i Hi. apply (pi_pid _ _ (inv_proc _ I i)). by rewrite Hi.
Qed.

(** C2: no wakeup is lost.  A process that sleeps on the lock sleeps on its
    channel, and while it does the lock is still owned, or the process that
    released it has not scanned the process table yet.  (The test of
    [lk->locked] and the store of [SLEEPING] are covered by [lk->lk] and
    [ptable.lock] without a gap.) *)
Theorem no_lost_wakeup (name : string) (pid : nat -> Z) (s : hstate) (i : nat) :
  rtc step (initial name pid) s -> asleep s i ->
  p_chan (h_proc s i) = Some ch
  /\ exists j, j <> i /\ (owns (h_pc s j) = true \/ waking (h_pc s j) = true).
Proof.
  intros I%hinv_reachable Ha. pose proof Ha as [Hoff _]. split.
  { pose proof (pi_shape _ _ (inv_proc _ I i)) as F. rewrite Hoff in F. apply F. }
  destruct (inv_wait _ I i (or_intror Ha)) as [Ho|(j & _ & Hw)].
  - destruct (h_owner s) as [j|] eqn:E; [|done]. apply (pi_owner _ _ (inv_proc _ I j)) in E.
    exists j. split; [|by left]. intros ->. by rewrite Hoff in E.
  - exists j. split; [|by right]. intros ->. by rewrite Hoff in Hw.
Qed.

(** the protocol does not deadlock: as long as some process is inside
    [acquiresleep] or [releasesleep], or holds the lock, one that is can take a
    step. *)
Theorem sleeplock_progress (name : string) (pid : nat -> Z) (s : hstate) (i : nat) :
  rtc step (initial name pid) s -> h_pc s i <> Idle ->
  exists j, is_Some (move j s) /\ h_pc s j <> Idle.
Proof.
  intros I%hinv_reachable Hi. destruct (h_pt s) as [j|] eqn:Hpt.
  { exists j. by apply pt_holder_moves. }
  destruct (h_lk s) as [j|] eqn:Hlk; [by eapply lk_holder_moves|].
  destruct (decide (p_state (h_proc s i) = SLEEPING /\ h_pc s i = Off)) as [[Hs Ho]|Hn].
  { apply waker_moves; [done|]. apply (inv_wait _ I i). by right. }
  exists i. split; [|done]. pose proof (pi_shape _ _ (inv_proc _ I i)) as F. unfold move.
  rewrite Hpt, Hlk. destruct (h_pc s i); simpl in *; try done.
  destruct F as [_ [F|F]]; [tauto|]. rewrite bool_decide_true by done. by eexists.
Qed.

End Protocol.

(** A run given by the processes that step. *)
Fixpoint runs (ch : channel) (l : list nat) (s : hstate) : option hstate :=
  match l with
  | [] => Some s
  | i :: l => match move ch i s with Some s' => runs ch l s' | None => None end
  end.

Lemma runs_reachable ch l s s' : runs ch l s = Some s' -> rtc (step ch) s s'.
Proof.
  revert s. induction l as [|i l IH]; intros s H; simpl in H; [by simplify_eq|].
  destruct (move ch i s) as [s1|] eqn:E; [|done]. eapply rtc_l; [by exists i|by apply IH].
Qed.

(** Process 1 takes the lock, then process 0 goes to sleep on it. *)
Definition buf0 : channel := Ch_sleeplock (SL_buf 0).
Definition start : hstate := initial EmptyString (fun i => 1 + Z.of_nat i).
Definition schedule : list nat := replicate 6 1%nat ++ replicate 8 0%nat.
Definition contended : hstate := default start (runs buf0 schedule start).

Lemma contended_reachable : rtc (step buf0) start contended.
Proof.
  apply (runs_reachable buf0 schedule). unfold contended.
  assert (H : bool_decide (is_Some (runs buf0 schedule start)) = true) by (vm_compute; reflexivity).
  apply bool_decide_eq_true in H as [s ->]. reflexivity.
Qed.

Lemma sleeplock_exclusion_witness :
  h_pc contended 1 = Holding
  /\ (forall i j, owns (h_pc contended i) = true -> owns (h_pc contended j) = true -> i = j).
Proof.
  split; [vm_compute; reflexivity|].
  apply (sleeplock_exclusion buf0 EmptyString _ contended contended_reachable).
Defined.

Lemma no_lost_wakeup_witness :
  asleep contended 0
  /\ exists j, j <> 0%nat /\ (owns (h_pc contended j) = true \/ waking (h_pc contended j) = true).
Proof.
  assert (A : asleep contended 0) by (split; vm_compute; reflexivity). split; [exact A|].
  apply (no_lost_wakeup buf0 EmptyString _ contended 0 contended_reachable A).
Defined.

Lemma sleeplock_progress_witness :
  move buf0 0 contended = None
  /\ exists j, is_Some (move buf0 j contended) /\ h_pc contended j <> Idle.
Proof.
  split; [vm_compute; reflexivity|].
  apply (sleeplock_progress buf0 EmptyString _ contended 0 contended_reachable).
  vm_compute. discriminate.
Defined.

End Handoff.
