(* ===== verification/Console.v ===== *)
(** * The console: formatted output, the screen and line editing (console.c)

    [cprintf] with its formats, [cgaputc] on the text screen, and [consoleintr],
    which edits the input line in the ring buffer [input].  What [consputc] sends
    to the serial port and the screen is recorded in [k_out]. *)

From Stdlib Require Import String Ascii ZArith Lia.
From stdpp Require Import base gmap list strings.
From S2P Require Import Prelude State Queue Spinlock Sched.

Definition BACKSPACE : Z := 0x100.

(** Characters of a string constant. *)
Definition chars (s : string) : list Z :=
  (fun a => Z.of_nat (Ascii.nat_of_ascii a)) <$> String.list_ascii_of_string s.

Definition ch (s : string) : Z := List.hd 0 (chars s).

Definition NL : Z := 10.
Definition CR : Z := 13.

(** ** Output *)

Definition consputc (c : Z) : K unit := modify (fun k => set_k_out (k_out k ++ [c]) k).

Definition digits : list Z := chars "0123456789abcdef".

(** The [do ... while] loop of [printint]: the digits, least significant first.
    Thirty-two rounds are enough for a 32-bit number in any base. *)
Fixpoint print_digits (fuel : nat) (x base : Z) : list Z :=
  match fuel with
  | O => []
  | S fuel =>
      default 0 (digits !! Z.to_nat (x mod base))
      :: (if x / base =? 0 then [] else print_digits fuel (x / base) base)
  end.

(** What [printint] prints. *)
Definition printint_chars (xx base sign : Z) : list Z :=
  let neg := truth sign && (xx <? 0) in
  let x := if neg then u32 (- xx) else u32 xx in
  let buf := print_digits 32 x base in
  rev (if neg then buf ++ [ch "-"] else buf).

Definition put_all (l : list Z) : K unit := for_each consputc l.

Definition printint (xx base sign : Z) : K unit := put_all (printint_chars xx base sign).

(** An argument of [cprintf]: a word, or a pointer to a string (null for
    [None]). *)
Inductive farg : Type := FInt (z : Z) | FStr (s : option (list Z)).

Definition farg_int (a : farg) : Z := match a with FInt z => z | FStr _ => 0 end.
Definition farg_str (a : farg) : list Z :=
  match a with FStr (Some s) => s | _ => chars "(null)" end.

(** The loop of [cprintf] over the format. A missing argument, which C leaves
    undefined, reads as 0. *)
Fixpoint cprintf_loop (fmt : list Z) (args : list farg) : K unit :=
  match fmt with
  | [] => ret tt
  | c :: fmt =>
      if negb (c =? ch "%") then consputc c;; cprintf_loop fmt args
      else match fmt with
      | [] => ret tt
      | c :: fmt =>
          let arg := List.hd (FInt 0) args in
          if c =? ch "d" then printint (s32 (farg_int arg)) 10 1;; cprintf_loop fmt (List.tl args)
          else if (c =? ch "x") || (c =? ch "p") then
            printint (s32 (farg_int arg)) 16 0;; cprintf_loop fmt (List.tl args)
          else if c =? ch "s" then put_all (farg_str arg);; cprintf_loop fmt (List.tl args)
          else if c =? ch "%" then consputc (ch "%");; cprintf_loop fmt args
          else consputc (ch "%");; consputc c;; cprintf_loop fmt args
      end
  end.

Definition cprintf (fmt : string) (args : list farg) : K unit :=
  locking <- gets k_locking;;
  when (truth locking) (acquire L_cons);;
  cprintf_loop (chars fmt) args;;
  when (truth locking) (release L_cons).

(** ** The screen

    [cga_pos] is the cursor register of the adapter and [cga_crt] the 25 rows of
    80 cells of its memory. *)
Record cga : Type := mk_cga { cga_pos : Z; cga_crt : list Z }.

(** [memmove(crt, crt+80, 2*23*80)], then [memset(crt+pos, 0, 2*(24*80 - pos))]. *)
Definition scroll (pos : Z) (crt : list Z) : list Z :=
  let crt := take (23 * 80) (drop 80 crt) ++ drop (23 * 80) crt in
  let n := Z.to_nat (24 * 80 - pos) in
  take (Z.to_nat pos) crt ++ replicate n 0 ++ drop (Z.to_nat pos + n) crt.

Definition crt_put (pos v : Z) (crt : list Z) : list Z := <[Z.to_nat pos := v]> crt.

(** [None] is the panic [pos under/overflow]. *)
Definition cgaputc (c : Z) (s : cga) : option cga :=
  let pos := cga_pos s in
  let '(pos, crt) :=
    if c =? NL then (pos + (80 - pos mod 80), cga_crt s)
    else if c =? BACKSPACE then (if 0 <? pos then pos - 1 else pos, cga_crt s)
    else (pos + 1, crt_put pos (Z.lor (Z.land c 0xff) 0x0700) (cga_crt s)) in
  if (pos <? 0) || (25 * 80 <? pos) then None else
  let '(pos, crt) := if 24 <=? pos / 80 then (pos - 80, scroll (pos - 80) crt) else (pos, crt) in
  Some (mk_cga pos (crt_put pos (Z.lor (ch " ") 0x0700) crt)).

(** ** Line editing *)

Definition Ctl (s : string) : Z := ch s - ch "@".

Definition input_at (i : input_t) (n : Z) : Z := default 0 (in_buf i !! slot INPUT_BUF n).

Definition set_input_at (n v : Z) (i : input_t) : input_t :=
  set_in_buf (<[slot INPUT_BUF n := v]> (in_buf i)) i.

Definition upd_input (f : input_t -> input_t) (k : kstate) : kstate := set_k_input (f (k_input k)) k.

(** The loop of [C('U')]; [input.e - input.w] rounds at most. *)
Fixpoint kill_line (fuel : nat) : K unit :=
  match fuel with
  | O => fun k _ => Stuck k
  | S fuel =>
      i <- gets k_input;;
      if negb (in_e i =? in_w i) && negb (input_at i (u32 (in_e i - 1)) =? NL) then
        modify (upd_input (fun i => set_in_e (u32 (in_e i - 1)) i));;
        consputc BACKSPACE;;
        kill_line fuel
      else ret tt
  end.

(** One round of the loop of [consoleintr], without [C('P')]. *)
Definition console_char (c : Z) : K unit :=
  if c =? Ctl "U" then
    i <- gets k_input;; kill_line (S (Z.to_nat (u32 (in_e i - in_w i))))
  else if (c =? Ctl "H") || (c =? 0x7f) then
    i <- gets k_input;;
    when (negb (in_e i =? in_w i))
      (modify (upd_input (fun i => set_in_e (u32 (in_e i - 1)) i));; consputc BACKSPACE)
  else
    i <- gets k_input;;
    when (negb (c =? 0) && (u32 (in_e i - in_r i) <? Z.of_nat INPUT_BUF))
     (let c := if c =? CR then NL else c in
      modify (upd_input (fun i => set_in_e (u32 (in_e i + 1)) (set_input_at (in_e i) (s8 c) i)));;
      consputc c;;
      i <- gets k_input;;
      when ((c =? NL) || (c =? Ctl "D") || (in_e i =? u32 (in_r i + Z.of_nat INPUT_BUF)))
        (modify (upd_input (fun i => set_in_w (in_e i) i));;
         wakeup Ch_input)).

(** The characters that [getc] returns until it returns a negative value. *)
Fixpoint console_chars (cs : list Z) (doprocdump : bool) : K bool :=
  match cs with
  | [] => ret doprocdump
  | c :: cs =>
      if c =? Ctl "P" then console_chars cs true
      else console_char c;; console_chars cs doprocdump
  end.

Definition consoleintr (procdump : K unit) (cs : list Z) : K unit :=
  acquire L_cons;;
  doprocdump <- console_chars cs false;;
  release L_cons;;
  when doprocdump procdump.
