(* ===== verification/ConsoleSpec.v ===== *)
(** * Properties of the console

    [printint] prints the number it is given, the screen shows what is printed
    on it, and the interrupt handler [consoleintr] refines a line editor. *)

From Stdlib Require Import String Ascii ZArith Lia.
From stdpp Require Import base gmap list strings.
From S2P Require Import Prelude State Queue Spinlock Sched Console.

(** ** Numbers *)

(** The value of a digit, and of a numeral read from left to right. *)
Definition digit_val (c : Z) : Z := if c <=? 57 then c - 48 else c - 87.
Definition read_number (base : Z) (l : list Z) : Z :=
  fold_left (fun a c => a * base + digit_val c) l 0.

Definition is_digit (base c : Z) : Prop :=
  0 <= digit_val c < base /\ (48 <= c <= 57 \/ 97 <= c <= 102).

Lemma digit_ok d : 0 <= d < 16 ->
  exists c, digits !! Z.to_nat d = Some c /\ digit_val c = d /\ (48 <= c <= 57 \/ 97 <= c <= 102).
Proof.
  intros H. assert (E : exists n, d = Z.of_nat n /\ (n < 16)%nat) by (exists (Z.to_nat d); lia).
  destruct E as (n & -> & Hn). rewrite Nat2Z.id.
  do 16 (destruct n as [|n]; [eexists; split; [vm_compute; reflexivity|]; vm_compute; intuition congruence|]).
  lia.
Qed.

(** The digits from the right: their value, their shape, and the bound on their
    number. *)
Lemma print_digits_ok fuel : forall x base,
  2 <= base <= 16 -> 0 <= x < base ^ Z.of_nat fuel -> (0 < fuel)%nat ->
  fold_right (fun c a => a * base + digit_val c) 0 (print_digits fuel x base) = x
  /\ Forall (is_digit base) (print_digits fuel x base)
  /\ print_digits fuel x base <> []
  /\ (0 < x -> exists l d, print_digits fuel x base = l ++ [d] /\ digit_val d <> 0).
Proof.
  induction fuel as [|fuel IH]; intros x base Hb Hx Hf; [lia|].
  cbn [print_digits fold_right].
  pose proof (Z.mod_pos_bound x base ltac:(lia)) as Hm.
  destruct (digit_ok (x mod base) ltac:(lia)) as (c & Hc & Hv & Hr). rewrite Hc. simpl default.
  pose proof (Z.div_mod x base ltac:(lia)) as Hdm.
  destruct (Z.eqb_spec (x / base) 0) as [E|E].
  - split_and!; [simpl; lia|constructor; [split; [lia|done]|constructor]|done|].
    intros Hp. exists [], c. split; [done|]. rewrite Hv. rewrite E in Hdm. lia.
  - assert (Hq : 0 < x / base) by (pose proof (Z.div_pos x base); lia).
    assert (Hq' : x / base < base ^ Z.of_nat fuel).
    { apply Z.div_lt_upper_bound; [lia|]. replace (Z.of_nat (S fuel)) with (1 + Z.of_nat fuel) in Hx by lia.
      rewrite Z.pow_add_r in Hx by lia. lia. }
    assert (Hf' : (0 < fuel)%nat) by (destruct fuel; [simpl in Hq'; lia|lia]).
    destruct (IH (x / base) base Hb ltac:(lia) Hf') as (I1 & I2 & I3 & I4).
    split_and!; [rewrite I1; lia|constructor; [split; [lia|done]|done]|done|].
    intros _. destruct (I4 Hq) as (l & d & -> & Hd). by exists (c :: l), d.
Qed.

Lemma print_digits_length fuel n : forall x base,
  2 <= base -> 0 <= x < base ^ Z.of_nat n -> (0 < n)%nat -> (length (print_digits fuel x base) <= n)%nat.
Proof.
  revert n. induction fuel as [|fuel IH]; intros n x base Hb Hx Hn; simpl; [lia|].
  destruct (Z.eqb_spec (x / base) 0) as [E|E]; simpl; [lia|].
  assert (Hq : 0 <= x / base) by (apply Z.div_pos; lia).
  destruct n as [|[|n]]; [lia| |].
  - destruct E. apply Z.div_small. simpl in Hx. lia.
  - apply le_n_S, IH; [done| |lia]. split; [done|]. apply Z.div_lt_upper_bound; [lia|].
    replace (Z.of_nat (S (S n))) with (1 + Z.of_nat (S n)) in Hx by lia.
    rewrite Z.pow_add_r in Hx by lia. lia.
Qed.

(** [printint] prints the number it is given.  For a 32-bit [xx] and a base
    from 2 to 16 the output is a minus sign when a signed negative number is
    printed, followed by a numeral whose digits are all below the base, without
    leading zeros, and whose value is the number; in bases 10 and above it fits
    the 16 bytes of [buf]. *)
Theorem printint_prints (xx base sign : Z) :
  - 2 ^ 31 <= xx < 2 ^ 31 -> 2 <= base <= 16 ->
  let neg := truth sign && (xx <? 0) in
  exists numeral,
    printint_chars xx base sign = (if neg then chars "-" else []) ++ numeral
    /\ read_number base numeral = (if neg then - xx else u32 xx)
    /\ Forall (is_digit base) numeral /\ numeral <> []
    /\ (List.hd 0 numeral = ch "0" -> numeral = chars "0")
    /\ (10 <= base -> (length (printint_chars xx base sign) <= 16)%nat).
Proof.
  intros Hxx Hb neg. unfold printint_chars. fold neg.
  set (x := if neg then u32 (- xx) else u32 xx).
  assert (Hx : 0 <= x < 2 ^ 32) by (unfold x; destruct neg; apply u32_bounds).
  assert (Hxn : x = if neg then - xx else u32 xx).
  { unfold x. destruct neg eqn:En; [|done]. apply andb_true_iff in En as [_ En]. apply u32_small. lia. }
  assert (Hxb : 0 <= x < base ^ Z.of_nat 32).
  { split; [lia|]. apply Z.lt_le_trans with (2 ^ 32); [lia|]. apply Z.pow_le_mono_l. lia. }
  destruct (print_digits_ok 32 x base Hb Hxb ltac:(lia)) as (D1 & D2 & D3 & D4).
  set (ds := print_digits 32 x base) in *.
  exists (rev ds). split_and!.
  - destruct neg; [by rewrite rev_app_distr|done].
  - rewrite <- Hxn, <- D1. unfold read_number. rewrite <- fold_left_rev_right, rev_involutive.
    reflexivity.
  - by apply Forall_rev.
  - intros E. apply D3. by rewrite <- (rev_involutive ds), E.
  - destruct (decide (0 < x)) as [Hp|Hp].
    + destruct (D4 Hp) as (l & d & El & Hd). rewrite El, rev_app_distr. simpl. intros ->. by destruct Hd.
    + intros _. unfold ds. replace x with 0 by lia. cbn [print_digits].
      by rewrite Z.mod_0_l, Z.div_0_l by lia.
  - intros H10. assert (H : (length ds <= 10)%nat).
    { apply print_digits_length; [lia| |lia]. split; [lia|]. apply Z.lt_le_trans with (10 ^ 10); [lia|].
      apply Z.pow_le_mono_l. lia. }
    clear -H. clearbody ds. rewrite length_rev. destruct neg; [rewrite length_app; cbn [length]|]; lia.
Qed.

Lemma printint_prints_witness :
  exists numeral, printint_chars (-2147483648) 10 1 = chars "-" ++ numeral
    /\ read_number 10 numeral = 2147483648 /\ numeral = chars "2147483648".
Proof.
  destruct (printint_prints (-2147483648) 10 1) as (n & H1 & H2 & _); [lia|lia|].
  exists n. split; [exact H1|]. split; [exact H2|].
  vm_compute in H1. by simplify_eq.
Defined.

(** ** The screen *)

(** The cursor is on the first 24 rows of a screen of 25. *)
Definition cga_ok (s : cga) : Prop := 0 <= cga_pos s < 24 * 80 /\ length (cga_crt s) = 2000%nat.

Definition cga_puts (l : list Z) (s : option cga) : option cga :=
  fold_left (fun s c => s ≫= cgaputc c) l s.

Lemma length_scroll pos crt :
  0 <= pos < 24 * 80 -> length crt = 2000%nat -> length (scroll pos crt) = 2000%nat.
Proof.
  intros Hp Hl. unfold scroll.
  repeat (rewrite ?length_app, ?length_take, ?length_drop, ?length_replicate). lia.
Qed.

(** A row of the screen moves up by one. *)
Lemma scroll_up crt pos i :
  length crt = 2000%nat -> (i < Z.to_nat pos)%nat -> (Z.to_nat pos <= 23 * 80)%nat ->
  scroll pos crt !! i = crt !! (80 + i)%nat.
Proof.
  intros Hl Hi Hp. unfold scroll.
  rewrite lookup_app_l by (repeat (rewrite ?length_app, ?length_take, ?length_drop); lia).
  rewrite lookup_take_lt by lia. rewrite lookup_app_l by (rewrite length_take, length_drop; lia).
  rewrite lookup_take_lt by lia. by rewrite lookup_drop.
Qed.

Definition blank : Z := Z.lor (ch " ") 0x0700.
Definition cell (c : Z) : Z := Z.lor (Z.land c 0xff) 0x0700.

(** The end of [cgaputc], from a cursor position of the first 24 rows or just
    below them. *)
Definition cga_settle (pos : Z) (crt : list Z) : cga :=
  let '(pos, crt) := if 24 <=? pos / 80 then (pos - 80, scroll (pos - 80) crt) else (pos, crt) in
  mk_cga pos (crt_put pos blank crt).

Lemma cga_settle_ok pos crt :
  0 <= pos <= 24 * 80 -> length crt = 2000%nat ->
  let s := cga_settle pos crt in
  cga_ok s /\ cga_crt s !! Z.to_nat (cga_pos s) = Some blank
  /\ (0 < pos -> 0 < cga_pos s
      /\ cga_crt s !! Z.to_nat (cga_pos s - 1) = crt !! Z.to_nat (pos - 1)).
Proof.
  intros Hp Hl. unfold cga_settle.
  destruct (Z.leb_spec 24 (pos / 80)) as [H|H].
  - assert (pos = 24 * 80) as -> by div_lia. simpl Z.sub. simpl Z.mul. split_and!.
    + split; [simpl; lia|]. simpl cga_crt. unfold crt_put. rewrite length_insert.
      apply length_scroll; [lia|done].
    + simpl cga_crt. simpl cga_pos. unfold crt_put. apply list_lookup_insert_eq.
      rewrite length_scroll by lia. lia.
    + intros _. simpl cga_crt. simpl cga_pos. split; [lia|]. unfold crt_put.
      rewrite list_lookup_insert_ne by lia. rewrite scroll_up by lia. f_equal; lia.
  - assert (pos < 24 * 80) by div_lia. simpl cga_crt. simpl cga_pos. unfold crt_put. split_and!.
    + split; [simpl; lia|]. simpl. by rewrite length_insert.
    + apply list_lookup_insert_eq. lia.
    + intros. split; [lia|]. by rewrite list_lookup_insert_ne by lia.
Qed.

Lemma cgaputc_ok c s :
  cga_ok s ->
  exists s', cgaputc c s = Some s' /\ cga_ok s'
    /\ cga_crt s' !! Z.to_nat (cga_pos s') = Some blank
    /\ (c <> NL -> c <> BACKSPACE ->
        0 < cga_pos s' /\ cga_crt s' !! Z.to_nat (cga_pos s' - 1) = Some (cell c)).
Proof.
  intros [Hp Hl]. unfold cgaputc.
  destruct (Z.eqb_spec c NL) as [->|Hn]; [|destruct (Z.eqb_spec c BACKSPACE) as [->|Hb]].
  - set (pos := cga_pos s + (80 - cga_pos s mod 80)).
    assert (0 <= pos <= 24 * 80) by (subst pos; div_lia).
    destruct (Z.ltb_spec pos 0); [lia|]. destruct (Z.ltb_spec (25 * 80) pos); [lia|].
    destruct (cga_settle_ok pos (cga_crt s)) as (A1 & A2 & _); [lia|done|].
    exists (cga_settle pos (cga_crt s)). split; [|by split_and!].
    unfold cga_settle. by destruct (24 <=? pos / 80).
  - set (pos := if 0 <? cga_pos s then cga_pos s - 1 else cga_pos s).
    assert (0 <= pos <= 24 * 80) by (subst pos; destruct (Z.ltb_spec 0 (cga_pos s)); lia).
    destruct (Z.ltb_spec pos 0); [lia|]. destruct (Z.ltb_spec (25 * 80) pos); [lia|].
    destruct (cga_settle_ok pos (cga_crt s)) as (A1 & A2 & _); [lia|done|].
    exists (cga_settle pos (cga_crt s)). split; [|by split_and!].
    unfold cga_settle. by destruct (24 <=? pos / 80).
  - set (pos := cga_pos s + 1). set (crt := crt_put _ _ _).
    destruct (Z.ltb_spec pos 0); [lia|]. destruct (Z.ltb_spec (25 * 80) pos); [lia|].
    assert (Hc : length crt = 2000%nat) by (unfold crt, crt_put; by rewrite length_insert).
    destruct (cga_settle_ok pos crt) as (A1 & A2 & A3); [lia|done|].
    exists (cga_settle pos crt). split; [unfold cga_settle; by destruct (24 <=? pos / 80)|].
    split; [done|]. split; [done|]. intros _ _. destruct A3 as [A3 A4]; [lia|]. split; [done|].
    rewrite A4. unfold crt, crt_put, cell. replace (pos - 1) with (cga_pos s) by lia.
    apply list_lookup_insert_eq. lia.
Qed.

Lemma cga_puts_ok l : forall s, cga_ok s -> exists s', cga_puts l (Some s) = Some s' /\ cga_ok s'.
Proof.
  induction l as [|c l IH]; intros s Hs; [by exists s|].
  destruct (cgaputc_ok c s Hs) as (s1 & E1 & H1 & _). destruct (IH s1 H1) as (s' & E' & H').
  exists s'. split; [|done]. unfold cga_puts in *. simpl. by rewrite E1.
Qed.

(** The screen shows what is printed.  From a cursor on the first 24 rows, no
    sequence of characters, newlines and backspaces makes [cgaputc] panic or
    write outside the 80 x 25 cells; the cursor stays on the first 24 rows, over
    a blank cell, and a character other than newline and backspace ends up in
    the cell before it, also when the screen scrolls. *)
Theorem screen_shows (l : list Z) (c : Z) (s : cga) :
  cga_ok s ->
  exists s', cga_puts (l ++ [c]) (Some s) = Some s' /\ cga_ok s'
    /\ cga_crt s' !! Z.to_nat (cga_pos s') = Some blank
    /\ (c <> NL -> c <> BACKSPACE ->
        0 < cga_pos s' /\ cga_crt s' !! Z.to_nat (cga_pos s' - 1) = Some (cell c)).
Proof.
  intros Hs. destruct (cga_puts_ok l s Hs) as (s1 & E1 & H1).
  destruct (cgaputc_ok c s1 H1) as (s' & E' & H'). exists s'. split; [|done].
  unfold cga_puts in *. rewrite fold_left_app, E1. done.
Qed.

Lemma screen_shows_witness :
  exists s', cga_puts ([NL; BACKSPACE] ++ [65]) (Some (mk_cga 1900 (replicate 2000 0))) = Some s'
    /\ 0 < cga_pos s' /\ cga_crt s' !! Z.to_nat (cga_pos s' - 1) = Some (cell 65).
Proof.
  destruct (screen_shows [NL; BACKSPACE] 65 (mk_cga 1900 (replicate 2000 0))) as (s' & H1 & _ & _ & H2).
  - split; [vm_compute; intuition congruence|]. exact (length_replicate 2000 0).
  - exists s'. split; [exact H1|]. apply H2; discriminate.
Defined.

(** ** The line discipline

    What a typist sees: the characters handed to readers so far unread, [dn], and
    the line being edited, [ed]. *)

Definition printed (c : Z) : Z := if c =? CR then NL else c.

(** Whether a typed character ends the line. *)
Definition ends_line (dn ed : list Z) (c : Z) : bool :=
  (c =? NL) || (c =? Ctl "D") || (length (dn ++ ed ++ [c]) =? INPUT_BUF)%nat.

Definition edit_line (l : list Z * list Z) (c : Z) : list Z * list Z :=
  let '(dn, ed) := l in
  if c =? Ctl "P" then l
  else if c =? Ctl "U" then (dn, [])
  else if (c =? Ctl "H") || (c =? 0x7f) then (dn, take (length ed - 1) ed)
  else if negb (c =? 0) && (length (dn ++ ed) <? INPUT_BUF)%nat then
    let c := printed c in
    if ends_line dn ed c then (dn ++ ed ++ [s8 c], []) else (dn, ed ++ [s8 c])
  else l.

(** What is echoed. *)
Definition echo (l : list Z * list Z) (c : Z) : list Z :=
  let '(dn, ed) := l in
  if c =? Ctl "P" then []
  else if c =? Ctl "U" then replicate (length ed) BACKSPACE
  else if (c =? Ctl "H") || (c =? 0x7f) then (if bool_decide (ed = []) then [] else [BACKSPACE])
  else if negb (c =? 0) && (length (dn ++ ed) <? INPUT_BUF)%nat then [printed c]
  else [].

Record line_ok (i : input_t) (dn ed : list Z) : Prop := {
  li_length : length (in_buf i) = INPUT_BUF;
  li_r : u32 (in_r i) = in_r i;
  li_w : in_w i = u32 (in_r i + Z.of_nat (length dn));
  li_e : in_e i = u32 (in_r i + Z.of_nat (length (dn ++ ed)));
  li_max : (length (dn ++ ed) <= INPUT_BUF)%nat;
  li_data : holds INPUT_BUF (in_buf i) (in_r i) (dn ++ ed);
  li_edit : Forall (fun c => c <> NL) ed
}.

Record on_console (k : kstate) (c : nat) (dn ed : list Z) : Prop := {
  oc_settled : settled k c;
  oc_cons : lock_free k L_cons;
  oc_ptable : lock_free k L_ptable;
  oc_line : line_ok (k_input k) dn ed
}.

Lemma input_buf_pos : (0 < INPUT_BUF)%nat.
Proof. unfold INPUT_BUF. lia. Qed.

Lemma input_buf_divides : (Z.of_nat INPUT_BUF | 2 ^ 32).
Proof. exists (2 ^ 25). by vm_compute. Qed.

Lemma u32_offsets a i j : 0 <= i < 2 ^ 32 -> 0 <= j < 2 ^ 32 ->
  (u32 (a + i) =? u32 (a + j)) = (i =? j).
Proof.
  intros Hi Hj. destruct (Z.eqb_spec i j) as [->|H]; [apply Z.eqb_refl|].
  apply Z.eqb_neq. intros E. apply H, (u32_add_inj a); done.
Qed.

Lemma line_edited i dn ed : line_ok i dn ed -> (in_e i =? in_w i) = bool_decide (ed = []).
Proof.
  intros []. rewrite li_e0, li_w0. unfold INPUT_BUF in *. rewrite length_app in *.
  rewrite u32_offsets by lia. case_bool_decide as E.
  - subst. apply Z.eqb_eq. simpl. lia.
  - apply Z.eqb_neq. destruct ed; [done|]. simpl. lia.
Qed.

(** [input.e--] takes the last character off the line. *)
Definition e_down (i : input_t) : input_t := set_in_e (u32 (in_e i - 1)) i.

Lemma line_back i dn ed x : line_ok i dn (ed ++ [x]) ->
  line_ok (e_down i) dn ed /\ input_at i (u32 (in_e i - 1)) = x /\ x <> NL.
Proof.
  intros [Hl Hr Hw He Hm Hd Hn]. rewrite app_assoc in *.
  assert (Ee : u32 (in_e i - 1) = u32 (in_r i + Z.of_nat (length (dn ++ ed)))).
  { rewrite He, u32_sub_l, length_app. simpl. f_equal. lia. }
  rewrite length_app in Hm. simpl in Hm. apply Forall_app in Hn as [Hn Hx].
  split_and!.
  - split; simpl; try done; [lia|by apply holds_app_l in Hd].
  - unfold input_at. rewrite Ee, <- (Z.add_0_r (u32 _)), slot_u32, Z.add_0_r
      by (apply input_buf_pos || apply input_buf_divides).
    by rewrite (holds_last _ _ _ _ _ Hd).
  - by inversion Hx.
Qed.

Lemma line_add i dn ed x : line_ok i dn ed -> (length (dn ++ ed) < INPUT_BUF)%nat ->
  let i' := set_in_e (u32 (in_e i + 1)) (set_input_at (in_e i) x i) in
  (x <> NL -> line_ok i' dn (ed ++ [x])) /\ line_ok (set_in_w (in_e i') i') (dn ++ ed ++ [x]) [].
Proof.
  intros [Hl Hr Hw He Hm Hd Hn] Hlt i'.
  assert (Ee : in_e i' = u32 (in_r i + Z.of_nat (length (dn ++ ed ++ [x])))).
  { simpl. rewrite He, u32_add_l, !length_app. simpl. f_equal. lia. }
  assert (Hd' : holds INPUT_BUF (in_buf i') (in_r i) (dn ++ ed ++ [x])).
  { simpl. rewrite He, <- (Z.add_0_r (u32 _)), slot_u32, Z.add_0_r
      by (apply input_buf_pos || apply input_buf_divides).
    rewrite app_assoc. by apply holds_push. }
  assert (Hm' : (length (dn ++ ed ++ [x]) <= INPUT_BUF)%nat)
    by (rewrite app_assoc, length_app; simpl; lia).
  assert (Hl' : length (in_buf i') = INPUT_BUF) by (simpl; by rewrite length_insert).
  split; [intros Hx; split; try done; apply Forall_app; by repeat constructor|].
  split; simpl; rewrite ?app_nil_r; done.
Qed.

(** The state with another input buffer and more output. *)
Definition typed (f : input_t -> input_t) (o : list Z) (k : kstate) : kstate :=
  set_k_out (k_out k ++ o) (upd_input f k).

Lemma on_console_typed k c dn ed f o dn' ed' :
  on_console k c dn ed -> line_ok (f (k_input k)) dn' ed' -> on_console (typed f o k) c dn' ed'.
Proof. intros [] H. split; [other_fields..|done]. Qed.

Lemma kill_line_done k c dn ed e : forall fuel,
  on_console k c dn ed -> (length ed < fuel)%nat ->
  exists k', kill_line fuel (locked c L_cons k) e = Done tt (locked c L_cons k') e
    /\ on_console k' c dn [] /\ k_out k' = k_out k ++ replicate (length ed) BACKSPACE
    /\ k_proc k' = k_proc k.
Proof.
  revert k. induction ed as [|x ed IH] using rev_ind; intros k fuel H Hf;
    (destruct fuel as [|fuel]; [simpl in Hf; lia|]); cbn [kill_line]; rewrite bind_gets;
    change (k_input (locked c L_cons k)) with (k_input k);
    rewrite (line_edited _ dn _ (oc_line _ _ _ _ H)).
  - rewrite bool_decide_eq_true_2 by done. exists k. by rewrite app_nil_r.
  - rewrite bool_decide_eq_false_2 by (by destruct ed).
    destruct (line_back _ _ _ _ (oc_line _ _ _ _ H)) as (H1 & Hx & Hnl). rewrite Hx.
    destruct (Z.eqb_spec x NL) as [|_]; [done|]. cbn [negb andb].
    unfold consputc. c_simpl.
    change (set_k_out _ (upd_input _ (locked c L_cons k)))
      with (locked c L_cons (typed e_down [BACKSPACE] k)).
    rewrite length_app in *. simpl in Hf.
    destruct (IH (typed e_down [BACKSPACE] k) fuel) as (k' & E & H' & Ho & Hp);
      [by eapply on_console_typed|lia|].
    exists k'. split; [done|]. split; [done|]. split; [|done].
    rewrite Ho. simpl. rewrite <- app_assoc. f_equal.
    by rewrite Nat.add_comm.
Qed.

Lemma no_sleeper_woken k ch : no_sleeper (woken (Some ch) k) ch.
Proof.
  unfold no_sleeper, woken. simpl. apply Forall_fmap, Forall_true. intros p. simpl.
  unfold wakeup1_proc. destruct (bool_decide_reflect (p_state p = SLEEPING)); [|naive_solver].
  simpl. destruct (bool_decide_reflect (p_chan p = Some ch)); [|naive_solver].
  by intros [].
Qed.

(** How [console_char] leaves the machine. *)
Definition char_done (c : nat) (k k' : kstate) (l : list Z * list Z) (ch : Z) : Prop :=
  let l' := edit_line l ch in
  on_console k' c (fst l') (snd l') /\ k_out k' = k_out k ++ echo l ch
  /\ (length (fst l) < length (fst l') \/ no_sleeper k Ch_input -> no_sleeper k' Ch_input)%nat.

Lemma s8_newline c : 0 <= c < 256 -> s8 c = NL -> c = NL.
Proof.
  intros H. unfold s8, u8, NL. rewrite Z.mod_small by (change (2 ^ 8) with 256; lia).
  change (2 ^ 7) with 128. change (2 ^ 8) with 256. destruct (Z.ltb_spec c 128); lia.
Qed.

(** The default case of the [switch], for a character with room for it. *)
Definition key_input (ch : Z) (i : input_t) : input_t :=
  set_in_e (u32 (in_e i + 1)) (set_input_at (in_e i) (s8 (printed ch)) i).

Lemma line_full i dn ed x : line_ok i dn ed ->
  (length (dn ++ ed) < INPUT_BUF)%nat ->
  (in_e (key_input x i) =? u32 (in_r i + Z.of_nat INPUT_BUF))
  = (length (dn ++ ed ++ [x]) =? INPUT_BUF)%nat.
Proof.
  intros [] Hlt. simpl. rewrite li_e0, u32_add_l, <- Z.add_assoc. unfold INPUT_BUF in *.
  rewrite app_assoc, (length_app _ [x]). rewrite u32_offsets by (simpl; lia). simpl length.
  destruct (Nat.eqb_spec (length (dn ++ ed) + 1) 128); [apply Z.eqb_eq|apply Z.eqb_neq]; lia.
Qed.

Lemma console_key_done k c dn ed ch e :
  on_console k c dn ed -> 0 <= ch < 256 -> (length (dn ++ ed) < INPUT_BUF)%nat ->
  let x := printed ch in
  exists k',
    (modify (upd_input (fun i => set_in_e (u32 (in_e i + 1)) (set_input_at (in_e i) (s8 x) i)));;
     consputc x;;
     i <- gets k_input;;
     when ((x =? NL) || (x =? Ctl "D") || (in_e i =? u32 (in_r i + Z.of_nat INPUT_BUF)))
       (modify (upd_input (fun i => set_in_w (in_e i) i));;
        wakeup Ch_input)) (locked c L_cons k) e = Done tt (locked c L_cons k') e
    /\ k_out k' = k_out k ++ [x]
    /\ (if ends_line dn ed x then on_console k' c (dn ++ ed ++ [s8 x]) [] /\ no_sleeper k' Ch_input
        else on_console k' c dn (ed ++ [s8 x]) /\ k_proc k' = k_proc k).
Proof.
  intros H Hc Hlt x. pose proof (oc_line _ _ _ _ H) as Hl.
  unfold consputc. c_simpl.
  change (set_k_out _ (upd_input _ (locked c L_cons k))) with (locked c L_cons (typed (key_input ch) [x] k)).
  change (k_input (locked c L_cons (typed (key_input ch) [x] k))) with (key_input ch (k_input k)).
  change (in_r (key_input ch (k_input k))) with (in_r (k_input k)).
  rewrite (line_full _ dn ed ch Hl Hlt).
  destruct (line_add _ dn ed (s8 x) Hl Hlt) as [A1 A2].
  replace (length (dn ++ ed ++ [ch])) with (length (dn ++ ed ++ [x])) by (by rewrite !length_app).
  fold (ends_line dn ed x). destruct (ends_line dn ed x) eqn:Ee; cbn [when].
  - set (k1 := typed (fun i => set_in_w (in_e (key_input ch i)) (key_input ch i)) [x] k).
    assert (H1 : on_console k1 c (dn ++ ed ++ [s8 x]) []) by (by eapply on_console_typed).
    c_simpl. change (upd_input _ (locked c L_cons (typed (key_input ch) [x] k))) with (locked c L_cons k1).
    exists (woken (Some Ch_input) k1). split; [|split; [done|split; [|apply no_sleeper_woken]]].
    + rewrite (wakeup_done (locked c L_cons k1) c Ch_input e); [done| |].
      * by apply settled_locked, (oc_settled _ _ _ _ H1).
      * apply lock_free_locked; [done|]. exact (oc_ptable _ _ _ _ H1).
    + destruct H1. split; [other_fields..|done].
  - exists (typed (key_input ch) [x] k). split; [done|]. split; [done|]. split; [|done].
    eapply on_console_typed; [done|]. apply A1. intros Ex. apply s8_newline in Ex.
    + unfold ends_line in Ee. by rewrite Ex in Ee.
    + unfold x, printed. destruct (ch =? CR); [unfold NL|]; lia.
Qed.

Lemma console_char_done k c dn ed ch e :
  on_console k c dn ed -> 0 <= ch < 256 -> ch <> Ctl "P" ->
  exists k', console_char ch (locked c L_cons k) e = Done tt (locked c L_cons k') e
    /\ char_done c k k' (dn, ed) ch.
Proof.
  intros H Hc HP. unfold console_char, char_done, edit_line, echo.
  rewrite (proj2 (Z.eqb_neq _ _) HP).
  destruct (ch =? Ctl "U") eqn:EU; [|destruct ((ch =? Ctl "H") || (ch =? 0x7f)) eqn:EB].
  - rewrite bind_gets. change (k_input (locked c L_cons k)) with (k_input k).
    destruct (kill_line_done k c dn ed e (S (Z.to_nat (u32 (in_e (k_input k) - in_w (k_input k)))))) as
      (k' & E & H' & Ho & Hp); [done| |].
    { destruct (oc_line _ _ _ _ H). rewrite li_e0, li_w0, u32_sub_l, u32_sub_r.
      unfold INPUT_BUF in *. rewrite length_app in *. rewrite u32_small; lia. }
    exists k'. split; [done|]. split; [done|]. split; [done|]. simpl.
    intros [?|Hn]; [lia|]. unfold no_sleeper. by rewrite Hp.
  - rewrite bind_gets. change (k_input (locked c L_cons k)) with (k_input k).
    rewrite (line_edited _ dn _ (oc_line _ _ _ _ H)).
    destruct (decide (ed = [])) as [->|Hne].
    { rewrite bool_decide_eq_true_2 by done. exists k. simpl. rewrite app_nil_r.
      split; [done|]. split; [done|]. split; [done|]. intros [?|?]; [lia|done]. }
    rewrite bool_decide_eq_false_2 by done. cbn [negb when]. unfold consputc. c_simpl.
    destruct (exists_last Hne) as (ed' & x & ->).
    destruct (line_back _ _ _ _ (oc_line _ _ _ _ H)) as (H1 & _ & _).
    exists (typed e_down [BACKSPACE] k). split; [done|]. split; [|split; [done|]].
    + simpl. rewrite length_app, Nat.add_sub, take_app_length. by eapply on_console_typed.
    + simpl. intros [?|Hn]; [lia|]. done.
  - rewrite bind_gets. change (k_input (locked c L_cons k)) with (k_input k).
    replace (u32 (in_e (k_input k) - in_r (k_input k)) <? Z.of_nat INPUT_BUF)
      with (length (dn ++ ed) <? INPUT_BUF)%nat.
    2: { destruct (oc_line _ _ _ _ H). rewrite li_e0, u32_sub_l, Z.add_simpl_l.
         unfold INPUT_BUF in *. rewrite u32_small by lia.
         destruct (Nat.ltb_spec (length (dn ++ ed)) 128), (Z.ltb_spec (Z.of_nat (length (dn ++ ed))) (Z.of_nat 128));
           lia || done. }
    destruct (negb (ch =? 0) && (length (dn ++ ed) <? INPUT_BUF)%nat) eqn:Eg.
    + apply andb_true_iff in Eg as [_ Hlt%Nat.ltb_lt].
      destruct (console_key_done k c dn ed ch e H Hc Hlt) as (k' & E & Ho & Hk).
      exists k'. split; [exact E|]. destruct (ends_line dn ed (printed ch)); simpl.
      * by destruct Hk.
      * destruct Hk as [Hk Hp]. split; [done|]. split; [done|]. intros [?|Hn]; [lia|].
        unfold no_sleeper. by rewrite Hp.
    + exists k. simpl. rewrite app_nil_r. split; [done|]. split; [done|]. split; [done|].
      intros [?|?]; [lia|done].
Qed.

Fixpoint echo_all (l : list Z * list Z) (cs : list Z) : list Z :=
  match cs with
  | [] => []
  | c :: cs => echo l c ++ echo_all (edit_line l c) cs
  end.

Lemma edit_line_grows l c : (length (fst l) <= length (fst (edit_line l c)))%nat.
Proof.
  destruct l as [dn ed]. unfold edit_line.
  repeat match goal with |- context [if ?b then _ else _] => destruct b end;
    cbn [fst]; rewrite ?length_app; lia.
Qed.

Lemma console_chars_done cs : forall k c l e b,
  on_console k c (fst l) (snd l) -> Forall (fun ch => 0 <= ch < 256) cs ->
  exists k', console_chars cs b (locked c L_cons k) e
      = Done (b || bool_decide (Ctl "P" ∈ cs)) (locked c L_cons k') e
    /\ let l' := fold_left edit_line cs l in
       on_console k' c (fst l') (snd l') /\ k_out k' = k_out k ++ echo_all l cs
       /\ (length (fst l) < length (fst l') \/ no_sleeper k Ch_input -> no_sleeper k' Ch_input)%nat.
Proof.
  induction cs as [|ch cs IH]; intros k c l e b H Hcs.
  - exists k. simpl. rewrite orb_false_r, app_nil_r. split; [done|]. split; [done|]. split; [done|].
    intros [?|?]; [lia|done].
  - inversion Hcs as [|? ? Hch Hcs']; subst. destruct l as [dn ed].
    assert (exists k1, (if ch =? Ctl "P" then ret tt else console_char ch) (locked c L_cons k) e
        = Done tt (locked c L_cons k1) e /\ char_done c k k1 (dn, ed) ch) as (k1 & E1 & H1 & Ho1 & Hs1).
    { destruct (Z.eqb_spec ch (Ctl "P")) as [->|HP]; [|by apply console_char_done].
      exists k. split; [done|]. split; [done|]. split; [by rewrite app_nil_r|].
      intros [Hlt|?]; [simpl in Hlt; lia|done]. }
    destruct (IH k1 c (edit_line (dn, ed) ch) e (b || bool_decide (Ctl "P" = ch)) H1 Hcs')
      as (k' & E & H' & Ho & Hs).
    exists k'. split; [|split; [done|split; [by rewrite Ho, Ho1, <- app_assoc|]]].
    + replace (b || bool_decide (Ctl "P" ∈ ch :: cs))
        with ((b || bool_decide (Ctl "P" = ch)) || bool_decide (Ctl "P" ∈ cs)).
      2: { rewrite <- orb_assoc. f_equal. generalize (Ctl "P") as x. clear. intros x.
           destruct (bool_decide_reflect (x = ch)), (bool_decide_reflect (x ∈ cs)); simpl; symmetry;
             (apply bool_decide_eq_true_2 || apply bool_decide_eq_false_2); set_solver. }
      rewrite <- E. cbn [console_chars]. revert E1. destruct (Z.eqb_spec ch (Ctl "P")) as [->|HP]; intros E1.
      * rewrite bool_decide_eq_true_2, orb_true_r by done. unfold ret in E1.
        assert (E2 : locked c L_cons k = locked c L_cons k1) by congruence. by rewrite E2.
      * run E1. by rewrite bool_decide_eq_false_2, orb_false_r by done.
    + intros Hc. apply Hs. pose proof (edit_line_grows (dn, ed) ch) as Hg.
      destruct (decide (length (fst (edit_line (dn, ed) ch))
        < length (fst (fold_left edit_line cs (edit_line (dn, ed) ch))))%nat); [by left|right].
      apply Hs1. destruct Hc as [Hc|Hc]; [left|by right]. simpl in *. lia.
Qed.


(** C25: the console is a line editor.  Let readers have [dn] characters to take and
    let [ed] be the line being edited.  Handling the characters [cs] never panics
    and never waits; it leaves what [edit_line] computes: erase and kill act on
    the line only, a newline, control-D or a full buffer hand the line over, and
    characters that do not fit are dropped.  The echo is [echo_all], and when a
    line has been handed over nobody is left sleeping on the input.  A control-P
    runs [procdump] at the end, without the lock. *)
Theorem consoleintr_edits (k : kstate) (c : nat) (dn ed cs : list Z) (e : environment kstate) :
  on_console k c dn ed -> Forall (fun ch => 0 <= ch < 256) cs ->
  exists k' dn' ed', fold_left edit_line cs (dn, ed) = (dn', ed')
    /\ (forall procdump, consoleintr procdump cs k e
          = if bool_decide (Ctl "P" ∈ cs) then procdump k' e else Done tt k' e)
    /\ on_console k' c dn' ed'
    /\ k_out k' = k_out k ++ echo_all (dn, ed) cs
    /\ ((length dn < length dn')%nat -> no_sleeper k' Ch_input).
Proof.
  intros H Hcs. destruct (console_chars_done cs k c (dn, ed) e false H Hcs) as (k' & E & H' & Ho & Hs).
  destruct (fold_left edit_line cs (dn, ed)) as [dn' ed'].
  exists k', dn', ed'. split; [done|]. split; [|split; [done|split; [done|intros; apply Hs; by left]]].
  intros procdump. unfold consoleintr.
  run (acquire_free k c L_cons e (oc_settled _ _ _ _ H) (oc_cons _ _ _ _ H)). run E.
  run (release_locked k' c L_cons e (oc_settled _ _ _ _ H') (oc_cons _ _ _ _ H')).
  cbn [orb]. by destruct (bool_decide _).
Qed.

(** A machine whose console has nothing typed. *)
Definition console_machine : kstate :=
  let free := mk_spinlock 0 EmptyString None in
  set_k_locks (<[L_cons := free]> (<[L_ptable := free]> ∅)) (boot_state [mk_cpu 0 1 0 0 (Some 0%nat)] ∅ 0).

Lemma console_machine_ok : on_console console_machine 0 [] [].
Proof.
  split; [by split|by exists EmptyString..|].
  split; [done..| |done|done]. unfold INPUT_BUF. simpl. lia.
Qed.

Lemma consoleintr_edits_witness :
  exists k', consoleintr (ret tt) [108; 120; 0x7f; 115; 13] console_machine [] = Done tt k' []
    /\ on_console k' 0 [108; 115; 10] [].
Proof.
  destruct (consoleintr_edits console_machine 0 [] [] [108; 120; 0x7f; 115; 13] [] console_machine_ok)
    as (k' & dn' & ed' & H1 & H2 & H3 & _); [repeat constructor; lia|].
  vm_compute in H1. simplify_eq. exists k'. split; [exact (H2 (ret tt))|exact H3].
Defined.
