(* ===== verification/Devices.v ===== *)
(** * Device registers (x86.h, picirq.c, ioapic.c, lapic.c, uart.c)

    The drivers of the interrupt controllers, the clock and the serial port.  A
    device is known to the kernel by its answers: what a read of a port or of a
    register in memory returns is a function of all accesses before it.  The
    accesses are recorded in [h_io]. *)

From stdpp Require Import base gmap list strings.
From Stdlib Require Import ZArith Lia.
From S2P Require Import Prelude State Memory Spinlock Sched Console Kbd.

(** The devices of the machine: the answers to [in] and to a read in memory, the
    bytes that [rep insl] transfers, and a bound for the number of times that a
    status register is read before it shows the awaited value. *)
Class Hardware : Type := {
  hw_in : list io_event -> Z -> Z;
  hw_ins : list io_event -> Z -> nat -> list Z;
  hw_read : list io_event -> Z -> Z;
  hw_patience : nat
}.

Section Devices.
Context {HW : Hardware}.

(** ** x86.h *)

Definition log_io (ev : io_event) : K unit := modify (upd_hw (fun h => set_h_io (ev :: h_io h) h)).

Definition inb (port : Z) : K Z :=
  io <- gets (fun k => h_io (k_hw k));;
  let v := u8 (hw_in io port) in
  log_io (Port_in port v);;
  ret v.

Definition outb (port data : Z) : K unit := log_io (Port_out port (u8 data)).

(** The [4 * cnt] bytes stored at the destination. *)
Definition insl (port : Z) (cnt : nat) : K (list Z) :=
  io <- gets (fun k => h_io (k_hw k));;
  let data := u8 <$> resize (4 * cnt) 0 (hw_ins io port (4 * cnt)) in
  log_io (Port_ins port data);;
  ret data.

Definition outsl (port : Z) (data : list Z) (cnt : nat) : K unit := log_io (Port_outs port (take (4 * cnt) data)).

(** A load from and a store to a 32-bit register in memory. *)
Definition mmio_read (a : Z) : K Z :=
  io <- gets (fun k => h_io (k_hw k));;
  let v := u32 (hw_read io a) in
  log_io (Mem_read a v);;
  ret v.

Definition mmio_write (a v : Z) : K unit := log_io (Mem_write a (u32 v)).

(** ** picirq.c *)

Definition IO_PIC1 : Z := 0x20.
Definition IO_PIC2 : Z := 0xA0.

Definition picinit : K unit :=
  outb (IO_PIC1 + 1) 0xFF;;
  outb (IO_PIC2 + 1) 0xFF.

(** ** ioapic.c *)

Definition IOAPIC : Z := 0xFEC00000.
Definition REG_ID : Z := 0x00.
Definition REG_VER : Z := 0x01.
Definition REG_TABLE : Z := 0x10.
Definition INT_DISABLED : Z := 0x00010000.
Definition T_IRQ0 : Z := 32.

(** [ioapic->reg] and [ioapic->data]. *)
Definition ioapicread (reg : Z) : K Z :=
  a <- gets (fun k => ioapic (k_hw k));;
  mmio_write a reg;;
  mmio_read (a + 16).

Definition ioapicwrite (reg data : Z) : K unit :=
  a <- gets (fun k => ioapic (k_hw k));;
  mmio_write a reg;;
  mmio_write (a + 16) data.

Definition ioapicinit : K unit :=
  modify (upd_hw (set_ioapic IOAPIC));;
  ver <- ioapicread REG_VER;;
  let maxintr := Z.land (Z.shiftr ver 16) 0xFF in
  idreg <- ioapicread REG_ID;;
  let id := Z.shiftr idreg 24 in
  apicno <- gets (fun k => ioapicid (k_hw k));;
  when (negb (id =? apicno)) (cprintf ("ioapicinit: id isn't equal to ioapicid; not a MP" ++ newline)%string []);;
  for_each (fun i =>
    ioapicwrite (REG_TABLE + 2 * i) (Z.lor INT_DISABLED (T_IRQ0 + i));;
    ioapicwrite (REG_TABLE + 2 * i + 1) 0) (seqZ 0 (maxintr + 1)).

Definition ioapicenable (irq cpunum : Z) : K unit :=
  ioapicwrite (REG_TABLE + 2 * irq) (T_IRQ0 + irq);;
  ioapicwrite (REG_TABLE + 2 * irq + 1) (Z.shiftl cpunum 24).

(** [halt] stops the processor with interrupts off: nothing happens any more. *)
Definition halt : K unit := cli;; (fun k _ => Stuck k).

(** ** lapic.c *)

(** The registers of the local APIC, and their places as an array of words. *)
Inductive lapicreg : Type :=
  | ID | VER | TPR | EOI | SVR | ESR | ICRLO | ICRHI
  | TIMER | PCINT | LINT0 | LINT1 | ERROR | TICR | TDCR.

Definition lapic_index (r : lapicreg) : Z :=
  match r with
  | ID => 0x0020 / 4 | VER => 0x0030 / 4 | TPR => 0x0080 / 4
  | EOI => 0x00B0 / 4 | SVR => 0x00F0 / 4 | ESR => 0x0280 / 4
  | ICRLO => 0x0300 / 4 | ICRHI => 0x0310 / 4 | TIMER => 0x0320 / 4
  | PCINT => 0x0340 / 4 | LINT0 => 0x0350 / 4 | LINT1 => 0x0360 / 4
  | ERROR => 0x0370 / 4 | TICR => 0x0380 / 4 | TDCR => 0x03E0 / 4
  end.

Definition ENABLE : Z := 0x00000100.
Definition INIT : Z := 0x00000500.
Definition STARTUP : Z := 0x00000600.
Definition DELIVS : Z := 0x00001000.
Definition ASSERT : Z := 0x00004000.
Definition LEVEL : Z := 0x00008000.
Definition BCAST : Z := 0x00080000.
Definition X1 : Z := 0x0000000B.
Definition PERIODIC : Z := 0x00020000.
Definition MASKED : Z := 0x00010000.
Definition IRQ_TIMER : Z := 0.
Definition IRQ_KBD : Z := 1.
Definition IRQ_COM1 : Z := 4.
Definition IRQ_IDE : Z := 14.
Definition IRQ_ERROR : Z := 19.
Definition IRQ_SPURIOUS : Z := 31.

(** [lapic[index]] *)
Definition lapicr (index : lapicreg) : K Z :=
  a <- gets (fun k => lapic (k_hw k));;
  mmio_read (a + 4 * lapic_index index).

Definition lapicw (index : lapicreg) (value : Z) : K unit :=
  a <- gets (fun k => lapic (k_hw k));;
  mmio_write (a + 4 * lapic_index index) value;;
  lapicr ID;;
  ret tt.

Definition lapicinit : K unit :=
  a <- gets (fun k => lapic (k_hw k));;
  if a =? 0 then ret tt else
  lapicw SVR (Z.lor ENABLE (T_IRQ0 + IRQ_SPURIOUS));;
  lapicw TDCR X1;;
  lapicw TIMER (Z.lor PERIODIC (T_IRQ0 + IRQ_TIMER));;
  lapicw TICR 10000000;;
  lapicw LINT0 MASKED;;
  lapicw LINT1 MASKED;;
  ver <- lapicr VER;;
  when (4 <=? Z.land (Z.shiftr ver 16) 0xFF) (lapicw PCINT MASKED);;
  lapicw ERROR (T_IRQ0 + IRQ_ERROR);;
  lapicw ESR 0;;
  lapicw ESR 0;;
  lapicw EOI 0;;
  lapicw ICRHI 0;;
  lapicw ICRLO (Z.lor (Z.lor BCAST INIT) LEVEL);;
  iter (S hw_patience) (fun _ : unit =>
    v <- lapicr ICRLO;;
    if truth (Z.land v DELIVS) then ret (inl tt) else ret (inr tt)) tt;;
  lapicw TPR 0.

Definition lapicid : K Z :=
  a <- gets (fun k => lapic (k_hw k));;
  if a =? 0 then ret 0 else
  v <- lapicr ID;;
  ret (s32 (Z.shiftr v 24)).

Definition lapiceoi : K unit :=
  a <- gets (fun k => lapic (k_hw k));;
  when (negb (a =? 0)) (lapicw EOI 0).

Definition microdelay (us : Z) : K unit := ret tt.

Definition CMOS_PORT : Z := 0x70.
Definition CMOS_RETURN : Z := 0x71.

(** [wrv[n] = v] *)
Definition store16 (a v : Z) : K unit := modify (fun k => set_k_mem (store_bytes a (le_bytes 2 v) (k_mem k)) k).

Definition lapicstartap (apicid addr : Z) : K unit :=
  outb CMOS_PORT 0xF;;
  outb (CMOS_PORT + 1) 0x0A;;
  let wrv := P2V (Z.lor (Z.shiftl 0x40 4) 0x67) in
  store16 wrv 0;;
  store16 (wrv + 2) (Z.shiftr addr 4);;
  lapicw ICRHI (Z.shiftl apicid 24);;
  lapicw ICRLO (Z.lor (Z.lor INIT LEVEL) ASSERT);;
  microdelay 200;;
  lapicw ICRLO (Z.lor INIT LEVEL);;
  microdelay 100;;
  for_each (fun _ =>
    lapicw ICRHI (Z.shiftl apicid 24);;
    lapicw ICRLO (Z.lor STARTUP (Z.shiftr addr 12));;
    microdelay 200) (seqZ 0 2).

(** The registers of the clock. *)
Inductive cmosreg : Type := CMOS_STATA | CMOS_STATB | SECS | MINS | HOURS | DAY | MONTH | YEAR.

Definition cmos_index (r : cmosreg) : Z :=
  match r with
  | CMOS_STATA => 0x0a | CMOS_STATB => 0x0b | SECS => 0x00 | MINS => 0x02
  | HOURS => 0x04 | DAY => 0x07 | MONTH => 0x08 | YEAR => 0x09
  end.

Definition CMOS_UIP : Z := Z.shiftl 1 7.

(** [struct rtcdate] (date.h) *)
Record rtcdate : Type := mk_rtcdate { second : Z; minute : Z; hour : Z; day : Z; month : Z; year : Z }.

#[export] Instance rtcdate_eq_dec : EqDecision rtcdate.
Proof. solve_decision. Defined.

Definition cmos_read (reg : cmosreg) : K Z :=
  outb CMOS_PORT (cmos_index reg);;
  microdelay 200;;
  inb CMOS_RETURN.

Definition fill_rtcdate : K rtcdate :=
  s <- cmos_read SECS;;
  mi <- cmos_read MINS;;
  h <- cmos_read HOURS;;
  d <- cmos_read DAY;;
  mo <- cmos_read MONTH;;
  y <- cmos_read YEAR;;
  ret (mk_rtcdate s mi h d mo y).

(** One round of the loop of [cmostime]. *)
Definition cmostime_body (_ : unit) : K (unit + rtcdate) :=
  t1 <- fill_rtcdate;;
  a <- cmos_read CMOS_STATA;;
  if truth (Z.land a CMOS_UIP) then ret (inl tt) else
  t2 <- fill_rtcdate;;
  if bool_decide (t1 = t2) then ret (inr t1) else ret (inl tt).

Definition CONV (x : Z) : Z := Z.shiftr x 4 * 10 + Z.land x 0xf.

Definition cmostime : K rtcdate :=
  sb <- cmos_read CMOS_STATB;;
  let bcd := Z.land sb (Z.shiftl 1 2) =? 0 in
  t1 <- iter (S hw_patience) cmostime_body tt;;
  let t1 := if bcd then mk_rtcdate (CONV (second t1)) (CONV (minute t1)) (CONV (hour t1)) (CONV (day t1))
                          (CONV (month t1)) (CONV (year t1)) else t1 in
  ret (mk_rtcdate (second t1) (minute t1) (hour t1) (day t1) (month t1) (u32 (year t1 + 2000))).

(** ** uart.c *)

Definition COM1 : Z := 0x3f8.

(** The loop that waits for the transmitter, at most [n] times. *)
Fixpoint uart_wait (n : nat) : K unit :=
  match n with
  | O => ret tt
  | S n =>
      s <- inb (COM1 + 5);;
      if truth (Z.land s 0x20) then ret tt else
      microdelay 10;;
      uart_wait n
  end.

Definition uartputc (c : Z) : K unit :=
  u <- gets (fun k => uart (k_hw k));;
  if negb (truth u) then ret tt else
  uart_wait 128;;
  outb (COM1 + 0) c.

Definition uartinit : K unit :=
  outb (COM1 + 2) 0;;
  outb (COM1 + 3) 0x80;;
  outb (COM1 + 0) (115200 / 9600);;
  outb (COM1 + 1) 0;;
  outb (COM1 + 3) 0x03;;
  outb (COM1 + 4) 0;;
  outb (COM1 + 1) 0x01;;
  s <- inb (COM1 + 5);;
  if s =? 0xFF then ret tt else
  modify (upd_hw (set_uart 1));;
  inb (COM1 + 2);;
  inb (COM1 + 0);;
  ioapicenable IRQ_COM1 0;;
  for_each uartputc (chars ("xv6..." ++ newline)).

Definition uartgetc : K Z :=
  u <- gets (fun k => uart (k_hw k));;
  if negb (truth u) then ret (-1) else
  s <- inb (COM1 + 5);;
  if negb (truth (Z.land s 0x01)) then ret (-1) else
  inb (COM1 + 0).

(** [consoleintr] with a routine that gets one character, -1 when there is none. *)
Definition consoleintr_from (procdump : K unit) (getc : K Z) : K unit :=
  acquire L_cons;;
  doprocdump <- iter (S hw_patience) (fun doprocdump =>
    c <- getc;;
    if c <? 0 then ret (inr doprocdump)
    else if c =? Ctl "P" then ret (inl true)
    else console_char c;; ret (inl doprocdump)) false;;
  release L_cons;;
  when doprocdump procdump.

Definition uartintr (procdump : K unit) : K unit := consoleintr_from procdump uartgetc.

(** ** kbd.c *)

Definition KBSTATP : Z := 0x64.
Definition KBS_DIB : Z := 0x01.
Definition KBDATAP : Z := 0x60.

(** [kbdgetc] with the ports of the controller and the static variable [shift]. *)
Definition kbd_getc : K Z :=
  st <- inb KBSTATP;;
  if Z.land st KBS_DIB =? 0 then ret (-1) else
  data <- inb KBDATAP;;
  shift <- gets (fun k => kbd_shift (k_hw k));;
  let '(c, shift) := kbdgetc shift (Some data) in
  modify (upd_hw (set_kbd_shift shift));;
  ret c.

Definition kbdintr (procdump : K unit) : K unit := consoleintr_from procdump kbd_getc.

End Devices.
