(* ===== verification/Ide.v ===== *)
(** * The disk driver (ide.c)

    [iderw] puts a buffer at the end of the queue of requests and sleeps until
    the interrupt handler [ideintr] has served it. *)

From stdpp Require Import base gmap list strings.
From Stdlib Require Import ZArith Lia.
From S2P Require Import Prelude State Memory Spinlock Sched Devices.

Definition SECTOR_SIZE : Z := 512.
Definition IDE_BSY : Z := 0x80.
Definition IDE_DRDY : Z := 0x40.
Definition IDE_DF : Z := 0x20.
Definition IDE_ERR : Z := 0x01.
Definition IDE_CMD_READ : Z := 0x20.
Definition IDE_CMD_WRITE : Z := 0x30.
Definition IDE_CMD_RDMUL : Z := 0xc4.
Definition IDE_CMD_WRMUL : Z := 0xc5.

Section Ide.
Context {HW : Hardware}.

Definition idewait (checkerr : bool) : K Z :=
  r <- iter (S hw_patience) (fun _ : unit =>
    r <- inb 0x1f7;;
    if negb (Z.land r (Z.lor IDE_BSY IDE_DRDY) =? IDE_DRDY) then ret (inl tt) else ret (inr r)) tt;;
  if checkerr && negb (Z.land r (Z.lor IDE_DF IDE_ERR) =? 0) then ret (-1) else ret 0.

(** The loop that looks for disk 1, at most [n] times. *)
Fixpoint find_disk1 (n : nat) : K unit :=
  match n with
  | O => ret tt
  | S n =>
      s <- inb 0x1f7;;
      if negb (s =? 0) then modify (upd_hw (set_havedisk1 1)) else find_disk1 n
  end.

Definition ideinit : K unit :=
  initlock L_idelock "ide";;
  ncpu <- gets (fun k => Z.of_nat (length (k_cpus k)));;
  ioapicenable IRQ_IDE (ncpu - 1);;
  idewait false;;
  outb 0x1f6 (Z.lor 0xe0 (Z.shiftl 1 4));;
  find_disk1 1000;;
  outb 0x1f6 (Z.lor 0xe0 (Z.shiftl 0 4)).

Definition idestart (b : option nat) : K unit :=
  match b with
  | None => panic "idestart"
  | Some i =>
      b <- gets (fun k => buf_at k i);;
      if FSSIZE <=? b_blockno b then panic "incorrect blockno" else
      let sector_per_block := Z.of_nat BSIZE / SECTOR_SIZE in
      let sector := s32 (b_blockno b * sector_per_block) in
      let read_cmd := if sector_per_block =? 1 then IDE_CMD_READ else IDE_CMD_RDMUL in
      let write_cmd := if sector_per_block =? 1 then IDE_CMD_WRITE else IDE_CMD_WRMUL in
      if 7 <? sector_per_block then panic "idestart" else
      idewait false;;
      outb 0x3f6 0;;
      outb 0x1f2 sector_per_block;;
      outb 0x1f3 (Z.land sector 0xff);;
      outb 0x1f4 (Z.land (Z.shiftr sector 8) 0xff);;
      outb 0x1f5 (Z.land (Z.shiftr sector 16) 0xff);;
      outb 0x1f6 (Z.lor (Z.lor 0xe0 (Z.shiftl (Z.land (b_dev b) 1) 4)) (Z.land (Z.shiftr sector 24) 0x0f));;
      if truth (Z.land (b_flags b) B_DIRTY) then
        outb 0x1f7 write_cmd;;
        outsl 0x1f0 (b_data b) (BSIZE / 4)
      else
        outb 0x1f7 read_cmd
  end.

(** What [ideintr] does with the lock held. *)
Definition ideintr_locked : K unit :=
  b <- gets (fun k => idequeue (k_hw k));;
  match b with
  | None => ret tt
  | Some i =>
      modify (fun k => upd_hw (set_idequeue (b_qnext (buf_at k i))) k);;
      b <- gets (fun k => buf_at k i);;
      when (negb (truth (Z.land (b_flags b) B_DIRTY)))
       (r <- idewait true;;
        when (0 <=? r)
         (data <- insl 0x1f0 (BSIZE / 4);;
          modify (upd_buf i (set_b_data data))));;
      modify (upd_buf i (fun b => set_b_flags (Z.lor (b_flags b) B_VALID) b));;
      modify (upd_buf i (fun b => set_b_flags (Z.land (b_flags b) (Z.lnot B_DIRTY)) b));;
      wakeup (Ch_buf i);;
      q <- gets (fun k => idequeue (k_hw k));;
      when (bool_decide (q <> None)) (idestart q)
  end.

Definition ideintr : K unit :=
  acquire L_idelock;;
  ideintr_locked;;
  release L_idelock.

(** The walk along [qnext] to the end of the queue, from element [j]; the queue
    has at most [n] elements. *)
Fixpoint append_after (n : nat) (j i : nat) : K unit :=
  match n with
  | O => fun k _ => Stuck k
  | S n =>
      next <- gets (fun k => b_qnext (buf_at k j));;
      match next with
      | None => modify (upd_buf j (set_b_qnext (Some i)))
      | Some j' => append_after n j' i
      end
  end.

(** What [iderw] does with the lock held before it waits. *)
Definition iderw_enqueue (i : nat) : K unit :=
  modify (upd_buf i (set_b_qnext None));;
  q <- gets (fun k => idequeue (k_hw k));;
  n <- gets (fun k => length (k_buf k));;
  match q with
  | None => modify (upd_hw (set_idequeue (Some i)))
  | Some j => append_after n j i
  end;;
  q <- gets (fun k => idequeue (k_hw k));;
  when (bool_decide (q = Some i)) (idestart (Some i)).

Definition iderw (i : nat) : K unit :=
  h <- holdingsleep (SL_buf i);;
  if negb h then panic "iderw: buf not locked" else
  b <- gets (fun k => buf_at k i);;
  if Z.land (b_flags b) (Z.lor B_VALID B_DIRTY) =? B_VALID then panic "iderw: nothing to do" else
  d <- gets (fun k => havedisk1 (k_hw k));;
  if negb (b_dev b =? 0) && negb (truth d) then panic "iderw: ide disk 1 not present" else
  acquire L_idelock;;
  iderw_enqueue i;;
  waiting (fun _ : unit =>
    b <- gets (fun k => buf_at k i);;
    if negb (Z.land (b_flags b) (Z.lor B_VALID B_DIRTY) =? B_VALID)
    then sleep (Ch_buf i) (Some L_idelock);; ret (inl tt)
    else ret (inr tt)) tt;;
  release L_idelock.

End Ide.
