(* ===== verification/Mp.v ===== *)
(** * The processor tables (mp.c)

    [mpinit] finds the tables that the firmware left in memory and counts the
    processors.  For a table of known entries it terminates with the first
    [NCPU] processors; on an entry of another type it does not terminate. *)

From stdpp Require Import base gmap list strings.
From Stdlib Require Import ZArith Lia.
From S2P Require Import Prelude State Memory Spinlock Console Devices.

Definition NCPU : nat := 8.
Definition MPPROC : Z := 0x00.
Definition MPBUS : Z := 0x01.
Definition MPIOAPIC : Z := 0x02.
Definition MPIOINTR : Z := 0x03.
Definition MPLINTR : Z := 0x04.

Definition load16 (m : gmap Z Z) (a : Z) : Z := le_val (load_bytes m a 2).

(** The fields of [struct mp] and [struct mpconf] (mp.h), and the sizes of the structures. *)
Definition mp_physaddr (m : gmap Z Z) (mp : Z) : Z := load32 m (mp + 4).
Definition mp_imcrp (m : gmap Z Z) (mp : Z) : Z := load8 m (mp + 12).
Definition sizeof_mp : nat := 16.
Definition conf_length (m : gmap Z Z) (conf : Z) : Z := load16 m (conf + 4).
Definition conf_version (m : gmap Z Z) (conf : Z) : Z := load8 m (conf + 6).
Definition conf_lapicaddr (m : gmap Z Z) (conf : Z) : Z := load32 m (conf + 36).
Definition sizeof_mpconf : Z := 44.
Definition sizeof_mpproc : Z := 20.
Definition sizeof_mpioapic : Z := 8.

(** [memcmp(a, s, 4) == 0] for a string constant. *)
Definition signature (m : gmap Z Z) (a : Z) (s : string) : bool := bool_decide (load_bytes m a 4 = chars s).

Definition sum (m : gmap Z Z) (addr : Z) (len : nat) : Z := u8 (foldl Z.add 0 (load_bytes m addr len)).

(** The loop of [mpsearch1]: [n] places, from [p]. *)
Fixpoint mpsearch1_from (m : gmap Z Z) (p : Z) (n : nat) : Z :=
  match n with
  | O => 0
  | S n =>
      if signature m p "_MP_" && (sum m p sizeof_mp =? 0) then p
      else mpsearch1_from m (p + Z.of_nat sizeof_mp) n
  end.

Definition mpsearch1 (m : gmap Z Z) (a : Z) (len : nat) : Z := mpsearch1_from m (P2V a) (len / sizeof_mp).

Definition mpsearch (m : gmap Z Z) : Z :=
  let bda := P2V 0x400 in
  let p := Z.shiftl (Z.lor (Z.shiftl (load8 m (bda + 0x0F)) 8) (load8 m (bda + 0x0E))) 4 in
  let mp :=
    if truth p then mpsearch1 m p 1024
    else let p := Z.lor (Z.shiftl (load8 m (bda + 0x14)) 8) (load8 m (bda + 0x13)) * 1024 in
         mpsearch1 m (u32 (p - 1024)) 1024 in
  if truth mp then mp else mpsearch1 m 0xF0000 (Z.to_nat 0x10000).

(** [mpconfig] returns the configuration table and stores the other structure. *)
Definition mpconfig (m : gmap Z Z) : option (Z * Z) :=
  let mp := mpsearch m in
  if (mp =? 0) || (mp_physaddr m mp =? 0) then None else
  let conf := P2V (mp_physaddr m mp) in
  if negb (signature m conf "PCMP") then None else
  if negb (conf_version m conf =? 1) && negb (conf_version m conf =? 4) then None else
  if negb (sum m conf (Z.to_nat (conf_length m conf)) =? 0) then None else
  Some (mp, conf).

Section Mp.
Context {HW : Hardware}.

(** One round of the loop over the entries.  The [break] of the default case leaves the
    [switch]; [p] stays where it is. *)
Definition mpinit_entry (e : Z) (st : Z * Z) : K (Z * Z + Z) :=
  let '(p, ismp) := st in
  if negb (p <? e) then ret (inr ismp) else
  t <- gets (fun k => load8 (k_mem k) p);;
  if t =? MPPROC then
    apicid <- gets (fun k => load8 (k_mem k) (p + 1));;
    ncpu <- gets (fun k => length (k_cpus k));;
    when (ncpu <? NCPU)%nat (modify (fun k => set_k_cpus (k_cpus k ++ [set_c_apicid apicid zero_cpu]) k));;
    ret (inl (u32 (p + sizeof_mpproc), ismp))
  else if t =? MPIOAPIC then
    modify (fun k => upd_hw (set_ioapicid (load8 (k_mem k) (p + 1))) k);;
    ret (inl (u32 (p + sizeof_mpioapic), ismp))
  else if (t =? MPBUS) || (t =? MPIOINTR) || (t =? MPLINTR) then ret (inl (u32 (p + 8), ismp))
  else ret (inl (p, 0)).

(** [mpinit], with at most [fuel] rounds of the loop. *)
Definition mpinit (fuel : nat) : K unit :=
  m <- gets k_mem;;
  match mpconfig m with
  | None => panic "Expect to run on an SMP"
  | Some (mp, conf) =>
      modify (upd_hw (set_lapic (conf_lapicaddr m conf)));;
      ismp <- iter fuel (mpinit_entry (u32 (conf + conf_length m conf))) (u32 (conf + sizeof_mpconf), 1);;
      if negb (truth ismp) then panic "Didn't find a suitable machine" else
      when (truth (mp_imcrp m mp))
       (outb 0x22 0x70;;
        v <- inb 0x23;;
        outb 0x23 (Z.lor v 1))
  end.

End Mp.

(** ** Tables of known entries *)

Inductive entry : Type :=
  | Processor (apicid : Z) (rest : list Z)
  | Ioapic (apicno : Z) (rest : list Z)
  | Other (type : Z) (rest : list Z).

Definition entry_ok (x : entry) : Prop :=
  match x with
  | Processor apicid rest => is_byte apicid /\ length rest = 18%nat
  | Ioapic apicno rest => is_byte apicno /\ length rest = 6%nat
  | Other type rest => (type = MPBUS \/ type = MPIOINTR \/ type = MPLINTR) /\ length rest = 7%nat
  end.

Definition entry_bytes (x : entry) : list Z :=
  match x with
  | Processor apicid rest => MPPROC :: apicid :: rest
  | Ioapic apicno rest => MPIOAPIC :: apicno :: rest
  | Other type rest => type :: rest
  end.

Definition table (l : list entry) : list Z := mjoin (entry_bytes <$> l).

(** What an entry says. *)
Definition processors (l : list entry) : list Z := omap (fun x => match x with Processor a _ => Some a | _ => None end) l.
Definition ioapics (l : list entry) : list Z := omap (fun x => match x with Ioapic a _ => Some a | _ => None end) l.

(** The processors that [mpinit] adds to [cpus], and the identifier it keeps. *)
Definition add_cpus (ids : list Z) (cpus : list cpu) : list cpu :=
  cpus ++ take (NCPU - length cpus) ((fun a => set_c_apicid a zero_cpu) <$> ids).
Definition counted (l : list entry) (k : kstate) : kstate :=
  upd_hw (set_ioapicid (default (ioapicid (k_hw k)) (last (ioapics l)))) (set_k_cpus (add_cpus (processors l) (k_cpus k)) k).

Definition holds (m : gmap Z Z) (a : Z) (l : list Z) : Prop := forall i x, l !! i = Some x -> load8 m (a + Z.of_nat i) = x.

Lemma holds_loaded m a l : load_bytes m a (length l) = l -> holds m a l.
Proof.
  intros H i x Hx. assert (Hi : (i < length l)%nat) by (by eapply lookup_lt_Some). pose proof (lookup_load_bytes m a (length l) i Hi) as E.
  rewrite H, Hx in E. by injection E as ->.
Qed.

Lemma holds_app m a l1 l2 : holds m a (l1 ++ l2) -> holds m a l1 /\ holds m (a + Z.of_nat (length l1)) l2.
Proof.
  intros H. split; intros i x Hx.
  - apply H. rewrite lookup_app_l; [done|]. by eapply lookup_lt_Some.
  - rewrite <- Z.add_assoc, <- Nat2Z.inj_add. apply H. rewrite lookup_app_r by lia. by replace (length l1 + i - length l1)%nat with i by lia.
Qed.

Lemma take_S_app {A} n (x : A) l : take n (x :: l) = take n [x] ++ take (n - 1) l.
Proof. destruct n; [done|]. simpl. by rewrite take_nil, Nat.sub_0_r. Qed.

Lemma add_cpus_cons x l cpus : add_cpus (x :: l) cpus = add_cpus l (add_cpus [x] cpus).
Proof.
  unfold add_cpus. cbn [fmap list_fmap]. rewrite take_S_app, app_assoc. f_equal. f_equal. rewrite length_app, length_take. simpl. lia.
Qed.

Lemma processors_cons x l cpus : add_cpus (processors (x :: l)) cpus = add_cpus (processors l) (add_cpus (processors [x]) cpus).
Proof.
  destruct x; cbn [processors omap list_omap]; [apply add_cpus_cons|..]; f_equal; unfold add_cpus; by rewrite fmap_nil, take_nil, app_nil_r.
Qed.

Lemma ioapics_cons x l v : default v (last (ioapics (x :: l))) = default (default v (last (ioapics [x]))) (last (ioapics l)).
Proof.
  destruct x as [|a r|]; try done. change (ioapics (Ioapic a r :: l)) with (a :: ioapics l). rewrite last_cons. by destruct (last (ioapics l)).
Qed.

Lemma counted_cons x l k : counted (x :: l) k = counted l (counted [x] k).
Proof. unfold counted. rewrite processors_cons, ioapics_cons. done. Qed.

Section Entries.
Context {HW : Hardware}.

Lemma entry_run x e ismp k env p : entry_ok x -> holds (k_mem k) p (entry_bytes x) -> p < e -> 0 <= p -> p + Z.of_nat (length (entry_bytes x)) < 2 ^ 32 ->
  mpinit_entry e (p, ismp) k env = Done (inl (p + Z.of_nat (length (entry_bytes x)), ismp)) (counted [x] k) env.
Proof.
  intros Hx H He Hp Hw. unfold mpinit_entry. rewrite (proj2 (Z.ltb_lt p e) He). cbn [negb]. rewrite bind_gets.
  assert (H0 : forall t, entry_bytes x !! 0%nat = Some t -> load8 (k_mem k) p = t) by (intros t Ht; specialize (H 0%nat t Ht); by rewrite Z.add_0_r in H).
  destruct x as [a r|a r|t r]; destruct Hx as [Ha Hr]; cbn [entry_bytes length] in *; rewrite Hr, (H0 _ eq_refl) in *.
  - rewrite (u32_small (p + sizeof_mpproc)) by (unfold sizeof_mpproc; lia). change (MPPROC =? MPPROC) with true. cbv iota. pose proof (H 1%nat a eq_refl) as H1. change (Z.of_nat 1) with 1 in H1. rewrite !bind_gets, H1.
    assert (E : counted [Processor a r] k = if (length (k_cpus k) <? NCPU)%nat then set_k_cpus (k_cpus k ++ [set_c_apicid a zero_cpu]) k else k).
    { unfold counted, add_cpus. cbn [processors ioapics omap list_omap last default fmap list_fmap]. destruct (Nat.ltb_spec (length (k_cpus k)) NCPU) as [Hl|Hl].
      - rewrite take_ge by (simpl; lia). destruct k as [? ? ? ? ? ? ? ? ? ? ? ? ? ? ? ? ? ? ? ? ? ? ? ? ? ? ? ? h]. by destruct h.
      - replace (NCPU - length (k_cpus k))%nat with 0%nat by lia. rewrite take_0, app_nil_r.
        destruct k as [? ? ? ? ? ? ? ? ? ? ? ? ? ? ? ? ? ? ? ? ? ? ? ? ? ? ? ? h]. by destruct h. }
    rewrite E. destruct (length (k_cpus k) <? NCPU)%nat; cbn [when]; done.
  - rewrite (u32_small (p + sizeof_mpioapic)) by (unfold sizeof_mpioapic; lia). change (MPIOAPIC =? MPPROC) with false. change (MPIOAPIC =? MPIOAPIC) with true. cbv iota. pose proof (H 1%nat a eq_refl) as H1. change (Z.of_nat 1) with 1 in H1. rewrite bind_modify, H1.
    unfold ret. f_equal. unfold counted, add_cpus. cbn [processors ioapics omap list_omap last default fmap list_fmap]. rewrite take_nil, app_nil_r. by destruct k.
  - assert (E : counted [Other t r] k = k).
    { unfold counted, add_cpus. cbn [processors ioapics omap list_omap last default fmap list_fmap]. rewrite take_nil, app_nil_r.
      destruct k as [? ? ? ? ? ? ? ? ? ? ? ? ? ? ? ? ? ? ? ? ? ? ? ? ? ? ? ? h]. by destruct h. }
    rewrite E, (u32_small (p + 8)) by lia. destruct Ha as [->|[->| ->]]; done.
Qed.

Lemma counted_nil k : counted [] k = k.
Proof.
  unfold counted, add_cpus. cbn [processors ioapics omap list_omap last default fmap list_fmap]. rewrite take_nil, app_nil_r.
  destruct k as [? ? ? ? ? ? ? ? ? ? ? ? ? ? ? ? ? ? ? ? ? ? ? ? ? ? ? ? h]. by destruct h.
Qed.

Lemma entry_bytes_pos x : (0 < length (entry_bytes x))%nat.
Proof. destruct x; simpl; lia. Qed.

Lemma table_long l : (length l <= length (table l))%nat.
Proof.
  induction l as [|x l IH]; [done|]. change (table (x :: l)) with (entry_bytes x ++ table l). rewrite length_app. pose proof (entry_bytes_pos x). simpl. lia.
Qed.

(** The loop over the known entries at [p], and then on. *)
Lemma entries_run l e ismp env n : e < 2 ^ 32 -> forall p k, Forall entry_ok l -> holds (k_mem k) p (table l) -> 0 <= p -> p + Z.of_nat (length (table l)) <= e ->
  iter (length l + n) (mpinit_entry e) (p, ismp) k env = iter n (mpinit_entry e) (p + Z.of_nat (length (table l)), ismp) (counted l k) env.
Proof.
  intros Hw. induction l as [|x l IH]; intros p k Hl H Hp He.
  { rewrite counted_nil. simpl. by rewrite Z.add_0_r. }
  change (table (x :: l)) with (entry_bytes x ++ table l) in *. rewrite length_app, Nat2Z.inj_add in *. apply holds_app in H as [H1 H2].
  apply Forall_cons in Hl as [Hx Hl]. pose proof (entry_bytes_pos x). cbn [length Nat.add iter].
  run (entry_run x e ismp k env p Hx H1 ltac:(lia) Hp ltac:(lia)). rewrite IH by (done || lia). by rewrite <- counted_cons, Z.add_assoc.
Qed.

(** An entry of another type is looked at for ever. *)
Lemma unknown_stuck e env p k n : forall ismp, p < e -> MPLINTR < load8 (k_mem k) p -> iter n (mpinit_entry e) (p, ismp) k env = Stuck k.
Proof.
  induction n as [|n IH]; intros ismp He Ht; [done|]. cbn [iter]. unfold mpinit_entry at 1. rewrite (proj2 (Z.ltb_lt p e) He). cbn [negb].
  rewrite bind_assoc, bind_gets. unfold MPPROC, MPIOAPIC, MPBUS, MPIOINTR, MPLINTR in *. set (t := load8 (k_mem k) p) in *.
  rewrite (proj2 (Z.eqb_neq t 0x00)), (proj2 (Z.eqb_neq t 0x02)), (proj2 (Z.eqb_neq t 0x01)), (proj2 (Z.eqb_neq t 0x03)), (proj2 (Z.eqb_neq t 0x04)) by lia.
  cbn [orb]. rewrite bind_ret. by apply IH.
Qed.

Lemma prefix_stuck l e env n : e < 2 ^ 32 -> forall p ismp k, Forall entry_ok l -> holds (k_mem k) p (table l) -> 0 <= p -> p + Z.of_nat (length (table l)) < e ->
  MPLINTR < load8 (k_mem k) (p + Z.of_nat (length (table l))) -> exists k', iter n (mpinit_entry e) (p, ismp) k env = Stuck k'.
Proof.
  intros Hw p ismp k Hl H Hp He Ht. destruct (decide (length l <= n)%nat) as [Hn|Hn].
  - replace n with (length l + (n - length l))%nat by lia. rewrite (entries_run l e ismp env _ Hw p k) by (done || lia).
    eexists. by apply unknown_stuck.
  - rewrite <- (take_drop n l) in Hl, H, He. apply Forall_app in Hl as [Hl _]. unfold table in H, He. rewrite fmap_app, join_app in H, He.
    rewrite length_app, Nat2Z.inj_add in He. apply holds_app in H as [H _].
    pose proof (entries_run (take n l) e ismp env 0 Hw p k Hl H Hp ltac:(unfold table; lia)) as E. rewrite length_take, Nat.min_l, Nat.add_0_r in E by lia.
    rewrite E. by eexists.
Qed.

(** ** What [mpinit] finds *)

Lemma mpconfig_range m mp conf : mpconfig m = Some (mp, conf) -> 0 <= conf.
Proof. unfold mpconfig. intros H. repeat case_match; simplify_eq. apply u32_bounds. Qed.

(** [mpinit] counts the processors.  When the firmware left a valid configuration table, with
    any entries of the five known types, and no processor is known yet, [mpinit]
    terminates after at most as many rounds as the table has bytes; [cpus] then has the local APIC
    identifiers of the first [NCPU] processors of the table, in order, the
    I/O APIC is the last one of the table, and the address of the local APIC is that
    of the table. *)
Theorem mpinit_counts (k : kstate) (mp conf : Z) (l : list entry) (fuel : nat) (env : environment kstate) :
  mpconfig (k_mem k) = Some (mp, conf) -> Forall entry_ok l ->
  conf_length (k_mem k) conf = sizeof_mpconf + Z.of_nat (length (table l)) ->
  conf + conf_length (k_mem k) conf < 2 ^ 32 ->
  load_bytes (k_mem k) (conf + sizeof_mpconf) (length (table l)) = table l ->
  k_cpus k = [] -> (Z.to_nat (conf_length (k_mem k) conf) <= fuel)%nat ->
  exists k', mpinit fuel k env = Done tt k' env
    /\ c_apicid <$> k_cpus k' = take NCPU (processors l)
    /\ ioapicid (k_hw k') = default (ioapicid (k_hw k)) (last (ioapics l))
    /\ lapic (k_hw k') = conf_lapicaddr (k_mem k) conf.
Proof.
  intros Hc Hl Hlen Hw Hb Hk Hf. unfold mpinit. rewrite bind_gets, Hc, bind_modify. set (k1 := upd_hw _ k). pose proof (mpconfig_range _ _ _ Hc).
  pose proof (table_long l). unfold sizeof_mpconf in *. rewrite !u32_small by lia. rewrite Hlen in Hf.
  replace fuel with (length l + S (fuel - length l - 1))%nat by lia.
  assert (E : iter (length l + S (fuel - length l - 1)) (mpinit_entry (conf + conf_length (k_mem k) conf)) (conf + 44, 1) k1 env = Done 1 (counted l k1) env).
  { rewrite (entries_run l _ _ _ _ Hw) by (done || (apply holds_loaded; exact Hb) || lia). cbn [iter]. unfold mpinit_entry at 1.
    rewrite (proj2 (Z.ltb_ge _ _)) by lia. done. }
  run E. change (negb (truth 1)) with false. cbv iota.
  assert (P : c_apicid <$> k_cpus (counted l k1) = take NCPU (processors l)).
  { simpl. rewrite Hk. unfold add_cpus. simpl length. rewrite Nat.sub_0_r, app_nil_l, <- fmap_take, <- list_fmap_compose. apply list_fmap_id. }
  destruct (truth (mp_imcrp (k_mem k) mp)); cbn [when]; eexists; (split; [reflexivity|]); (split; [exact P|]); done.
Qed.

(** C38: On a table, in the 32-bit address space, with an entry of an unknown type [mpinit] does not terminate: however many
    rounds the loop makes, it has not returned, and it never reaches the panic "Didn't
    find a suitable machine".  The [break] of the default case leaves only the [switch], and
    the pointer is not advanced. *)
Theorem mpinit_hangs (k : kstate) (mp conf : Z) (l : list entry) (fuel : nat) (env : environment kstate) :
  mpconfig (k_mem k) = Some (mp, conf) -> Forall entry_ok l ->
  sizeof_mpconf + Z.of_nat (length (table l)) < conf_length (k_mem k) conf -> conf + conf_length (k_mem k) conf < 2 ^ 32 ->
  load_bytes (k_mem k) (conf + sizeof_mpconf) (length (table l)) = table l ->
  MPLINTR < load8 (k_mem k) (conf + sizeof_mpconf + Z.of_nat (length (table l))) ->
  exists k', mpinit fuel k env = Stuck k'.
Proof.
  intros Hc Hl Hlen Hw Hb Ht. unfold mpinit. rewrite bind_gets, Hc, bind_modify. set (k1 := upd_hw _ k). pose proof (mpconfig_range _ _ _ Hc).
  rewrite !u32_small by (unfold sizeof_mpconf in *; lia).
  destruct (prefix_stuck l (conf + conf_length (k_mem k) conf) env fuel Hw (conf + sizeof_mpconf) 1 k1) as (k' & E); [done|by apply holds_loaded|unfold sizeof_mpconf; lia|lia|done|].
  exists k'. unfold bind at 1. by rewrite E.
Qed.

End Entries.

(** ** A machine with two processors *)

Definition two_processors : list entry :=
  [Processor 0 (replicate 18 0); Processor 1 (replicate 18 0); Other MPBUS (replicate 7 0); Ioapic 2 (replicate 6 0); Other MPIOINTR (replicate 7 0)].

(** The bytes add up to 0. *)
Definition checked (b : Z -> list Z) : list Z := b (u8 (- foldl Z.add 0 (b 0))).

Definition firmware (entries : list Z) : gmap Z Z :=
  let floating := checked (fun c => chars "_MP_" ++ le_bytes 4 0xF1000 ++ [1; 4; c; 0; 0; 0; 0; 0]) in
  let conf := checked (fun c => chars "PCMP" ++ le_bytes 2 (sizeof_mpconf + Z.of_nat (length entries)) ++ [4; c] ++ replicate 28 0
                                  ++ le_bytes 4 0xFEE00000 ++ replicate 4 0 ++ entries) in
  store_bytes (P2V 0xF1000) conf (store_bytes (P2V 0xF0000) floating ∅).

Definition firmware_machine (entries : list Z) : kstate := set_k_mem (firmware entries) (boot_state [] ∅ 0).

(** Devices that do not matter here. *)
Definition no_devices : Hardware := {| hw_in := fun _ _ => 0; hw_ins := fun _ _ _ => []; hw_read := fun _ _ => 0; hw_patience := 0 |}.

Lemma two_processors_ok : Forall entry_ok two_processors.
Proof. repeat constructor; simpl; unfold is_byte; lia || tauto. Qed.

Lemma mpinit_counts_witness :
  exists k', mpinit (HW := no_devices) 200 (firmware_machine (table two_processors)) [] = Done tt k' []
    /\ c_apicid <$> k_cpus k' = [0; 1] /\ ioapicid (k_hw k') = 2 /\ lapic (k_hw k') = 0xFEE00000.
Proof.
  destruct (mpinit_counts (HW := no_devices) (firmware_machine (table two_processors)) (P2V 0xF0000) (P2V 0xF1000) two_processors 200 [])
    as (k' & E & H1 & H2 & H3).
  - vm_compute. reflexivity.
  - exact two_processors_ok.
  - vm_compute. reflexivity.
  - apply Z.ltb_lt. vm_compute. reflexivity.
  - vm_compute. reflexivity.
  - reflexivity.
  - apply Nat.leb_le. vm_compute. reflexivity.
  - exists k'. split; [exact E|]. split; [exact H1|]. split; [exact H2|]. rewrite H3. vm_compute. reflexivity.
Defined.

Lemma mpinit_hangs_witness :
  exists k', mpinit (HW := no_devices) 1000 (firmware_machine (table two_processors ++ replicate 8 5)) [] = Stuck k'.
Proof.
  apply (mpinit_hangs (HW := no_devices) (firmware_machine (table two_processors ++ replicate 8 5)) (P2V 0xF0000) (P2V 0xF1000) two_processors 1000 []).
  - vm_compute. reflexivity.
  - exact two_processors_ok.
  - apply Z.ltb_lt. vm_compute. reflexivity.
  - apply Z.ltb_lt. vm_compute. reflexivity.
  - vm_compute. reflexivity.
  - apply Z.ltb_lt. vm_compute. reflexivity.
Defined.
