(* ===== verification/Vm.v ===== *)
(** * Page tables (vm.c)

    Page directories and page tables are pages of [k_mem], read and written with
    32-bit accesses as the hardware does.  [translate] is the MMU's walk; the
    routines of vm.c are below it.  [seginit] is in Segment.v. *)

From stdpp Require Import base gmap list strings.
From Stdlib Require Import ZArith Lia.
From S2P Require Import Prelude State Memory CString Spinlock Segment Kalloc Console.

Definition kload32 (a : Z) : K Z := gets (fun k => load32 (k_mem k) a).
Definition kmem (f : gmap Z Z -> gmap Z Z) : K unit := modify (fun k => set_k_mem (f (k_mem k)) k).

(** ** The MMU *)

(** The page table entry of [va], 0 when there is no page table for it. *)
Definition pte_of (m : gmap Z Z) (pgdir va : Z) : Z :=
  let pde := load32 m (pgdir + 4 * PDX va) in
  if truth (Z.land pde PTE_P) then load32 m (P2V (PTE_ADDR pde) + 4 * PTX va) else 0.

(** The kernel address of the byte that [va] is mapped to, when its entry has all
    the bits of [need]. *)
Definition translate (m : gmap Z Z) (pgdir va need : Z) : option Z :=
  let pte := pte_of m pgdir va in
  if Z.land pte need =? need then Some (P2V (PTE_ADDR pte) + u32 va mod PGSIZE) else None.

(** The address behind a virtual address under the current page table. Addresses
    above [KERNBASE] are the kernel's own mapping of physical memory. *)
Definition mmu (k : kstate) (need va : Z) : option Z :=
  if KERNBASE <=? va then Some va else translate (k_mem k) (P2V (k_cr3 k)) va need.

(** A kernel access to an unmapped address is a page fault in kernel mode, on
    which [trap] panics. *)
Definition vload8 (va : Z) : K Z :=
  a <- gets (fun k => mmu k PTE_P va);;
  match a with Some a => gets (fun k => load8 (k_mem k) a) | None => panic "trap" end.

Definition vstore8 (va v : Z) : K unit :=
  a <- gets (fun k => mmu k (Z.lor PTE_P PTE_W) va);;
  match a with Some a => kmem (store8 a v) | None => panic "trap" end.

Fixpoint vload (va : Z) (n : nat) : K (list Z) :=
  match n with
  | O => ret []
  | S n => b <- vload8 va;; l <- vload (va + 1) n;; ret (b :: l)
  end.

Fixpoint vstore (va : Z) (l : list Z) : K unit :=
  match l with
  | [] => ret tt
  | b :: l => vstore8 va b;; vstore (va + 1) l
  end.

Definition vload32 (va : Z) : K Z := l <- vload va 4;; ret (le_val l).
Definition vstore32 (va v : Z) : K unit := vstore va (le_bytes 4 v).

(** ** Walking and mapping *)

Section Vm.
Context {L : Linker}.

(** The address of the entry, 0 for the null pointer. *)
Definition walkpgdir (pgdir va alloc : Z) : K Z :=
  let pde := pgdir + 4 * PDX va in
  d <- kload32 pde;;
  if truth (Z.land d PTE_P) then ret (P2V (PTE_ADDR d) + 4 * PTX va)
  else if negb (truth alloc) then ret 0
  else
    pgtab <- kalloc;;
    if pgtab =? 0 then ret 0 else
    kmem (memset pgtab 0 PGSIZE);;
    kmem (store32 pde (Z.lor (Z.lor (Z.lor (V2P pgtab) PTE_P) PTE_W) PTE_U));;
    ret (pgtab + 4 * PTX va).

Definition mappages_body (pgdir last perm : Z) (ap : Z * Z) : K ((Z * Z) + Z) :=
  let '(a, pa) := ap in
  pte <- walkpgdir pgdir a 1;;
  if pte =? 0 then ret (inr (-1)) else
  v <- kload32 pte;;
  if truth (Z.land v PTE_P) then panic "remap" else
  kmem (store32 pte (Z.lor (Z.lor pa perm) PTE_P));;
  if a =? last then ret (inr 0) else ret (inl (u32 (a + PGSIZE), u32 (pa + PGSIZE))).

(** The loop runs once per page from [a] to [last]. *)
Definition mappages (pgdir va size pa perm : Z) : K Z :=
  let a := PGROUNDDOWN va in
  let last := PGROUNDDOWN (u32 (va + size - 1)) in
  iter (S (Z.to_nat (u32 (last - a) / PGSIZE))) (mappages_body pgdir last perm) (a, pa).

(** ** Freeing *)

Definition deallocuvm_body (pgdir oldsz a : Z) : K (Z + unit) :=
  if a <? oldsz then
    pte <- walkpgdir pgdir a 0;;
    if pte =? 0 then
      ret (inl (u32 (u32 (PGADDR (PDX a + 1) 0 0 - PGSIZE) + PGSIZE)))
    else
      v <- kload32 pte;;
      when (truth (Z.land v PTE_P))
       (let pa := PTE_ADDR v in
        if pa =? 0 then panic "kfree" else
        kfree (P2V pa);;
        kmem (store32 pte 0));;
      ret (inl (u32 (a + PGSIZE)))
  else ret (inr tt).

(** The loop runs at most once per page below [oldsz]. *)
Definition deallocuvm (pgdir oldsz newsz : Z) : K Z :=
  if oldsz <=? newsz then ret oldsz else
  iter (S (S (Z.to_nat (oldsz / PGSIZE)))) (deallocuvm_body pgdir oldsz) (PGROUNDUP newsz);;
  ret newsz.

Definition freevm_body (pgdir i : Z) : K unit :=
  d <- kload32 (pgdir + 4 * i);;
  when (truth (Z.land d PTE_P)) (kfree (P2V (PTE_ADDR d))).

Definition freevm (pgdir : Z) : K unit :=
  if pgdir =? 0 then panic "freevm: no pgdir" else
  deallocuvm pgdir KERNBASE 0;;
  for_each (fun i => freevm_body pgdir (Z.of_nat i)) (seq 0 (Z.to_nat NPDENTRIES));;
  kfree pgdir.

(** ** The kernel's part of a page table *)

Record kmap_t : Type := mk_kmap { km_virt : Z; km_start : Z; km_end : Z; km_perm : Z }.

Definition kmap : list kmap_t :=
  [ mk_kmap KERNBASE 0 EXTMEM PTE_W;
    mk_kmap KERNLINK (V2P KERNLINK) (V2P ld_data) 0;
    mk_kmap ld_data (V2P ld_data) PHYSTOP PTE_W;
    mk_kmap DEVSPACE DEVSPACE 0 PTE_W ].

Fixpoint setupkvm_loop (pgdir : Z) (ks : list kmap_t) : K Z :=
  match ks with
  | [] => ret pgdir
  | x :: ks =>
      r <- mappages pgdir (km_virt x) (u32 (km_end x - km_start x)) (km_start x) (km_perm x);;
      if r <? 0 then freevm pgdir;; ret 0 else setupkvm_loop pgdir ks
  end.

Definition setupkvm : K Z :=
  pgdir <- kalloc;;
  if pgdir =? 0 then ret 0 else
  kmem (memset pgdir 0 PGSIZE);;
  if DEVSPACE <? P2V PHYSTOP then panic "PHYSTOP too high" else
  setupkvm_loop pgdir kmap.

Definition lcr3 (v : Z) : K unit := modify (set_k_cr3 v).

Definition switchkvm : K unit :=
  kpgdir <- gets k_kpgdir;; lcr3 (V2P kpgdir).

Definition kvmalloc : K unit :=
  pgdir <- setupkvm;;
  modify (set_k_kpgdir pgdir);;
  switchkvm.

(** [&cpus[c].ts], and a store to the task state of CPU [c]. *)
Definition ts_addr (c : nat) : Z := ld_cpus + 176 * Z.of_nat c + 8.
Definition set_task (c : nat) (t : taskstate) : K unit := modify (upd_hw (fun h => set_ts (<[c := t]> (ts h)) h)).

Definition switchuvm (p : option nat) : K unit :=
  match p with
  | None => panic "switchuvm: no process"
  | Some p =>
      pr <- gets (fun k => proc_at k p);;
      if p_kstack pr =? 0 then panic "switchuvm: no kstack" else
      if p_pgdir pr =? 0 then panic "switchuvm: no pgdir" else
      pushcli;;
      c <- mycpu;;
      set_seg c SEG_TSS (set_sd_s 0 (SEG16 STS_T32A (ts_addr c) (104 - 1) 0));;
      set_task c (mk_taskstate (u32 (p_kstack pr + KSTACKSIZE)) (Z.shiftl SEG_KDATA 3) 0xFFFF);;
      ltr (Z.shiftl SEG_TSS 3);;
      lcr3 (V2P (p_pgdir pr));;
      popcli
  end.

(** ** User memory *)

(** Without memory the [memset] of address 0 faults. *)
Definition inituvm (pgdir : Z) (init : list Z) : K unit :=
  if PGSIZE <=? Z.of_nat (length init) then panic "inituvm: more than a page" else
  mem <- kalloc;;
  if mem =? 0 then panic "trap" else
  kmem (memset mem 0 PGSIZE);;
  mappages pgdir 0 PGSIZE (V2P mem) (Z.lor PTE_W PTE_U);;
  kmem (store_bytes mem init).

Definition allocuvm_body (pgdir oldsz newsz a : Z) : K (Z + Z) :=
  if a <? newsz then
    mem <- kalloc;;
    if mem =? 0 then
      cprintf ("allocuvm out of memory" ++ newline) [];;
      deallocuvm pgdir newsz oldsz;;
      ret (inr 0)
    else
      kmem (memset mem 0 PGSIZE);;
      r <- mappages pgdir a PGSIZE (V2P mem) (Z.lor PTE_W PTE_U);;
      if r <? 0 then
        cprintf ("allocuvm out of memory (2)" ++ newline) [];;
        deallocuvm pgdir newsz oldsz;;
        kfree mem;;
        ret (inr 0)
      else ret (inl (u32 (a + PGSIZE)))
  else ret (inr newsz).

(** The loop runs at most once per page below [newsz]. *)
Definition allocuvm (pgdir oldsz newsz : Z) : K Z :=
  if KERNBASE <=? newsz then ret 0 else
  if newsz <? oldsz then ret oldsz else
  iter (S (S (Z.to_nat (newsz / PGSIZE)))) (allocuvm_body pgdir oldsz newsz) (PGROUNDUP oldsz).

Definition clearpteu (pgdir uva : Z) : K unit :=
  pte <- walkpgdir pgdir uva 0;;
  if pte =? 0 then panic "clearpteu" else
  v <- kload32 pte;;
  kmem (store32 pte (Z.land v (u32 (Z.lnot PTE_U)))).

Definition copyuvm_body (pgdir sz d i : Z) : K (Z + bool) :=
  if i <? sz then
    pte <- walkpgdir pgdir i 0;;
    if pte =? 0 then panic "copyuvm: pte should exist" else
    v <- kload32 pte;;
    if negb (truth (Z.land v PTE_P)) then panic "copyuvm: page not present" else
    let pa := PTE_ADDR v in
    let flags := PTE_FLAGS v in
    mem <- kalloc;;
    if mem =? 0 then ret (inr false) else
    kmem (memmove mem (P2V pa) PGSIZE);;
    r <- mappages d i PGSIZE (V2P mem) flags;;
    if r <? 0 then kfree mem;; ret (inr false)
    else ret (inl (u32 (i + PGSIZE)))
  else ret (inr true).

(** The loop runs at most once per page below [sz]. *)
Definition copyuvm (pgdir sz : Z) : K Z :=
  d <- setupkvm;;
  if d =? 0 then ret 0 else
  ok <- iter (S (S (Z.to_nat (sz / PGSIZE)))) (copyuvm_body pgdir sz d) 0;;
  if (ok : bool) then ret d else freevm d;; ret 0.

(** Where there is no page table, [*pte] is a read of address 0. *)
Definition uva2ka (pgdir uva : Z) : K Z :=
  pte <- walkpgdir pgdir uva 0;;
  v <- vload32 pte;;
  if Z.land v PTE_P =? 0 then ret 0 else
  if Z.land v PTE_U =? 0 then ret 0 else
  ret (P2V (PTE_ADDR v)).

(** The kernel buffer [p] is the list of its bytes. *)
Fixpoint copyout_loop (fuel : nat) (pgdir va : Z) (buf : list Z) : K Z :=
  match fuel with
  | O => fun k _ => Stuck k
  | S fuel =>
      if bool_decide (buf = []) then ret 0 else
      let va0 := PGROUNDDOWN va in
      pa0 <- uva2ka pgdir va0;;
      if pa0 =? 0 then ret (-1) else
      let n := Z.min (PGSIZE - (va - va0)) (Z.of_nat (length buf)) in
      kmem (store_bytes (pa0 + (va - va0)) (take (Z.to_nat n) buf));;
      copyout_loop fuel pgdir (u32 (va0 + PGSIZE)) (drop (Z.to_nat n) buf)
  end.

(** Each round but the first ends at a page boundary. *)
Definition copyout (pgdir va : Z) (p : list Z) : K Z :=
  copyout_loop (S (S (length p))) pgdir va p.

End Vm.
