(* ===== verification/VmSpec.v ===== *)
(** * What the routines of vm.c do to an address space

    A page directory and its page tables are pages of memory; [space] says that
    the directory [pgdir] refers to exactly the page tables [pts], and [vm_ok]
    that these pages, the free pages and nothing else of the allocator overlap.
    The contents of an address space are its page table entries [pte_of]. *)

From stdpp Require Import base gmap list strings.
From Stdlib Require Import ZArith Lia.
From S2P Require Import Prelude State Memory CString Spinlock Kalloc Console Vm.

(** ** Page numbers and entries *)

Lemma PDX_eq va : 0 <= va < 2 ^ 32 -> PDX va = va / 2 ^ 22.
Proof.
  intros. unfold PDX, PDXSHIFT. rewrite u32_small, Z.shiftr_div_pow2 by lia.
  change 0x3FF with (Z.ones 10). rewrite Z.land_ones by lia. apply Z.mod_small. div_lia.
Qed.

Lemma PTX_eq va : 0 <= va < 2 ^ 32 -> PTX va = va / 4096 mod 1024.
Proof.
  intros. unfold PTX, PTXSHIFT. rewrite u32_small, Z.shiftr_div_pow2 by lia.
  change 0x3FF with (Z.ones 10). by rewrite Z.land_ones by lia.
Qed.

Lemma PDX_range va : 0 <= PDX va < 1024.
Proof. unfold PDX. change 0x3FF with (Z.ones 10). rewrite Z.land_ones by lia. apply Z.mod_pos_bound. lia. Qed.

Lemma PTX_range va : 0 <= PTX va < 1024.
Proof. unfold PTX. change 0x3FF with (Z.ones 10). rewrite Z.land_ones by lia. apply Z.mod_pos_bound. lia. Qed.

(** The entry of an address depends on its page only. *)
Lemma pte_of_page m pgdir a b : 0 <= a < 2 ^ 32 -> 0 <= b < 2 ^ 32 -> a / 4096 = b / 4096 ->
  pte_of m pgdir a = pte_of m pgdir b.
Proof.
  intros Ha Hb E. unfold pte_of. replace (PDX a) with (PDX b) by (rewrite !PDX_eq by done; div_lia).
  by replace (PTX a) with (PTX b) by (rewrite !PTX_eq, E by done; done).
Qed.

(** Two addresses with the same indices are in the same page. *)
Lemma same_page a b : 0 <= a < 2 ^ 32 -> 0 <= b < 2 ^ 32 ->
  PDX a = PDX b -> PTX a = PTX b -> a / 4096 = b / 4096.
Proof. intros Ha Hb. rewrite !PDX_eq, !PTX_eq by done. div_lia. Qed.

Lemma PGROUNDDOWN_eq a : 0 <= a < 2 ^ 32 -> PGROUNDDOWN a = a / 4096 * 4096.
Proof. intros. unfold PGROUNDDOWN, PGSIZE. rewrite u32_small by lia. apply (land_mask_down a 12); lia. Qed.

(** A number below a page has no bits from 12 on. *)
Lemma low_bits f n : 0 <= f < PGSIZE -> 12 <= n -> Z.testbit f n = false.
Proof.
  unfold PGSIZE. intros Hf Hn. destruct (Z.eq_dec f 0) as [->|]; [apply Z.bits_0|].
  apply Z.bits_above_log2; [lia|]. apply Z.log2_lt_pow2; [lia|].
  assert (2 ^ 12 <= 2 ^ n) by (apply Z.pow_le_mono_r; lia). lia.
Qed.

Lemma lor_low x f : (PGSIZE | x) -> 0 <= f < PGSIZE -> Z.lor x f = x + f.
Proof.
  intros [q ->] Hf. assert (Z.land (q * PGSIZE) f = 0) as E.
  { apply Z.bits_inj'. intros n Hn. rewrite Z.land_spec, Z.bits_0, andb_false_iff.
    destruct (Z.lt_ge_cases n 12); [left; apply (Z.mul_pow2_bits_low q 12); lia|right; by apply low_bits]. }
  rewrite <- Z.lxor_lor by done. symmetry. by apply Z.add_nocarry_lxor.
Qed.

(** The parts of an entry. *)
Lemma PTE_ADDR_add x f : (PGSIZE | x) -> 0 <= x < 2 ^ 32 -> 0 <= f < PGSIZE -> PTE_ADDR (x + f) = x.
Proof.
  intros [q ->] Hx Hf. unfold PTE_ADDR, PGSIZE in *. rewrite u32_small by lia.
  change 0xFFF with (2 ^ 12 - 1). rewrite land_mask_down by lia. change (2 ^ 12) with 4096. div_lia.
Qed.

Lemma PTE_FLAGS_add x f : (PGSIZE | x) -> 0 <= x < 2 ^ 32 -> 0 <= f < PGSIZE -> PTE_FLAGS (x + f) = f.
Proof.
  intros [q ->] Hx Hf. unfold PTE_FLAGS, PGSIZE in *. rewrite u32_small by lia.
  change 0xFFF with (Z.ones 12). rewrite Z.land_ones by lia. change (2 ^ 12) with 4096. div_lia.
Qed.

Lemma land_low x f b : (PGSIZE | x) -> 0 <= f < PGSIZE -> 0 <= b < PGSIZE -> Z.land (x + f) b = Z.land f b.
Proof.
  intros Hx Hf Hb. rewrite <- lor_low by done. apply Z.bits_inj'. intros n Hn.
  rewrite !Z.land_spec, Z.lor_spec. destruct Hx as [q ->]. unfold PGSIZE in *.
  destruct (Z.lt_ge_cases n 12); [by rewrite (Z.mul_pow2_bits_low q 12) by lia|].
  by rewrite (low_bits b), !andb_false_r by (unfold PGSIZE; lia).
Qed.

(** ** Address spaces *)

Section Space.
Context {L : Linker} {LO : @LinkerOk L}.

(** The directory entry that [walkpgdir] makes for a page table. *)
Definition pde_val (pt : Z) : Z := Z.lor (Z.lor (Z.lor (V2P pt) PTE_P) PTE_W) PTE_U.

(** The physical address of a page of the allocator. *)
Lemma page_V2P p : page_ok p ->
  V2P p = p - KERNBASE /\ 0 <= V2P p /\ V2P p + PGSIZE <= PHYSTOP /\ (PGSIZE | V2P p) /\ P2V (V2P p) = p.
Proof.
  intros (Hd & He & Hp & Ht). pose proof ld_end_range as R.
  assert (V2P p = p - KERNBASE) as E.
  { unfold V2P, KERNBASE, PHYSTOP, PGSIZE in *. apply u32_small. lia. }
  rewrite E. split; [done|]. split; [lia|]. split; [unfold PGSIZE, KERNBASE in *; lia|]. split.
  - apply Z.divide_sub_r; [done|]. by exists (KERNBASE / PGSIZE).
  - unfold P2V. rewrite Z.sub_add. apply u32_small. unfold KERNBASE, PHYSTOP, PGSIZE in *. lia.
Qed.

Lemma pde_val_eq pt : page_ok pt -> pde_val pt = V2P pt + 7.
Proof.
  intros (_ & _ & _ & Hd & _)%page_V2P. unfold pde_val. rewrite <- !Z.lor_assoc. apply (lor_low _ 7); [done|].
  unfold PGSIZE. lia.
Qed.

Lemma pde_val_spec pt : page_ok pt ->
  truth (Z.land (pde_val pt) PTE_P) = true /\ P2V (PTE_ADDR (pde_val pt)) = pt /\ 0 <= pde_val pt < 2 ^ 32.
Proof.
  intros Hp. rewrite pde_val_eq by done. destruct (page_V2P pt Hp) as (_ & H0 & Ht & Hd & HP).
  unfold PHYSTOP, PGSIZE in Ht. split; [|split].
  - by rewrite land_low by (done || unfold PGSIZE, PTE_P; lia).
  - rewrite PTE_ADDR_add by (done || unfold PGSIZE; lia). done.
  - lia.
Qed.

(** The page directory [pgdir] refers to the page tables [pts], by index. *)
Record space (m : gmap Z Z) (pgdir : Z) (pts : gmap Z Z) : Prop := {
  sp_dir : page_ok pgdir;
  sp_pde : forall d, 0 <= d < 1024 ->
    load32 m (pgdir + 4 * d) = match pts !! d with Some pt => pde_val pt | None => 0 end;
  sp_pt : forall d pt, pts !! d = Some pt -> 0 <= d < 1024 /\ page_ok pt /\ pt <> pgdir;
  sp_inj : forall d d' pt, pts !! d = Some pt -> pts !! d' = Some pt -> d = d'
}.

(** The pages of the page table. *)
Definition table (pgdir : Z) (pts : gmap Z Z) (p : Z) : Prop := p = pgdir \/ exists d, pts !! d = Some p.

Definition in_tables (pgdir : Z) (pts : gmap Z Z) (x : Z) : Prop :=
  exists p, table pgdir pts p /\ p <= x < p + PGSIZE.

Record vm_ok (k : kstate) (pgdir : Z) (pts : gmap Z Z) (l : list Z) : Prop := {
  vo_lock : kmem_lock_ok k;
  vo_free : freelist k l;
  vo_space : space (k_mem k) pgdir pts;
  vo_apart : forall p, table pgdir pts p -> p ∉ l
}.

Lemma pte_of_space m pgdir pts va : space m pgdir pts ->
  pte_of m pgdir va = match pts !! PDX va with Some pt => load32 m (pt + 4 * PTX va) | None => 0 end.
Proof.
  intros S. unfold pte_of. rewrite (sp_pde _ _ _ S) by apply PDX_range.
  destruct (pts !! PDX va) as [pt|] eqn:E; [|done].
  destruct (pde_val_spec pt) as (-> & -> & _); [by eapply sp_pt|done].
Qed.

(** Words of pages are disjoint. *)
Lemma words_apart p q i j : page_ok p -> page_ok q -> 0 <= i < 1024 -> 0 <= j < 1024 ->
  (p <> q \/ i <> j) -> p + 4 * i + 4 <= q + 4 * j \/ q + 4 * j + 4 <= p + 4 * i.
Proof.
  intros [Hp _] [Hq _] Hi Hj H. destruct (decide (p = q)) as [->|Hne].
  - destruct H; [done|lia].
  - destruct (pages_apart p q Hp Hq Hne); unfold PGSIZE in *; lia.
Qed.

Lemma word_in_page p i : 0 <= i < 1024 -> p <= p + 4 * i /\ p + 4 * i + 4 <= p + PGSIZE.
Proof. unfold PGSIZE. lia. Qed.

(** Memory that agrees on the tables holds the same address space. *)
Lemma space_ext m m' pgdir pts :
  (forall p i, table pgdir pts p -> 0 <= i < 1024 -> load32 m' (p + 4 * i) = load32 m (p + 4 * i)) ->
  space m pgdir pts -> space m' pgdir pts /\ forall va, pte_of m' pgdir va = pte_of m pgdir va.
Proof.
  intros H S. assert (space m' pgdir pts) as S'.
  { destruct S as [Hd Hp Ht Hi]. split; [done| |done|done]. intros d Hr. rewrite H by (done || by left). by apply Hp. }
  split; [done|]. intros va. rewrite !(pte_of_space _ _ pts) by done.
  destruct (pts !! PDX va) as [pt|] eqn:E; [|done]. apply H; [right; by exists (PDX va)|apply PTX_range].
Qed.


(** ** Growing a page table *)

(** From [k] to [k'] the page table took the pages [new] from the free list, and
    nothing outside its pages was written. *)
Record grows (pgdir : Z) (k : kstate) (pts : gmap Z Z) (l : list Z)
    (k' : kstate) (pts' : gmap Z Z) (l' : list Z) : Prop := {
  gr_ok : vm_ok k' pgdir pts' l';
  gr_sub : pts ⊆ pts';
  gr_new : exists new, l = new ++ l' /\ forall p, p ∈ new <-> exists d, pts' !! d = Some p /\ pts !! d = None;
  gr_mem : forall x, ~ in_tables pgdir pts' x -> load8 (k_mem k') x = load8 (k_mem k) x;
  gr_state : exists m h, k' = set_k_mem m (set_k_freelist h k);
  gr_len : (length l + size pts = length l' + size pts')%nat
}.

Lemma set_mem_free_id k : k = set_k_mem (k_mem k) (set_k_freelist (k_freelist k) k).
Proof. by destruct k. Qed.

Lemma grows_refl pgdir k pts l : vm_ok k pgdir pts l -> grows pgdir k pts l k pts l.
Proof.
  intros V. split; [done|done| |done|eexists _, _; apply set_mem_free_id|done].
  exists []. split; [done|]. intros p. split; [by intros ?%not_elem_of_nil|]. intros (d & E & E'). congruence.
Qed.

Lemma in_tables_sub pgdir pts pts' x : pts ⊆ pts' -> in_tables pgdir pts x -> in_tables pgdir pts' x.
Proof.
  intros Hs (p & Ht & Hx). exists p. split; [|done]. destruct Ht as [->|[d Hd]]; [by left|right].
  exists d. by eapply lookup_weaken.
Qed.

Lemma grows_trans pgdir k pts l k1 pts1 l1 k2 pts2 l2 :
  grows pgdir k pts l k1 pts1 l1 -> grows pgdir k1 pts1 l1 k2 pts2 l2 -> grows pgdir k pts l k2 pts2 l2.
Proof.
  intros [V1 S1 (n1 & E1 & N1) M1 (m1 & h1 & ->) L1] [V2 S2 (n2 & E2 & N2) M2 (m2 & h2 & ->) L2].
  split; [done|by etrans| | |by eexists _, _|lia].
  - exists (n1 ++ n2). split; [by rewrite E1, E2, app_assoc|]. intros p.
    rewrite elem_of_app, N1, N2. split.
    + intros [(d & H1 & H2)|(d & H1 & H2)]; exists d; split; try done.
      * by eapply lookup_weaken.
      * destruct (pts !! d) eqn:E; [|done]. eapply lookup_weaken in E; [|exact S1]. congruence.
    + intros (d & H1 & H2). destruct (pts1 !! d) as [q|] eqn:E; [left|right; by exists d].
      exists d. split; [|done]. rewrite E. eapply lookup_weaken in E; [|exact S2]. congruence.
  - intros x Hx. rewrite M2 by done. apply M1. intros Hin. by apply Hx, (in_tables_sub _ pts1).
Qed.

(** The free list does not change when no free page is written. *)
Lemma freelist_agree k m l :
  (forall p x, p ∈ l -> p <= x < p + PGSIZE -> load8 m x = load8 (k_mem k) x) ->
  freelist k l -> freelist (set_k_mem m k) l.
Proof.
  intros Hm [Hc Hn Hp]. split; [|done..]. revert Hc. apply chain_ext. intros p Hpl. apply load32_ext.
  intros x Hx. apply (Hm p); [done|]. unfold PGSIZE. lia.
Qed.

Lemma page_of p q x : page_ok p -> page_ok q -> p <= x < p + PGSIZE -> q <= x < q + PGSIZE -> p = q.
Proof.
  intros [Hp _] [Hq _] H1 H2. destruct (decide (p = q)) as [|Hne]; [done|].
  destruct (pages_apart p q Hp Hq Hne); lia.
Qed.

Lemma table_ok m pgdir pts p : space m pgdir pts -> table pgdir pts p -> page_ok p.
Proof. intros [Hd _ Ht _] [->|[d E]]; [done|]. by apply (Ht d). Qed.

(** A page table entry is written. *)
Lemma set_pte pgdir k pts l a pt v :
  vm_ok k pgdir pts l -> pts !! PDX a = Some pt -> 0 <= a < 2 ^ 32 ->
  let k' := set_k_mem (store32 (pt + 4 * PTX a) v (k_mem k)) k in
  grows pgdir k pts l k' pts l
  /\ forall b, 0 <= b < 2 ^ 32 ->
     pte_of (k_mem k') pgdir b = if decide (b / 4096 = a / 4096) then u32 v else pte_of (k_mem k) pgdir b.
Proof.
  intros V Ept Hr k'. pose proof (vo_space _ _ _ _ V) as S. destruct (sp_pt _ _ _ S _ _ Ept) as (_ & Hpt & Hne).
  pose proof (PTX_range a) as Rx. assert (table pgdir pts pt) as Ht by (right; by exists (PDX a)).
  assert (forall p i, page_ok p -> 0 <= i < 1024 -> (p <> pt \/ i <> PTX a) ->
    load32 (k_mem k') (p + 4 * i) = load32 (k_mem k) (p + 4 * i)) as Hw.
  { intros p i Hp Hi Hd. apply load32_store32_out. destruct (words_apart p pt i (PTX a)); auto. }
  assert (forall x, ~ (pt <= x < pt + PGSIZE) -> load8 (k_mem k') x = load8 (k_mem k) x) as Hout.
  { intros x Hx. apply load8_store_bytes_out. rewrite length_le_bytes. unfold PGSIZE in Hx. lia. }
  assert (space (k_mem k') pgdir pts) as S'.
  { pose proof S as [Hd Hp Ht' Hi]. split; [done| |done|done]. intros d Hdr. rewrite Hw by (done || by left). by apply Hp. }
  split; [split|].
  - destruct V as [Hk Hf _ Ha]. split; [by apply (kmem_lock_ok_set k _ (k_freelist k))| |done|done].
    apply freelist_agree; [|done]. intros p x Hp Hx. apply Hout. intros Hx'.
    apply (Ha pt Ht). rewrite (page_of pt p x); [done|done| |done|done].
    pose proof (fl_pages _ _ Hf) as Hpl. rewrite Forall_forall in Hpl. by apply Hpl.
  - done.
  - exists []. split; [done|]. intros p. split; [by intros ?%not_elem_of_nil|]. intros (d & E & E'). congruence.
  - intros x Hx. apply Hout. intros ?. apply Hx. by exists pt.
  - exists (k_mem k'), (k_freelist k). by destruct k.
  - done.
  - intros b Hb. rewrite !(pte_of_space _ _ pts) by done. destruct (decide (b / 4096 = a / 4096)) as [E|E].
    + replace (PDX b) with (PDX a) by (rewrite !PDX_eq by done; div_lia).
      replace (PTX b) with (PTX a) by (rewrite !PTX_eq by done; by rewrite E).
      rewrite Ept. apply load32_store32_same.
    + destruct (pts !! PDX b) as [q|] eqn:Eq; [|done]. apply Hw; [by eapply sp_pt|apply PTX_range|].
      destruct (decide (q = pt)) as [->|]; [right|by left]. intros Hx. apply E.
      apply same_page; [done..| |done]. by apply (sp_inj _ _ _ S _ _ pt).
Qed.

Lemma walkpgdir_found pgdir k pts l va pt alloc e :
  vm_ok k pgdir pts l -> pts !! PDX va = Some pt ->
  walkpgdir pgdir va alloc k e = Done (pt + 4 * PTX va) k e.
Proof.
  intros V E. pose proof (vo_space _ _ _ _ V) as S. unfold walkpgdir, kload32. c_simpl.
  rewrite (sp_pde _ _ _ S), E by apply PDX_range. destruct (pde_val_spec pt) as (-> & -> & _); [|done].
  by eapply sp_pt.
Qed.

Lemma walkpgdir_absent pgdir k pts l va e :
  vm_ok k pgdir pts l -> pts !! PDX va = None -> walkpgdir pgdir va 0 k e = Done 0 k e.
Proof.
  intros V E. pose proof (vo_space _ _ _ _ V) as S. unfold walkpgdir, kload32. c_simpl.
  by rewrite (sp_pde _ _ _ S), E by apply PDX_range.
Qed.

(** A fresh page table: a page of zeros. *)
Lemma load32_zeroed m p i : 0 <= i < 1024 -> load32 (memset p 0 PGSIZE m) (p + 4 * i) = 0.
Proof.
  intros Hi. unfold load32, load_bytes. assert (forall j, (j < 4)%nat -> load8 (memset p 0 PGSIZE m) (p + 4 * i + Z.of_nat j) = 0) as H.
  { intros j Hj. rewrite load8_memset, decide_True by (unfold PGSIZE; lia). done. }
  cbn [seq fmap list_fmap]. rewrite !H by lia. done.
Qed.

Definition new_table (pgdir d p : Z) (k : kstate) : kstate :=
  set_k_mem (store32 (pgdir + 4 * d) (pde_val p) (memset p 0 PGSIZE (k_mem k)))
    (set_k_freelist (load32 (k_mem k) p) k).

Lemma load8_new_table pgdir d p k x : 0 <= d < 1024 ->
  ~ (pgdir <= x < pgdir + PGSIZE) -> ~ (p <= x < p + PGSIZE) ->
  load8 (k_mem (new_table pgdir d p k)) x = load8 (k_mem k) x.
Proof.
  intros Hd H1 H2. simpl. unfold store32. rewrite load8_store_bytes_out.
  - rewrite load8_memset by (unfold PGSIZE; lia). by rewrite decide_False.
  - rewrite length_le_bytes. unfold PGSIZE in *. lia.
Qed.

Lemma new_table_space pgdir d p k pts :
  space (k_mem k) pgdir pts -> page_ok p -> ~ table pgdir pts p -> pts !! d = None -> 0 <= d < 1024 ->
  space (k_mem (new_table pgdir d p k)) pgdir (<[d := p]> pts)
  /\ forall va, pte_of (k_mem (new_table pgdir d p k)) pgdir va = pte_of (k_mem k) pgdir va.
Proof.
  intros S Hp Hnt Hd Hr. pose proof S as [Hdir Hpde Hpt Hinj].
  assert (p <> pgdir) as Hne by (intros ->; apply Hnt; by left).
  assert (forall q i, page_ok q -> q <> p -> 0 <= i < 1024 -> (q <> pgdir \/ i <> d) ->
    load32 (k_mem (new_table pgdir d p k)) (q + 4 * i) = load32 (k_mem k) (q + 4 * i)) as Hw.
  { intros q i Hq Hqp Hi Hqi. simpl. rewrite load32_store32_out by (destruct (words_apart q pgdir i d); auto).
    apply load32_ext. intros x Hx. rewrite load8_memset by (unfold PGSIZE; lia). apply decide_False.
    intros Hx'. apply Hqp, (page_of q p x); try done. unfold PGSIZE. lia. }
  assert (forall q, table pgdir pts q -> q <> p) as Htp by (by intros q Hq ->).
  assert (space (k_mem (new_table pgdir d p k)) pgdir (<[d := p]> pts)) as S'.
  { split; [done| | |].
    - intros d' Hd'. destruct (decide (d' = d)) as [->|Hdd].
      + rewrite lookup_insert_eq. simpl. rewrite load32_store32_same. apply u32_small. by apply pde_val_spec.
      + rewrite lookup_insert_ne by done. rewrite Hw by (done || by right). by apply Hpde.
    - intros d' pt [[<- <-]|[_ Hl]]%lookup_insert_Some; [done|by apply Hpt].
    - intros d1 d2 pt [[<- <-]|[Hn1 H1]]%lookup_insert_Some [[<- E]|[Hn2 H2]]%lookup_insert_Some.
      + done.
      + destruct (Htp p); [right; by exists d2|done].
      + subst. destruct (Htp pt); [right; by exists d1|done].
      + by apply (Hinj _ _ pt). }
  split; [done|]. intros va. rewrite (pte_of_space _ _ _ _ S), (pte_of_space _ _ _ _ S').
  destruct (decide (PDX va = d)) as [<-|Hdd].
  - rewrite lookup_insert_eq, Hd. simpl. rewrite load32_store32_out.
    + apply load32_zeroed, PTX_range.
    + destruct (words_apart p pgdir (PTX va) (PDX va)); auto using PTX_range.
  - rewrite lookup_insert_ne by done. destruct (pts !! PDX va) as [q|] eqn:E; [|done].
    destruct (Hpt _ _ E) as (_ & Hq & Hqd). apply Hw; [done| |apply PTX_range|by left].
    apply Htp. right. by exists (PDX va).
Qed.

Lemma new_table_grows pgdir d p k pts l :
  vm_ok k pgdir pts (p :: l) -> pts !! d = None -> 0 <= d < 1024 ->
  grows pgdir k pts (p :: l) (new_table pgdir d p k) (<[d := p]> pts) l
  /\ forall va, pte_of (k_mem (new_table pgdir d p k)) pgdir va = pte_of (k_mem k) pgdir va.
Proof.
  intros [Hk Hf S Ha] Hd Hr. pose proof (fl_pages _ _ Hf) as [Hp Hpl]%Forall_cons.
  assert (~ table pgdir pts p) as Hnt by (intros ?%Ha; set_solver).
  destruct (new_table_space pgdir d p k pts S Hp Hnt Hd Hr) as [S' Hpte]. split; [|done].
  assert (p ∉ l) as Hni by (by apply fl_nodup, NoDup_cons in Hf as []).
  split; [split| | | | |].
  - intros E. destruct (Hk E) as (c & [] & Hfr). exists c. by split.
  - apply (freelist_agree (set_k_freelist (load32 (k_mem k) p) k)); [|by apply freelist_tail].
    intros q x Hq Hx. rewrite Forall_forall in Hpl. refine (load8_new_table pgdir d p k x Hr _ _).
    + intros Hx'. rewrite (page_of q pgdir x) in Hq; [|by apply Hpl|apply S|done|done].
      apply (Ha pgdir); [by left|by right].
    + intros Hx'. by rewrite (page_of q p x) in Hq; [|by apply Hpl|..].
  - done.
  - intros q [->|[d' [[<- <-]|[_ E]]%lookup_insert_Some]]; [|done|].
    + intros Hin. apply (Ha pgdir); [by left|by right].
    + intros Hin. apply (Ha q); [right; by exists d'|by right].
  - by apply insert_subseteq.
  - exists [p]. split; [done|]. intros q. rewrite list_elem_of_singleton. split.
    + intros ->. exists d. by rewrite lookup_insert_eq.
    + intros (d' & [[<- <-]|[_ E]]%lookup_insert_Some & E'); [done|congruence].
  - intros x Hx. apply load8_new_table; [done| |].
    + intros ?. apply Hx. exists pgdir. split; [by left|done].
    + intros ?. apply Hx. exists p. split; [right; exists d; apply lookup_insert_eq|done].
  - by eexists _, _.
  - rewrite map_size_insert_None by done. simpl. lia.
Qed.

(** [walkpgdir] with [alloc] set: the entry's address, in a page table that may be
    new; or 0 when no page is left for it.  No entry changes. *)
Lemma walkpgdir_alloc pgdir k pts l va e : vm_ok k pgdir pts l ->
  (exists k' pts' l' pt, walkpgdir pgdir va 1 k e = Done (pt + 4 * PTX va) k' e
     /\ pt + 4 * PTX va <> 0 /\ pts' !! PDX va = Some pt /\ grows pgdir k pts l k' pts' l' /\ (length l <= S (length l'))%nat
     /\ forall b, pte_of (k_mem k') pgdir b = pte_of (k_mem k) pgdir b)
  \/ (l = [] /\ walkpgdir pgdir va 1 k e = Done 0 k e).
Proof.
  intros V. pose proof (PTX_range va). destruct (pts !! PDX va) as [pt|] eqn:E.
  { left. exists k, pts, l, pt. split; [by eapply walkpgdir_found|].
    destruct (sp_pt _ _ _ (vo_space _ _ _ _ V) _ _ E) as (_ & (_ & _ & ? & _) & _).
    split; [lia|]. split; [done|]. split; [by apply grows_refl|]. split; [lia|done]. }
  pose proof V as [Hk Hf S _]. unfold walkpgdir, kload32, kmem. c_simpl.
  rewrite (sp_pde _ _ _ S), E by apply PDX_range. change (truth (Z.land 0 PTE_P)) with false. change (truth 1) with true. cbn [negb].
  destruct l as [|p l]; [right; split; [done|]; by run (kalloc_empty k e Hf Hk)|left].
  run (kalloc_done k p l e Hf Hk). pose proof (fl_pages _ _ Hf) as (_ & _ & Hp0 & _)%Forall_inv.
  rewrite (proj2 (Z.eqb_neq p 0)) by lia. c_simpl.
  destruct (new_table_grows pgdir (PDX va) p k pts l V E (PDX_range va)) as [G Hpte].
  exists (new_table pgdir (PDX va) p k), (<[PDX va := p]> pts), l, p.
  split; [done|]. split; [lia|]. split; [apply lookup_insert_eq|]. split; [done|]. split; [done|done].
Qed.

(** ** Mapping pages *)

(** The entry that [mappages] makes. *)
Definition pte_val (pa perm : Z) : Z := u32 (Z.lor (Z.lor pa perm) PTE_P).

Definition present (m : gmap Z Z) (pgdir va : Z) : bool := truth (Z.land (pte_of m pgdir va) PTE_P).

(** One round of the loop: no page for a page table, or a page that is mapped
    already, or the entry is written. *)
Lemma mappages_step pgdir last perm k pts l a pa e :
  vm_ok k pgdir pts l -> 0 <= a < 2 ^ 32 ->
  (l = [] /\ mappages_body pgdir last perm (a, pa) k e = Done (inr (-1)) k e)
  \/ exists k' pts' l', grows pgdir k pts l k' pts' l' /\ (length l <= S (length l'))%nat /\
     if present (k_mem k) pgdir a then mappages_body pgdir last perm (a, pa) k e = Panic "remap" k'
     else mappages_body pgdir last perm (a, pa) k e
            = Done (if a =? last then inr 0 else inl (u32 (a + PGSIZE), u32 (pa + PGSIZE))) k' e
          /\ forall b, 0 <= b < 2 ^ 32 ->
             pte_of (k_mem k') pgdir b = if decide (b / 4096 = a / 4096) then pte_val pa perm else pte_of (k_mem k) pgdir b.
Proof.
  intros V Ha. unfold mappages_body.
  destruct (walkpgdir_alloc pgdir k pts l a e V) as [(k1 & pts1 & l1 & pt & Ew & Hne & Ept & G & Hlen & Hpte)|[-> Ew]].
  2: { left. split; [done|]. by run Ew. }
  right. pose proof (gr_ok _ _ _ _ _ _ _ G) as V1.
  assert (load32 (k_mem k1) (pt + 4 * PTX a) = pte_of (k_mem k) pgdir a) as El.
  { rewrite <- Hpte, (pte_of_space _ _ pts1) by apply V1. by rewrite Ept. }
  destruct (present (k_mem k) pgdir a) eqn:Ep; unfold present in Ep.
  - exists k1, pts1, l1. split; [done|]. split; [done|]. run Ew. rewrite (proj2 (Z.eqb_neq _ 0)) by done.
    unfold kload32. c_simpl. by rewrite El, Ep.
  - destruct (set_pte pgdir k1 pts1 l1 a pt (Z.lor (Z.lor pa perm) PTE_P) V1 Ept Ha) as [G2 Hset].
    eexists _, pts1, l1. split; [by eapply grows_trans|]. split; [done|]. split.
    + run Ew. rewrite (proj2 (Z.eqb_neq _ 0)) by done. unfold kload32, kmem. c_simpl. rewrite El, Ep. c_simpl.
      by destruct (a =? last).
    + intros b Hb. rewrite Hset by done. destruct (decide _); [done|]. apply Hpte.
Qed.

(** The entries after [j] pages from [a] on were mapped. *)
Definition mapped (m m' : gmap Z Z) (pgdir a pa perm : Z) (j : nat) : Prop :=
  forall b, 0 <= b < 2 ^ 32 ->
    pte_of m' pgdir b = if decide (a <= b < a + PGSIZE * Z.of_nat j)
                        then pte_val (u32 (pa + (b - a) / PGSIZE * PGSIZE)) perm
                        else pte_of m pgdir b.

Lemma mapped_0 m pgdir a pa perm : mapped m m pgdir a pa perm 0.
Proof. intros b Hb. rewrite decide_False; [done|lia]. Qed.

Lemma mapped_S m m1 m' pgdir a pa perm j :
  (PGSIZE | a) -> 0 <= pa < 2 ^ 32 ->
  (forall b, 0 <= b < 2 ^ 32 -> pte_of m1 pgdir b = if decide (b / 4096 = a / 4096) then pte_val pa perm else pte_of m pgdir b) ->
  mapped m1 m' pgdir (a + PGSIZE) (u32 (pa + PGSIZE)) perm j -> mapped m m' pgdir a pa perm (S j).
Proof.
  intros [q ->] Hpa H1 H2 b Hb. rewrite H2, H1 by done. unfold PGSIZE in *.
  destruct (decide (b / 4096 = q * 4096 / 4096)) as [E|E].
  - rewrite Z.div_mul in E by lia.
    rewrite decide_False by div_lia. rewrite decide_True by div_lia. f_equal.
    replace ((b - q * 4096) / 4096) with 0 by div_lia. rewrite Z.add_0_r. symmetry. by apply u32_small.
  - rewrite Z.div_mul in E by lia.
    destruct (decide (q * 4096 + 4096 <= b < q * 4096 + 4096 + 4096 * Z.of_nat j)).
    + rewrite decide_True by div_lia. f_equal. rewrite u32_add_l. f_equal. div_lia.
    + rewrite decide_False by div_lia. done.
Qed.

Lemma mappages_loop pgdir last perm n : forall fuel k pts l a pa e,
  vm_ok k pgdir pts l -> (PGSIZE | a) -> 0 <= a -> 0 <= pa < 2 ^ 32 -> last = a + PGSIZE * Z.of_nat n ->
  last + PGSIZE <= 2 ^ 32 -> (n < fuel)%nat ->
  (forall i, 0 <= i <= Z.of_nat n -> present (k_mem k) pgdir (a + PGSIZE * i) = false) ->
  exists r k' pts' l' j, iter fuel (mappages_body pgdir last perm) (a, pa) k e = Done r k' e
    /\ grows pgdir k pts l k' pts' l' /\ mapped (k_mem k) (k_mem k') pgdir a pa perm j
    /\ (r = 0 /\ j = S n \/ r = -1 /\ l' = [] /\ (j <= n)%nat).
Proof.
  induction n as [|n IH]; intros fuel k pts l a pa e V Hd Ha Hpa Hlast Htop Hf Hun;
    (destruct fuel as [|fuel]; [lia|]); cbn [iter];
    (destruct (mappages_step pgdir last perm k pts l a pa e V) as [[-> E]|(k1 & pts1 & l1 & G & Hlen & E)];
      [unfold PGSIZE in *; lia|
       exists (-1), k, pts, [], O; run E; split; [done|]; split; [by apply grows_refl|];
       split; [apply mapped_0|right; split; [done|split; [done|lia]]]|]);
    (assert (present (k_mem k) pgdir a = false) as Hp by (rewrite <- (Hun 0) by lia; f_equal; lia));
    rewrite Hp in E; destruct E as [E Hset]; run E.
  - rewrite (proj2 (Z.eqb_eq a last)) by (unfold PGSIZE in *; lia).
    exists 0, k1, pts1, l1, 1%nat. split; [done|]. split; [done|]. split; [|by left].
    by apply (mapped_S _ _ _ _ _ _ _ O Hd Hpa Hset), mapped_0.
  - rewrite (proj2 (Z.eqb_neq a last)) by (unfold PGSIZE in *; lia).
    rewrite (u32_small (a + PGSIZE)) by (unfold PGSIZE in *; lia).
    destruct (IH fuel k1 pts1 l1 (a + PGSIZE) (u32 (pa + PGSIZE)) e) as (r & k' & pts' & l' & j & Hrun & G' & Hm & Hr).
    + apply G.
    + by apply Z.divide_add_r.
    + unfold PGSIZE; lia.
    + apply u32_bounds.
    + unfold PGSIZE in *; lia.
    + done.
    + lia.
    + intros i Hi. rewrite <- (Hun (i + 1)) by lia. unfold present. do 2 f_equal.
      rewrite Hset by (unfold PGSIZE in *; lia). destruct Hd as [q ->]. unfold PGSIZE in *.
      rewrite decide_False by div_lia. f_equal. lia.
    + exists r, k', pts', l', (S j). split; [done|]. split; [by eapply grows_trans|].
      split; [by eapply mapped_S|]. destruct Hr as [[-> ->]|(-> & -> & Hj)]; [by left|right].
      split; [done|split; [done|lia]].
Qed.

(** A page of the range that is mapped already stops the loop. *)
Lemma mappages_loop_remap pgdir last perm n : forall fuel k pts l a pa e,
  vm_ok k pgdir pts l -> (PGSIZE | a) -> 0 <= a -> last = a + PGSIZE * Z.of_nat n ->
  last + PGSIZE <= 2 ^ 32 -> (n < fuel)%nat ->
  (exists i, 0 <= i <= Z.of_nat n /\ present (k_mem k) pgdir (a + PGSIZE * i) = true) ->
  exists k', iter fuel (mappages_body pgdir last perm) (a, pa) k e = Panic "remap" k'
    \/ iter fuel (mappages_body pgdir last perm) (a, pa) k e = Done (-1) k' e.
Proof.
  induction n as [|n IH]; intros fuel k pts l a pa e V Hd Ha Hlast Htop Hf (i & Hi & Hpi);
    (destruct fuel as [|fuel]; [lia|]); cbn [iter];
    (destruct (mappages_step pgdir last perm k pts l a pa e V) as [[-> E]|(k1 & pts1 & l1 & G & Hlen & E)];
      [unfold PGSIZE in *; lia|exists k; right; by run E|]);
    destruct (present (k_mem k) pgdir a) eqn:Hp; try (exists k1; left; unfold bind at 1; by rewrite E).
  - replace i with 0 in Hpi by lia. rewrite Z.mul_0_r, Z.add_0_r in Hpi. congruence.
  - assert (i <> 0) by (intros ->; rewrite Z.mul_0_r, Z.add_0_r in Hpi; congruence).
    destruct E as [E Hset]. run E. rewrite (proj2 (Z.eqb_neq a last)) by (unfold PGSIZE in *; lia).
    rewrite (u32_small (a + PGSIZE)) by (unfold PGSIZE in *; lia).
    apply (IH fuel k1 pts1 l1); [apply G|by apply Z.divide_add_r|unfold PGSIZE; lia|unfold PGSIZE in *; lia|done|lia|].
    exists (i - 1). split; [lia|]. rewrite <- Hpi. unfold present. do 2 f_equal.
    rewrite Hset by (unfold PGSIZE in *; lia). destruct Hd as [q ->]. unfold PGSIZE in *.
    rewrite decide_False by div_lia. f_equal. lia.
Qed.

(** The first page and the number of the others of a range of addresses. *)
Lemma page_range va size : 0 <= va -> 0 < size -> va + size <= 2 ^ 32 ->
  let a := PGROUNDDOWN va in let last := PGROUNDDOWN (u32 (va + size - 1)) in
  let n := Z.to_nat (u32 (last - a) / PGSIZE) in
  (PGSIZE | a) /\ 0 <= a /\ a = va / PGSIZE * PGSIZE /\ last = a + PGSIZE * Z.of_nat n /\ last + PGSIZE <= 2 ^ 32
  /\ last = (va + size - 1) / PGSIZE * PGSIZE.
Proof.
  intros Hva Hs Ht. cbv zeta.
  rewrite (u32_small (va + size - 1)) by lia. rewrite !PGROUNDDOWN_eq by lia. unfold PGSIZE.
  rewrite u32_small by div_lia. split; [by exists (va / 4096)|]. div_lia.
Qed.

(** [mappages] of a range that is not mapped. *)
Lemma mappages_run k pgdir pts l va size pa perm e :
  vm_ok k pgdir pts l -> 0 <= va -> 0 < size -> va + size <= 2 ^ 32 -> 0 <= pa < 2 ^ 32 ->
  let a := va / PGSIZE * PGSIZE in let n := Z.to_nat ((va + size - 1) / PGSIZE - va / PGSIZE) in
  (forall b, a <= b < va + size -> present (k_mem k) pgdir b = false) ->
  exists r k' pts' l' j, mappages pgdir va size pa perm k e = Done r k' e
    /\ grows pgdir k pts l k' pts' l' /\ mapped (k_mem k) (k_mem k') pgdir a pa perm j
    /\ (r = 0 /\ j = S n \/ r = -1 /\ l' = [] /\ (j <= n)%nat).
Proof.
  intros V Hva Hs Ht Hpa a n Hun. destruct (page_range va size Hva Hs Ht) as (Hd & Ha & Ea & Hl & Htop & El).
  unfold mappages. set (n' := Z.to_nat (u32 (PGROUNDDOWN (u32 (va + size - 1)) - PGROUNDDOWN va) / PGSIZE)) in *.
  assert (n' = n) as En by (unfold n, a, PGSIZE in *; lia). fold a in Ea. rewrite Ea in *. rewrite En in *.
  apply mappages_loop; try done; [lia|]. intros i Hi. apply Hun. unfold a, n, PGSIZE in *. div_lia.
Qed.

(** [mappages] maps a range.  For a range of addresses none of whose pages is
    mapped, [mappages] comes to an end.  Either it returns 0, and the entry of each page
    of the range then refers to the page of physical memory at the same distance
    from [pa], with the permissions given and present.  Or it returns -1, the
    allocator has no page left, and the pages mapped are a beginning of the range.
    In both cases every other entry of the address space is as before, only pages of
    the page table were written, and every page taken from the allocator is now one
    of its page tables.  When a page of the range is mapped already, it
    panics or runs out of memory. *)
Theorem mappages_maps (k : kstate) (pgdir : Z) (pts : gmap Z Z) (l : list Z) (va size pa perm : Z) (e : environment kstate) :
  vm_ok k pgdir pts l -> 0 <= va -> 0 < size -> va + size <= 2 ^ 32 -> 0 <= pa < 2 ^ 32 ->
  let a := va / PGSIZE * PGSIZE in let n := Z.to_nat ((va + size - 1) / PGSIZE - va / PGSIZE) in
  ((forall b, a <= b < va + size -> present (k_mem k) pgdir b = false) ->
   exists r k' pts' l' j, mappages pgdir va size pa perm k e = Done r k' e
     /\ grows pgdir k pts l k' pts' l' /\ mapped (k_mem k) (k_mem k') pgdir a pa perm j
     /\ (r = 0 /\ j = S n \/ r = -1 /\ l' = [] /\ (j <= n)%nat))
  /\ ((exists b, a <= b < va + size /\ present (k_mem k) pgdir b = true) ->
      exists k', mappages pgdir va size pa perm k e = Panic "remap" k' \/ mappages pgdir va size pa perm k e = Done (-1) k' e).
Proof.
  intros V Hva Hs Ht Hpa a n. split; [by apply mappages_run|].
  destruct (page_range va size Hva Hs Ht) as (Hd & Ha & Ea & Hl & Htop & El). unfold mappages.
  set (n' := Z.to_nat (u32 (PGROUNDDOWN (u32 (va + size - 1)) - PGROUNDDOWN va) / PGSIZE)) in *.
  assert (n' = n) as En by (unfold n, a, PGSIZE in *; lia). fold a in Ea. rewrite Ea in *. rewrite En in *.
  intros (b & Hb & Hp). eapply mappages_loop_remap; try done; [lia|]. exists ((b - a) / PGSIZE).
  unfold a, n, PGSIZE in *. split; [div_lia|]. rewrite <- Hp. unfold present. do 2 f_equal.
  apply pte_of_page; div_lia.
Qed.

(** ** User pages *)

(** The user part of an address space: the pages below [KERNBASE] by number, each
    with the page of memory behind it and the flags of its entry. *)
Record user (m : gmap Z Z) (pgdir : Z) (pts : gmap Z Z) (up : gmap Z (Z * Z)) : Prop := {
  us_pte : forall v, 0 <= v < 2 ^ 19 ->
    match up !! v with
    | Some (p, f) => pte_of m pgdir (v * 4096) = V2P p + f
    | None => pte_of m pgdir (v * 4096) = 0
    end;
  us_page : forall v p f, up !! v = Some (p, f) ->
    0 <= v < 2 ^ 19 /\ page_ok p /\ ~ table pgdir pts p /\ 0 <= f < PGSIZE /\ truth (Z.land f PTE_P) = true;
  us_inj : forall v v' p f f', up !! v = Some (p, f) -> up !! v' = Some (p, f') -> v = v'
}.

(** The page table and the user pages of an address space beside the free pages [l]. *)
Record as_ok (k : kstate) (pgdir : Z) (pts : gmap Z Z) (up : gmap Z (Z * Z)) (l : list Z) : Prop := {
  ao_vm : vm_ok k pgdir pts l;
  ao_user : user (k_mem k) pgdir pts up;
  ao_apart : forall v p f, up !! v = Some (p, f) -> p ∉ l
}.

Lemma present_user m pgdir pts up v : user m pgdir pts up -> 0 <= v < 2 ^ 19 ->
  present m pgdir (v * 4096) = bool_decide (is_Some (up !! v)).
Proof.
  intros U Hv. pose proof (us_pte _ _ _ _ U v Hv) as H. destruct (up !! v) as [[p f]|] eqn:E.
  - unfold present. destruct (us_page _ _ _ _ U _ _ _ E) as (_ & Hp & _ & Hf & HP).
    destruct (page_V2P p Hp) as (_ & _ & _ & Hd & _). rewrite H, land_low by (done || unfold PGSIZE, PTE_P; lia).
    rewrite HP. by rewrite bool_decide_true.
  - unfold present. rewrite H, bool_decide_false; [done|]. by intros [].
Qed.

(** A page table that grows keeps the user pages. *)
Lemma grows_user pgdir k pts l k' pts' l' up :
  as_ok k pgdir pts up l -> grows pgdir k pts l k' pts' l' ->
  (forall v, 0 <= v < 2 ^ 19 -> pte_of (k_mem k') pgdir (v * 4096) = pte_of (k_mem k) pgdir (v * 4096)) ->
  as_ok k' pgdir pts' up l'.
Proof.
  intros [V U A] [V' S' (new & El & Hnew) M _ _] Hp. split; [done| |].
  - destruct U as [U1 U2 U3]. split; [| |done].
    + intros v Hv. rewrite Hp by done. by apply U1.
    + intros v p f E. destruct (U2 v p f E) as (Hv & Hok & Ht & Hf). split; [done|]. split; [done|]. split; [|done].
      intros [->|[d Hd]]; [apply Ht; by left|]. destruct (pts !! d) as [q|] eqn:Eq.
      * eapply lookup_weaken in Eq as Eq'; [|exact S']. apply Ht. right. exists d. congruence.
      * apply (A v p f E). rewrite El, elem_of_app. left. apply Hnew. by exists d.
  - intros v p f E Hin. apply (A v p f E). rewrite El, elem_of_app. by right.
Qed.

(** A page is taken from the allocator and filled. *)
Definition fill_page (p : Z) (k : kstate) (m : gmap Z Z) : kstate :=
  set_k_mem m (set_k_freelist (load32 (k_mem k) p) k).

Lemma fill_page_ok pgdir k pts up p l m :
  as_ok k pgdir pts up (p :: l) ->
  (forall x, ~ (p <= x < p + PGSIZE) -> load8 m x = load8 (k_mem k) x) ->
  as_ok (fill_page p k m) pgdir pts up l /\ (p ∉ l) /\ page_ok p /\ ~ table pgdir pts p
  /\ (forall v f, up !! v <> Some (p, f)) /\ (forall b, pte_of m pgdir b = pte_of (k_mem k) pgdir b).
Proof.
  intros [[Hk Hf S Ha] U A] Hm. pose proof (fl_pages _ _ Hf) as [Hp Hpl]%Forall_cons.
  assert (p ∉ l) as Hni by (by apply fl_nodup, NoDup_cons in Hf as []).
  assert (~ table pgdir pts p) as Hnt by (intros ?%Ha; set_solver).
  destruct (space_ext (k_mem k) m pgdir pts) as [S' Hpte]; [|done|].
  { intros q i Hq Hi. apply load32_ext. intros x Hx. apply Hm. intros Hx'. apply Hnt.
    rewrite <- (page_of q p x); [done|by eapply table_ok|done|unfold PGSIZE; lia|done]. }
  split; [split; [split| |]|].
  - intros E. destruct (Hk E) as (c & [] & Hfr). exists c. by split.
  - apply (freelist_agree (set_k_freelist (load32 (k_mem k) p) k)); [|by apply freelist_tail].
    intros q x Hq Hx. apply Hm. intros Hx'. rewrite Forall_forall in Hpl.
    by rewrite (page_of q p x) in Hq; [|by apply Hpl|..].
  - done.
  - intros q Hq Hin. apply (Ha q Hq). by right.
  - destruct U as [U1 U2 U3]. split; [|done|done]. intros v Hv. simpl. rewrite Hpte. by apply U1.
  - intros v q f E Hin. apply (A v q f E). by right.
  - split; [done|]. split; [done|]. split; [done|]. split; [|done]. intros v f E. apply (A v p f E). by left.
Qed.

(** [mappages] of a single page. *)
Lemma mappages_one pgdir k pts l a pa perm e :
  vm_ok k pgdir pts l -> (PGSIZE | a) -> 0 <= a -> a + PGSIZE <= 2 ^ 32 -> 0 <= pa < 2 ^ 32 ->
  present (k_mem k) pgdir a = false ->
  exists r k' pts' l', mappages pgdir a PGSIZE pa perm k e = Done r k' e
    /\ grows pgdir k pts l k' pts' l' /\ (length l <= S (length l'))%nat
    /\ ((r = 0 /\ forall b, 0 <= b < 2 ^ 32 ->
           pte_of (k_mem k') pgdir b = if decide (b / 4096 = a / 4096) then pte_val pa perm else pte_of (k_mem k) pgdir b)
        \/ (r = -1 /\ l = [] /\ k' = k)).
Proof.
  intros V Hd Ha Ht Hpa Hun. destruct (page_range a PGSIZE) as (_ & _ & Ea & Hl & _ & El); [done|done|lia|].
  unfold mappages. assert (a / PGSIZE * PGSIZE = a) as E by (destruct Hd as [q ->]; by rewrite Z.div_mul).
  assert ((a + PGSIZE - 1) / PGSIZE * PGSIZE = a) as E' by (destruct Hd as [q ->]; unfold PGSIZE in *; div_lia).
  rewrite Ea, El, E, E', Z.sub_diag. cbn [Z.to_nat]. change (u32 0 / PGSIZE) with 0. cbn [Z.to_nat iter].
  destruct (mappages_step pgdir a perm k pts l a pa e V) as [[-> Es]|(k1 & pts1 & l1 & G & Hlen & Es)]; [unfold PGSIZE in *; lia| |].
  - run Es. exists (-1), k, pts, []. split; [done|]. split; [by apply grows_refl|]. split; [simpl; lia|]. by right.
  - rewrite Hun in Es. destruct Es as [Es Hset]. run Es. rewrite Z.eqb_refl.
    exists 0, k1, pts1, l1. split; [done|]. split; [done|]. split; [done|]. by left.
Qed.

Lemma pte_val_eq p perm : page_ok p -> 0 <= Z.lor perm PTE_P < PGSIZE -> pte_val (V2P p) perm = V2P p + Z.lor perm PTE_P.
Proof.
  intros Hp Hf. destruct (page_V2P p Hp) as (_ & H0 & Ht & Hd & _). unfold pte_val.
  rewrite <- Z.lor_assoc, lor_low by done. apply u32_small. unfold PHYSTOP, PGSIZE in *. lia.
Qed.

Lemma lor_present perm : truth (Z.land (Z.lor perm PTE_P) PTE_P) = true.
Proof.
  unfold truth, PTE_P. rewrite Z.land_lor_distr_l. change (Z.land 1 1) with 1.
  change (Z.land perm 1) with (Z.land perm (Z.ones 1)). rewrite Z.land_ones by lia.
  destruct (Z.mod_pos_bound perm (2 ^ 1)); [lia|]. by destruct (decide (perm mod 2 ^ 1 = 0)) as [->|?];
    [|replace (perm mod 2 ^ 1) with 1 by lia].
Qed.

(** Pages of a table that grew were tables or free. *)
Lemma grows_table pgdir k pts l k' pts' l' p :
  grows pgdir k pts l k' pts' l' -> table pgdir pts' p -> table pgdir pts p \/ p ∈ l.
Proof.
  intros [_ S (new & El & Hnew) _ _ _] [->|[d Hd]]; [left; by left|].
  destruct (pts !! d) as [q|] eqn:E.
  - left. right. exists d. eapply lookup_weaken in E as E'; [|exact S]. congruence.
  - right. rewrite El, elem_of_app. left. apply Hnew. by exists d.
Qed.

(** A page that is in no list and no table becomes the user page [v]. *)
Lemma map_user_page pgdir k pts up l v p perm e :
  as_ok k pgdir pts up l -> page_ok p -> (p ∉ l) -> ~ table pgdir pts p -> (forall v f, up !! v <> Some (p, f)) ->
  0 <= v < 2 ^ 19 -> up !! v = None -> 0 <= Z.lor perm PTE_P < PGSIZE ->
  (exists k' pts' l', mappages pgdir (v * 4096) PGSIZE (V2P p) perm k e = Done 0 k' e
     /\ grows pgdir k pts l k' pts' l' /\ as_ok k' pgdir pts' (<[v := (p, Z.lor perm PTE_P)]> up) l'
     /\ ~ table pgdir pts' p /\ (length l <= S (length l'))%nat
     /\ forall b, 0 <= b < 2 ^ 32 -> b / 4096 <> v -> pte_of (k_mem k') pgdir b = pte_of (k_mem k) pgdir b)
  \/ (l = [] /\ mappages pgdir (v * 4096) PGSIZE (V2P p) perm k e = Done (-1) k e).
Proof.
  intros AO Hp Hl Ht Hu Hv Huv Hf. destruct (page_V2P p Hp) as (_ & H0 & HT & _ & _).
  destruct (mappages_one pgdir k pts l (v * 4096) (V2P p) perm e) as (r & k' & pts' & l' & Hrun & G & Hlen & Hr).
  { apply AO. } { by exists v. } { lia. } { unfold PGSIZE. lia. } { unfold PHYSTOP, PGSIZE in *. lia. }
  { rewrite (present_user _ _ pts up) by (apply AO || done). rewrite Huv. by rewrite bool_decide_false by (by intros []). }
  destruct Hr as [[-> Hset]|(-> & -> & ->)]; [left|by right].
  assert (~ table pgdir pts' p) as Ht' by (by intros [?|?]%(grows_table _ _ _ _ _ _ _ _ G)).
  exists k', pts', l'. split; [done|]. split; [done|]. split; [|split; [done|split; [done|]]].
  2: { intros b Hb Hne. rewrite Hset, decide_False by (done || by rewrite Z.div_mul by lia). done. }
  assert (exists new, l = new ++ l') as [new El] by (destruct (gr_new _ _ _ _ _ _ _ G) as (new & ? & _); by exists new).
  pose proof AO as [V [U1 U2 U3] A]. split; [apply G|split|].
  - intros w Hw. rewrite Hset by lia. rewrite !Z.div_mul by lia.
    destruct (decide (w = v)) as [->|Hne].
    + rewrite lookup_insert_eq. by apply pte_val_eq.
    + rewrite lookup_insert_ne by done. by apply U1.
  - intros w q f [[<- [= <- <-]]|[Hne E]]%lookup_insert_Some.
    + split; [done|]. split; [done|]. split; [done|]. split; [done|apply lor_present].
    + destruct (U2 w q f E) as (Hw & Hq & Hqt & Hff). split; [done|]. split; [done|]. split; [|done].
      intros [?|Hin]%(grows_table _ _ _ _ _ _ _ _ G); [done|by apply (A w q f E)].
  - intros w1 w2 q f1 f2 E1 E2. destruct (decide (w1 = v)) as [->|Hn1], (decide (w2 = v)) as [->|Hn2].
    + done.
    + rewrite lookup_insert_eq in E1. rewrite lookup_insert_ne in E2 by done. simplify_eq. by destruct (Hu w2 f2).
    + rewrite lookup_insert_eq in E2. rewrite lookup_insert_ne in E1 by done. simplify_eq. by destruct (Hu w1 f1).
    + rewrite lookup_insert_ne in E1, E2 by done. by apply (U3 _ _ q f1 f2).
  - intros w q f [[<- [= <- <-]]|[Hne E]]%lookup_insert_Some Hin.
    + apply Hl. rewrite El, elem_of_app. by right.
    + apply (A w q f E). rewrite El, elem_of_app. by right.
Qed.

(** ** Freeing user pages *)

Lemma store32_zero_pte pgdir k pts l v pt :
  vm_ok k pgdir pts l -> pts !! PDX (v * 4096) = Some pt -> 0 <= v < 2 ^ 19 ->
  let k' := set_k_mem (store32 (pt + 4 * PTX (v * 4096)) 0 (k_mem k)) k in
  grows pgdir k pts l k' pts l
  /\ forall b, 0 <= b < 2 ^ 32 ->
     pte_of (k_mem k') pgdir b = if decide (b / 4096 = v) then 0 else pte_of (k_mem k) pgdir b.
Proof.
  intros V Ept Hv k'. destruct (set_pte pgdir k pts l (v * 4096) pt 0 V Ept) as [G H]; [lia|].
  split; [done|]. intros b Hb. rewrite H by done. by rewrite Z.div_mul by lia.
Qed.

Lemma after_kfree_vm pgdir k pts l p :
  vm_ok k pgdir pts l -> page_ok p -> (p ∉ l) -> ~ table pgdir pts p ->
  vm_ok (after_kfree p k) pgdir pts (p :: l)
  /\ forall b, pte_of (k_mem (after_kfree p k)) pgdir b = pte_of (k_mem k) pgdir b.
Proof.
  intros [Hk Hf S Ha] Hp Hl Ht.
  destruct (space_ext (k_mem k) (k_mem (after_kfree p k)) pgdir pts) as [S' Hpte]; [|done|].
  { intros q i Hq Hi. apply load32_ext. intros x Hx. apply (load8_freed p (k_freelist k)). intros Hx'. apply Ht.
    rewrite <- (page_of q p x); [done|by eapply table_ok|done|unfold PGSIZE; lia|done]. }
  split; [|done]. split; [by apply kmem_lock_ok_set|by apply freelist_after_kfree|done|].
  intros q Hq [->|Hin]%elem_of_cons; [done|by apply (Ha q Hq)].
Qed.

(** What [deallocuvm] does for a page that is mapped. *)
Definition free_page (pt v p : Z) (k : kstate) : kstate :=
  let k1 := after_kfree p k in set_k_mem (store32 (pt + 4 * PTX (v * 4096)) 0 (k_mem k1)) k1.

Lemma free_page_ok pgdir k pts up l v p f pt :
  as_ok k pgdir pts up l -> up !! v = Some (p, f) -> pts !! PDX (v * 4096) = Some pt ->
  as_ok (free_page pt v p k) pgdir pts (delete v up) (p :: l)
  /\ (forall x, ~ in_tables pgdir pts x -> ~ (p <= x < p + PGSIZE) -> load8 (k_mem (free_page pt v p k)) x = load8 (k_mem k) x)
  /\ (forall b, 0 <= b < 2 ^ 32 -> b / 4096 <> v -> pte_of (k_mem (free_page pt v p k)) pgdir b = pte_of (k_mem k) pgdir b)
  /\ exists m h, free_page pt v p k = set_k_mem m (set_k_freelist h k).
Proof.
  intros [V U A] E Ept. destruct (us_page _ _ _ _ U _ _ _ E) as (Hv & Hp & Ht & Hf & HfP).
  pose proof (A v p f E) as Hl. destruct (after_kfree_vm pgdir k pts l p V Hp Hl Ht) as [V1 Hpte1].
  destruct (store32_zero_pte pgdir (after_kfree p k) pts (p :: l) v pt V1 Ept Hv) as [G Hpte2].
  assert (forall b, 0 <= b < 2 ^ 32 -> b / 4096 <> v -> pte_of (k_mem (free_page pt v p k)) pgdir b = pte_of (k_mem k) pgdir b) as Hpte.
  { intros b Hb Hne. unfold free_page. rewrite Hpte2 by done. by rewrite decide_False, Hpte1. }
  split; [split; [apply G|split|]|split; [|split; [done|by eexists _, _]]].
  - intros w Hw. destruct (decide (w = v)) as [->|Hne].
    + rewrite lookup_delete_eq. unfold free_page. rewrite Hpte2, decide_True by (lia || by rewrite Z.div_mul by lia). done.
    + rewrite lookup_delete_ne by done. rewrite Hpte by (lia || by rewrite Z.div_mul by lia).
      by apply (us_pte _ _ _ _ U).
  - intros w q g [Hne Ew]%lookup_delete_Some. by apply (us_page _ _ _ _ U w q g).
  - intros w1 w2 q g1 g2 [_ E1]%lookup_delete_Some [_ E2]%lookup_delete_Some. by apply (us_inj _ _ _ _ U _ _ q g1 g2).
  - intros w q g [Hne Ew]%lookup_delete_Some [->|Hin]%elem_of_cons; [|by apply (A w q g)].
    apply Hne. by apply (us_inj _ _ _ _ U _ _ p f g).
  - intros x Hx Hxp. etrans; [by apply (gr_mem _ _ _ _ _ _ _ G)|]. by apply (load8_freed p (k_freelist k)).
Qed.

(** Only the pages of user memory, the page table, the free list and the output
    of the console change. *)
Definition vm_frame (k k' : kstate) : Prop :=
  exists m h o, k' = set_k_mem m (set_k_freelist h (set_k_out o k)).

Lemma vm_frame_refl k : vm_frame k k.
Proof. exists (k_mem k), (k_freelist k), (k_out k). by destruct k. Qed.

Lemma vm_frame_trans k1 k2 k3 : vm_frame k1 k2 -> vm_frame k2 k3 -> vm_frame k1 k3.
Proof. intros (m & h & o & ->) (m' & h' & o' & ->). by exists m', h', o'. Qed.

Lemma vm_frame_set k m h : vm_frame k (set_k_mem m (set_k_freelist h k)).
Proof. exists m, h, (k_out k). by destruct k. Qed.

(** The user pages with numbers from [lo] up to [hi] are given back. *)
Record unmaps (pgdir : Z) (pts : gmap Z Z) (lo hi : Z) (k : kstate) (up : gmap Z (Z * Z)) (l : list Z)
    (k' : kstate) (up' : gmap Z (Z * Z)) (l' : list Z) : Prop := {
  un_ok : as_ok k' pgdir pts up' l';
  un_up : forall w, up' !! w = if decide (lo <= w < hi) then None else up !! w;
  un_free : forall p, p ∈ l' <-> p ∈ l \/ exists w f, lo <= w < hi /\ up !! w = Some (p, f);
  un_mem : forall x, ~ in_tables pgdir pts x -> ~ in_pages l' x -> load8 (k_mem k') x = load8 (k_mem k) x;
  un_pte : forall b, 0 <= b < 2 ^ 32 -> ~ (lo <= b / 4096 < hi) -> pte_of (k_mem k') pgdir b = pte_of (k_mem k) pgdir b;
  un_frame : vm_frame k k'
}.

Lemma unmaps_none pgdir pts lo hi k up l :
  as_ok k pgdir pts up l -> (forall w, lo <= w < hi -> up !! w = None) -> unmaps pgdir pts lo hi k up l k up l.
Proof.
  intros A H. split; [done| | |done|done|apply vm_frame_refl].
  - intros w. destruct (decide _); [by apply H|done].
  - intros p. split; [by left|]. intros [|(w & f & Hw & E)]; [done|]. by rewrite H in E.
Qed.

Lemma unmaps_trans pgdir pts lo mid hi k up l k1 up1 l1 k2 up2 l2 :
  lo <= mid <= hi -> unmaps pgdir pts lo mid k up l k1 up1 l1 ->
  unmaps pgdir pts mid hi k1 up1 l1 k2 up2 l2 -> unmaps pgdir pts lo hi k up l k2 up2 l2.
Proof.
  intros Hm [A1 U1 F1 M1 P1 S1] [A2 U2 F2 M2 P2 S2].
  assert (forall w, mid <= w < hi -> up1 !! w = up !! w) as Hsame.
  { intros w Hw. by rewrite U1, decide_False by lia. }
  split; [done| | | | |by eapply vm_frame_trans].
  - intros w. rewrite U2, U1. repeat destruct (decide _); try done; lia.
  - intros p. rewrite F2, F1. split.
    + intros [[?|(w & f & Hw & E)]|(w & f & Hw & E)]; [by left|right..].
      * exists w, f. split; [lia|done].
      * rewrite Hsame in E by done. exists w, f. split; [lia|done].
    + intros [?|(w & f & Hw & E)]; [by left; left|]. destruct (decide (w < mid)).
      * left. right. exists w, f. split; [lia|done].
      * right. exists w, f. split; [lia|]. rewrite Hsame; [done|lia].
  - intros x Hx Hn. rewrite M2 by done. apply M1; [done|]. intros (p & Hp & Hxp). apply Hn. exists p.
    split; [apply F2; by left|done].
  - intros b Hb Hn. rewrite P2, P1 by (done || lia). done.
Qed.

Lemma unmaps_one pgdir pts k up l v p f pt :
  as_ok k pgdir pts up l -> up !! v = Some (p, f) -> pts !! PDX (v * 4096) = Some pt ->
  unmaps pgdir pts v (v + 1) k up l (free_page pt v p k) (delete v up) (p :: l).
Proof.
  intros A E Ept. destruct (free_page_ok pgdir k pts up l v p f pt A E Ept) as (A' & M & P & S).
  split; [done| | | | |destruct S as (m & h & ->); apply vm_frame_set].
  - intros w. destruct (decide (v <= w < v + 1)).
    + replace w with v by lia. by rewrite lookup_delete_eq.
    + by rewrite lookup_delete_ne by lia.
  - intros q. rewrite elem_of_cons. split.
    + intros [->|?]; [right; exists v, f; split; [lia|done]|by left].
    + intros [?|(w & g & Hw & Ew)]; [by right|left]. replace w with v in Ew by lia. congruence.
  - intros x Hx Hn. apply M; [done|]. intros ?. apply Hn. exists p. split; [by left|done].
  - intros b Hb Hn. apply P; [done|lia].
Qed.

(** Where there is no page table there is no page. *)
Lemma no_table_no_page m pgdir pts up w :
  space m pgdir pts -> user m pgdir pts up -> 0 <= w < 2 ^ 19 -> pts !! PDX (w * 4096) = None -> up !! w = None.
Proof.
  intros S U Hw E. pose proof (present_user m pgdir pts up w U Hw) as H. unfold present in H.
  rewrite (pte_of_space _ _ pts), E in H by done. destruct (up !! w); [|done].
  by rewrite bool_decide_true in H.
Qed.

Lemma PGADDR_next d : 0 <= d < 512 -> u32 (u32 (PGADDR (d + 1) 0 0 - PGSIZE) + PGSIZE) = (d + 1) * 1024 * 4096.
Proof.
  intros Hd. unfold PGADDR, PDXSHIFT, PTXSHIFT. rewrite Z.shiftl_0_l, !Z.lor_0_r, Z.shiftl_mul_pow2 by lia.
  rewrite u32_add_l, Z.sub_add, u32_idemp, u32_small by lia. lia.
Qed.

Lemma V2P_not_null p : page_ok p -> V2P p <> 0.
Proof.
  intros Hp. destruct (page_V2P p Hp) as (E & _). destruct Hp as (_ & He & _). pose proof ld_end_range. lia.
Qed.

(** A round of [deallocuvm] where there is no page table goes on with the next one. *)
Lemma deallocuvm_skip pgdir pts k up l v oldsz e :
  as_ok k pgdir pts up l -> 0 <= v -> v * 4096 < oldsz -> oldsz <= KERNBASE -> pts !! PDX (v * 4096) = None ->
  exists v', deallocuvm_body pgdir oldsz (v * 4096) k e = Done (inl (v' * 4096)) k e
    /\ v < v' /\ unmaps pgdir pts v v' k up l k up l.
Proof.
  intros A Hv Hlt Htop Ept. unfold KERNBASE in Htop. unfold deallocuvm_body.
  rewrite (proj2 (Z.ltb_lt _ _)) by done. pose proof (ao_vm _ _ _ _ _ A) as V.
  run (walkpgdir_absent pgdir k pts l (v * 4096) e V Ept). cbn [Z.eqb].
  assert (PDX (v * 4096) = v / 1024) as Ed by (rewrite PDX_eq by lia; div_lia).
  rewrite PGADDR_next by (rewrite Ed; div_lia). rewrite Ed.
  exists ((v / 1024 + 1) * 1024). split; [done|]. split; [div_lia|].
  apply unmaps_none; [done|]. intros w Hw. eapply no_table_no_page; [by apply V|apply A|div_lia|].
  rewrite <- Ept. f_equal. rewrite !PDX_eq by div_lia. div_lia.
Qed.

(** A round of [deallocuvm] where there is one goes on with the next page. *)
Lemma deallocuvm_page pgdir pts k up l v oldsz pt e :
  as_ok k pgdir pts up l -> 0 <= v -> v * 4096 < oldsz -> oldsz <= KERNBASE -> pts !! PDX (v * 4096) = Some pt ->
  exists k' up' l', deallocuvm_body pgdir oldsz (v * 4096) k e = Done (inl ((v + 1) * 4096)) k' e
    /\ unmaps pgdir pts v (v + 1) k up l k' up' l'.
Proof.
  intros A Hv Hlt Htop Ept. unfold KERNBASE in Htop. unfold deallocuvm_body.
  rewrite (proj2 (Z.ltb_lt _ _)) by done. pose proof (ao_vm _ _ _ _ _ A) as V.
  pose proof (vo_space _ _ _ _ V) as S. pose proof (ao_user _ _ _ _ _ A) as U.
  run (walkpgdir_found pgdir k pts l (v * 4096) pt 0 e V Ept).
  destruct (sp_pt _ _ _ S _ _ Ept) as (_ & (_ & _ & Hpt0 & _) & _). pose proof (PTX_range (v * 4096)) as Hx.
  rewrite (proj2 (Z.eqb_neq _ 0)) by lia. unfold kload32. c_simpl.
  assert (load32 (k_mem k) (pt + 4 * PTX (v * 4096)) = pte_of (k_mem k) pgdir (v * 4096)) as ->.
  { rewrite (pte_of_space _ _ pts) by done. by rewrite Ept. }
  assert (u32 (v * 4096 + PGSIZE) = (v + 1) * 4096) as -> by (unfold PGSIZE; rewrite u32_small; lia).
  assert (0 <= v < 2 ^ 19) as Hv' by lia.
  pose proof (present_user _ _ _ _ v U Hv') as Hpres. unfold present in Hpres. rewrite Hpres.
  pose proof (us_pte _ _ _ _ U v Hv') as Hpte. destruct (up !! v) as [[p f]|] eqn:Eu.
  - destruct (us_page _ _ _ _ U _ _ _ Eu) as (_ & Hp & Ht & Hf & HfP).
    rewrite bool_decide_true by done. cbn [when]. rewrite Hpte.
    destruct (page_V2P p Hp) as (_ & Hp0 & HT & Hd & HP).
    rewrite PTE_ADDR_add by (done || unfold PHYSTOP, PGSIZE in *; lia).
    rewrite (proj2 (Z.eqb_neq _ 0)) by (by apply V2P_not_null). rewrite HP, bind_assoc.
    run (kfree_done k p e Hp (vo_lock _ _ _ _ V)). unfold kmem. c_simpl.
    exists (free_page pt v p k), (delete v up), (p :: l). split; [done|]. by eapply unmaps_one.
  - rewrite bool_decide_false by (by intros []). cbn [when]. c_simpl.
    exists k, up, l. split; [done|]. apply unmaps_none; [done|]. intros w Hw. by replace w with v by lia.
Qed.

Lemma unmaps_cut pgdir pts lo mid hi k up l :
  hi <= mid -> unmaps pgdir pts lo mid k up l k up l -> unmaps pgdir pts lo hi k up l k up l.
Proof.
  intros Hm [A U F M P S]. apply unmaps_none; [done|]. intros w Hw. specialize (U w). by rewrite decide_True in U by lia.
Qed.

Lemma unmaps_empty pgdir pts a b c d k up l k' up' l' :
  b <= a -> d <= c -> unmaps pgdir pts a b k up l k' up' l' -> unmaps pgdir pts c d k up l k' up' l'.
Proof.
  intros Hab Hcd [A U F M P S]. split; [done| | | | |done].
  - intros w. rewrite U, !decide_False by lia. done.
  - intros p. rewrite F. split; (intros [?|(w & f & Hw & _)]; [by left|lia]).
  - intros x Hx Hn. by apply M.
  - intros y Hy _. apply P; [done|lia].
Qed.

(** The loop of [deallocuvm] gives back the pages up to [oldsz]. *)
Lemma deallocuvm_loop pgdir pts oldsz e : oldsz <= KERNBASE -> forall fuel v k up l,
  as_ok k pgdir pts up l -> 0 <= v -> (Z.to_nat ((oldsz + 4095) / 4096 - v) < fuel)%nat ->
  exists k' up' l', iter fuel (deallocuvm_body pgdir oldsz) (v * 4096) k e = Done tt k' e
    /\ unmaps pgdir pts v ((oldsz + 4095) / 4096) k up l k' up' l'.
Proof.
  intros Htop. induction fuel as [|fuel IH]; intros v k up l A Hv Hf; [lia|]. cbn [iter].
  destruct (Z.ltb_spec (v * 4096) oldsz) as [Hlt|Hge].
  2: { unfold deallocuvm_body at 1. rewrite (proj2 (Z.ltb_ge _ _)) by done. c_simpl.
    exists k, up, l. split; [done|]. apply unmaps_none; [done|]. intros w Hw. div_lia. }
  set (N := (oldsz + 4095) / 4096) in *. assert (v < N) by (unfold N; div_lia).
  destruct (pts !! PDX (v * 4096)) as [pt|] eqn:Ept.
  - destruct (deallocuvm_page pgdir pts k up l v oldsz pt e A Hv Hlt Htop Ept) as (k1 & up1 & l1 & E & U).
    run E. destruct (IH (v + 1) k1 up1 l1) as (k' & up' & l' & E' & U'); [apply U|lia|lia|].
    exists k', up', l'. split; [done|]. eapply unmaps_trans; [|done|done]. lia.
  - destruct (deallocuvm_skip pgdir pts k up l v oldsz e A Hv Hlt Htop Ept) as (v' & E & Hv' & U).
    run E. destruct (IH v' k up l) as (k' & up' & l' & E' & U'); [done|lia|lia|].
    exists k', up', l'. split; [done|]. destruct (decide (v' <= N)) as [Hle|Hgt].
    + eapply unmaps_trans; [|done|done]. lia.
    + eapply (unmaps_trans _ _ v N N); [lia|eapply unmaps_cut; [|exact U]; lia|].
      eapply unmaps_empty; [| |exact U']; lia.
Qed.

(** [deallocuvm] from [oldsz] down to [newsz]. *)
Lemma deallocuvm_unmaps pgdir pts k up l oldsz newsz e :
  as_ok k pgdir pts up l -> 0 <= newsz -> 0 <= oldsz <= KERNBASE ->
  exists k' up' l', deallocuvm pgdir oldsz newsz k e = Done (Z.min oldsz newsz) k' e
    /\ unmaps pgdir pts ((newsz + 4095) / 4096) ((oldsz + 4095) / 4096) k up l k' up' l'.
Proof.
  intros A Hn Ho. unfold deallocuvm. destruct (Z.leb_spec oldsz newsz) as [Hle|Hlt].
  - exists k, up, l. split; [unfold ret; f_equal; lia|]. apply unmaps_none; [done|]. intros w Hw. div_lia.
  - rewrite PGROUNDUP_eq by (unfold KERNBASE, PGSIZE in *; lia).
    destruct (deallocuvm_loop pgdir pts oldsz e (proj2 Ho) (S (S (Z.to_nat (oldsz / PGSIZE)))) ((newsz + 4095) / 4096) k up l A)
      as (k' & up' & l' & E & U); [div_lia|unfold PGSIZE; div_lia|].
    run E. exists k', up', l'. split; [unfold ret; f_equal; lia|done].
Qed.

(** ** Growing user memory *)

(** The user pages from [lo] up to [hi] are new, zeroed and writable; nothing
    else of the address space changed, and no page was lost. *)
Record extends (pgdir lo hi : Z) (k : kstate) (pts : gmap Z Z) (up : gmap Z (Z * Z)) (l : list Z)
    (k' : kstate) (pts' : gmap Z Z) (up' : gmap Z (Z * Z)) (l' : list Z) : Prop := {
  ex_ok : as_ok k' pgdir pts' up' l';
  ex_new : forall w, lo <= w < hi -> exists p,
    up' !! w = Some (p, 7) /\ p ∈ l /\ forall x, p <= x < p + PGSIZE -> load8 (k_mem k') x = 0;
  ex_old : forall w, ~ (lo <= w < hi) -> up' !! w = up !! w;
  ex_pte : forall b, 0 <= b < 2 ^ 32 -> ~ (lo <= b / 4096 < hi) -> pte_of (k_mem k') pgdir b = pte_of (k_mem k) pgdir b;
  ex_mem : forall x, ~ in_tables pgdir pts x -> ~ in_pages l x -> load8 (k_mem k') x = load8 (k_mem k) x;
  ex_sub : pts ⊆ pts';
  ex_free : forall p, p ∈ l <-> p ∈ l' \/ (table pgdir pts' p /\ ~ table pgdir pts p)
    \/ exists w, lo <= w < hi /\ up' !! w = Some (p, 7);
  ex_frame : vm_frame k k'
}.

Lemma extends_refl pgdir lo k pts up l : as_ok k pgdir pts up l -> extends pgdir lo lo k pts up l k pts up l.
Proof.
  intros A. split; [done|intros; lia|done|done|done|done| |apply vm_frame_refl].
  intros p. split; [by left|]. intros [?|[[??]|(w & Hw & _)]]; [done|done|lia].
Qed.

Lemma table_dec pgdir pts p : {table pgdir pts p} + {~ table pgdir pts p}.
Proof.
  destruct (decide (p = pgdir \/ p ∈ (map_to_list pts).*2)) as [H|H]; [left|right].
  - destruct H as [->|((d & q) & -> & E)%list_elem_of_fmap]; [by left|]. right. exists d. by apply elem_of_map_to_list.
  - intros [->|[d E]]; apply H; [by left|right]. apply list_elem_of_fmap. exists (d, p). split; [done|].
    by apply elem_of_map_to_list.
Qed.

Lemma table_sub pgdir pts pts' p : pts ⊆ pts' -> table pgdir pts p -> table pgdir pts' p.
Proof. intros Hs [->|[d E]]; [by left|right]. exists d. by eapply lookup_weaken. Qed.

(** An address of a page that is no table is not in the tables. *)
Lemma not_in_tables m pgdir pts p x :
  space m pgdir pts -> page_ok p -> ~ table pgdir pts p -> p <= x < p + PGSIZE -> ~ in_tables pgdir pts x.
Proof.
  intros S Hp Hn Hx (q & Hq & Hxq). apply Hn. rewrite (page_of p q x); try done. by eapply table_ok.
Qed.

(** The tables after growing. *)
Lemma extends_table pgdir lo hi k pts up l k' pts' up' l' p :
  extends pgdir lo hi k pts up l k' pts' up' l' -> table pgdir pts' p -> table pgdir pts p \/ p ∈ l.
Proof.
  intros X Ht. destruct (table_dec pgdir pts p) as [|Hn]; [by left|right].
  apply (ex_free _ _ _ _ _ _ _ _ _ _ _ X). right. by left.
Qed.

Section Step.
Context (pgdir lo v : Z) (k : kstate) (pts : gmap Z Z) (up : gmap Z (Z * Z)) (l : list Z).
Context (k1 : kstate) (pts1 : gmap Z Z) (up1 : gmap Z (Z * Z)) (p : Z) (l1 : list Z).
Context (k' : kstate) (pts' : gmap Z Z) (l' : list Z).
Hypothesis (X : extends pgdir lo v k pts up l k1 pts1 up1 (p :: l1)).
Local Abbreviation k2 := (fill_page p k1 (memset p 0 PGSIZE (k_mem k1))).
Hypothesis (G : grows pgdir k2 pts1 l1 k' pts' l').
Hypothesis (A' : as_ok k' pgdir pts' (<[v := (p, 7)]> up1) l').
Hypothesis (Hlo : lo <= v) (Hv : 0 <= v < 2 ^ 19) (Huv : up !! v = None).

Lemma load8_zeroed x : ~ (p <= x < p + PGSIZE) -> load8 (k_mem k2) x = load8 (k_mem k1) x.
Proof. intros Hx. simpl. rewrite load8_memset by (unfold PGSIZE; lia). by rewrite decide_False. Qed.

Lemma step_filled : as_ok k2 pgdir pts1 up1 l1 /\ (p ∉ l1) /\ page_ok p /\ ~ table pgdir pts1 p
  /\ (forall w f, up1 !! w <> Some (p, f)) /\ forall b, pte_of (k_mem k2) pgdir b = pte_of (k_mem k1) pgdir b.
Proof. apply fill_page_ok; [apply X|]. exact load8_zeroed. Qed.

Lemma step_new w : lo <= w < v + 1 -> exists q,
  <[v := (p, 7)]> up1 !! w = Some (q, 7) /\ q ∈ l /\ forall x, q <= x < q + PGSIZE -> load8 (k_mem k') x = 0.
Proof.
  intros Hw. destruct step_filled as (A2 & Hpl & Hp & Hnt & Hu & _).
  assert (forall q x, (exists w, <[v := (p, 7)]> up1 !! w = Some (q, 7)) -> q <= x < q + PGSIZE ->
    load8 (k_mem k') x = load8 (k_mem k2) x) as Hkeep.
  { intros q x (w' & E) Hx. apply (gr_mem _ _ _ _ _ _ _ G).
    destruct (us_page _ _ _ _ (ao_user _ _ _ _ _ A') _ _ _ E) as (_ & Hq & Hqt & _).
    eapply not_in_tables; [apply A'|done|done|done]. }
  destruct (decide (w = v)) as [->|Hne].
  - exists p. rewrite lookup_insert_eq. split; [done|]. split; [apply X; left; by left|].
    intros x Hx. rewrite (Hkeep p) by (done || exists v; apply lookup_insert_eq).
    simpl. rewrite load8_memset, decide_True by (done || unfold PGSIZE; lia). done.
  - destruct (ex_new _ _ _ _ _ _ _ _ _ _ _ X w) as (q & E & Hq & Hz); [lia|].
    exists q. rewrite lookup_insert_ne by done. split; [done|]. split; [done|]. intros x Hx.
    rewrite (Hkeep q) by (done || exists w; by rewrite lookup_insert_ne).
    rewrite load8_zeroed; [by apply Hz|]. intros Hx'. apply (Hu w 7).
    rewrite <- (page_of q p x); try done. by apply (us_page _ _ _ _ (ao_user _ _ _ _ _ (ex_ok _ _ _ _ _ _ _ _ _ _ _ X)) w q 7).
Qed.

Lemma step_mem x : ~ in_tables pgdir pts x -> ~ in_pages l x -> load8 (k_mem k') x = load8 (k_mem k) x.
Proof.
  intros Hx1 Hx2. rewrite (gr_mem _ _ _ _ _ _ _ G).
  - rewrite load8_zeroed; [by apply (ex_mem _ _ _ _ _ _ _ _ _ _ _ X)|].
    intros ?. apply Hx2. exists p. split; [apply X; left; by left|done].
  - intros (q & Hq & Hxq). assert (q ∈ l -> False) as Hql by (intros ?; apply Hx2; by exists q).
    apply (grows_table _ _ _ _ _ _ _ _ G) in Hq as [Hq|Hq].
    + destruct (extends_table _ _ _ _ _ _ _ _ _ _ _ q X Hq); [|done]. apply Hx1. by exists q.
    + apply Hql, X. left. by right.
Qed.

Lemma step_free q : q ∈ l <-> q ∈ l' \/ (table pgdir pts' q /\ ~ table pgdir pts q)
  \/ exists w, lo <= w < v + 1 /\ <[v := (p, 7)]> up1 !! w = Some (q, 7).
Proof.
  pose proof (ex_free _ _ _ _ _ _ _ _ _ _ _ X) as Hfree. destruct (gr_new _ _ _ _ _ _ _ G) as (new & El & Hnew).
  pose proof step_filled as (A2 & _). pose proof (vo_apart _ _ _ _ (ao_vm _ _ _ _ _ A2)) as Hap. split.
  - intros [Hq|[[Hq Hn]|(w & Hw & E)]]%Hfree.
    + apply elem_of_cons in Hq as [->|Hq]; [right; right; exists v; rewrite lookup_insert_eq; split; [lia|done]|].
      assert (~ table pgdir pts q) as Hn by (intros Ht; apply (Hap q); [by eapply table_sub; [apply X|]|done]).
      rewrite El, elem_of_app in Hq. destruct Hq as [Hq|]; [|by left].
      right. left. split; [|done]. right. apply Hnew in Hq as (d & E & _). by exists d.
    + right. left. split; [|done]. by eapply table_sub; [apply G|].
    + right. right. exists w. rewrite lookup_insert_ne by lia. split; [lia|done].
  - intros [Hq|[[Hq Hn]|(w & Hw & E)]]; apply Hfree.
    + left. right. rewrite El, elem_of_app. by right.
    + apply (grows_table _ _ _ _ _ _ _ _ G) in Hq as [Hq|Hq]; [right; by left|left; by right].
    + destruct (decide (w = v)) as [->|Hne].
      * rewrite lookup_insert_eq in E. simplify_eq. left. by left.
      * rewrite lookup_insert_ne in E by done. right. right. exists w. split; [lia|done].
Qed.

(** A fresh page of zeros is mapped at [v] after the pages before it. *)
Lemma extends_step :
  (forall b, 0 <= b < 2 ^ 32 -> b / 4096 <> v -> pte_of (k_mem k') pgdir b = pte_of (k_mem k2) pgdir b) ->
  extends pgdir lo (v + 1) k pts up l k' pts' (<[v := (p, 7)]> up1) l'.
Proof.
  intros Hpte. pose proof step_filled as (_ & _ & _ & _ & _ & Hpte2).
  split; [done|exact step_new| | |exact step_mem| |exact step_free|].
  - intros w Hw. rewrite lookup_insert_ne by lia. apply X. lia.
  - intros b Hb Hn. rewrite Hpte, Hpte2 by lia. apply X; [done|lia].
  - etrans; [apply X|apply G].
  - eapply vm_frame_trans; [apply X|]. destruct (gr_state _ _ _ _ _ _ _ G) as (m & h & ->).
    exists m, h, (k_out k1). by destruct k1.
Qed.

End Step.

(** Pages of the range that were added are taken back again. *)
Lemma extends_undo pgdir lo v hi k pts up l k1 pts1 up1 l1 k' up' l' :
  as_ok k pgdir pts up l -> extends pgdir lo v k pts up l k1 pts1 up1 l1 ->
  unmaps pgdir pts1 lo hi k1 up1 l1 k' up' l' -> 0 <= lo -> lo <= v <= hi -> hi <= 2 ^ 19 ->
  (forall w, lo <= w < hi -> up !! w = None) ->
  extends pgdir lo lo k pts up l k' pts1 up' l'.
Proof.
  intros A X U Hlo Hv Hhi Hnone.
  assert (forall w, up' !! w = up !! w) as Hup.
  { intros w. rewrite (un_up _ _ _ _ _ _ _ _ _ _ U). destruct (decide (lo <= w < hi)); [by rewrite Hnone|].
    apply X. lia. }
  split; [apply U|intros; lia|done| | |apply X| |eapply vm_frame_trans; [apply X|apply U]].
  - intros b Hb _. destruct (decide (lo <= b / 4096 < hi)) as [Hin|Hout].
    + assert (0 <= b / 4096 < 2 ^ 19) as Hr by lia.
      pose proof (us_pte _ _ _ _ (ao_user _ _ _ _ _ A) _ Hr) as E1. rewrite Hnone in E1 by done.
      pose proof (us_pte _ _ _ _ (ao_user _ _ _ _ _ (un_ok _ _ _ _ _ _ _ _ _ _ U)) _ Hr) as E2.
      rewrite Hup, Hnone in E2 by done.
      rewrite !(pte_of_page _ _ b (b / 4096 * 4096)) by (done || div_lia). congruence.
    + rewrite (un_pte _ _ _ _ _ _ _ _ _ _ U) by done. apply X; [done|lia].
  - intros x Hx1 Hx2. rewrite (un_mem _ _ _ _ _ _ _ _ _ _ U); [by apply X|..].
    + intros (q & Hq & Hxq). destruct (extends_table _ _ _ _ _ _ _ _ _ _ _ q X Hq); [apply Hx1|apply Hx2]; by exists q.
    + intros (q & Hq & Hxq). apply Hx2. exists q. split; [|done].
      apply (un_free _ _ _ _ _ _ _ _ _ _ U) in Hq as [Hq|(w & f & Hw & E)]; [apply X; by left|].
      destruct (decide (w < v)).
      * destruct (ex_new _ _ _ _ _ _ _ _ _ _ _ X w) as (p & E' & Hp & _); [lia|]. congruence.
      * rewrite (ex_old _ _ _ _ _ _ _ _ _ _ _ X), Hnone in E by lia. done.
  - intros q. rewrite (ex_free _ _ _ _ _ _ _ _ _ _ _ X q), (un_free _ _ _ _ _ _ _ _ _ _ U q). split.
    + intros [?|[?|(w & Hw & E)]]; [by left; left|by right; left|].
      left. right. exists w, 7. split; [lia|done].
    + intros [[?|(w & f & Hw & E)]|[?|(w & Hw & _)]]; [by left| |by right; left|lia].
      right. right. exists w. destruct (decide (w < v)).
      * split; [lia|]. destruct (ex_new _ _ _ _ _ _ _ _ _ _ _ X w) as (p & E' & Hp & _); [lia|]. congruence.
      * rewrite (ex_old _ _ _ _ _ _ _ _ _ _ _ X), Hnone in E by lia. done.
Qed.

(** A message on the console. *)
Definition cons_lock_ok (k : kstate) : Prop :=
  truth (k_locking k) = true -> exists c, settled k c /\ lock_free k L_cons.

Lemma cprintf_loop_plain fmt : forall k e, ch "%" ∉ fmt ->
  cprintf_loop fmt [] k e = Done tt (set_k_out (k_out k ++ fmt) k) e.
Proof.
  induction fmt as [|c fmt IH]; intros k e Hn; cbn [cprintf_loop].
  - rewrite app_nil_r. by destruct k.
  - apply not_elem_of_cons in Hn as [Hc Hn]. rewrite (proj2 (Z.eqb_neq c _)) by done. cbn [negb].
    unfold consputc. c_simpl. rewrite IH by done. simpl. by rewrite <- app_assoc.
Qed.

Lemma cprintf_plain fmt k e : cons_lock_ok k -> ch "%" ∉ chars fmt ->
  cprintf fmt [] k e = Done tt (set_k_out (k_out k ++ chars fmt) k) e.
Proof.
  intros Hk Hn. unfold cprintf. c_simpl. destruct (truth (k_locking k)) eqn:E; cbn [when].
  - destruct (Hk E) as (c & Hs & Hf). run (acquire_free k c L_cons e Hs Hf).
    run (cprintf_loop_plain (chars fmt) (locked c L_cons k) e Hn).
    rewrite <- (release_locked (set_k_out (k_out k ++ chars fmt) k) c L_cons e).
    + done.
    + destruct Hs. by split.
    + done.
  - c_simpl. by run (cprintf_loop_plain (chars fmt) k e Hn).
Qed.

Lemma as_ok_out o k pgdir pts up l : as_ok k pgdir pts up l -> as_ok (set_k_out o k) pgdir pts up l.
Proof.
  intros [[Hk [Hc Hn Hp] S Ha] U A]. split; [split; [|by split|done|done]|done|done].
  intros E. destruct (Hk E) as (c & [] & Hf). exists c. by split.
Qed.

Lemma cons_lock_ok_frame k k' : vm_frame k k' -> cons_lock_ok k -> cons_lock_ok k'.
Proof. intros (m & h & o & ->) Hk E. destruct (Hk E) as (c & [] & Hf). exists c. by split. Qed.

Lemma unmaps_out o pgdir pts lo hi k up l k' up' l' :
  unmaps pgdir pts lo hi (set_k_out o k) up l k' up' l' -> unmaps pgdir pts lo hi k up l k' up' l'.
Proof.
  intros [A U F M P S]. split; [done|done|done|done|done|].
  eapply vm_frame_trans; [|done]. exists (k_mem k), (k_freelist k), o. by destruct k.
Qed.

(** A page that was taken and not mapped is given back after the others. *)
Lemma unmaps_give_back o pgdir pts lo hi k up p l m k' up' l' :
  as_ok k pgdir pts up (p :: l) -> (forall x, ~ (p <= x < p + PGSIZE) -> load8 m x = load8 (k_mem k) x) ->
  unmaps pgdir pts lo hi (set_k_out o (fill_page p k m)) up l k' up' l' ->
  (forall e, kfree p k' e = Done tt (after_kfree p k') e)
  /\ unmaps pgdir pts lo hi k up (p :: l) (after_kfree p k') up' (p :: l').
Proof.
  intros A Hm [A' U F M P S]. destruct (fill_page_ok pgdir k pts up p l m A Hm) as (_ & Hpl & Hp & Hnt & Hu & Hpte).
  assert (p ∉ l') as Hpl' by (intros [?|(w & f & _ & E)]%F; [done|by apply (Hu w f)]).
  assert (forall w f, up' !! w <> Some (p, f)) as Hu'.
  { intros w f E. rewrite U in E. destruct (decide _); [done|]. by apply (Hu w f). }
  destruct (after_kfree_vm pgdir k' pts l' p (ao_vm _ _ _ _ _ A') Hp Hpl' Hnt) as [V2 Hpte2].
  split; [intros e; apply kfree_done; [done|apply A']|]. destruct A' as [V' [U1 U2 U3] Ap]. split; [split; [done|split|]| | | | |].
  - intros w Hw. rewrite Hpte2. by apply U1.
  - done.
  - done.
  - intros w q f E [->|Hin]%elem_of_cons; [by apply (Hu' w f)|by apply (Ap w q f)].
  - done.
  - intros q. rewrite !elem_of_cons, F. tauto.
  - intros x Hx Hn. etrans; [apply (load8_freed p)|].
    + intros ?. apply Hn. exists p. split; [by left|done].
    + rewrite M; [|done|]. 2: { intros (q & Hq & Hxq). apply Hn. exists q. split; [by right|done]. }
      simpl. apply Hm. intros ?. apply Hn. exists p. split; [by left|done].
  - intros b Hb Hn. rewrite Hpte2, P by done. apply Hpte.
  - eapply vm_frame_trans; [|eapply vm_frame_trans; [exact S|apply (vm_frame_set k')]].
    exists m, (load32 (k_mem k) p), o. by destruct k.
Qed.

(** ** [allocuvm] *)

Section Allocuvm.
Context (pgdir oldsz newsz : Z) (k : kstate) (pts : gmap Z Z) (up : gmap Z (Z * Z)) (l : list Z) (e : environment kstate).
Local Abbreviation lo := ((oldsz + 4095) / 4096).
Local Abbreviation hi := ((newsz + 4095) / 4096).
Hypothesis (A : as_ok k pgdir pts up l) (C : cons_lock_ok k).
Hypothesis (Hsz : 0 <= oldsz <= newsz) (Htop : newsz < KERNBASE).
Hypothesis (Hnone : forall w, lo <= w < hi -> up !! w = None).

(** What the failure paths do: the message, then [deallocuvm]. *)
Lemma allocuvm_undo k1 pts1 up1 l1 msg {B} (rest : K B) :
  as_ok k1 pgdir pts1 up1 l1 -> cons_lock_ok k1 -> ch "%" ∉ chars msg ->
  exists k' up' l', (cprintf msg [];; deallocuvm pgdir newsz oldsz;; rest) k1 e = rest k' e
    /\ unmaps pgdir pts1 lo hi (set_k_out (k_out k1 ++ chars msg) k1) up1 l1 k' up' l'.
Proof.
  intros A1 C1 Hm. run (cprintf_plain msg k1 e C1 Hm).
  destruct (deallocuvm_unmaps pgdir pts1 (set_k_out (k_out k1 ++ chars msg) k1) up1 l1 newsz oldsz e)
    as (k' & up' & l' & E & U); [by apply as_ok_out|lia|lia|].
  run E. by exists k', up', l'.
Qed.

Lemma allocuvm_round v k1 pts1 up1 l1 :
  extends pgdir lo v k pts up l k1 pts1 up1 l1 -> lo <= v < hi ->
  (exists k' pts' up' l', allocuvm_body pgdir oldsz newsz (v * 4096) k1 e = Done (inl ((v + 1) * 4096)) k' e
     /\ extends pgdir lo (v + 1) k pts up l k' pts' up' l' /\ (length l1 <= 2 + length l')%nat)
  \/ (exists k' up' l', allocuvm_body pgdir oldsz newsz (v * 4096) k1 e = Done (inr 0) k' e
     /\ extends pgdir lo lo k pts up l k' pts1 up' l' /\ (length l1 <= 1)%nat).
Proof.
  intros X Hv. pose proof (ex_ok _ _ _ _ _ _ _ _ _ _ _ X) as A1. pose proof (ao_vm _ _ _ _ _ A1) as V1.
  assert (cons_lock_ok k1) as C1 by (eapply cons_lock_ok_frame; [apply X|done]).
  assert (0 <= lo) as Hlo by div_lia. assert (hi <= 2 ^ 19) as Hhi by (unfold KERNBASE in *; div_lia).
  unfold allocuvm_body. rewrite (proj2 (Z.ltb_lt _ _)) by div_lia.
  destruct l1 as [|p l1].
  { right. run (kalloc_empty k1 e (vo_free _ _ _ _ V1) (vo_lock _ _ _ _ V1)). cbn [Z.eqb].
    destruct (allocuvm_undo k1 pts1 up1 [] ("allocuvm out of memory" ++ newline)%string (ret (inr (A := Z) 0)) A1 C1)
      as (k' & up' & l' & E & U); [by apply (bool_decide_unpack _)|].
    exists k', up', l'. split; [exact E|]. split; [|simpl; lia].
    eapply extends_undo; [done|done|by eapply unmaps_out|done|lia|done|done]. }
  run (kalloc_done k1 p l1 e (vo_free _ _ _ _ V1) (vo_lock _ _ _ _ V1)).
  pose proof (fl_pages _ _ (vo_free _ _ _ _ V1)) as (_ & _ & Hp0 & _)%Forall_inv.
  rewrite (proj2 (Z.eqb_neq p 0)) by lia. unfold kmem. c_simpl.
  change (set_k_mem (memset p 0 PGSIZE (k_mem (set_k_freelist (load32 (k_mem k1) p) k1))) (set_k_freelist (load32 (k_mem k1) p) k1))
    with (fill_page p k1 (memset p 0 PGSIZE (k_mem k1))).
  assert (up1 !! v = None) as Hu by (rewrite (ex_old _ _ _ _ _ _ _ _ _ _ _ X), Hnone by lia; done).
  destruct (fill_page_ok pgdir k1 pts1 up1 p l1 _ A1 (load8_zeroed k1 p)) as (A2 & Hpl & Hp & Hnt & Hup & _).
  set (k2 := fill_page p k1 (memset p 0 PGSIZE (k_mem k1))) in *.
  destruct (map_user_page pgdir k2 pts1 up1 l1 v p (Z.lor PTE_W PTE_U) e A2 Hp Hpl Hnt Hup)
    as [(k' & pts' & l' & E & G & A' & Hnt' & Hlen & Hpte)|[-> E]]; [lia|done|done| |].
  - left. run E. cbn [Z.ltb Z.compare]. exists k', pts', (<[v := (p, 7)]> up1), l'. split.
    { unfold ret. do 2 f_equal. unfold PGSIZE. rewrite u32_small by (unfold KERNBASE in *; div_lia). lia. }
    split; [|simpl; lia]. eapply extends_step; [exact X|exact G|exact A'|lia|exact Hpte].
  - right. run E. cbn [Z.ltb Z.compare].
    assert (cons_lock_ok k2) as C2 by (eapply cons_lock_ok_frame; [apply (vm_frame_set k1)|done]).
    destruct (allocuvm_undo k2 pts1 up1 [] ("allocuvm out of memory (2)" ++ newline)%string (kfree p;; ret (inr (A := Z) 0)) A2 C2)
      as (k' & up' & l' & E' & U); [by apply (bool_decide_unpack _)|].
    destruct (unmaps_give_back _ pgdir pts1 lo hi k1 up1 p [] _ k' up' l' A1 (load8_zeroed k1 p) U) as [Ef U'].
    exists (after_kfree p k'), up', (p :: l'). split; [etrans; [exact E'|]; by run (Ef e)|].
    split; [|simpl; lia]. eapply extends_undo; [done|done|done|done|lia|done|done].
Qed.

Lemma allocuvm_loop : forall fuel v k1 pts1 up1 l1,
  extends pgdir lo v k pts up l k1 pts1 up1 l1 -> lo <= v <= hi -> (Z.to_nat (hi - v) < fuel)%nat ->
  Z.of_nat (length l) <= Z.of_nat (length l1) + 2 * (v - lo) ->
  exists r k' pts' up' l', iter fuel (allocuvm_body pgdir oldsz newsz) (v * 4096) k1 e = Done r k' e
    /\ (r = newsz /\ extends pgdir lo hi k pts up l k' pts' up' l'
        \/ r = 0 /\ extends pgdir lo lo k pts up l k' pts' up' l' /\ Z.of_nat (length l) < 2 * (hi - lo)).
Proof.
  induction fuel as [|fuel IH]; intros v k1 pts1 up1 l1 X Hv Hf Hlen; [lia|]. cbn [iter].
  destruct (decide (v < hi)) as [Hlt|Hge].
  - destruct (allocuvm_round v k1 pts1 up1 l1 X) as [(k2 & pts2 & up2 & l2 & E & X2 & Hl2)|(k' & up' & l' & E & X' & Hl)]; [lia| |].
    + run E. apply (IH (v + 1) k2 pts2 up2 l2); [done|lia|lia|lia].
    + run E. exists 0, k', pts1, up', l'. split; [done|]. right. split; [done|]. split; [done|lia].
  - unfold allocuvm_body at 1. rewrite (proj2 (Z.ltb_ge _ _)) by div_lia. c_simpl.
    exists newsz, k1, pts1, up1, l1. split; [done|]. left. split; [done|]. by replace hi with v by lia.
Qed.

End Allocuvm.

(** [allocuvm] between two sizes, as a whole. *)
Lemma allocuvm_run k pgdir pts up l oldsz newsz e :
  as_ok k pgdir pts up l -> cons_lock_ok k -> 0 <= oldsz <= newsz -> newsz < KERNBASE ->
  let lo := (oldsz + 4095) / 4096 in let hi := (newsz + 4095) / 4096 in
  (forall w, lo <= w < hi -> up !! w = None) ->
  exists r k' pts' up' l', allocuvm pgdir oldsz newsz k e = Done r k' e
    /\ (r = newsz /\ extends pgdir lo hi k pts up l k' pts' up' l'
        \/ r = 0 /\ extends pgdir lo lo k pts up l k' pts' up' l' /\ Z.of_nat (length l) < 2 * (hi - lo)).
Proof.
  intros A C H Ht lo hi Hnone. unfold allocuvm. rewrite (proj2 (Z.leb_gt _ _)), (proj2 (Z.ltb_ge _ _)) by lia.
  rewrite PGROUNDUP_eq by (unfold KERNBASE, PGSIZE in *; lia).
  apply (allocuvm_loop pgdir oldsz newsz k pts up l e A C ltac:(lia) ltac:(lia) Hnone _ lo k pts up l);
    [by apply extends_refl|unfold lo, hi; div_lia|unfold lo, hi, PGSIZE; div_lia|lia].
Qed.

(** C23: [allocuvm] grows an address space or leaves it alone.  For sizes below
    [KERNBASE], with no page mapped between them, [allocuvm] comes to an end.
    Either it returns [newsz], and each page of the added range is mapped for the
    user to a page of its own that was free before and is filled with zeros.
    Or it returns 0, no user page is mapped that was not before, and there
    were fewer than two free pages for each page asked for.  In both cases all other
    entries and all memory outside the page table and the pages that were free
    are unchanged, and every page that was free is free, a page table or one of the new
    user pages: none is lost or used twice.  A size of [KERNBASE] or more is
    refused, and nothing is done to shrink. *)
Theorem allocuvm_grows (k : kstate) (pgdir : Z) (pts : gmap Z Z) (up : gmap Z (Z * Z)) (l : list Z) (oldsz newsz : Z)
    (e : environment kstate) :
  as_ok k pgdir pts up l -> cons_lock_ok k -> 0 <= oldsz ->
  let lo := (oldsz + 4095) / 4096 in let hi := (newsz + 4095) / 4096 in
  (forall w, lo <= w < hi -> up !! w = None) ->
  (KERNBASE <= newsz -> allocuvm pgdir oldsz newsz k e = Done 0 k e)
  /\ (newsz < oldsz -> newsz < KERNBASE -> allocuvm pgdir oldsz newsz k e = Done oldsz k e)
  /\ (oldsz <= newsz < KERNBASE ->
      exists r k' pts' up' l', allocuvm pgdir oldsz newsz k e = Done r k' e
        /\ (r = newsz /\ extends pgdir lo hi k pts up l k' pts' up' l'
            \/ r = 0 /\ extends pgdir lo lo k pts up l k' pts' up' l' /\ Z.of_nat (length l) < 2 * (hi - lo))).
Proof.
  intros A C H0 lo hi Hnone. split; [|split].
  - intros H. unfold allocuvm. by rewrite (proj2 (Z.leb_le _ _)).
  - intros H1 H2. unfold allocuvm. by rewrite (proj2 (Z.leb_gt _ _)), (proj2 (Z.ltb_lt _ _)).
  - intros H. apply allocuvm_run; [done|done|lia|lia|done].
Qed.

(** Memory given back is as before.  After [allocuvm] has added pages,
    [deallocuvm] back to the old size comes to an end; the user pages are those of
    before, and every page that was free before is free again or is a page table
    that stays for later use. *)
Theorem deallocuvm_restores (k : kstate) (pgdir : Z) (pts : gmap Z Z) (up : gmap Z (Z * Z)) (l : list Z) (oldsz newsz : Z)
    (k1 : kstate) (e e1 : environment kstate) :
  as_ok k pgdir pts up l -> cons_lock_ok k -> 0 <= oldsz <= newsz -> newsz < KERNBASE -> newsz <> 0 ->
  (forall w, (oldsz + 4095) / 4096 <= w < (newsz + 4095) / 4096 -> up !! w = None) ->
  allocuvm pgdir oldsz newsz k e = Done newsz k1 e1 ->
  exists k' pts' l', deallocuvm pgdir newsz oldsz k1 e1 = Done oldsz k' e1
    /\ extends pgdir ((oldsz + 4095) / 4096) ((oldsz + 4095) / 4096) k pts up l k' pts' up l'.
Proof.
  intros A C H0 Ht Hnz Hnone Hrun.
  destruct (allocuvm_run k pgdir pts up l oldsz newsz e A C H0 Ht Hnone) as (r & k2 & pts2 & up2 & l2 & E & Hr).
  rewrite E in Hrun. simplify_eq. destruct Hr as [[_ X]|[-> _]]; [|lia].
  destruct (deallocuvm_unmaps pgdir pts2 k1 up2 l2 newsz oldsz e1) as (k' & up' & l' & E' & U); [apply X|lia|lia|].
  exists k', pts2, l'. split; [rewrite E'; f_equal; lia|].
  assert (extends pgdir ((oldsz + 4095) / 4096) ((oldsz + 4095) / 4096) k pts up l k' pts2 up' l') as X'.
  { eapply extends_undo; [done|done|done|div_lia|div_lia|unfold KERNBASE in *; div_lia|done]. }
  replace up with up' at 2; [done|]. apply map_eq. intros w. apply (ex_old _ _ _ _ _ _ _ _ _ _ _ X'). lia.
Qed.

End Space.

(** ** An example: an empty address space and two free pages *)

#[local] Existing Instance kernel_sym.

Definition page3 : Z := 0x8011a000.

Lemma page_ok_3 : @page_ok kernel_sym page3.
Proof. split; [by exists 0x8011a|]. unfold page3, PGSIZE, KERNBASE, PHYSTOP. simpl. lia. Qed.

Lemma example_zero x : page3 <= x < page3 + PGSIZE -> load8 (k_mem two_pages) x = 0.
Proof.
  unfold page3, PGSIZE. intros Hx.
  etrans; [apply (load8_freed page2)|]; [unfold page2, PGSIZE; lia|].
  etrans; [apply (load8_freed page1)|]; [unfold page1, PGSIZE; lia|]. done.
Qed.

Lemma example_as_ok : @as_ok kernel_sym two_pages page3 ∅ ∅ [page2; page1].
Proof.
  assert (space (k_mem two_pages) page3 ∅) as S.
  { split; [apply page_ok_3| |by intros ? ? ?|by intros ? ? ? ?]. intros d Hd. rewrite lookup_empty.
    unfold load32, load_bytes. cbn [seq fmap list_fmap].
    rewrite !example_zero by (unfold PGSIZE; lia). done. }
  split; [split| |].
  - intros E. by vm_compute in E.
  - apply two_pages_free.
  - done.
  - intros p [->|[d Hd]]; [|done]. by apply (bool_decide_unpack _).
  - split; [|by intros ? ? ? ?|by intros ? ? ? ? ? ?]. intros v Hv. rewrite lookup_empty.
    rewrite (pte_of_space _ _ ∅) by done. by rewrite lookup_empty.
  - by intros ? ? ? ?.
Qed.

Lemma mappages_maps_witness : exists r k' pts' l' j,
  mappages page3 0 4096 0x2000 PTE_W two_pages [] = Done r k' []
  /\ grows page3 two_pages ∅ [page2; page1] k' pts' l'
  /\ mapped (k_mem two_pages) (k_mem k') page3 0 0x2000 PTE_W j /\ (r = 0 /\ j = 1%nat \/ r = -1 /\ l' = [] /\ (j <= 0)%nat).
Proof.
  pose proof example_as_ok as A.
  destruct (@mappages_maps kernel_sym kernel_sym_ok two_pages page3 ∅ [page2; page1] 0 4096 0x2000 PTE_W [])
    as [H _]; [apply A|lia|lia|lia|lia|].
  apply H. intros b Hb. unfold present. rewrite (pte_of_space _ _ ∅) by apply A. by rewrite lookup_empty.
Defined.

Lemma allocuvm_grows_witness : exists k' pts' up' l',
  allocuvm page3 0 4096 two_pages [] = Done 4096 k' []
  /\ extends page3 0 1 two_pages ∅ ∅ [page2; page1] k' pts' up' l'.
Proof.
  destruct (@allocuvm_grows kernel_sym kernel_sym_ok two_pages page3 ∅ ∅ [page2; page1] 0 4096 [] example_as_ok)
    as (_ & _ & H); [intros E; by vm_compute in E|lia|done|].
  destruct H as (r & k' & pts' & up' & l' & E & [[-> X]|(_ & _ & Hl)]); [unfold KERNBASE; lia| |by vm_compute in Hl].
  exists k', pts', up', l'. split; [exact E|exact X].
Defined.

Lemma deallocuvm_restores_witness : exists k1 k' pts' l',
  allocuvm page3 0 4096 two_pages [] = Done 4096 k1 []
  /\ deallocuvm page3 4096 0 k1 [] = Done 0 k' []
  /\ extends page3 0 0 two_pages ∅ ∅ [page2; page1] k' pts' ∅ l'.
Proof.
  assert (exists k1, allocuvm page3 0 4096 two_pages [] = Done 4096 k1 []) as [k1 E].
  { destruct (allocuvm_run two_pages page3 ∅ ∅ [page2; page1] 0 4096 [] example_as_ok) as (r & k1 & pts1 & up1 & l1 & E & Hr);
      [intros E; by vm_compute in E|lia|unfold KERNBASE; lia|done|].
    exists k1. destruct Hr as [[-> _]|(_ & _ & Hl)]; [exact E|exfalso; by vm_compute in Hl]. }
  destruct (@deallocuvm_restores kernel_sym kernel_sym_ok two_pages page3 ∅ ∅ [page2; page1] 0 4096 k1 [] [] example_as_ok)
    as (k' & pts' & l' & E' & X); [intros H; by vm_compute in H|lia|unfold KERNBASE; lia|lia|done|exact E|].
  exists k1, k', pts', l'. split; [exact E|split; [exact E'|exact X]].
Defined.
