(* ===== verification/Crt.v ===== *)
(** * The console devices: [cgaputc], [consputc] and [panic] of console.c on the ports

    The model of the console prints to the list [k_out].  Here [consputc] drives the serial port and the display adapter:
    the cursor is in two registers of its controller, the cells are 16-bit words of its memory.  The
    adapter then shows what the abstract screen of Console.v shows for the characters that were printed. *)

From stdpp Require Import base gmap list strings.
From Stdlib Require Import ZArith Lia.
From S2P Require Import Prelude State Memory CString Spinlock Sched Console ConsoleSpec Devices Vm VmSpec.

Definition CRTPORT : Z := 0x3d4.
Definition crt : Z := P2V 0xb8000.

Section Crt.
Context {HW : Hardware}.

(** [crt[pos] = v] *)
Definition crt_store (pos v : Z) : K unit := kmem (store_bytes (crt + 2 * pos) (le_bytes 2 v)).

Definition cgaputc (c : Z) : K unit :=
  outb CRTPORT 14;;
  hi <- inb (CRTPORT + 1);;
  outb CRTPORT 15;;
  lo <- inb (CRTPORT + 1);;
  let pos := Z.lor (Z.shiftl hi 8) lo in
  pos <- (if c =? NL then ret (pos + (80 - pos mod 80))
          else if c =? BACKSPACE then ret (if 0 <? pos then pos - 1 else pos)
          else crt_store pos (Z.lor (Z.land c 0xff) 0x0700);; ret (pos + 1));;
  if (pos <? 0) || (25 * 80 <? pos) then panic "pos under/overflow" else
  pos <- (if 24 <=? pos / 80 then
            kmem (memmove crt (crt + 2 * 80) (2 * 23 * 80));;
            kmem (memset (crt + 2 * (pos - 80)) 0 (2 * (24 * 80 - (pos - 80))));;
            ret (pos - 80)
          else ret pos);;
  outb CRTPORT 14;;
  outb (CRTPORT + 1) (Z.shiftr pos 8);;
  outb CRTPORT 15;;
  outb (CRTPORT + 1) pos;;
  crt_store pos (Z.lor (ch " ") 0x0700).

(** [panicked] is the variable of that name; when it is set the processor stops here. *)
Definition consputc (panicked c : Z) : K unit :=
  if truth panicked then cli;; (fun k _ => Stuck k) else
  (if c =? BACKSPACE then uartputc 8;; uartputc (ch " ");; uartputc 8 else uartputc c);;
  cgaputc c.

(** [panic(s)]; [arg] is the address of [s] on the stack.  Setting [panicked] and the endless loop are the outcome [Panic] of the monad. *)
Definition panic_report (arg : Z) (s : string) : K unit :=
  cli;;
  modify (set_k_locking 0);;
  id <- lapicid;;
  cprintf "lapicid %d: panic: " [FInt id];;
  cprintf s [];;
  cprintf newline [];;
  pcs <- gets (fun k => getcallerpcs (k_mem k) arg);;
  for_each (fun pc => cprintf " %p" [FInt pc]) pcs;;
  panic s.

End Crt.

(** ** The display controller

    The selected register and the contents of the registers, from the accesses to the two ports. *)
Fixpoint crt_regs (io : list io_event) : Z * gmap Z Z :=
  match io with
  | [] => (0, ∅)
  | Port_out port v :: io =>
      let '(i, r) := crt_regs io in
      if port =? CRTPORT then (v, r) else if port =? CRTPORT + 1 then (i, <[i := u8 v]> r) else (i, r)
  | _ :: io => crt_regs io
  end.

(** The data port reads the selected register of the cursor. *)
Class CrtAdapter {HW : Hardware} : Prop :=
  crt_in : forall io, let '(i, r) := crt_regs io in i = 14 \/ i = 15 -> u8 (hw_in io (CRTPORT + 1)) = default 0 (r !! i).

Definition cursor_reg (io : list io_event) (i : Z) : Z := default 0 (snd (crt_regs io) !! i).

(** A cell of the screen, and all of them. *)
Definition cell_at (m : gmap Z Z) (i : Z) : Z := load8 m (crt + 2 * i) + 256 * load8 m (crt + 2 * i + 1).
Definition screen (m : gmap Z Z) : list Z := (fun i => cell_at m (Z.of_nat i)) <$> seq 0 2000.

(** The adapter shows the abstract screen [s]. *)
Record shows (k : kstate) (s : cga) : Prop := {
  sh_regs : is_byte (cursor_reg (h_io (k_hw k)) 14) /\ is_byte (cursor_reg (h_io (k_hw k)) 15);
  sh_cursor : 256 * cursor_reg (h_io (k_hw k)) 14 + cursor_reg (h_io (k_hw k)) 15 = cga_pos s;
  sh_screen : screen (k_mem k) = cga_crt s;
  sh_bytes : forall x, crt <= x < crt + 4000 -> is_byte (load8 (k_mem k) x)
}.

(** What was sent to the serial line, latest first. *)
Definition serial (io : list io_event) : list Z :=
  omap (fun ev => match ev with Port_out port v => if port =? COM1 then Some v else None | _ => None end) io.
Definition serial_chars (c : Z) : list Z := if c =? BACKSPACE then [8; ch " "; 8] else [u8 c].

(** Only the accesses to devices and the memory of the adapter change. *)
Definition crt_frame (k k' : kstate) : Prop :=
  exists m io, k' = set_k_mem m (upd_hw (set_h_io io) k) /\ forall x, ~ (crt <= x < crt + 4000) -> load8 m x = load8 (k_mem k) x.

(** ** The memory of the adapter *)

Lemma length_screen m : length (screen m) = 2000%nat.
Proof. unfold screen. by rewrite length_fmap, length_seq. Qed.

Lemma lookup_screen m i : (i < 2000)%nat -> screen m !! i = Some (cell_at m (Z.of_nat i)).
Proof. intros Hi. unfold screen. rewrite list_lookup_fmap. by rewrite (proj2 (lookup_seq 0 2000 i i)) by (split; [done|lia]). Qed.

Lemma screen_eq m l : length l = 2000%nat -> (forall i, (i < 2000)%nat -> l !! i = Some (cell_at m (Z.of_nat i))) -> screen m = l.
Proof.
  intros Hl H. apply list_eq. intros i. destruct (decide (i < 2000)%nat) as [Hi|Hi]; [by rewrite lookup_screen, H|].
  by rewrite !lookup_ge_None_2 by (rewrite ?length_screen; lia).
Qed.

Lemma screen_store m pos v : 0 <= pos < 2000 -> 0 <= v < 2 ^ 16 -> screen (store_bytes (crt + 2 * pos) (le_bytes 2 v) m) = crt_put pos v (screen m).
Proof.
  intros Hp Hv. apply screen_eq; [unfold crt_put; by rewrite length_insert, length_screen|]. intros i Hi. unfold crt_put, cell_at.
  rewrite !load8_store_bytes, length_le_bytes. destruct (decide (Z.to_nat pos = i)) as [<-|Hne].
  - rewrite list_lookup_insert_eq by (rewrite length_screen; lia). rewrite Z2Nat.id, !decide_True by lia.
    replace (Z.to_nat (crt + 2 * pos - (crt + 2 * pos))) with 0%nat by lia. replace (Z.to_nat (crt + 2 * pos + 1 - (crt + 2 * pos))) with 1%nat by lia.
    cbn [le_bytes lookup list_lookup default from_option]. unfold u8, id. change (2 ^ 16) with 65536 in Hv. change (2 ^ 8) with 256. f_equal. div_lia.
  - rewrite list_lookup_insert_ne by done. rewrite lookup_screen, !decide_False by lia. done.
Qed.

Lemma bytes_store m pos v x : is_byte (load8 m x) -> is_byte (load8 (store_bytes (crt + 2 * pos) (le_bytes 2 v) m) x).
Proof. intros H. rewrite load8_store_bytes. destruct (decide _); [|done]. pose proof (u8_bounds (default 0 (le_bytes 2 v !! Z.to_nat (x - (crt + 2 * pos))))). unfold is_byte. lia. Qed.

Definition scrolled (pos : Z) (m : gmap Z Z) : gmap Z Z :=
  memset (crt + 2 * pos) 0 (2 * (24 * 80 - pos)) (memmove crt (crt + 2 * 80) (2 * 23 * 80) m).

Lemma load8_scrolled pos m x : 0 <= pos <= 24 * 80 -> load8 (scrolled pos m) x =
  if decide (crt + 2 * pos <= x < crt + 2 * (24 * 80)) then 0 else if decide (crt <= x < crt + 2 * 23 * 80) then u8 (load8 m (x + 160)) else load8 m x.
Proof.
  intros Hp. unfold scrolled. rewrite load8_memset by lia. destruct (decide (crt + 2 * pos <= x < crt + 2 * pos + 2 * (24 * 80 - pos))) as [H|H].
  - by rewrite decide_True by lia.
  - rewrite decide_False by lia. rewrite load8_memmove by lia. replace (crt + 2 * 80 + (x - crt)) with (x + 160) by lia. destruct (decide (crt <= x < crt + 2 * 23 * 80)), (decide (crt <= x < crt + 2 * 23 * 80)); done || lia.
Qed.

Lemma screen_scroll pos m : 0 <= pos <= 23 * 80 -> (forall x, crt <= x < crt + 4000 -> is_byte (load8 m x)) -> screen (scrolled pos m) = scroll pos (screen m).
Proof.
  intros Hp Hb. apply screen_eq; [apply length_scroll; [lia|apply length_screen]|]. intros i Hi. unfold scroll, cell_at. rewrite !load8_scrolled by lia.
  destruct (decide (i < Z.to_nat pos)%nat) as [H1|H1]; [|destruct (decide (i < 24 * 80)%nat) as [H2|H2]].
  - rewrite lookup_app_l by (rewrite length_take, length_app, length_take, length_drop, length_drop, length_screen; lia). rewrite lookup_take_lt by lia.
    rewrite lookup_app_l by (rewrite length_take, length_drop, length_screen; lia). rewrite lookup_take_lt, lookup_drop, lookup_screen by lia.
    rewrite !(decide_False (P := crt + 2 * pos <= _ < _)), !(decide_True (P := crt <= _ < _)) by lia. unfold cell_at, u8.
    replace (crt + 2 * Z.of_nat i + 160) with (crt + 2 * Z.of_nat (80 + i)) by lia. replace (crt + 2 * Z.of_nat i + 1 + 160) with (crt + 2 * Z.of_nat (80 + i) + 1) by lia.
    pose proof (Hb (crt + 2 * Z.of_nat (80 + i))). pose proof (Hb (crt + 2 * Z.of_nat (80 + i) + 1)). unfold is_byte in *. rewrite !Z.mod_small by lia. done.
  - rewrite lookup_app_r by (rewrite length_take, length_app, length_take, length_drop, length_drop, length_screen; lia).
    rewrite length_take, length_app, length_take, length_drop, length_drop, length_screen.
    rewrite lookup_app_l by (rewrite length_replicate; lia). rewrite lookup_replicate_2 by lia. rewrite !(decide_True (P := crt + 2 * pos <= _ < _)) by lia. done.
  - rewrite app_assoc, lookup_app_r by (rewrite length_app, length_take, length_app, length_take, length_drop, length_drop, length_screen, length_replicate; lia).
    rewrite length_app, length_take, length_app, length_take, length_drop, length_drop, length_screen, length_replicate, lookup_drop.
    rewrite lookup_app_r by (rewrite length_take, length_drop, length_screen; lia). rewrite length_take, length_drop, length_screen, lookup_drop, lookup_screen by lia.
    rewrite !(decide_False (P := crt + 2 * pos <= _ < _)), !(decide_False (P := crt <= _ < _)) by lia. unfold cell_at. f_equal. f_equal; f_equal; [|f_equal]; f_equal; lia.
Qed.

(** ** The routines on the devices *)

Definition add_io (evs : list io_event) (k : kstate) : kstate := upd_hw (fun h => set_h_io (evs ++ h_io h) h) k.

Lemma cursor_word hi lo : is_byte hi -> is_byte lo -> Z.lor (Z.shiftl hi 8) lo = 256 * hi + lo.
Proof.
  unfold is_byte. intros Hh Hl. rewrite Z.shiftl_mul_pow2 by lia. change (2 ^ 8) with 256. rewrite (Z.mul_comm hi).
  rewrite <- Z.lxor_lor, <- Z.add_nocarry_lxor; [done| |].
  all: apply Z.bits_inj'; intros n Hn; rewrite Z.land_spec, Z.bits_0; apply andb_false_iff; destruct (Z.lt_ge_cases n 8) as [H|H].
  1, 3: left; rewrite Z.mul_comm; change 256 with (2 ^ 8); by apply Z.mul_pow2_bits_low.
  all: right; destruct (Z.eq_dec lo 0) as [->|Hz]; [apply Z.bits_0|]; apply Z.bits_above_log2; [lia|]; apply (Z.lt_le_trans _ 8); [apply Z.log2_lt_pow2; lia|done].
Qed.

Section Devices.
Context {HW : Hardware} {CRT : CrtAdapter}.

(** Reading and writing a register of the cursor. *)
Lemma crt_read i k e : i = 14 \/ i = 15 -> exists v evs, v = cursor_reg (h_io (k_hw k)) i
  /\ (forall A (f : Z -> K A), (outb CRTPORT i;; x <- inb (CRTPORT + 1);; f x) k e = f v (add_io evs k) e)
  /\ (forall j, cursor_reg (evs ++ h_io (k_hw k)) j = cursor_reg (h_io (k_hw k)) j) /\ serial (evs ++ h_io (k_hw k)) = serial (h_io (k_hw k)).
Proof.
  intros Hi. set (io := h_io (k_hw k)). pose proof (crt_in (Port_out CRTPORT (u8 i) :: io)) as H. cbn [crt_regs] in H. rewrite Z.eqb_refl in H.
  assert (Eu : u8 i = i) by (destruct Hi as [-> | ->]; reflexivity). destruct (crt_regs io) as [i0 r] eqn:E. rewrite Eu in H. specialize (H Hi).
  exists (default 0 (r !! i)), [Port_in (CRTPORT + 1) (default 0 (r !! i)); Port_out CRTPORT i]. unfold cursor_reg. rewrite E. split; [done|]. split; [|split; [|done]].
  - intros A f. unfold outb, log_io. rewrite bind_modify. unfold inb. rewrite !bind_assoc, bind_gets. cbv zeta. unfold log_io. rewrite bind_assoc, bind_modify, bind_ret.
    change (h_io (k_hw (upd_hw ?f k))) with (Port_out CRTPORT (u8 i) :: io). rewrite Eu, H. done.
  - intros j. cbn [app crt_regs]. rewrite Z.eqb_refl, E. done.
Qed.

Lemma crt_write pos k e : exists evs,
  (forall A (m : K A), (outb CRTPORT 14;; outb (CRTPORT + 1) (Z.shiftr pos 8);; outb CRTPORT 15;; outb (CRTPORT + 1) pos;; m) k e = m (add_io evs k) e)
  /\ cursor_reg (evs ++ h_io (k_hw k)) 14 = u8 (Z.shiftr pos 8) /\ cursor_reg (evs ++ h_io (k_hw k)) 15 = u8 pos /\ serial (evs ++ h_io (k_hw k)) = serial (h_io (k_hw k)).
Proof.
  set (io := h_io (k_hw k)). exists [Port_out (CRTPORT + 1) (u8 pos); Port_out CRTPORT (u8 15); Port_out (CRTPORT + 1) (u8 (Z.shiftr pos 8)); Port_out CRTPORT (u8 14)]. split.
  - intros A m. unfold outb, log_io. rewrite !bind_modify. done.
  - unfold cursor_reg. cbn [app crt_regs]. change (CRTPORT + 1 =? CRTPORT) with false. rewrite !Z.eqb_refl. destruct (crt_regs io) as [i r]. cbn [snd].
    change (u8 15) with 15. change (u8 14) with 14. split; [|split; [|done]].
    + rewrite lookup_insert_ne, lookup_insert_eq by done. apply Zmod_mod.
    + rewrite lookup_insert_eq. apply Zmod_mod.
Qed.

(** The state after [cgaputc] has moved the cursor to [pos], with the cells in [m]. *)
Lemma cga_tail pos m k e : 0 <= pos < 24 * 80 -> screen (k_mem k) = m -> (forall x, crt <= x < crt + 4000 -> is_byte (load8 (k_mem k) x)) ->
  exists k', (outb CRTPORT 14;; outb (CRTPORT + 1) (Z.shiftr pos 8);; outb CRTPORT 15;; outb (CRTPORT + 1) pos;; crt_store pos (Z.lor (ch " ") 0x0700)) k e = Done tt k' e
    /\ shows k' (mk_cga pos (crt_put pos blank m)) /\ serial (h_io (k_hw k')) = serial (h_io (k_hw k)) /\ crt_frame k k'.
Proof.
  intros Hp <- Hb. destruct (crt_write pos k e) as (evs & E & R14 & R15 & S). rewrite E. unfold crt_store, kmem, modify. eexists. split; [reflexivity|].
  assert (Hs : Z.shiftr pos 8 = pos / 256) by (rewrite Z.shiftr_div_pow2; [done|lia]).
  assert (H14 : u8 (Z.shiftr pos 8) = pos / 256) by (rewrite Hs; apply Z.mod_small; change (2 ^ 8) with 256; div_lia).
  split; [split|split; [exact S|]].
  - change (h_io (k_hw _)) with (evs ++ h_io (k_hw k)). rewrite R14, R15. pose proof (u8_bounds (Z.shiftr pos 8)). pose proof (u8_bounds pos). unfold is_byte. lia.
  - change (h_io (k_hw _)) with (evs ++ h_io (k_hw k)). rewrite R14, R15, H14. cbn [cga_pos]. unfold u8. change (2 ^ 8) with 256. div_lia.
  - cbn [k_mem set_k_mem cga_crt]. apply (screen_store (k_mem k)); [lia|by vm_compute].
  - intros x Hx. cbn [k_mem set_k_mem]. apply bytes_store. by apply Hb.
  - eexists _, _. split; [reflexivity|]. intros x Hx. apply load8_store_bytes_out. rewrite length_le_bytes. lia.
Qed.

Lemma crt_frame_refl k : crt_frame k k.
Proof. exists (k_mem k), (h_io (k_hw k)). split; [|done]. destruct k as [? ? ? ? ? ? ? ? ? ? ? ? ? ? ? ? ? ? ? ? ? ? ? ? ? ? ? ? h]. by destruct h. Qed.

Lemma crt_frame_trans k1 k2 k3 : crt_frame k1 k2 -> crt_frame k2 k3 -> crt_frame k1 k3.
Proof.
  intros (m & io & -> & H) (m' & io' & -> & H'). exists m', io'. split; [done|]. intros x Hx. rewrite H' by done. by apply H.
Qed.

Lemma crt_frame_io evs k : crt_frame k (add_io evs k).
Proof. exists (k_mem k), (evs ++ h_io (k_hw k)). split; [by destruct k|done]. Qed.

(** The part of [cgaputc] after the character has been put, from the new position. *)
Lemma cga_middle pos m k e : 0 <= pos <= 24 * 80 -> screen (k_mem k) = m -> (forall x, crt <= x < crt + 4000 -> is_byte (load8 (k_mem k) x)) ->
  exists k', (if (pos <? 0) || (25 * 80 <? pos) then panic "pos under/overflow" else
    pos <- (if 24 <=? pos / 80 then
            kmem (memmove crt (crt + 2 * 80) (2 * 23 * 80));;
            kmem (memset (crt + 2 * (pos - 80)) 0 (2 * (24 * 80 - (pos - 80))));;
            ret (pos - 80)
          else ret pos);;
    outb CRTPORT 14;; outb (CRTPORT + 1) (Z.shiftr pos 8);; outb CRTPORT 15;; outb (CRTPORT + 1) pos;; crt_store pos (Z.lor (ch " ") 0x0700)) k e = Done tt k' e
    /\ shows k' (cga_settle pos m) /\ serial (h_io (k_hw k')) = serial (h_io (k_hw k)) /\ crt_frame k k'.
Proof.
  intros Hp Hm Hb. rewrite (proj2 (Z.ltb_ge pos 0)), (proj2 (Z.ltb_ge (25 * 80) pos)) by lia. cbn [orb]. unfold cga_settle. destruct (Z.leb_spec 24 (pos / 80)) as [H|H].
  - rewrite bind_assoc. unfold kmem. rewrite bind_modify, bind_assoc, bind_modify, bind_ret. set (k1 := set_k_mem _ (set_k_mem _ k)).
    assert (Ep : pos = 24 * 80) by div_lia. assert (Em : k_mem k1 = scrolled (pos - 80) (k_mem k)) by done.
    destruct (cga_tail (pos - 80) (scroll (pos - 80) m) k1 e) as (k' & E & Sh & Sr & F).
    + lia.
    + rewrite Em, <- Hm. apply screen_scroll; [lia|done].
    + intros x Hx. rewrite Em, load8_scrolled by lia. destruct (decide (_ <= _ < crt + 2 * (24 * 80))); [unfold is_byte; lia|]. destruct (decide (crt <= x < _)); [|by apply Hb].
      pose proof (u8_bounds (load8 (k_mem k) (x + 160))) as H8. change (2 ^ 8) with 256 in H8. exact H8.
    + exists k'. split; [exact E|]. split; [exact Sh|]. split; [exact Sr|]. eapply crt_frame_trans; [|exact F]. exists (k_mem k1), (h_io (k_hw k)). split.
      * unfold k1. destruct k as [? ? ? ? ? ? ? ? ? ? ? ? ? ? ? ? ? ? ? ? ? ? ? ? ? ? ? ? h]. by destruct h.
      * intros x Hx. rewrite Em, load8_scrolled by lia. rewrite !decide_False by lia. done.
  - rewrite bind_ret. assert (0 <= pos < 24 * 80) by div_lia. by apply cga_tail.
Qed.

(** The same part of the abstract screen. *)
Lemma abstract_middle pos m : 0 <= pos <= 24 * 80 ->
  (if (pos <? 0) || (25 * 80 <? pos) then None else
   let '(pos, m) := if 24 <=? pos / 80 then (pos - 80, scroll (pos - 80) m) else (pos, m) in Some (mk_cga pos (crt_put pos blank m))) = Some (cga_settle pos m).
Proof.
  intros Hp. rewrite (proj2 (Z.ltb_ge pos 0)), (proj2 (Z.ltb_ge (25 * 80) pos)) by lia. unfold cga_settle. by destruct (24 <=? pos / 80).
Qed.

Lemma cgaputc_run c s k e : shows k s -> cga_ok s ->
  exists k' s', cgaputc c k e = Done tt k' e /\ Console.cgaputc c s = Some s' /\ shows k' s' /\ cga_ok s' /\ serial (h_io (k_hw k')) = serial (h_io (k_hw k)) /\ crt_frame k k'.
Proof.
  intros [[B1 B2] Hc Hm Hb] Hok. unfold cgaputc.
  destruct (crt_read 14 k e) as (hi & ev1 & Eh & R1 & C1 & S1); [by left|]. rewrite R1. set (k1 := add_io ev1 k).
  destruct (crt_read 15 k1 e) as (lo & ev2 & El & R2 & C2 & S2); [by right|]. rewrite R2. set (k2 := add_io ev2 k1). change (h_io (k_hw k1)) with (ev1 ++ h_io (k_hw k)) in *.
  rewrite C1 in El. cbv zeta. rewrite Eh, El, cursor_word, Hc by done. assert (F2 : crt_frame k k2) by (eapply crt_frame_trans; apply crt_frame_io).
  assert (Sr2 : serial (h_io (k_hw k2)) = serial (h_io (k_hw k))) by (change (h_io (k_hw k2)) with (ev2 ++ ev1 ++ h_io (k_hw k)); congruence).
  destruct Hok as [Hp Hl]. unfold Console.cgaputc. assert (Fin : forall pos m k3, 0 <= pos <= 24 * 80 -> length m = 2000%nat -> screen (k_mem k3) = m -> (forall x, crt <= x < crt + 4000 -> is_byte (load8 (k_mem k3) x)) ->
    crt_frame k k3 -> serial (h_io (k_hw k3)) = serial (h_io (k_hw k)) -> exists k' s', (if (pos <? 0) || (25 * 80 <? pos) then panic "pos under/overflow" else
      pos <- (if 24 <=? pos / 80 then kmem (memmove crt (crt + 2 * 80) (2 * 23 * 80));; kmem (memset (crt + 2 * (pos - 80)) 0 (2 * (24 * 80 - (pos - 80))));; ret (pos - 80) else ret pos);;
      outb CRTPORT 14;; outb (CRTPORT + 1) (Z.shiftr pos 8);; outb CRTPORT 15;; outb (CRTPORT + 1) pos;; crt_store pos (Z.lor (ch " ") 0x0700)) k3 e = Done tt k' e
      /\ Some (cga_settle pos m) = Some s' /\ shows k' s' /\ cga_ok s' /\ serial (h_io (k_hw k')) = serial (h_io (k_hw k)) /\ crt_frame k k').
  { intros pos m k3 Hpos Hlm Hm3 Hb3 F3 Sr3. destruct (cga_middle pos m k3 e Hpos Hm3 Hb3) as (k' & E & Sh & Sr & F). exists k', (cga_settle pos m). split; [exact E|].
    split; [done|]. split; [done|]. split; [by apply cga_settle_ok|]. split; [congruence|]. by eapply crt_frame_trans. }
  destruct (c =? NL); [|destruct (c =? BACKSPACE)].
  - rewrite bind_ret, abstract_middle by div_lia. apply Fin; [div_lia|done|done|done|done|done].
  - rewrite bind_ret. assert (0 <= (if 0 <? cga_pos s then cga_pos s - 1 else cga_pos s) <= 24 * 80) by (destruct (Z.ltb_spec 0 (cga_pos s)); lia).
    rewrite abstract_middle by done. by apply Fin.
  - rewrite bind_assoc. unfold crt_store at 1, kmem at 1. rewrite bind_modify, bind_ret, abstract_middle by lia.
    assert (Hv : 0 <= Z.lor (Z.land c 0xff) 0x0700 < 2 ^ 16).
    { assert (0 <= Z.land c 0xff < 256) by (change 0xff with (Z.ones 8); rewrite Z.land_ones by lia; by apply Z.mod_pos_bound). split; [apply Z.lor_nonneg; lia|].
      apply Z.log2_lt_cancel. rewrite Z.log2_lor by lia. apply Z.max_lub_lt; [|by vm_compute]. change (Z.log2 (2 ^ 16)) with 16.
      apply (Z.le_lt_trans _ (Z.log2 255)); [apply Z.log2_le_mono; lia|by vm_compute]. }
    apply Fin; [lia|unfold crt_put; by rewrite length_insert| | | |done].
    + rewrite <- Hm. apply (screen_store (k_mem k)); [lia|exact Hv].
    + intros x Hx. apply bytes_store. by apply Hb.
    + eapply crt_frame_trans; [exact F2|]. exists (store_bytes (crt + 2 * cga_pos s) (le_bytes 2 (Z.lor (Z.land c 0xff) 0x0700)) (k_mem k2)), (h_io (k_hw k2)).
      split; [|intros x Hx; apply load8_store_bytes_out; rewrite length_le_bytes; lia].
      destruct k as [? ? ? ? ? ? ? ? ? ? ? ? ? ? ? ? ? ? ? ? ? ? ? ? ? ? ? ? h]. by destruct h.
Qed.

(** The serial line does not move the cursor. *)
Definition silent (evs : list io_event) : Prop := Forall (fun ev => match ev with Port_in _ _ => True | _ => False end) evs.

Lemma silent_regs evs io : silent evs -> crt_regs (evs ++ io) = crt_regs io /\ serial (evs ++ io) = serial io.
Proof. intros H. induction H as [|ev evs Hev _ [IH1 IH2]]; [done|]. destruct ev; try done. Qed.

Lemma add_io_app evs evs' k : add_io evs' (add_io evs k) = add_io (evs' ++ evs) k.
Proof. unfold add_io, upd_hw. destruct k as [? ? ? ? ? ? ? ? ? ? ? ? ? ? ? ? ? ? ? ? ? ? ? ? ? ? ? ? h]. destruct h. simpl. by rewrite app_assoc. Qed.

Lemma add_io_nil k : add_io [] k = k.
Proof. unfold add_io, upd_hw. destruct k as [? ? ? ? ? ? ? ? ? ? ? ? ? ? ? ? ? ? ? ? ? ? ? ? ? ? ? ? h]. by destruct h. Qed.

Lemma uart_wait_run n e : forall k, exists evs, uart_wait n k e = Done tt (add_io evs k) e /\ silent evs.
Proof.
  induction n as [|n IH]; intros k; cbn [uart_wait]; [exists []; rewrite add_io_nil; by split; [|constructor]|].
  unfold inb. rewrite bind_assoc, bind_gets. cbv zeta. unfold log_io. rewrite bind_assoc, bind_modify, bind_ret.
  set (ev := Port_in (COM1 + 5) (u8 (hw_in (h_io (k_hw k)) (COM1 + 5)))). change (upd_hw _ k) with (add_io [ev] k). destruct (truth _).
  - exists [ev]. split; [done|]. by constructor; [|constructor].
  - unfold microdelay. rewrite bind_ret. destruct (IH (add_io [ev] k)) as (evs & E & H). exists (evs ++ [ev]). rewrite E, add_io_app. split; [done|]. apply Forall_app. by split; [|constructor; [|constructor]].
Qed.

Lemma uartputc_run c k e : exists evs, uartputc c k e = Done tt (add_io evs k) e /\ crt_regs (evs ++ h_io (k_hw k)) = crt_regs (h_io (k_hw k))
  /\ serial (evs ++ h_io (k_hw k)) = (if truth (uart (k_hw k)) then [u8 c] else []) ++ serial (h_io (k_hw k)).
Proof.
  unfold uartputc. rewrite bind_gets. destruct (truth (uart (k_hw k))) eqn:Eu; cbn [negb]; [|exists []; rewrite add_io_nil; done].
  destruct (uart_wait_run 128 e k) as (evs & E & H). run E. destruct (silent_regs evs (h_io (k_hw k)) H) as [H1 H2].
  exists (Port_out (COM1 + 0) (u8 c) :: evs). split; [unfold outb, log_io, modify; f_equal; apply (add_io_app evs [Port_out (COM1 + 0) (u8 c)])|].
  cbn [app crt_regs]. change (COM1 + 0 =? CRTPORT) with false. change (COM1 + 0 =? CRTPORT + 1) with false. rewrite H1. split; [destruct (crt_regs (h_io (k_hw k))); reflexivity|].
  change (serial (Port_out (COM1 + 0) (u8 c) :: evs ++ h_io (k_hw k))) with (u8 c :: serial (evs ++ h_io (k_hw k))). by rewrite H2.
Qed.

Lemma shows_io evs k s : shows k s -> crt_regs (evs ++ h_io (k_hw k)) = crt_regs (h_io (k_hw k)) -> shows (add_io evs k) s.
Proof. intros [H1 H2 H3 H4] E. unfold cursor_reg in *. split; unfold cursor_reg; change (h_io (k_hw (add_io evs k))) with (evs ++ h_io (k_hw k)); rewrite ?E; done. Qed.

Lemma uartputs_run cs e : forall k s, shows k s -> exists k', for_each uartputc cs k e = Done tt k' e /\ shows k' s /\ crt_frame k k' /\ uart (k_hw k') = uart (k_hw k)
  /\ serial (h_io (k_hw k')) = (if truth (uart (k_hw k)) then rev (u8 <$> cs) else []) ++ serial (h_io (k_hw k)).
Proof.
  induction cs as [|c cs IH]; intros k s Sh; cbn [for_each].
  - exists k. split; [done|]. split; [done|]. split; [apply crt_frame_refl|]. split; [done|]. by destruct (truth _).
  - destruct (uartputc_run c k e) as (evs & E & R & S). run E. destruct (IH (add_io evs k) s (shows_io evs k s Sh R)) as (k' & E' & Sh' & F & U & S').
    exists k'. split; [exact E'|]. split; [done|]. split; [eapply crt_frame_trans; [apply crt_frame_io|exact F]|]. split; [exact U|]. rewrite S'.
    change (uart (k_hw (add_io evs k))) with (uart (k_hw k)). change (h_io (k_hw (add_io evs k))) with (evs ++ h_io (k_hw k)). rewrite S. destruct (truth _); [|done].
    simpl. by rewrite <- app_assoc.
Qed.

Lemma consputc_run c s k e : shows k s -> cga_ok s ->
  exists k' s', consputc 0 c k e = Done tt k' e /\ Console.cgaputc c s = Some s' /\ shows k' s' /\ cga_ok s' /\ crt_frame k k' /\ uart (k_hw k') = uart (k_hw k)
    /\ serial (h_io (k_hw k')) = (if truth (uart (k_hw k)) then rev (serial_chars c) else []) ++ serial (h_io (k_hw k)).
Proof.
  intros Sh Hok. unfold consputc. change (truth 0) with false. cbv iota.
  destruct (uartputs_run (if c =? BACKSPACE then [8; ch " "; 8] else [c]) e k s Sh) as (k1 & E1 & Sh1 & F1 & U1 & S1).
  assert (E : (if c =? BACKSPACE then uartputc 8;; uartputc (ch " ");; uartputc 8 else uartputc c) k e = Done tt k1 e).
  { destruct (c =? BACKSPACE); rewrite <- E1; cbn [for_each]; symmetry.
    - destruct (uartputc_run 8 k e) as (v1 & H1 & _). run H1. run H1. destruct (uartputc_run (ch " ") (add_io v1 k) e) as (v2 & H2 & _). run H2. run H2.
      destruct (uartputc_run 8 (add_io v2 (add_io v1 k)) e) as (v3 & H3 & _). run H3. by rewrite H3.
    - destruct (uartputc_run c k e) as (v1 & H1 & _). run H1. by rewrite H1. }
  run E. destruct (cgaputc_run c s k1 e Sh1 Hok) as (k2 & s' & E2 & Es & Sh2 & Hok2 & S2 & F2). exists k2, s'. split; [exact E2|]. split; [done|]. split; [done|]. split; [done|].
  split; [by eapply crt_frame_trans|]. split; [destruct F2 as (? & ? & -> & _); exact U1|]. rewrite S2, S1. unfold serial_chars. by destruct (c =? BACKSPACE).
Qed.

(** C19: the devices show what is printed.  When the display adapter shows the screen [s], with the cursor on its first 24 rows, then [consputc], called for each of the characters [cs], comes to an
    end without a panic.  The adapter then shows the screen that the abstract [cgaputc] reaches for these characters, the serial line, if there is one, has got exactly them, in order, with
    backspace as three characters, and no other memory is touched. *)
Theorem console_shows (cs : list Z) (s : cga) (k : kstate) (e : environment kstate) :
  shows k s -> cga_ok s ->
  exists k' s', for_each (consputc 0) cs k e = Done tt k' e /\ cga_puts cs (Some s) = Some s' /\ cga_ok s' /\ shows k' s' /\ crt_frame k k'
    /\ serial (h_io (k_hw k')) = (if truth (uart (k_hw k)) then rev (cs ≫= serial_chars) else []) ++ serial (h_io (k_hw k)).
Proof.
  revert s k. induction cs as [|c cs IH]; intros s k Sh Hok; cbn [for_each].
  - exists k, s. split; [done|]. split; [done|]. split; [done|]. split; [done|]. split; [apply crt_frame_refl|]. by destruct (truth _).
  - destruct (consputc_run c s k e Sh Hok) as (k1 & s1 & E1 & Es & Sh1 & Hok1 & F1 & U1 & S1). run E1.
    destruct (IH s1 k1 Sh1 Hok1) as (k' & s' & E & Ep & Hok' & Sh' & F & S). exists k', s'. split; [exact E|].
    split; [unfold cga_puts in *; cbn [fold_left mbind option_bind]; by rewrite Es|]. split; [done|]. split; [done|]. split; [by eapply crt_frame_trans|].
    rewrite S, S1, U1. destruct (truth _); [|done]. cbn [mbind list_bind]. by rewrite rev_app_distr, app_assoc.
Qed.

(** ** [panic] *)

Lemma put_all_run l e : forall k, put_all l k e = Done tt (set_k_out (k_out k ++ l) k) e.
Proof.
  unfold put_all. induction l as [|c l IH]; intros k; cbn [for_each]; [rewrite app_nil_r; by destruct k|].
  unfold Console.consputc at 1. rewrite bind_modify, IH. simpl. by rewrite <- app_assoc.
Qed.

(** A conversion of a number after the plain characters [l]. *)
Lemma cprintf_loop_number l c base sign fmt z e : ch "%" ∉ l -> (c, base, sign) = (ch "d", 10, 1) \/ (c, base, sign) = (ch "p", 16, 0) -> forall k,
  cprintf_loop (l ++ ch "%" :: c :: fmt) [FInt z] k e = cprintf_loop fmt [] (set_k_out (k_out k ++ l ++ printint_chars (s32 z) base sign) k) e.
Proof.
  intros Hl Hc. induction l as [|x l IH]; intros k; cbn [app cprintf_loop].
  - rewrite Z.eqb_refl. cbn [negb List.hd List.tl farg_int]. unfold printint. cbv zeta. destruct Hc as [[= -> -> ->]|[= -> -> ->]].
    + change (ch "d" =? ch "d") with true. cbv iota. by run (put_all_run (printint_chars (s32 z) 10 1) e k).
    + change (ch "p" =? ch "d") with false. change ((ch "p" =? ch "x") || (ch "p" =? ch "p")) with true. cbv iota. by run (put_all_run (printint_chars (s32 z) 16 0) e k).
  - apply not_elem_of_cons in Hl as [Hx Hl]. rewrite (proj2 (Z.eqb_neq x _)) by done. cbn [negb]. unfold Console.consputc. rewrite bind_modify, IH by done. cbn [k_out set_k_out].
    by rewrite <- app_assoc.
Qed.

Lemma cprintf_unlocked fmt args k k' e : k_locking k = 0 -> cprintf_loop (chars fmt) args k e = Done tt k' e -> cprintf fmt args k e = Done tt k' e.
Proof. intros Hk E. unfold cprintf. rewrite bind_gets, Hk. change (truth 0) with false. cbn [when]. rewrite bind_ret. by run E. Qed.

Lemma print_pcs pcs e : forall k, k_locking k = 0 ->
  for_each (fun pc => cprintf " %p" [FInt pc]) pcs k e = Done tt (set_k_out (k_out k ++ (pcs ≫= fun pc => chars " " ++ printint_chars (s32 pc) 16 0)) k) e.
Proof.
  induction pcs as [|pc pcs IH]; intros k Hk; cbn [for_each]; [rewrite app_nil_r; by destruct k|].
  set (k1 := set_k_out (k_out k ++ chars " " ++ printint_chars (s32 pc) 16 0) k).
  assert (E : cprintf " %p" [FInt pc] k e = Done tt k1 e).
  { apply cprintf_unlocked; [done|]. apply (cprintf_loop_number (chars " ") (ch "p") 16 0 []); [by vm_compute; intros ?%list_elem_of_singleton|by right]. }
  run E. rewrite IH by done. cbn [mbind list_bind]. unfold k1. cbn [k_out set_k_out]. by rewrite <- !app_assoc.
Qed.

Lemma lapicid_run k e : exists id evs, lapicid k e = Done id (add_io evs k) e.
Proof.
  unfold lapicid. rewrite bind_gets. destruct (lapic (k_hw k) =? 0); [exists 0, []; by rewrite add_io_nil|].
  unfold lapicr, mmio_read. rewrite bind_assoc, bind_gets. eexists _, [_]. reflexivity.
Qed.

(** [panic] needs no lock: whoever holds the lock of the console, the message and the return addresses are printed, interrupts are off and no lock is taken or released. *)
Theorem panic_reports (arg : Z) (s : string) (k : kstate) (e : environment kstate) :
  ch "%" ∉ chars s ->
  exists k' id, panic_report arg s k e = Panic s k' /\ k_if k' = false /\ k_locks k' = k_locks k
    /\ k_out k' = k_out k ++ chars "lapicid " ++ printint_chars (s32 id) 10 1 ++ chars ": panic: " ++ chars s ++ [NL]
                   ++ (getcallerpcs (k_mem k) arg ≫= fun pc => chars " " ++ printint_chars (s32 pc) 16 0).
Proof.
  intros Hs. unfold panic_report, cli. rewrite !bind_modify. set (k0 := set_k_locking 0 (set_k_if false k)).
  destruct (lapicid_run k0 e) as (id & evs & Hid). run Hid. set (k1 := add_io evs k0).
  set (k2 := set_k_out (k_out k1 ++ chars "lapicid " ++ printint_chars (s32 id) 10 1) k1).
  assert (E1 : cprintf "lapicid %d: panic: " [FInt id] k1 e = Done tt (set_k_out (k_out k2 ++ chars ": panic: ") k2) e).
  { apply cprintf_unlocked; [done|]. change (chars "lapicid %d: panic: ") with (chars "lapicid " ++ ch "%" :: ch "d" :: chars ": panic: ").
    rewrite (cprintf_loop_number (chars "lapicid ") (ch "d") 10 1) by (by left || by apply (bool_decide_eq_true_1 (ch "%" ∉ chars "lapicid "))).
    apply cprintf_loop_plain. by apply (bool_decide_eq_true_1 (ch "%" ∉ chars ": panic: ")). }
  run E1. set (k3 := set_k_out _ k2). assert (E2 : cprintf s [] k3 e = Done tt (set_k_out (k_out k3 ++ chars s) k3) e) by (apply cprintf_unlocked; [done|by apply cprintf_loop_plain]).
  run E2. set (k4 := set_k_out _ k3). assert (E3 : cprintf newline [] k4 e = Done tt (set_k_out (k_out k4 ++ [NL]) k4) e).
  { apply cprintf_unlocked; [done|]. apply (cprintf_loop_plain (chars newline)). by apply (bool_decide_eq_true_1 (ch "%" ∉ chars newline)). }
  run E3. set (k5 := set_k_out _ k4). rewrite bind_gets. run (print_pcs (getcallerpcs (k_mem k5) arg) e k5 eq_refl). eexists _, id. split; [reflexivity|].
  split; [done|]. split; [done|]. cbn [k_out set_k_out]. unfold k5, k4, k3, k2. cbn [k_out set_k_out]. change (k_out k1) with (k_out k). rewrite <- !app_assoc. done.
Qed.

End Devices.

(** ** An example: an adapter that stores its registers *)

#[local] Instance crt_hw : Hardware := {|
  hw_in := fun io _ => let '(i, r) := crt_regs io in default 0 (r !! i); hw_ins := fun _ _ _ => []; hw_read := fun _ _ => 0; hw_patience := 0 |}.

Lemma crt_regs_byte io i : is_byte (default 0 (snd (crt_regs io) !! i)).
Proof.
  induction io as [|[port v|port v| | | | ] io IH]; cbn [crt_regs]; try exact IH; [done|]. destruct (crt_regs io) as [j r]. cbn [snd] in IH.
  destruct (port =? CRTPORT); [done|]. destruct (port =? CRTPORT + 1); [|done]. cbn [snd]. destruct (decide (j = i)) as [->|Hne].
  - rewrite lookup_insert_eq. apply u8_bounds.
  - by rewrite lookup_insert_ne.
Qed.

#[local] Instance crt_hw_adapter : @CrtAdapter crt_hw.
Proof.
  intros io. pose proof (crt_regs_byte io) as H. unfold hw_in, crt_hw. destruct (crt_regs io) as [i r]. intros _. apply Z.mod_small. apply (H i).
Qed.

(** A cursor at the end of the last row: the second character scrolls the screen. *)
Definition crt_start : kstate :=
  upd_hw (fun h => set_uart 1 (set_h_io [Port_out 0x3d5 0x7f; Port_out 0x3d4 15; Port_out 0x3d5 0x07; Port_out 0x3d4 14] h)) (boot_state [] ∅ 0).

Lemma console_shows_witness : exists k' s', for_each (consputc 0) (chars "ok") crt_start [] = Done tt k' []
  /\ cga_puts (chars "ok") (Some (mk_cga 1919 (replicate 2000 0))) = Some s' /\ cga_pos s' = 1841 /\ shows k' s' /\ serial (h_io (k_hw k')) = rev (chars "ok").
Proof.
  destruct (console_shows (chars "ok") (mk_cga 1919 (replicate 2000 0)) crt_start []) as (k' & s' & E & Ep & Hok & Sh & _ & Sr).
  - split; [split; by vm_compute|reflexivity| |].
    + apply screen_eq; [apply (length_replicate 2000 0)|]. intros i Hi. cbn [cga_crt]. rewrite lookup_replicate_2 by done. change (k_mem crt_start) with (∅ : gmap Z Z). unfold cell_at, load8. by rewrite !lookup_empty.
    + intros x _. change (k_mem crt_start) with (∅ : gmap Z Z). unfold load8. by rewrite lookup_empty.
  - split; [split; by vm_compute|apply (length_replicate 2000 0)].
  - exists k', s'. split; [exact E|]. split; [exact Ep|]. split; [|split; [exact Sh|exact Sr]].
    assert (Hp : cga_pos <$> cga_puts (chars "ok") (Some (mk_cga 1919 (replicate 2000 0))) = Some 1841) by (vm_compute; reflexivity).
    rewrite Ep in Hp. by injection Hp.
Defined.
