(* ===== verification/VmCopy.v ===== *)
(** * Whole address spaces: [setupkvm], [freevm] and [copyuvm] of vm.c

    [freevm] gives back every page of an address space, [setupkvm] makes one with
    the kernel's mappings, and [copyuvm], with which [fork] makes the memory of the
    child, copies every user page. *)

From stdpp Require Import base gmap list strings.
From Stdlib Require Import ZArith Lia.
From S2P Require Import Prelude State Memory CString Spinlock Kalloc Console Vm VmSpec.

Section Copy.
Context {L : Linker} {LO : @LinkerOk L}.

(** ** Freeing an address space *)

(** [kfree] of pages one after the other: the free list [l'] has the pages of [l]
    and those of [P]. *)
Record freed_pages (P : Z -> Prop) (k : kstate) (l : list Z) (k' : kstate) (l' : list Z) : Prop := {
  fp_lock : kmem_lock_ok k';
  fp_free : freelist k' l';
  fp_pages : forall p, p ∈ l' <-> p ∈ l \/ P p;
  fp_mem : forall x, ~ in_pages l' x -> load8 (k_mem k') x = load8 (k_mem k) x;
  fp_frame : vm_frame k k'
}.

Lemma freed_pages_none P k l : kmem_lock_ok k -> freelist k l -> (forall p, ~ P p) -> freed_pages P k l k l.
Proof.
  intros Hk Hf HP. split; [done|done| |done|apply vm_frame_refl]. intros p. split; [by left|].
  intros [?|?]; [done|]. by destruct (HP p).
Qed.

Lemma freed_pages_ext P Q k l k' l' :
  (forall p, P p <-> Q p) -> freed_pages P k l k' l' -> freed_pages Q k l k' l'.
Proof.
  intros H [A B C D E]. split; [done|done| |done|done]. intros p. by rewrite C, H.
Qed.

(** One more page. *)
Lemma freed_pages_kfree P k l k1 l1 p e :
  freed_pages P k l k1 l1 -> page_ok p -> (p ∉ l) -> ~ P p ->
  kfree p k1 e = Done tt (after_kfree p k1) e
  /\ freed_pages (fun q => P q \/ q = p) k l (after_kfree p k1) (p :: l1).
Proof.
  intros [A B C D E] Hp Hl HP. assert (p ∉ l1) as Hl1 by (rewrite C; tauto).
  split; [by apply kfree_done|]. split.
  - by apply kmem_lock_ok_set.
  - by apply freelist_after_kfree.
  - intros q. rewrite elem_of_cons, C. tauto.
  - intros x Hx. etrans; [apply (load8_freed p)|].
    + intros ?. apply Hx. exists p. split; [by left|done].
    + apply D. intros (q & Hq & Hxq). apply Hx. exists q. split; [by right|done].
  - eapply vm_frame_trans; [done|]. apply (vm_frame_set k1).
Qed.

(** The loop over the directory. *)
Lemma freevm_tables pgdir pts k l e : vm_ok k pgdir pts l -> forall n i k1 l1,
  (i + n <= 1024)%nat ->
  freed_pages (fun p => exists d, 0 <= d < Z.of_nat i /\ pts !! d = Some p) k l k1 l1 ->
  exists k' l', for_each (fun i => freevm_body pgdir (Z.of_nat i)) (seq i n) k1 e = Done tt k' e
    /\ freed_pages (fun p => exists d, 0 <= d < Z.of_nat (i + n) /\ pts !! d = Some p) k l k' l'.
Proof.
  intros V. pose proof (vo_space _ _ _ _ V) as Sp. induction n as [|n IH]; intros i k1 l1 Hn F.
  { exists k1, l1. rewrite Nat.add_0_r. done. }
  cbn [seq for_each]. unfold freevm_body at 1, kload32. rewrite bind_assoc. c_simpl.
  assert (load32 (k_mem k1) (pgdir + 4 * Z.of_nat i) = match pts !! Z.of_nat i with Some pt => pde_val pt | None => 0 end) as ->.
  { rewrite <- (sp_pde _ _ _ Sp) by lia. apply load32_ext. intros x Hx. apply F. intros (p & Hp & Hxp).
    pose proof (fl_pages _ _ (fp_free _ _ _ _ _ F)) as Hok. rewrite Forall_forall in Hok.
    assert (p = pgdir) as -> by (apply (page_of p pgdir x); [by apply Hok|apply Sp|done|unfold PGSIZE; lia]).
    apply (fp_pages _ _ _ _ _ F) in Hp as [Hp|(d & _ & E)].
    - apply (vo_apart _ _ _ _ V pgdir); [by left|done].
    - by destruct (sp_pt _ _ _ Sp _ _ E) as (_ & _ & []). }
  destruct (pts !! Z.of_nat i) as [pt|] eqn:E.
  - destruct (sp_pt _ _ _ Sp _ _ E) as (_ & Hp & Hne). destruct (pde_val_spec pt Hp) as (-> & -> & _). cbn [when].
    destruct (freed_pages_kfree _ k l k1 l1 pt e F Hp) as [Ek F'].
    + apply (vo_apart _ _ _ _ V). right. by exists (Z.of_nat i).
    + intros (d & Hd & Ed). pose proof (sp_inj _ _ _ Sp _ _ _ E Ed). lia.
    + run Ek. destruct (IH (S i) (after_kfree pt k1) (pt :: l1)) as (k' & l' & E' & F''); [lia| |].
      * eapply freed_pages_ext; [|exact F']. intros p. split.
        -- intros [(d & Hd & Ed)| ->]; [exists d; split; [lia|done]|exists (Z.of_nat i); split; [lia|done]].
        -- intros (d & Hd & Ed). destruct (decide (d = Z.of_nat i)) as [->|]; [right; congruence|].
           left. exists d. split; [lia|done].
      * exists k', l'. split; [done|]. by rewrite Nat.add_succ_comm in F''.
  - change (truth (Z.land 0 PTE_P)) with false. cbn [when]. c_simpl.
    destruct (IH (S i) k1 l1) as (k' & l' & E' & F''); [lia| |].
    + eapply freed_pages_ext; [|exact F]. intros p. split.
      * intros (d & Hd & Ed). exists d. split; [lia|done].
      * intros (d & Hd & Ed). destruct (decide (d = Z.of_nat i)) as [->|]; [congruence|]. exists d. split; [lia|done].
    + exists k', l'. split; [done|]. by rewrite Nat.add_succ_comm in F''.
Qed.

(** The pages of an address space. *)
Definition as_page (pgdir : Z) (pts : gmap Z Z) (up : gmap Z (Z * Z)) (p : Z) : Prop :=
  table pgdir pts p \/ exists w f, up !! w = Some (p, f).

(** [freevm] gives back exactly the pages of the address space. *)
Lemma freevm_done k pgdir pts up l e : as_ok k pgdir pts up l ->
  exists k' l', freevm pgdir k e = Done tt k' e /\ freed_pages (as_page pgdir pts up) k l k' l'.
Proof.
  intros A. pose proof (vo_space _ _ _ _ (ao_vm _ _ _ _ _ A)) as Sp.
  pose proof (sp_dir _ _ _ Sp) as Hd. pose proof Hd as (_ & _ & Hd0 & _).
  unfold freevm. rewrite (proj2 (Z.eqb_neq pgdir 0)) by lia.
  destruct (deallocuvm_unmaps pgdir pts k up l KERNBASE 0 e A) as (k1 & up1 & l1 & E1 & U); [lia|unfold KERNBASE; lia|].
  run E1. pose proof (un_ok _ _ _ _ _ _ _ _ _ _ U) as A1. pose proof (ao_vm _ _ _ _ _ A1) as V1.
  destruct (freevm_tables pgdir pts k1 l1 e V1 1024 0 k1 l1) as (k2 & l2 & E2 & F2); [done| |].
  { apply freed_pages_none; [apply V1|apply V1|]. intros p (d & Hr & _). lia. }
  change (Z.to_nat NPDENTRIES) with 1024%nat. run E2.
  destruct (freed_pages_kfree _ k1 l1 k2 l2 pgdir e F2 Hd) as [E3 F3].
  { apply (vo_apart _ _ _ _ V1). by left. }
  { intros (d & _ & Ed). by destruct (sp_pt _ _ _ Sp _ _ Ed) as (_ & _ & []). }
  exists (after_kfree pgdir k2), (pgdir :: l2). split; [done|]. pose proof F3 as [G1 G2 G3 G4 G5].
  assert (forall p, p ∈ pgdir :: l2 <-> p ∈ l \/ as_page pgdir pts up p) as Hpages.
  { intros p. rewrite G3, (un_free _ _ _ _ _ _ _ _ _ _ U p). unfold as_page, table. split.
    - intros [[?|(w & f & _ & E)]|[(d & _ & E)| ->]]; [by left|right; right; by exists w, f|right; left; right; by exists d|].
      right. left. by left.
    - intros [?|[[->|(d & E)]|(w & f & E)]]; [by left; left|by right; right|right; left|left; right].
      + exists d. destruct (sp_pt _ _ _ Sp _ _ E) as (Hr & _). split; [lia|done].
      + exists w, f. split; [|done]. change ((0 + 4095) / 4096) with 0. change ((KERNBASE + 4095) / 4096) with (2 ^ 19).
        by apply (us_page _ _ _ _ (ao_user _ _ _ _ _ A) _ _ _ E). }
  split; [done|done|done| |eapply vm_frame_trans; [apply U|done]].
  intros x Hx. rewrite G4 by done. apply U.
  - intros (p & Hp & Hxp). apply Hx. exists p. split; [|done]. apply Hpages. right. by left.
  - intros (p & Hp & Hxp). apply Hx. exists p. split; [|done]. apply G3. by left.
Qed.

(** ** The kernel's mappings *)

Definition km_size (x : kmap_t) : Z := u32 (km_end x - km_start x).
Definition covers (x : kmap_t) (b : Z) : bool := (km_virt x <=? b) && (b <? km_virt x + km_size x).

(** The entries after the mapping [x] was added to the entries [f]. *)
Definition km_upd (f : Z -> Z) (x : kmap_t) (b : Z) : Z :=
  if covers x b then pte_val (u32 (km_start x + (b - km_virt x) / PGSIZE * PGSIZE)) (km_perm x) else f b.

Record entry_ok (x : kmap_t) : Prop := {
  en_virt : (PGSIZE | km_virt x);
  en_low : KERNBASE <= km_virt x;
  en_pos : 0 < km_size x;
  en_size : (PGSIZE | km_size x);
  en_top : km_virt x + km_size x <= 2 ^ 32;
  en_start : 0 <= km_start x < 2 ^ 32
}.

(** The mappings [ks] can be added to [f] one after the other. *)
Fixpoint addable (f : Z -> Z) (ks : list kmap_t) : Prop :=
  match ks with
  | [] => True
  | x :: ks => entry_ok x /\ (forall b, covers x b = true -> f b = 0) /\ addable (km_upd f x) ks
  end.

Lemma covers_spec x b : covers x b = true <-> km_virt x <= b < km_virt x + km_size x.
Proof. unfold covers. rewrite andb_true_iff, Z.leb_le, Z.ltb_lt. done. Qed.

Lemma map_entry pgdir x k pts l e :
  vm_ok k pgdir pts l -> entry_ok x -> (forall b, covers x b = true -> pte_of (k_mem k) pgdir b = 0) ->
  exists r k' pts' l', mappages pgdir (km_virt x) (km_size x) (km_start x) (km_perm x) k e = Done r k' e
    /\ grows pgdir k pts l k' pts' l'
    /\ (forall b, 0 <= b < KERNBASE -> pte_of (k_mem k') pgdir b = pte_of (k_mem k) pgdir b)
    /\ (r = 0 /\ (forall b, 0 <= b < 2 ^ 32 -> pte_of (k_mem k') pgdir b = km_upd (pte_of (k_mem k) pgdir) x b)
        \/ r = -1 /\ l' = []).
Proof.
  intros V [[q Eq] Hlow Hpos [s Es] Htop Hst] Hz. unfold KERNBASE in *.
  assert (km_virt x / PGSIZE * PGSIZE = km_virt x) as Ea by (rewrite Eq, Z.div_mul by done; done).
  destruct (mappages_run k pgdir pts l (km_virt x) (km_size x) (km_start x) (km_perm x) e V ltac:(lia) Hpos Htop Hst)
    as (r & k' & pts' & l' & j & E & G & M & Hr).
  { intros b Hb. unfold present. rewrite Hz; [done|]. apply covers_spec. lia. }
  rewrite Ea in M. exists r, k', pts', l'. split; [done|]. split; [done|]. split.
  { intros b Hb. rewrite M, decide_False by lia. done. }
  destruct Hr as [[-> ->]|(-> & -> & _)]; [left|by right]. split; [done|]. intros b Hb.
  rewrite M by done. unfold km_upd. replace (PGSIZE * Z.of_nat (S _)) with (km_size x).
  - destruct (covers x b) eqn:C.
    + apply covers_spec in C. by rewrite decide_True.
    + rewrite decide_False; [done|]. intros Hc. apply covers_spec in Hc. congruence.
  - rewrite Eq, Es in *. unfold PGSIZE in *. rewrite Z.div_mul by lia.
    replace ((q * 4096 + s * 4096 - 1) / 4096) with (q + s - 1) by div_lia. lia.
Qed.

(** What a failing [setupkvm] or [copyuvm] leaves behind: the free pages of before. *)
Definition same_free (l l' : list Z) : Prop := forall p, p ∈ l <-> p ∈ l'.

Lemma addable_ext ks : forall f g, (forall b, 0 <= b < 2 ^ 32 -> f b = g b) -> addable f ks -> addable g ks.
Proof.
  induction ks as [|x ks IH]; intros f g H; [done|]. intros (Hx & Hz & Hks). split; [done|]. split.
  - intros b Hb. rewrite <- H; [by apply Hz|]. apply covers_spec in Hb. destruct Hx. unfold KERNBASE in *. lia.
  - eapply IH; [|exact Hks]. intros b Hb. unfold km_upd. by rewrite H.
Qed.

Lemma fold_km_ext ks : forall f g b, f b = g b -> fold_left km_upd ks f b = fold_left km_upd ks g b.
Proof.
  induction ks as [|x ks IH]; intros f g b H; [done|]. cbn [fold_left]. apply IH. unfold km_upd. by rewrite H.
Qed.

(** There are at most 1024 page tables. *)
Lemma tables_bound m pgdir pts : space m pgdir pts -> (size pts <= 1024)%nat.
Proof.
  intros Sp. rewrite <- size_dom.
  assert (dom pts ⊆ list_to_set (C := gset Z) (Z.of_nat <$> seq 0 1024)) as Hsub.
  { intros d [pt E]%elem_of_dom. destruct (sp_pt _ _ _ Sp _ _ E) as (Hd & _).
    apply elem_of_list_to_set, list_elem_of_fmap. exists (Z.to_nat d). split; [lia|]. apply elem_of_seq. lia. }
  apply subseteq_size in Hsub. rewrite size_list_to_set, length_fmap, length_seq in Hsub; [done|].
  apply NoDup_fmap_2; [apply _|apply NoDup_seq].
Qed.

(** Freeing a page table that had grown. *)
Lemma freed_after_grows pgdir k pts l k1 pts1 l1 k2 l2 :
  grows pgdir k pts l k1 pts1 l1 -> freed_pages (table pgdir pts1) k1 l1 k2 l2 -> freed_pages (table pgdir pts) k l k2 l2.
Proof.
  intros G [F1 F2 F3 F4 F5]. destruct (gr_new _ _ _ _ _ _ _ G) as (new & El & Hnew). split; [done|done| | |].
  - intros p. rewrite F3, El, elem_of_app. split.
    + intros [?|Ht]; [left; by right|]. destruct (table_dec pgdir pts p) as [|Hn]; [by right|].
      left. destruct (grows_table _ _ _ _ _ _ _ _ G Ht) as [?|Hin]; [done|]. by rewrite El, elem_of_app in Hin.
    + intros [[(d & E & _)%Hnew|?]|Ht]; [right; right; by exists d|by left|].
      right. eapply table_sub; [apply G|done].
  - intros x Hx. rewrite F4 by done. apply G. intros (p & Hp & Hxp). apply Hx. exists p. split; [|done].
    apply F3. by right.
  - eapply vm_frame_trans; [|done]. destruct (gr_state _ _ _ _ _ _ _ G) as (m & h & ->). apply vm_frame_set.
Qed.

Lemma setupkvm_loop_maps pgdir ks : forall k pts l e,
  as_ok k pgdir pts ∅ l -> addable (pte_of (k_mem k) pgdir) ks ->
  exists r k', setupkvm_loop pgdir ks k e = Done r k' e
    /\ ((exists pts' l', r = pgdir /\ grows pgdir k pts l k' pts' l' /\ as_ok k' pgdir pts' ∅ l'
          /\ forall b, 0 <= b < 2 ^ 32 -> pte_of (k_mem k') pgdir b = fold_left km_upd ks (pte_of (k_mem k) pgdir) b)
        \/ (exists l', r = 0 /\ freed_pages (table pgdir pts) k l k' l' /\ (length l + size pts <= 1024)%nat)).
Proof.
  induction ks as [|x ks IH]; intros k pts l e A Hks.
  { exists pgdir, k. split; [done|]. left. exists pts, l. split; [done|]. split; [apply grows_refl, A|done]. }
  destruct Hks as (Hx & Hz & Hks). cbn [setupkvm_loop fold_left].
  destruct (map_entry pgdir x k pts l e (ao_vm _ _ _ _ _ A) Hx Hz) as (r & k1 & pts1 & l1 & E & G & Hu & Hr).
  fold (km_size x). run E.
  assert (as_ok k1 pgdir pts1 ∅ l1) as A1.
  { eapply grows_user; [done|done|]. intros v Hv. apply Hu. unfold KERNBASE. lia. }
  pose proof (gr_len _ _ _ _ _ _ _ G) as Hlen.
  destruct Hr as [[-> Hpte]|[-> ->]]; cbn [Z.ltb Z.compare].
  - destruct (IH k1 pts1 l1 e A1) as (r & k' & E' & H).
    { eapply addable_ext; [|exact Hks]. intros b Hb. by rewrite Hpte. }
    exists r, k'. split; [done|]. destruct H as [(pts' & l' & -> & G' & A' & Hpte')|(l' & -> & F & Hl)].
    + left. exists pts', l'. split; [done|]. split; [by eapply grows_trans|]. split; [done|].
      intros b Hb. rewrite Hpte' by done. apply fold_km_ext. by apply Hpte.
    + right. exists l'. split; [done|]. split; [by eapply freed_after_grows|lia].
  - destruct (freevm_done k1 pgdir pts1 ∅ [] e A1) as (k' & l' & E' & F). run E'.
    exists 0, k'. split; [done|]. right. exists l'. split; [done|]. split.
    + eapply freed_after_grows; [done|]. eapply freed_pages_ext; [|exact F]. intros p. unfold as_page.
      split; [|by left]. intros [?|(w & f & Ew)]; [done|]. by rewrite lookup_empty in Ew.
    + pose proof (tables_bound _ _ _ (vo_space _ _ _ _ (gr_ok _ _ _ _ _ _ _ G))). simpl in Hlen. lia.
Qed.

(** What the linker script promises of the start of the kernel's data. *)
Definition data_ok : Prop := (PGSIZE | ld_data) /\ KERNLINK < ld_data < KERNBASE + PHYSTOP.

(** The entries of the kernel's mappings. *)
Definition kernel_pte (b : Z) : Z := fold_left km_upd kmap (fun _ => 0) b.

Lemma km_sizes : data_ok ->
  km_size (mk_kmap KERNBASE 0 EXTMEM PTE_W) = EXTMEM
  /\ km_size (mk_kmap KERNLINK (V2P KERNLINK) (V2P ld_data) 0) = ld_data - KERNLINK
  /\ km_size (mk_kmap ld_data (V2P ld_data) PHYSTOP PTE_W) = KERNBASE + PHYSTOP - ld_data
  /\ km_size (mk_kmap DEVSPACE DEVSPACE 0 PTE_W) = 2 ^ 32 - DEVSPACE
  /\ V2P ld_data = ld_data - KERNBASE.
Proof.
  intros (_ & Hr). assert (V2P ld_data = ld_data - KERNBASE) as E.
  { unfold V2P, KERNLINK, KERNBASE, EXTMEM, PHYSTOP in *. apply u32_small. lia. }
  unfold km_size. cbn [km_end km_start]. rewrite E. split; [done|]. split; [|split; [|by split]].
  - change (V2P KERNLINK) with (KERNLINK - KERNBASE). unfold KERNLINK, KERNBASE, EXTMEM, PHYSTOP in *. rewrite u32_small; lia.
  - unfold KERNLINK, KERNBASE, EXTMEM, PHYSTOP in *. rewrite u32_small; lia.
Qed.

Ltac kmap_lia := unfold KERNLINK, KERNBASE, EXTMEM, PHYSTOP, DEVSPACE, PGSIZE in *; lia.

Lemma km_upd_out f x b : ~ (km_virt x <= b < km_virt x + km_size x) -> km_upd f x b = f b.
Proof. intros H. unfold km_upd. destruct (covers x b) eqn:Ec; [|done]. by apply covers_spec in Ec. Qed.

Lemma km_upd_in f x b : km_virt x <= b < km_virt x + km_size x ->
  km_upd f x b = pte_val (u32 (km_start x + (b - km_virt x) / PGSIZE * PGSIZE)) (km_perm x).
Proof. intros H. apply covers_spec in H. unfold km_upd. by rewrite H. Qed.

Lemma kmap_entries : data_ok -> Forall entry_ok kmap.
Proof.
  intros D. destruct (km_sizes D) as (S1 & S2 & S3 & S4 & E). destruct D as (Hal & Hr).
  assert (forall a, (PGSIZE | a) -> (PGSIZE | ld_data - a)) as D1 by (intros; by apply Z.divide_sub_r).
  assert (forall a, (PGSIZE | a) -> (PGSIZE | a - ld_data)) as D2 by (intros; by apply Z.divide_sub_r).
  unfold kmap. repeat apply Forall_cons_2; [..|apply Forall_nil_2]; split; rewrite ?S1, ?S2, ?S3, ?S4, ?E;
    cbn [km_virt km_start]; rewrite ?E; try kmap_lia; try done;
    first [apply D1 | apply D2 | idtac]; by apply Z.mod_divide.
Qed.

Lemma kmap_addable : data_ok -> addable (fun _ => 0) kmap.
Proof.
  intros D. pose proof (kmap_entries D) as HE. destruct (km_sizes D) as (S1 & S2 & S3 & S4 & E). destruct D as (Hal & Hr).
  unfold kmap in *. rewrite !Forall_cons in HE. destruct HE as (E1 & E2 & E3 & E4 & _). cbn [addable].
  split; [done|]. split; [done|]. split; [done|]. split; [|split; [done|split; [|split; [done|split; [|done]]]]];
    intros b Hb; apply covers_spec in Hb; rewrite ?S2, ?S3, ?S4 in Hb; cbn [km_virt] in Hb;
    rewrite !km_upd_out by (rewrite ?S1, ?S2, ?S3; cbn [km_virt]; kmap_lia); done.
Qed.

(** The kernel's mappings: physical memory at [KERNBASE], with the kernel's text
    read-only, and the devices at the top. *)
Lemma kernel_pte_spec b : data_ok -> 0 <= b < 2 ^ 32 ->
  kernel_pte b =
    if b <? KERNBASE then 0
    else if b <? KERNBASE + PHYSTOP then
      pte_val (V2P (b / PGSIZE * PGSIZE)) (if (KERNLINK <=? b) && (b <? ld_data) then 0 else PTE_W)
    else if b <? DEVSPACE then 0 else pte_val (b / PGSIZE * PGSIZE) PTE_W.
Proof.
  intros D Hb. destruct (km_sizes D) as (S1 & S2 & S3 & S4 & E). destruct D as ([q Eq] & Hr).
  unfold kernel_pte, kmap. cbn [fold_left].
  destruct (Z.ltb_spec b KERNBASE) as [H1|H1].
  { rewrite !km_upd_out by (rewrite ?S1, ?S2, ?S3, ?S4; cbn [km_virt]; kmap_lia). done. }
  destruct (Z.ltb_spec b (KERNBASE + PHYSTOP)) as [H2|H2].
  - rewrite (km_upd_out _ (mk_kmap DEVSPACE _ _ _)) by (rewrite S4; cbn [km_virt]; kmap_lia).
    destruct (Z.leb_spec KERNLINK b) as [H3|H3]; [destruct (Z.ltb_spec b ld_data) as [H4|H4]|]; cbn [andb].
    + rewrite (km_upd_out _ (mk_kmap ld_data _ _ _)) by (rewrite S3; cbn [km_virt]; kmap_lia).
      rewrite km_upd_in by (rewrite S2; cbn [km_virt]; kmap_lia). cbn [km_virt km_start km_perm]. f_equal.
      unfold V2P. rewrite u32_add_l. f_equal. unfold KERNLINK, KERNBASE, EXTMEM, PGSIZE. div_lia.
    + rewrite km_upd_in by (rewrite S3; cbn [km_virt]; kmap_lia). cbn [km_virt km_start km_perm]. f_equal.
      unfold V2P. rewrite u32_add_l. f_equal. rewrite Eq. unfold KERNBASE, PGSIZE. div_lia.
    + rewrite !(km_upd_out _ (mk_kmap ld_data _ _ _)), (km_upd_out _ (mk_kmap KERNLINK _ _ _))
        by (rewrite ?S2, ?S3; cbn [km_virt]; kmap_lia).
      rewrite km_upd_in by (rewrite S1; cbn [km_virt]; kmap_lia). cbn [km_virt km_start km_perm]. f_equal.
      unfold V2P. f_equal. unfold KERNBASE, PGSIZE. div_lia.
  - destruct (Z.ltb_spec b DEVSPACE) as [H3|H3].
    { rewrite !km_upd_out by (rewrite ?S1, ?S2, ?S3, ?S4; cbn [km_virt]; kmap_lia). done. }
    rewrite km_upd_in by (rewrite S4; cbn [km_virt]; kmap_lia). cbn [km_virt km_start km_perm]. f_equal.
    rewrite u32_small; unfold DEVSPACE, PGSIZE in *; div_lia.
Qed.

(** A new page directory. *)
Lemma new_dir k p l : kmem_lock_ok k -> freelist k (p :: l) ->
  let k' := fill_page p k (memset p 0 PGSIZE (k_mem k)) in
  as_ok k' p ∅ ∅ l /\ forall b, pte_of (k_mem k') p b = 0.
Proof.
  intros Hk Hf k'. pose proof (fl_pages _ _ Hf) as [Hp Hpl]%Forall_cons.
  assert (p ∉ l) as Hni by (by apply fl_nodup, NoDup_cons in Hf as []).
  assert (space (k_mem k') p ∅) as Sp.
  { split; [done| |by intros ? ? ?|by intros ? ? ? ?]. intros d Hd. rewrite lookup_empty. by apply load32_zeroed. }
  assert (forall b, pte_of (k_mem k') p b = 0) as Hz by (intros b; by rewrite (pte_of_space _ _ ∅), lookup_empty).
  split; [|done]. split; [split| |].
  - intros E. destruct (Hk E) as (c & [] & Hfr). exists c. by split.
  - apply (freelist_agree (set_k_freelist (load32 (k_mem k) p) k)); [|by apply freelist_tail].
    intros q x Hq Hx. rewrite Forall_forall in Hpl. rewrite load8_memset by (unfold PGSIZE; lia). rewrite decide_False; [done|].
    intros Hx'. by rewrite (page_of q p x) in Hq; [|by apply Hpl|..].
  - done.
  - intros q [->|[d E]]; [done|by rewrite lookup_empty in E].
  - split; [|by intros ? ? ? ?|by intros ? ? ? ? ? ?]. intros v Hv. by rewrite lookup_empty.
  - by intros ? ? ? ?.
Qed.

(** A new address space [d] with the kernel's mappings and the user pages [up], made
    from free pages of [l] only. *)
Record built (k : kstate) (l : list Z) (d : Z) (k' : kstate) (pts : gmap Z Z) (up : gmap Z (Z * Z)) (l' : list Z) : Prop := {
  bt_ok : as_ok k' d pts up l';
  bt_kernel : forall b, KERNBASE <= b < 2 ^ 32 -> pte_of (k_mem k') d b = kernel_pte b;
  bt_free : forall p, p ∈ l <-> p ∈ l' \/ as_page d pts up p;
  bt_mem : forall x, ~ in_pages l x -> load8 (k_mem k') x = load8 (k_mem k) x;
  bt_len : (length l = length l' + S (size pts) + size up)%nat;
  bt_frame : vm_frame k k'
}.

(** The free pages are those of before, and no other page was written. *)
Record untouched (k : kstate) (l : list Z) (k' : kstate) (l' : list Z) : Prop := {
  ut_lock : kmem_lock_ok k';
  ut_free : freelist k' l';
  ut_same : same_free l l';
  ut_mem : forall x, ~ in_pages l x -> load8 (k_mem k') x = load8 (k_mem k) x;
  ut_frame : vm_frame k k'
}.

(** Freeing what was built. *)
Lemma built_freed k l d k1 pts up l1 k' l' :
  built k l d k1 pts up l1 -> freed_pages (as_page d pts up) k1 l1 k' l' -> untouched k l k' l'.
Proof.
  intros B F. assert (same_free l l') as Hs.
  { intros p. by rewrite (bt_free _ _ _ _ _ _ _ B p), (fp_pages _ _ _ _ _ F p). }
  split; [apply F|apply F|done| |eapply vm_frame_trans; [apply B|apply F]].
  intros x Hx. rewrite (fp_mem _ _ _ _ _ F); [by apply B|]. intros (p & Hp & Hxp). apply Hx. exists p. by rewrite (Hs p).
Qed.

(** The two outcomes of [setupkvm] once it has its first page. *)
Section Setup.
Context (k : kstate) (p : Z) (l : list Z).
Hypothesis (D : data_ok) (Hk : kmem_lock_ok k) (Hf : freelist k (p :: l)).
Local Abbreviation k1 := (fill_page p k (memset p 0 PGSIZE (k_mem k))).

Lemma setup_mem x : ~ in_pages (p :: l) x -> load8 (k_mem k1) x = load8 (k_mem k) x.
Proof.
  intros Hx. simpl. rewrite load8_memset by (unfold PGSIZE; lia). rewrite decide_False; [done|].
  intros ?. apply Hx. exists p. split; [by left|done].
Qed.

Lemma setup_built k' pts l' :
  grows p k1 ∅ l k' pts l' -> as_ok k' p pts ∅ l' ->
  (forall b, 0 <= b < 2 ^ 32 -> pte_of (k_mem k') p b = fold_left km_upd kmap (pte_of (k_mem k1) p) b) ->
  built k (p :: l) p k' pts ∅ l'.
Proof.
  intros G A' Hpte. destruct (new_dir k p l Hk Hf) as [_ Hz].
  destruct (gr_new _ _ _ _ _ _ _ G) as (new & El & Hnew). split; [done| | | | |].
  - intros b Hb. rewrite Hpte by (unfold KERNBASE in *; lia). apply fold_km_ext, Hz.
  - intros q. rewrite El, elem_of_cons, elem_of_app, Hnew. unfold as_page, table. split.
    + intros [->|[(d & Ed & _)|?]]; [right; left; by left|right; left; right; by exists d|by left].
    + intros [?|[[->|(d & Ed)]|(w & f & Ew)]]; [tauto|by left| |by rewrite lookup_empty in Ew].
      right. left. exists d. by rewrite lookup_empty.
  - intros x Hx. rewrite (gr_mem _ _ _ _ _ _ _ G); [by apply setup_mem|].
    intros (q & Hq & Hxq). apply Hx. exists q. split; [|done].
    destruct (grows_table _ _ _ _ _ _ _ _ G Hq) as [[->|(d & Ed)]|?]; [by left|by rewrite lookup_empty in Ed|by right].
  - pose proof (gr_len _ _ _ _ _ _ _ G) as Hl. rewrite map_size_empty in Hl. rewrite map_size_empty. simpl. lia.
  - eapply vm_frame_trans; [apply (vm_frame_set k)|]. destruct (gr_state _ _ _ _ _ _ _ G) as (m & h & ->). apply (vm_frame_set k1).
Qed.

Lemma setup_failed k' l' : freed_pages (table p ∅) k1 l k' l' -> untouched k (p :: l) k' l'.
Proof.
  intros [F1 F2 F3 F4 F5]. assert (same_free (p :: l) l') as Hs.
  { intros q. rewrite F3, elem_of_cons. unfold table. split.
    - intros [->|?]; [right; by left|by left].
    - intros [?|[->|(d & Ed)]]; [by right|by left|by rewrite lookup_empty in Ed]. }
  split; [done|done|done| |eapply vm_frame_trans; [apply (vm_frame_set k)|done]].
  intros x Hx. rewrite F4; [by apply setup_mem|].
  intros (q & Hq & Hxq). apply Hx. exists q. by rewrite (Hs q).
Qed.

End Setup.

Lemma setupkvm_done k l e : data_ok -> kmem_lock_ok k -> freelist k l ->
  exists r k', setupkvm k e = Done r k' e
    /\ ((r <> 0 /\ exists pts l', built k l r k' pts ∅ l')
        \/ (r = 0 /\ (length l <= 1025)%nat /\ exists l', untouched k l k' l')).
Proof.
  intros D Hk Hf. unfold setupkvm. destruct l as [|p l].
  { run (kalloc_empty k e Hf Hk). exists 0, k. split; [done|]. right. split; [done|]. split; [simpl; lia|].
    exists []. split; [done|done|done|done|apply vm_frame_refl]. }
  run (kalloc_done k p l e Hf Hk). pose proof (fl_pages _ _ Hf) as (_ & _ & Hp0 & _)%Forall_inv.
  rewrite (proj2 (Z.eqb_neq p 0)) by lia. unfold kmem. c_simpl.
  change (set_k_mem (memset p 0 PGSIZE (k_mem (set_k_freelist (load32 (k_mem k) p) k))) (set_k_freelist (load32 (k_mem k) p) k))
    with (fill_page p k (memset p 0 PGSIZE (k_mem k))).
  change (DEVSPACE <? P2V PHYSTOP) with false. cbv iota. destruct (new_dir k p l Hk Hf) as [A Hz].
  destruct (setupkvm_loop_maps p kmap (fill_page p k (memset p 0 PGSIZE (k_mem k))) ∅ l e A) as (r & k' & E & H).
  { eapply addable_ext; [|by apply kmap_addable]. intros b Hb. by rewrite Hz. }
  exists r, k'. split; [done|]. destruct H as [(pts & l' & -> & G & A' & Hpte)|(l' & -> & F & Hlen)].
  - left. split; [lia|]. exists pts, l'. by apply setup_built.
  - right. split; [done|]. rewrite map_size_empty in Hlen. split; [simpl; lia|]. exists l'. by apply setup_failed.
Qed.

(** ** Copying an address space *)

(** An address space is not affected by what happens to free pages. *)
Lemma as_ok_other k pgdir pts up l k' l' :
  as_ok k pgdir pts up l -> kmem_lock_ok k' -> freelist k' l' -> (forall p, p ∈ l' -> p ∈ l) ->
  (forall x, ~ in_pages l x -> load8 (k_mem k') x = load8 (k_mem k) x) ->
  as_ok k' pgdir pts up l'.
Proof.
  intros [[Hk Hf Sp Ha] [U1 U2 U3] A] Hk' Hf' Hsub Hm.
  pose proof (fl_pages _ _ Hf) as Hok. rewrite Forall_forall in Hok.
  destruct (space_ext (k_mem k) (k_mem k') pgdir pts) as [Sp' Hpte]; [|done|].
  { intros p i Hp Hi. apply load32_ext. intros x Hx. apply Hm. intros (q & Hq & Hxq). apply (Ha p Hp).
    rewrite (page_of p q x); [done|by eapply table_ok|by apply Hok|unfold PGSIZE; lia|done]. }
  split; [split; [done|done|done|]|split; [|done|done]|].
  - intros p Hp Hin. by apply (Ha p Hp), Hsub.
  - intros v Hv. rewrite Hpte. by apply U1.
  - intros v p f E Hin. by apply (A v p f E), Hsub.
Qed.

(** A user page is not written as long as only free pages are. *)
Lemma user_page_kept k pgdir pts up l k' v p f x :
  as_ok k pgdir pts up l -> (forall x, ~ in_pages l x -> load8 (k_mem k') x = load8 (k_mem k) x) ->
  up !! v = Some (p, f) -> p <= x < p + PGSIZE -> load8 (k_mem k') x = load8 (k_mem k) x.
Proof.
  intros A Hm E Hx. apply Hm. intros (q & Hq & Hxq). apply (ao_apart _ _ _ _ _ A v p f E).
  pose proof (fl_pages _ _ (vo_free _ _ _ _ (ao_vm _ _ _ _ _ A))) as Hok. rewrite Forall_forall in Hok.
  rewrite (page_of p q x); [done|by apply (us_page _ _ _ _ (ao_user _ _ _ _ _ A) _ _ _ E)|by apply Hok|done|done].
Qed.

(** The user pages of the copy up to page [v]: of the same flags and contents as
    those of the original. *)
Definition copied (k : kstate) (up : gmap Z (Z * Z)) (v : Z) (k' : kstate) (up' : gmap Z (Z * Z)) : Prop :=
  (forall w, ~ (0 <= w < v) -> up' !! w = None)
  /\ forall w, 0 <= w < v -> exists p f p', up !! w = Some (p, f) /\ up' !! w = Some (p', f)
       /\ forall i, 0 <= i < PGSIZE -> load8 (k_mem k') (p' + i) = load8 (k_mem k) (p + i).

(** The user pages hold bytes. *)
Definition user_bytes (k : kstate) (up : gmap Z (Z * Z)) : Prop :=
  forall w p f x, up !! w = Some (p, f) -> p <= x < p + PGSIZE -> is_byte (load8 (k_mem k) x).

Lemma lor_flags f : truth (Z.land f PTE_P) = true -> Z.lor f PTE_P = f.
Proof.
  unfold truth, PTE_P. intros H. apply Z.bits_inj'. intros n Hn. rewrite Z.lor_spec.
  destruct (decide (n = 0)) as [->|Hne].
  - change (Z.land f 1) with (Z.land f (Z.ones 1)) in H. rewrite Z.land_ones in H by lia.
    rewrite Z.bit0_odd. change (2 ^ 1) with 2 in H. rewrite Zmod_odd in H. by destruct (Z.odd f).
  - change 1 with (2 ^ 0). rewrite Z.pow2_bits_false by lia. apply orb_false_r.
Qed.

Section Round.
Context (k : kstate) (pgdir : Z) (ptsP : gmap Z Z) (upP : gmap Z (Z * Z)) (l : list Z) (sz : Z) (e : environment kstate).
Hypothesis (A : as_ok k pgdir ptsP upP l) (Hmem : user_bytes k upP) (Hsz : 0 <= sz <= KERNBASE).
Local Abbreviation N := ((sz + 4095) / 4096).
Hypothesis (Hall : forall w, 0 <= w < N -> is_Some (upP !! w)).

Lemma built_parent d k1 pts up l1 : built k l d k1 pts up l1 -> as_ok k1 pgdir ptsP upP l1.
Proof.
  intros B. eapply as_ok_other; [done|apply B|apply B| |apply B]. intros p Hp. apply (bt_free _ _ _ _ _ _ _ B). by left.
Qed.

(** The part of a round that looks up the page of the original. *)
Lemma copyuvm_lookup d k1 pts up l1 v p f : built k l d k1 pts up l1 -> 0 <= v -> v * 4096 < sz -> upP !! v = Some (p, f) ->
  copyuvm_body pgdir sz d (v * 4096) k1 e
  = (mem <- kalloc;;
     if mem =? 0 then ret (inr false) else
     kmem (memmove mem p PGSIZE);;
     r <- mappages d (v * 4096) PGSIZE (V2P mem) f;;
     if r <? 0 then kfree mem;; ret (inr false) else ret (inl ((v + 1) * 4096))) k1 e.
Proof.
  intros B Hv Hlt E. pose proof (built_parent _ _ _ _ _ B) as A1. unfold KERNBASE in *.
  pose proof (ao_vm _ _ _ _ _ A1) as V1. pose proof (vo_space _ _ _ _ V1) as Sp. pose proof (ao_user _ _ _ _ _ A1) as U.
  assert (0 <= v < 2 ^ 19) as Hv' by lia.
  unfold copyuvm_body. rewrite (proj2 (Z.ltb_lt _ _)) by done.
  destruct (ptsP !! PDX (v * 4096)) as [pt|] eqn:Ept.
  2: { pose proof (no_table_no_page _ _ _ _ v Sp U Hv' Ept). congruence. }
  run (walkpgdir_found pgdir k1 ptsP l1 (v * 4096) pt 0 e V1 Ept).
  destruct (sp_pt _ _ _ Sp _ _ Ept) as (_ & (_ & _ & Hpt0 & _) & _). pose proof (PTX_range (v * 4096)) as Hx.
  rewrite (proj2 (Z.eqb_neq _ 0)) by lia. unfold kload32. c_simpl.
  assert (load32 (k_mem k1) (pt + 4 * PTX (v * 4096)) = pte_of (k_mem k1) pgdir (v * 4096)) as ->.
  { rewrite (pte_of_space _ _ ptsP) by done. by rewrite Ept. }
  pose proof (present_user _ _ _ _ v U Hv') as Hpres. unfold present in Hpres.
  rewrite E, bool_decide_true in Hpres by done. rewrite Hpres. cbn [negb].
  pose proof (us_pte _ _ _ _ U v Hv') as Hpte. rewrite E in Hpte. rewrite Hpte.
  destruct (us_page _ _ _ _ U _ _ _ E) as (_ & Hp & _ & Hf & _). destruct (page_V2P p Hp) as (_ & Hp0 & HT & Hd & HP).
  rewrite PTE_ADDR_add, PTE_FLAGS_add, HP by (done || unfold PHYSTOP, PGSIZE in *; lia).
  replace (u32 (v * 4096 + PGSIZE)) with ((v + 1) * 4096) by (unfold PGSIZE; rewrite u32_small; lia). done.
Qed.

(** A page filled with [m] is mapped at [v] in the new address space. *)
Section Added.
Context (d : Z) (k1 : kstate) (pts : gmap Z Z) (up : gmap Z (Z * Z)) (q : Z) (l1 : list Z) (m : gmap Z Z).
Context (v f : Z) (k' : kstate) (pts' : gmap Z Z) (l' : list Z).
Hypothesis (B : built k l d k1 pts up (q :: l1)).
Hypothesis (Hm : forall x, ~ (q <= x < q + PGSIZE) -> load8 m x = load8 (k_mem k1) x).
Hypothesis (G : grows d (fill_page q k1 m) pts l1 k' pts' l').
Hypothesis (A' : as_ok k' d pts' (<[v := (q, f)]> up) l').
Hypothesis (Hv : 0 <= v < 2 ^ 19) (Hu : up !! v = None).

(** The user pages of the new address space keep what they held. *)
Lemma added_kept w p g x : <[v := (q, f)]> up !! w = Some (p, g) -> p <= x < p + PGSIZE ->
  load8 (k_mem k') x = load8 m x.
Proof.
  intros E Hx. apply (gr_mem _ _ _ _ _ _ _ G).
  destruct (us_page _ _ _ _ (ao_user _ _ _ _ _ A') _ _ _ E) as (_ & Hq & Hqt & _).
  eapply not_in_tables; [apply A'|done|done|done].
Qed.

Lemma added_free p : p ∈ l <-> p ∈ l' \/ as_page d pts' (<[v := (q, f)]> up) p.
Proof.
  rewrite (bt_free _ _ _ _ _ _ _ B p). destruct (gr_new _ _ _ _ _ _ _ G) as (new & El & Hnew).
  unfold as_page. rewrite elem_of_cons. split.
  - intros [[->|Hp]|[Ht|(w & g & E)]].
    + right. right. exists v, f. apply lookup_insert_eq.
    + rewrite El, elem_of_app, Hnew in Hp. destruct Hp as [(c & E & _)|?]; [right; left; right; by exists c|by left].
    + right. left. by eapply table_sub; [apply G|].
    + right. right. exists w, g. rewrite lookup_insert_ne; [done|]. intros ->. congruence.
  - intros [Hp|[Ht|(w & g & E)]].
    + left. right. rewrite El, elem_of_app. by right.
    + destruct (grows_table _ _ _ _ _ _ _ _ G Ht); [by right; left|by left; right].
    + destruct (decide (w = v)) as [->|Hne].
      * rewrite lookup_insert_eq in E. simplify_eq. by left; left.
      * rewrite lookup_insert_ne in E by done. right. right. by exists w, g.
Qed.

Lemma added_mem x : ~ in_pages l x -> load8 (k_mem k') x = load8 (k_mem k) x.
Proof.
  intros Hx. assert (forall p, p ∈ q :: l1 \/ as_page d pts up p -> ~ (p <= x < p + PGSIZE)) as Hno.
  { intros p Hp Hxp. apply Hx. exists p. by rewrite (bt_free _ _ _ _ _ _ _ B p). }
  rewrite (gr_mem _ _ _ _ _ _ _ G).
  - simpl. rewrite Hm; [by apply B|]. apply Hno. left. by left.
  - intros (p & Hp & Hxp). apply (Hno p); [|done].
    destruct (grows_table _ _ _ _ _ _ _ _ G Hp); [right; by left|left; by right].
Qed.

Lemma added_built :
  (forall b, 0 <= b < 2 ^ 32 -> b / 4096 <> v -> pte_of (k_mem k') d b = pte_of m d b) ->
  built k l d k' pts' (<[v := (q, f)]> up) l'.
Proof.
  intros Hpte. destruct (fill_page_ok d k1 pts up q l1 m (bt_ok _ _ _ _ _ _ _ B) Hm) as (_ & _ & _ & _ & _ & Hpte1).
  split; [done| |exact added_free|exact added_mem| |].
  - intros b Hb. unfold KERNBASE in *. rewrite Hpte, Hpte1 by (lia || div_lia). apply B. unfold KERNBASE. lia.
  - rewrite map_size_insert_None by done. rewrite (bt_len _ _ _ _ _ _ _ B). simpl.
    pose proof (gr_len _ _ _ _ _ _ _ G). lia.
  - eapply vm_frame_trans; [apply B|]. destruct (gr_state _ _ _ _ _ _ _ G) as (m' & h & ->).
    exists m', h, (k_out k1). by destruct k1.
Qed.

(** The copy has one page more. *)
Lemma added_copied p : copied k upP v k1 up -> upP !! v = Some (p, f) ->
  (forall i, 0 <= i < PGSIZE -> load8 m (q + i) = load8 (k_mem k) (p + i)) ->
  copied k upP (v + 1) k' (<[v := (q, f)]> up).
Proof.
  intros [C1 C2] E Hq. destruct (fill_page_ok d k1 pts up q l1 m (bt_ok _ _ _ _ _ _ _ B) Hm) as (_ & _ & Hqok & _ & Hup & _).
  split.
  - intros w Hw. rewrite lookup_insert_ne by lia. apply C1. lia.
  - intros w Hw. destruct (decide (w = v)) as [->|Hne].
    + exists p, f, q. split; [done|]. split; [apply lookup_insert_eq|]. intros i Hi.
      rewrite (added_kept v q f) by (lia || apply lookup_insert_eq). by apply Hq.
    + destruct (C2 w) as (pw & fw & qw & E1 & E2 & H); [lia|]. exists pw, fw, qw. split; [done|].
      split; [by rewrite lookup_insert_ne|]. intros i Hi.
      rewrite (added_kept w qw fw) by (lia || by rewrite lookup_insert_ne).
      rewrite Hm; [by apply H|]. intros Hin. apply (Hup w fw). rewrite <- (page_of qw q (qw + i)); [done| |done|lia|done].
      by apply (us_page _ _ _ _ (ao_user _ _ _ _ _ (bt_ok _ _ _ _ _ _ _ B)) _ _ _ E2).
Qed.

End Added.

(** A page that could not be mapped is given back. *)
Lemma built_give_back d k1 pts up q l1 m : built k l d k1 pts up (q :: l1) ->
  (forall x, ~ (q <= x < q + PGSIZE) -> load8 m x = load8 (k_mem k1) x) ->
  exists k', kfree q (fill_page q k1 m) e = Done tt k' e /\ built k l d k' pts up (q :: l1).
Proof.
  intros B Hm. pose proof (bt_ok _ _ _ _ _ _ _ B) as A1.
  destruct (fill_page_ok d k1 pts up q l1 m A1 Hm) as (A2 & _).
  destruct (unmaps_give_back (k_out k1) d pts 0 0 k1 up q l1 m (set_k_out (k_out k1) (fill_page q k1 m)) up l1 A1 Hm) as [Ek U].
  { apply unmaps_none; [by apply as_ok_out|]. intros w Hw. lia. }
  assert (set_k_out (k_out k1) (fill_page q k1 m) = fill_page q k1 m) as Eo by (by destruct k1). rewrite Eo in *.
  exists (after_kfree q (fill_page q k1 m)). split; [apply Ek|]. split; [apply U| |apply B| |apply B|].
  - intros b Hb. rewrite (un_pte _ _ _ _ _ _ _ _ _ _ U) by (unfold KERNBASE in *; lia). by apply B.
  - intros x Hx. rewrite (un_mem _ _ _ _ _ _ _ _ _ _ U); [by apply B|..]; intros (p & Hp & Hxp); apply Hx; exists p;
      (split; [|done]); apply (bt_free _ _ _ _ _ _ _ B); [right; by left|by left].
  - eapply vm_frame_trans; [apply B|apply U].
Qed.

Lemma copyuvm_round d k1 pts up l1 v : built k l d k1 pts up l1 -> copied k upP v k1 up -> 0 <= v < N ->
  (exists k' pts' up' l', copyuvm_body pgdir sz d (v * 4096) k1 e = Done (inl ((v + 1) * 4096)) k' e
     /\ built k l d k' pts' up' l' /\ copied k upP (v + 1) k' up')
  \/ (exists k', copyuvm_body pgdir sz d (v * 4096) k1 e = Done (inr false) k' e
     /\ built k l d k' pts up l1 /\ (length l1 <= 1)%nat).
Proof.
  intros B C Hv. destruct (Hall v Hv) as [[p f] E]. assert (v * 4096 < sz) as Hlt by div_lia.
  assert (0 <= v < 2 ^ 19) as Hv' by (unfold KERNBASE in *; lia).
  rewrite (copyuvm_lookup d k1 pts up l1 v p f B) by (done || lia).
  destruct (us_page _ _ _ _ (ao_user _ _ _ _ _ A) _ _ _ E) as (_ & Hp & _ & Hf & HfP).
  pose proof (bt_ok _ _ _ _ _ _ _ B) as A1. pose proof (ao_vm _ _ _ _ _ A1) as V1. destruct l1 as [|q l1].
  { right. exists k1. run (kalloc_empty k1 e (vo_free _ _ _ _ V1) (vo_lock _ _ _ _ V1)).
    split; [done|]. split; [done|simpl; lia]. }
  run (kalloc_done k1 q l1 e (vo_free _ _ _ _ V1) (vo_lock _ _ _ _ V1)).
  pose proof (fl_pages _ _ (vo_free _ _ _ _ V1)) as (_ & _ & Hq0 & _)%Forall_inv.
  rewrite (proj2 (Z.eqb_neq q 0)) by lia. unfold kmem. c_simpl. set (m := memmove q p PGSIZE (k_mem k1)).
  change (set_k_mem _ (set_k_freelist (load32 (k_mem k1) q) k1)) with (fill_page q k1 m).
  assert (forall x, ~ (q <= x < q + PGSIZE) -> load8 m x = load8 (k_mem k1) x) as Hm.
  { intros x Hx. unfold m. rewrite load8_memmove by (unfold PGSIZE; lia). by rewrite decide_False. }
  destruct (fill_page_ok d k1 pts up q l1 m A1 Hm) as (A2 & Hql & Hqok & Hqt & Hqu & _).
  assert (up !! v = None) as Hu by (apply C; lia).
  destruct (map_user_page d (fill_page q k1 m) pts up l1 v q f e A2 Hqok Hql Hqt Hqu Hv' Hu)
    as [(k' & pts' & l' & Em & G & A' & _ & _ & Hpte)|[-> Em]]; [by rewrite lor_flags| |].
  - left. run Em. cbn [Z.ltb Z.compare]. rewrite lor_flags in A' by done.
    exists k', pts', (<[v := (q, f)]> up), l'. split; [done|]. split; [by eapply added_built|].
    eapply added_copied; try done. intros i Hi. unfold m. rewrite load8_memmove, decide_True by (unfold PGSIZE in *; lia).
    replace (q + i - q) with i by lia. rewrite (user_page_kept k pgdir ptsP upP l k1 v p f) by (done || apply B || lia).
    apply Z.mod_small, (Hmem v p f); [done|lia].
  - right. run Em. cbn [Z.ltb Z.compare]. destruct (built_give_back d k1 pts up q [] m B Hm) as (k' & Ek & B').
    run Ek. exists k'. split; [done|]. split; [done|simpl; lia].
Qed.

Lemma copied_size v k1 up : 0 <= v -> copied k upP v k1 up -> (size up <= Z.to_nat v)%nat.
Proof.
  intros Hv [C1 _]. rewrite <- size_dom.
  assert (dom up ⊆ list_to_set (C := gset Z) (Z.of_nat <$> seq 0 (Z.to_nat v))) as Hsub.
  { intros w [x E]%elem_of_dom. apply elem_of_list_to_set, list_elem_of_fmap. exists (Z.to_nat w).
    assert (0 <= w < v) by (destruct (decide (0 <= w < v)); [done|]; rewrite C1 in E; done).
    split; [lia|]. apply elem_of_seq. lia. }
  apply subseteq_size in Hsub. rewrite size_list_to_set, length_fmap, length_seq in Hsub; [done|].
  apply NoDup_fmap_2; [apply _|apply NoDup_seq].
Qed.

Lemma copyuvm_loop d : forall fuel v k1 pts up l1,
  built k l d k1 pts up l1 -> copied k upP v k1 up -> 0 <= v <= N -> (Z.to_nat (N - v) < fuel)%nat ->
  exists (ok : bool) k' pts' up' l', iter fuel (copyuvm_body pgdir sz d) (v * 4096) k1 e = Done ok k' e
    /\ built k l d k' pts' up' l'
    /\ if ok then copied k upP N k' up' else Z.of_nat (length l) <= 1025 + N.
Proof.
  induction fuel as [|fuel IH]; intros v k1 pts up l1 B C Hv Hf; [lia|]. cbn [iter].
  destruct (decide (v < N)) as [Hlt|Hge].
  - destruct (copyuvm_round d k1 pts up l1 v B C) as [(k' & pts' & up' & l' & E & B' & C')|(k' & E & B' & Hl)]; [lia| |].
    + run E. apply (IH (v + 1) k' pts' up' l'); [done|done|lia|lia].
    + run E. exists false, k', pts, up, l1. split; [done|]. split; [done|].
      pose proof (bt_len _ _ _ _ _ _ _ B). pose proof (copied_size v k1 up (proj1 Hv) C).
      pose proof (tables_bound _ _ _ (vo_space _ _ _ _ (ao_vm _ _ _ _ _ (bt_ok _ _ _ _ _ _ _ B)))). lia.
  - unfold copyuvm_body at 1. rewrite (proj2 (Z.ltb_ge _ _)) by div_lia. c_simpl.
    exists true, k1, pts, up, l1. split; [done|]. split; [done|]. by replace N with v by lia.
Qed.

(** The copy as a whole. *)
Lemma copyuvm_done : data_ok ->
  exists r k', copyuvm pgdir sz k e = Done r k' e
    /\ ((r <> 0 /\ exists pts up l', built k l r k' pts up l' /\ copied k upP N k' up)
        \/ (r = 0 /\ Z.of_nat (length l) <= 1025 + N /\ exists l', untouched k l k' l')).
Proof.
  intros D. unfold copyuvm.
  destruct (setupkvm_done k l e D (vo_lock _ _ _ _ (ao_vm _ _ _ _ _ A)) (vo_free _ _ _ _ (ao_vm _ _ _ _ _ A)))
    as (r & k1 & E & [(Hr & pts & l1 & B)|(-> & Hl & l1 & U)]).
  2: { run E. exists 0, k1. split; [done|]. right. split; [done|]. split; [div_lia|by exists l1]. }
  run E. rewrite (proj2 (Z.eqb_neq r 0)) by done.
  destruct (copyuvm_loop r (S (S (Z.to_nat (sz / PGSIZE)))) 0 k1 pts ∅ l1 B) as (ok & k2 & pts2 & up2 & l2 & E2 & B2 & H2).
  { split; [by intros w Hw; rewrite lookup_empty|]. intros w Hw. lia. }
  { div_lia. } { unfold PGSIZE. div_lia. }
  rewrite Z.mul_0_l in E2. run E2. destruct ok.
  - exists r, k2. split; [done|]. left. split; [done|]. by exists pts2, up2, l2.
  - destruct (freevm_done k2 r pts2 up2 l2 e (bt_ok _ _ _ _ _ _ _ B2)) as (k3 & l3 & E3 & F3). run E3.
    exists 0, k3. split; [done|]. right. split; [done|]. split; [done|]. exists l3. by eapply built_freed.
Qed.

End Round.

(** C17: [copyuvm] copies an address space.  Given an address space whose pages
    below [sz] are all mapped, [copyuvm] comes to an end.  Either it returns the page
    directory of a new address space that has the kernel's mappings and, below [sz] and
    nowhere else, user pages with the flags and the contents of the original's,
    none of them shared with it.  Or it returns 0, there were no more than 1025
    free pages beside those to be copied, and every page is free again.  In both
    cases the original is an address space with the same pages and the same
    contents as before, and memory outside the pages that were free is unchanged. *)
Theorem copyuvm_copies (k : kstate) (pgdir : Z) (pts : gmap Z Z) (up : gmap Z (Z * Z)) (l : list Z) (sz : Z)
    (e : environment kstate) :
  data_ok -> as_ok k pgdir pts up l -> user_bytes k up -> 0 <= sz <= KERNBASE ->
  (forall w, 0 <= w < (sz + 4095) / 4096 -> is_Some (up !! w)) ->
  exists r k', copyuvm pgdir sz k e = Done r k' e
    /\ (forall w p f x, up !! w = Some (p, f) -> p <= x < p + PGSIZE -> load8 (k_mem k') x = load8 (k_mem k) x)
    /\ ((r <> 0 /\ exists pts' up' l', built k l r k' pts' up' l' /\ copied k up ((sz + 4095) / 4096) k' up'
          /\ as_ok k' pgdir pts up l'
          /\ forall w w' p f f', up !! w = Some (p, f) -> up' !! w' <> Some (p, f'))
        \/ (r = 0 /\ Z.of_nat (length l) <= 1025 + (sz + 4095) / 4096
            /\ exists l', untouched k l k' l' /\ as_ok k' pgdir pts up l')).
Proof.
  intros D A Hmem Hsz Hall. destruct (copyuvm_done k pgdir pts up l sz e A Hmem Hsz Hall D) as (r & k' & E & H).
  assert (forall x, ~ in_pages l x -> load8 (k_mem k') x = load8 (k_mem k) x) as Hm.
  { destruct H as [(_ & pts' & up' & l' & B & _)|(_ & _ & l' & U)]; [apply B|apply U]. }
  exists r, k'. split; [done|]. split; [intros w p f x Ew Hx; by eapply user_page_kept|].
  destruct H as [(Hr & pts' & up' & l' & B & C)|(Hr & Hl & l' & U)]; [left|right].
  - split; [done|]. exists pts', up', l'. split; [done|]. split; [done|]. split; [by eapply built_parent|].
    intros w w' p f f' Ew Ew'. apply (ao_apart _ _ _ _ _ A w p f Ew). apply (bt_free _ _ _ _ _ _ _ B).
    right. right. by exists w', f'.
  - split; [done|]. split; [done|]. exists l'. split; [done|]. eapply as_ok_other; [done|apply U|apply U| |done].
    intros p Hp. by apply (ut_same _ _ _ _ U).
Qed.

(** [setupkvm] makes the kernel's mappings.  It comes to an end, and either
    returns a page directory, made of free pages only, in which physical memory
    up to [PHYSTOP] is mapped from [KERNBASE] on, writable except for the
    kernel's text, the devices from [DEVSPACE] on are mapped to themselves, and
    nothing else is; or it returns 0, there were at most 1025 free pages, and
    all of them are free again. *)
Theorem setupkvm_maps (k : kstate) (l : list Z) (e : environment kstate) :
  data_ok -> kmem_lock_ok k -> freelist k l ->
  exists r k', setupkvm k e = Done r k' e
    /\ ((r <> 0 /\ exists pts l', built k l r k' pts ∅ l'
          /\ forall b, 0 <= b < 2 ^ 32 -> pte_of (k_mem k') r b =
               if b <? KERNBASE then 0
               else if b <? KERNBASE + PHYSTOP then
                 pte_val (V2P (b / PGSIZE * PGSIZE)) (if (KERNLINK <=? b) && (b <? ld_data) then 0 else PTE_W)
               else if b <? DEVSPACE then 0 else pte_val (b / PGSIZE * PGSIZE) PTE_W)
        \/ (r = 0 /\ (length l <= 1025)%nat /\ exists l', untouched k l k' l')).
Proof.
  intros D Hk Hf. destruct (setupkvm_done k l e D Hk Hf) as (r & k' & E & [(Hr & pts & l' & B)|H]);
    exists r, k'; (split; [done|]); [left|by right].
  split; [done|]. exists pts, l'. split; [done|]. intros b Hb. rewrite <- kernel_pte_spec by done.
  destruct (Z.ltb_spec b KERNBASE) as [Hlt|Hge].
  - rewrite kernel_pte_spec by done. rewrite (proj2 (Z.ltb_lt _ _)) by done. unfold KERNBASE in *.
    pose proof (us_pte _ _ _ _ (ao_user _ _ _ _ _ (bt_ok _ _ _ _ _ _ _ B)) (b / 4096)) as H. rewrite lookup_empty in H.
    rewrite (pte_of_page _ _ b (b / 4096 * 4096)) by div_lia. apply H. div_lia.
  - apply (bt_kernel _ _ _ _ _ _ _ B). lia.
Qed.

End Copy.

(** ** Examples, at the layout of [kernel.sym] *)

#[local] Existing Instance kernel_sym.

Lemma kernel_sym_data : data_ok.
Proof. split; [by apply Z.mod_divide|]. vm_compute. done. Qed.

Lemma setupkvm_maps_witness : exists r k', setupkvm two_pages [] = Done r k' []
  /\ ((r <> 0 /\ exists pts l', built two_pages [page2; page1] r k' pts ∅ l')
      \/ (r = 0 /\ exists l', untouched two_pages [page2; page1] k' l')).
Proof.
  destruct (setupkvm_maps two_pages [page2; page1] [] kernel_sym_data) as (r & k' & E & H).
  - intros E. by vm_compute in E.
  - apply two_pages_free.
  - exists r, k'. split; [exact E|]. destruct H as [(H & pts & l' & B & _)|(H & _ & l' & U)].
    + left. split; [exact H|]. exists pts, l'. exact B.
    + right. split; [exact H|]. exists l'. exact U.
Defined.

(** The copy of an address space with one page. *)
Lemma copyuvm_copies_witness : exists k pts up l r k',
  as_ok k page3 pts up l /\ is_Some (up !! 0) /\ copyuvm page3 4096 k [] = Done r k' []
  /\ (r <> 0 \/ exists l', as_ok k' page3 pts up l').
Proof.
  destruct (allocuvm_run two_pages page3 ∅ ∅ [page2; page1] 0 4096 [] example_as_ok) as (r & k & pts & up & l & _ & Hr);
    [intros E; by vm_compute in E|lia|unfold KERNBASE; lia|done|].
  destruct Hr as [[_ X]|(_ & _ & Hl)]; [|exfalso; by vm_compute in Hl]. change ((0 + 4095) / 4096) with 0 in X.
  change ((4096 + 4095) / 4096) with 1 in X. destruct (ex_new _ _ _ _ _ _ _ _ _ _ _ X 0) as (p & Ep & _ & Hz); [lia|].
  destruct (copyuvm_copies k page3 pts up l 4096 [] kernel_sym_data (ex_ok _ _ _ _ _ _ _ _ _ _ _ X)) as (r' & k' & E & _ & H).
  - intros w q f x Ew Hx. destruct (decide (w = 0)) as [->|Hne].
    + rewrite Ep in Ew. simplify_eq. rewrite Hz by done. unfold is_byte. lia.
    + rewrite (ex_old _ _ _ _ _ _ _ _ _ _ _ X), lookup_empty in Ew by lia. done.
  - unfold KERNBASE. lia.
  - change ((4096 + 4095) / 4096) with 1. intros w Hw. replace w with 0 by lia. by exists (p, 7).
  - exists k, pts, up, l, r', k'. split; [apply X|]. split; [by exists (p, 7)|]. split; [exact E|].
    destruct H as [[H _]|(_ & _ & l' & _ & H)]; [by left|right; by exists l'].
Defined.
