(* ===== verification/Bio.v ===== *)
(** * The buffer cache (bio.c) over the in-memory disk (memide.c)

    [bread], [bwrite] and [brelse] as the kernel runs them, on the table of
    buffers [k_buf] with its circular list.  The disk driver is that of
    memide.c, which stores the blocks in memory; [k_disk] maps a block number to
    its bytes and [k_writes] records every block written, in order. *)

From stdpp Require Import base gmap list strings sets.
From Stdlib Require Import ZArith Lia.
From S2P Require Import Prelude State Spinlock Sched Ring.

(** ** memide.c *)

Definition disk_block (k : kstate) (n : Z) : list Z :=
  default (replicate BSIZE 0) (k_disk k !! n).

(** [memmove(p, b->data, BSIZE)] where [p] is the place of block [n]. *)
Definition disk_write (n : Z) (data : list Z) (k : kstate) : kstate :=
  set_k_writes (k_writes k ++ [(n, data)]) (set_k_disk (<[n := data]> (k_disk k)) k).

Definition iderw (i : nat) : K unit :=
  h <- holdingsleep (SL_buf i);;
  if negb h then panic "iderw: buf not locked" else
  b <- gets (fun k => buf_at k i);;
  if Z.land (b_flags b) (Z.lor B_VALID B_DIRTY) =? B_VALID then panic "iderw: nothing to do" else
  if negb (b_dev b =? 1) then panic "iderw: request not for disk 1" else
  disksize <- gets k_disksize;;
  if u32 disksize <=? b_blockno b then panic "iderw: block out of range" else
  (if truth (Z.land (b_flags b) B_DIRTY)
   then modify (upd_buf i (fun b => set_b_flags (Z.land (b_flags b) (Z.lnot B_DIRTY)) b));;
        modify (fun k => disk_write (b_blockno b) (b_data (buf_at k i)) k)
   else modify (fun k => upd_buf i (set_b_data (disk_block k (b_blockno b))) k));;
  modify (upd_buf i (fun b => set_b_flags (Z.lor (b_flags b) B_VALID) b)).

(** ** bio.c *)

(** The body of the loop of [binit]. *)
Definition binit_buf (b : nat) : K unit :=
  modify (fun k => upd_buf b (set_b_next (b_next (buf_at k NBUF))) k);;
  modify (upd_buf b (set_b_prev NBUF));;
  initsleeplock (SL_buf b) "buffer";;
  modify (fun k => upd_buf (b_next (buf_at k NBUF)) (set_b_prev b) k);;
  modify (upd_buf NBUF (set_b_next b)).

Definition binit : K unit :=
  initlock L_bcache "bcache";;
  modify (upd_buf NBUF (set_b_prev NBUF));;
  modify (upd_buf NBUF (set_b_next NBUF));;
  for_each binit_buf (seq 0 NBUF).

(** The loops of [bget]: from buffer [i] along [link] until [test] holds or the
    loop is back at [bcache.head]. [None] when the fuel runs out. *)
Fixpoint scan (fuel : nat) (link : buf -> nat) (test : buf -> bool) (k : kstate) (i : nat)
    : option (option nat) :=
  match fuel with
  | O => None
  | S fuel =>
      if (i =? NBUF)%nat then Some None
      else if test (buf_at k i) then Some (Some i)
      else scan fuel link test k (link (buf_at k i))
  end.

Definition search (link : buf -> nat) (test : buf -> bool) : K (option nat) := fun k e =>
  match scan (NBUF + 1) link test k (link (buf_at k NBUF)) with
  | Some r => Done r k e
  | None => Stuck k
  end.

Definition has_block (dev blockno : Z) (b : buf) : bool :=
  (b_dev b =? dev) && (b_blockno b =? blockno).

Definition unused (b : buf) : bool :=
  (b_refcnt b =? 0) && (Z.land (b_flags b) B_DIRTY =? 0).

Definition bget (dev blockno : Z) : K nat :=
  acquire L_bcache;;
  hit <- search b_next (has_block dev blockno);;
  match hit with
  | Some b =>
      modify (upd_buf b (fun r => set_b_refcnt (u32 (b_refcnt r + 1)) r));;
      release L_bcache;;
      acquiresleep (SL_buf b);;
      ret b
  | None =>
  victim <- search b_prev unused;;
  match victim with
  | Some b =>
      modify (upd_buf b (set_b_dev dev));;
      modify (upd_buf b (set_b_blockno blockno));;
      modify (upd_buf b (set_b_flags 0));;
      modify (upd_buf b (set_b_refcnt 1));;
      release L_bcache;;
      acquiresleep (SL_buf b);;
      ret b
  | None => panic "bget: no buffers"
  end
  end.

Definition bread (dev blockno : Z) : K nat :=
  b <- bget dev blockno;;
  flags <- gets (fun k => b_flags (buf_at k b));;
  when (Z.land flags B_VALID =? 0) (iderw b);;
  ret b.

Definition bwrite (b : nat) : K unit :=
  h <- holdingsleep (SL_buf b);;
  if negb h then panic "bwrite" else
  modify (upd_buf b (fun r => set_b_flags (Z.lor (b_flags r) B_DIRTY) r));;
  iderw b.

(** [b->next->prev = b->prev; b->prev->next = b->next] and the four stores that
    put [b] after [bcache.head]. *)
Definition move_to_front (b : nat) : K unit :=
  modify (fun k => upd_buf (b_next (buf_at k b)) (set_b_prev (b_prev (buf_at k b))) k);;
  modify (fun k => upd_buf (b_prev (buf_at k b)) (set_b_next (b_next (buf_at k b))) k);;
  modify (fun k => upd_buf b (set_b_next (b_next (buf_at k NBUF))) k);;
  modify (upd_buf b (set_b_prev NBUF));;
  modify (fun k => upd_buf (b_next (buf_at k NBUF)) (set_b_prev b) k);;
  modify (upd_buf NBUF (set_b_next b)).

Definition brelse (b : nat) : K unit :=
  h <- holdingsleep (SL_buf b);;
  if negb h then panic "brelse" else
  releasesleep (SL_buf b);;
  acquire L_bcache;;
  modify (upd_buf b (fun r => set_b_refcnt (u32 (b_refcnt r - 1)) r));;
  refcnt <- gets (fun k => b_refcnt (buf_at k b));;
  when (refcnt =? 0) (move_to_front b);;
  release L_bcache.

(** ** One buffer replaced

    Every operation changes a few fields of one buffer; [put_buf i b] is the
    state with buffer [i] replaced by [b]. *)
Definition put_buf (i : nat) (b : buf) (k : kstate) : kstate :=
  set_k_buf (<[i := b]> (k_buf k)) k.

Lemma buf_at_lookup k i : (i < length (k_buf k))%nat -> k_buf k !! i = Some (buf_at k i).
Proof. intros H. unfold buf_at. by destruct (lookup_lt_is_Some_2 _ _ H) as [b ->]. Qed.

Lemma upd_put i f k : upd_buf i f k = put_buf i (f (buf_at k i)) k.
Proof.
  unfold upd_buf, put_buf, buf_at. f_equal. apply list_eq. intros j.
  destruct (decide (j = i)) as [->|].
  - rewrite list_lookup_alter_eq. destruct (k_buf k !! i) as [b|] eqn:E; simpl.
    + rewrite list_lookup_insert_eq; [done|]. by eapply lookup_lt_Some.
    + rewrite list_insert_ge; [done|]. by apply lookup_ge_None.
  - by rewrite list_lookup_alter_ne, list_lookup_insert_ne by done.
Qed.

Lemma put_put i b b' k : put_buf i b (put_buf i b' k) = put_buf i b k.
Proof. unfold put_buf. simpl. by rewrite list_insert_insert_eq. Qed.

Lemma buf_at_put i b k : (i < length (k_buf k))%nat -> buf_at (put_buf i b k) i = b.
Proof. intros. unfold buf_at, put_buf. simpl. by rewrite list_lookup_insert_eq. Qed.

Lemma buf_at_put_ne i j b k : j <> i -> buf_at (put_buf i b k) j = buf_at k j.
Proof. intros. unfold buf_at, put_buf. simpl. by rewrite list_lookup_insert_ne. Qed.

Lemma length_put i b k : length (k_buf (put_buf i b k)) = length (k_buf k).
Proof. apply length_insert. Qed.

Lemma put_id i k : put_buf i (buf_at k i) k = k.
Proof.
  unfold put_buf, buf_at. destruct (k_buf k !! i) as [b|] eqn:E; simpl.
  - rewrite list_insert_id by done. by destruct k.
  - rewrite list_insert_ge by (by apply lookup_ge_None). by destruct k.
Qed.

(** ** The file system at rest

    [quiet k c p]: process [p] runs on CPU [c], nobody holds a spin-lock of the
    file system and nobody sleeps on one of its channels.  The specifications
    below are those of operations that do not have to wait. *)
Definition fs_lock (lk : lockid) : bool :=
  match lk with
  | L_ptable | L_bcache | L_log | L_icache | L_ftable => true
  | L_sleep (SL_buf i) => (i <? NBUF)%nat
  | L_sleep (SL_inode i) => (i <? NINODE)%nat
  | _ => false
  end.

Definition fs_chan (ch : channel) : bool :=
  match ch with Ch_sleeplock _ | Ch_log => true | _ => false end.

Record quiet (k : kstate) (c p : nat) : Prop := {
  q_run : running k c p;
  q_locks : forall lk, fs_lock lk = true -> lock_free k lk;
  q_chans : forall ch, fs_chan ch = true -> no_sleeper k ch
}.

Definition mypid (k : kstate) (p : nat) : Z := p_pid (proc_at k p).

(** [quiet] does not look at the data of the file system. *)
Lemma quiet_ext k k' c p :
  k_apicid k' = k_apicid k -> k_cpus k' = k_cpus k -> k_if k' = k_if k ->
  k_locks k' = k_locks k -> k_proc k' = k_proc k ->
  quiet k c p -> quiet k' c p.
Proof.
  intros H1 H2 H3 H4 H5 [[Hs Hp] B C]. split.
  - split; [by apply (settled_ext k)|]. unfold cpu_at in *. by rewrite H2.
  - intros lk Hlk. apply (lock_free_ext k); [done|by apply B].
  - intros ch Hch. unfold no_sleeper. rewrite H5. by apply C.
Qed.

Lemma quiet_put k c p i b : quiet k c p -> quiet (put_buf i b k) c p.
Proof. by apply quiet_ext. Qed.

Lemma quiet_settled k c p : quiet k c p -> settled k c.
Proof. intros [[H _] _ _]. exact H. Qed.

Lemma quiet_free k c p lk : quiet k c p -> fs_lock lk = true -> lock_free k lk.
Proof. intros [_ H _]. apply H. Qed.

Lemma fs_lock_buf i : (i < NBUF)%nat -> fs_lock (L_sleep (SL_buf i)) = true.
Proof. intros. by apply Nat.ltb_lt. Qed.

#[export] Hint Resolve quiet_settled quiet_put fs_lock_buf : kernel.
#[export] Hint Resolve q_run : kernel.

(** Who holds a buffer. *)
Definition lock_of (b : buf) (pid : Z) : sleeplock := mk_sleeplock 1 (sl_name (b_lock b)) pid.
Definition unlock_of (b : buf) : sleeplock := mk_sleeplock 0 (sl_name (b_lock b)) 0.

Lemma acquiresleep_buf k c p i e :
  quiet k c p -> (i < NBUF)%nat -> length (k_buf k) = S NBUF -> sl_locked (b_lock (buf_at k i)) = 0 ->
  acquiresleep (SL_buf i) k e =
  Done tt (put_buf i (set_b_lock (lock_of (buf_at k i) (mypid k p)) (buf_at k i)) k) e.
Proof.
  intros Q Hi Hl H. rewrite (acquiresleep_free k c p) by eauto using quiet_free with kernel.
  f_equal. unfold upd_sleeplock. rewrite !upd_put, put_put. f_equal.
  rewrite buf_at_put by lia. by destruct (buf_at k i) as [??? [] ????? ].
Qed.

Lemma releasesleep_buf k c p i e :
  quiet k c p -> (i < NBUF)%nat -> length (k_buf k) = S NBUF ->
  releasesleep (SL_buf i) k e =
  Done tt (put_buf i (set_b_lock (unlock_of (buf_at k i)) (buf_at k i)) k) e.
Proof.
  intros Q Hi Hl. rewrite (releasesleep_done k c);
    [|by eauto with kernel|by eapply quiet_free; eauto with kernel|by eapply quiet_free|by apply Q].
  f_equal. unfold upd_sleeplock. rewrite !upd_put, put_put. f_equal.
  rewrite buf_at_put by lia. by destruct (buf_at k i) as [??? [] ????? ].
Qed.

(** [b] is held by the process with pid [pid]. *)
Definition held_buf (pid : Z) (b : buf) : Prop :=
  sl_locked (b_lock b) = 1 /\ sl_pid (b_lock b) = pid.

Lemma holdingsleep_buf k c p i e :
  quiet k c p -> (i < NBUF)%nat -> held_buf (mypid k p) (buf_at k i) ->
  holdingsleep (SL_buf i) k e = Done true k e.
Proof.
  intros Q Hi [H1 H2]. rewrite (holdingsleep_done k c p); [|by eauto with kernel|by eapply quiet_free; eauto with kernel].
  simpl. by rewrite H1, H2, Z.eqb_refl.
Qed.

Lemma acquire_fs k c p lk e :
  quiet k c p -> fs_lock lk = true -> acquire lk k e = Done tt (locked c lk k) e.
Proof. intros Q H. apply acquire_free; [by eauto with kernel|by eapply quiet_free]. Qed.

Lemma release_fs k c p lk e :
  quiet k c p -> fs_lock lk = true -> release lk (locked c lk k) e = Done tt k e.
Proof. intros Q H. apply release_locked; [by eauto with kernel|by eapply quiet_free]. Qed.

(** ** The list of buffers *)

Definition nx (k : kstate) (i : nat) : nat := b_next (buf_at k i).
Definition pv (k : kstate) (i : nat) : nat := b_prev (buf_at k i).

(** The buffers in the order of the list, most recently used first. *)
Record linked (k : kstate) (l : list nat) : Prop := {
  ln_length : length (k_buf k) = S NBUF;
  ln_ring : ring NBUF (nx k) (pv k) l;
  ln_all : l ≡ₚ seq 0 NBUF
}.

Lemma linked_in k l i : linked k l -> i ∈ l <-> (i < NBUF)%nat.
Proof. intros [_ _ H]. rewrite H, elem_of_seq. lia. Qed.

Lemma ring_fn_ext h nx1 pv1 nx2 pv2 l :
  (forall i, nx1 i = nx2 i) -> (forall i, pv1 i = pv2 i) -> ring h nx1 pv1 l -> ring h nx2 pv2 l.
Proof.
  intros Hn Hp [A B C]. split; [done|..].
  - by apply (chain_start nx1 _ h).
  - by apply (chain_start pv1 _ h).
Qed.

(** Replacing a buffer by one with the same links keeps the list. *)
Lemma linked_put k l i b :
  linked k l -> b_next b = nx k i -> b_prev b = pv k i -> linked (put_buf i b k) l.
Proof.
  intros [A B C] Hn Hp. split; [by rewrite length_put| |done].
  assert (X : forall j, buf_at (put_buf i b k) j = if decide (j = i /\ (i < length (k_buf k))%nat) then b else buf_at k j).
  { intros j. destruct (decide (j = i)) as [->|]; [|by rewrite buf_at_put_ne, decide_False by naive_solver].
    destruct (decide (i < length (k_buf k))%nat).
    - by rewrite buf_at_put, decide_True.
    - rewrite decide_False by naive_solver. unfold buf_at, put_buf. simpl.
      by rewrite list_insert_ge by lia. }
  eapply ring_fn_ext; [..|exact B]; intros j; unfold nx, pv in *; rewrite X;
    (destruct (decide (j = i /\ _)) as [[-> _]|_]; congruence).
Qed.

Lemma scan_chain fuel link test k x l :
  chain (fun i => link (buf_at k i)) x l NBUF -> NBUF ∉ l -> (length l < fuel)%nat ->
  scan fuel link test k (link (buf_at k x)) = Some (List.find (fun i => test (buf_at k i)) l).
Proof.
  revert fuel x. induction l as [|a l IH]; intros fuel x Hc Hn Hf; (destruct fuel; [lia|]); simpl in *.
  - rewrite Hc. by rewrite Nat.eqb_refl.
  - destruct Hc as [-> Hc]. apply not_elem_of_cons in Hn as [Hna Hn].
    rewrite (proj2 (Nat.eqb_neq a NBUF)) by congruence.
    destruct (test (buf_at k a)); [done|]. apply IH; [done|done|lia].
Qed.

Lemma linked_length k l : linked k l -> length l = NBUF.
Proof. intros [_ _ H]. by rewrite H, length_seq. Qed.

Lemma search_next k l test e :
  linked k l ->
  search b_next test k e = Done (List.find (fun i => test (buf_at k i)) l) k e.
Proof.
  intros H. pose proof (linked_length _ _ H). unfold search.
  erewrite scan_chain; [done|apply H| |lia].
  pose proof (ring_nodup _ _ _ _ (ln_ring _ _ H)) as Hn. by apply NoDup_cons in Hn as [? _].
Qed.

Lemma search_prev k l test e :
  linked k l ->
  search b_prev test k e = Done (List.find (fun i => test (buf_at k i)) (rev l)) k e.
Proof.
  intros H. pose proof (linked_length _ _ H). unfold search.
  erewrite scan_chain; [done|apply H| |rewrite length_rev; lia].
  pose proof (ring_nodup _ _ _ _ (ln_ring _ _ H)) as Hn. apply NoDup_cons in Hn as [? _].
  by rewrite <- (Permutation_rev l).
Qed.

Lemma linked_locked k l c lk : linked k l -> linked (locked c lk k) l.
Proof. intros [A B C]. by split. Qed.

(** ** The operations, as equations *)

Definition grab (pid : Z) (b : buf) : buf := set_b_refcnt 1 (set_b_lock (lock_of b pid) b).
Definition recycle (dev n : Z) (b : buf) : buf :=
  set_b_refcnt 1 (set_b_flags 0 (set_b_blockno n (set_b_dev dev b))).
Definition load (data : list Z) (b : buf) : buf := set_b_flags B_VALID (set_b_data data b).

Lemma bget_hit k c p l i dev n e :
  quiet k c p -> linked k l ->
  List.find (fun i => has_block dev n (buf_at k i)) l = Some i ->
  b_refcnt (buf_at k i) = 0 -> sl_locked (b_lock (buf_at k i)) = 0 ->
  bget dev n k e = Done i (put_buf i (grab (mypid k p) (buf_at k i)) k) e.
Proof.
  intros Q L Hf Hr Hl. unfold bget.
  run (acquire_fs k c p L_bcache e Q eq_refl).
  run (search_next (locked c L_bcache k) l (has_block dev n) e (linked_locked _ _ _ _ L)).
  change (fun i => has_block dev n (buf_at (locked c L_bcache k) i))
    with (fun i => has_block dev n (buf_at k i)). rewrite Hf.
  assert (Hi : (i < NBUF)%nat).
  { apply (linked_in k l); [done|]. apply List.find_some in Hf as [Hf _].
    by apply list_elem_of_In. }
  pose proof (ln_length _ _ L). unfold modify. unfold bind at 1.
  set (k1 := upd_buf i (fun r => set_b_refcnt (u32 (b_refcnt r + 1)) r) k).
  change (upd_buf i _ (locked c L_bcache k)) with (locked c L_bcache k1).
  assert (Q1 : quiet k1 c p) by (unfold k1; rewrite upd_put; eauto with kernel).
  run (release_fs k1 c p L_bcache e Q1 eq_refl).
  assert (E1 : k1 = put_buf i (set_b_refcnt 1 (buf_at k i)) k).
  { unfold k1. rewrite upd_put. by rewrite Hr. }
  rewrite (bind_done _ _ _ _ _ _ _ (acquiresleep_buf k1 c p i e Q1 Hi
    ltac:(rewrite E1, length_put; lia) ltac:(rewrite E1, buf_at_put by lia; exact Hl))).
  unfold ret. f_equal. rewrite E1, put_put, buf_at_put by lia. done.
Qed.

Lemma bget_miss k c p l i dev n e :
  quiet k c p -> linked k l ->
  List.find (fun i => has_block dev n (buf_at k i)) l = None ->
  List.find (fun i => unused (buf_at k i)) (rev l) = Some i ->
  sl_locked (b_lock (buf_at k i)) = 0 ->
  bget dev n k e = Done i (put_buf i (grab (mypid k p) (recycle dev n (buf_at k i))) k) e.
Proof.
  intros Q L Hf Hv Hl. unfold bget.
  run (acquire_fs k c p L_bcache e Q eq_refl).
  run (search_next (locked c L_bcache k) l (has_block dev n) e (linked_locked _ _ _ _ L)).
  change (fun i => has_block dev n (buf_at (locked c L_bcache k) i))
    with (fun i => has_block dev n (buf_at k i)). rewrite Hf.
  run (search_prev (locked c L_bcache k) l unused e (linked_locked _ _ _ _ L)).
  change (fun i => unused (buf_at (locked c L_bcache k) i)) with (fun i => unused (buf_at k i)).
  rewrite Hv.
  assert (Hi : (i < NBUF)%nat).
  { apply (linked_in k l); [done|]. apply List.find_some in Hv as [Hv _].
    rewrite <- in_rev in Hv. by apply list_elem_of_In. }
  pose proof (ln_length _ _ L). unfold modify. unfold bind at 1 2 3 4.
  set (k1 := upd_buf i (set_b_refcnt 1) (upd_buf i (set_b_flags 0)
    (upd_buf i (set_b_blockno n) (upd_buf i (set_b_dev dev) k)))).
  change (upd_buf i (set_b_refcnt 1) _) with (locked c L_bcache k1).
  assert (E1 : k1 = put_buf i (recycle dev n (buf_at k i)) k).
  { unfold k1. rewrite !upd_put, !put_put. repeat (rewrite buf_at_put by (rewrite ?length_put; lia)). done. }
  assert (Q1 : quiet k1 c p) by (rewrite E1; eauto with kernel).
  run (release_fs k1 c p L_bcache e Q1 eq_refl).
  rewrite (bind_done _ _ _ _ _ _ _ (acquiresleep_buf k1 c p i e Q1 Hi
    ltac:(rewrite E1, length_put; lia) ltac:(rewrite E1, buf_at_put by lia; exact Hl))).
  unfold ret. f_equal. rewrite E1, put_put, buf_at_put by lia. done.
Qed.

Definition in_range (k : kstate) (n : Z) : Prop := 0 <= n < u32 (k_disksize k).

Lemma iderw_read k c p i e :
  quiet k c p -> (i < NBUF)%nat -> length (k_buf k) = S NBUF ->
  held_buf (mypid k p) (buf_at k i) -> b_flags (buf_at k i) = 0 ->
  b_dev (buf_at k i) = 1 -> in_range k (b_blockno (buf_at k i)) ->
  iderw i k e =
  Done tt (put_buf i (load (disk_block k (b_blockno (buf_at k i))) (buf_at k i)) k) e.
Proof.
  intros Q Hi Hl Hh Hf Hd Hr. unfold iderw. run (holdingsleep_buf k c p i e Q Hi Hh).
  cbn [negb]. c_simpl. rewrite Hf, Hd.
  change (Z.land 0 (Z.lor B_VALID B_DIRTY) =? B_VALID) with false. change (negb (1 =? 1)) with false. cbv iota.
  c_simpl. rewrite (proj2 (Z.leb_gt _ _)) by apply Hr. cbv iota.
  change (truth (Z.land 0 B_DIRTY)) with false. cbv iota. unfold bind, modify. f_equal.
  rewrite !upd_put, put_put. rewrite buf_at_put by lia. unfold load. simpl. by rewrite Hf.
Qed.

(** [bwrite] sends a buffer to the disk and leaves it clean. *)
Definition written (i : nat) (k : kstate) : kstate :=
  disk_write (b_blockno (buf_at k i)) (b_data (buf_at k i))
    (put_buf i (set_b_flags B_VALID (buf_at k i)) k).

Lemma iderw_write k c p i e :
  quiet k c p -> (i < NBUF)%nat -> length (k_buf k) = S NBUF ->
  held_buf (mypid k p) (buf_at k i) -> b_flags (buf_at k i) = Z.lor B_VALID B_DIRTY ->
  b_dev (buf_at k i) = 1 -> in_range k (b_blockno (buf_at k i)) ->
  iderw i k e = Done tt (written i k) e.
Proof.
  intros Q Hi Hl Hh Hf Hd Hr. unfold iderw. run (holdingsleep_buf k c p i e Q Hi Hh).
  cbn [negb]. c_simpl. rewrite Hf, Hd.
  change (Z.land (Z.lor B_VALID B_DIRTY) (Z.lor B_VALID B_DIRTY) =? B_VALID) with false.
  change (negb (1 =? 1)) with false. cbv iota.
  c_simpl. rewrite (proj2 (Z.leb_gt _ _)) by apply Hr. cbv iota.
  change (truth (Z.land (Z.lor B_VALID B_DIRTY) B_DIRTY)) with true. cbv iota.
  unfold bind, modify. f_equal. rewrite !upd_put. rewrite Hf. unfold written.
  change (Z.land (Z.lor B_VALID B_DIRTY) (Z.lnot B_DIRTY)) with B_VALID.
  rewrite buf_at_put by lia. simpl. unfold disk_write, put_buf at 1. simpl. f_equal. f_equal.
  unfold put_buf, buf_at. simpl. rewrite list_lookup_insert_eq by lia. simpl.
  by rewrite list_insert_insert_eq.
Qed.

Lemma bwrite_done k c p i e :
  quiet k c p -> (i < NBUF)%nat -> length (k_buf k) = S NBUF ->
  held_buf (mypid k p) (buf_at k i) ->
  b_flags (buf_at k i) = B_VALID \/ b_flags (buf_at k i) = Z.lor B_VALID B_DIRTY ->
  b_dev (buf_at k i) = 1 -> in_range k (b_blockno (buf_at k i)) ->
  bwrite i k e = Done tt (written i k) e.
Proof.
  intros Q Hi Hl Hh Hf Hd Hr. unfold bwrite. run (holdingsleep_buf k c p i e Q Hi Hh).
  cbn [negb]. c_simpl. rewrite upd_put.
  replace (Z.lor (b_flags (buf_at k i)) B_DIRTY) with (Z.lor B_VALID B_DIRTY)
    by (by destruct Hf as [-> | ->]).
  set (b := set_b_flags _ _). assert (Hb : buf_at (put_buf i b k) i = b) by (rewrite buf_at_put; [done|lia]).
  rewrite (iderw_write _ c p); rewrite ?Hb, ?length_put; try done; eauto with kernel.
  unfold written. rewrite Hb, put_put. done.
Qed.

(** The new links of [brelse]. *)
Definition to_front (b : nat) (k : kstate) : kstate :=
  let k := upd_buf (b_next (buf_at k b)) (set_b_prev (b_prev (buf_at k b))) k in
  let k := upd_buf (b_prev (buf_at k b)) (set_b_next (b_next (buf_at k b))) k in
  let k := upd_buf b (set_b_next (b_next (buf_at k NBUF))) k in
  let k := upd_buf b (set_b_prev NBUF) k in
  let k := upd_buf (b_next (buf_at k NBUF)) (set_b_prev b) k in
  upd_buf NBUF (set_b_next b) k.

Lemma move_to_front_done b k e : move_to_front b k e = Done tt (to_front b k) e.
Proof. done. Qed.

Lemma nx_upd_next k i v j :
  (i < length (k_buf k))%nat -> nx (upd_buf i (set_b_next v) k) j = fupd (nx k) i v j.
Proof.
  intros Hi. unfold nx, fupd. rewrite upd_put. case_decide; subst; [by rewrite buf_at_put|].
  by rewrite buf_at_put_ne.
Qed.

Lemma pv_upd_prev k i v j :
  (i < length (k_buf k))%nat -> pv (upd_buf i (set_b_prev v) k) j = fupd (pv k) i v j.
Proof.
  intros Hi. unfold pv, fupd. rewrite upd_put. case_decide; subst; [by rewrite buf_at_put|].
  by rewrite buf_at_put_ne.
Qed.

(** Storing one link changes neither the other one nor the rest of a buffer. *)
Definition same_payload (b b' : buf) : Prop :=
  set_b_prev 0 (set_b_next 0 b) = set_b_prev 0 (set_b_next 0 b').

Lemma buf_at_upd k i f j :
  buf_at (upd_buf i f k) j = if decide (j = i /\ (i < length (k_buf k))%nat) then f (buf_at k i) else buf_at k j.
Proof.
  rewrite upd_put. destruct (decide (j = i)) as [->|].
  - destruct (decide (i < length (k_buf k))%nat) as [Hl|Hl].
    + by rewrite buf_at_put, decide_True.
    + rewrite decide_False by naive_solver. unfold buf_at, put_buf. simpl. by rewrite list_insert_ge by lia.
  - by rewrite buf_at_put_ne, decide_False by naive_solver.
Qed.

Lemma nx_upd_prev k i v j : nx (upd_buf i (set_b_prev v) k) j = nx k j.
Proof. unfold nx. rewrite buf_at_upd. by destruct (decide (j = i /\ _)) as [[-> _]|_]. Qed.

Lemma pv_upd_next k i v j : pv (upd_buf i (set_b_next v) k) j = pv k j.
Proof. unfold pv. rewrite buf_at_upd. by destruct (decide (j = i /\ _)) as [[-> _]|_]. Qed.

Lemma payload_upd_next k i v j :
  same_payload (buf_at (upd_buf i (set_b_next v) k) j) (buf_at k j).
Proof. rewrite buf_at_upd. by destruct (decide (j = i /\ _)) as [[-> _]|_]. Qed.

Lemma payload_upd_prev k i v j :
  same_payload (buf_at (upd_buf i (set_b_prev v) k) j) (buf_at k j).
Proof. rewrite buf_at_upd. by destruct (decide (j = i /\ _)) as [[-> _]|_]. Qed.

Lemma hd_bound (l : list nat) : (forall i, i ∈ l -> (i < NBUF)%nat) -> (hd NBUF l < S NBUF)%nat.
Proof.
  intros H. destruct l as [|a l]; simpl; [lia|]. specialize (H a ltac:(set_solver)). lia.
Qed.

(** Unlinking [b] and putting it first, on the states between the stores. *)
Lemma ring_unlinked k b l1 l2 :
  linked k (l1 ++ b :: l2) ->
  let k1 := upd_buf (nx k b) (set_b_prev (pv k b)) k in
  let k2 := upd_buf (pv k1 b) (set_b_next (nx k1 b)) k1 in
  ring NBUF (nx k2) (pv k2) (l1 ++ l2) /\ length (k_buf k2) = S NBUF.
Proof.
  intros L k1 k2. pose proof L as [Hlen R _].
  pose proof (ring_unlink _ _ _ _ _ _ R) as R'. destruct R as [Hn Hx Hp].
  assert (Hin : forall i, i ∈ l1 ++ b :: l2 -> (i < NBUF)%nat) by (intros i; apply (linked_in _ _ _ L)).
  assert (Enb : nx k b = hd NBUF l2) by (apply chain_app in Hx as [_ Hx]; by apply chain_hd in Hx).
  assert (Epb : pv k b = hd NBUF (rev l1)).
  { rewrite rev_app_distr in Hp. simpl in Hp. rewrite <- app_assoc in Hp.
    apply chain_app in Hp as [_ Hp]. by apply chain_hd in Hp. }
  assert (Bn : (nx k b < length (k_buf k))%nat).
  { rewrite Hlen, Enb. apply hd_bound. intros i Hi. apply Hin. set_solver. }
  assert (Bp : (pv k b < length (k_buf k))%nat).
  { rewrite Hlen, Epb. apply hd_bound. intros i Hi. rewrite <- Permutation_rev in Hi. apply Hin. set_solver. }
  assert (Ne : b <> nx k b).
  { rewrite Enb. apply NoDup_cons in Hn as [Hh Hn]. apply NoDup_app in Hn as (_ & _ & Hn).
    apply NoDup_cons in Hn as [Hb _]. destruct l2; simpl; set_solver. }
  assert (E1 : pv k1 b = pv k b) by (unfold k1; rewrite pv_upd_prev, fupd_ne by done; done).
  assert (E2 : nx k1 b = nx k b) by apply nx_upd_prev.
  split; [|unfold k2, k1, upd_buf; simpl; by rewrite !length_alter].
  eapply ring_fn_ext; [..|exact R']; intros i; symmetry; unfold k2; rewrite ?E1, ?E2.
  - rewrite nx_upd_next by (unfold k1, upd_buf; simpl; by rewrite length_alter).
    unfold fupd. case_decide; [done|]. apply nx_upd_prev.
  - rewrite pv_upd_next. unfold k1. by apply pv_upd_prev.
Qed.

Lemma ring_pushed k b l :
  ring NBUF (nx k) (pv k) l -> length (k_buf k) = S NBUF -> (forall i, i ∈ l -> (i < NBUF)%nat) ->
  (b < NBUF)%nat -> b ∉ l ->
  let k3 := upd_buf b (set_b_next (nx k NBUF)) k in
  let k4 := upd_buf b (set_b_prev NBUF) k3 in
  let k5 := upd_buf (nx k4 NBUF) (set_b_prev b) k4 in
  let k6 := upd_buf NBUF (set_b_next b) k5 in
  ring NBUF (nx k6) (pv k6) (b :: l) /\ length (k_buf k6) = S NBUF.
Proof.
  intros R Hlen Hin Hb Hnb k3 k4 k5 k6.
  assert (Hb' : b ∉ NBUF :: l) by (apply not_elem_of_cons; split; [lia|done]).
  assert (E4 : forall j, nx k4 j = fupd (nx k) b (nx k NBUF) j).
  { intros j. unfold k4, k3. rewrite nx_upd_prev. apply nx_upd_next. lia. }
  assert (E4h : nx k4 NBUF = nx k NBUF) by (rewrite E4, fupd_ne; [done|lia]).
  assert (L4 : length (k_buf k4) = S NBUF) by (unfold k4, k3, upd_buf; simpl; by rewrite !length_alter).
  assert (L5 : length (k_buf k5) = S NBUF) by (unfold k5, upd_buf; simpl; by rewrite length_alter).
  assert (Bh : (nx k NBUF < S NBUF)%nat).
  { rewrite (chain_hd _ _ _ _ (ring_next _ _ _ _ R)). by apply hd_bound. }
  split; [|unfold k6, upd_buf; simpl; by rewrite length_alter].
  eapply ring_fn_ext; [..|exact (ring_push _ _ _ _ _ R Hb')]; intros i; symmetry.
  - unfold k6. rewrite nx_upd_next by lia. unfold fupd at 1 2. case_decide; [done|].
    unfold k5. by rewrite nx_upd_prev, E4.
  - unfold k6. rewrite pv_upd_next. unfold k5. rewrite E4h, pv_upd_prev by lia.
    unfold fupd at 1 2. case_decide; [done|]. unfold k4.
    rewrite pv_upd_prev by (unfold k3, upd_buf; simpl; rewrite length_alter; lia).
    unfold fupd. case_decide; [done|]. apply pv_upd_next.
Qed.

Lemma linked_to_front k b l1 l2 :
  linked k (l1 ++ b :: l2) -> linked (to_front b k) (b :: l1 ++ l2).
Proof.
  intros L. pose proof (linked_in _ _ b L) as Hb. pose proof (ln_all _ _ L) as Hall.
  assert (Hin : forall i, i ∈ l1 ++ b :: l2 -> (i < NBUF)%nat) by (intros i; apply (linked_in _ _ _ L)).
  destruct (ring_unlinked k b l1 l2 L) as [R2 L2].
  pose proof (ring_nodup _ _ _ _ (ln_ring _ _ L)) as Hn. apply NoDup_cons in Hn as [_ Hn].
  rewrite <- Permutation_middle in Hn. apply NoDup_cons in Hn as [Hn _].
  destruct (ring_pushed _ b _ R2 L2 ltac:(intros i Hi; apply Hin; set_solver)
    ltac:(apply Hb; set_solver) Hn) as [R6 L6].
  split; [exact L6|exact R6|]. rewrite <- Hall. apply Permutation_middle.
Qed.

Lemma payload_trans b1 b2 b3 : same_payload b1 b2 -> same_payload b2 b3 -> same_payload b1 b3.
Proof. unfold same_payload. congruence. Qed.

Lemma to_front_payload b k j : same_payload (buf_at (to_front b k) j) (buf_at k j).
Proof.
  unfold to_front.
  eapply payload_trans; [apply payload_upd_next|]. eapply payload_trans; [apply payload_upd_prev|].
  eapply payload_trans; [apply payload_upd_prev|]. eapply payload_trans; [apply payload_upd_next|].
  eapply payload_trans; [apply payload_upd_next|]. apply payload_upd_prev.
Qed.

(** A buffer given back. *)
Definition drop_buf (b : buf) : buf := set_b_refcnt 0 (set_b_lock (unlock_of b) b).

Lemma brelse_done k c p i e :
  quiet k c p -> (i < NBUF)%nat -> length (k_buf k) = S NBUF ->
  held_buf (mypid k p) (buf_at k i) -> b_refcnt (buf_at k i) = 1 ->
  brelse i k e = Done tt (to_front i (put_buf i (drop_buf (buf_at k i)) k)) e.
Proof.
  intros Q Hi Hl Hh Hr. unfold brelse. run (holdingsleep_buf k c p i e Q Hi Hh). cbn [negb].
  run (releasesleep_buf k c p i e Q Hi Hl).
  set (k1 := put_buf i (set_b_lock (unlock_of (buf_at k i)) (buf_at k i)) k).
  assert (Q1 : quiet k1 c p) by eauto with kernel.
  run (acquire_fs k1 c p L_bcache e Q1 eq_refl). c_simpl.
  set (k2 := put_buf i (drop_buf (buf_at k i)) k).
  assert (E : upd_buf i (fun r => set_b_refcnt (u32 (b_refcnt r - 1)) r) (locked c L_bcache k1)
    = locked c L_bcache k2).
  { change (upd_buf i (fun r => set_b_refcnt (u32 (b_refcnt r - 1)) r) (locked c L_bcache k1))
      with (locked c L_bcache (upd_buf i (fun r => set_b_refcnt (u32 (b_refcnt r - 1)) r) k1)).
    f_equal. unfold k1, k2. rewrite upd_put, put_put, buf_at_put by lia. simpl. by rewrite Hr. }
  rewrite E. change (buf_at (locked c L_bcache k2) i) with (buf_at k2 i).
  unfold k2 at 1. rewrite buf_at_put by lia. cbn [drop_buf set_b_refcnt b_refcnt]. cbn [Z.eqb when].
  rewrite (bind_done _ _ _ _ _ _ _ (move_to_front_done i (locked c L_bcache k2) e)).
  change (to_front i (locked c L_bcache k2)) with (locked c L_bcache (to_front i k2)).
  apply (release_fs _ c p); [|done]. by apply (quiet_ext k).
Qed.
