(* ===== verification/Cache.v ===== *)
(** * What the buffer cache promises

    The cache as its clients see it ([cache]): the contents of every block, the
    blocks the running process holds and the blocks kept from eviction by
    [B_DIRTY].  [cache_ok] relates it to the buffers of bio.c and the disk, and
    each operation of Bio.v is shown to act on the abstract cache as expected. *)

From stdpp Require Import base gmap list strings sets.
From Stdlib Require Import ZArith Lia.
From S2P Require Import Prelude State Spinlock Sched Ring Bio.

Record cache : Type := mk_cache {
  a_blk : Z -> list Z;
  a_held : gmap Z nat;
  a_dirty : gset Z
}.

Definition set_a_blk (n : Z) (v : list Z) (a : cache) : cache :=
  mk_cache (fun m => if decide (m = n) then v else a_blk a m) (a_held a) (a_dirty a).
Definition set_a_held (h : gmap Z nat) (a : cache) : cache := mk_cache (a_blk a) h (a_dirty a).
Definition set_a_dirty (d : gset Z) (a : cache) : cache := mk_cache (a_blk a) (a_held a) d.

Definition DIRTY : Z := Z.lor B_VALID B_DIRTY.

(** Buffer [i] is the one for block [n] of disk 1. *)
Definition cached (k : kstate) (n : Z) (i : nat) : Prop :=
  (i < NBUF)%nat /\ b_dev (buf_at k i) = 1 /\ b_blockno (buf_at k i) = n.

#[export] Instance cached_dec k n i : Decision (cached k n i).
Proof. unfold cached. apply _. Defined.

(** One buffer: unused or held by the running process, and in step with the
    disk unless it is held or dirty. *)
Record buf_ok (k : kstate) (pid : Z) (b : buf) : Prop := {
  bk_length : length (b_data b) = BSIZE;
  bk_flags : b_flags b = 0 \/ b_flags b = B_VALID \/ b_flags b = DIRTY;
  bk_ref : b_refcnt b = 0 /\ sl_locked (b_lock b) = 0
    \/ b_refcnt b = 1 /\ held_buf pid b /\ b_flags b <> 0;
  bk_dev : b_flags b <> 0 -> b_dev b = 1 /\ in_range k (b_blockno b);
  bk_sync : b_flags b = B_VALID -> b_refcnt b = 0 -> b_data b = disk_block k (b_blockno b)
}.

Record cache_ok (k : kstate) (p : nat) (a : cache) : Prop := {
  co_linked : exists l, linked k l;
  co_buf : forall i, (i < NBUF)%nat -> buf_ok k (mypid k p) (buf_at k i);
  co_uniq : forall n i j, cached k n i -> cached k n j -> i = j;
  co_disk : forall n, length (disk_block k n) = BSIZE;
  co_held : forall n i, a_held a !! n = Some i <-> cached k n i /\ b_refcnt (buf_at k i) = 1;
  co_dirty : forall n, n ∈ a_dirty a <-> exists i, cached k n i /\ b_flags (buf_at k i) = DIRTY;
  co_blk : forall n i, cached k n i -> b_flags (buf_at k i) <> 0 -> a_blk a n = b_data (buf_at k i);
  co_clean : forall n, (forall i, cached k n i -> b_flags (buf_at k i) = 0) ->
    a_blk a n = disk_block k n
}.

(** What changes: buffers, disk and history of writes. *)
Definition strip (k : kstate) : kstate := set_k_buf [] (set_k_disk ∅ (set_k_writes [] k)).
Definition bio_frame (k k' : kstate) : Prop := strip k' = strip k.

Lemma bio_frame_field {A} (f : kstate -> A) k k' :
  (forall k, f k = f (strip k)) -> bio_frame k k' -> f k' = f k.
Proof. intros Hf H. rewrite (Hf k'), (Hf k). by rewrite H. Qed.

Lemma bio_frame_refl k : bio_frame k k.
Proof. done. Qed.

Lemma bio_frame_trans k1 k2 k3 : bio_frame k1 k2 -> bio_frame k2 k3 -> bio_frame k1 k3.
Proof. unfold bio_frame. congruence. Qed.

Lemma quiet_frame k k' c p : bio_frame k k' -> quiet k c p -> quiet k' c p.
Proof.
  intros F. apply quiet_ext; by apply bio_frame_field.
Qed.

Lemma buf_ok_ext k k' pid b :
  k_disksize k' = k_disksize k -> disk_block k' (b_blockno b) = disk_block k (b_blockno b) ->
  buf_ok k pid b -> buf_ok k' pid b.
Proof.
  intros Hd Hb [A B C D E]. split; try done.
  - unfold in_range. by rewrite Hd.
  - intros. rewrite Hb. auto.
Qed.

(** The state with buffer [i] replaced by a buffer for block [n]; the disk may
    change at [n]. *)
Record replaced (k k' : kstate) (i : nat) (b : buf) (n : Z) : Prop := {
  rp_buf : k_buf k' = <[i := b]> (k_buf k);
  rp_disksize : k_disksize k' = k_disksize k;
  rp_proc : k_proc k' = k_proc k;
  rp_disk : forall m, m <> n -> disk_block k' m = disk_block k m;
  rp_len : length (disk_block k' n) = BSIZE
}.

Lemma replaced_at k k' i b n j :
  replaced k k' i b n -> (i < length (k_buf k))%nat ->
  buf_at k' j = if decide (j = i) then b else buf_at k j.
Proof.
  intros R Hi. unfold buf_at. rewrite (rp_buf _ _ _ _ _ R). case_decide; subst.
  - by rewrite list_lookup_insert_eq.
  - by rewrite list_lookup_insert_ne.
Qed.

Lemma cached_replaced_eq k k' i b n j :
  replaced k k' i b n -> (i < NBUF)%nat -> length (k_buf k) = S NBUF ->
  b_dev b = 1 -> b_blockno b = n -> (forall j, cached k n j -> j = i) ->
  cached k' n j <-> j = i.
Proof.
  intros R Hi Hl Hd Hn Hu. unfold cached. rewrite (replaced_at _ _ _ _ _ _ R) by lia.
  case_decide as E; [subst; tauto|]. split; [|done]. intros (H1 & H2 & H3). by apply Hu.
Qed.

Lemma cached_replaced_ne k k' i b n m j :
  replaced k k' i b n -> (i < NBUF)%nat -> length (k_buf k) = S NBUF ->
  b_blockno b = n -> (b_dev (buf_at k i) <> 1 \/ b_blockno (buf_at k i) = n) -> m <> n ->
  cached k' m j <-> cached k m j /\ j <> i.
Proof.
  intros R Hi Hl Hn Ho Hm. unfold cached. rewrite (replaced_at _ _ _ _ _ _ R) by lia.
  case_decide as E; [subst; naive_solver|]. naive_solver.
Qed.

Lemma cached_ne k i n m j :
  (b_dev (buf_at k i) <> 1 \/ b_blockno (buf_at k i) = n) -> m <> n -> cached k m j -> j <> i.
Proof. intros Ho Hm (_ & Hd & Hb) ->. naive_solver. Qed.

Lemma linked_replaced k k' i b n l :
  replaced k k' i b n -> linked k l -> b_next b = nx k i -> b_prev b = pv k i -> linked k' l.
Proof.
  intros R L Hnx Hpv. assert (E : linked (put_buf i b k) l) by (by apply linked_put).
  destruct E as [A B C]. split; [|..|done].
  - rewrite (rp_buf _ _ _ _ _ R). exact A.
  - revert B. apply ring_fn_ext; intros j; unfold nx, pv, buf_at, put_buf; simpl;
      by rewrite (rp_buf _ _ _ _ _ R).
Qed.

Lemma buf_ok_replaced k k' p i b n j :
  replaced k k' i b n -> (i < length (k_buf k))%nat -> (j < NBUF)%nat ->
  (forall j, cached k n j -> j = i) -> buf_ok k' (mypid k p) b ->
  buf_ok k (mypid k p) (buf_at k j) -> buf_ok k' (mypid k' p) (buf_at k' j).
Proof.
  intros R Hl Hj Hu1 Hb [B1 B2 B3 B4 B5]. unfold mypid, proc_at.
  rewrite (rp_proc _ _ _ _ _ R), (replaced_at _ _ _ _ _ j R Hl).
  destruct (decide (j = i)) as [->|E]; [exact Hb|].
  destruct (decide (b_dev (buf_at k j) = 1 /\ b_blockno (buf_at k j) = n)) as [[X Y]|X].
  { destruct E. apply Hu1. by split_and!. }
  split; try done.
  - unfold in_range. by rewrite (rp_disksize _ _ _ _ _ R).
  - intros F G. rewrite (rp_disk _ _ _ _ _ R); [auto|]. intros Y. apply X.
    split; [|done]. apply B4. rewrite F. done.
Qed.

(** The general update: buffer [i], which held block [n] or nothing, becomes
    [b], a buffer for block [n]. *)
Lemma cache_ok_replaced k k' p a a' i b n :
  cache_ok k p a -> replaced k k' i b n -> (i < NBUF)%nat ->
  (b_dev (buf_at k i) <> 1 \/ b_blockno (buf_at k i) = n) -> (forall j, cached k n j -> j = i) ->
  b_dev b = 1 -> b_blockno b = n -> b_next b = nx k i -> b_prev b = pv k i ->
  buf_ok k' (mypid k p) b ->
  (forall m, m <> n -> a_held a' !! m = a_held a !! m) ->
  a_held a' !! n = (if decide (b_refcnt b = 1) then Some i else None) ->
  (forall m, m <> n -> m ∈ a_dirty a' <-> m ∈ a_dirty a) ->
  (n ∈ a_dirty a' <-> b_flags b = DIRTY) ->
  (forall m, m <> n -> a_blk a' m = a_blk a m) ->
  a_blk a' n = (if decide (b_flags b = 0) then disk_block k' n else b_data b) ->
  cache_ok k' p a'.
Proof.
  intros [[l L] Hbuf Hu Hdisk Hheld Hdirty Hblk Hclean] R Hi Ho Hu1 Hd Hn Hnx Hpv Hb H1 H2 H3 H4 H5 H6.
  pose proof (ln_length _ _ L) as Hl.
  pose proof (fun j => replaced_at _ _ _ _ _ j R ltac:(lia)) as At.
  pose proof (fun j => cached_replaced_eq _ _ _ _ _ j R Hi Hl Hd Hn Hu1) as Ceq.
  pose proof (fun m j => cached_replaced_ne _ _ _ _ _ m j R Hi Hl Hn Ho) as Cne.
  pose proof (fun m j => cached_ne k i n m j Ho) as Ne.
  assert (Atne : forall m j, m <> n -> cached k m j -> buf_at k' j = buf_at k j).
  { intros m j Hm Hc. rewrite At, decide_False; [done|]. by eapply Ne. }
  split.
  - exists l. by apply (linked_replaced k k' i b n).
  - intros j Hj. apply (buf_ok_replaced k k' p i b n); auto with lia.
  - intros m j j' A B. destruct (decide (m = n)) as [->|Hm].
    + apply Ceq in A, B. congruence.
    + apply (Cne m j Hm) in A as [A _]. apply (Cne m j' Hm) in B as [B _]. by eapply Hu.
  - intros m. destruct (decide (m = n)) as [->|Hm]; [apply R|]. by rewrite (rp_disk _ _ _ _ _ R).
  - intros m j. destruct (decide (m = n)) as [->|Hm].
    + rewrite H2, Ceq. destruct (decide (b_refcnt b = 1)) as [E|E]; split; try done.
      * intros [= <-]. split; [done|]. by rewrite At, decide_True.
      * intros [-> _]. done.
      * intros [-> F]. by rewrite At, decide_True in F.
    + rewrite (H1 m Hm), Hheld, (Cne m j Hm). split.
      * intros [A B]. rewrite (Atne m j Hm A). eauto.
      * intros [[A _] B]. by rewrite (Atne m j Hm A) in B.
  - intros m. destruct (decide (m = n)) as [->|Hm].
    + rewrite H4. split.
      * intros F. exists i. rewrite Ceq, At, decide_True by done. done.
      * intros (j & ->%Ceq & F). by rewrite At, decide_True in F.
    + rewrite (H3 m Hm), Hdirty. split; intros (j & A & B).
      * exists j. rewrite (Cne m j Hm), (Atne m j Hm A). eauto.
      * apply (Cne m j Hm) in A as [A _]. exists j. by rewrite (Atne m j Hm A) in B.
  - intros m j A F. destruct (decide (m = n)) as [->|Hm].
    + apply Ceq in A as ->. rewrite At, decide_True in F |- * by done. by rewrite H6, decide_False.
    + apply (Cne m j Hm) in A as [A _]. rewrite (Atne m j Hm A) in F |- *. rewrite H5 by done. eauto.
  - intros m F. destruct (decide (m = n)) as [->|Hm].
    + rewrite H6, decide_True; [done|]. specialize (F i ltac:(by apply Ceq)).
      by rewrite At, decide_True in F.
    + rewrite H5, (rp_disk _ _ _ _ _ R) by done. apply Hclean. intros j A.
      rewrite <- (Atne m j Hm A). apply F, (Cne m j Hm). eauto.
Qed.

(** ** Updates of one buffer *)

Lemma replaced_put k p a i b n :
  cache_ok k p a -> replaced k (put_buf i b k) i b n.
Proof. intros C. split; try done. apply C. Qed.

(** A buffer that is neither held nor dirty can forget its block. *)
Definition evict (b : buf) : buf := set_b_dev 0 (set_b_flags 0 b).

Lemma cache_ok_evict k p a i :
  cache_ok k p a -> (i < NBUF)%nat -> b_refcnt (buf_at k i) = 0 -> b_flags (buf_at k i) <> DIRTY ->
  cache_ok (put_buf i (evict (buf_at k i)) k) p a.
Proof.
  intros [[l L] Hbuf Hu Hdisk Hheld Hdirty Hblk Hclean] Hi Hr Hf.
  pose proof (ln_length _ _ L) as Hl. set (k' := put_buf i _ k).
  assert (At : forall j, buf_at k' j = if decide (j = i) then evict (buf_at k i) else buf_at k j).
  { intros j. unfold k'. case_decide; subst; [rewrite buf_at_put; [done|lia]|by rewrite buf_at_put_ne]. }
  assert (C : forall n j, cached k' n j <-> cached k n j /\ j <> i).
  { intros n j. unfold cached. rewrite At. destruct (decide (j = i)); [|naive_solver].
    subst. simpl. naive_solver. }
  assert (At' : forall j, j <> i -> buf_at k' j = buf_at k j) by (intros; by rewrite At, decide_False).
  destruct (Hbuf i Hi) as [B1 B2 B3 B4 B5]. split; try done.
  - exists l. by apply linked_put.
  - intros j Hj. rewrite At. destruct (decide (j = i)); [|by apply (buf_ok_ext k), Hbuf].
    split; simpl; try done; [auto|]. left. destruct B3 as [?|[? _]]; [done|congruence].
  - intros n j j' [A _]%C [B _]%C. by eapply Hu.
  - intros n j. rewrite Hheld, C. split.
    + intros [A B]. assert (j <> i) by congruence. by rewrite At'.
    + intros [[A Hj] B]. by rewrite At' in B.
  - intros n. rewrite Hdirty. split; intros (j & A & B).
    + assert (j <> i) by congruence. exists j. by rewrite C, At'.
    + apply C in A as [A Hj]. exists j. by rewrite At' in B.
  - intros n j [A Hj]%C. rewrite At' by done. by apply Hblk.
  - intros n F. destruct (decide (cached k n i)) as [Hc|Hc].
    + destruct (decide (b_flags (buf_at k i) = 0)) as [Hz|Hz].
      * apply Hclean. intros j Hj. by rewrite (Hu n j i Hj Hc).
      * rewrite (Hblk n i Hc Hz). rewrite B5; [|naive_solver|done]. by destruct Hc as (_ & _ & ->).
    + apply Hclean. intros j Hj. assert (Hji : j <> i) by (intros ->; done).
      rewrite <- (At' j Hji). apply F, C. done.
Qed.

(** What a client knows of a block it holds. *)
Lemma held_facts k p a n i :
  cache_ok k p a -> a_held a !! n = Some i ->
  (i < NBUF)%nat /\ b_dev (buf_at k i) = 1 /\ b_blockno (buf_at k i) = n
  /\ b_refcnt (buf_at k i) = 1 /\ held_buf (mypid k p) (buf_at k i) /\ in_range k n
  /\ (b_flags (buf_at k i) = B_VALID \/ b_flags (buf_at k i) = DIRTY)
  /\ b_data (buf_at k i) = a_blk a n /\ length (a_blk a n) = BSIZE.
Proof.
  intros C H. apply (co_held _ _ _ C) in H as [Hc Hr]. pose proof Hc as (Hi & Hd & Hn).
  destruct (co_buf _ _ _ C i Hi) as [B1 B2 B3 B4 _].
  destruct B3 as [[? _]|(_ & Hh & Hf)]; [congruence|]. destruct (B4 Hf) as [_ Hrange].
  rewrite (co_blk _ _ _ C n i Hc Hf). subst n. naive_solver.
Qed.

(** ** Finding a buffer *)

Lemma unused_false k pid b : buf_ok k pid b -> unused b = false -> b_refcnt b = 1 \/ b_flags b = DIRTY.
Proof.
  intros [_ B2 B3 _ _] H. unfold unused in H. destruct B3 as [[Hr _]|[? _]]; [|by left]. right.
  rewrite Hr in H. simpl in H. destruct B2 as [F|[F|F]]; [..|done]; rewrite F in H; done.
Qed.

Lemma unused_true k pid b :
  buf_ok k pid b -> unused b = true -> b_refcnt b = 0 /\ sl_locked (b_lock b) = 0 /\ b_flags b <> DIRTY.
Proof.
  intros [_ B2 B3 _ _] H. unfold unused in H. apply andb_true_iff in H as [H1%Z.eqb_eq H2%Z.eqb_eq].
  destruct B3 as [[_ Hl]|[? _]]; [|congruence]. split_and!; [done..|]. intros F. by rewrite F in H2.
Qed.

(** A buffer can be recycled as long as the held and the dirty blocks are fewer
    than the buffers. *)
Lemma unused_exists k p a :
  cache_ok k p a -> (size (dom (a_held a) ∪ a_dirty a) < NBUF)%nat ->
  exists i, (i < NBUF)%nat /\ unused (buf_at k i) = true.
Proof.
  intros C Hs. destruct (decide (Exists (fun i => unused (buf_at k i) = true) (seq 0 NBUF))) as [H|H].
  { apply Exists_exists in H as (i & Hi & H). exists i. apply elem_of_seq in Hi. split; [lia|done]. }
  exfalso. apply not_Exists_Forall in H; [|intros; apply _].
  assert (Hu : forall i, (i < NBUF)%nat -> b_refcnt (buf_at k i) = 1 \/ b_flags (buf_at k i) = DIRTY).
  { intros i Hi. apply (unused_false k (mypid k p)); [by apply C|].
    apply not_true_iff_false. eapply Forall_forall in H; [exact H|]. apply elem_of_seq. lia. }
  assert (Hc : forall i, (i < NBUF)%nat -> cached k (b_blockno (buf_at k i)) i).
  { intros i Hi. split_and!; [done| |done]. destruct (co_buf _ _ _ C i Hi) as [_ _ B3 B4 _].
    apply B4. destruct (Hu i Hi) as [Hr|Hf]; [|by rewrite Hf]. destruct B3 as [[? _]|(_ & _ & ?)]; [congruence|done]. }
  set (bs := (fun i => b_blockno (buf_at k i)) <$> seq 0 NBUF).
  assert (Hn : NoDup bs).
  { apply NoDup_fmap_2_strong; [|apply NoDup_seq]. intros x y Hx%elem_of_seq Hy%elem_of_seq E.
    apply (co_uniq _ _ _ C (b_blockno (buf_at k x))); [apply Hc; lia|]. rewrite E. apply Hc. lia. }
  assert (Hsub : (list_to_set bs : gset Z) ⊆ dom (a_held a) ∪ a_dirty a).
  { intros n Hn'. apply elem_of_list_to_set, list_elem_of_fmap in Hn' as (i & -> & Hi%elem_of_seq).
    destruct (Hu i ltac:(lia)) as [Hr|Hf]; apply elem_of_union; [left|right].
    - apply elem_of_dom. exists i. apply (co_held _ _ _ C). split; [apply Hc; lia|done].
    - apply (co_dirty _ _ _ C). exists i. split; [apply Hc; lia|done]. }
  apply subseteq_size in Hsub. rewrite size_list_to_set in Hsub by done.
  unfold bs in Hsub. rewrite length_fmap, length_seq in Hsub. lia.
Qed.

(** ** The operations on the abstract cache *)

Definition same_disk (k k' : kstate) : Prop := k_disk k' = k_disk k /\ k_writes k' = k_writes k.

Definition hold (n : Z) (i : nat) (a : cache) : cache := set_a_held (<[n := i]> (a_held a)) a.
Definition unhold (n : Z) (a : cache) : cache := set_a_held (delete n (a_held a)) a.
Definition pin (n : Z) (a : cache) : cache := set_a_dirty ({[n]} ∪ a_dirty a) a.
Definition unpin (n : Z) (a : cache) : cache := set_a_dirty (a_dirty a ∖ {[n]}) a.

(** Taking a cached block. *)
Lemma cache_ok_grab k p a n i :
  cache_ok k p a -> cached k n i -> b_flags (buf_at k i) <> 0 ->
  cache_ok (put_buf i (grab (mypid k p) (buf_at k i)) k) p (hold n i a).
Proof.
  intros C Hc Hf. pose proof Hc as (Hi & Hd & Hn). destruct (co_buf _ _ _ C i Hi) as [B1 B2 B3 B4 B5].
  eapply (cache_ok_replaced k _ p a _ i (grab (mypid k p) (buf_at k i)) n C); try done.
  - by eapply replaced_put.
  - by right.
  - intros j Hj. by apply (co_uniq _ _ _ C n).
  - split; simpl; try done; right; by split_and!.
  - intros m Hm. simpl. by rewrite lookup_insert_ne.
  - simpl. by rewrite lookup_insert_eq.
  - simpl. rewrite (co_dirty _ _ _ C). split; [|by eauto]. intros (j & Hj & F).
    by rewrite (co_uniq _ _ _ C n i j Hc Hj).
  - simpl. rewrite decide_False by done. by apply (co_blk _ _ _ C).
Qed.

(** Reading a block into a buffer that had another block, or none. *)
Lemma cache_ok_fill k p a n i b :
  cache_ok k p a -> (i < NBUF)%nat -> b_flags (buf_at k i) = 0 ->
  (b_dev (buf_at k i) <> 1 \/ b_blockno (buf_at k i) = n) -> (forall j, cached k n j -> j = i) ->
  in_range k n -> b_dev b = 1 -> b_blockno b = n -> b_next b = nx k i -> b_prev b = pv k i ->
  b_refcnt b = 1 -> held_buf (mypid k p) b -> b_flags b = B_VALID -> b_data b = disk_block k n ->
  cache_ok (put_buf i b k) p (hold n i a).
Proof.
  intros C Hi Hf Ho Hu Hr Hd Hn Hnx Hpv Hrc Hh Hfl Hdat.
  assert (Hz : forall j, cached k n j -> b_flags (buf_at k j) = 0) by (intros j ->%Hu; done).
  eapply (cache_ok_replaced k _ p a _ i b n C); try done.
  - by eapply replaced_put.
  - split; rewrite ?Hdat, ?Hfl, ?Hrc, ?Hn; try done; [apply C|by right; left|right; by split_and!].
  - intros m Hm. simpl. by rewrite lookup_insert_ne.
  - simpl. by rewrite lookup_insert_eq, decide_True.
  - simpl. rewrite Hfl, (co_dirty _ _ _ C). split; [|done].
    intros (j & Hj & F). by rewrite (Hz j Hj) in F.
  - simpl. rewrite Hfl, decide_False by done. rewrite Hdat. by apply (co_clean _ _ _ C).
Qed.

Lemma find_cached k l n i :
  linked k l -> List.find (fun i => has_block 1 n (buf_at k i)) l = Some i -> cached k n i.
Proof.
  intros L [Hi Ht]%List.find_some. apply list_elem_of_In, (linked_in _ _ _ L) in Hi.
  unfold has_block in Ht. apply andb_true_iff in Ht as [H1%Z.eqb_eq H2%Z.eqb_eq]. by split_and!.
Qed.

Lemma find_not_cached k l n i :
  linked k l -> List.find (fun i => has_block 1 n (buf_at k i)) l = None -> ~ cached k n i.
Proof.
  intros L Hn (Hi & Hd & Hb). apply (linked_in _ _ _ L), list_elem_of_In in Hi.
  pose proof (List.find_none _ _ Hn i Hi) as H. simpl in H. unfold has_block in H.
  by rewrite Hd, Hb, !Z.eqb_refl in H.
Qed.

Lemma find_unused k p a l :
  cache_ok k p a -> linked k l -> (size (dom (a_held a) ∪ a_dirty a) < NBUF)%nat ->
  exists i, List.find (fun i => unused (buf_at k i)) (rev l) = Some i
    /\ (i < NBUF)%nat /\ unused (buf_at k i) = true.
Proof.
  intros C L Hs. destruct (List.find _ (rev l)) as [i|] eqn:E.
  - exists i. apply List.find_some in E as [Hi Hu]. split_and!; [done| |done].
    rewrite <- in_rev in Hi. by apply list_elem_of_In, (linked_in _ _ _ L) in Hi.
  - destruct (unused_exists k p a C Hs) as (i & Hi & Hu). exfalso.
    apply (linked_in _ _ _ L), list_elem_of_In in Hi. rewrite in_rev in Hi.
    pose proof (List.find_none _ _ E i Hi). simpl in *. congruence.
Qed.

(** After [bget] returned a buffer without contents, [bread] fills it. *)
Lemma bread_fill k c p i b n e :
  quiet k c p -> (i < NBUF)%nat -> length (k_buf k) = S NBUF -> in_range k n ->
  held_buf (mypid k p) b -> b_flags b = 0 -> b_dev b = 1 -> b_blockno b = n ->
  bget 1 n k e = Done i (put_buf i b k) e ->
  bread 1 n k e = Done i (put_buf i (load (disk_block k n) b) k) e.
Proof.
  intros Q Hi Hl Hr Hh Hf Hd Hn Hg. unfold bread. run Hg. c_simpl.
  set (k1 := put_buf i b k). assert (A1 : buf_at k1 i = b) by (apply buf_at_put; lia).
  rewrite A1, Hf. change (Z.land 0 B_VALID =? 0) with true. cbn [when].
  rewrite (bind_done _ _ _ _ _ _ _ (iderw_read k1 c p i e ltac:(unfold k1; eauto with kernel) Hi
    ltac:(unfold k1; rewrite length_put; lia) ltac:(by rewrite A1) ltac:(by rewrite A1)
    ltac:(by rewrite A1) ltac:(rewrite A1; by subst n))).
  rewrite A1, Hn. unfold k1. by rewrite put_put.
Qed.

Lemma bread_hit k c p a l n i e :
  quiet k c p -> cache_ok k p a -> linked k l -> in_range k n -> a_held a !! n = None ->
  List.find (fun i => has_block 1 n (buf_at k i)) l = Some i ->
  exists k', bread 1 n k e = Done i k' e /\ cache_ok k' p (hold n i a)
    /\ bio_frame k k' /\ same_disk k k'.
Proof.
  intros Q C L Hr Hh E. pose proof (ln_length _ _ L) as Hl.
  pose proof (find_cached _ _ _ _ L E) as Hc. pose proof Hc as (Hi & Hd & Hn).
  destruct (co_buf _ _ _ C i Hi) as [B1 B2 B3 B4 B5].
  assert (Hrc : b_refcnt (buf_at k i) = 0 /\ sl_locked (b_lock (buf_at k i)) = 0).
  { destruct B3 as [?|[Hrc _]]; [done|]. rewrite (proj2 (co_held _ _ _ C n i)) in Hh; done. }
  pose proof (bget_hit k c p l i 1 n e Q L E (proj1 Hrc) (proj2 Hrc)) as Hg.
  destruct (decide (b_flags (buf_at k i) = 0)) as [Hz|Hz].
  - eexists. split; [by apply (bread_fill k c p i (grab (mypid k p) (buf_at k i)) n e Q Hi Hl Hr)|].
    split; [|done]. apply cache_ok_fill; try done; [by right|].
    intros j Hj. by apply (co_uniq _ _ _ C n).
  - eexists. split; [|split; [by apply cache_ok_grab|done]]. unfold bread. run Hg. c_simpl.
    rewrite buf_at_put by lia. simpl b_flags.
    by replace (Z.land (b_flags (buf_at k i)) B_VALID =? 0) with false
      by (destruct B2 as [?|[-> | ->]]; done).
Qed.

Lemma bread_miss k c p a l n e :
  quiet k c p -> cache_ok k p a -> linked k l -> in_range k n ->
  (size (dom (a_held a) ∪ a_dirty a) < NBUF)%nat ->
  List.find (fun i => has_block 1 n (buf_at k i)) l = None ->
  exists i k', bread 1 n k e = Done i k' e /\ cache_ok k' p (hold n i a)
    /\ bio_frame k k' /\ same_disk k k'.
Proof.
  intros Q C L Hr Hs E. pose proof (ln_length _ _ L) as Hl.
  destruct (find_unused k p a l C L Hs) as (i & Ev & Hi & Hu).
  pose proof (unused_true k _ _ (co_buf _ _ _ C i Hi) Hu) as (Hrc & Hlk & Hnd).
  pose proof (bget_miss k c p l i 1 n e Q L E Ev Hlk) as Hg.
  eexists i, _. split.
  { by apply (bread_fill k c p i (grab (mypid k p) (recycle 1 n (buf_at k i))) n e Q Hi Hl Hr). }
  split; [|done]. rewrite <- (put_put i _ (evict (buf_at k i)) k).
  pose proof (cache_ok_evict k p a i C Hi Hrc Hnd) as C1.
  assert (A2 : buf_at (put_buf i (evict (buf_at k i)) k) i = evict (buf_at k i)) by (apply buf_at_put; lia).
  apply cache_ok_fill; unfold nx, pv; rewrite ?A2; try done; [by left|].
  intros j (Hjb & Hj & Hjn). destruct (decide (j = i)) as [->|Hji]; [done|].
  rewrite buf_at_put_ne in Hj, Hjn by done. exfalso. by apply (find_not_cached k l n j L E).
Qed.

(** [bread] of a block that is not held takes it, with its contents; a dirty
    block is cached, so that no buffer has to be recycled for it. *)
Lemma bread_ok k c p a n e :
  quiet k c p -> cache_ok k p a -> in_range k n -> a_held a !! n = None ->
  n ∈ a_dirty a \/ (size (dom (a_held a) ∪ a_dirty a) < NBUF)%nat ->
  exists i k', bread 1 n k e = Done i k' e /\ cache_ok k' p (hold n i a)
    /\ bio_frame k k' /\ same_disk k k'.
Proof.
  intros Q C Hr Hh Hs. destruct (co_linked _ _ _ C) as [l L].
  destruct (List.find (fun i => has_block 1 n (buf_at k i)) l) as [i|] eqn:E.
  - exists i. by eapply bread_hit.
  - destruct Hs as [Hs|Hs]; [|by eapply bread_miss].
    apply (co_dirty _ _ _ C) in Hs as (i & Hc & _). by destruct (find_not_cached k l n i L E).
Qed.

Lemma payload_fields b b' :
  same_payload b b' ->
  b_flags b = b_flags b' /\ b_dev b = b_dev b' /\ b_blockno b = b_blockno b' /\ b_lock b = b_lock b'
  /\ b_refcnt b = b_refcnt b' /\ b_data b = b_data b'.
Proof. destruct b, b'. unfold same_payload. simpl. intros [=]. by subst. Qed.

(** The abstract cache does not depend on the order of the list. *)
Lemma cache_ok_payload k k' p a :
  cache_ok k p a -> (exists l, linked k' l) -> (forall j, same_payload (buf_at k' j) (buf_at k j)) ->
  k_disk k' = k_disk k -> k_disksize k' = k_disksize k -> k_proc k' = k_proc k -> cache_ok k' p a.
Proof.
  intros C L' Hp Hd Hsz Hpr. pose proof (fun j => payload_fields _ _ (Hp j)) as F.
  assert (Hb : forall n, disk_block k' n = disk_block k n) by (intros; unfold disk_block; by rewrite Hd).
  assert (Hc : forall n i, cached k' n i <-> cached k n i).
  { intros n i. unfold cached. destruct (F i) as (_ & -> & -> & _). done. }
  destruct C as [_ H1 H2 H3 H4 H5 H6 H7]. split; [done|..].
  - intros i Hi. destruct (H1 i Hi) as [B1 B2 B3 B4 B5]. destruct (F i) as (E1 & E2 & E3 & E4 & E5 & E6).
    unfold held_buf, in_range, mypid, proc_at in *.
    split; unfold held_buf, in_range; rewrite ?E1, ?E2, ?E3, ?E4, ?E5, ?E6, ?Hb, ?Hsz, ?Hpr; done.
  - intros n i j A%Hc B%Hc. by eapply H2.
  - intros n. by rewrite Hb.
  - intros n i. destruct (F i) as (_ & _ & _ & _ & -> & _). by rewrite Hc.
  - intros n. rewrite H5. split; intros (i & A & B); exists i; destruct (F i) as (E & _);
      [rewrite Hc, E|rewrite Hc in A; rewrite E in B]; done.
  - intros n i A%Hc. destruct (F i) as (-> & _ & _ & _ & _ & ->). by apply H6.
  - intros n A. rewrite Hb. apply H7. intros i B. destruct (F i) as (<- & _). by apply A, Hc.
Qed.

Lemma cache_ok_to_front k p a i : cache_ok k p a -> (i < NBUF)%nat -> cache_ok (to_front i k) p a.
Proof.
  intros C Hi. destruct (co_linked _ _ _ C) as [l L]. apply (cache_ok_payload k); try done.
  - apply (linked_in _ _ _ L) in Hi. destruct (list_elem_of_split _ _ Hi) as (l1 & l2 & E).
    rewrite E in L. eexists. by apply linked_to_front.
  - intros j. apply to_front_payload.
Qed.

(** An update of a held buffer that keeps it held. *)
Lemma cache_ok_held k k' p a a' n i b :
  cache_ok k p a -> a_held a !! n = Some i -> replaced k k' i b n ->
  b_dev b = 1 -> b_blockno b = n -> b_refcnt b = 1 -> b_lock b = b_lock (buf_at k i) ->
  b_next b = nx k i -> b_prev b = pv k i -> length (b_data b) = BSIZE ->
  (b_flags b = B_VALID \/ b_flags b = DIRTY) ->
  a_held a' = a_held a -> a_blk a' n = b_data b -> (forall m, m <> n -> a_blk a' m = a_blk a m) ->
  (n ∈ a_dirty a' <-> b_flags b = DIRTY) -> (forall m, m <> n -> m ∈ a_dirty a' <-> m ∈ a_dirty a) ->
  cache_ok k' p a'.
Proof.
  intros C Hh R Hd Hn Hr Hlk Hnx Hpv Hlen Hf E1 E2 E3 E4 E5.
  pose proof (held_facts _ _ _ _ _ C Hh) as (Hi & Hd' & Hn' & Hr' & Hhb & Hrange & _).
  assert (b_flags b <> 0) by (destruct Hf as [-> | ->]; done).
  apply (cache_ok_replaced k k' p a a' i b n C R Hi); try done.
  - by right.
  - intros j Hj. eapply (co_uniq _ _ _ C); [done|]. by split_and!.
  - split; try done.
    + by right.
    + right. unfold held_buf. by rewrite Hlk.
    + unfold in_range. rewrite (rp_disksize _ _ _ _ _ R), Hn. done.
    + congruence.
  - intros. by rewrite E1.
  - rewrite E1, decide_True by done. done.
  - by rewrite E2, decide_False.
Qed.

(** The holder of a block stores into it. *)
Lemma cache_ok_store k p a n i v :
  cache_ok k p a -> a_held a !! n = Some i -> length v = BSIZE ->
  cache_ok (upd_buf i (set_b_data v) k) p (set_a_blk n v a).
Proof.
  intros C Hh Hv. pose proof (held_facts _ _ _ _ _ C Hh) as (Hi & Hd & Hn & Hr & _ & _ & Hf & _).
  rewrite upd_put. eapply (cache_ok_held k _ p a _ n i _ C Hh); [by eapply replaced_put|try done..].
  - simpl. by rewrite decide_True.
  - intros m Hm. simpl. by rewrite decide_False.
  - simpl. rewrite (co_dirty _ _ _ C). apply (co_held _ _ _ C) in Hh as [Hc _].
    split; [|by eauto]. intros (j & Hj & F). by rewrite (co_uniq _ _ _ C n i j Hc Hj).
Qed.

(** [b->flags |= B_DIRTY]. *)
Lemma cache_ok_pin k p a n i :
  cache_ok k p a -> a_held a !! n = Some i ->
  cache_ok (upd_buf i (fun b => set_b_flags (Z.lor (b_flags b) B_DIRTY) b) k) p (pin n a).
Proof.
  intros C Hh. pose proof (held_facts _ _ _ _ _ C Hh) as (Hi & Hd & Hn & Hr & _ & _ & Hf & Hdat & Hlen).
  rewrite upd_put. eapply (cache_ok_held k _ p a _ n i _ C Hh); [by eapply replaced_put|try done..].
  - simpl. by rewrite Hdat.
  - simpl. right. by destruct Hf as [-> | ->].
  - simpl. destruct Hf as [-> | ->]; set_solver.
  - simpl. set_solver.
Qed.

(** [bwrite] puts the block on the disk and on the history of writes. *)
Lemma bwrite_ok k c p a n i e :
  quiet k c p -> cache_ok k p a -> a_held a !! n = Some i ->
  exists k', bwrite i k e = Done tt k' e /\ cache_ok k' p (unpin n a) /\ bio_frame k k'
    /\ k_disk k' = <[n := a_blk a n]> (k_disk k) /\ k_writes k' = k_writes k ++ [(n, a_blk a n)].
Proof.
  intros Q C Hh. pose proof (held_facts _ _ _ _ _ C Hh) as (Hi & Hd & Hn & Hr & Hhb & Hrange & Hf & Hdat & Hlen).
  destruct (co_linked _ _ _ C) as [l L]. pose proof (ln_length _ _ L) as Hl.
  exists (written i k). split; [apply (bwrite_done k c p); try done; by rewrite Hn|].
  unfold written. rewrite Hn, Hdat. split; [|done].
  eapply (cache_ok_held k _ p a _ n i (set_b_flags B_VALID (buf_at k i)) C Hh); try done.
  - split; try done.
    + intros m Hm. unfold disk_block, disk_write. simpl. by rewrite lookup_insert_ne.
    + unfold disk_block, disk_write. simpl. by rewrite lookup_insert_eq.
  - simpl. by rewrite Hdat.
  - by left.
  - simpl. set_solver.
  - simpl. set_solver.
Qed.

(** [brelse] gives the block back, once it is on the disk or dirty. *)
Lemma brelse_ok k c p a n i e :
  quiet k c p -> cache_ok k p a -> a_held a !! n = Some i ->
  n ∈ a_dirty a \/ a_blk a n = disk_block k n ->
  exists k', brelse i k e = Done tt k' e /\ cache_ok k' p (unhold n a)
    /\ bio_frame k k' /\ same_disk k k'.
Proof.
  intros Q C Hh Hs. pose proof (held_facts _ _ _ _ _ C Hh) as (Hi & Hd & Hn & Hr & Hhb & Hrange & Hf & Hdat & Hlen).
  destruct (co_linked _ _ _ C) as [l L]. pose proof (ln_length _ _ L) as Hl.
  eexists. split; [by apply (brelse_done k c p)|]. split; [|done].
  apply cache_ok_to_front; [|done].
  pose proof Hh as [Hc _]%(co_held _ _ _ C).
  assert (Hdirty : n ∈ a_dirty a <-> b_flags (buf_at k i) = DIRTY).
  { rewrite (co_dirty _ _ _ C). split; [|by eauto]. intros (j & Hj & F).
    by rewrite (co_uniq _ _ _ C n i j Hc Hj). }
  assert (b_flags (buf_at k i) <> 0) by (destruct Hf as [-> | ->]; done).
  apply (cache_ok_replaced k _ p a _ i (drop_buf (buf_at k i)) n C); try done.
  - by eapply replaced_put.
  - by right.
  - intros j Hj. by apply (co_uniq _ _ _ C n).
  - split; simpl; try done.
    + by rewrite Hdat.
    + by right.
    + by left.
    + intros _. by rewrite Hn.
    + intros F _. rewrite Hn, Hdat. destruct Hs as [Hs|Hs]; [|done]. apply Hdirty in Hs. by rewrite F in Hs.
  - intros m Hm. simpl. by rewrite lookup_delete_ne.
  - simpl. by rewrite lookup_delete_eq.
  - simpl. by rewrite decide_False.
Qed.

(** ** [binit] *)

(** A buffer as [binit] leaves it. *)
Definition fresh (b : buf) : Prop :=
  b_flags b = 0 /\ b_dev b = 0 /\ b_refcnt b = 0 /\ sl_locked (b_lock b) = 0
  /\ length (b_data b) = BSIZE.

Lemma fresh_payload b b' : same_payload b b' -> fresh b' -> fresh b.
Proof.
  intros (E1 & E2 & E3 & E4 & E5 & E6)%payload_fields. unfold fresh. by rewrite E1, E2, E4, E5, E6.
Qed.

Lemma upd_buf_comm i j f g k :
  (forall b, f (g b) = g (f b)) -> upd_buf i f (upd_buf j g k) = upd_buf j g (upd_buf i f k).
Proof.
  intros H. change (set_k_buf (alter f i (alter g j (k_buf k))) k = set_k_buf (alter g j (alter f i (k_buf k))) k).
  f_equal. apply list_eq. intros n. rewrite !list_lookup_alter.
  repeat case_decide; subst; try done; destruct (k_buf k !! _); simpl; by rewrite ?H.
Qed.

Definition fresh_lock : sleeplock := mk_sleeplock 0 "buffer" 0.

(** The links [binit_buf] stores, without the initialisation of the lock. *)
Definition pushed (b : nat) (k : kstate) : kstate :=
  let k3 := upd_buf b (set_b_next (nx k NBUF)) k in
  let k4 := upd_buf b (set_b_prev NBUF) k3 in
  let k5 := upd_buf (nx k4 NBUF) (set_b_prev b) k4 in
  upd_buf NBUF (set_b_next b) k5.

Definition add_lock (lk : lockid) (name : string) (k : kstate) : kstate :=
  set_k_locks (<[lk := mk_spinlock 0 name None]> (k_locks k)) k.

Lemma upd_buf_upd i f g k : upd_buf i f (upd_buf i g k) = upd_buf i (fun b => f (g b)) k.
Proof.
  change (set_k_buf (alter f i (alter g i (k_buf k))) k = set_k_buf (alter (fun b => f (g b)) i (k_buf k)) k).
  f_equal. apply list_eq. intros n. rewrite !list_lookup_alter. repeat case_decide; try done.
  by destruct (k_buf k !! i).
Qed.

Lemma initsleeplock_buf b name k e :
  initsleeplock (SL_buf b) name k e =
  Done tt (add_lock (L_sleep (SL_buf b)) "sleep lock"
    (upd_buf b (set_b_lock (mk_sleeplock 0 name 0)) k)) e.
Proof.
  unfold initsleeplock, initlock. c_simpl. unfold modify. f_equal. unfold upd_sleeplock.
  rewrite !upd_buf_upd. done.
Qed.

Lemma binit_buf_done b k e :
  binit_buf b k e =
  Done tt (add_lock (L_sleep (SL_buf b)) "sleep lock" (upd_buf b (set_b_lock fresh_lock) (pushed b k))) e.
Proof.
  unfold binit_buf. c_simpl.
  set (k4 := upd_buf b (set_b_prev NBUF) (upd_buf b (set_b_next (b_next (buf_at k NBUF))) k)).
  run (initsleeplock_buf b "buffer" k4 e). c_simpl. unfold modify. f_equal.
  unfold pushed. fold (nx k NBUF) in k4. fold k4. fold fresh_lock.
  set (kl := upd_buf b (set_b_lock fresh_lock) k4).
  assert (E : b_next (buf_at (add_lock (L_sleep (SL_buf b)) "sleep lock" kl) NBUF) = nx k4 NBUF).
  { change (nx kl NBUF = nx k4 NBUF). unfold nx, kl. rewrite buf_at_upd.
    by destruct (decide (NBUF = b /\ _)) as [[-> _]|_]. }
  rewrite E. rewrite (upd_buf_comm b NBUF) by done. rewrite (upd_buf_comm b (nx k4 NBUF)) by done. done.
Qed.

(** The loop: the buffers so far are linked, and all are fresh. *)
Lemma binit_loop n e : forall b k,
  (b + n = NBUF)%nat -> ring NBUF (nx k) (pv k) (rev (seq 0 b)) -> length (k_buf k) = S NBUF ->
  (forall j, fresh (buf_at k j)) ->
  exists bs locks, for_each binit_buf (seq b n) k e = Done tt (set_k_locks locks (set_k_buf bs k)) e
    /\ linked (set_k_buf bs k) (rev (seq 0 NBUF)) /\ (forall j, fresh (buf_at (set_k_buf bs k) j))
    /\ (forall i, (b <= i < NBUF)%nat -> locks !! L_sleep (SL_buf i) = Some (mk_spinlock 0 "sleep lock" None))
    /\ (forall lk, (forall i, (b <= i)%nat -> lk <> L_sleep (SL_buf i)) -> locks !! lk = k_locks k !! lk).
Proof.
  induction n as [|n IH]; intros b k Hb R Hl Hf; simpl.
  { exists (k_buf k), (k_locks k). rewrite Nat.add_0_r in Hb. subst b.
    assert (E : set_k_buf (k_buf k) k = k) by (by destruct k). rewrite E.
    split_and!; try done; [by destruct k|split; try done; symmetry; apply Permutation_rev|]. lia. }
  run (binit_buf_done b k e). set (k1 := add_lock _ _ _).
  destruct (ring_pushed k b (rev (seq 0 b)) R Hl) as [R6 L6].
  { intros i Hi. rewrite <- Permutation_rev, elem_of_seq in Hi. lia. }
  { lia. }
  { rewrite <- Permutation_rev, elem_of_seq. lia. }
  fold (pushed b k) in R6, L6.
  assert (A1 : forall j, buf_at k1 j = buf_at (upd_buf b (set_b_lock fresh_lock) (pushed b k)) j) by done.
  destruct (IH (S b) k1) as (bs & locks & E & Lk & Fr & Lb & Lo).
  - lia.
  - replace (rev (seq 0 (S b))) with (b :: rev (seq 0 b)) by (by rewrite seq_S, rev_app_distr).
    revert R6. apply ring_fn_ext; intros i; unfold nx, pv; rewrite A1, buf_at_upd;
      by destruct (decide (i = b /\ _)) as [[-> _]|_].
  - unfold k1, add_lock, upd_buf. simpl. rewrite length_alter. exact L6.
  - assert (Hfp : forall j, fresh (buf_at (pushed b k) j)).
    { intros j. unfold pushed. eapply fresh_payload; [apply payload_upd_next|].
      eapply fresh_payload; [apply payload_upd_prev|]. eapply fresh_payload; [apply payload_upd_prev|].
      eapply fresh_payload; [apply payload_upd_next|]. apply Hf. }
    intros j. rewrite A1, buf_at_upd. destruct (decide (j = b /\ _)); [|done].
    destruct (Hfp b) as (? & ? & ? & ? & ?). by split_and!.
  - exists bs, locks. rewrite E. split_and!; try done.
    + destruct Lk as [A B D]. by split.
    + intros i Hi. destruct (decide (i = b)) as [->|Hib]; [|apply Lb; lia].
      rewrite Lo; [simpl; by rewrite lookup_insert_eq|]. intros i Hi' [= ->]. lia.
    + intros lk Hlk. rewrite Lo by (intros i Hi; apply Hlk; lia). simpl.
      rewrite lookup_insert_ne; [done|]. intros E'. by apply (Hlk b).
Qed.

(** The state in which the loop of [binit] starts. *)
Definition binit_start (k : kstate) : kstate :=
  put_buf NBUF (set_b_next NBUF (set_b_prev NBUF zero_buf)) (add_lock L_bcache "bcache" k).

Lemma binit_start_done k e :
  k_buf k = replicate (S NBUF) zero_buf ->
  binit k e = for_each binit_buf (seq 0 NBUF) (binit_start k) e.
Proof.
  intros Hk. unfold binit, initlock. c_simpl. f_equal. unfold binit_start.
  rewrite upd_buf_upd, upd_put. f_equal. unfold buf_at, upd_lock. simpl. by rewrite Hk.
Qed.

Lemma binit_start_ok k :
  k_buf k = replicate (S NBUF) zero_buf ->
  length (k_buf (binit_start k)) = S NBUF /\ (forall j, fresh (buf_at (binit_start k) j))
  /\ ring NBUF (nx (binit_start k)) (pv (binit_start k)) [].
Proof.
  intros Hk. assert (Hl : length (k_buf (add_lock L_bcache "bcache" k)) = S NBUF).
  { change (k_buf (add_lock L_bcache "bcache" k)) with (k_buf k). by rewrite Hk, length_replicate. }
  assert (Hh : buf_at (binit_start k) NBUF = set_b_next NBUF (set_b_prev NBUF zero_buf)).
  { apply buf_at_put. lia. }
  split_and!.
  - unfold binit_start. by rewrite length_put.
  - intros j. destruct (decide (j = NBUF)) as [->|]; [by rewrite Hh|].
    unfold binit_start. rewrite buf_at_put_ne by done. unfold buf_at.
    change (k_buf (add_lock L_bcache "bcache" k)) with (k_buf k). rewrite Hk.
    destruct (replicate (S NBUF) zero_buf !! j) eqn:E; [|done]. by apply lookup_replicate in E as [-> _].
  - split; simpl; [apply NoDup_singleton|unfold nx; by rewrite Hh|unfold pv; by rewrite Hh].
Qed.

(** A cache of fresh buffers. *)
Lemma fresh_cache_ok k p l :
  linked k l -> (forall j, fresh (buf_at k j)) -> (forall n, length (disk_block k n) = BSIZE) ->
  cache_ok k p (mk_cache (disk_block k) ∅ ∅).
Proof.
  intros L Fr Hd. assert (Hc : forall n i, ~ cached k n i).
  { intros n i (_ & Hd' & _). destruct (Fr i) as (_ & F & _). congruence. }
  split; try done.
  - by exists l.
  - intros i Hi. destruct (Fr i) as (F1 & F2 & F3 & F4 & F5). split; try done; [by left|by left|].
    rewrite F1. discriminate.
  - intros n i j H. by destruct (Hc n i).
  - intros n i. simpl. rewrite lookup_empty. split; [done|]. intros [H _]. by destruct (Hc n i).
  - intros n. simpl. split; [set_solver|]. intros (i & H & _). by destruct (Hc n i).
  - intros n i H. by destruct (Hc n i).
Qed.

(** After [binit] the cache is empty: every block reads as it is on the disk. *)
Lemma binit_ok k p e :
  k_buf k = replicate (S NBUF) zero_buf -> (forall n, length (disk_block k n) = BSIZE) ->
  exists k', binit k e = Done tt k' e /\ (exists bs locks, k' = set_k_locks locks (set_k_buf bs k))
    /\ cache_ok k' p (mk_cache (disk_block k) ∅ ∅)
    /\ lock_free k' L_bcache /\ (forall i, (i < NBUF)%nat -> lock_free k' (L_sleep (SL_buf i)))
    /\ (forall lk, lk <> L_bcache -> (forall i, lk <> L_sleep (SL_buf i)) -> k_locks k' !! lk = k_locks k !! lk).
Proof.
  intros Hk Hd. rewrite (binit_start_done k e Hk).
  destruct (binit_start_ok k Hk) as (Hl & Hf & R).
  destruct (binit_loop NBUF e 0 (binit_start k)) as (bs & locks & E & L & Fr & Lb & Lo); [done..|].
  exists (set_k_locks locks (set_k_buf bs (binit_start k))). split; [exact E|].
  split; [by exists bs, locks|]. split; [|split_and!].
  - change (disk_block k) with (disk_block (set_k_locks locks (set_k_buf bs (binit_start k)))).
    apply (fresh_cache_ok _ p (rev (seq 0 NBUF))).
    + destruct L as [A B D]. by split.
    + exact Fr.
    + exact Hd.
  - exists "bcache". simpl. rewrite Lo by done. simpl. by rewrite lookup_insert_eq.
  - intros i Hi. eexists. apply Lb. lia.
  - intros lk H1 H2. simpl. rewrite Lo by done. simpl. by rewrite lookup_insert_ne.
Qed.

(** ** The theorems *)

(** C32: [bread] of a block that is not held returns, whether it is cached or a
    buffer has to be recycled, a buffer that only the caller holds and that has
    the block's contents; no block changes, and nothing is written to the disk.
    It does so whenever fewer blocks are held or dirty than there are buffers. *)
Theorem bread_returns_block (k : kstate) (c p : nat) (a : cache) (n : Z) (e : environment kstate) :
  quiet k c p -> cache_ok k p a -> in_range k n -> a_held a !! n = None ->
  n ∈ a_dirty a \/ (size (dom (a_held a) ∪ a_dirty a) < NBUF)%nat ->
  exists i k', bread 1 n k e = Done i k' e /\ cache_ok k' p (hold n i a)
    /\ b_data (buf_at k' i) = a_blk a n /\ held_buf (mypid k p) (buf_at k' i)
    /\ k_disk k' = k_disk k /\ k_writes k' = k_writes k.
Proof.
  intros Q C Hr Hh Hs. destruct (bread_ok k c p a n e Q C Hr Hh Hs) as (i & k' & E & C' & F & D & W).
  assert (Hi : a_held (hold n i a) !! n = Some i) by (simpl; by simplify_map_eq).
  pose proof (held_facts _ _ _ _ _ C' Hi) as (_ & _ & _ & _ & Hb & _ & _ & Hd & _).
  exists i, k'. split_and!; try done. unfold mypid, proc_at in *.
  by rewrite (bio_frame_field k_proc _ _ ltac:(done) F) in Hb.
Qed.

(** [bwrite] followed by [brelse] of a held block puts its contents on the
    disk with a single write and gives the buffer back; the other blocks keep
    their contents, and the block is no longer held or dirty. *)
Theorem bwrite_then_brelse (k : kstate) (c p : nat) (a : cache) (n : Z) (i : nat)
    (e : environment kstate) :
  quiet k c p -> cache_ok k p a -> a_held a !! n = Some i ->
  exists k', (bwrite i;; brelse i) k e = Done tt k' e
    /\ cache_ok k' p (unhold n (unpin n a))
    /\ k_disk k' = <[n := a_blk a n]> (k_disk k) /\ k_writes k' = k_writes k ++ [(n, a_blk a n)].
Proof.
  intros Q C Hh. destruct (bwrite_ok k c p a n i e Q C Hh) as (k1 & E1 & C1 & F1 & D1 & W1).
  destruct (brelse_ok k1 c p _ n i e (quiet_frame _ _ _ _ F1 Q) C1 Hh) as (k2 & E2 & C2 & F2 & D2 & W2).
  { right. unfold disk_block. by rewrite D1, lookup_insert_eq. }
  exists k2. split; [by run E1|]. split; [done|]. split; congruence.
Qed.

(** The buffers are recycled in least recently used order.  [brelse] moves
    the buffer to the front of the list and keeps the order of the others; a
    [bget] that misses takes the unused buffer that is nearest to the end. *)
Theorem lru_replacement (k : kstate) (c p : nat) (e : environment kstate) :
  quiet k c p ->
  (forall l1 i l2, linked k (l1 ++ i :: l2) -> held_buf (mypid k p) (buf_at k i) ->
     b_refcnt (buf_at k i) = 1 ->
     exists k', brelse i k e = Done tt k' e /\ linked k' (i :: l1 ++ l2))
  /\ (forall l n i, linked k l ->
       List.find (fun i => has_block 1 n (buf_at k i)) l = None ->
       List.find (fun i => unused (buf_at k i)) (rev l) = Some i ->
       sl_locked (b_lock (buf_at k i)) = 0 ->
       exists k', bget 1 n k e = Done i k' e /\ b_blockno (buf_at k' i) = n /\ linked k' l).
Proof.
  intros Q. split.
  - intros l1 i l2 L Hh Hr. pose proof (ln_length _ _ L) as Hl.
    assert (Hi : (i < NBUF)%nat) by (apply (linked_in _ _ i L); set_solver).
    eexists. split; [by apply (brelse_done k c p)|]. apply linked_to_front. by apply linked_put.
  - intros l n i L H1 H2 H3. pose proof (ln_length _ _ L) as Hl.
    assert (Hi : (i < NBUF)%nat).
    { apply List.find_some in H2 as [H2 _]. rewrite <- in_rev in H2.
      by apply list_elem_of_In, (linked_in _ _ _ L) in H2. }
    eexists. split; [by apply (bget_miss k c p l i 1 n e Q L)|].
    split; [rewrite buf_at_put; [done|lia]|by apply linked_put].
Qed.

(** [binit] makes the empty cache: all buffers are on the list, every block
    reads as it is on the disk, and the locks of the cache are free. *)
Theorem binit_empty (k : kstate) (p : nat) (e : environment kstate) :
  k_buf k = replicate (S NBUF) zero_buf -> (forall n, length (disk_block k n) = BSIZE) ->
  exists k', binit k e = Done tt k' e /\ cache_ok k' p (mk_cache (disk_block k) ∅ ∅)
    /\ lock_free k' L_bcache /\ (forall i, (i < NBUF)%nat -> lock_free k' (L_sleep (SL_buf i)))
    /\ k_disk k' = k_disk k.
Proof.
  intros Hk Hd. destruct (binit_ok k p e Hk Hd) as (k' & E & (bs & locks & ->) & C & L1 & L2 & _).
  eexists. split; [exact E|]. split; [exact C|]. split; [exact L1|]. split; [exact L2|reflexivity].
Qed.
