(* ===== verification/IdeSpec.v ===== *)
(** * The disk driver as a queue of requests

    [iderw] and [ideintr] program the disk controller.  Against an abstract machine
    with a disk and a queue of requests, which are served one after the other as
    memide.c would serve them: every request is served once, in the order in
    which the requests came, and [iderw] returns when its own has been. *)

From stdpp Require Import base gmap list strings sets.
From Stdlib Require Import ZArith Lia.
From S2P Require Import Prelude State Memory Spinlock Sched Bio Cache Devices Ide.

(** ** The disk controller

    The registers of an ATA controller and what the accesses to its ports do, with
    transfers of one sector without DMA.  A sector is named by the drive and its
    number on the drive. *)

Record ata : Type := mk_ata {
  at_disk : gmap (Z * Z) (list Z);
  at_lba0 : Z;
  at_lba1 : Z;
  at_lba2 : Z;
  at_head : Z;
  at_cmd : option (Z * (Z * Z))
}.

Definition at_block (d : gmap (Z * Z) (list Z)) (t : Z * Z) : list Z := default (replicate BSIZE 0) (d !! t).

(** The data register takes 512 bytes. *)
Definition sector_data (data : list Z) : list Z := u8 <$> resize BSIZE 0 data.

(** The drive and the sector selected by the registers. *)
Definition at_target (a : ata) : Z * Z :=
  (Z.land (Z.shiftr (at_head a) 4) 1,
   at_lba0 a + 2 ^ 8 * at_lba1 a + 2 ^ 16 * at_lba2 a + 2 ^ 24 * Z.land (at_head a) 0x0f).

Definition ata_step (ev : io_event) (a : ata) : ata :=
  match ev with
  | Port_out port v =>
      if port =? 0x1f3 then mk_ata (at_disk a) v (at_lba1 a) (at_lba2 a) (at_head a) (at_cmd a)
      else if port =? 0x1f4 then mk_ata (at_disk a) (at_lba0 a) v (at_lba2 a) (at_head a) (at_cmd a)
      else if port =? 0x1f5 then mk_ata (at_disk a) (at_lba0 a) (at_lba1 a) v (at_head a) (at_cmd a)
      else if port =? 0x1f6 then mk_ata (at_disk a) (at_lba0 a) (at_lba1 a) (at_lba2 a) v (at_cmd a)
      else if port =? 0x1f7 then mk_ata (at_disk a) (at_lba0 a) (at_lba1 a) (at_lba2 a) (at_head a) (Some (v, at_target a))
      else a
  | Port_outs port data =>
      match at_cmd a with
      | Some (c, t) =>
          if (port =? 0x1f0) && (c =? IDE_CMD_WRITE)
          then mk_ata (<[t := sector_data data]> (at_disk a)) (at_lba0 a) (at_lba1 a) (at_lba2 a) (at_head a) None
          else a
      | None => a
      end
  | Port_ins port data =>
      if port =? 0x1f0 then mk_ata (at_disk a) (at_lba0 a) (at_lba1 a) (at_lba2 a) (at_head a) None else a
  | _ => a
  end.

(** The controller after the accesses [io], with the disk [d] at first. *)
Definition ata_of (d : gmap (Z * Z) (list Z)) (io : list io_event) : ata := foldr ata_step (mk_ata d 0 0 0 0 None) io.

Definition status `{Hardware} (io : list io_event) : Z := u8 (hw_in io 0x1f7).

(** The accesses after the status has been read [n] times. *)
Fixpoint polled `{Hardware} (n : nat) (io : list io_event) : list io_event :=
  match n with
  | O => io
  | S n => polled n (Port_in 0x1f7 (status io) :: io)
  end.

(** A machine with such a controller: it is not busy for ever, it reports no error, and it
    delivers the sector that was asked for. *)
Class AtaDisk `{HW : Hardware} (d : gmap (Z * Z) (list Z)) : Prop := {
  ata_ready : forall io, exists n, (n <= hw_patience)%nat /\ Z.land (status (polled n io)) (Z.lor IDE_BSY IDE_DRDY) = IDE_DRDY;
  ata_good : forall io, Z.land (status io) (Z.lor IDE_DF IDE_ERR) = 0;
  ata_data : forall io t, at_cmd (ata_of d io) = Some (IDE_CMD_READ, t) ->
    sector_data (hw_ins io 0x1f0 BSIZE) = at_block (at_disk (ata_of d io)) t
}.

(** ** The abstract machine *)

Record ide_abs : Type := mk_ide_abs {
  ab_disk : gmap (Z * Z) (list Z);
  ab_buf : list buf;
  ab_queue : list nat
}.

Definition dirty (b : buf) : bool := truth (Z.land (b_flags b) B_DIRTY).
Definition target (b : buf) : Z * Z := (Z.land (b_dev b) 1, b_blockno b).

(** A buffer that has been synchronised with the disk. *)
Definition clean (b : buf) : buf := set_b_flags (Z.land (Z.lor (b_flags b) B_VALID) (Z.lnot B_DIRTY)) b.

(** The request for buffer [i] is served: the block is written, or read. *)
Definition serve (i : nat) (m : ide_abs) : ide_abs :=
  let b := default zero_buf (ab_buf m !! i) in
  if dirty b then mk_ide_abs (<[target b := b_data b]> (ab_disk m)) (alter clean i (ab_buf m)) (ab_queue m)
  else mk_ide_abs (ab_disk m) (alter (fun b => clean (set_b_data (at_block (ab_disk m) (target b)) b)) i (ab_buf m)) (ab_queue m).

Definition set_ab_queue (q : list nat) (m : ide_abs) : ide_abs := mk_ide_abs (ab_disk m) (ab_buf m) q.

(** The steps: a request arrives, the first one is completed, and the owner of a buffer
    changes it. *)
Inductive ide_op : Type := Request (i : nat) | Interrupt | Change (i : nat) (b : buf).

Definition ide_apply (op : ide_op) (m : ide_abs) : ide_abs :=
  match op with
  | Request i => set_ab_queue (ab_queue m ++ [i]) m
  | Interrupt =>
      match ab_queue m with
      | [] => m
      | i :: q => set_ab_queue q (serve i m)
      end
  | Change i b => mk_ide_abs (ab_disk m) (<[i := b]> (ab_buf m)) (ab_queue m)
  end.

Definition ide_run (ops : list ide_op) (m : ide_abs) : ide_abs := foldl (fun m op => ide_apply op m) m ops.

(** A buffer after its request, and the disk. *)
Definition filled (d : gmap (Z * Z) (list Z)) (b : buf) : buf := if dirty b then b else set_b_data (at_block d (target b)) b.
Definition disk_after (d : gmap (Z * Z) (list Z)) (b : buf) : gmap (Z * Z) (list Z) := if dirty b then <[target b := b_data b]> d else d.

(** ** A request among others

    What the rest of the system does while the owner of buffer [i], which holds the
    block [t], waits for its request: it does not touch that buffer, no other
    buffer holds the same block, and the buffers in the queue do not change. *)

Definition allowed (i : nat) (t : Z * Z) (op : ide_op) (m : ide_abs) : Prop :=
  match op with
  | Request j => j <> i
  | Interrupt => True
  | Change j b => j <> i /\ (j ∉ ab_queue m) /\ target b <> t
  end.

Fixpoint allowed_run (i : nat) (t : Z * Z) (ops : list ide_op) (m : ide_abs) : Prop :=
  match ops with
  | [] => True
  | op :: ops => allowed i t op m /\ allowed_run i t ops (ide_apply op m)
  end.

Definition sole (i : nat) (t : Z * Z) (m : ide_abs) : Prop := forall j b, j <> i -> ab_buf m !! j = Some b -> target b <> t.

(** The request for the buffer [b] was made when the disk was [d], and [n] others are before it. *)
Record pending (d : gmap (Z * Z) (list Z)) (b : buf) (i n : nat) (m : ide_abs) : Prop := {
  pe_queue : exists l r, ab_queue m = l ++ i :: r /\ length l = n /\ (i ∉ l) /\ (i ∉ r);
  pe_buf : ab_buf m !! i = Some b;
  pe_block : at_block (ab_disk m) (target b) = at_block d (target b);
  pe_sole : sole i (target b) m
}.

(** It has been served: the buffer and the block on the disk agree. *)
Record completed (d : gmap (Z * Z) (list Z)) (b : buf) (i : nat) (m : ide_abs) : Prop := {
  co_queue : i ∉ ab_queue m;
  co_buf : ab_buf m !! i = Some (clean (filled d b));
  co_block : at_block (ab_disk m) (target b) = b_data (filled d b);
  co_sole : sole i (target b) m
}.

Lemma serve_other i t j m : j <> i -> sole i t m ->
  ab_buf (serve j m) !! i = ab_buf m !! i /\ at_block (ab_disk (serve j m)) t = at_block (ab_disk m) t /\ sole i t (serve j m).
Proof.
  intros Hj Hs. assert (Ha : forall f, (forall b, target (f b) = target b) -> sole i t (mk_ide_abs (ab_disk m) (alter f j (ab_buf m)) (ab_queue m))).
  { intros f Hf x b Hx. simpl. destruct (decide (j = x)) as [<-|Hne]; [|rewrite list_lookup_alter_ne by done; by apply Hs].
    rewrite list_lookup_alter_eq. destruct (ab_buf m !! j) eqn:E; [|done]. intros [= <-]. rewrite Hf. by apply (Hs j). }
  unfold serve. destruct (ab_buf m !! j) as [b|] eqn:E; simpl.
  - destruct (dirty b); simpl; rewrite list_lookup_alter_ne by done; (split; [done|]); split; try done; try by apply Ha.
    unfold at_block. by rewrite lookup_insert_ne by (by apply (Hs j)).
  - rewrite list_lookup_alter_ne by done. split; [done|]. split; [done|]. by apply Ha.
Qed.

Lemma serve_own i m b d : ab_buf m !! i = Some b -> at_block (ab_disk m) (target b) = at_block d (target b) -> sole i (target b) m ->
  ab_buf (serve i m) !! i = Some (clean (filled d b)) /\ at_block (ab_disk (serve i m)) (target b) = b_data (filled d b) /\ sole i (target b) (serve i m).
Proof.
  intros E Hb Hs. assert (Ha : forall f, sole i (target b) (mk_ide_abs (ab_disk m) (alter f i (ab_buf m)) (ab_queue m))).
  { intros f x b' Hx. simpl. rewrite list_lookup_alter_ne by done. by apply Hs. }
  unfold serve, filled. rewrite E. simpl. destruct (dirty b); simpl; rewrite list_lookup_alter_eq, E; simpl.
  - split; [done|]. split; [|by apply Ha]. unfold at_block. by rewrite lookup_insert_eq.
  - rewrite Hb. split; [done|]. split; [done|]. by apply Ha.
Qed.

Lemma change_other i t j b m : j <> i -> target b <> t -> sole i t m ->
  ab_buf (ide_apply (Change j b) m) !! i = ab_buf m !! i /\ sole i t (ide_apply (Change j b) m).
Proof.
  intros Hj Hb Hs. simpl. split; [by rewrite list_lookup_insert_ne|]. intros x b' Hx. simpl.
  intros [(<- & <- & _)|[_ E]]%list_lookup_insert_Some; [done|by apply (Hs x)].
Qed.

Lemma pending_step d b i n op m : pending d b i n m -> allowed i (target b) op m ->
  match op with
  | Interrupt => match n with O => completed d b i (ide_apply op m) | S n => pending d b i n (ide_apply op m) end
  | _ => pending d b i n (ide_apply op m)
  end.
Proof.
  intros [(l & r & Eq & Hl & Hil & Hir) Eb Ek Hs] Ha. destruct op as [j| |j b']; simpl in Ha.
  - split; [|done..]. exists l, (r ++ [j]). simpl. rewrite Eq, <- app_assoc. split; [done|]. split; [done|]. split; [done|].
    rewrite not_elem_of_app, list_elem_of_singleton. split; [done|]. intros ->. done.
  - simpl. rewrite Eq. destruct n as [|n]; destruct l as [|j l]; try done; simpl.
    + destruct (serve_own i m b d Eb Ek Hs) as (H1 & H2 & H3). by split.
    + apply not_elem_of_cons in Hil as [Hij Hil]. destruct (serve_other i (target b) j m) as (H1 & H2 & H3); [done..|].
      split; simpl; [|by rewrite H1|by rewrite H2|done]. exists l, r. simpl in Hl. split; [done|]. split; [lia|]. done.
  - destruct Ha as (Hj & _ & Ht). destruct (change_other i (target b) j b' m Hj Ht Hs) as [H1 H2]. split; [|by rewrite H1|done|done]. by exists l, r.
Qed.

Lemma completed_step d b i op m : completed d b i m -> allowed i (target b) op m -> completed d b i (ide_apply op m).
Proof.
  intros [Eq Eb Ek Hs] Ha. destruct op as [j| |j b']; simpl in Ha.
  - split; [|done..]. simpl. rewrite not_elem_of_app, list_elem_of_singleton. split; [done|]. intros ->. done.
  - simpl. destruct (ab_queue m) as [|j q] eqn:E; [split; rewrite ?E; done|]. apply not_elem_of_cons in Eq as [Hij Eq].
    destruct (serve_other i (target b) j m) as (H1 & H2 & H3); [done..|]. split; simpl; [done|by rewrite H1|by rewrite H2|done].
  - destruct Ha as (Hj & _ & Ht). destruct (change_other i (target b) j b' m Hj Ht Hs) as [H1 H2]. split; [done|by rewrite H1|done|done].
Qed.

Lemma completed_run d b i ops : forall m, completed d b i m -> allowed_run i (target b) ops m -> completed d b i (ide_run ops m).
Proof. induction ops as [|op ops IH]; intros m H; [done|]. intros [Ha Hr]. apply IH; [by apply completed_step|done]. Qed.

(** Any steps leave the request where it was, or nearer to its turn; an interrupt
    among them brings it nearer. *)
Lemma pending_run d b i ops : forall n m, pending d b i n m -> allowed_run i (target b) ops m ->
  completed d b i (ide_run ops m) \/ exists n', pending d b i n' (ide_run ops m) /\ (n' <= n)%nat /\ (Interrupt ∈ ops -> (n' < n)%nat).
Proof.
  induction ops as [|op ops IH]; intros n m H.
  { intros _. right. exists n. split; [done|]. split; [lia|]. intros Hi; by apply elem_of_nil in Hi. }
  intros [Ha Hr]. pose proof (pending_step _ _ _ _ _ _ H Ha) as Hp. destruct op as [j| |j b'].
  - destruct (IH n _ Hp Hr) as [?|(n' & Hp' & Hle & Hlt)]; [by left|right]. exists n'. split; [done|]. split; [done|].
    intros [?|?]%elem_of_cons; [done|by apply Hlt].
  - destruct n as [|n]; [left; exact (completed_run d b i ops _ Hp Hr)|]. destruct (IH n _ Hp Hr) as [?|(n' & Hp' & Hle & Hlt)]; [by left|right].
    exists n'. split; [done|]. split; [lia|]. intros _. lia.
  - destruct (IH n _ Hp Hr) as [?|(n' & Hp' & Hle & Hlt)]; [by left|right]. exists n'. split; [done|]. split; [done|].
    intros [?|?]%elem_of_cons; [done|by apply Hlt].
Qed.

(** ** The driver and the controller *)

Section Driver.
Context `{HW : Hardware} (d0 : gmap (Z * Z) (list Z)) `{AD : !AtaDisk d0}.

Definition ctl (k : kstate) : ata := ata_of d0 (h_io (k_hw k)).

(** The state with other accesses to the devices. *)
Definition logged (io : list io_event) (k : kstate) : kstate := upd_hw (set_h_io io) k.

Lemma logged_logged io io' k : logged io (logged io' k) = logged io k.
Proof. done. Qed.

Lemma logged_id k : logged (h_io (k_hw k)) k = k.
Proof. unfold logged, upd_hw. destruct k as [? ? ? ? ? ? ? ? ? ? ? ? ? ? ? ? ? ? ? ? ? ? ? ? ? ? ? ? h]. by destruct h. Qed.

Lemma ata_cons ev io : ata_of d0 (ev :: io) = ata_step ev (ata_of d0 io).
Proof. done. Qed.

Lemma ata_polled n : forall io, ata_of d0 (polled n io) = ata_of d0 io.
Proof. induction n as [|n IH]; intros io; [done|]. simpl. by rewrite IH. Qed.

Lemma inb_run port io k e :
  inb port (logged io k) e = Done (u8 (hw_in io port)) (logged (Port_in port (u8 (hw_in io port)) :: io) k) e.
Proof. done. Qed.

Lemma outb_run port v io k e : outb port v (logged io k) e = Done tt (logged (Port_out port (u8 v) :: io) k) e.
Proof. done. Qed.

Lemma outsl_run port data n io k e : outsl port data n (logged io k) e = Done tt (logged (Port_outs port (take (4 * n) data) :: io) k) e.
Proof. done. Qed.

(** Reading the status until the controller is ready. *)
Lemma poll_run {B} (f : Z -> B) k e : exists io io1, iter (S hw_patience) (fun _ : unit => r <- inb 0x1f7;;
  if negb (Z.land r (Z.lor IDE_BSY IDE_DRDY) =? IDE_DRDY) then ret (inl tt) else ret (inr (f r))) tt k e
  = Done (f (status io1)) (logged io k) e /\ ata_of d0 io = ctl k.
Proof.
  destruct (ata_ready (h_io (k_hw k))) as (n & Hn & Hr).
  assert (H : forall m fuel io, (m < fuel)%nat -> Z.land (status (polled m io)) (Z.lor IDE_BSY IDE_DRDY) = IDE_DRDY ->
    exists io' io1, iter fuel (fun _ : unit => r <- inb 0x1f7;;
      if negb (Z.land r (Z.lor IDE_BSY IDE_DRDY) =? IDE_DRDY) then ret (inl tt) else ret (inr (f r))) tt (logged io k) e
      = Done (f (status io1)) (logged io' k) e /\ ata_of d0 io' = ata_of d0 io).
  { clear n Hn Hr. induction m as [|m IH]; intros [|fuel] io Hf Hm; try lia; cbn [iter]; rewrite bind_assoc;
      run (inb_run 0x1f7 io k e); fold (status io).
    - simpl in Hm. rewrite Hm. rewrite Z.eqb_refl. cbn [negb]. rewrite bind_ret. by eexists _, io.
    - destruct (negb _); rewrite bind_ret; [|by eexists _, io].
      destruct (IH fuel (Port_in 0x1f7 (status io) :: io)) as (io' & io1 & E & Ea); [lia|done|]. by exists io', io1. }
  destruct (H n (S hw_patience) (h_io (k_hw k)) ltac:(lia) Hr) as (io' & io1 & E & Ea). rewrite logged_id in E. by exists io', io1.
Qed.

Lemma idewait_run c k e : exists io, idewait c k e = Done 0 (logged io k) e /\ ata_of d0 io = ctl k.
Proof.
  destruct (poll_run id k e) as (io & io1 & E & Ea). unfold id in E. exists io. split; [|done]. unfold idewait. run E.
  rewrite (ata_good io1). by rewrite andb_false_r.
Qed.

(** A request that the driver accepts. *)
Record request (b : buf) : Prop := {
  rq_block : 0 <= b_blockno b < FSSIZE;
  rq_data : length (b_data b) = BSIZE /\ Forall is_byte (b_data b);
  rq_flags : Z.land (b_flags b) (Z.lor B_VALID B_DIRTY) <> B_VALID
}.

Lemma sector_data_id data : length data = BSIZE -> Forall is_byte data -> sector_data data = data.
Proof.
  intros Hl Hb. unfold sector_data. rewrite resize_all_alt by done. rewrite <- (list_fmap_id data) at 2. apply Forall_fmap_ext_1.
  eapply Forall_impl; [exact Hb|]. intros x Hx. by apply Z.mod_small.
Qed.

Lemma byte_split s : 0 <= s < 1000 ->
  u8 (Z.land s 0xff) + 2 ^ 8 * u8 (Z.land (Z.shiftr s 8) 0xff) + 2 ^ 16 * u8 (Z.land (Z.shiftr s 16) 0xff) = s
  /\ Z.land (Z.shiftr s 24) 0x0f = 0.
Proof.
  intros H. change 0xff with (Z.ones 8). change 0x0f with (Z.ones 4). rewrite !Z.land_ones, !Z.shiftr_div_pow2 by lia. unfold u8.
  change (2 ^ 16) with 65536. change (2 ^ 24) with 16777216. change (2 ^ 8) with 256. change (2 ^ 4) with 16. div_lia.
Qed.

Lemma head_select v : let h := u8 (Z.lor (Z.lor 0xe0 (Z.shiftl (Z.land v 1) 4)) 0) in Z.land (Z.shiftr h 4) 1 = Z.land v 1 /\ Z.land h 0x0f = 0.
Proof.
  assert (Z.land v 1 = 0 \/ Z.land v 1 = 1) as [->| ->]; [|done|done]. change (Z.land v 1) with (Z.land v (Z.ones 1)). rewrite Z.land_ones by lia.
  change (2 ^ 1) with 2. pose proof (Z.mod_pos_bound v 2 ltac:(lia)). lia.
Qed.

(** The controller while it works on buffer [b], when the disk was [d] before. *)
Definition started (d : gmap (Z * Z) (list Z)) (b : buf) (a : ata) : Prop :=
  if dirty b then at_disk a = <[target b := b_data b]> d else at_disk a = d /\ at_cmd a = Some (IDE_CMD_READ, target b).

Lemma idestart_run i k e : request (buf_at k i) ->
  exists io, idestart (Some i) k e = Done tt (logged io k) e /\ started (at_disk (ctl k)) (buf_at k i) (ata_of d0 io).
Proof.
  intros [Hb [Hd Hd2] _]. unfold idestart. rewrite bind_gets. set (b := buf_at k i) in *. rewrite (proj2 (Z.leb_gt FSSIZE (b_blockno b))) by lia.
  change (Z.of_nat BSIZE / SECTOR_SIZE) with 1. cbv zeta. change (7 <? 1) with false. change (1 =? 1) with true. cbv iota.
  replace (s32 (b_blockno b * 1)) with (b_blockno b) by (rewrite s32_small; unfold FSSIZE in *; lia).
  destruct (idewait_run false k e) as (io & E & Ea). run E. unfold FSSIZE in Hb. destruct (byte_split (b_blockno b) Hb) as [Hs Hh]. rewrite Hh.
  destruct (head_select (b_dev b)) as [H1 H2]. set (h := Z.lor (Z.lor 0xe0 _) 0) in *.
  do 6 (rewrite (bind_done _ _ _ _ _ _ _ (outb_run _ _ _ k e))). unfold started, target, dirty.
  destruct (truth (Z.land (b_flags b) B_DIRTY)).
  - rewrite (bind_done _ _ _ _ _ _ _ (outb_run _ _ _ k e)), outsl_run. eexists. split; [reflexivity|].
    change (take (4 * (BSIZE / 4)) (b_data b)) with (take BSIZE (b_data b)). rewrite take_ge by (rewrite Hd; done).
    rewrite !ata_cons, Ea. simpl. unfold at_target. simpl. rewrite H1, H2, Z.mul_0_r, Z.add_0_r, Hs, sector_data_id by done. done.
  - rewrite outb_run. eexists. split; [reflexivity|]. rewrite !ata_cons, Ea. simpl. unfold at_target. simpl.
    rewrite H1, H2, Z.mul_0_r, Z.add_0_r, Hs. done.
Qed.

(** ** The queue *)

Fixpoint linkedq (k : kstate) (o : option nat) (q : list nat) : Prop :=
  match q with
  | [] => o = None
  | i :: q => o = Some i /\ linkedq k (b_qnext (buf_at k i)) q
  end.

Lemma linkedq_ext k k' q : forall o, (forall j, j ∈ q -> b_qnext (buf_at k' j) = b_qnext (buf_at k j)) -> linkedq k o q -> linkedq k' o q.
Proof.
  induction q as [|i q IH]; intros o He H; [done|]. destruct H as [-> H]. split; [done|]. rewrite He by apply list_elem_of_here.
  apply IH; [|done]. intros j Hj. apply He. by apply list_elem_of_further.
Qed.

Lemma buf_at_upd_in i f k j : (i < length (k_buf k))%nat -> buf_at (upd_buf i f k) j = if decide (j = i) then f (buf_at k i) else buf_at k j.
Proof. intros Hi. rewrite buf_at_upd. repeat case_decide; naive_solver. Qed.

(** Walking to the end of the queue and linking the buffer there. *)
Lemma append_after_run i n : forall k q j e, linkedq k (Some j) q -> NoDup q -> i ∉ q -> b_qnext (buf_at k i) = None ->
  Forall (fun j => (j < length (k_buf k))%nat) q -> (length q <= n)%nat ->
  exists l, append_after n j i k e = Done tt (upd_buf l (set_b_qnext (Some i)) k) e /\ l ∈ q
    /\ linkedq (upd_buf l (set_b_qnext (Some i)) k) (Some j) (q ++ [i]).
Proof.
  induction n as [|n IH]; intros k [|j' q] j e Hl Hn Hi Hnone Hr Hlen; simpl in Hlen; try lia; [done|done|].
  destruct Hl as [Ej Hl]. injection Ej as <-.
  apply NoDup_cons in Hn as [Hj Hn]. apply not_elem_of_cons in Hi as [Hij Hi]. apply Forall_cons in Hr as [Hrj Hr].
  cbn [append_after]. rewrite bind_gets. destruct q as [|j2 q].
  - simpl in Hl. rewrite Hl. exists j. split; [done|]. split; [apply list_elem_of_here|]. simpl.
    split; [done|]. rewrite buf_at_upd_in, decide_True by done. split; [done|]. by rewrite buf_at_upd_in, decide_False by done.
  - pose proof (proj1 Hl) as Ej2. rewrite Ej2 in Hl |- *. destruct (IH k (j2 :: q) j2 e Hl Hn Hi Hnone Hr ltac:(simpl in *; lia)) as (l & E & Hlq & Hlk).
    exists l. split; [done|]. split; [by apply list_elem_of_further|]. split; [done|].
    rewrite buf_at_upd_in by (rewrite Forall_forall in Hr; by apply Hr). rewrite decide_False by (by intros ->). rewrite Ej2. exact Hlk.
Qed.

(** ** The simulation *)

Record ide_rel (k : kstate) (m : ide_abs) : Prop := {
  ir_buf : ab_buf m = set_b_qnext None <$> k_buf k;
  ir_queue : linkedq k (idequeue (k_hw k)) (ab_queue m);
  ir_nodup : NoDup (ab_queue m);
  ir_req : Forall (fun i => (i < length (k_buf k))%nat /\ request (buf_at k i)) (ab_queue m);
  ir_head : match ab_queue m with
            | [] => at_disk (ctl k) = ab_disk m
            | i :: _ => started (ab_disk m) (buf_at k i) (ctl k)
            end
}.

(** What the driver does not change: everything but the buffers and its own variables. *)
Definition ide_frame (k k' : kstate) : Prop := set_k_buf [] (set_k_hw zero_hw k') = set_k_buf [] (set_k_hw zero_hw k).

Lemma qnext_None_twice v b : set_b_qnext None (set_b_qnext v b) = set_b_qnext None b.
Proof. done. Qed.

Lemma qnext_bufs i v k : set_b_qnext None <$> k_buf (upd_buf i (set_b_qnext v) k) = set_b_qnext None <$> k_buf k.
Proof.
  simpl. apply list_eq. intros j. rewrite !list_lookup_fmap. destruct (decide (i = j)) as [->|Hne].
  - rewrite list_lookup_alter_eq. by destruct (k_buf k !! j).
  - by rewrite list_lookup_alter_ne.
Qed.

Lemma qnext_buf_at i v k j : (i < length (k_buf k))%nat -> set_b_qnext None (buf_at (upd_buf i (set_b_qnext v) k) j) = set_b_qnext None (buf_at k j).
Proof. intros Hi. rewrite buf_at_upd_in by done. case_decide; [by subst|done]. Qed.

(** Buffers that differ in their place in the queue only. *)
Lemma like_request b b' : set_b_qnext None b' = set_b_qnext None b -> (request b -> request b') /\ (forall d a, started d b a -> started d b' a).
Proof.
  intros E. assert (E1 : b_flags b' = b_flags b) by (by apply (f_equal b_flags) in E). assert (E2 : b_blockno b' = b_blockno b) by (by apply (f_equal b_blockno) in E).
  assert (E3 : b_data b' = b_data b) by (by apply (f_equal b_data) in E). assert (E4 : b_dev b' = b_dev b) by (by apply (f_equal b_dev) in E).
  split; [intros []; split; congruence|]. unfold started, dirty, target. by rewrite E1, E2, E3, E4.
Qed.

Lemma queue_short (n : nat) (q : list nat) : NoDup q -> Forall (fun i => (i < n)%nat) q -> (length q <= n)%nat.
Proof.
  intros Hn Hr. assert (E : length (seq 0 n) = n) by apply length_seq. rewrite <- E. apply submseteq_length, NoDup_submseteq; [done|]. intros j Hj. rewrite Forall_forall in Hr.
  apply elem_of_seq. specialize (Hr j Hj). lia.
Qed.

(** The relation holds of a state in which links were changed, and the controller is as it should. *)
Lemma rel_links k m k' : (forall j, set_b_qnext None (buf_at k' j) = set_b_qnext None (buf_at k j)) ->
  length (k_buf k') = length (k_buf k) -> Forall (fun i => (i < length (k_buf k))%nat /\ request (buf_at k i)) (ab_queue m) ->
  Forall (fun i => (i < length (k_buf k'))%nat /\ request (buf_at k' i)) (ab_queue m).
Proof. intros Hb Hl. rewrite Hl. intros H. eapply Forall_impl; [exact H|]. intros j [Hj Hr]. split; [done|]. by apply (proj1 (like_request _ _ (Hb j))). Qed.

(** A request that arrives when there is none is started at once. *)
Lemma enqueue_first i k m e : ide_rel k m -> (i < length (k_buf k))%nat -> ab_queue m = [] -> request (buf_at k i) ->
  exists k', iderw_enqueue i k e = Done tt k' e /\ ide_rel k' (ide_apply (Request i) m) /\ ide_frame k k'.
Proof.
  intros [Rb Rq Rn Rr Rh] Hi Hm Hreq. rewrite Hm in Rq, Rh. simpl in Rq. unfold iderw_enqueue. rewrite bind_modify. set (k1 := upd_buf i _ k).
  assert (Hb1 : forall j, set_b_qnext None (buf_at k1 j) = set_b_qnext None (buf_at k j)) by (intros; by apply qnext_buf_at).
  rewrite !bind_gets. change (idequeue (k_hw k1)) with (idequeue (k_hw k)). rewrite Rq, bind_modify, bind_gets. set (k2 := upd_hw _ k1).
  change (idequeue (k_hw k2)) with (Some i). rewrite bool_decide_true by done. cbn [when].
  assert (Hr2 : request (buf_at k2 i)) by (by apply (proj1 (like_request _ _ (Hb1 i)))).
  destruct (idestart_run i k2 e Hr2) as (io & E & Hs). exists (logged io k2). split; [exact E|]. split; [|done]. split; simpl.
  - rewrite Rb. symmetry. apply qnext_bufs.
  - rewrite Hm. simpl. split; [done|]. change (buf_at (logged io k2) i) with (buf_at k1 i). unfold k1. by rewrite buf_at_upd_in, decide_True by done.
  - rewrite Hm. apply NoDup_singleton.
  - rewrite Hm. apply Forall_singleton. split; [|exact Hr2]. unfold k1. simpl. by rewrite length_alter.
  - rewrite Hm. simpl. change (ctl k2) with (ctl k) in Hs. rewrite Rh in Hs. exact Hs.
Qed.

(** Another one is put at the end of the queue. *)
Lemma enqueue_last i k m e : ide_rel k m -> (i < length (k_buf k))%nat -> ab_queue m <> [] -> i ∉ ab_queue m -> request (buf_at k i) ->
  exists k', iderw_enqueue i k e = Done tt k' e /\ ide_rel k' (ide_apply (Request i) m) /\ ide_frame k k'.
Proof.
  intros [Rb Rq Rn Rr Rh] Hi Hm Him Hreq. destruct (ab_queue m) as [|j q] eqn:Eq; [done|]. unfold iderw_enqueue. rewrite bind_modify.
  set (k1 := upd_buf i _ k). assert (Hl1 : length (k_buf k1) = length (k_buf k)) by (unfold k1; simpl; by rewrite length_alter).
  assert (Hne : forall j', j' ∈ j :: q -> buf_at k1 j' = buf_at k j').
  { intros j' Hj'. unfold k1. rewrite buf_at_upd_in, decide_False by (done || intros ->; done). done. }
  pose proof (proj1 Rq) as Ej. rewrite !bind_gets. change (idequeue (k_hw k1)) with (idequeue (k_hw k)). rewrite Ej in Rq |- *.
  assert (Hr : Forall (fun j => (j < length (k_buf k1))%nat) (j :: q)) by (rewrite Hl1; eapply Forall_impl; [exact Rr|]; intros ? []; done).
  destruct (append_after_run i (length (k_buf k1)) k1 (j :: q) j e) as (l & E & Hlq & Hlk); try done.
  { apply (linkedq_ext k); [|done]. intros j' Hj'. by rewrite Hne. }
  { unfold k1. by rewrite buf_at_upd_in, decide_True by done. }
  { by apply queue_short. }
  run E. rewrite bind_gets. set (k2 := upd_buf l _ k1) in *. change (idequeue (k_hw k2)) with (idequeue (k_hw k)). rewrite Ej.
  rewrite bool_decide_false by (intros [= ->]; apply Him, list_elem_of_here). cbn [when]. exists k2. split; [done|]. split; [|done].
  assert (Hl : (l < length (k_buf k1))%nat) by (rewrite Forall_forall in Hr; by apply Hr).
  assert (Hb : forall j, set_b_qnext None (buf_at k2 j) = set_b_qnext None (buf_at k j)).
  { intros j'. unfold k2. rewrite qnext_buf_at by done. by apply qnext_buf_at. }
  assert (Hl2 : length (k_buf k2) = length (k_buf k)) by (unfold k2; simpl; by rewrite length_alter).
  rewrite <- Eq in *. split; cbn [ide_apply set_ab_queue ab_buf ab_queue ab_disk].
  - rewrite Rb. unfold k2. rewrite qnext_bufs. symmetry. apply qnext_bufs.
  - change (idequeue (k_hw k2)) with (idequeue (k_hw k)). rewrite Ej. exact Hlk.
  - apply NoDup_app. split; [done|]. split; [|apply NoDup_singleton]. intros x Hx ->%list_elem_of_singleton. done.
  - apply Forall_app. split; [by apply (rel_links k)|]. apply Forall_singleton. rewrite Hl2. split; [done|]. by apply (proj1 (like_request _ _ (Hb i))).
  - rewrite Eq. simpl. apply (proj2 (like_request _ _ (Hb j))). exact Rh.
Qed.

Lemma iderw_enqueue_run i k m e : ide_rel k m -> (i < length (k_buf k))%nat -> i ∉ ab_queue m -> request (buf_at k i) ->
  exists k', iderw_enqueue i k e = Done tt k' e /\ ide_rel k' (ide_apply (Request i) m) /\ ide_frame k k'.
Proof. intros. destruct (decide (ab_queue m = [])); [by apply enqueue_first|by apply enqueue_last]. Qed.

Lemma upd_buf_same i f k : f (buf_at k i) = buf_at k i -> upd_buf i f k = k.
Proof.
  intros Hf. unfold upd_buf. replace (alter f i (k_buf k)) with (k_buf k); [by destruct k|]. unfold buf_at in Hf.
  apply list_eq. intros j. destruct (decide (i = j)) as [->|Hne]; [|by rewrite list_lookup_alter_ne]. rewrite list_lookup_alter_eq.
  destruct (k_buf k !! j) eqn:E; [|done]. simpl in *. by rewrite Hf.
Qed.

(** The part of the interrupt handler that reads the sector. *)
Lemma read_sector i d k e : (i < length (k_buf k))%nat -> started d (buf_at k i) (ctl k) ->
  exists io, when (negb (dirty (buf_at k i))) (r <- idewait true;; when (0 <=? r) (data <- insl 0x1f0 (BSIZE / 4);; modify (upd_buf i (set_b_data data)))) k e
  = Done tt (upd_buf i (filled d) (logged io k)) e /\ at_disk (ata_of d0 io) = disk_after d (buf_at k i).
Proof.
  intros Hi Hs. unfold started, disk_after in *. set (b := buf_at k i) in *. destruct (dirty b) eqn:Ed; cbn [negb when].
  - exists (h_io (k_hw k)). rewrite logged_id, upd_buf_same by (fold b; unfold filled; by rewrite Ed). split; [done|]. exact Hs.
  - destruct Hs as [Hd Hc]. destruct (idewait_run true k e) as (io & E & Ea). run E. change (0 <=? 0) with true. cbn [when].
    pose proof (ata_data io (target b)) as Hdata. rewrite Ea in Hdata. specialize (Hdata Hc). rewrite Hd in Hdata.
    unfold insl. rewrite bind_assoc, bind_gets. change (h_io (k_hw (logged io k))) with io. change (4 * (BSIZE / 4))%nat with BSIZE. cbv zeta.
    fold (sector_data (hw_ins io 0x1f0 BSIZE)). rewrite Hdata. unfold log_io. rewrite bind_assoc, bind_modify, bind_ret. unfold modify.
    exists (Port_ins 0x1f0 (at_block d (target b)) :: io). split.
    + f_equal. change (upd_hw _ (logged io k)) with (logged (Port_ins 0x1f0 (at_block d (target b)) :: io) k). set (k1 := logged _ k).
      unfold upd_buf. f_equal. apply list_eq. intros j. destruct (decide (i = j)) as [<-|Hne]; [|by rewrite !list_lookup_alter_ne].
      rewrite !list_lookup_alter_eq. change (k_buf k1) with (k_buf k). destruct (lookup_lt_is_Some_2 _ _ Hi) as [b' Hb']. rewrite Hb'. simpl.
      assert (b = b') as <- by (unfold b, buf_at; by rewrite Hb'). unfold filled. by rewrite Ed.
    + rewrite ata_cons, Ea. simpl. exact Hd.
Qed.

(** Serving the request, as a whole. *)
Lemma serve_abs i k m : (i < length (k_buf k))%nat -> ab_buf m = set_b_qnext None <$> k_buf k ->
  serve i m = mk_ide_abs (disk_after (ab_disk m) (buf_at k i))
    (set_b_qnext None <$> k_buf (upd_buf i (fun b => clean (filled (ab_disk m) b)) k)) (ab_queue m).
Proof.
  intros Hi Hb. destruct (lookup_lt_is_Some_2 _ _ Hi) as [b E]. assert (Eb : buf_at k i = b) by (unfold buf_at; by rewrite E).
  unfold serve. rewrite Hb, list_lookup_fmap, E, Eb. cbn [fmap option_fmap option_map default]. unfold id, disk_after. cbv zeta.
  change (dirty (set_b_qnext None b)) with (dirty b). change (target (set_b_qnext None b)) with (target b).
  change (b_data (set_b_qnext None b)) with (b_data b).
  assert (H : forall f g, set_b_qnext None (g b) = f (set_b_qnext None b) ->
    alter f i (set_b_qnext None <$> k_buf k) = set_b_qnext None <$> k_buf (upd_buf i g k)).
  { intros f g Hfg. apply list_eq. intros j. simpl. rewrite list_lookup_fmap. destruct (decide (i = j)) as [<-|Hne].
    - rewrite !list_lookup_alter_eq, list_lookup_fmap, E. simpl. by rewrite Hfg.
    - by rewrite !list_lookup_alter_ne, list_lookup_fmap. }
  destruct (dirty b) eqn:Ed; f_equal; apply H; unfold filled; by rewrite Ed.
Qed.

(** What the interrupt handler leaves alone, when the request was for buffer [i]. *)
Definition intr_frame (m : ide_abs) (k k' : kstate) : Prop :=
  ide_frame (match ab_queue m with [] => k | i :: _ => woken (Some (Ch_buf i)) k end) k'.

(** The next request, if there is one, is started. *)
Lemma start_next k m q e : linkedq k (idequeue (k_hw k)) q -> Forall (fun i => (i < length (k_buf k))%nat /\ request (buf_at k i)) q ->
  NoDup q -> ab_buf m = set_b_qnext None <$> k_buf k -> ab_queue m = q -> at_disk (ctl k) = ab_disk m ->
  exists k', (q <- gets (fun k => idequeue (k_hw k));; when (bool_decide (q <> None)) (idestart q)) k e = Done tt k' e
    /\ ide_rel k' m /\ ide_frame k k'.
Proof.
  intros Hl Hr Hn Hb Hq Hd. rewrite bind_gets. destruct q as [|j q].
  - simpl in Hl. rewrite Hl. rewrite bool_decide_false by (intros H; by apply H). cbn [when]. exists k. split; [done|]. split; [|done].
    split; rewrite ?Hq; try done.
  - pose proof (proj1 Hl) as Ej. rewrite Ej, bool_decide_true by done. cbn [when]. pose proof Hr as [[_ Hj] _]%Forall_cons.
    destruct (idestart_run j k e Hj) as (io & E & Hs). exists (logged io k). split; [exact E|]. split; [|done].
    rewrite Hd in Hs. split; rewrite ?Hq; try done. by apply (linkedq_ext k).
Qed.

(** The interrupt handler completes the first request. *)
Lemma ideintr_locked_run c k m e : settled k c -> lock_free k L_ptable -> ide_rel k m ->
  exists k', ideintr_locked k e = Done tt k' e /\ ide_rel k' (ide_apply Interrupt m) /\ intr_frame m k k'.
Proof.
  intros Hs Hf [Rb Rq Rn Rr Rh]. unfold ideintr_locked, intr_frame. rewrite bind_gets. cbn [ide_apply]. destruct (ab_queue m) as [|i q] eqn:Eq.
  { simpl in Rq. rewrite Rq. exists k. split; [done|]. split; [|done]. split; rewrite ?Eq; try done. }
  pose proof (proj1 Rq) as Ei. rewrite Ei, bind_modify. set (k1 := upd_hw _ k). rewrite bind_gets. fold (dirty (buf_at k1 i)).
  apply NoDup_cons in Rn as [Hiq Rn]. apply Forall_cons in Rr as [[Hi Hreq] Rr]. destruct (read_sector i (ab_disk m) k1 e Hi Rh) as (io & E & Hd).
  run E. rewrite !bind_modify, !upd_buf_upd.
  change (upd_buf i _ (logged io k1)) with (upd_buf i (fun b => clean (filled (ab_disk m) b)) (logged io k1)). set (k2 := upd_buf i _ _).
  assert (W : wakeup (Ch_buf i) k2 e = Done tt (woken (Some (Ch_buf i)) k2) e) by (apply (wakeup_done k2 c); [by apply (settled_ext k)|exact Hf]).
  run W. set (k3 := woken _ k2). rewrite (serve_abs i k m Hi Rb). unfold set_ab_queue. cbn [ab_disk ab_buf].
  assert (Hne : forall j, j ∈ q -> buf_at k3 j = buf_at k j).
  { intros j Hj. change (buf_at k3 j) with (buf_at (upd_buf i (fun b => clean (filled (ab_disk m) b)) k) j).
    rewrite buf_at_upd_in, decide_False by (done || intros ->; done). done. }
  destruct (start_next k3 (mk_ide_abs (disk_after (ab_disk m) (buf_at k i))
    (set_b_qnext None <$> k_buf (upd_buf i (fun b => clean (filled (ab_disk m) b)) k)) q) q e) as (k' & E' & R' & F'); try done.
  { apply (linkedq_ext k); [intros j Hj; by rewrite Hne|]. change (idequeue (k_hw k3)) with (b_qnext (buf_at k i)). apply Rq. }
  { change (length (k_buf k3)) with (length (alter (fun b => clean (filled (ab_disk m) b)) i (k_buf k))). rewrite length_alter.
    apply Forall_forall. intros j Hj. rewrite Hne by done. rewrite Forall_forall in Rr. by apply Rr. }
  exists k'. split; [exact E'|]. split; [exact R'|]. unfold ide_frame in *. rewrite F'. done.
Qed.

Lemma ide_rel_ext k k' m : k_buf k' = k_buf k -> k_hw k' = k_hw k -> ide_rel k m -> ide_rel k' m.
Proof.
  intros Eb Eh [Rb Rq Rn Rr Rh]. assert (Hb : forall j, buf_at k' j = buf_at k j) by (intros; unfold buf_at; by rewrite Eb).
  split; unfold ctl; rewrite ?Eb, ?Eh; try done.
  - apply (linkedq_ext k); [intros j _; by rewrite Hb|done].
  - eapply Forall_impl; [exact Rr|]. intros j. by rewrite Hb.
  - destruct (ab_queue m); [done|]. rewrite Hb. done.
Qed.

(** A state in which the driver has changed what is its own. *)
Definition driven (k0 k : kstate) : kstate := set_k_buf (k_buf k0) (set_k_hw (k_hw k0) k).

Lemma frame_driven k k' : ide_frame k k' -> k' = driven k' k.
Proof.
  intros H. transitivity (driven k' (set_k_buf [] (set_k_hw zero_hw k'))); [by destruct k'|]. unfold ide_frame in H. rewrite H. done.
Qed.

Lemma ideintr_run c k m e : settled k c -> lock_free k L_idelock -> lock_free k L_ptable -> ide_rel k m ->
  exists k', ideintr k e = Done tt k' e /\ ide_rel k' (ide_apply Interrupt m) /\ intr_frame m k k'.
Proof.
  intros Hs Hl Ht R. unfold ideintr. run (acquire_free k c L_idelock e Hs Hl).
  destruct (ideintr_locked_run c (locked c L_idelock k) m e) as (k1 & E & R1 & F);
    [by apply settled_locked|by apply lock_free_locked|by apply (ide_rel_ext k)|].
  run E. set (k0 := match ab_queue m with [] => k | i :: _ => woken (Some (Ch_buf i)) k end).
  assert (E1 : k1 = locked c L_idelock (driven k1 k0)).
  { unfold intr_frame in F. apply frame_driven in F. rewrite F at 1. unfold k0. by destruct (ab_queue m). }
  rewrite E1. assert (Hk0 : k_apicid k0 = k_apicid k /\ k_cpus k0 = k_cpus k /\ k_if k0 = k_if k /\ k_locks k0 = k_locks k) by (unfold k0; by destruct (ab_queue m)).
  destruct Hk0 as (A1 & A2 & A3 & A4). exists (driven k1 k0). split; [apply release_locked|split].
  - by apply (settled_ext k).
  - by apply (lock_free_ext k).
  - by apply (ide_rel_ext k1).
  - unfold intr_frame, ide_frame. fold k0. done.
Qed.

(** ** Waiting for the disk *)

(** Process [p] runs on CPU [c], nobody is using the driver, and the driver is as in [m]. *)
Record on_disk (k : kstate) (c p : nat) (m : ide_abs) : Prop := {
  od_running : running k c p;
  od_alive : alive k p;
  od_ncli : c_ncli (cpu_at k c) = 0;
  od_lock : lock_free k L_idelock;
  od_ptable : lock_free k L_ptable;
  od_rel : ide_rel k m
}.

(** What runs while the process sleeps: the disk interrupts at least once, and the other processes
    make requests and change the buffers they own; then the process is resumed. *)
Definition disk_round (c p i : nat) (t : Z * Z) (f : kstate -> kstate) : Prop :=
  forall k m, on_disk k c p m -> i ∈ ab_queue m ->
  exists k2 ops, f (locked c L_ptable (asleep p (Ch_buf i) k)) = locked c L_ptable k2
    /\ allowed_run i t ops m /\ Interrupt ∈ ops /\ on_disk k2 c p (ide_run ops m)
    /\ c_intena (cpu_at k2 c) = c_intena (cpu_at k c).

Lemma on_disk_upd_proc k c p m q f : on_disk k c p m -> on_disk (upd_proc q f k) c p m.
Proof.
  intros [Hr Ha Hn Hl Ht R]. split; [by apply running_upd_proc|by apply alive_upd|done|other_fields|other_fields|by apply (ide_rel_ext k)].
Qed.

Lemma rel_buf k m i b : ide_rel k m -> ab_buf m !! i = Some b -> set_b_qnext None (buf_at k i) = b.
Proof.
  intros R. rewrite (ir_buf _ _ R), list_lookup_fmap. unfold buf_at. destruct (k_buf k !! i); [|done]. by intros [= <-].
Qed.

Lemma clean_flags b : Z.land (b_flags (clean b)) (Z.lor B_VALID B_DIRTY) = B_VALID.
Proof.
  simpl. apply Z.bits_inj'. intros n Hn. rewrite !Z.land_spec, !Z.lor_spec, Z.lnot_spec by done.
  assert (H : Z.testbit B_VALID n && Z.testbit B_DIRTY n = false) by (rewrite <- Z.land_spec; apply Z.bits_0).
  destruct (Z.testbit (b_flags b) n), (Z.testbit B_VALID n), (Z.testbit B_DIRTY n); done.
Qed.

Definition await (i : nat) : unit -> K (unit + unit) := fun _ =>
  b <- gets (fun k => buf_at k i);;
  if negb (Z.land (b_flags b) (Z.lor B_VALID B_DIRTY) =? B_VALID)
  then sleep (Ch_buf i) (Some L_idelock);; ret (inl tt)
  else ret (inr tt).

(** The loop ends when the request has been completed. *)
Lemma await_completed d b i c p e k m : on_disk k c p m -> completed d b i m ->
  waiting (await i) tt (locked c L_idelock k) e = Done tt (locked c L_idelock k) e.
Proof.
  intros H C. unfold waiting. cbn [iter Nat.add]. unfold await at 1. rewrite bind_assoc, bind_gets.
  pose proof (rel_buf _ _ _ _ (od_rel _ _ _ _ H) (co_buf _ _ _ _ C)) as E. apply (f_equal b_flags) in E.
  change (buf_at (locked c L_idelock k) i) with (buf_at k i). change (b_flags (buf_at k i) = b_flags (clean (filled d b))) in E.
  rewrite E, clean_flags. done.
Qed.

(** One turn of the loop while it is pending. *)
Lemma await_pending d b i n c p f e k m : on_disk k c p m -> pending d b i n m -> disk_round c p i (target b) f ->
  exists k' m', waiting (await i) tt (locked c L_idelock k) (f :: e) = waiting (await i) tt (locked c L_idelock k') e
    /\ on_disk k' c p m' /\ (completed d b i m' \/ exists n', pending d b i n' m' /\ (n' < n)%nat).
Proof.
  intros H P Hf. assert (Hi : i ∈ ab_queue m).
  { destruct (pe_queue _ _ _ _ _ P) as (l & r & -> & _). apply elem_of_app. right. apply list_elem_of_here. }
  destruct (Hf k m H Hi) as (k2 & ops & E & Ha & Hint & H2 & Hc).
  exists (upd_proc p (set_p_chan None) k2), (ide_run ops m). split; [|split; [by apply on_disk_upd_proc|]].
  - assert (Hq : request (buf_at k i)).
    { pose proof (ir_req _ _ (od_rel _ _ _ _ H)) as Hr. rewrite Forall_forall in Hr. by apply Hr. }
    unfold waiting. change (1 + length (f :: e))%nat with (S (S (length e))). cbn [iter]. unfold await at 1.
    rewrite bind_assoc, bind_gets. change (buf_at (locked c L_idelock k) i) with (buf_at k i).
    rewrite (proj2 (Z.eqb_neq _ _) (rq_flags _ Hq)). cbn [negb].
    destruct H as [Hr Hal Hn Hl Ht R]. destruct H2 as [[Hs2 _] _ _ Hl2 Ht2 _]. rewrite bind_assoc.
    rewrite (bind_done _ _ _ _ _ _ _ (sleep_resumes k c p (Ch_buf i) L_idelock f e k2 Hr Hal Hn ltac:(done) Hl Ht E Hs2 Hl2 Ht2 Hc)).
    rewrite bind_ret. done.
  - destruct (pending_run _ _ _ _ _ _ P Ha) as [?|(n' & ? & _ & Hlt)]; [by left|right]. exists n'. split; [done|by apply Hlt].
Qed.

Lemma await_done d b i c p e : forall n k m, on_disk k c p m -> pending d b i n m -> Forall (disk_round c p i (target b)) e -> (n < length e)%nat ->
  exists k' m' e', waiting (await i) tt (locked c L_idelock k) e = Done tt (locked c L_idelock k') e' /\ on_disk k' c p m' /\ completed d b i m'.
Proof.
  induction e as [|f e IH]; intros n k m H P He Hn; simpl in Hn; [lia|]. apply Forall_cons in He as [Hf He].
  destruct (await_pending d b i n c p f e k m H P Hf) as (k1 & m1 & -> & H1 & [C|(n' & P1 & Hlt)]).
  - exists k1, m1, e. split; [by apply (await_completed d b i c p e k1 m1)|done].
  - apply (IH n' k1 m1); [done..|lia].
Qed.

(** What a process must have to call [iderw]. *)
Record may_request (k : kstate) (p i : nat) (m : ide_abs) : Prop := {
  mr_range : (i < length (k_buf k))%nat;
  mr_request : request (buf_at k i);
  mr_free : i ∉ ab_queue m;
  mr_sole : sole i (target (buf_at k i)) m;
  mr_dev : b_dev (buf_at k i) = 0 \/ havedisk1 (k_hw k) <> 0;
  mr_lock : lock_free k (L_sleep (SL_buf i));
  mr_held : sl_locked (sleeplock_at k (SL_buf i)) <> 0;
  mr_pid : sl_pid (sleeplock_at k (SL_buf i)) = p_pid (proc_at k p)
}.

Lemma enqueue_pending k c p i m e : on_disk k c p m -> may_request k p i m ->
  exists k', iderw_enqueue i (locked c L_idelock k) e = Done tt (locked c L_idelock k') e
    /\ on_disk k' c p (ide_apply (Request i) m)
    /\ pending (ab_disk m) (set_b_qnext None (buf_at k i)) i (length (ab_queue m)) (ide_apply (Request i) m).
Proof.
  intros [Hr Hal Hn Hl Ht R] [Hi Hq Hfree Hsole _ _ _ _].
  destruct (iderw_enqueue_run i (locked c L_idelock k) m e) as (k1 & E & R1 & F); [by apply (ide_rel_ext k)|done..|].
  apply frame_driven in F. assert (E1 : k1 = locked c L_idelock (driven k1 k)) by (rewrite F at 1; done). exists (driven k1 k).
  split; [by rewrite <- E1|]. split.
  - split; [|done|done|other_fields|other_fields|by apply (ide_rel_ext k1)]. destruct Hr as [Hs Hp]. split; [other_fields|done].
  - split; simpl; [|rewrite (ir_buf _ _ R), list_lookup_fmap, buf_at_lookup by done; done|done|done].
    exists (ab_queue m), []. split; [done|]. split; [done|]. split; [done|]. apply not_elem_of_nil.
Qed.

(** A call of [iderw] that finds the driver in [m]: the request is completed when it returns. *)
Lemma iderw_run k c p i m e : on_disk k c p m -> may_request k p i m ->
  Forall (disk_round c p i (target (buf_at k i))) e -> (length (ab_queue m) < length e)%nat ->
  exists k' m' e', Ide.iderw i k e = Done tt k' e' /\ on_disk k' c p m' /\ completed (ab_disk m) (set_b_qnext None (buf_at k i)) i m'.
Proof.
  intros H Hm He Hlen. pose proof H as [Hr Hal Hn Hl Ht R]. pose proof Hm as [Hi Hq _ _ Hdev Hsl Hheld Hpid]. unfold Ide.iderw.
  run (holdingsleep_done k c p (SL_buf i) e Hr Hsl). rewrite Hpid, Z.eqb_refl, andb_true_r.
  unfold truth at 1. rewrite (proj2 (Z.eqb_neq _ _) Hheld). cbn [negb]. rewrite bind_gets, (proj2 (Z.eqb_neq _ _) (rq_flags _ Hq)), bind_gets.
  assert (Hd : negb (b_dev (buf_at k i) =? 0) && negb (truth (havedisk1 (k_hw k))) = false).
  { destruct Hdev as [->|Hd]; [done|]. unfold truth. rewrite (proj2 (Z.eqb_neq _ _) Hd). apply andb_false_r. }
  rewrite Hd. run (acquire_free k c L_idelock e (proj1 Hr) Hl). destruct (enqueue_pending k c p i m e H Hm) as (k1 & E1 & H1 & P1). run E1.
  destruct (await_done _ _ i c p e _ k1 _ H1 P1 He Hlen) as (k2 & m2 & e2 & E2 & H2 & C2). fold (await i). run E2.
  exists k2, m2, e2. split; [|done]. destruct H2 as [[Hs2 _] _ _ Hl2 _ _]. by apply release_locked.
Qed.

(** C8: [iderw] of ide.c synchronises the buffer with the disk, whatever else goes on.
    Process [p] holds the buffer, the queue has any number of requests before
    its own, and whenever it sleeps the disk interrupts at least once while
    other processes make more requests and change buffers of other blocks.
    With more rounds than requests before it, [iderw] returns, without a panic; the
    buffer is then valid and not dirty and no longer in the queue; a dirty buffer
    has kept its data and another one holds what the disk had for its block
    at the call; and the block on the disk is equal to the buffer. *)
Theorem iderw_serves (k : kstate) (c p i : nat) (m : ide_abs) (e : environment kstate) :
  on_disk k c p m -> may_request k p i m ->
  Forall (disk_round c p i (target (buf_at k i))) e -> (length (ab_queue m) < length e)%nat ->
  exists k' m' e', Ide.iderw i k e = Done tt k' e' /\ on_disk k' c p m' /\ (i ∉ ab_queue m')
    /\ Z.land (b_flags (buf_at k' i)) (Z.lor B_VALID B_DIRTY) = B_VALID
    /\ b_data (buf_at k' i) = (if dirty (buf_at k i) then b_data (buf_at k i) else at_block (ab_disk m) (target (buf_at k i)))
    /\ at_block (ab_disk m') (target (buf_at k i)) = b_data (buf_at k' i).
Proof.
  intros H Hm He Hlen. destruct (iderw_run k c p i m e H Hm He Hlen) as (k' & m' & e' & E & H' & [Cq Cb Ck _]).
  exists k', m', e'. split; [done|]. split; [done|]. split; [done|]. pose proof (rel_buf _ _ _ _ (od_rel _ _ _ _ H') Cb) as Eb.
  set (b := set_b_qnext None (buf_at k i)) in *. assert (Ed : b_data (buf_at k' i) = b_data (filled (ab_disk m) b)) by (by apply (f_equal b_data) in Eb).
  split; [|split; [|by rewrite Ed]].
  - apply (f_equal b_flags) in Eb. change (b_flags (buf_at k' i) = b_flags (clean (filled (ab_disk m) b))) in Eb. rewrite Eb. apply clean_flags.
  - rewrite Ed. unfold filled. change (dirty b) with (dirty (buf_at k i)). by destruct (dirty (buf_at k i)).
Qed.

(** ** A round in which the disk interrupts *)

(** The scheduler lets go of the process table, the disk interrupts, and process [p], made
    runnable by the handler, is resumed. *)
Definition disk_interrupts (p : nat) (k : kstate) : kstate :=
  match (release L_ptable;; ideintr;; acquire L_ptable;; modify (upd_proc p (set_p_state RUNNING))) k [] with
  | Done _ k' _ => k'
  | _ => k
  end.

Lemma alive_woken k p ch : alive k p -> alive (woken ch k) p.
Proof. intros [x Hx]. unfold alive, woken. simpl. rewrite list_lookup_fmap, Hx. by eexists. Qed.

(** After an interrupt everything is as before for the process, but the driver. *)
Lemma on_disk_intr k c p m k' : on_disk k c p m -> ide_rel k' (ide_apply Interrupt m) -> intr_frame m k k' -> on_disk k' c p (ide_apply Interrupt m)
  /\ c_intena (cpu_at k' c) = c_intena (cpu_at k c).
Proof.
  intros [[Hs Hp] Hal Hn Hl Ht _] R F. apply frame_driven in F. set (k0 := match ab_queue m with [] => k | i :: _ => woken (Some (Ch_buf i)) k end) in *.
  assert (Hk0 : k_apicid k0 = k_apicid k /\ k_cpus k0 = k_cpus k /\ k_if k0 = k_if k /\ k_locks k0 = k_locks k /\ alive k0 p).
  { unfold k0. destruct (ab_queue m); [done|]. do 4 (split; [done|]). by apply alive_woken. }
  destruct Hk0 as (A1 & A2 & A3 & A4 & A5). assert (B : cpu_at k' c = cpu_at k c) by (rewrite F; unfold cpu_at, driven; simpl; by rewrite A2).
  rewrite B. split; [|done]. split; [split|..]; rewrite ?B; try done.
  - apply (settled_ext k); [rewrite F; exact A1|rewrite F; exact A2|rewrite F; exact A3|done].
  - rewrite F. exact A5.
  - apply (lock_free_ext k); [rewrite F; exact A4|done].
  - apply (lock_free_ext k); [rewrite F; exact A4|done].
Qed.

Lemma disk_interrupts_round c p i t : disk_round c p i t (disk_interrupts p).
Proof.
  intros k m H Hi. assert (Ha : on_disk (asleep p (Ch_buf i) k) c p m) by (unfold asleep; by do 2 apply on_disk_upd_proc).
  assert (Hc : cpu_at (asleep p (Ch_buf i) k) c = cpu_at k c) by done. set (ka := asleep p (Ch_buf i) k) in *.
  pose proof Ha as [[Hs _] _ _ Hl Ht R]. destruct (ideintr_run c ka m [] Hs Hl Ht R) as (k1 & E & R1 & F).
  destruct (on_disk_intr ka c p m k1 Ha R1 F) as [H1 Hint]. exists (upd_proc p (set_p_state RUNNING) k1), [Interrupt]. split; [|split; [|split; [|split]]].
  - unfold disk_interrupts. run (release_locked ka c L_ptable [] Hs Ht). run E.
    run (acquire_free k1 c L_ptable [] (proj1 (od_running _ _ _ _ H1)) (od_ptable _ _ _ _ H1)). done.
  - done.
  - apply list_elem_of_here.
  - by apply on_disk_upd_proc.
  - change (c_intena (cpu_at k1 c) = c_intena (cpu_at k c)). rewrite Hint. done.
Qed.

(** ** The two drivers *)

(** The order in which memide.c sets the flags does not matter. *)
Lemma flags_either f : (if truth (Z.land f B_DIRTY) then Z.lor (Z.land f (Z.lnot B_DIRTY)) B_VALID else Z.lor f B_VALID)
  = Z.land (Z.lor f B_VALID) (Z.lnot B_DIRTY).
Proof.
  assert (V : forall n, Z.testbit B_VALID n && Z.testbit B_DIRTY n = false) by (intros; rewrite <- Z.land_spec; apply Z.bits_0).
  destruct (truth (Z.land f B_DIRTY)) eqn:E; apply Z.bits_inj'; intros n Hn; rewrite ?Z.land_spec, ?Z.lor_spec, ?Z.land_spec, ?Z.lor_spec, ?Z.lnot_spec by done; specialize (V n).
  - destruct (Z.testbit f n), (Z.testbit B_VALID n), (Z.testbit B_DIRTY n); done.
  - assert (D : Z.testbit f n && Z.testbit B_DIRTY n = false).
    { rewrite <- Z.land_spec. unfold truth in E. apply negb_false_iff, Z.eqb_eq in E. rewrite E. apply Z.bits_0. }
    destruct (Z.testbit f n), (Z.testbit B_VALID n), (Z.testbit B_DIRTY n); done.
Qed.

Lemma memide_run k c p i e : running k c p -> (i < length (k_buf k))%nat -> request (buf_at k i) -> lock_free k (L_sleep (SL_buf i)) ->
  sl_locked (sleeplock_at k (SL_buf i)) <> 0 -> sl_pid (sleeplock_at k (SL_buf i)) = p_pid (proc_at k p) ->
  b_dev (buf_at k i) = 1 -> b_blockno (buf_at k i) < u32 (k_disksize k) ->
  exists k', Bio.iderw i k e = Done tt k' e /\ b_flags (buf_at k' i) = b_flags (clean (buf_at k i))
    /\ b_data (buf_at k' i) = (if dirty (buf_at k i) then b_data (buf_at k i) else disk_block k (b_blockno (buf_at k i)))
    /\ disk_block k' (b_blockno (buf_at k i)) = b_data (buf_at k' i).
Proof.
  intros Hr Hi Hq Hsl Hheld Hpid Hdev Hb. unfold Bio.iderw. run (holdingsleep_done k c p (SL_buf i) e Hr Hsl). rewrite Hpid, Z.eqb_refl, andb_true_r.
  unfold truth at 1. rewrite (proj2 (Z.eqb_neq _ _) Hheld). cbn [negb]. rewrite bind_gets, (proj2 (Z.eqb_neq _ _) (rq_flags _ Hq)), Hdev.
  change (negb (1 =? 1)) with false. cbv iota. rewrite bind_gets, (proj2 (Z.leb_gt _ _) Hb). fold (dirty (buf_at k i)).
  pose proof (flags_either (b_flags (buf_at k i))) as Hf. fold (dirty (buf_at k i)) in Hf. set (b := buf_at k i) in *. destruct (dirty b) eqn:Ed.
  - rewrite bind_assoc, !bind_modify. unfold modify. eexists. split; [reflexivity|].
    set (k1 := upd_buf i (fun b => set_b_flags (Z.land (b_flags b) (Z.lnot B_DIRTY)) b) k).
    assert (E1 : buf_at k1 i = set_b_flags (Z.land (b_flags b) (Z.lnot B_DIRTY)) b) by (unfold k1; by rewrite buf_at_upd_in, decide_True by done).
    assert (Hi1 : (i < length (k_buf k1))%nat) by (unfold k1; simpl; by rewrite length_alter).
    rewrite buf_at_upd_in, decide_True by done. change (buf_at (disk_write _ _ k1) i) with (buf_at k1 i). rewrite E1. split; [exact Hf|].
    split; [done|]. unfold disk_block. simpl. by rewrite lookup_insert_eq.
  - rewrite bind_modify. unfold modify. eexists. split; [reflexivity|]. rewrite upd_buf_upd, buf_at_upd_in, decide_True by done.
    split; [exact Hf|]. split; [done|]. done.
Qed.

(** C9: Both disk drivers do the same.  On a buffer of disk 1, when the block is the same on the disk
    behind the controller and in the memory of memide.c, [iderw] of ide.c, with its queue
    and its interrupts, and [iderw] of memide.c, which copies at once, both return, leave the same
    flags and the same data in the buffer, and leave the same block on the
    disk: the theorems of the file system, proved with memide.c, are about both. *)
Theorem ide_as_memide (k : kstate) (c p i : nat) (m : ide_abs) (e : environment kstate) :
  on_disk k c p m -> may_request k p i m ->
  Forall (disk_round c p i (target (buf_at k i))) e -> (length (ab_queue m) < length e)%nat ->
  b_dev (buf_at k i) = 1 -> b_blockno (buf_at k i) < u32 (k_disksize k) ->
  disk_block k (b_blockno (buf_at k i)) = at_block (ab_disk m) (target (buf_at k i)) ->
  exists k1 m1 e1 k2, Ide.iderw i k e = Done tt k1 e1 /\ on_disk k1 c p m1 /\ Bio.iderw i k e = Done tt k2 e
    /\ b_flags (buf_at k1 i) = b_flags (buf_at k2 i) /\ b_data (buf_at k1 i) = b_data (buf_at k2 i)
    /\ at_block (ab_disk m1) (target (buf_at k i)) = disk_block k2 (b_blockno (buf_at k i)).
Proof.
  intros H Hm He Hlen Hdev Hb Hblk. destruct (iderw_run k c p i m e H Hm He Hlen) as (k1 & m1 & e1 & E & H1 & [_ Cb Ck _]).
  pose proof Hm as [Hi Hq _ _ _ Hsl Hheld Hpid].
  destruct (memide_run k c p i e (od_running _ _ _ _ H) Hi Hq Hsl Hheld Hpid Hdev Hb) as (k2 & E2 & F2 & D2 & B2).
  pose proof (rel_buf _ _ _ _ (od_rel _ _ _ _ H1) Cb) as Eb. set (b := set_b_qnext None (buf_at k i)) in *.
  assert (Ed : b_data (buf_at k1 i) = b_data (buf_at k2 i)).
  { apply (f_equal b_data) in Eb. change (b_data (buf_at k1 i) = b_data (filled (ab_disk m) b)) in Eb. rewrite Eb, D2, Hblk.
    unfold filled. change (dirty b) with (dirty (buf_at k i)). by destruct (dirty (buf_at k i)). }
  exists k1, m1, e1, k2. do 3 (split; [done|]). split; [|split; [done|]].
  - apply (f_equal b_flags) in Eb. change (b_flags (buf_at k1 i) = b_flags (clean (filled (ab_disk m) b))) in Eb. rewrite Eb, F2.
    unfold filled. by destruct (dirty b).
  - rewrite B2, <- Ed. apply (f_equal b_data) in Eb. etransitivity; [exact Ck|]. symmetry. exact Eb.
Qed.

End Driver.

(** ** A machine with such a disk *)

(** A controller that is always ready and delivers what it stores. *)
Definition ready_disk (d : gmap (Z * Z) (list Z)) : Hardware := {|
  hw_in := fun _ _ => IDE_DRDY;
  hw_ins := fun io _ _ =>
    match at_cmd (ata_of d io) with
    | Some (_, t) => at_block (at_disk (ata_of d io)) t
    | None => []
    end;
  hw_read := fun _ _ => 0;
  hw_patience := 0 |}.

Definition sectors (d : gmap (Z * Z) (list Z)) : Prop := map_Forall (fun _ data => sector_data data = data) d.

Lemma sector_data_twice data : sector_data (sector_data data) = sector_data data.
Proof.
  apply sector_data_id.
  - unfold sector_data. by rewrite length_fmap, length_resize.
  - unfold sector_data. apply Forall_fmap, Forall_true. intros x. unfold compose, is_byte, u8. apply Z.mod_pos_bound. lia.
Qed.

Lemma sectors_of d io : sectors d -> sectors (at_disk (ata_of d io)).
Proof.
  intros Hd. induction io as [|ev io IH]; [done|]. change (ata_of d (ev :: io)) with (ata_step ev (ata_of d io)). destruct ev; try exact IH; cbn [ata_step].
  - by repeat case_match.
  - by repeat case_match.
  - repeat case_match; try exact IH. simpl. apply map_Forall_insert_2; [apply sector_data_twice|exact IH].
Qed.

Lemma ready_disk_ata d : sectors d -> @AtaDisk (ready_disk d) d.
Proof.
  intros Hd. split.
  - intros io. exists 0%nat. done.
  - intros io. done.
  - intros io t E. simpl. rewrite E. pose proof (sectors_of d io Hd) as Hs. unfold at_block. destruct (at_disk (ata_of d io) !! t) as [x|] eqn:Ex.
    + by apply (Hs t).
    + cbn [default from_option]. apply sector_data_id; [apply length_replicate|]. apply Forall_replicate. by unfold is_byte.
Qed.

(** Block 7 of disk 1 holds fives; buffer 0 is to be written to block 3, buffer 1 is for block 7. *)
Definition fives : gmap (Z * Z) (list Z) := {[ (1, 7) := replicate BSIZE 5 ]}.

Definition busy_buf (flags blockno x : Z) : buf := mk_buf flags 1 blockno (mk_sleeplock 1 EmptyString 0) 1 0 0 None (replicate BSIZE x).

Definition disk_machine : kstate :=
  let k := boot_state [mk_cpu 0 1 0 0 (Some 0%nat)] {[ 7 := replicate BSIZE 5 ]} 1000 in
  let k := upd_proc 0 (set_p_state RUNNING) k in
  let free := mk_spinlock 0 EmptyString None in
  let k := set_k_locks (<[L_idelock := free]> (<[L_sleep (SL_buf 1) := free]>
    (<[L_sleep (SL_buf 0) := free]> (<[L_ptable := free]> ∅)))) k in
  let k := set_k_buf [busy_buf (Z.lor B_VALID B_DIRTY) 3 9; busy_buf 0 7 0] k in
  set_k_hw (set_havedisk1 1 zero_hw) k.

Definition idle_disk : ide_abs := mk_ide_abs fives (k_buf disk_machine) [].

Lemma fives_sectors : sectors fives.
Proof. apply map_Forall_singleton. apply sector_data_id; [apply length_replicate|]. apply Forall_replicate. by unfold is_byte. Qed.

#[local] Instance fives_disk : @AtaDisk (ready_disk fives) fives := ready_disk_ata fives fives_sectors.

Lemma busy_request flags n x : 0 <= n < FSSIZE -> is_byte x -> Z.land flags (Z.lor B_VALID B_DIRTY) <> B_VALID -> request (busy_buf flags n x).
Proof. intros Hn Hx Hf. split; [done| |done]. split; [apply length_replicate|by apply Forall_replicate]. Qed.

Lemma disk_machine_on : on_disk fives disk_machine 0 0 idle_disk.
Proof.
  split; [split; [by split|done]| |done|by exists EmptyString|by exists EmptyString|].
  - by exists (set_p_state RUNNING zero_proc).
  - split; [done|done|apply NoDup_nil_2|apply Forall_nil_2|done].
Qed.

Lemma disk_machine_sole i : sole i (target (buf_at disk_machine i)) idle_disk.
Proof.
  intros [|[|j]] b Hj; simpl; [| |by rewrite lookup_nil]; intros [= <-]; destruct i as [|[|i]]; try done; cbn; intros [=].
Qed.

Lemma disk_machine_may i : (i < 2)%nat -> may_request disk_machine 0 i idle_disk.
Proof.
  intros Hi. split; [exact Hi| |apply not_elem_of_nil|apply disk_machine_sole|by right|..]; destruct i as [|[|i]]; try lia; try done; try by exists EmptyString.
  - apply busy_request; unfold FSSIZE, is_byte; done || lia.
  - apply busy_request; unfold FSSIZE, is_byte; done || lia.
Qed.

Lemma ide_as_memide_witness :
  exists k1 m1 e1 k2, @Ide.iderw (ready_disk fives) 1 disk_machine [@disk_interrupts (ready_disk fives) 0] = Done tt k1 e1
    /\ on_disk fives k1 0 0 m1 /\ Bio.iderw 1 disk_machine [@disk_interrupts (ready_disk fives) 0] = Done tt k2 [@disk_interrupts (ready_disk fives) 0]
    /\ b_flags (buf_at k1 1) = b_flags (buf_at k2 1) /\ b_data (buf_at k1 1) = b_data (buf_at k2 1)
    /\ at_block (ab_disk m1) (1, 7) = disk_block k2 7.
Proof.
  apply (ide_as_memide (HW := ready_disk fives) fives disk_machine 0 0 1 idle_disk [@disk_interrupts (ready_disk fives) 0]).
  - exact disk_machine_on.
  - apply disk_machine_may. lia.
  - apply Forall_singleton. exact (disk_interrupts_round fives 0 0 1 _).
  - simpl. lia.
  - reflexivity.
  - reflexivity.
  - reflexivity.
Defined.

(** The same machine when the request for buffer 0 is being served. *)
Definition queued_machine : kstate :=
  match (acquire L_idelock;; @iderw_enqueue (ready_disk fives) 0;; release L_idelock) disk_machine [] with
  | Done _ k _ => k
  | _ => disk_machine
  end.

Lemma queued_machine_on : on_disk fives queued_machine 0 0 (ide_apply (Request 0) idle_disk).
Proof.
  pose proof disk_machine_on as H. destruct (enqueue_pending (HW := ready_disk fives) fives disk_machine 0 0 0 idle_disk [] H (disk_machine_may 0 ltac:(lia))) as (k & E & Hk & _).
  assert (Ek : queued_machine = k); [|by rewrite Ek]. unfold queued_machine.
  rewrite (bind_done _ _ _ _ _ _ _ (acquire_free disk_machine 0 L_idelock [] (proj1 (od_running _ _ _ _ _ H)) (od_lock _ _ _ _ _ H))).
  rewrite (bind_done _ _ _ _ _ _ _ E). by rewrite (release_locked k 0 L_idelock [] (proj1 (od_running _ _ _ _ _ Hk)) (od_lock _ _ _ _ _ Hk)).
Qed.

Lemma queued_machine_may : may_request queued_machine 0 1 (ide_apply (Request 0) idle_disk).
Proof.
  assert (Eb : buf_at queued_machine 1 = busy_buf 0 7 0) by (vm_compute; reflexivity).
  split; rewrite ?Eb.
  - apply Nat.ltb_lt. vm_compute. reflexivity.
  - apply busy_request; unfold FSSIZE, is_byte; done || lia.
  - intros Hi%list_elem_of_singleton. done.
  - exact (disk_machine_sole 1).
  - right. apply Z.eqb_neq. vm_compute. reflexivity.
  - exists EmptyString. vm_compute. reflexivity.
  - apply Z.eqb_neq. vm_compute. reflexivity.
  - vm_compute. reflexivity.
Qed.

Lemma iderw_serves_witness :
  exists k' m' e', @Ide.iderw (ready_disk fives) 1 queued_machine (replicate 2 (@disk_interrupts (ready_disk fives) 0)) = Done tt k' e'
    /\ on_disk fives k' 0 0 m' /\ (1%nat ∉ ab_queue m')
    /\ Z.land (b_flags (buf_at k' 1)) (Z.lor B_VALID B_DIRTY) = B_VALID
    /\ b_data (buf_at k' 1) = (if dirty (buf_at queued_machine 1) then b_data (buf_at queued_machine 1) else at_block fives (target (buf_at queued_machine 1)))
    /\ at_block (ab_disk m') (target (buf_at queued_machine 1)) = b_data (buf_at k' 1).
Proof.
  apply (iderw_serves (HW := ready_disk fives) fives queued_machine 0 0 1 (ide_apply (Request 0) idle_disk) (replicate 2 (@disk_interrupts (ready_disk fives) 0))).
  - exact queued_machine_on.
  - exact queued_machine_may.
  - apply Forall_replicate. exact (disk_interrupts_round fives 0 0 1 _).
  - simpl. lia.
Defined.
