(* ===== verification/Machine.v ===== *)
(** * A small machine

    One CPU that runs one process, a disk of 1000 blocks with its log at block 2
    and the locks of the file system initialised: the concrete state on which
    the theorems about the file system are instantiated. *)

From stdpp Require Import base gmap list strings sets.
From Stdlib Require Import ZArith Lia.
From S2P Require Import Prelude State Spinlock Sched Bio Cache.

Definition other_locks : list lockid :=
  [L_ptable; L_log; L_icache; L_ftable] ++ ((fun i => L_sleep (SL_inode i)) <$> seq 0 NINODE).

Definition machine_log : log_t := mk_log_t 2 30 0 0 1 0 (replicate LOGSIZE 0).

Definition machine (d : gmap Z (list Z)) : kstate :=
  set_k_log machine_log
  (set_k_proc (set_p_pid 1 (set_p_state RUNNING zero_proc) :: replicate 63 zero_proc)
  (set_k_locks (list_to_map ((fun lk => (lk, mk_spinlock 0 EmptyString None)) <$> other_locks))
  (boot_state [mk_cpu 0 1 0 0 (Some 0%nat)] d 1000))).

Lemma machine_settled d : settled (machine d) 0.
Proof. split; vm_compute; try congruence. Qed.

Lemma machine_lock d lk : lk ∈ other_locks -> k_locks (machine d) !! lk = Some (mk_spinlock 0 EmptyString None).
Proof.
  intros H. unfold machine. cbn [k_locks set_k_log set_k_proc set_k_locks].
  apply elem_of_list_to_map_1.
  - rewrite <- list_fmap_compose. change (NoDup (id <$> other_locks)). rewrite list_fmap_id.
    apply (bool_decide_unpack _). vm_compute. exact I.
  - apply list_elem_of_fmap. eauto.
Qed.

Lemma other_locks_complete lk :
  fs_lock lk = true -> lk <> L_bcache -> (forall i, lk <> L_sleep (SL_buf i)) -> lk ∈ other_locks.
Proof.
  intros H H1 H2. unfold other_locks. apply elem_of_app.
  destruct lk as [| | | | | | | | | |[i|i]]; simpl in H; try done; [left; set_solver..| |].
  - by destruct (H2 i).
  - right. apply list_elem_of_fmap. exists i. split; [done|]. apply elem_of_seq. apply Nat.ltb_lt in H. lia.
Qed.

Lemma machine_no_sleeper d ch : no_sleeper (machine d) ch.
Proof.
  unfold no_sleeper, machine. cbn [k_proc set_k_log set_k_proc]. constructor; [by intros [? _]|].
  apply Forall_replicate. by intros [? _].
Qed.

#[local] Instance is_buf_lock_dec lk : Decision (exists i, lk = L_sleep (SL_buf i)).
Proof.
  destruct lk as [| | | | | | | | | |[i|i]]; try (right; intros [? ?]; discriminate). left. by exists i.
Defined.

Definition block_sized (d : gmap Z (list Z)) : Prop :=
  forall n, length (default (replicate BSIZE 0) (d !! n)) = BSIZE.

(** The machine after [binit]. *)
Lemma machine_rest d :
  block_sized d ->
  exists k, binit (machine d) [] = Done tt k [] /\ quiet k 0 0
    /\ cache_ok k 0 (mk_cache (disk_block (machine d)) ∅ ∅)
    /\ k_log k = machine_log /\ k_disk k = d /\ k_disksize k = 1000 /\ k_writes k = [].
Proof.
  intros Hd. destruct (binit_ok (machine d) 0 []) as (k & E & (bs & locks & ->) & C & Lb & Ls & Lo); [done..|].
  eexists. split; [exact E|]. split; [|split; [exact C|repeat split]]. split.
  - split; [|done]. apply (settled_ext (machine d)); [done..|apply machine_settled].
  - intros lk Hlk. destruct (decide (lk = L_bcache)) as [->|H1]; [exact Lb|].
    destruct (decide (exists i, lk = L_sleep (SL_buf i))) as [[i ->]|H2].
    { apply Ls. by apply Nat.ltb_lt. }
    exists EmptyString.
    assert (H3 : forall i, lk <> L_sleep (SL_buf i)) by (intros i ->; apply H2; by exists i).
    rewrite (Lo lk H1 H3). apply machine_lock. by apply other_locks_complete.
  - intros ch _. apply machine_no_sleeper.
Qed.

Lemma block_sized_empty : block_sized ∅.
Proof. intros n. by rewrite lookup_empty. Qed.

Lemma binit_empty_witness :
  exists k', binit (machine ∅) [] = Done tt k' [] /\ lock_free k' L_bcache.
Proof.
  destruct (binit_empty (machine ∅) 0 [] eq_refl block_sized_empty) as (k' & E & _ & L & _).
  exists k'. split; [exact E|exact L].
Defined.

(** Block 40 in the cache of the machine. *)
Lemma machine_range k : k_disksize k = 1000 -> in_range k 40.
Proof. intros H. unfold in_range. rewrite H. vm_compute. split; congruence. Qed.

Lemma bread_returns_block_witness :
  exists k i k', bread 1 40 k [] = Done i k' [] /\ b_data (buf_at k' i) = replicate BSIZE 0.
Proof.
  destruct (machine_rest ∅ block_sized_empty) as (k & _ & Q & C & _ & _ & Hs & _).
  destruct (bread_returns_block k 0 0 _ 40 [] Q C (machine_range k Hs)) as (i & k' & E & _ & D & _).
  - apply lookup_empty.
  - right. vm_compute. lia.
  - exists k, i, k'. split; [exact E|]. rewrite D. reflexivity.
Defined.

Lemma machine_held :
  exists k i a, quiet k 0 0 /\ cache_ok k 0 a /\ a_held a !! 40 = Some i
    /\ a_blk a 40 = replicate BSIZE 0 /\ k_disk k = ∅.
Proof.
  destruct (machine_rest ∅ block_sized_empty) as (k & _ & Q & C & _ & Hd & Hs & _).
  destruct (bread_ok k 0 0 _ 40 [] Q C (machine_range k Hs)) as (i & k' & E & C' & F & [D W]).
  - apply lookup_empty.
  - right. vm_compute. lia.
  - exists k', i. eexists. split; [by eapply quiet_frame|]. split; [exact C'|].
    split; [simpl; by rewrite lookup_insert_eq|]. split; [reflexivity|by rewrite D].
Qed.

Lemma bwrite_then_brelse_witness :
  exists k i k', (bwrite i;; brelse i) k [] = Done tt k' [] /\ k_disk k' !! 40 = Some (replicate BSIZE 0).
Proof.
  destruct machine_held as (k & i & a & Q & C & Hh & Hb & Hd).
  destruct (bwrite_then_brelse k 0 0 a 40 i [] Q C Hh) as (k' & E & _ & D & _).
  exists k, i, k'. split; [exact E|]. rewrite D, Hb. apply lookup_insert_eq.
Defined.

Lemma lru_replacement_witness :
  exists k i k' l, brelse i k [] = Done tt k' [] /\ linked k' (i :: l).
Proof.
  destruct machine_held as (k & i & a & Q & C & Hh & Hb & Hd).
  destruct (held_facts _ _ _ _ _ C Hh) as (Hi & _ & _ & Hr & Hl & _).
  destruct (co_linked _ _ _ C) as [l L]. pose proof (proj2 (linked_in _ _ i L) Hi) as Hin.
  destruct (list_elem_of_split _ _ Hin) as (l1 & l2 & El). rewrite El in L.
  destruct (proj1 (lru_replacement k 0 0 [] Q) l1 i l2 L Hl Hr) as (k' & E & L').
  exists k, i, k', (l1 ++ l2). split; [exact E|exact L'].
Defined.
