(* ===== verification/Log.v ===== *)
(** * The write-ahead log (log.c)

    The operations of log.c over the buffer cache.  A [struct logheader] lies at
    the start of the header block: the count [n] at offset 0 and [block[i]] at
    offset [4 + 4 i]. *)

From stdpp Require Import base gmap list strings sets.
From Stdlib Require Import ZArith Lia.
From S2P Require Import Prelude State Bytes Spinlock Sched Bio.

(** An access outside an array: undefined in C, and no theorem is about a run
    that gets here. *)
Definition out_of_bounds {A} : K A := fun k _ => Stuck k.

(** [readsb] (fs.c) copies the super block out of block 1. *)
Definition decode_sb (data : list Z) : superblock :=
  mk_superblock (rd 4 0 data) (rd 4 4 data) (rd 4 8 data) (rd 4 12 data) (rd 4 16 data)
    (rd 4 20 data) (rd 4 24 data).

Definition readsb (dev : Z) : K superblock :=
  bp <- bread (u32 dev) 1;;
  sb <- gets (fun k => decode_sb (b_data (buf_at k bp)));;
  brelse bp;;
  ret sb.

(** ** The header block *)

Definition lh_off (i : nat) : nat := 4 + 4 * i.
Definition header_n (data : list Z) : Z := s32 (rd 4 0 data).
Definition header_block (data : list Z) (i : nat) : Z := s32 (rd 4 (lh_off i) data).

Definition sizeof_logheader : nat := 4 + 4 * LOGSIZE.

Definition put_lh_block (i : nat) (v : Z) : K unit :=
  if (i <? LOGSIZE)%nat then modify (upd_log (fun l => set_lh_block (<[i := v]> (lh_block l)) l))
  else out_of_bounds.

Definition get_lh_block (i : nat) : K Z :=
  if (i <? LOGSIZE)%nat then gets (fun k => default 0 (lh_block (k_log k) !! i))
  else out_of_bounds.

Definition log_n : K Z := gets (fun k => lh_n (k_log k)).
Definition logdev : K Z := gets (fun k => u32 (log_dev (k_log k))).
(** [log.start + tail + 1], as passed to [bread]. *)
Definition logblock (tail : nat) : K Z := gets (fun k => u32 (log_start (k_log k) + Z.of_nat tail + 1)).

(** The loops over [tail] run while [tail < log.lh.n], which they do not change. *)
Definition for_tail (body : nat -> K unit) : K unit :=
  n <- log_n;; for_each body (seq 0 (Z.to_nat n)).

(** [memmove(dst->data, src->data, BSIZE)] *)
Definition copy_data (dst src : nat) : K unit :=
  modify (fun k => upd_buf dst (set_b_data (b_data (buf_at k src))) k).

Definition install_trans_body (tail : nat) : K unit :=
  dev <- logdev;; n <- logblock tail;;
  lbuf <- bread dev n;;
  dev <- logdev;; b <- get_lh_block tail;;
  dbuf <- bread dev (u32 b);;
  copy_data dbuf lbuf;;
  bwrite dbuf;;
  brelse lbuf;;
  brelse dbuf.

Definition install_trans : K unit := for_tail install_trans_body.

Definition read_head : K unit :=
  dev <- logdev;;
  start <- gets (fun k => u32 (log_start (k_log k)));;
  buf <- bread dev start;;
  modify (fun k => upd_log (set_lh_n (header_n (b_data (buf_at k buf)))) k);;
  for_tail (fun i =>
    v <- gets (fun k => header_block (b_data (buf_at k buf)) i);;
    put_lh_block i v);;
  brelse buf.

Definition write_head : K unit :=
  dev <- logdev;;
  start <- gets (fun k => u32 (log_start (k_log k)));;
  buf <- bread dev start;;
  n <- log_n;;
  modify (upd_buf buf (fun b => set_b_data (wr 4 0 n (b_data b)) b));;
  for_tail (fun i =>
    v <- get_lh_block i;;
    modify (upd_buf buf (fun b => set_b_data (wr 4 (lh_off i) v (b_data b)) b)));;
  bwrite buf;;
  brelse buf.

Definition recover_from_log : K unit :=
  read_head;;
  install_trans;;
  modify (upd_log (set_lh_n 0));;
  write_head.

Definition initlog (dev : Z) : K unit :=
  if (BSIZE <=? sizeof_logheader)%nat then panic "initlog: too big logheader" else
  initlock L_log "log";;
  sb <- readsb dev;;
  modify (upd_log (set_log_start (s32 (sb_logstart sb))));;
  modify (upd_log (set_log_size (s32 (sb_nlog sb))));;
  modify (upd_log (set_log_dev dev));;
  recover_from_log.

Definition begin_op : K unit :=
  acquire L_log;;
  waiting (fun _ : unit =>
    l <- gets k_log;;
    if truth (log_committing l) then sleep Ch_log (Some L_log);; ret (inl tt)
    else if Z.of_nat LOGSIZE <? lh_n l + (log_outstanding l + 1) * MAXOPBLOCKS
    then sleep Ch_log (Some L_log);; ret (inl tt)
    else
      modify (upd_log (fun l => set_log_outstanding (log_outstanding l + 1) l));;
      release L_log;;
      ret (inr tt)) tt.

Definition write_log_body (tail : nat) : K unit :=
  dev <- logdev;; n <- logblock tail;;
  to <- bread dev n;;
  dev <- logdev;; b <- get_lh_block tail;;
  from <- bread dev (u32 b);;
  copy_data to from;;
  bwrite to;;
  brelse from;;
  brelse to.

Definition write_log : K unit := for_tail write_log_body.

Definition commit : K unit :=
  n <- log_n;;
  when (0 <? n)
   (write_log;;
    write_head;;
    install_trans;;
    modify (upd_log (set_lh_n 0));;
    write_head).

Definition end_op : K unit :=
  acquire L_log;;
  modify (upd_log (fun l => set_log_outstanding (log_outstanding l - 1) l));;
  l <- gets k_log;;
  if truth (log_committing l) then panic "log.committing" else
  let do_commit := log_outstanding l =? 0 in
  (if do_commit then modify (upd_log (set_log_committing 1)) else wakeup Ch_log);;
  release L_log;;
  when do_commit
   (commit;;
    acquire L_log;;
    modify (upd_log (set_log_committing 0));;
    wakeup Ch_log;;
    release L_log).

(** The loop of [log_write]: the first index below [n] whose entry is
    [blockno], or [n]. The comparison converts [log.lh.block[i]] to unsigned. *)
Fixpoint absorb (n i : nat) (blockno : Z) : K nat :=
  match n with
  | O => ret i
  | S n =>
      v <- get_lh_block i;;
      if u32 v =? blockno then ret i else absorb n (S i) blockno
  end.

Definition log_write (b : nat) : K unit :=
  l <- gets k_log;;
  if (Z.of_nat LOGSIZE <=? lh_n l) || (log_size l - 1 <=? lh_n l)
  then panic "too big a transaction" else
  if log_outstanding l <? 1 then panic "log_write outside of trans" else
  acquire L_log;;
  n <- log_n;;
  blockno <- gets (fun k => b_blockno (buf_at k b));;
  i <- absorb (Z.to_nat n) 0 blockno;;
  put_lh_block i (s32 blockno);;
  n <- log_n;;
  when (Z.of_nat i =? n) (modify (upd_log (fun l => set_lh_n (lh_n l + 1) l)));;
  modify (upd_buf b (fun r => set_b_flags (Z.lor (b_flags r) B_DIRTY) r));;
  release L_log.
