(* ===== verification/Fs.v ===== *)
(** * The file system (fs.c)

    Blocks, inodes, inode contents, directories and path names, over the buffer
    cache and the log.  A buffer of bytes that the C code fills through a
    pointer is returned as a list; one that it reads is passed as a list.
    Structures on disk are read and written at their offsets in a block: a
    [struct dinode] takes 64 bytes, a [struct dirent] 16. *)

From stdpp Require Import base gmap list strings.
From Stdlib Require Import ZArith Lia.
From S2P Require Import Prelude State Bytes Spinlock Sched Console Bio Log.

(** ** Blocks *)

Definition bdata (b : nat) : K (list Z) := gets (fun k => b_data (buf_at k b)).
Definition set_bdata (b : nat) (f : list Z -> list Z) : K unit :=
  modify (upd_buf b (fun r => set_b_data (f (b_data r)) r)).

Definition IBLOCK (i : Z) (sb : superblock) : Z := u32 (i / IPB + sb_inodestart sb).
Definition BBLOCK (b : Z) (sb : superblock) : Z := u32 (b / BPB + sb_bmapstart sb).

Definition bzero (dev bno : Z) : K unit :=
  bp <- bread (u32 dev) (u32 bno);;
  set_bdata bp (fun _ => replicate BSIZE 0);;
  log_write bp;;
  brelse bp.

(** Byte [i] of a block. *)
Definition byte_at (data : list Z) (i : Z) : Z := default 0 (data !! Z.to_nat i).
Definition set_byte (i v : Z) (data : list Z) : list Z := <[Z.to_nat i := u8 v]> data.

(** The inner loop of [balloc] from [bi]: the first clear bit. *)
Fixpoint free_bit (n : nat) (bi b size : Z) (data : list Z) : option Z :=
  match n with
  | O => None
  | S n =>
      if (bi <? BPB) && (b + bi <? size) then
        if Z.land (byte_at data (bi / 8)) (Z.shiftl 1 (bi mod 8)) =? 0 then Some bi
        else free_bit n (bi + 1) b size data
      else None
  end.

Definition balloc_body (dev b : Z) : K (Z + Z) :=
  sb <- gets k_sb;;
  if b <? sb_size sb then
    bp <- bread dev (BBLOCK b sb);;
    data <- bdata bp;;
    match free_bit (Z.to_nat BPB) 0 b (sb_size sb) data with
    | Some bi =>
        set_bdata bp (fun d => set_byte (bi / 8) (Z.lor (byte_at d (bi / 8)) (Z.shiftl 1 (bi mod 8))) d);;
        log_write bp;;
        brelse bp;;
        bzero dev (b + bi);;
        ret (inr (b + bi))
    | None => brelse bp;; ret (inl (b + BPB))
    end
  else panic "balloc: out of blocks".

(** One round for each block of the bitmap. *)
Definition balloc (dev : Z) : K Z :=
  sb <- gets k_sb;;
  iter (S (S (Z.to_nat (sb_size sb / BPB)))) (balloc_body dev) 0.

Definition bfree (dev b : Z) : K unit :=
  sb <- gets k_sb;;
  bp <- bread (u32 dev) (BBLOCK b sb);;
  let bi := b mod BPB in
  let m := Z.shiftl 1 (bi mod 8) in
  data <- bdata bp;;
  if Z.land (byte_at data (bi / 8)) m =? 0 then panic "freeing free block" else
  set_bdata bp (fun d => set_byte (bi / 8) (Z.land (byte_at d (bi / 8)) (Z.lnot m)) d);;
  log_write bp;;
  brelse bp.

(** ** Inodes *)

Definition iinit (dev : Z) : K unit :=
  initlock L_icache "icache";;
  for_each (fun i => initsleeplock (SL_inode i) "inode") (seq 0 NINODE);;
  sb <- readsb dev;;
  modify (set_k_sb sb);;
  cprintf ("sb: size %d nblocks %d ninodes %d nlog %d logstart %d inodestart %d bmap start %d" ++ newline)
    [FInt (sb_size sb); FInt (sb_nblocks sb); FInt (sb_ninodes sb); FInt (sb_nlog sb);
     FInt (sb_logstart sb); FInt (sb_inodestart sb); FInt (sb_bmapstart sb)].

(** The offset of inode [inum] in its block. *)
Definition dinode_off (inum : Z) : nat := Z.to_nat (64 * (inum mod IPB)).

Definition dip_type (o : nat) (data : list Z) : Z := s16 (rd 2 o data).
Definition dip_major (o : nat) (data : list Z) : Z := s16 (rd 2 (o + 2) data).
Definition dip_minor (o : nat) (data : list Z) : Z := s16 (rd 2 (o + 4) data).
Definition dip_nlink (o : nat) (data : list Z) : Z := s16 (rd 2 (o + 6) data).
Definition dip_size (o : nat) (data : list Z) : Z := rd 4 (o + 8) data.
Definition dip_addr (o : nat) (i : nat) (data : list Z) : Z := rd 4 (o + 12 + 4 * i) data.

(** The scan of [iget] for an entry in use that holds the inode. *)
Definition iget_hit (dev inum : Z) (l : list inode) : option nat :=
  first_index (fun ip => (0 <? i_ref ip) && (i_dev ip =? dev) && (i_inum ip =? inum)) l.

(** The first empty slot, which the same scan remembers. *)
Definition iget_empty (l : list inode) : option nat := first_index (fun ip => i_ref ip =? 0) l.

Definition iget (dev inum : Z) : K nat :=
  acquire L_icache;;
  hit <- gets (fun k => iget_hit dev inum (k_inode k));;
  match hit with
  | Some i =>
      modify (upd_inode i (fun ip => set_i_ref (i_ref ip + 1) ip));;
      release L_icache;;
      ret i
  | None =>
      empty <- gets (fun k => iget_empty (k_inode k));;
      match empty with
      | None => panic "iget: no inodes"
      | Some i =>
          modify (upd_inode i (set_i_dev dev));;
          modify (upd_inode i (set_i_inum inum));;
          modify (upd_inode i (set_i_ref 1));;
          modify (upd_inode i (set_i_valid 0));;
          release L_icache;;
          ret i
      end
  end.

Definition ialloc_body (dev type inum : Z) : K (Z + nat) :=
  sb <- gets k_sb;;
  if inum <? sb_ninodes sb then
    bp <- bread dev (IBLOCK inum sb);;
    data <- bdata bp;;
    let o := dinode_off inum in
    if dip_type o data =? 0 then
      set_bdata bp (fun d => list_inserts o (replicate 64 0) d);;
      set_bdata bp (wr 2 o type);;
      log_write bp;;
      brelse bp;;
      i <- iget dev inum;;
      ret (inr i)
    else brelse bp;; ret (inl (inum + 1))
  else panic "ialloc: no inodes".

(** One round for each inode on the disk. *)
Definition ialloc (dev type : Z) : K nat :=
  sb <- gets k_sb;;
  iter (S (Z.to_nat (sb_ninodes sb))) (ialloc_body dev type) 1.

(** The stores of [iupdate] into the [struct dinode] at offset [o]. *)
Definition put_dinode (o : nat) (ip : inode) (data : list Z) : list Z :=
  let data := wr 2 o (i_type ip) data in
  let data := wr 2 (o + 2) (i_major ip) data in
  let data := wr 2 (o + 4) (i_minor ip) data in
  let data := wr 2 (o + 6) (i_nlink ip) data in
  let data := wr 4 (o + 8) (i_size ip) data in
  list_inserts (o + 12) (mjoin (le_bytes 4 <$> i_addrs ip)) data.

Definition iupdate (i : nat) : K unit :=
  ip <- gets (fun k => inode_at k i);;
  sb <- gets k_sb;;
  bp <- bread (i_dev ip) (IBLOCK (i_inum ip) sb);;
  ip <- gets (fun k => inode_at k i);;
  set_bdata bp (put_dinode (dinode_off (i_inum ip)) ip);;
  log_write bp;;
  brelse bp.

Definition idup (i : nat) : K nat :=
  acquire L_icache;;
  modify (upd_inode i (fun ip => set_i_ref (i_ref ip + 1) ip));;
  release L_icache;;
  ret i.

(** The copies of [ilock] out of the [struct dinode] at offset [o]. *)
Definition get_dinode (o : nat) (data : list Z) (ip : inode) : inode :=
  set_i_addrs ((fun i => dip_addr o i data) <$> seq 0 (NDIRECT + 1))
   (set_i_size (dip_size o data)
   (set_i_nlink (dip_nlink o data)
   (set_i_minor (dip_minor o data)
   (set_i_major (dip_major o data)
   (set_i_type (dip_type o data) ip))))).

Definition ilock (i : nat) : K unit :=
  ip <- gets (fun k => inode_at k i);;
  if i_ref ip <? 1 then panic "ilock" else
  acquiresleep (SL_inode i);;
  ip <- gets (fun k => inode_at k i);;
  when (i_valid ip =? 0)
   (sb <- gets k_sb;;
    bp <- bread (i_dev ip) (IBLOCK (i_inum ip) sb);;
    data <- bdata bp;;
    modify (upd_inode i (fun ip => get_dinode (dinode_off (i_inum ip)) data ip));;
    brelse bp;;
    modify (upd_inode i (set_i_valid 1));;
    ip <- gets (fun k => inode_at k i);;
    when (i_type ip =? 0) (panic "ilock: no type")).

Definition iunlock (i : nat) : K unit :=
  h <- holdingsleep (SL_inode i);;
  if negb h then panic "iunlock" else
  ip <- gets (fun k => inode_at k i);;
  if i_ref ip <? 1 then panic "iunlock" else
  releasesleep (SL_inode i).

(** ** Inode contents *)

Definition iaddr (i n : nat) : K Z := gets (fun k => default 0 (i_addrs (inode_at k i) !! n)).
Definition set_iaddr (i n : nat) (v : Z) : K unit :=
  modify (upd_inode i (fun ip => set_i_addrs (<[n := v]> (i_addrs ip)) ip)).
Definition idev (i : nat) : K Z := gets (fun k => i_dev (inode_at k i)).

(** [if((addr = ip->addrs[n]) == 0) ip->addrs[n] = addr = balloc(ip->dev);] *)
Definition bmap_slot (i n : nat) : K Z :=
  addr <- iaddr i n;;
  if addr =? 0 then
    dev <- idev i;;
    addr <- balloc dev;;
    set_iaddr i n addr;;
    ret addr
  else ret addr.

Definition bmap (i : nat) (bn : Z) : K Z :=
  if bn <? Z.of_nat NDIRECT then bmap_slot i (Z.to_nat bn) else
  let bn := bn - Z.of_nat NDIRECT in
  if bn <? Z.of_nat NINDIRECT then
    addr <- bmap_slot i NDIRECT;;
    dev <- idev i;;
    bp <- bread dev addr;;
    data <- bdata bp;;
    let addr := rd 4 (4 * Z.to_nat bn) data in
    addr <- (if addr =? 0 then
               dev <- idev i;;
               addr <- balloc dev;;
               set_bdata bp (wr 4 (4 * Z.to_nat bn) addr);;
               log_write bp;;
               ret addr
             else ret addr);;
    brelse bp;;
    ret addr
  else panic "bmap: out of range".

(** The body of the first loop of [itrunc]. *)
Definition itrunc_direct (i n : nat) : K unit :=
  addr <- iaddr i n;;
  when (truth addr) (dev <- idev i;; bfree dev addr;; set_iaddr i n 0).

Definition itrunc_indirect (i bp j : nat) : K unit :=
  data <- bdata bp;;
  let a := rd 4 (4 * j) data in
  when (truth a) (dev <- idev i;; bfree dev a).

Definition itrunc (i : nat) : K unit :=
  for_each (itrunc_direct i) (seq 0 NDIRECT);;
  addr <- iaddr i NDIRECT;;
  when (truth addr)
   (dev <- idev i;;
    bp <- bread dev addr;;
    for_each (itrunc_indirect i bp) (seq 0 NINDIRECT);;
    brelse bp;;
    addr <- iaddr i NDIRECT;;
    bfree dev addr;;
    set_iaddr i NDIRECT 0);;
  modify (upd_inode i (set_i_size 0));;
  iupdate i.

Definition iput (i : nat) : K unit :=
  acquiresleep (SL_inode i);;
  ip <- gets (fun k => inode_at k i);;
  when (truth (i_valid ip) && (i_nlink ip =? 0))
   (acquire L_icache;;
    r <- gets (fun k => i_ref (inode_at k i));;
    release L_icache;;
    when (r =? 1)
     (itrunc i;;
      modify (upd_inode i (set_i_type 0));;
      iupdate i;;
      modify (upd_inode i (set_i_valid 0))));;
  releasesleep (SL_inode i);;
  acquire L_icache;;
  modify (upd_inode i (fun ip => set_i_ref (i_ref ip - 1) ip));;
  release L_icache.

Definition iunlockput (i : nat) : K unit := iunlock i;; iput i.

Record stat : Type := mk_stat { st_type : Z; st_dev : Z; st_ino : Z; st_nlink : Z; st_size : Z }.

Definition stati (i : nat) : K stat :=
  gets (fun k => let ip := inode_at k i in
    mk_stat (i_type ip) (s32 (i_dev ip)) (i_inum ip) (i_nlink ip) (i_size ip)).

(** The device switch table [devsw], filled by the drivers: the functions for a
    major number, [None] for a null pointer. *)
Class Devsw : Type := {
  devsw_read : Z -> option (nat -> Z -> K (Z * list Z));
  devsw_write : Z -> option (nat -> list Z -> Z -> K Z)
}.

(** A major number inside the table. *)
Definition dev_ok (major : Z) : bool := negb ((major <? 0) || (NDEV <=? major)).

Section Files.
Context {D : Devsw}.

(** The loop of [readi]: the bytes copied to [dst]. *)
Fixpoint readi_loop (fuel : nat) (i : nat) (off n : Z) : K (list Z) :=
  match fuel with
  | O => fun k _ => Stuck k
  | S fuel =>
      if 0 <? n then
        bn <- bmap i (off / Z.of_nat BSIZE);;
        dev <- idev i;;
        bp <- bread dev bn;;
        let o := off mod Z.of_nat BSIZE in
        let m := Z.min n (Z.of_nat BSIZE - o) in
        data <- bdata bp;;
        brelse bp;;
        l <- readi_loop fuel i (u32 (off + m)) (n - m);;
        ret (take (Z.to_nat m) (drop (Z.to_nat o) data) ++ l)
      else ret []
  end.

(** The value returned and the bytes stored at [dst]. Each round of the loop but
    the first and the last moves a whole block. *)
Definition readi (i : nat) (off n : Z) : K (Z * list Z) :=
  ip <- gets (fun k => inode_at k i);;
  if i_type ip =? T_DEV then
    match (if dev_ok (i_major ip) then devsw_read (i_major ip) else None) with
    | None => ret (-1, [])
    | Some read => read i (s32 n)
    end
  else
  if (i_size ip <? off) || (u32 (off + n) <? off) then ret (-1, []) else
  let n := if i_size ip <? u32 (off + n) then i_size ip - off else n in
  l <- readi_loop (Z.to_nat (n / Z.of_nat BSIZE) + 3) i off n;;
  ret (s32 n, l).

Fixpoint writei_loop (fuel : nat) (i : nat) (src : list Z) (off n : Z) : K Z :=
  match fuel with
  | O => fun k _ => Stuck k
  | S fuel =>
      if 0 <? n then
        bn <- bmap i (off / Z.of_nat BSIZE);;
        dev <- idev i;;
        bp <- bread dev bn;;
        let o := off mod Z.of_nat BSIZE in
        let m := Z.min n (Z.of_nat BSIZE - o) in
        set_bdata bp (list_inserts (Z.to_nat o) (take (Z.to_nat m) src));;
        log_write bp;;
        brelse bp;;
        writei_loop fuel i (drop (Z.to_nat m) src) (u32 (off + m)) (n - m)
      else ret off
  end.

(** [src] is the memory that the pointer designates, at least [n] bytes. *)
Definition writei (i : nat) (src : list Z) (off n : Z) : K Z :=
  ip <- gets (fun k => inode_at k i);;
  if i_type ip =? T_DEV then
    match (if dev_ok (i_major ip) then devsw_write (i_major ip) else None) with
    | None => ret (-1)
    | Some write => write i src (s32 n)
    end
  else
  if (i_size ip <? off) || (u32 (off + n) <? off) then ret (-1) else
  if MAXFILE * Z.of_nat BSIZE <? u32 (off + n) then ret (-1) else
  off <- writei_loop (Z.to_nat (n / Z.of_nat BSIZE) + 3) i src off n;;
  size <- gets (fun k => i_size (inode_at k i));;
  when ((0 <? n) && (size <? off))
   (modify (upd_inode i (set_i_size off));; iupdate i);;
  ret (s32 n).

(** ** Directories *)

(** [strncmp] on two character arrays given as lists, absent bytes being the
    terminating zero. *)
Fixpoint strncmp_list (s t : list Z) (n : nat) : Z :=
  match n with
  | O => 0
  | S n =>
      let p := List.hd 0 s in
      let q := List.hd 0 t in
      if truth p && (p =? q) then strncmp_list (List.tl s) (List.tl t) n else u8 p - u8 q
  end.

Definition namecmp (s t : list Z) : Z := strncmp_list s t DIRSIZ.

Definition sizeof_dirent : Z := 16.
Definition de_inum (de : list Z) : Z := rd 2 0 de.
Definition de_name (de : list Z) : list Z := take DIRSIZ (drop 2 de).

Definition dirlookup_body (dp : nat) (name : list Z) (off : Z) : K (Z + option (nat * Z)) :=
  size <- gets (fun k => i_size (inode_at k dp));;
  if off <? size then
    rde <- readi dp off sizeof_dirent;;
    let '(r, de) := rde in
    if negb (r =? sizeof_dirent) then panic "dirlookup read" else
    if de_inum de =? 0 then ret (inl (off + sizeof_dirent)) else
    if namecmp name (de_name de) =? 0 then
      dev <- idev dp;;
      i <- iget dev (de_inum de);;
      ret (inr (Some (i, off)))
    else ret (inl (off + sizeof_dirent))
  else ret (inr None).

(** The inode and the offset of its entry. One round for each entry. *)
Definition dirlookup (dp : nat) (name : list Z) : K (option (nat * Z)) :=
  d <- gets (fun k => inode_at k dp);;
  if negb (i_type d =? T_DIR) then panic "dirlookup not DIR" else
  iter (Z.to_nat (i_size d / sizeof_dirent) + 2) (dirlookup_body dp name) 0.

(** [strncpy(de.name, name, DIRSIZ)]: padded with zeros. *)
Definition strncpy_list (t : list Z) (n : nat) : list Z := take n (t ++ replicate n 0).

Definition dirent_bytes (inum : Z) (name : list Z) : list Z :=
  le_bytes 2 inum ++ strncpy_list name DIRSIZ.

Definition dirlink_body (dp : nat) (off : Z) : K (Z + Z) :=
  size <- gets (fun k => i_size (inode_at k dp));;
  if u32 off <? size then
    rde <- readi dp (u32 off) sizeof_dirent;;
    let '(r, de) := rde in
    if negb (r =? sizeof_dirent) then panic "dirlink read" else
    if de_inum de =? 0 then ret (inr off) else ret (inl (off + sizeof_dirent))
  else ret (inr off).

Definition dirlink (dp : nat) (name : list Z) (inum : Z) : K Z :=
  r <- dirlookup dp name;;
  match r with
  | Some (i, _) => iput i;; ret (-1)
  | None =>
      size <- gets (fun k => i_size (inode_at k dp));;
      off <- iter (Z.to_nat (size / sizeof_dirent) + 2) (dirlink_body dp) 0;;
      r <- writei dp (dirent_bytes inum name) (u32 off) sizeof_dirent;;
      if negb (r =? sizeof_dirent) then panic "dirlink" else ret 0
  end.

(** ** Paths *)

Definition slash : Z := 47.

Fixpoint skip_slashes (path : list Z) : list Z :=
  match path with
  | c :: rest => if c =? slash then skip_slashes rest else path
  | [] => []
  end.

(** The characters up to the next slash, and the rest. *)
Fixpoint span_elem (path : list Z) : list Z * list Z :=
  match path with
  | c :: rest =>
      if c =? slash then ([], path)
      else let '(s, r) := span_elem rest in (c :: s, r)
  | [] => ([], [])
  end.

(** The path after the element, and the element as [name] holds it: cut to
    [DIRSIZ] characters. A path is the list of the characters before its zero. *)
Definition skipelem (path : list Z) : option (list Z * list Z) :=
  let path := skip_slashes path in
  match path with
  | [] => None
  | _ => let '(s, r) := span_elem path in Some (skip_slashes r, take DIRSIZ s)
  end.

Definition namex_body (parent : bool) (st : nat * list Z * list Z)
    : K ((nat * list Z * list Z) + (option nat * list Z)) :=
  let '(ip, path, name) := st in
  match skipelem path with
  | Some (path, name) =>
      ilock ip;;
      type <- gets (fun k => i_type (inode_at k ip));;
      if negb (type =? T_DIR) then iunlockput ip;; ret (inr (None, name)) else
      if parent && bool_decide (path = []) then iunlock ip;; ret (inr (Some ip, name)) else
      next <- dirlookup ip name;;
      match next with
      | None => iunlockput ip;; ret (inr (None, name))
      | Some (next, _) => iunlockput ip;; ret (inl (next, path, name))
      end
  | None =>
      if parent then iput ip;; ret (inr (None, name)) else ret (inr (Some ip, name))
  end.

(** The inode and the last value of [name]. Each round consumes a character. *)
Definition namex (path : list Z) (parent : bool) : K (option nat * list Z) :=
  ip <- (if List.hd 0 path =? slash then iget ROOTDEV ROOTINO
         else p <- myproc;; p <- deref p;;
              cwd <- gets (fun k => p_cwd (proc_at k p));;
              cwd <- deref cwd;; idup cwd);;
  iter (S (length path)) (namex_body parent) (ip, path, []).

Definition namei (path : list Z) : K (option nat) :=
  r <- namex path false;; ret (fst r).

Definition nameiparent (path : list Z) : K (option nat * list Z) := namex path true.

End Files.
