(* ===== verification/FsFormat.v ===== *)
(** * Path names and on-disk inodes

    [skipelem] splits a path as the reference definition [elems] does, and an
    inode survives being written to its place in a disk block. *)

From stdpp Require Import base gmap list strings.
From Stdlib Require Import ZArith Lia.
From S2P Require Import Prelude State Bytes Console Fs.

(** ** Paths *)

(** The words between slashes, the empty ones included. *)
Fixpoint words (path : list Z) : list (list Z) :=
  match path with
  | [] => [[]]
  | c :: rest =>
      if c =? slash then [] :: words rest
      else match words rest with
           | w :: ws => (c :: w) :: ws
           | [] => [[c]]
           end
  end.

(** The path elements: the words that are not empty, cut to [DIRSIZ]. *)
Definition elems (path : list Z) : list (list Z) :=
  take DIRSIZ <$> filter (fun w => w <> []) (words path).

Lemma words_nonempty path : exists w ws, words path = w :: ws.
Proof.
  destruct path as [|c path]; simpl; [eauto|]. destruct (c =? slash); [eauto|].
  destruct (words path); eauto.
Qed.

Lemma elems_slash path : elems (slash :: path) = elems path.
Proof. done. Qed.

Lemma elems_skip path : elems (skip_slashes path) = elems path.
Proof.
  induction path as [|c path IH]; [done|]. simpl. destruct (Z.eqb_spec c slash) as [->|]; [|done].
  by rewrite elems_slash.
Qed.

Lemma skip_slashes_head path :
  skip_slashes path = [] \/ exists c rest, skip_slashes path = c :: rest /\ c <> slash.
Proof.
  induction path as [|c path IH]; [by left|]. simpl. destruct (Z.eqb_spec c slash); [done|].
  right. by exists c, path.
Qed.

Lemma length_skip_slashes path : (length (skip_slashes path) <= length path)%nat.
Proof. induction path as [|c path IH]; simpl; [lia|]. destruct (c =? slash); simpl; lia. Qed.

(** The first word of a path, and the words of what follows it. *)
Lemma words_span path s r :
  span_elem path = (s, r) ->
  words path = match r with [] => [s] | _ :: r' => s :: words r' end
  /\ path = s ++ r /\ (slash ∉ s) /\ (r = [] \/ exists r', r = slash :: r').
Proof.
  revert s r. induction path as [|c path IH]; simpl; intros s r.
  - intros [= <- <-]. split; [done|]. split; [done|]. split; [set_solver|]. by left.
  - destruct (Z.eqb_spec c slash) as [->|Hc].
    + intros [= <- <-]. split; [done|]. split; [done|]. split; [set_solver|]. right. by eexists.
    + destruct (span_elem path) as [s' r'] eqn:E. intros [= <- <-].
      destruct (IH s' r' eq_refl) as (-> & -> & Hs & Hr). split; [by destruct r'|].
      split; [done|]. split; [set_solver|done].
Qed.

Lemma elems_nil_iff rest : rest = skip_slashes rest -> (rest = [] <-> elems rest = []).
Proof.
  intros E. split; [by intros ->|]. intros H.
  destruct (skip_slashes_head rest) as [H1|(c & r & H1 & Hc)]; [by rewrite E, H1|].
  rewrite <- E in H1. subst. unfold elems in H. simpl in H.
  rewrite (proj2 (Z.eqb_neq c slash) Hc) in H. by destruct (words r).
Qed.

Lemma skip_slashes_idemp path : skip_slashes (skip_slashes path) = skip_slashes path.
Proof.
  destruct (skip_slashes_head path) as [->|(c & r & -> & Hc)]; [done|]. simpl.
  by rewrite (proj2 (Z.eqb_neq c slash) Hc).
Qed.

(** [skipelem] takes a path apart as [elems] does.  It returns null exactly
    when the path has no element left; otherwise [name] is the first element cut
    to 14 characters, the returned path has the other elements, is shorter, and
    is the empty string exactly when the element was the last one, which is the
    test [namex] makes. *)
Theorem skipelem_splits (path : list Z) :
  match skipelem path with
  | None => elems path = []
  | Some (rest, name) =>
      elems path = name :: elems rest /\ (0 < length name)%nat /\ (length name <= DIRSIZ)%nat
      /\ (slash ∉ name) /\ (length rest < length path)%nat
      /\ (rest = [] <-> elems rest = [])
  end.
Proof.
  unfold skipelem. pose proof (length_skip_slashes path) as Hlen.
  rewrite <- (elems_skip path).
  destruct (skip_slashes_head path) as [->|(c & p & Ep & Hc)]; [done|].
  rewrite Ep in *.
  destruct (span_elem (c :: p)) as [s r] eqn:E.
  destruct (words_span (c :: p) s r E) as (Hw & Hp & Hns & Hr).
  assert (Hs : s <> []).
  { intros ->. simpl in E. rewrite (proj2 (Z.eqb_neq c slash) Hc) in E.
    by destruct (span_elem p). }
  assert (Hne : (0 < length s)%nat) by (destruct s; simpl; [done|lia]).
  split_and!.
  - unfold elems at 1. rewrite Hw. destruct Hr as [->|(r' & ->)].
    + rewrite filter_cons_True by done. done.
    + rewrite filter_cons_True by done. rewrite elems_skip. done.
  - rewrite length_take. unfold DIRSIZ. lia.
  - rewrite length_take. unfold DIRSIZ. lia.
  - intros (i & Hi & _)%elem_of_take. apply list_elem_of_lookup_2 in Hi. by apply Hns.
  - rewrite Hp, length_app in Hlen. pose proof (length_skip_slashes r). lia.
  - apply elems_nil_iff. by rewrite skip_slashes_idemp.
Qed.

(** ** Inodes on disk *)

Lemma rd_inserts n off o l data :
  (o <= off)%nat -> (off + n <= o + length l)%nat -> (o + length l <= length data)%nat ->
  rd n off (list_inserts o l data) = le_val (take n (drop (off - o) l)).
Proof.
  intros H1 H2 H3. unfold rd. f_equal. apply list_eq. intros i.
  destruct (decide (i < n)%nat); [|by rewrite !lookup_take_ge by lia].
  rewrite !lookup_take_lt, !lookup_drop by done.
  rewrite list_lookup_inserts by lia. f_equal. lia.
Qed.

Lemma rd_inserts_out n off o l data :
  (off + n <= o \/ o + length l <= off)%nat -> rd n off (list_inserts o l data) = rd n off data.
Proof.
  intros H. apply rd_ext. intros i Hi. destruct H.
  - apply list_lookup_inserts_lt. lia.
  - apply list_lookup_inserts_ge. lia.
Qed.

(** An array of words. *)
Definition words32 (l : list Z) : list Z := mjoin (le_bytes 4 <$> l).

Lemma length_words32 l : length (words32 l) = (4 * length l)%nat.
Proof.
  induction l as [|x l IH]; [done|].
  change (words32 (x :: l)) with (le_bytes 4 x ++ words32 l). rewrite length_app, IH. simpl. lia.
Qed.

Lemma words32_nth l i x :
  l !! i = Some x -> le_val (take 4 (drop (4 * i) (words32 l))) = u32 x.
Proof.
  revert i. induction l as [|y l IH]; intros [|i] H; try done.
  - injection H as ->. exact (le_val_bytes 4 x).
  - change (words32 (y :: l)) with (le_bytes 4 y ++ words32 l).
    replace (4 * S i)%nat with (length (le_bytes 4 y) + 4 * i)%nat by (rewrite length_le_bytes; lia).
    rewrite <- drop_drop, drop_app_length. by apply IH.
Qed.

(** The values an in-memory inode can hold. *)
Record inode_fits (ip : inode) : Prop := {
  if_type : s16 (i_type ip) = i_type ip;
  if_major : s16 (i_major ip) = i_major ip;
  if_minor : s16 (i_minor ip) = i_minor ip;
  if_nlink : s16 (i_nlink ip) = i_nlink ip;
  if_size : u32 (i_size ip) = i_size ip;
  if_length : length (i_addrs ip) = (NDIRECT + 1)%nat;
  if_addrs : Forall (fun a => u32 a = a) (i_addrs ip)
}.

Lemma dinode_off_bound inum : (dinode_off inum + 64 <= BSIZE)%nat.
Proof.
  unfold dinode_off, IPB, BSIZE. pose proof (Z.mod_pos_bound inum 8). lia.
Qed.

Lemma dinode_off_apart i j :
  i mod IPB <> j mod IPB ->
  (dinode_off i + 64 <= dinode_off j \/ dinode_off j + 64 <= dinode_off i)%nat.
Proof.
  unfold dinode_off, IPB. intros H. pose proof (Z.mod_pos_bound i 8). pose proof (Z.mod_pos_bound j 8). lia.
Qed.

Lemma length_put_dinode o ip data : length (put_dinode o ip data) = length data.
Proof. unfold put_dinode. by rewrite length_inserts, !length_wr. Qed.

Lemma s16_rd o v data :
  (o + 2 <= length data)%nat -> s16 (rd 2 o (wr 2 o v data)) = s16 v.
Proof.
  intros H. rewrite rd_wr_same by done. unfold s16, u16.
  change (8 * Z.of_nat 2) with 16. by rewrite Z.mod_mod.
Qed.

(** Reads of the fields that [put_dinode] wrote: skip the later writes. *)
Ltac skip_writes := rewrite rd_inserts_out by lia; repeat rewrite rd_wr_out by lia.

Lemma put_dinode_fields o ip data :
  (o + 64 <= length data)%nat -> length (i_addrs ip) = (NDIRECT + 1)%nat ->
  let data' := put_dinode o ip data in
  dip_type o data' = s16 (i_type ip) /\ dip_major o data' = s16 (i_major ip)
  /\ dip_minor o data' = s16 (i_minor ip) /\ dip_nlink o data' = s16 (i_nlink ip)
  /\ dip_size o data' = u32 (i_size ip)
  /\ forall i a, i_addrs ip !! i = Some a -> dip_addr o i data' = u32 a.
Proof.
  intros Hd Hl data'. unfold data', put_dinode, dip_type, dip_major, dip_minor, dip_nlink, dip_size.
  fold (words32 (i_addrs ip)).
  assert (Hw : length (words32 (i_addrs ip)) = 52%nat) by (rewrite length_words32, Hl; done).
  split_and!; [skip_writes..|].
  1-4: apply s16_rd; rewrite ?length_wr; lia.
  - rewrite rd_wr_same by (rewrite !length_wr; lia). done.
  - intros i a Ha. assert (i < 13)%nat by (apply lookup_lt_Some in Ha; unfold NDIRECT in Hl; lia).
    unfold dip_addr. rewrite rd_inserts by (rewrite ?length_wr; lia).
    replace (o + 12 + 4 * i - (o + 12))%nat with (4 * i)%nat by lia. by apply words32_nth.
Qed.

Lemma put_dinode_other o ip data n off :
  length (i_addrs ip) = (NDIRECT + 1)%nat -> (off + n <= o \/ o + 64 <= off)%nat ->
  rd n off (put_dinode o ip data) = rd n off data.
Proof.
  intros Hl H. unfold put_dinode. fold (words32 (i_addrs ip)).
  assert (Hw : length (words32 (i_addrs ip)) = 52%nat) by (rewrite length_words32, Hl; done).
  rewrite rd_inserts_out by lia. by rewrite !rd_wr_out by lia.
Qed.

(** A [struct dinode] stored and read back, and its neighbours. *)
Lemma put_get_dinode (ip ip0 : inode) (inum : Z) (data : list Z) :
  inode_fits ip -> length data = BSIZE ->
  let data' := put_dinode (dinode_off inum) ip data in
  let r := get_dinode (dinode_off inum) data' ip0 in
  (i_type r = i_type ip /\ i_major r = i_major ip /\ i_minor r = i_minor ip
   /\ i_nlink r = i_nlink ip /\ i_size r = i_size ip /\ i_addrs r = i_addrs ip)
  /\ length data' = BSIZE
  /\ forall j ip1, j mod IPB <> inum mod IPB ->
       get_dinode (dinode_off j) data' ip1 = get_dinode (dinode_off j) data ip1.
Proof.
  intros [F1 F2 F3 F4 F5 F6 F7] Hd data' r.
  pose proof (dinode_off_bound inum) as Ho. set (o := dinode_off inum) in *.
  destruct (put_dinode_fields o ip data) as (P1 & P2 & P3 & P4 & P5 & P6); [lia|done|].
  fold data' in P1, P2, P3, P4, P5, P6.
  split; [|split; [unfold data'; by rewrite length_put_dinode|]].
  - split_and!; [exact (eq_trans P1 F1)|exact (eq_trans P2 F2)|exact (eq_trans P3 F3)
      |exact (eq_trans P4 F4)|exact (eq_trans P5 F5)|].
    change (i_addrs r) with ((fun i => dip_addr o i data') <$> seq 0 (NDIRECT + 1)).
    apply list_eq. intros i. rewrite list_lookup_fmap. destruct (i_addrs ip !! i) as [a|] eqn:E.
    + assert (i < NDIRECT + 1)%nat by (apply lookup_lt_Some in E; lia).
      rewrite lookup_seq_lt by done. simpl. f_equal. rewrite (P6 i a E).
      rewrite Forall_lookup in F7. exact (F7 i a E).
    + rewrite lookup_seq_ge; [done|]. apply lookup_ge_None in E. lia.
  - intros j ip1 Hj. pose proof (dinode_off_apart j inum Hj) as Ha. fold o in Ha.
    unfold get_dinode, dip_type, dip_major, dip_minor, dip_nlink, dip_size, dip_addr, data'.
    rewrite !put_dinode_other by (done || lia).
    f_equal. apply list_fmap_ext. intros i x [-> Hx]%lookup_seq. unfold NDIRECT in Hx.
    apply put_dinode_other; [done|lia].
Qed.

(** what [iupdate] writes, [ilock] reads.  For an inode whose fields fit their
    types, reading back the [struct dinode] that [iupdate] stored gives the same
    type, device numbers, link count, size and block addresses; and every other
    inode of the block is as before. *)
Theorem dinode_roundtrip (ip ip0 : inode) (inum : Z) (data : list Z) :
  inode_fits ip -> length data = BSIZE ->
  let data' := put_dinode (dinode_off inum) ip data in
  let r := get_dinode (dinode_off inum) data' ip0 in
  (i_type r = i_type ip /\ i_major r = i_major ip /\ i_minor r = i_minor ip
   /\ i_nlink r = i_nlink ip /\ i_size r = i_size ip /\ i_addrs r = i_addrs ip)
  /\ length data' = BSIZE
  /\ forall j ip1, j mod IPB <> inum mod IPB ->
       get_dinode (dinode_off j) data' ip1 = get_dinode (dinode_off j) data ip1.
Proof. apply put_get_dinode. Qed.

(** A file of two blocks with three links. *)
Definition some_inode : inode :=
  mk_inode 1 17 1 zero_sleeplock 1 T_FILE 0 0 3 700 ([40; 41] ++ replicate 11 0).

Lemma dinode_roundtrip_witness :
  let data' := put_dinode (dinode_off 17) some_inode (replicate BSIZE 0) in
  i_nlink (get_dinode (dinode_off 17) data' zero_inode) = 3
  /\ i_addrs (get_dinode (dinode_off 17) data' zero_inode) = i_addrs some_inode
  /\ get_dinode (dinode_off 18) data' zero_inode
     = get_dinode (dinode_off 18) (replicate BSIZE 0) zero_inode.
Proof.
  assert (F : inode_fits some_inode) by (split; [done..|repeat constructor]).
  destruct (dinode_roundtrip some_inode zero_inode 17 (replicate BSIZE 0) F (length_replicate BSIZE 0))
    as ((_ & _ & _ & H1 & _ & H2) & _ & H3).
  split; [exact H1|]. split; [exact H2|]. apply H3. by vm_compute.
Defined.
