(* ===== verification/Icache.v ===== *)
(** * The inode cache as a table of reference counts

    [iget], [idup] and the last step of [iput] against an abstract table that
    gives each inode (device and number) its number of references. *)

From stdpp Require Import base gmap list strings.
From Stdlib Require Import ZArith Lia.
From S2P Require Import Prelude State Spinlock Sched Fs.

Definition in_use (dev inum : Z) (ip : inode) : bool :=
  (0 <? i_ref ip) && (i_dev ip =? dev) && (i_inum ip =? inum).

(** The table: no inode has two entries in use. *)
Record icache_ok (l : list inode) : Prop := {
  ic_ref : Forall (fun ip => 0 <= i_ref ip) l;
  ic_uniq : forall dev inum i j x y, l !! i = Some x -> l !! j = Some y ->
    in_use dev inum x = true -> in_use dev inum y = true -> i = j
}.

Definition refcount (l : list inode) (dev inum : Z) : Z :=
  match iget_hit dev inum l with
  | Some i => match l !! i with Some ip => i_ref ip | None => 0 end
  | None => 0
  end.

Lemma in_use_spec dev inum ip :
  in_use dev inum ip = true <-> 0 < i_ref ip /\ i_dev ip = dev /\ i_inum ip = inum.
Proof. unfold in_use. rewrite !andb_true_iff, Z.ltb_lt, !Z.eqb_eq. tauto. Qed.

Lemma refcount_in l i ip dev inum :
  icache_ok l -> l !! i = Some ip -> in_use dev inum ip = true -> refcount l dev inum = i_ref ip.
Proof.
  intros [_ Hu] Hi Hin. unfold refcount, iget_hit. fold (in_use dev inum).
  destruct (first_index _ l) as [j|] eqn:E.
  - apply first_index_Some in E as (y & Hj & Hy & _). rewrite Hj.
    assert (i = j) as <- by (eapply Hu; eauto). congruence.
  - apply first_index_None in E. rewrite Forall_lookup in E. specialize (E i ip Hi).
    change (in_use dev inum ip = false) in E. congruence.
Qed.

Lemma refcount_out l dev inum :
  (forall i ip, l !! i = Some ip -> in_use dev inum ip = false) -> refcount l dev inum = 0.
Proof.
  intros H. unfold refcount, iget_hit. destruct (first_index _ l) as [j|] eqn:E; [|done].
  apply first_index_Some in E as (y & Hj & Hy & _). specialize (H j y Hj).
  change (in_use dev inum y = true) in Hy. congruence.
Qed.

(** Either way. *)
Lemma refcount_cases l dev inum :
  icache_ok l ->
  (exists i ip, l !! i = Some ip /\ in_use dev inum ip = true /\ refcount l dev inum = i_ref ip)
  \/ ((forall i ip, l !! i = Some ip -> in_use dev inum ip = false) /\ refcount l dev inum = 0).
Proof.
  intros H. destruct (iget_hit dev inum l) as [i|] eqn:E.
  - apply first_index_Some in E as (ip & Hi & Hu & _). left. exists i, ip.
    split; [done|]. split; [done|]. by eapply refcount_in.
  - apply first_index_None in E. rewrite Forall_lookup in E. right.
    split; [done|]. by apply refcount_out.
Qed.

(** Entry [i] replaced by one for [(dev, inum)] with [r] references, where no other
    entry is in use for it and the old entry was unused or for the same inode. *)
Lemma icache_replace l i old ip dev inum :
  icache_ok l -> l !! i = Some old ->
  (i_ref old = 0 \/ in_use dev inum old = true) ->
  (forall j x, l !! j = Some x -> in_use dev inum x = true -> j = i) ->
  i_dev ip = dev -> i_inum ip = inum -> 0 <= i_ref ip ->
  icache_ok (<[i := ip]> l)
  /\ refcount (<[i := ip]> l) dev inum = i_ref ip
  /\ forall d n, (d, n) <> (dev, inum) -> refcount (<[i := ip]> l) d n = refcount l d n.
Proof.
  intros H Hi Hold Hu Hd Hn Hr. assert (Hlen : (i < length l)%nat) by (by eapply lookup_lt_Some).
  assert (Huse : forall d n, in_use d n ip = true -> d = dev /\ n = inum).
  { intros d n (_ & H1 & H2)%in_use_spec. by rewrite <- H1, <- H2. }
  assert (Hother : forall d n j x, (d, n) <> (dev, inum) -> l !! j = Some x ->
    in_use d n x = true -> j <> i).
  { intros d n j x Hne Hj (U1 & U2 & U3)%in_use_spec ->. rewrite Hi in Hj. simplify_eq.
    destruct Hold as [Ho|(_ & O2 & O3)%in_use_spec]; [lia|]. by apply Hne; rewrite O2, O3. }
  assert (Hok : icache_ok (<[i := ip]> l)).
  { destruct H as [H1 H2]. split; [by apply Forall_insert|].
    intros d n j1 j2 x y Hx Hy Ux Uy.
    destruct (decide (j1 = i)) as [->|N1], (decide (j2 = i)) as [->|N2]; [done|..].
    - rewrite list_lookup_insert_eq in Hx by done. rewrite list_lookup_insert_ne in Hy by done.
      simplify_eq. destruct (Huse _ _ Ux) as [-> ->]. by rewrite (Hu j2 y Hy Uy).
    - rewrite list_lookup_insert_eq in Hy by done. rewrite list_lookup_insert_ne in Hx by done.
      simplify_eq. destruct (Huse _ _ Uy) as [-> ->]. by rewrite (Hu j1 x Hx Ux).
    - rewrite list_lookup_insert_ne in Hx, Hy by done. eapply H2; eauto. }
  split; [done|]. split.
  - destruct (decide (0 < i_ref ip)).
    + apply (refcount_in _ i); [done|by apply list_lookup_insert_eq|]. by apply in_use_spec.
    + replace (i_ref ip) with 0 by lia. apply refcount_out. intros j x Hj.
      destruct (decide (j = i)) as [->|Nj].
      * rewrite list_lookup_insert_eq in Hj by done. simplify_eq.
        apply not_true_is_false. intros (? & _)%in_use_spec. lia.
      * rewrite list_lookup_insert_ne in Hj by done.
        apply not_true_is_false. intros U. by apply Nj, (Hu j x).
  - intros d n Hne. destruct (refcount_cases l d n H) as [(j & x & Hj & Ux & ->)|[Hno ->]].
    + apply (refcount_in _ j); [done| |done].
      rewrite list_lookup_insert_ne; [done|]. intros <-. by eapply Hother.
    + apply refcount_out. intros j x Hj. destruct (decide (j = i)) as [->|Nj].
      * rewrite list_lookup_insert_eq in Hj by done. simplify_eq.
        apply not_true_is_false. intros [-> ->]%Huse. done.
      * rewrite list_lookup_insert_ne in Hj by done. by eapply Hno.
Qed.

(** ** The operations *)

Definition put_inode (i : nat) (ip : inode) (k : kstate) : kstate :=
  set_k_inode (<[i := ip]> (k_inode k)) k.

Lemma upd_inode_put k i f x : k_inode k !! i = Some x -> upd_inode i f k = put_inode i (f x) k.
Proof.
  intros H. unfold upd_inode, put_inode. f_equal. apply list_eq. intros j.
  rewrite list_lookup_alter. destruct (decide (i = j)) as [<-|Hn].
  - rewrite H, list_lookup_insert_eq; [done|]. by eapply lookup_lt_Some.
  - by rewrite list_lookup_insert_ne.
Qed.

Lemma put_inode_at k i ip x : k_inode k !! i = Some x -> k_inode (put_inode i ip k) !! i = Some ip.
Proof. intros H. simpl. apply list_lookup_insert_eq. by eapply lookup_lt_Some. Qed.

Lemma upd_inode_upd k i f g : upd_inode i f (upd_inode i g k) = upd_inode i (fun x => f (g x)) k.
Proof. unfold upd_inode. simpl. by rewrite alter_alter. Qed.

(** The change of one count. *)
Definition counted (k k' : kstate) (dev inum : Z) (d : Z) : Prop :=
  icache_ok (k_inode k')
  /\ refcount (k_inode k') dev inum = refcount (k_inode k) dev inum + d
  /\ (forall d' n, (d', n) <> (dev, inum) -> refcount (k_inode k') d' n = refcount (k_inode k) d' n)
  /\ k' = set_k_inode (k_inode k') k.

Lemma counted_put k i x ip dev inum d :
  icache_ok (k_inode k) -> k_inode k !! i = Some x -> in_use dev inum x = true ->
  i_dev ip = dev -> i_inum ip = inum -> i_ref ip = i_ref x + d -> 0 <= i_ref ip ->
  counted k (put_inode i ip k) dev inum d.
Proof.
  intros H Hi Hu Hd Hn Hr Hp.
  destruct (icache_replace (k_inode k) i x ip dev inum) as (H1 & H2 & H3); try done.
  - by right.
  - intros j y Hj Uy. eapply (ic_uniq _ H); eauto.
  - split; [exact H1|]. split; [|by split].
    simpl. rewrite H2, Hr. f_equal. symmetry. by eapply refcount_in.
Qed.

(** What [iget] does to the table: one more reference to the entry of the inode,
    or the first unused entry made into one. *)
Lemma iget_run k c dev inum e : settled k c -> lock_free k L_icache ->
  match iget_hit dev inum (k_inode k), iget_empty (k_inode k) with
  | Some i, _ => exists x, k_inode k !! i = Some x /\ in_use dev inum x = true
      /\ iget dev inum k e = Done i (put_inode i (set_i_ref (i_ref x + 1) x) k) e
  | None, Some i => exists x, k_inode k !! i = Some x /\ i_ref x = 0
      /\ (forall j y, k_inode k !! j = Some y -> in_use dev inum y = false)
      /\ iget dev inum k e = Done i (put_inode i (set_i_valid 0 (set_i_ref 1 (set_i_inum inum (set_i_dev dev x)))) k) e
  | None, None => iget dev inum k e = Panic "iget: no inodes" (locked c L_icache k)
  end.
Proof.
  intros Hs Hf. unfold iget. run (acquire_free k c L_icache e Hs Hf). rewrite bind_gets.
  change (k_inode (locked c L_icache k)) with (k_inode k).
  assert (Hrel : forall i ip, release L_icache (locked c L_icache (put_inode i ip k)) e = Done tt (put_inode i ip k) e).
  { intros i ip. apply release_locked; other_fields. }
  destruct (iget_hit dev inum (k_inode k)) as [i|] eqn:Eh.
  - pose proof Eh as (x & Hi & Hu & _)%first_index_Some. exists x. split; [done|]. split; [done|].
    rewrite bind_modify, (upd_inode_put _ i _ x) by exact Hi.
    change (put_inode i ?ip (locked c L_icache k)) with (locked c L_icache (put_inode i ip k)). by run Hrel.
  - pose proof Eh as Hno%first_index_None. rewrite Forall_lookup in Hno. rewrite bind_gets.
    change (k_inode (locked c L_icache k)) with (k_inode k).
    destruct (iget_empty (k_inode k)) as [i|] eqn:Ee; [|done].
    apply first_index_Some in Ee as (x & Hi & Hx & _). apply Z.eqb_eq in Hx.
    exists x. split; [done|]. split; [done|]. split; [exact Hno|].
    c_simpl. rewrite !upd_inode_upd, (upd_inode_put _ i _ x) by exact Hi.
    change (put_inode i ?ip (locked c L_icache k)) with (locked c L_icache (put_inode i ip k)). by run Hrel.
Qed.

(** C28: [iget] counts references.  When the inode is cached, or some entry of the
    table is unused, [iget] returns an entry for it; the inode has one reference
    more, no other count changes, no inode gets two entries, and an entry that
    was not in use is marked as not read from disk.  When the table is full of
    other inodes it panics. *)
Theorem iget_counts (k : kstate) (c : nat) (dev inum : Z) (e : environment kstate) :
  settled k c -> lock_free k L_icache -> icache_ok (k_inode k) ->
  (0 < refcount (k_inode k) dev inum \/ (exists i ip, k_inode k !! i = Some ip /\ i_ref ip = 0) ->
   exists i k' ip, iget dev inum k e = Done i k' e /\ counted k k' dev inum 1
     /\ k_inode k' !! i = Some ip /\ in_use dev inum ip = true
     /\ (refcount (k_inode k) dev inum = 0 -> i_valid ip = 0))
  /\ (refcount (k_inode k) dev inum = 0 -> Forall (fun ip => i_ref ip <> 0) (k_inode k) ->
      iget dev inum k e = Panic "iget: no inodes" (locked c L_icache k)).
Proof.
  intros Hs Hf H. pose proof (iget_run k c dev inum e Hs Hf) as R.
  destruct (iget_hit dev inum (k_inode k)) as [i|] eqn:Eh; [|destruct (iget_empty (k_inode k)) as [i|] eqn:Ee].
  - destruct R as (x & Hi & Hu & E). pose proof Hu as (U1 & U2 & U3)%in_use_spec.
    pose proof (refcount_in _ _ _ _ _ H Hi Hu) as Hrc. split; [intros _|intros E'; lia].
    eexists i, _, _. split; [exact E|]. split; [apply (counted_put k i x); simpl; (done || lia)|].
    split; [by eapply put_inode_at|]. split; [apply in_use_spec; simpl; (done || lia)|]. lia.
  - destruct R as (x & Hi & Hx & Hno & E). assert (Hrc : refcount (k_inode k) dev inum = 0) by (by apply refcount_out).
    split; [intros _|intros _ Hall; rewrite Forall_lookup in Hall; by destruct (Hall i x)].
    eexists i, _, _. split; [exact E|]. set (ip := set_i_valid _ _). split.
    + destruct (icache_replace (k_inode k) i x ip dev inum) as (H1 & H2 & H3); try done; [by left| |].
      { intros j y Hj Uy. specialize (Hno j y Hj). congruence. }
      split; [exact H1|]. split; [|by split]. simpl. by rewrite H2, Hrc.
    + split; [by eapply put_inode_at|]. by split; [apply in_use_spec|].
  - split; [|done]. apply first_index_None in Ee. rewrite Forall_lookup in Ee. intros [Hc|(i & x & Hi & Hx)].
    + unfold refcount in Hc. rewrite Eh in Hc. lia.
    + specialize (Ee i x Hi). simpl in Ee. by rewrite Hx in Ee.
Qed.

(** The state [iput] needs when it does not free the inode: process [p] runs, and
    the inode's sleep-lock is free and nobody waits for it. *)
Record can_put (k : kstate) (c p i : nat) : Prop := {
  cp_running : running k c p;
  cp_sleep : lock_free k (L_sleep (SL_inode i));
  cp_icache : lock_free k L_icache;
  cp_ptable : lock_free k L_ptable;
  cp_unlocked : sl_locked (sleeplock_at k (SL_inode i)) = 0;
  cp_nobody : no_sleeper k (Ch_sleeplock (SL_inode i))
}.

Lemma iput_done k c p i x e :
  can_put k c p i -> k_inode k !! i = Some x -> i_valid x = 0 \/ i_nlink x <> 0 ->
  exists lk, iput i k e = Done tt (put_inode i (set_i_ref (i_ref x - 1) (set_i_lock lk x)) k) e /\ sl_locked lk = 0.
Proof.
  intros [Hr Hsl Hic Hpt Hu Hn] Hi Hx. pose proof Hr as [Hs Hp]. unfold iput.
  run (acquiresleep_free k c p (SL_inode i) e Hr Hsl Hu). unfold upd_sleeplock.
  rewrite upd_inode_upd, (upd_inode_put _ i _ x Hi). set (x1 := set_i_lock _ (set_i_lock _ x)).
  set (k1 := put_inode i x1 k). assert (H1 : k_inode k1 !! i = Some x1) by (by eapply put_inode_at).
  assert (Ea : inode_at k1 i = x1) by (unfold inode_at; by rewrite H1). rewrite bind_gets, Ea.
  replace (truth (i_valid x1) && (i_nlink x1 =? 0)) with false.
  2: { change (i_valid x1) with (i_valid x). change (i_nlink x1) with (i_nlink x).
       destruct Hx as [->|Hx]; [done|]. by rewrite (proj2 (Z.eqb_neq _ _) Hx), andb_false_r. }
  cbn [when]. rewrite bind_ret.
  rewrite (bind_done _ _ _ _ _ _ _ (releasesleep_done k1 c (SL_inode i) e ltac:(other_fields)
    ltac:(other_fields) ltac:(other_fields) Hn)). unfold upd_sleeplock.
  rewrite upd_inode_upd, (upd_inode_put _ i _ x1 H1). set (x2 := set_i_lock _ _).
  set (k2 := put_inode i x2 k1). assert (H2 : k_inode k2 !! i = Some x2) by (by eapply put_inode_at).
  rewrite (bind_done _ _ _ _ _ _ _ (acquire_free k2 c L_icache e ltac:(other_fields) ltac:(other_fields))).
  rewrite bind_modify, (upd_inode_put _ i _ x2) by exact H2.
  set (k3 := put_inode i (set_i_ref (i_ref x2 - 1) x2) k2).
  change (put_inode i _ (locked c L_icache k2)) with (locked c L_icache k3).
  rewrite (release_locked k3 c L_icache e) by other_fields.
  exists (i_lock x2). split; [|done]. f_equal. unfold k3, k2, k1, put_inode. simpl.
  rewrite !list_insert_insert_eq. done.
Qed.

(** [iput] gives the reference back.  On an entry in use whose inode still has
    links (or was never read), with nobody at its sleep-lock, [iput] returns
    with one reference less for that inode and no other count changed; so
    [iget] followed by [iput] leaves every count as it was. *)
Theorem iput_counts (k : kstate) (c p i : nat) (x : inode) (dev inum : Z) (e : environment kstate) :
  can_put k c p i -> icache_ok (k_inode k) -> k_inode k !! i = Some x ->
  in_use dev inum x = true -> i_valid x = 0 \/ i_nlink x <> 0 ->
  exists k', iput i k e = Done tt k' e /\ counted k k' dev inum (-1).
Proof.
  intros Hc H Hi Hu Hx. destruct (iput_done k c p i x e Hc Hi Hx) as (lk & E & _).
  eexists. split; [exact E|]. pose proof Hu as (U1 & U2 & U3)%in_use_spec.
  apply (counted_put k i x); simpl; (done || lia).
Qed.

(** ** Instances *)

(** A process, and an inode cache whose first entry refers to inode 7 twice. *)
Definition icache_machine : kstate :=
  let k := boot_state [mk_cpu 0 1 0 0 (Some 0%nat)] ∅ 0 in
  let free := mk_spinlock 0 EmptyString None in
  let k := set_k_locks (<[L_icache := free]> (<[L_ptable := free]>
    (<[L_sleep (SL_inode 0) := free]> ∅))) k in
  upd_inode 0 (fun ip => set_i_ref 2 (set_i_inum 7 (set_i_dev 1 ip))) k.

Definition icache_entry : inode := set_i_ref 2 (set_i_inum 7 (set_i_dev 1 zero_inode)).

Lemma icache_machine_inode j x :
  k_inode icache_machine !! j = Some x -> x = if decide (j = 0%nat) then icache_entry else zero_inode.
Proof.
  destruct j as [|j]; [by intros [= <-]|].
  change (replicate (NINODE - 1) zero_inode !! j = Some x -> x = zero_inode).
  by intros [-> _]%lookup_replicate.
Qed.

Lemma icache_machine_ok : icache_ok (k_inode icache_machine).
Proof.
  split.
  - apply Forall_lookup. intros j x ->%icache_machine_inode. by case_decide.
  - intros dev inum i j x y ->%icache_machine_inode ->%icache_machine_inode Ux Uy.
    destruct (decide (i = 0%nat)), (decide (j = 0%nat)); congruence || done.
Qed.

Lemma iget_counts_witness :
  exists i k' ip, iget 1 7 icache_machine [] = Done i k' [] /\ counted icache_machine k' 1 7 1
    /\ k_inode k' !! i = Some ip /\ in_use 1 7 ip = true.
Proof.
  assert (Hs : settled icache_machine 0) by (by split).
  assert (Hf : lock_free icache_machine L_icache) by (by exists EmptyString).
  destruct (iget_counts icache_machine 0 1 7 [] Hs Hf icache_machine_ok) as [H _].
  destruct H as (i & k' & ip & H1 & H2 & H3 & H4 & _); [left; by vm_compute|].
  exists i, k', ip. split; [exact H1|]. split; [exact H2|]. split; [exact H3|exact H4].
Defined.

Lemma iput_counts_witness :
  exists k', iput 0 icache_machine [] = Done tt k' [] /\ counted icache_machine k' 1 7 (-1).
Proof.
  apply (iput_counts icache_machine 0 0 0 icache_entry 1 7 []).
  - split; [split; [by split|done]|by exists EmptyString|by exists EmptyString|by exists EmptyString|done|].
    apply Forall_forall. intros q [-> _]%elem_of_replicate. by intros [? _].
  - exact icache_machine_ok.
  - reflexivity.
  - reflexivity.
  - by left.
Defined.
