(* ===== verification/Pipe.v ===== *)
(** * Pipes (pipe.c)

    A pipe is a ring of [PIPESIZE] bytes with free-running 32-bit counters.  The
    bytes written from a user buffer are given as a list, those read are
    returned as one. *)

From stdpp Require Import base gmap list strings.
From Stdlib Require Import ZArith Lia.
From S2P Require Import Prelude State Memory Queue Spinlock Sched Kalloc.

Section Pipe.
Context {L : Linker}.

Definition pipeclose (p writable : Z) : K unit :=
  acquire (L_pipe p);;
  (if truth writable then
     modify (upd_pipe p (set_pi_writeopen 0));; wakeup (Ch_nread p)
   else
     modify (upd_pipe p (set_pi_readopen 0));; wakeup (Ch_nwrite p));;
  pi <- gets (fun k => pipe_at k p);;
  if (pi_readopen pi =? 0) && (pi_writeopen pi =? 0)
  then release (L_pipe p);; kfree p
  else release (L_pipe p).

End Pipe.

(** [myproc()->killed] *)
Definition killed : K bool :=
  p <- myproc;; p <- deref p;; gets (fun k => truth (p_killed (proc_at k p))).

(** The inner loop of [pipewrite]: whether there is room; otherwise the lock has
    been released. *)
Definition pipe_room (p : Z) : K bool :=
  waiting (fun _ : unit =>
    pi <- gets (fun k => pipe_at k p);;
    if pi_nwrite pi =? u32 (pi_nread pi + Z.of_nat PIPESIZE) then
      stop <- (if pi_readopen pi =? 0 then ret true else killed);;
      if (stop : bool) then release (L_pipe p);; ret (inr false) else
      wakeup (Ch_nread p);;
      sleep (Ch_nwrite p) (Some (L_pipe p));;
      ret (inl tt)
    else ret (inr true)) tt.

(** [p->data[p->nwrite++ % PIPESIZE] = c] *)
Definition pipe_put (c : Z) (pi : pipe) : pipe :=
  set_pi_nwrite (u32 (pi_nwrite pi + 1))
   (set_pi_data (<[slot PIPESIZE (pi_nwrite pi) := c]> (pi_data pi)) pi).

Fixpoint pipewrite_loop (p : Z) (src : list Z) : K bool :=
  match src with
  | [] => ret true
  | c :: src =>
      ok <- pipe_room p;;
      if negb ok then ret false else
      modify (upd_pipe p (pipe_put c));;
      pipewrite_loop p src
  end.

Definition pipewrite (p : Z) (addr : list Z) (n : Z) : K Z :=
  acquire (L_pipe p);;
  ok <- pipewrite_loop p (take (Z.to_nat n) addr);;
  if negb ok then ret (-1) else
  wakeup (Ch_nread p);;
  release (L_pipe p);;
  ret n.

(** The first loop of [piperead]: whether to go on; otherwise the lock has been
    released. *)
Definition pipe_data (p : Z) : K bool :=
  waiting (fun _ : unit =>
    pi <- gets (fun k => pipe_at k p);;
    if (pi_nread pi =? pi_nwrite pi) && truth (pi_writeopen pi) then
      stop <- killed;;
      if (stop : bool) then release (L_pipe p);; ret (inr false) else
      sleep (Ch_nread p) (Some (L_pipe p));;
      ret (inl tt)
    else ret (inr true)) tt.

(** [p->data[p->nread++ % PIPESIZE]] *)
Definition pipe_get (pi : pipe) : Z :=
  default 0 (pi_data pi !! slot PIPESIZE (pi_nread pi)).
Definition pipe_got (pi : pipe) : pipe := set_pi_nread (u32 (pi_nread pi + 1)) pi.

Fixpoint piperead_loop (p : Z) (n : nat) : K (list Z) :=
  match n with
  | O => ret []
  | S n =>
      pi <- gets (fun k => pipe_at k p);;
      if pi_nread pi =? pi_nwrite pi then ret [] else
      modify (upd_pipe p pipe_got);;
      l <- piperead_loop p n;;
      ret (pipe_get pi :: l)
  end.

(** The value returned and the bytes stored at [addr]. *)
Definition piperead (p n : Z) : K (Z * list Z) :=
  acquire (L_pipe p);;
  ok <- pipe_data p;;
  if negb ok then ret (-1, []) else
  l <- piperead_loop p (Z.to_nat n);;
  wakeup (Ch_nwrite p);;
  release (L_pipe p);;
  ret (Z.of_nat (length l), l).

(** ** A pipe is a queue

    [pipe_ok pi q]: the pipe holds the bytes [q], oldest first. *)
Record pipe_ok (pi : pipe) (q : list Z) : Prop := {
  po_length : length (pi_data pi) = PIPESIZE;
  po_nwrite : pi_nwrite pi = u32 (pi_nread pi + Z.of_nat (length q));
  po_nread : u32 (pi_nread pi) = pi_nread pi;
  po_max : (length q <= PIPESIZE)%nat;
  po_data : holds PIPESIZE (pi_data pi) (pi_nread pi) q
}.

Lemma pipesize_pos : (0 < PIPESIZE)%nat.
Proof. unfold PIPESIZE. lia. Qed.

Lemma pipesize_divides : (Z.of_nat PIPESIZE | 2 ^ 32).
Proof. exists (2 ^ 23). by vm_compute. Qed.

Lemma pipe_full pi q : pipe_ok pi q ->
  (pi_nwrite pi =? u32 (pi_nread pi + Z.of_nat PIPESIZE)) = bool_decide (length q = PIPESIZE).
Proof.
  intros [_ Hw _ Hm _]. rewrite Hw. case_bool_decide as E; [rewrite E; apply Z.eqb_refl|].
  apply Z.eqb_neq. intros H. apply E, Nat2Z.inj. unfold PIPESIZE in *.
  apply u32_add_inj in H; lia.
Qed.

Lemma pipe_empty pi q : pipe_ok pi q -> (pi_nread pi =? pi_nwrite pi) = bool_decide (q = []).
Proof.
  intros [_ Hw Hr Hm _]. rewrite Hw. case_bool_decide as E.
  - rewrite E. simpl. rewrite Z.add_0_r. by apply Z.eqb_eq.
  - apply Z.eqb_neq. rewrite <- Hr at 1. intros H. apply E, length_zero_iff_nil.
    rewrite <- (Z.add_0_r (pi_nread pi)) in H at 1. unfold PIPESIZE in *.
    apply u32_add_inj in H; lia.
Qed.

Lemma pipe_put_ok pi q c :
  pipe_ok pi q -> (length q < PIPESIZE)%nat -> pipe_ok (pipe_put c pi) (q ++ [c]).
Proof.
  intros [Hl Hw Hr Hm Hd] Hq. split; simpl; try done.
  - by rewrite length_insert.
  - rewrite Hw, u32_add_l, length_app. simpl. f_equal. lia.
  - rewrite length_app. simpl. lia.
  - rewrite Hw, <- (Z.add_0_r (u32 _)), slot_u32, Z.add_0_r
      by (apply pipesize_pos || apply pipesize_divides).
    by apply holds_push.
Qed.

Lemma pipe_got_ok pi x q : pipe_ok pi (x :: q) -> pipe_get pi = x /\ pipe_ok (pipe_got pi) q.
Proof.
  intros [Hl Hw Hr Hm Hd]. apply holds_pop in Hd as [Hx Hd]. simpl in Hm.
  unfold pipe_get. rewrite Hx. split; [done|]. split; simpl; try done.
  - rewrite Hw, u32_add_l. simpl. f_equal. lia.
  - apply u32_idemp.
  - lia.
  - apply holds_u32; [apply pipesize_pos|apply pipesize_divides|done].
Qed.

(** ** The operations on a pipe

    [on_pipe k c p a q]: process [p] runs on CPU [c] with no lock held, and the
    pipe at [a], whose read end is open, holds [q]. *)
Record on_pipe (k : kstate) (c p : nat) (a : Z) (q : list Z) : Prop := {
  op_running : running k c p;
  op_alive : alive k p;
  op_ncli : c_ncli (cpu_at k c) = 0;
  op_lock : lock_free k (L_pipe a);
  op_ptable : lock_free k L_ptable;
  op_killed : p_killed (proc_at k p) = 0;
  op_open : pi_readopen (pipe_at k a) <> 0;
  op_queue : pipe_ok (pipe_at k a) q
}.

Lemma pipe_at_upd k a f : pipe_at (upd_pipe a f k) a = f (pipe_at k a).
Proof. unfold pipe_at at 1, upd_pipe. simpl. by rewrite lookup_insert_eq. Qed.

Lemma on_pipe_woken k c p a q ch : on_pipe k c p a q -> on_pipe (woken ch k) c p a q.
Proof.
  intros [[Hs Hp] [x Hx] Hn Hl Ht Hk Ho Hq].
  split; [split; [other_fields|done]| |done|other_fields|other_fields| |done|done].
  - unfold alive. simpl. rewrite list_lookup_fmap, Hx. eauto.
  - unfold proc_at in *. simpl. rewrite list_lookup_fmap. rewrite Hx in *. simpl in *.
    unfold wakeup1_proc. by destruct (_ && _).
Qed.

Lemma on_pipe_chan k c p a q : on_pipe k c p a q -> on_pipe (upd_proc p (set_p_chan None) k) c p a q.
Proof.
  intros [[Hs Hp] Ha Hn Hl Ht Hk Ho Hq].
  split; [split; [other_fields|done]|by apply alive_upd|done|other_fields|other_fields| |done|done].
  by rewrite proc_at_upd.
Qed.

Lemma on_pipe_upd k c p a q q' f :
  on_pipe k c p a q -> pi_readopen (f (pipe_at k a)) <> 0 -> pipe_ok (f (pipe_at k a)) q' ->
  on_pipe (upd_pipe a f k) c p a q'.
Proof.
  intros [[Hs Hp] Ha Hn Hl Ht Hk Ho Hq] Ho' Hq'.
  split; [split; [other_fields|done]|done|done|other_fields|other_fields|done| |];
    by rewrite pipe_at_upd.
Qed.

Lemma killed_locked k c p lk e :
  running k c p -> killed (locked c lk k) e = Done (truth (p_killed (proc_at k p))) (locked c lk k) e.
Proof. intros Hr. unfold killed. by run (myproc_locked k c p lk e Hr). Qed.

(** What runs while the writer sleeps on a full pipe takes at least one byte out
    of it, in order, and resumes the writer. *)
Definition drains (c p : nat) (a : Z) (f : kstate -> kstate) : Prop :=
  forall k q, on_pipe k c p a q -> length q = PIPESIZE ->
  exists k2 m, f (locked c L_ptable (asleep p (Ch_nwrite a) k)) = locked c L_ptable k2
    /\ (0 < m)%nat /\ on_pipe k2 c p a (drop m q)
    /\ c_intena (cpu_at k2 c) = c_intena (cpu_at k c).

Lemma pipe_room_now k c p a q e :
  on_pipe k c p a q -> (length q < PIPESIZE)%nat ->
  pipe_room a (locked c (L_pipe a) k) e = Done true (locked c (L_pipe a) k) e.
Proof.
  intros H Hq. unfold pipe_room, waiting. cbn [iter Nat.add]. rewrite bind_assoc, bind_gets.
  change (pipe_at (locked c (L_pipe a) k) a) with (pipe_at k a).
  rewrite (pipe_full _ q (op_queue _ _ _ _ _ H)), bool_decide_eq_false_2 by lia. done.
Qed.

Lemma pipe_room_full k c p a q f e :
  on_pipe k c p a q -> length q = PIPESIZE -> drains c p a f ->
  exists k' m, pipe_room a (locked c (L_pipe a) k) (f :: e) = Done true (locked c (L_pipe a) k') e
    /\ (0 < m)%nat /\ on_pipe k' c p a (drop m q).
Proof.
  intros H Hq Hf. set (kw := woken (Some (Ch_nread a)) k).
  assert (Hw : on_pipe kw c p a q) by (by apply on_pipe_woken).
  destruct (Hf kw q Hw Hq) as (k2 & m & E & Hm & H2 & Hi).
  set (k' := upd_proc p (set_p_chan None) k2).
  assert (H' : on_pipe k' c p a (drop m q)) by (by apply on_pipe_chan).
  exists k', m. split; [|done]. unfold pipe_room, waiting. cbn [length Nat.add].
  pose proof (pipe_room_now k' c p a (drop m q) e H') as N.
  unfold pipe_room, waiting in N. rewrite <- N by (rewrite length_drop; unfold PIPESIZE in *; lia).
  clear N. change (iter (S (S (length e)))) with
    (fun (body : unit -> K (unit + bool)) a => r <- body a;;
      match r with inl a' => iter (S (length e)) body a' | inr b => ret b end).
  cbv beta. rewrite bind_assoc, bind_gets.
  change (pipe_at (locked c (L_pipe a) k) a) with (pipe_at k a).
  rewrite (pipe_full _ q (op_queue _ _ _ _ _ H)), bool_decide_eq_true_2 by done.
  destruct (Z.eqb_spec (pi_readopen (pipe_at k a)) 0) as [E0|_]; [by destruct (op_open _ _ _ _ _ H)|].
  destruct H as [[Hs Hp] Ha Hn Hl Ht Hk Ho Hok].
  rewrite bind_assoc. run (killed_locked k c p (L_pipe a) (f :: e) (conj Hs Hp)). rewrite Hk.
  cbn [truth negb Z.eqb]. rewrite bind_assoc.
  rewrite (bind_done _ _ _ _ _ _ _ (wakeup_done (locked c (L_pipe a) k) c (Ch_nread a) (f :: e)
    ltac:(by apply settled_locked) ltac:(by apply lock_free_locked))).
  change (woken _ (locked c (L_pipe a) k)) with (locked c (L_pipe a) kw).
  destruct Hw as [Hr' Ha' Hn' Hl' Ht' _ _ _]. destruct H2 as [[Hs2 _] _ _ Hl2 Ht2 _ _ _].
  rewrite bind_assoc.
  rewrite (bind_done _ _ _ _ _ _ _ (sleep_resumes kw c p (Ch_nwrite a) (L_pipe a) f e k2
    Hr' Ha' Hn' ltac:(done) Hl' Ht' E Hs2 Hl2 Ht2 Hi)).
  done.
Qed.

Lemma on_pipe_put k c p a q b :
  on_pipe k c p a q -> (length q < PIPESIZE)%nat -> on_pipe (upd_pipe a (pipe_put b) k) c p a (q ++ [b]).
Proof.
  intros H Hq. apply (on_pipe_upd k c p a q); [done|exact (op_open _ _ _ _ _ H)|].
  by apply pipe_put_ok; [apply (op_queue _ _ _ _ _ H)|].
Qed.

Lemma pipewrite_loop_done src : forall k c p a q e,
  on_pipe k c p a q -> Forall (drains c p a) e ->
  (length src <= PIPESIZE - length q + length e)%nat ->
  exists k' q' e' taken,
    pipewrite_loop a src (locked c (L_pipe a) k) e = Done true (locked c (L_pipe a) k') e'
    /\ on_pipe k' c p a q' /\ q ++ src = taken ++ q'.
Proof.
  induction src as [|b src IH]; intros k c p a q e H He Hl; simpl.
  - exists k, q, e, []. by rewrite app_nil_r.
  - pose proof (po_max _ _ (op_queue _ _ _ _ _ H)) as Hm.
    assert (exists k1 m e1, pipe_room a (locked c (L_pipe a) k) e = Done true (locked c (L_pipe a) k1) e1
      /\ on_pipe k1 c p a (drop m q) /\ (length (drop m q) < PIPESIZE)%nat
      /\ Forall (drains c p a) e1
      /\ (length src <= PIPESIZE - length (drop m q ++ [b]) + length e1)%nat)
      as (k1 & m & e1 & E & H1 & Hq1 & He1 & Hl1).
    { pose proof pipesize_pos. destruct (decide (length q = PIPESIZE)) as [Hq|Hq].
      - destruct He as [|f e Hf He]; simpl in Hl; [lia|].
        destruct (pipe_room_full k c p a q f e H Hq Hf) as (k1 & m & E & Hm1 & H1).
        exists k1, m, e. rewrite length_app, length_drop. simpl.
        split; [done|]. split; [done|]. split; [lia|]. split; [done|lia].
      - exists k, 0%nat, e. rewrite drop_0, length_app. simpl in *.
        split; [apply (pipe_room_now k c p a q e H); lia|]. split; [done|].
        split; [lia|]. split; [done|lia]. }
    run E. cbn [negb]. c_simpl.
    change (upd_pipe a _ (locked c (L_pipe a) k1)) with (locked c (L_pipe a) (upd_pipe a (pipe_put b) k1)).
    destruct (IH _ c p a _ e1 (on_pipe_put _ _ _ _ _ b H1 Hq1) He1 Hl1) as (k' & q' & e' & t & E' & H' & Ht).
    exists k', q', e', (take m q ++ t). split; [done|]. split; [done|].
    rewrite <- (take_drop m q) at 1. rewrite <- !app_assoc in *. simpl in *. by rewrite Ht.
Qed.

(** C24: [pipewrite] is FIFO and complete.  Let the pipe hold [q] and let what runs
    whenever the writer sleeps take bytes from the front of the pipe.  With
    enough such rounds for the bytes that do not fit, [pipewrite] writes all of
    [src]: it returns their number, and the stream of the pipe, the bytes taken
    meanwhile followed by what the pipe holds afterwards, is [q] followed by
    [src]. *)
Theorem pipewrite_fifo (k : kstate) (c p : nat) (a : Z) (q src : list Z) (e : environment kstate) :
  on_pipe k c p a q -> Forall (drains c p a) e ->
  (length src <= PIPESIZE - length q + length e)%nat ->
  exists k' q' e' taken,
    pipewrite a src (Z.of_nat (length src)) k e = Done (Z.of_nat (length src)) k' e'
    /\ on_pipe k' c p a q' /\ q ++ src = taken ++ q'.
Proof.
  intros H He Hl. destruct (pipewrite_loop_done src k c p a q e H He Hl) as (k1 & q1 & e1 & t & E & H1 & Ht).
  pose proof (op_running _ _ _ _ _ H) as [Hs _]. pose proof (op_running _ _ _ _ _ H1) as [Hs1 _].
  unfold pipewrite. rewrite Nat2Z.id, firstn_all.
  run (acquire_free k c (L_pipe a) e Hs (op_lock _ _ _ _ _ H)). run E. cbn [negb].
  rewrite (bind_done _ _ _ _ _ _ _ (wakeup_done (locked c (L_pipe a) k1) c (Ch_nread a) e1
    ltac:(by apply settled_locked) ltac:(apply lock_free_locked; [done|exact (op_ptable _ _ _ _ _ H1)]))).
  change (woken _ (locked c (L_pipe a) k1)) with (locked c (L_pipe a) (woken (Some (Ch_nread a)) k1)).
  pose proof (on_pipe_woken k1 c p a q1 (Some (Ch_nread a)) H1) as H2.
  run (release_locked _ c (L_pipe a) e1 (proj1 (op_running _ _ _ _ _ H2)) (op_lock _ _ _ _ _ H2)).
  by exists (woken (Some (Ch_nread a)) k1), q1, e1, t.
Qed.

Lemma piperead_loop_done n : forall k c p a q e,
  on_pipe k c p a q ->
  exists k', piperead_loop a n (locked c (L_pipe a) k) e = Done (take n q) (locked c (L_pipe a) k') e
    /\ on_pipe k' c p a (drop n q).
Proof.
  induction n as [|n IH]; intros k c p a q e H; [by exists k|]. cbn [piperead_loop]. rewrite bind_gets.
  change (pipe_at (locked c (L_pipe a) k) a) with (pipe_at k a).
  rewrite (pipe_empty _ q (op_queue _ _ _ _ _ H)).
  destruct q as [|x q]; [by exists k|]. rewrite bool_decide_eq_false_2 by done.
  destruct (pipe_got_ok _ _ _ (op_queue _ _ _ _ _ H)) as [Hx Hg].
  assert (H1 : on_pipe (upd_pipe a pipe_got k) c p a q)
    by (apply (on_pipe_upd k c p a (x :: q)); [done|exact (op_open _ _ _ _ _ H)|done]).
  destruct (IH _ c p a q e H1) as (k' & E & H'). exists k'. split; [|done].
  c_simpl. change (upd_pipe a _ (locked c (L_pipe a) k)) with (locked c (L_pipe a) (upd_pipe a pipe_got k)).
  run E. by rewrite Hx.
Qed.

(** [piperead] takes from the front.  When the pipe holds bytes, or holds none
    and the write end is closed, [piperead] of [n] bytes does not wait: it
    returns the first [n] of them, or all when there are fewer (0 at the end of
    the stream), and leaves the rest. *)
Theorem piperead_takes (k : kstate) (c p : nat) (a : Z) (q : list Z) (n : Z) (e : environment kstate) :
  on_pipe k c p a q -> q <> [] \/ pi_writeopen (pipe_at k a) = 0 -> 0 <= n ->
  exists k', piperead a n k e = Done (Z.min n (Z.of_nat (length q)), take (Z.to_nat n) q) k' e
    /\ on_pipe k' c p a (drop (Z.to_nat n) q).
Proof.
  intros H Hq Hn. destruct (piperead_loop_done (Z.to_nat n) k c p a q e H) as (k1 & E & H1).
  pose proof (op_running _ _ _ _ _ H) as [Hs _]. pose proof (op_running _ _ _ _ _ H1) as [Hs1 _].
  exists (woken (Some (Ch_nwrite a)) k1). split; [|by apply on_pipe_woken].
  unfold piperead. run (acquire_free k c (L_pipe a) e Hs (op_lock _ _ _ _ _ H)).
  assert (D : pipe_data a (locked c (L_pipe a) k) e = Done true (locked c (L_pipe a) k) e).
  { unfold pipe_data, waiting. cbn [iter Nat.add]. rewrite bind_assoc, bind_gets.
    change (pipe_at (locked c (L_pipe a) k) a) with (pipe_at k a).
    rewrite (pipe_empty _ q (op_queue _ _ _ _ _ H)).
    destruct Hq as [Hq|Hq]; [by rewrite bool_decide_eq_false_2 by done|].
    rewrite Hq, andb_false_r. done. }
  run D. cbn [negb]. run E.
  rewrite (bind_done _ _ _ _ _ _ _ (wakeup_done (locked c (L_pipe a) k1) c (Ch_nwrite a) e
    ltac:(by apply settled_locked) ltac:(apply lock_free_locked; [done|exact (op_ptable _ _ _ _ _ H1)]))).
  pose proof (on_pipe_woken k1 c p a _ (Some (Ch_nwrite a)) H1) as H2.
  rewrite (bind_done _ _ _ _ _ _ _ (release_locked (woken (Some (Ch_nwrite a)) k1) c (L_pipe a) e
    (proj1 (op_running _ _ _ _ _ H2)) (op_lock _ _ _ _ _ H2))).
  unfold ret. do 2 f_equal. rewrite length_take. lia.
Qed.

(** ** Instances *)

(** A machine with one process and a pipe at [0x80118000] that holds [q]. *)
Definition pipe_page : Z := 0x80118000.

Definition pipe_machine (q : list Z) : kstate :=
  let k := boot_state [mk_cpu 0 1 0 0 (Some 0%nat)] ∅ 0 in
  let k := upd_proc 0 (set_p_state RUNNING) k in
  let free := mk_spinlock 0 EmptyString None in
  let k := set_k_locks (<[L_pipe pipe_page := free]> (<[L_ptable := free]> ∅)) k in
  set_k_pipes {[ pipe_page := mk_pipe (q ++ replicate (PIPESIZE - length q) 0) 0
                                (Z.of_nat (length q)) 1 1 ]} k.

Lemma pipe_machine_ok q :
  (length q <= PIPESIZE)%nat -> on_pipe (pipe_machine q) 0 0 pipe_page q.
Proof.
  intros Hq. split; [split; [by split|done]| |done| | |done|done|].
  - by exists (set_p_state RUNNING zero_proc).
  - by exists EmptyString.
  - by exists EmptyString.
  - change (pipe_at (pipe_machine q) pipe_page) with
      (mk_pipe (q ++ replicate (PIPESIZE - length q) 0) 0 (Z.of_nat (length q)) 1 1).
    split; simpl; try done.
    + rewrite length_app, length_replicate. lia.
    + rewrite u32_small; [done|]. unfold PIPESIZE in Hq. lia.
    + intros j x Hj. assert (j < length q)%nat by (by eapply lookup_lt_Some).
      unfold slot. rewrite Z.add_0_l, Z.mod_small, Nat2Z.id by lia. by rewrite lookup_app_l by lia.
Qed.

(** Another process that reads one byte and lets the writer run again. *)
Definition read_one (k : kstate) : kstate :=
  upd_pipe pipe_page pipe_got (upd_proc 0 (set_p_state RUNNING) k).

Lemma read_one_drains : drains 0 0 pipe_page read_one.
Proof.
  intros k q H Hq. destruct q as [|x q]; [by unfold PIPESIZE in Hq|].
  exists (read_one (asleep 0 (Ch_nwrite pipe_page) k)), 1%nat.
  split; [done|]. split; [lia|]. split; [|done].
  destruct H as [[Hs Hp] Ha Hn Hl Ht Hk Ho Hok]. unfold read_one.
  apply (on_pipe_upd _ 0 0 pipe_page (x :: q));
    [|exact Ho|by apply (pipe_got_ok (pipe_at k pipe_page) x)].
  split; [split; [other_fields|done]|by repeat apply alive_upd|done|other_fields|other_fields| |done|done].
  unfold asleep. by rewrite !proc_at_upd by (repeat apply alive_upd; done).
Qed.

Lemma pipewrite_fifo_witness :
  exists k' q' e' taken,
    pipewrite pipe_page [9] 1 (pipe_machine (replicate PIPESIZE 7)) [read_one] = Done 1 k' e'
    /\ on_pipe k' 0 0 pipe_page q' /\ replicate PIPESIZE 7 ++ [9] = taken ++ q'.
Proof.
  apply (pipewrite_fifo (pipe_machine (replicate PIPESIZE 7)) 0 0 pipe_page (replicate PIPESIZE 7) [9]).
  - apply pipe_machine_ok. by rewrite length_replicate.
  - constructor; [exact read_one_drains|constructor].
  - rewrite length_replicate. simpl. lia.
Defined.

Lemma piperead_takes_witness :
  exists k', piperead pipe_page 2 (pipe_machine [7; 8; 9]) [] = Done (2, [7; 8]) k' []
    /\ on_pipe k' 0 0 pipe_page [9].
Proof.
  apply (piperead_takes (pipe_machine [7; 8; 9]) 0 0 pipe_page [7; 8; 9] 2 []).
  - apply pipe_machine_ok. simpl. unfold PIPESIZE. lia.
  - by left.
  - lia.
Defined.
