(* ===== verification/File.v ===== *)
(** * Open files (file.c), [pipealloc] (pipe.c) and the console device (console.c)

    The table of open files and the operations that dispatch on the kind of a
    file.  The console is the one device of the switch table. *)

From stdpp Require Import base gmap list strings.
From Stdlib Require Import ZArith Lia.
From S2P Require Import Prelude State Memory Spinlock Sched Kalloc Console Bio Log Fs Pipe.

(** ** The console as a device *)

Definition consoleread_wait (ip : nat) : K bool :=
  waiting (fun _ : unit =>
    i <- gets k_input;;
    if in_r i =? in_w i then
      stop <- killed;;
      if (stop : bool) then release L_cons;; ilock ip;; ret (inr false) else
      sleep Ch_input (Some L_cons);;
      ret (inl tt)
    else ret (inr true)) tt.

(** The loop of [consoleread]: whether it was killed, what is left of [n] and the
    bytes stored; [target] is the first value of [n]. *)
Fixpoint consoleread_loop (ip : nat) (n : nat) (target : Z) : K (bool * Z * list Z) :=
  match n with
  | O => ret (false, 0, [])
  | S n' =>
      ok <- consoleread_wait ip;;
      if negb ok then ret (true, Z.of_nat n, []) else
      i <- gets k_input;;
      let c := input_at i (in_r i) in
      modify (upd_input (fun i => set_in_r (u32 (in_r i + 1)) i));;
      if c =? Ctl "D" then
        when (Z.of_nat n <? target) (modify (upd_input (fun i => set_in_r (u32 (in_r i - 1)) i)));;
        ret (false, Z.of_nat n, [])
      else if c =? NL then ret (false, Z.of_nat n', [c])
      else
        r <- consoleread_loop ip n' target;;
        ret (fst r, c :: snd r)
  end.

(** The value returned and the bytes stored at [dst]. *)
Definition consoleread (ip : nat) (n : Z) : K (Z * list Z) :=
  iunlock ip;;
  acquire L_cons;;
  r <- (if 0 <? n then consoleread_loop ip (Z.to_nat n) n else ret (false, n, []));;
  let '(dead, rest, l) := r in
  if (dead : bool) then ret (-1, l) else
  release L_cons;;
  ilock ip;;
  ret (n - rest, l).

Definition consolewrite (ip : nat) (buf : list Z) (n : Z) : K Z :=
  iunlock ip;;
  acquire L_cons;;
  for_each (fun b => consputc (Z.land b 0xff)) (take (Z.to_nat n) buf);;
  release L_cons;;
  ilock ip;;
  ret n.

Definition CONSOLE : Z := 1.

(** The table as [consoleinit] fills it. *)
#[export] Instance devsw : Devsw := {|
  devsw_read := fun major => if major =? CONSOLE then Some consoleread else None;
  devsw_write := fun major => if major =? CONSOLE then Some consolewrite else None
|}.

(** ** The file table *)

Section File.
Context {L : Linker}.

Definition fileinit : K unit := initlock L_ftable "ftable".

Definition filealloc : K (option nat) :=
  acquire L_ftable;;
  r <- gets (fun k => first_index (fun f => f_ref f =? 0) (k_file k));;
  match r with
  | Some f =>
      modify (upd_file f (set_f_ref 1));;
      release L_ftable;;
      ret (Some f)
  | None => release L_ftable;; ret None
  end.

Definition filedup (f : nat) : K nat :=
  acquire L_ftable;;
  ref <- gets (fun k => f_ref (file_at k f));;
  if ref <? 1 then panic "filedup" else
  modify (upd_file f (fun r => set_f_ref (f_ref r + 1) r));;
  release L_ftable;;
  ret f.

Definition fileclose (f : nat) : K unit :=
  acquire L_ftable;;
  ref <- gets (fun k => f_ref (file_at k f));;
  if ref <? 1 then panic "fileclose" else
  modify (upd_file f (fun r => set_f_ref (f_ref r - 1) r));;
  ff <- gets (fun k => file_at k f);;
  if 0 <? f_ref ff then release L_ftable else
  modify (upd_file f (set_f_ref 0));;
  modify (upd_file f (set_f_type FD_NONE));;
  release L_ftable;;
  match f_type ff with
  | FD_PIPE => pipeclose (f_pipe ff) (f_writable ff)
  | FD_INODE =>
      begin_op;;
      ip <- deref (f_ip ff);;
      iput ip;;
      end_op
  | FD_NONE => ret tt
  end.

(** [None] for the return value -1. *)
Definition filestat (f : nat) : K (option stat) :=
  fl <- gets (fun k => file_at k f);;
  match f_type fl with
  | FD_INODE =>
      ip <- deref (f_ip fl);;
      ilock ip;;
      st <- stati ip;;
      iunlock ip;;
      ret (Some st)
  | _ => ret None
  end.

(** The value returned and the bytes stored at [addr]. *)
Definition fileread (f : nat) (n : Z) : K (Z * list Z) :=
  fl <- gets (fun k => file_at k f);;
  if f_readable fl =? 0 then ret (-1, []) else
  match f_type fl with
  | FD_PIPE => piperead (f_pipe fl) n
  | FD_INODE =>
      ip <- deref (f_ip fl);;
      ilock ip;;
      off <- gets (fun k => f_off (file_at k f));;
      r <- readi ip off (u32 n);;
      when (0 <? fst r) (modify (upd_file f (fun x => set_f_off (u32 (f_off x + fst r)) x)));;
      iunlock ip;;
      ret r
  | FD_NONE => panic "fileread"
  end.

(** [((MAXOPBLOCKS-1-1-2) / 2) * 512] *)
Definition write_max : Z := (MAXOPBLOCKS - 1 - 1 - 2) / 2 * 512.

Definition filewrite_body (f ip : nat) (addr : list Z) (n i : Z) : K (Z + Z) :=
  if i <? n then
    let n1 := Z.min (n - i) write_max in
    begin_op;;
    ilock ip;;
    off <- gets (fun k => f_off (file_at k f));;
    r <- writei ip (drop (Z.to_nat i) addr) off (u32 n1);;
    when (0 <? r) (modify (upd_file f (fun x => set_f_off (u32 (f_off x + r)) x)));;
    iunlock ip;;
    end_op;;
    if r <? 0 then ret (inr i) else
    if negb (r =? n1) then panic "short filewrite" else
    ret (inl (i + r))
  else ret (inr i).

(** Each round writes [write_max] bytes or the rest. *)
Definition filewrite (f : nat) (addr : list Z) (n : Z) : K Z :=
  fl <- gets (fun k => file_at k f);;
  if f_writable fl =? 0 then ret (-1) else
  match f_type fl with
  | FD_PIPE => pipewrite (f_pipe fl) addr n
  | FD_INODE =>
      ip <- deref (f_ip fl);;
      i <- iter (Z.to_nat (n / write_max) + 2) (filewrite_body f ip addr n) 0;;
      ret (if i =? n then n else -1)
  | FD_NONE => panic "filewrite"
  end.

(** ** [pipealloc] *)

(** The label [bad]. *)
Definition pipealloc_bad (f0 f1 : option nat) : K (option (nat * nat)) :=
  (match f0 with Some f => fileclose f | None => ret tt end);;
  (match f1 with Some f => fileclose f | None => ret tt end);;
  ret None.

Definition pipe_file (readable writable p : Z) (f : file) : file :=
  set_f_pipe p (set_f_writable writable (set_f_readable readable (set_f_type FD_PIPE f))).

(** The two files, [None] for the return value -1. *)
Definition pipealloc : K (option (nat * nat)) :=
  f0 <- filealloc;;
  match f0 with
  | None => pipealloc_bad None None
  | Some r =>
  f1 <- filealloc;;
  match f1 with
  | None => pipealloc_bad (Some r) None
  | Some w =>
  p <- kalloc;;
  if p =? 0 then pipealloc_bad (Some r) (Some w) else
  modify (upd_pipe p (fun pi =>
    set_pi_nread 0 (set_pi_nwrite 0 (set_pi_writeopen 1 (set_pi_readopen 1 pi)))));;
  initlock (L_pipe p) "pipe";;
  modify (upd_file r (pipe_file 1 0 p));;
  modify (upd_file w (pipe_file 0 1 p));;
  ret (Some (r, w))
  end
  end.

End File.
