(* ===== verification/Proc.v ===== *)
(** * Processes (proc.c)

    The process table and its operations.  The program that [userinit] starts,
    which is assembled from initcode.S, is a parameter. *)

From stdpp Require Import base gmap list strings.
From Stdlib Require Import ZArith Lia.
From S2P Require Import Prelude State Memory CString Spinlock Kalloc Sched Console Segment Vm Bio Log Fs Pipe File.

(** The characters of an array before the terminating zero. *)
Fixpoint c_str (l : list Z) : list Z :=
  match l with
  | [] => []
  | c :: l => if c =? 0 then [] else c :: c_str l
  end.

(** [safestrcpy] into an array that holds [old]. *)
Definition safestrcpy_list (old src : list Z) (n : nat) : list Z :=
  let s := take (n - 1) (c_str src) in
  s ++ [0] ++ drop (length s + 1) old.

Definition sizeof_trapframe : Z := 76.
Definition sizeof_context : Z := 20.

Definition tf_at (k : kstate) (a : Z) : trapframe :=
  default (mk_trapframe 0 0 0 0 0 0 0 0 0 0 0 0 0 0 0 0 0 0 0) (k_tf k !! a).
Definition upd_tf (a : Z) (f : trapframe -> trapframe) (k : kstate) : kstate :=
  set_k_tf (<[a := f (tf_at k a)]> (k_tf k)) k.

(** The process the code runs for, which exists wherever this is used. *)
Definition curproc : K nat := p <- myproc;; deref p.

Lemma curproc_running k c p e : running k c p -> curproc k e = Done p k e.
Proof. intros [Hs Hp]. unfold curproc. run (myproc_settled k c e Hs). by rewrite Hp. Qed.

Definition pinit : K unit := initlock L_ptable "ptable".

Section Proc.
Context {L : Linker}.

Definition allocproc : K (option nat) :=
  acquire L_ptable;;
  found <- gets (fun k => first_index (fun p => bool_decide (p_state p = UNUSED)) (k_proc k));;
  match found with
  | None => release L_ptable;; ret None
  | Some p =>
      modify (upd_proc p (set_p_state EMBRYO));;
      modify (fun k => upd_proc p (set_p_pid (k_nextpid k)) k);;
      modify (fun k => set_k_nextpid (k_nextpid k + 1) k);;
      release L_ptable;;
      kstack <- kalloc;;
      modify (upd_proc p (set_p_kstack kstack));;
      if kstack =? 0 then modify (upd_proc p (set_p_state UNUSED));; ret None else
      let sp := kstack + KSTACKSIZE in
      let sp := sp - sizeof_trapframe in
      modify (upd_proc p (set_p_tf sp));;
      let sp := sp - 4 in
      kmem (store32 sp ld_trapret);;
      let sp := sp - sizeof_context in
      modify (upd_proc p (set_p_context sp));;
      modify (fun k => set_k_ctx (<[sp := mk_context 0 0 0 0 ld_forkret]> (k_ctx k)) k);;
      ret (Some p)
  end.


(** The trap frame that [userinit] builds. *)
Definition init_tf : trapframe :=
  let cs := Z.lor (Z.shiftl SEG_UCODE 3) DPL_USER in
  let ds := Z.lor (Z.shiftl SEG_UDATA 3) DPL_USER in
  mk_trapframe 0 0 0 0 0 0 0 0 0 0 ds ds 0 0 0 cs FL_IF PGSIZE ds.

Definition userinit (initcode : list Z) : K unit :=
  p <- allocproc;;
  modify (set_k_initproc p);;
  p <- deref p;;
  pgdir <- setupkvm;;
  modify (upd_proc p (set_p_pgdir pgdir));;
  if pgdir =? 0 then panic "userinit: out of memory?" else
  inituvm pgdir initcode;;
  modify (upd_proc p (set_p_sz PGSIZE));;
  modify (fun k => upd_tf (p_tf (proc_at k p)) (fun _ => init_tf) k);;
  modify (upd_proc p (fun r => set_p_name (safestrcpy_list (p_name r) (chars "initcode") 16) r));;
  cwd <- namei (chars "/");;
  modify (upd_proc p (set_p_cwd cwd));;
  acquire L_ptable;;
  modify (upd_proc p (set_p_state RUNNABLE));;
  release L_ptable.

Definition growproc (n : Z) : K Z :=
  p <- curproc;;
  pr <- gets (fun k => proc_at k p);;
  let sz := p_sz pr in
  sz <- (if 0 <? n then allocuvm (p_pgdir pr) sz (u32 (sz + n))
         else if n <? 0 then deallocuvm (p_pgdir pr) sz (u32 (sz + n))
         else ret sz);;
  if negb (n =? 0) && (sz =? 0) then ret (-1) else
  modify (upd_proc p (set_p_sz sz));;
  switchuvm (Some p);;
  ret 0.

(** The body of the loop of [fork] over the open files. *)
Definition fork_file (cur np fd : nat) : K unit :=
  f <- gets (fun k => mjoin (p_ofile (proc_at k cur) !! fd));;
  match f with
  | Some f =>
      f <- filedup f;;
      modify (upd_proc np (fun r => set_p_ofile (<[fd := Some f]> (p_ofile r)) r))
  | None => ret tt
  end.

Definition fork : K Z :=
  cur <- curproc;;
  np <- allocproc;;
  match np with
  | None => ret (-1)
  | Some np =>
  pr <- gets (fun k => proc_at k cur);;
  pgdir <- copyuvm (p_pgdir pr) (p_sz pr);;
  modify (upd_proc np (set_p_pgdir pgdir));;
  if pgdir =? 0 then
    kstack <- gets (fun k => p_kstack (proc_at k np));;
    kfree kstack;;
    modify (upd_proc np (set_p_kstack 0));;
    modify (upd_proc np (set_p_state UNUSED));;
    ret (-1)
  else
    modify (fun k => upd_proc np (set_p_sz (p_sz (proc_at k cur))) k);;
    modify (upd_proc np (set_p_parent (Some cur)));;
    modify (fun k => upd_tf (p_tf (proc_at k np)) (fun _ => tf_at k (p_tf (proc_at k cur))) k);;
    modify (fun k => upd_tf (p_tf (proc_at k np)) (set_tf_eax 0) k);;
    for_each (fork_file cur np) (seq 0 NOFILE);;
    cwd <- gets (fun k => p_cwd (proc_at k cur));;
    cwd <- deref cwd;;
    cwd <- idup cwd;;
    modify (upd_proc np (set_p_cwd (Some cwd)));;
    modify (fun k => upd_proc np (fun r =>
      set_p_name (safestrcpy_list (p_name r) (p_name (proc_at k cur)) 16) r) k);;
    pid <- gets (fun k => p_pid (proc_at k np));;
    acquire L_ptable;;
    modify (upd_proc np (set_p_state RUNNABLE));;
    release L_ptable;;
    ret pid
  end.

(** The body of the loop of [exit] that closes the open files. *)
Definition exit_file (cur fd : nat) : K unit :=
  f <- gets (fun k => mjoin (p_ofile (proc_at k cur) !! fd));;
  match f with
  | Some f =>
      fileclose f;;
      modify (upd_proc cur (fun r => set_p_ofile (<[fd := None]> (p_ofile r)) r))
  | None => ret tt
  end.

(** The body of its loop that passes the children to init. *)
Definition exit_child (cur i : nat) : K unit :=
  p <- gets (fun k => proc_at k i);;
  when (bool_decide (p_parent p = Some cur))
   (init <- gets k_initproc;;
    modify (upd_proc i (set_p_parent init));;
    when (bool_decide (p_state p = ZOMBIE)) (wakeup1 (Ch_proc <$> init))).

(** [exit] does not return; the lines after the panic are never reached. *)
Definition exit : K unit :=
  cur <- curproc;;
  init <- gets k_initproc;;
  if bool_decide (Some cur = init) then panic "init exiting" else
  for_each (exit_file cur) (seq 0 NOFILE);;
  begin_op;;
  cwd <- gets (fun k => p_cwd (proc_at k cur));;
  cwd <- deref cwd;;
  iput cwd;;
  end_op;;
  modify (upd_proc cur (set_p_cwd None));;
  acquire L_ptable;;
  parent <- gets (fun k => p_parent (proc_at k cur));;
  wakeup1 (Ch_proc <$> parent);;
  for_each (exit_child cur) (seq 0 NPROC);;
  modify (upd_proc cur (set_p_state ZOMBIE));;
  sched;;
  panic "zombie exit".

Definition is_child (cur : nat) (p : proc) : bool := bool_decide (p_parent p = Some cur).
Definition is_zombie_child (cur : nat) (p : proc) : bool :=
  is_child cur p && bool_decide (p_state p = ZOMBIE).

(** One scan of the table by [wait]: [inr] is the return value. *)
Definition wait_body (cur : nat) (_ : unit) : K (unit + Z) :=
  procs <- gets k_proc;;
  match first_index (is_zombie_child cur) procs with
  | Some i =>
      p <- gets (fun k => proc_at k i);;
      kfree (p_kstack p);;
      modify (upd_proc i (set_p_kstack 0));;
      freevm (p_pgdir p);;
      modify (upd_proc i (set_p_pid 0));;
      modify (upd_proc i (set_p_parent None));;
      modify (upd_proc i (fun r => set_p_name (<[0%nat := 0]> (p_name r)) r));;
      modify (upd_proc i (set_p_killed 0));;
      modify (upd_proc i (set_p_state UNUSED));;
      release L_ptable;;
      ret (inr (p_pid p))
  | None =>
      dead <- gets (fun k => truth (p_killed (proc_at k cur)));;
      if negb (existsb (is_child cur) procs) || dead then
        release L_ptable;;
        ret (inr (-1))
      else
        sleep (Ch_proc cur) (Some L_ptable);;
        ret (inl tt)
  end.

Definition wait : K Z :=
  cur <- curproc;;
  acquire L_ptable;;
  waiting (wait_body cur) tt.

(** The scheduler's visit of process [i]: the switch to it lasts until it calls
    [sched]. *)
Definition scheduler_visit (c i : nat) : K unit :=
  p <- gets (fun k => proc_at k i);;
  when (bool_decide (p_state p = RUNNABLE))
   (modify (upd_cpu c (set_c_proc (Some i)));;
    switchuvm (Some i);;
    modify (upd_proc i (set_p_state RUNNING));;
    others;;
    switchkvm;;
    modify (upd_cpu c (set_c_proc None))).

(** One round of the endless loop of [scheduler]. *)
Definition scheduler_round (c : nat) : K unit :=
  sti;;
  acquire L_ptable;;
  for_each (scheduler_visit c) (seq 0 NPROC);;
  release L_ptable.

(** [scheduler] observed for [n] rounds. *)
Definition scheduler (n : nat) : K unit :=
  c <- mycpu;;
  modify (upd_cpu c (set_c_proc None));;
  for_each (fun _ => scheduler_round c) (seq 0 n).

Definition forkret : K unit :=
  release L_ptable;;
  first <- gets k_first;;
  when (truth first)
   (modify (set_k_first 0);;
    iinit ROOTDEV;;
    initlog ROOTDEV).

Definition kill (pid : Z) : K Z :=
  acquire L_ptable;;
  found <- gets (fun k => first_index (fun p => p_pid p =? pid) (k_proc k));;
  match found with
  | Some i =>
      modify (upd_proc i (set_p_killed 1));;
      p <- gets (fun k => proc_at k i);;
      when (bool_decide (p_state p = SLEEPING)) (modify (upd_proc i (set_p_state RUNNABLE)));;
      release L_ptable;;
      ret 0
  | None => release L_ptable;; ret (-1)
  end.

Definition state_name (s : procstate) : string :=
  match s with
  | UNUSED => "unused" | EMBRYO => "embryo" | SLEEPING => "sleep "
  | RUNNABLE => "runble" | RUNNING => "run   " | ZOMBIE => "zombie"
  end.

(** The addresses printed: those before the first zero. *)
Fixpoint procdump_pcs (pcs : list Z) : K unit :=
  match pcs with
  | [] => ret tt
  | pc :: pcs => if pc =? 0 then ret tt else cprintf " %p" [FInt pc];; procdump_pcs pcs
  end.

Definition ctx_ebp_at (k : kstate) (a : Z) : Z :=
  match k_ctx k !! a with Some c => ctx_ebp c | None => 0 end.

Definition procdump_proc (i : nat) : K unit :=
  p <- gets (fun k => proc_at k i);;
  when (negb (bool_decide (p_state p = UNUSED)))
   (cprintf "%d %s %s" [FInt (p_pid p); FStr (Some (chars (state_name (p_state p))));
                        FStr (Some (c_str (p_name p)))];;
    when (bool_decide (p_state p = SLEEPING))
     (pcs <- gets (fun k => getcallerpcs (k_mem k) (ctx_ebp_at k (p_context p) + 8));;
      procdump_pcs pcs);;
    cprintf newline []).

Definition procdump : K unit := for_each procdump_proc (seq 0 NPROC).

Definition tab : string := String (Ascii.ascii_of_nat 9) EmptyString.

(** The line that [cps] prints for a process in one of the three states. *)
Definition cps_format (state : string) : string :=
  ("%s " ++ tab ++ " %d  " ++ tab ++ " " ++ state ++ " " ++ tab ++ " " ++ newline ++ " ")%string.

Definition cps_proc (i : nat) : K unit :=
  p <- gets (fun k => proc_at k i);;
  let args := [FStr (Some (c_str (p_name p))); FInt (p_pid p)] in
  match p_state p with
  | SLEEPING => cprintf (cps_format "SLEEPING") args
  | RUNNING => cprintf (cps_format "RUNNING") args
  | RUNNABLE => cprintf (cps_format "RUNNABLE") args
  | _ => ret tt
  end.

Definition cps : K Z :=
  sti;;
  acquire L_ptable;;
  cprintf ("name " ++ tab ++ " pid " ++ tab ++ " state " ++ tab ++ " " ++ newline)%string [];;
  for_each cps_proc (seq 0 NPROC);;
  release L_ptable;;
  ret 22.

End Proc.
