(* ===== verification/ForkSpec.v ===== *)
(** * Creating a process

    [fork] of proc.c, in all its outcomes: the child is a copy of its parent in every
    respect in which it should be one, and shares no page of memory with it; when the table
    or memory is full nothing is lost. *)

From stdpp Require Import base gmap list strings sets.
From Stdlib Require Import ZArith Lia.
From S2P Require Import Prelude State Memory CString Spinlock Kalloc Sched Segment Vm VmSpec VmCopy Fs File Proc.

Section Fork.
Context {L : Linker} {LO : @LinkerOk L}.

(** The address space does not depend on the other parts of the state. *)
Lemma as_ok_ext k k' pgdir pts up l : k_mem k' = k_mem k -> k_freelist k' = k_freelist k -> k_use_lock k' = k_use_lock k ->
  k_locks k' = k_locks k -> k_apicid k' = k_apicid k -> k_cpus k' = k_cpus k -> k_if k' = k_if k ->
  as_ok k pgdir pts up l -> as_ok k' pgdir pts up l.
Proof.
  intros Em Ef Eu El Ea Ec Ei [[Hk [H1 H2 H3] Hs Ha] Hu Hap].
  split; [split; [|split; [|done..]|..]|..]; rewrite ?Em, ?Ef; try done. intros Ht. rewrite Eu in Ht.
  destruct (Hk Ht) as (c & Hc & Hf). exists c. split; [by apply (settled_ext k)|by apply (lock_free_ext k)].
Qed.

(** ** A new entry of the table *)

(** The places on the kernel stack at [q]. *)
Definition stack_tf (q : Z) : Z := q + KSTACKSIZE - sizeof_trapframe.
Definition stack_ret (q : Z) : Z := stack_tf q - 4.
Definition stack_ctx (q : Z) : Z := stack_ret q - sizeof_context.

Definition embryo (pid q : Z) (r : proc) : proc :=
  set_p_context (stack_ctx q) (set_p_tf (stack_tf q) (set_p_kstack q (set_p_pid pid (set_p_state EMBRYO r)))).

(** The state with a new entry [np] that has its stack in the page [q]. *)
Definition allocated (np : nat) (q : Z) (k : kstate) : kstate :=
  set_k_ctx (<[stack_ctx q := mk_context 0 0 0 0 ld_forkret]> (k_ctx k))
    (set_k_nextpid (k_nextpid k + 1)
      (set_k_proc (alter (embryo (k_nextpid k) q) np (k_proc k))
        (fill_page q k (store32 (stack_ret q) ld_trapret (k_mem k))))).

Definition free_slot (k : kstate) : option nat := first_index (fun p => bool_decide (p_state p = UNUSED)) (k_proc k).

Lemma upd_proc_twice i f g k : upd_proc i f (upd_proc i g k) = upd_proc i (fun r => f (g r)) k.
Proof.
  change (set_k_proc (alter f i (alter g i (k_proc k))) k = set_k_proc (alter (fun r => f (g r)) i (k_proc k)) k). f_equal. apply list_eq.
  intros j. destruct (decide (i = j)) as [->|Hne]; [|by rewrite !list_lookup_alter_ne]. rewrite !list_lookup_alter_eq. by destruct (k_proc k !! j).
Qed.

Lemma allocproc_run k c l e : settled k c -> lock_free k L_ptable -> kmem_lock_ok k -> freelist k l ->
  allocproc k e = match free_slot k with
                  | None => Done None k e
                  | Some np => match l with
                               | [] => Done None (set_k_nextpid (k_nextpid k + 1)
                                         (upd_proc np (fun r => set_p_state UNUSED (set_p_kstack 0 (set_p_pid (k_nextpid k) (set_p_state EMBRYO r)))) k)) e
                               | q :: _ => Done (Some np) (allocated np q k) e
                               end
                  end.
Proof.
  intros Hs Hf Hk Hl. unfold allocproc. run (acquire_free k c L_ptable e Hs Hf). rewrite bind_gets.
  change (first_index _ (k_proc (locked c L_ptable k))) with (free_slot k). destruct (free_slot k) as [np|].
  2: { by run (release_locked k c L_ptable e Hs Hf). }
  rewrite !bind_modify. set (k1 := set_k_nextpid (k_nextpid k + 1) (upd_proc np (fun r => set_p_pid (k_nextpid k) (set_p_state EMBRYO r)) k)).
  match goal with |- context [(release L_ptable;; _) ?s e] => assert (Es : s = locked c L_ptable k1) end.
  { rewrite upd_proc_twice. done. }
  rewrite Es. clear Es. run (release_locked k1 c L_ptable e ltac:(other_fields) ltac:(other_fields)).
  assert (Hk1 : kmem_lock_ok k1). { intros Ht. destruct (Hk Ht) as (c' & Hc & Hfr). exists c'. split; [by apply (settled_ext k)|by apply (lock_free_ext k)]. }
  assert (Hl1 : freelist k1 l) by (by destruct Hl). destruct l as [|q l].
  - run (kalloc_empty k1 e Hl1 Hk1). rewrite !bind_modify. cbn [Z.eqb]. rewrite bind_modify, !upd_proc_twice. unfold ret. f_equal.
    unfold k1. change (upd_proc np ?f (set_k_nextpid ?n ?k)) with (set_k_nextpid n (upd_proc np f k)). by rewrite upd_proc_twice.
  - run (kalloc_done k1 q l e Hl1 Hk1). rewrite bind_modify. pose proof (fl_pages _ _ Hl) as (_ & _ & Hq0 & _)%Forall_inv.
    rewrite (proj2 (Z.eqb_neq q 0)) by lia. cbv zeta. fold (stack_tf q). fold (stack_ret q). fold (stack_ctx q). unfold kmem. rewrite !bind_modify. unfold ret. f_equal.
    unfold allocated, k1. change (alter (embryo (k_nextpid k) q) np (k_proc k)) with (k_proc (upd_proc np (embryo (k_nextpid k) q) k)).
    replace (upd_proc np (embryo (k_nextpid k) q) k) with (upd_proc np (set_p_context (stack_ctx q)) (upd_proc np (set_p_tf (stack_tf q))
      (upd_proc np (set_p_kstack q) (upd_proc np (fun r => set_p_pid (k_nextpid k) (set_p_state EMBRYO r)) k)))) by (by rewrite !upd_proc_twice).
    done.
Qed.

(** ** The open files *)

Definition more_ref (r : file) : file := set_f_ref (f_ref r + 1) r.

Lemma filedup_run k c f e : settled k c -> lock_free k L_ftable -> 1 <= f_ref (file_at k f) -> filedup f k e = Done f (upd_file f more_ref k) e.
Proof.
  intros Hs Hl Hr. unfold filedup. run (acquire_free k c L_ftable e Hs Hl). rewrite bind_gets.
  change (file_at (locked c L_ftable k) f) with (file_at k f). rewrite (proj2 (Z.ltb_ge _ _) Hr), bind_modify.
  change (upd_file f _ (locked c L_ftable k)) with (locked c L_ftable (upd_file f more_ref k)).
  run (release_locked (upd_file f more_ref k) c L_ftable e ltac:(other_fields) ltac:(other_fields)). done.
Qed.

(** The files that the descriptors [fds] of a table refer to; the table that gets copies of them. *)
Definition referred (ofs : list (option nat)) (fds : list nat) : list nat := omap (fun fd => mjoin (ofs !! fd)) fds.
Definition copy_fd (ofs o : list (option nat)) (fd : nat) : list (option nat) :=
  match mjoin (ofs !! fd) with Some f => <[fd := Some f]> o | None => o end.

Definition dup_all (ofs : list (option nat)) (np : nat) (fds : list nat) (k : kstate) : kstate :=
  set_k_file (foldl (fun fs f => alter more_ref f fs) (k_file k) (referred ofs fds))
    (upd_proc np (fun r => set_p_ofile (foldl (copy_fd ofs) (p_ofile r) fds) r) k).

Lemma proc_at_upd_ne k i j f : j <> i -> proc_at (upd_proc i f k) j = proc_at k j.
Proof. intros Hne. unfold proc_at, upd_proc. simpl. by rewrite list_lookup_alter_ne. Qed.

Lemma upd_proc_id i f k : (forall r, f r = r) -> upd_proc i f k = k.
Proof.
  intros Hf. unfold upd_proc. replace (alter f i (k_proc k)) with (k_proc k); [by destruct k|]. apply list_eq. intros j.
  destruct (decide (i = j)) as [->|Hne]; [|by rewrite list_lookup_alter_ne]. rewrite list_lookup_alter_eq. destruct (k_proc k !! j); [|done]. simpl. by rewrite Hf.
Qed.

Lemma file_at_more k f g : (1 <= f_ref (file_at k g)) -> 1 <= f_ref (file_at (upd_file f more_ref k) g).
Proof.
  unfold file_at, upd_file. simpl. intros H. destruct (decide (f = g)) as [->|Hne]; [|by rewrite list_lookup_alter_ne].
  rewrite list_lookup_alter_eq. destruct (k_file k !! g); simpl in *; lia.
Qed.

Lemma fork_files_run c cur np fds e : cur <> np -> forall k, settled k c -> lock_free k L_ftable ->
  (forall fd f, p_ofile (proc_at k cur) !! fd = Some (Some f) -> 1 <= f_ref (file_at k f)) ->
  for_each (fork_file cur np) fds k e = Done tt (dup_all (p_ofile (proc_at k cur)) np fds k) e.
Proof.
  intros Hne. induction fds as [|fd fds IH]; intros k Hs Hl Hr; cbn [for_each].
  { unfold dup_all. cbn [foldl referred omap list_omap]. rewrite upd_proc_id by (by intros []). by destruct k. }
  unfold fork_file at 1. rewrite bind_assoc, bind_gets. set (ofs := p_ofile (proc_at k cur)) in *. unfold dup_all, referred.
  cbn [omap list_omap foldl]. unfold copy_fd at 2. destruct (mjoin (ofs !! fd)) as [f|] eqn:Ef.
  - assert (Eo : ofs !! fd = Some (Some f)) by (destruct (ofs !! fd) as [[x|]|]; simpl in Ef; congruence).
    rewrite bind_assoc. run (filedup_run k c f e Hs Hl (Hr fd f Eo)). rewrite bind_modify.
    set (k1 := upd_proc np _ (upd_file f more_ref k)). assert (Ec : proc_at k1 cur = proc_at k cur) by (unfold k1; by rewrite proc_at_upd_ne).
    rewrite (IH k1); [|other_fields|other_fields|].
    + rewrite Ec. fold ofs. unfold dup_all, k1. f_equal.
      change (k_file (upd_proc np ?g (upd_file f more_ref k))) with (alter more_ref f (k_file k)). rewrite upd_proc_twice. done.
    + rewrite Ec. fold ofs. intros fd' f' E'. apply (file_at_more k f f'). by apply (Hr fd').
  - rewrite bind_ret. rewrite (IH k) by done. done.
Qed.

(** Copying every descriptor into an empty table. *)
Lemma copy_fds_lookup ofs fds : forall o j, (j < length o)%nat -> length o = length ofs ->
  foldl (copy_fd ofs) o fds !! j = if decide (j ∈ fds /\ is_Some (mjoin (ofs !! j))) then Some (mjoin (ofs !! j)) else o !! j.
Proof.
  induction fds as [|fd fds IH]; intros o j Hj Hl; cbn [foldl].
  { rewrite decide_False; [done|]. intros [H _]. by apply not_elem_of_nil in H. }
  assert (Hl1 : length (copy_fd ofs o fd) = length o) by (unfold copy_fd; destruct (mjoin (ofs !! fd)); [apply length_insert|done]).
  rewrite IH by lia. destruct (decide (j ∈ fds /\ is_Some (mjoin (ofs !! j)))) as [[H1 H2]|Hno].
  - rewrite decide_True; [done|]. split; [by apply list_elem_of_further|done].
  - unfold copy_fd. destruct (decide (fd = j)) as [->|Hne].
    + destruct (mjoin (ofs !! j)) as [f|] eqn:Ef.
      * rewrite list_lookup_insert_eq by done. rewrite decide_True; [done|]. split; [apply list_elem_of_here|by eexists].
      * rewrite decide_False; [done|]. intros [_ [? ?]]. done.
    + rewrite (decide_False (P := j ∈ fd :: fds /\ _)) by (rewrite elem_of_cons; intros [[->|H] H2]; [done|by apply Hno]).
      destruct (mjoin (ofs !! fd)); [by rewrite list_lookup_insert_ne|done].
Qed.

Lemma copy_all_fds ofs : length ofs = NOFILE -> foldl (copy_fd ofs) (replicate NOFILE None) (seq 0 NOFILE) = ofs.
Proof.
  intros Hl. apply list_eq. intros j. destruct (decide (j < NOFILE)%nat) as [Hj|Hj].
  - rewrite copy_fds_lookup by (rewrite length_replicate; done). destruct (lookup_lt_is_Some_2 ofs j ltac:(lia)) as [x Hx]. rewrite Hx. 
    change (mjoin (Some x)) with x. destruct x as [f|]; [rewrite decide_True; [done|]; split; [apply elem_of_seq; lia|by eexists]|].
    rewrite decide_False by (intros [_ [? ?]]; done). by rewrite lookup_replicate_2.
  - rewrite !lookup_ge_None_2; [done|lia|]. assert (Hlen : forall l o, length (foldl (copy_fd ofs) o l) = length o).
    { induction l as [|fd l IH]; intros o; [done|]. simpl. rewrite IH. unfold copy_fd. destruct (mjoin _); [apply length_insert|done]. }
    rewrite Hlen, length_replicate. lia.
Qed.

(** How often file [g] is among [l]. *)
Definition times (g : nat) (l : list nat) : Z := Z.of_nat (length (filter (fun f => f = g) l)).

Lemma refs_added l g : forall (fs : list file) r, fs !! g = Some r -> foldl (fun fs f => alter more_ref f fs) fs l !! g = Some (set_f_ref (f_ref r + times g l) r).
Proof.
  induction l as [|f l IH]; intros fs r Hr; cbn [foldl].
  - rewrite Hr. unfold times. simpl. rewrite Z.add_0_r. by destruct r.
  - unfold times. rewrite filter_cons. destruct (decide (f = g)) as [->|Hne].
    + rewrite (IH _ (more_ref r)) by (by rewrite list_lookup_alter_eq, Hr). f_equal.
      assert (Et : f_ref r + 1 + times g l = f_ref r + Z.of_nat (length (g :: filter (fun f => f = g) l))) by (unfold times; simpl; lia).
      rewrite <- Et. done.
    + by rewrite (IH _ r) by (by rewrite list_lookup_alter_ne).
Qed.

(** ** The child *)

Definition more_iref (ip : inode) : inode := set_i_ref (i_ref ip + 1) ip.

Lemma idup_run k c i e : settled k c -> lock_free k L_icache -> idup i k e = Done i (upd_inode i more_iref k) e.
Proof.
  intros Hs Hl. unfold idup. run (acquire_free k c L_icache e Hs Hl). rewrite bind_modify.
  change (upd_inode i _ (locked c L_icache k)) with (locked c L_icache (upd_inode i more_iref k)).
  run (release_locked (upd_inode i more_iref k) c L_icache e ltac:(other_fields) ltac:(other_fields)). done.
Qed.

(** The part of [fork] after the address space was copied. *)
Definition fork_rest (cur np : nat) : K Z :=
  modify (fun k => upd_proc np (set_p_sz (p_sz (proc_at k cur))) k);;
  modify (upd_proc np (set_p_parent (Some cur)));;
  modify (fun k => upd_tf (p_tf (proc_at k np)) (fun _ => tf_at k (p_tf (proc_at k cur))) k);;
  modify (fun k => upd_tf (p_tf (proc_at k np)) (set_tf_eax 0) k);;
  for_each (fork_file cur np) (seq 0 NOFILE);;
  cwd <- gets (fun k => p_cwd (proc_at k cur));;
  cwd <- deref cwd;;
  cwd <- idup cwd;;
  modify (upd_proc np (set_p_cwd (Some cwd)));;
  modify (fun k => upd_proc np (fun r =>
    set_p_name (safestrcpy_list (p_name r) (p_name (proc_at k cur)) 16) r) k);;
  pid <- gets (fun k => p_pid (proc_at k np));;
  acquire L_ptable;;
  modify (upd_proc np (set_p_state RUNNABLE));;
  release L_ptable;;
  ret pid.

(** The state in the end, when [k] is the one after copying. *)
Definition finished (cur np i : nat) (k : kstate) : kstate :=
  let pr := proc_at k cur in
  let t := p_tf (proc_at k np) in
  let k1 := upd_proc np (fun r => set_p_state RUNNABLE (set_p_name (safestrcpy_list (p_name r) (p_name pr) 16) (set_p_cwd (Some i)
              (set_p_ofile (foldl (copy_fd (p_ofile pr)) (p_ofile r) (seq 0 NOFILE)) (set_p_parent (Some cur) (set_p_sz (p_sz pr) r)))))) k in
  let k2 := set_k_tf (<[t := set_tf_eax 0 (tf_at k (p_tf pr))]> (k_tf k1)) k1 in
  upd_inode i more_iref (set_k_file (foldl (fun fs f => alter more_ref f fs) (k_file k) (referred (p_ofile pr) (seq 0 NOFILE))) k2).

Record ready (k : kstate) (c cur np i : nat) : Prop := {
  rd_settled : settled k c;
  rd_ptable : lock_free k L_ptable;
  rd_ftable : lock_free k L_ftable;
  rd_icache : lock_free k L_icache;
  rd_ne : cur <> np;
  rd_alive : alive k np;
  rd_files : forall fd f, p_ofile (proc_at k cur) !! fd = Some (Some f) -> 1 <= f_ref (file_at k f);
  rd_cwd : p_cwd (proc_at k cur) = Some i
}.

Lemma set_runnable_run {A} k c np (v : A) e : settled k c -> lock_free k L_ptable ->
  (acquire L_ptable;; modify (upd_proc np (set_p_state RUNNABLE));; release L_ptable;; ret v) k e = Done v (upd_proc np (set_p_state RUNNABLE) k) e.
Proof.
  intros Hs Hl. run (acquire_free k c L_ptable e Hs Hl). rewrite bind_modify.
  change (upd_proc np (set_p_state RUNNABLE) (locked c L_ptable k)) with (locked c L_ptable (upd_proc np (set_p_state RUNNABLE) k)).
  run (release_locked (upd_proc np (set_p_state RUNNABLE) k) c L_ptable e ltac:(other_fields) ltac:(other_fields)). done.
Qed.

(** The entry of one process among the other changes. *)
Lemma entry_collect np f g h i m F T k :
  upd_proc np f (upd_inode i m (set_k_file F (upd_proc np g (set_k_tf T (upd_proc np h k)))))
  = upd_inode i m (set_k_file F (set_k_tf T (upd_proc np (fun r => f (g (h r))) k))).
Proof.
  transitivity (upd_inode i m (set_k_file F (set_k_tf T (upd_proc np f (upd_proc np g (upd_proc np h k)))))); [done|]. by rewrite !upd_proc_twice.
Qed.

Lemma pid_kept k np f : (forall r, p_pid (f r) = p_pid r) -> p_pid (proc_at (upd_proc np f k) np) = p_pid (proc_at k np).
Proof. intros Hf. unfold proc_at, upd_proc. simpl. rewrite list_lookup_alter_eq. destruct (k_proc k !! np); [apply Hf|done]. Qed.

Lemma done_cong {S A} (a a' : A) (k k' : S) e : a = a' -> k = k' -> Done a k e = Done a' k' e.
Proof. by intros -> ->. Qed.

Lemma fork_rest_run k c cur np i e : ready k c cur np i ->
  fork_rest cur np k e = Done (p_pid (proc_at k np)) (finished cur np i k) e.
Proof.
  intros [Hs Hp Hf Hi Hne Ha Hr Hc]. unfold fork_rest. rewrite !bind_modify.
  set (pr := proc_at k cur) in *. set (t := p_tf (proc_at k np)).
  set (k1 := upd_proc np (fun r => set_p_parent (Some cur) (set_p_sz (p_sz pr) r)) k).
  set (k2 := set_k_tf (<[t := set_tf_eax 0 (tf_at k (p_tf pr))]> (k_tf k1)) k1).
  assert (E1 : upd_proc np (set_p_parent (Some cur)) (upd_proc np (set_p_sz (p_sz pr)) k) = k1) by apply upd_proc_twice.
  rewrite !E1. assert (Et : p_tf (proc_at k1 np) = t) by (unfold k1; by rewrite proc_at_upd).
  assert (Ec : proc_at k1 cur = pr) by (unfold k1; by rewrite proc_at_upd_ne).
  match goal with |- (for_each _ _;; _) ?s e = _ => assert (E2 : s = k2) end.
  { change (proc_at (upd_tf ?a ?f k1) np) with (proc_at k1 np). rewrite Et, Ec. unfold k2, upd_tf. change (tf_at k1 (p_tf pr)) with (tf_at k (p_tf pr)).
    unfold tf_at at 1. change (k_tf (set_k_tf ?x k1)) with x. rewrite lookup_insert_eq. cbn [default from_option id].
    change (set_k_tf ?x (set_k_tf ?y k1)) with (set_k_tf x k1). by rewrite insert_insert_eq. }
  rewrite E2. clear E2. assert (Ec2 : proc_at k2 cur = pr) by exact Ec.
  rewrite (bind_done _ _ _ _ _ _ _ (fork_files_run c cur np (seq 0 NOFILE) e Hne k2 ltac:(other_fields) ltac:(other_fields) ltac:(by rewrite Ec2))).
  rewrite Ec2. set (k3 := dup_all (p_ofile pr) np (seq 0 NOFILE) k2).
  assert (Ec3 : proc_at k3 cur = pr) by (unfold k3, dup_all; change (proc_at (set_k_file ?x ?y) cur) with (proc_at y cur); by rewrite proc_at_upd_ne).
  rewrite bind_gets, Ec3, Hc. unfold deref. rewrite bind_ret. run (idup_run k3 c i e ltac:(other_fields) ltac:(other_fields)). rewrite !bind_modify.
  set (k4 := upd_inode i more_iref k3).
  set (k5 := upd_proc np (fun r => set_p_name (safestrcpy_list (p_name r) (p_name pr) 16) (set_p_cwd (Some i) r)) k4).
  match goal with |- bind (gets ?g) ?h ?s e = _ => assert (E5 : s = k5) end.
  { change (proc_at (upd_proc np ?f k4) cur) with (proc_at (upd_proc np f k3) cur). rewrite proc_at_upd_ne, Ec3 by done. apply upd_proc_twice. }
  rewrite E5. clear E5. rewrite bind_gets, (set_runnable_run k5 c) by other_fields. apply done_cong.
  - unfold k5. rewrite pid_kept by done. change (proc_at k4 np) with (proc_at k3 np). unfold k3, dup_all.
    change (proc_at (set_k_file ?x ?y) np) with (proc_at y np). rewrite pid_kept by done. change (proc_at k2 np) with (proc_at k1 np). unfold k1. by apply pid_kept.
  - unfold k5. rewrite upd_proc_twice. unfold k4, k3, dup_all, k2, k1. rewrite entry_collect. done.
Qed.

(** What it is made of. *)
Definition complete (cur i : nat) (pr r : proc) : proc :=
  set_p_state RUNNABLE (set_p_name (safestrcpy_list (p_name r) (p_name pr) 16) (set_p_cwd (Some i)
    (set_p_ofile (foldl (copy_fd (p_ofile pr)) (p_ofile r) (seq 0 NOFILE)) (set_p_parent (Some cur) (set_p_sz (p_sz pr) r))))).

Lemma proc_at_alters k0 k1 n f j : k_proc k1 = alter f n (k_proc k0) -> alive k0 n -> proc_at k1 j = if decide (j = n) then f (proc_at k0 n) else proc_at k0 j.
Proof.
  intros E [r Hr]. unfold proc_at. rewrite E. case_decide as Ej; [subst j; by rewrite list_lookup_alter_eq, Hr|by rewrite list_lookup_alter_ne].
Qed.

Lemma finished_procs cur np i k : k_proc (finished cur np i k) = alter (complete cur i (proc_at k cur)) np (k_proc k).
Proof. unfold finished, complete. reflexivity. Qed.

Lemma finished_at cur np i k j : alive k np ->
  proc_at (finished cur np i k) j = if decide (j = np) then complete cur i (proc_at k cur) (proc_at k np) else proc_at k j.
Proof. apply proc_at_alters, finished_procs. Qed.

Lemma finished_tf cur np i k a : tf_at (finished cur np i k) a =
  if decide (a = p_tf (proc_at k np)) then set_tf_eax 0 (tf_at k (p_tf (proc_at k cur))) else tf_at k a.
Proof.
  unfold tf_at at 1, finished. cbn -[proc_at tf_at]. case_decide as E; [subst a; by rewrite lookup_insert_eq|by rewrite lookup_insert_ne].
Qed.

Lemma finished_fields cur np i k : k_mem (finished cur np i k) = k_mem k /\ k_ctx (finished cur np i k) = k_ctx k
  /\ k_file (finished cur np i k) = foldl (fun fs f => alter more_ref f fs) (k_file k) (referred (p_ofile (proc_at k cur)) (seq 0 NOFILE))
  /\ k_inode (finished cur np i k) = alter more_iref i (k_inode k).
Proof. done. Qed.

(** ** What [fork] finds *)

Record may_fork (k : kstate) (c cur : nat) (pts : gmap Z Z) (up : gmap Z (Z * Z)) (l : list Z) (i : nat) : Prop := {
  mf_running : running k c cur;
  mf_ptable : lock_free k L_ptable;
  mf_ftable : lock_free k L_ftable;
  mf_icache : lock_free k L_icache;
  mf_state : p_state (proc_at k cur) <> UNUSED;
  mf_space : as_ok k (p_pgdir (proc_at k cur)) pts up l;
  mf_bytes : user_bytes k up;
  mf_size : 0 <= p_sz (proc_at k cur) <= KERNBASE;
  mf_all : forall w, 0 <= w < (p_sz (proc_at k cur) + 4095) / 4096 -> is_Some (up !! w);
  mf_nofile : length (p_ofile (proc_at k cur)) = NOFILE;
  mf_files : forall fd f, p_ofile (proc_at k cur) !! fd = Some (Some f) -> 1 <= f_ref (file_at k f);
  mf_cwd : p_cwd (proc_at k cur) = Some i;
  mf_tf : forall q, q ∈ l -> stack_tf q <> p_tf (proc_at k cur);
  mf_slot : forall np, free_slot k = Some np -> p_ofile (proc_at k np) = replicate NOFILE None
}.

Lemma free_slot_ne k c cur pts up l i np : may_fork k c cur pts up l i -> free_slot k = Some np ->
  cur <> np /\ alive k np /\ p_state (proc_at k np) = UNUSED.
Proof.
  intros H (r & Hr & Hu & _)%first_index_Some. apply bool_decide_eq_true in Hu. assert (E : proc_at k np = r) by (unfold proc_at; by rewrite Hr).
  rewrite E. split; [|split; [by exists r|done]]. intros ->. apply (mf_state _ _ _ _ _ _ _ H). by rewrite E.
Qed.

(** Taking the stack keeps the address space of the parent. *)
Section Stack.
Context (k : kstate) (c cur : nat) (pts : gmap Z Z) (up : gmap Z (Z * Z)) (q : Z) (l : list Z) (i np : nat).
Hypothesis (M : may_fork k c cur pts up (q :: l) i) (Hnp : free_slot k = Some np).
Local Abbreviation k2 := (allocated np q k).
Local Abbreviation pr := (proc_at k cur).

Lemma stack_in_page x : stack_ret q <= x < stack_ret q + 4 -> q <= x < q + PGSIZE.
Proof. unfold stack_ret, stack_tf, KSTACKSIZE, sizeof_trapframe, PGSIZE. lia. Qed.

Lemma stack_mem x : ~ (q <= x < q + PGSIZE) -> load8 (k_mem k2) x = load8 (k_mem k) x.
Proof.
  intros Hx. change (k_mem k2) with (store32 (stack_ret q) ld_trapret (k_mem k)). unfold store32. apply load8_store_bytes_out.
  rewrite length_le_bytes. intros H. by apply Hx, stack_in_page.
Qed.

Lemma stack_space : as_ok k2 (p_pgdir pr) pts up l /\ (q ∉ l) /\ page_ok q.
Proof.
  destruct (fill_page_ok _ k pts up q l (store32 (stack_ret q) ld_trapret (k_mem k)) (mf_space _ _ _ _ _ _ _ M) stack_mem) as (A & Hq & Hp & _).
  split; [|done]. by apply (as_ok_ext (fill_page q k (store32 (stack_ret q) ld_trapret (k_mem k)))).
Qed.

Lemma stack_user w p f x : up !! w = Some (p, f) -> p <= x < p + PGSIZE -> load8 (k_mem k2) x = load8 (k_mem k) x.
Proof.
  intros E Hx. eapply user_page_kept; [exact (mf_space _ _ _ _ _ _ _ M)| |done|done]. intros y Hy. apply stack_mem.
  intros Hq. apply Hy. exists q. split; [apply list_elem_of_here|done].
Qed.

Lemma stack_cur : proc_at k2 cur = pr.
Proof. destruct (free_slot_ne _ _ _ _ _ _ _ _ M Hnp) as (Hne & _). unfold proc_at. simpl. by rewrite list_lookup_alter_ne. Qed.

Lemma stack_np : proc_at k2 np = embryo (k_nextpid k) q (proc_at k np).
Proof. destruct (free_slot_ne _ _ _ _ _ _ _ _ M Hnp) as (_ & [r Hr] & _). unfold proc_at. simpl. by rewrite list_lookup_alter_eq, Hr. Qed.

(** Copying the address space of the parent then. *)
Lemma stack_copy e : data_ok ->
  exists r k3, copyuvm (p_pgdir pr) (p_sz pr) k2 e = Done r k3 e
    /\ ((r <> 0 /\ exists pts' up' l', built k2 l r k3 pts' up' l' /\ copied k up ((p_sz pr + 4095) / 4096) k3 up')
        \/ (r = 0 /\ Z.of_nat (length l) <= 1025 + (p_sz pr + 4095) / 4096 /\ exists l', untouched k2 l k3 l')).
Proof.
  intros D. destruct stack_space as (A & _). assert (B : user_bytes k2 up).
  { intros w p f x E Hx. rewrite (stack_user w p f x E Hx). by apply (mf_bytes _ _ _ _ _ _ _ M w p f). }
  destruct (copyuvm_done k2 _ pts up l (p_sz pr) e A B (mf_size _ _ _ _ _ _ _ M) (mf_all _ _ _ _ _ _ _ M) D) as (r & k3 & E & H).
  exists r, k3. split; [done|]. destruct H as [(Hr & pts' & up' & l' & Hb & Hc1 & Hc2)|H]; [left|by right]. split; [done|]. exists pts', up', l'. split; [done|].
  split; [done|]. intros w Hw. destruct (Hc2 w Hw) as (p & f & p' & E1 & E2 & Hi). exists p, f, p'. split; [done|]. split; [done|].
  intros j Hj. rewrite Hi by done. apply (stack_user w p f); [done|lia].
Qed.

End Stack.

(** ** The outcomes *)

(** The child in entry [np]: a copy of process [cur] that returns 0 from [fork] once it is scheduled. *)
Record child (k k' : kstate) (cur np : nat) : Prop := {
  ch_new : np <> cur /\ p_state (proc_at k np) = UNUSED;
  ch_state : p_state (proc_at k' np) = RUNNABLE;
  ch_pid : p_pid (proc_at k' np) = k_nextpid k;
  ch_parent : p_parent (proc_at k' np) = Some cur;
  ch_sz : p_sz (proc_at k' np) = p_sz (proc_at k cur);
  ch_ofile : p_ofile (proc_at k' np) = p_ofile (proc_at k cur);
  ch_cwd : p_cwd (proc_at k' np) = p_cwd (proc_at k cur);
  ch_name : c_str (p_name (proc_at k' np)) = take 15 (c_str (p_name (proc_at k cur)));
  ch_tf : tf_at k' (p_tf (proc_at k' np)) = set_tf_eax 0 (tf_at k (p_tf (proc_at k cur)));
  ch_context : k_ctx k' !! p_context (proc_at k' np) = Some (mk_context 0 0 0 0 ld_forkret);
  ch_return : load32 (k_mem k') (p_context (proc_at k' np) + sizeof_context) = u32 ld_trapret;
  ch_layout : p_tf (proc_at k' np) = p_context (proc_at k' np) + sizeof_context + 4
              /\ p_tf (proc_at k' np) + sizeof_trapframe = p_kstack (proc_at k' np) + KSTACKSIZE
}.

(** The memory of both: the child has pages of its own, with the contents of the parent's. *)
Record apart (k k' : kstate) (cur np : nat) (pts : gmap Z Z) (up : gmap Z (Z * Z)) (l : list Z) (pts' : gmap Z Z) (up' : gmap Z (Z * Z)) (l' : list Z) : Prop := {
  ap_child : as_ok k' (p_pgdir (proc_at k' np)) pts' up' l';
  ap_parent : as_ok k' (p_pgdir (proc_at k cur)) pts up l';
  ap_copied : copied k up ((p_sz (proc_at k cur) + 4095) / 4096) k' up';
  ap_kernel : forall b, KERNBASE <= b < 2 ^ 32 -> pte_of (k_mem k') (p_pgdir (proc_at k' np)) b = kernel_pte b;
  ap_pages : forall p, p ∈ l <-> p ∈ l' \/ as_page (p_pgdir (proc_at k' np)) pts' up' p \/ p = p_kstack (proc_at k' np);
  ap_stack : (p_kstack (proc_at k' np) ∉ l') /\ ~ as_page (p_pgdir (proc_at k' np)) pts' up' (p_kstack (proc_at k' np))
}.

(** What everyone else sees: one more reference to each open file and to the directory. *)
Record shared (k k' : kstate) (cur np i : nat) : Prop := {
  sh_procs : forall j, j <> np -> proc_at k' j = proc_at k j;
  sh_tf : tf_at k' (p_tf (proc_at k cur)) = tf_at k (p_tf (proc_at k cur));
  sh_files : forall g r, k_file k !! g = Some r -> k_file k' !! g = Some (set_f_ref (f_ref r + times g (omap id (p_ofile (proc_at k cur)))) r);
  sh_inodes : k_inode k' = alter more_iref i (k_inode k)
}.

(** Without memory: every page is free again, and the entry is unused. *)
Record given_up (k k' : kstate) (cur np : nat) (pts : gmap Z Z) (up : gmap Z (Z * Z)) (l l' : list Z) : Prop := {
  gu_space : as_ok k' (p_pgdir (proc_at k cur)) pts up l';
  gu_free : same_free l l';
  gu_slot : p_state (proc_at k' np) = UNUSED;
  gu_procs : forall j, j <> np -> proc_at k' j = proc_at k j;
  gu_rest : k_file k' = k_file k /\ k_inode k' = k_inode k /\ k_tf k' = k_tf k
}.

Lemma c_str_no_zero s r : Forall (fun x => x <> 0) s -> c_str (s ++ 0 :: r) = s.
Proof. induction 1 as [|x s Hx _ IH]; [done|]. simpl. rewrite (proj2 (Z.eqb_neq x 0) Hx). by rewrite IH. Qed.

Lemma c_str_chars s : Forall (fun x => x <> 0) (c_str s).
Proof. induction s as [|x s IH]; simpl; [done|]. destruct (Z.eqb_spec x 0); [done|]. by constructor. Qed.

Lemma c_str_copied old src n : c_str (safestrcpy_list old src n) = take (n - 1) (c_str src).
Proof. unfold safestrcpy_list. apply c_str_no_zero, Forall_take, c_str_chars. Qed.

Lemma referred_all ofs : referred ofs (seq 0 (length ofs)) = omap id ofs.
Proof.
  unfold referred. assert (H : forall a, omap (fun fd => mjoin ((replicate a None ++ ofs) !! fd)) (seq a (length ofs)) = omap id ofs); [|exact (H 0%nat)].
  induction ofs as [|o ofs IH]; intros a; [done|]. cbn [length seq omap list_omap].
  assert (E : (replicate a None ++ o :: ofs) !! a = Some o) by (rewrite lookup_app_r, length_replicate, Nat.sub_diag by (rewrite length_replicate; lia); done).
  rewrite E. change (mjoin (Some o)) with o. unfold id at 1. rewrite <- (IH (S a)).
  assert (F : forall x, (S a <= x)%nat -> (replicate a None ++ o :: ofs) !! x = (replicate (S a) None ++ ofs) !! x).
  { intros x Hx. rewrite !lookup_app_r, !length_replicate by (rewrite length_replicate; lia). by replace (x - a)%nat with (S (x - S a)) by lia. }
  assert (G : forall n b, (S a <= b)%nat -> omap (fun fd => mjoin ((replicate a None ++ o :: ofs) !! fd)) (seq b n) = omap (fun fd => mjoin ((replicate (S a) None ++ ofs) !! fd)) (seq b n)).
  { induction n as [|n IHn]; intros b Hb; [done|]. cbn [seq omap list_omap]. rewrite F by done. rewrite IHn by lia. done. }
  rewrite (G (length ofs) (S a)) by lia. by destruct o.
Qed.

Section Outcome.
Context (k : kstate) (c cur : nat) (pts : gmap Z Z) (up : gmap Z (Z * Z)) (q : Z) (l : list Z) (i np : nat) (e : environment kstate).
Hypothesis (M : may_fork k c cur pts up (q :: l) i) (Hnp : free_slot k = Some np).
Local Abbreviation k2 := (allocated np q k).
Local Abbreviation pr := (proc_at k cur).

Lemma kmem_lock_ok_ext k0 k1 : k_use_lock k1 = k_use_lock k0 -> k_locks k1 = k_locks k0 -> k_apicid k1 = k_apicid k0 -> k_cpus k1 = k_cpus k0 ->
  k_if k1 = k_if k0 -> kmem_lock_ok k0 -> kmem_lock_ok k1.
Proof.
  intros Eu El Ea Ec Ei H Ht. rewrite Eu in Ht. destruct (H Ht) as (c' & Hs & Hf). exists c'. split; [by apply (settled_ext k0)|by apply (lock_free_ext k0)].
Qed.

(** Memory outside the free pages of before is that of before. *)
Lemma outside k3 x : (forall y, ~ in_pages l y -> load8 (k_mem k3) y = load8 (k_mem k2) y) -> ~ in_pages (q :: l) x -> load8 (k_mem k3) x = load8 (k_mem k) x.
Proof.
  intros Hm Hx. rewrite Hm.
  - apply stack_mem. intros Hq. apply Hx. exists q. split; [apply list_elem_of_here|done].
  - intros (p & Hp & Hxp). apply Hx. exists p. split; [by apply list_elem_of_further|done].
Qed.

Lemma k_proc_kfree n f g v x : k_proc (upd_proc n f (after_kfree v (upd_proc n g x))) = k_proc (upd_proc n f (upd_proc n g x)).
Proof. done. Qed.

Lemma k_proc_twice n f g x : k_proc (upd_proc n f (upd_proc n g x)) = alter (fun r => f (g r)) n (k_proc x).
Proof. by rewrite upd_proc_twice. Qed.

Lemma vm_frame_fields k0 k1 : vm_frame k0 k1 ->
  (k_proc k1 = k_proc k0 /\ k_tf k1 = k_tf k0 /\ k_file k1 = k_file k0 /\ k_inode k1 = k_inode k0 /\ k_ctx k1 = k_ctx k0)
  /\ k_locks k1 = k_locks k0 /\ k_apicid k1 = k_apicid k0 /\ k_cpus k1 = k_cpus k0 /\ k_if k1 = k_if k0.
Proof. by intros (m & h & o & ->). Qed.

(** The part of [fork] after the copy failed. *)
Definition fork_undo (n : nat) : K Z :=
  kstack <- gets (fun k => p_kstack (proc_at k n));;
  kfree kstack;;
  modify (upd_proc n (set_p_kstack 0));;
  modify (upd_proc n (set_p_state UNUSED));;
  ret (-1).

Lemma fork_undo_run k3 l3 : untouched k2 l k3 l3 ->
  exists k', fork_undo np (upd_proc np (set_p_pgdir 0) k3) e = Done (-1) k' e /\ given_up k k' cur np pts up (q :: l) (q :: l3).
Proof.
  intros [Ul Uf Us Um (m & h & o & E3)]. destruct (stack_space k c cur pts up q l i np M) as (_ & Hq & Hpq).
  destruct (free_slot_ne _ _ _ _ _ _ _ _ M Hnp) as (Hne & Hal & Hun). set (k4 := upd_proc np (set_p_pgdir 0) k3).
  assert (Hal2 : alive k2 np) by (exact (alive_upd k np np (embryo (k_nextpid k) q) Hal)). assert (Ep3 : k_proc k3 = k_proc k2) by (rewrite E3; reflexivity).
  assert (Ek : p_kstack (proc_at k4 np) = q).
  { rewrite (proc_at_alters k2 k4 np (set_p_pgdir 0) np), decide_True by (done || (unfold k4; simpl; by rewrite Ep3)).
    by rewrite (stack_np k c cur pts up q l i np M Hnp). }
  unfold fork_undo. rewrite bind_gets, Ek. assert (Hl4 : kmem_lock_ok k4) by (by apply (kmem_lock_ok_ext k3)).
  run (kfree_done k4 q e Hpq Hl4). rewrite !bind_modify, upd_proc_twice. eexists. split; [reflexivity|]. set (k5 := upd_proc np _ (after_kfree q k4)).
  assert (Hq3 : q ∉ l3) by (intros Hin; by apply Hq, Us). assert (Hf5 : freelist k5 (q :: l3)).
  { destruct (freelist_after_kfree k4 q l3) as [F1 F2 F3]; [by destruct Uf|done|done|]. by split. }
  assert (Hp5 : forall j, proc_at k5 j = if decide (j = np) then set_p_state UNUSED (set_p_kstack 0 (set_p_pgdir 0 (proc_at k2 np))) else proc_at k2 j).
  { intros j. apply (proc_at_alters k2 k5 np (fun r => set_p_state UNUSED (set_p_kstack 0 (set_p_pgdir 0 r)))); [|exact Hal2]. unfold k5, k4. rewrite k_proc_kfree, k_proc_twice. by rewrite Ep3. }
  split.
  - eapply as_ok_other; [exact (mf_space _ _ _ _ _ _ _ M)|by apply (kmem_lock_ok_ext k4)|exact Hf5| |].
    + intros p [->|Hp]%elem_of_cons; [apply list_elem_of_here|]. by apply list_elem_of_further, Us.
    + intros x Hx. change (k_mem k5) with (freed q (k_freelist k3) (k_mem k3)). rewrite load8_freed; [by apply outside|].
      intros Hxq. apply Hx. exists q. split; [apply list_elem_of_here|done].
  - intros p. rewrite !elem_of_cons. by rewrite (Us p).
  - by rewrite Hp5, decide_True.
  - intros j Hj. rewrite Hp5, decide_False by done. unfold proc_at. simpl. by rewrite list_lookup_alter_ne.
  - unfold k5, k4. rewrite E3. done.
Qed.

(** What [fork_rest] starts from. *)
Lemma copied_fields d k3 (F : vm_frame k2 k3) : let k4 := upd_proc np (set_p_pgdir d) k3 in
  ready k4 c cur np i /\ proc_at k4 cur = pr /\ proc_at k4 np = set_p_pgdir d (embryo (k_nextpid k) q (proc_at k np))
  /\ (forall j, j <> np -> proc_at k4 j = proc_at k j)
  /\ k_tf k4 = k_tf k /\ k_file k4 = k_file k /\ k_inode k4 = k_inode k /\ k_ctx k4 = k_ctx k2 /\ k_mem k4 = k_mem k3.
Proof.
  intros k4. destruct (vm_frame_fields _ _ F) as ((E1 & E2 & E3 & E4 & E5) & E6 & E7 & E8 & E9).
  destruct (free_slot_ne _ _ _ _ _ _ _ _ M Hnp) as (Hne & Hal & Hun).
  assert (Hal2 : alive k2 np) by (exact (alive_upd k np np (embryo (k_nextpid k) q) Hal)).
  assert (Hp : forall j, proc_at k4 j = if decide (j = np) then set_p_pgdir d (proc_at k2 np) else proc_at k2 j).
  { intros j. apply (proc_at_alters k2 k4 np (set_p_pgdir d)); [|done]. unfold k4. simpl. by rewrite E1. }
  assert (Hc : proc_at k4 cur = pr) by (rewrite Hp, decide_False by done; apply (stack_cur k c cur pts up q l i np M Hnp)).
  assert (Hs : settled k4 c) by (apply (settled_ext k); [exact E7|exact E8|exact E9|apply (mf_running _ _ _ _ _ _ _ M)]).
  split; [|split; [done|split; [|split; [|done]]]].
  - split; [done|apply (lock_free_ext k); [exact E6|apply M]..|done| | |].
    + exists (proc_at k4 np). destruct Hal2 as [r Hr]. unfold proc_at, k4. simpl. by rewrite E1, list_lookup_alter_eq, Hr.
    + rewrite Hc. intros fd f Hf. unfold file_at. change (k_file k4) with (k_file k3). rewrite E3. by apply (mf_files _ _ _ _ _ _ _ M fd).
    + rewrite Hc. apply M.
  - rewrite Hp, decide_True by done. by rewrite (stack_np k c cur pts up q l i np M Hnp).
  - intros j Hj. rewrite Hp, decide_False by done. unfold proc_at. simpl. by rewrite list_lookup_alter_ne.
Qed.

(** The copy succeeded. *)
Section Success.
Context (d : Z) (k3 : kstate) (pts' : gmap Z Z) (up' : gmap Z (Z * Z)) (l' : list Z).
Hypothesis (B : built k2 l d k3 pts' up' l') (C : copied k up ((p_sz pr + 4095) / 4096) k3 up').
Local Abbreviation k4 := (upd_proc np (set_p_pgdir d) k3).
Local Abbreviation k' := (finished cur np i k4).

Lemma success_entry : proc_at k' np = complete cur i pr (set_p_pgdir d (embryo (k_nextpid k) q (proc_at k np))).
Proof.
  destruct (copied_fields d k3 (bt_frame _ _ _ _ _ _ _ B)) as (R & Hcur & Hnpr & _).
  rewrite finished_at, decide_True by (done || apply R). by rewrite Hcur, Hnpr.
Qed.

Lemma success_mem : k_mem k' = k_mem k3.
Proof. done. Qed.

(** The stack of the child keeps what was stored there. *)
Lemma success_stack x : q <= x < q + PGSIZE -> load8 (k_mem k') x = load8 (k_mem k2) x.
Proof.
  intros Hx. rewrite success_mem. apply (bt_mem _ _ _ _ _ _ _ B). intros (p & Hp & Hxp).
  destruct (stack_space k c cur pts up q l i np M) as (_ & Hq & Hpq).
  pose proof (fl_pages _ _ (vo_free _ _ _ _ (ao_vm _ _ _ _ _ (mf_space _ _ _ _ _ _ _ M)))) as Hpg. rewrite Forall_cons, Forall_forall in Hpg.
  apply Hq. rewrite (page_of q p x); [done|done|by apply Hpg|done|done].
Qed.

Lemma success_child : child k k' cur np.
Proof.
  destruct (copied_fields d k3 (bt_frame _ _ _ _ _ _ _ B)) as (R & Hcur & Hnpr & Hothers & Etf & Efile & Einode & Ectx & Emem).
  destruct (free_slot_ne _ _ _ _ _ _ _ _ M Hnp) as (Hne & Hal & Hun). destruct (finished_fields cur np i k4) as (_ & Fc & _ & _).
  split; rewrite ?success_entry; try done.
  - cbn [complete p_ofile set_p_state set_p_name set_p_cwd set_p_ofile]. change (p_ofile (set_p_pgdir d (embryo (k_nextpid k) q ?r))) with (p_ofile r).
    rewrite (mf_slot _ _ _ _ _ _ _ M np Hnp). apply copy_all_fds, M.
  - exact (eq_sym (mf_cwd _ _ _ _ _ _ _ M)).
  - apply c_str_copied.
  - change (p_tf (complete cur i pr (set_p_pgdir d (embryo (k_nextpid k) q ?r)))) with (stack_tf q).
    rewrite finished_tf, Hnpr, decide_True by done. rewrite Hcur. unfold tf_at. by rewrite Etf.
  - rewrite Fc, Ectx. change (p_context (complete cur i pr ?r)) with (p_context r). exact (lookup_insert_eq _ (stack_ctx q) _).
  - change (p_context (complete cur i pr (set_p_pgdir d (embryo (k_nextpid k) q ?r)))) with (stack_ctx q). unfold stack_ctx.
    replace (stack_ret q - sizeof_context + sizeof_context) with (stack_ret q) by lia.
    rewrite (load32_ext _ (k_mem k2)); [exact (load32_store32_same _ _ _)|]. intros x Hx. by apply success_stack, stack_in_page.
  - change (p_context (complete cur i pr (set_p_pgdir d (embryo (k_nextpid k) q ?r)))) with (stack_ctx q).
    change (p_tf (complete cur i pr (set_p_pgdir d (embryo (k_nextpid k) q ?r)))) with (stack_tf q).
    change (p_kstack (complete cur i pr (set_p_pgdir d (embryo (k_nextpid k) q ?r)))) with q. unfold stack_ctx, stack_ret, stack_tf. lia.
Qed.

Lemma success_apart : apart k k' cur np pts up (q :: l) pts' up' l'.
Proof.
  destruct (stack_space k c cur pts up q l i np M) as (_ & Hq & Hpq). pose proof (bt_ok _ _ _ _ _ _ _ B) as A.
  assert (Ed : p_pgdir (proc_at k' np) = d) by (by rewrite success_entry). assert (Ek : p_kstack (proc_at k' np) = q) by (by rewrite success_entry).
  assert (A' : as_ok k' d pts' up' l') by (by apply (as_ok_ext k3)).
  assert (Hq' : ~ (q ∈ l' \/ as_page d pts' up' q)) by (intros H; by apply Hq, (bt_free _ _ _ _ _ _ _ B)).
  split; rewrite ?Ed, ?Ek.
  - done.
  - eapply as_ok_other; [exact (mf_space _ _ _ _ _ _ _ M)|apply A'|apply A'| |].
    + intros p Hp. apply list_elem_of_further, (bt_free _ _ _ _ _ _ _ B). by left.
    + intros x Hx. rewrite success_mem. apply outside; [apply B|done].
  - destruct C as [C1 C2]. split; [done|]. intros w Hw. rewrite success_mem. by apply C2.
  - intros b Hb. rewrite success_mem. by apply B.
  - intros p. rewrite elem_of_cons, (bt_free _ _ _ _ _ _ _ B p). tauto.
  - tauto.
Qed.

Lemma success_shared : shared k k' cur np i.
Proof.
  destruct (copied_fields d k3 (bt_frame _ _ _ _ _ _ _ B)) as (R & Hcur & Hnpr & Hothers & Etf & Efile & Einode & Ectx & Emem).
  destruct (finished_fields cur np i k4) as (_ & _ & Ff & Fi). split.
  - intros j Hj. rewrite finished_at, decide_False by (done || apply R). by apply Hothers.
  - rewrite finished_tf, Hnpr, decide_False.
    + unfold tf_at. by rewrite Etf.
    + intros E. symmetry in E. revert E. apply (mf_tf _ _ _ _ _ _ _ M q), list_elem_of_here.
  - intros g r Hr. rewrite Ff, Efile, Hcur, <- (mf_nofile _ _ _ _ _ _ _ M), referred_all. by apply refs_added.
  - by rewrite Fi, Einode.
Qed.

Lemma fork_rest_success : fork_rest cur np k4 e = Done (k_nextpid k) k' e.
Proof.
  destruct (copied_fields d k3 (bt_frame _ _ _ _ _ _ _ B)) as (R & _ & Hnpr & _). rewrite (fork_rest_run k4 c cur np i e R), Hnpr. reflexivity.
Qed.

End Success.
End Outcome.

(** No page for the stack. *)
Lemma no_stack k c cur pts up i np f g : may_fork k c cur pts up [] i -> free_slot k = Some np ->
  given_up k (set_k_nextpid g (upd_proc np (fun r => set_p_state UNUSED (f r)) k)) cur np pts up [] [].
Proof.
  intros M Hnp. destruct (free_slot_ne _ _ _ _ _ _ _ _ M Hnp) as (Hne & Hal & Hun). set (k' := set_k_nextpid _ _).
  assert (Hp : forall j, proc_at k' j = if decide (j = np) then set_p_state UNUSED (f (proc_at k np)) else proc_at k j).
  { intros j. by apply (proc_at_alters k k' np (fun r => set_p_state UNUSED (f r))). }
  split; [|done|by rewrite Hp, decide_True|intros j Hj; by rewrite Hp, decide_False|done]. apply (as_ok_ext k); try done. apply M.
Qed.

(** C11: [fork] creates a copy of the process, or fails and loses nothing.  The process runs, its pages are mapped and
    its open files are in use.  [fork] comes to an end, without a panic, in one of three
    ways.  It returns the next pid, and an unused entry of the table is a child with the
    size, open files, directory, name and trap frame of its parent, except that it returns
    0, and with a kernel stack on which it starts in [forkret] and goes on in the return
    from a trap; its address space has the pages of the parent with the same flags and
    contents, in pages taken from the free ones, none shared with the parent or with the
    stack; every open file has as many more references as descriptors for it, the directory has one more, and no
    other process is changed.  Or it returns -1 because the table is full, and nothing
    has changed.  Or it returns -1 because there were at most 1026 free pages beside those to
    be copied, and all of them are free again, the entry is unused, and the files, the
    inodes, the trap frames and the other processes are as before. *)
Theorem fork_copies (k : kstate) (c cur : nat) (pts : gmap Z Z) (up : gmap Z (Z * Z)) (l : list Z) (i : nat) (e : environment kstate) :
  data_ok -> may_fork k c cur pts up l i ->
  exists r k', fork k e = Done r k' e
    /\ ((r = k_nextpid k /\ exists np pts' up' l', child k k' cur np /\ apart k k' cur np pts up l pts' up' l' /\ shared k k' cur np i)
        \/ (r = -1 /\ free_slot k = None /\ k' = k)
        \/ (r = -1 /\ Z.of_nat (length l) <= 1026 + (p_sz (proc_at k cur) + 4095) / 4096
            /\ exists np l', given_up k k' cur np pts up l l')).
Proof.
  intros D M. pose proof (mf_running _ _ _ _ _ _ _ M) as Hr. pose proof (mf_space _ _ _ _ _ _ _ M) as A. unfold fork. run (curproc_running k c cur e Hr).
  pose proof (allocproc_run k c l e (proj1 Hr) (mf_ptable _ _ _ _ _ _ _ M) (vo_lock _ _ _ _ (ao_vm _ _ _ _ _ A)) (vo_free _ _ _ _ (ao_vm _ _ _ _ _ A))) as Ea.
  destruct (free_slot k) as [np|] eqn:Hnp.
  2: { run Ea. exists (-1), k. split; [done|]. right. by left. }
  destruct l as [|q l]; run Ea.
  - exists (-1). eexists. split; [reflexivity|]. right. right. split; [done|].
    split; [pose proof (mf_size _ _ _ _ _ _ _ M); simpl; div_lia|]. exists np, []. by eapply no_stack.
  - rewrite bind_gets, (stack_cur k c cur pts up q l i np M Hnp). destruct (stack_copy k c cur pts up q l i np M e D) as (d & k3 & E & H).
    run E. rewrite bind_modify. destruct H as [(Hd & pts' & up' & l' & B & C)|(-> & Hlen & l' & U)].
    + rewrite (proj2 (Z.eqb_neq d 0) Hd). eexists _, _.
      split; [exact (fork_rest_success k c cur pts up q l i np e M Hnp d k3 pts' up' l' B)|]. left. split; [done|]. exists np, pts', up', l'. split; [by eapply success_child|]. split; [by eapply success_apart|by eapply success_shared].
    + change (0 =? 0) with true. cbv iota. destruct (fork_undo_run k c cur pts up q l i np e M Hnp k3 l' U) as (k' & E' & G).
      exists (-1), k'. split; [exact E'|]. right. right. split; [done|]. split; [simpl; lia|]. by exists np, (q :: l').
Qed.

End Fork.

(** ** A process that forks *)

#[local] Existing Instance kernel_sym.

(** Freeing the pages [l]. *)
Lemma freed_all l k : freelist k [] -> NoDup l -> Forall page_ok l ->
  let k' := foldr after_kfree k l in
  freelist k' l /\ (forall x, ~ in_pages l x -> load8 (k_mem k') x = load8 (k_mem k) x) /\ exists m h, k' = set_k_freelist h (set_k_mem m k).
Proof.
  intros Hf. induction l as [|v l IH]; intros Hn Hp; simpl.
  { split; [done|]. split; [done|]. exists (k_mem k), (k_freelist k). by destruct k. }
  apply NoDup_cons in Hn as [Hv Hn]. apply Forall_cons in Hp as [Hpv Hp]. destruct (IH Hn Hp) as (F & Hm & m & h & E).
  split; [by apply (@freelist_after_kfree kernel_sym kernel_sym_ok)|]. split.
  - intros x Hx. change (k_mem (after_kfree v ?y)) with (freed v (k_freelist y) (k_mem y)). rewrite load8_freed.
    + apply Hm. intros (p & Hpl & Hxp). apply Hx. exists p. split; [by apply list_elem_of_further|done].
    + intros Hxv. apply Hx. exists v. split; [apply list_elem_of_here|done].
  - rewrite E. by eexists _, _.
Qed.

(** Process 0, of one page, has file 0 open at two descriptors; [n] pages from [0x80200000] on are free. *)
Definition fork_process : proc :=
  mk_proc 4096 page3 0x8011b000 RUNNING 1 None 0x8011bfb4 0 None 0
    ([Some 0%nat; None; Some 0%nat] ++ replicate 13 None) (Some 0%nat) (replicate 16 0).

Definition fork_base : kstate :=
  let k := boot_state [mk_cpu 0 1 0 0 (Some 0%nat)] ∅ 0 in
  let k := upd_file 0 (set_f_ref 2) (upd_proc 0 (fun _ => fork_process) (set_k_nextpid 2 k)) in
  let free := mk_spinlock 0 EmptyString None in
  set_k_locks (<[L_ptable := free]> (<[L_ftable := free]> (<[L_icache := free]> ∅))) k.

Definition fork_pages (n : nat) : list Z := pages_from 0x80200000 n.
Definition fork_machine (n : nat) : kstate := foldr after_kfree fork_base (fork_pages n).

Lemma elem_of_fork_pages n p : p ∈ fork_pages n -> exists i, (i < n)%nat /\ p = 0x80200000 + Z.of_nat i * PGSIZE.
Proof. apply elem_of_pages_from. Qed.

Lemma fork_pages_ok n : Z.of_nat n <= 50000 -> NoDup (fork_pages n) /\ Forall (@page_ok kernel_sym) (fork_pages n).
Proof.
  intros Hn. split.
  - apply NoDup_fmap_2; [|apply NoDup_seq]. intros x y E. unfold PGSIZE in E. lia.
  - apply Forall_forall. intros p (j & Hj & ->)%elem_of_fork_pages. split; [exists (0x80200 + Z.of_nat j); unfold PGSIZE; lia|].
    unfold PGSIZE, KERNBASE, PHYSTOP. simpl. lia.
Qed.

(** An address space without user pages, whose directory is all zeroes. *)
Lemma empty_as_ok k l : freelist k l -> kmem_lock_ok k -> (page3 ∉ l) -> (forall x, page3 <= x < page3 + PGSIZE -> load8 (k_mem k) x = 0) ->
  @as_ok kernel_sym k page3 ∅ ∅ l.
Proof.
  intros Hf Hk Hl Hz. assert (S : space (k_mem k) page3 ∅).
  { split; [apply page_ok_3| |by intros ? ? ?|by intros ? ? ? ?]. intros d Hd. rewrite lookup_empty.
    unfold load32, load_bytes. cbn [seq fmap list_fmap]. rewrite !Hz by (unfold PGSIZE; lia). done. }
  split; [split| |].
  - done.
  - done.
  - done.
  - intros p [->|[d Hd]]; [done|by rewrite lookup_empty in Hd].
  - split; [|by intros ? ? ? ?|by intros ? ? ? ? ? ?]. intros v Hv. rewrite lookup_empty.
    rewrite (pte_of_space _ _ ∅) by done. by rewrite lookup_empty.
  - by intros ? ? ? ?.
Qed.

(** What an allocation of one page leaves free. *)
Lemma extends_length k pts up l k' pts' up' l' : NoDup l -> @extends kernel_sym page3 0 1 k pts up l k' pts' up' l' -> (length l <= length l' + 1025)%nat.
Proof.
  intros Hn X. destruct (ex_new _ _ _ _ _ _ _ _ _ _ _ X 0) as (p & Ep & _); [lia|].
  assert (Hs : l ⊆+ l' ++ (map_to_list pts').*2 ++ [p]).
  { apply NoDup_submseteq; [done|]. intros x Hx. rewrite !elem_of_app, list_elem_of_singleton.
    apply (ex_free _ _ _ _ _ _ _ _ _ _ _ X) in Hx as [Hx|[[[->|[d Hd]] Ht]|(w & Hw & Ew)]]; [by left|by destruct Ht; left| |].
    - right. left. apply list_elem_of_fmap. exists (d, x). split; [done|]. by apply elem_of_map_to_list.
    - right. right. replace w with 0 in Ew by lia. congruence. }
  apply submseteq_length in Hs. rewrite !length_app, length_fmap, length_map_to_list in Hs. simpl in Hs.
  pose proof (tables_bound _ _ _ (vo_space _ _ _ _ (ao_vm _ _ _ _ _ (ex_ok _ _ _ _ _ _ _ _ _ _ _ X)))). lia.
Qed.

Lemma fork_base_may k pts up l p : vm_frame fork_base k -> @as_ok kernel_sym k page3 pts up l -> (forall q, q ∈ l -> 0x80200000 <= q) ->
  up !! 0 = Some (p, 7) -> (forall x, p <= x < p + PGSIZE -> load8 (k_mem k) x = 0) -> (forall w, w <> 0 -> up !! w = None) ->
  may_fork k 0 0 pts up l 0 /\ free_slot k = Some 1%nat /\ k_nextpid k = 2.
Proof.
  intros (m & h & o & ->) A Hl Ep Hz Hn. split; [|by split; [vm_compute|]]. split.
  - split; [|done]. by split.
  - by exists EmptyString.
  - by exists EmptyString.
  - by exists EmptyString.
  - done.
  - done.
  - intros w q f x Ew Hx. destruct (decide (w = 0)) as [->|Hne]; [|by rewrite Hn in Ew].
    rewrite Ep in Ew. simplify_eq. rewrite Hz by done. unfold is_byte. lia.
  - done.
  - change ((_ + 4095) / 4096) with 1. intros w Hw. replace w with 0 by lia. by exists (p, 7).
  - done.
  - intros fd f. change (p_ofile _) with (p_ofile fork_process). intros Hf.
    do 3 (destruct fd as [|fd]; [first [discriminate Hf | (injection Hf as <-; done)]|]).
    assert (Hr : replicate 13 None !! fd = Some (Some f)) by exact Hf. by apply lookup_replicate in Hr as [? _].
  - done.
  - intros q Hq%Hl. change (p_tf _) with 0x8011bfb4. unfold stack_tf, KSTACKSIZE, sizeof_trapframe. lia.
  - intros np E. assert (np = 1%nat) as -> by (vm_compute in E; congruence). done.
Qed.

Lemma fork_machine_runs n : 2 <= Z.of_nat n <= 50000 -> exists k pts up l,
  may_fork k 0 0 pts up l 0 /\ free_slot k = Some 1%nat /\ k_nextpid k = 2 /\ p_sz (proc_at k 0) = 4096 /\ is_Some (up !! 0)
  /\ Z.of_nat n <= Z.of_nat (length l) + 1025.
Proof.
  intros Hn. destruct (fork_pages_ok n) as [Hnd Hpk]; [lia|].
  destruct (freed_all (fork_pages n) fork_base) as (F & Hm & m & h & E); [split; [done|apply NoDup_nil_2|done]|done|done|].
  change (foldr after_kfree fork_base (fork_pages n)) with (fork_machine n) in F, Hm, E.
  assert (Hlow : forall q, q ∈ fork_pages n -> 0x80200000 <= q) by (intros q (j & Hj & ->)%elem_of_fork_pages; unfold PGSIZE; lia).
  destruct (allocuvm_run (fork_machine n) page3 ∅ ∅ (fork_pages n) 0 4096 []) as (r & k & pts & up & l & _ & Hr).
  { apply empty_as_ok; [done|rewrite E; by intros H| |].
    - intros H%Hlow. by apply Z.leb_le in H.
    - intros x Hx. rewrite Hm; [done|]. intros (q & Hq%Hlow & Hqx). unfold page3, PGSIZE in *. lia. }
  { rewrite E. by intros H. }
  { lia. }
  { by vm_compute. }
  { by intros. }
  assert (Hlen : length (fork_pages n) = n) by (unfold fork_pages, pages_from; by rewrite length_fmap, length_seq).
  change ((0 + 4095) / 4096) with 0 in Hr. change ((4096 + 4095) / 4096) with 1 in Hr.
  destruct Hr as [[_ X]|(_ & _ & Hl)]; [|lia]. pose proof (extends_length _ _ _ _ _ _ _ _ Hnd X).
  destruct (ex_new _ _ _ _ _ _ _ _ _ _ _ X 0) as (p & Ep & _ & Hz); [lia|]. exists k, pts, up, l.
  assert (Hf : vm_frame fork_base k).
  { eapply vm_frame_trans; [|apply (ex_frame _ _ _ _ _ _ _ _ _ _ _ X)]. rewrite E. exists m, h, (k_out fork_base). done. }
  destruct (fork_base_may k pts up l p) as (M & Hs & Hp); [done|apply X| |done|done| |].
  - intros q Hq. apply Hlow, (ex_free _ _ _ _ _ _ _ _ _ _ _ X). by left.
  - intros w Hw. rewrite (ex_old _ _ _ _ _ _ _ _ _ _ _ X) by lia. apply lookup_empty.
  - split; [done|]. split; [done|]. split; [done|]. split; [|split; [by eexists|lia]]. by destruct Hf as (? & ? & ? & ->).
Qed.

Lemma fork_copies_witness : exists k k' np pts up l pts' up' l',
  may_fork k 0 0 pts up l 0 /\ is_Some (up !! 0) /\ fork k [] = Done 2 k' []
  /\ child k k' 0 np /\ apart k k' 0 np pts up l pts' up' l' /\ shared k k' 0 np 0.
Proof.
  destruct (fork_machine_runs (Z.to_nat 4000)) as (k & pts & up & l & M & Hs & Hp & Hz & Hu & Hl); [lia|].
  destruct (fork_copies k 0 0 pts up l 0 [] kernel_sym_data M) as (r & k' & E & H).
  rewrite Hz in H. change ((4096 + 4095) / 4096) with 1 in H.
  destruct H as [(-> & np & pts' & up' & l' & C & A & S)|[(_ & E' & _)|(_ & Hle & _)]]; [|congruence|lia].
  rewrite Hp in E. by exists k, k', np, pts, up, l, pts', up', l'.
Defined.
