(* ===== verification/I386.v ===== *)
(** * The processor, as far as the assembly files of the kernel use it

    Registers, the 32-bit instructions of the .S files, interrupts and the return from them,
    on the byte memory.  Segments are flat (see [seginit_flat]): the address of an access is its
    offset.  A source file is a list of lines, labels and instructions; where the linker
    puts the instructions is a parameter. *)

From stdpp Require Import base gmap list strings relations.
From Stdlib Require Import ZArith Lia.
From S2P Require Import Prelude State Memory Bytes Segment Devices.

(** ** Registers *)

Inductive reg : Type := EAX | ECX | EDX | EBX | ESP | EBP | ESI | EDI.
Inductive sreg : Type := CS | DS | ES | FS | GS | SS.
Inductive creg : Type := CR0 | CR3 | CR4.

Record gpr : Type := mk_gpr {
  r_eax : Z; r_ecx : Z; r_edx : Z; r_ebx : Z; r_esp : Z; r_ebp : Z; r_esi : Z; r_edi : Z
}.

Definition get_reg (r : reg) (g : gpr) : Z :=
  match r with
  | EAX => r_eax g | ECX => r_ecx g | EDX => r_edx g | EBX => r_ebx g
  | ESP => r_esp g | EBP => r_ebp g | ESI => r_esi g | EDI => r_edi g
  end.

Definition set_reg (r : reg) (v : Z) (g : gpr) : gpr :=
  match r with
  | EAX => mk_gpr v (r_ecx g) (r_edx g) (r_ebx g) (r_esp g) (r_ebp g) (r_esi g) (r_edi g)
  | ECX => mk_gpr (r_eax g) v (r_edx g) (r_ebx g) (r_esp g) (r_ebp g) (r_esi g) (r_edi g)
  | EDX => mk_gpr (r_eax g) (r_ecx g) v (r_ebx g) (r_esp g) (r_ebp g) (r_esi g) (r_edi g)
  | EBX => mk_gpr (r_eax g) (r_ecx g) (r_edx g) v (r_esp g) (r_ebp g) (r_esi g) (r_edi g)
  | ESP => mk_gpr (r_eax g) (r_ecx g) (r_edx g) (r_ebx g) v (r_ebp g) (r_esi g) (r_edi g)
  | EBP => mk_gpr (r_eax g) (r_ecx g) (r_edx g) (r_ebx g) (r_esp g) v (r_esi g) (r_edi g)
  | ESI => mk_gpr (r_eax g) (r_ecx g) (r_edx g) (r_ebx g) (r_esp g) (r_ebp g) v (r_edi g)
  | EDI => mk_gpr (r_eax g) (r_ecx g) (r_edx g) (r_ebx g) (r_esp g) (r_ebp g) (r_esi g) v
  end.

Record segs : Type := mk_segs { s_cs : Z; s_ds : Z; s_es : Z; s_fs : Z; s_gs : Z; s_ss : Z }.

Definition get_seg (s : sreg) (g : segs) : Z :=
  match s with CS => s_cs g | DS => s_ds g | ES => s_es g | FS => s_fs g | GS => s_gs g | SS => s_ss g end.

Definition set_seg_reg (s : sreg) (v : Z) (g : segs) : segs :=
  match s with
  | CS => mk_segs v (s_ds g) (s_es g) (s_fs g) (s_gs g) (s_ss g)
  | DS => mk_segs (s_cs g) v (s_es g) (s_fs g) (s_gs g) (s_ss g)
  | ES => mk_segs (s_cs g) (s_ds g) v (s_fs g) (s_gs g) (s_ss g)
  | FS => mk_segs (s_cs g) (s_ds g) (s_es g) v (s_gs g) (s_ss g)
  | GS => mk_segs (s_cs g) (s_ds g) (s_es g) (s_fs g) v (s_ss g)
  | SS => mk_segs (s_cs g) (s_ds g) (s_es g) (s_fs g) (s_gs g) v
  end.

Record cregs : Type := mk_cregs { c_cr0 : Z; c_cr3 : Z; c_cr4 : Z }.

Definition get_creg (c : creg) (g : cregs) : Z := match c with CR0 => c_cr0 g | CR3 => c_cr3 g | CR4 => c_cr4 g end.

Definition set_creg (c : creg) (v : Z) (g : cregs) : cregs :=
  match c with
  | CR0 => mk_cregs v (c_cr3 g) (c_cr4 g)
  | CR3 => mk_cregs (c_cr0 g) v (c_cr4 g)
  | CR4 => mk_cregs (c_cr0 g) (c_cr3 g) v
  end.

(** The tables the processor reads: the segments, the gates and the kernel stack of the task state
    segment; the accesses to the ports, latest first. *)
Record machine : Type := mk_machine {
  m_gp : gpr;
  m_sg : segs;
  m_cr : cregs;
  m_eip : Z;
  m_eflags : Z;
  m_gdt : gmap Z segdesc;
  m_idt : gmap Z gatedesc;
  m_ss0 : Z;
  m_esp0 : Z;
  m_mem : gmap Z Z;
  m_io : list io_event
}.

Definition set_gp (g : gpr) (m : machine) : machine :=
  mk_machine g (m_sg m) (m_cr m) (m_eip m) (m_eflags m) (m_gdt m) (m_idt m) (m_ss0 m) (m_esp0 m) (m_mem m) (m_io m).
Definition set_sg (g : segs) (m : machine) : machine :=
  mk_machine (m_gp m) g (m_cr m) (m_eip m) (m_eflags m) (m_gdt m) (m_idt m) (m_ss0 m) (m_esp0 m) (m_mem m) (m_io m).
Definition set_cr (g : cregs) (m : machine) : machine :=
  mk_machine (m_gp m) (m_sg m) g (m_eip m) (m_eflags m) (m_gdt m) (m_idt m) (m_ss0 m) (m_esp0 m) (m_mem m) (m_io m).
Definition set_eip (v : Z) (m : machine) : machine :=
  mk_machine (m_gp m) (m_sg m) (m_cr m) v (m_eflags m) (m_gdt m) (m_idt m) (m_ss0 m) (m_esp0 m) (m_mem m) (m_io m).
Definition set_eflags (v : Z) (m : machine) : machine :=
  mk_machine (m_gp m) (m_sg m) (m_cr m) (m_eip m) v (m_gdt m) (m_idt m) (m_ss0 m) (m_esp0 m) (m_mem m) (m_io m).
Definition set_m_gdt (v : gmap Z segdesc) (m : machine) : machine :=
  mk_machine (m_gp m) (m_sg m) (m_cr m) (m_eip m) (m_eflags m) v (m_idt m) (m_ss0 m) (m_esp0 m) (m_mem m) (m_io m).
Definition set_mem (v : gmap Z Z) (m : machine) : machine :=
  mk_machine (m_gp m) (m_sg m) (m_cr m) (m_eip m) (m_eflags m) (m_gdt m) (m_idt m) (m_ss0 m) (m_esp0 m) v (m_io m).
Definition set_io (v : list io_event) (m : machine) : machine :=
  mk_machine (m_gp m) (m_sg m) (m_cr m) (m_eip m) (m_eflags m) (m_gdt m) (m_idt m) (m_ss0 m) (m_esp0 m) (m_mem m) v.

Definition put_reg (r : reg) (v : Z) (m : machine) : machine := set_gp (set_reg r v (m_gp m)) m.
Definition put_seg (s : sreg) (v : Z) (m : machine) : machine := set_sg (set_seg_reg s v (m_sg m)) m.

(** ** Instructions, in the order of operands of the assembler *)

(** A number, or the address of a symbol plus a number. *)
Inductive value : Type := Num (z : Z) | Sym (s : string) (off : Z).

Inductive operand : Type :=
| imm (v : value)
| r32 (r : reg) | r16 (r : reg) | r8 (r : reg)
| sr (s : sreg)
| cr (c : creg)
| at_reg (disp : Z) (r : reg)
| at_sym (v : value).

Inductive instr : Type :=
| mov (src dst : operand)
| pushl (src : operand) | popl (dst : operand) | pushal | popal
| addl (v : Z) (r : reg) | orl (v : Z) (r : reg) | xorw (src dst : reg)
| testb (v : Z) (r : reg) | jnz (l : string)
| jmp (l : string) | jmp_to (o : operand) | ljmp (sel : Z) (l : string)
| call (l : string) | call_to (o : operand) | ret_ | iret | int (n : Z)
| inb_al (port : Z) | outb_al (port : Z) | outw_dx
| cli_ | lgdt_ (l : string).

Inductive line : Type := Label (l : string) | Ins (i : instr).

(** ** What the instructions do *)

(** What the manuals leave open: whether pushing a selector clears the upper half of the word or leaves
    it alone, and the auxiliary carry after a logical operation. *)
Class Processor : Type := {
  sel_zext : bool;
  aux_logic : Z -> bool
}.

(** Where the linker puts the instructions of a program, and the symbols that are not in it. *)
Class Layout : Type := {
  place : nat -> Z;
  extern : string -> Z
}.

Definition text (prog : list line) : list instr := omap (fun l => match l with Ins i => Some i | Label _ => None end) prog.

(** The number of instructions before a label. *)
Fixpoint where_from (n : nat) (prog : list line) (l : string) : option nat :=
  match prog with
  | [] => None
  | Label l' :: prog => if bool_decide (l' = l) then Some n else where_from n prog l
  | Ins _ :: prog => where_from (S n) prog l
  end.
Definition where_is : list line -> string -> option nat := where_from 0.

Definition set_flag (n : Z) (b : bool) (fl : Z) : Z := if b then Z.setbit fl n else Z.clearbit fl n.

(** The status flags after an operation with the result [r] whose highest bit is [top]. *)
Definition even_parity (r : Z) : bool := negb (foldr xorb false (Z.testbit r <$> seqZ 0 8)).
Definition status (top : Z) (cf af ovf : bool) (r fl : Z) : Z :=
  set_flag 0 cf (set_flag 2 (even_parity r) (set_flag 4 af (set_flag 6 (r =? 0) (set_flag 7 (Z.testbit r top) (set_flag 11 ovf fl))))).

Definition esp (m : machine) : Z := r_esp (m_gp m).
Definition cpl (m : machine) : Z := Z.land (s_cs (m_sg m)) 3.

Definition push (v : Z) (m : machine) : machine :=
  let sp := u32 (esp m - 4) in set_mem (store32 sp v (m_mem m)) (put_reg ESP sp m).
Definition push_gprs (m : machine) : machine :=
  let g := m_gp m in
  push (r_edi g) (push (r_esi g) (push (r_ebp g) (push (r_esp g) (push (r_ebx g) (push (r_edx g) (push (r_ecx g) (push (r_eax g) m))))))).
Definition top (m : machine) : Z := load32 (m_mem m) (esp m).
Definition drop_word (m : machine) : machine := put_reg ESP (u32 (esp m + 4)) m.

(** The bytes of a segment descriptor. *)
Definition decode_seg (l : list Z) : segdesc :=
  let b i := default 0 (l !! Z.to_nat i) in
  mk_segdesc (b 0 + 256 * b 1) (b 2 + 256 * b 3) (b 4) (Z.land (b 5) 15) (Z.land (Z.shiftr (b 5) 4) 1) (Z.land (Z.shiftr (b 5) 5) 3)
    (Z.shiftr (b 5) 7) (Z.land (b 6) 15) (Z.land (Z.shiftr (b 6) 4) 1) (Z.land (Z.shiftr (b 6) 5) 1) (Z.land (Z.shiftr (b 6) 6) 1)
    (Z.shiftr (b 6) 7) (b 7).

Definition read_gdt (mem : gmap Z Z) (limit base : Z) : gmap Z segdesc :=
  list_to_map ((fun i => (i, decode_seg (load_bytes mem (base + 8 * i) 8))) <$> seqZ 0 ((limit + 1) / 8)).

(** The privilege level of a segment. *)
Definition seg_dpl (m : machine) (sel : Z) : Z := match m_gdt m !! (sel / 8) with Some d => sd_dpl d | None => 0 end.

Section Processor.
Context {HW : Hardware} {CPU : Processor}.

Definition sel_word (sel old : Z) : Z := if sel_zext then sel else sel + 2 ^ 16 * (u32 old / 2 ^ 16).
Definition push_sel (sel : Z) (m : machine) : machine := push (sel_word sel (load32 (m_mem m) (u32 (esp m - 4)))) m.

(** ** Interrupts

    An exception or interrupt [n], or, if [soft], the instruction [int n]; [err] is the error code
    that the processor pushes for some exceptions.  [None] is a further exception. *)
Definition enter_stack (m : machine) : machine :=
  push (esp m) (push_sel (s_ss (m_sg m)) (put_reg ESP (m_esp0 m) (put_seg SS (m_ss0 m) m))).

Definition masked (g : gatedesc) (fl : Z) : Z :=
  let fl := set_flag 8 false (set_flag 14 false (set_flag 16 false (set_flag 17 false fl))) in
  if gd_type g =? STS_IG32 then set_flag 9 false fl else fl.

Definition interrupt (soft : bool) (n : Z) (err : option Z) (m : machine) : option machine :=
  g ← m_idt m !! n;
  if negb (gd_p g =? 1) || soft && (gd_dpl g <? cpl m) then None else
  let level := seg_dpl m (gd_cs g) in
  let m1 := if level <? cpl m then enter_stack m else m in
  let m2 := push (m_eip m) (push_sel (s_cs (m_sg m)) (push (m_eflags m) m1)) in
  let m3 := match err with Some e => push e m2 | None => m2 end in
  Some (set_eip (gate_offset g) (put_seg CS (Z.land (gd_cs g) 0xfff8 + level) (set_eflags (masked g (m_eflags m)) m3))).

(** On the way to a less privileged level the processor clears the data segments that are not accessible there. *)
Definition leave_seg (m : machine) (level sel : Z) : Z :=
  if sel <? 4 then sel else if seg_dpl m sel <? level then 0 else sel.
Definition leave_segs (level : Z) (m : machine) : machine :=
  let g := m_sg m in
  set_sg (mk_segs (s_cs g) (leave_seg m level (s_ds g)) (leave_seg m level (s_es g)) (leave_seg m level (s_fs g)) (leave_seg m level (s_gs g)) (s_ss g)) m.

Definition do_iret (m : machine) : option machine :=
  let eip := top m in
  let m1 := drop_word m in let cs := u16 (top m1) in
  let m2 := drop_word m1 in let fl := top m2 in
  let m3 := drop_word m2 in
  let level := Z.land cs 3 in
  let done m := set_eip eip (put_seg CS cs (set_eflags fl m)) in
  if level <? cpl m then None
  else if cpl m <? level then
    let m4 := drop_word m3 in
    Some (leave_segs level (done (put_reg ESP (top m3) (put_seg SS (u16 (top m4)) m4))))
  else Some (done m3).

(** ** The program *)

Context {LAY : Layout}.
Variable prog : list line.

Definition symbol (l : string) : Z := match where_is prog l with Some n => place n | None => extern l end.
Definition value_of (v : value) : Z := match v with Num z => u32 z | Sym s off => u32 (symbol s + off) end.

Definition read (o : operand) (m : machine) : option Z :=
  match o with
  | imm v => Some (value_of v)
  | r32 r => Some (get_reg r (m_gp m))
  | r16 r => Some (u16 (get_reg r (m_gp m)))
  | r8 r => Some (u8 (get_reg r (m_gp m)))
  | sr s => Some (get_seg s (m_sg m))
  | cr c => if cpl m =? 0 then Some (get_creg c (m_cr m)) else None
  | at_reg disp r => Some (load32 (m_mem m) (u32 (get_reg r (m_gp m) + disp)))
  | at_sym v => Some (load32 (m_mem m) (value_of v))
  end.

Definition write (o : operand) (v : Z) (m : machine) : option machine :=
  match o with
  | imm _ => None
  | r32 r => Some (put_reg r v m)
  | r16 r => let old := get_reg r (m_gp m) in Some (put_reg r (old - u16 old + u16 v) m)
  | r8 r => let old := get_reg r (m_gp m) in Some (put_reg r (old - u8 old + u8 v) m)
  | sr CS => None
  | sr s => Some (put_seg s (u16 v) m)
  | cr c => if cpl m =? 0 then Some (set_cr (set_creg c v (m_cr m)) m) else None
  | at_reg disp r => Some (set_mem (store32 (u32 (get_reg r (m_gp m) + disp)) v (m_mem m)) m)
  | at_sym a => Some (set_mem (store32 (value_of a) v (m_mem m)) m)
  end.

Definition logged (ev : io_event) (m : machine) : machine := set_io (ev :: m_io m) m.

Definition privileged (m : machine) (r : machine) : option machine := if cpl m =? 0 then Some r else None.

(** One instruction; [eip] is already that of the next one. *)
Definition exec (i : instr) (m : machine) : option machine :=
  let eax := r_eax (m_gp m) in
  match i with
  | mov src dst => v ← read src m; write dst v m
  | pushl (sr s) => Some (push_sel (get_seg s (m_sg m)) m)
  | pushl src => v ← read src m; Some (push v m)
  | popl dst => write dst (top m) (drop_word m)
  | pushal => Some (push_gprs m)
  | popal =>
      let w i := load32 (m_mem m) (u32 (esp m + 4 * i)) in
      Some (set_gp (mk_gpr (w 7) (w 6) (w 5) (w 4) (u32 (esp m + 32)) (w 2) (w 1) (w 0)) m)
  | addl v r =>
      let a := get_reg r (m_gp m) in let b := u32 v in let s := u32 (a + b) in
      let ovf := Bool.eqb (Z.testbit a 31) (Z.testbit b 31) && negb (Bool.eqb (Z.testbit s 31) (Z.testbit a 31)) in
      Some (put_reg r s (set_eflags (status 31 (2 ^ 32 <=? a + b) (16 <=? a mod 16 + b mod 16) ovf s (m_eflags m)) m))
  | orl v r =>
      let s := Z.lor (get_reg r (m_gp m)) (u32 v) in
      Some (put_reg r s (set_eflags (status 31 false (aux_logic s) false s (m_eflags m)) m))
  | xorw src dst =>
      let s := Z.lxor (u16 (get_reg src (m_gp m))) (u16 (get_reg dst (m_gp m))) in
      write (r16 dst) s (set_eflags (status 15 false (aux_logic s) false s (m_eflags m)) m)
  | testb v r =>
      let s := Z.land (u8 (get_reg r (m_gp m))) v in
      Some (set_eflags (status 7 false (aux_logic s) false s (m_eflags m)) m)
  | jnz l => Some (if Z.testbit (m_eflags m) 6 then m else set_eip (symbol l) m)
  | jmp l => Some (set_eip (symbol l) m)
  | jmp_to o => v ← read o m; Some (set_eip v m)
  | ljmp sel l => Some (set_eip (symbol l) (put_seg CS sel m))
  | call l => Some (set_eip (symbol l) (push (m_eip m) m))
  | call_to o => v ← read o m; Some (set_eip v (push (m_eip m) m))
  | ret_ => Some (set_eip (top m) (drop_word m))
  | iret => do_iret m
  | int n => interrupt true n None m
  | inb_al port =>
      let v := u8 (hw_in (m_io m) port) in
      privileged m (logged (Port_in port v) (put_reg EAX (eax - u8 eax + v) m))
  | outb_al port => privileged m (logged (Port_out port (u8 eax)) m)
  | outw_dx => privileged m (logged (Port_out (u16 (r_edx (m_gp m))) (u16 eax)) m)
  | cli_ => privileged m (set_eflags (set_flag 9 false (m_eflags m)) m)
  | lgdt_ l =>
      let a := symbol l in
      let base := le_val (load_bytes (m_mem m) (a + 2) 3) in
      privileged m (set_m_gdt (read_gdt (m_mem m) (le_val (load_bytes (m_mem m) a 2)) base) m)
  end.

Definition fetch (a : Z) : option (nat * instr) :=
  n ← first_index (fun n => place n =? a) (seq 0 (length (text prog)));
  i ← text prog !! n;
  Some (n, i).

Definition step (m : machine) : option machine :=
  '(n, i) ← fetch (m_eip m);
  exec i (set_eip (place (S n)) m).

Definition steps : machine -> machine -> Prop := rtc (fun m m' => step m = Some m').

(** ** Running *)

#[export] Instance steps_preorder : PreOrder steps.
Proof. unfold steps. apply _. Qed.

(** The instructions lie at different addresses, inside the address space. *)
Record layout_ok : Prop := {
  lay_inj : forall i j, (i < length (text prog))%nat -> (j < length (text prog))%nat -> place i = place j -> i = j;
  lay_range : forall n, 0 <= place n < 2 ^ 32
}.

Lemma fetch_place n i : layout_ok -> text prog !! n = Some i -> fetch (place n) = Some (n, i).
Proof.
  intros LO Hi. assert (Hn : (n < length (text prog))%nat) by by eapply lookup_lt_Some.
  unfold fetch. destruct (first_index _ _) as [j|] eqn:E.
  - apply first_index_Some in E as (x & Hx & Ex & _). apply lookup_seq in Hx as [-> Hj]. apply Z.eqb_eq in Ex. simpl in *.
    apply (lay_inj LO) in Ex as ->; [|done..]. by rewrite Hi.
  - apply first_index_None in E. rewrite Forall_forall in E. specialize (E n). rewrite Z.eqb_refl in E.
    discriminate E. apply elem_of_seq. lia.
Qed.

Lemma step_at n i m : layout_ok -> text prog !! n = Some i -> m_eip m = place n -> step m = exec i (set_eip (place (S n)) m).
Proof. intros LO Hi He. unfold step. rewrite He. by rewrite (fetch_place n i LO Hi). Qed.

(** The instructions [l] lie from position [n] on. *)
Definition code_at (n : nat) (l : list instr) : Prop := forall j i, l !! j = Some i -> text prog !! (n + j)%nat = Some i.

Fixpoint block (n : nat) (l : list instr) (m : machine) : option machine :=
  match l with
  | [] => Some m
  | i :: l => m' ← exec i (set_eip (place (S n)) m); block (S n) l m'
  end.

(** The next instruction is the one that follows in the text. *)
Definition straight (i : instr) : bool :=
  match i with
  | jnz _ | jmp _ | jmp_to _ | ljmp _ _ | call _ | call_to _ | ret_ | iret | int _ => false
  | _ => true
  end.

Lemma write_eip o v m m' : write o v m = Some m' -> m_eip m' = m_eip m.
Proof.
  destruct o as [| | | |s|c| |]; simpl; try (intros [= <-]; done); [destruct s; intros E; by simplify_eq|].
  destruct (cpl m =? 0); intros E; by simplify_eq.
Qed.

Lemma exec_straight i m m' : straight i = true -> exec i m = Some m' -> m_eip m' = m_eip m.
Proof.
  intros Hs. destruct i as [src dst|src|dst| | | | | | | | | | | | | | | | | | | |]; try discriminate Hs; cbn [exec];
    try (unfold privileged; destruct (cpl m =? 0); intros E; by simplify_eq).
  - destruct (read src m) as [v|]; [|done]. apply write_eip.
  - destruct src as [| | | |s|c| |]; cbn [read mbind option_bind]; try (intros [= <-]; done). destruct (cpl m =? 0); intros E; by simplify_option_eq.
  - intros ->%write_eip. done.
  - intros ->%write_eip. done.
Qed.

Lemma code_at_cons n i l : code_at n (i :: l) -> text prog !! n = Some i /\ code_at (S n) l.
Proof.
  intros H. split; [rewrite <- (Nat.add_0_r n); by apply H|]. intros j i' Hj. rewrite <- (H (S j) i' Hj). f_equal. lia.
Qed.

(** A block whose instructions, up to the last, go on with the next one. *)
Lemma block_steps l : forall n m m', layout_ok -> code_at n l -> forallb straight (take (pred (length l)) l) = true ->
  m_eip m = place n -> block n l m = Some m' -> steps m m'.
Proof.
  induction l as [|i l IH]; intros n m m' LO Hc Hs He; [intros [= <-]; apply rtc_refl|]. cbn [block].
  destruct (code_at_cons _ _ _ Hc) as [Hi Hc']. destruct (exec i (set_eip (place (S n)) m)) as [m1|] eqn:E1; [|done]. cbn [mbind option_bind].
  intros E. eapply rtc_l; [rewrite (step_at n i m LO Hi He); exact E1|]. destruct l as [|i' l].
  - simpl in E. simplify_eq. apply rtc_refl.
  - cbn [length pred take forallb] in Hs. apply andb_prop in Hs as [Hsi Hs]. apply (IH (S n)); [done|done|exact Hs| |done].
    by rewrite (exec_straight _ _ _ Hsi E1).
Qed.

Lemma block_app l l' : forall n m, block n (l ++ l') m = m' ← block n l m; block (length l + n) l' m'.
Proof.
  induction l as [|i l IH]; intros n m; [done|]. cbn [app block length]. destruct (exec i _) as [m1|]; [|done]. cbn [mbind option_bind].
  rewrite IH. by replace (S (length l) + n)%nat with (length l + S n)%nat by lia.
Qed.

Lemma straight_eip l : forall n m m', forallb straight l = true -> m_eip m = place n -> block n l m = Some m' -> m_eip m' = place (n + length l).
Proof.
  induction l as [|i l IH]; intros n m m' Hs He; [intros [= <-]; by rewrite Nat.add_0_r|]. cbn [block forallb] in *.
  apply andb_prop in Hs as [Hi Hs]. destruct (exec i _) as [m1|] eqn:E1; [|done]. intros E.
  rewrite (IH (S n) m1 m' Hs); [f_equal; simpl; lia| |done]. by rewrite (exec_straight _ _ _ Hi E1).
Qed.

End Processor.

(** ** The stack

    [n] words of memory from [a] on. *)
Definition words (mem : gmap Z Z) (a : Z) (n : nat) : list Z := (fun i => load32 mem (a + 4 * Z.of_nat i)) <$> seq 0 n.

Lemma words_S mem a n : words mem a (S n) = load32 mem a :: words mem (a + 4) n.
Proof.
  unfold words. rewrite <- cons_seq, fmap_cons. f_equal; [f_equal; lia|]. rewrite <- fmap_S_seq, <- list_fmap_compose.
  apply list_fmap_ext. intros j x _. simpl. f_equal. lia.
Qed.

Lemma words_ext mem mem' a n : (forall x, a <= x < a + 4 * Z.of_nat n -> load8 mem x = load8 mem' x) -> words mem a n = words mem' a n.
Proof.
  intros H. apply list_fmap_ext. intros j x [-> Hx]%lookup_seq. apply load32_ext. intros y Hy. apply H. lia.
Qed.

Lemma words_lookup mem a n l i : words mem a n = l -> (i < n)%nat -> load32 mem (a + 4 * Z.of_nat i) = default 0 (l !! i).
Proof.
  intros <- Hi. unfold words. rewrite list_lookup_fmap. by rewrite (proj2 (lookup_seq 0 n i i)) by (split; [done|lia]).
Qed.

Lemma load8_store32_out m a v x : ~ (a <= x < a + 4) -> load8 (store32 a v m) x = load8 m x.
Proof. intros. apply load8_store_bytes_out. rewrite length_le_bytes. lia. Qed.

(** From [m] to [m'] the words [ws] have been pushed, the last one at the head of the list. *)
Record pushed (ws : list Z) (m m' : machine) : Prop := {
  pd_esp : esp m' = esp m - 4 * Z.of_nat (length ws);
  pd_words : forall n, words (m_mem m') (esp m') (length ws + n) = ws ++ words (m_mem m) (esp m) n;
  pd_mem : forall x, ~ (esp m' <= x < esp m) -> load8 (m_mem m') x = load8 (m_mem m) x
}.

Definition is_word (v : Z) : Prop := 0 <= v < 2 ^ 32.
Definition is_half (v : Z) : Prop := 0 <= v < 2 ^ 16.

(** There is room for [n] words below the stack pointer. *)
Definition room (n : Z) (m : machine) : Prop := 4 * n <= esp m < 2 ^ 32.

Lemma pushed_nil m : pushed [] m m.
Proof. split; [simpl; lia|done|done]. Qed.

Lemma pushed_ext ws m m' m'' : pushed ws m m' -> esp m'' = esp m' -> m_mem m'' = m_mem m' -> pushed ws m m''.
Proof. intros [E W M] Es Em. split; rewrite ?Es, ?Em; done. Qed.

Lemma pushed_trans ws ws' m m' m'' : pushed ws m m' -> pushed ws' m' m'' -> pushed (ws' ++ ws) m m''.
Proof.
  intros [E1 W1 M1] [E2 W2 M2]. split; rewrite ?length_app.
  - lia.
  - intros n. rewrite <- Nat.add_assoc, W2, W1. by rewrite app_assoc.
  - intros x Hx. rewrite M2, M1 by lia. done.
Qed.

Lemma pushed_push v m : room 1 m -> is_word v -> pushed [v] m (push v m).
Proof.
  intros Hr Hv. unfold room in Hr. assert (E : esp (push v m) = esp m - 4) by (change (esp (push v m)) with (u32 (esp m - 4)); apply u32_small; lia).
  assert (Em : m_mem (push v m) = store32 (esp m - 4) v (m_mem m)) by (rewrite <- E; done).
  split; rewrite ?E, ?Em; [done| |].
  - intros n. rewrite words_S. simpl. f_equal; [rewrite load32_store32_same; by apply u32_small|].
    replace (esp m - 4 + 4) with (esp m) by lia. apply words_ext. intros x Hx. apply load8_store32_out. lia.
  - intros x Hx. apply load8_store32_out. lia.
Qed.

Lemma pushed_next ws v m m' : room (Z.of_nat (length ws) + 1) m -> pushed ws m m' -> is_word v -> pushed (v :: ws) m (push v m').
Proof.
  intros Hr P Hv. apply (pushed_trans ws [v] m m'); [done|]. apply pushed_push; [|done]. unfold room in *. rewrite (pd_esp _ _ _ P). lia.
Qed.

Lemma sel_word_spec `{Processor} sel old : is_half sel -> is_word (sel_word sel old) /\ u16 (sel_word sel old) = sel.
Proof.
  unfold is_half, is_word, sel_word, u16. intros Hs. destruct sel_zext; [rewrite Z.mod_small by lia; lia|].
  pose proof (u32_bounds old). change (2 ^ 32) with 4294967296 in *. change (2 ^ 16) with 65536 in *.
  assert (0 <= u32 old / 65536 < 65536) by div_lia. split; [lia|]. rewrite Z.mul_comm, Z_mod_plus_full. apply Z.mod_small. lia.
Qed.

Lemma pushed_sel `{Processor} ws sel m m' : room (Z.of_nat (length ws) + 1) m -> pushed ws m m' -> is_half sel ->
  exists w, is_word w /\ u16 w = sel /\ pushed (w :: ws) m (push_sel sel m').
Proof.
  intros Hr P Hs. destruct (sel_word_spec sel (load32 (m_mem m') (u32 (esp m' - 4))) Hs) as [H1 H2].
  eexists. split; [exact H1|]. split; [exact H2|]. by apply pushed_next.
Qed.
