(* ===== verification/Asm.v ===== *)
(** * Context switch, trap entry and exit, system call stubs

    swtch.S, trapasm.S, the entry points that vectors.pl generates, usys.S and initcode.S,
    instruction by instruction, and what they do: [swtch] suspends a thread of the
    kernel and resumes another, an interrupt saves the interrupted program in a trap frame and
    the return from it restores the program, a new process starts with the registers of its trap frame. *)

From stdpp Require Import base gmap list strings relations pretty.
From Stdlib Require Import ZArith Lia.
From S2P Require Import Prelude State Memory Bytes Segment Devices I386 Kalloc Fs Proc ForkSpec.

#[global] Instance value_eq_dec : EqDecision value.
Proof. solve_decision. Defined.
#[global] Instance reg_eq_dec : EqDecision reg.
Proof. solve_decision. Defined.
#[global] Instance sreg_eq_dec : EqDecision sreg.
Proof. solve_decision. Defined.
#[global] Instance creg_eq_dec : EqDecision creg.
Proof. solve_decision. Defined.
#[global] Instance operand_eq_dec : EqDecision operand.
Proof. solve_decision. Defined.
#[global] Instance instr_eq_dec : EqDecision instr.
Proof. solve_decision. Defined.

(** ** The files *)

Definition swtch_S : list line :=
  [Label "swtch";
   Ins (mov (at_reg 4 ESP) (r32 EAX));
   Ins (mov (at_reg 8 ESP) (r32 EDX));
   Ins (pushl (r32 EBP));
   Ins (pushl (r32 EBX));
   Ins (pushl (r32 ESI));
   Ins (pushl (r32 EDI));
   Ins (mov (r32 ESP) (at_reg 0 EAX));
   Ins (mov (r32 EDX) (r32 ESP));
   Ins (popl (r32 EDI));
   Ins (popl (r32 ESI));
   Ins (popl (r32 EBX));
   Ins (popl (r32 EBP));
   Ins ret_].

Definition trapasm_S : list line :=
  [Label "alltraps";
   Ins (pushl (sr DS));
   Ins (pushl (sr ES));
   Ins (pushl (sr FS));
   Ins (pushl (sr GS));
   Ins pushal;
   Ins (mov (imm (Num (Z.shiftl SEG_KDATA 3))) (r16 EAX));
   Ins (mov (r16 EAX) (sr DS));
   Ins (mov (r16 EAX) (sr ES));
   Ins (pushl (r32 ESP));
   Ins (call "trap");
   Ins (addl 4 ESP);
   Label "trapret";
   Ins popal;
   Ins (popl (sr GS));
   Ins (popl (sr FS));
   Ins (popl (sr ES));
   Ins (popl (sr DS));
   Ins (addl 0x8 ESP);
   Ins iret].

(** The entry point of interrupt [i] that vectors.pl prints. *)
Definition vector_label (i : Z) : string := ("vector" +:+ pretty i)%string.
Definition has_errcode (i : Z) : bool := (i =? 8) || (10 <=? i) && (i <=? 14) || (i =? 17).
Definition vector_code (i : Z) : list line :=
  (if has_errcode i then [] else [Ins (pushl (imm (Num 0)))]) ++ [Ins (pushl (imm (Num i))); Ins (jmp "alltraps")].
Definition vectors_S : list line := seqZ 0 256 ≫= (fun i => Label (vector_label i) :: vector_code i).

(** The macro of usys.S. *)
Definition SYSCALL (name : string) (n : Z) : list line :=
  [Label name; Ins (mov (imm (Num n)) (r32 EAX)); Ins (int T_SYSCALL); Ins ret_].

(** The numbers of syscall.h, and usys.S. *)
Definition syscall_numbers : list (string * Z) :=
  [("fork", 1); ("exit", 2); ("wait", 3); ("pipe", 4); ("read", 5); ("kill", 6); ("exec", 7); ("fstat", 8); ("chdir", 9); ("dup", 10);
   ("getpid", 11); ("sbrk", 12); ("sleep", 13); ("uptime", 14); ("open", 15); ("write", 16); ("mknod", 17); ("unlink", 18); ("link", 19);
   ("mkdir", 20); ("close", 21); ("cps", 22); ("shm_alloc", 23); ("describe", 24)]%string.
Definition SYS (name : string) : Z := default 0 (list_to_map (M := gmap string Z) syscall_numbers !! name).

Definition usys_names : list string :=
  ["fork"; "exit"; "wait"; "pipe"; "read"; "write"; "close"; "kill"; "exec"; "open"; "mknod"; "unlink"; "fstat"; "link"; "mkdir"; "chdir";
   "dup"; "getpid"; "sbrk"; "sleep"; "uptime"; "cps"; "shm_alloc"; "describe"]%string.
Definition usys_S : list line := usys_names ≫= (fun name => SYSCALL name (SYS name)).

Definition initcode_S : list line :=
  [Label "start";
   Ins (pushl (imm (Sym "argv" 0)));
   Ins (pushl (imm (Sym "init" 0)));
   Ins (pushl (imm (Num 0)));
   Ins (mov (imm (Num (SYS "exec"))) (r32 EAX));
   Ins (int T_SYSCALL);
   Label "exit";
   Ins (mov (imm (Num (SYS "exit"))) (r32 EAX));
   Ins (int T_SYSCALL);
   Ins (jmp "exit")].

Definition CR4_PSE : Z := 0x10.
Definition CR0_PE : Z := 0x1.
Definition CR0_WP : Z := 0x10000.
Definition CR0_PG : Z := 0x80000000.

Definition entry_S : list line :=
  [Label "entry";
   Ins (mov (cr CR4) (r32 EAX));
   Ins (orl CR4_PSE EAX);
   Ins (mov (r32 EAX) (cr CR4));
   Ins (mov (imm (Sym "entrypgdir" (- KERNBASE))) (r32 EAX));
   Ins (mov (r32 EAX) (cr CR3));
   Ins (mov (cr CR0) (r32 EAX));
   Ins (orl (Z.lor CR0_PG CR0_WP) EAX);
   Ins (mov (r32 EAX) (cr CR0));
   Ins (mov (imm (Sym "stack" KSTACKSIZE)) (r32 ESP));
   Ins (mov (imm (Sym "main" 0)) (r32 EAX));
   Ins (jmp_to (r32 EAX))].

(** The assembly of the kernel, in the order in which it is linked. *)
Definition kernel_S : list line := entry_S ++ swtch_S ++ trapasm_S ++ vectors_S.

(** ** Where the code lies

    While a process runs, its program is mapped together with the kernel: [user] is the
    assembly of the program. *)

Lemma text_app p q : text (p ++ q) = text p ++ text q.
Proof. apply omap_app. Qed.

Lemma where_from_app p q l : forall n, where_from n (p ++ q) l =
  match where_from n p l with Some k => Some k | None => where_from (n + length (text p)) q l end.
Proof.
  induction p as [|[l'|i] p IH]; intros n; simpl.
  - by rewrite Nat.add_0_r.
  - rewrite IH. by destruct (bool_decide (l' = l)).
  - rewrite IH. by replace (S n + length (text p))%nat with (n + S (length (text p)))%nat by lia.
Qed.

(** The position of a label of the kernel, and the instructions there. *)
Definition kernel_code (l : string) (n : nat) (is_ : list instr) : bool :=
  bool_decide (where_is kernel_S l = Some n /\ take (length is_) (drop n (text kernel_S)) = is_).

Lemma code_at_prefix prog n is_ rest : drop n (text prog) = is_ ++ rest -> code_at prog n is_.
Proof. intros E j i Hj. rewrite <- lookup_drop, E. by apply lookup_app_l_Some. Qed.

Lemma code_at_kernel user n is_ : take (length is_) (drop n (text kernel_S)) = is_ -> code_at (kernel_S ++ user) n is_.
Proof.
  intros E j i Hj. rewrite text_app. apply lookup_app_l_Some. rewrite <- lookup_drop. rewrite <- E in Hj. by apply lookup_take_Some in Hj as [Hj _].
Qed.

Lemma kernel_code_spec user l n is_ : kernel_code l n is_ = true -> where_is (kernel_S ++ user) l = Some n /\ code_at (kernel_S ++ user) n is_.
Proof.
  intros [Hw Ht]%bool_decide_eq_true. split; [|by apply code_at_kernel]. unfold where_is in *. by rewrite where_from_app, Hw.
Qed.

Definition swtch_pos : nat := 11.
Definition alltraps_pos : nat := 24.
Definition trapret_pos : nat := 35.

Lemma swtch_code : kernel_code "swtch" swtch_pos (text swtch_S) = true.
Proof. vm_compute. reflexivity. Qed.
Lemma alltraps_code : kernel_code "alltraps" alltraps_pos (text trapasm_S) = true.
Proof. vm_compute. reflexivity. Qed.
Lemma trapret_code : kernel_code "trapret" trapret_pos (drop 11 (text trapasm_S)) = true.
Proof. vm_compute. reflexivity. Qed.

Definition vector_pos (i : Z) : nat := default 0%nat (where_is kernel_S (vector_label i)).
Lemma vectors_code : forallb (fun i => kernel_code (vector_label i) (vector_pos i) (text (vector_code i))) (seqZ 0 256) = true.
Proof. vm_compute. reflexivity. Qed.

(** The structures that the assembly builds: [struct context] of proc.h and [struct trapframe] of x86.h. *)
Definition context_at (mem : gmap Z Z) (p : Z) : context :=
  mk_context (load32 mem p) (load32 mem (p + 4)) (load32 mem (p + 8)) (load32 mem (p + 12)) (load32 mem (p + 16)).

Definition frame_at (mem : gmap Z Z) (p : Z) : trapframe :=
  let w i := load32 mem (p + 4 * i) in
  mk_trapframe (w 0) (w 1) (w 2) (w 3) (w 4) (w 5) (w 6) (w 7) (u16 (w 8)) (u16 (w 9)) (u16 (w 10)) (u16 (w 11))
    (w 12) (w 13) (w 14) (u16 (w 15)) (w 16) (w 17) (u16 (w 18)).

Lemma context_at_words mem p c : words mem p 5 = [ctx_edi c; ctx_esi c; ctx_ebx c; ctx_ebp c; ctx_eip c] <-> context_at mem p = c.
Proof.
  rewrite !words_S. unfold context_at. change (words _ _ 0) with (@nil Z).
  replace (p + 4 + 4) with (p + 8) by lia. replace (p + 8 + 4) with (p + 12) by lia. replace (p + 12 + 4) with (p + 16) by lia.
  destruct c. simpl. split; [intros E; by simplify_eq|intros E; by simplify_eq].
Qed.

(** The first 17 words of a trap frame; the last two are there only when the processor came from user mode. *)
Lemma frame_at_words mem p w0 w1 w2 w3 w4 w5 w6 w7 w8 w9 w10 w11 w12 w13 w14 w15 w16 rest n :
  words mem p (17 + n) = [w0; w1; w2; w3; w4; w5; w6; w7; w8; w9; w10; w11; w12; w13; w14; w15; w16] ++ rest ->
  frame_at mem p = mk_trapframe w0 w1 w2 w3 w4 w5 w6 w7 (u16 w8) (u16 w9) (u16 w10) (u16 w11) w12 w13 w14 (u16 w15) w16
                     (load32 mem (p + 68)) (u16 (load32 mem (p + 72))).
Proof.
  intros E. set (l := _ ++ rest) in E.
  assert (W : forall i, 0 <= i < 17 -> load32 mem (p + 4 * i) = default 0 (l !! Z.to_nat i)).
  { intros i Hi. rewrite <- (Z2Nat.id i) at 1 by lia. eapply words_lookup; [exact E|lia]. }
  unfold frame_at. rewrite (W 0), (W 1), (W 2), (W 3), (W 4), (W 5), (W 6), (W 7), (W 8) by lia.
  by rewrite (W 9), (W 10), (W 11), (W 12), (W 13), (W 14), (W 15), (W 16) by lia.
Qed.

Lemma frame_at_ext mem mem' p : (forall x, p <= x < p + 76 -> load8 mem x = load8 mem' x) -> frame_at mem p = frame_at mem' p.
Proof.
  intros H. assert (W : forall i, 0 <= i < 19 -> load32 mem (p + 4 * i) = load32 mem' (p + 4 * i)) by (intros i Hi; apply load32_ext; intros x Hx; apply H; lia).
  unfold frame_at. cbv zeta. rewrite !W by lia. done.
Qed.

Section Kernel.
Context {HW : Hardware} {CPU : Processor} {LAY : Layout}.
Variable user : list line.
Local Abbreviation prog := (kernel_S ++ user).
Hypothesis LO : layout_ok prog.

Lemma kernel_symbol l n is_ : kernel_code l n is_ = true -> symbol prog l = place n.
Proof. intros [E _]%(kernel_code_spec user). unfold symbol. by rewrite E. Qed.

(** ** swtch *)

(** A call [swtch(old, new)]: the arguments are on the stack, the context [new] lies apart from the room that
    the call uses on its stack and from [*old]. *)
Record swtch_call (m : machine) (old new : Z) : Prop := {
  sw_eip : m_eip m = symbol prog "swtch";
  sw_room : room 4 m;
  sw_top : esp m + 12 <= 2 ^ 32;
  sw_old : load32 (m_mem m) (esp m + 4) = old;
  sw_new : load32 (m_mem m) (esp m + 8) = new;
  sw_regs : is_word (r_ebp (m_gp m)) /\ is_word (r_ebx (m_gp m)) /\ is_word (r_esi (m_gp m)) /\ is_word (r_edi (m_gp m));
  sw_old_range : 0 <= old < 2 ^ 32;
  sw_new_range : 0 <= new /\ new + 20 < 2 ^ 32;
  sw_apart : old + 4 <= esp m - 16 \/ esp m + 4 <= old;
  sw_apart_new : (new + 20 <= esp m - 16 \/ esp m <= new) /\ (old + 4 <= new \/ new + 20 <= old)
}.

(** The registers that a function keeps for its caller are those of the context, and execution goes on at its return address. *)
Definition resumed (m : machine) (p : Z) (c : context) : Prop :=
  m_eip m = ctx_eip c /\ esp m = p + 20 /\ r_edi (m_gp m) = ctx_edi c /\ r_esi (m_gp m) = ctx_esi c
  /\ r_ebx (m_gp m) = ctx_ebx c /\ r_ebp (m_gp m) = ctx_ebp c.

Lemma u32_0 x : 0 <= x < 2 ^ 32 -> u32 (x + 0) = x.
Proof. intros. rewrite Z.add_0_r. by apply u32_small. Qed.

#[local] Opaque load32 store32 u32 place.

(** The three parts of the code: saving, changing the stacks, and loading. *)
Lemma swtch_saves n m : let g := m_gp m in let m1 := push (r_edi g) (push (r_esi g) (push (r_ebx g) (push (r_ebp g) m))) in exists m',
  block prog n [mov (at_reg 4 ESP) (r32 EAX); mov (at_reg 8 ESP) (r32 EDX); pushl (r32 EBP); pushl (r32 EBX); pushl (r32 ESI); pushl (r32 EDI)] m = Some m'
  /\ esp m' = esp m1 /\ m_mem m' = m_mem m1
  /\ r_eax (m_gp m') = load32 (m_mem m) (u32 (esp m + 4)) /\ r_edx (m_gp m') = load32 (m_mem m) (u32 (esp m + 8))
  /\ m_sg m' = m_sg m /\ m_cr m' = m_cr m.
Proof. intros g m1. eexists. split; [reflexivity|]. repeat split. Qed.

Lemma swtch_loads n m : exists m', block prog n [popl (r32 EDI); popl (r32 ESI); popl (r32 EBX); popl (r32 EBP); ret_] m = Some m'
  /\ (let p1 := u32 (esp m + 4) in let p2 := u32 (p1 + 4) in let p3 := u32 (p2 + 4) in let p4 := u32 (p3 + 4) in let w := load32 (m_mem m) in
      m_eip m' = w p4 /\ esp m' = u32 (p4 + 4) /\ r_edi (m_gp m') = w (esp m) /\ r_esi (m_gp m') = w p1 /\ r_ebx (m_gp m') = w p2 /\ r_ebp (m_gp m') = w p3)
  /\ m_mem m' = m_mem m /\ m_sg m' = m_sg m /\ m_cr m' = m_cr m.
Proof. eexists. split; [reflexivity|]. repeat split. Qed.


Lemma swtch_run m old new : swtch_call m old new -> exists m', steps prog m m'
  /\ resumed m' new (context_at (m_mem m) new)
  /\ load32 (m_mem m') old = esp m - 16
  /\ context_at (m_mem m') (esp m - 16) = mk_context (r_edi (m_gp m)) (r_esi (m_gp m)) (r_ebx (m_gp m)) (r_ebp (m_gp m)) (top m)
  /\ (forall x, ~ (esp m - 16 <= x < esp m) -> ~ (old <= x < old + 4) -> load8 (m_mem m') x = load8 (m_mem m) x)
  /\ m_sg m' = m_sg m /\ m_cr m' = m_cr m.
Proof.
  intros [He Hr Ht Ho Hn (W1 & W2 & W3 & W4) Hor Hnr Ha [Hb Hd]]. rewrite (kernel_symbol _ _ _ swtch_code) in He.
  destruct (kernel_code_spec user _ _ _ swtch_code) as [_ Hc]. unfold room in Hr.
  destruct (swtch_saves swtch_pos m) as (m1 & B1 & Es & Em & Ea & Ed & Eg1 & Ec1). set (g := m_gp m) in *. set (mp := push (r_edi g) _) in Es, Em.
  assert (P : pushed [r_edi g; r_esi g; r_ebx g; r_ebp g] m mp).
  { repeat (apply pushed_next; [unfold room; simpl; lia| |done]). apply pushed_nil. }
  destruct P as [Ep Wp Mp]. rewrite <- Es in Ep. rewrite <- Es, <- Em in Wp, Mp. cbn [length] in Ep. rewrite u32_small in Ea, Ed by lia. rewrite Ho in Ea. rewrite Hn in Ed.
  set (m2 := put_reg ESP new (set_mem (store32 old (esp m1) (m_mem m1)) m1)).
  destruct (swtch_loads (8 + swtch_pos) m2) as (m3 & B3 & R & Em3 & Eg3 & Ec3).
  assert (B2 : block prog (6 + swtch_pos) [mov (r32 ESP) (at_reg 0 EAX); mov (r32 EDX) (r32 ESP)] m1 = Some (set_eip (place (8 + swtch_pos)) m2)).
  { cbn [block exec read write mbind option_bind]. unfold m2. rewrite <- Ed. rewrite <- (u32_0 old Hor) at 1. rewrite <- Ea. reflexivity. }
  exists m3. split.
  { apply (block_steps prog (text swtch_S) swtch_pos); [done..|].
    change (text swtch_S) with ([mov (at_reg 4 ESP) (r32 EAX); mov (at_reg 8 ESP) (r32 EDX); pushl (r32 EBP); pushl (r32 EBX); pushl (r32 ESI); pushl (r32 EDI)]
      ++ [mov (r32 ESP) (at_reg 0 EAX); mov (r32 EDX) (r32 ESP)] ++ [popl (r32 EDI); popl (r32 ESI); popl (r32 EBX); popl (r32 EBP); ret_]).
    rewrite block_app, B1. cbn [mbind option_bind]. rewrite block_app. apply bind_Some. eexists. split; [exact B2|exact B3]. }
  change (m_mem m2) with (store32 old (esp m1) (m_mem m1)) in Em3, R. change (esp m2) with new in R. set (mem2 := store32 old (esp m1) (m_mem m1)) in *.
  assert (M2 : forall x, ~ (old <= x < old + 4) -> load8 mem2 x = load8 (m_mem m1) x) by (intros x Hx; by apply load8_store32_out).
  rewrite Em3. split; [|split; [|split; [|split; [|split; [exact (eq_trans Eg3 Eg1)|exact (eq_trans Ec3 Ec1)]]]]].
  - assert (Ec : context_at mem2 new = context_at (m_mem m) new).
    { apply context_at_words. rewrite <- (proj2 (context_at_words _ _ _) eq_refl). apply words_ext. intros x Hx. rewrite M2, Mp by lia. done. }
    rewrite <- Ec. cbv zeta in R. rewrite !(u32_small (new + 4)) in R by lia. rewrite !(u32_small (new + 4 + 4)) in R by lia.
    rewrite !(u32_small (new + 4 + 4 + 4)) in R by lia. rewrite !(u32_small (new + 4 + 4 + 4 + 4)) in R by lia. rewrite !(u32_small (new + 4 + 4 + 4 + 4 + 4)) in R by lia.
    rewrite <- !Z.add_assoc in R. destruct R as (R1 & R2 & R3 & R4 & R5 & R6). done.
  - unfold mem2. rewrite load32_store32_same, u32_small by lia. lia.
  - apply context_at_words. replace (esp m - 16) with (esp m1) by lia. rewrite (words_ext mem2 (m_mem m1)) by (intros x Hx; apply M2; lia). etrans; [exact (Wp 1%nat)|by rewrite words_S].
  - intros x Hx Hx'. rewrite M2, Mp by lia. done.
Qed.

(** C16: switching between threads of the kernel.  A call [swtch(old, new)] leaves in [*old] the address of a
    context that holds the registers its caller relies on and the return address, and goes on in the thread of the context
    [new], with its registers, after popping the context off its stack; no other memory changes.  When later some
    thread calls [swtch] with the saved context, and the context is still as it was saved, the first call returns: at its return
    address, with its stack pointer and all the registers a call has to keep. *)
Theorem swtch_returns (m1 : machine) (old new : Z) :
  swtch_call m1 old new ->
  exists m2, steps prog m1 m2 /\ resumed m2 new (context_at (m_mem m1) new)
    /\ (forall x, ~ (esp m1 - 16 <= x < esp m1) -> ~ (old <= x < old + 4) -> load8 (m_mem m2) x = load8 (m_mem m1) x)
    /\ forall m3 old', let p := load32 (m_mem m2) old in
        swtch_call m3 old' p -> context_at (m_mem m3) p = context_at (m_mem m2) p ->
        exists m4, steps prog m3 m4 /\ m_eip m4 = top m1 /\ esp m4 = esp m1 + 4
          /\ r_ebx (m_gp m4) = r_ebx (m_gp m1) /\ r_esi (m_gp m4) = r_esi (m_gp m1)
          /\ r_edi (m_gp m4) = r_edi (m_gp m1) /\ r_ebp (m_gp m4) = r_ebp (m_gp m1).
Proof.
  intros C1. destruct (swtch_run m1 old new C1) as (m2 & S1 & R1 & Hp & Hc & Hm & _). exists m2. split; [done|]. split; [done|]. split; [done|].
  intros m3 old' p C3 E. unfold p in *. rewrite Hp in *. destruct (swtch_run m3 old' _ C3) as (m4 & S3 & R3 & _). exists m4. split; [done|].
  rewrite E, Hc in R3. destruct R3 as (R1' & R2 & R3 & R4 & R5 & R6). repeat split; try done. simpl in R2. lia.
Qed.

(** ** The return from a trap *)

(** The registers are those of the trap frame [f] at address [p]; [ss] is the stack segment of the kernel. *)
Record restored (m : machine) (f : trapframe) (p ss : Z) : Prop := {
  rs_eip : m_eip m = tf_eip f;
  rs_eflags : m_eflags m = tf_eflags f;
  rs_gp : m_gp m = mk_gpr (tf_eax f) (tf_ecx f) (tf_edx f) (tf_ebx f) (if Z.land (tf_cs f) 3 =? 0 then p + 68 else tf_esp f) (tf_ebp f) (tf_esi f) (tf_edi f);
  rs_cs : s_cs (m_sg m) = tf_cs f;
  rs_data : forall s, In s [(DS, tf_ds f); (ES, tf_es f); (FS, tf_fs f); (GS, tf_gs f)] ->
    get_seg (fst s) (m_sg m) = if Z.land (tf_cs f) 3 =? 0 then snd s else leave_seg m (Z.land (tf_cs f) 3) (snd s);
  rs_ss : s_ss (m_sg m) = if Z.land (tf_cs f) 3 =? 0 then ss else tf_ss f
}.

(** Everything that the code does not touch. *)
Definition same_rest (m m' : machine) : Prop :=
  m_mem m' = m_mem m /\ m_gdt m' = m_gdt m /\ m_idt m' = m_idt m /\ m_ss0 m' = m_ss0 m /\ m_esp0 m' = m_esp0 m /\ m_cr m' = m_cr m /\ m_io m' = m_io m.

Lemma trapret_pops n m : exists m', block prog n [popal; popl (sr GS); popl (sr FS); popl (sr ES); popl (sr DS); addl 0x8 ESP] m = Some m'
  /\ (let w i := load32 (m_mem m) (u32 (esp m + 4 * i)) in let p1 := u32 (esp m + 32) in let p2 := u32 (p1 + 4) in let p3 := u32 (p2 + 4) in let p4 := u32 (p3 + 4) in
      let p5 := u32 (p4 + 4) in let h p := u16 (load32 (m_mem m) p) in
      m_gp m' = mk_gpr (w 7) (w 6) (w 5) (w 4) (u32 (p5 + u32 8)) (w 2) (w 1) (w 0)
      /\ m_sg m' = mk_segs (s_cs (m_sg m)) (h p4) (h p3) (h p2) (h p1) (s_ss (m_sg m)))
  /\ same_rest m m'.
Proof. eexists. split; [reflexivity|]. repeat split. Qed.

(** [iret] in the kernel, with [eip], [cs] and [eflags], and for a return to user mode [esp] and [ss], at [q]. *)
Lemma iret_pops m q : esp m = q -> 0 <= q -> q + 20 <= 2 ^ 32 -> cpl m = 0 ->
  let w i := load32 (m_mem m) (q + 4 * i) in let cs := u16 (w 1) in let level := Z.land cs 3 in
  exists m', do_iret m = Some m' /\ m_eip m' = w 0 /\ m_eflags m' = w 2
    /\ m_gp m' = set_reg ESP (if level =? 0 then u32 (q + 12) else w 3) (m_gp m)
    /\ m_sg m' = (let g := m_sg m in let f := if level =? 0 then id else leave_seg m' level in
                  mk_segs cs (f (s_ds g)) (f (s_es g)) (f (s_fs g)) (f (s_gs g)) (if level =? 0 then s_ss g else u16 (w 4)))
    /\ same_rest m m'.
Proof.
  intros Hq H0 H1 Hc w cs level. unfold do_iret. set (m1 := drop_word m). set (m2 := drop_word m1). set (m3 := drop_word m2). set (m4 := drop_word m3). cbv zeta.
  assert (E1 : esp m1 = q + 4) by (change (esp m1) with (u32 (esp m + 4)); rewrite Hq; apply u32_small; lia).
  assert (E2 : esp m2 = q + 8) by (change (esp m2) with (u32 (esp m1 + 4)); rewrite E1, u32_small; lia).
  assert (E3 : esp m3 = u32 (q + 12)) by (change (esp m3) with (u32 (esp m2 + 4)); rewrite E2; f_equal; lia).
  assert (T0 : top m = w 0) by (unfold top, w; f_equal; lia). assert (T1 : top m1 = w 1) by (unfold top, w; f_equal; lia).
  assert (T2 : top m2 = w 2) by (unfold top, w; f_equal; lia). rewrite T0, T1, T2, Hc. fold cs level.
  assert (0 <= level) by (apply Z.land_nonneg; lia). rewrite (proj2 (Z.ltb_ge level 0)) by done. destruct (Z.ltb_spec 0 level) as [Hl|Hl].
  - rewrite (u32_small (q + 12)) in E3 by lia. assert (E4 : esp m4 = q + 16) by (change (esp m4) with (u32 (esp m3 + 4)); rewrite E3, u32_small; lia).
    assert (T3 : top m3 = w 3) by (unfold top, w; f_equal; lia). assert (T4 : top m4 = w 4) by (unfold top, w; f_equal; lia). rewrite T3, T4.
    rewrite (proj2 (Z.eqb_neq level 0)) by lia. eexists. split; [reflexivity|]. repeat split.
  - rewrite (proj2 (Z.eqb_eq level 0)) by lia. eexists. split; [reflexivity|]. split; [done|]. split; [done|]. split; [|repeat split].
    rewrite <- E3. done.
Qed.

(** The code at [trapret], with a trap frame on the stack. *)
Lemma trapret_run m p : m_eip m = place trapret_pos -> esp m = p -> 0 <= p -> p + 76 <= 2 ^ 32 -> cpl m = 0 ->
  exists m', steps prog m m' /\ restored m' (frame_at (m_mem m) p) p (s_ss (m_sg m)) /\ same_rest m m'.
Proof.
  intros He Hp H0 H1 Hc. destruct (kernel_code_spec user _ _ _ trapret_code) as [_ Hcode].
  destruct (trapret_pops trapret_pos m) as (m1 & B1 & [Eg Es] & Er).
  assert (Hw : forall i, 0 <= i < 19 -> u32 (p + 4 * i) = p + 4 * i) by (intros; apply u32_small; lia).
  rewrite Hp in Eg, Es. rewrite (u32_small 8), !(u32_small (p + 32)) in * by lia. rewrite !(u32_small (p + 32 + 4)) in * by lia. rewrite !(u32_small (p + 32 + 4 + 4)) in * by lia.
  rewrite !(u32_small (p + 32 + 4 + 4 + 4)) in * by lia. rewrite !(u32_small (p + 32 + 4 + 4 + 4 + 4)) in * by lia. rewrite !Hw in Eg by lia.
  rewrite <- !Z.add_assoc, u32_small in Eg by lia. rewrite <- !Z.add_assoc in Es.
  assert (Ep : esp m1 = p + 56) by (unfold esp; rewrite Eg; simpl; lia). assert (Ec : cpl m1 = 0) by (unfold cpl; by rewrite Es).
  destruct (iret_pops m1 (p + 56) Ep) as (m2 & B2 & I1 & I2 & I3 & I4 & I5); [lia|lia|done|]. pose proof (proj1 Er) as Em. rewrite Em in *.
  assert (Ew : forall i, p + 56 + 4 * i = p + 4 * (14 + i)) by (intros; lia). rewrite !Ew in *. rewrite Eg, Es in *.
  assert (same_rest m m2) by (unfold same_rest in *; destruct Er as (? & ? & ? & ? & ? & ? & ?), I5 as (? & ? & ? & ? & ? & ? & ?); repeat split; congruence).
  exists m2. split; [|split; [|done]].
  - apply (block_steps prog (drop 11 (text trapasm_S)) trapret_pos); [done..|].
    change (drop 11 (text trapasm_S)) with ([popal; popl (sr GS); popl (sr FS); popl (sr ES); popl (sr DS); addl 0x8 ESP] ++ [iret]).
    rewrite block_app, B1. cbn [mbind option_bind block exec]. change (do_iret (set_eip ?x m1)) with (do_iret m1). by rewrite B2.
  - split; try done.
    + rewrite I3. cbn [set_reg r_eax r_ecx r_edx r_ebx r_ebp r_esi r_edi]. unfold frame_at. cbn [tf_cs tf_esp tf_eax tf_ecx tf_edx tf_ebx tf_ebp tf_esi tf_edi].
      change (14 + 1) with 15. change (14 + 3) with 17. destruct (Z.eqb_spec (Z.land (u16 (load32 (m_mem m) (p + 4 * 15))) 3) 0); [|done].
      f_equal. rewrite u32_small by lia. lia.
    + rewrite I4. done.
    + rewrite I4. unfold frame_at. cbn [tf_cs tf_ds tf_es tf_fs tf_gs]. change (14 + 1) with 15.
      intros s [<-|[<-|[<-|[<-|[]]]]]; cbn [fst snd get_seg s_ds s_es s_fs s_gs]; by destruct (Z.land _ 3 =? 0).
    + rewrite I4. change (14 + 1) with 15. unfold frame_at. cbn [tf_cs tf_ss s_ss]. done.
Qed.

(** ** The entry of a trap *)

Definition regs_ok (m : machine) : Prop :=
  let g := m_gp m in let s := m_sg m in
  Forall is_word [r_eax g; r_ecx g; r_edx g; r_ebx g; r_esp g; r_ebp g; r_esi g; r_edi g; m_eip m; m_eflags m]
  /\ Forall is_half [s_cs s; s_ds s; s_es s; s_fs s; s_gs s; s_ss s].

(** The stack on which the processor saves the interrupted program. *)
Definition entry_stack (m : machine) : machine :=
  if cpl m =? 0 then m else put_reg ESP (m_esp0 m) (put_seg SS (m_ss0 m) m).

(** The gates as [tvinit] stores them, with the entry points of vectors.S. *)
Definition gate_of (i : Z) : gatedesc :=
  SETGATE (i =? T_SYSCALL) (Z.shiftl SEG_KCODE 3) (symbol prog (vector_label i)) (if i =? T_SYSCALL then DPL_USER else 0).

Lemma tvinit_idt k e : exists k', tvinit (fun i => symbol prog (vector_label i)) k e = Done tt k' e
  /\ forall i, 0 <= i < 256 -> idt (k_hw k') !! i = Some (gate_of i).
Proof.
  destruct (gates_stored (fun i => SETGATE false (Z.shiftl SEG_KCODE 3) (symbol prog (vector_label i)) 0) (seqZ 0 256) e k) as (k1 & E & H).
  unfold tvinit. run E. unfold set_gate at 1. rewrite bind_modify. eexists. split; [reflexivity|]. intros i Hi.
  change (<[T_SYSCALL := SETGATE true (Z.shiftl SEG_KCODE 3) (symbol prog (vector_label T_SYSCALL)) DPL_USER]> (idt (k_hw k1)) !! i = Some (gate_of i)). unfold gate_of.
  destruct (Z.eqb_spec i T_SYSCALL) as [->|Hne]; [apply lookup_insert_eq|]. rewrite lookup_insert_ne by done. rewrite H, decide_True; [done|]. apply elem_of_seqZ. lia.
Qed.

(** Interrupt [n] can be delivered, with an error code exactly for the exceptions that have one; [soft] for the instruction [int].  An [int] of the kernel
    for a vector with an error code, for which the processor pushes none, is left out: the kernel contains no such instruction. *)
Record may_interrupt (m : machine) (soft : bool) (n : Z) (err : option Z) : Prop := {
  mi_range : 0 <= n < 256;
  mi_gates : forall i, 0 <= i < 256 -> m_idt m !! i = Some (gate_of i);
  mi_code : seg_dpl m (Z.shiftl SEG_KCODE 3) = 0;
  mi_soft : soft = true -> cpl m = 0 \/ n = T_SYSCALL;
  mi_err : match err with Some e => has_errcode n = true /\ is_word e | None => has_errcode n = false end;
  mi_cpl : cpl m = 0 \/ cpl m = 3;
  mi_room : 4 * 21 <= esp (entry_stack m) /\ esp (entry_stack m) + 8 <= 2 ^ 32;
  mi_regs : regs_ok m
}.

(** Nothing but the stack, the segments, the instruction pointer and the flags. *)
Definition tables_same (m m' : machine) : Prop :=
  m_gdt m' = m_gdt m /\ m_idt m' = m_idt m /\ m_ss0 m' = m_ss0 m /\ m_esp0 m' = m_esp0 m /\ m_cr m' = m_cr m /\ m_io m' = m_io m.

Lemma tables_same_trans m m' m'' : tables_same m m' -> tables_same m' m'' -> tables_same m m''.
Proof. intros (? & ? & ? & ? & ? & ?) (? & ? & ? & ? & ? & ?). repeat split; congruence. Qed.

Lemma vector_spec i : 0 <= i < 256 -> symbol prog (vector_label i) = place (vector_pos i) /\ code_at prog (vector_pos i) (text (vector_code i)).
Proof.
  intros Hi. pose proof vectors_code as H. rewrite forallb_forall in H. specialize (H i). rewrite <- list_elem_of_In, elem_of_seqZ in H. specialize (H ltac:(lia)).
  split; [by eapply kernel_symbol|by eapply kernel_code_spec].
Qed.

Lemma entry_stack_run m : regs_ok m -> (cpl m = 0 \/ cpl m = 3) -> room 21 (entry_stack m) ->
  let m0 := if 0 <? cpl m then enter_stack m else m in
  exists wss, u16 wss = s_ss (m_sg m) /\ pushed (if cpl m =? 0 then [] else [esp m; wss]) (entry_stack m) m0
    /\ (forall v, set_reg ESP v (m_gp m0) = set_reg ESP v (m_gp m)) /\ m_sg m0 = m_sg (entry_stack m) /\ tables_same m m0.
Proof.
  intros [Hw Hh] Hc Hr. unfold entry_stack in *. repeat rewrite Forall_cons in Hw. repeat rewrite Forall_cons in Hh. destruct Hc as [Hc|Hc]; rewrite Hc in *.
  - exists (s_ss (m_sg m)). split; [apply Z.mod_small; apply Hh|]. split; [apply pushed_nil|done].
  - change (3 =? 0) with false in *. change (0 <? 3) with true. cbv iota in *. unfold enter_stack. set (b := put_reg ESP (m_esp0 m) _) in *.
    destruct (pushed_sel [] (s_ss (m_sg m)) b b) as (w & Hw1 & Hw2 & P); [unfold room in *; simpl; lia|apply pushed_nil|apply Hh|].
    exists w. split; [done|]. split; [|done]. apply (pushed_next [w] (esp m)); [unfold room in *; simpl; lia|done|apply Hw].
Qed.

Lemma interrupt_run m soft n err : may_interrupt m soft n err -> exists m1 wcs wss,
  interrupt soft n err m = Some m1 /\ u16 wcs = s_cs (m_sg m) /\ u16 wss = s_ss (m_sg m)
  /\ pushed (option_list err ++ [m_eip m; wcs; m_eflags m] ++ (if cpl m =? 0 then [] else [esp m; wss])) (entry_stack m) m1
  /\ m_eip m1 = place (vector_pos n) /\ m_gp m1 = set_reg ESP (esp m1) (m_gp m)
  /\ m_sg m1 = set_seg_reg CS 8 (m_sg (entry_stack m)) /\ tables_same m m1.
Proof.
  intros [Hn Hg Hk Hs He Hc Hr [Hw Hh]]. unfold interrupt. rewrite Hg by done. cbn [mbind option_bind].
  assert (Hd : negb (gd_p (gate_of n) =? 1) || soft && (gd_dpl (gate_of n) <? cpl m) = false).
  { simpl. destruct soft; [|done]. destruct (Hs eq_refl) as [->| ->]; [by destruct (n =? T_SYSCALL)|]. by destruct Hc as [-> | ->]. }
  rewrite Hd. change (gd_cs (gate_of n)) with (Z.shiftl SEG_KCODE 3). rewrite Hk. cbv zeta.
  destruct (entry_stack_run m) as (wss & Hss & P0 & E0 & G0 & T0); [done|done|unfold room; lia|]. set (m0 := if 0 <? cpl m then _ else _) in *.
  repeat rewrite Forall_cons in Hw. repeat rewrite Forall_cons in Hh. set (l0 := if cpl m =? 0 then [] else [esp m; wss]) in *.
  assert (Hl : Z.of_nat (length l0) <= 2) by (unfold l0; destruct (cpl m =? 0); simpl; lia).
  assert (P1 : pushed (m_eflags m :: l0) (entry_stack m) (push (m_eflags m) m0)) by (apply pushed_next; [unfold room; lia|done|apply Hw]).
  destruct (pushed_sel (m_eflags m :: l0) (s_cs (m_sg m)) (entry_stack m) (push (m_eflags m) m0)) as (wcs & Hcw & Hcs & P2);
    [unfold room; simpl length; lia|done|apply Hh|].
  assert (P3 : pushed ([m_eip m; wcs; m_eflags m] ++ l0) (entry_stack m) (push (m_eip m) (push_sel (s_cs (m_sg m)) (push (m_eflags m) m0))))
    by (apply pushed_next; [unfold room; simpl length; lia|done|apply Hw]).
  set (m2 := push (m_eip m) _) in *. eexists _, wcs, wss. split; [reflexivity|]. split; [done|]. split; [done|].
  assert (Ev : u32 (symbol prog (vector_label n)) = place (vector_pos n)) by (rewrite (proj1 (vector_spec n Hn)); apply u32_small, LO).
  assert (Eo : gate_offset (gate_of n) = place (vector_pos n)) by (unfold gate_of; by rewrite gate_offset_set). destruct err as [e|]; cbn [option_list].
  - split; [|split; [exact Eo|split; [by rewrite <- E0|split; [by rewrite <- G0|done]]]].
    apply (pushed_next _ e) in P3; [eapply pushed_ext; [exact P3|reflexivity|reflexivity]|unfold room; simpl length; lia|apply He].
  - split; [eapply pushed_ext; [exact P3|reflexivity|reflexivity]|split; [exact Eo|split; [by rewrite <- E0|split; [by rewrite <- G0|done]]]].
Qed.

(** The entry points of vectors.S. *)
Lemma vector_run m n : 0 <= n < 256 -> room 2 m -> m_eip m = place (vector_pos n) ->
  exists m', steps prog m m' /\ m_eip m' = place alltraps_pos /\ pushed (n :: if has_errcode n then [] else [0]) m m'
    /\ m_gp m' = set_reg ESP (esp m') (m_gp m) /\ m_sg m' = m_sg m /\ tables_same m m'.
Proof.
  intros Hn Hr He. destruct (vector_spec n Hn) as [_ Hc]. unfold room in Hr. assert (Wn : is_word n) by (unfold is_word; lia).
  assert (En : u32 n = n) by (by apply u32_small). assert (E0 : u32 0 = 0) by (by apply u32_small).
  assert (Ea : symbol prog "alltraps" = place alltraps_pos) by apply (kernel_symbol _ _ _ alltraps_code).
  unfold vector_code in Hc. destruct (has_errcode n).
  - eexists. split; [apply (block_steps prog [pushl (imm (Num n)); jmp "alltraps"] (vector_pos n)); [done|exact Hc|done|done|reflexivity]|].
    cbn [value_of]. rewrite En. split; [exact Ea|]. split; [|done]. eapply pushed_ext; [apply (pushed_push n m); [unfold room; lia|done]|done|done].
  - eexists. split; [apply (block_steps prog [pushl (imm (Num 0)); pushl (imm (Num n)); jmp "alltraps"] (vector_pos n)); [done|exact Hc|done|done|reflexivity]|].
    cbn [value_of]. rewrite En, E0. split; [exact Ea|]. split; [|done].
    eapply pushed_ext; [apply (pushed_next [0] n m (push 0 m)); [unfold room; simpl length; lia|apply pushed_push; [unfold room; lia|done]|done]|done|done].
Qed.

(** The three parts of the code: the segments, the general registers, and the call. *)
Lemma alltraps_segs n m : let s := m_sg m in let m1 := push_sel (s_gs s) (push_sel (s_fs s) (push_sel (s_es s) (push_sel (s_ds s) m))) in
  exists m', block prog n [pushl (sr DS); pushl (sr ES); pushl (sr FS); pushl (sr GS)] m = Some m'
    /\ esp m' = esp m1 /\ m_mem m' = m_mem m1 /\ m_gp m' = set_reg ESP (esp m1) (m_gp m) /\ m_sg m' = m_sg m /\ tables_same m m'.
Proof. intros s m1. eexists. split; [reflexivity|]. repeat split. Qed.

Lemma alltraps_call n m : let m1 := push (place (5 + n)) (push (esp m) m) in
  exists m', block prog n [mov (imm (Num (Z.shiftl SEG_KDATA 3))) (r16 EAX); mov (r16 EAX) (sr DS); mov (r16 EAX) (sr ES); pushl (r32 ESP); call "trap"] m = Some m'
    /\ m_eip m' = symbol prog "trap" /\ esp m' = esp m1 /\ m_mem m' = m_mem m1
    /\ s_cs (m_sg m') = s_cs (m_sg m) /\ s_ss (m_sg m') = s_ss (m_sg m) /\ tables_same m m'.
Proof. intros m1. eexists. split; [reflexivity|]. repeat split. Qed.

Lemma alltraps_run m : m_eip m = place alltraps_pos -> room 14 m ->
  (let g := m_gp m in Forall is_word [r_eax g; r_ecx g; r_edx g; r_ebx g; r_ebp g; r_esi g; r_edi g]) ->
  (let s := m_sg m in Forall is_half [s_ds s; s_es s; s_fs s; s_gs s]) ->
  exists m' wgs wfs wes wds, let g := m_gp m in let s := m_sg m in
  steps prog m m' /\ m_eip m' = symbol prog "trap"
  /\ pushed [place (10 + alltraps_pos); esp m - 48; r_edi g; r_esi g; r_ebp g; esp m - 16; r_ebx g; r_edx g; r_ecx g; r_eax g; wgs; wfs; wes; wds] m m'
  /\ u16 wgs = s_gs s /\ u16 wfs = s_fs s /\ u16 wes = s_es s /\ u16 wds = s_ds s
  /\ s_cs (m_sg m') = s_cs s /\ s_ss (m_sg m') = s_ss s /\ tables_same m m'.
Proof.
  intros He Hr Hw Hh. cbv zeta in Hw, Hh. destruct (kernel_code_spec user _ _ _ alltraps_code) as [_ Hc]. unfold room in Hr.
  destruct (alltraps_segs alltraps_pos m) as (ma & Ba & Ea & Ma & Ga & Sa & Ta). set (s := m_sg m) in *. set (g := m_gp m) in *.
  repeat rewrite Forall_cons in Hw. repeat rewrite Forall_cons in Hh.
  assert (R : forall j, j <= 14 -> room j m) by (intros j Hj; unfold room; lia).
  destruct (pushed_sel [] (s_ds s) m m) as (wds & Wd & Hds & P1); [apply R; simpl; lia|apply pushed_nil|apply Hh|].
  destruct (pushed_sel [wds] (s_es s) m (push_sel (s_ds s) m)) as (wes & We & Hes & P2); [apply R; simpl; lia|done|apply Hh|].
  destruct (pushed_sel [wes; wds] (s_fs s) m (push_sel (s_es s) (push_sel (s_ds s) m))) as (wfs & Wf & Hfs & P3); [apply R; simpl; lia|done|apply Hh|].
  destruct (pushed_sel [wfs; wes; wds] (s_gs s) m (push_sel (s_fs s) (push_sel (s_es s) (push_sel (s_ds s) m)))) as (wgs & Wg & Hgs & P4); [apply R; simpl; lia|done|apply Hh|].
  set (ma' := set_eip (place (5 + alltraps_pos)) ma). apply (pushed_ext _ _ _ ma') in P4; [|exact Ea|exact Ma]. rewrite <- Ea in Ga. clear P1 P2 P3.
  assert (E1 : esp ma' = esp m - 16) by (rewrite (pd_esp _ _ _ P4); simpl; lia). change (esp ma) with (esp ma') in Ga. change (m_gp ma) with (m_gp ma') in Ga.
  assert (Sb : m_sg (push_gprs ma') = m_sg ma) by reflexivity. assert (Tb : tables_same ma (push_gprs ma')) by done.
  assert (P5 : pushed [r_edi g; r_esi g; r_ebp g; esp m - 16; r_ebx g; r_edx g; r_ecx g; r_eax g; wgs; wfs; wes; wds] m (push_gprs ma')).
  { unfold push_gprs. rewrite Ga. cbn [set_reg r_edi r_esi r_ebp r_esp r_ebx r_edx r_ecx r_eax]. rewrite E1.
    repeat (apply pushed_next; [apply R; simpl; lia| |first [apply Hw | (unfold is_word; lia)]]). exact P4. }
  assert (E2 : esp (push_gprs ma') = esp m - 48) by (rewrite (pd_esp _ _ _ P5); simpl; lia).
  set (mb := push_gprs ma') in *. destruct (alltraps_call (5 + alltraps_pos) mb) as (mc & Bc & Et & Es & Em & Ec & Ess & T).
  exists mc, wgs, wfs, wes, wds. cbv zeta. split.
  { apply (block_steps prog (take 10 (text trapasm_S)) alltraps_pos); [done| |done|done|].
    - intros j i Hj. apply Hc. by apply lookup_take_Some in Hj as [Hj _].
    - change (take 10 (text trapasm_S)) with ([pushl (sr DS); pushl (sr ES); pushl (sr FS); pushl (sr GS)] ++ [pushal]
        ++ [mov (imm (Num (Z.shiftl SEG_KDATA 3))) (r16 EAX); mov (r16 EAX) (sr DS); mov (r16 EAX) (sr ES); pushl (r32 ESP); call "trap"]).
      rewrite block_app, Ba. cbn [mbind option_bind]. rewrite block_app. apply bind_Some. exists mb. split; [reflexivity|exact Bc]. }
  split; [done|]. rewrite E2 in Es, Em. split.
  { eapply (pushed_ext _ m (push (place (10 + alltraps_pos)) (push (esp m - 48) mb))); [|exact Es|exact Em]. apply pushed_next; [apply R; simpl; lia| |apply LO].
    apply pushed_next; [apply R; simpl; lia|done|unfold is_word; lia]. }
  rewrite Sb, Sa in Ec, Ess. split; [done|]. split; [done|]. split; [done|]. split; [done|]. split; [done|]. split; [done|].
  eapply tables_same_trans; [exact Ta|]. eapply tables_same_trans; [exact Tb|exact T].
Qed.

(** The trap frame of a program that was interrupted. *)
Definition frame_of (m : machine) (n e oesp sp ss : Z) : trapframe :=
  let g := m_gp m in let s := m_sg m in
  mk_trapframe (r_edi g) (r_esi g) (r_ebp g) oesp (r_ebx g) (r_edx g) (r_ecx g) (r_eax g) (s_gs s) (s_fs s) (s_es s) (s_ds s)
    n e (m_eip m) (s_cs s) (m_eflags m) sp ss.

(** The address of the trap frame. *)
Definition tf_addr (m : machine) : Z := esp (entry_stack m) - (if cpl m =? 0 then 68 else 76).

(** [m'] is at the start of [trap], called with the trap frame of [m]. *)
Record entered (m : machine) (n : Z) (err : option Z) (m' : machine) : Prop := {
  en_eip : m_eip m' = symbol prog "trap";
  en_esp : esp m' = tf_addr m - 8;
  en_ret : top m' = place (10 + alltraps_pos);
  en_arg : load32 (m_mem m') (esp m' + 4) = tf_addr m;
  en_frame : exists oesp sp ss, frame_at (m_mem m') (tf_addr m) = frame_of m n (default 0 err) oesp sp ss
    /\ (cpl m = 3 -> sp = esp m /\ ss = s_ss (m_sg m));
  en_mem : forall x, ~ (esp m' <= x < esp (entry_stack m)) -> load8 (m_mem m') x = load8 (m_mem m) x;
  en_cs : s_cs (m_sg m') = 8;
  en_ss : s_ss (m_sg m') = s_ss (m_sg (entry_stack m));
  en_tables : tables_same m m'
}.

(** Everything that is pushed, and where. *)
Lemma entry_pushes m soft n err : may_interrupt m soft n err -> exists m1 m3 oesp wcs wss wgs wfs wes wds,
  let g := m_gp m in let s := m_sg m in
  interrupt soft n err m = Some m1 /\ steps prog m1 m3 /\ m_eip m3 = symbol prog "trap"
  /\ pushed ([place (10 + alltraps_pos); tf_addr m] ++ [r_edi g; r_esi g; r_ebp g; oesp; r_ebx g; r_edx g; r_ecx g; r_eax g; wgs; wfs; wes; wds;
                n; default 0 err; m_eip m; wcs; m_eflags m] ++ (if cpl m =? 0 then [] else [esp m; wss])) (entry_stack m) m3
  /\ (u16 wgs = s_gs s /\ u16 wfs = s_fs s /\ u16 wes = s_es s /\ u16 wds = s_ds s /\ u16 wcs = s_cs s /\ u16 wss = s_ss s)
  /\ s_cs (m_sg m3) = 8 /\ s_ss (m_sg m3) = s_ss (m_sg (entry_stack m)) /\ tables_same m m3.
Proof.
  intros MI. destruct (interrupt_run m soft n err MI) as (m1 & wcs & wss & EI & Hcs & Hss & P1 & E1 & G1 & S1 & T1).
  destruct MI as [Hn _ _ _ He Hc Hr [Hw Hh]]. repeat rewrite Forall_cons in Hw. repeat rewrite Forall_cons in Hh.
  set (up := if cpl m =? 0 then [] else [esp m; wss]) in *. assert (Hup : Z.of_nat (length up) <= 2) by (unfold up; destruct (cpl m =? 0); simpl; lia).
  assert (Hol : Z.of_nat (length (option_list err)) <= 1) by (destruct err; simpl; lia).
  pose proof (pd_esp _ _ _ P1) as Ee1. rewrite !length_app in Ee1. simpl length in Ee1.
  destruct (vector_run m1 n Hn) as (m2 & St2 & E2 & P2 & G2 & S2 & T2); [unfold room; lia|done|].
  assert (P12 : pushed ([n; default 0 err; m_eip m; wcs; m_eflags m] ++ up) (entry_stack m) m2).
  { pose proof (pushed_trans _ _ _ _ _ P1 P2) as P. destruct err as [e|]; [destruct He as [He _]|]; rewrite He in P; exact P. }
  pose proof (pd_esp _ _ _ P12) as Ee2. rewrite !length_app in Ee2. simpl length in Ee2. rewrite G1 in G2.
  assert (Sm : m_sg m2 = set_seg_reg CS 8 (m_sg (entry_stack m))) by congruence.
  assert (Hds : s_ds (m_sg m2) = s_ds (m_sg m) /\ s_es (m_sg m2) = s_es (m_sg m) /\ s_fs (m_sg m2) = s_fs (m_sg m) /\ s_gs (m_sg m2) = s_gs (m_sg m)).
  { rewrite Sm. unfold entry_stack. by destruct (cpl m =? 0). }
  destruct Hds as (D1 & D2 & D3 & D4).
  destruct (alltraps_run m2 E2) as (m3 & wgs & wfs & wes & wds & St3 & E3 & P3 & Hg & Hf & Hes & Hd & Ec3 & Es3 & T3).
  { unfold room. lia. } { rewrite G2. cbn. repeat constructor; apply Hw. } { cbv zeta. rewrite D1, D2, D3, D4. repeat constructor; apply Hh. }
  rewrite G2 in P3. cbn [set_reg r_edi r_esi r_ebp r_ebx r_edx r_ecx r_eax] in P3.
  pose proof (pushed_trans _ _ _ _ _ P12 P3) as P. clear P1 P2 P3.
  assert (Et : esp m2 - 48 = tf_addr m) by (rewrite Ee2; unfold tf_addr, up; destruct (cpl m =? 0); simpl; lia). rewrite Et in P.
  exists m1, m3, (esp m2 - 16), wcs, wss, wgs, wfs, wes, wds. cbv zeta. split; [done|]. split; [by transitivity m2|]. split; [done|]. split; [exact P|].
  split; [repeat split; congruence|]. split; [by rewrite Ec3, Sm|]. split; [by rewrite Es3, Sm|]. eapply tables_same_trans; [|exact T3]. by eapply tables_same_trans.
Qed.

Lemma trap_entry_run m soft n err : may_interrupt m soft n err -> exists m1 m2, interrupt soft n err m = Some m1 /\ steps prog m1 m2 /\ entered m n err m2.
Proof.
  intros MI. destruct (entry_pushes m soft n err MI) as (m1 & m3 & oesp & wcs & wss & wgs & wfs & wes & wds & EI & St & Et & P & (U1 & U2 & U3 & U4 & U5 & U6) & Ec & Es & T).
  pose proof (pd_esp _ _ _ P) as Ee. pose proof (pd_words _ _ _ P 0%nat) as W. rewrite Nat.add_0_r, app_nil_r in W. rewrite !length_app in W, Ee. simpl length in W, Ee.
  assert (E3 : esp m3 = tf_addr m - 8) by (rewrite Ee; unfold tf_addr; destruct (cpl m =? 0); simpl; lia).
  change (2 + (17 + ?x))%nat with (S (S (17 + x)))%nat in W. rewrite !words_S in W. replace (esp m3 + 4 + 4) with (tf_addr m) in W by lia. apply cons_eq_inj in W as [W1 W]. apply cons_eq_inj in W as [W2 W3].
  exists m1, m3. split; [done|]. split; [done|]. split; [done|done|done|done| | |done|done|done].
  - exists oesp, (load32 (m_mem m3) (tf_addr m + 68)), (u16 (load32 (m_mem m3) (tf_addr m + 72))). split.
    + rewrite (frame_at_words _ _ _ _ _ _ _ _ _ _ _ _ _ _ _ _ _ _ _ _ _ W3). unfold frame_of. congruence.
    + intros Hc. rewrite Hc in W3. change (3 =? 0) with false in W3. cbv iota in W3. 
      pose proof (words_lookup _ _ _ _ 17 W3 ltac:(simpl; lia)) as V1. pose proof (words_lookup _ _ _ _ 18 W3 ltac:(simpl; lia)) as V2.
      change (4 * Z.of_nat 17) with 68 in V1. change (4 * Z.of_nat 18) with 72 in V2. rewrite V1, V2. done.
  - intros x Hx. rewrite (pd_mem _ _ _ P) by done. unfold entry_stack. by destruct (cpl m =? 0).
Qed.

(** A function of C, called in [m], has returned: the stack and the segments are as before; the registers and the memory may have changed. *)
Record c_returned (m m' : machine) : Prop := {
  cr_eip : m_eip m' = top m;
  cr_esp : esp m' = esp m + 4;
  cr_sg : m_sg m' = m_sg m;
  cr_gdt : m_gdt m' = m_gdt m
}.

(** The data segments of a program in user mode are null or accessible there. *)
Definition usable (m : machine) : Prop :=
  cpl m = 3 -> Forall (fun s => s < 4 \/ 3 <= seg_dpl m s) [s_ds (m_sg m); s_es (m_sg m); s_fs (m_sg m); s_gs (m_sg m)].

Lemma exit_run m n err m2 m3 : regs_ok m -> (cpl m = 0 \/ cpl m = 3) -> 4 * 21 <= esp (entry_stack m) /\ esp (entry_stack m) + 8 <= 2 ^ 32 ->
  entered m n err m2 -> c_returned m2 m3 ->
  exists m4, steps prog m3 m4 /\ restored m4 (frame_at (m_mem m3) (tf_addr m)) (tf_addr m) (s_ss (m_sg m2)) /\ same_rest m3 m4.
Proof.
  intros Hw Hc Hr En [C1 C2 C3 C4]. rewrite (en_ret _ _ _ _ En) in C1. rewrite (en_esp _ _ _ _ En) in C2. rewrite <- C3.
  assert (Ht : 0 <= tf_addr m /\ tf_addr m + 76 <= 2 ^ 32) by (unfold tf_addr; destruct (cpl m =? 0); lia).
  destruct (kernel_code_spec user _ _ _ alltraps_code) as [_ Hk].
  assert (Ha : text prog !! (10 + alltraps_pos)%nat = Some (addl 4 ESP)) by exact (Hk 10%nat _ eq_refl).
  set (m3' := put_reg ESP (u32 (esp m3 + u32 4)) (set_eflags (default 0 (m_eflags <$> exec prog (addl 4 ESP) m3)) (set_eip (place trapret_pos) m3))).
  assert (St : step prog m3 = Some m3') by (rewrite (step_at prog _ _ m3 LO Ha C1); reflexivity).
  assert (E4 : u32 4 = 4) by (by apply u32_small).
  destruct (trapret_run m3' (tf_addr m)) as (m4 & S4 & R4 & T4); [done| |lia|lia| |].
  - change (esp m3') with (u32 (esp m3 + u32 4)). rewrite E4, u32_small; lia.
  - unfold cpl. change (m_sg m3') with (m_sg m3). by rewrite C3, (en_cs _ _ _ _ En).
  - exists m4. split; [|done]. by eapply rtc_l.
Qed.

(** A machine with the registers of the frame of [m] is [m] again. *)
Lemma resumes m n e oesp sp ss m4 : (cpl m = 0 \/ cpl m = 3) -> usable m -> m_gdt m4 = m_gdt m -> (cpl m = 3 -> sp = esp m /\ ss = s_ss (m_sg m)) ->
  restored m4 (frame_of m n e oesp sp ss) (tf_addr m) (s_ss (m_sg (entry_stack m))) ->
  m_gp m4 = m_gp m /\ m_sg m4 = m_sg m /\ m_eip m4 = m_eip m /\ m_eflags m4 = m_eflags m.
Proof.
  intros Hc Hu Hg Hsp [R1 R2 R3 R4 R5 R6].
  cbn [frame_of tf_eip tf_eflags tf_eax tf_ecx tf_edx tf_ebx tf_esp tf_ebp tf_esi tf_edi tf_cs tf_ds tf_es tf_fs tf_gs tf_ss] in *.
  change (Z.land (s_cs (m_sg m)) 3) with (cpl m) in *.
  assert (Hd : forall s, In s [(DS, s_ds (m_sg m)); (ES, s_es (m_sg m)); (FS, s_fs (m_sg m)); (GS, s_gs (m_sg m))] -> get_seg (fst s) (m_sg m4) = snd s).
  { intros s Hs. rewrite (R5 s Hs). destruct Hc as [Hc|Hc]; rewrite Hc in *; [done|]. change (3 =? 0) with false. cbv iota.
    specialize (Hu Hc). rewrite Forall_forall in Hu. specialize (Hu (snd s)). unfold leave_seg, seg_dpl in *. rewrite Hg in *.
    destruct (Z.ltb_spec (snd s) 4) as [?|H4]; [done|]. destruct Hu as [?|Hu]; [|lia|by rewrite (proj2 (Z.ltb_ge _ _) Hu)].
    destruct Hs as [<-|[<-|[<-|[<-|[]]]]]; cbn [snd]; repeat first [apply list_elem_of_here | apply list_elem_of_further]. }
  pose proof (Hd (DS, _) (or_introl eq_refl)) as D1. pose proof (Hd (ES, _) (or_intror (or_introl eq_refl))) as D2.
  pose proof (Hd (FS, _) (or_intror (or_intror (or_introl eq_refl)))) as D3. pose proof (Hd (GS, _) (or_intror (or_intror (or_intror (or_introl eq_refl))))) as D4.
  cbn [fst snd get_seg] in D1, D2, D3, D4. split; [|split; [|done]].
  - rewrite R3. unfold tf_addr, entry_stack, esp in *. destruct Hc as [Hc|Hc]; rewrite Hc in *.
    + simpl. replace (r_esp (m_gp m) - 68 + 68) with (r_esp (m_gp m)) by lia. by destruct (m_gp m).
    + destruct (Hsp eq_refl) as [-> ->]. simpl. by destruct (m_gp m).
  - assert (s_ss (m_sg m4) = s_ss (m_sg m)).
    { rewrite R6. unfold entry_stack. destruct Hc as [Hc|Hc]; rewrite Hc in *; [done|]. by apply Hsp. }
    destruct (m_sg m4), (m_sg m). simpl in *. congruence.
Qed.

(** C10: an interrupt, exception or system call is invisible to the program it interrupts, up to what [trap] stores in the trap frame.
    For each of the 256 numbers, from user mode or the kernel, the processor, the entry point and [alltraps] reach [trap] with a
    trap frame, on the kernel stack, that holds every register of the program, the number and the error code, and change no other memory.  When
    [trap] returns, the program goes on with the registers that the frame then holds; if the frame is as it was, all general registers,
    the segments, the flags and the instruction pointer are those of the interrupted program. *)
Theorem trap_transparent (m : machine) (soft : bool) (n : Z) (err : option Z) :
  may_interrupt m soft n err ->
  exists m1 m2, interrupt soft n err m = Some m1 /\ steps prog m1 m2 /\ entered m n err m2
    /\ forall m3, c_returned m2 m3 -> exists m4, steps prog m3 m4
        /\ restored m4 (frame_at (m_mem m3) (tf_addr m)) (tf_addr m) (s_ss (m_sg m2)) /\ m_mem m4 = m_mem m3
        /\ (usable m -> frame_at (m_mem m3) (tf_addr m) = frame_at (m_mem m2) (tf_addr m) ->
             m_gp m4 = m_gp m /\ m_sg m4 = m_sg m /\ m_eip m4 = m_eip m /\ m_eflags m4 = m_eflags m).
Proof.
  intros MI. destruct (trap_entry_run m soft n err MI) as (m1 & m2 & EI & St & En). exists m1, m2. split; [done|]. split; [done|]. split; [done|].
  intros m3 C. destruct (exit_run m n err m2 m3 (mi_regs _ _ _ _ MI) (mi_cpl _ _ _ _ MI) (mi_room _ _ _ _ MI) En C) as (m4 & S4 & R4 & T4).
  exists m4. split; [done|]. split; [done|]. split; [apply T4|]. intros Hu Ef. destruct (en_frame _ _ _ _ En) as (oesp & sp & ss & Eo & Hsp).
  rewrite Ef, Eo, (en_ss _ _ _ _ En) in R4. eapply resumes; [apply MI|done| |done|done].
  destruct T4 as (_ & -> & _). rewrite (cr_gdt _ _ C). apply (en_tables _ _ _ _ En).
Qed.

(** ** A new process

    What the kernel keeps about the stack of process [np] lies in memory as the structures of C. *)
Record stack_realised {L : Linker} (k : kstate) (np : nat) (mem : gmap Z Z) : Prop := {
  sr_context : k_ctx k !! p_context (proc_at k np) = Some (context_at mem (p_context (proc_at k np)));
  sr_return : load32 mem (p_context (proc_at k np) + sizeof_context) = load32 (k_mem k) (p_context (proc_at k np) + sizeof_context);
  sr_frame : frame_at mem (p_tf (proc_at k np)) = tf_at k (p_tf (proc_at k np))
}.

(** The linker uses one address for each name. *)
Class LinkedAsm {L : Linker} : Prop := {
  la_trapret : ld_trapret = symbol prog "trapret";
  la_forkret : ld_forkret = symbol prog "forkret"
}.

(** C12: the child of [fork] returns 0 in user mode.  The scheduler switches to the child that [fork] has made: [swtch] goes to
    [forkret] on the stack of the child, and when [forkret] returns, the return from a trap leads into user mode, with the instruction pointer, the
    stack pointer, the flags and all general registers that the parent had at its system call, except that %eax is 0. *)
Theorem child_enters_user {L : Linker} {LA : LinkedAsm} (k k' : kstate) (cur np : nat) (m : machine) (old : Z) :
  let ctx := p_context (proc_at k' np) in let tf := p_tf (proc_at k' np) in
  child k k' cur np -> stack_realised k' np (m_mem m) -> swtch_call m old ctx -> cpl m = 0 ->
  tf + 76 <= 2 ^ 32 -> (tf + 76 <= esp m - 16 \/ esp m <= ctx) -> (old + 4 <= ctx \/ tf + 76 <= old) ->
  exists m1, steps prog m m1 /\ m_eip m1 = ld_forkret /\ top m1 = ld_trapret
    /\ forall m2, c_returned m1 m2 -> (forall x, tf <= x < tf + 76 -> load8 (m_mem m2) x = load8 (m_mem m1) x) ->
       exists m3, steps prog m2 m3 /\ restored m3 (set_tf_eax 0 (tf_at k (p_tf (proc_at k cur)))) tf (s_ss (m_sg m2)).
Proof.
  intros ctx tf Ch [S1 S2 S3] Sw Hc Ht Ha Hb. destruct (ch_layout _ _ _ _ Ch) as [Hl _]. fold ctx in Hl, S1, S2. fold tf in Hl, S3. unfold sizeof_context in *.
  destruct (swtch_run m old ctx Sw) as (m1 & St & R & _ & _ & Hm & Hsg & _).
  assert (Hmem : forall x, ctx <= x < tf + 76 -> load8 (m_mem m1) x = load8 (m_mem m) x) by (intros x Hx; apply Hm; lia).
  pose proof (ch_context _ _ _ _ Ch) as Ec. fold ctx in Ec. assert (Hctx : context_at (m_mem m) ctx = mk_context 0 0 0 0 ld_forkret) by (apply (inj Some); by rewrite <- S1).
  rewrite Hctx in R. destruct R as (R1 & R2 & _). cbn [ctx_eip] in R1. exists m1. split; [done|]. split; [done|].
  assert (Htr : ld_trapret = place trapret_pos) by (rewrite la_trapret; apply (kernel_symbol _ _ _ trapret_code)).
  assert (Htop : top m1 = ld_trapret).
  { unfold top. rewrite R2, (load32_ext _ (m_mem m)) by (intros x Hx; apply Hmem; lia). rewrite S2. pose proof (ch_return _ _ _ _ Ch) as Er.
    fold ctx in Er. unfold sizeof_context in Er. rewrite Er, Htr. apply u32_small, LO. }
  split; [done|]. intros m2 [C1 C2 C3 C4] Hf. destruct (trapret_run m2 tf) as (m3 & S & R3 & _).
  - congruence.
  - lia.
  - pose proof (sw_new_range _ _ _ Sw). lia.
  - lia.
  - unfold cpl in *. by rewrite C3, Hsg.
  - exists m3. split; [done|]. rewrite <- (ch_tf _ _ _ _ Ch). fold tf. rewrite <- S3.
    rewrite <- (frame_at_ext (m_mem m2) (m_mem m)); [done|]. intros x Hx. rewrite Hf by done. apply Hmem. lia.
Qed.

End Kernel.

(** ** System calls *)

Lemma code_at_take prog n is_ : take (length is_) (drop n (text prog)) = is_ -> code_at prog n is_.
Proof. intros E j i Hj. rewrite <- lookup_drop. rewrite <- E in Hj. by apply lookup_take_Some in Hj as [Hj _]. Qed.

Definition stub_pos (name : string) : nat := default 0%nat (where_is (kernel_S ++ usys_S) name).

Lemma stubs_code : forallb (fun name => bool_decide (where_is (kernel_S ++ usys_S) name = Some (stub_pos name)
  /\ take 3 (drop (stub_pos name) (text (kernel_S ++ usys_S))) = text (SYSCALL name (SYS name)))) usys_names = true.
Proof. vm_compute. reflexivity. Qed.

Lemma SYS_word name : is_word (SYS name).
Proof.
  unfold SYS. destruct (list_to_map syscall_numbers !! name) as [z|] eqn:E; [|unfold is_word; simpl; lia]. simpl. apply elem_of_list_to_map_2 in E.
  assert (F : Forall (fun p : string * Z => is_word (snd p)) syscall_numbers) by (repeat (constructor; [unfold is_word; simpl; lia|]); constructor). rewrite Forall_forall in F. exact (F _ E).
Qed.

Section Stubs.
Context {HW : Hardware} {CPU : Processor} {LAY : Layout}.
Local Abbreviation prog := (kernel_S ++ usys_S).
Hypothesis LO : layout_ok prog.

Lemma stub_spec name : name ∈ usys_names -> symbol prog name = place (stub_pos name) /\ code_at prog (stub_pos name) (text (SYSCALL name (SYS name))).
Proof.
  intros Hn. pose proof stubs_code as H. rewrite forallb_forall in H. specialize (H name). rewrite <- list_elem_of_In in H. specialize (H Hn).
  apply bool_decide_eq_true in H as [E T]. split; [unfold symbol; by rewrite E|by apply code_at_take].
Qed.

(** Interrupts do not depend on the accumulator and the instruction pointer. *)
Lemma may_interrupt_at m soft n err v a : may_interrupt usys_S m soft n err -> is_word v -> is_word a -> may_interrupt usys_S (put_reg EAX v (set_eip a m)) soft n err.
Proof.
  intros [H1 H2 H3 H4 H5 H6 H7 [Hw Hh]] Hv Ha. assert (He : esp (entry_stack (put_reg EAX v (set_eip a m))) = esp (entry_stack m)).
  { unfold entry_stack. change (cpl (put_reg EAX v (set_eip a m))) with (cpl m). by destruct (cpl m =? 0). }
  split; try done; [by rewrite He|]. split; [|done]. repeat rewrite Forall_cons in *. tauto.
Qed.

(** C21: a system call returns to its caller.  The stub of usys.S for [name], called in user mode, reaches [trap] with a trap frame that has the number
    of the call in %eax and the stack pointer of the caller, so that its arguments are the words behind the return address.  When [trap] returns with
    the result [r] in %eax of the frame, the stub returns to its caller, with [r] in %eax and all other registers as at the call. *)
Theorem stub_calls (name : string) (m : machine) :
  name ∈ usys_names -> m_eip m = symbol prog name -> cpl m = 3 -> usable m -> may_interrupt usys_S m true T_SYSCALL None -> esp m + 4 < 2 ^ 32 ->
  exists m2 f, steps prog m m2 /\ m_eip m2 = symbol prog "trap" /\ load32 (m_mem m2) (esp m2 + 4) = tf_addr m
    /\ frame_at (m_mem m2) (tf_addr m) = f /\ tf_trapno f = T_SYSCALL /\ tf_eax f = SYS name /\ tf_esp f = esp m
    /\ forall m3 r, c_returned m2 m3 -> frame_at (m_mem m3) (tf_addr m) = set_tf_eax r f -> load32 (m_mem m3) (esp m) = top m ->
        exists m4, steps prog m3 m4 /\ m_eip m4 = top m /\ m_gp m4 = set_reg EAX r (set_reg ESP (esp m + 4) (m_gp m))
          /\ m_sg m4 = m_sg m /\ m_eflags m4 = m_eflags m.
Proof.
  intros Hn He Hc Hu MI Hs. destruct (stub_spec name Hn) as [Es Hcode]. rewrite Es in He. set (n := stub_pos name) in *.
  pose (m0 := put_reg EAX (u32 (SYS name)) (set_eip (place (2 + n)) m)). assert (Ev : u32 (SYS name) = SYS name) by apply u32_small, SYS_word.
  assert (MI0 : may_interrupt usys_S m0 true T_SYSCALL None) by (apply may_interrupt_at; [done|rewrite Ev; apply SYS_word|apply LO]).
  destruct (trap_entry_run usys_S LO m0 true T_SYSCALL None MI0) as (m1 & m2 & EI & St & En).
  assert (Et : tf_addr m0 = tf_addr m) by (unfold tf_addr, entry_stack; change (cpl m0) with (cpl m); by destruct (cpl m =? 0)).
  destruct (en_frame _ _ _ _ _ En) as (oesp & sp & ss & Ef & Hsp). destruct (Hsp Hc) as [-> ->].
  exists m2, (frame_of m0 T_SYSCALL 0 oesp (esp m) (s_ss (m_sg m))). rewrite <- Et. split; [|split; [apply En|split; [apply En|]]].
  { transitivity m1; [|done]. apply (block_steps prog [mov (imm (Num (SYS name))) (r32 EAX); int T_SYSCALL] n); [done| |done|done|].
    - intros j i Hj. apply Hcode. by do 2 (destruct j as [|j]; [exact Hj|]).
    - cbn [block exec read write mbind option_bind]. apply bind_Some. exists m1. split; [exact EI|done]. }
  split; [done|]. split; [done|]. split; [exact Ev|]. split; [done|]. intros m3 r C Efr Htop.
  destruct (exit_run usys_S LO m0 T_SYSCALL None m2 m3 (mi_regs _ _ _ _ _ MI0) (mi_cpl _ _ _ _ _ MI0) (mi_room _ _ _ _ _ MI0) En C) as (m4 & S4 & R4 & T4).
  rewrite Efr, (en_ss _ _ _ _ _ En) in R4. pose (mr := put_reg EAX r m0).
  assert (Em : tf_addr mr = tf_addr m0 /\ s_ss (m_sg (entry_stack mr)) = s_ss (m_sg (entry_stack m0))).
  { unfold tf_addr, entry_stack. change (cpl mr) with (cpl m0). by destruct (cpl m0 =? 0). }
  destruct Em as [Em1 Em2]. rewrite <- Em1, <- Em2 in R4.
  destruct (resumes mr T_SYSCALL 0 oesp (esp m) (s_ss (m_sg m)) m4) as (G & S & E & F); [by right|exact Hu| |done|exact R4|].
  { destruct T4 as (_ & -> & _). rewrite (cr_gdt _ _ C). apply (en_tables _ _ _ _ _ En). }
  assert (Hr : text prog !! (2 + n)%nat = Some ret_) by (rewrite Nat.add_comm; exact (Hcode 2%nat _ eq_refl)).
  eexists. split; [eapply rtc_r; [exact S4|]; rewrite (step_at prog _ _ m4 LO Hr E); reflexivity|].
  assert (Et4 : esp m4 = esp m) by (unfold esp; by rewrite G). split; [|split; [|done]].
  - change (load32 (m_mem m4) (esp m4) = top m). rewrite Et4. destruct T4 as (-> & _). exact Htop.
  - change (set_reg ESP (u32 (esp m4 + 4)) (m_gp m4) = set_reg EAX r (set_reg ESP (esp m + 4) (m_gp m))). rewrite Et4, G, u32_small; [done|].
    pose proof (mi_regs _ _ _ _ _ MI) as [Hw _]. repeat rewrite Forall_cons in Hw. unfold esp, is_word in *. lia.
Qed.

End Stubs.

(** ** The first program (initcode.S) *)

Definition start_pos : nat := default 0%nat (where_is (kernel_S ++ initcode_S) "start").
Lemma initcode_code : bool_decide (where_is (kernel_S ++ initcode_S) "start" = Some start_pos /\ where_is (kernel_S ++ initcode_S) "exit" = Some (5 + start_pos)%nat
  /\ take 8 (drop start_pos (text (kernel_S ++ initcode_S))) = text initcode_S) = true.
Proof. vm_compute. reflexivity. Qed.

Section Initcode.
Context {HW : Hardware} {CPU : Processor} {LAY : Layout}.
Local Abbreviation prog := (kernel_S ++ initcode_S).
Hypothesis LO : layout_ok prog.

Lemma may_interrupt_ext m m' soft n err : may_interrupt initcode_S m soft n err -> m_idt m' = m_idt m -> m_gdt m' = m_gdt m -> m_sg m' = m_sg m ->
  esp (entry_stack m') = esp (entry_stack m) -> regs_ok m' -> may_interrupt initcode_S m' soft n err.
Proof.
  intros [H1 H2 H3 H4 H5 H6 H7 H8] Ei Eg Es Ee Hr. unfold seg_dpl, cpl in *. split; rewrite ?Ei, ?Ee; unfold seg_dpl, cpl; rewrite ?Eg, ?Es; done.
Qed.

Lemma initcode_pushes n m : let m1 := push (value_of prog (Num 0)) (push (value_of prog (Sym "init" 0)) (push (value_of prog (Sym "argv" 0)) m)) in
  exists m', block prog n [pushl (imm (Sym "argv" 0)); pushl (imm (Sym "init" 0)); pushl (imm (Num 0)); mov (imm (Num (SYS "exec"))) (r32 EAX)] m = Some m'
    /\ esp m' = esp m1 /\ m_mem m' = m_mem m1 /\ m_gp m' = set_reg EAX (u32 (SYS "exec")) (set_reg ESP (esp m1) (m_gp m)) /\ m_sg m' = m_sg m /\ m_eflags m' = m_eflags m
    /\ m_eip m' = place (4 + n) /\ tables_same m m'.
Proof. intros m1. eexists. split; [reflexivity|]. repeat split. Qed.

(** The first process, started at the beginning of initcode.S in user mode, makes the system call [exec] with the addresses of the path and of the
    arguments as its arguments. *)
Theorem initcode_execs (m : machine) :
  m_eip m = symbol prog "start" -> cpl m = 3 -> may_interrupt initcode_S m true T_SYSCALL None -> room 3 m -> esp m <= m_esp0 m - 84 ->
  exists m2, steps prog m m2 /\ m_eip m2 = symbol prog "trap" /\ load32 (m_mem m2) (esp m2 + 4) = tf_addr m
    /\ (let f := frame_at (m_mem m2) (tf_addr m) in tf_trapno f = T_SYSCALL /\ tf_eax f = SYS "exec" /\ tf_esp f = esp m - 12)
    /\ words (m_mem m2) (esp m - 12) 3 = [0; u32 (symbol prog "init"); u32 (symbol prog "argv")].
Proof.
  intros He Hc MI Hr Hs. pose proof initcode_code as H. apply bool_decide_eq_true in H as (E1 & _ & Ht). unfold symbol in He. rewrite E1 in He.
  destruct (initcode_pushes start_pos m) as (m1 & B & Es & Em & Eg & Esg & Ef & Ee & T). set (mp := push _ _) in Es, Em, Eg. unfold room in Hr.
  assert (P : pushed [0; u32 (symbol prog "init"); u32 (symbol prog "argv")] m mp).
  { unfold mp. cbn [value_of]. rewrite !Z.add_0_r. change (u32 0) with 0.
    repeat (apply pushed_next; [unfold room; simpl; lia| |first [apply u32_bounds | (unfold is_word; lia)]]). apply pushed_nil. }
  pose (m1' := set_eip (place (5 + start_pos)) m1). apply (pushed_ext _ _ _ m1') in P; [|done|done]. pose proof (pd_esp _ _ _ P) as Ep. simpl in Ep.
  assert (Hx : cpl m1' = cpl m) by (unfold cpl; change (m_sg m1') with (m_sg m1); by rewrite Esg). destruct T as (T1 & T2 & T3 & T4 & T5 & T6).
  assert (Ees : esp (entry_stack m1') = esp (entry_stack m)) by (unfold entry_stack; rewrite Hx, Hc; exact T4).
  assert (Etf : tf_addr m1' = tf_addr m) by (unfold tf_addr; by rewrite Ees, Hx).
  assert (MI1 : may_interrupt initcode_S m1' true T_SYSCALL None).
  { apply (may_interrupt_ext m); [done|done|done|done|done|]. destruct (mi_regs _ _ _ _ _ MI) as [Hw Hh]. split; [|change (m_sg m1') with (m_sg m1); by rewrite Esg].
    change (m_gp m1') with (m_gp m1). change (m_eip m1') with (place (5 + start_pos)). change (m_eflags m1') with (m_eflags m1). rewrite Eg, Ef.
    cbn [set_reg r_eax r_ecx r_edx r_ebx r_esp r_ebp r_esi r_edi]. rewrite <- Es. change (esp m1) with (esp m1'). rewrite Ep.
    repeat rewrite Forall_cons in *. pose proof (lay_range _ LO (5 + start_pos)). pose proof (u32_bounds (SYS "exec")). unfold is_word in *. intuition lia. }
  destruct (trap_entry_run initcode_S LO m1' true T_SYSCALL None MI1) as (m2 & m3 & EI & St & En). exists m3. split.
  { transitivity m2; [|done]. apply (block_steps prog (take 5 (text initcode_S)) start_pos); [done| |done|done|].
    - apply code_at_take. change (length (take 5 (text initcode_S))) with 5%nat. rewrite <- Ht, !take_take. done.
    - change (take 5 (text initcode_S)) with ([pushl (imm (Sym "argv" 0)); pushl (imm (Sym "init" 0)); pushl (imm (Num 0)); mov (imm (Num (SYS "exec"))) (r32 EAX)] ++ [int T_SYSCALL]).
      rewrite block_app, B. cbn [mbind option_bind block exec]. apply bind_Some. exists m2. split; [exact EI|done]. }
  rewrite <- Etf. split; [apply En|]. split; [apply En|]. split.
  - destruct (en_frame _ _ _ _ _ En) as (oesp & sp & ss & Efr & Hsp). rewrite Efr. rewrite Hx in Hsp. destruct (Hsp Hc) as [-> ->]. cbn [frame_of tf_trapno tf_eax tf_esp].
    split; [done|]. split; [|lia]. change (m_gp m1') with (m_gp m1). rewrite Eg. apply u32_small, SYS_word.
  - replace (esp m - 12) with (esp m1') by lia. rewrite (words_ext _ (m_mem m1')); [exact (pd_words _ _ _ P 0%nat)|].
    intros x Hxx. apply (en_mem _ _ _ _ _ En). rewrite (en_esp _ _ _ _ _ En), Etf. unfold tf_addr, entry_stack. rewrite Hc. cbn. lia.
Qed.

End Initcode.

(** ** Examples *)

(** A processor that writes the low half of a pushed selector, and one word for each instruction. *)
#[local] Instance example_cpu : Processor := {| sel_zext := false; aux_logic := fun _ => false |}.
#[local] Instance example_layout : Layout := {| place := fun n => 0x80100000 + 4 * Z.of_nat (n mod 4096); extern := fun _ => 0x80106000 |}.

Lemma example_layout_ok prog : (length (text prog) <=? 4096)%nat = true -> layout_ok prog.
Proof.
  intros Hl%Nat.leb_le. split.
  - intros i j Hi Hj E. unfold place, example_layout in E. rewrite !Nat.mod_small in E by lia. lia.
  - intros n. unfold place, example_layout. pose proof (Nat.mod_upper_bound n 4096 ltac:(lia)). lia.
Qed.

Lemma example_kernel_ok : layout_ok (kernel_S ++ []).
Proof. apply example_layout_ok. vm_compute. reflexivity. Qed.
Lemma example_usys_ok : layout_ok (kernel_S ++ usys_S).
Proof. apply example_layout_ok. vm_compute. reflexivity. Qed.

Definition example_gdt : gmap Z segdesc :=
  list_to_map [(1, SEG (Z.lor STA_X STA_R) 0 0xffffffff 0); (2, SEG STA_W 0 0xffffffff 0);
               (3, SEG (Z.lor STA_X STA_R) 0 0xffffffff DPL_USER); (4, SEG STA_W 0 0xffffffff DPL_USER)].

(** A program in user mode, about to execute the instruction at [eip]. *)
Definition example_user (eip : Z) (gates : gmap Z gatedesc) : machine :=
  mk_machine (mk_gpr 1 2 3 4 0x2ff0 5 6 7) (mk_segs 0x1b 0x23 0x23 0 0 0x23) (mk_cregs 0x80010011 0x1000 0x10) eip 0x202
    example_gdt gates 0x10 0x8011d000 (store32 0x2ff0 0x44 ∅) [].

Lemma example_may `{Hardware} user eip k' soft n err : is_word eip -> (forall i, 0 <= i < 256 -> idt (k_hw k') !! i = Some (gate_of user i)) ->
  0 <= n < 256 -> (soft = true -> n = T_SYSCALL) -> match err with Some e => has_errcode n = true /\ is_word e | None => has_errcode n = false end ->
  may_interrupt user (example_user eip (idt (k_hw k'))) soft n err.
Proof.
  intros He Hg Hn Hs Hr. split; try done.
  - intros E. right. by apply Hs.
  - by right.
  - split; repeat (constructor; [first [exact He | (unfold is_word, is_half; simpl; lia)]|]); constructor.
Qed.

Lemma example_usable eip gates : usable (example_user eip gates).
Proof. intros _. apply Forall_forall. intros s Hs. repeat (apply elem_of_cons in Hs as [->|Hs]; [first [by left; vm_compute | right; by vm_compute]|]). by apply not_elem_of_nil in Hs. Qed.

#[local] Instance no_devices : Hardware := {| hw_in := fun _ _ => 0; hw_ins := fun _ _ _ => []; hw_read := fun _ _ => 0; hw_patience := 0 |}.

(** A page fault in user mode. *)
Lemma trap_transparent_witness : exists k' m1 m2, let m := example_user 0x1000 (idt (k_hw k')) in
  tvinit (fun i => symbol kernel_S (vector_label i)) (boot_state [] ∅ 0) [] = Done tt k' []
  /\ interrupt false 14 (Some 6) m = Some m1 /\ steps kernel_S m1 m2 /\ tf_addr m = 0x8011cfb4
  /\ tf_trapno (frame_at (m_mem m2) (tf_addr m)) = 14 /\ tf_err (frame_at (m_mem m2) (tf_addr m)) = 6 /\ tf_eip (frame_at (m_mem m2) (tf_addr m)) = 0x1000.
Proof.
  destruct (tvinit_idt [] (boot_state [] ∅ 0) []) as (k' & E & Hg). rewrite app_nil_r in E.
  destruct (trap_transparent [] example_kernel_ok (example_user 0x1000 (idt (k_hw k'))) false 14 (Some 6)) as (m1 & m2 & EI & St & En & _).
  - apply example_may; done.
  - rewrite app_nil_r in St. exists k', m1, m2. cbv zeta. split; [exact E|]. split; [exact EI|]. split; [exact St|]. split; [reflexivity|].
    destruct (en_frame _ _ _ _ _ En) as (? & ? & ? & -> & _). repeat split.
Defined.

(** The call of [read]. *)
Lemma stub_calls_witness : exists k' m2, let m := example_user (symbol (kernel_S ++ usys_S) "read") (idt (k_hw k')) in
  tvinit (fun i => symbol (kernel_S ++ usys_S) (vector_label i)) (boot_state [] ∅ 0) [] = Done tt k' []
  /\ steps (kernel_S ++ usys_S) m m2 /\ tf_trapno (frame_at (m_mem m2) (tf_addr m)) = T_SYSCALL
  /\ tf_eax (frame_at (m_mem m2) (tf_addr m)) = 5 /\ tf_esp (frame_at (m_mem m2) (tf_addr m)) = 0x2ff0.
Proof.
  destruct (tvinit_idt usys_S (boot_state [] ∅ 0) []) as (k' & E & Hg). set (m := example_user (symbol (kernel_S ++ usys_S) "read") (idt (k_hw k'))).
  destruct (stub_calls example_usys_ok "read" m) as (m2 & f & St & _ & _ & Ef & H1 & H2 & H3 & _).
  - by vm_compute; repeat constructor.
  - reflexivity.
  - reflexivity.
  - apply example_usable.
  - apply example_may; done.
  - reflexivity.
  - exists k', m2. cbv zeta. fold m. split; [exact E|]. split; [exact St|]. rewrite Ef. split; [exact H1|]. split; [exact H2|exact H3].
Defined.

(** The memory of two threads of the kernel. *)
Definition store_words (a : Z) (ws : list Z) (mem : gmap Z Z) : gmap Z Z := foldr (fun '(i, w) m => store32 (a + 4 * Z.of_nat i) w m) mem (imap pair ws).

Definition example_threads : machine :=
  mk_machine (mk_gpr 1 2 3 4 0x8011cf00 5 6 7) (mk_segs 8 0x10 0x10 0 0 0x10) (mk_cregs 0x80010011 0x1000 0x10) (symbol kernel_S "swtch") 2 example_gdt ∅ 0x10 0x8011d000
    (store_words 0x8011cf00 [0x80103000; 0x80112000; 0x8011b000] (store_words 0x8011b000 [11; 12; 13; 14; 0x80104000] ∅)) [].

Lemma swtch_returns_witness : exists m2, steps kernel_S example_threads m2 /\ m_eip m2 = 0x80104000 /\ r_ebx (m_gp m2) = 13 /\ esp m2 = 0x8011b014.
Proof.
  destruct (swtch_returns [] example_kernel_ok example_threads 0x80112000 0x8011b000) as (m2 & St & (R1 & R2 & R3 & R4 & R5 & R6) & _).
  - split; unfold room, is_word; change (esp example_threads) with 0x8011cf00; try lia; try (vm_compute; reflexivity). simpl. lia.
  - rewrite app_nil_r in St. exists m2. split; [exact St|]. split; [rewrite R1; by vm_compute|]. split; [rewrite R5; by vm_compute|rewrite R2; by vm_compute].
Defined.

(** A child that [fork] has made, on the stack page [0x80200000]. *)
#[local] Instance example_linker : Linker :=
  {| ld_end := 0x801164d0; ld_data := 0x80109000; ld_forkret := extern "forkret"; ld_trapret := place trapret_pos; ld_cpus := 0x801127a0 |}.
#[local] Instance example_linked : LinkedAsm [].
Proof. split; vm_compute; reflexivity. Qed.

Definition example_frame : trapframe := mk_trapframe 1 2 3 0 4 5 6 1 0 0 0x23 0x23 64 0 0x1004 0x1b 0x202 0x2ff0 0x23.
Definition example_parent : kstate := set_k_tf {[0x8011bfb4 := example_frame]} fork_base.
Definition example_child : kstate :=
  upd_proc 1 (fun r => set_p_parent (Some 0%nat) (set_p_state RUNNABLE (set_p_pid 2 (set_p_kstack 0x80200000 (set_p_tf 0x80200fb4 (set_p_context 0x80200f9c fork_process))))))
    (set_k_ctx {[0x80200f9c := mk_context 0 0 0 0 (extern "forkret")]} (set_k_mem (store32 0x80200fb0 (place trapret_pos) ∅)
      (set_k_tf (<[0x80200fb4 := set_tf_eax 0 example_frame]> (k_tf example_parent)) example_parent))).

Definition example_scheduler : machine :=
  mk_machine (mk_gpr 1 2 3 4 0x8011cf00 5 6 7) (mk_segs 8 0x10 0x10 0 0 0x10) (mk_cregs 0x80010011 0x1000 0x10) (symbol kernel_S "swtch") 2 example_gdt ∅ 0x10 0x80201000
    (store_words 0x8011cf00 [0x80103000; 0x80112000; 0x80200f9c]
      (store_words 0x80200f9c [0; 0; 0; 0; extern "forkret"; place trapret_pos; 1; 2; 3; 0; 4; 5; 6; 0; 0; 0; 0x23; 0x23; 64; 0; 0x1004; 0x1b; 0x202; 0x2ff0; 0x23] ∅)) [].

Lemma child_enters_user_witness : exists m1 m3, steps kernel_S example_scheduler m1 /\ m_eip m1 = ld_forkret
  /\ steps kernel_S (set_eip (top m1) (put_reg ESP (esp m1 + 4) m1)) m3
  /\ m_eip m3 = 0x1004 /\ s_cs (m_sg m3) = 0x1b /\ m_gp m3 = mk_gpr 0 6 5 4 0x2ff0 3 2 1.
Proof.
  destruct (child_enters_user [] example_kernel_ok example_parent example_child 0 1 example_scheduler 0x80112000) as (m1 & St & E1 & _ & H).
  - split; vm_compute; try reflexivity; [split; congruence|split; reflexivity].
  - split; vm_compute; reflexivity.
  - change (p_context (proc_at example_child 1)) with 0x80200f9c.
    split; unfold room, is_word; change (esp example_scheduler) with 0x8011cf00; try lia; try (vm_compute; reflexivity). simpl. lia.
  - reflexivity.
  - by vm_compute.
  - right. by vm_compute.
  - left. by vm_compute.
  - destruct (H (set_eip (top m1) (put_reg ESP (esp m1 + 4) m1))) as (m3 & S3 & [R1 _ R3 R4 _ _]); [done|done|].
    rewrite app_nil_r in St, S3. exists m1, m3. split; [exact St|]. split; [exact E1|]. split; [exact S3|].
    split; [rewrite R1; vm_compute; reflexivity|]. split; [rewrite R4; vm_compute; reflexivity|rewrite R3; vm_compute; reflexivity].
Defined.
