(* ===== verification/BootAsm.v ===== *)
(** * Entering protected mode (bootasm.S, entryother.S, entry.S)

    The code with which the boot processor, and later the other processors, come from real mode to the C code of the boot
    loader and of the kernel. *)

From stdpp Require Import base gmap list strings relations.
From Stdlib Require Import ZArith Lia.
From S2P Require Import Prelude State Memory Bytes Segment Devices I386 Asm.

(** The macros of asm.h: the bytes of a descriptor. *)
Definition SEG_NULLASM : list Z := [0; 0; 0; 0; 0; 0; 0; 0].
Definition SEG_ASM (type base lim : Z) : list Z :=
  le_bytes 2 (Z.land (Z.shiftr lim 12) 0xffff) ++ le_bytes 2 (Z.land base 0xffff)
  ++ [Z.land (Z.shiftr base 16) 0xff; Z.lor 0x90 type; Z.lor 0xC0 (Z.land (Z.shiftr lim 28) 0xf); Z.land (Z.shiftr base 24) 0xff].

(** The data of both files: [gdt], and [gdtdesc] when [gdt] lies at [a]. *)
Definition boot_gdt : list Z := SEG_NULLASM ++ SEG_ASM (Z.lor STA_X STA_R) 0 0xffffffff ++ SEG_ASM STA_W 0 0xffffffff.
Definition boot_gdtdesc (a : Z) : list Z := le_bytes 2 (24 - 1) ++ le_bytes 4 a.

Definition bootasm_S : list line :=
  [Label "start";
   Ins cli_;
   Ins (xorw EAX EAX);
   Ins (mov (r16 EAX) (sr DS));
   Ins (mov (r16 EAX) (sr ES));
   Ins (mov (r16 EAX) (sr SS));
   Label "seta20.1";
   Ins (inb_al 0x64);
   Ins (testb 0x2 EAX);
   Ins (jnz "seta20.1");
   Ins (mov (imm (Num 0xd1)) (r8 EAX));
   Ins (outb_al 0x64);
   Label "seta20.2";
   Ins (inb_al 0x64);
   Ins (testb 0x2 EAX);
   Ins (jnz "seta20.2");
   Ins (mov (imm (Num 0xdf)) (r8 EAX));
   Ins (outb_al 0x60);
   Ins (lgdt_ "gdtdesc");
   Ins (mov (cr CR0) (r32 EAX));
   Ins (orl CR0_PE EAX);
   Ins (mov (r32 EAX) (cr CR0));
   Ins (ljmp (Z.shiftl SEG_KCODE 3) "start32");
   Label "start32";
   Ins (mov (imm (Num (Z.shiftl SEG_KDATA 3))) (r16 EAX));
   Ins (mov (r16 EAX) (sr DS));
   Ins (mov (r16 EAX) (sr ES));
   Ins (mov (r16 EAX) (sr SS));
   Ins (mov (imm (Num 0)) (r16 EAX));
   Ins (mov (r16 EAX) (sr FS));
   Ins (mov (r16 EAX) (sr GS));
   Ins (mov (imm (Sym "start" 0)) (r32 ESP));
   Ins (call "bootmain");
   Ins (mov (imm (Num 0x8a00)) (r16 EAX));
   Ins (mov (r16 EAX) (r16 EDX));
   Ins outw_dx;
   Ins (mov (imm (Num 0x8ae0)) (r16 EAX));
   Ins outw_dx;
   Label "spin";
   Ins (jmp "spin")].

Definition entryother_S : list line :=
  [Label "start";
   Ins cli_;
   Ins (xorw EAX EAX);
   Ins (mov (r16 EAX) (sr DS));
   Ins (mov (r16 EAX) (sr ES));
   Ins (mov (r16 EAX) (sr SS));
   Ins (lgdt_ "gdtdesc");
   Ins (mov (cr CR0) (r32 EAX));
   Ins (orl CR0_PE EAX);
   Ins (mov (r32 EAX) (cr CR0));
   Ins (ljmp (Z.shiftl SEG_KCODE 3) "start32");
   Label "start32";
   Ins (mov (imm (Num (Z.shiftl SEG_KDATA 3))) (r16 EAX));
   Ins (mov (r16 EAX) (sr DS));
   Ins (mov (r16 EAX) (sr ES));
   Ins (mov (r16 EAX) (sr SS));
   Ins (mov (imm (Num 0)) (r16 EAX));
   Ins (mov (r16 EAX) (sr FS));
   Ins (mov (r16 EAX) (sr GS));
   Ins (mov (cr CR4) (r32 EAX));
   Ins (orl CR4_PSE EAX);
   Ins (mov (r32 EAX) (cr CR4));
   Ins (mov (at_sym (Sym "start" (-12))) (r32 EAX));
   Ins (mov (r32 EAX) (cr CR3));
   Ins (mov (cr CR0) (r32 EAX));
   Ins (orl (Z.lor CR0_PE (Z.lor CR0_PG CR0_WP)) EAX);
   Ins (mov (r32 EAX) (cr CR0));
   Ins (mov (at_sym (Sym "start" (-4))) (r32 ESP));
   Ins (call_to (at_sym (Sym "start" (-8))));
   Ins (mov (imm (Num 0x8a00)) (r16 EAX));
   Ins (mov (r16 EAX) (r16 EDX));
   Ins outw_dx;
   Ins (mov (imm (Num 0x8ae0)) (r16 EAX));
   Ins outw_dx;
   Label "spin";
   Ins (jmp "spin")].

(** ** Flags and parts of registers *)

Lemma testbit_set_flag n b fl i : 0 <= n -> 0 <= i -> Z.testbit (set_flag n b fl) i = if decide (n = i) then b else Z.testbit fl i.
Proof.
  intros Hn Hi. unfold set_flag. destruct b, (decide (n = i)) as [->|Hne].
  - by apply Z.setbit_eq.
  - by apply Z.setbit_neq.
  - by apply Z.clearbit_eq.
  - by apply Z.clearbit_neq.
Qed.

Lemma status_zf tb cf af ovf r fl : Z.testbit (status tb cf af ovf r fl) 6 = (r =? 0).
Proof. unfold status. by rewrite !testbit_set_flag by lia. Qed.

Lemma status_if tb cf af ovf r fl : Z.testbit (status tb cf af ovf r fl) 9 = Z.testbit fl 9.
Proof. unfold status. by rewrite !testbit_set_flag by lia. Qed.

Lemma low16 w v : u16 (w - u16 w + u16 v) = u16 v.
Proof. unfold u16. change (2 ^ 16) with 65536. div_lia. Qed.

Lemma low8 w v : u8 (w - u8 w + u8 v) = u8 v.
Proof. unfold u8. div_lia. Qed.

Lemma u8_byte v : 0 <= v < 256 -> u8 v = v.
Proof. intros H. by apply Z.mod_small. Qed.

Lemma load32_moved m m' a b : (forall i, 0 <= i < 4 -> load8 m (a + i) = load8 m' (b + i)) -> load32 m a = load32 m' b.
Proof. intros H. unfold load32. f_equal. apply list_fmap_ext. intros j x [-> Hx]%lookup_seq. apply H. lia. Qed.

(** ** The A20 line

    The keyboard controller, asked often enough, is ready for a command. *)
Fixpoint poll_log `{Hardware} (k : nat) (io : list io_event) : list io_event :=
  match k with O => io | S k => poll_log k (Port_in 0x64 (u8 (hw_in io 0x64)) :: io) end.
Definition controller_ready `{Hardware} : Prop := forall io, exists k, Z.land (u8 (hw_in (poll_log k io) 0x64)) 2 = 0.

Definition is_out (ev : io_event) : bool := match ev with Port_out _ _ => true | _ => false end.
Definition outs (io : list io_event) : list io_event := filter (fun ev => is_out ev = true) io.

(** What stays in the code that sets up the machine, and that interrupts are off. *)
Record quiet (m m' : machine) : Prop := {
  q_sg : m_sg m' = m_sg m;
  q_cr : m_cr m' = m_cr m;
  q_gdt : m_gdt m' = m_gdt m;
  q_mem : m_mem m' = m_mem m;
  q_if : Z.testbit (m_eflags m') 9 = Z.testbit (m_eflags m) 9
}.

Lemma quiet_refl m : quiet m m.
Proof. done. Qed.
Lemma quiet_trans m m' m'' : quiet m m' -> quiet m' m'' -> quiet m m''.
Proof. intros [] []. split; congruence. Qed.

Section BootAsm.
Context {HW : Hardware} {CPU : Processor} {LAY : Layout}.

Lemma symbol_at prog l n : where_is prog l = Some n -> symbol prog l = place n.
Proof. intros E. unfold symbol. by rewrite E. Qed.

Section Program.
Variable prog : list line.
Hypothesis LO : layout_ok prog.

Lemma poll_once p l m : cpl m = 0 -> let v := u8 (hw_in (m_io m) 0x64) in
  exists m', block prog p [inb_al 0x64; testb 0x2 EAX; jnz l] m = Some m' /\ quiet m m' /\ m_io m' = Port_in 0x64 v :: m_io m
    /\ m_eip m' = if Z.land v 2 =? 0 then place (3 + p) else symbol prog l.
Proof.
  intros Hc v. cbn [block exec mbind option_bind]. unfold privileged. change (cpl (set_eip ?a m)) with (cpl m). rewrite Hc. cbn [Z.eqb].
  set (w := r_eax (m_gp (set_eip (place (S p)) m))). assert (Ev : u8 (w - u8 w + v) = v).
  { unfold v. replace (u8 (hw_in (m_io m) 0x64)) with (u8 (u8 (hw_in (m_io m) 0x64))) at 1 by (unfold u8; apply Zmod_mod). rewrite low8. unfold u8. apply Zmod_mod. }
  eexists. split; [reflexivity|]. cbn -[status u8 symbol place Z.testbit]. fold v. rewrite Ev, !status_zf.
  destruct (Z.land v 2 =? 0); (split; [split; try done; apply status_if|done]).
Qed.

(** The loop ends when the controller is ready. *)
Lemma seta20 k p l : code_at prog p [inb_al 0x64; testb 0x2 EAX; jnz l] -> symbol prog l = place p -> forall m,
  m_eip m = place p -> cpl m = 0 -> Z.land (u8 (hw_in (poll_log k (m_io m)) 0x64)) 2 = 0 ->
  exists m', steps prog m m' /\ m_eip m' = place (3 + p) /\ quiet m m' /\ outs (m_io m') = outs (m_io m).
Proof.
  intros Hc Hl. induction k as [|k IH]; intros m He Hp Hk; destruct (poll_once p l m Hp) as (m' & B & Q & Ei & Ee);
    assert (St : steps prog m m') by (by apply (block_steps prog [inb_al 0x64; testb 0x2 EAX; jnz l] p)).
  - simpl in Hk. rewrite Hk in Ee. exists m'. split; [done|]. split; [done|]. split; [done|]. by rewrite Ei.
  - destruct (Z.land (u8 (hw_in (m_io m) 100)) 2 =? 0); [exists m'; split; [done|]; split; [done|]; split; [done|]; by rewrite Ei|].
    rewrite Hl in Ee. destruct (IH m' Ee) as (m'' & St' & Ee' & Q' & Ho).
    + unfold cpl. by rewrite (q_sg _ _ Q).
    + rewrite Ei. exact Hk.
    + exists m''. split; [by transitivity m'|]. split; [done|]. split; [by eapply quiet_trans|]. rewrite Ho, Ei. done.
Qed.

End Program.

(** ** bootasm.S *)

(** The boot sector is in memory, with its data. *)
Record boot_loaded (prog : list line) (mem : gmap Z Z) : Prop := {
  bl_gdt : load_bytes mem (symbol prog "gdt") 24 = boot_gdt;
  bl_gdtdesc : load_bytes mem (symbol prog "gdtdesc") 6 = boot_gdtdesc (symbol prog "gdt");
  bl_range : 0 <= symbol prog "gdt" < 2 ^ 20
}.

Lemma load_bytes_part m a n l i k : load_bytes m a n = l -> (i + k <= n)%nat -> load_bytes m (a + Z.of_nat i) k = take k (drop i l).
Proof.
  intros <- H. apply list_eq. intros j. destruct (decide (j < k)%nat) as [Hj|Hj].
  - rewrite lookup_load_bytes, lookup_take_lt, lookup_drop, lookup_load_bytes by lia. f_equal. f_equal. lia.
  - rewrite !lookup_ge_None_2; [done| |]; rewrite ?length_take, ?length_load_bytes; lia.
Qed.

(** The segments of the boot code: flat, and those of [seginit]. *)
Lemma read_boot_gdt prog mem : boot_loaded prog mem ->
  read_gdt mem (le_val (load_bytes mem (symbol prog "gdtdesc") 2)) (le_val (load_bytes mem (symbol prog "gdtdesc" + 2) 3)) !! SEG_KCODE
    = Some (SEG (Z.lor STA_X STA_R) 0 0xffffffff 0)
  /\ read_gdt mem (le_val (load_bytes mem (symbol prog "gdtdesc") 2)) (le_val (load_bytes mem (symbol prog "gdtdesc" + 2) 3)) !! SEG_KDATA
    = Some (SEG STA_W 0 0xffffffff 0).
Proof.
  intros [Hg Hd Hr]. set (g := symbol prog "gdt") in *. set (d := symbol prog "gdtdesc") in *.
  assert (E1 : le_val (load_bytes mem d 2) = 23) by (pose proof (load_bytes_part mem d 6 _ 0 2 Hd ltac:(lia)) as E; rewrite Z.add_0_r in E; by rewrite E).
  assert (E2 : le_val (load_bytes mem (d + 2) 3) = g).
  { change (d + 2) with (d + Z.of_nat 2). rewrite (load_bytes_part mem d 6 _ 2 3 Hd) by lia. change (take 3 _) with (le_bytes 3 g). rewrite le_val_bytes. apply Z.mod_small. simpl. lia. }
  rewrite E1, E2. unfold read_gdt. change (seqZ 0 ((23 + 1) / 8)) with [0; 1; 2]. cbn [fmap list_fmap list_to_map foldr uncurry fst snd].
  unfold SEG_KCODE, SEG_KDATA. rewrite (lookup_insert_ne _ 0 1), lookup_insert_eq, (lookup_insert_ne _ 0 2), (lookup_insert_ne _ 1 2), lookup_insert_eq by done.
  change (g + 8 * 1) with (g + Z.of_nat 8). change (g + 8 * 2) with (g + Z.of_nat 16).
  rewrite (load_bytes_part mem g 24 _ 8 8 Hg), (load_bytes_part mem g 24 _ 16 8 Hg) by lia. split; reflexivity.
Qed.

#[local] Opaque status symbol place u32 load32 store32 u16 u8.

(** The parts that both files have: real mode, the change to protected mode, and the data segments. *)
Section Parts.
Variable prog : list line.

Lemma real_mode n m : s_cs (m_sg m) = 0 \/ s_cs (m_sg m) = 0x700 ->
  exists m', block prog n [cli_; xorw EAX EAX; mov (r16 EAX) (sr DS); mov (r16 EAX) (sr ES); mov (r16 EAX) (sr SS)] m = Some m'
    /\ s_cs (m_sg m') = s_cs (m_sg m) /\ Z.testbit (m_eflags m') 9 = false /\ m_eip m' = place (5 + n) /\ m_mem m' = m_mem m /\ m_io m' = m_io m /\ m_cr m' = m_cr m.
Proof.
  destruct m as [g [cs ds es fs gs ss] c ip fl gd id s0 e0 mem io]. simpl.
  intros [-> | ->]; (eexists; split; [reflexivity|]; split; [done|]; split; [|done]; etrans; [apply status_if|]; exact (Z.clearbit_eq fl 9)).
Qed.

Lemma protected_mode n m : s_cs (m_sg m) = 0 \/ s_cs (m_sg m) = 0x700 ->
  exists m', block prog n [lgdt_ "gdtdesc"; mov (cr CR0) (r32 EAX); orl CR0_PE EAX; mov (r32 EAX) (cr CR0); ljmp (Z.shiftl SEG_KCODE 3) "start32"] m = Some m'
    /\ s_cs (m_sg m') = 8 /\ m_eip m' = symbol prog "start32" /\ m_cr m' = set_creg CR0 (Z.lor (c_cr0 (m_cr m)) (u32 CR0_PE)) (m_cr m)
    /\ m_gdt m' = read_gdt (m_mem m) (le_val (load_bytes (m_mem m) (symbol prog "gdtdesc") 2)) (le_val (load_bytes (m_mem m) (symbol prog "gdtdesc" + 2) 3))
    /\ Z.testbit (m_eflags m') 9 = Z.testbit (m_eflags m) 9 /\ m_mem m' = m_mem m /\ m_io m' = m_io m.
Proof.
  destruct m as [g [cs ds es fs gs ss] c ip fl gd id s0 e0 mem io]. simpl.
  intros [-> | ->]; (eexists; split; [reflexivity|]; repeat split; apply status_if).
Qed.

Lemma data_segments n m : let m' := block prog n [mov (imm (Num (Z.shiftl SEG_KDATA 3))) (r16 EAX); mov (r16 EAX) (sr DS); mov (r16 EAX) (sr ES); mov (r16 EAX) (sr SS);
    mov (imm (Num 0)) (r16 EAX); mov (r16 EAX) (sr FS); mov (r16 EAX) (sr GS)] m in
  exists eax, m' = Some (put_reg EAX eax (set_eip (place (7 + n)) (set_sg (mk_segs (s_cs (m_sg m)) 0x10 0x10 0 0 0x10) m))).
Proof.
  intros m'. set (w := r_eax (m_gp m)). set (w1 := w - u16 w + u16 (u32 (Z.shiftl SEG_KDATA 3))). set (w2 := w1 - u16 w1 + u16 (u32 0)).
  assert (E1 : u16 (u16 w1) = 0x10) by (unfold w1; rewrite low16; reflexivity). assert (E2 : u16 (u16 w2) = 0) by (unfold w2; rewrite low16; reflexivity).
  exists w2. rewrite <- E1 at 1 2 3. rewrite <- E2. reflexivity.
Qed.

Lemma send_command n v port m : s_cs (m_sg m) = 0 -> 0 <= v < 256 ->
  exists m', block prog n [mov (imm (Num v)) (r8 EAX); outb_al port] m = Some m'
    /\ quiet m m' /\ m_io m' = Port_out port v :: m_io m /\ m_eip m' = place (2 + n).
Proof.
  destruct m as [g [cs ds es fs gs ss] c ip fl gd id s0 e0 mem io]. simpl. intros -> Hv.
  set (w := r_eax g). assert (E : u8 (w - u8 w + u8 (u32 v)) = v) by (rewrite low8, (u32_small v) by lia; by apply u8_byte).
  eexists. split; [reflexivity|]. split; [done|]. split; [|done]. change (Port_out port (u8 (w - u8 w + u8 (u32 v))) :: io = Port_out port v :: io). by rewrite E.
Qed.

End Parts.

(** Protected mode with flat segments, and interrupts off. *)
Record protected (m : machine) : Prop := {
  pr_pe : Z.testbit (c_cr0 (m_cr m)) 0 = true;
  pr_sg : m_sg m = mk_segs (Z.shiftl SEG_KCODE 3) (Z.shiftl SEG_KDATA 3) (Z.shiftl SEG_KDATA 3) 0 0 (Z.shiftl SEG_KDATA 3);
  pr_code : m_gdt m !! SEG_KCODE = Some (SEG (Z.lor STA_X STA_R) 0 0xffffffff 0);
  pr_data : m_gdt m !! SEG_KDATA = Some (SEG STA_W 0 0xffffffff 0);
  pr_if : Z.testbit (m_eflags m) 9 = false
}.

Lemma bootasm_labels : where_is bootasm_S "start" = Some 0%nat /\ where_is bootasm_S "seta20.1" = Some 5%nat /\ where_is bootasm_S "seta20.2" = Some 10%nat
  /\ where_is bootasm_S "start32" = Some 20%nat /\ where_is bootasm_S "bootmain" = None.
Proof. repeat split; vm_compute; reflexivity. Qed.

(** From the BIOS to the line A20. *)
Lemma bootasm_a20 m : layout_ok bootasm_S -> controller_ready -> m_eip m = symbol bootasm_S "start" -> s_cs (m_sg m) = 0 ->
  exists m', steps bootasm_S m m' /\ m_eip m' = place 15 /\ s_cs (m_sg m') = 0 /\ Z.testbit (m_eflags m') 9 = false /\ m_mem m' = m_mem m /\ m_cr m' = m_cr m
    /\ outs (m_io m') = Port_out 0x60 0xdf :: Port_out 0x64 0xd1 :: outs (m_io m).
Proof.
  intros LO Hr He Hc. destruct bootasm_labels as (L0 & L1 & L2 & L3 & L4). rewrite (symbol_at _ _ _ L0) in He.
  assert (Y1 : symbol bootasm_S "seta20.1" = place 5) by (by apply symbol_at). assert (Y2 : symbol bootasm_S "seta20.2" = place 10) by (by apply symbol_at).
  destruct (real_mode bootasm_S 0 m (or_introl Hc)) as (m1 & B1 & C1 & F1 & E1 & M1 & I1 & R1). rewrite Hc in C1.
  assert (S1 : steps bootasm_S m m1) by (refine (block_steps bootasm_S _ 0 m m1 LO _ _ He B1); [by apply code_at_take|done]).
  destruct (Hr (m_io m1)) as [k1 K1]. destruct (seta20 bootasm_S LO k1 5 "seta20.1" ltac:(by apply code_at_take) Y1 m1 E1) as (m2 & S2 & E2 & Q2 & O2); [unfold cpl; by rewrite C1|done|].
  assert (C2 : s_cs (m_sg m2) = 0) by (by rewrite (q_sg _ _ Q2)). destruct (send_command bootasm_S 8 0xd1 0x64 m2 C2) as (m3 & B3 & Q3 & I3 & E3); [lia|].
  assert (S3 : steps bootasm_S m2 m3) by (refine (block_steps bootasm_S _ 8 m2 m3 LO _ _ E2 B3); [by apply code_at_take|done]).
  destruct (Hr (m_io m3)) as [k2 K2]. assert (C3 : s_cs (m_sg m3) = 0) by (by rewrite (q_sg _ _ Q3)).
  destruct (seta20 bootasm_S LO k2 10 "seta20.2" ltac:(by apply code_at_take) Y2 m3 E3) as (m4 & S4 & E4 & Q4 & O4); [unfold cpl; by rewrite C3|done|].
  assert (C4 : s_cs (m_sg m4) = 0) by (by rewrite (q_sg _ _ Q4)). destruct (send_command bootasm_S 13 0xdf 0x60 m4 C4) as (m5 & B5 & Q5 & I5 & E5); [lia|].
  assert (S5 : steps bootasm_S m4 m5) by (refine (block_steps bootasm_S _ 13 m4 m5 LO _ _ E4 B5); [by apply code_at_take|done]).
  pose proof (quiet_trans _ _ _ Q2 (quiet_trans _ _ _ Q3 (quiet_trans _ _ _ Q4 Q5))) as [X1 X2 X3 X4 X5].
  exists m5. split; [transitivity m1; [done|]; transitivity m2; [done|]; transitivity m3; [done|]; by transitivity m4|].
  split; [done|]. split; [by rewrite X1|]. split; [by rewrite X5|]. split; [by rewrite X4|]. split; [by rewrite X2|].
  rewrite I5. change (outs (Port_out 96 223 :: m_io m4)) with (Port_out 96 223 :: outs (m_io m4)). rewrite O4, I3.
  change (outs (Port_out 100 209 :: m_io m2)) with (Port_out 100 209 :: outs (m_io m2)). rewrite O2, I1. done.
Qed.

(** From real mode to the first instruction with the new segments, in both files. *)
Lemma enter_protected prog n m : layout_ok prog -> code_at prog n [lgdt_ "gdtdesc"; mov (cr CR0) (r32 EAX); orl CR0_PE EAX; mov (r32 EAX) (cr CR0); ljmp (Z.shiftl SEG_KCODE 3) "start32";
    mov (imm (Num (Z.shiftl SEG_KDATA 3))) (r16 EAX); mov (r16 EAX) (sr DS); mov (r16 EAX) (sr ES); mov (r16 EAX) (sr SS); mov (imm (Num 0)) (r16 EAX); mov (r16 EAX) (sr FS); mov (r16 EAX) (sr GS)] ->
  where_is prog "start32" = Some (5 + n)%nat -> boot_loaded prog (m_mem m) -> m_eip m = place n -> s_cs (m_sg m) = 0 \/ s_cs (m_sg m) = 0x700 -> Z.testbit (m_eflags m) 9 = false ->
  exists m', steps prog m m' /\ m_eip m' = place (12 + n) /\ protected m' /\ m_mem m' = m_mem m /\ m_io m' = m_io m.
Proof.
  intros LO Hc Hw Hb He Hs Hi. destruct (protected_mode prog n m Hs) as (m1 & B1 & C1 & E1 & R1 & G1 & F1 & M1 & I1). rewrite (symbol_at _ _ _ Hw) in E1.
  destruct (data_segments prog (5 + n) m1) as [eax B2]. set (m2 := put_reg EAX eax _) in B2. exists m2. split; [transitivity m1|].
  - refine (block_steps prog _ n m m1 LO _ _ He B1); [|done]. intros j i Hj. apply Hc. by do 5 (destruct j as [|j]; [exact Hj|]).
  - refine (block_steps prog _ (5 + n) m1 m2 LO _ _ E1 B2); [|done]. intros j i Hj. replace (5 + n + j)%nat with (n + (5 + j))%nat by lia. apply Hc. exact Hj.
  - split; [by replace (12 + n)%nat with (7 + (5 + n))%nat by lia|]. split; [|by split; [exact M1|exact I1]].
    destruct (read_boot_gdt prog (m_mem m) Hb) as [Hk Hd]. split.
    + change (m_cr m2) with (m_cr m1). rewrite R1. change (Z.testbit (Z.lor (c_cr0 (m_cr m)) (u32 CR0_PE)) 0 = true). rewrite Z.lor_spec, (u32_small CR0_PE) by done. apply orb_true_r.
    + change (m_sg m2) with (mk_segs (s_cs (m_sg m1)) 0x10 0x10 0 0 0x10). by rewrite C1.
    + change (m_gdt m2) with (m_gdt m1). by rewrite G1.
    + change (m_gdt m2) with (m_gdt m1). by rewrite G1.
    + change (m_eflags m2) with (m_eflags m1). congruence.
Qed.

(** The boot sector enters the boot loader.  Started by the BIOS in real mode, bootasm.S sends the two commands that enable the address line A20, each after the keyboard controller has
    become ready, loads the flat segments, and calls [bootmain] in protected mode with interrupts off and an empty stack below the boot sector. *)
Theorem bootasm_starts (m : machine) :
  layout_ok bootasm_S -> controller_ready -> boot_loaded bootasm_S (m_mem m) ->
  m_eip m = symbol bootasm_S "start" -> s_cs (m_sg m) = 0 -> 4 <= symbol bootasm_S "start" ->
  exists m', steps bootasm_S m m' /\ m_eip m' = symbol bootasm_S "bootmain" /\ protected m' /\ esp m' = symbol bootasm_S "start" - 4 /\ top m' = place 29
    /\ outs (m_io m') = Port_out 0x60 0xdf :: Port_out 0x64 0xd1 :: outs (m_io m)
    /\ forall x, ~ (esp m' <= x < symbol bootasm_S "start") -> load8 (m_mem m') x = load8 (m_mem m) x.
Proof.
  intros LO Hr Hb He Hc H4. destruct (bootasm_a20 m LO Hr He Hc) as (m1 & S1 & E1 & C1 & F1 & M1 & _ & O1). destruct bootasm_labels as (L0 & _ & _ & L3 & _).
  rewrite <- M1 in Hb. destruct (enter_protected bootasm_S 15 m1 LO) as (m2 & S2 & E2 & P2 & M2 & I2); [by apply code_at_take|done|done|done|by left|done|].
  set (a := symbol bootasm_S "start") in *. assert (Ha : 0 <= a < 2 ^ 32) by (unfold a; rewrite (symbol_at _ _ _ L0); apply LO).
  set (m3 := push (place 29) (put_reg ESP a m2)). assert (P : pushed [place 29] (put_reg ESP a m2) m3).
  { apply pushed_push; [unfold room; change (esp (put_reg ESP a m2)) with a; lia|apply LO]. }
  assert (B3 : block bootasm_S 27 [mov (imm (Sym "start" 0)) (r32 ESP); call "bootmain"] m2 = Some (set_eip (symbol bootasm_S "bootmain") m3)).
  { unfold m3. assert (Ea : value_of bootasm_S (Sym "start" 0) = a) by (cbn [value_of]; rewrite Z.add_0_r; by apply u32_small). rewrite <- Ea. reflexivity. }
  pose proof (pd_esp _ _ _ P) as Ep. change (esp (put_reg ESP a m2)) with a in Ep. pose proof (pd_words _ _ _ P 0%nat) as W. rewrite words_S in W. injection W as W.
  eexists. split; [transitivity m1; [done|]; transitivity m2; [done|]; refine (block_steps bootasm_S _ 27 m2 _ LO _ _ E2 B3); [by apply code_at_take|done]|].
  split; [done|]. split; [by destruct P2|]. split; [change (esp m3 = a - 4); simpl in Ep; lia|]. split; [exact W|]. split; [change (outs (m_io m2) = Port_out 96 223 :: Port_out 100 209 :: outs (m_io m)); by rewrite I2|].
  intros x Hx. change (load8 (m_mem m3) x = load8 (m_mem m) x). rewrite <- M1, <- M2. apply (pd_mem _ _ _ P). exact Hx.
Qed.

(** ** entryother.S and entry.S *)

Lemma block_seq prog n l l' m m1 m2 : block prog n l m = Some m1 -> block prog (length l + n) l' m1 = Some m2 -> block prog n (l ++ l') m = Some m2.
Proof. intros E1 E2. by rewrite block_app, E1. Qed.

Lemma entryother_labels : where_is entryother_S "start" = Some 0%nat /\ where_is entryother_S "start32" = Some 10%nat.
Proof. split; vm_compute; reflexivity. Qed.

(** Paging is turned on in three steps, and then [mpenter] is called. *)
Lemma set_cr4 prog n m : s_cs (m_sg m) = 8 -> exists m', block prog n [mov (cr CR4) (r32 EAX); orl CR4_PSE EAX; mov (r32 EAX) (cr CR4)] m = Some m'
  /\ m_sg m' = m_sg m /\ m_gdt m' = m_gdt m /\ m_mem m' = m_mem m /\ Z.testbit (m_eflags m') 9 = Z.testbit (m_eflags m) 9
  /\ m_cr m' = set_creg CR4 (Z.lor (c_cr4 (m_cr m)) (u32 CR4_PSE)) (m_cr m).
Proof. destruct m as [g [cs ds es fs gs ss] c ip fl gd id s0 e0 mem io]. intros [= ->]. eexists. split; [reflexivity|]. repeat split. apply status_if. Qed.

Lemma set_cr3 prog n m a : s_cs (m_sg m) = 8 -> exists m', block prog n [mov (at_sym a) (r32 EAX); mov (r32 EAX) (cr CR3)] m = Some m'
  /\ m_sg m' = m_sg m /\ m_gdt m' = m_gdt m /\ m_mem m' = m_mem m /\ m_eflags m' = m_eflags m
  /\ m_cr m' = set_creg CR3 (load32 (m_mem m) (value_of prog a)) (m_cr m).
Proof. destruct m as [g [cs ds es fs gs ss] c ip fl gd id s0 e0 mem io]. intros [= ->]. eexists. split; [reflexivity|]. repeat split. Qed.

Lemma set_cr0 prog n m v : s_cs (m_sg m) = 8 -> exists m', block prog n [mov (cr CR0) (r32 EAX); orl v EAX; mov (r32 EAX) (cr CR0)] m = Some m'
  /\ m_sg m' = m_sg m /\ m_gdt m' = m_gdt m /\ m_mem m' = m_mem m /\ Z.testbit (m_eflags m') 9 = Z.testbit (m_eflags m) 9
  /\ m_cr m' = set_creg CR0 (Z.lor (c_cr0 (m_cr m)) (u32 v)) (m_cr m).
Proof. destruct m as [g [cs ds es fs gs ss] c ip fl gd id s0 e0 mem io]. intros [= ->]. eexists. split; [reflexivity|]. repeat split. apply status_if. Qed.

(** Paging is on with the page directory [dir], 4-Mbyte pages and write protection. *)
Definition paging (m : machine) (dir : Z) : Prop :=
  c_cr3 (m_cr m) = dir /\ Z.testbit (c_cr0 (m_cr m)) 31 = true /\ Z.testbit (c_cr0 (m_cr m)) 16 = true /\ Z.testbit (c_cr4 (m_cr m)) 4 = true.

(** The words below the copy of the code, as [start_cpu] stores them through their kernel address. *)
Definition start_words (stack mpenter_addr entrypgdir : Z) (mem : gmap Z Z) : gmap Z Z :=
  let code := P2V 0x7000 in
  store32 (code - 12) (V2P entrypgdir) (store32 (code - 8) mpenter_addr (store32 (code - 4) (stack + KSTACKSIZE) mem)).

Lemma start_words_read m mem stack mpenter_addr entrypgdir : is_word (stack + KSTACKSIZE) -> is_word mpenter_addr ->
  (forall x, 0x7000 - 12 <= x < 0x7000 -> load8 m x = load8 (start_words stack mpenter_addr entrypgdir mem) (P2V x)) ->
  forall d v, In (d, v) [(12, V2P entrypgdir); (8, mpenter_addr); (4, stack + KSTACKSIZE)] -> load32 m (u32 (0x7000 + - d)) = v.
Proof.
  intros Hsp Hmp Hmem d v Hd. set (code := P2V 0x7000).
  assert (Hw : is_word v) by (destruct Hd as [[= <- <-]|[[= <- <-]|[[= <- <-]|[]]]]; [apply u32_bounds|done|done]).
  assert (Hdr : d = 12 \/ d = 8 \/ d = 4) by (destruct Hd as [[= <- <-]|[[= <- <-]|[[= <- <-]|[]]]]; auto). rewrite u32_small by lia.
  rewrite (load32_moved _ (start_words stack mpenter_addr entrypgdir mem) _ (code - d)).
  - unfold start_words. fold code. destruct Hd as [[= <- <-]|[[= <- <-]|[[= <- <-]|[]]]].
    + rewrite load32_store32_same. by apply u32_small.
    + rewrite load32_store32_out, load32_store32_same by lia. by apply u32_small.
    + rewrite load32_store32_out, load32_store32_out, load32_store32_same by lia. by apply u32_small.
  - intros i Hi. rewrite Hmem by lia. f_equal. unfold P2V. change code with (0x7000 + KERNBASE). rewrite u32_small; unfold KERNBASE; lia.
Qed.

(** A processor that [startothers] starts, at the copy of entryother.S at 0x7000, enters [mpenter] in protected mode with paging on, on the stack that was allocated for it. *)
Theorem entryother_starts (m : machine) (mem : gmap Z Z) (stack mpenter_addr entrypgdir : Z) :
  layout_ok entryother_S -> boot_loaded entryother_S (m_mem m) -> m_eip m = symbol entryother_S "start" -> symbol entryother_S "start" = 0x7000 -> s_cs (m_sg m) = 0x700 ->
  is_word (stack + KSTACKSIZE) -> 4 <= stack + KSTACKSIZE -> is_word mpenter_addr ->
  (forall x, 0x7000 - 12 <= x < 0x7000 -> load8 (m_mem m) x = load8 (start_words stack mpenter_addr entrypgdir mem) (P2V x)) ->
  exists m', steps entryother_S m m' /\ m_eip m' = mpenter_addr /\ protected m' /\ paging m' (V2P entrypgdir) /\ esp m' = stack + KSTACKSIZE - 4.
Proof.
  intros LO Hb He Hst Hc Hsp H4 Hmp Hmem. destruct entryother_labels as [L0 L1]. rewrite (symbol_at _ _ _ L0) in He.
  pose proof (start_words_read _ mem stack mpenter_addr entrypgdir Hsp Hmp Hmem) as Hld.
  destruct (real_mode entryother_S 0 m (or_intror Hc)) as (m1 & B1 & C1 & F1 & E1 & M1 & _ & R1). rewrite Hc in C1.
  assert (S1 : steps entryother_S m m1) by (refine (block_steps entryother_S _ 0 m m1 LO _ _ He B1); [by apply code_at_take|done]). rewrite <- M1 in Hb, Hld.
  destruct (enter_protected entryother_S 5 m1 LO) as (m2 & S2 & E2 & [P1 P2 P3 P4 P5] & M2 & _); [by apply code_at_take|done|done|done|by right|done|].
  assert (C2 : s_cs (m_sg m2) = 8) by (by rewrite P2). rewrite <- M2 in Hld.
  destruct (set_cr4 entryother_S 17 m2 C2) as (m3 & B3 & G3 & D3 & M3 & F3 & R3). assert (C3 : s_cs (m_sg m3) = 8) by (by rewrite G3). rewrite <- M3 in Hld.
  destruct (set_cr3 entryother_S 20 m3 (Sym "start" (-12)) C3) as (m4 & B4 & G4 & D4 & M4 & F4 & R4). assert (C4 : s_cs (m_sg m4) = 8) by (by rewrite G4). rewrite <- M4 in Hld.
  destruct (set_cr0 entryother_S 22 m4 (Z.lor CR0_PE (Z.lor CR0_PG CR0_WP)) C4) as (m5 & B5 & G5 & D5 & M5 & F5 & R5). rewrite <- M5 in Hld.
  set (m6 := set_eip mpenter_addr (push (place 27) (put_reg ESP (stack + KSTACKSIZE) m5))).
  assert (B6 : block entryother_S 25 [mov (at_sym (Sym "start" (-4))) (r32 ESP); call_to (at_sym (Sym "start" (-8)))] m5 = Some m6).
  { unfold m6. rewrite <- (Hld 4 (stack + KSTACKSIZE)) by (simpl; auto). rewrite <- (Hld 8 mpenter_addr) by (simpl; auto). rewrite <- Hst. reflexivity. }
  exists m6. split; [transitivity m1; [done|]; transitivity m2; [done|]|split; [done|]].
  { refine (block_steps entryother_S _ 17 m2 m6 LO _ _ E2 (block_seq _ _ _ _ _ _ _ B3 (block_seq _ _ _ _ _ _ _ B4 (block_seq _ _ _ _ _ _ _ B5 B6)))); [by apply code_at_take|done]. }
  assert (Hcr : m_cr m6 = m_cr m5) by done. rewrite R5, R4, R3 in Hcr. split; [|split].
  - split; [|by change (m_sg m6) with (m_sg m5); rewrite G5, G4, G3|by change (m_gdt m6) with (m_gdt m5); rewrite D5, D4, D3..|change (m_eflags m6) with (m_eflags m5); congruence].
    rewrite Hcr. cbn [set_creg c_cr0]. by rewrite Z.lor_spec, P1.
  - unfold paging. rewrite Hcr. cbn [set_creg c_cr0 c_cr3 c_cr4 value_of]. rewrite !Z.lor_spec.
    split; [|repeat split; apply orb_true_iff; right; vm_compute; reflexivity]. rewrite Hst, <- M4, <- M5. apply (Hld 12). by left.
  - change (u32 (stack + KSTACKSIZE - 4) = stack + KSTACKSIZE - 4). apply u32_small. unfold is_word in *. lia.
Qed.

Lemma entry_code user : where_is (kernel_S ++ user) "entry" = Some 0%nat /\ code_at (kernel_S ++ user) 0 (text entry_S).
Proof. apply kernel_code_spec. vm_compute. reflexivity. Qed.

(** The kernel, entered by the boot loader with paging off, goes on in [main] with paging on, on its own stack. *)
Theorem entry_starts (user : list line) (m : machine) : let prog := kernel_S ++ user in
  layout_ok prog -> m_eip m = symbol prog "entry" -> s_cs (m_sg m) = 8 ->
  exists m', steps prog m m' /\ m_eip m' = u32 (symbol prog "main") /\ esp m' = u32 (symbol prog "stack" + KSTACKSIZE)
    /\ paging m' (u32 (symbol prog "entrypgdir" - KERNBASE)) /\ m_mem m' = m_mem m /\ m_sg m' = m_sg m.
Proof.
  intros prog LO He Hc. destruct (entry_code user) as [L0 Hcode]. fold prog in L0, Hcode. rewrite (symbol_at _ _ _ L0) in He.
  destruct (set_cr4 prog 0 m Hc) as (m1 & B1 & G1 & _ & M1 & _ & R1). assert (C1 : s_cs (m_sg m1) = 8) by (by rewrite G1).
  set (dir := value_of prog (Sym "entrypgdir" (- KERNBASE))).
  set (m2 := set_eip (place 5) (set_cr (set_creg CR3 dir (m_cr m1)) (put_reg EAX dir m1))).
  assert (B2 : block prog 3 [mov (imm (Sym "entrypgdir" (- KERNBASE))) (r32 EAX); mov (r32 EAX) (cr CR3)] m1 = Some m2).
  { cbn [block exec read write mbind option_bind]. change (cpl (set_eip _ (put_reg EAX _ _))) with (Z.land (s_cs (m_sg m1)) 3). by rewrite C1. }
  destruct (set_cr0 prog 5 m2 (Z.lor CR0_PG CR0_WP) C1) as (m3 & B3 & G3 & _ & M3 & _ & R3).
  set (m4 := set_eip (value_of prog (Sym "main" 0)) (put_reg EAX (value_of prog (Sym "main" 0)) (put_reg ESP (value_of prog (Sym "stack" KSTACKSIZE)) m3))).
  assert (B4 : block prog 8 [mov (imm (Sym "stack" KSTACKSIZE)) (r32 ESP); mov (imm (Sym "main" 0)) (r32 EAX); jmp_to (r32 EAX)] m3 = Some m4) by reflexivity.
  exists m4. split; [refine (block_steps prog _ 0 m m4 LO Hcode _ He (block_seq _ _ _ _ _ _ _ B1 (block_seq _ _ _ _ _ _ _ B2 (block_seq _ _ _ _ _ _ _ B3 B4)))); done|].
  split; [change (m_eip m4) with (u32 (symbol prog "main" + 0)); by rewrite Z.add_0_r|]. split; [done|].
  change (m_cr m4) with (m_cr m3). split; [|split; [by change (m_mem m4) with (m_mem m3); rewrite M3|by change (m_sg m4) with (m_sg m3); rewrite G3]].
  unfold paging. change (m_cr m4) with (m_cr m3). rewrite R3. change (m_cr m2) with (set_creg CR3 dir (m_cr m1)). rewrite R1. cbn [set_creg c_cr0 c_cr3 c_cr4]. rewrite !Z.lor_spec.
  split; [done|]. repeat split; apply orb_true_iff; right; vm_compute; reflexivity.
Qed.

End BootAsm.

(** ** An example: the boot sector at 0x7c00 *)

#[local] Instance boot_layout : Layout :=
  {| place := fun n => 0x7c00 + 4 * Z.of_nat (n mod 64);
     extern := fun l => if bool_decide (l = "gdt"%string) then 0x7d00 else if bool_decide (l = "gdtdesc"%string) then 0x7d20 else 0x7d30 |}.
#[local] Instance boot_cpu : Processor := {| sel_zext := true; aux_logic := fun _ => false |}.
#[local] Instance boot_devices : Hardware := {| hw_in := fun io _ => if bool_decide (length io = 0%nat) then 2 else 0; hw_ins := fun _ _ _ => []; hw_read := fun _ _ => 0; hw_patience := 1 |}.

Definition boot_machine : machine :=
  mk_machine (mk_gpr 0xaa55 0 0x80 0 0x6f00 0 0 0) (mk_segs 0 0x40 0x40 0 0 0) (mk_cregs 0x10 0 0) 0x7c00 0x202 ∅ ∅ 0 0
    (store_bytes 0x7d00 boot_gdt (store_bytes 0x7d20 (boot_gdtdesc 0x7d00) ∅)) [].

Lemma bootasm_starts_witness : exists m', steps bootasm_S boot_machine m' /\ m_eip m' = 0x7d30 /\ protected m' /\ esp m' = 0x7bfc.
Proof.
  destruct (bootasm_starts boot_machine) as (m' & St & E1 & P & E2 & _).
  - split.
    + intros i j Hi Hj E. change (length (text bootasm_S)) with 35%nat in Hi, Hj. unfold place, boot_layout in E. rewrite !Nat.mod_small in E by lia. lia.
    + intros n. unfold place, boot_layout. pose proof (Nat.mod_upper_bound n 64 ltac:(lia)). lia.
  - intros io. exists 1%nat. reflexivity.
  - split; vm_compute; try reflexivity. split; congruence.
  - reflexivity.
  - reflexivity.
  - by vm_compute.
  - exists m'. split; [exact St|]. split; [exact E1|]. split; [exact P|exact E2].
Defined.
