(* ===== verification/Exec.v ===== *)
(** * Loading programs (exec.c and [loaduvm] of vm.c)

    The fields of the ELF headers are read at their offsets in the bytes of the
    file.  [argv] is the list of the argument strings, without the final null
    pointer. *)

From stdpp Require Import base gmap list strings.
From Stdlib Require Import ZArith Lia.
From S2P Require Import Prelude State Memory Bytes Spinlock Kalloc Sched Console Vm Bio Log Fs File Proc.

Section Exec.
Context {L : Linker}.

Definition loaduvm_body (pgdir addr : Z) (ip : nat) (offset sz i : Z) : K (Z + Z) :=
  if i <? sz then
    pte <- walkpgdir pgdir (u32 (addr + i)) 0;;
    if pte =? 0 then panic "loaduvm: address should exist" else
    v <- kload32 pte;;
    let pa := PTE_ADDR v in
    let n := if sz - i <? PGSIZE then sz - i else PGSIZE in
    r <- readi ip (u32 (offset + i)) n;;
    kmem (store_bytes (P2V pa) (snd r));;
    if negb (fst r =? n) then ret (inr (-1)) else ret (inl (i + PGSIZE))
  else ret (inr 0).

(** One round for each page of the segment. *)
Definition loaduvm (pgdir addr : Z) (ip : nat) (offset sz : Z) : K Z :=
  if negb (u32 addr mod PGSIZE =? 0) then panic "loaduvm: addr must be page aligned" else
  iter (Z.to_nat (sz / PGSIZE) + 2) (loaduvm_body pgdir addr ip offset sz) 0.

Definition ELF_MAGIC : Z := 0x464C457F.
Definition ELF_PROG_LOAD : Z := 1.
Definition sizeof_elfhdr : Z := 52.
Definition sizeof_proghdr : Z := 32.

Record elfhdr : Type := mk_elfhdr { elf_magic : Z; elf_entry : Z; elf_phoff : Z; elf_phnum : Z }.
Definition decode_elf (l : list Z) : elfhdr :=
  mk_elfhdr (rd 4 0 l) (rd 4 24 l) (rd 4 28 l) (rd 2 44 l).

Record proghdr : Type := mk_proghdr {
  ph_type : Z; ph_off : Z; ph_vaddr : Z; ph_filesz : Z; ph_memsz : Z }.
Definition decode_ph (l : list Z) : proghdr :=
  mk_proghdr (rd 4 0 l) (rd 4 4 l) (rd 4 8 l) (rd 4 16 l) (rd 4 20 l).

(** The loop over the [n] program headers left; [None] is [goto bad]. *)
Fixpoint exec_load (pgdir : Z) (ip : nat) (n : nat) (off sz : Z) : K (option Z) :=
  match n with
  | O => ret (Some sz)
  | S n =>
      r <- readi ip (u32 off) sizeof_proghdr;;
      if negb (fst r =? sizeof_proghdr) then ret None else
      let ph := decode_ph (snd r) in
      let off := s32 (off + sizeof_proghdr) in
      if negb (ph_type ph =? ELF_PROG_LOAD) then exec_load pgdir ip n off sz else
      if ph_memsz ph <? ph_filesz ph then ret None else
      if u32 (ph_vaddr ph + ph_memsz ph) <? ph_vaddr ph then ret None else
      sz <- allocuvm pgdir sz (u32 (ph_vaddr ph + ph_memsz ph));;
      if sz =? 0 then ret None else
      if negb (ph_vaddr ph mod PGSIZE =? 0) then ret None else
      r <- loaduvm pgdir (ph_vaddr ph) ip (ph_off ph) (ph_filesz ph);;
      if r <? 0 then ret None else
      exec_load pgdir ip n off sz
  end.

(** The loop that pushes the argument strings: the stack pointer and the
    addresses of the strings. *)
Fixpoint exec_push (pgdir : Z) (argc : nat) (argv : list (list Z)) (sp : Z) : K (option (Z * list Z)) :=
  match argv with
  | [] => ret (Some (sp, []))
  | arg :: argv =>
      if (MAXARG <=? argc)%nat then ret None else
      let sp := Z.land (u32 (sp - (Z.of_nat (length arg) + 1))) (u32 (Z.lnot 3)) in
      r <- copyout pgdir sp (arg ++ [0]);;
      if r <? 0 then ret None else
      rest <- exec_push pgdir (S argc) argv sp;;
      ret (prod_map id (cons sp) <$> rest)
  end.

(** The words of [ustack], for arguments at the addresses [ptrs]. *)
Definition ustack (sp : Z) (ptrs : list Z) : list Z :=
  let argc := Z.of_nat (length ptrs) in
  [0xffffffff; argc; u32 (sp - (argc + 1) * 4)] ++ ptrs ++ [0].

(** The part of a path after its last slash. *)
Fixpoint last_elem (last path : list Z) : list Z :=
  match path with
  | [] => last
  | c :: rest => last_elem (if c =? slash then rest else last) rest
  end.

(** The label [bad]; [ip] is the inode still locked. *)
Definition exec_bad (pgdir : Z) (ip : option nat) : K Z :=
  when (truth pgdir) (freevm pgdir);;
  (match ip with Some ip => iunlockput ip;; end_op | None => ret tt end);;
  ret (-1).

(** From the comment [Save program name for debugging] on. *)
Definition exec_commit (cur : nat) (path : list Z) (pgdir sz entry sp : Z) : K Z :=
  modify (upd_proc cur (fun r =>
    set_p_name (safestrcpy_list (p_name r) (last_elem path path) 16) r));;
  oldpgdir <- gets (fun k => p_pgdir (proc_at k cur));;
  modify (upd_proc cur (set_p_pgdir pgdir));;
  modify (upd_proc cur (set_p_sz sz));;
  modify (fun k => upd_tf (p_tf (proc_at k cur)) (set_tf_eip entry) k);;
  modify (fun k => upd_tf (p_tf (proc_at k cur)) (set_tf_esp sp) k);;
  switchuvm (Some cur);;
  freevm oldpgdir;;
  ret 0.

(** From the allocation of the stack on. *)
Definition exec_stack (cur : nat) (path : list Z) (argv : list (list Z)) (pgdir entry sz : Z) : K Z :=
  let sz := PGROUNDUP sz in
  sz <- allocuvm pgdir sz (u32 (sz + 2 * PGSIZE));;
  if sz =? 0 then exec_bad pgdir None else
  clearpteu pgdir (u32 (sz - 2 * PGSIZE));;
  pushed <- exec_push pgdir 0 argv sz;;
  match pushed with
  | None => exec_bad pgdir None
  | Some (sp, ptrs) =>
      let words := ustack sp ptrs in
      let sp := u32 (sp - (3 + Z.of_nat (length ptrs) + 1) * 4) in
      r <- copyout pgdir sp (mjoin (le_bytes 4 <$> words));;
      if r <? 0 then exec_bad pgdir None else
      exec_commit cur path pgdir sz entry sp
  end.

Definition exec (path : list Z) (argv : list (list Z)) : K Z :=
  cur <- curproc;;
  begin_op;;
  ip <- namei path;;
  match ip with
  | None =>
      end_op;;
      cprintf ("exec: fail" ++ newline)%string [];;
      ret (-1)
  | Some ip =>
      ilock ip;;
      r <- readi ip 0 sizeof_elfhdr;;
      if negb (fst r =? sizeof_elfhdr) then exec_bad 0 (Some ip) else
      let elf := decode_elf (snd r) in
      if negb (elf_magic elf =? ELF_MAGIC) then exec_bad 0 (Some ip) else
      pgdir <- setupkvm;;
      if pgdir =? 0 then exec_bad 0 (Some ip) else
      sz <- exec_load pgdir ip (Z.to_nat (elf_phnum elf)) (s32 (elf_phoff elf)) 0;;
      match sz with
      | None => exec_bad pgdir (Some ip)
      | Some sz =>
          iunlockput ip;;
          end_op;;
          exec_stack cur path argv pgdir (elf_entry elf) sz
      end
  end.

End Exec.
