(* ===== verification/Boot.v ===== *)
(** * The boot loader (bootmain.c)

    [bootmain] reads the kernel from the disk, one sector at a time, and calls its
    entry point.  Paging is off: the addresses of the memory are physical.  Calling the entry
    point is the result [Some entry], returning to bootasm.S is [None]. *)

From stdpp Require Import base gmap list strings.
From Stdlib Require Import ZArith Lia.
From S2P Require Import Prelude State Memory Bytes CString Spinlock Sched Devices Ide IdeSpec Exec.

Definition SECTSIZE : Z := 512.

(** The scratch space for the headers. *)
Definition elf : Z := 0x10000.

(** The header of the file and a program header (elf.h) in memory. *)
Definition elf_at (m : gmap Z Z) (elf : Z) : elfhdr := decode_elf (load_bytes m elf 52).

Record segment : Type := mk_segment { sg_off : Z; sg_paddr : Z; sg_filesz : Z; sg_memsz : Z }.

Definition decode_segment (l : list Z) : segment := mk_segment (rd 4 4 l) (rd 4 12 l) (rd 4 16 l) (rd 4 20 l).

Definition segment_at (m : gmap Z Z) (ph : Z) : segment := decode_segment (load_bytes m ph 32).

Section Boot.
Context {HW : Hardware}.

Definition waitdisk : K unit :=
  iter (S hw_patience) (fun _ : unit =>
    r <- inb 0x1F7;;
    if negb (Z.land r 0xC0 =? 0x40) then ret (inl tt) else ret (inr tt)) tt.

Definition readsect (dst offset : Z) : K unit :=
  waitdisk;;
  outb 0x1F2 1;;
  outb 0x1F3 offset;;
  outb 0x1F4 (Z.shiftr offset 8);;
  outb 0x1F5 (Z.shiftr offset 16);;
  outb 0x1F6 (Z.lor (Z.shiftr offset 24) 0xE0);;
  outb 0x1F7 0x20;;
  waitdisk;;
  data <- insl 0x1F0 (Z.to_nat (SECTSIZE / 4));;
  modify (fun k => set_k_mem (store_bytes dst data (k_mem k)) k).

(** The loop [for(; pa < epa; pa += SECTSIZE, offset++)] of [readseg], at most [n] tests of its condition. *)
Fixpoint readseg_loop (n : nat) (pa epa offset : Z) : K unit :=
  match n with
  | O => fun k _ => Stuck k
  | S n =>
      if pa <? epa then
        readsect pa offset;;
        readseg_loop n (u32 (pa + SECTSIZE)) epa (u32 (offset + 1))
      else ret tt
  end.

(** The number of sectors from [pa] to [epa].  When [pa] wraps around before it reaches [epa] the loop does not end. *)
Definition sectors_between (pa epa : Z) : nat := Z.to_nat ((epa - pa + (SECTSIZE - 1)) / SECTSIZE).

Definition readseg (pa count offset : Z) : K unit :=
  let epa := u32 (pa + count) in
  let pa := u32 (pa - offset mod SECTSIZE) in
  let offset := offset / SECTSIZE + 1 in
  readseg_loop (S (sectors_between pa epa)) pa epa offset.

(** The body of the loop of [bootmain], for the program header at [ph]. *)
Definition load_segment (ph : Z) : K unit :=
  sg <- gets (fun k => segment_at (k_mem k) ph);;
  let pa := sg_paddr sg in
  readseg pa (sg_filesz sg) (sg_off sg);;
  sg <- gets (fun k => segment_at (k_mem k) ph);;
  when (sg_filesz sg <? sg_memsz sg)
    (modify (fun k => set_k_mem (stosb (u32 (pa + sg_filesz sg)) 0 (Z.to_nat (sg_memsz sg - sg_filesz sg)) (k_mem k)) k)).

Definition bootmain : K (option Z) :=
  readseg elf 4096 0;;
  h <- gets (fun k => elf_at (k_mem k) elf);;
  if negb (elf_magic h =? ELF_MAGIC) then ret None else
  let ph := u32 (elf + elf_phoff h) in
  for_each (fun i => load_segment (ph + 32 * i)) (seqZ 0 (elf_phnum h));;
  h <- gets (fun k => elf_at (k_mem k) elf);;
  ret (Some (elf_entry h)).

End Boot.

(** ** The kernel on the disk *)

(** Byte [n] of the kernel file, which begins at sector 1 of drive 0, and a run of bytes. *)
Definition file_byte (d : gmap (Z * Z) (list Z)) (n : Z) : Z :=
  default 0 (at_block d (0, n / SECTSIZE + 1) !! Z.to_nat (n mod SECTSIZE)).
Definition file_bytes (d : gmap (Z * Z) (list Z)) (n : Z) (len : nat) : list Z := (fun i => file_byte d (n + Z.of_nat i)) <$> seq 0 len.

(** The addresses that loading a segment writes, and those that it is for. *)
Definition first_of (pa off : Z) : Z := pa - off mod SECTSIZE.
Definition read_end (pa count off : Z) : Z := first_of pa off + SECTSIZE * Z.of_nat (sectors_between (first_of pa off) (pa + count)).
Definition touches (sg : segment) (x : Z) : Prop :=
  first_of (sg_paddr sg) (sg_off sg) <= x < read_end (sg_paddr sg) (sg_filesz sg) (sg_off sg)
  \/ sg_paddr sg + sg_filesz sg <= x < sg_paddr sg + sg_memsz sg.
Definition occupies (sg : segment) (x : Z) : Prop :=
  sg_paddr sg <= x < sg_paddr sg + Z.max (sg_filesz sg) (sg_memsz sg).

(** What must be at [x] when the segment is in memory. *)
Definition content (d : gmap (Z * Z) (list Z)) (sg : segment) (x : Z) : Z :=
  if decide (x < sg_paddr sg + sg_filesz sg) then file_byte d (sg_off sg + (x - sg_paddr sg)) else 0.

Section Loading.
Context `{HW : Hardware} (d0 : gmap (Z * Z) (list Z)) `{AD : !AtaDisk d0}.

Lemma waitdisk_run k e : exists io, waitdisk k e = Done tt (logged io k) e /\ ata_of d0 io = ctl d0 k.
Proof. destruct (poll_run d0 (fun _ => tt) k e) as (io & io1 & E & Ea). by exists io. Qed.

(** The address registers of the controller after [readsect] has set them. *)
Lemma sector_split s : 0 <= s < 2 ^ 28 ->
  u8 s + 2 ^ 8 * u8 (Z.shiftr s 8) + 2 ^ 16 * u8 (Z.shiftr s 16) + 2 ^ 24 * Z.land (u8 (Z.lor (Z.shiftr s 24) 0xE0)) 0x0f = s
  /\ Z.land (Z.shiftr (u8 (Z.lor (Z.shiftr s 24) 0xE0)) 4) 1 = 0.
Proof.
  intros Hs. set (h := Z.shiftr s 24). assert (Hh : 0 <= h < 16).
  { unfold h. rewrite Z.shiftr_div_pow2 by lia. change (2 ^ 24) with 16777216. change (2 ^ 28) with 268435456 in Hs. div_lia. }
  assert (E : Z.land (u8 (Z.lor h 0xE0)) 0x0f = h /\ Z.land (Z.shiftr (u8 (Z.lor h 0xE0)) 4) 1 = 0).
  { assert (Hm : h ∈ seqZ 0 16) by (apply elem_of_seqZ; lia). revert Hm. generalize h. apply Forall_forall. vm_compute. repeat constructor. }
  destruct E as [E1 E2]. rewrite E1. split; [|done]. unfold h, u8. rewrite !Z.shiftr_div_pow2 by lia.
  change (2 ^ 24) with 16777216. change (2 ^ 16) with 65536. change (2 ^ 8) with 256. change (2 ^ 28) with 268435456 in Hs. div_lia.
Qed.

(** One sector is read into memory. *)
Lemma readsect_run dst s k e : 0 <= s < 2 ^ 28 ->
  exists io, readsect dst s k e = Done tt (logged io (set_k_mem (store_bytes dst (at_block (at_disk (ctl d0 k)) (0, s)) (k_mem k)) k)) e
    /\ at_disk (ata_of d0 io) = at_disk (ctl d0 k) /\ sector_data (at_block (at_disk (ctl d0 k)) (0, s)) = at_block (at_disk (ctl d0 k)) (0, s).
Proof.
  intros Hs. unfold readsect. destruct (waitdisk_run k e) as (io & E & Ea). run E. destruct (sector_split s Hs) as [S1 S2].
  do 6 (rewrite (bind_done _ _ _ _ _ _ _ (outb_run _ _ _ k e))). set (io2 := _ :: _).
  destruct (waitdisk_run (logged io2 k) e) as (io3 & E3 & Ea3). run E3. rewrite logged_logged.
  assert (E2 : at_cmd (ata_of d0 io3) = Some (IDE_CMD_READ, (0, s)) /\ at_disk (ata_of d0 io3) = at_disk (ctl d0 k)).
  { rewrite Ea3. change (ctl d0 (logged io2 k)) with (ata_of d0 io2). unfold io2. rewrite !ata_cons, Ea. simpl. unfold at_target. simpl. by rewrite S1, S2. }
  destruct E2 as [Ec Ed]. pose proof (ata_data io3 (0, s) Ec) as Hd. rewrite Ed in Hd.
  unfold insl. rewrite bind_assoc, bind_gets. change (h_io (k_hw (logged io3 k))) with io3.
  change (4 * Z.to_nat (SECTSIZE / 4))%nat with BSIZE. cbv zeta. fold (sector_data (hw_ins io3 0x1F0 BSIZE)). rewrite Hd.
  unfold log_io. rewrite bind_assoc, bind_modify, bind_ret. exists (Port_ins 0x1f0 (at_block (at_disk (ctl d0 k)) (0, s)) :: io3).
  split; [done|]. split; [rewrite ata_cons; exact Ed|]. rewrite <- Hd. apply sector_data_twice.
Qed.

Lemma file_byte_sector D s i : 1 <= s -> 0 <= i < SECTSIZE -> file_byte D (SECTSIZE * (s - 1) + i) = default 0 (at_block D (0, s) !! Z.to_nat i).
Proof.
  intros Hs Hi. unfold file_byte, SECTSIZE in *. replace (512 * (s - 1) + i) with (i + (s - 1) * 512) by lia.
  rewrite Z.div_add, Z.mod_add, Z.div_small, Z.mod_small by lia. by replace (0 + (s - 1) + 1) with s by lia.
Qed.

Lemma sector_byte l i : sector_data l = l -> u8 (default 0 (l !! i)) = default 0 (l !! i).
Proof.
  intros H. rewrite <- H. unfold sector_data. rewrite list_lookup_fmap. destruct (resize BSIZE 0 l !! i) as [v|]; [|done]. simpl.
  unfold u8. by rewrite Z.mod_mod.
Qed.

Lemma readseg_loop_run e n epa : forall pa s k, 1 <= s -> s + Z.of_nat n <= 2 ^ 28 ->
  0 <= pa -> pa + SECTSIZE * Z.of_nat n < 2 ^ 32 -> epa <= pa + SECTSIZE * Z.of_nat n -> (n <> 0%nat -> pa + SECTSIZE * Z.of_nat n - SECTSIZE < epa) ->
  exists k', readseg_loop (S n) pa epa s k e = Done tt k' e /\ at_disk (ctl d0 k') = at_disk (ctl d0 k)
    /\ forall x, load8 (k_mem k') x = if decide (pa <= x < pa + SECTSIZE * Z.of_nat n) then file_byte (at_disk (ctl d0 k)) (SECTSIZE * (s - 1) + (x - pa))
                                      else load8 (k_mem k) x.
Proof.
  induction n as [|n IH]; intros pa s k Hs Hn H0 Hpa He1 He2.
  { exists k. cbn [readseg_loop]. rewrite (proj2 (Z.ltb_ge pa epa)) by lia. split; [done|]. split; [done|]. intros x. rewrite decide_False by lia. done. }
  specialize (He2 ltac:(done)). assert (Hlt : pa < epa) by (unfold SECTSIZE in *; lia).
  change (readseg_loop (S (S n)) pa epa s) with (if pa <? epa then readsect pa s;; readseg_loop (S n) (u32 (pa + SECTSIZE)) epa (u32 (s + 1)) else ret tt).
  rewrite (proj2 (Z.ltb_lt pa epa) Hlt). destruct (readsect_run pa s k e ltac:(lia)) as (io & E & Ed & Hsec). run E. set (D := at_disk (ctl d0 k)) in *.
  set (k1 := logged io _). rewrite (u32_small (s + 1)) by (change (2 ^ 28) with 268435456 in Hn; lia). rewrite u32_small by (unfold SECTSIZE in *; lia).
  destruct (IH (pa + SECTSIZE) (s + 1) k1) as (k' & E' & Ed' & Hm'); [unfold SECTSIZE in *; lia..|]. exists k'. split; [exact E'|].
  change (at_disk (ctl d0 k1)) with (at_disk (ata_of d0 io)) in *. rewrite Ed in *. split; [done|]. intros x. rewrite Hm'.
  assert (Hl : length (at_block D (0, s)) = BSIZE) by (rewrite <- Hsec; unfold sector_data; by rewrite length_fmap, length_resize).
  change (k_mem k1) with (store_bytes pa (at_block D (0, s)) (k_mem k)). rewrite load8_store_bytes, Hl.
  pose proof (file_byte_sector D s (x - pa) Hs) as Fb. change (Z.of_nat BSIZE) with 512. unfold SECTSIZE in *.
  destruct (decide (pa <= x < pa + 512)) as [Hx|Hx].
  - rewrite decide_False by lia. rewrite decide_True by lia. rewrite Fb by lia. by apply sector_byte.
  - destruct (decide (pa + 512 <= x < pa + 512 + 512 * Z.of_nat n)) as [Hy|Hy].
    + rewrite decide_True by lia. f_equal. lia.
    + rewrite decide_False by lia. done.
Qed.

(** The sectors reach the end, and the last one begins before it. *)
Lemma sectors_reach pa epa : pa <= epa -> let n := sectors_between pa epa in
  epa <= pa + SECTSIZE * Z.of_nat n /\ (n <> 0%nat -> pa + SECTSIZE * Z.of_nat n - SECTSIZE < epa).
Proof.
  intros H n. unfold n, sectors_between, SECTSIZE. rewrite Z2Nat.id by (apply Z.div_pos; lia).
  pose proof (Z.div_mod (epa - pa + (512 - 1)) 512 ltac:(lia)). pose proof (Z.mod_pos_bound (epa - pa + (512 - 1)) 512 ltac:(lia)). lia.
Qed.

Lemma first_of_le pa off : first_of pa off <= pa.
Proof. unfold first_of. pose proof (Z.mod_pos_bound off SECTSIZE ltac:(done)). lia. Qed.

(** The addresses that are read into do not wrap around. *)
Definition in_space (pa count off : Z) : Prop := 0 <= first_of pa off /\ read_end pa count off < 2 ^ 32.

Lemma readseg_run pa count off k e : 0 <= off -> 0 <= count -> in_space pa count off ->
  off / SECTSIZE + 1 + Z.of_nat (sectors_between (first_of pa off) (pa + count)) <= 2 ^ 28 ->
  exists k', readseg pa count off k e = Done tt k' e /\ at_disk (ctl d0 k') = at_disk (ctl d0 k)
    /\ forall x, load8 (k_mem k') x = if decide (first_of pa off <= x < read_end pa count off) then file_byte (at_disk (ctl d0 k)) (off + (x - pa))
                                      else load8 (k_mem k) x.
Proof.
  intros Ho Hc [Hf Hr] Hb. assert (0 <= off / SECTSIZE) by (apply Z.div_pos; unfold SECTSIZE; lia). pose proof (first_of_le pa off) as Hle.
  destruct (sectors_reach (first_of pa off) (pa + count) ltac:(lia)) as [R1 R2]. unfold read_end in Hr.
  unfold readseg. cbv zeta. rewrite (u32_small (pa + count)), (u32_small (pa - off mod SECTSIZE)) by (unfold first_of, SECTSIZE in *; lia). fold (first_of pa off).
  destruct (readseg_loop_run e (sectors_between (first_of pa off) (pa + count)) (pa + count) (first_of pa off) (off / SECTSIZE + 1) k)
    as (k' & E & Ed & Hm); [lia|lia|done..|]. exists k'. split; [exact E|]. split; [done|]. intros x. rewrite Hm. unfold read_end. case_decide; [|done]. f_equal.
  unfold first_of. pose proof (Z.div_mod off SECTSIZE ltac:(unfold SECTSIZE; lia)). lia.
Qed.

(** A segment with fields of 32 bits that lies in the 32-bit address space, with the whole sectors that are read for it, and
    stays away from the page with the headers. *)
Record loadable (sg : segment) : Prop := {
  ls_off : 0 <= sg_off sg < 2 ^ 32;
  ls_filesz : 0 <= sg_filesz sg < 2 ^ 32;
  ls_space : in_space (sg_paddr sg) (sg_filesz sg) (sg_off sg);
  ls_away : forall x, elf <= x < elf + 4096 -> ~ touches sg x
}.

Lemma read_end_covers pa count off : 0 <= count -> 0 <= off -> pa + count <= read_end pa count off.
Proof.
  intros Hc Ho. unfold read_end, sectors_between, first_of, SECTSIZE. set (r := off mod 512). assert (0 <= r) by (by apply Z.mod_pos_bound).
  rewrite Z2Nat.id by (apply Z.div_pos; lia). pose proof (Z.div_mod (pa + count - (pa - r) + (512 - 1)) 512 ltac:(lia)).
  pose proof (Z.mod_pos_bound (pa + count - (pa - r) + (512 - 1)) 512 ltac:(lia)). lia.
Qed.

Lemma sectors_few pa count off : 0 <= off < 2 ^ 32 -> 0 <= count < 2 ^ 32 ->
  off / SECTSIZE + 1 + Z.of_nat (sectors_between (first_of pa off) (pa + count)) <= 2 ^ 28.
Proof.
  intros Ho Hc. unfold sectors_between, first_of, SECTSIZE. pose proof (Z.mod_pos_bound off 512 ltac:(lia)).
  change (2 ^ 32) with 4294967296 in *. change (2 ^ 28) with 268435456. rewrite Z2Nat.id by (apply Z.div_pos; lia).
  replace (pa + count - (pa - off mod 512) + (512 - 1)) with (count + off mod 512 + 511) by lia. set (r := off mod 512) in *.
  assert (off / 512 <= 8388608) by (apply Z.div_le_upper_bound; lia). assert ((count + r + 511) / 512 <= 8388610) by (apply Z.div_le_upper_bound; lia). lia.
Qed.

Lemma load_segment_run ph sg k e : segment_at (k_mem k) ph = sg -> loadable sg -> elf <= ph -> ph + 32 <= elf + 4096 ->
  exists k', load_segment ph k e = Done tt k' e /\ at_disk (ctl d0 k') = at_disk (ctl d0 k)
    /\ (forall x, occupies sg x -> load8 (k_mem k') x = content (at_disk (ctl d0 k)) sg x)
    /\ (forall x, ~ touches sg x -> load8 (k_mem k') x = load8 (k_mem k) x).
Proof.
  intros Hsg [Ho Hf Hs Ha] H1 H2. unfold load_segment. rewrite bind_gets, Hsg. cbv zeta.
  destruct (readseg_run (sg_paddr sg) (sg_filesz sg) (sg_off sg) k e) as (k1 & E & Ed & Hm); [lia|lia|done|by apply sectors_few|]. run E. rewrite bind_gets.
  assert (Hsg1 : segment_at (k_mem k1) ph = sg).
  { rewrite <- Hsg. unfold segment_at. f_equal. apply load_bytes_ext. intros x Hx. rewrite Hm. rewrite decide_False; [done|].
    intros Hr. apply (Ha x); [lia|]. by left. }
  rewrite Hsg1. pose proof (read_end_covers (sg_paddr sg) (sg_filesz sg) (sg_off sg) ltac:(lia) ltac:(lia)) as Hend.
  pose proof (first_of_le (sg_paddr sg) (sg_off sg)) as Hfirst. rewrite (u32_small (sg_paddr sg + sg_filesz sg)) by (destruct Hs; lia).
  destruct (Z.ltb_spec (sg_filesz sg) (sg_memsz sg)) as [Hms|Hms]; cbn [when]; unfold modify, ret; eexists; (split; [reflexivity|]); (split; [exact Ed|]).
  - assert (Hz : forall x, load8 (k_mem (set_k_mem (stosb (sg_paddr sg + sg_filesz sg) 0 (Z.to_nat (sg_memsz sg - sg_filesz sg)) (k_mem k1)) k1)) x
      = if decide (sg_paddr sg + sg_filesz sg <= x < sg_paddr sg + sg_memsz sg) then 0 else load8 (k_mem k1) x).
    { intros x. change (k_mem (set_k_mem ?m k1)) with m. rewrite load8_stosb, Z2Nat.id by lia. repeat case_decide; (done || lia). }
    split; intros x Hx; rewrite Hz, Hm.
    + unfold occupies, content in *. repeat case_decide; (done || lia).
    + unfold touches in Hx. rewrite decide_False by tauto. rewrite decide_False by tauto. done.
  - split; intros x Hx; rewrite Hm.
    + unfold occupies, content in *. repeat case_decide; (done || lia).
    + unfold touches in Hx. rewrite decide_False by tauto. done.
Qed.

(** The segments are loaded in an order in which none overwrites an earlier one. *)
Fixpoint in_order (l : list segment) : Prop :=
  match l with
  | [] => True
  | sg :: l => Forall (fun later => forall x, touches later x -> ~ occupies sg x) l /\ in_order l
  end.

Definition loaded (d : gmap (Z * Z) (list Z)) (m : gmap Z Z) (sg : segment) : Prop := forall x, occupies sg x -> load8 m x = content d sg x.

(** The headers are in memory. *)
Definition headers (d : gmap (Z * Z) (list Z)) (m : gmap Z Z) : Prop := forall x, elf <= x < elf + 4096 -> load8 m x = file_byte d (x - elf).

Lemma headers_bytes d m n len : headers d m -> 0 <= n -> n + Z.of_nat len <= 4096 -> load_bytes m (elf + n) len = file_bytes d n len.
Proof.
  intros H Hn Hl. unfold load_bytes, file_bytes. apply list_fmap_ext. intros i x Hx. apply lookup_seq in Hx as [-> Hi]. simpl.
  rewrite H by lia. f_equal. lia.
Qed.

Definition header_of (d : gmap (Z * Z) (list Z)) : elfhdr := decode_elf (file_bytes d 0 52).
Definition segment_of (d : gmap (Z * Z) (list Z)) (i : Z) : segment := decode_segment (file_bytes d (elf_phoff (header_of d) + 32 * i) 32).

Lemma segments_run d e l : forall k, at_disk (ctl d0 k) = d -> headers d (k_mem k) ->
  Forall (fun i => 0 <= elf_phoff (header_of d) + 32 * i /\ elf_phoff (header_of d) + 32 * i + 32 <= 4096) l ->
  Forall loadable (segment_of d <$> l) -> in_order (segment_of d <$> l) ->
  exists k', for_each (fun i => load_segment (elf + elf_phoff (header_of d) + 32 * i)) l k e = Done tt k' e
    /\ headers d (k_mem k') /\ Forall (loaded d (k_mem k')) (segment_of d <$> l)
    /\ forall x, Forall (fun sg => ~ touches sg x) (segment_of d <$> l) -> load8 (k_mem k') x = load8 (k_mem k) x.
Proof.
  induction l as [|i l IH]; intros k Hd Hh Hr Hok Hord; cbn [for_each].
  { exists k. split; [done|]. split; [done|]. split; [apply Forall_nil_2|done]. }
  rewrite fmap_cons in *. apply Forall_cons in Hr as [Hri Hr]. apply Forall_cons in Hok as [Hoki Hok]. destruct Hord as [Hlater Hord].
  set (sg := segment_of d i) in *. set (ph := elf + elf_phoff (header_of d) + 32 * i).
  assert (Hsg : segment_at (k_mem k) ph = sg).
  { unfold segment_at, sg, segment_of, ph. rewrite <- Z.add_assoc. by rewrite (headers_bytes d) by (done || lia). }
  destruct (load_segment_run ph sg k e Hsg Hoki ltac:(unfold ph; lia) ltac:(unfold ph; lia)) as (k1 & E & Ed & Hc & Hu). run E. rewrite Hd in *.
  assert (Hh1 : headers d (k_mem k1)). { intros x Hx. rewrite Hu by (by apply (ls_away _ Hoki)). by apply Hh. }
  destruct (IH k1 Ed Hh1 Hr Hok Hord) as (k' & E' & Hh' & Hl' & Hu'). exists k'. split; [exact E'|]. split; [done|]. split.
  - apply Forall_cons. split; [|done]. intros x Hx. rewrite Hu'; [by apply Hc|]. eapply Forall_impl; [exact Hlater|]. intros later Hl Ht. by apply (Hl x).
  - intros x [Hx Hxs]%Forall_cons. rewrite Hu' by done. by apply Hu.
Qed.

(** Every byte of the first page of the file comes to the scratch space. *)
Lemma readseg_headers k e : exists k', readseg elf 4096 0 k e = Done tt k' e /\ at_disk (ctl d0 k') = at_disk (ctl d0 k) /\ headers (at_disk (ctl d0 k)) (k_mem k').
Proof.
  destruct (readseg_run elf 4096 0 k e ltac:(lia) ltac:(lia) ltac:(by split; vm_compute) ltac:(vm_compute; done)) as (k' & E & Ed & Hm). exists k'. split; [done|]. split; [done|].
  intros x Hx. rewrite Hm. change (first_of elf 0) with elf. change (read_end elf 4096 0) with (elf + 4096). by rewrite decide_True.
Qed.

(** C20: The boot loader loads the kernel.  The disk has an ELF file from sector 1 on, with its program headers
    in the first page; every segment lies in the 32-bit address space, none over the scratch space, and none, with the
    bytes that are read with it because the disk is read by sectors, over an
    earlier one.  Then [bootmain] ends by calling the entry point of the
    file, and every segment is in memory at its physical address: the bytes
    of the file, and zeroes up to the size in memory. *)
Theorem bootmain_loads (k : kstate) (e : environment kstate) :
  let d := at_disk (ctl d0 k) in
  let segs := segment_of d <$> seqZ 0 (elf_phnum (header_of d)) in
  elf_magic (header_of d) = ELF_MAGIC -> 0 <= elf_phoff (header_of d) -> elf_phoff (header_of d) + 32 * elf_phnum (header_of d) <= 4096 ->
  Forall loadable segs -> in_order segs ->
  exists k', bootmain k e = Done (Some (elf_entry (header_of d))) k' e /\ Forall (loaded d (k_mem k')) segs.
Proof.
  intros d segs Hmagic Hoff Hphs Hok Hord. unfold bootmain. destruct (readseg_headers k e) as (k1 & E & Ed & Hh). fold d in Ed, Hh. run E. rewrite bind_gets.
  assert (Hhd : forall m, headers d m -> elf_at m elf = header_of d).
  { intros m Hm. unfold elf_at, header_of. rewrite <- (Z.add_0_r elf). by rewrite (headers_bytes d) by (done || lia). }
  rewrite (Hhd _ Hh), Hmagic, Z.eqb_refl. cbn [negb]. cbv zeta.
  destruct (segments_run d e (seqZ 0 (elf_phnum (header_of d))) k1 Ed Hh) as (k2 & E2 & Hh2 & Hl2 & _); [|done|done|].
  { apply Forall_forall. intros i Hi%elem_of_seqZ. lia. }
  assert (E3 : for_each (fun i => load_segment (u32 (elf + elf_phoff (header_of d)) + 32 * i)) (seqZ 0 (elf_phnum (header_of d))) k1 e = Done tt k2 e).
  { destruct (decide (0 <= elf_phnum (header_of d))); [by rewrite u32_small by (unfold elf; lia)|]. rewrite seqZ_nil in * by lia. exact E2. }
  run E3. rewrite bind_gets, (Hhd _ Hh2). by exists k2.
Qed.

(** Anything else on the disk is left to bootasm.S. *)
Lemma bootmain_rejects (k : kstate) (e : environment kstate) :
  elf_magic (header_of (at_disk (ctl d0 k))) <> ELF_MAGIC -> exists k', bootmain k e = Done None k' e.
Proof.
  intros Hmagic. unfold bootmain. destruct (readseg_headers k e) as (k1 & E & _ & Hh). run E. rewrite bind_gets. exists k1.
  replace (elf_at (k_mem k1) elf) with (header_of (at_disk (ctl d0 k))); [by rewrite (proj2 (Z.eqb_neq _ _) Hmagic)|].
  unfold elf_at, header_of. rewrite <- (Z.add_0_r elf). by rewrite (headers_bytes (at_disk (ctl d0 k))) by (done || lia).
Qed.

End Loading.

(** ** A small kernel *)

(** Three bytes of code at offset 4096 of the file, for address [0x100000], with two zeroes behind them. *)
Definition tiny_header : list Z :=
  le_bytes 4 ELF_MAGIC ++ replicate 20 0 ++ le_bytes 4 0x10000c ++ le_bytes 4 52 ++ replicate 12 0 ++ le_bytes 2 1 ++ replicate 6 0
  ++ le_bytes 4 1 ++ le_bytes 4 4096 ++ le_bytes 4 0x80100000 ++ le_bytes 4 0x100000 ++ le_bytes 4 3 ++ le_bytes 4 5 ++ replicate 8 0.

Definition tiny_disk : gmap (Z * Z) (list Z) :=
  <[(0, 1) := sector_data tiny_header]> {[ (0, 9) := sector_data [7; 8; 9] ]}.

Lemma tiny_sectors : sectors tiny_disk.
Proof. apply map_Forall_insert_2; [apply sector_data_twice|]. apply map_Forall_singleton. apply sector_data_twice. Qed.

#[local] Instance tiny_ata : @AtaDisk (ready_disk tiny_disk) tiny_disk := ready_disk_ata tiny_disk tiny_sectors.

Definition tiny_segment : segment := mk_segment 4096 0x100000 3 5.

Lemma tiny_segments : segment_of tiny_disk <$> seqZ 0 (elf_phnum (header_of tiny_disk)) = [tiny_segment].
Proof. vm_compute. reflexivity. Qed.

Lemma bootmain_loads_witness :
  exists k', bootmain (HW := ready_disk tiny_disk) (boot_state [] ∅ 0) [] = Done (Some 0x10000c) k' []
    /\ load8 (k_mem k') 0x100001 = 8 /\ load8 (k_mem k') 0x100004 = 0.
Proof.
  destruct (bootmain_loads (HW := ready_disk tiny_disk) tiny_disk (boot_state [] ∅ 0) []) as (k' & E & H).
  - vm_compute. reflexivity.
  - apply Z.leb_le. vm_compute. reflexivity.
  - apply Z.leb_le. vm_compute. reflexivity.
  - change (at_disk (ctl tiny_disk (boot_state [] ∅ 0))) with tiny_disk. rewrite tiny_segments. apply Forall_singleton.
    split; [simpl; lia|simpl; lia|by split; vm_compute|]. intros x Hx. unfold touches, elf, read_end, sectors_between, first_of, SECTSIZE in *.
    cbn [tiny_segment sg_off sg_paddr sg_filesz sg_memsz]. change (4096 mod 512) with 0.
    change (Z.of_nat (Z.to_nat ((0x100000 + 3 - (0x100000 - 0) + (512 - 1)) / 512))) with 1. lia.
  - change (at_disk (ctl tiny_disk (boot_state [] ∅ 0))) with tiny_disk. rewrite tiny_segments. split; [apply Forall_nil_2|exact I].
  - change (at_disk (ctl tiny_disk (boot_state [] ∅ 0))) with tiny_disk in *. rewrite tiny_segments, Forall_singleton in H.
    exists k'. split; [exact E|]. assert (A : occupies tiny_segment 0x100001 /\ occupies tiny_segment 0x100004) by (unfold occupies; simpl; lia).
    split; [rewrite (H _ (proj1 A))|rewrite (H _ (proj2 A))]; vm_compute; reflexivity.
Defined.
