(* ===== verification/Syscall.v ===== *)
(** * System call arguments (syscall.c)

    A fetch that returns -1 is [None].  [fetchstr], which only sets a pointer in
    C, returns the string behind it. *)

From stdpp Require Import base gmap list strings.
From Stdlib Require Import ZArith Lia.
From S2P Require Import Prelude State Memory Spinlock Sched Vm Proc.

Definition fetchint (addr : Z) : K (option Z) :=
  p <- curproc;;
  sz <- gets (fun k => p_sz (proc_at k p));;
  if (sz <=? addr) || (sz <? u32 (addr + 4)) then ret None else
  v <- vload32 addr;;
  ret (Some (s32 v)).

(** The loop of [fetchstr] from [s], with [n] bytes left before [ep]. *)
Fixpoint fetchstr_loop (n : nat) (s : Z) : K (option (list Z)) :=
  match n with
  | O => ret None
  | S n =>
      c <- vload8 s;;
      if c =? 0 then ret (Some []) else
      r <- fetchstr_loop n (s + 1);;
      ret (cons c <$> r)
  end.

Definition fetchstr (addr : Z) : K (option (list Z)) :=
  p <- curproc;;
  sz <- gets (fun k => p_sz (proc_at k p));;
  if sz <=? addr then ret None else fetchstr_loop (Z.to_nat (sz - addr)) addr.

Definition argint (n : Z) : K (option Z) :=
  p <- curproc;;
  esp <- gets (fun k => tf_esp (tf_at k (p_tf (proc_at k p))));;
  fetchint (u32 (esp + 4 + 4 * n)).

(** The pointer, when the block behind it lies in the process. *)
Definition argptr (n size : Z) : K (option Z) :=
  p <- curproc;;
  i <- argint n;;
  match i with
  | None => ret None
  | Some i =>
      sz <- gets (fun k => p_sz (proc_at k p));;
      if (size <? 0) || (sz <=? u32 i) || (sz <? u32 (u32 i + size)) then ret None
      else ret (Some (u32 i))
  end.

Definition argstr (n : Z) : K (option (list Z)) :=
  addr <- argint n;;
  match addr with
  | None => ret None
  | Some addr => fetchstr (u32 addr)
  end.

(** ** Arguments in user memory *)

(** The bytes [l] are mapped at the virtual address [va]. *)
Definition mapped_bytes (k : kstate) (va : Z) (l : list Z) : Prop :=
  forall i x, l !! i = Some x -> exists a, mmu k PTE_P (va + Z.of_nat i) = Some a /\ load8 (k_mem k) a = x.

Lemma vload_run k l e : forall va, mapped_bytes k va l -> vload va (length l) k e = Done l k e.
Proof.
  induction l as [|x l IH]; intros va H; [done|]. cbn [vload length]. unfold vload8. rewrite bind_assoc, bind_gets.
  destruct (H 0%nat x eq_refl) as (a & Ha & Hx). rewrite Z.add_0_r in Ha. rewrite Ha, bind_gets, Hx. rewrite (bind_done _ _ _ _ _ _ _ (IH (va + 1) ltac:(
    intros i y Hy; destruct (H (S i) y Hy) as (b & Hb & Hby); exists b; split; [|done]; rewrite <- Hb; f_equal; lia))). done.
Qed.

(** The address of argument [n] of the system call of process [p]. *)
Definition arg_addr (k : kstate) (p : nat) (n : Z) : Z := u32 (tf_esp (tf_at k (p_tf (proc_at k p))) + 4 + 4 * n).

Lemma argint_run k c p n l e : running k c p -> 0 <= p_sz (proc_at k p) <= KERNBASE -> length l = 4%nat ->
  (arg_addr k p n + 4 <= p_sz (proc_at k p) -> mapped_bytes k (arg_addr k p n) l) ->
  argint n k e = Done (if bool_decide (arg_addr k p n + 4 <= p_sz (proc_at k p)) then Some (s32 (le_val l)) else None) k e.
Proof.
  intros Hr Hsz Hl Hu. unfold argint. run (curproc_running k c p e Hr). rewrite bind_gets. fold (arg_addr k p n). unfold fetchint.
  run (curproc_running k c p e Hr). rewrite bind_gets. set (sz := p_sz (proc_at k p)) in *. set (a := arg_addr k p n) in *.
  assert (Ha : 0 <= a < 2 ^ 32) by apply u32_bounds. unfold KERNBASE in Hsz. change (2 ^ 32) with 4294967296 in Ha.
  destruct (Z.leb_spec sz a) as [H1|H1]; [rewrite bool_decide_false by lia; done|]. cbn [orb]. rewrite u32_small by (change (2 ^ 32) with 4294967296; lia).
  destruct (Z.ltb_spec sz (a + 4)) as [H2|H2]; [rewrite bool_decide_false by lia; done|]. rewrite bool_decide_true by lia.
  unfold vload32. rewrite bind_assoc. rewrite <- Hl. rewrite (bind_done _ _ _ _ _ _ _ (vload_run k l e a (Hu H2))). done.
Qed.

(** C29: [argptr] lets a pointer through exactly when the block behind it lies in the process: the word of
    the argument is in the process, the size is not negative, and the block begins and ends
    below the size of the process, without any wrap-around of the 32-bit sums in the
    tests.  It changes nothing. *)
Theorem argptr_bounds (k : kstate) (c p : nat) (n size : Z) (l : list Z) (e : environment kstate) :
  running k c p -> 0 <= p_sz (proc_at k p) <= KERNBASE -> size < 2 ^ 31 -> length l = 4%nat -> Forall is_byte l ->
  (arg_addr k p n + 4 <= p_sz (proc_at k p) -> mapped_bytes k (arg_addr k p n) l) ->
  argptr n size k e = Done (if bool_decide (arg_addr k p n + 4 <= p_sz (proc_at k p) /\ 0 <= size /\ le_val l < p_sz (proc_at k p)
                                            /\ le_val l + size <= p_sz (proc_at k p))
                            then Some (le_val l) else None) k e.
Proof.
  intros Hr Hsz Hs Hl Hb Hu. unfold argptr. run (curproc_running k c p e Hr). rewrite (bind_done _ _ _ _ _ _ _ (argint_run k c p n l e Hr Hsz Hl Hu)).
  pose proof (le_val_bounds l Hb) as Hv. rewrite Hl in Hv. change (2 ^ (8 * Z.of_nat 4)) with 4294967296 in Hv. set (sz := p_sz (proc_at k p)) in *.
  destruct (decide (arg_addr k p n + 4 <= sz)) as [H1|H1]; [rewrite (bool_decide_true (_ <= _)) by done|rewrite !bool_decide_false by tauto; done].
  rewrite bind_gets. fold sz. assert (E : u32 (s32 (le_val l)) = le_val l) by (rewrite u32_s32, u32_small by (change (2 ^ 32) with 4294967296; lia); done).
  rewrite E. unfold KERNBASE in Hsz. change (2 ^ 31) with 2147483648 in Hs.
  destruct (Z.ltb_spec size 0) as [H2|H2]; [rewrite bool_decide_false by lia; done|].
  destruct (Z.leb_spec sz (le_val l)) as [H3|H3]; [rewrite bool_decide_false by lia; done|]. cbn [orb].
  rewrite u32_small by (change (2 ^ 32) with 4294967296; lia).
  destruct (Z.ltb_spec sz (le_val l + size)) as [H4|H4]; [rewrite bool_decide_false by lia; done|]. by rewrite bool_decide_true by lia.
Qed.

(** A process of two pages whose second argument is the address 5000. *)
Definition call_machine : kstate :=
  let k := boot_state [mk_cpu 0 1 0 0 (Some 0%nat)] ∅ 0 in
  let k := upd_proc 0 (set_p_sz 8192) (upd_proc 0 (set_p_tf 0x80403000) k) in
  let k := set_k_tf {[ 0x80403000 := set_tf_esp 100 init_tf ]} (set_k_cr3 0x400000 k) in
  set_k_mem (store32 (0x80402000 + 108) 5000 (store32 0x80401000 0x402007 (store32 0x80400000 0x401007 ∅))) k.

Lemma argptr_bounds_witness : argptr 1 100 call_machine [] = Done (Some 5000) call_machine [].
Proof.
  rewrite (argptr_bounds call_machine 0 0 1 100 (le_bytes 4 5000) []).
  - rewrite bool_decide_true; [reflexivity|]. change (arg_addr call_machine 0 1) with 108. change (p_sz (proc_at call_machine 0)) with 8192.
    change (le_val (le_bytes 4 5000)) with 5000. lia.
  - split; [by split|reflexivity].
  - split; apply Z.leb_le; vm_compute; reflexivity.
  - lia.
  - reflexivity.
  - apply le_bytes_is_byte.
  - intros _ i x Hx. exists (0x80402000 + 108 + Z.of_nat i).
    destruct i as [|[|[|[|i]]]]; [..|done]; vm_compute in Hx; injection Hx as <-; (split; vm_compute; reflexivity).
Defined.
