(* ===== verification/Sysproc.v ===== *)
(** * Process system calls (sysproc.c)

    The handlers take their arguments from the user stack through [argint] and
    return the value that ends up in [%eax]. *)

From stdpp Require Import base gmap list strings.
From Stdlib Require Import ZArith Lia.
From S2P Require Import Prelude State Memory CString Spinlock Kalloc Sched Console Vm Pipe Proc Syscall.

Section Sysproc.
Context {L : Linker}.

Definition sys_fork : K Z := fork.

Definition sys_exit : K Z := exit;; ret 0.

Definition sys_wait : K Z := wait.

Definition sys_kill : K Z :=
  pid <- argint 0;;
  match pid with None => ret (-1) | Some pid => kill pid end.

Definition sys_getpid : K Z := p <- curproc;; gets (fun k => p_pid (proc_at k p)).

Definition sys_sbrk : K Z :=
  n <- argint 0;;
  match n with
  | None => ret (-1)
  | Some n =>
      p <- curproc;;
      addr <- gets (fun k => s32 (p_sz (proc_at k p)));;
      r <- growproc n;;
      if r <? 0 then ret (-1) else ret addr
  end.

(** One round of the loop of [sys_sleep]. The comparison is unsigned. *)
Definition sys_sleep_body (ticks0 n : Z) (_ : unit) : K (unit + Z) :=
  ticks <- gets k_ticks;;
  if u32 (ticks - ticks0) <? u32 n then
    stop <- killed;;
    if (stop : bool) then release L_tickslock;; ret (inr (-1)) else
    sleep Ch_ticks (Some L_tickslock);;
    ret (inl tt)
  else
    release L_tickslock;;
    ret (inr 0).

Definition sys_sleep : K Z :=
  n <- argint 0;;
  match n with
  | None => ret (-1)
  | Some n =>
      acquire L_tickslock;;
      ticks0 <- gets k_ticks;;
      waiting (sys_sleep_body ticks0 n) tt
  end.

Definition sys_uptime : K Z :=
  acquire L_tickslock;;
  xticks <- gets k_ticks;;
  release L_tickslock;;
  ret (s32 xticks).

Definition sys_cps : K Z := cps.

Definition sys_shm_alloc : K Z :=
  size <- argint 0;;
  match size with
  | None => ret (-1)
  | Some size =>
      if size <=? 0 then ret (-1) else
      addr <- kalloc;;
      if addr =? 0 then ret (-1) else
      kmem (memset addr 0 size);;
      ret (s32 addr)
  end.

(** The text of [sys_describe], one string for each call of [cprintf]. *)
Definition descriptions : list string :=
  [ ("System Call Descriptions:" ++ newline ++ newline)%string;
    ("1. fork():" ++ newline)%string;
    ("   Creates a new process by duplicating the calling process." ++ newline)%string;
    ("   Returns 0 to the child process and the PID of the child to the parent." ++ newline ++ newline)%string;
    ("2. exec(path, argv):" ++ newline)%string;
    ("   Replaces the current process with a new process from the program at 'path'." ++ newline)%string;
    ("   'argv' is an array of arguments. Returns -1 on failure, does not return on success." ++ newline ++ newline)%string;
    ("3. wait():" ++ newline)%string;
    ("   Suspends execution until a child process terminates, then returns the child PID." ++ newline)%string;
    ("   Returns -1 if there are no children." ++ newline ++ newline)%string;
    ("4. kill(pid):" ++ newline)%string;
    ("   Sends a signal to terminate the process with the specified PID." ++ newline)%string;
    ("   Returns 0 on success, or -1 if the PID is invalid." ++ newline ++ newline)%string;
    ("5. exit(status):" ++ newline)%string;
    ("   Terminates the calling process with the specified status code." ++ newline)%string;
    ("   Does not return." ++ newline ++ newline)%string;
    ("6. getpid():" ++ newline)%string;
    ("   Returns the process ID (PID) of the calling process." ++ newline ++ newline)%string;
    ("7. sleep(seconds):" ++ newline)%string;
    ("   Suspends execution of the calling process for a specified time (in seconds)." ++ newline)%string;
    ("   Returns 0 on success." ++ newline ++ newline)%string;
    ("8. uptime():" ++ newline)%string;
    ("   Returns the number of timer ticks since the system started." ++ newline ++ newline)%string;
    ("9. sbrk(n):" ++ newline)%string;
    ("   Increases the process’s data space by 'n' bytes. Returns the start address of the new area." ++ newline ++ newline)%string;
    ("10. open(filename, flags):" ++ newline)%string;
    ("    Opens the file specified by 'filename' with the given 'flags'." ++ newline)%string;
    ("    Returns a file descriptor, or -1 if the file could not be opened." ++ newline ++ newline)%string;
    ("11. read(fd, buffer, nbytes):" ++ newline)%string;
    ("    Reads 'nbytes' from file descriptor 'fd' into 'buffer'." ++ newline)%string;
    ("    Returns the number of bytes read, or -1 on error." ++ newline ++ newline)%string;
    ("12. write(fd, buffer, nbytes):" ++ newline)%string;
    ("    Writes 'nbytes' from 'buffer' to the file descriptor 'fd'." ++ newline)%string;
    ("    Returns the number of bytes written, or -1 on error." ++ newline ++ newline)%string;
    ("13. close(fd):" ++ newline)%string;
    ("    Closes the file descriptor 'fd'." ++ newline)%string;
    ("    Returns 0 on success, or -1 on error." ++ newline ++ newline)%string;
    ("14. fstat(fd, stat):" ++ newline)%string;
    ("    Retrieves file status information for the file descriptor 'fd' into 'stat'." ++ newline)%string;
    ("    Returns 0 on success, or -1 on error." ++ newline ++ newline)%string;
    ("15. link(oldpath, newpath):" ++ newline)%string;
    ("    Creates a new link (newpath) to an existing file (oldpath)." ++ newline)%string;
    ("    Returns 0 on success, or -1 on error." ++ newline ++ newline)%string;
    ("16. unlink(path):" ++ newline)%string;
    ("    Removes the specified file (path) if it has no other links." ++ newline)%string;
    ("    Returns 0 on success, or -1 on error." ++ newline ++ newline)%string;
    ("17. mkdir(path):" ++ newline)%string;
    ("    Creates a new directory at the specified path." ++ newline)%string;
    ("    Returns 0 on success, or -1 on error." ++ newline ++ newline)%string;
    ("18. chdir(path):" ++ newline)%string;
    ("    Changes the current working directory to the specified path." ++ newline)%string;
    ("    Returns 0 on success, or -1 on error." ++ newline ++ newline)%string;
    ("19. dup(fd):" ++ newline)%string;
    ("    Duplicates the file descriptor 'fd'." ++ newline)%string;
    ("    Returns a new file descriptor pointing to the same file, or -1 on error." ++ newline ++ newline)%string;
    ("20. pipe(pipefd):" ++ newline)%string;
    ("    Creates a pipe, a unidirectional data channel, and places the two ends of the pipe" ++ newline)%string;
    ("    in the array 'pipefd'. Returns 0 on success, or -1 on error." ++ newline ++ newline)%string;
    ("21. mknod(path, major, minor):" ++ newline)%string;
    ("    Creates a device file with the specified path, major number, and minor number." ++ newline)%string;
    ("    Returns 0 on success, or -1 on error." ++ newline ++ newline)%string;
    ("22. sendmsg(pid, message):" ++ newline)%string;
    ("    Sends a message to the process with the specified PID." ++ newline)%string;
    ("    'message' is the content to be sent. Returns 0 on success, or -1 if the PID is invalid." ++ newline ++ newline)%string;
    ("23. recvmsg(buffer, maxlen):" ++ newline)%string;
    ("    Receives a message sent to the calling process and stores it in 'buffer'." ++ newline)%string;
    ("    'maxlen' specifies the maximum number of characters to read." ++ newline)%string;
    ("    Returns the number of bytes received, or -1 if no messages are available." ++ newline ++ newline)%string;
    ("End of System Call Descriptions." ++ newline)%string ].

Definition sys_describe : K Z :=
  for_each (fun s => cprintf s []) descriptions;;
  ret 0.

End Sysproc.
