(* ===== verification/Sysfile.v ===== *)
(** * File system calls (sysfile.c)

    The handlers of the file system calls.  User buffers are read and written
    through the page table of the process; every page below its size is mapped. *)

From stdpp Require Import base gmap list strings.
From Stdlib Require Import ZArith Lia.
From S2P Require Import Prelude State Memory Spinlock Kalloc Sched Console Vm Bio Log Fs Pipe File Proc Exec Syscall.

Section Sysfile.
Context {L : Linker}.

Definition O_RDONLY : Z := 0x000.
Definition O_WRONLY : Z := 0x001.
Definition O_RDWR : Z := 0x002.
Definition O_CREATE : Z := 0x200.

(** The descriptor and the file. *)
Definition argfd (n : Z) : K (option (nat * nat)) :=
  fd <- argint n;;
  match fd with
  | None => ret None
  | Some fd =>
      if (fd <? 0) || (Z.of_nat NOFILE <=? fd) then ret None else
      p <- curproc;;
      f <- gets (fun k => mjoin (p_ofile (proc_at k p) !! Z.to_nat fd));;
      ret ((fun f => (Z.to_nat fd, f)) <$> f)
  end.

Definition set_ofile (p fd : nat) (f : option nat) : K unit :=
  modify (upd_proc p (fun r => set_p_ofile (<[fd := f]> (p_ofile r)) r)).

Definition fdalloc (f : nat) : K Z :=
  p <- curproc;;
  fd <- gets (fun k => first_index (fun x => bool_decide (x = None)) (p_ofile (proc_at k p)));;
  match fd with
  | Some fd => set_ofile p fd (Some f);; ret (Z.of_nat fd)
  | None => ret (-1)
  end.

Definition sys_dup : K Z :=
  a <- argfd 0;;
  match a with
  | None => ret (-1)
  | Some (_, f) =>
      fd <- fdalloc f;;
      if fd <? 0 then ret (-1) else
      filedup f;;
      ret fd
  end.

(** The arguments of [read] and [write]: the file, the buffer and its size. *)
Definition rw_args : K (option (nat * Z * Z)) :=
  a <- argfd 0;;
  match a with
  | None => ret None
  | Some (_, f) =>
      n <- argint 2;;
      match n with
      | None => ret None
      | Some n =>
          p <- argptr 1 n;;
          ret ((fun p => (f, p, n)) <$> p)
      end
  end.

Definition sys_read : K Z :=
  a <- rw_args;;
  match a with
  | None => ret (-1)
  | Some (f, p, n) =>
      r <- fileread f n;;
      vstore p (snd r);;
      ret (fst r)
  end.

Definition sys_write : K Z :=
  a <- rw_args;;
  match a with
  | None => ret (-1)
  | Some (f, p, n) =>
      l <- vload p (Z.to_nat n);;
      filewrite f l n
  end.

Definition sys_close : K Z :=
  a <- argfd 0;;
  match a with
  | None => ret (-1)
  | Some (fd, f) =>
      p <- curproc;;
      set_ofile p fd None;;
      fileclose f;;
      ret 0
  end.

(** The stores of [stati] into the user's [struct stat]. *)
Definition store_stat (a : Z) (st : stat) : K unit :=
  vstore (a + 4) (le_bytes 4 (st_dev st));;
  vstore (a + 8) (le_bytes 4 (st_ino st));;
  vstore a (le_bytes 2 (st_type st));;
  vstore (a + 12) (le_bytes 2 (st_nlink st));;
  vstore (a + 16) (le_bytes 4 (st_size st)).

Definition sys_fstat : K Z :=
  a <- argfd 0;;
  match a with
  | None => ret (-1)
  | Some (_, f) =>
      p <- argptr 1 20;;
      match p with
      | None => ret (-1)
      | Some p =>
          st <- filestat f;;
          match st with
          | None => ret (-1)
          | Some st => store_stat p st;; ret 0
          end
      end
  end.

Definition fail_op : K Z := end_op;; ret (-1).

Definition add_nlink (i : nat) (d : Z) : K unit :=
  modify (upd_inode i (fun ip => set_i_nlink (s16 (i_nlink ip + d)) ip)).

(** The label [bad] of [sys_link]. *)
Definition sys_link_bad (ip : nat) : K Z :=
  ilock ip;;
  add_nlink ip (-1);;
  iupdate ip;;
  iunlockput ip;;
  fail_op.

Definition link_inode (old new : list Z) : K Z :=
  begin_op;;
  ip <- namei old;;
  match ip with
  | None => fail_op
  | Some ip =>
  ilock ip;;
  type <- gets (fun k => i_type (inode_at k ip));;
  if type =? T_DIR then iunlockput ip;; fail_op else
  add_nlink ip 1;;
  iupdate ip;;
  iunlock ip;;
  d <- nameiparent new;;
  match d with
  | (None, _) => sys_link_bad ip
  | (Some dp, name) =>
      ilock dp;;
      ddev <- idev dp;;
      dev <- idev ip;;
      r <- (if negb (ddev =? dev) then ret (-1)
            else inum <- gets (fun k => i_inum (inode_at k ip));; dirlink dp name inum);;
      if r <? 0 then iunlockput dp;; sys_link_bad ip else
      iunlockput dp;;
      iput ip;;
      end_op;;
      ret 0
  end
  end.

Definition sys_link : K Z :=
  old <- argstr 0;;
  match old with
  | None => ret (-1)
  | Some old =>
      new <- argstr 1;;
      match new with None => ret (-1) | Some new => link_inode old new end
  end.

Definition isdirempty_body (dp : nat) (off : Z) : K (Z + bool) :=
  size <- gets (fun k => i_size (inode_at k dp));;
  if u32 off <? size then
    r <- readi dp (u32 off) sizeof_dirent;;
    if negb (fst r =? sizeof_dirent) then panic "isdirempty: readi" else
    if negb (de_inum (snd r) =? 0) then ret (inr false) else ret (inl (off + sizeof_dirent))
  else ret (inr true).

(** One round for each entry after the first two. *)
Definition isdirempty (dp : nat) : K bool :=
  size <- gets (fun k => i_size (inode_at k dp));;
  iter (Z.to_nat (size / sizeof_dirent) + 2) (isdirempty_body dp) (2 * sizeof_dirent).

(** The label [bad] of [sys_unlink]. *)
Definition unlink_bad (dp : nat) : K Z := iunlockput dp;; fail_op.

Definition unlink_path (path : list Z) : K Z :=
  begin_op;;
  d <- nameiparent path;;
  match d with
  | (None, _) => fail_op
  | (Some dp, name) =>
  ilock dp;;
  if (namecmp name (chars ".") =? 0) || (namecmp name (chars "..") =? 0) then unlink_bad dp else
  r <- dirlookup dp name;;
  match r with
  | None => unlink_bad dp
  | Some (ip, off) =>
  ilock ip;;
  n <- gets (fun k => inode_at k ip);;
  if i_nlink n <? 1 then panic "unlink: nlink < 1" else
  full <- (if i_type n =? T_DIR then e <- isdirempty ip;; ret (negb e) else ret false);;
  if (full : bool) then iunlockput ip;; unlink_bad dp else
  r <- writei dp (replicate 16 0) off sizeof_dirent;;
  if negb (r =? sizeof_dirent) then panic "unlink: writei" else
  type <- gets (fun k => i_type (inode_at k ip));;
  when (type =? T_DIR) (add_nlink dp (-1);; iupdate dp);;
  iunlockput dp;;
  add_nlink ip (-1);;
  iupdate ip;;
  iunlockput ip;;
  end_op;;
  ret 0
  end
  end.

Definition sys_unlink : K Z :=
  path <- argstr 0;;
  match path with None => ret (-1) | Some path => unlink_path path end.

(** [create] where the name is absent from the locked directory [dp]. *)
Definition create_new (dp : nat) (name : list Z) (type major minor : Z) : K (option nat) :=
  dev <- idev dp;;
  ip <- ialloc dev type;;
  ilock ip;;
  modify (upd_inode ip (set_i_major major));;
  modify (upd_inode ip (set_i_minor minor));;
  modify (upd_inode ip (set_i_nlink 1));;
  iupdate ip;;
  when (type =? T_DIR)
   (add_nlink dp 1;;
    iupdate dp;;
    inum <- gets (fun k => i_inum (inode_at k ip));;
    r <- dirlink ip (chars ".") inum;;
    r <- (if r <? 0 then ret r
          else inum <- gets (fun k => i_inum (inode_at k dp));; dirlink ip (chars "..") inum);;
    when (r <? 0) (panic "create dots"));;
  inum <- gets (fun k => i_inum (inode_at k ip));;
  r <- dirlink dp name inum;;
  if r <? 0 then panic "create: dirlink" else
  iunlockput dp;;
  ret (Some ip).

Definition create (path : list Z) (type major minor : Z) : K (option nat) :=
  d <- nameiparent path;;
  match d with
  | (None, _) => ret None
  | (Some dp, name) =>
      ilock dp;;
      r <- dirlookup dp name;;
      match r with
      | Some (ip, _) =>
          iunlockput dp;;
          ilock ip;;
          itype <- gets (fun k => i_type (inode_at k ip));;
          if (type =? T_FILE) && (itype =? T_FILE) then ret (Some ip) else
          iunlockput ip;;
          ret None
      | None => create_new dp name (s16 type) (s16 major) (s16 minor)
      end
  end.

(** The inode that [open] opens, locked; [None] when it fails. *)
Definition open_inode (path : list Z) (omode : Z) : K (option nat) :=
  if truth (Z.land omode O_CREATE) then create path T_FILE 0 0 else
  ip <- namei path;;
  match ip with
  | None => ret None
  | Some ip =>
      ilock ip;;
      type <- gets (fun k => i_type (inode_at k ip));;
      if (type =? T_DIR) && negb (omode =? O_RDONLY) then iunlockput ip;; ret None else
      ret (Some ip)
  end.

Definition open_file (ip : nat) (omode : Z) (f : file) : file :=
  set_f_writable (of_bool (truth (Z.land omode O_WRONLY) || truth (Z.land omode O_RDWR)))
   (set_f_readable (of_bool (negb (truth (Z.land omode O_WRONLY))))
   (set_f_off 0 (set_f_ip (Some ip) (set_f_type FD_INODE f)))).

Definition open_path (path : list Z) (omode : Z) : K Z :=
  begin_op;;
  ip <- open_inode path omode;;
  match ip with
  | None => fail_op
  | Some ip =>
  f <- filealloc;;
  match f with
  | None => iunlockput ip;; fail_op
  | Some f =>
  fd <- fdalloc f;;
  if fd <? 0 then fileclose f;; iunlockput ip;; fail_op else
  iunlock ip;;
  end_op;;
  modify (upd_file f (open_file ip omode));;
  ret fd
  end
  end.

Definition sys_open : K Z :=
  path <- argstr 0;;
  match path with
  | None => ret (-1)
  | Some path =>
      omode <- argint 1;;
      match omode with None => ret (-1) | Some omode => open_path path omode end
  end.

(** The end of [sys_mkdir] and [sys_mknod]. *)
Definition put_created (ip : option nat) : K Z :=
  match ip with
  | None => fail_op
  | Some ip => iunlockput ip;; end_op;; ret 0
  end.

Definition sys_mkdir : K Z :=
  begin_op;;
  path <- argstr 0;;
  ip <- (match path with None => ret None | Some path => create path T_DIR 0 0 end);;
  put_created ip.

Definition sys_mknod : K Z :=
  begin_op;;
  path <- argstr 0;;
  ip <- (match path with
         | None => ret None
         | Some path =>
             major <- argint 1;;
             match major with
             | None => ret None
             | Some major =>
                 minor <- argint 2;;
                 match minor with
                 | None => ret None
                 | Some minor => create path T_DEV major minor
                 end
             end
         end);;
  put_created ip.

Definition sys_chdir : K Z :=
  p <- curproc;;
  begin_op;;
  path <- argstr 0;;
  ip <- (match path with None => ret None | Some path => namei path end);;
  match ip with
  | None => fail_op
  | Some ip =>
      ilock ip;;
      type <- gets (fun k => i_type (inode_at k ip));;
      if negb (type =? T_DIR) then iunlockput ip;; fail_op else
      iunlock ip;;
      cwd <- gets (fun k => p_cwd (proc_at k p));;
      cwd <- deref cwd;;
      iput cwd;;
      end_op;;
      modify (upd_proc p (set_p_cwd (Some ip)));;
      ret 0
  end.

(** The loop of [sys_exec] from [i], with [n] slots of [argv] left. *)
Fixpoint exec_args (n : nat) (uargv i : Z) : K (option (list (list Z))) :=
  match n with
  | O => ret None
  | S n =>
      uarg <- fetchint (u32 (uargv + 4 * i));;
      match uarg with
      | None => ret None
      | Some uarg =>
          if uarg =? 0 then ret (Some []) else
          s <- fetchstr (u32 uarg);;
          match s with
          | None => ret None
          | Some s => rest <- exec_args n uargv (i + 1);; ret (cons s <$> rest)
          end
      end
  end.

Definition sys_exec : K Z :=
  path <- argstr 0;;
  match path with
  | None => ret (-1)
  | Some path =>
      uargv <- argint 1;;
      match uargv with
      | None => ret (-1)
      | Some uargv =>
          argv <- exec_args MAXARG (u32 uargv) 0;;
          match argv with None => ret (-1) | Some argv => exec path argv end
      end
  end.

Definition sys_pipe : K Z :=
  fd <- argptr 0 8;;
  match fd with
  | None => ret (-1)
  | Some fd =>
  fs <- pipealloc;;
  match fs with
  | None => ret (-1)
  | Some (rf, wf) =>
      fd0 <- fdalloc rf;;
      fd1 <- (if fd0 <? 0 then ret (-1) else fdalloc wf);;
      if (fd0 <? 0) || (fd1 <? 0) then
        when (0 <=? fd0) (p <- curproc;; set_ofile p (Z.to_nat fd0) None);;
        fileclose rf;;
        fileclose wf;;
        ret (-1)
      else
        vstore32 fd fd0;;
        vstore32 (fd + 4) fd1;;
        ret 0
  end
  end.

End Sysfile.
