(* ===== verification/Trap.v ===== *)
(** * System call dispatch and traps (syscall.c, trap.c) and start-up (main.c)

    [trap] takes the address of the trap frame and the faulting address in
    [cr2]; the devices are those of [Hardware], and the disk driver is that of
    ide.c.  [main] takes the code of the first process and what the linker
    places: the code for the other processors with its size, the address of
    [mpenter], the boot page directory and the entry points of the traps. *)

From stdpp Require Import base gmap list strings.
From Stdlib Require Import ZArith Lia.
From S2P Require Import Prelude State Memory CString Spinlock Segment Kalloc Sched Console Devices Ide Mp Vm Bio Log Fs Pipe File Proc Exec.
From S2P Require Import Syscall Sysproc Sysfile.

Section Trap.
Context {L : Linker} {HW : Hardware}.

(** The table [syscalls]. *)
Definition syscalls (num : Z) : option (K Z) :=
  match num with
  | 1 => Some sys_fork | 2 => Some sys_exit | 3 => Some sys_wait | 4 => Some sys_pipe
  | 5 => Some sys_read | 6 => Some sys_kill | 7 => Some sys_exec | 8 => Some sys_fstat
  | 9 => Some sys_chdir | 10 => Some sys_dup | 11 => Some sys_getpid | 12 => Some sys_sbrk
  | 13 => Some sys_sleep | 14 => Some sys_uptime | 15 => Some sys_open | 16 => Some sys_write
  | 17 => Some sys_mknod | 18 => Some sys_unlink | 19 => Some sys_link | 20 => Some sys_mkdir
  | 21 => Some sys_close | 22 => Some sys_cps | 23 => Some sys_shm_alloc | 24 => Some sys_describe
  | _ => None
  end.

(** [curproc->tf->eax = v] *)
Definition set_eax (p : nat) (v : Z) : K unit :=
  modify (fun k => upd_tf (p_tf (proc_at k p)) (set_tf_eax (u32 v)) k).

Definition syscall : K unit :=
  p <- curproc;;
  num <- gets (fun k => s32 (tf_eax (tf_at k (p_tf (proc_at k p)))));;
  match syscalls num with
  | Some handler => r <- handler;; set_eax p r
  | None =>
      pr <- gets (fun k => proc_at k p);;
      cprintf ("%d %s: unknown sys call %d" ++ newline)%string
        [FInt (p_pid pr); FStr (Some (c_str (p_name pr))); FInt num];;
      set_eax p (-1)
  end.

(** [if(myproc() && myproc()->killed && ...) exit();] *)
Definition exit_if_killed (user : bool) : K unit :=
  p <- myproc;;
  match p with
  | None => ret tt
  | Some p =>
      dead <- gets (fun k => truth (p_killed (proc_at k p)));;
      when (dead && user) exit
  end.

(** A trap that is neither a system call nor an interrupt of a device. *)
Definition trap_fault (tf : trapframe) (cr2 : Z) : K unit :=
  p <- myproc;;
  c <- cpuid;;
  match p with
  | Some p =>
      if Z.land (tf_cs tf) 3 =? 0 then
        cprintf ("unexpected trap %d from cpu %d eip %x (cr2=0x%x)" ++ newline)%string
          [FInt (tf_trapno tf); FInt c; FInt (tf_eip tf); FInt cr2];;
        panic "trap"
      else
        pr <- gets (fun k => proc_at k p);;
        cprintf ("pid %d %s: trap %d err %d on cpu %d eip 0x%x addr 0x%x--kill proc" ++ newline)%string
          [FInt (p_pid pr); FStr (Some (c_str (p_name pr))); FInt (tf_trapno tf); FInt (tf_err tf);
           FInt c; FInt (tf_eip tf); FInt cr2];;
        modify (upd_proc p (set_p_killed 1))
  | None =>
      cprintf ("unexpected trap %d from cpu %d eip %x (cr2=0x%x)" ++ newline)%string
        [FInt (tf_trapno tf); FInt c; FInt (tf_eip tf); FInt cr2];;
      panic "trap"
  end.

(** The clock interrupt: only the first processor counts. *)
Definition trap_timer : K unit :=
  c <- cpuid;;
  when (c =? 0)
   (acquire L_tickslock;;
    modify (fun k => set_k_ticks (u32 (k_ticks k + 1)) k);;
    wakeup Ch_ticks;;
    release L_tickslock).

(** The [switch] of [trap]. *)
Definition trap_switch (tf : trapframe) (cr2 : Z) : K unit :=
  let no := tf_trapno tf in
  if no =? T_IRQ0 + IRQ_TIMER then trap_timer;; lapiceoi
  else if no =? T_IRQ0 + IRQ_IDE then ideintr;; lapiceoi
  else if no =? T_IRQ0 + IRQ_IDE + 1 then ret tt
  else if no =? T_IRQ0 + IRQ_KBD then kbdintr procdump;; lapiceoi
  else if no =? T_IRQ0 + IRQ_COM1 then uartintr procdump;; lapiceoi
  else if (no =? T_IRQ0 + 7) || (no =? T_IRQ0 + IRQ_SPURIOUS) then
    c <- cpuid;;
    cprintf ("cpu%d: spurious interrupt at %x:%x" ++ newline)%string
      [FInt c; FInt (tf_cs tf); FInt (tf_eip tf)];;
    lapiceoi
  else trap_fault tf cr2.

Definition trap (a : Z) (cr2 : Z) : K unit :=
  tf <- gets (fun k => tf_at k a);;
  let user := Z.land (tf_cs tf) 3 =? DPL_USER in
  if tf_trapno tf =? T_SYSCALL then
    exit_if_killed true;;
    p <- curproc;;
    modify (upd_proc p (set_p_tf a));;
    syscall;;
    exit_if_killed true
  else
    trap_switch tf cr2;;
    exit_if_killed user;;
    p <- myproc;;
    match p with
    | None => ret tt
    | Some p =>
        state <- gets (fun k => p_state (proc_at k p));;
        when (bool_decide (state = RUNNING) && (tf_trapno tf =? T_IRQ0 + IRQ_TIMER)) yield
    end;;
    exit_if_killed user.

(** ** main.c *)

Definition consoleinit : K unit :=
  initlock L_cons "console";;
  modify (set_k_locking 1);;
  ioapicenable IRQ_KBD 0.

Definition mpmain (rounds : nat) : K unit :=
  c <- cpuid;;
  cprintf ("cpu%d: starting %d" ++ newline)%string [FInt c; FInt c];;
  idtinit;;
  c <- mycpu;;
  modify (upd_cpu c (set_c_started 1));;
  scheduler rounds.

(** Where the other processors enter the kernel. *)
Definition mpenter (rounds : nat) : K unit :=
  switchkvm;;
  seginit;;
  lapicinit;;
  mpmain rounds.

(** The body of the loop of [startothers], for CPU [i]: the other processor sets [started] in a
    step of the environment. *)
Definition start_cpu (code mpenter_addr entrypgdir : Z) (i : nat) : K unit :=
  c <- mycpu;;
  if bool_decide (i = c) then ret tt else
  stack <- kalloc;;
  kmem (store32 (code - 4) (stack + KSTACKSIZE));;
  kmem (store32 (code - 8) mpenter_addr);;
  kmem (store32 (code - 12) (V2P entrypgdir));;
  apicid <- gets (fun k => c_apicid (cpu_at k i));;
  lapicstartap apicid (V2P code);;
  waiting (fun _ : unit =>
    started <- gets (fun k => c_started (cpu_at k i));;
    if started =? 0 then others;; ret (inl tt) else ret (inr tt)) tt.

Definition startothers (entryother size mpenter_addr entrypgdir : Z) : K unit :=
  let code := P2V 0x7000 in
  kmem (memmove code entryother size);;
  ncpu <- gets (fun k => length (k_cpus k));;
  for_each (start_cpu code mpenter_addr entrypgdir) (seq 0 ncpu).

(** [fuel] bounds the rounds of the loop of [mpinit]. *)
Definition main (vectors : Z -> Z) (entryother size mpenter_addr entrypgdir : Z) (initcode : list Z) (fuel rounds : nat) : K unit :=
  kinit1 ld_end (P2V (4 * 1024 * 1024));;
  kvmalloc;;
  mpinit fuel;;
  lapicinit;;
  seginit;;
  picinit;;
  ioapicinit;;
  consoleinit;;
  uartinit;;
  pinit;;
  tvinit vectors;;
  binit;;
  fileinit;;
  ideinit;;
  startothers entryother size mpenter_addr entrypgdir;;
  kinit2 (P2V (4 * 1024 * 1024)) (P2V PHYSTOP);;
  userinit initcode;;
  mpmain rounds.

End Trap.
