(* ===== verification/Types.v ===== *)
(** * The types of the kernel state

    Every pointer in the tables of the kernel designates an entry of the table that it is declared to point into: the open files and
    the current directory and the parent of a process, the inode behind an open file, the process of a processor, the links of the buffers and
    the queue of the disk.  An open file of type [FD_INODE] has an inode and one of type [FD_PIPE] a pipe, reference counts
    of files are not negative, and the counters of the ring buffers of pipes and console never hold more than the ring does.  The
    whole kernel, from [main] and [trap] down, keeps these types on every path, errors and panics included, whatever the others do while it waits as
    long as they keep them as well.

    [safe_at k m Q]: run in the state [k], the routine [m] keeps the invariant, and where it returns the result and the state satisfy [Q].
    There is a rule for each construct of the monad and a lemma for each routine; [ty_m] follows the control flow of a routine
    and applies them. *)

From stdpp Require Import base gmap list strings.
From Stdlib Require Import ZArith Lia.
From S2P Require Import Prelude State Memory CString Bytes Spinlock Segment Kalloc Sched Console Kbd Devices Ide Mp Vm Bio Log Fs FsFormat Pipe File Proc Exec.
From S2P Require Import Syscall Sysproc Sysfile Trap.

(** ** Routines that keep an invariant *)

Section Safe.
Context {S : Type} (I : S -> Prop).

(** The other processors and processes keep it as well. *)
Definition env_safe (e : environment S) : Prop := Forall (fun f => forall s, I s -> I (f s)) e.

Definition safe_at {A} (s : S) (m : M S A) (Q : A -> S -> Prop) : Prop := forall e, env_safe e ->
  match m s e with
  | Done a s' e' => I s' /\ env_safe e' /\ Q a s'
  | Panic _ s' => I s'
  | Stuck s' => I s'
  end.

(** From every state that satisfies it. *)
Definition safe {A} (m : M S A) (Q : A -> Prop) : Prop := forall s, I s -> safe_at s m (fun a _ => Q a).

Context {A B : Type}.
Implicit Types (s : S) (Q : B -> S -> Prop).

Lemma at_ret s (b : B) Q : I s -> Q b s -> safe_at s (ret b) Q.
Proof. by intros Hs HQ e He. Qed.
Lemma at_gets s (f : S -> B) Q : I s -> Q (f s) s -> safe_at s (gets f) Q.
Proof. by intros Hs HQ e He. Qed.
Lemma at_get s (Q : S -> S -> Prop) : I s -> Q s s -> safe_at s get Q.
Proof. by intros Hs HQ e He. Qed.
Lemma at_panic s msg Q : I s -> safe_at s (panic msg) Q.
Proof. by intros Hs e He. Qed.
Lemma at_stuck s Q : I s -> safe_at s (fun s _ => Stuck s) Q.
Proof. by intros Hs e He. Qed.
Lemma at_modify s (f : S -> S) (Q : unit -> S -> Prop) : I (f s) -> Q tt (f s) -> safe_at s (modify f) Q.
Proof. by intros Hs HQ e He. Qed.

Lemma at_weaken s (m : M S B) (Q' Q : B -> S -> Prop) : safe_at s m Q' -> (forall b s', I s' -> Q' b s' -> Q b s') -> safe_at s m Q.
Proof.
  intros H HQ e He. specialize (H e He). destruct (m s e) as [b s' e'| |]; [|done..]. destruct H as (H1 & H2 & H3). eauto.
Qed.

Lemma at_bind s (m : M S A) (f : A -> M S B) (R : A -> S -> Prop) Q :
  safe_at s m R -> (forall a s', I s' -> R a s' -> safe_at s' (f a) Q) -> safe_at s (bind m f) Q.
Proof.
  intros Hm Hf e He. specialize (Hm e He). unfold bind. destruct (m s e) as [a s' e'|msg s'|s']; [|done..].
  destruct Hm as (Hs' & He' & HR). by apply (Hf a s').
Qed.

(** A call of a routine that is safe from every state: afterwards the state is another one. *)
Lemma at_call s (m : M S A) (f : A -> M S B) (R : A -> Prop) Q :
  safe m R -> I s -> (forall a s', I s' -> R a -> safe_at s' (f a) Q) -> safe_at s (bind m f) Q.
Proof. intros Hm Hs Hf. apply (at_bind s m f (fun a _ => R a)); [by apply Hm|done]. Qed.

Lemma at_tail s (m : M S B) (R : B -> Prop) Q : safe m R -> I s -> (forall b s', I s' -> R b -> Q b s') -> safe_at s m Q.
Proof. intros Hm Hs HQ. eapply at_weaken; [by apply Hm|done]. Qed.

Lemma at_bind_ret s (a : A) (f : A -> M S B) Q : safe_at s (f a) Q -> safe_at s (bind (ret a) f) Q.
Proof. done. Qed.
Lemma at_bind_gets s (g : S -> A) (f : A -> M S B) Q : safe_at s (f (g s)) Q -> safe_at s (bind (gets g) f) Q.
Proof. done. Qed.
Lemma at_bind_get s (f : S -> M S B) Q : safe_at s (f s) Q -> safe_at s (bind get f) Q.
Proof. done. Qed.
Lemma at_bind_panic s msg (f : A -> M S B) Q : I s -> safe_at s (bind (panic msg) f) Q.
Proof. by intros Hs e He. Qed.
Lemma at_bind_stuck s (f : A -> M S B) Q : I s -> safe_at s (bind (fun s _ => Stuck s) f) Q.
Proof. by intros Hs e He. Qed.
Lemma at_bind_modify s (g : S -> S) (f : unit -> M S B) Q : I (g s) -> (forall s', I s' -> safe_at s' (f tt) Q) -> safe_at s (bind (modify g) f) Q.
Proof. intros Hg Hf. by apply (Hf (g s)). Qed.
Lemma at_bind_keep s (g : S -> S) (f : unit -> M S B) Q : safe_at (g s) (f tt) Q -> safe_at s (bind (modify g) f) Q.
Proof. done. Qed.

Lemma safe_others : safe others (fun _ => True).
Proof. intros s Hs [|f e] He; [done|]. apply Forall_cons in He as [Hf He]. split; [by apply Hf|done]. Qed.

End Safe.

Lemma at_bind_bind {S A B C} (I : S -> Prop) s (m : M S A) (f : A -> M S B) (g : B -> M S C) Q :
  safe_at I s (bind m (fun a => bind (f a) g)) Q -> safe_at I s (bind (bind m f) g) Q.
Proof. intros H e He. rewrite bind_assoc. by apply H. Qed.

Lemma safe_for_each {S A} (I : S -> Prop) (f : A -> M S unit) l : (forall a, a ∈ l -> safe I (f a) (fun _ => True)) -> safe I (for_each f l) (fun _ => True).
Proof.
  induction l as [|a l IH]; intros H s Hs; cbn [for_each]; [by apply at_ret|].
  apply (at_call I s _ _ _ _ (H a ltac:(left)) Hs). intros _ s' Hs' _. apply IH; [|done]. intros b Hb. apply H. by right.
Qed.

(** [J] holds of the loop variable. *)
Lemma safe_iter {S A B} (I : S -> Prop) (J : A -> Prop) (Q : B -> S -> Prop) n (body : A -> M S (A + B)) :
  (forall a s, I s -> J a -> safe_at I s (body a) (fun r s' => match r with inl a => J a | inr b => Q b s' end)) ->
  forall a s, I s -> J a -> safe_at I s (iter n body a) Q.
Proof.
  intros H. induction n as [|n IH]; intros a s Hs Ha; cbn [iter]; [by apply at_stuck|].
  eapply at_bind; [by apply H|]. intros [a'|b] s' Hs' HR; [by apply IH|by apply at_ret].
Qed.

Lemma safe_waiting {S A B} (I : S -> Prop) (J : A -> Prop) (Q : B -> S -> Prop) (body : A -> M S (A + B)) :
  (forall a s, I s -> J a -> safe_at I s (body a) (fun r s' => match r with inl a => J a | inr b => Q b s' end)) ->
  forall a s, I s -> J a -> safe_at I s (waiting body a) Q.
Proof. intros H a s Hs Ha e He. by apply (safe_iter I J Q (1 + length e)%nat body H a s). Qed.

(** ** The types *)

(** A pointer into a table of [n] entries, or null. *)
Definition below (n : nat) (o : option nat) : Prop := forall i, o = Some i -> (i < n)%nat.

Record proc_ty (p : proc) : Prop := {
  pt_nofile : length (p_ofile p) = NOFILE;
  pt_ofile : Forall (below NFILE) (p_ofile p);
  pt_cwd : below NINODE (p_cwd p);
  pt_parent : below NPROC (p_parent p);
  pt_name : length (p_name p) = 16%nat
}.

(** The pointer that the type of the file selects is there. *)
Record file_ty (f : file) : Prop := {
  ft_ref : 0 <= f_ref f;
  ft_ip : below NINODE (f_ip f);
  ft_inode : f_type f = FD_INODE -> f_ip f <> None;
  ft_pipe : f_type f = FD_PIPE -> f_pipe f <> 0
}.

Record buf_ty (b : buf) : Prop := {
  bt_data : length (b_data b) = BSIZE;
  bt_next : (b_next b < NBUF + 1)%nat;
  bt_prev : (b_prev b < NBUF + 1)%nat;
  bt_qnext : below (NBUF + 1) (b_qnext b)
}.

(** A ring of [size] bytes whose 32-bit counters are [r] and, at most [size] ahead, [w]. *)
Definition ring_ty (size r w : Z) : Prop := 0 <= r < 2 ^ 32 /\ 0 <= w < 2 ^ 32 /\ u32 (w - r) <= size.

Record pipe_ty (p : pipe) : Prop := {
  pi_len : length (pi_data p) = PIPESIZE;
  pi_ring : ring_ty (Z.of_nat PIPESIZE) (pi_nread p) (pi_nwrite p)
}.

(** The line that is being edited is behind the lines that are complete. *)
Record input_ty (i : input_t) : Prop := {
  it_len : length (in_buf i) = INPUT_BUF;
  it_ring : ring_ty (Z.of_nat INPUT_BUF) (in_r i) (in_e i);
  it_w : 0 <= in_w i < 2 ^ 32;
  it_order : u32 (in_w i - in_r i) <= u32 (in_e i - in_r i)
}.

Definition inode_ty (i : inode) : Prop := length (i_addrs i) = (NDIRECT + 1)%nat.
Definition cpu_ty (c : cpu) : Prop := below NPROC (c_proc c).

Record typed (k : kstate) : Prop := {
  ty_ncpu : (length (k_cpus k) <= NCPU)%nat;
  ty_cpus : Forall cpu_ty (k_cpus k);
  ty_nproc : length (k_proc k) = NPROC;
  ty_procs : Forall proc_ty (k_proc k);
  ty_initproc : below NPROC (k_initproc k);
  ty_nfile : length (k_file k) = NFILE;
  ty_files : Forall file_ty (k_file k);
  ty_ninode : length (k_inode k) = NINODE;
  ty_inodes : Forall inode_ty (k_inode k);
  ty_nbuf : length (k_buf k) = (NBUF + 1)%nat;
  ty_bufs : Forall buf_ty (k_buf k);
  ty_queue : below (NBUF + 1) (idequeue (k_hw k));
  ty_disk : forall n data, k_disk k !! n = Some data -> length data = BSIZE;
  ty_log : length (lh_block (k_log k)) = LOGSIZE;
  ty_pipes : forall p pi, k_pipes k !! p = Some pi -> pipe_ty pi;
  ty_input : input_ty (k_input k)
}.

(** ** Reading a typed state *)

Lemma below_None n : below n None.
Proof. by intros i. Qed.
Lemma below_Some n i : (i < n)%nat -> below n (Some i).
Proof. by intros H j [= <-]. Qed.
Lemma below_get n o i : below n o -> o = Some i -> (i < n)%nat.
Proof. intros H. apply H. Qed.

Lemma Forall_at {A} (P : A -> Prop) d l i : Forall P l -> P d -> P (default d (l !! i)).
Proof. intros H Hd. destruct (l !! i) as [x|] eqn:E; [|done]. rewrite Forall_lookup in H. by apply (H i). Qed.

Lemma zero_proc_ty : proc_ty zero_proc.
Proof. split; try done. apply Forall_replicate. done. Qed.
Lemma zero_file_ty : file_ty zero_file.
Proof. by split. Qed.
Lemma zero_buf_ty : buf_ty zero_buf.
Proof. split; [apply length_replicate|simpl; lia|simpl; lia|done]. Qed.
Lemma zero_pipe_ty : pipe_ty zero_pipe.
Proof. split; [apply length_replicate|]. split; [simpl; lia|]. split; [simpl; lia|done]. Qed.
Lemma zero_input_ty : input_ty zero_input.
Proof. split; [apply length_replicate| |simpl; lia|done]. split; [simpl; lia|]. split; [simpl; lia|done]. Qed.

Section Reading.
Context (k : kstate) (T : typed k).

Lemma cpu_at_ty i : cpu_ty (cpu_at k i).
Proof. exact (Forall_at cpu_ty zero_cpu _ i (ty_cpus _ T) (below_None _)). Qed.
Lemma proc_at_ty i : proc_ty (proc_at k i).
Proof. exact (Forall_at proc_ty zero_proc _ i (ty_procs _ T) zero_proc_ty). Qed.
Lemma file_at_ty i : file_ty (file_at k i).
Proof. exact (Forall_at file_ty zero_file _ i (ty_files _ T) zero_file_ty). Qed.
Lemma inode_at_ty i : inode_ty (inode_at k i).
Proof. exact (Forall_at inode_ty zero_inode _ i (ty_inodes _ T) (length_replicate _ _)). Qed.
Lemma buf_at_ty i : buf_ty (buf_at k i).
Proof. exact (Forall_at buf_ty zero_buf _ i (ty_bufs _ T) zero_buf_ty). Qed.
Lemma pipe_at_ty p : pipe_ty (pipe_at k p).
Proof. unfold pipe_at. destruct (k_pipes k !! p) as [pi|] eqn:E; [by apply (ty_pipes _ T p)|apply zero_pipe_ty]. Qed.

Lemma cpu_proc_ty i : below NPROC (c_proc (cpu_at k i)).
Proof. apply cpu_at_ty. Qed.
Lemma cwd_ty i : below NINODE (p_cwd (proc_at k i)).
Proof. apply proc_at_ty. Qed.
Lemma parent_ty i : below NPROC (p_parent (proc_at k i)).
Proof. apply proc_at_ty. Qed.
Lemma f_ip_ty i : below NINODE (f_ip (file_at k i)).
Proof. apply file_at_ty. Qed.
Lemma ofile_ty i fd : below NFILE (mjoin (p_ofile (proc_at k i) !! fd)).
Proof.
  intros f H. destruct (p_ofile (proc_at k i) !! fd) as [o|] eqn:E; [|done]. simpl in H. subst o.
  pose proof (pt_ofile _ (proc_at_ty i)) as HF. rewrite Forall_lookup in HF. by apply (HF fd _ E).
Qed.
Lemma qnext_ty i : below (NBUF + 1) (b_qnext (buf_at k i)).
Proof. apply buf_at_ty. Qed.
Lemma buf_data_ty i : length (b_data (buf_at k i)) = BSIZE.
Proof. apply buf_at_ty. Qed.
Lemma buf_next_ty i : (b_next (buf_at k i) < NBUF + 1)%nat.
Proof. apply buf_at_ty. Qed.
Lemma buf_prev_ty i : (b_prev (buf_at k i) < NBUF + 1)%nat.
Proof. apply buf_at_ty. Qed.
Lemma disk_block_ty n : length (disk_block k n) = BSIZE.
Proof. unfold disk_block. destruct (k_disk k !! n) as [d|] eqn:E; [by apply (ty_disk _ T n)|apply length_replicate]. Qed.

Lemma first_proc_ty f : below NPROC (first_index f (k_proc k)).
Proof. intros i H. rewrite <- (ty_nproc _ T). apply first_index_Some in H as (x & H & _). by eapply lookup_lt_Some. Qed.
Lemma first_file_ty f : below NFILE (first_index f (k_file k)).
Proof. intros i H. rewrite <- (ty_nfile _ T). apply first_index_Some in H as (x & H & _). by eapply lookup_lt_Some. Qed.
Lemma first_inode_ty f : below NINODE (first_index f (k_inode k)).
Proof. intros i H. rewrite <- (ty_ninode _ T). apply first_index_Some in H as (x & H & _). by eapply lookup_lt_Some. Qed.

End Reading.

(** ** Updates of a typed state *)

Lemma Forall_alter_at {A} (P : A -> Prop) d f i l :
  Forall P l -> ((i < length l)%nat -> P (default d (l !! i)) -> P (f (default d (l !! i)))) -> Forall P (alter f i l).
Proof.
  intros H Hf. apply Forall_lookup. intros j x Hx. rewrite Forall_lookup in H. destruct (decide (i = j)) as [->|Hne].
  - rewrite list_lookup_alter_eq in Hx. destruct (l !! j) as [y|] eqn:E; [|done]. simpl in *. simplify_eq.
    apply Hf; [by eapply lookup_lt_Some|by eapply H].
  - rewrite list_lookup_alter_ne in Hx by done. by eapply H.
Qed.

Lemma typed_upd_cpu i f k : typed k -> (cpu_ty (cpu_at k i) -> cpu_ty (f (cpu_at k i))) -> typed (upd_cpu i f k).
Proof. intros [] Hf. split; try done; simpl; [by rewrite length_alter|]. eapply (Forall_alter_at _ zero_cpu); [done|intros _; exact Hf]. Qed.
Lemma typed_upd_proc i f k : typed k -> (proc_ty (proc_at k i) -> proc_ty (f (proc_at k i))) -> typed (upd_proc i f k).
Proof. intros [] Hf. split; try done; simpl; [by rewrite length_alter|]. eapply (Forall_alter_at _ zero_proc); [done|intros _; exact Hf]. Qed.
Lemma typed_upd_file i f k : typed k -> (file_ty (file_at k i) -> file_ty (f (file_at k i))) -> typed (upd_file i f k).
Proof. intros [] Hf. split; try done; simpl; [by rewrite length_alter|]. eapply (Forall_alter_at _ zero_file); [done|intros _; exact Hf]. Qed.
Lemma typed_upd_inode i f k : typed k -> (inode_ty (inode_at k i) -> inode_ty (f (inode_at k i))) -> typed (upd_inode i f k).
Proof. intros [] Hf. split; try done; simpl; [by rewrite length_alter|]. eapply (Forall_alter_at _ zero_inode); [done|intros _; exact Hf]. Qed.
Lemma typed_upd_buf i f k : typed k -> (buf_ty (buf_at k i) -> buf_ty (f (buf_at k i))) -> typed (upd_buf i f k).
Proof. intros [] Hf. split; try done; simpl; [by rewrite length_alter|]. eapply (Forall_alter_at _ zero_buf); [done|intros _; exact Hf]. Qed.
Lemma typed_upd_log f k : typed k -> (length (lh_block (k_log k)) = LOGSIZE -> length (lh_block (f (k_log k))) = LOGSIZE) -> typed (upd_log f k).
Proof. intros [] Hf. split; try done. by apply Hf. Qed.
Lemma typed_upd_input f k : typed k -> (input_ty (k_input k) -> input_ty (f (k_input k))) -> typed (upd_input f k).
Proof. intros [] Hf. split; try done. by apply Hf. Qed.
Lemma typed_upd_hw f k : typed k -> (below (NBUF + 1) (idequeue (k_hw k)) -> below (NBUF + 1) (idequeue (f (k_hw k)))) -> typed (upd_hw f k).
Proof. intros [] Hf. split; try done. by apply Hf. Qed.
Lemma typed_upd_lock l f k : typed k -> typed (upd_lock l f k).
Proof. by intros []. Qed.
Lemma typed_upd_tf a f k : typed k -> typed (upd_tf a f k).
Proof. by intros []. Qed.
Lemma typed_upd_pipe p f k : typed k -> (pipe_ty (pipe_at k p) -> pipe_ty (f (pipe_at k p))) -> typed (upd_pipe p f k).
Proof.
  intros T Hf. pose proof (pipe_at_ty k T p). destruct T. split; try done. simpl. intros q pi. destruct (decide (p = q)) as [->|Hne].
  - rewrite lookup_insert_eq. intros [= <-]. by apply Hf.
  - rewrite lookup_insert_ne by done. intros Hq. by eapply ty_pipes0.
Qed.
Lemma typed_disk_write n data k : typed k -> length data = BSIZE -> typed (disk_write n data k).
Proof.
  intros [] H. split; try done. simpl. intros n' d. destruct (decide (n = n')) as [->|Hne].
  - rewrite lookup_insert_eq. by intros [= <-].
  - rewrite lookup_insert_ne by done. intros Hd. by eapply ty_disk0.
Qed.
Lemma typed_sleeplock l f k : typed k -> typed (upd_sleeplock l f k).
Proof. intros T. destruct l; [apply typed_upd_buf|apply typed_upd_inode]; try done. by intros []. Qed.
Lemma typed_wakeup1 ch k : typed k -> typed (set_k_proc (wakeup1_proc ch <$> k_proc k) k).
Proof.
  intros []. split; try done; simpl; [by rewrite length_fmap|]. apply Forall_fmap. eapply Forall_impl; [done|].
  intros p Hp. unfold compose, wakeup1_proc. destruct (_ && _); [|done]. by destruct Hp.
Qed.
Lemma typed_initproc o k : typed k -> below NPROC o -> typed (set_k_initproc o k).
Proof. intros [] H. by split. Qed.
Lemma typed_add_cpu x k : typed k -> cpu_ty x -> (length (k_cpus k) < NCPU)%nat -> typed (set_k_cpus (k_cpus k ++ [x]) k).
Proof. intros [] H Hn. split; try done; simpl; [rewrite length_app; simpl; lia|]. by apply Forall_app_2; [|apply Forall_singleton]. Qed.

Lemma length_safestrcpy_list old src n : length old = n -> (0 < n)%nat -> length (safestrcpy_list old src n) = n.
Proof. intros H Hn. unfold safestrcpy_list. rewrite !length_app, length_drop, length_take. simpl. lia. Qed.

(** ** Counters of a ring *)

Lemma u32_step a c : 0 <= u32 a + c < 2 ^ 32 -> u32 (a + c) = u32 a + c.
Proof. intros H. unfold u32 in *. rewrite <- Zplus_mod_idemp_l. by apply Z.mod_small. Qed.
Lemma u32_eq a b : 0 <= a < 2 ^ 32 -> 0 <= b < 2 ^ 32 -> u32 (a - b) = 0 -> a = b.
Proof.
  intros Ha Hb H. unfold u32 in H. apply Z.mod_divide in H as [z Hz]; [|lia]. change (2 ^ 32) with 4294967296 in *.
  assert (z = 0) by lia. lia.
Qed.

Lemma ring_put size r w : size < 2 ^ 32 -> w <> u32 (r + size) -> ring_ty size r w -> ring_ty size r (u32 (w + 1)).
Proof.
  intros Hs Hne (Hr & Hw & Hd). split; [done|]. split; [apply u32_bounds|]. rewrite u32_sub_l.
  assert (u32 (w - r) <> size).
  { intros E. apply Hne. rewrite <- E. replace (r + u32 (w - r)) with (u32 (w - r) - - r) by lia. rewrite u32_sub_l.
    replace (w - r - - r) with w by lia. symmetry. by apply u32_small. }
  pose proof (u32_bounds (w - r)). replace (w + 1 - r) with (w - r + 1) by lia. rewrite u32_step by lia. lia.
Qed.

Lemma ring_got r w d : r <> w -> 0 <= r < 2 ^ 32 -> 0 <= w < 2 ^ 32 -> u32 (w - r) <= d -> u32 (w - u32 (r + 1)) = u32 (w - r) - 1 /\ 0 < u32 (w - r).
Proof.
  intros Hne Hr Hw _. rewrite u32_sub_r. assert (u32 (w - r) <> 0) by (intros E; apply Hne; symmetry; by apply u32_eq).
  pose proof (u32_bounds (w - r)). replace (w - (r + 1)) with (w - r + -1) by lia. rewrite u32_step by lia. lia.
Qed.

Lemma ring_get size r w : r <> w -> ring_ty size r w -> ring_ty size (u32 (r + 1)) w.
Proof.
  intros Hne (Hr & Hw & Hd). split; [apply u32_bounds|]. split; [done|]. destruct (ring_got r w size Hne Hr Hw Hd) as [-> H]. lia.
Qed.

(** The three counters of the console: taking back a character, adding one, ending the line, reading one and giving it back. *)
Definition line_ty (r w e : Z) : Prop := ring_ty (Z.of_nat INPUT_BUF) r e /\ 0 <= w < 2 ^ 32 /\ u32 (w - r) <= u32 (e - r).

Lemma edit_erase r w e : e <> w -> line_ty r w e -> line_ty r w (u32 (e - 1)).
Proof.
  intros Hne ((Hr & He & Hd) & Hw & Ho).
  assert (u32 (e - r) <> u32 (w - r)).
  { intros E. apply Hne. apply (u32_eq e w He Hw). replace (e - w) with (e - r - (w - r)) by lia. rewrite <- u32_sub_l, <- u32_sub_r, E.
    by rewrite Z.sub_diag. }
  pose proof (u32_bounds (e - r)). pose proof (u32_bounds (w - r)).
  assert (E : u32 (u32 (e - 1) - r) = u32 (e - r) - 1).
  { rewrite u32_sub_l. replace (e - 1 - r) with (e - r + -1) by lia. rewrite u32_step by lia. lia. }
  split; [split; [done|split; [apply u32_bounds|lia]]|]. split; [done|]. lia.
Qed.
Lemma edit_add r w e : u32 (e - r) < Z.of_nat INPUT_BUF -> line_ty r w e -> line_ty r w (u32 (e + 1)).
Proof.
  intros Hlt ((Hr & He & Hd) & Hw & Ho). unfold INPUT_BUF in *. pose proof (u32_bounds (e - r)).
  assert (E : u32 (u32 (e + 1) - r) = u32 (e - r) + 1).
  { rewrite u32_sub_l. replace (e + 1 - r) with (e - r + 1) by lia. by rewrite u32_step by lia. }
  split; [split; [done|split; [apply u32_bounds|unfold INPUT_BUF; lia]]|]. split; [done|]. lia.
Qed.
Lemma edit_end r w e : line_ty r w e -> line_ty r e e.
Proof. intros ((Hr & He & Hd) & Hw & Ho). split; [done|]. split; [done|lia]. Qed.
Lemma edit_read r w e : r <> w -> line_ty r w e -> line_ty (u32 (r + 1)) w e /\ line_ty (u32 (u32 (r + 1) - 1)) w e.
Proof.
  intros Hne ((Hr & He & Hd) & Hw & Ho). destruct (ring_got r w _ Hne Hr Hw (Z.le_refl _)) as [E1 P1]. split.
  - assert (r <> e) by (intros ->; rewrite Z.sub_diag in Ho; change (u32 0) with 0 in Ho; lia).
    destruct (ring_got r e _ ltac:(done) Hr He (Z.le_refl _)) as [E2 P2].
    split; [split; [apply u32_bounds|split; [done|lia]]|]. split; [done|lia].
  - rewrite u32_sub_l. replace (r + 1 - 1) with r by lia. rewrite u32_small by done. done.
Qed.

Lemma input_line i : input_ty i <-> length (in_buf i) = INPUT_BUF /\ line_ty (in_r i) (in_w i) (in_e i).
Proof. split; [intros []; by split_and!|]. intros (? & ? & ? & ?). by split. Qed.

(** ** The tactics *)

Create HintDb typed discriminated.
#[export] Hint Resolve below_None cpu_proc_ty cwd_ty parent_ty f_ip_ty ofile_ty qnext_ty first_proc_ty first_file_ty first_inode_ty ty_initproc ty_queue : typed.
#[export] Hint Resolve buf_data_ty buf_next_ty buf_prev_ty disk_block_ty : typed.
#[export] Hint Resolve safe_others : typed.

Abbreviation typed_m m := (safe typed m (fun _ => True)).

(** An index inside its table. *)
Ltac ty_lt :=
  first [ assumption | solve [eauto 3 with typed nocore]
        | match goal with H : ?o = Some ?i |- (?i < ?n)%nat => apply (below_get n o i); [solve [assumption | eauto 3 with typed nocore]|exact H] end
        | lia ].
Ltac ty_below := first [ assumption | apply below_Some; ty_lt | solve [eauto 3 with typed nocore] ].

(** A field of an updated entry. *)
Ltac ty_field :=
  first [ assumption | discriminate
  | lazymatch goal with
    | |- below _ _ => ty_below
    | |- Forall (below _) (<[_ := _]> _) => apply Forall_insert; [assumption|ty_below]
    | |- length (safestrcpy_list _ _ _) = _ => apply length_safestrcpy_list; [assumption|lia]
    | |- length _ = _ => rewrite ?length_insert, ?length_wr, ?length_fmap, ?length_replicate; first [assumption|reflexivity|solve [eauto 3 with typed nocore]]
    | |- (_ < _)%nat => ty_lt
    | |- _ -> _ => intros; first [discriminate|assumption]
    end
  | rewrite ?Z.ltb_ge in *; lia ].

Ltac ty_simpl :=
  cbn [p_ofile p_cwd p_parent p_name f_ref f_ip f_type f_pipe b_data b_next b_prev b_qnext pi_data pi_nread pi_nwrite
       set_p_ofile set_p_cwd set_p_parent set_p_name set_f_ref set_f_ip set_f_type set_f_pipe set_b_data set_b_next set_b_prev set_b_qnext
       idequeue set_idequeue c_proc set_c_proc lh_block set_lh_block i_addrs set_i_addrs get_dinode].
Ltac ty_entry := let H := fresh in intros H; first [exact H | destruct H; split; ty_simpl; ty_field].
Ltac ty_plain := let H := fresh in intros H; first [exact H | ty_simpl; ty_field].

(** What the guards of the code say. *)
Ltac ty_guard :=
  repeat match goal with
  | H : _ && _ = true |- _ => apply andb_prop in H as [? ?]
  | H : negb _ = true |- _ => apply negb_true_iff in H
  | H : (_ =? _) = false |- _ => apply Z.eqb_neq in H
  | H : (_ <? _) = true |- _ => apply Z.ltb_lt in H
  end; first [assumption|congruence|lia].

(** The console: an updated line. *)
Ltac ty_input :=
  intros [? ?]%input_line; apply input_line; split; [simpl; rewrite ?length_insert; assumption|];
  cbn [in_r in_w in_e set_in_r set_in_w set_in_e set_input_at set_in_buf];
  first [ apply edit_erase; [ty_guard|assumption] | apply edit_add; [ty_guard|assumption] | eapply edit_end; eassumption | assumption ].

(** An updated state. *)
Ltac ty_state :=
  cbv beta;
  lazymatch goal with
  | |- typed ?k => first [ assumption
      | lazymatch k with
        | upd_cpu _ _ _ => apply typed_upd_cpu; [ty_state|unfold cpu_ty; ty_plain]
        | upd_proc _ _ _ => apply typed_upd_proc; [ty_state|ty_entry]
        | upd_file _ _ _ => apply typed_upd_file; [ty_state|ty_entry]
        | upd_inode _ _ _ => apply typed_upd_inode; [ty_state|unfold inode_ty; ty_plain]
        | upd_buf _ _ _ => apply typed_upd_buf; [ty_state|ty_entry]
        | upd_pipe _ _ _ => apply typed_upd_pipe; [ty_state|ty_entry]
        | upd_log _ _ => apply typed_upd_log; [ty_state|ty_plain]
        | upd_input _ _ => apply typed_upd_input; [ty_state|ty_input]
        | upd_hw _ _ => apply typed_upd_hw; [ty_state|ty_plain]
        | upd_lock _ _ _ => apply typed_upd_lock; ty_state
        | upd_tf _ _ _ => apply typed_upd_tf; ty_state
        | upd_sleeplock _ _ _ => apply typed_sleeplock; ty_state
        | disk_write _ _ _ => apply typed_disk_write; [ty_state|ty_field]
        | set_k_proc (wakeup1_proc _ <$> _) _ => apply typed_wakeup1; ty_state
        | set_k_initproc _ _ => apply typed_initproc; [ty_state|ty_below]
        | _ => match goal with T : typed _ |- _ => exact (Build_typed k (ty_ncpu _ T) (ty_cpus _ T) (ty_nproc _ T) (ty_procs _ T) (ty_initproc _ T) (ty_nfile _ T)
                 (ty_files _ T) (ty_ninode _ T) (ty_inodes _ T) (ty_nbuf _ T) (ty_bufs _ T) (ty_queue _ T) (ty_disk _ T) (ty_log _ T) (ty_pipes _ T) (ty_input _ T)) end
        end ]
  end.

Ltac head t := lazymatch t with ?f _ => head f | _ => t end.

(** What a call is known to return. *)
Ltac ty_result :=
  repeat match goal with
  | H : True |- _ => clear H
  | H : below ?n (Some ?i) |- _ => apply (fun H => below_get n (Some i) i H eq_refl) in H
  | H : forall _ _, Some (_, _) = Some (_, _) -> _ |- _ => specialize (H _ _ eq_refl)
  | H : _ /\ _ |- _ => destruct H
  | H : _ * _ |- _ => destruct H
  | H : ?x = ?y |- _ => is_var x; is_var y; subst x
  end.
Ltac ty_case x := first [is_var x; destruct x | destruct x eqn:?]; ty_result.

Ltac ty_post := cbn beta iota; try (match goal with |- match ?r with _ => _ end => destruct r end); first [exact Logic.I | done | assumption | ty_below | ty_lt | (intros; simplify_eq; split_and?; ty_lt) ].

(** The values of a loop counter. *)
Ltac ty_range := repeat match goal with H : _ ∈ seq _ _ |- _ => apply elem_of_seq in H end.

Ltac ty_at :=
  cbv beta zeta;
  lazymatch goal with
  | |- safe_at typed ?k ?m ?Q =>
    lazymatch m with
    | bind ?m1 _ =>
        lazymatch m1 with
        | ret _ => apply at_bind_ret; ty_at
        | gets _ => apply at_bind_gets; ty_at
        | get => apply at_bind_get; ty_at
        | panic _ => apply at_bind_panic; assumption
        | modify _ => apply at_bind_modify; [ty_state|intros ? ?; ty_at]
        | bind _ _ => apply at_bind_bind; ty_at
        | when ?c _ => destruct c eqn:?; cbn [when]; ty_at
        | match ?x with _ => _ end => ty_case x; ty_at
        | (fun _ _ => Stuck _) => apply at_bind_stuck; assumption
        | _ => tryif (eapply at_call; [solve [eauto 4 with typed nocore]|assumption|])
               then (cbv beta; intros; ty_result; ty_at)
               else lazymatch m1 with
                    | for_each _ _ => eapply at_call; [apply safe_for_each; intros; ty_range; intros ? ?; ty_at|assumption|intros; ty_at]
                    | iter _ _ _ => eapply at_bind; [eapply (safe_iter typed (fun _ => True) (fun _ _ => True)); [intros; ty_at|assumption|done]|intros; ty_at]
                    | waiting _ _ => eapply at_bind; [eapply (safe_waiting typed (fun _ => True) (fun _ _ => True)); [intros; ty_at|assumption|done]|intros; ty_at]
                    | _ => let h := head m1 in progress unfold h; ty_at
                    end
        end
    | ret _ => apply at_ret; [assumption|ty_post]
    | gets _ => apply at_gets; [assumption|ty_post]
    | panic _ => apply at_panic; assumption
    | modify _ => apply at_modify; [ty_state|ty_post]
    | when ?c _ => destruct c eqn:?; cbn [when]; ty_at
    | match ?x with _ => _ end => ty_case x; ty_at
    | (fun _ _ => Stuck _) => apply at_stuck; assumption
    | _ => tryif (eapply at_tail; [solve [eauto 4 with typed nocore]|assumption|])
           then (cbv beta; intros; ty_result; ty_post)
           else lazymatch m with
                | for_each _ _ => eapply at_tail; [apply safe_for_each; intros; ty_range; intros ? ?; ty_at|assumption|done]
                | iter _ _ _ => eapply (safe_iter typed (fun _ => True)); [intros; ty_at|assumption|done]
                | waiting _ _ => eapply (safe_waiting typed (fun _ => True)); [intros; ty_at|assumption|done]
                | _ => let h := head m in progress unfold h; ty_at
                end
    end
  end.

Ltac ty_m := intros; lazymatch goal with |- safe typed ?m _ => let h := head m in unfold h; intros ? ?; ty_at end.

(** ** The routines *)

Lemma ty_readeflags : typed_m readeflags. Proof. ty_m. Qed.
Lemma ty_cli : typed_m cli. Proof. ty_m. Qed.
Lemma ty_sti : typed_m sti. Proof. ty_m. Qed.
#[export] Hint Resolve ty_readeflags ty_cli ty_sti : typed.
Lemma ty_mycpu : typed_m mycpu. Proof. ty_m. Qed.
#[export] Hint Resolve ty_mycpu : typed.
Lemma ty_cpuid : typed_m cpuid. Proof. ty_m. Qed.
Lemma ty_pushcli : typed_m pushcli. Proof. ty_m. Qed.
Lemma ty_popcli : typed_m popcli. Proof. ty_m. Qed.
#[export] Hint Resolve ty_cpuid ty_pushcli ty_popcli : typed.
Lemma ty_myproc : safe typed myproc (below NPROC). Proof. ty_m. Qed.
Lemma ty_initlock lk name : typed_m (initlock lk name). Proof. ty_m. Qed.
Lemma ty_holding lk : typed_m (holding lk). Proof. ty_m. Qed.
Lemma ty_xchg lk v : typed_m (xchg_locked lk v). Proof. ty_m. Qed.
#[export] Hint Resolve ty_myproc ty_initlock ty_holding ty_xchg : typed.
Lemma ty_acquire lk : typed_m (acquire lk). Proof. ty_m. Qed.
Lemma ty_release lk : typed_m (release lk). Proof. ty_m. Qed.
#[export] Hint Resolve ty_acquire ty_release : typed.

(** Memory *)
Section Memory.
Context {L : Linker}.
Lemma ty_kmem f : typed_m (kmem f). Proof. ty_m. Qed.
Lemma ty_kfree v : typed_m (kfree v). Proof. ty_m. Qed.
Lemma ty_kalloc : typed_m kalloc. Proof. ty_m. Qed.
End Memory.
#[export] Hint Resolve ty_kmem ty_kfree ty_kalloc : typed.

(** Processes that sleep *)
Lemma ty_deref o : safe typed (deref o) (fun i => o = Some i). Proof. ty_m. Qed.
#[export] Hint Resolve ty_deref : typed.
Lemma ty_sched : typed_m sched. Proof. ty_m. Qed.
#[export] Hint Resolve ty_sched : typed.
Lemma ty_yield : typed_m yield. Proof. ty_m. Qed.
Lemma ty_wakeup1 ch : typed_m (wakeup1 ch). Proof. ty_m. Qed.
#[export] Hint Resolve ty_yield ty_wakeup1 : typed.
Lemma ty_wakeup ch : typed_m (wakeup ch). Proof. ty_m. Qed.
Lemma ty_sleep ch lk : typed_m (sleep ch lk). Proof. ty_m. Qed.
#[export] Hint Resolve ty_wakeup ty_sleep : typed.
Lemma ty_acquiresleep l : typed_m (acquiresleep l). Proof. ty_m. Qed.
Lemma ty_releasesleep l : typed_m (releasesleep l). Proof. ty_m. Qed.
Lemma ty_holdingsleep l : typed_m (holdingsleep l). Proof. ty_m. Qed.
Lemma ty_initsleeplock l s : typed_m (initsleeplock l s). Proof. ty_m. Qed.
#[export] Hint Resolve ty_acquiresleep ty_releasesleep ty_holdingsleep ty_initsleeplock : typed.

(** The console *)
Lemma ty_consputc c : typed_m (consputc c). Proof. ty_m. Qed.
#[export] Hint Resolve ty_consputc : typed.
Lemma ty_put_all l : typed_m (put_all l). Proof. ty_m. Qed.
#[export] Hint Resolve ty_put_all : typed.
Lemma ty_printint x b s : typed_m (printint x b s). Proof. ty_m. Qed.
#[export] Hint Resolve ty_printint : typed.
Lemma ty_cprintf_loop fmt : (forall args, typed_m (cprintf_loop fmt args)) /\ (forall args, typed_m (cprintf_loop (tail fmt) args)).
Proof.
  induction fmt as [|c fmt [IH1 IH2]]; [split; intros ? ? ?; by apply at_ret|]. split; [|apply IH1]. intros args k T. cbn [cprintf_loop].
  destruct fmt as [|c' fmt]; cbn [tail] in IH2; ty_at.
Qed.
Lemma ty_cprintf fmt args : typed_m (cprintf fmt args).
Proof. unfold cprintf. intros k T. pose proof (proj1 (ty_cprintf_loop (chars fmt))). ty_at. Qed.
#[export] Hint Resolve ty_cprintf : typed.
Lemma ty_kill_line n : typed_m (kill_line n).
Proof. induction n as [|n IH]; intros k T; cbn [kill_line]; ty_at. Qed.
#[export] Hint Resolve ty_kill_line : typed.
Lemma ty_console_char c : typed_m (console_char c). Proof. ty_m. Qed.
#[export] Hint Resolve ty_console_char : typed.
Lemma ty_console_chars cs b : typed_m (console_chars cs b).
Proof. revert b. induction cs as [|c cs IH]; intros b k T; cbn [console_chars]; ty_at. Qed.
#[export] Hint Resolve ty_console_chars : typed.
Lemma ty_consoleintr m cs : typed_m m -> typed_m (consoleintr m cs). Proof. ty_m. Qed.
#[export] Hint Resolve ty_consoleintr : typed.

(** The devices *)
Section Devices.
Context {HW : Hardware}.

Lemma ty_log_io ev : typed_m (log_io ev). Proof. ty_m. Qed.
#[local] Hint Resolve ty_log_io : typed.
Lemma ty_inb port : typed_m (inb port). Proof. ty_m. Qed.
Lemma ty_outb port v : typed_m (outb port v). Proof. ty_m. Qed.
Lemma ty_outsl port data n : typed_m (outsl port data n). Proof. ty_m. Qed.
Lemma ty_insl port n : safe typed (insl port n) (fun data => length data = (4 * n)%nat).
Proof.
  intros k T. unfold insl. apply at_bind_gets. cbv zeta. eapply at_call; [apply ty_log_io|done|]. intros _ k' T' _. apply at_ret; [done|].
  by rewrite length_fmap, length_resize.
Qed.
Lemma ty_mmio_read a : typed_m (mmio_read a). Proof. ty_m. Qed.
Lemma ty_mmio_write a v : typed_m (mmio_write a v). Proof. ty_m. Qed.
#[local] Hint Resolve ty_inb ty_outb ty_outsl ty_insl ty_mmio_read ty_mmio_write : typed.

Lemma ty_ioapicwrite r v : typed_m (ioapicwrite r v). Proof. ty_m. Qed.
Lemma ty_ioapicread r : typed_m (ioapicread r). Proof. ty_m. Qed.
Lemma ty_lapicr i : typed_m (lapicr i). Proof. ty_m. Qed.
Lemma ty_lapicw i v : typed_m (lapicw i v). Proof. ty_m. Qed.
#[local] Hint Resolve ty_ioapicwrite ty_ioapicread ty_lapicr ty_lapicw : typed.
Lemma ty_picinit : typed_m picinit. Proof. ty_m. Qed.
Lemma ty_ioapicinit : typed_m ioapicinit. Proof. ty_m. Qed.
Lemma ty_ioapicenable irq c : typed_m (ioapicenable irq c). Proof. ty_m. Qed.
Lemma ty_lapicinit : typed_m lapicinit. Proof. ty_m. Qed.
Lemma ty_lapiceoi : typed_m lapiceoi. Proof. ty_m. Qed.
Lemma ty_lapicid : typed_m lapicid. Proof. ty_m. Qed.
Lemma ty_lapicstartap i a : typed_m (lapicstartap i a). Proof. ty_m. Qed.
Lemma ty_cmos_read r : typed_m (cmos_read r). Proof. ty_m. Qed.
#[local] Hint Resolve ty_cmos_read ty_ioapicenable : typed.
Lemma ty_cmostime : typed_m cmostime. Proof. ty_m. Qed.
Lemma ty_uart_wait n : typed_m (uart_wait n).
Proof. induction n as [|n IH]; intros k T; cbn [uart_wait]; ty_at. Qed.
#[local] Hint Resolve ty_uart_wait : typed.
Lemma ty_uartputc c : typed_m (uartputc c). Proof. ty_m. Qed.
#[local] Hint Resolve ty_uartputc : typed.
Lemma ty_uartinit : typed_m uartinit. Proof. ty_m. Qed.
Lemma ty_consoleintr_from m getc : typed_m m -> typed_m getc -> typed_m (consoleintr_from m getc). Proof. ty_m. Qed.
Lemma ty_uartgetc : typed_m uartgetc. Proof. ty_m. Qed.
Lemma ty_kbd_getc : typed_m kbd_getc. Proof. ty_m. Qed.
#[local] Hint Resolve ty_consoleintr_from ty_uartgetc ty_kbd_getc : typed.
Lemma ty_uartintr m : typed_m m -> typed_m (uartintr m). Proof. ty_m. Qed.
Lemma ty_kbdintr m : typed_m m -> typed_m (kbdintr m). Proof. ty_m. Qed.

Lemma ty_find_disk1 n : typed_m (find_disk1 n).
Proof. induction n as [|n IH]; intros k T; cbn [find_disk1]; ty_at. Qed.
Lemma ty_idewait b : typed_m (idewait b). Proof. ty_m. Qed.
#[local] Hint Resolve ty_find_disk1 ty_idewait : typed.
Lemma ty_ideinit : typed_m ideinit. Proof. ty_m. Qed.
Lemma ty_idestart b : typed_m (idestart b). Proof. ty_m. Qed.
#[local] Hint Resolve ty_idestart : typed.
Lemma ty_ideintr : typed_m ideintr. Proof. ty_m. Qed.
Lemma ty_append_after n j i : (i < NBUF + 1)%nat -> typed_m (append_after n j i).
Proof. intros Hi. revert j. induction n as [|n IH]; intros j k T; cbn [append_after]; ty_at. Qed.
#[local] Hint Resolve ty_append_after : typed.
Lemma ty_ide_iderw i : (i < NBUF + 1)%nat -> typed_m (Ide.iderw i). Proof. ty_m. Qed.
End Devices.
#[export] Hint Resolve ty_inb ty_outb ty_picinit ty_ioapicinit ty_ioapicenable ty_lapicinit ty_lapiceoi ty_lapicid ty_lapicstartap ty_cmostime : typed.
#[export] Hint Resolve ty_uartinit ty_uartintr ty_kbdintr ty_ideinit ty_ideintr ty_ide_iderw : typed.

(** Virtual memory *)
Section Vm.
Context {L : Linker}.

Lemma ty_vload8 a : typed_m (vload8 a). Proof. ty_m. Qed.
Lemma ty_vstore8 a v : typed_m (vstore8 a v). Proof. ty_m. Qed.
#[local] Hint Resolve ty_vload8 ty_vstore8 : typed.
Lemma ty_vload a n : typed_m (vload a n).
Proof. revert a. induction n as [|n IH]; intros a k T; cbn [vload]; ty_at. Qed.
Lemma ty_vstore a l : typed_m (vstore a l).
Proof. revert a. induction l as [|v l IH]; intros a k T; cbn [vstore]; ty_at. Qed.
Lemma ty_walkpgdir d va alloc : typed_m (walkpgdir d va alloc). Proof. ty_m. Qed.
#[local] Hint Resolve ty_vload ty_vstore ty_walkpgdir : typed.
Lemma ty_mappages d va sz pa perm : typed_m (mappages d va sz pa perm). Proof. ty_m. Qed.
Lemma ty_deallocuvm d o n : typed_m (deallocuvm d o n). Proof. ty_m. Qed.
#[local] Hint Resolve ty_mappages ty_deallocuvm : typed.
Lemma ty_freevm d : typed_m (freevm d). Proof. ty_m. Qed.
#[local] Hint Resolve ty_freevm : typed.
Lemma ty_setupkvm_loop d ks : typed_m (setupkvm_loop d ks).
Proof. induction ks as [|x ks IH]; intros k T; cbn [setupkvm_loop]; ty_at. Qed.
#[local] Hint Resolve ty_setupkvm_loop : typed.
Lemma ty_setupkvm : typed_m setupkvm. Proof. ty_m. Qed.
Lemma ty_switchkvm : typed_m switchkvm. Proof. ty_m. Qed.
Lemma ty_switchuvm p : typed_m (switchuvm p). Proof. ty_m. Qed.
#[local] Hint Resolve ty_setupkvm ty_switchkvm ty_switchuvm : typed.
Lemma ty_kvmalloc : typed_m kvmalloc. Proof. ty_m. Qed.
Lemma ty_inituvm d l : typed_m (inituvm d l). Proof. ty_m. Qed.
Lemma ty_allocuvm d o n : typed_m (allocuvm d o n). Proof. ty_m. Qed.
Lemma ty_clearpteu d a : typed_m (clearpteu d a). Proof. ty_m. Qed.
Lemma ty_copyuvm d sz : typed_m (copyuvm d sz). Proof. ty_m. Qed.
Lemma ty_uva2ka d a : typed_m (uva2ka d a). Proof. ty_m. Qed.
#[local] Hint Resolve ty_uva2ka : typed.
Lemma ty_copyout_loop n d va l : typed_m (copyout_loop n d va l).
Proof. revert va l. induction n as [|n IH]; intros va l k T; cbn [copyout_loop]; ty_at. Qed.
#[local] Hint Resolve ty_copyout_loop : typed.
Lemma ty_copyout d va l : typed_m (copyout d va l). Proof. ty_m. Qed.
End Vm.
#[export] Hint Resolve ty_vload8 ty_vstore8 ty_vload ty_vstore ty_walkpgdir ty_mappages ty_deallocuvm ty_freevm ty_setupkvm ty_switchkvm ty_switchuvm : typed.
#[export] Hint Resolve ty_kvmalloc ty_inituvm ty_allocuvm ty_clearpteu ty_copyuvm ty_copyout : typed.

(** The buffer cache and the log *)
Lemma ty_iderw i : typed_m (Bio.iderw i). Proof. ty_m. Qed.
#[export] Hint Resolve ty_iderw : typed.
Lemma scan_ty n link test k i : typed k -> (forall j, (link (buf_at k j) < NBUF + 1)%nat) -> (i < NBUF + 1)%nat ->
  forall r, scan n link test k i = Some r -> below (NBUF + 1) r.
Proof.
  intros T Hl. revert i. induction n as [|n IH]; intros i Hi r; simpl; [done|].
  destruct (i =? NBUF)%nat; [intros [= <-]; apply below_None|]. destruct (test (buf_at k i)); [intros [= <-]; by apply below_Some|]. apply IH, Hl.
Qed.
Lemma ty_search_next t : safe typed (search b_next t) (below (NBUF + 1)).
Proof.
  intros k T e He. unfold search. destruct (scan _ _ _ _ _) as [r|] eqn:E; [|done]. split; [done|]. split; [done|].
  eapply scan_ty; [done| | |exact E]; intros; by apply buf_next_ty.
Qed.
Lemma ty_search_prev t : safe typed (search b_prev t) (below (NBUF + 1)).
Proof.
  intros k T e He. unfold search. destruct (scan _ _ _ _ _) as [r|] eqn:E; [|done]. split; [done|]. split; [done|].
  eapply scan_ty; [done| | |exact E]; intros; by apply buf_prev_ty.
Qed.
#[export] Hint Resolve ty_search_next ty_search_prev : typed.
Lemma ty_bget dev b : safe typed (bget dev b) (fun i => i < NBUF + 1)%nat. Proof. ty_m. Qed.
#[export] Hint Resolve ty_bget : typed.
Lemma ty_bread dev b : safe typed (bread dev b) (fun i => i < NBUF + 1)%nat. Proof. ty_m. Qed.
Lemma ty_bwrite b : typed_m (bwrite b). Proof. ty_m. Qed.
Lemma ty_brelse b : (b < NBUF + 1)%nat -> typed_m (brelse b). Proof. ty_m. Qed.
Lemma ty_binit : typed_m binit. Proof. ty_m. Qed.
#[export] Hint Resolve ty_bread ty_bwrite ty_brelse ty_binit : typed.

Lemma ty_for_tail body : (forall i, typed_m (body i)) -> typed_m (for_tail body). Proof. ty_m. Qed.
#[export] Hint Resolve ty_for_tail : typed.
Lemma ty_install_trans : typed_m install_trans. Proof. apply ty_for_tail. ty_m. Qed.
Lemma ty_write_log : typed_m write_log. Proof. apply ty_for_tail. ty_m. Qed.
Lemma ty_read_head : typed_m read_head. Proof. ty_m. Qed.
Lemma ty_write_head : typed_m write_head. Proof. ty_m. Qed.
#[export] Hint Resolve ty_install_trans ty_write_log ty_read_head ty_write_head : typed.
Lemma ty_commit : typed_m commit. Proof. ty_m. Qed.
Lemma ty_readsb dev : typed_m (readsb dev). Proof. ty_m. Qed.
#[export] Hint Resolve ty_commit ty_readsb : typed.
Lemma ty_initlog dev : typed_m (initlog dev). Proof. ty_m. Qed.
Lemma ty_begin_op : typed_m begin_op. Proof. ty_m. Qed.
Lemma ty_end_op : typed_m end_op. Proof. ty_m. Qed.
Lemma ty_absorb n i b : typed_m (absorb n i b).
Proof. revert i. induction n as [|n IH]; intros i k T; cbn [absorb]; ty_at. Qed.
#[export] Hint Resolve ty_absorb : typed.
Lemma ty_log_write b : typed_m (log_write b). Proof. ty_m. Qed.
#[export] Hint Resolve ty_initlog ty_begin_op ty_end_op ty_log_write : typed.

(** The file system *)
Lemma ty_set_bdata b f : (forall d, length (f d) = length d \/ length (f d) = BSIZE) -> typed_m (set_bdata b f).
Proof.
  intros Hf k T. apply at_modify; [|done]. apply typed_upd_buf; [done|]. intros []. split; try done. simpl.
  destruct (Hf (b_data (buf_at k b))); lia.
Qed.
Ltac ty_block := intros ?; first [right; apply length_replicate | left; unfold set_byte; rewrite ?length_insert, ?length_inserts, ?length_wr, ?length_put_dinode; reflexivity].
#[export] Hint Extern 2 (safe typed (set_bdata _ _) _) => (apply ty_set_bdata; ty_block) : typed.

Lemma ty_bzero dev b : typed_m (bzero dev b). Proof. ty_m. Qed.
#[export] Hint Resolve ty_bzero : typed.
Lemma ty_balloc dev : typed_m (balloc dev). Proof. ty_m. Qed.
Lemma ty_bfree dev b : typed_m (bfree dev b). Proof. ty_m. Qed.
Lemma ty_iinit dev : typed_m (iinit dev). Proof. ty_m. Qed.
Lemma ty_iget dev n : safe typed (iget dev n) (fun i => i < NINODE)%nat. Proof. unfold iget, iget_hit, iget_empty. intros ? ?. ty_at. Qed.
#[export] Hint Resolve ty_balloc ty_bfree ty_iinit ty_iget : typed.
Lemma ty_ialloc dev t : safe typed (ialloc dev t) (fun i => i < NINODE)%nat. Proof. ty_m. Qed.
Lemma ty_iupdate i : typed_m (iupdate i). Proof. ty_m. Qed.
Lemma ty_idup i : safe typed (idup i) (fun j => j = i). Proof. ty_m. Qed.
Lemma ty_ilock i : typed_m (ilock i). Proof. ty_m. Qed.
Lemma ty_iunlock i : typed_m (iunlock i). Proof. ty_m. Qed.
#[export] Hint Resolve ty_ialloc ty_iupdate ty_idup ty_ilock ty_iunlock : typed.
Lemma ty_bmap i n : typed_m (bmap i n). Proof. ty_m. Qed.
Lemma ty_itrunc i : typed_m (itrunc i). Proof. ty_m. Qed.
#[export] Hint Resolve ty_bmap ty_itrunc : typed.
Lemma ty_iput i : typed_m (iput i). Proof. ty_m. Qed.
#[export] Hint Resolve ty_iput : typed.
Lemma ty_iunlockput i : typed_m (iunlockput i). Proof. ty_m. Qed.
Lemma ty_stati i : typed_m (stati i). Proof. ty_m. Qed.
#[export] Hint Resolve ty_iunlockput ty_stati : typed.
Lemma ty_readi_loop n i off m : typed_m (readi_loop n i off m).
Proof. revert off m. induction n as [|n IH]; intros off m k T; cbn [readi_loop]; ty_at. Qed.
Lemma ty_writei_loop n i src off m : typed_m (writei_loop n i src off m).
Proof. revert src off m. induction n as [|n IH]; intros src off m k T; cbn [writei_loop]; ty_at. Qed.
#[export] Hint Resolve ty_readi_loop ty_writei_loop : typed.

(** What the file system asks of the drivers in [devsw]. *)
Class DevswTyped {D : Devsw} : Prop := {
  ty_devsw_read major f : devsw_read major = Some f -> forall i n, typed_m (f i n);
  ty_devsw_write major f : devsw_write major = Some f -> forall i src n, typed_m (f i src n)
}.

Section Files.
Context {D : Devsw} {DT : DevswTyped}.

Lemma ty_readi i off n : typed_m (readi i off n).
Proof.
  unfold readi. intros k T. apply at_bind_gets. set (ip := inode_at k i). destruct (i_type ip =? T_DEV); [|ty_at].
  destruct (dev_ok (i_major ip)); [|by apply at_ret]. destruct (devsw_read (i_major ip)) as [f|] eqn:E; [|by apply at_ret].
  by eapply ty_devsw_read.
Qed.
Lemma ty_writei i src off n : typed_m (writei i src off n).
Proof.
  unfold writei. intros k T. apply at_bind_gets. set (ip := inode_at k i). destruct (i_type ip =? T_DEV); [|ty_at].
  destruct (dev_ok (i_major ip)); [|by apply at_ret]. destruct (devsw_write (i_major ip)) as [f|] eqn:E; [|by apply at_ret].
  by eapply ty_devsw_write.
Qed.
#[local] Hint Resolve ty_readi ty_writei : typed.
Lemma ty_dirlookup dp name : safe typed (dirlookup dp name) (fun r => forall i off, r = Some (i, off) -> (i < NINODE)%nat). Proof. ty_m. Qed.
#[local] Hint Resolve ty_dirlookup : typed.
Lemma ty_dirlink dp name n : typed_m (dirlink dp name n). Proof. ty_m. Qed.

(** The inode on the way of [namex] is one of the table. *)
Lemma ty_namex_body parent ip path name k : typed k -> (ip < NINODE)%nat ->
  safe_at typed k (namex_body parent (ip, path, name))
    (fun r _ => match r with inl st => (st.1.1 < NINODE)%nat | inr r => below NINODE r.1 end).
Proof. intros T Hip. unfold namex_body. ty_at. Qed.
Lemma ty_namex path parent : safe typed (namex path parent) (fun r => below NINODE r.1).
Proof.
  unfold namex. intros k T. apply (at_bind typed k _ _ (fun ip _ => (ip < NINODE)%nat)); [ty_at|]. intros ip k' T' Hip.
  apply (safe_iter typed (fun st => (st.1.1 < NINODE)%nat) (fun r _ => below NINODE r.1)); [|done|done].
  intros [[ip' path'] name'] s Ts Hs. by apply ty_namex_body.
Qed.
#[local] Hint Resolve ty_namex : typed.
Lemma ty_namei path : safe typed (namei path) (below NINODE). Proof. ty_m. Qed.
Lemma ty_nameiparent path : safe typed (nameiparent path) (fun r => below NINODE r.1). Proof. ty_m. Qed.
End Files.
#[export] Hint Resolve ty_readi ty_writei ty_dirlookup ty_dirlink ty_namei ty_nameiparent : typed.

(** Pipes *)
Lemma ty_killed : typed_m killed. Proof. ty_m. Qed.
#[export] Hint Resolve ty_killed : typed.

Section Pipes.
Context {L : Linker}.
Lemma ty_pipeclose p w : typed_m (pipeclose p w). Proof. ty_m. Qed.

(** The writer goes on when there is room. *)
Lemma ty_pipe_room p k : typed k -> safe_at typed k (pipe_room p)
  (fun ok k' => ok = true -> pi_nwrite (pipe_at k' p) <> u32 (pi_nread (pipe_at k' p) + Z.of_nat PIPESIZE)).
Proof.
  intros T. unfold pipe_room. apply (safe_waiting typed (fun _ => True) (fun ok k' => ok = true -> _)); [|done|done]. intros _ k' T' _. apply at_bind_gets. 
  destruct (Z.eqb_spec (pi_nwrite (pipe_at k' p)) (u32 (pi_nread (pipe_at k' p) + Z.of_nat PIPESIZE))) as [E|E]; [ty_at|]. by apply at_ret.
Qed.
Lemma pipe_put_ty c pi : pi_nwrite pi <> u32 (pi_nread pi + Z.of_nat PIPESIZE) -> pipe_ty pi -> pipe_ty (pipe_put c pi).
Proof. intros Hne [Hl Hr]. split; [simpl; by rewrite length_insert|]. by apply ring_put. Qed.
Lemma pipe_got_ty pi : pi_nread pi <> pi_nwrite pi -> pipe_ty pi -> pipe_ty (pipe_got pi).
Proof. intros Hne [Hl Hr]. split; [done|]. by apply ring_get. Qed.

Lemma ty_pipewrite_loop p src : typed_m (pipewrite_loop p src).
Proof.
  induction src as [|c src IH]; intros k T; cbn [pipewrite_loop]; [by apply at_ret|]. eapply at_bind; [by apply ty_pipe_room|].
  intros [] k' T' Hok; cbn [negb]; [|by apply at_ret]. apply at_bind_modify; [|by apply IH].
  apply typed_upd_pipe; [done|]. by apply pipe_put_ty, Hok.
Qed.
Lemma ty_piperead_loop p n : typed_m (piperead_loop p n).
Proof.
  induction n as [|n IH]; intros k T; cbn [piperead_loop]; [by apply at_ret|]. apply at_bind_gets.
  destruct (Z.eqb_spec (pi_nread (pipe_at k p)) (pi_nwrite (pipe_at k p))) as [E|E]; [by apply at_ret|].
  apply at_bind_modify; [|intros; ty_at]. apply typed_upd_pipe; [done|]. by apply pipe_got_ty.
Qed.
#[local] Hint Resolve ty_pipeclose ty_pipewrite_loop ty_piperead_loop : typed.
Lemma ty_pipewrite p l n : typed_m (pipewrite p l n). Proof. ty_m. Qed.
Lemma ty_piperead p n : typed_m (piperead p n). Proof. ty_m. Qed.
End Pipes.
#[export] Hint Resolve ty_pipeclose ty_pipewrite ty_piperead : typed.

(** The reader of the console goes on when a line is complete. *)
Lemma ty_consoleread_wait ip k : typed k -> safe_at typed k (consoleread_wait ip) (fun ok k' => ok = true -> in_r (k_input k') <> in_w (k_input k')).
Proof.
  intros T. unfold consoleread_wait. apply (safe_waiting typed (fun _ => True) (fun ok k' => ok = true -> _)); [|done|done].
  intros _ k' T' _. apply at_bind_gets. destruct (Z.eqb_spec (in_r (k_input k')) (in_w (k_input k'))) as [E|E]; [ty_at|]. by apply at_ret.
Qed.

Lemma ty_consoleread_loop ip n t : typed_m (consoleread_loop ip n t).
Proof.
  induction n as [|n IH]; intros k T; cbn [consoleread_loop]; [by apply at_ret|]. eapply at_bind; [by apply ty_consoleread_wait|].
  intros [] k' T' Hok; cbn [negb]; [|by apply at_ret]. specialize (Hok eq_refl). apply at_bind_gets. apply at_bind_keep.
  destruct (proj1 (input_line _) (ty_input _ T')) as [Hl Hi]. destruct (edit_read _ _ _ Hok Hi) as [H1 H2].
  assert (T1 : typed (upd_input (fun i => set_in_r (u32 (in_r i + 1)) i) k')).
  { apply typed_upd_input; [done|]. intros _. apply input_line. by split. }
  destruct (_ =? Ctl "D"); [|ty_at]. destruct (_ <? t); cbn [when]; [|ty_at]. apply at_bind_modify; [|intros; ty_at].
  apply typed_upd_input; [done|]. intros _. apply input_line. by split.
Qed.
#[export] Hint Resolve ty_consoleread_loop : typed.
Lemma ty_consoleread ip n : typed_m (consoleread ip n). Proof. ty_m. Qed.
Lemma ty_consolewrite ip l n : typed_m (consolewrite ip l n). Proof. ty_m. Qed.

#[export] Instance devsw_typed : DevswTyped (D := devsw).
Proof.
  split; intros major f; simpl; destruct (major =? CONSOLE); intros [= <-]; [exact ty_consoleread|exact ty_consolewrite].
Qed.
#[export] Hint Resolve devsw_typed : typed.

Section Kernel.
Context {L : Linker}.

(** Open files *)
Lemma ty_filealloc : safe typed filealloc (below NFILE). Proof. ty_m. Qed.
Lemma ty_filedup f : safe typed (filedup f) (fun g => g = f). Proof. ty_m. Qed.
Lemma ty_fileclose f : typed_m (fileclose f). Proof. ty_m. Qed.
Lemma ty_filestat f : typed_m (filestat f). Proof. ty_m. Qed.
Lemma ty_fileread f n : typed_m (fileread f n). Proof. ty_m. Qed.
Lemma ty_filewrite f l n : typed_m (filewrite f l n). Proof. ty_m. Qed.
#[local] Hint Resolve ty_filealloc ty_filedup ty_fileclose ty_filestat ty_fileread ty_filewrite : typed.
Lemma pipe_file_ty r w p f : p <> 0 -> file_ty f -> file_ty (pipe_file r w p f).
Proof. intros Hp []. by split. Qed.
Lemma new_pipe_ty pi : pipe_ty pi -> pipe_ty (set_pi_nread 0 (set_pi_nwrite 0 (set_pi_writeopen 1 (set_pi_readopen 1 pi)))).
Proof. intros [Hl _]. split; [done|]. split; [simpl; lia|]. split; [simpl; lia|done]. Qed.
Lemma ty_pipealloc : safe typed pipealloc (fun r => forall f g, r = Some (f, g) -> (f < NFILE)%nat /\ (g < NFILE)%nat).
Proof.
  assert (Hbad : forall f g, safe typed (pipealloc_bad f g) (fun r => forall f g, r = Some (f, g) -> (f < NFILE)%nat /\ (g < NFILE)%nat)) by ty_m.
  unfold pipealloc. intros k T. eapply at_call; [apply ty_filealloc|done|]. intros [f|] k1 T1 Hf; [|by apply Hbad].
  eapply at_call; [apply ty_filealloc|done|]. intros [g|] k2 T2 Hg; [|by apply Hbad]. ty_result.
  eapply at_call; [apply ty_kalloc|done|]. intros p k3 T3 _. destruct (Z.eqb_spec p 0) as [->|Hp]; [by apply Hbad|].
  apply at_bind_modify; [apply typed_upd_pipe; [done|apply new_pipe_ty]|]. intros k4 T4.
  eapply at_call; [apply ty_initlock|done|]. intros _ k5 T5 _.
  do 2 (apply at_bind_modify; [apply typed_upd_file; [done|by apply pipe_file_ty]|intros ? ?]). ty_at.
Qed.
#[local] Hint Resolve ty_pipealloc : typed.

(** Processes *)
Lemma ty_curproc : safe typed curproc (fun p => p < NPROC)%nat. Proof. ty_m. Qed.
Lemma ty_allocproc : safe typed allocproc (below NPROC). Proof. ty_m. Qed.
#[local] Hint Resolve ty_curproc ty_allocproc : typed.
Lemma ty_userinit l : typed_m (userinit l). Proof. ty_m. Qed.
Lemma ty_growproc n : typed_m (growproc n). Proof. ty_m. Qed.
Lemma ty_fork : typed_m fork. Proof. ty_m. Qed.
Lemma ty_exit : typed_m exit. Proof. ty_m. Qed.
Lemma ty_wait : typed_m wait. Proof. ty_m. Qed.
Lemma ty_scheduler n : typed_m (scheduler n). Proof. ty_m. Qed.
Lemma ty_forkret : typed_m forkret. Proof. ty_m. Qed.
Lemma ty_kill pid : typed_m (kill pid). Proof. ty_m. Qed.
Lemma ty_procdump_pcs pcs : typed_m (procdump_pcs pcs).
Proof. induction pcs as [|pc pcs IH]; intros k T; cbn [procdump_pcs]; ty_at. Qed.
#[local] Hint Resolve ty_procdump_pcs : typed.
Lemma ty_procdump : typed_m procdump. Proof. ty_m. Qed.
Lemma ty_cps : typed_m cps. Proof. ty_m. Qed.
#[local] Hint Resolve ty_userinit ty_growproc ty_fork ty_exit ty_wait ty_scheduler ty_forkret ty_kill ty_procdump ty_cps : typed.

(** [exec] *)
Lemma ty_loaduvm d a ip o sz : typed_m (loaduvm d a ip o sz). Proof. ty_m. Qed.
#[local] Hint Resolve ty_loaduvm : typed.
Lemma ty_exec_load d ip n off sz : typed_m (exec_load d ip n off sz).
Proof. revert off sz. induction n as [|n IH]; intros off sz k T; cbn [exec_load]; ty_at. Qed.
Lemma ty_exec_push d argc argv sp : typed_m (exec_push d argc argv sp).
Proof. revert argc sp. induction argv as [|a argv IH]; intros argc sp k T; cbn [exec_push]; ty_at. Qed.
#[local] Hint Resolve ty_exec_load ty_exec_push : typed.
Lemma ty_exec_bad d ip : typed_m (exec_bad d ip). Proof. ty_m. Qed.
Lemma ty_exec_commit cur path d sz entry sp : typed_m (exec_commit cur path d sz entry sp). Proof. ty_m. Qed.
#[local] Hint Resolve ty_exec_bad ty_exec_commit : typed.
Lemma ty_exec_stack cur path argv d entry sz : typed_m (exec_stack cur path argv d entry sz). Proof. ty_m. Qed.
#[local] Hint Resolve ty_exec_stack : typed.
Lemma ty_exec path argv : typed_m (exec path argv). Proof. ty_m. Qed.
#[local] Hint Resolve ty_exec : typed.

(** The arguments of the system calls *)
Lemma ty_fetchint a : typed_m (fetchint a). Proof. ty_m. Qed.
Lemma ty_fetchstr_loop n s : typed_m (fetchstr_loop n s).
Proof. revert s. induction n as [|n IH]; intros s k T; cbn [fetchstr_loop]; ty_at. Qed.
#[local] Hint Resolve ty_fetchint ty_fetchstr_loop : typed.
Lemma ty_fetchstr a : typed_m (fetchstr a). Proof. ty_m. Qed.
Lemma ty_argint n : typed_m (argint n). Proof. ty_m. Qed.
#[local] Hint Resolve ty_fetchstr ty_argint : typed.
Lemma ty_argptr n sz : typed_m (argptr n sz). Proof. ty_m. Qed.
Lemma ty_argstr n : typed_m (argstr n). Proof. ty_m. Qed.
#[local] Hint Resolve ty_argptr ty_argstr : typed.
Lemma ty_argfd n : safe typed (argfd n) (fun r => forall fd f, r = Some (fd, f) -> (f < NFILE)%nat).
Proof.
  unfold argfd. intros k T. eapply at_call; [apply ty_argint|done|]. intros [fd|] k1 T1 _; [|by apply at_ret].
  destruct (_ || _); [by apply at_ret|]. eapply at_call; [apply ty_curproc|done|]. intros p k2 T2 _. apply at_bind_gets. apply at_ret; [done|].
  intros fd' f. destruct (mjoin _) as [g|] eqn:E; [|done]. intros [= <- <-]. by apply (ofile_ty k2 T2 p (Z.to_nat fd)).
Qed.
Lemma ty_fdalloc f : (f < NFILE)%nat -> typed_m (fdalloc f). Proof. ty_m. Qed.
#[local] Hint Resolve ty_argfd ty_fdalloc : typed.
Lemma ty_rw_args : typed_m rw_args. Proof. ty_m. Qed.
#[local] Hint Resolve ty_rw_args : typed.

(** The system calls *)
Lemma ty_create_new dp name t ma mi : safe typed (create_new dp name t ma mi) (below NINODE). Proof. ty_m. Qed.
#[local] Hint Resolve ty_create_new : typed.
Lemma ty_create path t ma mi : safe typed (create path t ma mi) (below NINODE). Proof. ty_m. Qed.
Lemma ty_isdirempty dp : typed_m (isdirempty dp). Proof. ty_m. Qed.
#[local] Hint Resolve ty_create ty_isdirempty : typed.
Lemma ty_unlink_path path : typed_m (unlink_path path). Proof. ty_m. Qed.
Lemma ty_link_inode old new : typed_m (link_inode old new). Proof. ty_m. Qed.
Lemma ty_open_inode path m : safe typed (open_inode path m) (below NINODE). Proof. ty_m. Qed.
#[local] Hint Resolve ty_unlink_path ty_link_inode ty_open_inode : typed.
Lemma ty_open_path path m : typed_m (open_path path m). Proof. ty_m. Qed.
#[local] Hint Resolve ty_open_path : typed.
Lemma ty_exec_args n u i : typed_m (exec_args n u i).
Proof. revert i. induction n as [|n IH]; intros i k T; cbn [exec_args]; ty_at. Qed.
#[local] Hint Resolve ty_exec_args : typed.

Lemma ty_syscalls num h : syscalls num = Some h -> typed_m h.
Proof.
  unfold syscalls. intros H.
  repeat match type of H with Some ?m = Some ?n => assert (n = m) as -> by congruence; clear H; ty_m | None = _ => discriminate | context [match ?x with _ => _ end] => destruct x end.
Qed.

Context {HW : Hardware}.

Lemma ty_syscall : typed_m syscall.
Proof.
  unfold syscall. intros k T. eapply at_call; [apply ty_curproc|done|]. intros p k1 T1 _. apply at_bind_gets.
  destruct (syscalls _) as [h|] eqn:E; [|ty_at]. eapply at_call; [by eapply ty_syscalls|done|]. intros. ty_at.
Qed.
Lemma ty_exit_if_killed u : typed_m (exit_if_killed u). Proof. ty_m. Qed.
#[local] Hint Resolve ty_syscall ty_exit_if_killed : typed.
Lemma ty_trap_fault tf cr2 : typed_m (trap_fault tf cr2). Proof. ty_m. Qed.
#[local] Hint Resolve ty_trap_fault : typed.
Lemma ty_trap_switch tf cr2 : typed_m (trap_switch tf cr2). Proof. ty_m. Qed.
#[local] Hint Resolve ty_trap_switch : typed.
Lemma ty_trap a cr2 : typed_m (trap a cr2). Proof. ty_m. Qed.

(** Start-up *)
Lemma ty_seginit : typed_m seginit. Proof. ty_m. Qed.
Lemma ty_tvinit v : typed_m (tvinit v). Proof. ty_m. Qed.

(** A processor is added only while there is room in [cpus]. *)
Lemma ty_mpinit_entry e st : typed_m (mpinit_entry e st).
Proof.
  unfold mpinit_entry. intros k T. destruct st as [p ismp]. destruct (negb (p <? e)); [by apply at_ret|]. apply at_bind_gets.
  destruct (_ =? MPPROC); [|ty_at]. do 2 apply at_bind_gets. destruct (Nat.ltb_spec (length (k_cpus k)) NCPU) as [Hn|Hn]; cbn [when]; [|by apply at_ret].
  apply at_bind_modify; [|intros; ty_at]. apply typed_add_cpu; [done|apply below_None|done].
Qed.
#[local] Hint Resolve ty_seginit ty_tvinit ty_mpinit_entry : typed.
Lemma ty_mpinit n : typed_m (mpinit n). Proof. ty_m. Qed.
Lemma ty_kinit1 a b : typed_m (kinit1 a b). Proof. ty_m. Qed.
Lemma ty_kinit2 a b : typed_m (kinit2 a b). Proof. ty_m. Qed.
Lemma ty_mpmain n : typed_m (mpmain n). Proof. ty_m. Qed.
Lemma ty_startothers a b c d : typed_m (startothers a b c d). Proof. ty_m. Qed.
#[local] Hint Resolve ty_mpinit ty_kinit1 ty_kinit2 ty_mpmain ty_startothers : typed.
Lemma ty_mpenter n : typed_m (mpenter n). Proof. ty_m. Qed.
Lemma ty_main v a b c d l n m : typed_m (main v a b c d l n m). Proof. ty_m. Qed.
End Kernel.

(** ** Runs of the kernel

    The kernel is entered at [main] and, on the other processors, at [mpenter], by every interrupt, exception and system call at [trap],
    and a new process starts at [forkret].  A run ends when the routine returns, panics, or waits for the others, so that the states
    at every point where others can run are among those where a run ends. *)
Section Runs.
Context {L : Linker} {HW : Hardware}.

Inductive kernel_entry : K unit -> Prop :=
| enter_main vectors entryother size mpenter_addr entrypgdir initcode fuel rounds :
    kernel_entry (main vectors entryother size mpenter_addr entrypgdir initcode fuel rounds)
| enter_mpenter rounds : kernel_entry (mpenter rounds)
| enter_trap a cr2 : kernel_entry (trap a cr2)
| enter_forkret : kernel_entry forkret.

Definition state_of {A} (o : outcome kstate A) : kstate :=
  match o with Done _ k _ => k | Panic _ k => k | Stuck k => k end.

(** The others, in their turn, keep the types; a user program stores bytes in the memory and sets its registers, which a trap saves. *)
Inductive kernel_run (k : kstate) : kstate -> Prop :=
| run_entry m e : kernel_entry m -> env_safe typed e -> kernel_run k (state_of (m k e))
| run_user mem tf : kernel_run k (set_k_tf tf (set_k_mem mem k)).

Lemma kernel_entry_ty m : kernel_entry m -> typed_m m.
Proof. destruct 1; [apply ty_main|apply ty_mpenter|apply ty_trap|apply ty_forkret]. Qed.

Lemma kernel_run_ty k k' : kernel_run k k' -> typed k -> typed k'.
Proof.
  intros [m e Hm He|mem tf] T; [|by destruct T]. pose proof (kernel_entry_ty m Hm k T e He) as H. destruct (m k e); [apply H|done..].
Qed.

Lemma boot_typed cpus disk size :
  (length cpus <= NCPU)%nat -> Forall cpu_ty cpus -> (forall n data, disk !! n = Some data -> length data = BSIZE) -> typed (boot_state cpus disk size).
Proof.
  intros Hn Hc Hd. split; try done. all: try apply zero_input_ty; try apply length_replicate.
  all: apply Forall_replicate; first [apply zero_proc_ty|apply zero_file_ty|apply zero_buf_ty|apply length_replicate].
Qed.

(** C13: the tables of the kernel stay well typed.  From the zeroed state that the loader leaves, through [main], system calls, interrupts and exceptions
    in any sequence, whatever the devices answer and the user programs store, also where a routine panics or waits: every
    open file of a process is an entry of the file table, its current directory an entry of the inode table and its parent an entry of the process
    table; so are the process of each processor and the initial process; a file of type [FD_INODE] has an entry of the inode table and one of
    type [FD_PIPE] a pipe that is not null, and no reference count of a file is negative; the links of the buffers and the queue of the disk stay in
    the table of buffers; a pipe never holds more than its 512 bytes and the console never more than its 128, with the lines that are complete
    before the one that is being edited; there are at most [NCPU] processors, and every array has its declared length. *)
Theorem kernel_keeps_types cpus disk size k :
  (length cpus <= NCPU)%nat -> Forall cpu_ty cpus -> (forall n data, disk !! n = Some data -> length data = BSIZE) ->
  rtc kernel_run (boot_state cpus disk size) k -> typed k.
Proof.
  intros Hn Hc Hd H. apply (rtc_ind_r (fun k => typed k) _ (boot_typed cpus disk size Hn Hc Hd)) with (2 := H).
  intros k1 k2 _ R T. by apply (kernel_run_ty k1).
Qed.

End Runs.

(** A machine with one processor and an interrupt of the timer: [trap] counts it and returns. *)
#[local] Instance timer_linker : Linker := kernel_sym.
#[local] Instance timer_devices : Hardware := no_devices.

Definition timer_frame : trapframe := mk_trapframe 0 0 0 0 0 0 0 0 0 0 0 0 32 0 0 8 0 0 0.

Lemma kernel_keeps_types_witness :
  let k := set_k_tf {[0 := timer_frame]} (set_k_mem ∅ (boot_state [zero_cpu] ∅ 0)) in
  exists k', trap 0 0 k [] = Done tt k' [] /\ k_ticks k' = 1 /\ typed k'.
Proof.
  intros k. exists (state_of (trap 0 0 k [])). split; [by vm_compute|]. split; [by vm_compute|]. apply (kernel_keeps_types [zero_cpu] ∅ 0).
  - simpl. unfold NCPU. lia.
  - apply Forall_singleton, below_None.
  - intros n data H. by rewrite lookup_empty in H.
  - eapply rtc_l; [apply (run_user _ ∅ {[0 := timer_frame]})|]. apply rtc_once. apply (run_entry k (trap 0 0) []); [apply enter_trap|constructor].
Defined.
