(* ===== verification/LogSpec.v ===== *)
(** * What the log does to the disk

    Each loop of log.c is shown to issue a known sequence of block writes, in a
    known order.  [io_step] is the judgement for that: from a cache at rest to a
    cache at rest, with the writes [W] in between. *)

From stdpp Require Import base gmap list strings sets.
From Stdlib Require Import ZArith Lia.
From S2P Require Import Prelude State Bytes Spinlock Sched Bio Cache Log.

(** A block write. *)
Definition write : Type := Z * list Z.

Definition apply_writes (W : list write) (d : gmap Z (list Z)) : gmap Z (list Z) :=
  foldl (fun d '(n, v) => <[n := v]> d) d W.

(** The contents of the blocks after the writes. *)
Definition blk_after (W : list write) (f : Z -> list Z) : Z -> list Z :=
  foldl (fun f '(n, v) m => if decide (m = n) then v else f m) f W.

Record io_step (p : nat) (k : kstate) (a : cache) (k' : kstate) (a' : cache) (W : list write) : Prop := {
  io_ok : cache_ok k' p a';
  io_frame : bio_frame k k';
  io_writes : k_writes k' = k_writes k ++ W;
  io_disk : k_disk k' = apply_writes W (k_disk k);
  io_blk : forall m, a_blk a' m = blk_after W (a_blk a) m;
  io_held : a_held a' = ∅;
  io_dirty : a_dirty a' = a_dirty a ∖ list_to_set W.*1
}.

Lemma blk_after_ext W f g m :
  (forall m, f m = g m) -> blk_after W f m = blk_after W g m.
Proof.
  revert f g. induction W as [|[n v] W IH]; intros f g H; simpl; [done|].
  apply IH. intros m'. by case_decide.
Qed.

Lemma blk_after_app W W' f m : blk_after (W ++ W') f m = blk_after W' (blk_after W f) m.
Proof. unfold blk_after. by rewrite foldl_app. Qed.

Lemma blk_after_notin W f m : m ∉ W.*1 -> blk_after W f m = f m.
Proof.
  revert f. induction W as [|[n v] W IH]; intros f H; simpl in *; [done|].
  apply not_elem_of_cons in H as [H1 H2]. rewrite IH by done. by rewrite decide_False.
Qed.

Lemma blk_after_in W f m v : NoDup W.*1 -> (m, v) ∈ W -> blk_after W f m = v.
Proof.
  revert f. induction W as [|[n w] W IH]; intros f Hn H; simpl in *; [set_solver|].
  apply NoDup_cons in Hn as [Hn1 Hn2]. apply elem_of_cons in H as [[= -> ->]|H]; [|by apply IH].
  rewrite blk_after_notin by done. by rewrite decide_True.
Qed.

Lemma apply_writes_app W W' d : apply_writes (W ++ W') d = apply_writes W' (apply_writes W d).
Proof. apply foldl_app. Qed.

Definition dblk (d : gmap Z (list Z)) (n : Z) : list Z := default (replicate BSIZE 0) (d !! n).

Lemma dblk_apply W d m : dblk (apply_writes W d) m = blk_after W (dblk d) m.
Proof.
  revert d. induction W as [|[n v] W IH]; intros d; simpl; [done|].
  rewrite IH. apply blk_after_ext. intros m'. unfold dblk. case_decide; subst.
  - by rewrite lookup_insert_eq.
  - by rewrite lookup_insert_ne.
Qed.

Lemma io_step_refl p k a : cache_ok k p a -> a_held a = ∅ -> io_step p k a k a [].
Proof. intros C H. split; try done; [by rewrite app_nil_r|simpl; set_solver]. Qed.

Lemma io_step_trans p k0 a0 k1 a1 k2 a2 W1 W2 :
  io_step p k0 a0 k1 a1 W1 -> io_step p k1 a1 k2 a2 W2 -> io_step p k0 a0 k2 a2 (W1 ++ W2).
Proof.
  intros A B. split.
  - apply B.
  - eapply bio_frame_trans; [apply A|apply B].
  - by rewrite (io_writes _ _ _ _ _ _ B), (io_writes _ _ _ _ _ _ A), app_assoc.
  - by rewrite apply_writes_app, (io_disk _ _ _ _ _ _ B), (io_disk _ _ _ _ _ _ A).
  - intros m. rewrite blk_after_app, (io_blk _ _ _ _ _ _ B). apply blk_after_ext, A.
  - apply B.
  - rewrite (io_dirty _ _ _ _ _ _ B), (io_dirty _ _ _ _ _ _ A), fmap_app, list_to_set_app_L. set_solver.
Qed.

Lemma for_each_app {S A} (f : A -> M S unit) l1 l2 s e :
  for_each f (l1 ++ l2) s e = (for_each f l1;; for_each f l2) s e.
Proof.
  revert s e. induction l1 as [|a l1 IH]; intros s e; simpl; [done|].
  rewrite bind_assoc. unfold bind. destruct (f a s e); [apply IH|done..].
Qed.

(** A loop that issues one write per round. *)
Lemma for_each_io p (body : nat -> K unit) (w : nat -> write) k0 a0 n e :
  cache_ok k0 p a0 -> a_held a0 = ∅ ->
  (forall i k a, (i < n)%nat -> io_step p k0 a0 k a (w <$> seq 0 i) ->
    exists k' a', body i k e = Done tt k' e /\ io_step p k a k' a' [w i]) ->
  exists k' a', for_each body (seq 0 n) k0 e = Done tt k' e /\ io_step p k0 a0 k' a' (w <$> seq 0 n).
Proof.
  intros C Hh. induction n as [|n IH]; intros Hbody.
  { exists k0, a0. split; [done|]. by apply io_step_refl. }
  destruct IH as (k1 & a1 & E1 & S1); [intros; apply Hbody; [lia|done]|].
  destruct (Hbody n k1 a1 ltac:(lia) S1) as (k2 & a2 & E2 & S2).
  exists k2, a2. rewrite seq_S, for_each_app. run E1. simpl. run E2. split; [done|].
  rewrite fmap_app. by eapply io_step_trans.
Qed.

(** A block that is neither held nor dirty is as on the disk. *)
Lemma clean_synced k p a n :
  cache_ok k p a -> n ∉ a_dirty a -> a_held a !! n = None -> a_blk a n = disk_block k n.
Proof.
  intros C Hd Hh. destruct (decide (Exists (cached k n) (seq 0 NBUF))) as [Hc|Hc].
  - apply Exists_exists in Hc as (i & _ & Hc). pose proof Hc as [Hi _].
    destruct (co_buf _ _ _ C i Hi) as [B1 B2 B3 B4 B5].
    destruct (decide (b_flags (buf_at k i) = 0)) as [Hz|Hz].
    + apply (co_clean _ _ _ C). intros j Hj. by rewrite (co_uniq _ _ _ C n j i Hj Hc).
    + rewrite (co_blk _ _ _ C n i Hc Hz). destruct Hc as (_ & Hd1 & Hn). rewrite B5, Hn; [done|..].
      * destruct B2 as [?|[?|F]]; [done..|]. destruct Hd. apply (co_dirty _ _ _ C).
        exists i. by split_and!.
      * destruct B3 as [[? _]|[Hr _]]; [done|].
        rewrite (proj2 (co_held _ _ _ C n i)) in Hh; [done|by split_and!].
  - apply (co_clean _ _ _ C). intros i Hi. destruct Hc. apply Exists_exists. exists i. split; [|done].
    apply elem_of_seq. destruct Hi. lia.
Qed.

(** ** Copying one block *)

(** The end of a round of [install_trans] and of [write_log]: the block is
    copied, written and the two buffers are released. *)
Lemma copy_tail k c p a src dst i j e :
  quiet k c p -> cache_ok k p a -> src <> dst ->
  a_held a = <[dst := j]> {[src := i]} \/ a_held a = <[src := i]> {[dst := j]} ->
  src ∈ a_dirty a \/ a_blk a src = disk_block k src ->
  exists k' a', (copy_data j i;; bwrite j;; brelse i;; brelse j) k e = Done tt k' e
    /\ cache_ok k' p a' /\ bio_frame k k'
    /\ k_writes k' = k_writes k ++ [(dst, a_blk a src)]
    /\ k_disk k' = <[dst := a_blk a src]> (k_disk k)
    /\ a_blk a' = a_blk (set_a_blk dst (a_blk a src) a) /\ a_held a' = ∅
    /\ a_dirty a' = a_dirty a ∖ {[dst]}.
Proof.
  intros Q C Hne Hheld Hs.
  assert (Hi : a_held a !! src = Some i).
  { destruct Hheld as [-> | ->]; [rewrite lookup_insert_ne by done|]; by simplify_map_eq. }
  assert (Hj : a_held a !! dst = Some j).
  { destruct Hheld as [-> | ->]; [|rewrite lookup_insert_ne by done]; by simplify_map_eq. }
  pose proof (held_facts _ _ _ _ _ C Hi) as (_ & _ & _ & _ & _ & _ & _ & Hdat & Hlen).
  unfold copy_data. c_simpl. rewrite Hdat.
  pose proof (cache_ok_store k p a dst j (a_blk a src) C Hj Hlen) as C1.
  set (k1 := upd_buf j _ k) in *. set (a1 := set_a_blk _ _ _) in *.
  assert (Q1 : quiet k1 c p) by (by apply (quiet_ext k)).
  destruct (bwrite_ok k1 c p a1 dst j e Q1 C1 Hj) as (k2 & E2 & C2 & F2 & D2 & W2). run E2.
  assert (Hb1 : a_blk a1 dst = a_blk a src) by (simpl; by rewrite decide_True).
  assert (Hb2 : a_blk a1 src = a_blk a src) by (simpl; by rewrite decide_False).
  rewrite Hb1 in D2, W2. change (k_disk k1) with (k_disk k) in D2.
  destruct (brelse_ok k2 c p _ src i e (quiet_frame _ _ _ _ F2 Q1) C2 Hi) as (k3 & E3 & C3 & F3 & D3 & W3).
  { destruct Hs as [Hs|Hs]; [left; simpl; set_solver|right].
    simpl a_blk at 1. rewrite decide_False by done. rewrite Hs. unfold disk_block. rewrite D2.
    by rewrite lookup_insert_ne. }
  run E3.
  destruct (brelse_ok k3 c p _ dst j e (quiet_frame _ _ _ _ F3 (quiet_frame _ _ _ _ F2 Q1)) C3)
    as (k4 & E4 & C4 & F4 & D4 & W4).
  { simpl. by rewrite lookup_delete_ne. }
  { right. simpl. rewrite decide_True by done. unfold disk_block. rewrite D3, D2.
    by rewrite lookup_insert_eq. }
  exists k4. eexists. split; [exact E4|]. split; [exact C4|].
  split; [exact (bio_frame_trans _ _ _ F2 (bio_frame_trans _ _ _ F3 F4))|].
  split; [rewrite W4, W3; exact W2|]. split; [by rewrite D4, D3|]. split; [done|].
  split; [|done]. simpl. apply map_eq. intros m. rewrite lookup_empty.
  destruct (decide (m = dst)) as [->|Hm]; [by rewrite lookup_delete_eq|].
  rewrite lookup_delete_ne by done. destruct (decide (m = src)) as [->|Hm']; [by rewrite lookup_delete_eq|].
  rewrite lookup_delete_ne by done. by destruct Hheld as [-> | ->]; simplify_map_eq.
Qed.

(** ** The state of the log

    [log_ok k s bl]: the log starts at block [s], and its in-memory header lists
    the home blocks [bl].  The home blocks are blocks of the disk outside the
    log. *)
Definition in_log (s m : Z) : Prop := s <= m < s + Z.of_nat LOGSIZE.

Record geometry (ds : Z) (s : Z) (bl : list Z) : Prop := {
  g_size : u32 ds <= 2 ^ 31;
  g_start : 0 <= s;
  g_end : s + Z.of_nat (length bl) < u32 ds;
  g_cap : (length bl < LOGSIZE)%nat;
  g_nodup : NoDup bl;
  g_home : forall b, b ∈ bl -> 0 <= b < u32 ds /\ ~ in_log s b
}.

Record log_ok (k : kstate) (s : Z) (bl : list Z) : Prop := {
  lo_dev : log_dev (k_log k) = 1;
  lo_start : log_start (k_log k) = s;
  lo_n : lh_n (k_log k) = Z.of_nat (length bl);
  lo_block : forall i b, bl !! i = Some b -> lh_block (k_log k) !! i = Some b;
  lo_length : length (lh_block (k_log k)) = LOGSIZE;
  lo_geo : geometry (k_disksize k) s bl
}.

Lemma log_ok_frame k k' s bl : bio_frame k k' -> log_ok k s bl -> log_ok k' s bl.
Proof.
  intros F L. pose proof (bio_frame_field k_log _ _ ltac:(done) F) as E.
  pose proof (bio_frame_field k_disksize _ _ ltac:(done) F) as E'.
  destruct L. split; rewrite ?E, ?E'; done.
Qed.

Lemma u32_block k s bl m : log_ok k s bl -> 0 <= m < u32 (k_disksize k) -> u32 m = m.
Proof. intros _ H. apply u32_small. pose proof (u32_bounds (k_disksize k)). lia. Qed.

Lemma logdev_done k s bl e : log_ok k s bl -> logdev k e = Done 1 k e.
Proof. intros L. unfold logdev, gets. by rewrite (lo_dev _ _ _ L). Qed.

Lemma logblock_range k s bl tail :
  log_ok k s bl -> (tail < length bl)%nat -> in_range k (s + Z.of_nat tail + 1).
Proof. intros L H. destruct (lo_geo _ _ _ L). unfold in_range. lia. Qed.

Lemma logblock_done k s bl tail e :
  log_ok k s bl -> (tail < length bl)%nat ->
  logblock tail k e = Done (s + Z.of_nat tail + 1) k e.
Proof.
  intros L H. unfold logblock, gets. rewrite (lo_start _ _ _ L).
  by rewrite (u32_block k s bl) by (done || by eapply logblock_range).
Qed.

Lemma get_lh_block_done k s bl tail b e :
  log_ok k s bl -> bl !! tail = Some b -> get_lh_block tail k e = Done b k e.
Proof.
  intros L H. unfold get_lh_block. pose proof (lookup_lt_Some _ _ _ H).
  pose proof (g_cap _ _ _ (lo_geo _ _ _ L)). rewrite (proj2 (Nat.ltb_lt _ _)) by lia.
  unfold gets. by rewrite (lo_block _ _ _ L tail b H).
Qed.

Lemma home_not_log k s bl tail b i :
  log_ok k s bl -> bl !! tail = Some b -> (i < length bl)%nat -> b <> s + Z.of_nat i + 1 /\ b <> s.
Proof.
  intros L H Hi. destruct (lo_geo _ _ _ L) as [_ ? ? ? ? Hh].
  destruct (Hh b) as [_ Hb]; [by eapply list_elem_of_lookup_2|]. unfold in_log in Hb.
  unfold LOGSIZE in *. lia.
Qed.

Lemma size_insert_held (n : Z) (i : nat) (D : gset Z) :
  (size (dom (<[n := i]> (∅ : gmap Z nat)) ∪ D) <= S (size D))%nat.
Proof.
  rewrite dom_insert_L, dom_empty_L, union_empty_r_L.
  pose proof (size_union_alt ({[n]} : gset Z) D) as E. rewrite E, size_singleton.
  pose proof (subseteq_size (D ∖ {[n]}) D ltac:(set_solver)). lia.
Qed.

(** Two blocks taken one after the other. *)
Lemma bread_two k c p a x y e :
  quiet k c p -> cache_ok k p a -> a_held a = ∅ -> in_range k x -> in_range k y -> x <> y ->
  (size (a_dirty a) < NBUF)%nat -> (y ∈ a_dirty a \/ (S (size (a_dirty a)) < NBUF)%nat) ->
  exists i k1 j k2, bread 1 x k e = Done i k1 e /\ bread 1 y k1 e = Done j k2 e
    /\ bio_frame k k1 /\ bio_frame k k2 /\ same_disk k k2
    /\ cache_ok k2 p (set_a_held (<[y := j]> {[x := i]}) a).
Proof.
  intros Q C Hh Hx Hy Hne Hd Hy'.
  destruct (bread_ok k c p a x e Q C Hx) as (i & k1 & E1 & C1 & F1 & D1 & W1).
  { by rewrite Hh. }
  { right. rewrite Hh, dom_empty_L, union_empty_l_L. done. }
  destruct (bread_ok k1 c p _ y e (quiet_frame _ _ _ _ F1 Q) C1) as (j & k2 & E2 & C2 & F2 & D2 & W2).
  { unfold in_range. by rewrite (bio_frame_field k_disksize _ _ ltac:(done) F1). }
  { simpl. rewrite Hh. by simplify_map_eq. }
  { destruct Hy' as [Hy'|Hy']; [by left|right]. simpl. rewrite Hh.
    pose proof (size_insert_held x i (a_dirty a)). lia. }
  exists i, k1, j, k2. split_and!; try done.
  - by eapply bio_frame_trans.
  - split; congruence.
  - revert C2. unfold hold. simpl. rewrite Hh. done.
Qed.

Lemma io_step_copy p k a k2 a2 k' a' src dst h :
  a2 = set_a_held h a -> bio_frame k k2 -> same_disk k k2 -> cache_ok k' p a' -> bio_frame k2 k' ->
  k_writes k' = k_writes k2 ++ [(dst, a_blk a2 src)] ->
  k_disk k' = <[dst := a_blk a2 src]> (k_disk k2) ->
  a_blk a' = a_blk (set_a_blk dst (a_blk a2 src) a2) -> a_held a' = ∅ ->
  a_dirty a' = a_dirty a2 ∖ {[dst]} -> io_step p k a k' a' [(dst, a_blk a src)].
Proof.
  intros -> F [D2 W2] C F' W' D' B' H' X'. simpl in *. split; try done.
  - by eapply bio_frame_trans.
  - by rewrite W', W2.
  - simpl. by rewrite D', D2.
  - intros m. by rewrite B'.
  - rewrite X'. simpl. set_solver.
Qed.

Lemma write_log_body_ok k c p a s bl tail b e :
  quiet k c p -> cache_ok k p a -> a_held a = ∅ -> log_ok k s bl -> bl !! tail = Some b ->
  b ∈ a_dirty a -> (size (a_dirty a) < NBUF)%nat ->
  exists k' a', write_log_body tail k e = Done tt k' e
    /\ io_step p k a k' a' [(s + Z.of_nat tail + 1, a_blk a b)].
Proof.
  intros Q C Hh L Hb Hd Hsz. pose proof (lookup_lt_Some _ _ _ Hb) as Ht.
  destruct (home_not_log k s bl tail b tail L Hb Ht) as [Hne _].
  destruct (g_home _ _ _ (lo_geo _ _ _ L) b) as [Hr _]; [by eapply list_elem_of_lookup_2|].
  destruct (bread_two k c p a (s + Z.of_nat tail + 1) b e) as (i & k1 & j & k2 & E1 & E2 & F1 & F2 & D2 & C2);
    try done; [by eapply logblock_range|by left|].
  destruct (copy_tail k2 c p _ b (s + Z.of_nat tail + 1) j i e (quiet_frame _ _ _ _ F2 Q) C2 Hne)
    as (k' & a' & E & C' & F & W & D & B & H & X); [by right|by left|].
  exists k', a'. split; [|by eapply io_step_copy].
  unfold write_log_body. run (logdev_done k s bl e L). run (logblock_done k s bl tail e L Ht). run E1.
  pose proof (log_ok_frame _ _ _ _ F1 L) as L1.
  run (logdev_done k1 s bl e L1). run (get_lh_block_done k1 s bl tail b e L1 Hb).
  rewrite (u32_block k s bl b L Hr). run E2. exact E.
Qed.

Lemma install_trans_body_ok k c p a s bl tail b e :
  quiet k c p -> cache_ok k p a -> a_held a = ∅ -> log_ok k s bl -> bl !! tail = Some b ->
  s + Z.of_nat tail + 1 ∉ a_dirty a -> (size (a_dirty a) < NBUF)%nat ->
  (b ∈ a_dirty a \/ (S (size (a_dirty a)) < NBUF)%nat) ->
  exists k' a', install_trans_body tail k e = Done tt k' e
    /\ io_step p k a k' a' [(b, a_blk a (s + Z.of_nat tail + 1))].
Proof.
  intros Q C Hh L Hb Hd Hsz Hsz'. pose proof (lookup_lt_Some _ _ _ Hb) as Ht.
  destruct (home_not_log k s bl tail b tail L Hb Ht) as [Hne _].
  destruct (g_home _ _ _ (lo_geo _ _ _ L) b) as [Hr _]; [by eapply list_elem_of_lookup_2|].
  destruct (bread_two k c p a (s + Z.of_nat tail + 1) b e) as (i & k1 & j & k2 & E1 & E2 & F1 & F2 & D2 & C2);
    try done; [by eapply logblock_range|].
  destruct (copy_tail k2 c p _ (s + Z.of_nat tail + 1) b i j e (quiet_frame _ _ _ _ F2 Q) C2 ltac:(done))
    as (k' & a' & E & C' & F & W & D & B & H & X); [by left|right; simpl|].
  { rewrite (clean_synced k p a) by (done || by rewrite Hh). unfold disk_block. by rewrite (proj1 D2). }
  exists k', a'. split; [|by eapply io_step_copy].
  unfold install_trans_body. run (logdev_done k s bl e L). run (logblock_done k s bl tail e L Ht). run E1.
  pose proof (log_ok_frame _ _ _ _ F1 L) as L1.
  run (logdev_done k1 s bl e L1). run (get_lh_block_done k1 s bl tail b e L1 Hb).
  rewrite (u32_block k s bl b L Hr). run E2. exact E.
Qed.

(** ** The loops *)

(** The writes of [write_log] and of [install_trans]. *)
Definition log_writes (s : Z) (bl : list Z) (f : Z -> list Z) : list write :=
  imap (fun i b => (s + Z.of_nat i + 1, f b)) bl.
Definition home_writes (s : Z) (bl : list Z) (f : Z -> list Z) : list write :=
  imap (fun i b => (b, f (s + Z.of_nat i + 1))) bl.

Lemma imap_seq {B} (f : nat -> Z -> B) (bl : list Z) :
  imap f bl = (fun i => f i (bl !!! i)) <$> seq 0 (length bl).
Proof.
  apply list_eq. intros i. rewrite list_lookup_imap, list_lookup_fmap.
  destruct (decide (i < length bl)%nat) as [H|H].
  - rewrite lookup_seq_lt by done. simpl. destruct (lookup_lt_is_Some_2 _ _ H) as [b E].
    by rewrite E, (list_lookup_total_correct _ _ _ E).
  - rewrite (lookup_ge_None_2 bl i) by lia. rewrite (lookup_ge_None_2 (seq 0 _) i); [done|].
    rewrite length_seq. lia.
Qed.

Lemma lookup_total_bl (bl : list Z) i : (i < length bl)%nat -> bl !! i = Some (bl !!! i).
Proof. intros H. by apply list_lookup_lookup_total_lt. Qed.

Lemma io_step_at_rest p k a k' a' W c :
  io_step p k a k' a' W -> quiet k c p -> quiet k' c p.
Proof. intros S. by apply quiet_frame, S. Qed.

Lemma size_dirty_le p k a k' a' W : io_step p k a k' a' W -> (size (a_dirty a') <= size (a_dirty a))%nat.
Proof. intros S. rewrite (io_dirty _ _ _ _ _ _ S). apply subseteq_size. set_solver. Qed.

Lemma for_tail_done k s bl body e :
  log_ok k s bl -> for_tail body k e = for_each body (seq 0 (length bl)) k e.
Proof.
  intros L. unfold for_tail, log_n. c_simpl. by rewrite (lo_n _ _ _ L), Nat2Z.id.
Qed.

Lemma write_log_ok k c p a s bl e :
  quiet k c p -> cache_ok k p a -> a_held a = ∅ -> log_ok k s bl ->
  (forall b, b ∈ bl -> b ∈ a_dirty a) -> (size (a_dirty a) < NBUF)%nat ->
  exists k' a', write_log k e = Done tt k' e /\ io_step p k a k' a' (log_writes s bl (a_blk a)).
Proof.
  intros Q C Hh L Hd Hsz. unfold write_log, log_writes. rewrite (for_tail_done k s bl _ e L), imap_seq.
  apply for_each_io; [done..|]. intros i k1 a1 Hi S. set (b := bl !!! i).
  pose proof (lookup_total_bl bl i Hi) as Hb. fold b in Hb.
  pose proof (list_elem_of_lookup_2 _ _ _ Hb) as Hbl.
  assert (Hn : b ∉ ((fun i => (s + Z.of_nat i + 1, a_blk a (bl !!! i))) <$> seq 0 i).*1).
  { rewrite <- list_fmap_compose. intros (j & E & Hj%elem_of_seq)%list_elem_of_fmap. simpl in E.
    destruct (home_not_log k s bl i b j L Hb); [lia|done]. }
  destruct (write_log_body_ok k1 c p a1 s bl i b e) as (k2 & a2 & E2 & S2); try done.
  - by eapply io_step_at_rest.
  - apply S.
  - apply S.
  - eapply log_ok_frame; [apply S|done].
  - rewrite (io_dirty _ _ _ _ _ _ S). apply elem_of_difference. split; [by apply Hd|].
    by rewrite elem_of_list_to_set.
  - eapply Nat.le_lt_trans; [by eapply size_dirty_le|done].
  - exists k2, a2. split; [done|]. rewrite (io_blk _ _ _ _ _ _ S), blk_after_notin in S2; done.
Qed.

Lemma install_trans_ok k c p a s bl e :
  quiet k c p -> cache_ok k p a -> a_held a = ∅ -> log_ok k s bl ->
  (forall i, (i < length bl)%nat -> s + Z.of_nat i + 1 ∉ a_dirty a) -> (size (a_dirty a) < NBUF)%nat ->
  (a_dirty a = ∅ \/ forall b, b ∈ bl -> b ∈ a_dirty a) ->
  exists k' a', install_trans k e = Done tt k' e /\ io_step p k a k' a' (home_writes s bl (a_blk a)).
Proof.
  intros Q C Hh L Hd Hsz Hb. unfold install_trans, home_writes. rewrite (for_tail_done k s bl _ e L), imap_seq.
  apply for_each_io; [done..|]. intros i k1 a1 Hi S. set (b := bl !!! i).
  pose proof (lookup_total_bl bl i Hi) as Hbi. fold b in Hbi.
  pose proof (list_elem_of_lookup_2 _ _ _ Hbi) as Hbl.
  set (W := _ <$> seq 0 i) in S.
  assert (Hn : s + Z.of_nat i + 1 ∉ W.*1).
  { unfold W. rewrite <- list_fmap_compose. intros (j & E & Hj%elem_of_seq)%list_elem_of_fmap. simpl in E.
    destruct (home_not_log k s bl j (bl !!! j) i L); [apply lookup_total_bl; lia|lia|done]. }
  assert (Hn' : b ∉ W.*1).
  { unfold W. rewrite <- list_fmap_compose. intros (j & E & Hj%elem_of_seq)%list_elem_of_fmap. simpl in E.
    assert (Hjb : bl !! j = Some b) by (rewrite E; apply lookup_total_bl; lia).
    pose proof (NoDup_lookup _ _ _ _ (g_nodup _ _ _ (lo_geo _ _ _ L)) Hbi Hjb). lia. }
  pose proof (io_dirty _ _ _ _ _ _ S) as Ed. pose proof (size_dirty_le _ _ _ _ _ _ S) as Hle.
  destruct (install_trans_body_ok k1 c p a1 s bl i b e) as (k2 & a2 & E2 & S2); try done.
  - by eapply io_step_at_rest.
  - apply S.
  - apply S.
  - eapply log_ok_frame; [apply S|done].
  - rewrite Ed. apply not_elem_of_difference. left. by apply Hd.
  - lia.
  - destruct Hb as [Hb|Hb].
    + right. rewrite Hb, size_empty in Hle. unfold NBUF. lia.
    + left. rewrite Ed. apply elem_of_difference. split; [by apply Hb|]. by rewrite elem_of_list_to_set.
  - exists k2, a2. split; [done|]. rewrite (io_blk _ _ _ _ _ _ S), blk_after_notin in S2; done.
Qed.

(** ** The header *)

Fixpoint put_blocks (i : nat) (bl : list Z) (data : list Z) : list Z :=
  match bl with
  | [] => data
  | b :: bl => put_blocks (S i) bl (wr 4 (lh_off i) b data)
  end.

(** The header block that [write_head] makes of [data]. *)
Definition put_header (bl : list Z) (data : list Z) : list Z :=
  put_blocks 0 bl (wr 4 0 (Z.of_nat (length bl)) data).

Lemma length_put_blocks i bl data : length (put_blocks i bl data) = length data.
Proof. revert i data. induction bl; intros; simpl; [done|]. by rewrite IHbl, length_wr. Qed.

Lemma length_put_header bl data : length (put_header bl data) = length data.
Proof. unfold put_header. by rewrite length_put_blocks, length_wr. Qed.

Lemma rd_put_blocks i bl data off :
  (off + 4 <= lh_off i)%nat -> rd 4 off (put_blocks i bl data) = rd 4 off data.
Proof.
  revert i data. induction bl as [|b bl IH]; intros i data H; simpl; [done|].
  rewrite IH by (unfold lh_off in *; lia). apply rd_wr_out. lia.
Qed.

Lemma rd_put_blocks_in i bl data j b :
  bl !! j = Some b -> (lh_off (i + length bl) <= length data)%nat ->
  rd 4 (lh_off (i + j)) (put_blocks i bl data) = u32 b.
Proof.
  revert i j data. induction bl as [|b' bl IH]; intros i j data H Hl; simpl in *; [done|].
  destruct j as [|j]; simpl in H.
  - simplify_eq. rewrite Nat.add_0_r, rd_put_blocks by (unfold lh_off; lia).
    apply rd32_wr32. unfold lh_off in *. lia.
  - replace (i + S j)%nat with (S i + j)%nat by lia. apply IH; [done|].
    rewrite length_wr. unfold lh_off in *. lia.
Qed.

(** [read_head] reads what [write_head] wrote. *)
Lemma header_n_put bl data :
  (length bl <= LOGSIZE)%nat -> length data = BSIZE -> header_n (put_header bl data) = Z.of_nat (length bl).
Proof.
  intros H Hl. unfold header_n, put_header. rewrite rd_put_blocks by (unfold lh_off; lia).
  rewrite rd32_wr32 by (rewrite Hl; unfold BSIZE; lia). unfold LOGSIZE in H.
  rewrite u32_small by lia. apply s32_small. lia.
Qed.

Lemma header_block_put bl data i b :
  (length bl <= LOGSIZE)%nat -> length data = BSIZE -> bl !! i = Some b -> 0 <= b < 2 ^ 31 ->
  header_block (put_header bl data) i = b.
Proof.
  intros H Hl Hb Hr. unfold header_block, put_header.
  rewrite (rd_put_blocks_in 0 bl _ i b Hb).
  - rewrite u32_small by lia. apply s32_small. lia.
  - rewrite length_wr, Hl. unfold lh_off, LOGSIZE, BSIZE in *. lia.
Qed.

Lemma set_b_data_id b : set_b_data (b_data b) b = b.
Proof. by destruct b. Qed.

Lemma write_head_loop s bl j e bl' : forall i k,
  log_ok k s bl -> drop i bl = bl' -> (j < length (k_buf k))%nat ->
  for_each (fun i => v <- get_lh_block i;;
      modify (upd_buf j (fun b => set_b_data (wr 4 (lh_off i) v (b_data b)) b))) (seq i (length bl')) k e
  = Done tt (upd_buf j (set_b_data (put_blocks i bl' (b_data (buf_at k j)))) k) e.
Proof.
  induction bl' as [|b bl' IH]; intros i k L Hd Hj; simpl.
  { unfold ret. f_equal. by rewrite upd_put, set_b_data_id, put_id. }
  assert (Hb : bl !! i = Some b) by (rewrite <- (Nat.add_0_r i), <- lookup_drop, Hd; done).
  rewrite bind_assoc. run (get_lh_block_done k s bl i b e L Hb). c_simpl.
  rewrite IH.
  - f_equal. rewrite !upd_put, put_put, !buf_at_put by done. done.
  - by apply (log_ok_frame k).
  - replace (S i) with (i + 1)%nat by lia. rewrite <- drop_drop, Hd. done.
  - unfold upd_buf. simpl. by rewrite length_alter.
Qed.

Lemma write_head_ok k c p a s bl e :
  quiet k c p -> cache_ok k p a -> a_held a = ∅ -> log_ok k s bl ->
  s ∉ a_dirty a -> (size (a_dirty a) < NBUF)%nat ->
  exists k' a', write_head k e = Done tt k' e /\ io_step p k a k' a' [(s, put_header bl (a_blk a s))].
Proof.
  intros Q C Hh L Hd Hsz. destruct (lo_geo _ _ _ L) as [_ G1 G2 G3 G4 G5].
  assert (Hr : in_range k s) by (unfold in_range; lia).
  destruct (bread_ok k c p a s e Q C Hr) as (j & k1 & E1 & C1 & F1 & D1 & W1).
  { by rewrite Hh. }
  { right. by rewrite Hh, dom_empty_L, union_empty_l_L. }
  assert (Hj : a_held (hold s j a) !! s = Some j) by (simpl; by simplify_map_eq).
  pose proof (held_facts _ _ _ _ _ C1 Hj) as (Hjb & _ & _ & _ & _ & _ & _ & Hdat & Hlen).
  destruct (co_linked _ _ _ C1) as [l Lk]. pose proof (ln_length _ _ Lk) as Hl.
  pose proof (log_ok_frame _ _ _ _ F1 L) as L1.
  set (v := put_header bl (a_blk a s)).
  assert (Hv : length v = BSIZE) by (unfold v; by rewrite length_put_header).
  pose proof (cache_ok_store k1 p _ s j v C1 Hj Hv) as C2. set (k2 := upd_buf j _ k1) in *.
  assert (Q2 : quiet k2 c p) by (apply (quiet_ext k1); try done; by eapply quiet_frame).
  destruct (bwrite_ok k2 c p _ s j e Q2 C2 Hj) as (k3 & E3 & C3 & F3 & D3 & W3).
  simpl a_blk in D3, W3. rewrite decide_True in D3, W3 by done.
  destruct (brelse_ok k3 c p _ s j e (quiet_frame _ _ _ _ F3 Q2) C3 Hj) as (k4 & E4 & C4 & F4 & D4 & W4).
  { right. simpl. rewrite decide_True by done. unfold disk_block. by rewrite D3, lookup_insert_eq. }
  exists k4. eexists. split.
  - unfold write_head. run (logdev_done k s bl e L). c_simpl.
    rewrite (lo_start _ _ _ L), (u32_block k s bl s L) by lia. run E1. unfold log_n. c_simpl.
    set (k1' := upd_buf j _ k1). assert (L1' : log_ok k1' s bl) by (by apply (log_ok_frame k1)).
    rewrite (bind_done _ _ _ _ _ _ _ (eq_trans (for_tail_done k1' s bl _ e L1')
      (write_head_loop s bl j e bl 0 k1' L1' eq_refl ltac:(unfold k1', upd_buf; simpl; rewrite length_alter; lia)))).
    assert (E : upd_buf j (set_b_data (put_blocks 0 bl (b_data (buf_at k1' j)))) k1' = k2).
    { unfold k1', k2. rewrite !upd_put, put_put, !buf_at_put by lia. unfold v, put_header.
      simpl. by rewrite (lo_n _ _ _ L1), Hdat. }
    rewrite E. run E3. exact E4.
  - split; [exact C4| | | | | |].
    + exact (bio_frame_trans _ _ _ F1 (bio_frame_trans k1 k3 k4 F3 F4)).
    + rewrite W4, W3. change (k_writes k2) with (k_writes k1). by rewrite W1.
    + simpl. rewrite D4, D3. change (k_disk k2) with (k_disk k1). by rewrite D1.
    + done.
    + simpl. rewrite Hh. by rewrite delete_insert_id by done.
    + simpl. set_solver.
Qed.

(** ** Reading the header *)

Fixpoint store_from (i : nat) (vs l : list Z) : list Z :=
  match vs with
  | [] => l
  | v :: vs => store_from (S i) vs (<[i := v]> l)
  end.

Lemma length_store_from i vs l : length (store_from i vs l) = length l.
Proof. revert i l. induction vs; intros; simpl; [done|]. by rewrite IHvs, length_insert. Qed.

Lemma lookup_store_from_lt i vs l j : (j < i)%nat -> store_from i vs l !! j = l !! j.
Proof.
  revert i l. induction vs as [|v vs IH]; intros i l H; simpl; [done|].
  rewrite IH by lia. apply list_lookup_insert_ne. lia.
Qed.

Lemma lookup_store_from i vs l j v :
  vs !! j = Some v -> (i + length vs <= length l)%nat -> store_from i vs l !! (i + j)%nat = Some v.
Proof.
  revert i l j. induction vs as [|v' vs IH]; intros i l j H Hl; simpl in *; [done|].
  destruct j as [|j]; simpl in H.
  - simplify_eq. rewrite Nat.add_0_r, lookup_store_from_lt by lia. apply list_lookup_insert_eq. lia.
  - replace (i + S j)%nat with (S i + j)%nat by lia. apply IH; [done|]. rewrite length_insert. lia.
Qed.

(** The in-memory header after [read_head]. *)
Definition loaded (data : list Z) (l : log_t) : log_t :=
  set_lh_block (store_from 0 (header_block data <$> seq 0 (Z.to_nat (header_n data))) (lh_block l))
    (set_lh_n (header_n data) l).

Lemma read_head_loop data j e m : forall i k,
  b_data (buf_at k j) = data -> (i + m <= LOGSIZE)%nat ->
  for_each (fun i => v <- gets (fun k => header_block (b_data (buf_at k j)) i);; put_lh_block i v)
    (seq i m) k e
  = Done tt (upd_log (fun l => set_lh_block (store_from i (header_block data <$> seq i m) (lh_block l)) l) k) e.
Proof.
  induction m as [|m IH]; intros i k Hd Hm; simpl.
  { unfold ret. f_equal. destruct k as []. unfold upd_log. simpl. by destruct k_log. }
  rewrite bind_assoc. c_simpl. unfold put_lh_block. rewrite (proj2 (Nat.ltb_lt _ _)) by lia.
  c_simpl. rewrite IH by (done || lia). rewrite Hd. done.
Qed.

(** The header of the disk lists the home blocks [bl]. *)
Record header_ok (ds s : Z) (data : list Z) (bl : list Z) : Prop := {
  ho_n : header_n data = Z.of_nat (length bl);
  ho_block : forall i b, bl !! i = Some b -> header_block data i = b;
  ho_geo : geometry ds s bl
}.

Record log_at (k : kstate) (s : Z) : Prop := {
  la_dev : log_dev (k_log k) = 1;
  la_start : log_start (k_log k) = s;
  la_length : length (lh_block (k_log k)) = LOGSIZE
}.

Lemma loaded_ok k k' s data bl :
  log_at k s -> header_ok (k_disksize k) s data bl -> k_log k' = loaded data (k_log k) ->
  k_disksize k' = k_disksize k -> log_ok k' s bl.
Proof.
  intros [A1 A2 A3] [H1 H2 H3] E E'. split; rewrite ?E, ?E'; try done.
  - intros i b Hb. simpl. rewrite H1, Nat2Z.id.
    apply (lookup_store_from 0 _ _ i b).
    + pose proof (lookup_lt_Some _ _ _ Hb). rewrite list_lookup_fmap, lookup_seq_lt by done. simpl.
      by rewrite (H2 i b Hb).
    + rewrite length_fmap, length_seq. pose proof (g_cap _ _ _ H3). lia.
  - simpl. by rewrite length_store_from.
Qed.

Lemma cache_ok_ext k k' p a :
  k_buf k' = k_buf k -> k_disk k' = k_disk k -> k_disksize k' = k_disksize k -> k_proc k' = k_proc k ->
  cache_ok k p a -> cache_ok k' p a.
Proof.
  intros E1 E2 E3 E4 C. assert (Hb : forall i, buf_at k' i = buf_at k i)
    by (intros; unfold buf_at; by rewrite E1).
  apply (cache_ok_payload k); try done; [|intros j; by rewrite Hb].
  destruct (co_linked _ _ _ C) as [l [A B D]]. exists l. split; [by rewrite E1| |done].
  revert B. apply ring_fn_ext; intros i; unfold nx, pv; by rewrite Hb.
Qed.

Lemma read_head_ok k c p a s bl e :
  quiet k c p -> cache_ok k p a -> a_held a = ∅ -> a_dirty a = ∅ -> log_at k s ->
  header_ok (k_disksize k) s (a_blk a s) bl ->
  exists k', read_head k e = Done tt k' e /\ quiet k' c p /\ cache_ok k' p a /\ log_ok k' s bl
    /\ same_disk k k' /\ k_disksize k' = k_disksize k.
Proof.
  intros Q C Hh Hd A H. destruct (ho_geo _ _ _ _ H) as [_ G1 G2 G3 G4 G5].
  assert (Hr : in_range k s) by (unfold in_range; lia).
  destruct (bread_ok k c p a s e Q C Hr) as (j & k1 & E1 & C1 & F1 & D1 & W1).
  { by rewrite Hh. }
  { right. rewrite Hh, Hd, dom_empty_L, union_empty_l_L, size_empty. unfold NBUF. lia. }
  assert (Hj : a_held (hold s j a) !! s = Some j) by (simpl; by simplify_map_eq).
  pose proof (held_facts _ _ _ _ _ C1 Hj) as (_ & _ & _ & _ & _ & _ & _ & Hdat & _).
  simpl in Hdat. set (data := a_blk a s) in *.
  set (k2 := upd_log (loaded data) k1).
  assert (Q2 : quiet k2 c p) by (apply (quiet_ext k1); try done; by eapply quiet_frame).
  assert (C2 : cache_ok k2 p (hold s j a)) by (by apply (cache_ok_ext k1)).
  destruct (brelse_ok k2 c p _ s j e Q2 C2 Hj) as (k3 & E3 & C3 & F3 & D3 & W3).
  { right. simpl. change (disk_block k2 s) with (disk_block k1 s). unfold disk_block. rewrite D1.
    apply (clean_synced k p a s C); [rewrite Hd; set_solver|by rewrite Hh]. }
  assert (Sz : k_disksize k3 = k_disksize k).
  { rewrite (bio_frame_field k_disksize _ _ ltac:(done) F3).
    exact (bio_frame_field k_disksize _ _ ltac:(done) F1). }
  exists k3. split; [|split_and!].
  - unfold read_head, logdev. c_simpl. rewrite (la_dev _ _ A), (la_start _ _ A).
    change (u32 1) with 1. rewrite (u32_small s) by (pose proof (u32_bounds (k_disksize k)); lia).
    run E1. c_simpl. rewrite Hdat. unfold for_tail at 1, log_n. rewrite bind_assoc. c_simpl.
    change (lh_n (k_log (upd_log (set_lh_n (header_n data)) k1))) with (header_n data).
    rewrite (bind_done _ _ _ _ _ _ _ (read_head_loop data j e (Z.to_nat (header_n data)) 0
      (upd_log (set_lh_n (header_n data)) k1) ltac:(done) ltac:(rewrite (ho_n _ _ _ _ H); lia))).
    exact E3.
  - by eapply quiet_frame.
  - revert C3. unfold unhold, hold, set_a_held. simpl. rewrite delete_insert_id by (by rewrite Hh).
    by destruct a.
  - eapply (loaded_ok k); [done|done| |done]. rewrite (bio_frame_field k_log _ _ ltac:(done) F3).
    unfold k2, upd_log. simpl. by rewrite (bio_frame_field k_log _ _ ltac:(done) F1).
  - split; [by rewrite D3|by rewrite W3].
  - done.
Qed.
