(* ===== verification/Crash.v ===== *)
(** * The log makes a transaction atomic with respect to crashes

    A crash keeps a prefix of the block writes issued so far and loses
    everything in memory.  [commit_atomic]: whatever prefix of the writes of
    [commit] reached the disk, [recover_from_log] after the reboot leaves the
    file system's blocks all as before the transaction or all as after it. *)

From stdpp Require Import base gmap list strings sets.
From Stdlib Require Import ZArith Lia.
From S2P Require Import Prelude State Bytes Spinlock Sched Bio Cache Log LogSpec.

(** ** [recover_from_log] *)

Definition recovery_writes (s : Z) (bl : list Z) (f : Z -> list Z) : list write :=
  home_writes s bl f ++ [(s, put_header [] (f s))].

Lemma fst_home_writes s bl f : (home_writes s bl f).*1 = bl.
Proof.
  unfold home_writes. rewrite fmap_imap. apply list_eq. intros i. rewrite list_lookup_imap.
  by destruct (bl !! i).
Qed.

Lemma fst_log_writes_in s bl f m :
  m ∈ (log_writes s bl f).*1 -> exists i, (i < length bl)%nat /\ m = s + Z.of_nat i + 1.
Proof.
  unfold log_writes. rewrite fmap_imap. intros (i & Hi)%list_elem_of_lookup_1.
  rewrite list_lookup_imap in Hi. destruct (bl !! i) as [b|] eqn:E; [|done].
  exists i. split; [by eapply lookup_lt_Some|]. simpl in Hi. by simplify_eq.
Qed.

Lemma geometry_nil ds s bl : geometry ds s bl -> geometry ds s [].
Proof. intros [H0 H1 H2 H3 H4 H5]. split; simpl; try done; [lia|unfold LOGSIZE; lia|apply NoDup_nil_2|set_solver]. Qed.

Lemma home_not_header ds s bl : geometry ds s bl -> s ∉ bl.
Proof. intros G Hs. destruct (g_home _ _ _ G s Hs) as [_ H]. apply H. unfold in_log, LOGSIZE. lia. Qed.

Lemma log_ok_cleared k k' s bl :
  log_ok k s bl -> k_log k' = set_lh_n 0 (k_log k) -> k_disksize k' = k_disksize k -> log_ok k' s [].
Proof.
  intros [L1 L2 L3 L4 L5 L6] E E'. split; rewrite ?E, ?E'; try done. by eapply geometry_nil.
Qed.

Lemma bio_frame_log f k k' : bio_frame k k' -> bio_frame (upd_log f k) (upd_log f k').
Proof.
  unfold bio_frame. intros E. change (upd_log f (strip k') = upd_log f (strip k)). by rewrite E.
Qed.

(** [log.lh.n = 0; write_head()], at the end of a commit and of a recovery. *)
Lemma clear_head_ok k c p a s bl e :
  quiet k c p -> cache_ok k p a -> a_held a = ∅ -> log_ok k s bl ->
  s ∉ a_dirty a -> (size (a_dirty a) < NBUF)%nat ->
  exists k' a', (modify (upd_log (set_lh_n 0));; write_head) k e = Done tt k' e
    /\ io_step p (upd_log (set_lh_n 0) k) a k' a' [(s, put_header [] (a_blk a s))]
    /\ log_ok k' s [].
Proof.
  intros Q C Hh L Hs Hsz. set (k1 := upd_log (set_lh_n 0) k).
  assert (L1 : log_ok k1 s []) by (by eapply log_ok_cleared).
  destruct (write_head_ok k1 c p a s [] e) as (k2 & a2 & E2 & S2); try done.
  - by apply (quiet_ext k).
  - by apply (cache_ok_ext k).
  - exists k2, a2. c_simpl. split; [exact E2|]. split; [done|]. eapply log_ok_frame; [apply S2|done].
Qed.

Lemma recover_ok k c p a s bl e :
  quiet k c p -> cache_ok k p a -> a_held a = ∅ -> a_dirty a = ∅ -> log_at k s ->
  header_ok (k_disksize k) s (a_blk a s) bl ->
  exists k' a', recover_from_log k e = Done tt k' e /\ cache_ok k' p a'
    /\ a_held a' = ∅ /\ a_dirty a' = ∅ /\ log_ok k' s []
    /\ k_writes k' = k_writes k ++ recovery_writes s bl (a_blk a)
    /\ k_disk k' = apply_writes (recovery_writes s bl (a_blk a)) (k_disk k).
Proof.
  intros Q C Hh Hd A H.
  destruct (read_head_ok k c p a s bl e Q C Hh Hd A H) as (k1 & E1 & Q1 & C1 & L1 & [D1 W1] & Sz1).
  destruct (install_trans_ok k1 c p a s bl e Q1 C1 Hh L1) as (k2 & a2 & E2 & S2).
  { intros i _. rewrite Hd. set_solver. }
  { rewrite Hd, size_empty. unfold NBUF. lia. }
  { by left. }
  assert (Hd2 : a_dirty a2 = ∅) by (rewrite (io_dirty _ _ _ _ _ _ S2), Hd; set_solver).
  pose proof (log_ok_frame _ _ _ _ (io_frame _ _ _ _ _ _ S2) L1) as L2.
  destruct (clear_head_ok k2 c p a2 s bl e) as (k3 & a3 & E3 & S3 & L3); try done.
  - by eapply io_step_at_rest.
  - apply S2.
  - apply S2.
  - rewrite Hd2. set_solver.
  - rewrite Hd2, size_empty. unfold NBUF. lia.
  - assert (Hs : a_blk a2 s = a_blk a s).
    { rewrite (io_blk _ _ _ _ _ _ S2). apply blk_after_notin. rewrite fst_home_writes.
      by eapply home_not_header, L1. }
    exists k3, a3. split; [unfold recover_from_log; run E1; run E2; exact E3|].
    split; [apply S3|]. split; [apply S3|].
    split; [rewrite (io_dirty _ _ _ _ _ _ S3), Hd2; set_solver|]. split; [done|].
    unfold recovery_writes. rewrite <- Hs. split.
    + rewrite (io_writes _ _ _ _ _ _ S3). change (k_writes (upd_log _ k2)) with (k_writes k2).
      by rewrite (io_writes _ _ _ _ _ _ S2), W1, app_assoc.
    + rewrite (io_disk _ _ _ _ _ _ S3). change (k_disk (upd_log _ k2)) with (k_disk k2).
      by rewrite (io_disk _ _ _ _ _ _ S2), D1, apply_writes_app.
Qed.

(** ** [commit] *)

Definition commit_writes (s : Z) (bl : list Z) (f : Z -> list Z) : list write :=
  log_writes s bl f ++ [(s, put_header bl (f s))]
  ++ imap (fun _ b => (b, f b)) bl ++ [(s, put_header [] (put_header bl (f s)))].

Lemma NoDup_log_writes s bl f : NoDup (log_writes s bl f).*1.
Proof.
  unfold log_writes. rewrite fmap_imap. apply NoDup_alt. intros i j x Hi Hj.
  rewrite list_lookup_imap in Hi, Hj. destruct (bl !! i), (bl !! j); simplify_eq/=. lia.
Qed.

Lemma log_writes_lookup s bl f i b :
  bl !! i = Some b -> (s + Z.of_nat i + 1, f b) ∈ log_writes s bl f.
Proof.
  intros H. apply list_elem_of_lookup_2 with i. unfold log_writes. by rewrite list_lookup_imap, H.
Qed.

(** The log blocks hold the new contents when the home blocks are written. *)
Lemma home_writes_after s bl f h :
  home_writes s bl (blk_after (log_writes s bl f ++ [(s, h)]) f) = imap (fun _ b => (b, f b)) bl.
Proof.
  unfold home_writes. apply imap_ext. intros i b Hb. f_equal. rewrite blk_after_app. simpl.
  rewrite decide_False by lia. apply blk_after_in; [apply NoDup_log_writes|by apply log_writes_lookup].
Qed.

(** What a transaction ready to commit looks like: every logged block is pinned
    in the cache, and nothing else is. *)
Record ready (k : kstate) (p : nat) (a : cache) (s : Z) (bl : list Z) : Prop := {
  rd_ok : cache_ok k p a;
  rd_held : a_held a = ∅;
  rd_log : log_ok k s bl;
  rd_dirty : a_dirty a = list_to_set bl
}.

Lemma ready_size k p a s bl : ready k p a s bl -> (size (a_dirty a) < NBUF)%nat.
Proof.
  intros R. rewrite (rd_dirty _ _ _ _ _ R), size_list_to_set by apply (lo_geo _ _ _ (rd_log _ _ _ _ _ R)).
  apply (lo_geo _ _ _ (rd_log _ _ _ _ _ R)).
Qed.

Lemma ready_not_log k p a s bl m : ready k p a s bl -> in_log s m -> m ∉ a_dirty a.
Proof.
  intros R Hm. rewrite (rd_dirty _ _ _ _ _ R), elem_of_list_to_set. intros Hb.
  by destruct (g_home _ _ _ (lo_geo _ _ _ (rd_log _ _ _ _ _ R)) _ Hb).
Qed.

Lemma in_log_block ds s bl i : geometry ds s bl -> (i < length bl)%nat -> in_log s (s + Z.of_nat i + 1).
Proof. intros G Hi. unfold in_log. pose proof (g_cap _ _ _ G). lia. Qed.

Lemma in_log_start s : in_log s s.
Proof. unfold in_log, LOGSIZE. lia. Qed.

(** First half: the log and its header are written; the cache is unchanged
    outside the log. *)
Lemma commit_log k c p a s bl e :
  quiet k c p -> ready k p a s bl ->
  exists k' a', (write_log;; write_head) k e = Done tt k' e
    /\ io_step p k a k' a' (log_writes s bl (a_blk a) ++ [(s, put_header bl (a_blk a s))])
    /\ a_dirty a' = a_dirty a.
Proof.
  intros Q R. pose proof R as [C Hh L Hd]. pose proof (lo_geo _ _ _ L) as G.
  pose proof (ready_size _ _ _ _ _ R) as Hsz.
  destruct (write_log_ok k c p a s bl e Q C Hh L) as (k1 & a1 & E1 & S1); [|done|].
  { intros b Hb. rewrite Hd. by apply elem_of_list_to_set. }
  assert (Hd1 : a_dirty a1 = a_dirty a).
  { rewrite (io_dirty _ _ _ _ _ _ S1). apply set_eq. intros m.
    rewrite elem_of_difference, elem_of_list_to_set. split; [tauto|]. intros Hm. split; [done|].
    intros (i & Hi & ->)%fst_log_writes_in. revert Hm. eapply ready_not_log; [done|by eapply in_log_block]. }
  destruct (write_head_ok k1 c p a1 s bl e) as (k2 & a2 & E2 & S2); rewrite ?Hd1; try done.
  - by eapply io_step_at_rest.
  - apply S1.
  - apply S1.
  - eapply log_ok_frame; [apply S1|done].
  - eapply ready_not_log; [done|apply in_log_start].
  - exists k2, a2. split; [run E1; exact E2|].
    assert (Hh1 : a_blk a1 s = a_blk a s).
    { rewrite (io_blk _ _ _ _ _ _ S1). apply blk_after_notin. intros (i & _ & Hi)%fst_log_writes_in. lia. }
    rewrite Hh1 in S2. split; [by eapply io_step_trans|].
    rewrite (io_dirty _ _ _ _ _ _ S2), Hd1. simpl.
    pose proof (ready_not_log _ _ _ _ _ s R (in_log_start s)). set_solver.
Qed.

(** Second half: the home blocks are written and the header is cleared. *)
Lemma commit_home k c p a s bl e :
  quiet k c p -> ready k p a s bl ->
  exists k' a', (install_trans;; modify (upd_log (set_lh_n 0));; write_head) k e = Done tt k' e
    /\ cache_ok k' p a' /\ a_held a' = ∅ /\ a_dirty a' = ∅ /\ log_ok k' s []
    /\ bio_frame (upd_log (set_lh_n 0) k) k'
    /\ let W := home_writes s bl (a_blk a) ++ [(s, put_header [] (a_blk a s))] in
       k_writes k' = k_writes k ++ W /\ k_disk k' = apply_writes W (k_disk k).
Proof.
  intros Q R. pose proof R as [C Hh L Hd]. pose proof (lo_geo _ _ _ L) as G.
  destruct (install_trans_ok k c p a s bl e Q C Hh L) as (k1 & a1 & E1 & S1).
  { intros i Hi. eapply ready_not_log; [done|by eapply in_log_block]. }
  { by eapply ready_size. }
  { right. intros b Hb. rewrite Hd. by apply elem_of_list_to_set. }
  assert (Hd1 : a_dirty a1 = ∅).
  { rewrite (io_dirty _ _ _ _ _ _ S1), fst_home_writes, Hd. set_solver. }
  assert (Hs1 : a_blk a1 s = a_blk a s).
  { rewrite (io_blk _ _ _ _ _ _ S1). apply blk_after_notin. rewrite fst_home_writes.
    by eapply home_not_header. }
  destruct (clear_head_ok k1 c p a1 s bl e) as (k2 & a2 & E2 & S2 & L2); rewrite ?Hd1; try done.
  - by eapply io_step_at_rest.
  - apply S1.
  - apply S1.
  - eapply log_ok_frame; [apply S1|done].
  - rewrite size_empty. unfold NBUF. lia.
  - exists k2, a2. split; [run E1; exact E2|]. split; [apply S2|]. split; [apply S2|].
    split; [rewrite (io_dirty _ _ _ _ _ _ S2), Hd1; set_solver|]. split; [done|].
    split; [exact (bio_frame_trans _ _ _ (bio_frame_log _ _ _ (io_frame _ _ _ _ _ _ S1)) (io_frame _ _ _ _ _ _ S2))|].
    simpl.
    rewrite (io_writes _ _ _ _ _ _ S2), (io_disk _ _ _ _ _ _ S2), Hs1.
    change (k_writes (upd_log _ k1)) with (k_writes k1). change (k_disk (upd_log _ k1)) with (k_disk k1).
    by rewrite (io_writes _ _ _ _ _ _ S1), (io_disk _ _ _ _ _ _ S1), apply_writes_app, app_assoc.
Qed.

Lemma commit_done k c p a s bl e :
  quiet k c p -> ready k p a s bl -> bl <> [] ->
  exists k' a', commit k e = Done tt k' e /\ cache_ok k' p a' /\ a_held a' = ∅ /\ a_dirty a' = ∅
    /\ log_ok k' s [] /\ bio_frame (upd_log (set_lh_n 0) k) k' /\ k_writes k' = k_writes k ++ commit_writes s bl (a_blk a)
    /\ k_disk k' = apply_writes (commit_writes s bl (a_blk a)) (k_disk k).
Proof.
  intros Q R Hne. destruct (commit_log k c p a s bl e Q R) as (k1 & a1 & E1 & S1 & Hd1).
  assert (R1 : ready k1 p a1 s bl).
  { split; [apply S1|apply S1| |by rewrite Hd1; apply R]. eapply log_ok_frame; [apply S1|apply R]. }
  destruct (commit_home k1 c p a1 s bl e) as (k2 & a2 & E2 & C2 & H2 & D2 & L2 & F2 & W2 & K2);
    [by eapply io_step_at_rest|done|].
  exists k2, a2. split.
  { unfold commit, log_n. c_simpl. rewrite (lo_n _ _ _ (rd_log _ _ _ _ _ R)).
    replace (0 <? _) with true by (destruct bl; simpl; [done|symmetry; apply Z.ltb_lt; lia]).
    cbn [when]. rewrite <- bind_assoc. by run E1. }
  do 4 (split; [done|]).
  split; [exact (bio_frame_trans _ _ _ (bio_frame_log _ _ _ (io_frame _ _ _ _ _ _ S1)) F2)|].
  assert (EW : home_writes s bl (a_blk a1) = imap (fun _ b => (b, a_blk a b)) bl).
  { rewrite <- (home_writes_after s bl (a_blk a) (put_header bl (a_blk a s))).
    unfold home_writes. apply imap_ext. intros i b _. by rewrite (io_blk _ _ _ _ _ _ S1). }
  assert (Es : a_blk a1 s = put_header bl (a_blk a s)).
  { rewrite (io_blk _ _ _ _ _ _ S1), blk_after_app. simpl. by rewrite decide_True. }
  rewrite EW, Es in W2, K2. unfold commit_writes.
  rewrite W2, K2, (io_writes _ _ _ _ _ _ S1), (io_disk _ _ _ _ _ _ S1), <- apply_writes_app.
  by rewrite <- !app_assoc.
Qed.

(** ** Crashes *)

(** The machine after a reboot with disk [d]: an empty cache, and a log whose
    place has been read from the super block. *)
Definition fresh_cache (d : gmap Z (list Z)) : cache := mk_cache (dblk d) ∅ ∅.

Record booted (k : kstate) (c p : nat) (d : gmap Z (list Z)) (s : Z) : Prop := {
  bt_quiet : quiet k c p;
  bt_disk : k_disk k = d;
  bt_cache : cache_ok k p (fresh_cache d);
  bt_log : log_at k s
}.

(** Recovery as a function on disks. *)
Definition recovered (s : Z) (bl : list Z) (d : gmap Z (list Z)) : gmap Z (list Z) :=
  apply_writes (recovery_writes s bl (dblk d)) d.

Lemma recover_booted k c p d s bl e :
  booted k c p d s -> header_ok (k_disksize k) s (dblk d s) bl ->
  exists k', recover_from_log k e = Done tt k' e /\ k_disk k' = recovered s bl d.
Proof.
  intros [Q E C L] H. destruct (recover_ok k c p _ s bl e Q C ltac:(done) ltac:(done) L H)
    as (k' & a' & E' & _ & _ & _ & _ & _ & D). exists k'. split; [done|]. by rewrite D, E.
Qed.

Lemma recovered_blk s bl d m :
  ~ in_log s m -> dblk (recovered s bl d) m = blk_after (home_writes s bl (dblk d)) (dblk d) m.
Proof.
  intros Hm. unfold recovered, recovery_writes. rewrite dblk_apply, blk_after_app. simpl.
  rewrite decide_False; [done|]. intros ->. apply Hm, in_log_start.
Qed.

Lemma recovered_home s bl d i b :
  NoDup bl -> bl !! i = Some b -> ~ in_log s b -> dblk (recovered s bl d) b = dblk d (s + Z.of_nat i + 1).
Proof.
  intros Hn Hb Hl. rewrite recovered_blk by done. apply blk_after_in; [by rewrite fst_home_writes|].
  apply list_elem_of_lookup_2 with i. unfold home_writes. by rewrite list_lookup_imap, Hb.
Qed.

Lemma recovered_other s bl d m : ~ in_log s m -> m ∉ bl -> dblk (recovered s bl d) m = dblk d m.
Proof. intros. rewrite recovered_blk by done. apply blk_after_notin. by rewrite fst_home_writes. Qed.

(** A header that lists nothing, and one that [write_head] wrote. *)
Lemma header_ok_nil ds s bl data : geometry ds s bl -> header_n data = 0 -> header_ok ds s data [].
Proof. intros G H. split; [done|done|by eapply geometry_nil]. Qed.

Lemma header_ok_put ds s bl data :
  geometry ds s bl -> length data = BSIZE -> header_ok ds s (put_header bl data) bl.
Proof.
  intros G Hl. pose proof (g_cap _ _ _ G). split; [apply header_n_put; [lia|done]| |done].
  intros i b Hb. apply header_block_put; [lia|done|done|].
  destruct (g_home _ _ _ G b) as [Hr _]; [by eapply list_elem_of_lookup_2|].
  pose proof (g_size _ _ _ G). lia.
Qed.

Section CrashPoints.
Context (ds s : Z) (bl : list Z) (d : gmap Z (list Z)) (f : Z -> list Z).
Hypothesis G : geometry ds s bl.
Hypothesis f_length : forall m, length (f m) = BSIZE.
(** Before the commit the disk's header is empty and the disk is up to date
    except for the blocks of the transaction. *)
Hypothesis header_empty : header_n (dblk d s) = 0.
Hypothesis f_clean : forall m, m ∉ bl -> f m = dblk d m.

Let A := log_writes s bl f.
Let h := put_header bl (f s).
Let B := imap (fun _ b => (b, f b)) bl.

Lemma log_writes_in_log m W : W ⊆ A -> m ∈ W.*1 -> in_log s m /\ m <> s.
Proof.
  intros HW (w & -> & Hw)%list_elem_of_fmap. destruct (fst_log_writes_in s bl f w.1) as (i & Hi & E).
  { apply list_elem_of_fmap_2. by apply HW. }
  rewrite E. split; [by eapply in_log_block|lia].
Qed.

(** A crash before the header was written. *)
Lemma crash_before P X :
  A = P ++ X ->
  header_ok ds s (dblk (apply_writes P d) s) []
  /\ forall m, ~ in_log s m -> dblk (recovered s [] (apply_writes P d)) m = dblk d m.
Proof.
  intros E. assert (HP : P ⊆ A) by (rewrite E; set_solver). split.
  - eapply header_ok_nil; [done|]. rewrite dblk_apply, blk_after_notin; [done|].
    intros Hs. by destruct (log_writes_in_log s P HP Hs).
  - intros m Hm. rewrite recovered_other by (done || set_solver).
    rewrite dblk_apply. apply blk_after_notin. intros Hp. by destruct (log_writes_in_log m P HP Hp).
Qed.

Lemma fst_B : B.*1 = bl.
Proof.
  unfold B. rewrite fmap_imap. apply list_eq. intros i. rewrite list_lookup_imap. by destruct (bl !! i).
Qed.

(** The disk once the header and a prefix [P] of the home blocks are written. *)
Lemma after_header P X m :
  B = P ++ X ->
  dblk (apply_writes (A ++ [(s, h)] ++ P) d) m
  = if decide (m = s) then h else if decide (m ∈ P.*1) then f m else blk_after A (dblk d) m.
Proof using G.
  clear header_empty f_length f_clean. intros E. rewrite dblk_apply, !blk_after_app.
  assert (HP : forall b, b ∈ P.*1 -> b ∈ bl).
  { intros b Hb. rewrite <- fst_B, E, fmap_app. set_solver. }
  destruct (decide (m ∈ P.*1)) as [Hm|Hm].
  - rewrite decide_False by (intros ->; apply (home_not_header _ _ _ G); by apply HP).
    apply blk_after_in.
    + pose proof (g_nodup _ _ _ G) as Hn. rewrite <- fst_B, E, fmap_app in Hn. by apply NoDup_app in Hn as [? _].
    + apply list_elem_of_fmap in Hm as ([b v] & -> & Hb). simpl.
      assert (Hb' : (b, v) ∈ B) by (rewrite E; set_solver).
      apply list_elem_of_lookup_1 in Hb' as [i Hi]. unfold B in Hi. rewrite list_lookup_imap in Hi.
      destruct (bl !! i); simplify_eq/=. done.
  - rewrite blk_after_notin by done. simpl. by case_decide.
Qed.

Lemma log_block_after i b :
  bl !! i = Some b -> blk_after A (dblk d) (s + Z.of_nat i + 1) = f b.
Proof. intros H. apply blk_after_in; [apply NoDup_log_writes|by apply log_writes_lookup]. Qed.

Lemma home_block_after m : ~ in_log s m -> blk_after A (dblk d) m = dblk d m.
Proof. intros H. apply blk_after_notin. intros Hm. by destruct (log_writes_in_log m A ltac:(done) Hm). Qed.

(** A crash between the write of the header and its erasure. *)
Lemma crash_after P X :
  B = P ++ X ->
  let d1 := apply_writes (A ++ [(s, h)] ++ P) d in
  header_ok ds s (dblk d1 s) bl
  /\ forall m, ~ in_log s m -> dblk (recovered s bl d1) m = f m.
Proof.
  intros E d1. pose proof (fun m => after_header P X m E) as Hd. fold d1 in Hd. split.
  { rewrite Hd, decide_True by done. apply header_ok_put; [done|apply f_length]. }
  intros m Hm. destruct (decide (m ∈ bl)) as [Hb|Hb].
  - apply list_elem_of_lookup_1 in Hb as [i Hb]. rewrite (recovered_home s bl d1 i m (g_nodup _ _ _ G) Hb Hm).
    rewrite Hd, decide_False by lia. rewrite decide_False; [by apply log_block_after|].
    intros Hp. assert (Hq : s + Z.of_nat i + 1 ∈ bl) by (rewrite <- fst_B, E, fmap_app; set_solver).
    destruct (g_home _ _ _ G _ Hq) as [_ X']. apply X'. eapply in_log_block; [done|by eapply lookup_lt_Some].
  - rewrite recovered_other by done. rewrite Hd.
    rewrite decide_False by (intros ->; apply Hm, in_log_start).
    rewrite decide_False by (intros Hp; apply Hb; rewrite <- fst_B, E, fmap_app; set_solver).
    rewrite home_block_after, f_clean by done. done.
Qed.

(** A crash after the header was erased: the disk is up to date. *)
Lemma crash_end :
  let d1 := apply_writes (A ++ [(s, h)] ++ B ++ [(s, put_header [] h)]) d in
  header_ok ds s (dblk d1 s) []
  /\ (forall m, ~ in_log s m -> dblk d1 m = f m)
  /\ forall m, ~ in_log s m -> dblk (recovered s [] d1) m = f m.
Proof using G f_length f_clean.
  clear header_empty.
  intros d1. assert (Hd : forall m, dblk d1 m = if decide (m = s) then put_header [] h
    else dblk (apply_writes (A ++ [(s, h)] ++ B) d) m).
  { intros m. unfold d1.
    replace (A ++ [(s, h)] ++ B ++ _) with ((A ++ [(s, h)] ++ B) ++ [(s, put_header [] h)])
      by (by rewrite <- !app_assoc).
    rewrite apply_writes_app. rewrite (dblk_apply [_]). done. }
  assert (Hm : forall m, ~ in_log s m -> dblk d1 m = f m).
  { intros m Hm. rewrite Hd, decide_False by (intros ->; apply Hm, in_log_start).
    rewrite (after_header B [] m) by (by rewrite app_nil_r).
    rewrite decide_False by (intros ->; apply Hm, in_log_start). rewrite fst_B.
    case_decide as Hb; [done|]. rewrite home_block_after, f_clean by done. done. }
  split_and!; [|done|].
  - rewrite Hd, decide_True by done. eapply header_ok_put; [by eapply geometry_nil|].
    unfold h. by rewrite length_put_header.
  - intros m Hl. rewrite recovered_other by (done || set_solver). by apply Hm.
Qed.

(** Every crash point: what the header lists then, and what recovery makes of
    the disk. *)
Lemma crash_points P X :
  commit_writes s bl f = P ++ X ->
  exists bl', header_ok ds s (dblk (apply_writes P d) s) bl'
    /\ forall m, ~ in_log s m -> dblk (recovered s bl' (apply_writes P d)) m
         = if decide (length P <= length bl)%nat then dblk d m else f m.
Proof.
  intros E. assert (HA : length A = length bl) by apply length_imap.
  unfold commit_writes in E. fold A h B in E.
  apply app_eq_inv in E as [(P1 & EA & _)|(P1 & -> & E)].
  { exists []. destruct (crash_before P P1 EA) as [K1 K2]. split; [done|]. intros m Hm.
    rewrite decide_True; [by apply K2|]. rewrite <- HA, EA, length_app. lia. }
  destruct P1 as [|w P1]; simpl in E.
  { exists []. rewrite app_nil_r. destruct (crash_before A []) as [K1 K2]; [by rewrite app_nil_r|].
    split; [done|]. intros m Hm. rewrite decide_True by lia. by apply K2. }
  injection E as <- E. assert (Hlt : ~ (length (A ++ (s, h) :: P1) <= length bl)%nat)
    by (rewrite length_app; simpl; lia).
  apply app_eq_inv in E as [(P2 & EB & _)|(P2 & -> & E)].
  { exists bl. destruct (crash_after P1 P2 EB) as [K1 K2]. split; [done|]. intros m Hm.
    rewrite decide_False by done. by apply K2. }
  destruct P2 as [|z P2]; simpl in E.
  { exists bl. rewrite app_nil_r in *. destruct (crash_after B []) as [K1 K2]; [by rewrite app_nil_r|].
    split; [done|]. intros m Hm. rewrite decide_False by done. by apply K2. }
  injection E as <- E. symmetry in E. apply app_eq_nil in E as [-> _].
  exists []. destruct crash_end as (K1 & _ & K2). split; [done|]. intros m Hm.
  rewrite decide_False by done. by apply K2.
Qed.

End CrashPoints.

Lemma blk_length k p a m : cache_ok k p a -> length (a_blk a m) = BSIZE.
Proof.
  intros C. destruct (decide (Exists (fun i => cached k m i /\ b_flags (buf_at k i) <> 0) (seq 0 NBUF))) as [H|H].
  - apply Exists_exists in H as (i & _ & Hc & Hf). rewrite (co_blk _ _ _ C m i Hc Hf).
    by apply (co_buf _ _ _ C i), Hc.
  - rewrite (co_clean _ _ _ C m); [apply C|]. intros i Hc.
    destruct (decide (b_flags (buf_at k i) = 0)) as [|Hf]; [done|]. destruct H. apply Exists_exists.
    exists i. split; [|done]. apply elem_of_seq. destruct Hc. lia.
Qed.

(** ** The theorems *)

(** C1: a commit is atomic.  [commit] of a transaction finishes with every block
    of the file system on the disk as it is in the cache; and if the machine
    crashes after any prefix [P] of the writes it issues, [recover_from_log]
    after the reboot finishes and leaves every block outside the log as it was
    before the commit, if the header block was not among the writes, and as it
    is after it, otherwise. *)
Theorem commit_atomic (k : kstate) (c p : nat) (a : cache) (s : Z) (bl : list Z)
    (e : environment kstate) :
  quiet k c p -> ready k p a s bl -> bl <> [] -> header_n (disk_block k s) = 0 ->
  exists k' W, commit k e = Done tt k' e
    /\ (forall m, ~ in_log s m -> disk_block k' m = a_blk a m)
    /\ k_writes k' = k_writes k ++ W
    /\ forall P R kr cr pr er, W = P ++ R -> booted kr cr pr (apply_writes P (k_disk k)) s ->
       k_disksize kr = k_disksize k ->
       exists kr', recover_from_log kr er = Done tt kr' er
         /\ forall m, ~ in_log s m ->
            disk_block kr' m = if decide (length P <= length bl)%nat then disk_block k m else a_blk a m.
Proof.
  intros Q R Hne Hh. destruct (commit_done k c p a s bl e Q R Hne) as (k' & a' & E & _ & _ & _ & _ & _ & W & D).
  pose proof R as [C Hheld L Hd]. pose proof (lo_geo _ _ _ L) as G.
  assert (Hf : forall m, m ∉ bl -> a_blk a m = dblk (k_disk k) m).
  { intros m Hm. apply (clean_synced k p a); [done| |by rewrite Hheld].
    by rewrite Hd, elem_of_list_to_set. }
  pose proof (fun m => blk_length k p a m C) as Hlen.
  exists k', (commit_writes s bl (a_blk a)). split; [done|]. split.
  { intros m Hm. change (disk_block k' m) with (dblk (k_disk k') m). rewrite D.
    by apply (crash_end (k_disksize k)). }
  split; [done|]. intros P X kr cr pr er EW Bt Sz.
  destruct (crash_points (k_disksize k) s bl (k_disk k) (a_blk a) G Hlen Hh Hf P X EW) as (bl' & K1 & K2).
  rewrite <- Sz in K1. destruct (recover_booted kr cr pr _ s bl' er Bt K1) as (kr' & E' & D').
  exists kr'. split; [done|]. intros m Hm. change (disk_block kr' m) with (dblk (k_disk kr') m).
  rewrite D'. by apply K2.
Qed.

(** A crash during recovery: what is on the disk then leads to the same result. *)
Lemma recovery_points ds s bl d P X :
  header_ok ds s (dblk d s) bl -> (forall n, length (dblk d n) = BSIZE) ->
  recovery_writes s bl (dblk d) = P ++ X ->
  exists bl', header_ok ds s (dblk (apply_writes P d) s) bl'
    /\ forall m, ~ in_log s m ->
       dblk (recovered s bl' (apply_writes P d)) m = dblk (recovered s bl d) m.
Proof.
  intros H Hlen E. pose proof (ho_geo _ _ _ _ H) as G.
  destruct (decide (X = [])) as [->|HX].
  - rewrite app_nil_r in E. exists []. assert (Ed : apply_writes P d = recovered s bl d)
      by (unfold recovered; by rewrite E).
    rewrite Ed. split; [|intros m Hm; by apply recovered_other; [|set_solver]].
    unfold recovered, recovery_writes. rewrite dblk_apply, blk_after_app. simpl.
    rewrite decide_True by done. apply header_ok_put; [by eapply geometry_nil|done].
  - assert (EP : exists Y, home_writes s bl (dblk d) = P ++ Y).
    { unfold recovery_writes in E. apply app_eq_inv in E as [(Y & E & _)|(Y & -> & E)]; [by exists Y|].
      exists []. destruct Y as [|y Y]; [by rewrite !app_nil_r|]. simpl in E.
      injection E as _ E. symmetry in E. by apply app_eq_nil in E as [_ ->]. }
    destruct EP as [Y EP]. assert (HP : forall b, b ∈ P.*1 -> b ∈ bl).
    { intros b Hb. rewrite <- (fst_home_writes s bl (dblk d)), EP, fmap_app. set_solver. }
    assert (Hin : forall m, in_log s m -> dblk (apply_writes P d) m = dblk d m).
    { intros m Hm. rewrite dblk_apply. apply blk_after_notin. intros Hb%HP.
      by destruct (g_home _ _ _ G m Hb). }
    exists bl. rewrite (Hin s (in_log_start s)). split; [done|]. intros m Hm.
    destruct (decide (m ∈ bl)) as [Hb|Hb].
    + apply list_elem_of_lookup_1 in Hb as [i Hb].
      rewrite !(recovered_home s bl _ i m (g_nodup _ _ _ G) Hb Hm). apply Hin.
      eapply in_log_block; [done|by eapply lookup_lt_Some].
    + rewrite !recovered_other by done. rewrite dblk_apply. apply blk_after_notin. intros Hp. by apply Hb, HP.
Qed.

(** C31: recovery can be interrupted.  If the machine crashes again after any
    prefix of the writes of [recover_from_log], recovering from there gives the
    same blocks outside the log as the uninterrupted recovery. *)
Theorem recovery_idempotent (k : kstate) (c p : nat) (d : gmap Z (list Z)) (s : Z) (bl : list Z)
    (e : environment kstate) :
  booted k c p d s -> header_ok (k_disksize k) s (dblk d s) bl ->
  exists k' W, recover_from_log k e = Done tt k' e /\ k_writes k' = k_writes k ++ W
    /\ k_disk k' = apply_writes W d
    /\ (forall i b, bl !! i = Some b -> disk_block k' b = dblk d (s + Z.of_nat i + 1))
    /\ forall P R kr cr pr er, W = P ++ R -> booted kr cr pr (apply_writes P d) s ->
       k_disksize kr = k_disksize k ->
       exists kr', recover_from_log kr er = Done tt kr' er
         /\ forall m, ~ in_log s m -> disk_block kr' m = disk_block k' m.
Proof.
  intros [Q E C L] H. pose proof (ho_geo _ _ _ _ H) as G.
  destruct (recover_ok k c p _ s bl e Q C ltac:(done) ltac:(done) L H)
    as (k' & a' & E' & _ & _ & _ & _ & W & D). rewrite E in D.
  exists k', (recovery_writes s bl (dblk d)). split_and!; [done..| |].
  - intros i b Hb. change (disk_block k' b) with (dblk (k_disk k') b). rewrite D.
    apply recovered_home; [apply G|done|]. apply (g_home _ _ _ G). by eapply list_elem_of_lookup_2.
  - intros P X kr cr pr er EW Bt Sz.
    destruct (recovery_points (k_disksize k) s bl d P X H) as (bl' & K1 & K2); [|done|].
    { intros n. pose proof (co_disk _ _ _ C n) as Hn. unfold disk_block in Hn. by rewrite E in Hn. }
    rewrite <- Sz in K1. destruct (recover_booted kr cr pr _ s bl' er Bt K1) as (kr' & Er & Dr).
    exists kr'. split; [done|]. intros m Hm. change (disk_block kr' m) with (dblk (k_disk kr') m).
    change (disk_block k' m) with (dblk (k_disk k') m). rewrite Dr, D. by apply K2.
Qed.
