(* ===== verification/Transaction.v ===== *)
(** * Transactions: [begin_op], [log_write], [end_op]

    How a file system call reserves room in the log, records the blocks it
    modifies and triggers the commit. *)

From stdpp Require Import base gmap list strings sets.
From Stdlib Require Import ZArith Lia.
From S2P Require Import Prelude State Bytes Spinlock Sched Bio Cache Machine Log LogSpec Crash.

(** ** [log_write] *)

(** Where [log_write] finds [n] in the header, or the first free entry. *)
Fixpoint index (n : Z) (bl : list Z) : nat :=
  match bl with
  | [] => O
  | b :: bl => if b =? n then O else S (index n bl)
  end.

(** The blocks of the transaction after [log_write] of block [n]. *)
Definition logged (n : Z) (bl : list Z) : list Z := if decide (n ∈ bl) then bl else bl ++ [n].

Lemma index_le n bl : (index n bl <= length bl)%nat.
Proof. induction bl as [|b bl IH]; simpl; [lia|]. case_match; lia. Qed.

Lemma index_in n bl : n ∈ bl -> bl !! index n bl = Some n.
Proof.
  induction bl as [|b bl IH]; simpl; intros H; [set_solver|].
  destruct (Z.eqb_spec b n); [by subst|]. simpl. apply IH. set_solver.
Qed.

Lemma index_notin n bl : n ∉ bl -> index n bl = length bl.
Proof.
  induction bl as [|b bl IH]; simpl; intros H; [done|].
  rewrite (proj2 (Z.eqb_neq b n)) by set_solver. f_equal. apply IH. set_solver.
Qed.

Lemma absorb_done k s bl n e : forall bl' i,
  log_ok k s bl -> drop i bl = bl' ->
  absorb (length bl') i n k e = Done (i + index n bl')%nat k e.
Proof.
  induction bl' as [|b bl' IH]; intros i L Hd; simpl; [by rewrite Nat.add_0_r|].
  assert (Hb : bl !! i = Some b) by (rewrite <- (Nat.add_0_r i), <- lookup_drop, Hd; done).
  run (get_lh_block_done k s bl i b e L Hb).
  destruct (g_home _ _ _ (lo_geo _ _ _ L) b) as [Hr _]; [by eapply list_elem_of_lookup_2|].
  rewrite (u32_block k s bl b L Hr). case_match; [by rewrite Nat.add_0_r|].
  rewrite IH; [f_equal; lia|done|].
  replace (S i) with (i + 1)%nat by lia. by rewrite <- drop_drop, Hd.
Qed.

Lemma log_ok_logged k k' s bl n :
  log_ok k s bl -> in_range k n -> ~ in_log s n -> (S (length bl) < LOGSIZE)%nat ->
  s + Z.of_nat (S (length bl)) < u32 (k_disksize k) ->
  log_dev (k_log k') = log_dev (k_log k) -> log_start (k_log k') = log_start (k_log k) ->
  lh_n (k_log k') = Z.of_nat (length (logged n bl)) ->
  lh_block (k_log k') = <[index n bl := n]> (lh_block (k_log k)) ->
  k_disksize k' = k_disksize k -> log_ok k' s (logged n bl).
Proof.
  intros [L1 L2 L3 L4 L5 [G0 G1 G2 G3 G4 G5]] Hr Hn Hc He E1 E2 E3 E4 E5.
  split; rewrite ?E1, ?E2, ?E4, ?E5, ?length_insert; try done.
  - intros i b. unfold logged. case_decide as Hin.
    + intros Hb. destruct (decide (i = index n bl)) as [->|Hi].
      * rewrite (index_in n bl Hin) in Hb. simplify_eq. apply list_lookup_insert_eq.
        pose proof (index_le b bl). lia.
      * rewrite list_lookup_insert_ne by done. by apply L4.
    + rewrite (index_notin n bl Hin). intros [Hb|[-> Hb]]%lookup_snoc_Some.
      * rewrite list_lookup_insert_ne by lia. apply L4, Hb.
      * subst b. apply list_lookup_insert_eq. lia.
  - unfold logged. case_decide as Hin; [by split|]. split; rewrite ?length_app; simpl; try done; [lia|lia| |].
    + apply NoDup_app. split_and!; [done|set_solver|apply NoDup_singleton].
    + intros b [Hb|Hb]%elem_of_app; [by apply G5|]. apply list_elem_of_singleton in Hb as ->. done.
Qed.

(** The log has room for [bl] and one more block. *)
Definition room (k : kstate) (s : Z) (bl : list Z) : Prop :=
  Z.of_nat (length bl) < log_size (k_log k) - 1 /\ (S (length bl) < LOGSIZE)%nat
  /\ s + Z.of_nat (S (length bl)) < u32 (k_disksize k) /\ 1 <= log_outstanding (k_log k).

(** The header after [log_write] of block [n]. *)
Definition log_block (n : Z) (bl : list Z) (l : log_t) : log_t :=
  set_lh_n (Z.of_nat (length (logged n bl)))
    (set_lh_block (<[index n bl := n]> (lh_block l)) l).

Lemma length_logged n bl :
  Z.of_nat (length (logged n bl)) =
  if Z.of_nat (index n bl) =? Z.of_nat (length bl) then Z.of_nat (length bl) + 1 else Z.of_nat (length bl).
Proof.
  unfold logged. case_decide as Hin.
  - rewrite (proj2 (Z.eqb_neq _ _)); [done|]. apply index_in, lookup_lt_Some in Hin. lia.
  - rewrite (index_notin n bl Hin), Z.eqb_refl, length_app. simpl. lia.
Qed.

Lemma log_write_done k c p a s bl n i e :
  quiet k c p -> cache_ok k p a -> a_held a !! n = Some i -> log_ok k s bl -> room k s bl ->
  log_write i k e =
  Done tt (upd_buf i (fun b => set_b_flags (Z.lor (b_flags b) B_DIRTY) b) (upd_log (log_block n bl) k)) e.
Proof.
  intros Q C Hh L (R1 & R2 & R3 & R4). unfold log_write. c_simpl.
  rewrite (proj2 (orb_false_iff _ _)); [|rewrite (lo_n _ _ _ L); split; apply Z.leb_gt; lia].
  rewrite (proj2 (Z.ltb_ge _ _)) by lia. run (acquire_fs k c p L_log e Q eq_refl).
  unfold log_n. c_simpl.
  pose proof (held_facts _ _ _ _ _ C Hh) as (Hi & _ & Hn & _ & _ & Hrange & _).
  change (lh_n (k_log (locked c L_log k))) with (lh_n (k_log k)). rewrite (lo_n _ _ _ L), Nat2Z.id.
  change (b_blockno (buf_at (locked c L_log k) i)) with (b_blockno (buf_at k i)). rewrite Hn.
  assert (L1 : log_ok (locked c L_log k) s bl) by (destruct L; by split).
  run (absorb_done (locked c L_log k) s bl n e bl 0 L1 eq_refl). rewrite Nat.add_0_l.
  pose proof (index_le n bl). unfold put_lh_block. rewrite (proj2 (Nat.ltb_lt _ _)) by lia. c_simpl.
  assert (Hs : s32 n = n).
  { apply s32_small. pose proof (g_size _ _ _ (lo_geo _ _ _ L)). unfold in_range in Hrange. lia. }
  rewrite Hs. set (f := fun l => set_lh_block (<[index n bl := n]> (lh_block l)) l).
  change (lh_n (k_log (upd_log f (locked c L_log k)))) with (lh_n (k_log k)). rewrite (lo_n _ _ _ L).
  set (k1 := upd_buf i (fun b => set_b_flags (Z.lor (b_flags b) B_DIRTY) b) (upd_log (log_block n bl) k)).
  assert (Q1 : quiet k1 c p) by (by apply (quiet_ext k)).
  assert (E : (when (Z.of_nat (index n bl) =? Z.of_nat (length bl))
      (modify (upd_log (fun l => set_lh_n (lh_n l + 1) l)))) (upd_log f (locked c L_log k)) e
    = Done tt (upd_log (log_block n bl) (locked c L_log k)) e).
  { unfold when, modify, ret, upd_log, log_block. rewrite length_logged. simpl.
    destruct (_ =? _); rewrite <- (lo_n _ _ _ L); done. }
  run E. c_simpl. exact (release_fs k1 c p L_log e Q1 eq_refl).
Qed.

(** ** [begin_op] *)

Lemma release_keeps_log lk : keeps k_log (release lk).
Proof. unfold release, holding, pushcli, popcli, mycpu, cli, sti, readeflags. keeps. Qed.

(** The operations in progress fit: their reservations and the logged blocks
    together do not exceed [LOGSIZE]. *)
Definition reserved (l : log_t) : Prop :=
  log_committing l = 0 /\ lh_n l + log_outstanding l * MAXOPBLOCKS <= Z.of_nat LOGSIZE.

Definition one_more (l : log_t) : log_t := set_log_outstanding (log_outstanding l + 1) l.

Lemma begin_op_done k c p e :
  quiet k c p -> reserved (one_more (k_log k)) -> begin_op k e = Done tt (upd_log one_more k) e.
Proof.
  intros Q [Hc Hr]. simpl in Hc, Hr. unfold begin_op. run (acquire_fs k c p L_log e Q eq_refl).
  unfold waiting. cbn [iter Nat.add]. rewrite bind_assoc. c_simpl.
  change (k_log (locked c L_log k)) with (k_log k). rewrite Hc. change (truth 0) with false. cbv iota.
  rewrite (proj2 (Z.ltb_ge _ _)) by exact Hr. rewrite !bind_assoc. c_simpl.
  change (upd_log (fun l => set_log_outstanding (log_outstanding l + 1) l) (locked c L_log k))
    with (locked c L_log (upd_log one_more k)).
  rewrite bind_assoc. run (release_fs (upd_log one_more k) c p L_log e ltac:(by apply (quiet_ext k)) eq_refl). done.
Qed.

(** However long it waited, and whatever others did meanwhile. *)
Lemma begin_op_reserved k e k' e' : begin_op k e = Done tt k' e' -> reserved (k_log k').
Proof.
  unfold begin_op. intros (u & k1 & e1 & _ & H)%bind_done_inv. unfold waiting in H. clear k e u.
  remember (1 + length e1)%nat as n eqn:En in H. clear En. revert k1 e1 H.
  induction n as [|n IH]; intros k e H; simpl in H; [done|].
  rewrite bind_assoc in H. revert H. c_simpl. intros H.
  destruct (truth (log_committing (k_log k))) eqn:Ec; [|destruct (_ <? _) eqn:Er].
  1,2: rewrite bind_assoc in H; apply bind_done_inv in H as (u & k2 & e2 & _ & H); exact (IH _ _ H).
  rewrite bind_assoc in H. revert H. c_simpl. rewrite bind_assoc. intros (u & k2 & e2 & Hr & H)%bind_done_inv.
  injection H as <- <-. apply release_keeps_log in Hr. rewrite Hr. apply Z.ltb_ge in Er.
  split; simpl; [|exact Er]. unfold truth in Ec. apply negb_false_iff, Z.eqb_eq in Ec. exact Ec.
Qed.

(** ** [end_op] *)

Lemma ready_log_ext k f p a s bl :
  (forall l, log_dev (f l) = log_dev l /\ log_start (f l) = log_start l /\ lh_n (f l) = lh_n l
     /\ lh_block (f l) = lh_block l) ->
  ready k p a s bl -> ready (upd_log f k) p a s bl.
Proof.
  intros Hf [C Hh [L1 L2 L3 L4 L5 L6] Hd]. destruct (Hf (k_log k)) as (F1 & F2 & F3 & F4).
  split; [by apply (cache_ok_ext k)|done| |done]. split; simpl; rewrite ?F1, ?F2, ?F3, ?F4; done.
Qed.

Lemma wakeup_log k c p e : quiet k c p -> wakeup Ch_log (locked c L_log k) e = Done tt (locked c L_log k) e.
Proof.
  intros Q. rewrite (wakeup_done _ c).
  - rewrite woken_no_sleeper; [done|]. by apply Q.
  - apply settled_locked. by eauto with kernel.
  - apply lock_free_locked; [done|]. by eapply quiet_free.
Qed.

Lemma end_op_done k c p a s bl e :
  quiet k c p -> ready k p a s bl -> bl <> [] ->
  log_outstanding (k_log k) = 1 -> log_committing (k_log k) = 0 ->
  exists k' a', end_op k e = Done tt k' e /\ cache_ok k' p a' /\ a_held a' = ∅ /\ a_dirty a' = ∅
    /\ log_ok k' s [] /\ log_outstanding (k_log k') = 0 /\ log_committing (k_log k') = 0
    /\ k_disk k' = apply_writes (commit_writes s bl (a_blk a)) (k_disk k).
Proof.
  intros Q R Hne Ho Hc. unfold end_op. run (acquire_fs k c p L_log e Q eq_refl). c_simpl.
  set (k1 := upd_log (fun l => set_log_outstanding (log_outstanding l - 1) l) k).
  change (upd_log (fun l => set_log_outstanding (log_outstanding l - 1) l) (locked c L_log k))
    with (locked c L_log k1).
  change (log_committing (k_log (locked c L_log k1))) with (log_committing (k_log k)). rewrite Hc.
  change (truth 0) with false. cbv iota zeta.
  change (log_outstanding (k_log (locked c L_log k1))) with (log_outstanding (k_log k) - 1). rewrite Ho.
  change (1 - 1 =? 0) with true. cbv iota. c_simpl. cbn [when].
  set (k2 := upd_log (set_log_committing 1) k1).
  assert (Q2 : quiet k2 c p) by (by apply (quiet_ext k)).
  change (upd_log (set_log_committing 1) (locked c L_log k1)) with (locked c L_log k2).
  run (release_fs k2 c p L_log e Q2 eq_refl).
  assert (R2 : ready k2 p a s bl) by (apply ready_log_ext; [done|]; by apply ready_log_ext).
  destruct (commit_done k2 c p a s bl e Q2 R2 Hne) as (k3 & a3 & E3 & C3 & H3 & D3 & L3 & F3 & W3 & K3).
  assert (Q3 : quiet k3 c p) by (eapply quiet_frame; [exact F3|]; by apply (quiet_ext k2)).
  run E3. run (acquire_fs k3 c p L_log e Q3 eq_refl). c_simpl.
  set (k4 := upd_log (set_log_committing 0) k3).
  change (upd_log (set_log_committing 0) (locked c L_log k3)) with (locked c L_log k4).
  assert (Q4 : quiet k4 c p) by (by apply (quiet_ext k3)).
  run (wakeup_log k4 c p e Q4). rewrite (release_fs k4 c p L_log e Q4 eq_refl).
  pose proof (bio_frame_field k_log _ _ ltac:(done) F3) as El.
  exists k4, a3. split; [done|]. split; [by apply (cache_ok_ext k3)|]. do 2 (split; [done|]).
  split; [destruct L3; by split|]. split; [|done].
  change (log_outstanding (k_log k4)) with (log_outstanding (k_log k3)). rewrite El.
  change (log_outstanding (k_log k) - 1 = 0). by rewrite Ho.
Qed.

(** ** One block of a transaction

    The use of the log that log.c documents: [bp = bread(...)], a change of
    [bp->data], [log_write(bp)], [brelse(bp)]. *)
Definition update_block (n : Z) (f : list Z -> list Z) : K unit :=
  bp <- bread 1 n;;
  modify (upd_buf bp (fun b => set_b_data (f (b_data b)) b));;
  log_write bp;;
  brelse bp.

Lemma list_to_set_logged n bl : list_to_set (logged n bl) = ({[n]} ∪ list_to_set bl : gset Z).
Proof. unfold logged. case_decide; [set_solver|]. rewrite list_to_set_app_L. set_solver. Qed.

Lemma update_block_done k c p a s bl n f e :
  quiet k c p -> ready k p a s bl -> in_range k n -> ~ in_log s n -> room k s bl ->
  (forall d, length d = BSIZE -> length (f d) = BSIZE) ->
  exists k' a', update_block n f k e = Done tt k' e /\ ready k' p a' s (logged n bl)
    /\ bio_frame (upd_log (log_block n bl) k) k' /\ k_disk k' = k_disk k
    /\ forall m, a_blk a' m = if decide (m = n) then f (a_blk a n) else a_blk a m.
Proof.
  intros Q R Hr Hn Hroom Hf. pose proof R as [C Hh L Hd].
  destruct (bread_ok k c p a n e Q C Hr) as (i & k1 & E1 & C1 & F1 & D1 & W1).
  { by rewrite Hh. }
  { right. rewrite Hh, dom_empty_L, union_empty_l_L. by eapply ready_size. }
  assert (Hi : a_held (hold n i a) !! n = Some i) by (simpl; by simplify_map_eq).
  pose proof (held_facts _ _ _ _ _ C1 Hi) as (_ & _ & _ & _ & _ & _ & _ & Hdat & Hlen).
  set (v := f (a_blk a n)). assert (Hv : length v = BSIZE) by (by apply Hf).
  pose proof (cache_ok_store k1 p _ n i v C1 Hi Hv) as C2. set (k2 := upd_buf i _ k1) in *.
  assert (F2 : bio_frame k k2) by exact F1. pose proof (log_ok_frame _ _ _ _ F2 L) as L2.
  assert (Q2 : quiet k2 c p) by (by eapply quiet_frame).
  assert (Hroom2 : room k2 s bl).
  { unfold room in *. rewrite (bio_frame_field k_log _ _ ltac:(done) F2).
    by rewrite (bio_frame_field k_disksize _ _ ltac:(done) F2). }
  pose proof (log_write_done k2 c p _ s bl n i e Q2 C2 Hi L2 Hroom2) as E3.
  set (k3 := upd_buf i _ (upd_log _ k2)) in *.
  assert (C3 : cache_ok k3 p (pin n (set_a_blk n v (hold n i a)))).
  { apply cache_ok_pin; [by apply (cache_ok_ext k2)|exact Hi]. }
  assert (Q3 : quiet k3 c p) by (by apply (quiet_ext k2)).
  destruct (brelse_ok k3 c p _ n i e Q3 C3 Hi) as (k4 & E4 & C4 & F4 & D4 & W4); [left; simpl; set_solver|].
  assert (F : bio_frame (upd_log (log_block n bl) k) k4).
  { eapply bio_frame_trans; [exact (bio_frame_log (log_block n bl) _ _ F2)|exact F4]. }
  exists k4. eexists. split; [|split].
  - unfold update_block. run E1. c_simpl.
    replace (upd_buf i (fun b => set_b_data (f (b_data b)) b) k1) with k2
      by (unfold k2; rewrite !upd_put; f_equal; by rewrite Hdat).
    run E3. exact E4.
  - split; [exact C4| | |].
    + simpl. rewrite Hh. by rewrite delete_insert_id.
    + destruct Hroom as (_ & R2 & R3 & _). apply (log_ok_logged k k4 s bl n L Hr Hn R2 R3);
        rewrite ?(bio_frame_field k_log _ _ ltac:(done) F); try done.
      exact (bio_frame_field k_disksize _ _ ltac:(done) F).
    + simpl. by rewrite Hd, list_to_set_logged.
  - split; [exact F|]. split; [|done]. rewrite D4. exact D1.
Qed.

(** ** The theorems *)

(** [begin_op] lets an operation in only when no commit is running and the
    log can take [MAXOPBLOCKS] blocks for it on top of what is logged and
    reserved: at once when that is so, and otherwise, if it returns at all,
    after any amount of waiting and whatever the others did meanwhile. *)
Theorem begin_op_reserves (k : kstate) (e : environment kstate) :
  (forall c p, quiet k c p -> reserved (one_more (k_log k)) ->
     begin_op k e = Done tt (upd_log one_more k) e)
  /\ (forall k' e', begin_op k e = Done tt k' e' -> reserved (k_log k')).
Proof.
  split; [intros c p Q R; by eapply begin_op_done|]. intros k' e'. apply begin_op_reserved.
Qed.

(** Inside a transaction, reading a block, changing it, [log_write] and
    [brelse] leave the new contents in the cache and the block pinned; the block
    is recorded in the log header exactly once, however often it is written;
    and the disk is not touched. *)
Theorem log_write_absorbs (k : kstate) (c p : nat) (a : cache) (s : Z) (bl : list Z) (n : Z)
    (f : list Z -> list Z) (e : environment kstate) :
  quiet k c p -> ready k p a s bl -> in_range k n -> ~ in_log s n -> room k s bl ->
  (forall d, length d = BSIZE -> length (f d) = BSIZE) ->
  exists k' a', update_block n f k e = Done tt k' e /\ ready k' p a' s (logged n bl)
    /\ n ∈ logged n bl /\ NoDup (logged n bl) /\ k_disk k' = k_disk k
    /\ forall m, a_blk a' m = if decide (m = n) then f (a_blk a n) else a_blk a m.
Proof.
  intros Q R Hr Hn Hroom Hf.
  destruct (update_block_done k c p a s bl n f e Q R Hr Hn Hroom Hf) as (k' & a' & E & R' & _ & D & B).
  exists k', a'. split_and!; try done.
  - unfold logged. case_decide; set_solver.
  - apply (lo_geo _ _ _ (rd_log _ _ _ _ _ R')).
Qed.

(** the last [end_op] commits: it returns with every block of the file
    system on the disk as it is in the cache, nothing dirty, an empty log and no
    operation or commit in progress. *)
Theorem end_op_commits (k : kstate) (c p : nat) (a : cache) (s : Z) (bl : list Z)
    (e : environment kstate) :
  quiet k c p -> ready k p a s bl -> bl <> [] ->
  log_outstanding (k_log k) = 1 -> log_committing (k_log k) = 0 ->
  exists k' a', end_op k e = Done tt k' e /\ cache_ok k' p a' /\ a_dirty a' = ∅
    /\ log_ok k' s [] /\ log_outstanding (k_log k') = 0 /\ log_committing (k_log k') = 0
    /\ forall m, ~ in_log s m -> disk_block k' m = a_blk a m.
Proof.
  intros Q R Hne Ho Hc.
  destruct (end_op_done k c p a s bl e Q R Hne Ho Hc) as (k' & a' & E & C & _ & D & L & H1 & H2 & K).
  exists k', a'. split_and!; try done. intros m Hm.
  change (disk_block k' m) with (dblk (k_disk k') m). rewrite K.
  pose proof R as [C0 Hh L0 Hd].
  assert (Hf : forall m, m ∉ bl -> a_blk a m = dblk (k_disk k) m).
  { intros m' Hm'. apply (clean_synced k p a); [done| |by rewrite Hh]. by rewrite Hd, elem_of_list_to_set. }
  pose proof (lo_geo _ _ _ L0). pose proof (fun m => blk_length k p a m C0).
  by apply (crash_end (k_disksize k)).
Qed.

(** C36: the reservation of [begin_op] and the limit of [log_write] disagree by
    one.  With a log of [LOGSIZE] blocks (as mkfs makes it), [begin_op] admits
    three operations, 30 blocks in all; but once 29 blocks are logged, one less
    than reserved, every further [log_write] panics, even of a block that is
    logged already. *)
Theorem log_write_overflow (k : kstate) (c p : nat) (e : environment kstate) :
  quiet k c p -> log_committing (k_log k) = 0 -> lh_n (k_log k) = 0 ->
  log_outstanding (k_log k) = 0 -> log_size (k_log k) = Z.of_nat LOGSIZE ->
  exists k', (begin_op;; begin_op;; begin_op) k e = Done tt k' e
    /\ reserved (k_log k') /\ log_outstanding (k_log k') * MAXOPBLOCKS = 30
    /\ forall b, log_write b (upd_log (set_lh_n 29) k') e
         = Panic "too big a transaction" (upd_log (set_lh_n 29) k').
Proof.
  intros Q H1 H2 H3 H4. unfold MAXOPBLOCKS.
  assert (R : forall j, 0 <= j <= 3 -> forall l, log_committing l = 0 -> lh_n l = 0 ->
    log_outstanding l = j - 1 -> reserved (one_more l)).
  { intros j Hj l A B C. split; simpl; [done|]. unfold MAXOPBLOCKS, LOGSIZE. rewrite B, C. lia. }
  set (k1 := upd_log one_more k). set (k2 := upd_log one_more k1). set (k3 := upd_log one_more k2).
  exists k3. split.
  { run (begin_op_done k c p e Q (R 1 ltac:(lia) (k_log k) H1 H2 H3)).
    assert (Q1 : quiet k1 c p) by (by apply (quiet_ext k)).
    run (begin_op_done k1 c p e Q1 (R 2 ltac:(lia) (k_log k1) H1 H2 ltac:(simpl; lia))).
    assert (Q2 : quiet k2 c p) by (by apply (quiet_ext k)).
    apply (begin_op_done k2 c p e Q2). apply (R 3); simpl; lia. }
  split; [split; simpl; [done|]; unfold MAXOPBLOCKS, LOGSIZE; lia|]. split; [simpl; lia|].
  intros b. unfold log_write. c_simpl.
  assert (E : log_size (k_log (upd_log (set_lh_n 29) k3)) = Z.of_nat LOGSIZE) by exact H4. by rewrite E.
Qed.

(** ** On the small machine *)

Lemma geometry_machine bl :
  (length bl < LOGSIZE)%nat -> NoDup bl -> Forall (fun b => 32 <= b < 1000) bl -> geometry 1000 2 bl.
Proof.
  intros Hl Hn Hb. assert (u32 1000 = 1000) as E by done. unfold LOGSIZE in Hl.
  split; rewrite ?E; try done; try lia. intros b Hin. eapply Forall_forall in Hb; [|exact Hin].
  unfold in_log, LOGSIZE. lia.
Qed.

Lemma machine_booted d : block_sized d -> exists k, booted k 0 0 d 2 /\ k_disksize k = 1000.
Proof.
  intros Hd. destruct (machine_rest d Hd) as (k & _ & Q & C & Hl & Hdk & Hds & _).
  exists k. split; [|done]. split; [done|done|exact C|split; rewrite Hl; done].
Qed.

Lemma machine_ready :
  exists k, quiet k 0 0 /\ ready k 0 (fresh_cache ∅) 2 [] /\ k_log k = machine_log
    /\ k_disk k = ∅ /\ k_disksize k = 1000.
Proof.
  destruct (machine_rest ∅ block_sized_empty) as (k & _ & Q & C & Hl & Hd & Hs & _).
  exists k. split; [done|]. split; [|done]. split; [exact C|done| |done].
  split; rewrite ?Hl, ?Hs; try done. apply geometry_machine; [unfold LOGSIZE; simpl; lia|constructor..].
Qed.

(** A transaction that has written block 40, full of sevens. *)
Lemma machine_tx :
  exists k a, quiet k 0 0 /\ ready k 0 a 2 [40] /\ log_outstanding (k_log k) = 1
    /\ log_committing (k_log k) = 0 /\ log_size (k_log k) = 30 /\ k_disk k = ∅ /\ k_disksize k = 1000
    /\ a_blk a 40 = replicate BSIZE 7.
Proof.
  destruct machine_ready as (k & Q & R & Hl & Hd & Hs).
  set (k1 := upd_log one_more k). assert (Q1 : quiet k1 0 0) by (by apply (quiet_ext k)).
  assert (R1 : ready k1 0 (fresh_cache ∅) 2 []) by (by apply ready_log_ext).
  assert (Hds : k_disksize k1 = 1000) by exact Hs.
  destruct (update_block_done k1 0 0 (fresh_cache ∅) 2 [] 40 (fun _ => replicate BSIZE 7) []) as (k2 & a2 & E & R2 & F & D & B);
    try done.
  - unfold in_range. rewrite Hds. change (u32 1000) with 1000. lia.
  - unfold in_log, LOGSIZE. lia.
  - unfold room. rewrite Hds. change (u32 1000) with 1000. unfold k1. simpl. rewrite Hl. simpl. unfold LOGSIZE. lia.
  - exists k2, a2. pose proof (bio_frame_field k_log _ _ ltac:(done) F) as El. split_and!.
    + eapply quiet_frame; [exact F|]. by apply (quiet_ext k1).
    + exact R2.
    + rewrite El. simpl. by rewrite Hl.
    + rewrite El. simpl. by rewrite Hl.
    + rewrite El. simpl. by rewrite Hl.
    + by rewrite D.
    + rewrite (bio_frame_field k_disksize _ _ ltac:(done) F). exact Hs.
    + rewrite B. by rewrite decide_True.
Qed.

Lemma commit_atomic_witness :
  exists k a k' W kr kr', ready k 0 a 2 [40] /\ a_blk a 40 = replicate BSIZE 7
    /\ commit k [] = Done tt k' [] /\ disk_block k' 40 = replicate BSIZE 7
    /\ k_writes k' = k_writes k ++ W /\ booted kr 0 0 (k_disk k) 2
    /\ recover_from_log kr [] = Done tt kr' [] /\ disk_block kr' 40 = replicate BSIZE 0.
Proof.
  destruct machine_tx as (k & a & Q & R & Ho & Hc & Hz & Hd & Hs & Hb).
  assert (Hh : header_n (disk_block k 2) = 0) by (unfold disk_block; rewrite Hd; vm_compute; reflexivity).
  destruct (commit_atomic k 0 0 a 2 [40] [] Q R ltac:(discriminate) Hh) as (k' & W & E & D & Wr & Cr).
  destruct (machine_booted ∅ block_sized_empty) as (kr & Bt & Hsr).
  assert (Hn : ~ in_log 2 40) by (unfold in_log, LOGSIZE; lia).
  rewrite Hd in Cr. destruct (Cr [] W kr 0%nat 0%nat [] eq_refl Bt) as (kr' & Er & Dr); [by rewrite Hsr|].
  exists k, a, k', W, kr, kr'. rewrite Hd. split_and!; try done.
  - rewrite D by done. exact Hb.
  - rewrite Dr by done. simpl. unfold disk_block. by rewrite Hd.
Defined.

(** A log on disk with one committed block, for block 40. *)
Definition logged_disk : gmap Z (list Z) :=
  {[ 2 := put_header [40] (replicate BSIZE 0); 3 := replicate BSIZE 7 ]}.

Lemma block_sized_logged : block_sized logged_disk.
Proof.
  intros n. unfold logged_disk. destruct (decide (n = 2)) as [->|H2]; [reflexivity|].
  destruct (decide (n = 3)) as [->|H3]; [reflexivity|].
  rewrite lookup_insert_ne, lookup_singleton_ne by congruence. reflexivity.
Qed.

Lemma recovery_idempotent_witness :
  exists k k', booted k 0 0 logged_disk 2 /\ recover_from_log k [] = Done tt k' []
    /\ disk_block k' 40 = replicate BSIZE 7.
Proof.
  destruct (machine_booted logged_disk block_sized_logged) as (k & Bt & Hs).
  assert (H : header_ok (k_disksize k) 2 (dblk logged_disk 2) [40]).
  { rewrite Hs. split; [vm_compute; reflexivity| |].
    - intros [|[|i]] b Hb; simplify_eq/=. vm_compute. reflexivity.
    - apply geometry_machine; [unfold LOGSIZE; simpl; lia|apply NoDup_singleton|repeat constructor; lia]. }
  destruct (recovery_idempotent k 0 0 logged_disk 2 [40] [] Bt H) as (k' & W & E & _ & _ & Hb & _).
  exists k, k'. split; [exact Bt|]. split; [exact E|]. rewrite (Hb 0%nat 40 eq_refl). reflexivity.
Defined.

Lemma log_write_absorbs_witness :
  exists k a k' a', ready k 0 a 2 [40]
    /\ update_block 40 (fun _ => replicate BSIZE 9) k [] = Done tt k' []
    /\ ready k' 0 a' 2 [40] /\ a_blk a' 40 = replicate BSIZE 9.
Proof.
  destruct machine_tx as (k & a & Q & R & Ho & Hc & Hz & Hd & Hs & Hb).
  assert (Hr : room k 2 [40]).
  { unfold room. rewrite Hs, Ho, Hz. change (u32 1000) with 1000. unfold LOGSIZE. simpl. lia. }
  destruct (log_write_absorbs k 0 0 a 2 [40] 40 (fun _ => replicate BSIZE 9) [] Q R) as (k' & a' & E & R' & _ & _ & _ & B).
  - unfold in_range. rewrite Hs. change (u32 1000) with 1000. lia.
  - unfold in_log, LOGSIZE. lia.
  - exact Hr.
  - intros d _. apply length_replicate.
  - exists k, a, k', a'. split_and!; [exact R|exact E|exact R'|]. rewrite B. reflexivity.
Defined.

Lemma end_op_commits_witness :
  exists k a k', ready k 0 a 2 [40] /\ log_outstanding (k_log k) = 1
    /\ end_op k [] = Done tt k' [] /\ disk_block k' 40 = replicate BSIZE 7.
Proof.
  destruct machine_tx as (k & a & Q & R & Ho & Hc & Hz & Hd & Hs & Hb).
  destruct (end_op_commits k 0 0 a 2 [40] [] Q R ltac:(discriminate) Ho Hc) as (k' & a' & E & _ & _ & _ & _ & _ & D).
  exists k, a, k'. split_and!; [exact R|exact Ho|exact E|]. rewrite D; [exact Hb|].
  unfold in_log, LOGSIZE. lia.
Defined.

Lemma log_write_overflow_witness :
  exists k k', (begin_op;; begin_op;; begin_op) k [] = Done tt k' []
    /\ log_write 0 (upd_log (set_lh_n 29) k') [] = Panic "too big a transaction" (upd_log (set_lh_n 29) k').
Proof.
  destruct machine_ready as (k & Q & R & Hl & Hd & Hs).
  destruct (log_write_overflow k 0 0 [] Q) as (k' & E & _ & _ & P); [rewrite Hl; reflexivity..|].
  exists k, k'. split; [exact E|]. apply P.
Defined.

Lemma begin_op_reserves_witness :
  exists k, begin_op k [] = Done tt (upd_log one_more k) [] /\ reserved (one_more (k_log k)).
Proof.
  destruct machine_ready as (k & Q & R & Hl & Hd & Hs).
  assert (H : reserved (one_more (k_log k))) by (rewrite Hl; split; [reflexivity|vm_compute; discriminate]).
  exists k. split; [|exact H]. exact (proj1 (begin_op_reserves k []) 0%nat 0%nat Q H).
Defined.
