(* ===== verification/Tx.v ===== *)
(** * Inside a transaction

    The operations that fs.c performs between [begin_op] and [end_op]: [bread],
    a change of the buffer followed by [log_write], and [brelse], on any number
    of blocks held at once.  [tx k p a s bl]: process [p] is in a transaction
    that has logged the blocks [bl]; the cache holds the contents [a_blk a]. *)

From stdpp Require Import base gmap list strings sets.
From Stdlib Require Import ZArith Lia.
From S2P Require Import Prelude State Bytes Spinlock Sched Bio Cache Machine Log LogSpec Crash Transaction Fs.

Record tx (k : kstate) (p : nat) (a : cache) (s : Z) (bl : list Z) : Prop := {
  tx_ok : cache_ok k p a;
  tx_log : log_ok k s bl;
  tx_dirty : a_dirty a = list_to_set bl;
  tx_sync : forall n, n ∉ a_dirty a -> a_blk a n = disk_block k n
}.

Lemma ready_tx k p a s bl : ready k p a s bl <-> tx k p a s bl /\ a_held a = ∅.
Proof.
  split; [|intros [[] ?]; by split].
  intros [C Hh L Hd]. split; [|done]. split; try done. intros n Hn.
  apply (clean_synced k p a); [done|done|]. by rewrite Hh.
Qed.

(** What an operation inside a transaction leaves alone: everything but buffers,
    disk, history of writes and the blocks listed in the log header. *)
Definition strip_tx (k : kstate) : kstate :=
  upd_log (fun l => set_lh_n 0 (set_lh_block [] l)) (strip k).
Definition tx_frame (k k' : kstate) : Prop := strip_tx k' = strip_tx k.

Lemma tx_frame_refl k : tx_frame k k.
Proof. done. Qed.

Lemma tx_frame_trans k1 k2 k3 : tx_frame k1 k2 -> tx_frame k2 k3 -> tx_frame k1 k3.
Proof. unfold tx_frame. congruence. Qed.

Lemma tx_frame_field {A} (f : kstate -> A) k k' :
  (forall k, f k = f (strip_tx k)) -> tx_frame k k' -> f k' = f k.
Proof. intros Hf H. rewrite (Hf k'), (Hf k). by rewrite H. Qed.

Lemma tx_frame_bio k k' : bio_frame k k' -> tx_frame k k'.
Proof. unfold bio_frame, tx_frame, strip_tx. by intros ->. Qed.

Lemma tx_frame_logged k k' n bl : bio_frame (upd_log (log_block n bl) k) k' -> tx_frame k k'.
Proof. unfold bio_frame, tx_frame, strip_tx. intros E. by rewrite E. Qed.

Lemma quiet_tx k k' c p : tx_frame k k' -> quiet k c p -> quiet k' c p.
Proof. intros F. apply quiet_ext; by apply tx_frame_field. Qed.

Lemma room_tx k k' s bl : tx_frame k k' -> room k s bl -> room k' s bl.
Proof.
  intros F. unfold room.
  rewrite (tx_frame_field (fun k => log_size (k_log k)) _ _ ltac:(done) F).
  rewrite (tx_frame_field k_disksize _ _ ltac:(done) F).
  by rewrite (tx_frame_field (fun k => log_outstanding (k_log k)) _ _ ltac:(done) F).
Qed.

Lemma in_range_tx k k' n : tx_frame k k' -> in_range k n -> in_range k' n.
Proof. intros F. unfold in_range. by rewrite (tx_frame_field k_disksize _ _ ltac:(done) F). Qed.

Lemma tx_bread k c p a s bl n e :
  quiet k c p -> tx k p a s bl -> in_range k n -> a_held a !! n = None ->
  (size (dom (a_held a)) + length bl < NBUF)%nat ->
  exists i k', bread 1 n k e = Done i k' e /\ tx k' p (hold n i a) s bl /\ tx_frame k k'
    /\ k_disk k' = k_disk k /\ b_data (buf_at k' i) = a_blk a n.
Proof.
  intros Q [C L Hd Hs] Hr Hh Hsz.
  destruct (bread_ok k c p a n e Q C Hr Hh) as (i & k' & E & C' & F & D & W).
  { right. rewrite size_union_alt. assert (size (a_dirty a ∖ dom (a_held a)) <= size (a_dirty a))%nat
      by (apply subseteq_size; set_solver).
    assert (size (a_dirty a) = length bl) by (rewrite Hd; apply size_list_to_set, (lo_geo _ _ _ L)). lia. }
  exists i, k'. split; [done|]. split; [|split; [by apply tx_frame_bio|split; [done|]]].
  - split; [done|by eapply log_ok_frame|done|]. intros m Hm. simpl. rewrite Hs by done.
    unfold disk_block. by rewrite D.
  - assert (Hi : a_held (hold n i a) !! n = Some i) by (simpl; by simplify_map_eq).
    by pose proof (held_facts _ _ _ _ _ C' Hi) as (_ & _ & _ & _ & _ & _ & _ & Hdat & _).
Qed.

Lemma tx_brelse k c p a s bl n i e :
  quiet k c p -> tx k p a s bl -> a_held a !! n = Some i ->
  exists k', brelse i k e = Done tt k' e /\ tx k' p (unhold n a) s bl /\ tx_frame k k'
    /\ k_disk k' = k_disk k.
Proof.
  intros Q [C L Hd Hs] Hi.
  destruct (brelse_ok k c p a n i e Q C Hi) as (k' & E & C' & F & D & W).
  { destruct (decide (n ∈ a_dirty a)); [by left|right; by apply Hs]. }
  exists k'. split; [done|]. split; [|split; [by apply tx_frame_bio|done]].
  split; [done|by eapply log_ok_frame|done|]. intros m Hm. simpl. rewrite Hs by done.
  unfold disk_block. by rewrite D.
Qed.

(** [bp->data = f(bp->data); log_write(bp);] and whatever comes next. *)
Definition store (n : Z) (v : list Z) (a : cache) : cache := pin n (set_a_blk n v a).

Lemma tx_update {A} k c p a s bl n i f e (rest : K A) :
  quiet k c p -> tx k p a s bl -> a_held a !! n = Some i -> ~ in_log s n -> room k s bl ->
  length (f (a_blk a n)) = BSIZE ->
  exists k', (set_bdata i f;; log_write i;; rest) k e = rest k' e
    /\ tx k' p (store n (f (a_blk a n)) a) s (logged n bl) /\ tx_frame k k' /\ k_disk k' = k_disk k.
Proof.
  intros Q [C L Hd Hs] Hi Hn Hroom Hv.
  pose proof (held_facts _ _ _ _ _ C Hi) as (_ & _ & _ & _ & _ & Hrange & _ & Hdat & _).
  set (v := f (a_blk a n)) in *.
  pose proof (cache_ok_store k p a n i v C Hi Hv) as C2. set (k2 := upd_buf i _ k) in *.
  assert (F2 : bio_frame k k2) by done. pose proof (log_ok_frame _ _ _ _ F2 L) as L2.
  assert (Q2 : quiet k2 c p) by (by eapply quiet_frame).
  pose proof (log_write_done k2 c p _ s bl n i e Q2 C2 Hi L2 Hroom) as E3.
  set (k3 := upd_buf i _ (upd_log _ k2)) in *.
  exists k3. split.
  - unfold set_bdata. rewrite bind_modify.
    replace (upd_buf i (fun b => set_b_data (f (b_data b)) b) k) with k2
      by (unfold k2; rewrite !upd_put; f_equal; by rewrite Hdat).
    by run E3.
  - split; [|split; [by apply (tx_frame_logged _ _ n bl)|done]].
    split.
    + apply cache_ok_pin; [by apply (cache_ok_ext k2)|exact Hi].
    + destruct Hroom as (_ & R2 & R3 & _). by apply (log_ok_logged k k3 s bl n L).
    + simpl. by rewrite Hd, list_to_set_logged.
    + intros m Hm. simpl in *. rewrite decide_False by set_solver. rewrite Hs by set_solver. done.
Qed.

(** [brelse] after which nothing is held. *)
Lemma unhold_hold n i a : a_held a !! n = None -> unhold n (hold n i a) = a.
Proof. intros H. destruct a. unfold unhold, hold, set_a_held. simpl in *. by rewrite delete_insert_id. Qed.

Lemma unhold_store_hold n v i a :
  a_held a !! n = None -> unhold n (store n v (hold n i a)) = store n v a.
Proof.
  intros H. destruct a. unfold unhold, store, pin, set_a_blk, hold, set_a_held, set_a_dirty. simpl in *.
  by rewrite delete_insert_id.
Qed.
