(* ===== verification/Balloc.v ===== *)
(** * The block allocator ([balloc], [bfree] of fs.c)

    The free map of the disk as a set of blocks: [balloc] takes the least free
    block out of it and zeroes the block, [bfree] puts one back, and neither
    touches any other block or bit. *)

From stdpp Require Import base gmap list strings sets.
From Stdlib Require Import ZArith Lia.
From S2P Require Import Prelude State Bytes Spinlock Sched Bio Cache Machine Log LogSpec Crash Transaction Fs Tx.

(** ** Bits *)

Definition bit (data : list Z) (bi : Z) : bool :=
  negb (Z.land (byte_at data (bi / 8)) (Z.shiftl 1 (bi mod 8)) =? 0).

Lemma land_bit x j : 0 <= j -> negb (Z.land x (Z.shiftl 1 j) =? 0) = Z.testbit x j.
Proof.
  intros Hj. rewrite Z.shiftl_1_l. destruct (Z.testbit x j) eqn:E.
  - apply negb_true_iff, Z.eqb_neq. intros H.
    assert (H1 : Z.testbit (Z.land x (2 ^ j)) j = true) by (rewrite Z.land_spec, E, Z.pow2_bits_true; done).
    by rewrite H, Z.bits_0 in H1.
  - apply negb_false_iff, Z.eqb_eq, Z.bits_inj_iff'. intros m Hm.
    rewrite Z.land_spec, Z.bits_0. destruct (decide (m = j)) as [->|Hn]; [by rewrite E|].
    by rewrite Z.pow2_bits_false, andb_false_r.
Qed.

Lemma bit_testbit data bi : bit data bi = Z.testbit (byte_at data (bi / 8)) (bi mod 8).
Proof. apply land_bit. apply Z.mod_pos_bound. lia. Qed.

Lemma testbit_u8 x j : 0 <= j < 8 -> Z.testbit (u8 x) j = Z.testbit x j.
Proof. intros H. unfold u8. by rewrite Z.mod_pow2_bits_low by lia. Qed.

Lemma byte_at_set data i v j :
  0 <= i < Z.of_nat (length data) -> 0 <= j ->
  byte_at (set_byte i v data) j = if decide (j = i) then u8 v else byte_at data j.
Proof.
  intros Hi Hj. unfold byte_at, set_byte. case_decide as E.
  - subst. by rewrite list_lookup_insert_eq by lia.
  - rewrite list_lookup_insert_ne by lia. done.
Qed.

Definition set_bit (bi : Z) (d : list Z) : list Z :=
  set_byte (bi / 8) (Z.lor (byte_at d (bi / 8)) (Z.shiftl 1 (bi mod 8))) d.
Definition clear_bit (bi : Z) (d : list Z) : list Z :=
  set_byte (bi / 8) (Z.land (byte_at d (bi / 8)) (Z.lnot (Z.shiftl 1 (bi mod 8)))) d.

Lemma length_set_byte i v d : length (set_byte i v d) = length d.
Proof. apply length_insert. Qed.

Lemma bit_same_byte i j : 0 <= i -> 0 <= j -> i / 8 = j / 8 -> i mod 8 = j mod 8 -> i = j.
Proof. intros. rewrite (Z.div_mod i 8), (Z.div_mod j 8) by lia. lia. Qed.

Lemma bit_set_bit d i j :
  length d = BSIZE -> 0 <= i < BPB -> 0 <= j ->
  bit (set_bit i d) j = if decide (j = i) then true else bit d j.
Proof.
  intros Hl Hi Hj. rewrite !bit_testbit. unfold set_bit, BPB, BSIZE in *.
  pose proof (Z.mod_pos_bound i 8 ltac:(lia)). pose proof (Z.mod_pos_bound j 8 ltac:(lia)).
  rewrite byte_at_set by div_lia. destruct (decide (j / 8 = i / 8)) as [E|E].
  - rewrite testbit_u8, Z.lor_spec, Z.shiftl_1_l, E by lia. case_decide as Ej.
    + subst. rewrite Z.pow2_bits_true by lia. apply orb_true_r.
    + rewrite Z.pow2_bits_false; [apply orb_false_r|]. intros Em. apply Ej, bit_same_byte; lia.
  - rewrite decide_False; [done|]. by intros ->.
Qed.

Lemma bit_clear_bit d i j :
  length d = BSIZE -> 0 <= i < BPB -> 0 <= j ->
  bit (clear_bit i d) j = if decide (j = i) then false else bit d j.
Proof.
  intros Hl Hi Hj. rewrite !bit_testbit. unfold clear_bit, BPB, BSIZE in *.
  pose proof (Z.mod_pos_bound i 8 ltac:(lia)). pose proof (Z.mod_pos_bound j 8 ltac:(lia)).
  rewrite byte_at_set by div_lia. destruct (decide (j / 8 = i / 8)) as [E|E].
  - rewrite testbit_u8, Z.land_spec, Z.lnot_spec, Z.shiftl_1_l, E by lia. case_decide as Ej.
    + subst. rewrite Z.pow2_bits_true by lia. apply andb_false_r.
    + rewrite Z.pow2_bits_false; [apply andb_true_r|]. intros Em. apply Ej, bit_same_byte; lia.
  - rewrite decide_False; [done|]. by intros ->.
Qed.

(** The inner loop of [balloc] finds the first clear bit. *)
Lemma free_bit_spec n : forall bi b size data,
  0 <= bi -> BPB <= bi + Z.of_nat n ->
  match free_bit n bi b size data with
  | Some r => bi <= r < BPB /\ b + r < size /\ bit data r = false
      /\ forall j, bi <= j < r -> bit data j = true
  | None => forall j, bi <= j < BPB -> b + j < size -> bit data j = true
  end.
Proof.
  induction n as [|n IH]; intros bi b size data H0 Hn; simpl; [intros j Hj; lia|].
  destruct (Z.ltb_spec bi BPB) as [H1|H1]; [|intros j Hj; lia].
  destruct (Z.ltb_spec (b + bi) size) as [H2|H2]; simpl; [|intros j Hj Hs; lia].
  destruct (Z.eqb_spec (Z.land (byte_at data (bi / 8)) (Z.shiftl 1 (bi mod 8))) 0) as [E|E].
  - split; [lia|]. split; [done|]. split; [unfold bit; by rewrite E|]. intros j Hj. lia.
  - assert (Hb : bit data bi = true) by (unfold bit; by apply negb_true_iff, Z.eqb_neq).
    specialize (IH (bi + 1) b size data ltac:(lia) ltac:(lia)).
    destruct (free_bit n (bi + 1) b size data) as [r|].
    + destruct IH as (I1 & I2 & I3 & I4). split; [lia|]. split; [done|]. split; [done|].
      intros j Hj. destruct (decide (j = bi)) as [->|]; [done|]. apply I4. lia.
    + intros j Hj Hs. destruct (decide (j = bi)) as [->|]; [done|]. apply IH; lia.
Qed.

(** ** The free map *)

(** Whether block [b] is marked as used. *)
Definition used (f : Z -> list Z) (sb : superblock) (b : Z) : bool :=
  bit (f (BBLOCK b sb)) (b mod BPB).

(** The log has room for [j] more blocks. *)
Definition rooms (j : nat) (k : kstate) (s : Z) (bl : list Z) : Prop :=
  forall bl', (length bl' < length bl + j)%nat -> room k s bl'.

Lemma rooms_room j k s bl : (0 < j)%nat -> rooms j k s bl -> room k s bl.
Proof. intros Hj H. apply H. lia. Qed.

Lemma length_logged_le n bl : (length (logged n bl) <= S (length bl))%nat.
Proof. unfold logged. case_decide; [lia|]. rewrite length_app. simpl. lia. Qed.

Lemma rooms_logged j k s bl n : rooms (S j) k s bl -> rooms j k s (logged n bl).
Proof. intros H bl' Hl. apply H. pose proof (length_logged_le n bl). lia. Qed.

Lemma rooms_tx j k k' s bl : tx_frame k k' -> rooms j k s bl -> rooms j k' s bl.
Proof. intros F H bl' Hl. eapply room_tx; [done|]. by apply H. Qed.

(** The place of the free map on the disk: its blocks are on the disk, outside the
    log, and the file system fits the disk. *)
Record map_ok (k : kstate) (s : Z) : Prop := {
  mo_size : 0 <= sb_size (k_sb k) <= u32 (k_disksize k);
  mo_bmap : forall b, 0 <= b < sb_size (k_sb k) ->
    in_range k (BBLOCK b (k_sb k)) /\ ~ in_log s (BBLOCK b (k_sb k))
}.

Lemma map_ok_tx k k' s : tx_frame k k' -> map_ok k s -> map_ok k' s.
Proof.
  intros F [H1 H2]. pose proof (tx_frame_field k_sb _ _ ltac:(done) F) as E1.
  pose proof (tx_frame_field k_disksize _ _ ltac:(done) F) as E2.
  split; rewrite E1, ?E2; [done|]. intros b Hb. destruct (H2 b Hb) as [A B]. split; [|done].
  by eapply in_range_tx.
Qed.

Lemma BBLOCK_add b bi sb : (BPB | b) -> 0 <= bi < BPB -> BBLOCK (b + bi) sb = BBLOCK b sb.
Proof.
  intros [q ->] Hbi. unfold BBLOCK. do 2 f_equal. unfold BPB in *.
  rewrite Z.add_comm, Z.div_add, Z.div_small, Z.div_mul by lia. lia.
Qed.

Lemma mod_add_BPB b bi : (BPB | b) -> 0 <= bi < BPB -> (b + bi) mod BPB = bi.
Proof.
  intros [q ->] Hbi. rewrite Z.add_comm. unfold BPB in *. rewrite Z.mod_add by lia.
  apply Z.mod_small. lia.
Qed.

Lemma same_bblock b b' sb :
  0 <= b < 2 ^ 32 -> 0 <= b' < 2 ^ 32 -> BBLOCK b sb = BBLOCK b' sb -> b mod BPB = b' mod BPB -> b = b'.
Proof.
  intros Hb Hb' H1 H2. unfold BBLOCK in H1. rewrite !(Z.add_comm _ (sb_bmapstart sb)) in H1.
  apply u32_add_inj in H1; unfold BPB in *; [|div_lia..].
  rewrite (Z.div_mod b 4096), (Z.div_mod b' 4096) by lia. lia.
Qed.

(** The effect of marking one block. *)
Lemma used_set f f' sb b g v :
  0 <= b < 2 ^ 32 -> (forall n, f' n = if decide (n = BBLOCK b sb) then g (f n) else f n) ->
  (forall j, 0 <= j -> bit (g (f (BBLOCK b sb))) j = if decide (j = b mod BPB) then v else bit (f (BBLOCK b sb)) j) ->
  used f' sb b = v /\ forall b', 0 <= b' < 2 ^ 32 -> b' <> b -> used f' sb b' = used f sb b'.
Proof.
  intros Hb Hf Hg. pose proof (Z.mod_pos_bound b BPB ltac:(done)). split.
  - unfold used. rewrite Hf, decide_True, Hg, decide_True by (done || lia). done.
  - intros b' Hb' Hne. unfold used. rewrite Hf. case_decide as E; [|done].
    rewrite E, Hg by (apply Z.mod_pos_bound; done). rewrite decide_False; [done|].
    intros Em. apply Hne. by apply (same_bblock b' b sb).
Qed.

(** ** The operations *)

Lemma u32_in_range k n : in_range k n -> u32 n = n.
Proof. intros H. apply u32_small. unfold in_range in H. pose proof (u32_bounds (k_disksize k)). lia. Qed.

(** The end of a change, [log_write] and [brelse] of a held block, and what follows. *)
Lemma tx_finish_then {A} k c p a s bl n i f e (rest : K A) :
  quiet k c p -> tx k p (hold n i a) s bl -> a_held a !! n = None -> ~ in_log s n -> room k s bl ->
  length (f (a_blk a n)) = BSIZE ->
  exists k', (set_bdata i f;; log_write i;; brelse i;; rest) k e = rest k' e
    /\ (set_bdata i f;; log_write i;; brelse i) k e = Done tt k' e
    /\ tx k' p (store n (f (a_blk a n)) a) s (logged n bl) /\ tx_frame k k' /\ k_disk k' = k_disk k.
Proof.
  intros Q T Hn Hl Hr Hv.
  assert (Hi : a_held (hold n i a) !! n = Some i) by (simpl; by simplify_map_eq).
  destruct (tx_update k c p _ s bl n i f e (brelse i) Q T Hi Hl Hr Hv) as (k1 & E1 & T1 & F1 & D1).
  assert (Q1 : quiet k1 c p) by (by eapply quiet_tx).
  destruct (tx_brelse k1 c p _ s _ n i e Q1 T1 Hi) as (k2 & E2 & T2 & F2 & D2).
  assert (E : (set_bdata i f;; log_write i;; brelse i) k e = Done tt k2 e) by (by rewrite E1).
  exists k2. split.
  { pose proof (bind_done _ (fun _ => rest) _ _ _ _ _ E) as E'. rewrite <- E'.
    unfold bind. destruct (set_bdata i f k e) as [? k3 e3| |]; [|done..].
    by destruct (log_write i k3 e3). }
  change (a_blk (hold n i a) n) with (a_blk a n) in T2. rewrite unhold_store_hold in T2 by done.
  split; [done|]. split; [done|]. split; [by eapply tx_frame_trans|congruence].
Qed.

Lemma bzero_done k c p a s bl n e :
  quiet k c p -> tx k p a s bl -> in_range k n -> a_held a !! n = None -> ~ in_log s n ->
  room k s bl -> (size (dom (a_held a)) + length bl < NBUF)%nat ->
  exists k', bzero 1 n k e = Done tt k' e
    /\ tx k' p (store n (replicate BSIZE 0) a) s (logged n bl) /\ tx_frame k k' /\ k_disk k' = k_disk k.
Proof.
  intros Q T Hr Hn Hl Hroom Hsz. unfold bzero. rewrite (u32_in_range k n Hr). change (u32 1) with 1.
  destruct (tx_bread k c p a s bl n e Q T Hr Hn Hsz) as (i & k1 & E1 & T1 & F1 & D1 & _). run E1.
  assert (Q1 : quiet k1 c p) by (by eapply quiet_tx).
  destruct (tx_finish_then k1 c p a s bl n i (fun _ => replicate BSIZE 0) e (ret tt)) as (k2 & _ & E2 & T2 & F2 & D2);
    [done|done|done|done|by eapply room_tx|apply length_replicate|].
  exists k2. split; [exact E2|]. split; [done|]. split; [by eapply tx_frame_trans|congruence].
Qed.

(** What [balloc] and [bfree] need of the machine: a transaction with room for [j]
    blocks, none of the blocks it holds being part of the free map. *)
Record fs_ok (j : nat) (k : kstate) (c p : nat) (a : cache) (s : Z) (bl : list Z) : Prop := {
  fo_quiet : quiet k c p;
  fo_tx : tx k p a s bl;
  fo_map : map_ok k s;
  fo_room : rooms j k s bl;
  fo_bufs : (size (dom (a_held a)) + length bl + j < NBUF)%nat;
  fo_held : forall b, 0 <= b < sb_size (k_sb k) -> a_held a !! BBLOCK b (k_sb k) = None
}.

Lemma fs_ok_size j k c p a s bl b :
  fs_ok j k c p a s bl -> 0 <= b < sb_size (k_sb k) -> in_range k b /\ 0 <= b < 2 ^ 32.
Proof.
  intros H Hb. pose proof (mo_size _ _ (fo_map _ _ _ _ _ _ _ H)).
  pose proof (u32_bounds (k_disksize k)). unfold in_range. lia.
Qed.

(** The state after a step of the transaction that logged [n]. *)
Lemma fs_ok_step j k k' c p a a' s bl n :
  fs_ok (S j) k c p a s bl -> tx k' p a' s (logged n bl) -> tx_frame k k' -> a_held a' = a_held a ->
  fs_ok j k' c p a' s (logged n bl).
Proof.
  intros [Q T M R B H] T' F Hh. pose proof (tx_frame_field k_sb _ _ ltac:(done) F) as E.
  split; [by eapply quiet_tx|done|by eapply map_ok_tx| | |].
  - eapply rooms_tx; [done|]. by apply rooms_logged.
  - rewrite Hh. pose proof (length_logged_le n bl). lia.
  - rewrite Hh, E. exact H.
Qed.

Lemma fs_ok_same j k k' c p a s bl :
  fs_ok j k c p a s bl -> tx k' p a s bl -> tx_frame k k' -> fs_ok j k' c p a s bl.
Proof.
  intros [Q T M R B H] T' F. pose proof (tx_frame_field k_sb _ _ ltac:(done) F) as E.
  split; [by eapply quiet_tx|done|by eapply map_ok_tx|by eapply rooms_tx|done|by rewrite E].
Qed.

(** [bfree] gives a block back.  On a block marked as used, [bfree] clears its
    bit in the free map: it is free afterwards, every other block is marked as
    before, no block of the disk but that one block of the free map changes in
    the cache, which the transaction now logs; the disk itself is untouched.  On
    a block that is free already, [bfree] panics. *)
Theorem bfree_frees (k : kstate) (c p : nat) (a : cache) (s : Z) (bl : list Z) (b : Z)
    (e : environment kstate) :
  fs_ok 1 k c p a s bl -> 0 <= b < sb_size (k_sb k) ->
  let sb := k_sb k in
  (used (a_blk a) sb b = true ->
   exists k' a', bfree 1 b k e = Done tt k' e /\ fs_ok 0 k' c p a' s (logged (BBLOCK b sb) bl)
     /\ used (a_blk a') sb b = false
     /\ (forall b', 0 <= b' < sb_size sb -> b' <> b -> used (a_blk a') sb b' = used (a_blk a) sb b')
     /\ (forall n, n <> BBLOCK b sb -> a_blk a' n = a_blk a n)
     /\ a_held a' = a_held a /\ k_disk k' = k_disk k)
  /\ (used (a_blk a) sb b = false -> exists k', bfree 1 b k e = Panic "freeing free block" k').
Proof.
  intros H Hb sb. destruct (fs_ok_size _ _ _ _ _ _ _ _ H Hb) as [_ Hb32].
  pose proof H as [Q T M R B Hh]. destruct (mo_bmap _ _ M b Hb) as [Hr Hl].
  destruct (tx_bread k c p a s bl (BBLOCK b sb) e Q T Hr (Hh b Hb)) as (i & k1 & E1 & T1 & F1 & D1 & V1);
    [lia|].
  pose proof (Z.mod_pos_bound b BPB ltac:(done)) as Hm.
  assert (Q1 : quiet k1 c p) by (by eapply quiet_tx).
  assert (Hlen : length (a_blk a (BBLOCK b sb)) = BSIZE) by (eapply blk_length; apply T).
  unfold bfree. rewrite bind_gets. change (u32 1) with 1. fold sb. run E1. unfold bdata. rewrite bind_gets, V1.
  fold (clear_bit (b mod BPB)). split; intros Hu.
  - destruct (tx_finish_then k1 c p a s bl (BBLOCK b sb) i (clear_bit (b mod BPB)) e (ret tt))
      as (k2 & _ & E2 & T2 & F2 & D2);
      [done|done|by apply Hh|done|eapply room_tx; [done|by eapply rooms_room; [|done]; lia] | |].
    { unfold clear_bit. by rewrite length_set_byte. }
    destruct (used_set (a_blk a) (a_blk (store (BBLOCK b sb) (clear_bit (b mod BPB) (a_blk a (BBLOCK b sb))) a))
      sb b (clear_bit (b mod BPB)) false) as [U1 U2];
      [lia|intros n; simpl; case_decide; by subst|intros j Hj; by apply bit_clear_bit|].
    exists k2. eexists. split; [|split; [|split; [|split; [|split; [|split; [|]]]]]].
    + unfold used, bit in Hu. apply negb_true_iff in Hu. rewrite Hu. exact E2.
    + eapply (fs_ok_step 0 k k2); [exact H|exact T2|by eapply tx_frame_trans|done].
    + exact U1.
    + intros b' Hb' Hne. apply U2; [|done]. by destruct (fs_ok_size _ _ _ _ _ _ _ _ H Hb').
    + intros n Hn. simpl. by rewrite decide_False.
    + done.
    + congruence.
  - unfold used, bit in Hu. apply negb_false_iff in Hu. rewrite Hu. by eexists.
Qed.

(** ** [balloc] *)

(** One block of the free map with no free block in the part that counts. *)
Lemma balloc_body_full k c p a s bl b e :
  fs_ok 2 k c p a s bl -> (BPB | b) -> 0 <= b < sb_size (k_sb k) ->
  (forall b', b <= b' < b + BPB -> b' < sb_size (k_sb k) -> used (a_blk a) (k_sb k) b' = true) ->
  exists k', balloc_body 1 b k e = Done (inl (b + BPB)) k' e
    /\ fs_ok 2 k' c p a s bl /\ tx_frame k k' /\ k_disk k' = k_disk k.
Proof.
  intros H Hd Hb Hu. pose proof H as [Q T M R B Hh]. destruct (mo_bmap _ _ M b Hb) as [Hr Hl].
  set (sb := k_sb k) in *. set (n := BBLOCK b sb) in *.
  destruct (tx_bread k c p a s bl n e Q T Hr (Hh b Hb)) as (i & k1 & E1 & T1 & F1 & D1 & V1); [lia|].
  assert (Q1 : quiet k1 c p) by (by eapply quiet_tx).
  assert (Hi : a_held (hold n i a) !! n = Some i) by (simpl; by simplify_map_eq).
  destruct (tx_brelse k1 c p _ s bl n i e Q1 T1 Hi) as (k2 & E2 & T2 & F2 & D2).
  rewrite unhold_hold in T2 by (by apply Hh).
  exists k2. unfold balloc_body. rewrite bind_gets. fold sb.
  rewrite (proj2 (Z.ltb_lt _ _)) by lia. fold n. run E1. unfold bdata. rewrite bind_gets, V1.
  pose proof (free_bit_spec (Z.to_nat BPB) 0 b (sb_size sb) (a_blk a n) ltac:(lia) ltac:(done)) as S.
  destruct (free_bit _ 0 b (sb_size sb) (a_blk a n)) as [bi|].
  - destruct S as (S1 & S2 & S3 & _). specialize (Hu (b + bi) ltac:(lia) S2).
    unfold used in Hu. rewrite BBLOCK_add, mod_add_BPB in Hu by done. fold n in Hu. congruence.
  - run E2. split; [done|].
    split; [eapply fs_ok_same; [exact H|exact T2|]; by eapply tx_frame_trans|].
    split; [by eapply tx_frame_trans|congruence].
Qed.

(** How [balloc] leaves the machine when it takes block [b]. *)
Record allocated (k k' : kstate) (c p : nat) (a a' : cache) (s : Z) (bl : list Z) (b : Z) : Prop := {
  al_ok : fs_ok 0 k' c p a' s (logged b (logged (BBLOCK b (k_sb k)) bl));
  al_used : used (a_blk a') (k_sb k) b = true;
  al_rest : forall b', 0 <= b' < sb_size (k_sb k) -> b' <> b ->
    used (a_blk a') (k_sb k) b' = used (a_blk a) (k_sb k) b';
  al_zero : a_blk a' b = replicate BSIZE 0;
  al_blk : forall n, n <> b -> n <> BBLOCK b (k_sb k) -> a_blk a' n = a_blk a n;
  al_held : a_held a' = a_held a;
  al_frame : tx_frame k k';
  al_disk : k_disk k' = k_disk k
}.

(** The inner loop stops at the first free block. *)
Lemma free_bit_first f sb b r :
  (BPB | b) -> 0 <= b -> b <= r < b + BPB -> r < sb_size sb -> used f sb r = false ->
  (forall b', b <= b' < r -> used f sb b' = true) ->
  free_bit (Z.to_nat BPB) 0 b (sb_size sb) (f (BBLOCK b sb)) = Some (r - b).
Proof.
  intros Hd Hb0 Hbr Hrs Hu Hall.
  pose proof (free_bit_spec (Z.to_nat BPB) 0 b (sb_size sb) (f (BBLOCK b sb)) ltac:(lia) ltac:(done)) as S.
  assert (Hbit : forall j, 0 <= j < BPB -> used f sb (b + j) = bit (f (BBLOCK b sb)) j).
  { intros j Hj. unfold used. by rewrite BBLOCK_add, mod_add_BPB by done. }
  assert (Hbi : bit (f (BBLOCK b sb)) (r - b) = false).
  { rewrite <- Hbit by lia. by replace (b + (r - b)) with r by lia. }
  destruct (free_bit _ 0 b (sb_size sb) (f (BBLOCK b sb))) as [x|]; [|rewrite S in Hbi by lia; done].
  destruct S as (S1 & S2 & S3 & S4). f_equal. destruct (Z.lt_trichotomy x (r - b)) as [Hx|[Hx|Hx]]; [|done|].
  - rewrite <- Hbit, Hall in S3 by lia. done.
  - rewrite S4 in Hbi by lia. done.
Qed.

(** The block of the free map that has the first free block. *)
Lemma balloc_body_found k c p a s bl b r e :
  fs_ok 2 k c p a s bl -> (BPB | b) -> b <= r < b + BPB -> 0 <= b -> r < sb_size (k_sb k) ->
  used (a_blk a) (k_sb k) r = false ->
  (forall b', b <= b' < r -> used (a_blk a) (k_sb k) b' = true) ->
  ~ in_log s r -> (forall b', 0 <= b' < sb_size (k_sb k) -> BBLOCK b' (k_sb k) <> r) ->
  a_held a !! r = None ->
  exists k' a', balloc_body 1 b k e = Done (inr r) k' e /\ allocated k k' c p a a' s bl r.
Proof.
  intros H Hd Hbr Hb0 Hrs Hu Hall Hnl Hnb Hnh. pose proof H as [Q T M R B Hh].
  destruct (mo_bmap _ _ M b ltac:(lia)) as [Hr Hl].
  destruct (fs_ok_size _ _ _ _ _ _ _ r H ltac:(lia)) as [Hrr Hr32]. set (sb := k_sb k) in *.
  set (n := BBLOCK b sb) in *.
  destruct (tx_bread k c p a s bl n e Q T Hr (Hh b ltac:(lia))) as (i & k1 & E1 & T1 & F1 & D1 & V1); [lia|].
  assert (Hlen : length (a_blk a n) = BSIZE) by (eapply blk_length; apply T).
  assert (En : BBLOCK r sb = n).
  { unfold n. rewrite <- (BBLOCK_add b (r - b)) by (done || lia). f_equal. lia. }
  assert (Em : r mod BPB = r - b).
  { replace (r mod BPB) with ((b + (r - b)) mod BPB) by (f_equal; lia). apply mod_add_BPB; [done|lia]. }
  destruct (tx_finish_then k1 c p a s bl n i (set_bit (r - b)) e (bzero 1 r;; ret (inr r : Z + Z)))
    as (k2 & E2 & _ & T2 & F2 & D2); [by eapply quiet_tx|done|by apply Hh; lia|done| | |].
  { eapply room_tx; [done|]. eapply rooms_room; [|done]. lia. }
  { unfold set_bit. by rewrite length_set_byte. }
  set (a1 := store n (set_bit (r - b) (a_blk a n)) a) in *.
  assert (H2 : fs_ok 1 k2 c p a1 s (logged n bl))
    by (eapply fs_ok_step; [exact H|exact T2|by eapply tx_frame_trans|done]).
  assert (F12 : tx_frame k k2) by (by eapply tx_frame_trans).
  destruct (bzero_done k2 c p a1 s (logged n bl) r e) as (k3 & E3 & T3 & F3 & D3);
    [apply H2|done|by eapply in_range_tx|done|done|eapply rooms_room; [|apply H2]; lia| |].
  { pose proof (fo_bufs _ _ _ _ _ _ _ H2). lia. }
  set (a2 := store r (replicate BSIZE 0) a1) in *.
  exists k3, a2. split.
  { unfold balloc_body. rewrite bind_gets. fold sb. rewrite (proj2 (Z.ltb_lt _ _)) by lia. fold n.
    run E1. unfold bdata. rewrite bind_gets, V1. unfold n. rewrite (free_bit_first _ sb b r) by done.
    replace (b + (r - b)) with r by lia. fold (set_bit (r - b)). rewrite E2. by run E3. }
  assert (Hua : forall b', 0 <= b' < sb_size sb -> used (a_blk a2) sb b' = used (a_blk a1) sb b').
  { intros b' Hb'. unfold used, a2. simpl. by rewrite decide_False by (by apply Hnb). }
  destruct (used_set (a_blk a) (a_blk a1) sb r (set_bit (r - b)) true) as [U1 U2]; [done| | |].
  { rewrite En. intros m. unfold a1. simpl. case_decide; by subst. }
  { rewrite En, Em. intros j Hj. apply bit_set_bit; [done|lia|done]. }
  split; fold sb; rewrite ?En.
  - eapply fs_ok_step; [exact H2|exact T3|done|done].
  - by rewrite Hua by lia.
  - intros b' Hb' Hne. rewrite Hua by done. apply U2; [|done].
    by destruct (fs_ok_size _ _ _ _ _ _ _ b' H Hb').
  - unfold a2. simpl. by rewrite decide_True.
  - intros m H1 Hm. unfold a2, a1. simpl. by rewrite !decide_False.
  - done.
  - by eapply tx_frame_trans.
  - congruence.
Qed.

Lemma allocated_after k k1 k' c p a a' s bl b :
  tx_frame k k1 -> k_disk k1 = k_disk k -> allocated k1 k' c p a a' s bl b ->
  allocated k k' c p a a' s bl b.
Proof.
  intros F D [A1 A2 A3 A4 A5 A6 A7 A8].
  pose proof (tx_frame_field k_sb _ _ ltac:(done) F) as E. rewrite E in *.
  split; try done; [by eapply tx_frame_trans|congruence].
Qed.

(** The loop over the blocks of the free map, [m] of them before the one with the
    first free block. *)
Lemma balloc_loop m : forall fuel k c p a s bl b r e,
  fs_ok 2 k c p a s bl -> (BPB | b) -> 0 <= b ->
  b + Z.of_nat m * BPB <= r < b + (Z.of_nat m + 1) * BPB -> r < sb_size (k_sb k) -> (m < fuel)%nat ->
  used (a_blk a) (k_sb k) r = false ->
  (forall b', 0 <= b' < r -> used (a_blk a) (k_sb k) b' = true) ->
  ~ in_log s r -> (forall b', 0 <= b' < sb_size (k_sb k) -> BBLOCK b' (k_sb k) <> r) ->
  a_held a !! r = None ->
  exists k' a', iter fuel (balloc_body 1) b k e = Done r k' e /\ allocated k k' c p a a' s bl r.
Proof.
  induction m as [|m IH]; intros fuel k c p a s bl b r e H Hd Hb Hr Hs Hf Hu Hall Hl Hnb Hh;
    (destruct fuel as [|fuel]; [lia|]); cbn [iter].
  - destruct (balloc_body_found k c p a s bl b r e) as (k' & a' & E & A); try done; [lia| |].
    { intros b' Hb'. apply Hall. lia. }
    exists k', a'. split; [by run E|done].
  - assert (BPB > 0) by done.
    destruct (balloc_body_full k c p a s bl b e) as (k1 & E1 & H1 & F1 & D1); try done; [nia| |].
    { intros b' Hb' Hs'. apply Hall. nia. }
    pose proof (tx_frame_field k_sb _ _ ltac:(done) F1) as Es.
    destruct (IH fuel k1 c p a s bl (b + BPB) r e) as (k' & a' & E & A); rewrite ?Es; try done.
    + apply Z.divide_add_r; [done|]. by exists 1.
    + lia.
    + nia.
    + lia.
    + exists k', a'. split; [by run E1|]. by eapply allocated_after.
Qed.

Lemma balloc_loop_full m : forall fuel k c p a s bl b e,
  fs_ok 2 k c p a s bl -> (BPB | b) -> 0 <= b -> sb_size (k_sb k) <= b + Z.of_nat m * BPB ->
  (m < fuel)%nat ->
  (forall b', 0 <= b' < sb_size (k_sb k) -> used (a_blk a) (k_sb k) b' = true) ->
  exists k', iter fuel (balloc_body 1) b k e = Panic "balloc: out of blocks" k'.
Proof.
  induction m as [|m IH]; intros fuel k c p a s bl b e H Hd Hb Hs Hf Hall;
    (destruct fuel as [|fuel]; [lia|]); cbn [iter].
  - exists k. unfold balloc_body. unfold bind at 1 2, gets. by rewrite (proj2 (Z.ltb_ge _ _)) by lia.
  - destruct (Z.ltb_spec b (sb_size (k_sb k))) as [Hlt|Hge].
    + destruct (balloc_body_full k c p a s bl b e) as (k1 & E1 & H1 & F1 & D1); try done.
      { intros b' Hb' Hs'. apply Hall. lia. }
      pose proof (tx_frame_field k_sb _ _ ltac:(done) F1) as Es.
      destruct (IH fuel k1 c p a s bl (b + BPB) e) as (k' & E); rewrite ?Es; try done.
      * apply Z.divide_add_r; [done|]. by exists 1.
      * assert (BPB > 0) by done. lia.
      * lia.
      * lia.
      * exists k'. by run E1.
    + exists k. unfold balloc_body. unfold bind at 1 2, gets. by rewrite (proj2 (Z.ltb_ge _ _)) by lia.
Qed.

(** [balloc] on a disk where everything that is not to be allocated is marked. *)
Lemma balloc_run (k : kstate) (c p : nat) (a : cache) (s : Z) (bl : list Z)
    (e : environment kstate) :
  fs_ok 2 k c p a s bl ->
  (forall b, 0 <= b < sb_size (k_sb k) ->
     in_log s b \/ (exists b', 0 <= b' < sb_size (k_sb k) /\ BBLOCK b' (k_sb k) = b)
     \/ is_Some (a_held a !! b) -> used (a_blk a) (k_sb k) b = true) ->
  (forall r, 0 <= r < sb_size (k_sb k) -> used (a_blk a) (k_sb k) r = false ->
     (forall b, 0 <= b < r -> used (a_blk a) (k_sb k) b = true) ->
     exists k' a', balloc 1 k e = Done r k' e /\ allocated k k' c p a a' s bl r)
  /\ ((forall b, 0 <= b < sb_size (k_sb k) -> used (a_blk a) (k_sb k) b = true) ->
      exists k', balloc 1 k e = Panic "balloc: out of blocks" k').
Proof.
  intros H Hmeta. unfold balloc. rewrite bind_gets. split.
  - intros r Hr Hu Hall. apply (balloc_loop (Z.to_nat (r / BPB))); try done.
    + apply Z.divide_0_r.
    + unfold BPB. div_lia.
    + lia.
    + unfold BPB. div_lia.
    + intros Hin. rewrite Hmeta in Hu; [done|done|by left].
    + intros b' Hb' E. rewrite Hmeta in Hu; [done|done|right; left; eauto].
    + apply eq_None_not_Some. intros Hs. rewrite Hmeta in Hu; [done|done|by right; right].
  - intros Hall. apply (balloc_loop_full (S (Z.to_nat (sb_size (k_sb k) / BPB))) _ k c p a s bl); try done.
    + apply Z.divide_0_r.
    + pose proof (mo_size _ _ (fo_map _ _ _ _ _ _ _ H)). unfold BPB. div_lia.
    + lia.
Qed.

(** Whether there is a free block, and the least one. *)
Lemma least_free f sb (m : nat) :
  (forall b, 0 <= b < Z.of_nat m -> used f sb b = true)
  \/ exists r, 0 <= r < Z.of_nat m /\ used f sb r = false /\ forall b, 0 <= b < r -> used f sb b = true.
Proof.
  induction m as [|m [IH|(r & Hr & Hu & IH)]]; [left; lia| |right; exists r; split; [lia|done]].
  destruct (used f sb (Z.of_nat m)) eqn:E.
  - left. intros b Hb. destruct (decide (b = Z.of_nat m)) as [->|]; [done|]. apply IH. lia.
  - right. exists (Z.of_nat m). split; [lia|done].
Qed.

(** C18: [balloc] allocates the least free block.  In a transaction with room for
    two blocks, on a disk whose log, free map and held blocks are all marked as
    used, [balloc] returns the least block [r] that is marked free.  Afterwards
    [r] is marked as used and holds zeros, every other block is marked as before,
    and no block but [r] and one block of the free map has changed; both are in
    the log and nothing is written to the disk.  When every block is marked as
    used, [balloc] panics. *)
Theorem balloc_allocates (k : kstate) (c p : nat) (a : cache) (s : Z) (bl : list Z)
    (e : environment kstate) :
  fs_ok 2 k c p a s bl ->
  (forall b, 0 <= b < sb_size (k_sb k) ->
     in_log s b \/ (exists b', 0 <= b' < sb_size (k_sb k) /\ BBLOCK b' (k_sb k) = b)
     \/ is_Some (a_held a !! b) -> used (a_blk a) (k_sb k) b = true) ->
  (forall r, 0 <= r < sb_size (k_sb k) -> used (a_blk a) (k_sb k) r = false ->
     (forall b, 0 <= b < r -> used (a_blk a) (k_sb k) b = true) ->
     exists k' a', balloc 1 k e = Done r k' e /\ allocated k k' c p a a' s bl r)
  /\ ((forall b, 0 <= b < sb_size (k_sb k) -> used (a_blk a) (k_sb k) b = true) ->
      exists k', balloc 1 k e = Panic "balloc: out of blocks" k').
Proof. apply balloc_run. Qed.

(** ** A small file system

    100 blocks: the log at 2, inodes at 32, the free map at 33, and data from 34
    on, of which 34 to 39 are in use. *)
Definition small_sb : superblock := mk_superblock 100 66 8 30 2 32 33.

Definition small_map : list Z := replicate 5 255 ++ replicate 507 0.

(** Such a disk with the contents [d] in its other blocks. *)
Definition small_disk (d : gmap Z (list Z)) : gmap Z (list Z) := <[33 := small_map]> d.

Lemma block_sized_small d : block_sized d -> block_sized (small_disk d).
Proof.
  intros H n. unfold small_disk. destruct (decide (n = 33)) as [->|Hn].
  - rewrite lookup_insert_eq. by vm_compute.
  - rewrite lookup_insert_ne by done. apply H.
Qed.

Lemma small_fs d j : block_sized d -> (j <= 20)%nat ->
  exists k, fs_ok j k 0 0 (fresh_cache (small_disk d)) 2 [] /\ k_sb k = small_sb
    /\ k_disk k = small_disk d /\ k_disksize k = 1000.
Proof.
  intros Hd Hj. destruct (machine_rest (small_disk d) (block_sized_small d Hd)) as (k0 & _ & Q & C & Hl & Hdk & Hs & _).
  set (k := set_k_sb small_sb (upd_log one_more k0)).
  assert (Es : k_disksize k = 1000) by exact Hs. assert (E1000 : u32 1000 = 1000) by done.
  assert (El : k_log k = one_more machine_log) by (unfold k; simpl; by rewrite Hl).
  assert (T : tx k 0 (fresh_cache (small_disk d)) 2 []).
  { split; [by apply (cache_ok_ext k0)| |done|].
    - split; rewrite ?El, ?Es; try done. apply geometry_machine; [unfold LOGSIZE; simpl; lia|constructor..].
    - intros n _. unfold disk_block. change (k_disk k) with (k_disk k0). by rewrite Hdk. }
  exists k. split; [|split; [done|split; [exact Hdk|done]]].
  split; [by apply (quiet_ext k0)|done| | | |].
  - split; rewrite ?Es, ?E1000; [simpl; lia|]. intros b Hb. simpl in Hb.
    assert (E : BBLOCK b (k_sb k) = 33).
    { unfold BBLOCK. simpl. unfold BPB. rewrite Z.div_small by lia. by vm_compute. }
    rewrite E. unfold in_range, in_log, LOGSIZE. rewrite Es, E1000. lia.
  - intros bl' Hb'. simpl in Hb'. unfold room. rewrite El, Es, E1000. simpl. unfold LOGSIZE. lia.
  - simpl. unfold NBUF. rewrite dom_empty_L, size_empty. lia.
  - intros b _. apply lookup_empty.
Qed.

Lemma small_used d b : 0 <= b < 100 -> used (dblk (small_disk d)) small_sb b = (b <? 40).
Proof.
  intros Hb. unfold used. replace (BBLOCK b small_sb) with 33.
  2: { unfold BBLOCK, BPB. simpl. rewrite Z.div_small by lia. by vm_compute. }
  rewrite Z.mod_small by (unfold BPB; lia). unfold dblk, small_disk. rewrite lookup_insert_eq. simpl.
  assert (exists n, b = Z.of_nat n /\ (n < 100)%nat) as (n & -> & Hn) by (exists (Z.to_nat b); lia).
  do 100 (destruct n as [|n]; [vm_compute; reflexivity|]). lia.
Qed.

Lemma balloc_allocates_witness :
  exists k k' a', balloc 1 k [] = Done 40 k' []
    /\ allocated k k' 0 0 (fresh_cache (small_disk ∅)) a' 2 [] 40.
Proof.
  destruct (small_fs ∅ 2 block_sized_empty ltac:(lia)) as (k & H & Hsb & _).
  assert (M : forall b, 0 <= b < sb_size (k_sb k) ->
     in_log 2 b \/ (exists b', 0 <= b' < sb_size (k_sb k) /\ BBLOCK b' (k_sb k) = b)
     \/ is_Some (a_held (fresh_cache (small_disk ∅)) !! b) ->
     used (a_blk (fresh_cache (small_disk ∅))) (k_sb k) b = true).
  { rewrite Hsb. intros b Hb [Hl|[(b' & Hb' & <-)|[x Hx]]]; [| |cbv [fresh_cache a_held] in Hx; by rewrite lookup_empty in Hx].
    - apply (eq_trans (small_used ∅ b Hb)). unfold in_log, LOGSIZE in Hl. apply Z.ltb_lt. lia.
    - apply (eq_trans (small_used ∅ _ Hb)). unfold BBLOCK, BPB. simpl in *.
      rewrite Z.div_small by lia. by vm_compute. }
  destruct (proj1 (balloc_allocates k 0 0 (fresh_cache (small_disk ∅)) 2 [] [] H M) 40) as (k' & a' & E & A).
  - rewrite Hsb. simpl. lia.
  - rewrite Hsb. exact (small_used ∅ 40 ltac:(lia)).
  - rewrite Hsb. intros b Hb. apply (eq_trans (small_used ∅ b ltac:(lia))). apply Z.ltb_lt. lia.
  - exists k, k', a'. split; [exact E|exact A].
Defined.

Lemma bfree_frees_witness :
  exists k k' a', bfree 1 39 k [] = Done tt k' [] /\ used (a_blk a') small_sb 39 = false.
Proof.
  destruct (small_fs ∅ 1 block_sized_empty ltac:(lia)) as (k & H & Hsb & _).
  destruct (proj1 (bfree_frees k 0 0 (fresh_cache (small_disk ∅)) 2 [] 39 [] H ltac:(rewrite Hsb; simpl; lia)))
    as (k' & a' & E & _ & U & _).
  - rewrite Hsb. exact (small_used ∅ 39 ltac:(lia)).
  - exists k, k', a'. split; [exact E|]. rewrite <- Hsb. exact U.
Defined.
