(* ===== verification/Contents.v ===== *)
(** * The contents of files ([bmap], [readi], [writei] of fs.c)

    A file is the bytes of the blocks its inode refers to, the first twelve
    directly and the others through the indirect block.  Inside a transaction
    [readi] returns these bytes, and [writei] replaces them, allocating the blocks
    the file does not have yet, and leaves everything else alone. *)

From stdpp Require Import base gmap list strings sets.
From Stdlib Require Import ZArith Lia.
From S2P Require Import Prelude State Bytes Spinlock Sched Bio Cache Machine Log LogSpec Crash Transaction Fs FsFormat Tx Balloc.

(** ** What a file holds *)

Definition addr (ip : inode) (n : nat) : Z := default 0 (i_addrs ip !! n).

(** The block numbers of a file: block [n] of its contents for [n] below [MAXFILE],
    and the indirect block for [n = MAXFILE].  0 stands for a block it does not have. *)
Definition fptr (blk : Z -> list Z) (ip : inode) (n : Z) : Z :=
  if n <? 12 then addr ip (Z.to_nat n)
  else if n =? MAXFILE then addr ip NDIRECT
  else if addr ip NDIRECT =? 0 then 0
  else rd 4 (4 * Z.to_nat (n - 12)) (blk (addr ip NDIRECT)).

Definition fbyte (blk : Z -> list Z) (ip : inode) (x : Z) : Z :=
  byte_at (blk (fptr blk ip (x / 512))) (x mod 512).

(** The [n] bytes at [off]. *)
Definition fbytes (blk : Z -> list Z) (ip : inode) (off : Z) (n : nat) : list Z :=
  (fun j => fbyte blk ip (off + Z.of_nat j)) <$> seq 0 n.

Lemma length_fbytes blk ip off n : length (fbytes blk ip off n) = n.
Proof. unfold fbytes. by rewrite length_fmap, length_seq. Qed.

Lemma lookup_fbytes blk ip off n j : (j < n)%nat ->
  fbytes blk ip off n !! j = Some (fbyte blk ip (off + Z.of_nat j)).
Proof. intros Hj. unfold fbytes. by rewrite list_lookup_fmap, (lookup_seq_lt 0 n j Hj). Qed.

Lemma fbytes_app blk ip off n1 n2 :
  fbytes blk ip off (n1 + n2) = fbytes blk ip off n1 ++ fbytes blk ip (off + Z.of_nat n1) n2.
Proof.
  apply list_eq. intros j. destruct (decide (j < n1)%nat); [|destruct (decide (j < n1 + n2)%nat)].
  - rewrite lookup_app_l by (by rewrite length_fbytes). by rewrite !lookup_fbytes by lia.
  - rewrite lookup_app_r by (rewrite length_fbytes; lia). rewrite length_fbytes, !lookup_fbytes by lia.
    do 2 f_equal. lia.
  - by rewrite !lookup_ge_None_2 by (rewrite ?length_app, !length_fbytes; lia).
Qed.

(** A part of a block is a part of the file. *)
Lemma fbytes_block blk ip off m : 0 <= off -> (Z.to_nat (off mod 512) + m <= 512)%nat ->
  length (blk (fptr blk ip (off / 512))) = BSIZE ->
  take m (drop (Z.to_nat (off mod 512)) (blk (fptr blk ip (off / 512)))) = fbytes blk ip off m.
Proof.
  intros Hoff Hm Hl. unfold BSIZE in Hl. apply list_eq. intros j. destruct (decide (j < m)%nat) as [Hj|Hj].
  - rewrite lookup_take_lt, lookup_drop, lookup_fbytes by done.
    unfold fbyte, byte_at. replace ((off + Z.of_nat j) / 512) with (off / 512) by div_lia.
    replace (Z.to_nat ((off + Z.of_nat j) mod 512)) with (Z.to_nat (off mod 512) + j)%nat by div_lia.
    destruct (lookup_lt_is_Some_2 (blk (fptr blk ip (off / 512))) (Z.to_nat (off mod 512) + j)) as [v Hv]; [lia|].
    by rewrite Hv.
  - rewrite !lookup_ge_None_2; [done|rewrite length_fbytes; lia|rewrite length_take; lia].
Qed.

Lemma fptr_zero_indirect blk ip n : addr ip NDIRECT = 0 -> 12 <= n <= MAXFILE -> fptr blk ip n = 0.
Proof.
  intros H Hn. unfold fptr. rewrite (proj2 (Z.ltb_ge _ _)) by lia. rewrite H. by destruct (n =? MAXFILE).
Qed.

(** The pointers depend on the inode and on the indirect block only. *)
Lemma fptr_ext blk blk' ip n :
  (addr ip NDIRECT <> 0 -> blk' (addr ip NDIRECT) = blk (addr ip NDIRECT)) -> fptr blk' ip n = fptr blk ip n.
Proof.
  intros H. unfold fptr. destruct (n <? 12); [done|]. destruct (n =? MAXFILE); [done|].
  destruct (Z.eqb_spec (addr ip NDIRECT) 0) as [|Hne]; [done|]. by rewrite H.
Qed.

Lemma addr_set ip n v m : (n < length (i_addrs ip))%nat ->
  addr (set_i_addrs (<[n := v]> (i_addrs ip)) ip) m = if decide (m = n) then v else addr ip m.
Proof.
  intros Hn. unfold addr. simpl. case_decide as E; [subst; by rewrite list_lookup_insert_eq|by rewrite list_lookup_insert_ne].
Qed.

(** ** Well-formed files *)

(** A block that a file may have: a block of the file system that is marked as used,
    is not part of the log, the free map or the inodes, and is not held. *)
Record good (sb : superblock) (s : Z) (a : cache) (inum b : Z) : Prop := {
  gd_range : 0 < b < sb_size sb;
  gd_used : used (a_blk a) sb b = true;
  gd_log : ~ in_log s b;
  gd_map : forall b', 0 <= b' < sb_size sb -> BBLOCK b' sb <> b;
  gd_inode : IBLOCK inum sb <> b;
  gd_held : a_held a !! b = None
}.

Record file_ok (sb : superblock) (s : Z) (a : cache) (ip : inode) : Prop := {
  fi_dev : i_dev ip = 1;
  fi_addrs : length (i_addrs ip) = (NDIRECT + 1)%nat;
  fi_size : 0 <= i_size ip <= MAXFILE * 512;
  fi_good : forall n, 0 <= n <= MAXFILE -> fptr (a_blk a) ip n <> 0 -> good sb s a (i_inum ip) (fptr (a_blk a) ip n);
  fi_inj : forall n m, 0 <= n <= MAXFILE -> 0 <= m <= MAXFILE ->
    fptr (a_blk a) ip n = fptr (a_blk a) ip m -> fptr (a_blk a) ip n <> 0 -> n = m;
  fi_full : forall n, 0 <= n -> n * 512 < i_size ip -> fptr (a_blk a) ip n <> 0
}.

(** ** The machine *)

(** A transaction that may log the blocks [X], among them the free map and the block
    of the inode, and up to [N] blocks in all; what must not be allocated is marked
    as used. *)
Record fs_tx (N : nat) (X : gset Z) (k : kstate) (c p : nat) (a : cache) (s : Z) (bl : list Z) (inum : Z) : Prop := {
  ft_quiet : quiet k c p;
  ft_tx : tx k p a s bl;
  ft_map : map_ok k s;
  ft_held : forall b, 0 <= b < sb_size (k_sb k) -> a_held a !! BBLOCK b (k_sb k) = None;
  ft_logged : forall b, b ∈ bl -> b ∈ X;
  ft_inX : forall b, 0 <= b < sb_size (k_sb k) -> BBLOCK b (k_sb k) ∈ X;
  ft_size : (size X + 2 <= N)%nat;
  ft_room : forall bl', (length bl' < N)%nat -> room k s bl';
  ft_bufs : (size (dom (a_held a)) + N + 1 < NBUF)%nat;
  ft_zero : 0 < sb_size (k_sb k) /\ used (a_blk a) (k_sb k) 0 = true;
  ft_meta : forall b, 0 <= b < sb_size (k_sb k) ->
    in_log s b \/ (exists b', 0 <= b' < sb_size (k_sb k) /\ BBLOCK b' (k_sb k) = b)
    \/ b = IBLOCK inum (k_sb k) \/ is_Some (a_held a !! b) -> used (a_blk a) (k_sb k) b = true;
  ft_inode : 0 < IBLOCK inum (k_sb k) < sb_size (k_sb k) /\ ~ in_log s (IBLOCK inum (k_sb k))
    /\ a_held a !! IBLOCK inum (k_sb k) = None /\ IBLOCK inum (k_sb k) ∈ X
    /\ forall b, 0 <= b < sb_size (k_sb k) -> BBLOCK b (k_sb k) <> IBLOCK inum (k_sb k)
}.

Lemma ft_length N X k c p a s bl inum : fs_tx N X k c p a s bl inum -> (length bl <= size X)%nat.
Proof.
  intros F. rewrite <- (size_list_to_set (C := gset Z) bl) by apply (lo_geo _ _ _ (tx_log _ _ _ _ _ (ft_tx _ _ _ _ _ _ _ _ _ F))).
  apply subseteq_size. intros b Hb. apply elem_of_list_to_set in Hb. by apply (ft_logged _ _ _ _ _ _ _ _ _ F).
Qed.

(** What an operation on inode [i] leaves alone. *)
Definition strip_ip (i : nat) (k : kstate) : kstate := upd_inode i (fun _ => zero_inode) (strip_tx k).
Definition ip_frame (i : nat) (k k' : kstate) : Prop := strip_ip i k' = strip_ip i k.

Lemma ip_frame_refl i k : ip_frame i k k.
Proof. done. Qed.

Lemma ip_frame_trans i k1 k2 k3 : ip_frame i k1 k2 -> ip_frame i k2 k3 -> ip_frame i k1 k3.
Proof. unfold ip_frame. congruence. Qed.

Lemma ip_frame_field {A} (f : kstate -> A) i k k' :
  (forall k, f k = f (strip_ip i k)) -> ip_frame i k k' -> f k' = f k.
Proof. intros Hf H. rewrite (Hf k'), (Hf k). by rewrite H. Qed.

Lemma ip_frame_tx i k k' : tx_frame k k' -> ip_frame i k k'.
Proof. unfold tx_frame, ip_frame, strip_ip. by intros ->. Qed.

Lemma ip_frame_upd i k f : ip_frame i k (upd_inode i f k).
Proof.
  assert (E : forall l : list inode, alter (fun _ => zero_inode) i (alter f i l) = alter (fun _ => zero_inode) i l).
  { intros l. apply list_eq. intros j. destruct (decide (j = i)) as [->|Hj];
      rewrite ?list_lookup_alter_eq, ?list_lookup_alter_ne by done; [|done]. by destruct (l !! i). }
  unfold ip_frame, strip_ip, upd_inode, strip_tx. simpl. by rewrite E.
Qed.

Lemma ip_frame_other i j k k' : ip_frame i k k' -> j <> i -> inode_at k' j = inode_at k j.
Proof.
  intros F Hj. apply (ip_frame_field (fun k => inode_at k j) i); [|done]. intros k0. unfold inode_at. simpl.
  by rewrite list_lookup_alter_ne.
Qed.

Lemma ip_frame_length i k k' : ip_frame i k k' -> length (k_inode k') = length (k_inode k).
Proof.
  apply (ip_frame_field (fun k => length (k_inode k))). intros k0. simpl. by rewrite length_alter.
Qed.

Lemma inode_at_upd i f k : (i < length (k_inode k))%nat -> inode_at (upd_inode i f k) i = f (inode_at k i).
Proof.
  intros H. unfold inode_at, upd_inode. simpl. destruct (lookup_lt_is_Some_2 _ _ H) as [x Hx].
  by rewrite list_lookup_alter_eq, Hx.
Qed.

Lemma inode_at_tx i k k' : tx_frame k k' -> inode_at k' i = inode_at k i.
Proof. by apply (tx_frame_field (fun k => inode_at k i)). Qed.

Lemma tx_upd_inode i f k p a s bl : tx k p a s bl -> tx (upd_inode i f k) p a s bl.
Proof. intros [C L D S]. split; [by apply (cache_ok_ext k)|by destruct L|done|done]. Qed.

(** The transaction after a step. *)
Lemma fs_tx_step i N X X' k k' c p a a' s bl bl' inum :
  fs_tx N X k c p a s bl inum -> tx k' p a' s bl' -> ip_frame i k k' -> a_held a' = a_held a ->
  X ⊆ X' -> (forall b, b ∈ bl' -> b ∈ X') -> (size X' + 2 <= N)%nat ->
  (forall b, 0 <= b < sb_size (k_sb k) -> used (a_blk a) (k_sb k) b = true -> used (a_blk a') (k_sb k) b = true) ->
  fs_tx N X' k' c p a' s bl' inum.
Proof.
  intros [Q T M Hh Hl HX Hs Hr Hb H0 Hm Hi] T' F Eh Hsub Hbl HN Hu.
  pose proof (ip_frame_field k_sb i _ _ ltac:(done) F) as Esb.
  pose proof (ip_frame_field k_disksize i _ _ ltac:(done) F) as Eds.
  pose proof (ip_frame_field (fun k => log_size (k_log k)) i _ _ ltac:(done) F) as Els.
  pose proof (ip_frame_field (fun k => log_outstanding (k_log k)) i _ _ ltac:(done) F) as Elo.
  split; rewrite ?Esb, ?Eh; try done.
  - revert Q. apply quiet_ext; by apply (ip_frame_field _ i).
  - destruct M as [M1 M2]. split; rewrite ?Esb, ?Eds; [done|]. intros b Hb'. unfold in_range. rewrite Eds. by apply M2.
  - intros b Hb'. by apply Hsub, HX.
  - intros bl0 Hbl0. specialize (Hr bl0 Hbl0). unfold room in *. by rewrite Eds, Els, Elo.
  - destruct H0 as [H0 H1]. split; [done|]. apply Hu; [lia|done].
  - intros b Hb' Hc. apply Hu; [done|]. by apply Hm.
  - destruct Hi as (I1 & I2 & I3 & I4 & I5). split; [exact I1|].
    split; [done|]. split; [done|]. split; [by apply Hsub|done].
Qed.

(** ** Allocation *)

(** What [balloc] finds: a block that nobody has. *)
Record fresh (sb : superblock) (s : Z) (a : cache) (inum b : Z) : Prop := {
  fr_range : 0 < b < sb_size sb;
  fr_free : used (a_blk a) sb b = false;
  fr_log : ~ in_log s b;
  fr_map : forall b', 0 <= b' < sb_size sb -> BBLOCK b' sb <> b;
  fr_inode : IBLOCK inum sb <> b;
  fr_held : a_held a !! b = None
}.

(** The number of free blocks. *)
Definition nfree (f : Z -> list Z) (sb : superblock) : nat :=
  length (filter (fun b => used f sb b = false) (seqZ 0 (sb_size sb))).

Lemma elem_free f sb b :
  b ∈ filter (fun b => used f sb b = false) (seqZ 0 (sb_size sb)) <-> used f sb b = false /\ 0 <= b < sb_size sb.
Proof. rewrite list_elem_of_filter, elem_of_seqZ. split; intros [? ?]; split; done || lia. Qed.

Lemma nodup_free f sb : NoDup (filter (fun b => used f sb b = false) (seqZ 0 (sb_size sb))).
Proof. apply NoDup_filter, NoDup_seqZ. Qed.

Lemma nfree_zero f sb : (forall b, 0 <= b < sb_size sb -> used f sb b = true) -> nfree f sb = 0%nat.
Proof.
  intros H. unfold nfree. destruct (filter _ _) as [|b l] eqn:E; [done|].
  assert (used f sb b = false /\ 0 <= b < sb_size sb) as [H1 H2] by (apply elem_free; rewrite E; set_solver).
  by rewrite H in H1.
Qed.

(** Marking one block. *)
Lemma nfree_one f f' sb r : (forall b, 0 <= b < sb_size sb -> b <> r -> used f' sb b = used f sb b) ->
  (nfree f sb <= nfree f' sb + 1)%nat.
Proof.
  intros H. unfold nfree. rewrite Nat.add_1_r. change (S (length ?l)) with (length (r :: l)).
  apply submseteq_length, NoDup_submseteq; [apply nodup_free|]. intros b [H1 H2]%elem_free.
  destruct (decide (b = r)) as [->|Hb]; [by left|right]. apply elem_free. by rewrite H.
Qed.

Lemma nfree_same f f' sb : (forall b, 0 <= b < sb_size sb -> used f' sb b = used f sb b) -> (nfree f sb <= nfree f' sb)%nat.
Proof.
  intros H. apply submseteq_length, NoDup_submseteq; [apply nodup_free|]. intros b [H1 H2]%elem_free.
  apply elem_free. by rewrite H.
Qed.

(** [balloc] in a transaction that holds at most one block of the file besides [a]. *)
Lemma fs_tx_balloc N X k k1 c p a a1 s bl inum e :
  fs_tx N X k c p a s bl inum -> tx k1 p a1 s bl -> tx_frame k k1 -> a_blk a1 = a_blk a ->
  (size (dom (a_held a1)) <= size (dom (a_held a)) + 1)%nat ->
  (forall b, is_Some (a_held a1 !! b) -> is_Some (a_held a !! b) \/ good (k_sb k) s a inum b) ->
  ((exists k', balloc 1 k1 e = Panic "balloc: out of blocks" k') /\ nfree (a_blk a) (k_sb k) = 0%nat)
  \/ exists r k' a', balloc 1 k1 e = Done r k' e /\ allocated k1 k' c p a1 a' s bl r
       /\ fresh (k_sb k) s a inum r /\ a_held a1 !! r = None.
Proof.
  intros F T1 F1 Eb Hsz Hheld. pose proof (ft_length _ _ _ _ _ _ _ _ _ F) as Hlen.
  pose proof F as [Q T M Hh Hl HX Hs Hr Hb H0 Hm Hi].
  pose proof (tx_frame_field k_sb _ _ ltac:(done) F1) as Esb.
  assert (Hmeta : forall b, 0 <= b < sb_size (k_sb k) ->
    in_log s b \/ (exists b', 0 <= b' < sb_size (k_sb k) /\ BBLOCK b' (k_sb k) = b)
    \/ is_Some (a_held a1 !! b) -> used (a_blk a) (k_sb k) b = true).
  { intros b Hb' [H|[H|H]]; [apply Hm; [done|by left]|apply Hm; [done|by right; left]|].
    destruct (Hheld b H) as [H'|H']; [apply Hm; [done|by right; right; right]|apply H']. }
  assert (O : fs_ok 2 k1 c p a1 s bl).
  { split; [by eapply quiet_tx|done|by eapply map_ok_tx| | |].
    - intros bl' Hbl'. eapply room_tx; [done|]. apply Hr. lia.
    - lia.
    - rewrite Esb. intros b Hb'. apply eq_None_not_Some. intros H. destruct (Hheld _ H) as [H'|H'].
      + rewrite Hh in H' by done. by destruct H'.
      + by apply (gd_map _ _ _ _ _ H' b). }
  destruct (balloc_run k1 c p a1 s bl e O) as [R1 R2]; [by rewrite Esb, Eb|]. rewrite Esb, Eb in R1, R2.
  destruct (least_free (a_blk a) (k_sb k) (Z.to_nat (sb_size (k_sb k)))) as [H|(r & Hr' & Hu & Hall)].
  - left. split; [apply R2; intros b Hb'; apply H; lia|apply nfree_zero; intros b Hb'; apply H; lia].
  - right. destruct (R1 r ltac:(lia) Hu Hall) as (k' & a' & E & A). exists r, k', a'.
    assert (forall P, (P -> used (a_blk a) (k_sb k) r = true) -> ~ P) as Hno by (intros P HP HP'; rewrite HP in Hu; done).
    assert (a_held a1 !! r = None) as Hn1.
    { apply eq_None_not_Some, Hno. intros H. apply Hmeta; [lia|by right; right]. }
    split; [done|]. split; [done|]. split; [|done]. split; [|done| | | |].
    + destruct (decide (r = 0)) as [->|]; [|lia]. rewrite (proj2 H0) in Hu. done.
    + apply Hno. intros H. apply Hmeta; [lia|by left].
    + intros b' Hb'. apply Hno. intros H. apply Hmeta; [lia|right; left; by exists b'].
    + apply Hno. intros H. apply Hm; [lia|by right; right; left].
    + apply eq_None_not_Some, Hno. intros H. apply Hm; [lia|by right; right; right].
Qed.

Lemma used_ext f f' sb b : f' (BBLOCK b sb) = f (BBLOCK b sb) -> used f' sb b = used f sb b.
Proof. unfold used. by intros ->. Qed.

(** Inodes that differ in their addresses only. *)
Lemma fields_eq ip ip' : set_i_addrs [] ip' = set_i_addrs [] ip ->
  i_dev ip' = i_dev ip /\ i_inum ip' = i_inum ip /\ i_size ip' = i_size ip /\ i_type ip' = i_type ip.
Proof. destruct ip, ip'. unfold set_i_addrs. simpl. by intros [=]; subst. Qed.

(** A file that got the block [r] as its block [q]. *)
Lemma file_ok_insert sb s a a' ip ip' q r :
  file_ok sb s a ip -> fresh sb s a (i_inum ip) r -> a_held a' = a_held a ->
  (forall b, 0 <= b < sb_size sb -> used (a_blk a) sb b = true -> used (a_blk a') sb b = true) ->
  used (a_blk a') sb r = true -> set_i_addrs [] ip' = set_i_addrs [] ip -> length (i_addrs ip') = length (i_addrs ip) ->
  fptr (a_blk a') ip' q = r ->
  (forall n, 0 <= n <= MAXFILE -> n <> q -> fptr (a_blk a') ip' n = fptr (a_blk a) ip n) ->
  file_ok sb s a' ip'.
Proof.
  intros [D L S G I Fu] R Hh Hu Hr Ef El Eq En.
  assert (i_dev ip' = i_dev ip /\ i_inum ip' = i_inum ip /\ i_size ip' = i_size ip) as (E1 & E2 & E3)
    by (destruct (fields_eq _ _ Ef) as (? & ? & ? & _); done).
  pose proof (fr_range _ _ _ _ _ R) as Hr0.
  assert (Hne : forall n, 0 <= n <= MAXFILE -> n <> q -> fptr (a_blk a') ip' n <> r).
  { intros n Hn Hq E. rewrite En in E by done. pose proof (G n Hn ltac:(lia)) as H. rewrite E in H.
    pose proof (gd_used _ _ _ _ _ H). pose proof (fr_free _ _ _ _ _ R). congruence. }
  split; rewrite ?E1, ?E2, ?E3; [done|congruence|done| | |].
  - intros n Hn H. destruct (decide (n = q)) as [->|Hq].
    + rewrite Eq. destruct R. split; rewrite ?Hh; done.
    + rewrite En in * by done. destruct (G n Hn H). split; rewrite ?Hh; try done. apply Hu; [lia|done].
  - intros n m Hn Hm E H. destruct (decide (n = q)) as [->|Hq], (decide (m = q)) as [->|Hq']; [done| | |].
    + destruct (Hne m Hm Hq'). congruence.
    + destruct (Hne n Hn Hq). congruence.
    + rewrite !En in * by done. by apply I.
  - intros n Hn H. destruct (decide (n = q)) as [->|Hq]; [lia|]. rewrite En; [by apply Fu| |done]. unfold MAXFILE in *. lia.
Qed.

(** How a file changes: it keeps its blocks and gets blocks that were free.  The
    contents of blocks that were in use stay as they are, except for the free map
    and the blocks of the file from number [lo] on. *)
Record grown (lo : Z) (N : nat) (c p i : nat) (s : Z) (k : kstate) (a : cache) (X : gset Z)
    (k' : kstate) (a' : cache) (bl' : list Z) (X' : gset Z) : Prop := {
  gw_tx : fs_tx N X' k' c p a' s bl' (i_inum (inode_at k i));
  gw_file : file_ok (k_sb k) s a' (inode_at k' i);
  gw_frame : ip_frame i k k';
  gw_disk : k_disk k' = k_disk k;
  gw_sub : X ⊆ X';
  gw_fields : set_i_addrs [] (inode_at k' i) = set_i_addrs [] (inode_at k i);
  gw_held : a_held a' = a_held a;
  gw_old : forall m, 0 <= m <= MAXFILE -> fptr (a_blk a) (inode_at k i) m <> 0 ->
    fptr (a_blk a') (inode_at k' i) m = fptr (a_blk a) (inode_at k i) m;
  gw_new : forall m, 0 <= m <= MAXFILE -> fptr (a_blk a) (inode_at k i) m = 0 ->
    fptr (a_blk a') (inode_at k' i) m <> 0 -> used (a_blk a) (k_sb k) (fptr (a_blk a') (inode_at k' i) m) = false;
  gw_used : forall b, 0 <= b < sb_size (k_sb k) -> used (a_blk a) (k_sb k) b = true -> used (a_blk a') (k_sb k) b = true;
  gw_blk : forall b, 0 < b < sb_size (k_sb k) -> used (a_blk a) (k_sb k) b = true ->
    (forall b', 0 <= b' < sb_size (k_sb k) -> BBLOCK b' (k_sb k) <> b) ->
    (forall m, lo <= m <= MAXFILE -> b <> fptr (a_blk a) (inode_at k i) m) -> a_blk a' b = a_blk a b
}.

Lemma grown_trans lo N c p i s k1 a1 X1 k2 a2 bl2 X2 k3 a3 bl3 X3 : 0 <= lo ->
  grown lo N c p i s k1 a1 X1 k2 a2 bl2 X2 -> grown lo N c p i s k2 a2 X2 k3 a3 bl3 X3 ->
  grown lo N c p i s k1 a1 X1 k3 a3 bl3 X3.
Proof.
  intros Hlo G1 G2. pose proof (ip_frame_field k_sb i _ _ ltac:(done) (gw_frame _ _ _ _ _ _ _ _ _ _ _ _ _ G1)) as Esb.
  destruct G1 as [T1 F1 R1 D1 S1 E1 H1 O1 W1 U1 B1], G2 as [T2 F2 R2 D2 S2 E2 H2 O2 W2 U2 B2]. rewrite Esb in *.
  destruct (fields_eq _ _ E1) as (_ & Ei & _). rewrite Ei in T2.
  split; try done; [by eapply ip_frame_trans|congruence|set_solver|congruence|congruence| | | |].
  - intros m Hm Hp. rewrite O2; rewrite ?O1; done.
  - intros m Hm Hp Hp'. destruct (decide (fptr (a_blk a2) (inode_at k2 i) m = 0)) as [Hz|Hz].
    + specialize (W2 m Hm Hz Hp'). pose proof (fi_good _ _ _ _ F2 m Hm Hp') as Hg.
      apply not_true_iff_false. intros Hu. rewrite U1 in W2; [done| |done]. pose proof (gd_range _ _ _ _ _ Hg). lia.
    + rewrite O2 by done. by apply W1.
  - intros b Hb Hu. by apply U2, U1.
  - intros b Hb Hu Hn Hi. rewrite B2; [by apply B1|done|apply U1; [lia|done]|done|].
    intros m Hm E. destruct (decide (fptr (a_blk a1) (inode_at k1 i) m = 0)) as [Hz|Hz].
    + rewrite E, W1 in Hu; [done|lia|done|lia].
    + rewrite O1 in E by (done || lia). by apply (Hi m).
Qed.

Lemma grown_weaken lo N c p i s k a X k' a' bl' X' :
  grown MAXFILE N c p i s k a X k' a' bl' X' -> lo <= MAXFILE -> grown lo N c p i s k a X k' a' bl' X'.
Proof. intros [] Hlo. split; try done. intros b Hb Hu Hn Hi. apply gw_blk0; try done. intros m Hm. apply Hi. lia. Qed.

Lemma rd_zeros n o : rd n o (replicate BSIZE 0) = 0.
Proof.
  unfold rd. rewrite drop_replicate, take_replicate. generalize (n `min` (BSIZE - o))%nat. intros m.
  induction m as [|m IH]; [done|]. simpl. rewrite IH. lia.
Qed.

(** One more block: a fresh block [r] becomes block [q] of the file. *)
Lemma grown_insert N X k c p i a s bl k' a' bl' q r :
  fs_tx N X k c p a s bl (i_inum (inode_at k i)) -> file_ok (k_sb k) s a (inode_at k i) ->
  fresh (k_sb k) s a (i_inum (inode_at k i)) r -> (size X + 3 <= N)%nat ->
  tx k' p a' s bl' -> ip_frame i k k' -> k_disk k' = k_disk k -> a_held a' = a_held a ->
  set_i_addrs [] (inode_at k' i) = set_i_addrs [] (inode_at k i) ->
  length (i_addrs (inode_at k' i)) = length (i_addrs (inode_at k i)) ->
  fptr (a_blk a) (inode_at k i) q = 0 -> fptr (a_blk a') (inode_at k' i) q = r ->
  (forall n, 0 <= n <= MAXFILE -> n <> q -> fptr (a_blk a') (inode_at k' i) n = fptr (a_blk a) (inode_at k i) n) ->
  (forall b, b ∈ bl' -> b ∈ {[r]} ∪ X) ->
  used (a_blk a') (k_sb k) r = true ->
  (forall b, 0 <= b < sb_size (k_sb k) -> b <> r -> used (a_blk a') (k_sb k) b = used (a_blk a) (k_sb k) b) ->
  (forall b, b <> r -> b <> BBLOCK r (k_sb k) -> b <> fptr (a_blk a) (inode_at k i) MAXFILE -> a_blk a' b = a_blk a b) ->
  grown MAXFILE N c p i s k a X k' a' bl' ({[r]} ∪ X).
Proof.
  intros F O R HN T' Fr D Hh Ef El Ez Eq En Hbl Hr Hrest Hblk.
  assert (Hu : forall b, 0 <= b < sb_size (k_sb k) -> used (a_blk a) (k_sb k) b = true -> used (a_blk a') (k_sb k) b = true).
  { intros b Hb Hu. destruct (decide (b = r)) as [->|Hne]; [done|]. by rewrite Hrest. }
  split; try done.
  - eapply fs_tx_step; try done; [set_solver|]. pose proof (size_union_alt {[r]} X) as E. rewrite size_singleton in E.
    assert (size (X ∖ {[r]}) <= size X)%nat by (apply subseteq_size; set_solver). lia.
  - by eapply file_ok_insert.
  - set_solver.
  - intros m Hm Hp. apply En; [done|]. by intros ->.
  - intros m Hm Hz Hp. destruct (decide (m = q)) as [->|Hq]; [rewrite Eq; apply R|]. by rewrite En in Hp.
  - intros b Hb Hu' Hn Hi. apply Hblk; [|apply not_eq_sym, Hn|by apply Hi].
    + intros ->. rewrite (fr_free _ _ _ _ _ R) in Hu'. done.
    + pose proof (fr_range _ _ _ _ _ R). lia.
Qed.

(** The blocks that the transaction logs when it has allocated [r]. *)
Lemma logged_alloc bl r b0 (X : gset Z) : (forall b, b ∈ bl -> b ∈ X) -> b0 ∈ X ->
  forall b, b ∈ logged r (logged b0 bl) -> b ∈ {[r]} ∪ X.
Proof. intros H H0 b Hb. unfold logged in Hb. repeat case_decide; set_solver. Qed.

(** The place of pointer [m] of the inode among the blocks of the file. *)
Definition slot_ptr (m : nat) : Z := if decide (m = NDIRECT) then MAXFILE else Z.of_nat m.

Lemma fptr_slot blk ip m : (m <= NDIRECT)%nat -> fptr blk ip (slot_ptr m) = addr ip m.
Proof.
  intros H. unfold slot_ptr, fptr, NDIRECT in *. case_decide as E; [by subst|].
  rewrite (proj2 (Z.ltb_lt _ _)) by lia. f_equal. lia.
Qed.

(** Setting a pointer of the inode to a block of zeros changes that block of the file only. *)
Lemma fptr_set_slot blk blk' ip m r n :
  (m < length (i_addrs ip))%nat -> (m <= NDIRECT)%nat -> addr ip m = 0 -> r <> 0 -> blk' r = replicate BSIZE 0 ->
  (addr ip NDIRECT <> 0 -> blk' (addr ip NDIRECT) = blk (addr ip NDIRECT)) ->
  0 <= n <= MAXFILE -> n <> slot_ptr m ->
  fptr blk' (set_i_addrs (<[m := r]> (i_addrs ip)) ip) n = fptr blk ip n.
Proof.
  intros Hl Hm Hz Hr Hzero Hind Hn Hne. unfold slot_ptr, NDIRECT in *. unfold fptr, NDIRECT. rewrite !addr_set by done.
  destruct (Z.ltb_spec n 12) as [H12|H12].
  - rewrite decide_False; [done|]. intros E. case_decide; lia.
  - destruct (decide (12%nat = m)) as [<-|Hm12].
    + rewrite decide_True in Hne by done. rewrite (proj2 (Z.eqb_neq n MAXFILE)) by done.
      rewrite (proj2 (Z.eqb_neq r 0)), Hz by done. rewrite Hzero. apply rd_zeros.
    + destruct (n =? MAXFILE); [done|]. destruct (Z.eqb_spec (addr ip 12) 0); [done|]. by rewrite Hind.
Qed.

Lemma bmap_slot_new N X k c p i a s bl m e :
  fs_tx N X k c p a s bl (i_inum (inode_at k i)) -> file_ok (k_sb k) s a (inode_at k i) ->
  (i < length (k_inode k))%nat -> (m <= NDIRECT)%nat -> addr (inode_at k i) m = 0 -> (size X + 3 <= N)%nat ->
  ((exists k', bmap_slot i m k e = Panic "balloc: out of blocks" k') /\ nfree (a_blk a) (k_sb k) = 0%nat)
  \/ exists r k' a' bl', bmap_slot i m k e = Done r k' e /\ grown MAXFILE N c p i s k a X k' a' bl' ({[r]} ∪ X)
       /\ (nfree (a_blk a) (k_sb k) <= nfree (a_blk a') (k_sb k) + 1)%nat
       /\ r <> 0 /\ addr (inode_at k' i) m = r /\ (forall n, 0 <= n <= MAXFILE -> n <> slot_ptr m ->
            fptr (a_blk a') (inode_at k' i) n = fptr (a_blk a) (inode_at k i) n).
Proof.
  intros F O Hi Hm Hz HN. unfold bmap_slot, iaddr, idev. rewrite bind_gets. fold (addr (inode_at k i) m).
  rewrite Hz, Z.eqb_refl, bind_gets, (fi_dev _ _ _ _ O).
  destruct (fs_tx_balloc N X k k c p a a s bl _ e F (ft_tx _ _ _ _ _ _ _ _ _ F) (tx_frame_refl k) eq_refl) as
    [[(k' & E) Hz0]|(r & k1 & a' & E & A & R & _)]; [lia|by left| |].
  { left. split; [|done]. exists k'. unfold bind at 1. by rewrite E. }
  right. run E. unfold set_iaddr. rewrite bind_modify.
  set (g := fun ip => set_i_addrs (<[m := r]> (i_addrs ip)) ip). set (k' := upd_inode i g k1).
  pose proof (al_frame _ _ _ _ _ _ _ _ _ A) as F1. pose proof (inode_at_tx i _ _ F1) as Ei.
  assert (Hl1 : (i < length (k_inode k1))%nat).
  { rewrite (tx_frame_field (fun k => length (k_inode k)) _ _ ltac:(done) F1). done. }
  assert (Eip : inode_at k' i = g (inode_at k i)) by (unfold k'; rewrite inode_at_upd, Ei; done).
  pose proof (fi_addrs _ _ _ _ O) as Hla. unfold NDIRECT in Hla, Hm. pose proof (fr_range _ _ _ _ _ R) as Hr0.
  assert (Hlt : (m < length (i_addrs (inode_at k i)))%nat) by lia.
  assert (En : forall n, 0 <= n <= MAXFILE -> n <> slot_ptr m ->
    fptr (a_blk a') (inode_at k' i) n = fptr (a_blk a) (inode_at k i) n).
  { intros n Hn Hne. rewrite Eip. apply fptr_set_slot; try done; [lia|apply A|]. intros Hd.
    pose proof (fi_good _ _ _ _ O MAXFILE ltac:(unfold MAXFILE; lia) Hd) as Hg. apply (al_blk _ _ _ _ _ _ _ _ _ A).
    - intros Heq. pose proof (gd_used _ _ _ _ _ Hg) as H1.
      change (fptr (a_blk a) (inode_at k i) MAXFILE) with (addr (inode_at k i) NDIRECT) in H1.
      by rewrite Heq, (fr_free _ _ _ _ _ R) in H1.
    - apply not_eq_sym, (gd_map _ _ _ _ _ Hg). lia. }
  assert (Er : addr (inode_at k' i) m = r) by (rewrite Eip; unfold g; rewrite addr_set by done; by rewrite decide_True).
  exists r, k', a', (logged r (logged (BBLOCK r (k_sb k)) bl)). split; [done|].
  split; [|split; [apply (nfree_one _ _ _ r); intros b Hb Hne; by apply A|split; [lia|done]]].
  eapply (grown_insert N X k c p i a s bl k' a' _ (slot_ptr m) r); try done.
  - apply tx_upd_inode. apply (fo_tx _ _ _ _ _ _ _ (al_ok _ _ _ _ _ _ _ _ _ A)).
  - eapply ip_frame_trans; [by apply ip_frame_tx|apply ip_frame_upd].
  - apply A.
  - apply A.
  - by rewrite Eip.
  - rewrite Eip. unfold g. simpl. by rewrite length_insert.
  - by rewrite fptr_slot.
  - by rewrite fptr_slot.
  - apply logged_alloc; [apply F|]. apply (ft_inX _ _ _ _ _ _ _ _ _ F). lia.
  - apply A.
  - intros b Hb Hne. by apply A.
  - intros b H1 H2 _. by apply A.
Qed.

(** ** [bmap] *)

(** The indirect block of a file, for the blocks of the contents behind it. *)
Lemma fptr_entry blk ip n : 12 <= n < MAXFILE -> addr ip NDIRECT <> 0 ->
  fptr blk ip n = rd 4 (4 * Z.to_nat (n - 12)) (blk (addr ip NDIRECT)).
Proof.
  intros Hn Hd. unfold fptr. rewrite (proj2 (Z.ltb_ge _ _)), (proj2 (Z.eqb_neq n MAXFILE)) by lia.
  by rewrite (proj2 (Z.eqb_neq _ 0)).
Qed.

(** A block that the file has. *)
Lemma bmap_have k c p i a s bl n e :
  quiet k c p -> tx k p a s bl -> map_ok k s -> file_ok (k_sb k) s a (inode_at k i) ->
  (size (dom (a_held a)) + length bl < NBUF)%nat -> 0 <= n < MAXFILE -> fptr (a_blk a) (inode_at k i) n <> 0 ->
  exists k', bmap i n k e = Done (fptr (a_blk a) (inode_at k i) n) k' e /\ tx k' p a s bl /\ tx_frame k k'
    /\ k_disk k' = k_disk k.
Proof.
  intros Q T M O Hb Hn Hp. unfold bmap. change (Z.of_nat NDIRECT) with 12. change (Z.of_nat NINDIRECT) with 128.
  unfold bmap_slot, iaddr, idev. destruct (Z.ltb_spec n 12) as [H12|H12].
  - exists k. rewrite bind_gets. fold (addr (inode_at k i) (Z.to_nat n)). unfold fptr in *.
    rewrite (proj2 (Z.ltb_lt _ _)) in * by done. by rewrite (proj2 (Z.eqb_neq _ 0)).
  - rewrite (proj2 (Z.ltb_lt _ _)) by (unfold MAXFILE in *; lia).
    assert (Hd : addr (inode_at k i) NDIRECT <> 0).
    { intros Hz. by rewrite fptr_zero_indirect in Hp by (done || lia). }
    pose proof (fi_good _ _ _ _ O MAXFILE ltac:(unfold MAXFILE; lia) Hd) as G.
    change (fptr (a_blk a) (inode_at k i) MAXFILE) with (addr (inode_at k i) NDIRECT) in G.
    rewrite (fptr_entry (a_blk a) (inode_at k i) n) in Hp |- * by (done || lia). set (d := addr (inode_at k i) NDIRECT) in *.
    rewrite bind_assoc, bind_gets. fold (addr (inode_at k i) NDIRECT). fold d. rewrite (proj2 (Z.eqb_neq d 0)) by done. rewrite bind_ret, bind_gets, (fi_dev _ _ _ _ O).
    assert (Hr : in_range k d) by (pose proof (gd_range _ _ _ _ _ G); pose proof (mo_size _ _ M); unfold in_range; lia).
    destruct (tx_bread k c p a s bl d e Q T Hr (gd_held _ _ _ _ _ G) Hb) as (j & k1 & E1 & T1 & F1 & D1 & V1).
    run E1. unfold bdata. rewrite bind_gets, V1. rewrite (proj2 (Z.eqb_neq _ 0)) by done. rewrite bind_ret.
    destruct (tx_brelse k1 c p (hold d j a) s bl d j e) as (k2 & E2 & T2 & F2 & D2); [by eapply quiet_tx|done|simpl; by simplify_map_eq|].
    run E2. exists k2. rewrite unhold_hold in T2 by apply G. split; [done|]. split; [done|].
    split; [by eapply tx_frame_trans|congruence].
Qed.

(** A new entry of the indirect block [d], with the block held during the allocation. *)
Lemma grown_entry N X k c p i a s bl n k1 k2 j a2 r k' bl' :
  fs_tx N X k c p a s bl (i_inum (inode_at k i)) -> file_ok (k_sb k) s a (inode_at k i) ->
  12 <= n < MAXFILE -> (size X + 3 <= N)%nat -> let d := addr (inode_at k i) NDIRECT in
  d <> 0 -> d ∈ X -> fptr (a_blk a) (inode_at k i) n = 0 ->
  fresh (k_sb k) s a (i_inum (inode_at k i)) r -> k_sb k1 = k_sb k -> allocated k1 k2 c p (hold d j a) a2 s bl r ->
  let a' := unhold d (store d (wr 4 (4 * Z.to_nat (n - 12)) r (a_blk a2 d)) a2) in
  tx k' p a' s bl' -> tx_frame k k' -> k_disk k' = k_disk k ->
  bl' = logged d (logged r (logged (BBLOCK r (k_sb k)) bl)) ->
  grown MAXFILE N c p i s k a X k' a' bl' ({[r]} ∪ X) /\ fptr (a_blk a') (inode_at k' i) n = r
  /\ (nfree (a_blk a) (k_sb k) <= nfree (a_blk a') (k_sb k) + 1)%nat.
Proof.
  intros F O Hn HN d Hd HdX Hz R Esb A a' T' F' D' ->. pose proof (fr_range _ _ _ _ _ R) as Hr.
  pose proof (fi_good _ _ _ _ O MAXFILE ltac:(unfold MAXFILE; lia) Hd) as G.
  change (fptr (a_blk a) (inode_at k i) MAXFILE) with d in G.
  destruct A as [_ Au Ar _ Ab Ah _ _]. rewrite Esb in Au, Ar, Ab.
  assert (Hdr : d <> r).
  { intros E. pose proof (gd_used _ _ _ _ _ G) as H. rewrite E, (fr_free _ _ _ _ _ R) in H. done. }
  assert (Hdb : forall b, 0 <= b < sb_size (k_sb k) -> BBLOCK b (k_sb k) <> d) by apply G.
  assert (Ed : a_blk a2 d = a_blk a d) by (apply Ab; [done|apply not_eq_sym, Hdb; lia]).
  assert (Ld : length (a_blk a d) = BSIZE) by (eapply blk_length; apply F).
  assert (Edata : a_blk a' d = wr 4 (4 * Z.to_nat (n - 12)) r (a_blk a d)).
  { unfold a'. simpl. by rewrite decide_True, Ed. }
  assert (Eb : forall b, b <> d -> a_blk a' b = a_blk a2 b) by (intros b Hb; unfold a'; simpl; by rewrite decide_False).
  assert (Hu : forall b, 0 <= b < sb_size (k_sb k) -> used (a_blk a') (k_sb k) b = used (a_blk a2) (k_sb k) b).
  { intros b Hb. apply used_ext, Eb. by apply Hdb. }
  pose proof (inode_at_tx i _ _ F') as Ei.
  assert (r < 2 ^ 32).
  { pose proof (mo_size _ _ (ft_map _ _ _ _ _ _ _ _ _ F)). pose proof (u32_bounds (k_disksize k)). lia. }
  assert (Er : fptr (a_blk a') (inode_at k' i) n = r).
  { rewrite Ei, fptr_entry by done. fold d. rewrite Edata, rd_wr_same by (rewrite Ld; unfold BSIZE, MAXFILE in *; lia).
    apply Z.mod_small. change (2 ^ (8 * Z.of_nat 4)) with (2 ^ 32). lia. }
  split; [|split; [done|apply (nfree_one _ _ _ r); intros b Hb Hne; rewrite Hu by done; by apply Ar]].
  rewrite Ei in Er. eapply (grown_insert N X k c p i a s bl k' a' _ n r); try done; rewrite ?Ei; try done.
  - by apply ip_frame_tx.
  - unfold a'. simpl. rewrite Ah. simpl. apply delete_insert_id, G.
  - intros m Hm Hne. destruct (decide (12 <= m < MAXFILE)) as [H12|H12].
    + rewrite !fptr_entry by done. fold d. rewrite Edata. apply rd_wr_out. unfold MAXFILE in *. lia.
    + unfold fptr. destruct (Z.ltb_spec m 12); [done|]. by rewrite (proj2 (Z.eqb_eq m MAXFILE)) by lia.
  - intros b Hb. unfold logged at 1 in Hb. assert (b = d \/ b ∈ logged r (logged (BBLOCK r (k_sb k)) bl)) as [->|H'].
    { case_decide; set_solver. } { set_solver. }
    revert H'. apply logged_alloc; [apply F|]. apply (ft_inX _ _ _ _ _ _ _ _ _ F). lia.
  - by rewrite Hu by lia.
  - intros b Hb Hne. rewrite Hu by done. by apply Ar.
  - intros b H1 H2 H3. rewrite Eb by done. by apply Ab.
Qed.

(** The rest of [bmap] when the file has an indirect block that lacks the block asked for. *)
Lemma bmap_entry_new N X k c p i a s bl n e :
  fs_tx N X k c p a s bl (i_inum (inode_at k i)) -> file_ok (k_sb k) s a (inode_at k i) ->
  12 <= n < MAXFILE -> (size X + 3 <= N)%nat ->
  addr (inode_at k i) NDIRECT <> 0 -> addr (inode_at k i) NDIRECT ∈ X -> fptr (a_blk a) (inode_at k i) n = 0 ->
  ((exists k', bmap i n k e = Panic "balloc: out of blocks" k') /\ nfree (a_blk a) (k_sb k) = 0%nat)
  \/ exists r k' a' bl', bmap i n k e = Done r k' e /\ grown MAXFILE N c p i s k a X k' a' bl' ({[r]} ∪ X)
       /\ (nfree (a_blk a) (k_sb k) <= nfree (a_blk a') (k_sb k) + 1)%nat
       /\ r <> 0 /\ fptr (a_blk a') (inode_at k' i) n = r /\ addr (inode_at k' i) NDIRECT <> 0.
Proof.
  intros F O Hn HN Hd HdX Hz. pose proof (ft_length _ _ _ _ _ _ _ _ _ F) as Hlen.
  pose proof F as [Q T M _ Hl HX _ Hroom Hb _ _ _].
  pose proof (fi_good _ _ _ _ O MAXFILE ltac:(unfold MAXFILE; lia) Hd) as G.
  change (fptr (a_blk a) (inode_at k i) MAXFILE) with (addr (inode_at k i) NDIRECT) in G.
  pose proof Hz as Hz'. rewrite fptr_entry in Hz' by done. set (d := addr (inode_at k i) NDIRECT) in *.
  unfold bmap. change (Z.of_nat NDIRECT) with 12. change (Z.of_nat NINDIRECT) with 128.
  rewrite (proj2 (Z.ltb_ge n 12)), (proj2 (Z.ltb_lt (n - 12) 128)) by (unfold MAXFILE in *; lia).
  unfold bmap_slot, iaddr, idev. rewrite bind_assoc, bind_gets. fold (addr (inode_at k i) NDIRECT). fold d.
  rewrite (proj2 (Z.eqb_neq d 0)) by done. rewrite bind_ret, bind_gets, (fi_dev _ _ _ _ O).
  assert (Hr : in_range k d) by (pose proof (gd_range _ _ _ _ _ G); pose proof (mo_size _ _ M); unfold in_range; lia).
  destruct (tx_bread k c p a s bl d e Q T Hr (gd_held _ _ _ _ _ G) ltac:(lia)) as (j & k1 & E1 & T1 & F1 & D1 & V1).
  run E1. unfold bdata. rewrite bind_gets, V1, Hz', Z.eqb_refl, bind_assoc, bind_gets.
  rewrite (inode_at_tx i _ _ F1), (fi_dev _ _ _ _ O).
  destruct (fs_tx_balloc N X k k1 c p a (hold d j a) s bl _ e F T1 F1 eq_refl) as
    [[(k' & E) Hz0]|(r & k2 & a2 & E & A & R & Hrh)].
  { simpl. rewrite dom_insert_L, size_union_alt, size_singleton.
    assert (size (dom (a_held a) ∖ {[d]}) <= size (dom (a_held a)))%nat by (apply subseteq_size; set_solver). lia. }
  { simpl. intros b. destruct (decide (b = d)) as [->|]; simplify_map_eq; [by right|by left]. }
  { left. split; [|done]. exists k'. unfold bind at 1 2. by rewrite E. }
  right. rewrite bind_assoc. run E. pose proof (al_ok _ _ _ _ _ _ _ _ _ A) as [Q2 T2 _ _ _ _].
  pose proof (tx_frame_field k_sb _ _ ltac:(done) F1) as Esb. pose proof (al_frame _ _ _ _ _ _ _ _ _ A) as F2.
  assert (Hi2 : a_held a2 !! d = Some j) by (rewrite (al_held _ _ _ _ _ _ _ _ _ A); simpl; by simplify_map_eq).
  rewrite Esb in T2. set (bl2 := logged r (logged (BBLOCK r (k_sb k)) bl)) in *.
  assert (Hl2 : (length bl2 < N)%nat).
  { unfold bl2. pose proof (length_logged_le r (logged (BBLOCK r (k_sb k)) bl)). pose proof (length_logged_le (BBLOCK r (k_sb k)) bl). lia. }
  destruct (tx_update k2 c p a2 s bl2 d j (wr 4 (4 * Z.to_nat (n - 12)) r) e (ret r) Q2 T2 Hi2) as (k3 & E3 & T3 & F3 & D3).
  { apply G. } { apply (room_tx k); [by eapply tx_frame_trans|by apply Hroom]. }
  { rewrite length_wr. eapply blk_length, T2. }
  run E3. destruct (tx_brelse k3 c p (store d (wr 4 (4 * Z.to_nat (n - 12)) r (a_blk a2 d)) a2) s (logged d bl2) d j e)
    as (k4 & E4 & T4 & F4 & D4); [by eapply quiet_tx|done|done|].
  run E4. assert (F14 : tx_frame k k4) by (do 3 (eapply tx_frame_trans; [eassumption|]); done).
  edestruct (grown_entry N X k c p i a s bl n k1 k2 j a2 r k4 (logged d bl2)) as (W1 & W2 & W3); try done.
  { pose proof (al_disk _ _ _ _ _ _ _ _ _ A). congruence. }
  exists r, k4. eexists _, _. split; [done|]. split; [exact W1|]. split; [exact W3|]. split; [pose proof (fr_range _ _ _ _ _ R); lia|].
  split; [exact W2|]. by rewrite (inode_at_tx i _ _ F14).
Qed.

(** 1 for a file that has no indirect block yet. *)
Definition lacks (ip : inode) : nat := if addr ip NDIRECT =? 0 then 1 else 0.

Lemma size_insert_le (X : gset Z) b : (size ({[b]} ∪ X) <= S (size X))%nat.
Proof.
  rewrite size_union_alt, size_singleton.
  assert (size (X ∖ {[b]}) <= size X)%nat by (apply subseteq_size; set_solver). lia.
Qed.

(** The indirect block first, where the file has none. *)
Lemma bmap_after_slot i n r k k1 e :
  12 <= n < MAXFILE -> bmap_slot i NDIRECT k e = Done r k1 e -> addr (inode_at k1 i) NDIRECT = r -> r <> 0 ->
  bmap i n k e = bmap i n k1 e.
Proof.
  intros Hn E Ea Hr. unfold bmap. change (Z.of_nat NDIRECT) with 12. change (Z.of_nat NINDIRECT) with 128.
  rewrite (proj2 (Z.ltb_ge n 12)), (proj2 (Z.ltb_lt (n - 12) 128)) by (unfold MAXFILE in *; lia).
  assert (E1 : bmap_slot i NDIRECT k1 e = Done r k1 e).
  { unfold bmap_slot, iaddr. rewrite bind_gets. fold (addr (inode_at k1 i) NDIRECT). rewrite Ea.
    by rewrite (proj2 (Z.eqb_neq r 0)). }
  run E. by run E1.
Qed.

(** What [bmap] does to a file: the block asked for, allocated when the file did not
    have it, and the blocks that the transaction may log. *)
Record bmapped (N : nat) (c p i : nat) (s : Z) (n : Z) (k : kstate) (a : cache) (X : gset Z)
    (k' : kstate) (a' : cache) (bl' : list Z) (X' : gset Z) : Prop := {
  bm_grown : grown MAXFILE N c p i s k a X k' a' bl' X';
  bm_ptr : fptr (a_blk a') (inode_at k' i) n <> 0;
  bm_size : (size ({[fptr (a_blk a') (inode_at k' i) n]} ∪ X') + lacks (inode_at k' i)
    <= size X + 1 + lacks (inode_at k i))%nat;
  bm_ind : addr (inode_at k' i) NDIRECT <> 0 -> addr (inode_at k' i) NDIRECT ∈ X';
  bm_free : (nfree (a_blk a) (k_sb k) + lacks (inode_at k' i) <= nfree (a_blk a') (k_sb k) + 1 + lacks (inode_at k i))%nat;
  bm_same : fptr (a_blk a) (inode_at k i) n <> 0 -> inode_at k' i = inode_at k i
}.

Section Bmap.
Context (N : nat) (X : gset Z) (k : kstate) (c p i : nat) (a : cache) (s : Z) (bl : list Z) (n : Z) (e : environment kstate).
Context (F : fs_tx N X k c p a s bl (i_inum (inode_at k i))) (O : file_ok (k_sb k) s a (inode_at k i)).
Context (Hi : (i < length (k_inode k))%nat) (Hn : 0 <= n < MAXFILE).
Context (HX : addr (inode_at k i) NDIRECT <> 0 -> addr (inode_at k i) NDIRECT ∈ X).
Context (HN : (size X + lacks (inode_at k i) + 3 <= N)%nat).

Let outcome : Prop :=
  ((exists k', bmap i n k e = Panic "balloc: out of blocks" k') /\ (nfree (a_blk a) (k_sb k) <= lacks (inode_at k i))%nat)
  \/ exists k' a' bl' X', bmap i n k e = Done (fptr (a_blk a') (inode_at k' i) n) k' e
       /\ bmapped N c p i s n k a X k' a' bl' X'.

Lemma bmap_old : fptr (a_blk a) (inode_at k i) n <> 0 -> outcome.
Proof.
  intros Hz. right. pose proof (ft_length _ _ _ _ _ _ _ _ _ F). pose proof (ft_bufs _ _ _ _ _ _ _ _ _ F).
  destruct (bmap_have k c p i a s bl n e) as (k' & E & T & Fr & D); try apply F; try done; [lia|].
  pose proof (inode_at_tx i _ _ Fr) as Ei. exists k', a, bl, X. rewrite Ei. split; [done|].
  pose proof (size_insert_le X (fptr (a_blk a) (inode_at k i) n)).
  split; rewrite ?Ei; [|done|lia|done|lia|done]. split; rewrite ?Ei; try done.
  - eapply (fs_tx_step i); try done; [by apply ip_frame_tx|apply F|lia].
  - by apply ip_frame_tx.
Qed.

Lemma bmap_direct_new : n < 12 -> fptr (a_blk a) (inode_at k i) n = 0 -> outcome.
Proof.
  intros H12 Hz. assert (Eb : bmap i n = bmap_slot i (Z.to_nat n)).
  { unfold bmap. change (Z.of_nat NDIRECT) with 12. by rewrite (proj2 (Z.ltb_lt n 12)). }
  assert (Es : slot_ptr (Z.to_nat n) = n) by (unfold slot_ptr, NDIRECT; case_decide; lia).
  assert (Hm : (Z.to_nat n < NDIRECT)%nat) by (unfold NDIRECT; lia). unfold outcome.
  rewrite Eb. destruct (bmap_slot_new N X k c p i a s bl (Z.to_nat n) e) as [[H Hz0]|(r & k' & a' & bl' & E & G & Hf & Hr & Ea & Ed)];
    try done; [lia|by rewrite <- (fptr_slot (a_blk a)), Es by lia|lia|left; split; [done|lia]|].
  right. specialize (Ed MAXFILE ltac:(unfold MAXFILE; lia) ltac:(lia)).
  change (addr (inode_at k' i) NDIRECT = addr (inode_at k i) NDIRECT) in Ed. exists k', a', bl', ({[r]} ∪ X).
  assert (Ep : fptr (a_blk a') (inode_at k' i) n = r) by (by rewrite <- Es, fptr_slot by lia).
  rewrite Ep. split; [done|]. split; rewrite ?Ep; try done.
  - unfold lacks. rewrite Ed. pose proof (size_insert_le X r).
    replace ({[r]} ∪ ({[r]} ∪ X)) with ({[r]} ∪ X) by set_solver. lia.
  - rewrite Ed. intros Hd. specialize (HX Hd). set_solver.
  - unfold lacks. rewrite Ed. lia.
Qed.

(** The entry of the indirect block, which may just have been allocated. *)
Lemma bmap_entry k1 a1 bl1 X1 : 12 <= n ->
  grown MAXFILE N c p i s k a X k1 a1 bl1 X1 -> bmap i n k e = bmap i n k1 e ->
  addr (inode_at k1 i) NDIRECT <> 0 -> addr (inode_at k1 i) NDIRECT ∈ X1 ->
  fptr (a_blk a) (inode_at k i) n = 0 -> fptr (a_blk a1) (inode_at k1 i) n = 0 ->
  (size X1 <= size X + lacks (inode_at k i))%nat ->
  (nfree (a_blk a) (k_sb k) <= nfree (a_blk a1) (k_sb k) + lacks (inode_at k i))%nat -> outcome.
Proof.
  intros H12 G1 Eb Hd Hin Hz Hz1 Hsz Hfr. pose proof (fields_eq _ _ (gw_fields _ _ _ _ _ _ _ _ _ _ _ _ _ G1)) as (_ & Ei & _).
  pose proof (ip_frame_field k_sb i _ _ ltac:(done) (gw_frame _ _ _ _ _ _ _ _ _ _ _ _ _ G1)) as Esb. unfold outcome.
  rewrite Eb. destruct (bmap_entry_new N X1 k1 c p i a1 s bl1 n e) as [[H Hz0]|(r & k' & a' & bl' & E & G & Hf & Hr & Er & Ha)];
    [rewrite Ei; apply G1|rewrite Esb; apply G1|lia|lia|done|done|done|left; split; [done|rewrite Esb in Hz0; lia]|]. rewrite Esb in Hf.
  right. exists k', a', bl', ({[r]} ∪ X1). rewrite Er. split; [done|]. split; rewrite ?Er; try done.
  - by eapply grown_trans; [unfold MAXFILE; lia|..].
  - replace ({[r]} ∪ ({[r]} ∪ X1)) with ({[r]} ∪ X1) by set_solver. pose proof (size_insert_le X1 r).
    unfold lacks at 1. rewrite (proj2 (Z.eqb_neq _ 0)) by done. lia.
  - intros _. pose proof (gw_old _ _ _ _ _ _ _ _ _ _ _ _ _ G MAXFILE ltac:(unfold MAXFILE; lia) Hd) as Eo.
    change (addr (inode_at k' i) NDIRECT = addr (inode_at k1 i) NDIRECT) in Eo. rewrite Eo. set_solver.
  - unfold lacks at 1. rewrite (proj2 (Z.eqb_neq _ 0)) by done. lia.
Qed.

Lemma bmap_indirect_new : 12 <= n -> fptr (a_blk a) (inode_at k i) n = 0 -> outcome.
Proof.
  intros H12 Hz. destruct (decide (addr (inode_at k i) NDIRECT = 0)) as [Ed|Ed].
  2: { eapply (bmap_entry k a bl X); try done; [by apply HX|lia|lia]. }
  assert (El : lacks (inode_at k i) = 1%nat) by (unfold lacks; by rewrite Ed).
  destruct (bmap_slot_new N X k c p i a s bl NDIRECT e) as [[[k' E] Hz0]|(d & k1 & a1 & bl1 & E1 & G1 & Hf & Hd & Ea & En)];
    try done; [lia| |].
  { left. split; [|lia]. exists k'. unfold bmap. change (Z.of_nat NDIRECT) with 12. change (Z.of_nat NINDIRECT) with 128.
    rewrite (proj2 (Z.ltb_ge n 12)), (proj2 (Z.ltb_lt (n - 12) 128)) by (unfold MAXFILE in *; lia).
    unfold bind at 1. by rewrite E. }
  eapply (bmap_entry k1 a1 bl1 ({[d]} ∪ X)); try done.
  - apply (bmap_after_slot i n d); try done. lia.
  - congruence.
  - rewrite Ea. set_solver.
  - rewrite En; [done|lia|]. unfold slot_ptr. rewrite decide_True by done. lia.
  - pose proof (size_insert_le X d). lia.
  - lia.
Qed.

Lemma bmap_done : outcome.
Proof.
  destruct (decide (fptr (a_blk a) (inode_at k i) n = 0)); [|by apply bmap_old].
  destruct (Z.ltb_spec n 12); [by apply bmap_direct_new|by apply bmap_indirect_new].
Qed.

End Bmap.

(** ** [readi] *)

(** What reading needs of the machine. *)
Record reads (k : kstate) (c p : nat) (a : cache) (s : Z) (bl : list Z) (ip : inode) : Prop := {
  re_quiet : quiet k c p;
  re_tx : tx k p a s bl;
  re_map : map_ok k s;
  re_bufs : (size (dom (a_held a)) + length bl < NBUF)%nat;
  re_file : file_ok (k_sb k) s a ip
}.

Lemma reads_frame k k' c p a s bl ip : reads k c p a s bl ip -> tx k' p a s bl -> tx_frame k k' -> reads k' c p a s bl ip.
Proof.
  intros [Q T M B O] T' F. split; [by eapply quiet_tx|done|by eapply map_ok_tx|done|].
  by rewrite (tx_frame_field k_sb _ _ ltac:(done) F).
Qed.

Lemma good_range k s a inum b : map_ok k s -> good (k_sb k) s a inum b -> in_range k b.
Proof. intros M G. pose proof (gd_range _ _ _ _ _ G). pose proof (mo_size _ _ M). unfold in_range. lia. Qed.

Lemma readi_loop_done fuel : forall k c p i a s bl off n e,
  reads k c p a s bl (inode_at k i) -> 0 <= off -> 0 <= n -> off + n <= i_size (inode_at k i) ->
  (0 < fuel)%nat -> (0 < n -> (off + n + 511) / 512 - off / 512 < Z.of_nat fuel) ->
  exists k', readi_loop fuel i off n k e = Done (fbytes (a_blk a) (inode_at k i) off (Z.to_nat n)) k' e
    /\ tx k' p a s bl /\ tx_frame k k' /\ k_disk k' = k_disk k.
Proof.
  induction fuel as [|fuel IH]; intros k c p i a s bl off n e R Ho Hn Hs Hf0 Hf; [lia|]. cbn [readi_loop].
  destruct (Z.ltb_spec 0 n) as [Hn0|Hn0].
  2: { exists k. replace n with 0 by lia. split; [done|]. split; [apply R|]. split; [apply tx_frame_refl|done]. }
  pose proof R as [Q T M B O]. pose proof (fi_size _ _ _ _ O) as Hsz. unfold MAXFILE in Hsz.
  set (ip := inode_at k i) in *. change (Z.of_nat BSIZE) with 512.
  assert (Hq : 0 <= off / 512 < MAXFILE) by (unfold MAXFILE; div_lia).
  assert (Hp : fptr (a_blk a) ip (off / 512) <> 0) by (apply (fi_full _ _ _ _ O); div_lia).
  destruct (bmap_have k c p i a s bl (off / 512) e) as (k1 & E1 & T1 & F1 & D1); try done. fold ip in E1. run E1.
  pose proof (fi_good _ _ _ _ O (off / 512) ltac:(lia) Hp) as G.
  unfold idev. rewrite bind_gets, (inode_at_tx i _ _ F1). fold ip. rewrite (fi_dev _ _ _ _ O).
  pose proof (reads_frame _ _ _ _ _ _ _ _ R T1 F1) as R1.
  destruct (tx_bread k1 c p a s bl (fptr (a_blk a) ip (off / 512)) e) as (j & k2 & E2 & T2 & F2 & D2 & V2);
    [apply R1|done|eapply in_range_tx; [done|by eapply good_range]|apply G|done|].
  run E2. unfold bdata. rewrite bind_gets, V2.
  destruct (tx_brelse k2 c p (hold (fptr (a_blk a) ip (off / 512)) j a) s bl (fptr (a_blk a) ip (off / 512)) j e)
    as (k3 & E3 & T3 & F3 & D3); [eapply quiet_tx; [done|apply R1]|done|simpl; by simplify_map_eq|].
  run E3. rewrite unhold_hold in T3 by apply G.
  assert (F13 : tx_frame k k3) by (do 2 (eapply tx_frame_trans; [eassumption|]); done).
  pose proof (inode_at_tx i _ _ F13) as Ei. set (m := Z.min n (512 - off mod 512)).
  assert (Hm : 0 < m <= n /\ off mod 512 + m <= 512) by (unfold m; div_lia). specialize (Hf Hn0).
  destruct (IH k3 c p i a s bl (off + m) (n - m) e) as (k4 & E4 & T4 & F4 & D4); rewrite ?Ei; fold ip; try lia.
  { eapply reads_frame; [exact R|done|done]. } { div_lia. } { intros Hmn. replace ((off + m) / 512) with (off / 512 + 1) by (unfold m in *; div_lia). div_lia. }
  rewrite Ei in E4. fold ip in E4. rewrite u32_small by lia. run E4. exists k4. split.
  - rewrite fbytes_block; [|lia|div_lia|eapply blk_length, T]. unfold ret. f_equal.
    replace (Z.to_nat n) with (Z.to_nat m + Z.to_nat (n - m))%nat by lia. rewrite fbytes_app. do 2 f_equal. lia.
  - split; [done|]. split; [by eapply tx_frame_trans|congruence].
Qed.

(** ** [writei] *)

(** New contents for a block of the file. *)
Lemma grown_store N X k c p i a s bl m v k' :
  fs_tx N X k c p a s bl (i_inum (inode_at k i)) -> file_ok (k_sb k) s a (inode_at k i) ->
  0 <= m < MAXFILE -> let b := fptr (a_blk a) (inode_at k i) m in b <> 0 ->
  tx k' p (store b v a) s (logged b bl) -> tx_frame k k' -> k_disk k' = k_disk k ->
  (size ({[b]} ∪ X) + 2 <= N)%nat ->
  grown 0 N c p i s k a X k' (store b v a) (logged b bl) ({[b]} ∪ X)
  /\ forall n, fptr (a_blk (store b v a)) (inode_at k' i) n = fptr (a_blk a) (inode_at k i) n.
Proof.
  intros F O Hm b Hb T' Fr D HN. pose proof (inode_at_tx i _ _ Fr) as Ei. rewrite Ei.
  pose proof (fi_good _ _ _ _ O m ltac:(lia) Hb) as G. fold b in G.
  assert (Ep : forall n, fptr (a_blk (store b v a)) (inode_at k i) n = fptr (a_blk a) (inode_at k i) n).
  { intros n. apply fptr_ext. intros Hd. simpl. rewrite decide_False; [done|]. intros E.
    assert (MAXFILE = m); [|lia]. apply (fi_inj _ _ _ _ O); [unfold MAXFILE; lia|lia|exact E|exact Hd]. }
  assert (Eu : forall b', 0 <= b' < sb_size (k_sb k) -> used (a_blk (store b v a)) (k_sb k) b' = used (a_blk a) (k_sb k) b').
  { intros b' Hb'. apply used_ext. simpl. rewrite decide_False; [done|]. by apply G. }
  split; [|done]. split; rewrite ?Ei; try done.
  - eapply (fs_tx_step i); try done; [by apply ip_frame_tx|set_solver| |intros b' Hb' H; by rewrite Eu].
    intros b' Hb'. unfold logged in Hb'. pose proof (ft_logged _ _ _ _ _ _ _ _ _ F b'). case_decide; set_solver.
  - destruct O as [O1 O2 O3 O4 O5 O6]. split; try done; intros n; rewrite ?Ep; [|by intros m'; rewrite Ep; apply O5|by apply O6].
    intros Hn Hp. destruct (O4 n Hn Hp). split; try done. by rewrite Eu by lia.
  - by apply ip_frame_tx.
  - set_solver.
  - intros n _ H1 H2. by rewrite Ep, H1 in H2.
  - intros b' Hb' Hu. by rewrite Eu.
  - intros b' Hb' _ _ Hi. simpl. rewrite decide_False; [done|]. apply (Hi m). lia.
Qed.

Lemma byte_at_inserts o l data y : 0 <= o -> o + Z.of_nat (length l) <= Z.of_nat (length data) -> 0 <= y ->
  byte_at (list_inserts (Z.to_nat o) l data) y =
    if decide (o <= y < o + Z.of_nat (length l)) then byte_at l (y - o) else byte_at data y.
Proof.
  intros Ho Hl Hy. unfold byte_at. case_decide as H.
  - rewrite list_lookup_inserts by lia. do 2 f_equal. lia.
  - destruct (decide (y < o)); [by rewrite list_lookup_inserts_lt by lia|by rewrite list_lookup_inserts_ge by lia].
Qed.

(** The contents of a file after [src] was written at [off]. *)
Definition overwritten (a : cache) (ip : inode) (off : Z) (src : list Z) (n : Z) (a' : cache) (ip' : inode) : Prop :=
  forall x, 0 <= x < MAXFILE * 512 -> fptr (a_blk a) ip (x / 512) <> 0 \/ off <= x < off + n ->
    fbyte (a_blk a') ip' x = if decide (off <= x < off + n) then byte_at src (x - off) else fbyte (a_blk a) ip x.

(** [bmap] leaves the contents alone. *)
Lemma bmapped_bytes N c p i s n k a X k' a' bl' X' x :
  bmapped N c p i s n k a X k' a' bl' X' -> file_ok (k_sb k) s a (inode_at k i) -> 0 <= x < MAXFILE * 512 ->
  fptr (a_blk a) (inode_at k i) (x / 512) <> 0 -> fbyte (a_blk a') (inode_at k' i) x = fbyte (a_blk a) (inode_at k i) x.
Proof.
  intros [G _ _ _ _ _] O Hx Hp. assert (Hq : 0 <= x / 512 < MAXFILE) by (unfold MAXFILE in *; div_lia).
  unfold fbyte. rewrite (gw_old _ _ _ _ _ _ _ _ _ _ _ _ _ G) by (done || lia). f_equal.
  pose proof (fi_good _ _ _ _ O (x / 512) ltac:(lia) Hp) as [Gr Gu _ Gm _ _].
  apply (gw_blk _ _ _ _ _ _ _ _ _ _ _ _ _ G); try done. intros m Hm E. replace m with MAXFILE in E by lia.
  assert (x / 512 = MAXFILE); [|lia]. apply (fi_inj _ _ _ _ O); [lia|unfold MAXFILE; lia|done|done].
Qed.

(** One byte of a file after [l] was stored at [off], inside one block. *)
Lemma fbyte_store blk ip off l x :
  0 <= off -> off mod 512 + Z.of_nat (length l) <= 512 -> 0 <= x ->
  let b := fptr blk ip (off / 512) in length (blk b) = BSIZE ->
  let blk' := fun b' => if decide (b' = b) then list_inserts (Z.to_nat (off mod 512)) l (blk b) else blk b' in
  (fptr blk ip (x / 512) = b -> x / 512 = off / 512) -> (forall n, fptr blk' ip n = fptr blk ip n) ->
  fbyte blk' ip x = if decide (off <= x < off + Z.of_nat (length l)) then byte_at l (x - off) else fbyte blk ip x.
Proof.
  intros Ho Hm Hx b Hl blk' Hinj Ep. unfold fbyte. rewrite Ep. unfold blk'.
  destruct (decide (fptr blk ip (x / 512) = b)) as [E|E].
  - specialize (Hinj E). rewrite E. rewrite byte_at_inserts; [|div_lia|rewrite Hl; unfold BSIZE; div_lia|div_lia].
    destruct (decide (off <= x < off + Z.of_nat (length l))) as [Hin|Hin].
    + rewrite decide_True by div_lia. f_equal. div_lia.
    + by rewrite decide_False by div_lia.
  - rewrite decide_False; [done|]. intros H. apply E. unfold b. f_equal. div_lia.
Qed.

Lemma byte_at_take n l y : 0 <= y < n -> byte_at (take (Z.to_nat n) l) y = byte_at l y.
Proof. intros H. unfold byte_at. by rewrite lookup_take_lt by lia. Qed.

Lemma store_overwrites sb s a ip off src m :
  file_ok sb s a ip -> 0 <= off < MAXFILE * 512 -> 0 < m -> off mod 512 + m <= 512 -> m <= Z.of_nat (length src) ->
  let b := fptr (a_blk a) ip (off / 512) in b <> 0 -> length (a_blk a b) = BSIZE ->
  let a' := store b (list_inserts (Z.to_nat (off mod 512)) (take (Z.to_nat m) src) (a_blk a b)) a in
  (forall n, fptr (a_blk a') ip n = fptr (a_blk a) ip n) -> overwritten a ip off src m a' ip.
Proof.
  intros O Ho Hm Hm' Hsrc b Hb Hl a' Ep x Hx Hp. unfold MAXFILE in *.
  assert (El : Z.of_nat (length (take (Z.to_nat m) src)) = m) by (rewrite length_take; lia).
  refine (eq_trans (fbyte_store (a_blk a) ip off (take (Z.to_nat m) src) x _ _ _ Hl _ Ep) _); rewrite ?El; try lia.
  2: case_decide; [apply byte_at_take; lia|done].
  - intros E. apply (fi_inj _ _ _ _ O); [unfold MAXFILE; div_lia|unfold MAXFILE; div_lia|done|by rewrite E].
Qed.

(** Reading a block of the file system, changing it and writing it to the log, with
    what comes next. *)
Lemma put_block {A} N X k c p a s bl inum b f e (rest : K A) :
  fs_tx N X k c p a s bl inum -> in_range k b -> ~ in_log s b -> a_held a !! b = None -> length (f (a_blk a b)) = BSIZE ->
  exists k', (bp <- bread 1 b;; set_bdata bp f;; log_write bp;; brelse bp;; rest) k e = rest k' e
    /\ tx k' p (store b (f (a_blk a b)) a) s (logged b bl) /\ tx_frame k k' /\ k_disk k' = k_disk k.
Proof.
  intros F Hr Hl Hh Hf. pose proof (ft_length _ _ _ _ _ _ _ _ _ F). pose proof (ft_size _ _ _ _ _ _ _ _ _ F).
  pose proof F as [Q T _ _ _ _ _ Hroom Hb _ _ _].
  destruct (tx_bread k c p a s bl b e Q T Hr Hh ltac:(lia)) as (j & k1 & E1 & T1 & F1 & D1 & _). run E1.
  destruct (tx_finish_then k1 c p a s bl b j f e rest) as (k2 & E2 & _ & T2 & F2 & D2); try done.
  { by eapply quiet_tx. } { apply (room_tx k); [done|]. apply Hroom. lia. }
  exists k2. split; [done|]. split; [done|]. split; [by eapply tx_frame_trans|congruence].
Qed.

Lemma grown_sb lo N c p i s k a X k' a' bl' X' : grown lo N c p i s k a X k' a' bl' X' ->
  k_sb k' = k_sb k /\ i_inum (inode_at k' i) = i_inum (inode_at k i) /\ i_dev (inode_at k' i) = i_dev (inode_at k i)
  /\ i_size (inode_at k' i) = i_size (inode_at k i) /\ length (k_inode k') = length (k_inode k).
Proof.
  intros G. pose proof (gw_frame _ _ _ _ _ _ _ _ _ _ _ _ _ G) as F.
  destruct (fields_eq _ _ (gw_fields _ _ _ _ _ _ _ _ _ _ _ _ _ G)) as (E1 & E2 & E3 & _).
  split; [by apply (ip_frame_field k_sb i)|]. split; [done|]. split; [done|]. split; [done|]. by apply (ip_frame_length i).
Qed.

(** The effect of a part of [writei]: a change of the file, the budget that is left,
    and the new contents. *)
Record wrote (N : nat) (c p i : nat) (s : Z) (off : Z) (src : list Z) (n : Z) (cost : nat) (k : kstate) (a : cache) (X : gset Z)
    (k' : kstate) (a' : cache) (bl' : list Z) (X' : gset Z) : Prop := {
  wt_grown : grown 0 N c p i s k a X k' a' bl' X';
  wt_size : (size X' + lacks (inode_at k' i) <= size X + lacks (inode_at k i) + cost)%nat;
  wt_free : (nfree (a_blk a) (k_sb k) + lacks (inode_at k' i) <= nfree (a_blk a') (k_sb k) + cost + lacks (inode_at k i))%nat;
  wt_ind : addr (inode_at k' i) NDIRECT <> 0 -> addr (inode_at k' i) NDIRECT ∈ X';
  wt_bytes : overwritten a (inode_at k i) off src n a' (inode_at k' i);
  wt_mapped : forall x, off <= x < off + n -> fptr (a_blk a') (inode_at k' i) (x / 512) <> 0;
  wt_same : off + n <= i_size (inode_at k i) -> inode_at k' i = inode_at k i
}.

(** One round of the loop. *)
Lemma writei_round {A} N X k c p i a s bl off src m e (rest : K A) :
  fs_tx N X k c p a s bl (i_inum (inode_at k i)) -> file_ok (k_sb k) s a (inode_at k i) ->
  (i < length (k_inode k))%nat -> (addr (inode_at k i) NDIRECT <> 0 -> addr (inode_at k i) NDIRECT ∈ X) ->
  (size X + lacks (inode_at k i) + 3 <= N)%nat -> 0 <= off -> 0 < m -> off mod 512 + m <= 512 -> off < MAXFILE * 512 ->
  m <= Z.of_nat (length src) ->
  let body := (bn <- bmap i (off / 512);; dev <- idev i;; bp <- bread dev bn;;
    set_bdata bp (list_inserts (Z.to_nat (off mod 512)) (take (Z.to_nat m) src));; log_write bp;; brelse bp;; rest) in
  ((exists k', body k e = Panic "balloc: out of blocks" k') /\ (nfree (a_blk a) (k_sb k) <= lacks (inode_at k i))%nat)
  \/ exists k' a' bl' X', body k e = rest k' e /\ wrote N c p i s off src m 1 k a X k' a' bl' X'.
Proof.
  intros F O Hi HX HN Ho Hm Hm' Hmax Hsrc body. assert (Hq : 0 <= off / 512 < MAXFILE) by (unfold MAXFILE in *; div_lia).
  destruct (bmap_done N X k c p i a s bl (off / 512) e F O Hi Hq HX HN) as [[[k' E] Hz0]|(k1 & a1 & bl1 & X1 & E1 & B)].
  { left. split; [|done]. exists k'. unfold body, bind at 1. by rewrite E. }
  right. pose proof B as [G1 Hp1 Hs1 Hi1 Hf1 Hsame1]. destruct (grown_sb _ _ _ _ _ _ _ _ _ _ _ _ _ G1) as (Esb & En & Ed & Es & El).
  pose proof (gw_tx _ _ _ _ _ _ _ _ _ _ _ _ _ G1) as F1. pose proof (gw_file _ _ _ _ _ _ _ _ _ _ _ _ _ G1) as O1.
  rewrite <- Esb in O1. rewrite <- En in F1. set (ip1 := inode_at k1 i) in *. set (b := fptr (a_blk a1) ip1 (off / 512)) in *.
  pose proof (fi_good _ _ _ _ O1 (off / 512) ltac:(lia) Hp1) as Gd. fold b in Gd.
  set (g := list_inserts (Z.to_nat (off mod 512)) (take (Z.to_nat m) src)).
  assert (Hlen : length (a_blk a1 b) = BSIZE) by (eapply blk_length, F1).
  destruct (put_block N X1 k1 c p a1 s bl1 _ b g e rest F1) as (k2 & E2 & T2 & F2 & D2).
  { eapply good_range; [apply F1|exact Gd]. } { apply Gd. } { apply Gd. } { unfold g. by rewrite length_inserts. }
  destruct (grown_store N X1 k1 c p i a1 s bl1 (off / 512) (g (a_blk a1 b)) k2 F1 O1 Hq Hp1 T2 F2 D2) as [G2 Ep];
    [fold ip1 b; lia|]. fold ip1 b in G2, Ep.
  pose proof (inode_at_tx i _ _ F2) as Ei2. fold ip1 in Ei2. rewrite Ei2 in Ep.
  exists k2, (store b (g (a_blk a1 b)) a1), (logged b bl1), ({[b]} ∪ X1). split.
  { unfold body. run E1. unfold idev. rewrite bind_gets. fold ip1. rewrite (fi_dev _ _ _ _ O1). exact E2. }
  assert (G : grown 0 N c p i s k a X k2 (store b (g (a_blk a1 b)) a1) (logged b bl1) ({[b]} ∪ X1)).
  { eapply grown_trans; [done| |exact G2]. apply grown_weaken; [done|unfold MAXFILE; lia]. }
  split; rewrite ?Ei2; [done|lia| |set_solver| | |].
  { assert (nfree (a_blk a1) (k_sb k) <= nfree (a_blk (store b (g (a_blk a1 b)) a1)) (k_sb k))%nat; [|lia]. apply nfree_same.
    intros b' Hb'. apply used_ext. simpl. rewrite decide_False; [done|]. rewrite <- Esb in Hb' |- *. by apply Gd. }
  - assert (Hov : overwritten a1 ip1 off src m (store b (g (a_blk a1 b)) a1) ip1).
    { apply (store_overwrites (k_sb k1) s); try done; lia. }
    intros x Hx Hp. rewrite (Hov x Hx).
    + case_decide as Hin; [done|]. destruct Hp as [Hp|Hp]; [|done]. by apply (bmapped_bytes _ _ _ _ _ _ _ _ _ _ _ _ _ x B O).
    + destruct Hp as [Hp|Hp]; [left|by right]. unfold ip1. rewrite (gw_old _ _ _ _ _ _ _ _ _ _ _ _ _ G1); [done| |done].
      unfold MAXFILE in *. div_lia.
  - intros x Hx. rewrite Ep. replace (x / 512) with (off / 512) by div_lia. done.
  - intros Hsz. apply Hsame1. apply (fi_full _ _ _ _ O); div_lia.
Qed.

(** The number of blocks that [n] bytes at [off] are in. *)
Definition span (off n : Z) : nat := if 0 <? n then Z.to_nat ((off + n + 511) / 512 - off / 512) else 0.

Lemma span_round off n : 0 <= off -> 0 < n -> let m := Z.min n (512 - off mod 512) in
  span off n = S (span (off + m) (n - m)).
Proof.
  intros Ho Hn m. unfold span. rewrite (proj2 (Z.ltb_lt 0 n)) by done. destruct (Z.ltb_spec 0 (n - m)) as [H|H].
  - replace ((off + m) / 512) with (off / 512 + 1) by (unfold m in *; div_lia).
    replace (off + m + (n - m) + 511) with (off + n + 511) by lia. unfold m in *. div_lia.
  - unfold m in *. div_lia.
Qed.

Lemma span_le off n : 0 <= off -> 0 <= n -> (span off n <= Z.to_nat (n / 512) + 2)%nat.
Proof. intros Ho Hn. unfold span. destruct (Z.ltb_spec 0 n); [div_lia|lia]. Qed.

Lemma wrote_trans N c p i s off src m n c1 c2 k a X k1 a1 bl1 X1 k2 a2 bl2 X2 :
  0 <= off -> 0 <= m <= n -> off + n <= MAXFILE * 512 -> m <= Z.of_nat (length src) ->
  wrote N c p i s off src m c1 k a X k1 a1 bl1 X1 ->
  wrote N c p i s (off + m) (drop (Z.to_nat m) src) (n - m) c2 k1 a1 X1 k2 a2 bl2 X2 ->
  wrote N c p i s off src n (c1 + c2) k a X k2 a2 bl2 X2.
Proof.
  intros Ho Hm Hmax Hsrc [G1 S1 N1 I1 B1 M1 E1] [G2 S2 N2 I2 B2 M2 E2].
  destruct (grown_sb _ _ _ _ _ _ _ _ _ _ _ _ _ G1) as (Esb & _ & _ & Es & _). rewrite Esb in N2.
  assert (Hold : forall x, 0 <= x < MAXFILE * 512 -> fptr (a_blk a) (inode_at k i) (x / 512) <> 0 ->
    fptr (a_blk a1) (inode_at k1 i) (x / 512) <> 0).
  { intros x Hx Hp. rewrite (gw_old _ _ _ _ _ _ _ _ _ _ _ _ _ G1); [done| |done]. unfold MAXFILE in *. div_lia. }
  split; [by eapply grown_trans|lia|lia|done| | |].
  - intros x Hx Hp. rewrite B2; [|done|].
    + destruct (decide (off + m <= x < off + m + (n - m))) as [H2|H2].
      * rewrite decide_True by lia. unfold byte_at. rewrite lookup_drop. do 2 f_equal. lia.
      * rewrite B1; [|done|destruct Hp; [by left|right; lia]]. destruct (decide (off <= x < off + m)) as [H1|H1].
        -- by rewrite decide_True by lia.
        -- by rewrite decide_False by lia.
    + destruct (decide (off + m <= x)); [destruct Hp; [left; by apply Hold|right; lia]|left].
      destruct (decide (off <= x)); [apply M1; lia|]. destruct Hp as [Hp|Hp]; [by apply Hold|lia].
  - intros x Hx. destruct (decide (off + m <= x)); [apply M2; lia|].
    rewrite (gw_old _ _ _ _ _ _ _ _ _ _ _ _ _ G2); [apply M1; lia| |apply M1; lia]. unfold MAXFILE in *. div_lia.
  - intros H. rewrite E2 by lia. apply E1. lia.
Qed.

Lemma writei_loop_done fuel : forall N X k c p i a s bl off src n e,
  fs_tx N X k c p a s bl (i_inum (inode_at k i)) -> file_ok (k_sb k) s a (inode_at k i) ->
  (i < length (k_inode k))%nat -> (addr (inode_at k i) NDIRECT <> 0 -> addr (inode_at k i) NDIRECT ∈ X) ->
  (size X + lacks (inode_at k i) + span off n + 2 <= N)%nat -> 0 <= off -> 0 <= n -> off + n <= MAXFILE * 512 ->
  n <= Z.of_nat (length src) -> (span off n < fuel)%nat ->
  ((exists k', writei_loop fuel i src off n k e = Panic "balloc: out of blocks" k')
   /\ (nfree (a_blk a) (k_sb k) < span off n + lacks (inode_at k i))%nat)
  \/ exists k' a' bl' X', writei_loop fuel i src off n k e = Done (off + n) k' e
       /\ wrote N c p i s off src n (span off n) k a X k' a' bl' X'.
Proof.
  induction fuel as [|fuel IH]; intros N X k c p i a s bl off src n e F O Hi HX HN Ho Hn Hmax Hsrc Hf; [lia|].
  cbn [writei_loop]. destruct (Z.ltb_spec 0 n) as [Hn0|Hn0].
  2: { right. exists k, a, bl, X. replace n with 0 in * by lia. replace (off + 0) with off by lia. split; [done|].
    split; try done; [lia|lia|..].
    - intros x Hx Hp. rewrite decide_False by lia. done.
    - intros x Hx. lia. }
  change (Z.of_nat BSIZE) with 512. set (m := Z.min n (512 - off mod 512)).
  pose proof (span_round off n Ho Hn0) as Esp. fold m in Esp. cbv zeta in Esp.
  assert (Hm : 0 < m <= n /\ off mod 512 + m <= 512) by (unfold m; div_lia).
  destruct (writei_round N X k c p i a s bl off src m e
    (writei_loop fuel i (drop (Z.to_nat m) src) (u32 (off + m)) (n - m))) as [[H Hz0]|(k1 & a1 & bl1 & X1 & E1 & W1)];
    [exact F|exact O|exact Hi|exact HX|lia|lia|lia|lia|lia|lia|left; split; [exact H|lia]|].
  rewrite E1. rewrite u32_small by (unfold MAXFILE in *; lia). pose proof W1 as [G1 S1 N1 I1 _ _ _].
  destruct (grown_sb _ _ _ _ _ _ _ _ _ _ _ _ _ G1) as (Esb & En & _ & _ & El).
  destruct (IH N X1 k1 c p i a1 s bl1 (off + m) (drop (Z.to_nat m) src) (n - m) e)
    as [[H Hz0]|(k2 & a2 & bl2 & X2 & E2 & W2)];
    [rewrite En; apply G1|rewrite Esb; apply G1|lia|done|lia|lia|lia|lia| |lia|left; split; [done|rewrite Esb in Hz0; lia]|].
  { rewrite length_drop. lia. }
  right. exists k2, a2, bl2, X2. rewrite E2. split; [f_equal; lia|]. rewrite Esp.
  eapply (wrote_trans _ _ _ _ _ _ _ m n 1); try done; lia.
Qed.

(** [iupdate] puts the inode into its block. *)
Lemma iupdate_done N X k c p i a s bl e :
  fs_tx N X k c p a s bl (i_inum (inode_at k i)) -> i_dev (inode_at k i) = 1 ->
  let ib := IBLOCK (i_inum (inode_at k i)) (k_sb k) in
  let a' := store ib (put_dinode (dinode_off (i_inum (inode_at k i))) (inode_at k i) (a_blk a ib)) a in
  exists k', iupdate i k e = Done tt k' e /\ tx k' p a' s (logged ib bl) /\ tx_frame k k' /\ k_disk k' = k_disk k.
Proof.
  intros F Ed ib a'. pose proof (ft_length _ _ _ _ _ _ _ _ _ F). pose proof (ft_size _ _ _ _ _ _ _ _ _ F).
  pose proof F as [Q T _ _ _ _ _ Hroom Hb _ _ (Hr' & Hl & Hh & _ & _)]. fold ib in Hr', Hl, Hh.
  assert (Hr : in_range k ib) by (pose proof (mo_size _ _ (ft_map _ _ _ _ _ _ _ _ _ F)); unfold in_range; lia).
  destruct (tx_bread k c p a s bl ib e Q T Hr Hh ltac:(lia)) as (j & k1 & E1 & T1 & F1 & D1 & _).
  unfold iupdate. rewrite !bind_gets. fold ib. rewrite Ed. run E1. rewrite bind_gets, (inode_at_tx i _ _ F1).
  destruct (tx_finish_then k1 c p a s bl ib j (put_dinode (dinode_off (i_inum (inode_at k i))) (inode_at k i)) e (ret tt))
    as (k2 & _ & E2 & T2 & F2 & D2); try done.
  { by eapply quiet_tx. } { apply (room_tx k); [done|]. apply Hroom. lia. }
  { rewrite length_put_dinode. eapply blk_length, T. }
  exists k2. split; [exact E2|].
  split; [exact T2|]. split; [by eapply tx_frame_trans|congruence].
Qed.

(** A change of the block of the inode does not touch the file. *)
Lemma store_inode N X k c p a s bl ip v :
  fs_tx N X k c p a s bl (i_inum ip) -> file_ok (k_sb k) s a ip ->
  let a' := store (IBLOCK (i_inum ip) (k_sb k)) v a in
  (forall n, fptr (a_blk a') ip n = fptr (a_blk a) ip n)
  /\ (forall b, 0 <= b < sb_size (k_sb k) -> used (a_blk a') (k_sb k) b = used (a_blk a) (k_sb k) b)
  /\ file_ok (k_sb k) s a' ip
  /\ forall x, 0 <= x < MAXFILE * 512 -> fptr (a_blk a) ip (x / 512) <> 0 -> fbyte (a_blk a') ip x = fbyte (a_blk a) ip x.
Proof.
  intros F O a'. destruct (ft_inode _ _ _ _ _ _ _ _ _ F) as (_ & _ & _ & _ & Hib).
  assert (Ep : forall n, fptr (a_blk a') ip n = fptr (a_blk a) ip n).
  { intros n. apply fptr_ext. intros Hd. unfold a'. simpl. rewrite decide_False; [done|]. apply not_eq_sym.
    apply (gd_inode _ _ _ _ _ (fi_good _ _ _ _ O MAXFILE ltac:(unfold MAXFILE; lia) Hd)). }
  assert (Eu : forall b, 0 <= b < sb_size (k_sb k) -> used (a_blk a') (k_sb k) b = used (a_blk a) (k_sb k) b).
  { intros b Hb. apply used_ext. unfold a'. simpl. rewrite decide_False; [done|]. by apply Hib. }
  split; [done|]. split; [done|]. split.
  - destruct O as [O1 O2 O3 O4 O5 O6]. split; try done; intros n; rewrite ?Ep; [|by intros m'; rewrite Ep; apply O5|by apply O6].
    intros Hn Hp. destruct (O4 n Hn Hp). split; try done. by rewrite Eu by lia.
  - intros x Hx Hp. unfold fbyte. rewrite Ep. unfold a'. simpl. rewrite decide_False; [done|]. apply not_eq_sym.
    eapply gd_inode, (fi_good _ _ _ _ O); [unfold MAXFILE in *; div_lia|done].
Qed.

(** A larger size. *)
Lemma file_ok_size sb s a ip size : file_ok sb s a ip -> i_size ip <= size <= MAXFILE * 512 ->
  (forall x, i_size ip <= x < size -> fptr (a_blk a) ip (x / 512) <> 0) -> file_ok sb s a (set_i_size size ip).
Proof.
  intros [O1 O2 O3 O4 O5 O6] Hs Hm. split; try done; simpl; [lia|]. intros n Hn Hlt.
  change (fptr (a_blk a) (set_i_size size ip) n) with (fptr (a_blk a) ip n).
  destruct (decide (n * 512 < i_size ip)); [by apply O6|]. replace n with (n * 512 / 512) by div_lia. apply Hm. lia.
Qed.

(** The effect of [writei] on the machine: the file, the inode in its block, and all
    that stays as it is. *)
Record written (N : nat) (c p i : nat) (s off : Z) (src : list Z) (n : Z) (k : kstate) (a : cache) (X : gset Z)
    (k' : kstate) (a' : cache) (bl' : list Z) (X' : gset Z) : Prop := {
  wn_tx : fs_tx N X' k' c p a' s bl' (i_inum (inode_at k i));
  wn_file : file_ok (k_sb k) s a' (inode_at k' i);
  wn_size : i_size (inode_at k' i) = Z.max (i_size (inode_at k i)) (off + n);
  wn_fields : set_i_size 0 (set_i_addrs [] (inode_at k' i)) = set_i_size 0 (set_i_addrs [] (inode_at k i));
  wn_bytes : overwritten a (inode_at k i) off src n a' (inode_at k' i);
  wn_inode : let ib := IBLOCK (i_inum (inode_at k i)) (k_sb k) in
    if decide (off + n <= i_size (inode_at k i)) then inode_at k' i = inode_at k i /\ a_blk a' ib = a_blk a ib
    else a_blk a' ib = put_dinode (dinode_off (i_inum (inode_at k i))) (inode_at k' i) (a_blk a ib);
  wn_frame : ip_frame i k k';
  wn_disk : k_disk k' = k_disk k;
  wn_used : forall b, 0 <= b < sb_size (k_sb k) -> used (a_blk a) (k_sb k) b = true -> used (a_blk a') (k_sb k) b = true;
  wn_others : forall b, 0 < b < sb_size (k_sb k) -> used (a_blk a) (k_sb k) b = true ->
    (forall b', 0 <= b' < sb_size (k_sb k) -> BBLOCK b' (k_sb k) <> b) -> b <> IBLOCK (i_inum (inode_at k i)) (k_sb k) ->
    (forall m, 0 <= m <= MAXFILE -> b <> fptr (a_blk a) (inode_at k i) m) -> a_blk a' b = a_blk a b
}.

Section Writei.
Context {D : Devsw}.

(** The blocks of the file and the free map apart, the loop of [writei] keeps every block. *)
Lemma grown_iblock lo N X0 c p i s bl0 k a X k' a' bl' X' : 0 <= lo ->
  fs_tx N X0 k c p a s bl0 (i_inum (inode_at k i)) -> file_ok (k_sb k) s a (inode_at k i) ->
  grown lo N c p i s k a X k' a' bl' X' ->
  a_blk a' (IBLOCK (i_inum (inode_at k i)) (k_sb k)) = a_blk a (IBLOCK (i_inum (inode_at k i)) (k_sb k)).
Proof.
  intros Hlo F O G. destruct (ft_inode _ _ _ _ _ _ _ _ _ F) as (Hr & _ & _ & _ & Hib).
  apply (gw_blk _ _ _ _ _ _ _ _ _ _ _ _ _ G); try done.
  - apply (ft_meta _ _ _ _ _ _ _ _ _ F); [lia|]. by right; right; left.
  - intros m Hm E. assert (Hp : fptr (a_blk a) (inode_at k i) m <> 0) by lia.
    by apply (gd_inode _ _ _ _ _ (fi_good _ _ _ _ O m ltac:(lia) Hp)).
Qed.

(** [writei] that ends inside the file. *)
Lemma written_inside N X0 c p i s bl0 off src n k a X k' a' bl' X' cost :
  fs_tx N X0 k c p a s bl0 (i_inum (inode_at k i)) -> file_ok (k_sb k) s a (inode_at k i) ->
  wrote N c p i s off src n cost k a X k' a' bl' X' -> off + n <= i_size (inode_at k i) ->
  written N c p i s off src n k a X k' a' bl' X'.
Proof.
  intros F O [G _ _ _ B _ E] Hs. pose proof (E Hs) as Ei.
  split; [apply G|apply G|rewrite Ei; lia|by rewrite Ei|done| |apply G|apply G|apply G|].
  - rewrite decide_True by done. split; [done|]. by eapply grown_iblock; [|done|done|].
  - intros b Hb Hu Hn _ Hi. by apply (gw_blk _ _ _ _ _ _ _ _ _ _ _ _ _ G).
Qed.

(** The state when [iupdate] has stored the inode with its new size. *)
Lemma written_update N X0 c p i s bl0 off src n k a X k1 a1 bl1 X1 k3 cost :
  fs_tx N X0 k c p a s bl0 (i_inum (inode_at k i)) -> file_ok (k_sb k) s a (inode_at k i) ->
  wrote N c p i s off src n cost k a X k1 a1 bl1 X1 -> 0 <= off <= i_size (inode_at k i) ->
  i_size (inode_at k i) < off + n <= MAXFILE * 512 ->
  let ip' := set_i_size (off + n) (inode_at k1 i) in
  let ib := IBLOCK (i_inum (inode_at k i)) (k_sb k) in
  let a' := store ib (put_dinode (dinode_off (i_inum (inode_at k i))) ip' (a_blk a1 ib)) a1 in
  tx k3 p a' s (logged ib bl1) -> ip_frame i k1 k3 -> inode_at k3 i = ip' -> k_disk k3 = k_disk k1 ->
  written N c p i s off src n k a X k3 a' (logged ib bl1) X1.
Proof.
  intros F O [G _ _ _ B M _] Hs Hs' ip' ib a' T3 F3 E3 D3.
  destruct (grown_sb _ _ _ _ _ _ _ _ _ _ _ _ _ G) as (Esb & En & Ed & Es & El).
  pose proof (gw_tx _ _ _ _ _ _ _ _ _ _ _ _ _ G) as F1.
  assert (O1 : file_ok (k_sb k1) s a1 ip').
  { rewrite Esb. apply file_ok_size; [apply G|rewrite Es; lia|]. rewrite Es. intros x Hx. apply M. lia. }
  pose proof F1 as F1'. rewrite <- En in F1'.
  destruct (store_inode N X1 k1 c p a1 s bl1 ip' (put_dinode (dinode_off (i_inum (inode_at k i))) ip' (a_blk a1 ib)) F1' O1)
    as (Ep & Eu & O3 & Eb). change (i_inum ip') with (i_inum (inode_at k1 i)) in *. rewrite Esb, En in *. fold ib a' in Ep, Eu, O3, Eb.
  destruct (ft_inode _ _ _ _ _ _ _ _ _ F1) as (_ & _ & _ & HibX & _). rewrite Esb in HibX. fold ib in HibX.
  assert (Fr : ip_frame i k k3) by (eapply ip_frame_trans; [apply G|done]).
  split; rewrite ?E3; try done.
  - eapply (fs_tx_step i); try done; [|apply F1|].
    + intros b Hb. unfold logged in Hb. pose proof (ft_logged _ _ _ _ _ _ _ _ _ F1 b). case_decide; set_solver.
    + rewrite Esb. intros b Hb. by rewrite Eu.
  - simpl. lia.
  - pose proof (gw_fields _ _ _ _ _ _ _ _ _ _ _ _ _ G) as Ef. rewrite <- Ef. done.
  - intros x Hx Hp. assert (Hp' : fptr (a_blk a1) ip' (x / 512) <> 0).
    { change (fptr (a_blk a1) (inode_at k1 i) (x / 512) <> 0). destruct Hp as [Hp|Hp]; [|by apply M].
      rewrite (gw_old _ _ _ _ _ _ _ _ _ _ _ _ _ G); [done| |done]. unfold MAXFILE in *. div_lia. }
    rewrite Eb by done. by apply B.
  - rewrite decide_False by lia. fold ib. unfold a' at 1. simpl. rewrite decide_True by done. f_equal.
    by eapply grown_iblock; [|done|done|].
  - rewrite D3. apply G.
  - intros b Hb Hu. rewrite Eu by done. by apply G.
  - intros b Hb Hu Hn Hi Hm. unfold a'. simpl. rewrite decide_False by done. by apply (gw_blk _ _ _ _ _ _ _ _ _ _ _ _ _ G).
Qed.

(** [writei] that makes the file longer: the new size, and the inode in its block. *)
Lemma written_longer N X0 c p i s bl0 off src n k a X k1 a1 bl1 X1 cost e :
  fs_tx N X0 k c p a s bl0 (i_inum (inode_at k i)) -> file_ok (k_sb k) s a (inode_at k i) -> (i < length (k_inode k))%nat ->
  wrote N c p i s off src n cost k a X k1 a1 bl1 X1 -> 0 <= off <= i_size (inode_at k i) ->
  i_size (inode_at k i) < off + n <= MAXFILE * 512 ->
  exists k' a' bl', iupdate i (upd_inode i (set_i_size (off + n)) k1) e = Done tt k' e
    /\ written N c p i s off src n k a X k' a' bl' X1.
Proof.
  intros F O Hi W Hs Hs'. pose proof W as [G _ _ _ B M _]. destruct (grown_sb _ _ _ _ _ _ _ _ _ _ _ _ _ G) as (Esb & En & Ed & Es & El).
  set (k2 := upd_inode i (set_i_size (off + n)) k1).
  assert (E2 : inode_at k2 i = set_i_size (off + n) (inode_at k1 i)) by (unfold k2; rewrite inode_at_upd by lia; done).
  assert (F12 : ip_frame i k1 k2) by apply ip_frame_upd. pose proof (gw_tx _ _ _ _ _ _ _ _ _ _ _ _ _ G) as F1.
  assert (F2 : fs_tx N X1 k2 c p a1 s bl1 (i_inum (inode_at k2 i))).
  { rewrite E2. simpl. rewrite En. eapply fs_tx_step; try done; [|apply F1|apply F1]. apply tx_upd_inode, F1. }
  assert (O2 : file_ok (k_sb k2) s a1 (inode_at k2 i)).
  { change (k_sb k2) with (k_sb k1). rewrite E2, Esb. apply file_ok_size; [apply G|rewrite Es; lia|].
    rewrite Es. intros x Hx. apply M. lia. }
  destruct (iupdate_done N X1 k2 c p i a1 s bl1 e F2 (fi_dev _ _ _ _ O2)) as (k3 & E3 & T3 & F3 & D3).
  pose proof (inode_at_tx i _ _ F3) as Ei3.
  assert (Eib : IBLOCK (i_inum (inode_at k2 i)) (k_sb k2) = IBLOCK (i_inum (inode_at k i)) (k_sb k)).
  { change (k_sb k2) with (k_sb k1). rewrite E2. simpl. by rewrite Esb, En. }
  eexists k3, _, _. split; [exact E3|]. rewrite Eib in *. rewrite E2 in T3, Ei3. simpl in T3. rewrite En in T3.
  eapply (written_update N X0 c p i s bl0 off src n k a X k1); [exact F|exact O|exact W|done|done|exact T3| |exact Ei3|exact D3].
  eapply ip_frame_trans; [exact F12|by apply ip_frame_tx].
Qed.

Lemma writei_run N X k c p i a s bl off src n e :
  fs_tx N X k c p a s bl (i_inum (inode_at k i)) -> file_ok (k_sb k) s a (inode_at k i) ->
  (i < length (k_inode k))%nat -> i_type (inode_at k i) <> T_DEV ->
  (addr (inode_at k i) NDIRECT <> 0 -> addr (inode_at k i) NDIRECT ∈ X) ->
  (size X + lacks (inode_at k i) + span off n + 2 <= N)%nat ->
  0 <= off <= i_size (inode_at k i) -> 0 <= n <= Z.of_nat (length src) -> off + n <= MAXFILE * 512 ->
  ((exists k', writei i src off n k e = Panic "balloc: out of blocks" k')
   /\ (nfree (a_blk a) (k_sb k) < span off n + lacks (inode_at k i))%nat)
  \/ exists k' a' bl' X', writei i src off n k e = Done n k' e /\ written N c p i s off src n k a X k' a' bl' X'.
Proof.
  intros F O Hi Ht HX HN Ho Hn Hmax. unfold writei. rewrite bind_gets. rewrite (proj2 (Z.eqb_neq _ T_DEV)) by done.
  change (Z.of_nat BSIZE) with 512. pose proof Hmax as Hmax'. unfold MAXFILE in Hmax'. rewrite u32_small by lia.
  rewrite (proj2 (Z.ltb_ge _ off)), (proj2 (Z.ltb_ge (off + n) off)), (proj2 (Z.ltb_ge (MAXFILE * 512) _)) by lia.
  cbn [orb]. rewrite s32_small by lia.
  pose proof (span_le off n ltac:(lia) ltac:(lia)).
  destruct (writei_loop_done (Z.to_nat (n / 512) + 3) N X k c p i a s bl off src n e) as [[[k' E] Hz0]|(k1 & a1 & bl1 & X1 & E & W)];
    try done; try lia. { left. split; [|done]. exists k'. unfold bind at 1. by rewrite E. }
  right. run E. rewrite bind_gets. destruct (grown_sb _ _ _ _ _ _ _ _ _ _ _ _ _ (wt_grown _ _ _ _ _ _ _ _ _ _ _ _ _ _ _ _ W)) as (_ & _ & _ & Es & _).
  rewrite Es. destruct (decide (off + n <= i_size (inode_at k i))) as [Hs|Hs].
  - exists k1, a1, bl1, X1. rewrite (proj2 (Z.ltb_ge (i_size (inode_at k i)) (off + n))) by done. rewrite andb_false_r. split; [done|].
    by eapply written_inside.
  - rewrite (proj2 (Z.ltb_lt 0 n)), (proj2 (Z.ltb_lt _ _)) by lia. cbn [andb].
    destruct (written_longer N X c p i s bl off src n k a X k1 a1 bl1 X1 (span off n) e) as (k' & a' & bl' & E' & W'); try done; [lia|].
    exists k', a', bl', X1. split; [|done]. unfold when. rewrite bind_assoc, bind_modify. by run E'.
Qed.

Lemma readi_run k c p i a s bl off n e :
  reads k c p a s bl (inode_at k i) -> i_type (inode_at k i) <> T_DEV -> 0 <= off < 2 ^ 32 -> 0 <= n < 2 ^ 32 ->
  let size := i_size (inode_at k i) in
  (size < off \/ 2 ^ 32 <= off + n -> readi i off n k e = Done (-1, []) k e)
  /\ (off <= size -> off + n < 2 ^ 32 -> let m := Z.min n (size - off) in
      exists k', readi i off n k e = Done (m, fbytes (a_blk a) (inode_at k i) off (Z.to_nat m)) k' e
        /\ reads k' c p a s bl (inode_at k' i) /\ tx_frame k k' /\ k_disk k' = k_disk k).
Proof.
  intros R Ht Ho Hn size. pose proof (fi_size _ _ _ _ (re_file _ _ _ _ _ _ _ R)) as Hs. fold size in Hs. unfold MAXFILE in Hs.
  unfold readi. rewrite !bind_gets. rewrite (proj2 (Z.eqb_neq _ T_DEV)) by done. fold size. change (Z.of_nat BSIZE) with 512. split.
  - intros H. destruct (Z.ltb_spec size off) as [H1|H1]; [done|]. cbn [orb]. rewrite u32_wrap by lia.
    by rewrite (proj2 (Z.ltb_lt _ off)) by lia.
  - intros H1 H2. set (m := Z.min n (size - off)). rewrite (proj2 (Z.ltb_ge size off)) by done. rewrite u32_small by lia.
    rewrite (proj2 (Z.ltb_ge _ off)) by lia. cbn [orb].
    replace (if size <? off + n then size - off else n) with m by (unfold m; destruct (Z.ltb_spec size (off + n)); lia).
    destruct (readi_loop_done (Z.to_nat (m / 512) + 3) k c p i a s bl off m e R) as (k' & E & T & Fr & D'); try (unfold m, size in *; lia).
    { intros Hm. div_lia. }
    run E. exists k'. split; [unfold ret; do 2 f_equal; apply s32_small; unfold m in *; lia|]. rewrite (inode_at_tx i _ _ Fr).
    split; [by eapply reads_frame|done].
Qed.

Lemma fs_tx_reads N X k c p a s bl inum ip :
  fs_tx N X k c p a s bl inum -> file_ok (k_sb k) s a ip -> reads k c p a s bl ip.
Proof.
  intros F O. pose proof (ft_length _ _ _ _ _ _ _ _ _ F). pose proof (ft_size _ _ _ _ _ _ _ _ _ F).
  pose proof (ft_bufs _ _ _ _ _ _ _ _ _ F). split; [apply F|apply F|apply F|lia|done].
Qed.

(** After [writei] the file can be read. *)
Lemma written_reads N c p i s off src n k a X k' a' bl' X' :
  written N c p i s off src n k a X k' a' bl' X' -> reads k' c p a' s bl' (inode_at k' i).
Proof.
  intros W. eapply fs_tx_reads; [apply W|].
  rewrite (ip_frame_field k_sb i _ _ ltac:(done) (wn_frame _ _ _ _ _ _ _ _ _ _ _ _ _ _ _ W)). apply W.
Qed.

(** ** The theorems *)

(** [readi] reads the file.  An offset behind the end of the file, or a range
    that wraps around, is refused with -1.  Otherwise [readi] returns the number
    of bytes asked for, or what is left up to the end of the file, and exactly
    those bytes of the file; the disk, the cache and the inode are as before. *)
Theorem readi_reads (k : kstate) (c p i : nat) (a : cache) (s : Z) (bl : list Z) (off n : Z) (e : environment kstate) :
  reads k c p a s bl (inode_at k i) -> i_type (inode_at k i) <> T_DEV -> 0 <= off < 2 ^ 32 -> 0 <= n < 2 ^ 32 ->
  let size := i_size (inode_at k i) in
  (size < off \/ 2 ^ 32 <= off + n -> readi i off n k e = Done (-1, []) k e)
  /\ (off <= size -> off + n < 2 ^ 32 -> let m := Z.min n (size - off) in
      exists k', readi i off n k e = Done (m, fbytes (a_blk a) (inode_at k i) off (Z.to_nat m)) k' e
        /\ reads k' c p a s bl (inode_at k' i) /\ tx_frame k k' /\ k_disk k' = k_disk k).
Proof. apply readi_run. Qed.

(** C4: [writei] writes the file.  An offset behind the end of the file, or an end
    behind the largest file, is refused with -1.  Otherwise [writei] writes the
    bytes of [src] at the offset, in a transaction that can log the blocks
    involved: every byte of the file in the range is the byte of [src], every
    other byte of the file is as before, the size is the larger of the old one
    and the end of the range, and when it grew the inode with its new addresses is
    in its block.  The blocks it needed were free.  Everything else is as it was: the
    other inodes, every block in use that is not one of this file, of
    the free map or of its inode, and the disk.  It panics only when there were
    fewer free blocks than the range, and the indirect block, could need. *)
Theorem writei_writes (N : nat) (X : gset Z) (k : kstate) (c p i : nat) (a : cache) (s : Z) (bl : list Z) (off : Z)
    (src : list Z) (n : Z) (e : environment kstate) :
  fs_tx N X k c p a s bl (i_inum (inode_at k i)) -> file_ok (k_sb k) s a (inode_at k i) ->
  (i < length (k_inode k))%nat -> i_type (inode_at k i) <> T_DEV ->
  (addr (inode_at k i) NDIRECT <> 0 -> addr (inode_at k i) NDIRECT ∈ X) ->
  (size X + lacks (inode_at k i) + span off n + 2 <= N)%nat ->
  0 <= off < 2 ^ 32 -> 0 <= n < 2 ^ 32 -> n <= Z.of_nat (length src) ->
  (i_size (inode_at k i) < off \/ MAXFILE * 512 < off + n -> writei i src off n k e = Done (-1) k e)
  /\ (off <= i_size (inode_at k i) -> off + n <= MAXFILE * 512 ->
      ((exists k', writei i src off n k e = Panic "balloc: out of blocks" k')
       /\ (nfree (a_blk a) (k_sb k) < span off n + lacks (inode_at k i))%nat)
      \/ exists k' a' bl' X', writei i src off n k e = Done n k' e
           /\ written N c p i s off src n k a X k' a' bl' X').
Proof.
  intros F O Hi Ht HX HN Ho Hn Hsrc. split; [|intros H1 H2; apply (writei_run N X k c p i a s bl); try done; lia].
  intros H. unfold writei. rewrite bind_gets. rewrite (proj2 (Z.eqb_neq _ T_DEV)) by done.
  destruct (Z.ltb_spec (i_size (inode_at k i)) off) as [H1|H1]; [done|]. cbn [orb].
  destruct H as [H|H]; [lia|]. destruct (decide (off + n < 2 ^ 32)) as [H2|H2].
  - rewrite u32_small by lia. rewrite (proj2 (Z.ltb_ge (off + n) off)) by lia. change (Z.of_nat BSIZE) with 512.
    by rewrite (proj2 (Z.ltb_lt _ _)).
  - rewrite u32_wrap by lia. by rewrite (proj2 (Z.ltb_lt _ off)) by lia.
Qed.

(** what was written is read back.  When [writei] has written [n] bytes, reading
    [n] bytes at the same offset returns exactly them. *)
Theorem writei_readi (N : nat) (X : gset Z) (k : kstate) (c p i : nat) (a : cache) (s : Z) (bl : list Z) (off : Z)
    (src : list Z) (n : Z) (e : environment kstate) (k1 : kstate) (e1 : environment kstate) :
  fs_tx N X k c p a s bl (i_inum (inode_at k i)) -> file_ok (k_sb k) s a (inode_at k i) ->
  (i < length (k_inode k))%nat -> i_type (inode_at k i) <> T_DEV ->
  (addr (inode_at k i) NDIRECT <> 0 -> addr (inode_at k i) NDIRECT ∈ X) ->
  (size X + lacks (inode_at k i) + span off n + 2 <= N)%nat ->
  0 <= off <= i_size (inode_at k i) -> 0 <= n <= Z.of_nat (length src) -> off + n <= MAXFILE * 512 ->
  writei i src off n k e = Done n k1 e1 ->
  exists k2, readi i off n k1 e1 = Done (n, take (Z.to_nat n) src) k2 e1.
Proof.
  intros F O Hi Ht HX HN Ho Hn Hmax Hw.
  destruct (writei_run N X k c p i a s bl off src n e F O Hi Ht HX HN Ho Hn Hmax) as [[[k' E] _]|(k' & a' & bl' & X' & E & W)];
    rewrite E in Hw; simplify_eq. pose proof (written_reads _ _ _ _ _ _ _ _ _ _ _ _ _ _ _ W) as R.
  pose proof (wn_size _ _ _ _ _ _ _ _ _ _ _ _ _ _ _ W) as Es. unfold MAXFILE in Hmax.
  destruct (readi_run k1 c p i a' s bl' off n e1 R) as [_ H]; try lia.
  { pose proof (wn_fields _ _ _ _ _ _ _ _ _ _ _ _ _ _ _ W) as Ef. apply (f_equal i_type) in Ef. simpl in Ef. congruence. }
  destruct H as (k2 & E2 & _); [lia|lia|]. exists k2. rewrite E2, Es, Z.min_l by lia. do 2 f_equal.
  apply list_eq. intros j. destruct (decide (j < Z.to_nat n)%nat) as [Hj|Hj].
  - rewrite lookup_fbytes, lookup_take_lt by done. rewrite (wn_bytes _ _ _ _ _ _ _ _ _ _ _ _ _ _ _ W); [|unfold MAXFILE; lia|right; lia].
    rewrite decide_True by lia. unfold byte_at. replace (Z.to_nat (off + Z.of_nat j - off)) with j by lia.
    destruct (lookup_lt_is_Some_2 src j) as [v ->]; [lia|done].
  - rewrite !lookup_ge_None_2; [done|rewrite length_take; lia|rewrite length_fbytes; lia].
Qed.

End Writei.

(** ** An example: a file of 600 bytes in blocks 34 and 35 of the small file system *)

Definition no_devices : Devsw := {| devsw_read := fun _ => None; devsw_write := fun _ => None |}.

Definition small_inode : inode :=
  mk_inode 1 1 1 zero_sleeplock 1 T_FILE 0 0 1 600 ([34; 35] ++ replicate 11 0).

Lemma small_fptr blk n : 0 <= n <= MAXFILE ->
  fptr blk small_inode n = if decide (n = 0) then 34 else if decide (n = 1) then 35 else 0.
Proof.
  intros Hn. unfold fptr. change (addr small_inode NDIRECT) with 0. destruct (Z.ltb_spec n 12) as [H|H].
  - destruct (decide (n = 0)) as [->|H0]; [done|]. destruct (decide (n = 1)) as [->|H1]; [done|].
    unfold addr. change (i_addrs small_inode) with ([34; 35] ++ replicate 11 0).
    rewrite lookup_app_r by (simpl; lia). by rewrite lookup_replicate_2 by (simpl; lia).
  - rewrite !decide_False by lia. by destruct (n =? MAXFILE).
Qed.

Lemma small_BBLOCK b : 0 <= b < 100 -> BBLOCK b small_sb = 33.
Proof. intros Hb. unfold BBLOCK, BPB. rewrite Z.div_small by lia. by vm_compute. Qed.

Lemma small_file : file_ok small_sb 2 (fresh_cache (small_disk ∅)) small_inode.
Proof.
  split; [done|done|by vm_compute| | |].
  - intros n Hn Hp. rewrite small_fptr in * by done.
    set (v := if decide (n = 0) then 34 else if decide (n = 1) then 35 else 0) in *.
    assert (Hv : v = 34 \/ v = 35) by (unfold v in *; repeat case_decide; lia). clearbody v. split; simpl.
    + lia.
    + apply (eq_trans (small_used ∅ v ltac:(lia))). apply Z.ltb_lt. lia.
    + unfold in_log, LOGSIZE. lia.
    + intros b' Hb'. rewrite small_BBLOCK by done. lia.
    + change (IBLOCK 1 small_sb) with 32. lia.
    + apply lookup_empty.
  - intros n m Hn Hm. rewrite !small_fptr by done. repeat case_decide; lia.
  - intros n Hn Hs. simpl in Hs. rewrite small_fptr by (unfold MAXFILE; lia). repeat case_decide; lia.
Qed.

Lemma small_tx : exists k, k_sb k = small_sb /\ k_inode k = [small_inode]
  /\ fs_tx 12 {[32; 33]} k 0 0 (fresh_cache (small_disk ∅)) 2 [] 1.
Proof.
  destruct (small_fs ∅ 20 block_sized_empty ltac:(lia)) as (k & [Q T M R B H] & Hsb & _).
  exists (set_k_inode [small_inode] k). split; [done|]. split; [done|].
  assert (Hu : forall b, 0 <= b < 100 -> b < 40 -> used (a_blk (fresh_cache (small_disk ∅))) small_sb b = true).
  { intros b Hb H40. apply (eq_trans (small_used ∅ b Hb)). by apply Z.ltb_lt. }
  split; cbn [k_sb set_k_inode]; rewrite ?Hsb in *.
  - by apply (quiet_ext k).
  - destruct T as [C L Hd Hs]. split; [by apply (cache_ok_ext k)|by destruct L|done|done].
  - by destruct M.
  - exact H.
  - intros b Hb. by apply not_elem_of_nil in Hb.
  - intros b Hb. rewrite small_BBLOCK by done. set_solver.
  - apply (bool_decide_unpack _). by vm_compute.
  - intros bl' Hl. apply R. simpl. lia.
  - simpl. rewrite dom_empty_L, size_empty. unfold NBUF. lia.
  - split; [done|]. apply Hu; lia.
  - intros b Hb Hc. apply Hu; [done|]. destruct Hc as [Hc|[(b' & Hb' & <-)|[->|[x Hx]]]].
    + unfold in_log, LOGSIZE in Hc. lia.
    + rewrite small_BBLOCK by done. lia.
    + by vm_compute.
    + cbv [fresh_cache a_held] in Hx. by rewrite lookup_empty in Hx.
  - change (IBLOCK 1 small_sb) with 32. split; [simpl; lia|]. split; [unfold in_log, LOGSIZE; lia|].
    split; [apply lookup_empty|]. split; [set_solver|]. intros b Hb. rewrite small_BBLOCK by done. lia.
Qed.

Lemma small_nfree : (4 <= nfree (a_blk (fresh_cache (small_disk ∅))) small_sb)%nat.
Proof.
  unfold nfree. change 4%nat with (length [40; 41; 42; 43]). apply submseteq_length, NoDup_submseteq.
  - apply (bool_decide_unpack _). by vm_compute.
  - intros b Hb. assert (40 <= b < 44) by (repeat (apply elem_of_cons in Hb as [->|Hb]; [lia|]); by apply not_elem_of_nil in Hb).
    apply elem_free. split; [|simpl; lia]. apply (eq_trans (small_used ∅ b ltac:(lia))). apply Z.ltb_ge. lia.
Qed.

(** Reading past the end of the file gives what is left. *)
Lemma readi_reads_witness : exists k k' l, @readi no_devices 0 500 1000 k [] = Done (100, l) k' [] /\ length l = 100%nat.
Proof.
  destruct small_tx as (k & Hsb & Hin & F). pose proof small_file as O. rewrite <- Hsb in O.
  assert (Ei : inode_at k 0 = small_inode) by (unfold inode_at; by rewrite Hin). rewrite <- Ei in O.
  destruct (proj2 (@readi_reads no_devices k 0 0 0 (fresh_cache (small_disk ∅)) 2 [] 500 1000 []
    (fs_tx_reads _ _ _ _ _ _ _ _ _ _ F O) ltac:(rewrite Ei; done) ltac:(lia) ltac:(lia))) as (k' & E & _);
    [rewrite Ei; simpl; lia|lia|].
  exists k, k'. eexists. rewrite Ei in E. split; [exact E|]. apply length_fbytes.
Defined.

(** Writing 1000 bytes at 500 allocates a block and makes the file longer. *)
Lemma writei_writes_witness : exists k k' a' bl' X', @writei no_devices 0 (replicate 1000 7) 500 1000 k [] = Done 1000 k' []
  /\ i_size (inode_at k' 0) = 1500
  /\ written 12 0 0 0 2 500 (replicate 1000 7) 1000 k (fresh_cache (small_disk ∅)) {[32; 33]} k' a' bl' X'.
Proof.
  destruct small_tx as (k & Hsb & Hin & F). pose proof small_file as O. rewrite <- Hsb in O.
  assert (Ei : inode_at k 0 = small_inode) by (unfold inode_at; by rewrite Hin). rewrite <- Ei in O.
  destruct (proj2 (@writei_writes no_devices 12 {[32; 33]} k 0 0 0 (fresh_cache (small_disk ∅)) 2 [] 500 (replicate 1000 7) 1000 []
    ltac:(rewrite Ei; exact F) O ltac:(rewrite Hin; simpl; lia) ltac:(rewrite Ei; done) ltac:(rewrite Ei; done)
    ltac:(rewrite Ei; apply (bool_decide_unpack _); by vm_compute) ltac:(lia) ltac:(lia) ltac:(by vm_compute)))
    as [[_ Hf]|(k' & a' & bl' & X' & E & W)]; [rewrite Ei; simpl; lia|by vm_compute| |].
  - exfalso. pose proof small_nfree as H. rewrite Hsb, Ei in Hf. change (span 500 1000 + lacks small_inode)%nat with 4%nat in Hf. lia.
  - exists k, k', a', bl', X'. split; [exact E|]. split; [|exact W].
    rewrite (wn_size _ _ _ _ _ _ _ _ _ _ _ _ _ _ _ W), Ei. by vm_compute.
Defined.

Lemma writei_readi_witness : exists k k' k2, @writei no_devices 0 (replicate 1000 7) 500 1000 k [] = Done 1000 k' []
  /\ @readi no_devices 0 500 1000 k' [] = Done (1000, replicate 1000 7) k2 [].
Proof.
  destruct small_tx as (k & Hsb & Hin & F). pose proof small_file as O. rewrite <- Hsb in O.
  assert (Ei : inode_at k 0 = small_inode) by (unfold inode_at; by rewrite Hin). rewrite <- Ei in O.
  rewrite <- (eq_refl : i_inum small_inode = 1), <- Ei in F.
  assert (Hi : (0 < length (k_inode k))%nat) by (rewrite Hin; simpl; lia).
  assert (Ht : i_type (inode_at k 0) <> T_DEV) by (by rewrite Ei).
  assert (HX : addr (inode_at k 0) NDIRECT <> 0 -> addr (inode_at k 0) NDIRECT ∈ ({[32; 33]} : gset Z)) by (by rewrite Ei).
  assert (HN : (size ({[32%Z; 33%Z]} : gset Z) + lacks (inode_at k 0) + span 500 1000 + 2 <= 12)%nat).
  { rewrite Ei. apply (bool_decide_unpack _). by vm_compute. }
  assert (Ho : 0 <= 500 <= i_size (inode_at k 0)) by (rewrite Ei; simpl; lia).
  assert (Hn : 0 <= 1000 <= Z.of_nat (length (replicate 1000 7))) by (rewrite length_replicate; lia).
  assert (Hm : 500 + 1000 <= MAXFILE * 512) by (unfold MAXFILE; lia).
  destruct (@writei_run no_devices 12 {[32; 33]} k 0 0 0 (fresh_cache (small_disk ∅)) 2 [] 500 (replicate 1000 7) 1000 []
    F O Hi Ht HX HN Ho Hn Hm) as [[_ Hf]|(k' & a' & bl' & X' & E & _)].
  - exfalso. pose proof small_nfree as H. rewrite Hsb, Ei in Hf. change (span 500 1000 + lacks small_inode)%nat with 4%nat in Hf. lia.
  - destruct (@writei_readi no_devices 12 {[32; 33]} k 0 0 0 (fresh_cache (small_disk ∅)) 2 [] 500 (replicate 1000 7) 1000 []
      k' [] F O Hi Ht HX HN Ho Hn Hm E) as (k2 & E2).
    exists k, k', k2. split; [exact E|]. rewrite firstn_all2 in E2; [exact E2|]. rewrite length_replicate. lia.
Defined.
