(* ===== verification/Lookup.v ===== *)
(** * Names

    [ilock] reads an inode, [dirlookup] searches a directory, and [namex] walks
    along a path: against a reference definition, [resolve], that looks the
    elements of the path up in the bytes of the directories on the disk.  Every
    reference that the walk takes to an inode, except the one it returns, is given
    back. *)

From stdpp Require Import base gmap list strings sets.
From Stdlib Require Import ZArith Lia.
From S2P Require Import Prelude State Bytes Spinlock Sched Bio Cache Machine Log LogSpec Crash Transaction Fs FsFormat Icache Tx Balloc Contents.

(** ** Directories on the disk *)

(** Inode [inum] of the device as the disk has it. *)
Definition node (f : Z -> list Z) (sb : superblock) (inum : Z) : inode :=
  set_i_inum inum (set_i_dev 1 (get_dinode (dinode_off inum) (f (IBLOCK inum sb)) zero_inode)).

(** All bytes of a file. *)
Definition bytes (f : Z -> list Z) (ip : inode) : list Z := fbytes f ip 0 (Z.to_nat (i_size ip)).

(** The entries of a directory with the bytes [c]. *)
Definition entries (c : list Z) : list (list Z) := (fun q => take 16 (drop (16 * q) c)) <$> seq 0 (length c / 16).

(** An entry that is in use and has the name. *)
Definition is_entry (name de : list Z) : bool := negb (de_inum de =? 0) && (namecmp name (de_name de) =? 0).

(** The first entry with the name: its position and the inode number. *)
Definition dir_find (name c : list Z) : option (nat * Z) :=
  match first_index (is_entry name) (entries c) with
  | Some q => Some (q, de_inum (default [] (entries c !! q)))
  | None => None
  end.

(** The inode that a list of path elements leads to from [inum], or with [parent]
    the directory that the last element would be in. *)
Fixpoint resolve (parent : bool) (f : Z -> list Z) (sb : superblock) (inum : Z) (path : list (list Z)) : option Z :=
  match path with
  | [] => if parent then None else Some inum
  | name :: path =>
      if negb (i_type (node f sb inum) =? T_DIR) then None else
      if parent && bool_decide (path = []) then Some inum else
      match dir_find name (bytes f (node f sb inum)) with
      | Some (_, inum) => resolve parent f sb inum path
      | None => None
      end
  end.

(** ** The machine *)

(** A process inside a transaction that holds no buffer. *)
Record at_rest (k : kstate) (c p : nat) (a : cache) (s : Z) (bl : list Z) : Prop := {
  ar_quiet : quiet k c p;
  ar_tx : tx k p a s bl;
  ar_map : map_ok k s;
  ar_bufs : (length bl < NBUF)%nat;
  ar_held : a_held a = ∅
}.

(** Everything but the inodes, the buffers and the log header is as before. *)
Definition nm_frame (k k' : kstate) : Prop := tx_frame (set_k_inode [] k) (set_k_inode [] k').

Lemma nm_frame_refl k : nm_frame k k.
Proof. done. Qed.

Lemma nm_frame_trans k1 k2 k3 : nm_frame k1 k2 -> nm_frame k2 k3 -> nm_frame k1 k3.
Proof. apply tx_frame_trans. Qed.

Lemma nm_frame_field {A} (g : kstate -> A) k k' :
  (forall k, g k = g (strip_tx (set_k_inode [] k))) -> nm_frame k k' -> g k' = g k.
Proof. intros Hg H. rewrite (Hg k'), (Hg k). by rewrite H. Qed.

Lemma nm_frame_tx k k' : tx_frame k k' -> nm_frame k k'.
Proof.
  unfold nm_frame, tx_frame. intros E. change (strip_tx (set_k_inode [] ?k)) with (set_k_inode [] (strip_tx k)). by rewrite E.
Qed.

Lemma nm_frame_inode k l : nm_frame k (set_k_inode l k).
Proof. done. Qed.

Lemma at_rest_inode k c p a s bl l : at_rest k c p a s bl -> at_rest (set_k_inode l k) c p a s bl.
Proof.
  intros [Q [C L Hd Hs] [M1 M2] B H]. split; try done; [by apply (quiet_ext k)|].
  split; [by apply (cache_ok_ext k)|by destruct L|done|done].
Qed.

Lemma at_rest_tx k k' c p a s bl : at_rest k c p a s bl -> tx k' p a s bl -> tx_frame k k' -> at_rest k' c p a s bl.
Proof. intros [Q T M B H] T' F. split; [by eapply quiet_tx|done|by eapply map_ok_tx|done|done]. Qed.

(** ** The inode table *)

(** The fields that [ilock] reads are those on the disk. *)
Definition synced (f : Z -> list Z) (sb : superblock) (ip : inode) : Prop :=
  get_dinode (dinode_off (i_inum ip)) (f (IBLOCK (i_inum ip) sb)) ip = ip.

(** The table when the inode in entry [L] is locked by process [pid], and no other. *)
Record table_ok (f : Z -> list Z) (sb : superblock) (L : option nat) (pid : Z) (l : list inode) : Prop := {
  to_length : length l = NINODE;
  to_cache : icache_ok l;
  to_lock : forall i ip, l !! i = Some ip -> if decide (L = Some i) then sl_locked (i_lock ip) = 1 /\ sl_pid (i_lock ip) = pid
                                             else sl_locked (i_lock ip) = 0;
  to_valid : forall i ip, l !! i = Some ip -> L = Some i -> i_valid ip <> 0 /\ 0 < i_ref ip;
  to_sync : forall i ip, l !! i = Some ip -> 0 < i_ref ip -> i_valid ip <> 0 -> synced f sb ip
}.

(** What identifies the entries of the table. *)
Definition ids (l : list inode) : list (Z * Z * Z) := (fun ip => (i_dev ip, i_inum ip, i_ref ip)) <$> l.

Lemma ids_lookup l l' i ip : ids l' = ids l -> l' !! i = Some ip ->
  exists ip0, l !! i = Some ip0 /\ i_dev ip = i_dev ip0 /\ i_inum ip = i_inum ip0 /\ i_ref ip = i_ref ip0.
Proof.
  intros E Hi. assert (H : ids l' !! i = Some (i_dev ip, i_inum ip, i_ref ip)) by (unfold ids; by rewrite list_lookup_fmap, Hi).
  rewrite E in H. unfold ids in H. rewrite list_lookup_fmap in H. destruct (l !! i) as [ip0|]; [|done]. simpl in H.
  exists ip0. by simplify_eq.
Qed.

Lemma ids_in_use l l' dev inum i ip : ids l' = ids l -> l' !! i = Some ip ->
  exists ip0, l !! i = Some ip0 /\ in_use dev inum ip = in_use dev inum ip0 /\ i_ref ip = i_ref ip0.
Proof.
  intros E Hi. destruct (ids_lookup _ _ _ _ E Hi) as (ip0 & H0 & H1 & H2 & H3). exists ip0. unfold in_use. by rewrite H1, H2, H3.
Qed.

Lemma ids_icache l l' : ids l' = ids l -> icache_ok l -> icache_ok l'.
Proof.
  intros E [H1 H2]. split.
  - apply Forall_lookup. intros i ip Hi. destruct (ids_lookup _ _ _ _ E Hi) as (ip0 & H0 & _ & _ & ->).
    rewrite Forall_lookup in H1. by apply (H1 i).
  - intros dev inum i j x y Hx Hy Ux Uy. destruct (ids_in_use _ _ dev inum _ _ E Hx) as (x0 & Hx0 & Ex & _).
    destruct (ids_in_use _ _ dev inum _ _ E Hy) as (y0 & Hy0 & Ey & _). apply (H2 dev inum i j x0 y0); congruence.
Qed.

Lemma ids_refcount l l' dev inum : ids l' = ids l -> icache_ok l -> refcount l' dev inum = refcount l dev inum.
Proof.
  intros E H. pose proof (ids_icache _ _ E H) as H'. destruct (refcount_cases l' dev inum H') as [(i & ip & Hi & U & ->)|[Hno ->]].
  - destruct (ids_in_use _ _ dev inum _ _ E Hi) as (ip0 & H0 & Eu & ->). symmetry. apply (refcount_in _ i); [done|done|congruence].
  - symmetry. apply refcount_out. intros i ip Hi. destruct (ids_in_use _ _ dev inum _ _ (eq_sym E) Hi) as (ip0 & H0 & -> & _). by apply (Hno i).
Qed.

Lemma ids_insert l i ip ip' : l !! i = Some ip -> i_dev ip' = i_dev ip -> i_inum ip' = i_inum ip -> i_ref ip' = i_ref ip ->
  ids (<[i := ip']> l) = ids l.
Proof.
  intros Hi E1 E2 E3. unfold ids. rewrite list_fmap_insert, E1, E2, E3. apply list_insert_id. by rewrite list_lookup_fmap, Hi.
Qed.

Record names (L : option nat) (k : kstate) (c p : nat) (a : cache) (s : Z) (bl : list Z) : Prop := {
  nm_rest : at_rest k c p a s bl;
  nm_table : table_ok (a_blk a) (k_sb k) L (mypid k p) (k_inode k)
}.

Lemma names_inode L L' k c p a s bl l : names L k c p a s bl -> table_ok (a_blk a) (k_sb k) L' (mypid k p) l ->
  names L' (set_k_inode l k) c p a s bl.
Proof. intros [R T] T'. split; [by apply at_rest_inode|exact T']. Qed.

Lemma names_tx L k k' c p a s bl : names L k c p a s bl -> tx k' p a s bl -> tx_frame k k' -> names L k' c p a s bl.
Proof.
  intros [R T] T' F. split; [by eapply at_rest_tx|]. unfold mypid. rewrite (tx_frame_field k_sb _ _ ltac:(done) F).
  rewrite (tx_frame_field (fun k => proc_at k p) _ _ ltac:(done) F). by rewrite (tx_frame_field k_inode _ _ ltac:(done) F).
Qed.

Lemma names_lt L k c p a s bl i ip : names L k c p a s bl -> k_inode k !! i = Some ip -> (i < NINODE)%nat.
Proof. intros N Hi. rewrite <- (to_length _ _ _ _ _ (nm_table _ _ _ _ _ _ _ N)). by eapply lookup_lt_Some. Qed.

Lemma names_locks L k c p a s bl i ip : names L k c p a s bl -> k_inode k !! i = Some ip ->
  running k c p /\ lock_free k (L_sleep (SL_inode i)) /\ lock_free k L_ptable /\ lock_free k L_icache
  /\ no_sleeper k (Ch_sleeplock (SL_inode i)).
Proof.
  intros N Hi. pose proof (ar_quiet _ _ _ _ _ _ (nm_rest _ _ _ _ _ _ _ N)) as [Q1 Q2 Q3]. pose proof (names_lt _ _ _ _ _ _ _ _ _ N Hi) as Hlt.
  split; [done|]. split; [apply Q2; by apply Nat.ltb_lt|]. split; [by apply Q2|]. split; [by apply Q2|by apply Q3].
Qed.

(** An entry is replaced. *)
Lemma table_replace f sb L L' pid l i ip ip' : table_ok f sb L pid l -> l !! i = Some ip -> icache_ok (<[i := ip']> l) ->
  (L = L' \/ L = None /\ L' = Some i \/ L = Some i /\ L' = None) ->
  (if decide (L' = Some i) then (sl_locked (i_lock ip') = 1 /\ sl_pid (i_lock ip') = pid) /\ i_valid ip' <> 0 /\ 0 < i_ref ip'
   else sl_locked (i_lock ip') = 0) ->
  (0 < i_ref ip' -> i_valid ip' <> 0 -> synced f sb ip') -> table_ok f sb L' pid (<[i := ip']> l).
Proof.
  intros [T1 T2 T3 T4 T5] Hi Hc HL Hlock Hsync. pose proof (lookup_lt_Some _ _ _ Hi) as Hlt.
  assert (Hne : forall j, j <> i -> L = Some j <-> L' = Some j) by (intros j Hj; destruct HL as [->|[[-> ->]|[-> ->]]]; split; congruence).
  split; [by rewrite length_insert|done| | |].
  - intros j x Hj. destruct (decide (j = i)) as [->|Hji].
    + rewrite list_lookup_insert_eq in Hj by done. simplify_eq. by case_decide; [apply Hlock|].
    + rewrite list_lookup_insert_ne in Hj by done. specialize (T3 j x Hj). by rewrite (decide_ext _ _ _ _ (Hne j Hji)) in T3.
  - intros j x Hj HLj. destruct (decide (j = i)) as [->|Hji].
    + rewrite list_lookup_insert_eq in Hj by done. simplify_eq. rewrite decide_True in Hlock by done. apply Hlock.
    + rewrite list_lookup_insert_ne in Hj by done. apply (T4 j x Hj). by apply Hne.
  - intros j x Hj. destruct (decide (j = i)) as [->|Hji]; [rewrite list_lookup_insert_eq in Hj by done; simplify_eq; exact Hsync|].
    rewrite list_lookup_insert_ne in Hj by done. by apply (T5 j).
Qed.

Lemma synced_lock f sb ip lk : synced f sb ip -> synced f sb (set_i_lock lk ip).
Proof. unfold synced. intros H. change (get_dinode ?o ?d (set_i_lock lk ip)) with (set_i_lock lk (get_dinode o d ip)). simpl. by rewrite H. Qed.

Lemma synced_ref f sb ip r : synced f sb ip -> synced f sb (set_i_ref r ip).
Proof. unfold synced. intros H. change (get_dinode ?o ?d (set_i_ref r ip)) with (set_i_ref r (get_dinode o d ip)). simpl. by rewrite H. Qed.

(** [ilock] when the entry holds the inode already. *)
Lemma ilock_valid k c p a s bl i ip e : names None k c p a s bl -> k_inode k !! i = Some ip -> 0 < i_ref ip -> i_valid ip <> 0 ->
  exists lk, let ip' := set_i_lock lk ip in ilock i k e = Done tt (put_inode i ip' k) e /\ names (Some i) (put_inode i ip' k) c p a s bl.
Proof.
  intros N Hi Hr Hv. destruct (names_locks _ _ _ _ _ _ _ _ _ N Hi) as (R & Hs & _). pose proof (nm_table _ _ _ _ _ _ _ N) as T.
  assert (Ea : inode_at k i = ip) by (unfold inode_at; by rewrite Hi). pose proof (to_lock _ _ _ _ _ T i ip Hi) as Hlk. simpl in Hlk.
  unfold ilock. rewrite bind_gets, Ea, (proj2 (Z.ltb_ge (i_ref ip) 1)) by lia.
  pose proof (acquiresleep_free k c p (SL_inode i) e R Hs ltac:(simpl; by rewrite Ea)) as E. run E. unfold upd_sleeplock.
  rewrite upd_inode_upd, (upd_inode_put _ i _ ip Hi). set (x1 := set_i_lock _ (set_i_lock _ ip)).
  assert (E1 : inode_at (put_inode i x1 k) i = x1) by (unfold inode_at; by rewrite (put_inode_at _ _ _ _ Hi)).
  rewrite bind_gets, E1. change (i_valid x1) with (i_valid ip). rewrite (proj2 (Z.eqb_neq (i_valid ip) 0)) by done.
  exists (i_lock x1). split; [done|]. apply (names_inode None); [done|].
  apply (table_replace _ _ None _ _ _ i ip); try done; [|by right; left|by rewrite decide_True|].
  { apply (ids_icache (k_inode k)); [by apply (ids_insert _ _ ip)|apply T]. }
  intros _ _. by apply synced_lock, (to_sync _ _ _ _ _ T i ip Hi).
Qed.

(** A block is read, and given back after the inodes have changed. *)
Lemma read_block k c p a s bl n e : at_rest k c p a s bl -> in_range k n ->
  exists b k2, bread 1 n k e = Done b k2 e /\ tx_frame k k2 /\ b_data (buf_at k2 b) = a_blk a n
    /\ forall l, exists k', brelse b (set_k_inode l k2) e = Done tt k' e /\ at_rest k' c p a s bl /\ tx_frame (set_k_inode l k2) k'.
Proof.
  intros [Q T M B Hh] Hr. destruct (tx_bread k c p a s bl n e Q T Hr) as (b & k2 & E2 & T2 & F2 & _ & Hdata).
  { by rewrite Hh. } { by rewrite Hh, dom_empty_L, size_empty. }
  exists b, k2. split; [done|]. split; [done|]. split; [done|]. intros l. pose proof (quiet_tx _ _ _ _ F2 Q) as Q2.
  assert (Q3 : quiet (set_k_inode l k2) c p) by (by apply (quiet_ext k2)).
  assert (T3 : tx (set_k_inode l k2) p (hold n b a) s bl).
  { destruct T2 as [C L Hd Hs]. split; [by apply (cache_ok_ext k2)|by destruct L|done|done]. }
  destruct (tx_brelse _ c p _ s bl n b e Q3 T3) as (k4 & E4 & T4 & F4 & _); [simpl; by rewrite lookup_insert_eq|].
  rewrite unhold_hold in T4 by (by rewrite Hh). exists k4. split; [done|]. split; [|done]. split; try done.
  - by eapply quiet_tx.
  - eapply map_ok_tx; [exact F4|]. pose proof (map_ok_tx _ _ _ F2 M) as [M1 M2]. by split.
Qed.

(** [ilock] when the inode has to be read. *)
Lemma ilock_read k c p a s bl i ip e : names None k c p a s bl -> k_inode k !! i = Some ip -> 0 < i_ref ip -> i_valid ip = 0 ->
  i_dev ip = 1 -> in_range k (IBLOCK (i_inum ip) (k_sb k)) -> i_type (node (a_blk a) (k_sb k) (i_inum ip)) <> 0 ->
  exists k' ip', ilock i k e = Done tt k' e /\ names (Some i) k' c p a s bl /\ nm_frame k k' /\ k_inode k' = <[i := ip']> (k_inode k)
    /\ i_dev ip' = i_dev ip /\ i_inum ip' = i_inum ip /\ i_ref ip' = i_ref ip.
Proof.
  intros N Hi Hr Hv Hd Hir Hty. destruct (names_locks _ _ _ _ _ _ _ _ _ N Hi) as (R & Hs & _). pose proof (nm_table _ _ _ _ _ _ _ N) as T.
  assert (Ea : inode_at k i = ip) by (unfold inode_at; by rewrite Hi). pose proof (to_lock _ _ _ _ _ T i ip Hi) as Hlk. simpl in Hlk.
  unfold ilock. rewrite bind_gets, Ea, (proj2 (Z.ltb_ge (i_ref ip) 1)) by lia.
  pose proof (acquiresleep_free k c p (SL_inode i) e R Hs ltac:(simpl; by rewrite Ea)) as E. run E. unfold upd_sleeplock.
  rewrite upd_inode_upd, (upd_inode_put _ i _ ip Hi). set (x1 := set_i_lock _ (set_i_lock _ ip)). set (k1 := put_inode i x1 k).
  assert (H1 : k_inode k1 !! i = Some x1) by (by eapply put_inode_at).
  assert (E1 : inode_at k1 i = x1) by (unfold inode_at; by rewrite H1).
  rewrite bind_gets, E1. change (i_valid x1) with (i_valid ip). rewrite Hv. cbn [Z.eqb when]. rewrite bind_gets.
  change (i_dev x1) with (i_dev ip). change (i_inum x1) with (i_inum ip). rewrite Hd. change (k_sb k1) with (k_sb k).
  pose proof (at_rest_inode _ _ _ _ _ _ (<[i := x1]> (k_inode k)) (nm_rest _ _ _ _ _ _ _ N)) as R1.
  destruct (read_block k1 c p a s bl (IBLOCK (i_inum ip) (k_sb k)) e R1 Hir) as (b & k2 & E2 & F2 & Hdata & Hrel).
  run E2. unfold bdata at 1. rewrite bind_gets, Hdata, bind_modify.
  assert (H2 : k_inode k2 !! i = Some x1) by (by rewrite (tx_frame_field k_inode _ _ ltac:(done) F2)).
  rewrite (upd_inode_put k2 i _ x1 H2). set (x2 := get_dinode _ _ x1).
  destruct (Hrel (<[i := x2]> (k_inode k2))) as (k4 & E4 & R4 & F4). run E4. rewrite bind_modify.
  assert (H4 : k_inode k4 = <[i := x2]> (k_inode k)).
  { rewrite (tx_frame_field k_inode _ _ ltac:(done) F4). simpl. rewrite (tx_frame_field k_inode _ _ ltac:(done) F2). apply list_insert_insert_eq. }
  assert (H4i : k_inode k4 !! i = Some x2) by (rewrite H4; apply list_lookup_insert_eq; by eapply lookup_lt_Some).
  rewrite (upd_inode_put k4 i _ x2 H4i), bind_gets. set (x3 := set_i_valid 1 x2). set (k5 := put_inode i x3 k4).
  assert (E5 : inode_at k5 i = x3) by (unfold inode_at, k5; by rewrite (put_inode_at _ _ _ _ H4i)). rewrite E5.
  rewrite (proj2 (Z.eqb_neq (i_type x3) 0)) by exact Hty.
  assert (F : nm_frame k k4).
  { apply (nm_frame_trans _ k1); [done|]. apply (nm_frame_trans _ k2); [by apply nm_frame_tx|].
    apply (nm_frame_trans _ (put_inode i x2 k2)); [done|by apply nm_frame_tx]. }
  assert (Ek : k_inode k5 = <[i := x3]> (k_inode k)) by (unfold k5; simpl; rewrite H4; apply list_insert_insert_eq).
  exists k5, x3. split; [done|]. split; [|split; [by apply (nm_frame_trans _ k4)|done]].
  split; [by apply at_rest_inode|]. rewrite Ek. unfold mypid. rewrite (nm_frame_field (fun k => proc_at k p) k k5 ltac:(done) F).
  rewrite (nm_frame_field k_sb k k5 ltac:(done) F).
  apply (table_replace _ _ None _ _ _ i ip); try done; [|by right; left|by rewrite decide_True].
  apply (ids_icache (k_inode k)); [by apply (ids_insert _ _ ip)|apply T].
Qed.

(** Either way. *)
Lemma ilock_run k c p a s bl i ip e : names None k c p a s bl -> k_inode k !! i = Some ip -> 0 < i_ref ip ->
  i_dev ip = 1 -> in_range k (IBLOCK (i_inum ip) (k_sb k)) -> i_type (node (a_blk a) (k_sb k) (i_inum ip)) <> 0 ->
  exists k' ip', ilock i k e = Done tt k' e /\ names (Some i) k' c p a s bl /\ nm_frame k k' /\ k_inode k' = <[i := ip']> (k_inode k)
    /\ i_dev ip' = i_dev ip /\ i_inum ip' = i_inum ip /\ i_ref ip' = i_ref ip.
Proof.
  intros N Hi Hr Hd Hir Hty. destruct (decide (i_valid ip = 0)) as [Hv|Hv]; [by apply (ilock_read k c p a s bl i ip)|].
  destruct (ilock_valid k c p a s bl i ip e N Hi Hr Hv) as (lk & E & N'). by eexists _, (set_i_lock lk ip).
Qed.

Lemma iunlock_run k c p a s bl i ip e : names (Some i) k c p a s bl -> k_inode k !! i = Some ip ->
  exists lk, let ip' := set_i_lock lk ip in iunlock i k e = Done tt (put_inode i ip' k) e /\ names None (put_inode i ip' k) c p a s bl.
Proof.
  intros N Hi. destruct (names_locks _ _ _ _ _ _ _ _ _ N Hi) as (R & Hs & Hpt & _ & Hn). pose proof (nm_table _ _ _ _ _ _ _ N) as T.
  assert (Ea : inode_at k i = ip) by (unfold inode_at; by rewrite Hi). pose proof (to_lock _ _ _ _ _ T i ip Hi) as Hlk.
  rewrite decide_True in Hlk by done. destruct Hlk as [Hl Hp]. destruct (to_valid _ _ _ _ _ T i ip Hi eq_refl) as [Hv Hr].
  unfold iunlock. pose proof (holdingsleep_done k c p (SL_inode i) e R Hs) as E. simpl sleeplock_at in E. rewrite Ea, Hl, Hp, Z.eqb_refl in E.
  run E. cbn [truth Z.eqb negb andb]. rewrite bind_gets, Ea, (proj2 (Z.ltb_ge (i_ref ip) 1)) by lia.
  rewrite (releasesleep_done k c (SL_inode i) e (proj1 R) Hs Hpt Hn). unfold upd_sleeplock.
  rewrite upd_inode_upd, (upd_inode_put _ i _ ip Hi). set (x1 := set_i_lock _ (set_i_lock _ ip)).
  exists (i_lock x1). split; [done|]. apply (names_inode (Some i)); [done|].
  apply (table_replace _ _ (Some i) _ _ _ i ip); try done; [|by right; right|].
  { apply (ids_icache (k_inode k)); [by apply (ids_insert _ _ ip)|apply T]. }
  intros _ _. by apply synced_lock, (to_sync _ _ _ _ _ T i ip Hi).
Qed.

(** ** References *)

(** The references to the inodes of the device, [g] more for each. *)
Definition refs (k k' : kstate) (g : Z -> Z) : Prop :=
  forall dev n, refcount (k_inode k') dev n = refcount (k_inode k) dev n + (if dev =? 1 then g n else 0).

Definition one (inum n : Z) : Z := if n =? inum then 1 else 0.
Definition none (n : Z) : Z := 0.

Lemma refs_trans k1 k2 k3 g h : refs k1 k2 g -> refs k2 k3 h -> refs k1 k3 (fun n => g n + h n).
Proof. intros H1 H2 dev n. rewrite H2, H1. destruct (dev =? 1); lia. Qed.

Lemma refs_ext k k' g h : refs k k' g -> (forall n, g n = h n) -> refs k k' h.
Proof. intros H E dev n. rewrite H. by rewrite E. Qed.

Lemma refs_ids k k' : ids (k_inode k') = ids (k_inode k) -> icache_ok (k_inode k) -> refs k k' none.
Proof. intros E H dev n. rewrite (ids_refcount _ _ dev n E H). unfold none. destruct (dev =? 1); lia. Qed.

Lemma refs_put k i x ip inum d : icache_ok (k_inode k) -> k_inode k !! i = Some x ->
  refcount (k_inode k) 1 inum + d = i_ref ip ->
  (forall j y, k_inode k !! j = Some y -> in_use 1 inum y = true -> j = i) -> i_ref x = 0 \/ in_use 1 inum x = true ->
  i_dev ip = 1 -> i_inum ip = inum -> 0 <= i_ref ip ->
  icache_ok (k_inode (put_inode i ip k)) /\ refs k (put_inode i ip k) (fun n => d * one inum n).
Proof.
  intros H Hi Hd Hu Ho E1 E2 H0. destruct (icache_replace (k_inode k) i x ip 1 inum H Hi Ho Hu E1 E2 H0) as (H1 & H2 & H3).
  split; [exact H1|]. intros dev n. change (k_inode (put_inode i ip k)) with (<[i := ip]> (k_inode k)). unfold one.
  destruct (Z.eqb_spec dev 1) as [->|Hne], (Z.eqb_spec n inum) as [->|Hn]; [rewrite H2|rewrite H3 by congruence..]; lia.
Qed.

(** [iput] of an inode that stays. *)
Lemma iput_run k c p a s bl i ip e : names None k c p a s bl -> k_inode k !! i = Some ip -> 0 < i_ref ip -> i_dev ip = 1 ->
  i_valid ip = 0 \/ i_nlink ip <> 0 ->
  exists k' lk, iput i k e = Done tt k' e /\ names None k' c p a s bl /\ nm_frame k k' /\ refs k k' (fun n => - one (i_inum ip) n)
    /\ k_inode k' = <[i := set_i_ref (i_ref ip - 1) (set_i_lock lk ip)]> (k_inode k).
Proof.
  intros N Hi Hr Hd Hx. destruct (names_locks _ _ _ _ _ _ _ _ _ N Hi) as (R & Hs & Hpt & Hic & Hn). pose proof (nm_table _ _ _ _ _ _ _ N) as T.
  assert (Ea : inode_at k i = ip) by (unfold inode_at; by rewrite Hi). pose proof (to_lock _ _ _ _ _ T i ip Hi) as Hlk. simpl in Hlk.
  destruct (iput_done k c p i ip e) as (lk & E & Hl); [|done|done|].
  { split; try done. simpl. by rewrite Ea. }
  set (ip' := set_i_ref (i_ref ip - 1) (set_i_lock lk ip)) in *. assert (Hu : in_use 1 (i_inum ip) ip = true) by (by apply in_use_spec).
  destruct (refs_put k i ip ip' (i_inum ip) (-1) (to_cache _ _ _ _ _ T) Hi) as (Hok & Hrefs); try done.
  - rewrite (refcount_in _ i ip) by (done || apply T). done.
  - intros j y Hj Hy. by apply (ic_uniq _ (to_cache _ _ _ _ _ T) 1 (i_inum ip) j i y ip).
  - by right.
  - simpl. lia.
  - eexists _, lk. split; [exact E|]. split; [|split; [done|split; [|done]]].
    + apply (names_inode None); [done|]. apply (table_replace _ _ None _ _ _ i ip); try done; [by left|].
      intros H1 H2. by apply synced_ref, synced_lock, (to_sync _ _ _ _ _ T i ip Hi).
    + apply (refs_ext _ _ _ _ Hrefs). intros n. lia.
Qed.

(** The inodes that have an entry in use. *)
Definition held (l : list inode) : gset (Z * Z) :=
  list_to_set ((fun ip => (i_dev ip, i_inum ip)) <$> filter (fun ip => 0 < i_ref ip) l).

Lemma held_spec l dev inum : icache_ok l -> (dev, inum) ∈ held l <-> 0 < refcount l dev inum.
Proof.
  intros H. unfold held. rewrite elem_of_list_to_set, list_elem_of_fmap. split.
  - intros (ip & [= -> ->] & [Hr [i Hi]%list_elem_of_lookup]%list_elem_of_filter).
    rewrite (refcount_in l i ip); [done|done|done|by apply in_use_spec].
  - intros Hr. destruct (refcount_cases l dev inum H) as [(i & ip & Hi & U & E)|[_ E]]; [|lia].
    apply in_use_spec in U as (U1 & <- & <-). exists ip. split; [done|]. apply list_elem_of_filter. split; [done|].
    by eapply list_elem_of_lookup_2.
Qed.

Lemma filter_all {A} (P : A -> Prop) `{!forall x, Decision (P x)} (l : list A) : Forall P l -> filter P l = l.
Proof. induction 1 as [|x l Hx Hl IH]; [done|]. by rewrite filter_cons_True, IH. Qed.

(** When every entry is in use there are as many inodes as entries. *)
Lemma held_full l : icache_ok l -> Forall (fun ip => i_ref ip <> 0) l -> size (held l) = length l.
Proof.
  intros H Hall. assert (Hpos : Forall (fun ip => 0 < i_ref ip) l).
  { pose proof (ic_ref _ H) as H0. rewrite Forall_lookup in *. intros i x Hi. specialize (Hall i x Hi). specialize (H0 i x Hi). simpl in *. lia. }
  unfold held. rewrite filter_all by done. rewrite size_list_to_set, length_fmap; [done|].
  apply NoDup_alt. intros i j [d n] Hi Hj. rewrite list_lookup_fmap in Hi, Hj. rewrite Forall_lookup in Hpos.
  destruct (l !! i) as [x|] eqn:Ex, (l !! j) as [y|] eqn:Ey; try done. simpl in Hi, Hj. simplify_eq.
  specialize (Hpos i x Ex) as Px. specialize (Hpos j y Ey) as Py.
  apply (ic_uniq _ H (i_dev x) (i_inum x) i j x y); try done; by apply in_use_spec.
Qed.

Lemma held_room l : icache_ok l -> (size (held l) < length l)%nat -> iget_empty l <> None.
Proof.
  intros H Hs E. apply first_index_None in E. rewrite held_full in Hs; [lia|done|]. apply (Forall_impl _ _ _ E). intros ip. by rewrite Z.eqb_neq.
Qed.

Lemma set_ref_id ip : set_i_ref (i_ref ip) ip = ip.
Proof. by destruct ip. Qed.

(** [iget] with room in the table. *)
Lemma iget_names L k c p a s bl inum e : names L k c p a s bl -> (size (held (k_inode k)) < NINODE)%nat ->
  exists i k' ip, iget 1 inum k e = Done i k' e /\ names L k' c p a s bl /\ nm_frame k k' /\ refs k k' (one inum)
    /\ k_inode k' !! i = Some ip /\ in_use 1 inum ip = true
    /\ forall j x, k_inode k !! j = Some x -> 0 < i_ref x -> exists r, 0 < r /\ k_inode k' !! j = Some (set_i_ref r x).
Proof.
  intros N Hs. pose proof (nm_table _ _ _ _ _ _ _ N) as T. pose proof (to_cache _ _ _ _ _ T) as Hc.
  pose proof (ar_quiet _ _ _ _ _ _ (nm_rest _ _ _ _ _ _ _ N)) as [Q1 Q2 _].
  pose proof (iget_run k c 1 inum e (proj1 Q1) (Q2 L_icache eq_refl)) as R.
  destruct (iget_hit 1 inum (k_inode k)) as [i|] eqn:Eh.
  - destruct R as (x & Hi & Hu & E). set (ip := set_i_ref (i_ref x + 1) x) in *. pose proof Hu as (U1 & U2 & U3)%in_use_spec.
    destruct (refs_put k i x ip inum 1 Hc Hi) as (Hok & Hrefs); try done.
    { rewrite (refcount_in _ i x) by done. done. }
    { intros j y Hj Hy. by apply (ic_uniq _ Hc 1 inum j i y x). } { by right. } { simpl. lia. }
    exists i, (put_inode i ip k), ip. split; [done|]. split; [|split; [done|split]].
    + apply (names_inode L); [done|]. apply (table_replace _ _ L _ _ _ i x); try done; [by left| |].
      * pose proof (to_lock _ _ _ _ _ T i x Hi) as Hl. pose proof (to_valid _ _ _ _ _ T i x Hi) as Hv. case_decide; [|done].
        split; [done|]. destruct Hv; [done|]. split; [done|]. simpl. lia.
      * intros _ Hv. by apply synced_ref, (to_sync _ _ _ _ _ T i x Hi).
    + apply (refs_ext _ _ _ _ Hrefs). intros n. lia.
    + split; [by eapply put_inode_at|]. split; [apply in_use_spec; simpl; (done || lia)|].
      intros j y Hj Hy. simpl. destruct (decide (j = i)) as [->|Hne].
      * rewrite list_lookup_insert_eq by (by eapply lookup_lt_Some). simplify_eq. exists (i_ref x + 1). split; [lia|done].
      * exists (i_ref y). rewrite list_lookup_insert_ne, set_ref_id by done. done.
  - destruct (iget_empty (k_inode k)) as [i|] eqn:Ee; [|exfalso; apply (held_room _ Hc); [by rewrite (to_length _ _ _ _ _ T)|done]].
    destruct R as (x & Hi & Hx & Hno & E). set (ip := set_i_valid _ _) in *.
    assert (Hli : L <> Some i) by (intros HL; destruct (to_valid _ _ _ _ _ T i x Hi HL); lia).
    destruct (refs_put k i x ip inum 1 Hc Hi) as (Hok & Hrefs); try done.
    { rewrite refcount_out by done. done. }
    { intros j y Hj Hy. by rewrite (Hno j y Hj) in Hy. } { by left. }
    exists i, (put_inode i ip k), ip. split; [done|]. split; [|split; [done|split]].
    + apply (names_inode L); [done|]. apply (table_replace _ _ L _ _ _ i x); try done; [by left|].
      rewrite decide_False by done. pose proof (to_lock _ _ _ _ _ T i x Hi) as Hl. by rewrite decide_False in Hl.
    + apply (refs_ext _ _ _ _ Hrefs). intros n. lia.
    + split; [by eapply put_inode_at|]. split; [by apply in_use_spec|]. intros j y Hj Hy. simpl.
      exists (i_ref y). rewrite list_lookup_insert_ne, set_ref_id by (intros <-; simplify_eq; lia). done.
Qed.

(** ** Searching a directory *)

Lemma fptr_addrs f ip ip' n : i_addrs ip' = i_addrs ip -> fptr f ip' n = fptr f ip n.
Proof. intros E. unfold fptr, addr. by rewrite E. Qed.

Lemma bytes_like f ip ip' : i_addrs ip' = i_addrs ip -> i_size ip' = i_size ip -> bytes f ip' = bytes f ip.
Proof.
  intros E1 E2. unfold bytes. rewrite E2. apply list_eq. intros j. destruct (decide (j < Z.to_nat (i_size ip))%nat) as [Hj|Hj].
  - rewrite !lookup_fbytes by done. f_equal. unfold fbyte. by rewrite (fptr_addrs f ip).
  - by rewrite !lookup_ge_None_2 by (rewrite length_fbytes; lia).
Qed.

Lemma file_ok_like sb s a ip ip' : file_ok sb s a ip -> i_dev ip' = i_dev ip -> i_inum ip' = i_inum ip -> i_size ip' = i_size ip ->
  i_addrs ip' = i_addrs ip -> file_ok sb s a ip'.
Proof.
  intros [O1 O2 O3 O4 O5 O6] E1 E2 E3 E4. assert (Ep : forall n, fptr (a_blk a) ip' n = fptr (a_blk a) ip n) by (intros n; by apply fptr_addrs).
  split; rewrite ?E1, ?E2, ?E3, ?E4; try done; intros n; [rewrite Ep|intros m; rewrite !Ep|rewrite Ep]; auto.
Qed.

(** An inode read from the disk is the one on the disk. *)
Lemma synced_node f sb d : synced f sb d -> let nd := node f sb (i_inum d) in
  i_type d = i_type nd /\ i_nlink d = i_nlink nd /\ i_size d = i_size nd /\ i_addrs d = i_addrs nd.
Proof.
  intros E nd. exact (conj (eq_sym (f_equal i_type E)) (conj (eq_sym (f_equal i_nlink E))
    (conj (eq_sym (f_equal i_size E)) (eq_sym (f_equal i_addrs E))))).
Qed.

(** The inodes [D] are in use, and the entries of the directories among them lead to
    inodes in [D]. *)
Record tree (k : kstate) (s : Z) (a : cache) (D : Z -> Prop) : Prop := {
  tr_range : forall n, D n -> in_range k (IBLOCK n (k_sb k));
  tr_live : forall n, D n -> i_type (node (a_blk a) (k_sb k) n) <> 0 /\ i_nlink (node (a_blk a) (k_sb k) n) <> 0;
  tr_file : forall n, D n -> i_type (node (a_blk a) (k_sb k) n) = T_DIR -> file_ok (k_sb k) s a (node (a_blk a) (k_sb k) n);
  tr_size : forall n, D n -> i_type (node (a_blk a) (k_sb k) n) = T_DIR -> i_size (node (a_blk a) (k_sb k) n) mod 16 = 0;
  tr_closed : forall n de, D n -> i_type (node (a_blk a) (k_sb k) n) = T_DIR ->
    de ∈ entries (bytes (a_blk a) (node (a_blk a) (k_sb k) n)) -> de_inum de <> 0 -> D (de_inum de)
}.

Lemma entries_lookup c q : (q < length c / 16)%nat -> entries c !! q = Some (take 16 (drop (16 * q) c)).
Proof. intros H. unfold entries. by rewrite list_lookup_fmap, lookup_seq_lt. Qed.

Lemma length_entries c : length (entries c) = (length c / 16)%nat.
Proof. unfold entries. by rewrite length_fmap, length_seq. Qed.

Lemma fbytes_part f ip n o m : (o + m <= n)%nat -> fbytes f ip (Z.of_nat o) m = take m (drop o (fbytes f ip 0 n)).
Proof.
  intros H. apply list_eq. intros j. destruct (decide (j < m)%nat) as [Hj|Hj].
  - rewrite lookup_take_lt, lookup_drop, !lookup_fbytes by lia. do 2 f_equal. lia.
  - rewrite lookup_take_ge by lia. apply lookup_ge_None_2. rewrite length_fbytes. lia.
Qed.

Section Names.
Context {Dev : Devsw}.

(** Reading an entry. *)
Lemma read_entry k c p a s bl dp d q e : names (Some dp) k c p a s bl -> k_inode k !! dp = Some d -> i_type d = T_DIR ->
  file_ok (k_sb k) s a d -> let es := entries (bytes (a_blk a) d) in (q < length es)%nat ->
  exists k' de, es !! q = Some de /\ readi dp (16 * Z.of_nat q) sizeof_dirent k e = Done (sizeof_dirent, de) k' e
    /\ names (Some dp) k' c p a s bl /\ tx_frame k k'.
Proof.
  intros N Hd Ht O es Hq. pose proof (nm_rest _ _ _ _ _ _ _ N) as [Q T M B Hh]. assert (Ea : inode_at k dp = d) by (unfold inode_at; by rewrite Hd).
  assert (Hlen : Z.of_nat (length (bytes (a_blk a) d)) = i_size d) by (unfold bytes; rewrite length_fbytes; pose proof (fi_size _ _ _ _ O); lia).
  unfold es in Hq. rewrite length_entries in Hq. set (n := length (bytes (a_blk a) d)) in *.
  assert (Hn : (16 * q + 16 <= n)%nat) by (pose proof (Nat.Div0.mul_div_le n 16); lia).
  assert (R : reads k c p a s bl (inode_at k dp)).
  { rewrite Ea. split; try done. by rewrite Hh, dom_empty_L, size_empty. }
  pose proof (fi_size _ _ _ _ O) as Hs. unfold MAXFILE in Hs. unfold sizeof_dirent.
  destruct (proj2 (readi_run k c p dp a s bl (16 * Z.of_nat q) 16 e R ltac:(rewrite Ea, Ht; done) ltac:(lia) ltac:(lia))) as (k' & E & R' & F & _);
    rewrite ?Ea; [lia|lia|]. rewrite Ea in E. rewrite Z.min_l in E by lia.
  exists k', (take 16 (drop (16 * q) (bytes (a_blk a) d))). split; [by apply entries_lookup|]. split; [|split; [|done]].
  - rewrite E. do 2 f_equal. unfold bytes. rewrite <- fbytes_part by (unfold n, bytes in Hn; rewrite length_fbytes in Hn; lia).
    by replace (Z.of_nat (16 * q)) with (16 * Z.of_nat q) by lia.
  - eapply names_tx; [exact N|apply R'|exact F].
Qed.

(** What [dirlookup] has done when it found inode [inum]: the entry [i] of the table is
    a new reference to it, and the directory is still locked. *)
Definition found (k k' : kstate) (c p : nat) (a : cache) (s : Z) (bl : list Z) (dp : nat) (d : inode) (inum : Z) (i : nat) : Prop :=
  names (Some dp) k' c p a s bl /\ nm_frame k k' /\ refs k k' (one inum)
  /\ (exists ip, k_inode k' !! i = Some ip /\ in_use 1 inum ip = true) /\ exists r, 0 < r /\ k_inode k' !! dp = Some (set_i_ref r d).

(** A directory of the table. *)
Record dir_at (k : kstate) (s : Z) (a : cache) (dp : nat) (d : inode) : Prop := {
  da_inode : k_inode k !! dp = Some d;
  da_type : i_type d = T_DIR;
  da_dev : i_dev d = 1;
  da_file : file_ok (k_sb k) s a d;
  da_size : i_size d mod 16 = 0
}.

Lemma dir_at_tx k k' s a dp d : dir_at k s a dp d -> tx_frame k k' -> dir_at k' s a dp d.
Proof.
  intros [H1 H2 H3 H4 H5] F. split; try done; [by rewrite (tx_frame_field k_inode _ _ ltac:(done) F)|].
  by rewrite (tx_frame_field k_sb _ _ ltac:(done) F).
Qed.

Lemma dir_length k s a dp d : dir_at k s a dp d -> i_size d = 16 * Z.of_nat (length (entries (bytes (a_blk a) d))).
Proof.
  intros [_ _ _ O Hm]. pose proof (fi_size _ _ _ _ O). rewrite length_entries. unfold bytes. rewrite length_fbytes, Nat2Z.inj_div. div_lia.
Qed.

(** One round: the end of the directory, an entry that is passed over, or the entry. *)
Lemma dirlookup_round c p a s bl dp d name e q k : names (Some dp) k c p a s bl -> dir_at k s a dp d ->
  (size (held (k_inode k)) < NINODE)%nat -> let r := dirlookup_body dp name (16 * Z.of_nat q) k e in
  match entries (bytes (a_blk a) d) !! q with
  | None => r = Done (inr None) k e
  | Some de => if is_entry name de
      then exists i k', r = Done (inr (Some (i, 16 * Z.of_nat q))) k' e /\ found k k' c p a s bl dp d (de_inum de) i
      else exists k', r = Done (inl (16 * Z.of_nat (S q))) k' e /\ names (Some dp) k' c p a s bl /\ tx_frame k k'
  end.
Proof.
  intros N Da Hheld r. pose proof (dir_length _ _ _ _ _ Da) as Hs. assert (Ea : inode_at k dp = d) by (unfold inode_at; by rewrite (da_inode _ _ _ _ _ Da)).
  unfold r, dirlookup_body. rewrite bind_gets, Ea. destruct (entries (bytes (a_blk a) d) !! q) as [de|] eqn:Eq.
  2: { apply lookup_ge_None in Eq. by rewrite (proj2 (Z.ltb_ge (16 * Z.of_nat q) (i_size d))) by lia. }
  pose proof (lookup_lt_Some _ _ _ Eq) as Hq. rewrite (proj2 (Z.ltb_lt (16 * Z.of_nat q) (i_size d))) by lia.
  destruct (read_entry k c p a s bl dp d q e N (da_inode _ _ _ _ _ Da) (da_type _ _ _ _ _ Da) (da_file _ _ _ _ _ Da) Hq) as (k1 & de' & Hde & E1 & N1 & F1).
  rewrite Eq in Hde. injection Hde as <-. run E1. rewrite Z.eqb_refl. cbn [negb]. unfold is_entry.
  destruct (de_inum de =? 0); cbn [negb andb].
  { exists k1. split; [|done]. unfold ret, sizeof_dirent. do 2 f_equal. lia. }
  destruct (namecmp name (de_name de) =? 0).
  2: { exists k1. split; [|done]. unfold ret, sizeof_dirent. do 2 f_equal. lia. }
  pose proof (dir_at_tx _ _ _ _ _ _ Da F1) as Da1. unfold idev. rewrite bind_gets.
  assert (Ea1 : inode_at k1 dp = d) by (unfold inode_at; by rewrite (da_inode _ _ _ _ _ Da1)). rewrite Ea1, (da_dev _ _ _ _ _ Da).
  pose proof (tx_frame_field k_inode _ _ ltac:(done) F1) as Ei.
  destruct (iget_names (Some dp) k1 c p a s bl (de_inum de) e N1 ltac:(by rewrite Ei)) as (i & k2 & ip & E2 & N2 & F2 & R2 & Hi & Hu & Hold).
  run E2. exists i, k2. split; [done|]. split; [done|]. split; [by eapply nm_frame_trans; [apply nm_frame_tx|]|].
  split; [unfold refs in R2 |- *; by rewrite <- Ei|]. split; [by exists ip|]. apply Hold; [apply Da1|].
  apply (to_valid _ _ _ _ _ (nm_table _ _ _ _ _ _ _ N1) dp d (da_inode _ _ _ _ _ Da1) eq_refl).
Qed.

Lemma dirlookup_loop c p a s bl dp d name e es : forall q fuel k, names (Some dp) k c p a s bl -> dir_at k s a dp d ->
  (size (held (k_inode k)) < NINODE)%nat -> drop q (entries (bytes (a_blk a) d)) = es -> (length es < fuel)%nat ->
  let r := iter fuel (dirlookup_body dp name) (16 * Z.of_nat q) k e in
  match first_index (is_entry name) es with
  | Some j => exists i k', r = Done (Some (i, 16 * Z.of_nat (q + j))) k' e /\ found k k' c p a s bl dp d (de_inum (default [] (es !! j))) i
  | None => exists k', r = Done None k' e /\ names (Some dp) k' c p a s bl /\ tx_frame k k'
  end.
Proof.
  induction es as [|de es IH]; intros q [|fuel] k N Da Hheld Hdrop Hf; try (simpl in Hf; lia); cbv zeta; cbn [iter first_index];
    pose proof (dirlookup_round c p a s bl dp d name e q k N Da Hheld) as R;
    pose proof (lookup_drop (entries (bytes (a_blk a) d)) q 0) as Hq; rewrite Hdrop, Nat.add_0_r in Hq; cbn [lookup list_lookup] in Hq;
    rewrite <- Hq in R; cbv zeta in R.
  - run R. by exists k.
  - destruct (is_entry name de).
    + destruct R as (i & k' & E & F). run E. exists i, k'. rewrite Nat.add_0_r. done.
    + destruct R as (k1 & E1 & N1 & F1). run E1. specialize (IH (S q) fuel k1 N1 (dir_at_tx _ _ _ _ _ _ Da F1)).
      rewrite (tx_frame_field k_inode _ _ ltac:(done) F1) in IH. specialize (IH Hheld). cbv zeta in IH.
      assert (Hd : drop (S q) (entries (bytes (a_blk a) d)) = es) by (replace (S q) with (q + 1)%nat by lia; by rewrite <- drop_drop, Hdrop).
      specialize (IH Hd ltac:(simpl in Hf; lia)). destruct (first_index (is_entry name) es) as [j|]; simpl fmap.
      * destruct IH as (i & k' & E & N' & F' & R' & Hrest). exists i, k'. split; [rewrite E; do 4 f_equal; lia|].
        split; [done|]. split; [by eapply nm_frame_trans; [apply nm_frame_tx|]|]. split; [|done].
        unfold refs in R' |- *. by rewrite <- (tx_frame_field k_inode _ _ ltac:(done) F1).
      * destruct IH as (k' & E & N' & F'). exists k'. split; [done|]. split; [done|by eapply tx_frame_trans].
Qed.

(** [dirlookup] finds the entry that the reference definition finds. *)
Lemma dirlookup_run c p a s bl dp d name e k : names (Some dp) k c p a s bl -> dir_at k s a dp d -> (size (held (k_inode k)) < NINODE)%nat ->
  match dir_find name (bytes (a_blk a) d) with
  | Some (q, inum) => exists i k', dirlookup dp name k e = Done (Some (i, 16 * Z.of_nat q)) k' e /\ found k k' c p a s bl dp d inum i
  | None => exists k', dirlookup dp name k e = Done None k' e /\ names (Some dp) k' c p a s bl /\ tx_frame k k'
  end.
Proof.
  intros N Da Hheld. unfold dirlookup. assert (Ea : inode_at k dp = d) by (unfold inode_at; by rewrite (da_inode _ _ _ _ _ Da)).
  rewrite bind_gets, Ea, (da_type _ _ _ _ _ Da). cbn [negb Z.eqb]. pose proof (dir_length _ _ _ _ _ Da) as Hs.
  pose proof (dirlookup_loop c p a s bl dp d name e _ 0 (Z.to_nat (i_size d / sizeof_dirent) + 2) k N Da Hheld eq_refl) as H.
  rewrite drop_0 in H. specialize (H ltac:(unfold sizeof_dirent; rewrite Hs; div_lia)). unfold dir_find.
  change (16 * Z.of_nat 0) with 0 in H. cbv zeta in H. by destruct (first_index (is_entry name) (entries (bytes (a_blk a) d))).
Qed.

(** ** Walking along a path *)

(** [iunlockput] of an inode that stays. *)
Lemma iunlockput_run k c p a s bl i ip e : names (Some i) k c p a s bl -> k_inode k !! i = Some ip -> i_dev ip = 1 -> i_nlink ip <> 0 ->
  exists k' lk, iunlockput i k e = Done tt k' e /\ names None k' c p a s bl /\ nm_frame k k' /\ refs k k' (fun n => - one (i_inum ip) n)
    /\ k_inode k' = <[i := set_i_ref (i_ref ip - 1) (set_i_lock lk ip)]> (k_inode k).
Proof.
  intros N Hi Hd Hn. destruct (to_valid _ _ _ _ _ (nm_table _ _ _ _ _ _ _ N) i ip Hi eq_refl) as [Hv Hr].
  destruct (iunlock_run k c p a s bl i ip e N Hi) as (lk & E1 & N1). unfold iunlockput. run E1. set (x1 := set_i_lock lk ip) in *.
  assert (H1 : k_inode (put_inode i x1 k) !! i = Some x1) by (by eapply put_inode_at).
  destruct (iput_run _ c p a s bl i x1 e N1 H1) as (k2 & lk2 & E2 & N2 & F2 & R2 & I2); [done|done|by right|].
  exists k2, lk2. split; [done|]. split; [done|]. split; [done|]. split; [|rewrite I2; apply list_insert_insert_eq].
  assert (R1 : refs k (put_inode i x1 k) none).
  { apply refs_ids; [by apply (ids_insert _ _ ip)|apply N]. }
  apply (refs_ext _ _ _ _ (refs_trans _ _ _ _ _ R1 R2)). done.
Qed.

(** The walk has reached inode [n], with a reference to it, or has failed. *)
Definition arrived (k k' : kstate) (c p : nat) (a : cache) (s : Z) (bl : list Z) (n : Z) (i : nat) : Prop :=
  names None k' c p a s bl /\ nm_frame k k' /\ refs k k' (one n) /\ exists ip, k_inode k' !! i = Some ip /\ in_use 1 n ip = true.
Definition gave_up (k k' : kstate) (c p : nat) (a : cache) (s : Z) (bl : list Z) : Prop :=
  names None k' c p a s bl /\ nm_frame k k' /\ refs k k' none.

Lemma refs_held k k' n : icache_ok (k_inode k) -> icache_ok (k_inode k') -> refs k k' (one n) ->
  (size (held (k_inode k')) <= size (held (k_inode k)) + 1)%nat.
Proof.
  intros H H' R. etransitivity; [apply (subseteq_size _ (held (k_inode k) ∪ {[(1, n)]}))|].
  - intros [dev m] Hin. apply held_spec in Hin; [|done]. rewrite R in Hin. unfold one in Hin. apply elem_of_union.
    destruct (decide ((dev, m) = (1, n))) as [->|Hne]; [right; by apply elem_of_singleton|]. left. apply held_spec; [done|].
    destruct (Z.eqb_spec dev 1), (Z.eqb_spec m n); [congruence|lia..].
  - rewrite size_union_alt. etransitivity; [apply Nat.add_le_mono_l, subseteq_size, subseteq_difference_l, reflexivity|].
    by rewrite size_singleton.
Qed.

Lemma tree_frame k k' s a D : tree k s a D -> nm_frame k k' -> tree k' s a D.
Proof.
  intros [T1 T2 T3 T4 T5] F. pose proof (nm_frame_field k_sb _ _ ltac:(done) F) as E1.
  pose proof (nm_frame_field k_disksize _ _ ltac:(done) F) as E2. split; unfold in_range; rewrite ?E1, ?E2; done.
Qed.

(** Locking an inode of the tree. *)
Lemma walk_lock k c p a s bl D i x n e : names None k c p a s bl -> tree k s a D -> D n -> k_inode k !! i = Some x -> in_use 1 n x = true ->
  exists k1 x1, ilock i k e = Done tt k1 e /\ names (Some i) k1 c p a s bl /\ nm_frame k k1 /\ refs k k1 none
    /\ k_inode k1 !! i = Some x1 /\ (i_dev x1 = 1 /\ i_inum x1 = n /\ i_nlink x1 <> 0) /\ i_type x1 = i_type (node (a_blk a) (k_sb k) n)
    /\ (i_type x1 = T_DIR -> dir_at k1 s a i x1 /\ bytes (a_blk a) x1 = bytes (a_blk a) (node (a_blk a) (k_sb k) n))
    /\ i_size x1 = i_size (node (a_blk a) (k_sb k) n) /\ i_addrs x1 = i_addrs (node (a_blk a) (k_sb k) n).
Proof.
  intros N T Dn Hi (U1 & U2 & U3)%in_use_spec. destruct (tr_live _ _ _ _ T n Dn) as [Ht Hn].
  destruct (ilock_run k c p a s bl i x e N Hi U1 U2) as (k1 & x1 & E & N1 & F1 & I1 & E1 & E2 & E3); [rewrite U3; by apply T|by rewrite U3|].
  assert (H1 : k_inode k1 !! i = Some x1) by (rewrite I1; apply list_lookup_insert_eq; by eapply lookup_lt_Some).
  pose proof (nm_frame_field k_sb _ _ ltac:(done) F1) as Esb. pose proof (nm_table _ _ _ _ _ _ _ N1) as T1.
  destruct (to_valid _ _ _ _ _ T1 i x1 H1 eq_refl) as [Hv Hr]. pose proof (to_sync _ _ _ _ _ T1 i x1 H1 Hr Hv) as Sy.
  destruct (synced_node _ _ _ Sy) as (Y1 & Y2 & Y3 & Y4). rewrite E2, U3, Esb in Y1, Y2, Y3, Y4.
  exists k1, x1. split; [done|]. split; [done|]. split; [done|]. split.
  { apply refs_ids; [rewrite I1; by apply (ids_insert _ _ x)|apply N]. }
  split; [done|]. split; [split; [congruence|split; congruence]|]. split; [done|].
  split; [|done]. intros Hd. rewrite Y1 in Hd. split; [|by apply bytes_like].
  split; [done|congruence|congruence| |rewrite Y3; by apply (tr_size _ _ _ _ T)]. rewrite Esb.
  apply (file_ok_like _ _ _ _ _ (tr_file _ _ _ _ T n Dn Hd)); [change (i_dev x1 = 1)|change (i_inum x1 = n)| |]; congruence.
Qed.

(** Giving up the current inode. *)
Lemma walk_fail k0 k k1 c p a s bl i x n e : nm_frame k0 k -> refs k0 k (one n) -> names (Some i) k1 c p a s bl -> nm_frame k k1 ->
  refs k k1 none -> k_inode k1 !! i = Some x -> i_dev x = 1 /\ i_inum x = n /\ i_nlink x <> 0 ->
  exists k', iunlockput i k1 e = Done tt k' e /\ gave_up k0 k' c p a s bl.
Proof.
  intros F0 R0 N1 F1 R1 H1 (X1 & X2 & X3). destruct (iunlockput_run k1 c p a s bl i x e N1 H1 X1 X3) as (k2 & lk & E & N2 & F2 & R2 & _).
  exists k2. split; [done|]. split; [done|]. split; [by eapply nm_frame_trans; [|eapply nm_frame_trans]|].
  apply (refs_ext _ _ _ _ (refs_trans _ _ _ _ _ R0 (refs_trans _ _ _ _ _ R1 R2))). intros m. rewrite X2. unfold none. lia.
Qed.

(** Going from the current inode on to the next. *)
Lemma walk_next k0 k k1 k2 c p a s bl i x n j n' e : icache_ok (k_inode k0) -> nm_frame k0 k -> refs k0 k (one n) -> nm_frame k k1 -> refs k k1 none ->
  found k1 k2 c p a s bl i x n' j -> i_dev x = 1 /\ i_inum x = n /\ i_nlink x <> 0 ->
  exists k', iunlockput i k2 e = Done tt k' e /\ arrived k0 k' c p a s bl n' j.
Proof.
  intros Hc F0 R0 F1 R1 (N2 & F2 & R2 & (y & Hy & Uy) & r & Hr & Hx) (X1 & X2 & X3).
  destruct (iunlockput_run k2 c p a s bl i (set_i_ref r x) e N2 Hx X1 X3) as (k3 & lk & E & N3 & F3 & R3 & I3). cbn [i_inum i_ref set_i_ref] in R3, I3.
  assert (R02 : refs k0 k2 (fun m => one n m + one n' m)).
  { apply (refs_ext _ _ _ _ (refs_trans _ _ _ _ _ R0 (refs_trans _ _ _ _ _ R1 R2))). done. }
  exists k3. split; [done|]. split; [done|]. split; [by repeat (eapply nm_frame_trans; [eassumption|])|]. split.
  { apply (refs_ext _ _ _ _ (refs_trans _ _ _ _ _ R02 R3)). intros m. rewrite X2. lia. }
  rewrite I3. destruct (decide (j = i)) as [->|Hne].
  - rewrite Hx in Hy. simplify_eq. rewrite list_lookup_insert_eq by (by eapply lookup_lt_Some). eexists. split; [done|].
    apply in_use_spec in Uy as (V1 & V2 & V3). cbn [i_ref i_dev i_inum set_i_ref] in *. subst n'.
    assert (Hrc : refcount (k_inode k2) 1 (i_inum x) = r).
    { apply (refcount_in _ i (set_i_ref r x)); [apply N2|done|]. by apply in_use_spec. }
    rewrite R02 in Hrc. unfold one in Hrc. rewrite !Z.eqb_refl in Hrc. simpl in Hrc.
    assert (0 <= refcount (k_inode k0) 1 (i_inum x)) by (destruct (refcount_cases (k_inode k0) 1 (i_inum x) Hc) as [(? & ? & ? & (? & _)%in_use_spec & ->)|[_ ->]]; lia).
    apply in_use_spec. cbn [i_ref i_dev i_inum set_i_ref set_i_lock]. split; [lia|done].
  - rewrite list_lookup_insert_ne by done. by exists y.
Qed.

Lemma dir_find_entry name c q inum : dir_find name c = Some (q, inum) -> exists de, de ∈ entries c /\ de_inum de = inum /\ inum <> 0.
Proof.
  unfold dir_find. destruct (first_index (is_entry name) (entries c)) as [j|] eqn:E; [|done]. intros [= <- <-].
  apply first_index_Some in E as (de & Hj & Hde & _). rewrite Hj. simpl. exists de. split; [by eapply list_elem_of_lookup_2|].
  split; [done|]. apply andb_true_iff in Hde as [H _]. by apply negb_true_iff, Z.eqb_neq in H.
Qed.

Section Walk.
Context (parent : bool) (k0 : kstate) (c p : nat) (a : cache) (s : Z) (bl : list Z) (D : Z -> Prop) (e : environment kstate).
Context (Hc : icache_ok (k_inode k0)) (Hroom : (size (held (k_inode k0)) + 2 <= NINODE)%nat) (T0 : tree k0 s a D).

(** The end of the path. *)
Lemma namex_end i n k : arrived k0 k c p a s bl n i -> D n -> exists k', iput i k e = Done tt k' e /\ gave_up k0 k' c p a s bl.
Proof.
  intros (N & F & R & x & Hi & (U1 & U2 & U3)%in_use_spec) Dn. destruct (tr_live _ _ _ _ T0 n Dn) as [_ Hn].
  destruct (iput_run k c p a s bl i x e N Hi U1 U2) as (k' & lk & E & N' & F' & R' & _).
  { destruct (decide (i_valid x = 0)) as [Hv|Hv]; [by left|right].
    destruct (synced_node _ _ _ (to_sync _ _ _ _ _ (nm_table _ _ _ _ _ _ _ N) i x Hi U1 Hv)) as (_ & -> & _).
    by rewrite U3, (nm_frame_field k_sb _ _ ltac:(done) F). }
  exists k'. split; [done|]. split; [done|]. split; [by eapply nm_frame_trans|].
  apply (refs_ext _ _ _ _ (refs_trans _ _ _ _ _ R R')). intros m. rewrite U3. unfold none. lia.
Qed.

(** One element of the path. *)
Lemma namex_round i path nm n k : arrived k0 k c p a s bl n i -> D n -> let r := namex_body parent (i, path, nm) k e in
  match elems path with
  | [] => if parent then exists k', r = Done (inr (None, nm)) k' e /\ gave_up k0 k' c p a s bl else r = Done (inr (Some i, nm)) k e
  | name :: names => exists rest, elems rest = names /\ (length rest < length path)%nat /\
      if negb (i_type (node (a_blk a) (k_sb k0) n) =? T_DIR) then exists k', r = Done (inr (None, name)) k' e /\ gave_up k0 k' c p a s bl else
      if parent && bool_decide (names = []) then exists k', r = Done (inr (Some i, name)) k' e /\ arrived k0 k' c p a s bl n i else
      match dir_find name (bytes (a_blk a) (node (a_blk a) (k_sb k0) n)) with
      | Some (_, n') => exists j k', r = Done (inl (j, rest, name)) k' e /\ arrived k0 k' c p a s bl n' j /\ D n'
      | None => exists k', r = Done (inr (None, name)) k' e /\ gave_up k0 k' c p a s bl
      end
  end.
Proof.
  intros Ar Dn r. pose proof Ar as (N & F & R & x & Hi & Hu). pose proof (skipelem_splits path) as Hsk. unfold r, namex_body.
  destruct (skipelem path) as [[rest name]|].
  2: { rewrite Hsk. destruct parent; [|done]. destruct (namex_end i n k Ar Dn) as (k' & E & G). run E. by exists k'. }
  destruct Hsk as (-> & _ & _ & _ & Hlen & Hnil). exists rest. split; [done|]. split; [done|].
  pose proof (nm_frame_field k_sb _ _ ltac:(done) F) as Esb. pose proof (tree_frame _ _ _ _ _ T0 F) as T.
  destruct (walk_lock k c p a s bl D i x n e N T Dn Hi Hu) as (k1 & x1 & E1 & N1 & F1 & R1 & H1 & X & Ht & Hdir & _). rewrite Esb in Ht, Hdir.
  run E1. assert (Ea : inode_at k1 i = x1) by (unfold inode_at; by rewrite H1). rewrite bind_gets, Ea, Ht.
  destruct (walk_fail k0 k k1 c p a s bl i x1 n e F R N1 F1 R1 H1 X) as (kf & Ef & Gf).
  destruct (Z.eqb_spec (i_type (node (a_blk a) (k_sb k0) n)) T_DIR) as [Hd|Hd]; cbn [negb]; [|run Ef; by exists kf].
  replace (bool_decide (rest = [])) with (bool_decide (elems rest = [])) by (apply bool_decide_ext; tauto).
  destruct (parent && bool_decide (elems rest = [])).
  { destruct (iunlock_run k1 c p a s bl i x1 e N1 H1) as (lk & E2 & N2). run E2. eexists. split; [done|]. split; [done|].
    split; [by apply (nm_frame_trans _ k); [|apply (nm_frame_trans _ k1)]|]. split.
    - assert (R2 : refs k1 (put_inode i (set_i_lock lk x1) k1) none) by (apply refs_ids; [by apply (ids_insert _ _ x1)|apply N1]).
      apply (refs_ext _ _ _ _ (refs_trans _ _ _ _ _ R (refs_trans _ _ _ _ _ R1 R2))). intros m. unfold none. lia.
    - eexists. split; [by eapply put_inode_at|]. destruct X as (X1 & X2 & _). apply in_use_spec.
      destruct (to_valid _ _ _ _ _ (nm_table _ _ _ _ _ _ _ N1) i x1 H1 eq_refl). done. }
  destruct (Hdir ltac:(congruence)) as [Da Eb]. assert (R01 : refs k0 k1 (one n)).
  { apply (refs_ext _ _ _ _ (refs_trans _ _ _ _ _ R R1)). intros m. unfold none. lia. }
  pose proof (refs_held k0 k1 n Hc ltac:(apply N1) R01) as Hheld.
  pose proof (dirlookup_run c p a s bl i x1 name e k1 N1 Da ltac:(lia)) as L. rewrite Eb in L.
  destruct (dir_find name (bytes (a_blk a) (node (a_blk a) (k_sb k0) n))) as [[q n']|] eqn:Ed.
  - destruct L as (j & k2 & E2 & Fo). run E2. destruct (walk_next k0 k k1 k2 c p a s bl i x1 n j n' e Hc F R F1 R1 Fo X) as (k3 & E3 & A3).
    run E3. exists j, k3. split; [done|]. split; [done|]. destruct (dir_find_entry _ _ _ _ Ed) as (de & Hin & <- & Hne).
    by apply (tr_closed _ _ _ _ T0 n de).
  - destruct L as (k2 & E2 & N2 & F2). run E2. pose proof (tx_frame_field k_inode _ _ ltac:(done) F2) as Ei.
    destruct (walk_fail k0 k k2 c p a s bl i x1 n e F R N2) as (k3 & E3 & G3);
      [by eapply nm_frame_trans; [|apply nm_frame_tx]|unfold refs in R1 |- *; by rewrite Ei|by rewrite Ei|done|]. run E3. by exists k3.
Qed.

Lemma namex_loop fuel : forall i path nm n k, (length path < fuel)%nat -> arrived k0 k c p a s bl n i -> D n ->
  let r := iter fuel (namex_body parent) (i, path, nm) k e in
  match resolve parent (a_blk a) (k_sb k0) n (elems path) with
  | Some m => exists j k', r = Done (Some j, default nm (last (elems path))) k' e /\ arrived k0 k' c p a s bl m j
  | None => exists k' nm', r = Done (None, nm') k' e /\ gave_up k0 k' c p a s bl
  end.
Proof.
  induction fuel as [|fuel IH]; intros i path nm n k Hf Ar Dn; [lia|]. cbv zeta. cbn [iter].
  pose proof (namex_round i path nm n k Ar Dn) as Rd. cbv zeta in Rd. destruct (elems path) as [|name names] eqn:Ep; cbn [resolve].
  { destruct parent; [destruct Rd as (k' & E & G); run E; by exists k', nm|run Rd; by exists i, k]. }
  destruct Rd as (rest & Er & Hlen & Rd). destruct (negb _); [destruct Rd as (k' & E & G); run E; by exists k', name|].
  destruct (parent && bool_decide (names = [])) eqn:Epar.
  { apply andb_true_iff in Epar as [_ ->%bool_decide_eq_true]. destruct Rd as (k' & E & A). run E. by exists i, k'. }
  destruct (dir_find _ _) as [[q n']|]; [|destruct Rd as (k' & E & G); run E; by exists k', name].
  destruct Rd as (j & k' & E & A & Dn'). run E. specialize (IH j rest name n' k' ltac:(lia) A Dn'). cbv zeta in IH. rewrite Er in IH.
  replace (default nm (last (name :: names))) with (default name (last names)); [exact IH|]. by destruct names using rev_ind; rewrite ?last_snoc, ?app_comm_cons, ?last_snoc.
Qed.

End Walk.

Lemma idup_names k c p a s bl i ip e : names None k c p a s bl -> k_inode k !! i = Some ip -> 0 < i_ref ip -> i_dev ip = 1 ->
  exists k', idup i k e = Done i k' e /\ arrived k k' c p a s bl (i_inum ip) i.
Proof.
  intros N Hi Hr Hd. pose proof (nm_table _ _ _ _ _ _ _ N) as T. pose proof (to_cache _ _ _ _ _ T) as Hc.
  destruct (names_locks _ _ _ _ _ _ _ _ _ N Hi) as ([Hs _] & _ & _ & Hic & _).
  set (ip' := set_i_ref (i_ref ip + 1) ip). assert (Hu : in_use 1 (i_inum ip) ip = true) by (by apply in_use_spec).
  destruct (refs_put k i ip ip' (i_inum ip) 1 Hc Hi) as (Hok & Hrefs); try done.
  { by rewrite (refcount_in _ i ip). } { intros j y Hj Hy. by apply (ic_uniq _ Hc 1 (i_inum ip) j i y ip). } { by right. } { simpl. lia. }
  exists (put_inode i ip' k). split; [|split; [|split; [done|split]]].
  - unfold idup. run (acquire_free k c L_icache e Hs Hic). rewrite bind_modify, (upd_inode_put _ i _ ip) by exact Hi.
    change (put_inode i ?x (locked c L_icache k)) with (locked c L_icache (put_inode i x k)).
    by rewrite (bind_done _ _ _ _ _ _ _ (release_locked (put_inode i ip' k) c L_icache e ltac:(other_fields) ltac:(other_fields))).
  - apply (names_inode None); [done|]. apply (table_replace _ _ None _ _ _ i ip); try done; [by left|apply (to_lock _ _ _ _ _ T i ip Hi)|].
    intros _ Hv. by apply synced_ref, (to_sync _ _ _ _ _ T i ip Hi).
  - apply (refs_ext _ _ _ _ Hrefs). intros n. lia.
  - exists ip'. split; [by eapply put_inode_at|]. apply in_use_spec. simpl. split; [lia|done].
Qed.

(** The inode that a path starts from. *)
Definition starts (k : kstate) (p : nat) (path : list Z) (n : Z) : Prop :=
  if List.hd 0 path =? slash then n = ROOTINO
  else exists i ip, p_cwd (proc_at k p) = Some i /\ k_inode k !! i = Some ip /\ in_use 1 n ip = true.

Lemma namex_run parent path k c p a s bl D n e : names None k c p a s bl -> tree k s a D -> starts k p path n -> D n ->
  (size (held (k_inode k)) + 2 <= NINODE)%nat ->
  match resolve parent (a_blk a) (k_sb k) n (elems path) with
  | Some m => exists j k', namex path parent k e = Done (Some j, default [] (last (elems path))) k' e /\ arrived k k' c p a s bl m j
  | None => exists k' nm', namex path parent k e = Done (None, nm') k' e /\ gave_up k k' c p a s bl
  end.
Proof.
  intros N T St Dn Hroom. pose proof (to_cache _ _ _ _ _ (nm_table _ _ _ _ _ _ _ N)) as Hc.
  assert (exists i k1, (if List.hd 0 path =? slash then iget ROOTDEV ROOTINO
         else p <- myproc;; p <- deref p;; cwd <- gets (fun k => p_cwd (proc_at k p));; cwd <- deref cwd;; idup cwd) k e = Done i k1 e
         /\ arrived k k1 c p a s bl n i) as (i & k1 & E & A).
  { unfold starts in St. destruct (List.hd 0 path =? slash).
    - subst n. destruct (iget_names None k c p a s bl ROOTINO e N ltac:(lia)) as (i & k' & ip & E & N' & F & R & Hi & Hu & _).
      exists i, k'. split; [done|]. split; [done|]. split; [done|]. split; [done|]. by exists ip.
    - destruct St as (i & ip & Ecwd & Hi & (U1 & U2 & <-)%in_use_spec). pose proof (ar_quiet _ _ _ _ _ _ (nm_rest _ _ _ _ _ _ _ N)) as [[Qs Qp] _ _].
      run (myproc_settled k c e Qs). rewrite Qp. unfold deref. c_simpl. rewrite Ecwd. c_simpl.
      destruct (idup_names k c p a s bl i ip e N Hi U1 U2) as (k' & E & A). by exists i, k'. }
  unfold namex. run E. apply (namex_loop parent k c p a s bl D e Hc Hroom T _ i path [] n k1); [lia|done|done].
Qed.

End Names.

(** C6: [namei] and [nameiparent] walk along the path as the reference
    definition [resolve] does in the directories on the disk: from the root
    directory when the path begins with a slash and else from the current directory,
    element by element.  When the walk succeeds they return an entry of the
    inode table for the inode that [resolve] gives (and [nameiparent] the last
    element), with one reference more to that inode; when an element is not found or
    lies in something that is not a directory they return null.  All other
    references are given back, all locks are released, and nothing but the cached
    blocks and inodes changes. *)
Theorem namei_resolves (Dev : Devsw) (path : list Z) (k : kstate) (c p : nat) (a : cache) (s : Z) (bl : list Z) (D : Z -> Prop) (n : Z)
    (e : environment kstate) :
  names None k c p a s bl -> tree k s a D -> starts k p path n -> D n -> (size (held (k_inode k)) + 2 <= NINODE)%nat ->
  match resolve false (a_blk a) (k_sb k) n (elems path) with
  | Some m => exists j k', namei path k e = Done (Some j) k' e /\ arrived k k' c p a s bl m j
  | None => exists k', namei path k e = Done None k' e /\ gave_up k k' c p a s bl
  end
  /\ match resolve true (a_blk a) (k_sb k) n (elems path) with
     | Some m => exists j k', nameiparent path k e = Done (Some j, default [] (last (elems path))) k' e /\ arrived k k' c p a s bl m j
     | None => exists k' name, nameiparent path k e = Done (None, name) k' e /\ gave_up k k' c p a s bl
     end.
Proof.
  intros N T St Dn Hroom. pose proof (fun parent => namex_run parent path k c p a s bl D n e N T St Dn Hroom) as H. split.
  - specialize (H false). unfold namei. destruct (resolve false _ _ n (elems path)) as [m|].
    + destruct H as (j & k' & E & A). run E. by exists j, k'.
    + destruct H as (k' & nm & E & G). run E. by exists k'.
  - exact (H true).
Qed.
