(* ===== verification/Mkfs.v ===== *)
(** * The disk image builder (mkfs.c)

    mkfs is a program of the build machine.  It makes the image of a file system
    that holds the files named on its command line in the root directory.  Its
    state is the image, an array of sectors that grows when a sector behind its
    end is written, with the counters of mkfs.c; a [struct dinode] is an [inode]
    whose other fields are those of [zero_inode].  The build machine stores
    integers with the low byte first. *)

From stdpp Require Import base gmap list strings sets.
From Stdlib Require Import ZArith Lia.
From S2P Require Import Prelude State Bytes Fs.

(** ** Constants and state *)

Definition NINODES : Z := 200.

Definition nbitmap : Z := FSSIZE / BPB + 1.
Definition ninodeblocks : Z := NINODES / IPB + 1.
Definition nlog : Z := Z.of_nat LOGSIZE.

Record mkfs : Type := mk_mkfs {
  m_img : gmap Z (list Z);
  m_len : Z;
  m_sb : superblock;
  freeinode : Z;
  freeblock : Z;
  m_out : list (string * list Z)
}.

Definition set_m_img (v : gmap Z (list Z)) (len : Z) (m : mkfs) : mkfs :=
  mk_mkfs v len (m_sb m) (freeinode m) (freeblock m) (m_out m).
Definition set_m_sb (v : superblock) (m : mkfs) : mkfs :=
  mk_mkfs (m_img m) (m_len m) v (freeinode m) (freeblock m) (m_out m).
Definition set_freeinode (v : Z) (m : mkfs) : mkfs :=
  mk_mkfs (m_img m) (m_len m) (m_sb m) v (freeblock m) (m_out m).
Definition set_freeblock (v : Z) (m : mkfs) : mkfs :=
  mk_mkfs (m_img m) (m_len m) (m_sb m) (freeinode m) v (m_out m).

(** A line of output: its format and the values. *)
Definition printf (fmt : string) (args : list Z) : M mkfs unit :=
  modify (fun m => mk_mkfs (m_img m) (m_len m) (m_sb m) (freeinode m) (freeblock m) (m_out m ++ [(fmt, args)])).

(** The globals when the program starts, with the image just truncated. *)
Definition mkfs_start : mkfs := mk_mkfs ∅ 0 zero_superblock 1 0 [].

Definition zeroes : list Z := replicate BSIZE 0.

(** A file given on the command line: its name, whether it can be opened, and
    what the calls of [read] with a buffer of [BSIZE] bytes return until the
    first that returns nothing. *)
Record host_file : Type := mk_host_file {
  hf_name : list Z;
  hf_open : bool;
  hf_reads : list (list Z)
}.

(** The bytes of an integer in memory, written one by one. *)
Definition xshort (x : Z) : Z := le_val [u8 x; u8 (Z.shiftr x 8)].
Definition xint (x : Z) : Z := le_val [u8 x; u8 (Z.shiftr x 8); u8 (Z.shiftr x 16); u8 (Z.shiftr x 24)].

(** [exit(1)] after [perror], and a failed [assert]. *)
Definition exit_1 {A} (what : string) : M mkfs A := panic what.
Definition assert_ (what : string) (b : bool) : M mkfs unit := if b then ret tt else panic what.

Section Mkfs.

(** Whether the build machine can position and transfer at a sector. *)
Variable io : Z -> bool.

(** [sec * BSIZE] is computed with 32 bits. *)
Definition sector (sec : Z) : Z := u32 (sec * Z.of_nat BSIZE) / Z.of_nat BSIZE.

Definition wsect (sec : Z) (buf : list Z) : M mkfs unit :=
  if io (sector sec) then
    modify (fun m => set_m_img (<[sector sec := buf]> (m_img m)) (Z.max (m_len m) (sector sec + 1)) m)
  else exit_1 "write".

Definition rsect (sec : Z) : M mkfs (list Z) :=
  m <- get;;
  if io (sector sec) && (sector sec <? m_len m) then ret (default zeroes (m_img m !! sector sec))
  else exit_1 "read".

Definition winode (inum : Z) (ip : inode) : M mkfs unit :=
  sb <- gets m_sb;;
  let bn := IBLOCK inum sb in
  buf <- rsect bn;;
  wsect bn (put_dinode (dinode_off inum) ip buf).

Definition rinode (inum : Z) : M mkfs inode :=
  sb <- gets m_sb;;
  let bn := IBLOCK inum sb in
  buf <- rsect bn;;
  ret (get_dinode (dinode_off inum) buf zero_inode).

Definition ialloc (type : Z) : M mkfs Z :=
  inum <- gets freeinode;;
  modify (set_freeinode (u32 (inum + 1)));;
  let din := set_i_size (xint 0) (set_i_nlink (xshort 1) (set_i_type (s16 (xshort type)) zero_inode)) in
  winode inum din;;
  ret inum.

(** The loop of [balloc] over the bits. *)
Definition mark_bits (used : Z) (buf : list Z) : list Z :=
  foldl (fun b i => set_byte (i / 8) (Z.lor (byte_at b (i / 8)) (Z.shiftl 1 (i mod 8))) b) buf (seqZ 0 used).

Definition balloc (used : Z) : M mkfs unit :=
  printf "balloc: first %d blocks have been allocated" [used];;
  assert_ "used < BSIZE*8" (used <? Z.of_nat BSIZE * 8);;
  let buf := mark_bits used zeroes in
  sb <- gets m_sb;;
  printf "balloc: write bitmap block at sector %d" [sb_bmapstart sb];;
  wsect (sb_bmapstart sb) buf.

(** [freeblock++] *)
Definition next_block : M mkfs Z :=
  b <- gets freeblock;;
  modify (set_freeblock (u32 (b + 1)));;
  ret b.

(** [din.addrs[n]], and the same with a new block where it is 0. *)
Definition daddr (din : inode) (n : nat) : Z := default 0 (i_addrs din !! n).

Definition append_slot (din : inode) (n : nat) : M mkfs inode :=
  if xint (daddr din n) =? 0 then
    b <- next_block;;
    ret (set_i_addrs (<[n := xint b]> (i_addrs din)) din)
  else ret din.

(** The block of the file that holds [fbn]: the inode with its new addresses, and [x]. *)
Definition append_block (din : inode) (fbn : Z) : M mkfs (inode * Z) :=
  if fbn <? Z.of_nat NDIRECT then
    din <- append_slot din (Z.to_nat fbn);;
    ret (din, xint (daddr din (Z.to_nat fbn)))
  else
    din <- append_slot din NDIRECT;;
    indirect <- rsect (xint (daddr din NDIRECT));;
    let o := (4 * Z.to_nat (fbn - Z.of_nat NDIRECT))%nat in
    indirect <- (if rd 4 o indirect =? 0 then
                   b <- next_block;;
                   let indirect := wr 4 o (xint b) indirect in
                   wsect (xint (daddr din NDIRECT)) indirect;;
                   ret indirect
                 else ret indirect);;
    ret (din, xint (rd 4 o indirect)).

(** One round of the loop of [iappend], with [p] the bytes not yet appended. *)
Definition iappend_body (st : inode * Z * list Z) : M mkfs (inode * Z * list Z + inode * Z) :=
  let '(din, off, p) := st in
  if bool_decide (p = []) then ret (inr (din, off)) else
  let fbn := off / Z.of_nat BSIZE in
  assert_ "fbn < MAXFILE" (fbn <? MAXFILE);;
  r <- append_block din fbn;;
  let '(din, x) := r in
  let n1 := Z.min (Z.of_nat (length p)) (u32 ((fbn + 1) * Z.of_nat BSIZE - off)) in
  buf <- rsect x;;
  wsect x (list_inserts (Z.to_nat (off - fbn * Z.of_nat BSIZE)) (take (Z.to_nat n1) p) buf);;
  ret (inl (din, u32 (off + n1), drop (Z.to_nat n1) p)).

(** Each round but the first fills a block or is the last. *)
Definition iappend (inum : Z) (p : list Z) : M mkfs unit :=
  din <- rinode inum;;
  let off := xint (i_size din) in
  r <- iter (length p / BSIZE + 3) iappend_body (din, off, p);;
  let '(din, off) := r in
  winode inum (set_i_size (xint off) din).

(** ** [main] *)

Definition dot : Z := 46.
Definition underscore : Z := 95.

(** The bytes of [struct superblock]. *)
Definition superblock_bytes (sb : superblock) : list Z :=
  le_bytes 4 (sb_size sb) ++ le_bytes 4 (sb_nblocks sb) ++ le_bytes 4 (sb_ninodes sb) ++ le_bytes 4 (sb_nlog sb)
  ++ le_bytes 4 (sb_logstart sb) ++ le_bytes 4 (sb_inodestart sb) ++ le_bytes 4 (sb_bmapstart sb).

(** The body of the loop over the files. *)
Definition add_file (rootino : Z) (f : host_file) : M mkfs unit :=
  assert_ "index(argv[i], '/') == 0" (bool_decide (slash ∉ hf_name f));;
  if negb (hf_open f) then exit_1 "open" else
  let name := match hf_name f with c :: rest => if c =? underscore then rest else hf_name f | [] => [] end in
  inum <- ialloc T_FILE;;
  iappend rootino (dirent_bytes (xshort inum) name);;
  for_each (iappend inum) (hf_reads f).

(** [image]: whether the image named first can be opened, [None] without arguments. *)
Definition main (image : option bool) (files : list host_file) : M mkfs unit :=
  if bool_decide (image = None) then exit_1 "Usage: mkfs fs.img files..." else
  if bool_decide (image = Some false) then exit_1 "open" else
  let nmeta := 2 + nlog + ninodeblocks + nbitmap in
  let nblocks := FSSIZE - nmeta in
  let sb := mk_superblock (xint FSSIZE) (xint nblocks) (xint NINODES) (xint nlog) (xint 2) (xint (2 + nlog))
    (xint (2 + nlog + ninodeblocks)) in
  modify (set_m_sb sb);;
  printf "nmeta %d (boot, super, log blocks %u inode blocks %u, bitmap blocks %u) blocks %d total %d"
    [nmeta; nlog; ninodeblocks; nbitmap; nblocks; FSSIZE];;
  modify (set_freeblock nmeta);;
  for_each (fun i => wsect i zeroes) (seqZ 0 FSSIZE);;
  wsect 1 (list_inserts 0 (superblock_bytes sb) zeroes);;
  rootino <- ialloc T_DIR;;
  assert_ "rootino == ROOTINO" (rootino =? 1);;
  iappend rootino (dirent_bytes (xshort rootino) [dot]);;
  iappend rootino (dirent_bytes (xshort rootino) [dot; dot]);;
  for_each (add_file rootino) files;;
  din <- rinode rootino;;
  let off := xint (i_size din) in
  let off := u32 ((off / Z.of_nat BSIZE + 1) * Z.of_nat BSIZE) in
  winode rootino (set_i_size (xint off) din);;
  used <- gets freeblock;;
  balloc used.

End Mkfs.
