(* ===== verification/MkfsSpec.v ===== *)
(** * What mkfs puts on the disk

    The image that mkfs makes is a file system as the kernel understands it: the
    files have the contents of the files of the build machine, read through the
    same direct and indirect blocks as [readi] does, they share no block, and the
    free map marks exactly the blocks in use. *)

From stdpp Require Import base gmap list strings sets.
From Stdlib Require Import ZArith Lia.
From S2P Require Import Prelude State Bytes Spinlock Sched Bio Cache Machine Log LogSpec Crash Transaction Fs FsFormat Tx Balloc Contents Mkfs.

(** ** Integers and sectors *)

Lemma xint_u32 x : xint x = u32 x.
Proof.
  transitivity (le_val (le_bytes 4 x)); [|exact (le_val_bytes 4 x)]. unfold xint, u8. simpl.
  rewrite !Z.shiftr_div_pow2 by lia. change (2 ^ 8) with 256. change (2 ^ 16) with (256 * 256).
  change (2 ^ 24) with (256 * (256 * 256)). by rewrite !Z.div_div by lia.
Qed.

Lemma xint_small x : 0 <= x < 2 ^ 32 -> xint x = x.
Proof. intros H. rewrite xint_u32. by apply u32_small. Qed.

Lemma xshort_small x : 0 <= x < 2 ^ 16 -> xshort x = x.
Proof.
  intros H. unfold xshort, u8. simpl. rewrite Z.shiftr_div_pow2 by lia. change (2 ^ 8) with 256. div_lia.
Qed.

(** The contents of a sector. *)
Definition blk (m : mkfs) (b : Z) : list Z := default zeroes (m_img m !! b).

(** A sector written inside the image. *)
Definition put (b : Z) (v : list Z) (m : mkfs) : mkfs := set_m_img (<[b := v]> (m_img m)) (m_len m) m.

Lemma blk_put b v m b' : blk (put b v m) b' = if decide (b' = b) then v else blk m b'.
Proof. unfold blk, put. simpl. case_decide as E; [subst; by rewrite lookup_insert_eq|by rewrite lookup_insert_ne]. Qed.

(** ** Files *)

(** The first block after the metadata. *)
Definition nmeta : Z := 59.

(** The number of blocks of a file with [sz] bytes. *)
Definition need (sz : Z) : Z := (sz + 511) / 512 + (if 12 * 512 <? sz then 1 else 0).

(** A file of the image, when the blocks below [fb] are in use: it has exactly the
    blocks that its size needs. *)
Record file_inv (f : Z -> list Z) (fb : Z) (ip : inode) : Prop := {
  fv_addrs : length (i_addrs ip) = (NDIRECT + 1)%nat;
  fv_size : 0 <= i_size ip <= MAXFILE * 512;
  fv_in : forall n, 0 <= n < MAXFILE -> n * 512 < i_size ip -> nmeta <= fptr f ip n < fb;
  fv_out : forall n, 0 <= n < MAXFILE -> i_size ip <= n * 512 -> fptr f ip n = 0;
  fv_ind : if 12 * 512 <? i_size ip then nmeta <= addr ip NDIRECT < fb else addr ip NDIRECT = 0;
  fv_inj : forall n m, 0 <= n <= MAXFILE -> 0 <= m <= MAXFILE -> fptr f ip n = fptr f ip m -> fptr f ip n <> 0 -> n = m;
  fv_tail : forall x, i_size ip <= x < (i_size ip + 511) / 512 * 512 -> fbyte f ip x = 0
}.

Definition owns (f : Z -> list Z) (ip : inode) (b : Z) : Prop := exists n, 0 <= n <= MAXFILE /\ fptr f ip n = b /\ b <> 0.

Definition contents (f : Z -> list Z) (ip : inode) : list Z := fbytes f ip 0 (Z.to_nat (i_size ip)).

Lemma owns_range f fb ip b : file_inv f fb ip -> owns f ip b -> nmeta <= b < fb.
Proof.
  intros [_ S I O D _ _] (n & Hn & E & Hb). destruct (decide (n = MAXFILE)) as [->|Hm].
  - change (addr ip NDIRECT = b) in E. destruct (12 * 512 <? i_size ip); lia.
  - destruct (decide (n * 512 < i_size ip)); [specialize (I n); lia|]. specialize (O n). lia.
Qed.

(** A file whose blocks keep their contents. *)
Lemma file_keep f f' fb fb' ip : file_inv f fb ip -> fb <= fb' -> (forall b, owns f ip b -> f' b = f b) ->
  file_inv f' fb' ip /\ contents f' ip = contents f ip /\ forall b, owns f' ip b <-> owns f ip b.
Proof.
  intros V Hfb Hk. assert (Ep : forall n, fptr f' ip n = fptr f ip n).
  { intros n. apply fptr_ext. intros Hd. apply Hk. exists MAXFILE. split; [unfold MAXFILE; lia|done]. }
  pose proof V as [V1 V2 V3 V4 V5 V6 V7].
  assert (Eb : forall x, 0 <= x < (i_size ip + 511) / 512 * 512 -> fbyte f' ip x = fbyte f ip x).
  { intros x Hx. unfold fbyte. rewrite Ep. f_equal. apply Hk.
    assert (Hq : 0 <= x / 512 < MAXFILE) by (unfold MAXFILE in *; div_lia).
    exists (x / 512). specialize (V3 _ Hq). unfold nmeta in *. split; [lia|]. split; [done|]. div_lia. }
  split; [|split].
  - split; try done.
    + intros n Hn Hs. rewrite Ep. specialize (V3 n). lia.
    + intros n Hn Hs. rewrite Ep. by apply V4.
    + destruct (12 * 512 <? i_size ip); lia.
    + intros n m Hn Hm. rewrite !Ep. by apply V6.
    + intros x Hx. rewrite Eb by lia. by apply V7.
  - apply list_eq. intros j. unfold contents. destruct (decide (j < Z.to_nat (i_size ip))%nat) as [Hj|Hj].
    + rewrite !lookup_fbytes by done. f_equal. apply Eb. div_lia.
    + by rewrite !lookup_ge_None_2 by (rewrite length_fbytes; lia).
  - intros b. unfold owns. by setoid_rewrite Ep.
Qed.

(** What appending [l] to a file does to the blocks. *)
Record appended (f : Z -> list Z) (fb : Z) (ip : inode) (l : list Z) (f' : Z -> list Z) (fb' : Z) (ip' : inode) : Prop := {
  ap_file : file_inv f' fb' ip';
  ap_fb : fb' = fb + (need (i_size ip') - need (i_size ip));
  ap_le : fb <= fb';
  ap_frame : forall b, b < fb -> ~ owns f ip b -> f' b = f b;
  ap_zero : forall b, fb' <= b -> f' b = zeroes;
  ap_len : forall b, length (f' b) = BSIZE;
  ap_owns : forall b, owns f' ip' b <-> owns f ip b \/ fb <= b < fb';
  ap_size : i_size ip' = i_size ip + Z.of_nat (length l);
  ap_bytes : contents f' ip' = contents f ip ++ l;
  ap_fields : set_i_size 0 (set_i_addrs [] ip') = set_i_size 0 (set_i_addrs [] ip)
}.

Lemma appended_trans f1 b1 p1 l1 f2 b2 p2 l2 f3 b3 p3 :
  appended f1 b1 p1 l1 f2 b2 p2 -> appended f2 b2 p2 l2 f3 b3 p3 -> appended f1 b1 p1 (l1 ++ l2) f3 b3 p3.
Proof.
  intros [A1 A2 A3 A4 A5 A6 A7 A8 A9 A10] [B1 B2 B3 B4 B5 B6 B7 B8 B9 B10].
  split; try done; [lia|lia|..].
  - intros b Hb Ho. rewrite B4; [by apply A4|lia|]. rewrite A7. intros [H|H]; [done|lia].
  - intros b. rewrite B7, A7. intuition lia.
  - rewrite length_app. lia.
  - by rewrite B9, A9, app_assoc.
  - congruence.
Qed.

(** ** One block more *)

(** The pointers after block [q] of the file was looked up or allocated as [x]. *)
Record pointed (q : Z) (f : Z -> list Z) (fb : Z) (ip : inode) (f1 : Z -> list Z) (fb1 : Z) (ip1 : inode) (x : Z) : Prop := {
  pt_other : forall n, 0 <= n < MAXFILE -> n <> q -> fptr f1 ip1 n = fptr f ip n;
  pt_this : fptr f1 ip1 q = x;
  pt_x : if decide (fptr f ip q = 0) then fb <= x < fb1 else x = fptr f ip q;
  pt_ind : if decide (12 <= q /\ addr ip NDIRECT = 0)
    then fb <= addr ip1 NDIRECT < fb1 /\ addr ip1 NDIRECT <> x else addr ip1 NDIRECT = addr ip NDIRECT;
  pt_blk : forall b, (addr ip1 NDIRECT <> 0 -> b <> addr ip1 NDIRECT) -> f1 b = f b;
  pt_zero : forall b, fb1 <= b -> f1 b = zeroes;
  pt_len : forall b, length (f1 b) = BSIZE;
  pt_fb : fb1 = fb + (if decide (fptr f ip q = 0) then 1 else 0) + (if decide (12 <= q /\ addr ip NDIRECT = 0) then 1 else 0);
  pt_addrs : length (i_addrs ip1) = length (i_addrs ip);
  pt_fields : set_i_addrs [] ip1 = set_i_addrs [] ip
}.

Section Round.
Context (f : Z -> list Z) (fb : Z) (ip : inode) (q : Z).
Context (V : file_inv f fb ip) (Hfb : nmeta <= fb).
Context (Hzero : forall b, fb <= b -> f b = zeroes) (Hlen : forall b, length (f b) = BSIZE).

Lemma fptr_range n : 0 <= n <= MAXFILE -> fptr f ip n <> 0 -> nmeta <= fptr f ip n < fb.
Proof. intros Hn Hp. apply (owns_range f fb ip); [done|]. by exists n. Qed.

Lemma pointed_have : 0 <= q < MAXFILE -> fptr f ip q <> 0 -> pointed q f fb ip f fb ip (fptr f ip q).
Proof.
  intros Hq Hp. assert (Hd : ~ (12 <= q /\ addr ip NDIRECT = 0)).
  { intros [H1 H2]. apply Hp. apply fptr_zero_indirect; [done|lia]. }
  split; try done; rewrite ?decide_False by done; try done. lia.
Qed.

(** A new block behind a pointer of the inode. *)
Lemma pointed_direct : 0 <= q < 12 -> fptr f ip q = 0 ->
  pointed q f fb ip f (fb + 1) (set_i_addrs (<[Z.to_nat q := fb]> (i_addrs ip)) ip) fb.
Proof.
  intros Hq Hp. pose proof (fv_addrs _ _ _ V) as Hl. unfold NDIRECT in Hl. unfold nmeta in Hfb.
  assert (Ha : forall m, addr (set_i_addrs (<[Z.to_nat q := fb]> (i_addrs ip)) ip) m
    = if decide (m = Z.to_nat q) then fb else addr ip m) by (intros m; apply addr_set; lia).
  assert (Es : slot_ptr (Z.to_nat q) = q) by (unfold slot_ptr, NDIRECT; case_decide; lia).
  split; try done; rewrite ?(decide_False (P := 12 <= q /\ _)) by lia.
  - intros n Hn Hne. apply fptr_set_slot; try done; [lia|unfold NDIRECT; lia| |lia|by apply Hzero|lia|by rewrite Es].
    rewrite <- Es, fptr_slot in Hp by (unfold NDIRECT; lia). done.
  - unfold fptr. rewrite (proj2 (Z.ltb_lt q 12)) by lia. rewrite Ha. by rewrite decide_True.
  - rewrite decide_True by done. lia.
  - rewrite Ha. rewrite decide_False; [done|]. unfold NDIRECT. lia.
  - intros b Hb. apply Hzero. lia.
  - rewrite decide_True by done. lia.
  - simpl. by rewrite length_insert.
Qed.

(** A new entry of the indirect block. *)
Lemma pointed_entry : 12 <= q < MAXFILE -> fptr f ip q = 0 -> addr ip NDIRECT <> 0 -> fb < 2 ^ 32 ->
  let d := addr ip NDIRECT in
  pointed q f fb ip (fun b => if decide (b = d) then wr 4 (4 * Z.to_nat (q - 12)) fb (f d) else f b) (fb + 1) ip fb.
Proof.
  intros Hq Hp Hd Hmax d. unfold nmeta in Hfb. pose proof (fptr_range MAXFILE ltac:(unfold MAXFILE; lia) Hd) as Hr.
  change (nmeta <= d < fb) in Hr.
  split; try done; rewrite ?(decide_False (P := 12 <= q /\ _)) by (unfold d in *; lia); rewrite ?(decide_True (P := fptr f ip q = 0)) by done;
    try lia.
  - intros n Hn Hne. destruct (decide (12 <= n)) as [H12|H12].
    + rewrite !fptr_entry by (done || lia). fold d. rewrite decide_True by done. apply rd_wr_out. unfold MAXFILE in *. lia.
    + unfold fptr. by rewrite (proj2 (Z.ltb_lt n 12)) by lia.
  - rewrite fptr_entry by (done || lia). fold d. rewrite decide_True by done.
    rewrite rd_wr_same by (rewrite Hlen; unfold BSIZE, MAXFILE in *; lia). apply Z.mod_small.
    change (2 ^ (8 * Z.of_nat 4)) with (2 ^ 32). lia.
  - intros b Hb. rewrite decide_False; [done|]. by apply Hb.
  - intros b Hb. rewrite decide_False by lia. apply Hzero. lia.
  - intros b. case_decide; [by rewrite length_wr|done].
Qed.

End Round.

(** A new indirect block and its first entry. *)
Lemma pointed_indirect f fb ip q :
  file_inv f fb ip -> nmeta <= fb -> (forall b, fb <= b -> f b = zeroes) -> (forall b, length (f b) = BSIZE) ->
  12 <= q < MAXFILE -> addr ip NDIRECT = 0 -> fb + 1 < 2 ^ 32 ->
  pointed q f fb ip (fun b => if decide (b = fb) then wr 4 (4 * Z.to_nat (q - 12)) (fb + 1) (f fb) else f b) (fb + 2)
    (set_i_addrs (<[NDIRECT := fb]> (i_addrs ip)) ip) (fb + 1).
Proof.
  intros V Hfb Hzero Hlen Hq Hd Hmax. pose proof (fv_addrs _ _ _ V) as Hl. unfold nmeta in Hfb.
  set (ip1 := set_i_addrs (<[NDIRECT := fb]> (i_addrs ip)) ip).
  assert (Ha : forall m, addr ip1 m = if decide (m = NDIRECT) then fb else addr ip m) by (intros m; apply addr_set; lia).
  assert (Ed : addr ip1 NDIRECT = fb) by (rewrite Ha; by rewrite decide_True).
  assert (Hp : fptr f ip q = 0) by (apply fptr_zero_indirect; [done|lia]).
  split; rewrite ?Ed; rewrite ?(decide_True (P := 12 <= q /\ _)) by (split; [lia|done]);
    rewrite ?(decide_True (P := fptr f ip q = 0)) by done; try done; try lia.
  - intros n Hn Hne. destruct (decide (12 <= n)) as [H12|H12].
    + rewrite fptr_entry by (lia || done). rewrite Ed, decide_True by done. rewrite rd_wr_out by (unfold MAXFILE in *; lia).
      rewrite Hzero by lia. unfold zeroes. rewrite rd_zeros. symmetry. apply fptr_zero_indirect; [done|lia].
    + unfold fptr. rewrite (proj2 (Z.ltb_lt n 12)) by lia. rewrite Ha. rewrite decide_False; [done|]. unfold NDIRECT. lia.
  - rewrite fptr_entry by (lia || done). rewrite Ed, decide_True by done.
    rewrite rd_wr_same by (rewrite Hlen; unfold BSIZE, MAXFILE in *; lia). apply Z.mod_small.
    change (2 ^ (8 * Z.of_nat 4)) with (2 ^ 32). lia.
  - intros b Hb. rewrite decide_False; [done|]. apply Hb. lia.
  - intros b Hb. rewrite decide_False by lia. apply Hzero. lia.
  - intros b. case_decide; [by rewrite length_wr|done].
  - unfold ip1. simpl. by rewrite length_insert.
Qed.

Section Write.
Context (f : Z -> list Z) (fb : Z) (ip : inode) (l : list Z).
Let off := i_size ip.
Let q := off / 512.
Context (V : file_inv f fb ip).
Context (Hoff : off < MAXFILE * 512) (Hl0 : 0 < Z.of_nat (length l)) (Hl : off mod 512 + Z.of_nat (length l) <= 512).

Lemma round_q : 0 <= off /\ 0 <= q < MAXFILE /\ (q * 512 <= off < (q + 1) * 512 /\ off + Z.of_nat (length l) <= (q + 1) * 512).
Proof. pose proof (fv_size _ _ _ V). fold off in H. unfold q, MAXFILE in *. div_lia. Qed.

(** The file gets a block exactly when its last one is full. *)
Lemma round_new : fptr f ip q = 0 <-> off mod 512 = 0.
Proof.
  pose proof round_q as (H0 & Hq & Hqo). pose proof (fv_in _ _ _ V q Hq) as H1. pose proof (fv_out _ _ _ V q Hq) as H2.
  fold off in H1, H2. unfold nmeta in *. split; intros H; [|apply H2; unfold q in *; div_lia].
  destruct (decide (q * 512 < off)); [lia|]. unfold q in *. div_lia.
Qed.

Lemma round_ind : 12 <= q -> addr ip NDIRECT = 0 <-> off = 12 * 512.
Proof.
  intros H12. pose proof round_q as (H0 & Hq & Hqo). pose proof (fv_ind _ _ _ V) as H. fold off in H.
  destruct (Z.ltb_spec (12 * 512) off); unfold nmeta in *; lia.
Qed.

(** The blocks that a round takes are those that the longer file needs. *)
Lemma round_cost :
  (if decide (fptr f ip q = 0) then 1 else 0) + (if decide (12 <= q /\ addr ip NDIRECT = 0) then 1 else 0)
  = need (off + Z.of_nat (length l)) - need off.
Proof.
  pose proof round_q as (H0 & Hq & Hqo). pose proof round_new as Hnew. pose proof round_ind as Hind.
  unfold need. destruct (decide (fptr f ip q = 0)) as [E1|E1], (decide (12 <= q /\ addr ip NDIRECT = 0)) as [E2|E2];
    rewrite Hnew in E1; rewrite ?Hind in E2 by lia; destruct (Z.ltb_spec (12 * 512) off), (Z.ltb_spec (12 * 512) (off + Z.of_nat (length l)));
    unfold q in *; div_lia.
Qed.

Context (Hfb : nmeta <= fb) (Hzero : forall b, fb <= b -> f b = zeroes) (f1 : Z -> list Z) (fb1 : Z) (ip1 : inode) (x : Z) (P : pointed q f fb ip f1 fb1 ip1 x).

Let f2 (b : Z) : list Z := if decide (b = x) then list_inserts (Z.to_nat (off mod 512)) l (f1 x) else f1 b.
Let ip2 : inode := set_i_size (off + Z.of_nat (length l)) ip1.

(** The block is not the indirect block, and no other block of the file. *)
Lemma round_x : nmeta <= x < fb1 /\ x <> addr ip1 NDIRECT
  /\ forall n, 0 <= n < MAXFILE -> n <> q -> fptr f1 ip1 n <> x.
Proof.
  pose proof round_q as (H0 & Hq & Hqo). pose proof (pt_x _ _ _ _ _ _ _ _ P) as Px. pose proof (pt_ind _ _ _ _ _ _ _ _ P) as Pi.
  pose proof (pt_fb _ _ _ _ _ _ _ _ P) as Pf.
  assert (Ho : forall n, 0 <= n <= MAXFILE -> fptr f ip n <> 0 -> nmeta <= fptr f ip n < fb) by (intros n; by apply fptr_range).
  assert (Hm : 0 <= MAXFILE <= MAXFILE) by (unfold MAXFILE; lia).
  pose proof (fv_inj _ _ _ V q MAXFILE ltac:(lia) Hm) as Hi. change (fptr f ip MAXFILE) with (addr ip NDIRECT) in Hi.
  pose proof (Ho MAXFILE Hm) as Hd. change (fptr f ip MAXFILE) with (addr ip NDIRECT) in Hd.
  split; [|split].
  - destruct (decide (fptr f ip q = 0)); [lia|]. specialize (Ho q ltac:(lia)). repeat case_decide; lia.
  - destruct (decide (12 <= q /\ addr ip NDIRECT = 0)); [lia|]. unfold nmeta in *. destruct (decide (fptr f ip q = 0)); lia.
  - intros n Hn Hne. rewrite (pt_other _ _ _ _ _ _ _ _ P) by done. intros E. pose proof (Ho n ltac:(lia)) as Hon.
    pose proof (fv_inj _ _ _ V n q ltac:(lia) ltac:(lia)). unfold nmeta in *. destruct (decide (fptr f ip q = 0)); lia.
Qed.

Lemma round_fptr n : fptr f2 ip2 n = fptr f1 ip1 n.
Proof.
  change (fptr f2 ip1 n = fptr f1 ip1 n). apply fptr_ext. intros _. unfold f2. rewrite decide_False; [done|].
  pose proof round_x as (_ & H & _). auto.
Qed.

(** No block of the contents is the indirect block. *)
Lemma round_apart n : 0 <= n < MAXFILE -> fptr f1 ip1 n <> 0 -> fptr f1 ip1 n <> addr ip1 NDIRECT.
Proof.
  intros Hn Hp E. pose proof round_x as (Hx & Hxi & _). destruct (decide (n = q)) as [->|Hne].
  { rewrite (pt_this _ _ _ _ _ _ _ _ P) in E. done. }
  rewrite (pt_other _ _ _ _ _ _ _ _ P) in E, Hp by done. pose proof (pt_ind _ _ _ _ _ _ _ _ P) as Pi.
  pose proof (fptr_range f fb ip V n ltac:(lia) Hp) as Hr. destruct (decide (12 <= q /\ addr ip NDIRECT = 0)); [lia|].
  rewrite Pi in E. pose proof (fv_inj _ _ _ V n MAXFILE ltac:(lia) ltac:(unfold MAXFILE; lia) E Hp). lia.
Qed.

(** The bytes of the file up to the end of its last block. *)
Lemma round_byte y : 0 <= y < (q + 1) * 512 ->
  fbyte f2 ip2 y = if decide (off <= y < off + Z.of_nat (length l)) then byte_at l (y - off)
                   else if decide (off <= y) then 0 else fbyte f ip y.
Proof.
  intros Hy. pose proof round_q as (H0 & Hq & Hqo). pose proof round_x as (Hx & Hxi & Hxo). pose proof round_new as Hnew.
  assert (Et : fptr f1 ip1 (off / 512) = x) by apply P. change (fbyte f2 ip2 y) with (fbyte f2 ip1 y).
  pose proof (fbyte_store f1 ip1 off l y H0 Hl ltac:(lia)) as Hs. cbv zeta in Hs. rewrite Et in Hs.
  refine (eq_trans (Hs _ _ _) _).
  - apply P.
  - intros E. destruct (decide (y / 512 = off / 512)); [done|]. destruct (Hxo (y / 512)); [unfold MAXFILE in *; div_lia|done|done].
  - intros n. exact (round_fptr n).
  - destruct (decide (off <= y < off + Z.of_nat (length l))) as [|Hout]; [done|].
    destruct (decide (y / 512 = q /\ off mod 512 = 0)) as [[E1 E2]|E].
    + rewrite decide_True by (unfold q in *; div_lia). unfold fbyte. rewrite E1. unfold q. rewrite Et.
      pose proof (pt_x _ _ _ _ _ _ _ _ P) as Px. rewrite decide_True in Px by (by apply Hnew).
      rewrite (pt_blk _ _ _ _ _ _ _ _ P) by done. rewrite Hzero by lia. unfold byte_at, zeroes, BSIZE.
      by rewrite lookup_replicate_2 by div_lia.
    + assert (Ey : fbyte f1 ip1 y = fbyte f ip y).
      { assert (Hyq : 0 <= y / 512 < MAXFILE) by (unfold MAXFILE in *; div_lia). unfold fbyte.
        assert (Ep : fptr f1 ip1 (y / 512) = fptr f ip (y / 512)).
        { destruct (decide (y / 512 = q)) as [E'|E']; [|by apply P]. rewrite E'.
          rewrite (pt_this _ _ _ _ _ _ _ _ P). pose proof (pt_x _ _ _ _ _ _ _ _ P) as Px. rewrite decide_False in Px; [done|].
          rewrite Hnew. unfold q in *. div_lia. }
        rewrite Ep. f_equal. apply P. intros _. rewrite <- Ep. apply round_apart; [done|]. rewrite Ep.
        pose proof (fv_in _ _ _ V (y / 512) Hyq) as Hi. fold off in Hi. unfold nmeta, q in *. div_lia. }
      rewrite Ey. destruct (decide (off <= y)); [|done]. apply (fv_tail _ _ _ V). fold off. unfold q in *. div_lia.
Qed.

Lemma round_file : file_inv f2 fb1 ip2.
Proof.
  pose proof round_q as (H0 & Hq & Hqo). pose proof round_new as Hn. pose proof round_x as (Hx & Hxi & Hxo).
  pose proof (pt_ind _ _ _ _ _ _ _ _ P) as Pi. pose proof (pt_fb _ _ _ _ _ _ _ _ P) as Pf.
  assert (fb <= fb1) by (repeat case_decide; lia). pose proof (fv_ind _ _ _ V) as Vd. fold off in Vd.
  assert (Hind : addr ip1 NDIRECT = 0 \/ nmeta <= addr ip1 NDIRECT < fb1).
  { destruct (decide (12 <= q /\ addr ip NDIRECT = 0)); [lia|]. destruct (12 * 512 <? off); lia. }
  split; cbn [i_size i_addrs ip2 set_i_size].
  - rewrite (pt_addrs _ _ _ _ _ _ _ _ P). apply V.
  - unfold MAXFILE in *. lia.
  - intros n Hnr Hlt. rewrite round_fptr. destruct (decide (n = q)) as [->|Hne].
    + by rewrite (pt_this _ _ _ _ _ _ _ _ P).
    + rewrite (pt_other _ _ _ _ _ _ _ _ P) by done. pose proof (fv_in _ _ _ V n Hnr) as Hi. fold off in Hi. unfold q in *. div_lia.
  - intros n Hnr Hge. rewrite round_fptr. rewrite (pt_other _ _ _ _ _ _ _ _ P) by (done || lia).
    apply (fv_out _ _ _ V n Hnr). fold off. lia.
  - change (addr ip2 NDIRECT) with (addr ip1 NDIRECT). pose proof round_ind as Hi.
    destruct (Z.ltb_spec (12 * 512) (off + Z.of_nat (length l))) as [Hb|Hb].
    + destruct (decide (12 <= q /\ addr ip NDIRECT = 0)); [unfold nmeta in *; lia|]. rewrite Pi. destruct (Z.ltb_spec (12 * 512) off); [lia|].
      assert (12 <= q) by (unfold q in *; div_lia). lia.
    + rewrite decide_False in Pi by (unfold q in *; div_lia). rewrite Pi. destruct (Z.ltb_spec (12 * 512) off); lia.
  - assert (Hcl : forall n, 0 <= n <= MAXFILE -> fptr f2 ip2 n =
      if decide (n = q) then x else if decide (n = MAXFILE) then addr ip1 NDIRECT else fptr f ip n).
    { intros n Hnr. rewrite round_fptr. destruct (decide (n = q)) as [->|Hne]; [apply P|].
      destruct (decide (n = MAXFILE)) as [->|Hne']; [done|]. apply P; [lia|done]. }
    assert (Hold : forall n, 0 <= n <= MAXFILE -> fptr f ip n <> 0 -> nmeta <= fptr f ip n < fb) by (intros n; by apply fptr_range).
    assert (Hoth : forall n, 0 <= n < MAXFILE -> n <> q -> fptr f ip n <> 0 -> fptr f ip n <> x /\ fptr f ip n <> addr ip1 NDIRECT).
    { intros n Hnr Hne Hp. split; [rewrite <- (pt_other _ _ _ _ _ _ _ _ P) by done; by apply Hxo|].
      specialize (Hold n ltac:(lia) Hp). destruct (decide (12 <= q /\ addr ip NDIRECT = 0)); [lia|]. rewrite Pi. intros E.
      pose proof (fv_inj _ _ _ V n MAXFILE ltac:(lia) ltac:(unfold MAXFILE; lia) E Hp). lia. }
    assert (Hq' : q <> MAXFILE) by lia. clear - Hcl Hoth V Hxi Hq'. intros n m Hnr Hmr. rewrite !Hcl by done.
    destruct (decide (n = q)) as [->|Hn]; [|destruct (decide (n = MAXFILE)) as [->|Hn']];
      (destruct (decide (m = q)) as [->|Hm]; [|destruct (decide (m = MAXFILE)) as [->|Hm']]); try done; intros E Hp;
      try congruence.
    + rewrite E in Hp. destruct (Hoth m) as [H _]; [lia|done|done|]. congruence.
    + rewrite E in Hp. destruct (Hoth m) as [_ H]; [lia|done|done|]. congruence.
    + destruct (Hoth n) as [H _]; [lia|done|done|]. congruence.
    + destruct (Hoth n) as [_ H]; [lia|done|done|]. congruence.
    + by apply (fv_inj _ _ _ V).
  - intros y Hy. rewrite round_byte by (unfold q in *; div_lia). rewrite decide_False by lia. by rewrite decide_True by lia.
Qed.

Lemma round_bytes : contents f2 ip2 = contents f ip ++ l.
Proof.
  pose proof round_q as (H0 & Hq & Hqo). pose proof round_byte as Hb.
  unfold contents. cbn [i_size ip2 set_i_size]. fold off. apply list_eq. intros j.
  destruct (decide (j < Z.to_nat off)%nat) as [Hj|Hj]; [|destruct (decide (j < Z.to_nat (off + Z.of_nat (length l)))%nat) as [Hj'|Hj']].
  - rewrite lookup_app_l by (by rewrite length_fbytes). rewrite !lookup_fbytes by lia. rewrite Hb by lia. by rewrite !decide_False by lia.
  - rewrite lookup_app_r, length_fbytes, lookup_fbytes by (rewrite ?length_fbytes; lia). rewrite Hb by lia. rewrite decide_True by lia.
    unfold byte_at. destruct (lookup_lt_is_Some_2 l (j - Z.to_nat off)) as [v Hv]; [lia|].
    rewrite Hv. replace (Z.to_nat (0 + Z.of_nat j - off)) with (j - Z.to_nat off)%nat by lia. by rewrite Hv.
  - rewrite !lookup_ge_None_2; [done|rewrite length_app, length_fbytes; lia|rewrite length_fbytes; lia].
Qed.

(** The blocks of the longer file are those it had and the ones just taken. *)
Lemma round_owns b : owns f2 ip2 b <-> owns f ip b \/ fb <= b < fb1.
Proof.
  pose proof round_q as (H0 & Hq & Hqo). pose proof (pt_fb _ _ _ _ _ _ _ _ P) as Pf. pose proof (pt_x _ _ _ _ _ _ _ _ P) as Px.
  pose proof (pt_ind _ _ _ _ _ _ _ _ P) as Pi. pose proof (pt_this _ _ _ _ _ _ _ _ P) as Pq. unfold owns. setoid_rewrite round_fptr.
  assert (Hm : 0 <= MAXFILE <= MAXFILE) by (unfold MAXFILE; lia). unfold nmeta in *. split.
  - intros (n & Hn & E & Hb). destruct (decide (n = q)) as [->|Hne].
    { rewrite Pq in E. subst b. destruct (decide (fptr f ip q = 0)); [right; lia|left; by exists q]. }
    destruct (decide (n = MAXFILE)) as [->|Hne'].
    + change (addr ip1 NDIRECT = b) in E. destruct (decide (12 <= q /\ addr ip NDIRECT = 0)); [right; lia|left].
      exists MAXFILE. split; [done|]. split; [|done]. change (addr ip NDIRECT = b). congruence.
    + left. exists n. rewrite (pt_other _ _ _ _ _ _ _ _ P) in E by lia. done.
  - intros [(n & Hn & E & Hb)|Hb].
    + exists n. split; [done|]. split; [|done]. destruct (decide (n = q)) as [->|Hne]; [rewrite Pq; rewrite decide_False in Px by congruence; congruence|].
      destruct (decide (n = MAXFILE)) as [->|Hne']; [|rewrite (pt_other _ _ _ _ _ _ _ _ P); [done|lia|done]].
      change (addr ip NDIRECT = b) in E. change (addr ip1 NDIRECT = b). rewrite decide_False in Pi by lia. congruence.
    + assert (b = x \/ b = addr ip1 NDIRECT) as [->| ->].
      { destruct (decide (fptr f ip q = 0)), (decide (12 <= q /\ addr ip NDIRECT = 0)); lia. }
      * exists q. split; [lia|]. split; [done|lia].
      * exists MAXFILE. split; [done|]. split; [done|lia].
Qed.

Lemma round_appended : appended f fb ip l f2 fb1 ip2.
Proof.
  pose proof round_q as (H0 & Hq & Hqo). pose proof round_x as (Hx & Hxi & Hxo). pose proof round_new as Hnew.
  pose proof round_ind as Hind. pose proof (pt_fb _ _ _ _ _ _ _ _ P) as Pf. pose proof (pt_x _ _ _ _ _ _ _ _ P) as Px.
  pose proof (pt_ind _ _ _ _ _ _ _ _ P) as Pi. assert (Hle : fb <= fb1) by (repeat case_decide; lia).
  split; [apply round_file| |done| | | | | |apply round_bytes|].
  - cbn [i_size ip2 set_i_size]. fold off. rewrite Pf. pose proof round_cost. lia.
  - intros b Hb Ho. unfold f2. rewrite decide_False.
    + apply P. intros Hd ->. destruct (decide (12 <= q /\ addr ip NDIRECT = 0)); [lia|]. apply Ho.
      exists MAXFILE. split; [unfold MAXFILE; lia|done].
    + intros ->. destruct (decide (fptr f ip q = 0)); [lia|]. apply Ho. exists q. unfold nmeta in *. split; [lia|]. split; [done|lia].
  - intros b Hb. unfold f2. rewrite decide_False by lia. by apply P.
  - intros b. unfold f2. destruct (decide (b = x)); [rewrite length_inserts|]; apply P.
  - apply round_owns.
  - done.
  - pose proof (pt_fields _ _ _ _ _ _ _ _ P) as Ef. change (set_i_size 0 (set_i_addrs [] ip2)) with (set_i_size 0 (set_i_addrs [] ip1)). by rewrite Ef.
Qed.

End Write.

(** ** The operations of mkfs *)

Lemma pointed_ext q f fb ip f1 f1' fb1 ip1 x : pointed q f fb ip f1 fb1 ip1 x -> (forall b, f1' b = f1 b) ->
  pointed q f fb ip f1' fb1 ip1 x.
Proof.
  intros [] E. assert (Ep : forall n, fptr f1' ip1 n = fptr f1 ip1 n) by (intros n; by apply fptr_ext).
  split; try done; intros; rewrite ?Ep, ?E; eauto.
Qed.

Lemma appended_ext f fb ip l f' f'' fb' ip' : appended f fb ip l f' fb' ip' -> (forall b, f'' b = f' b) ->
  appended f fb ip l f'' fb' ip'.
Proof.
  intros [] E. destruct (file_keep f' f'' fb' fb' ip') as (H1 & H2 & H3); [done|lia|done|].
  split; try done; try congruence; intros; rewrite ?E; eauto. rewrite H3. apply ap_owns0.
Qed.

(** The file of size [off] with the pointers of [din]. *)
Definition sized (off : Z) (din : inode) : inode := set_i_size off din.

Definition mkfs_sb : superblock := mk_superblock 1000 941 200 30 2 32 58.

(** The image while files are added. *)
Record image (m : mkfs) : Prop := {
  im_len : m_len m = FSSIZE;
  im_sb : m_sb m = mkfs_sb;
  im_free : nmeta <= freeblock m <= FSSIZE;
  im_zero : forall b, freeblock m <= b -> blk m b = zeroes;
  im_blen : forall b, length (blk m b) = BSIZE
}.

(** States that differ in the image and the next block only. *)
Record alike (m m' : mkfs) : Prop := {
  ak_len : m_len m' = m_len m;
  ak_sb : m_sb m' = m_sb m;
  ak_inode : freeinode m' = freeinode m;
  ak_out : m_out m' = m_out m
}.

Lemma alike_trans m1 m2 m3 : alike m1 m2 -> alike m2 m3 -> alike m1 m3.
Proof. intros [] []. split; congruence. Qed.

Lemma sector_small b : 0 <= b < 2 ^ 23 -> sector b = b.
Proof. intros H. unfold sector. change (Z.of_nat BSIZE) with 512. rewrite u32_small by lia. by rewrite Z.div_mul. Qed.

Section Run.
Context (io : Z -> bool) (Hio : forall b, io b = true) (e : environment mkfs).

Lemma rsect_run m b : m_len m = FSSIZE -> 0 <= b < FSSIZE -> rsect io b m e = Done (blk m b) m e.
Proof.
  intros Hl Hb. unfold rsect, get, bind. rewrite sector_small by (unfold FSSIZE in *; lia). rewrite Hio, Hl.
  by rewrite (proj2 (Z.ltb_lt b FSSIZE)) by lia.
Qed.

Lemma wsect_run m b v : m_len m = FSSIZE -> 0 <= b < FSSIZE -> wsect io b v m e = Done tt (put b v m) e.
Proof.
  intros Hl Hb. unfold wsect, modify, put. rewrite sector_small, Hio by (unfold FSSIZE in *; lia).
  do 2 f_equal. lia.
Qed.

Lemma next_block_run m : 0 <= freeblock m < FSSIZE -> next_block m e = Done (freeblock m) (set_freeblock (freeblock m + 1) m) e.
Proof. intros H. unfold next_block, bind, gets, modify. rewrite u32_small by (unfold FSSIZE in *; lia). done. Qed.

Lemma append_slot_new m din n : 0 <= freeblock m < FSSIZE -> daddr din n = 0 ->
  append_slot din n m e = Done (set_i_addrs (<[n := freeblock m]> (i_addrs din)) din) (set_freeblock (freeblock m + 1) m) e.
Proof.
  intros H Hz. unfold append_slot. rewrite Hz. change (xint 0 =? 0) with true. cbv iota. pose proof (next_block_run m H) as En. run En.
  by rewrite xint_small by (unfold FSSIZE in *; lia).
Qed.

Lemma append_slot_old m din n : 0 < daddr din n < 2 ^ 32 -> append_slot din n m e = Done din m e.
Proof. intros H. unfold append_slot. rewrite xint_small by lia. by rewrite (proj2 (Z.eqb_neq _ 0)) by lia. Qed.

(** The second half of [append_block], behind the indirect block. *)
Definition append_entry (din : inode) (fbn : Z) : M mkfs (inode * Z) :=
  indirect <- rsect io (xint (daddr din NDIRECT));;
  let o := (4 * Z.to_nat (fbn - Z.of_nat NDIRECT))%nat in
  indirect <- (if rd 4 o indirect =? 0 then
                 b <- next_block;;
                 let indirect := wr 4 o (xint b) indirect in
                 wsect io (xint (daddr din NDIRECT)) indirect;;
                 ret indirect
               else ret indirect);;
  ret (din, xint (rd 4 o indirect)).

Lemma append_entry_old m din q : m_len m = FSSIZE -> 12 <= q < MAXFILE -> 0 < addr din NDIRECT < FSSIZE ->
  0 < fptr (blk m) din q < FSSIZE -> append_entry din q m e = Done (din, fptr (blk m) din q) m e.
Proof.
  intros Hl Hq Hd Hp. unfold append_entry. change (daddr din NDIRECT) with (addr din NDIRECT). change (Z.of_nat NDIRECT) with 12.
  unfold FSSIZE in *. rewrite xint_small by lia. pose proof (rsect_run m (addr din NDIRECT) Hl ltac:(unfold FSSIZE; lia)) as Er. run Er.
  rewrite fptr_entry in * by lia. rewrite (proj2 (Z.eqb_neq _ 0)) by lia. rewrite bind_ret. by rewrite xint_small by lia.
Qed.

Lemma append_entry_new m din q : m_len m = FSSIZE -> 12 <= q < MAXFILE -> 0 < addr din NDIRECT < FSSIZE ->
  (forall b, length (blk m b) = BSIZE) -> 0 <= freeblock m < FSSIZE -> fptr (blk m) din q = 0 ->
  append_entry din q m e = Done (din, freeblock m)
    (put (addr din NDIRECT) (wr 4 (4 * Z.to_nat (q - 12)) (freeblock m) (blk m (addr din NDIRECT))) (set_freeblock (freeblock m + 1) m)) e.
Proof.
  intros Hl Hq Hd Hlen Hf Hp. unfold append_entry. change (daddr din NDIRECT) with (addr din NDIRECT). change (Z.of_nat NDIRECT) with 12.
  unfold FSSIZE in *. rewrite xint_small by lia. pose proof (rsect_run m (addr din NDIRECT) Hl ltac:(unfold FSSIZE; lia)) as Er. run Er.
  rewrite fptr_entry in Hp by lia. rewrite Hp. change (0 =? 0) with true. cbv iota. rewrite bind_assoc. pose proof (next_block_run m Hf) as En. run En.
  rewrite xint_small by lia. rewrite bind_assoc.
  erewrite bind_done; [|apply wsect_run; [done|unfold FSSIZE; lia]]. rewrite bind_ret. unfold ret. do 2 f_equal.
  rewrite rd_wr_same by (rewrite Hlen; unfold BSIZE, MAXFILE in *; lia).
  change (2 ^ (8 * Z.of_nat 4)) with (2 ^ 32). rewrite Z.mod_small by lia. apply xint_small. lia.
Qed.

Lemma append_block_entry din q m m1 din1 : 12 <= q -> append_slot din NDIRECT m e = Done din1 m1 e ->
  append_block io din q m e = append_entry din1 q m1 e.
Proof.
  intros Hq E. unfold append_block. change (Z.of_nat NDIRECT) with 12. rewrite (proj2 (Z.ltb_ge q 12)) by lia. by run E.
Qed.

Lemma append_block_have m din q : m_len m = FSSIZE -> 0 <= q < MAXFILE -> 0 < fptr (blk m) din q < FSSIZE ->
  (addr din NDIRECT <> 0 -> 0 < addr din NDIRECT < FSSIZE) ->
  append_block io din q m e = Done (din, fptr (blk m) din q) m e.
Proof.
  intros Hl Hq Hr Hdr. unfold FSSIZE in *. destruct (Z.ltb_spec q 12) as [H12|H12].
  - unfold append_block. change (Z.of_nat NDIRECT) with 12. rewrite (proj2 (Z.ltb_lt q 12)) by done.
    assert (Ha : fptr (blk m) din q = daddr din (Z.to_nat q)) by (unfold fptr; by rewrite (proj2 (Z.ltb_lt q 12))).
    pose proof (append_slot_old m din (Z.to_nat q) ltac:(rewrite <- Ha; lia)) as E. run E. rewrite Ha in *. by rewrite xint_small by lia.
  - assert (Hd : addr din NDIRECT <> 0) by (intros Hd; rewrite fptr_zero_indirect in Hr by (done || lia); lia). specialize (Hdr Hd).
    rewrite (append_block_entry din q m m din); [|done|apply append_slot_old; change (daddr din NDIRECT) with (addr din NDIRECT); lia].
    apply append_entry_old; unfold FSSIZE; try done; lia.
Qed.

(** Looking up or allocating the block of the file that holds its end. *)
Lemma append_block_run m din off : image m -> let ip := sized off din in let q := off / 512 in
  file_inv (blk m) (freeblock m) ip -> 0 <= q < MAXFILE ->
  freeblock m + (if decide (fptr (blk m) ip q = 0) then 1 else 0) + (if decide (12 <= q /\ addr ip NDIRECT = 0) then 1 else 0) <= FSSIZE ->
  exists m1 din1 x, append_block io din q m e = Done (din1, x) m1 e /\ alike m m1
    /\ pointed q (blk m) (freeblock m) ip (blk m1) (freeblock m1) (sized off din1) x.
Proof.
  intros [Hl Hsb Hf Hz Hb] ip q V Hq Hroom. unfold nmeta, FSSIZE in *.
  assert (Hr : forall n, 0 <= n <= MAXFILE -> fptr (blk m) ip n <> 0 -> 59 <= fptr (blk m) ip n < freeblock m).
  { intros n Hn Hp. by apply (fptr_range (blk m) (freeblock m) ip). }
  assert (Hdr : addr ip NDIRECT <> 0 -> 59 <= addr ip NDIRECT < freeblock m).
  { intros Hd. apply (Hr MAXFILE); [unfold MAXFILE; lia|done]. }
  change (fptr (blk m) ip q) with (fptr (blk m) din q) in *. change (addr ip NDIRECT) with (addr din NDIRECT) in *.
  destruct (decide (fptr (blk m) din q = 0)) as [Hp|Hp].
  - destruct (Z.ltb_spec q 12) as [H12|H12]; [|destruct (decide (addr din NDIRECT = 0)) as [Hd|Hd]].
    + rewrite decide_False in Hroom by lia. exists (set_freeblock (freeblock m + 1) m), (set_i_addrs (<[Z.to_nat q := freeblock m]> (i_addrs din)) din), (freeblock m).
      assert (Ha : daddr din (Z.to_nat q) = 0).
      { unfold fptr in Hp. by rewrite (proj2 (Z.ltb_lt q 12)) in Hp. }
      split; [|split; [done|apply pointed_direct; try done; unfold nmeta; lia]].
      unfold append_block. change (Z.of_nat NDIRECT) with 12. rewrite (proj2 (Z.ltb_lt q 12)) by done.
      pose proof (append_slot_new m din (Z.to_nat q) ltac:(unfold FSSIZE; lia) Ha) as E. run E. unfold ret. do 2 f_equal.
      change (daddr ?d) with (addr d). rewrite addr_set, decide_True; [apply xint_small; lia|done|].
      pose proof (fv_addrs _ _ _ V) as Hla. simpl in Hla. unfold NDIRECT in Hla. lia.
    + rewrite decide_True in Hroom by done. pose proof (fv_addrs _ _ _ V) as Hla. simpl in Hla.
      set (din1 := set_i_addrs (<[NDIRECT := freeblock m]> (i_addrs din)) din).
      assert (Ed : addr din1 NDIRECT = freeblock m) by (unfold din1; rewrite addr_set by (rewrite Hla; unfold NDIRECT; lia); by rewrite decide_True).
      set (m1 := set_freeblock (freeblock m + 1) m).
      assert (Hz1 : fptr (blk m1) din1 q = 0).
      { rewrite fptr_entry by (rewrite ?Ed; lia). rewrite Ed. change (blk m1) with (blk m). rewrite Hz by lia. apply rd_zeros. }
      pose proof (append_entry_new m1 din1 q Hl ltac:(lia) ltac:(rewrite Ed; unfold FSSIZE; lia) Hb ltac:(simpl; unfold FSSIZE; lia) Hz1) as E.
      eexists _, din1, (freeblock m + 1). split; [|split].
      * rewrite (append_block_entry din q m m1 din1); [exact E|done|apply append_slot_new; [unfold FSSIZE; lia|done]].
      * done.
      * rewrite Ed. simpl. replace (freeblock m + 1 + 1) with (freeblock m + 2) by lia.
        eapply pointed_ext; [apply pointed_indirect; try done; unfold nmeta; lia|]. intros b. by rewrite blk_put.
    + rewrite decide_False in Hroom by lia. specialize (Hdr Hd). eexists _, din, (freeblock m). split; [|split].
      * rewrite (append_block_entry din q m m din); [|done|apply append_slot_old; change (daddr din NDIRECT) with (addr din NDIRECT); lia].
        apply append_entry_new; try done; unfold FSSIZE; lia.
      * done.
      * eapply pointed_ext; [apply pointed_entry; try done; unfold nmeta; lia|]. intros b. by rewrite blk_put.
  - exists m, din, (fptr (blk m) din q). split; [|split; [done|by apply (pointed_have (blk m) (freeblock m) ip q)]].
    apply append_block_have; unfold FSSIZE; try done; [specialize (Hr q ltac:(lia) Hp); fold q; change (fptr (blk m) ip q) with (fptr (blk m) din q) in Hr; lia|].
    intros Hd. specialize (Hdr Hd). lia.
Qed.

Lemma need_mono a b : a <= b -> need a <= need b.
Proof. intros H. unfold need. destruct (Z.ltb_spec (12 * 512) a), (Z.ltb_spec (12 * 512) b); div_lia. Qed.

(** One round of the loop. *)
Lemma iappend_round m din off p : image m -> file_inv (blk m) (freeblock m) (sized off din) -> p <> [] ->
  off + Z.of_nat (length p) <= MAXFILE * 512 -> freeblock m + (need (off + Z.of_nat (length p)) - need off) <= FSSIZE ->
  let n1 := Z.min (Z.of_nat (length p)) (512 - off mod 512) in
  exists m' din', iappend_body io (din, off, p) m e = Done (inl (din', off + n1, drop (Z.to_nat n1) p)) m' e
    /\ alike m m' /\ image m'
    /\ appended (blk m) (freeblock m) (sized off din) (take (Z.to_nat n1) p) (blk m') (freeblock m') (sized (off + n1) din').
Proof.
  intros I V Hp Hmax Hroom n1. pose proof I as [Il Isb If Iz Ib].
  pose proof (fv_size _ _ _ V) as Hs. cbn [i_size sized set_i_size] in Hs. unfold iappend_body.
  rewrite bool_decide_false by done. change (Z.of_nat BSIZE) with 512.
  assert (Hp0 : 0 < Z.of_nat (length p)) by (destruct p; simpl; [done|lia]).
  assert (En1 : Z.min (Z.of_nat (length p)) (u32 ((off / 512 + 1) * 512 - off)) = n1).
  { unfold n1. rewrite u32_small by div_lia. f_equal. div_lia. }
  assert (Hn1 : 0 < n1 <= Z.of_nat (length p) /\ off mod 512 + n1 <= 512) by (unfold n1; div_lia).
  rewrite En1. set (l := take (Z.to_nat n1) p). assert (Hl : Z.of_nat (length l) = n1) by (unfold l; rewrite length_take; lia).
  assert (Hq : 0 <= off / 512 < MAXFILE) by (unfold MAXFILE in *; div_lia).
  pose proof (round_cost (blk m) (freeblock m) (sized off din) l V) as Hc. cbn [i_size sized set_i_size] in Hc. rewrite Hl in Hc.
  pose proof (need_mono (off + n1) (off + Z.of_nat (length p)) ltac:(lia)) as Hmono.
  destruct (append_block_run m din off I V Hq) as (m1 & din1 & x & E1 & A1 & P).
  { rewrite <- Z.add_assoc. rewrite Hc by lia. lia. }
  unfold assert_. rewrite (proj2 (Z.ltb_lt _ _)) by lia. rewrite bind_ret. run E1.
  assert (Hm1 : m_len m1 = FSSIZE) by (by rewrite (ak_len _ _ A1)).
  destruct (round_x (blk m) (freeblock m) (sized off din) l V) with (f1 := blk m1) (fb1 := freeblock m1) (ip1 := sized off din1) (x := x)
    as (Hx & _ & _); try done; cbn [i_size sized set_i_size]; try lia.
  pose proof (round_appended (blk m) (freeblock m) (sized off din) l V) as R. specialize (R ltac:(simpl; lia) ltac:(lia) ltac:(simpl; lia) ltac:(lia) Iz _ _ _ _ P).
  cbn [i_size sized set_i_size] in R. rewrite Hl in R. pose proof (ap_fb _ _ _ _ _ _ _ R) as Rf. cbn [i_size sized set_i_size] in Rf.
  assert (Hx1 : 0 <= x < FSSIZE) by (unfold nmeta in Hx; lia).
  pose proof (rsect_run m1 x Hm1 Hx1) as E2. run E2. erewrite bind_done by (by apply wsect_run).
  set (m2 := put x _ m1). rewrite u32_small by (unfold MAXFILE in *; lia).
  assert (R2 : appended (blk m) (freeblock m) (sized off din) l (blk m2) (freeblock m2) (sized (off + n1) din1)).
  { eapply appended_ext; [exact R|]. intros b. unfold m2. rewrite blk_put.
    replace (Z.to_nat (off - off / 512 * 512)) with (Z.to_nat (off mod 512)) by div_lia. done. }
  exists m2, din1. split; [done|]. split; [eapply alike_trans; [exact A1|done]|]. split; [|exact R2].
  split; [done|by rewrite <- Isb, <- (ak_sb _ _ A1)|unfold m2; simpl; pose proof (ap_le _ _ _ _ _ _ _ R2); simpl in *; lia|apply R2|apply R2].
Qed.

Lemma appended_nil f fb ip : file_inv f fb ip -> (forall b, fb <= b -> f b = zeroes) -> (forall b, length (f b) = BSIZE) ->
  appended f fb ip [] f fb ip.
Proof. intros V Hz Hl. split; try done; try (simpl; lia); [intros b; split; [by left|intros [H|H]; [done|lia]]|by rewrite app_nil_r]. Qed.

Lemma iappend_loop fuel : forall m din off p, image m -> file_inv (blk m) (freeblock m) (sized off din) ->
  off + Z.of_nat (length p) <= MAXFILE * 512 -> freeblock m + (need (off + Z.of_nat (length p)) - need off) <= FSSIZE ->
  (span off (Z.of_nat (length p)) < fuel)%nat ->
  exists m' din', iter fuel (iappend_body io) (din, off, p) m e = Done (din', off + Z.of_nat (length p)) m' e
    /\ alike m m' /\ image m'
    /\ appended (blk m) (freeblock m) (sized off din) p (blk m') (freeblock m') (sized (off + Z.of_nat (length p)) din').
Proof.
  induction fuel as [|fuel IH]; intros m din off p I V Hmax Hroom Hf; [lia|]. pose proof I as [Il Isb If Iz Ib].
  pose proof (fv_size _ _ _ V) as Hs. cbn [i_size sized set_i_size] in Hs. cbn [iter].
  destruct (decide (p = [])) as [->|Hp].
  { exists m, din. replace (off + Z.of_nat (length [])) with off by (simpl; lia).
    split; [done|]. split; [done|]. split; [done|]. by apply appended_nil. }
  assert (Hp0 : 0 < Z.of_nat (length p)) by (destruct p; simpl; [done|lia]).
  destruct (iappend_round m din off p I V Hp Hmax Hroom) as (m1 & din1 & E1 & A1 & I1 & R1). run E1.
  pose proof (span_round off (Z.of_nat (length p)) ltac:(lia) Hp0) as Hsp. cbv zeta in Hsp.
  set (n1 := Z.min (Z.of_nat (length p)) (512 - off mod 512)) in *.
  assert (Hn1 : 0 < n1 <= Z.of_nat (length p)) by (unfold n1; div_lia).
  assert (Hd : Z.of_nat (length (drop (Z.to_nat n1) p)) = Z.of_nat (length p) - n1) by (rewrite length_drop; lia).
  pose proof (ap_fb _ _ _ _ _ _ _ R1) as Rf. cbn [i_size sized set_i_size] in Rf.
  destruct (IH m1 din1 (off + n1) (drop (Z.to_nat n1) p) I1 (ap_file _ _ _ _ _ _ _ R1)) as (m2 & din2 & E2 & A2 & I2 & R2); rewrite ?Hd.
  { lia. } { replace (off + n1 + (Z.of_nat (length p) - n1)) with (off + Z.of_nat (length p)) by lia. lia. } { lia. }
  rewrite Hd in *. replace (off + n1 + (Z.of_nat (length p) - n1)) with (off + Z.of_nat (length p)) in * by lia.
  exists m2, din2. split; [done|]. split; [by eapply alike_trans|]. split; [done|].
  rewrite <- (take_drop (Z.to_nat n1) p) at 1. by eapply appended_trans.
Qed.

(** ** The inodes of the image *)

Definition iblock (j : Z) : Z := IBLOCK j mkfs_sb.
Definition disk_inode (f : Z -> list Z) (j : Z) : inode := get_dinode (dinode_off j) (f (iblock j)) zero_inode.

Lemma iblock_range j : 0 <= j < 200 -> 32 <= iblock j < 58 /\ iblock j = j / 8 + 32.
Proof. intros H. unfold iblock, IBLOCK, IPB. simpl. rewrite u32_small by div_lia. div_lia. Qed.

(** An inode read from the disk has the fields of a [struct dinode] only. *)
Definition plain (ip : inode) : Prop :=
  exists t ma mi n s l, ip = mk_inode 0 0 0 zero_sleeplock 0 t ma mi n s l.

Lemma plain_eq ip ip' : plain ip -> plain ip' -> i_type ip = i_type ip' -> i_major ip = i_major ip' ->
  i_minor ip = i_minor ip' -> i_nlink ip = i_nlink ip' -> i_size ip = i_size ip' -> i_addrs ip = i_addrs ip' -> ip = ip'.
Proof. intros (?&?&?&?&?&?&->) (?&?&?&?&?&?&->). simpl. by intros -> -> -> -> -> ->. Qed.

Lemma plain_disk f j : plain (disk_inode f j).
Proof. by repeat eexists. Qed.

Lemma disk_inode_put m j ip j' : image m -> plain ip -> inode_fits ip -> 0 <= j < 200 -> 0 <= j' < 200 ->
  disk_inode (blk (put (iblock j) (put_dinode (dinode_off j) ip (blk m (iblock j))) m)) j'
  = if decide (j' = j) then ip else disk_inode (blk m) j'.
Proof.
  intros I Hp Hf Hj Hj'. unfold disk_inode. rewrite blk_put. pose proof (im_blen _ I (iblock j)) as Hl.
  destruct (put_get_dinode ip zero_inode j (blk m (iblock j)) Hf Hl) as (Hs & _ & Ho).
  pose proof (iblock_range j Hj) as [_ E]. pose proof (iblock_range j' Hj') as [_ E'].
  destruct (decide (j' = j)) as [->|Hne].
  - rewrite decide_True by done. destruct Hs as (H1 & H2 & H3 & H4 & H5 & H6). apply plain_eq; try done. by repeat eexists.
  - destruct (decide (iblock j' = iblock j)) as [Eb|Eb]; [|done]. rewrite Ho, Eb; [done|]. unfold IPB. div_lia.
Qed.

(** A file that fits has addresses that fit. *)
Lemma file_fits f fb ip : file_inv f fb ip -> fb <= FSSIZE -> s16 (i_type ip) = i_type ip -> s16 (i_major ip) = i_major ip ->
  s16 (i_minor ip) = i_minor ip -> s16 (i_nlink ip) = i_nlink ip -> inode_fits ip.
Proof.
  intros V Hfb H1 H2 H3 H4. pose proof (fv_size _ _ _ V) as Hs. unfold MAXFILE, FSSIZE in *.
  split; try done; [apply u32_small; lia|apply V|]. apply Forall_lookup. intros n x Hx. apply u32_small.
  pose proof (lookup_lt_Some _ _ _ Hx) as Hn. rewrite (fv_addrs _ _ _ V) in Hn.
  assert (E : fptr f ip (slot_ptr n) = x) by (rewrite fptr_slot by lia; unfold addr; by rewrite Hx).
  destruct (decide (x = 0)) as [->|Hx0]; [lia|].
  assert (nmeta <= x < fb) as Hr; [|unfold nmeta in Hr; lia]. apply (owns_range f fb ip x V). exists (slot_ptr n).
  split; [|done]. unfold slot_ptr, NDIRECT, MAXFILE in *. case_decide; lia.
Qed.

Lemma winode_run m j ip : image m -> 0 <= j < 200 ->
  winode io j ip m e = Done tt (put (iblock j) (put_dinode (dinode_off j) ip (blk m (iblock j))) m) e.
Proof.
  intros I Hj. unfold winode. rewrite bind_gets, (im_sb _ I). fold (iblock j). destruct (iblock_range j Hj) as [Hb _].
  pose proof (rsect_run m (iblock j) (im_len _ I) ltac:(unfold FSSIZE; lia)) as E. run E.
  apply wsect_run; [apply I|unfold FSSIZE; lia].
Qed.

Lemma rinode_run m j : image m -> 0 <= j < 200 -> rinode io j m e = Done (disk_inode (blk m) j) m e.
Proof.
  intros I Hj. unfold rinode. rewrite bind_gets, (im_sb _ I). fold (iblock j). destruct (iblock_range j Hj) as [Hb _].
  pose proof (rsect_run m (iblock j) (im_len _ I) ltac:(unfold FSSIZE; lia)) as E. by run E.
Qed.

(** ** The image as a list of files *)

(** The blocks of all files. *)
Definition total (A : list (Z * list Z)) : Z := foldr (fun tc n => need (Z.of_nat (length tc.2)) + n) 0 A.

(** The image holds the files [A], a type and the contents for each inode from 1 on. *)
Record table (m : mkfs) (A : list (Z * list Z)) : Prop := {
  tb_image : image m;
  tb_next : freeinode m = 1 + Z.of_nat (length A);
  tb_max : Z.of_nat (length A) < 200;
  tb_file : forall j t c, A !! j = Some (t, c) -> let ip := disk_inode (blk m) (1 + Z.of_nat j) in
    file_inv (blk m) (freeblock m) ip /\ i_type ip = t /\ i_major ip = 0 /\ i_minor ip = 0 /\ i_nlink ip = 1
    /\ i_size ip = Z.of_nat (length c) /\ contents (blk m) ip = c;
  tb_apart : forall j j' b, (j < length A)%nat -> (j' < length A)%nat ->
    owns (blk m) (disk_inode (blk m) (1 + Z.of_nat j)) b -> owns (blk m) (disk_inode (blk m) (1 + Z.of_nat j')) b -> j = j';
  tb_free : freeblock m = nmeta + total A;
  tb_cover : forall b, nmeta <= b < freeblock m -> exists j, (j < length A)%nat /\ owns (blk m) (disk_inode (blk m) (1 + Z.of_nat j)) b;
  tb_spare : forall j, 0 <= j < 200 -> j = 0 \/ Z.of_nat (length A) < j -> i_type (disk_inode (blk m) j) = 0
}.

Lemma total_app A B : total (A ++ B) = total A + total B.
Proof. induction A as [|x A IH]; [done|]. unfold total in *. simpl. rewrite IH. lia. Qed.

Lemma total_insert A j t c t' c' : A !! j = Some (t, c) ->
  total (<[j := (t', c')]> A) = total A + (need (Z.of_nat (length c')) - need (Z.of_nat (length c))).
Proof.
  revert j. induction A as [|x A IH]; intros [|j] E; try done.
  - simpl in E. simplify_eq. unfold total. simpl. lia.
  - simpl in E. specialize (IH j E). unfold total in *. simpl. lia.
Qed.

Lemma sized_id ip : sized (i_size ip) ip = ip.
Proof. by destruct ip. Qed.

Lemma plain_like ip ip' : plain ip -> set_i_size 0 (set_i_addrs [] ip') = set_i_size 0 (set_i_addrs [] ip) ->
  plain ip' /\ i_type ip' = i_type ip /\ i_major ip' = i_major ip /\ i_minor ip' = i_minor ip /\ i_nlink ip' = i_nlink ip.
Proof.
  intros (?&?&?&?&?&?&->). destruct ip'. unfold set_i_size, set_i_addrs. simpl. intros [=]. subst. split; [by repeat eexists|done].
Qed.

(** The sectors that hold neither files nor inodes. *)
Definition fixed (m m' : mkfs) : Prop := forall b, b < 32 \/ b = 58 -> blk m' b = blk m b.

(** An inode written to its block leaves the image in order. *)
Lemma image_put m j ip : image m -> 0 <= j < 200 -> image (put (iblock j) (put_dinode (dinode_off j) ip (blk m (iblock j))) m).
Proof.
  intros [J1 J2 J3 J4 J5] Hj. destruct (iblock_range j Hj) as [Hb _]. split; try done.
  - intros b Hb'. rewrite blk_put, decide_False; [by apply J4|]. simpl in Hb'. unfold nmeta in *. lia.
  - intros b. rewrite blk_put. case_decide; [by rewrite length_put_dinode|done].
Qed.

(** A file of the table when another one has been changed. *)
Lemma table_other m A j j' t c m' fb' : table m A -> A !! j' = Some (t, c) -> (j < length A)%nat -> j' <> j ->
  freeblock m <= fb' -> (forall b, b < freeblock m -> ~ owns (blk m) (disk_inode (blk m) (1 + Z.of_nat j)) b ->
    b <> iblock (1 + Z.of_nat j) -> blk m' b = blk m b) ->
  disk_inode (blk m') (1 + Z.of_nat j') = disk_inode (blk m) (1 + Z.of_nat j') ->
  let ip := disk_inode (blk m') (1 + Z.of_nat j') in
  (file_inv (blk m') fb' ip /\ contents (blk m') ip = c) /\ forall b, owns (blk m') ip b <-> owns (blk m) ip b.
Proof.
  intros T Hj' Hj Hne Hfb Hk Ei ip. unfold ip. rewrite Ei. destruct (tb_file _ _ T j' t c Hj') as (V & _ & _ & _ & _ & _ & Hc).
  pose proof (tb_max _ _ T). pose proof (lookup_lt_Some _ _ _ Hj') as Hl.
  destruct (file_keep (blk m) (blk m') (freeblock m) fb' _ V Hfb) as (V' & Hc' & Ho).
  - intros b Hb. pose proof (owns_range _ _ _ _ V Hb) as Hr. apply Hk; [lia| |].
    + intros Ho. apply Hne. by apply (tb_apart _ _ T j' j b).
    + destruct (iblock_range (1 + Z.of_nat j)); [lia|]. unfold nmeta in Hr. lia.
  - split; [|done]. split; [done|]. congruence.
Qed.

(** The file after [iappend] has written its inode. *)
Lemma table_this m m1 j din p fb : image m1 -> 0 <= j < 200 -> plain din -> s16 (i_type din) = i_type din -> i_major din = 0 ->
  i_minor din = 0 -> i_nlink din = 1 -> fb <= freeblock m1 -> forall din', appended (blk m) fb din p (blk m1) (freeblock m1) din' ->
  let m2 := put (iblock j) (put_dinode (dinode_off j) din' (blk m1 (iblock j))) m1 in
  (forall j', 0 <= j' < 200 -> disk_inode (blk m2) j' = if decide (j' = j) then din' else disk_inode (blk m1) j')
  /\ file_inv (blk m2) (freeblock m2) din' /\ contents (blk m2) din' = contents (blk m) din ++ p
  /\ (forall b, owns (blk m2) din' b <-> owns (blk m) din b \/ fb <= b < freeblock m2) /\ image m2.
Proof.
  intros I1 Hj Hp Ht Hma Hmi Hn Hfb din' R m2. destruct (plain_like din din' Hp (ap_fields _ _ _ _ _ _ _ R)) as (Hp' & E1 & E2 & E3 & E4).
  pose proof (ap_file _ _ _ _ _ _ _ R) as V. destruct (iblock_range j Hj) as [Hb _].
  assert (Hfits : inode_fits din').
  { eapply file_fits; [exact V|apply I1|congruence|rewrite E2, Hma; done|rewrite E3, Hmi; done|rewrite E4, Hn; done]. }
  assert (Hk : forall b, b <> iblock j -> blk m2 b = blk m1 b) by (intros b Hb'; unfold m2; rewrite blk_put; by rewrite decide_False).
  assert (Hm : forall b, nmeta <= b -> blk m2 b = blk m1 b) by (intros b Hb'; apply Hk; unfold nmeta in *; lia).
  destruct (file_keep (blk m1) (blk m2) (freeblock m1) (freeblock m2) din' V) as (V' & Hc & Ho); [done| |].
  { intros b Hb'. apply Hm. apply (owns_range _ _ _ _ V Hb'). }
  split; [intros j' Hj'; by apply disk_inode_put|]. split; [done|]. split; [by rewrite Hc, (ap_bytes _ _ _ _ _ _ _ R)|].
  split; [intros b; rewrite Ho; apply (ap_owns _ _ _ _ _ _ _ R)|].
  by apply image_put.
Qed.

(** The list of files with one of them replaced. *)
Lemma table_update m A j t c c' m2 din2 : table m A -> A !! j = Some (t, c) -> let J := 1 + Z.of_nat j in
  image m2 -> freeinode m2 = freeinode m -> freeblock m <= freeblock m2 ->
  freeblock m2 = freeblock m + (need (Z.of_nat (length c')) - need (Z.of_nat (length c))) ->
  (forall j', 0 <= j' < 200 -> disk_inode (blk m2) j' = if decide (j' = J) then din2 else disk_inode (blk m) j') ->
  file_inv (blk m2) (freeblock m2) din2 /\ i_type din2 = t /\ i_major din2 = 0 /\ i_minor din2 = 0 /\ i_nlink din2 = 1
    /\ i_size din2 = Z.of_nat (length c') /\ contents (blk m2) din2 = c' ->
  (forall b, owns (blk m2) din2 b <-> owns (blk m) (disk_inode (blk m) J) b \/ freeblock m <= b < freeblock m2) ->
  (forall b, b < freeblock m -> ~ owns (blk m) (disk_inode (blk m) J) b -> b <> iblock J -> blk m2 b = blk m b) ->
  table m2 (<[j := (t, c')]> A).
Proof.
  intros T Hj J I2 En Hle Hfb Hd Hthis Hown Hk. pose proof (lookup_lt_Some _ _ _ Hj) as Hjl. pose proof (tb_max _ _ T) as HA.
  assert (Hoth : forall j' t' c', A !! j' = Some (t', c') -> j' <> j -> let ip := disk_inode (blk m2) (1 + Z.of_nat j') in
    ip = disk_inode (blk m) (1 + Z.of_nat j') /\ (file_inv (blk m2) (freeblock m2) ip /\ contents (blk m2) ip = c')
    /\ forall b, owns (blk m2) ip b <-> owns (blk m) ip b).
  { intros j' t' c1 Hj' Hne ip. pose proof (lookup_lt_Some _ _ _ Hj') as Hjl'.
    assert (Ei : ip = disk_inode (blk m) (1 + Z.of_nat j')) by (unfold ip; rewrite Hd by lia; by rewrite decide_False by lia).
    split; [done|]. by apply (table_other m A j j' t' c1 m2). }
  assert (Eown : forall j' b, (j' < length A)%nat -> j' <> j -> owns (blk m2) (disk_inode (blk m2) (1 + Z.of_nat j')) b ->
    owns (blk m) (disk_inode (blk m) (1 + Z.of_nat j')) b /\ b < freeblock m).
  { intros j' b Hl Hne Ho. destruct (lookup_lt_is_Some_2 A j' Hl) as [[t1 c1] Hj']. destruct (Hoth j' t1 c1 Hj' Hne) as (Ei & _ & Hb).
    apply Hb in Ho. rewrite Ei in Ho. split; [done|]. destruct (tb_file _ _ T j' t1 c1 Hj') as [V _]. apply (owns_range _ _ _ _ V Ho). }
  assert (Hj1 : disk_inode (blk m2) (1 + Z.of_nat j) = din2) by (rewrite Hd by lia; by rewrite decide_True).
  split; rewrite ?length_insert; try done; [rewrite En; apply T| | |rewrite (total_insert _ _ _ _ _ _ Hj); pose proof (tb_free _ _ T); lia| |].
  - intros j' t1 c1 Hj'. destruct (decide (j' = j)) as [->|Hne].
    + rewrite list_lookup_insert_eq in Hj' by done. simplify_eq. rewrite Hd by lia. by rewrite decide_True by done.
    + rewrite list_lookup_insert_ne in Hj' by done. destruct (Hoth j' t1 c1 Hj' Hne) as (Ei & (H1 & H2) & _).
      destruct (tb_file _ _ T j' t1 c1 Hj') as (_ & H3). rewrite <- Ei in H3. split; [done|]. naive_solver.
  - intros j1 j2 b Hl1 Hl2 Ho1 Ho2. destruct (decide (j1 = j)) as [->|H1], (decide (j2 = j)) as [->|H2]; [done| | |].
    + rewrite Hj1 in Ho1. destruct (Eown j2 b Hl2 H2 Ho2) as [Ho Hb]. apply Hown in Ho1 as [Ho1|Ho1]; [by apply (tb_apart _ _ T j j2 b)|lia].
    + rewrite Hj1 in Ho2. destruct (Eown j1 b Hl1 H1 Ho1) as [Ho Hb]. apply Hown in Ho2 as [Ho2|Ho2]; [by apply (tb_apart _ _ T j1 j b)|lia].
    + apply (tb_apart _ _ T j1 j2 b); try done; [by apply Eown|by apply Eown].
  - intros b Hb. destruct (decide (freeblock m <= b)).
    { exists j. split; [done|]. rewrite Hj1, Hown. right. lia. }
    destruct (tb_cover _ _ T b) as (j' & Hl & Ho); [lia|]. exists j'. split; [done|]. destruct (decide (j' = j)) as [->|Hne].
    { rewrite Hj1, Hown. by left. }
    destruct (lookup_lt_is_Some_2 A j' Hl) as [[t1 c1] Hj']. destruct (Hoth j' t1 c1 Hj' Hne) as (Ei & _ & Hb'). apply Hb'. by rewrite Ei.
  - intros j' Hj' Hsp. rewrite Hd, decide_False by lia. apply (tb_spare _ _ T); lia.
Qed.

(** [iappend] appends to a file of the list. *)
Lemma iappend_table m A j t c p : table m A -> A !! j = Some (t, c) -> s16 t = t ->
  Z.of_nat (length (c ++ p)) <= MAXFILE * 512 -> nmeta + total (<[j := (t, c ++ p)]> A) <= FSSIZE ->
  exists m', iappend io (1 + Z.of_nat j) p m e = Done tt m' e /\ table m' (<[j := (t, c ++ p)]> A) /\ fixed m m'.
Proof.
  intros T Hj Ht Hmax Hroom. pose proof (tb_image _ _ T) as I. pose proof (lookup_lt_Some _ _ _ Hj) as Hjl.
  pose proof (tb_max _ _ T) as HA. set (J := 1 + Z.of_nat j). assert (HJ : 0 <= J < 200) by lia.
  destruct (tb_file _ _ T j t c Hj) as (V & Et & Ema & Emi & En & Es & Ec). fold J in V, Et, Ema, Emi, En, Es, Ec.
  set (din := disk_inode (blk m) J) in *. rewrite length_app in Hmax. rewrite (total_insert _ _ _ _ _ _ Hj), length_app in Hroom.
  assert (Ea : Z.of_nat (length c + length p) = i_size din + Z.of_nat (length p)) by lia. rewrite Ea in Hmax, Hroom. rewrite <- Es in Hroom.
  pose proof (tb_free _ _ T) as Hfree. pose proof (rinode_run m J I HJ) as E1.
  destruct (iappend_loop (length p / BSIZE + 3) m din (i_size din) p I) as (m1 & din1 & E2 & A1 & I1 & R);
    [by rewrite sized_id|lia|lia| |].
  { pose proof (span_le (i_size din) (Z.of_nat (length p)) ltac:(lia) ltac:(lia)) as Hsp. unfold BSIZE.
    rewrite <- (Nat2Z.id (length p / 512)), Nat2Z.inj_div. change (Z.of_nat 512) with 512. lia. }
  rewrite sized_id in R. set (din2 := sized (i_size din + Z.of_nat (length p)) din1) in *.
  pose proof (ap_le _ _ _ _ _ _ _ R) as Hle. pose proof (im_free _ I) as Hfr.
  destruct (table_this m m1 J din p (freeblock m) I1 HJ (plain_disk _ _) ltac:(congruence) Ema Emi En Hle din2 R) as (D2 & V2 & C2 & O2 & I2).
  set (m2 := put (iblock J) (put_dinode (dinode_off J) din2 (blk m1 (iblock J))) m1) in *.
  destruct (plain_like din din2 (plain_disk _ _) (ap_fields _ _ _ _ _ _ _ R)) as (_ & F1 & F2 & F3 & F4).
  assert (Hk : forall b, b < freeblock m -> ~ owns (blk m) din b -> b <> iblock J -> blk m2 b = blk m b).
  { intros b Hb Ho Hb'. unfold m2. rewrite blk_put, decide_False by done. by apply (ap_frame _ _ _ _ _ _ _ R). }
  assert (Hno : forall b, b < nmeta -> ~ owns (blk m) din b) by (intros b Hb Ho; pose proof (owns_range _ _ _ _ V Ho); lia).
  assert (Hmeta : forall b, b < nmeta -> blk m1 b = blk m b) by (intros b Hb; apply (ap_frame _ _ _ _ _ _ _ R); [lia|by apply Hno]).
  assert (Hd : forall j', 0 <= j' < 200 -> j' <> J -> disk_inode (blk m2) j' = disk_inode (blk m) j').
  { intros j' Hj' Hne. rewrite D2, decide_False by done. unfold disk_inode. rewrite Hmeta; [done|].
    destruct (iblock_range j' Hj'). unfold nmeta. lia. }
  exists m2. split; [|split].
  - unfold iappend. run E1. fold din. rewrite xint_small by (unfold MAXFILE in *; lia). run E2.
    rewrite xint_small by (unfold MAXFILE in *; lia). by apply winode_run.
  - apply (table_update m A j t c (c ++ p) m2 din2); fold J din; try done; rewrite ?length_app.
    + apply A1.
    + rewrite Ea, <- Es. apply (ap_fb _ _ _ _ _ _ _ R).
    + intros j' Hj'. destruct (decide (j' = J)) as [->|Hne]; [rewrite D2 by done; by rewrite decide_True|by apply Hd].
    + rewrite C2, F1, F2, F3, F4, Ec. split_and!; try done.
  - intros b Hb. unfold m2. destruct (iblock_range J HJ). rewrite blk_put, decide_False by lia. apply Hmeta. unfold nmeta. lia.
Qed.

(** A new inode. *)
Definition new_inode (t : Z) : inode := set_i_nlink 1 (set_i_type t zero_inode).

Lemma new_inode_ptr f t n : 0 <= n <= MAXFILE -> fptr f (new_inode t) n = 0.
Proof.
  intros Hn. unfold fptr. change (addr (new_inode t)) with (addr zero_inode).
  destruct (Z.ltb_spec n 12) as [H|H]; [|by destruct (n =? MAXFILE)]. unfold addr.
  change (i_addrs zero_inode) with (replicate 13 0). by rewrite lookup_replicate_2 by lia.
Qed.

Lemma new_inode_file f fb t : file_inv f fb (new_inode t) /\ contents f (new_inode t) = [] /\ forall b, ~ owns f (new_inode t) b.
Proof.
  split; [|split; [done|]].
  - split; simpl; try done; try lia.
    + intros n Hn _. by rewrite new_inode_ptr by lia.
    + intros n m Hn Hm _ H. by rewrite new_inode_ptr in H.
    + intros x Hx. change ((0 + 511) / 512 * 512) with 0 in Hx. lia.
  - intros b (n & Hn & E & Hb). by rewrite new_inode_ptr in E.
Qed.

(** The list of files with a new one. *)
Lemma table_new m A t m2 : table m A -> Z.of_nat (length A) + 1 < 200 -> let J := 1 + Z.of_nat (length A) in
  image m2 -> freeinode m2 = J + 1 -> freeblock m2 = freeblock m -> (forall b, b <> iblock J -> blk m2 b = blk m b) ->
  (forall j, 0 <= j < 200 -> disk_inode (blk m2) j = if decide (j = J) then new_inode t else disk_inode (blk m) j) ->
  table m2 (A ++ [(t, [])]).
Proof.
  intros T HA J I2 Efi Efb Hk Hd. destruct (iblock_range J) as [Hb _]; [lia|].
  assert (Hold : forall j c t', A !! j = Some (t', c) -> let ip := disk_inode (blk m) (1 + Z.of_nat j) in
    disk_inode (blk m2) (1 + Z.of_nat j) = ip /\ file_inv (blk m2) (freeblock m2) ip /\ contents (blk m2) ip = contents (blk m) ip
    /\ forall b, owns (blk m2) ip b <-> owns (blk m) ip b).
  { intros j c t' Hj ip. pose proof (lookup_lt_Some _ _ _ Hj). split; [rewrite Hd by lia; by rewrite decide_False by lia|].
    destruct (tb_file _ _ T j t' c Hj) as [V _]. apply (file_keep (blk m) (blk m2) (freeblock m)); [exact V|lia|].
    intros b Ho. apply Hk. pose proof (owns_range _ _ _ _ V Ho). unfold nmeta in *. lia. }
  destruct (new_inode_file (blk m2) (freeblock m2) t) as (N1 & N2 & N3).
  assert (Hnew : disk_inode (blk m2) (1 + Z.of_nat (length A)) = new_inode t) by (rewrite Hd by lia; by rewrite decide_True).
  split; rewrite ?length_app; cbn [length]; try done; [lia|lia| | | | |].
  - intros j t' c Hj. apply lookup_app_Some in Hj as [Hj|[Hl Hj]].
    + destruct (Hold j c t' Hj) as (Ei & H1 & H2 & _). destruct (tb_file _ _ T j t' c Hj) as (_ & H3). rewrite Ei, H2. split; [exact H1|exact H3].
    + destruct (j - length A)%nat as [|x] eqn:Ej; [|done]. simpl in Hj. simplify_eq. replace j with (length A) by lia. rewrite Hnew. done.
  - intros j1 j2 b Hl1 Hl2 Ho1 Ho2.
    assert (Hin : forall j, (j < length A + 1)%nat -> owns (blk m2) (disk_inode (blk m2) (1 + Z.of_nat j)) b ->
      (j < length A)%nat /\ owns (blk m) (disk_inode (blk m) (1 + Z.of_nat j)) b).
    { intros j Hl Ho. destruct (decide (j = length A)) as [->|Hne]; [rewrite Hnew in Ho; by apply N3 in Ho|].
      destruct (lookup_lt_is_Some_2 A j) as [[t' c'] Hj]; [lia|]. destruct (Hold j c' t' Hj) as (Ei & _ & _ & Hb'). rewrite Ei in Ho.
      split; [lia|]. by apply Hb'. }
    destruct (Hin j1 Hl1 Ho1), (Hin j2 Hl2 Ho2). by apply (tb_apart _ _ T j1 j2 b).
  - rewrite total_app, Efb. change (total [(t, [])]) with 0. rewrite (tb_free _ _ T). lia.
  - intros b Hb'. destruct (tb_cover _ _ T b) as (j & Hl & Ho); [lia|]. exists j. split; [lia|].
    destruct (lookup_lt_is_Some_2 A j Hl) as [[t' c'] Hj]. destruct (Hold j c' t' Hj) as (Ei & _ & _ & Hown). rewrite Ei. by apply Hown.
  - intros j Hj Hsp. rewrite Hd, decide_False by lia. apply (tb_spare _ _ T); lia.
Qed.

Lemma ialloc_table m A t : table m A -> Z.of_nat (length A) + 1 < 200 -> 0 <= t < 2 ^ 15 ->
  exists m', ialloc io t m e = Done (1 + Z.of_nat (length A)) m' e /\ table m' (A ++ [(t, [])]) /\ fixed m m'.
Proof.
  intros T HA Ht. pose proof (tb_image _ _ T) as I. set (J := 1 + Z.of_nat (length A)). assert (HJ : 0 <= J < 200) by lia.
  set (m1 := set_freeinode (J + 1) m). assert (I1 : image m1) by (by destruct I).
  set (m2 := put (iblock J) (put_dinode (dinode_off J) (new_inode t) (blk m1 (iblock J))) m1).
  assert (Es : s16 t = t) by (unfold s16, u16; rewrite Z.mod_small by lia; case_match; lia).
  assert (E : ialloc io t m e = Done J m2 e).
  { unfold ialloc. rewrite bind_gets, (tb_next _ _ T). fold J. rewrite bind_modify, u32_small by lia. fold m1.
    rewrite !xshort_small by lia. change (xint 0) with 0. rewrite Es. pose proof (winode_run m1 J (new_inode t) I1 HJ) as E. by run E. }
  assert (Hfits : inode_fits (new_inode t)) by (split; [done..|repeat constructor]).
  assert (Hk : forall b, b <> iblock J -> blk m2 b = blk m b) by (intros b Hne; unfold m2; rewrite blk_put; by rewrite decide_False).
  destruct (iblock_range J HJ) as [Hb _]. exists m2. split; [done|]. split; [|intros b Hb'; apply Hk; lia].
  apply (table_new m A t m2); try done; [by apply image_put|]. intros j' Hj'. apply (disk_inode_put m1); try done. by repeat eexists.
Qed.

(** ** [main] *)

Lemma fixed_trans m1 m2 m3 : fixed m1 m2 -> fixed m2 m3 -> fixed m1 m3.
Proof. intros H1 H2 b Hb. rewrite H2, H1; done. Qed.

Lemma need_nonneg a : 0 <= a -> 0 <= need a.
Proof. intros H. unfold need. destruct (12 * 512 <? a); div_lia. Qed.

(** Longer files need more blocks. *)
Lemma total_le A : forall B, (forall j t c, A !! j = Some (t, c) -> exists t' c', B !! j = Some (t', c') /\ (length c <= length c')%nat) ->
  total A <= total B.
Proof.
  induction A as [|[t c] A IH]; intros B H.
  { clear. induction B as [|x B IH]; [done|]. unfold total in *. simpl in *. pose proof (need_nonneg (Z.of_nat (length x.2))). lia. }
  destruct (H 0%nat t c eq_refl) as (t' & c' & E & Hl). destruct B as [|b B]; [done|]. simpl in E. simplify_eq. unfold total in *. simpl.
  pose proof (need_mono (Z.of_nat (length c)) (Z.of_nat (length c')) ltac:(lia)).
  assert (Hb : total A <= total B); [|unfold total in Hb; lia].
  apply IH. intros j t1 c1 Hj. exact (H (S j) t1 c1 Hj).
Qed.

Lemma insert_app_total A j t c p q : A !! j = Some (t, c) ->
  total (<[j := (t, c ++ p)]> A) <= total (<[j := (t, c ++ p ++ q)]> A).
Proof.
  intros Hj. rewrite !(total_insert _ _ _ _ _ _ Hj). apply Zplus_le_compat_l, Z.sub_le_mono_r, need_mono. rewrite !length_app. lia.
Qed.

(** The loop over the pieces of a file. *)
Lemma append_all ps : forall m A j t c, table m A -> A !! j = Some (t, c) -> s16 t = t ->
  Z.of_nat (length (c ++ mjoin ps)) <= MAXFILE * 512 -> nmeta + total (<[j := (t, c ++ mjoin ps)]> A) <= FSSIZE ->
  exists m', for_each (iappend io (1 + Z.of_nat j)) ps m e = Done tt m' e /\ table m' (<[j := (t, c ++ mjoin ps)]> A) /\ fixed m m'.
Proof.
  induction ps as [|p ps IH]; intros m A j t c T Hj Ht Hl Hr.
  { exists m. split; [done|]. simpl. rewrite app_nil_r, list_insert_id by done. done. }
  change (mjoin (p :: ps)) with (p ++ mjoin ps) in *. cbn [for_each]. pose proof (insert_app_total A j t c p (mjoin ps) Hj) as Hle. rewrite length_app in Hl.
  destruct (iappend_table m A j t c p T Hj Ht) as (m1 & E1 & T1 & F1).
  { rewrite length_app in Hl |- *. lia. } { lia. }
  run E1. destruct (IH m1 (<[j := (t, c ++ p)]> A) j t (c ++ p) T1) as (m2 & E2 & T2 & F2); try done.
  - apply list_lookup_insert_eq. by eapply lookup_lt_Some.
  - rewrite <- app_assoc, length_app. done.
  - rewrite list_insert_insert_eq, <- app_assoc. done.
  - exists m2. split; [done|]. rewrite list_insert_insert_eq, <- app_assoc in T2. split; [done|by eapply fixed_trans].
Qed.

(** The name of a file in the root directory. *)
Definition stored_name (f : host_file) : list Z :=
  match hf_name f with c :: rest => if c =? underscore then rest else hf_name f | [] => [] end.

(** The entries of the root directory. *)
Definition root_entries (names : list (list Z)) : list Z :=
  dirent_bytes 1 [dot] ++ dirent_bytes 1 [dot; dot] ++ mjoin (imap (fun i name => dirent_bytes (2 + Z.of_nat i) name) names).

(** The files of the image: the root directory and the files of the command line. *)
Definition mkfs_files (files : list host_file) : list (Z * list Z) :=
  (T_DIR, root_entries (stored_name <$> files)) :: ((fun f => (T_FILE, mjoin (hf_reads f))) <$> files).

Lemma root_entries_app names name :
  root_entries (names ++ [name]) = root_entries names ++ dirent_bytes (2 + Z.of_nat (length names)) name.
Proof.
  unfold root_entries. rewrite imap_app, join_app, !app_assoc. do 2 f_equal. simpl. rewrite app_nil_r, Nat.add_0_r. done.
Qed.

Lemma length_dirent inum name : length (dirent_bytes inum name) = 16%nat.
Proof. unfold dirent_bytes, strncpy_list, DIRSIZ. rewrite length_app, length_take, length_app, length_replicate, length_le_bytes. lia. Qed.

Lemma length_root names : length (root_entries names) = (16 * (2 + length names))%nat.
Proof.
  induction names as [|n names IH] using rev_ind.
  - unfold root_entries. rewrite !length_app, !length_dirent. done.
  - rewrite root_entries_app, !length_app, IH, length_dirent. simpl. lia.
Qed.

(** What [mkfs] needs of its command line: files it can open with names without a slash, that fit a file
    each, the inodes and the blocks of the image together. *)
Record fits (files : list host_file) : Prop := {
  ft_name : Forall (fun f => slash ∉ hf_name f) files;
  ft_open : Forall (fun f => hf_open f = true) files;
  ft_file : Forall (fun f => Z.of_nat (length (mjoin (hf_reads f))) <= MAXFILE * 512) files;
  ft_inodes : Z.of_nat (length files) < 199;
  ft_blocks : nmeta + total (mkfs_files files) <= FSSIZE
}.

Lemma mkfs_files_app_le files files' : total (mkfs_files files) <= total (mkfs_files (files ++ files')).
Proof.
  apply total_le. intros [|j] t c E; simpl in *.
  - simplify_eq. do 2 eexists. split; [done|]. rewrite !length_root, fmap_app, length_app. lia.
  - exists t, c. split; [|done]. rewrite fmap_app. by apply lookup_app_l_Some.
Qed.

Lemma fits_app_l files files' : fits (files ++ files') -> fits files.
Proof.
  intros [H1 H2 H3 H4 H5]. pose proof (mkfs_files_app_le files files'). rewrite length_app in H4.
  apply Forall_app in H1 as [H1 _], H2 as [H2 _], H3 as [H3 _]. split; try done; lia.
Qed.

Lemma mkfs_files_snoc files f : mkfs_files (files ++ [f]) =
  <[0%nat := (T_DIR, root_entries (stored_name <$> files) ++ dirent_bytes (2 + Z.of_nat (length files)) (stored_name f))]>
    (<[S (length files) := (T_FILE, [] ++ mjoin (hf_reads f))]> (mkfs_files files ++ [(T_FILE, [])])).
Proof.
  unfold mkfs_files. rewrite !fmap_app. simpl. rewrite root_entries_app, length_fmap. do 2 f_equal.
  rewrite insert_app_r_alt by (rewrite length_fmap; lia). rewrite length_fmap, Nat.sub_diag. reflexivity.
Qed.

Lemma add_file_table m files f : table m (mkfs_files files) -> fits (files ++ [f]) ->
  exists m', add_file io 1 f m e = Done tt m' e /\ table m' (mkfs_files (files ++ [f])) /\ fixed m m'.
Proof.
  intros T [Hn Ho Hf Hi Hb]. apply Forall_app in Hn as [_ Hn], Ho as [_ Ho], Hf as [_ Hf]. rewrite Forall_singleton in Hn, Ho, Hf.
  rewrite length_app in Hi. simpl in Hi. unfold add_file, assert_. rewrite (bool_decide_true _ Hn), bind_ret, Ho. change (negb true) with false. cbv iota.
  assert (Hl : length (mkfs_files files) = S (length files)) by (unfold mkfs_files; simpl; by rewrite length_fmap).
  destruct (ialloc_table m (mkfs_files files) T_FILE T) as (m1 & E1 & T1 & F1); [rewrite Hl; lia|vm_compute; split; congruence|]. run E1. clear E1.
  rewrite Hl. replace (1 + Z.of_nat (S (length files))) with (2 + Z.of_nat (length files)) by lia. rewrite xshort_small by lia.
  fold (stored_name f). rewrite mkfs_files_snoc in Hb |- *. set (R := root_entries _) in *. set (d := dirent_bytes _ _) in *.
  rewrite list_insert_insert_ne in Hb |- * by done. set (A := mkfs_files files ++ _) in *.
  assert (HA : A !! 0%nat = Some (T_DIR, R)) by done.
  assert (HS : (<[0%nat := (T_DIR, R ++ d)]> A) !! S (length files) = Some (T_FILE, [])).
  { rewrite list_lookup_insert_ne by done. unfold A. rewrite lookup_app_r by lia. by rewrite Hl, Nat.sub_diag. }
  destruct (iappend_table m1 A 0 T_DIR R d T1 HA eq_refl) as (m2 & E2 & T2 & F2).
  { unfold R, d. rewrite length_app, length_root, length_dirent, length_fmap. change MAXFILE with 140. lia. }
  { etransitivity; [|exact Hb]. rewrite (total_insert _ _ _ _ _ _ HS). pose proof (need_nonneg (Z.of_nat (length ([] ++ mjoin (hf_reads f))))).
    change (need (Z.of_nat (length []))) with 0. lia. }
  change (1 + Z.of_nat 0) with 1 in E2. run E2.
  destruct (append_all (hf_reads f) m2 _ _ _ _ T2 HS eq_refl Hf Hb) as (m3 & E3 & T3 & F3).
  exists m3. replace (2 + Z.of_nat (length files)) with (1 + Z.of_nat (S (length files))) by lia.
  split; [done|]. split; [done|]. by eapply fixed_trans; [|eapply fixed_trans].
Qed.

Lemma add_files_table rest : forall m files, table m (mkfs_files files) -> fits (files ++ rest) ->
  exists m', for_each (add_file io 1) rest m e = Done tt m' e /\ table m' (mkfs_files (files ++ rest)) /\ fixed m m'.
Proof.
  induction rest as [|f rest IH]; intros m files T F.
  { exists m. rewrite app_nil_r. split; [done|]. split; [done|]. intros b Hb. done. }
  rewrite cons_middle, app_assoc in F |- *. cbn [for_each].
  destruct (add_file_table m files f T (fits_app_l _ _ F)) as (m1 & E1 & T1 & F1). run E1.
  destruct (IH m1 (files ++ [f]) T1 F) as (m2 & E2 & T2 & F2). exists m2. split; [done|]. split; [done|by eapply fixed_trans].
Qed.

(** ** The free map *)

Lemma mark_bits_spec n buf : length buf = BSIZE -> (Z.of_nat n <= BPB) ->
  length (mark_bits (Z.of_nat n) buf) = BSIZE
  /\ forall b, 0 <= b -> bit (mark_bits (Z.of_nat n) buf) b = bool_decide (b < Z.of_nat n) || bit buf b.
Proof.
  intros Hl. induction n as [|n IH]; intros Hn.
  { split; [done|]. intros b Hb. by rewrite bool_decide_false by lia. }
  destruct IH as [Hl' IH]; [lia|]. unfold mark_bits. rewrite seqZ_S, foldl_app. fold (mark_bits (Z.of_nat n) buf). simpl foldl.
  change (set_byte _ _ ?d) with (set_bit (0 + Z.of_nat n) d). split; [by unfold set_bit; rewrite length_set_byte|].
  intros b Hb. rewrite bit_set_bit by (done || lia). destruct (decide (b = 0 + Z.of_nat n)) as [->|Hne].
  - by rewrite bool_decide_true by lia.
  - rewrite IH by done. f_equal. apply bool_decide_ext. lia.
Qed.

Lemma bit_zeroes b : bit zeroes b = false.
Proof.
  unfold bit, byte_at, zeroes. destruct (replicate BSIZE 0 !! Z.to_nat (b / 8)) eqn:E; [|done].
  apply lookup_replicate in E as [-> _]. done.
Qed.

(** ** The empty image *)

Lemma zero_loop n : forall i m, 0 <= i -> i + Z.of_nat n <= FSSIZE -> m_len m = i -> (forall b, blk m b = zeroes) ->
  exists m', for_each (fun i => wsect io i zeroes) (seqZ i (Z.of_nat n)) m e = Done tt m' e
    /\ m_len m' = i + Z.of_nat n /\ (forall b, blk m' b = zeroes)
    /\ m_sb m' = m_sb m /\ freeinode m' = freeinode m /\ freeblock m' = freeblock m.
Proof.
  induction n as [|n IH]; intros i m Hi Hn Hl Hz.
  { exists m. split; [done|]. split; [lia|done]. }
  rewrite seqZ_cons by lia. cbn [for_each]. set (m1 := set_m_img (<[i := zeroes]> (m_img m)) (i + 1) m).
  assert (E1 : wsect io i zeroes m e = Done tt m1 e).
  { unfold wsect, modify. rewrite sector_small, Hio by (unfold FSSIZE in *; lia). unfold m1. do 2 f_equal. lia. }
  run E1. replace (Z.pred (Z.of_nat (S n))) with (Z.of_nat n) by lia.
  destruct (IH (Z.succ i) m1) as (m' & E & L & B & S1 & S2 & S3); [lia|lia|done| |].
  { intros b. unfold m1, blk. simpl. destruct (decide (b = i)) as [->|Hne]; [by rewrite lookup_insert_eq|].
    rewrite lookup_insert_ne by done. apply Hz. }
  exists m'. split; [done|]. split; [lia|done].
Qed.

Lemma disk_inode_zeroes f j : f (iblock j) = zeroes -> i_type (disk_inode f j) = 0.
Proof.
  intros E. unfold disk_inode. rewrite E. change (i_type (get_dinode ?o ?d ?i)) with (dip_type o d).
  unfold dip_type, zeroes. by rewrite rd_zeros.
Qed.

(** The image before the root directory is made. *)
Lemma empty_table m : m_len m = FSSIZE -> m_sb m = mkfs_sb -> freeinode m = 1 -> freeblock m = nmeta ->
  (forall b, b <> 1 -> blk m b = zeroes) -> length (blk m 1) = BSIZE -> table m [].
Proof.
  intros Hl Hsb Hi Hf Hz H1. split; try done.
  - split; try done; [unfold nmeta, FSSIZE in *; lia|intros b Hb; apply Hz; unfold nmeta in *; lia|].
    intros b. destruct (decide (b = 1)) as [->|Hb]; [done|]. by rewrite Hz.
  - simpl. intros j j' b Hj. lia.
  - intros b Hb. lia.
  - intros j Hj _. apply disk_inode_zeroes, Hz. pose proof (iblock_range j Hj). lia.
Qed.

(** The root directory with its first two entries. *)
Lemma root_table m : table m [] -> exists m1 m2 m3,
  ialloc io T_DIR m e = Done 1 m1 e /\ iappend io 1 (dirent_bytes 1 [dot]) m1 e = Done tt m2 e
  /\ iappend io 1 (dirent_bytes 1 [dot; dot]) m2 e = Done tt m3 e /\ table m3 (mkfs_files []) /\ fixed m m3.
Proof.
  intros T. destruct (ialloc_table m [] T_DIR T) as (m1 & E1 & T1 & F1); [simpl; lia|vm_compute; split; congruence|].
  destruct (iappend_table m1 _ 0 T_DIR [] (dirent_bytes 1 [dot]) T1 eq_refl eq_refl) as (m2 & E2 & T2 & F2);
    [rewrite app_nil_l, length_dirent; vm_compute; congruence|vm_compute; congruence|].
  destruct (iappend_table m2 _ 0 T_DIR _ (dirent_bytes 1 [dot; dot]) T2 eq_refl eq_refl) as (m3 & E3 & T3 & F3);
    [rewrite length_app, app_nil_l, !length_dirent; vm_compute; congruence|vm_compute; congruence|].
  exists m1, m2, m3. split; [done|]. split; [done|]. split; [done|]. split; [exact T3|]. by eapply fixed_trans; [|eapply fixed_trans].
Qed.

(** The image when the files have been added. *)
Lemma main_files files : fits files -> exists m,
  main io (Some true) files mkfs_start e
  = (din <- rinode io 1;; winode io 1 (set_i_size (xint (u32 ((xint (i_size din) / 512 + 1) * 512))) din);; used <- gets freeblock;; balloc io used) m e
  /\ table m (mkfs_files files) /\ blk m 1 = list_inserts 0 (superblock_bytes mkfs_sb) zeroes
  /\ (forall b, b < 32 \/ b = 58 -> b <> 1 -> blk m b = zeroes).
Proof.
  intros F. unfold main. rewrite !bool_decide_false by done. cbv zeta. unfold printf. c_simpl.
  match goal with |- context [set_freeblock ?a ?b] => set (m0 := set_freeblock a b) end.
  change (xint FSSIZE) with 1000.
  destruct (zero_loop 1000 0 m0) as (m1 & E1 & L1 & Z1 & S1 & S2 & S3); [lia|unfold FSSIZE; lia|done|done|].
  change FSSIZE with (Z.of_nat 1000) at 2. run E1.
  pose proof (wsect_run m1 1 (list_inserts 0 (superblock_bytes mkfs_sb) zeroes) ltac:(done) ltac:(unfold FSSIZE; lia)) as E2.
  set (m2 := put _ _ m1) in E2. run E2.
  assert (Hb2 : forall b, blk m2 b = if decide (b = 1) then list_inserts 0 (superblock_bytes mkfs_sb) zeroes else zeroes).
  { intros b. unfold m2. rewrite blk_put. by case_decide. }
  assert (T2 : table m2 []).
  { apply empty_table; try done; [intros b Hb; rewrite Hb2; by rewrite decide_False|]. rewrite Hb2, decide_True, length_inserts by done. done. }
  destruct (root_table m2 T2) as (m3 & m4 & m5 & E3 & E4 & E5 & T5 & F5). run E3. unfold assert_. change (1 =? 1) with true. cbv iota.
  rewrite bind_ret. change (xshort 1) with 1. run E4. run E5.
  destruct (add_files_table files m5 [] T5 F) as (m6 & E6 & T6 & F6). run E6.
  exists m6. split; [done|]. split; [done|]. pose proof (fixed_trans _ _ _ F5 F6) as F26.
  split; [by rewrite F26, Hb2, decide_True by lia|]. intros b Hb Hne. by rewrite F26, Hb2, decide_False by done.
Qed.

(** ** The size of the root directory *)

(** A file that is extended to the end of its last block. *)
Definition pad (c : list Z) : list Z := c ++ replicate (Z.to_nat ((Z.of_nat (length c) / 512 + 1) * 512) - length c) 0.

Lemma pad_length c : Z.of_nat (length (pad c)) = (Z.of_nat (length c) / 512 + 1) * 512.
Proof. unfold pad. rewrite length_app, length_replicate. div_lia. Qed.

Lemma pad_file f fb ip c : file_inv f fb ip -> i_size ip = Z.of_nat (length c) -> contents f ip = c -> i_size ip mod 512 <> 0 ->
  let ip' := set_i_size ((i_size ip / 512 + 1) * 512) ip in
  file_inv f fb ip' /\ contents f ip' = pad c /\ need (i_size ip') = need (i_size ip).
Proof.
  intros [V1 V2 V3 V4 V5 V6 V7] Hs Hc Hm ip'. set (sz := (i_size ip / 512 + 1) * 512) in *.
  assert (Hsz : i_size ip < sz /\ sz = (i_size ip + 511) / 512 * 512 /\ sz mod 512 = 0) by (unfold sz in *; div_lia).
  assert (Ei : (12 * 512 <? sz) = (12 * 512 <? i_size ip)) by (destruct (Z.ltb_spec (12 * 512) sz), (Z.ltb_spec (12 * 512) (i_size ip)); div_lia).
  split; [|split].
  - split; cbn [i_size ip' set_i_size]; try done.
    + unfold MAXFILE in *. div_lia.
    + intros n Hn Hl. apply V3; [done|]. div_lia.
    + intros n Hn Hl. apply V4; [done|]. lia.
    + change (addr ip' NDIRECT) with (addr ip NDIRECT). by rewrite Ei.
    + intros x Hx. exfalso. div_lia.
  - unfold contents, pad. cbn [i_size ip' set_i_size]. rewrite <- Hs. fold sz. apply list_eq. intros j.
    change (fbytes f ip' 0) with (fbytes f ip 0). destruct (decide (j < Z.to_nat sz)%nat) as [Hj|Hj].
    + rewrite lookup_fbytes by done. destruct (decide (j < length c)%nat) as [Hj'|Hj'].
      * rewrite lookup_app_l by done. rewrite <- Hc. unfold contents. by rewrite lookup_fbytes by lia.
      * rewrite lookup_app_r, lookup_replicate_2 by lia. f_equal. apply V7. lia.
    + rewrite !lookup_ge_None_2; [done|rewrite length_app, length_replicate; lia|rewrite length_fbytes; lia].
  - cbn [i_size ip' set_i_size]. unfold need. rewrite Ei. f_equal. div_lia.
Qed.

(** What remains of [main] when the files have been added. *)
Definition finish : M mkfs unit :=
  din <- rinode io 1;;
  winode io 1 (set_i_size (xint (u32 ((xint (i_size din) / 512 + 1) * 512))) din);;
  used <- gets freeblock;;
  balloc io used.

Lemma balloc_map m : image m -> exists m', balloc io (freeblock m) m e = Done tt m' e /\ m_len m' = FSSIZE
  /\ forall b, blk m' b = if decide (b = 58) then mark_bits (freeblock m) zeroes else blk m b.
Proof.
  intros I. pose proof (im_free _ I) as Hf. unfold balloc, printf. c_simpl. unfold assert_.
  rewrite (proj2 (Z.ltb_lt (freeblock m) (Z.of_nat BSIZE * 8))) by (unfold FSSIZE, BSIZE in *; lia). c_simpl.
  match goal with |- context [wsect _ _ _ ?x e] => set (m1 := x) end.
  change (m_sb _) with (m_sb m). rewrite (im_sb _ I).
  eexists. split; [apply wsect_run; [apply I|vm_compute; split; congruence]|]. split; [apply I|]. intros b. by rewrite blk_put.
Qed.

Lemma finish_run m A R : table m A -> A !! 0%nat = Some (T_DIR, R) -> Z.of_nat (length R) < 8192 ->
  exists m', finish m e = Done tt m' e /\ m_len m' = FSSIZE
    /\ forall b, blk m' b = if decide (b = 58) then mark_bits (freeblock m) zeroes
                            else blk (put (iblock 1) (put_dinode (dinode_off 1)
                              (set_i_size ((Z.of_nat (length R) / 512 + 1) * 512) (disk_inode (blk m) 1)) (blk m (iblock 1))) m) b.
Proof.
  intros T H0 Hl. pose proof (tb_image _ _ T) as I. destruct (tb_file _ _ T 0%nat _ _ H0) as (V & Et & _ & _ & _ & Es & _).
  change (1 + Z.of_nat 0) with 1 in *. unfold finish. pose proof (rinode_run m 1 I ltac:(lia)) as E1. run E1. rewrite Es.
  rewrite (xint_small (Z.of_nat _)) by lia. rewrite u32_small, xint_small by div_lia.
  match goal with |- context [winode io 1 ?i] => pose proof (winode_run m 1 i I ltac:(lia)) as E2 end. run E2.
  rewrite bind_gets. match goal with |- context [balloc io _ ?x e] => set (m2 := x) end.
  apply (balloc_map m2). by apply image_put.
Qed.

(** The root directory padded to a whole number of blocks. *)
Lemma pad_table m A R : table m A -> A !! 0%nat = Some (T_DIR, R) -> Z.of_nat (length R) mod 512 <> 0 ->
  table (put (iblock 1) (put_dinode (dinode_off 1) (set_i_size ((Z.of_nat (length R) / 512 + 1) * 512) (disk_inode (blk m) 1)) (blk m (iblock 1))) m)
    (<[0%nat := (T_DIR, pad R)]> A).
Proof.
  intros T H0 Hm. set (din2 := set_i_size _ _). set (m2 := put _ _ m). pose proof (tb_image _ _ T) as I.
  destruct (tb_file _ _ T 0%nat _ _ H0) as (V & Et & Ema & Emi & En & Es & Ec). change (1 + Z.of_nat 0) with 1 in *.
  set (din := disk_inode (blk m) 1) in *. destruct (pad_file _ _ _ R V Es Ec) as (V2 & C2 & N2); [by rewrite Es|].
  rewrite Es in V2, C2, N2. fold din2 in V2, C2, N2. destruct (iblock_range 1) as [Hb _]; [lia|].
  assert (Hfits : inode_fits din2).
  { apply (file_fits _ _ _ V2 (proj2 (im_free _ I))); [change (i_type din2) with (i_type din)|change (i_major din2) with (i_major din)
    |change (i_minor din2) with (i_minor din)|change (i_nlink din2) with (i_nlink din)]; rewrite ?Et, ?Ema, ?Emi, ?En; done. }
  assert (Hk : forall b, b <> iblock 1 -> blk m2 b = blk m b) by (intros b Hne; unfold m2; rewrite blk_put; by rewrite decide_False).
  destruct (file_keep (blk m) (blk m2) (freeblock m) (freeblock m2) din2 V2) as (V3 & C3 & O3); [done| |].
  { intros b Ho. apply Hk. pose proof (owns_range _ _ _ _ V2 Ho). unfold nmeta in *. lia. }
  apply (table_update m A 0 T_DIR R (pad R) m2 din2); try done; change (1 + Z.of_nat 0) with 1; fold din.
  - by apply image_put.
  - rewrite pad_length. change (i_size din2) with ((Z.of_nat (length R) / 512 + 1) * 512) in N2. rewrite N2. change (freeblock m2) with (freeblock m). lia.
  - intros j Hj. apply disk_inode_put; try done; try lia. destruct (plain_disk (blk m) 1) as (?&?&?&?&?&?&E).
    unfold din2, din. rewrite E. by repeat eexists.
  - rewrite pad_length, C3, C2. done.
  - intros b. rewrite O3. change (owns (blk m) din2 b) with (owns (blk m) din b). change (freeblock m2) with (freeblock m).
    split; [by left|intros [Ho|Ho]; [done|lia]].
  - intros b _ _ Hne. by apply Hk.
Qed.

(** A file system that holds the files [A] from inode 1 on and nothing else. *)
Record file_system (f : Z -> list Z) (A : list (Z * list Z)) : Prop := {
  fsys_block : forall b, length (f b) = BSIZE;
  fsys_sb : decode_sb (f 1) = mkfs_sb;
  fsys_log : f (sb_logstart mkfs_sb) = zeroes;
  fsys_file : forall j t c, A !! j = Some (t, c) -> let ip := disk_inode f (1 + Z.of_nat j) in
    i_type ip = t /\ i_major ip = 0 /\ i_minor ip = 0 /\ i_nlink ip = 1 /\ i_size ip = Z.of_nat (length c) /\ contents f ip = c;
  fsys_inv : forall j, (j < length A)%nat -> file_inv f (sb_size mkfs_sb) (disk_inode f (1 + Z.of_nat j));
  fsys_apart : forall j j' b, (j < length A)%nat -> (j' < length A)%nat ->
    owns f (disk_inode f (1 + Z.of_nat j)) b -> owns f (disk_inode f (1 + Z.of_nat j')) b -> j = j';
  fsys_used : forall b, 0 <= b < sb_size mkfs_sb -> used f mkfs_sb b = true
    <-> b < nmeta \/ exists j, (j < length A)%nat /\ owns f (disk_inode f (1 + Z.of_nat j)) b;
  fsys_spare : forall j, 0 <= j < sb_ninodes mkfs_sb -> j = 0 \/ Z.of_nat (length A) < j -> i_type (disk_inode f j) = 0
}.

(** The image with its free map. *)
Lemma table_system m A f : table m A -> decode_sb (blk m 1) = mkfs_sb -> blk m 2 = zeroes ->
  (forall b, f b = if decide (b = 58) then mark_bits (freeblock m) zeroes else blk m b) -> file_system f A.
Proof.
  intros T Hsb Hlog Hf. pose proof (tb_image _ _ T) as I. pose proof (im_free _ I) as Hfree. pose proof (tb_max _ _ T) as Hmax.
  assert (Hk : forall b, b <> 58 -> f b = blk m b) by (intros b Hb; rewrite Hf; by rewrite decide_False).
  assert (Hd : forall j, 0 <= j < 200 -> disk_inode f j = disk_inode (blk m) j).
  { intros j Hj. unfold disk_inode. rewrite Hk; [done|]. pose proof (iblock_range j Hj). lia. }
  assert (Hfile : forall j, (j < length A)%nat -> let ip := disk_inode (blk m) (1 + Z.of_nat j) in
    file_inv f (sb_size mkfs_sb) ip /\ contents f ip = contents (blk m) ip /\ forall b, owns f ip b <-> owns (blk m) ip b).
  { intros j Hj ip. destruct (lookup_lt_is_Some_2 A j Hj) as [[t c] Ej]. destruct (tb_file _ _ T j t c Ej) as [V _].
    apply (file_keep _ _ _ _ _ V); [apply Hfree|]. intros b Ho. apply Hk. pose proof (owns_range _ _ _ _ V Ho). unfold nmeta in *. lia. }
  assert (Hmb : forall b, 0 <= b -> length (mark_bits (freeblock m) zeroes) = BSIZE
    /\ bit (mark_bits (freeblock m) zeroes) b = bool_decide (b < freeblock m)).
  { intros b Hb. unfold nmeta, FSSIZE in *. rewrite <- (Z2Nat.id (freeblock m)) by lia.
    destruct (mark_bits_spec (Z.to_nat (freeblock m)) zeroes eq_refl) as [Hl Hm]; [unfold BPB, BSIZE; lia|].
    split; [done|]. by rewrite Hm, bit_zeroes, orb_false_r by done. }
  split.
  - intros b. rewrite Hf. case_decide; [by apply (Hmb 0)|apply I].
  - by rewrite Hk.
  - by rewrite Hk.
  - intros j t c Ej. pose proof (lookup_lt_Some _ _ _ Ej) as Hj. cbv zeta. rewrite Hd by lia. destruct (Hfile j Hj) as (_ & -> & _).
    destruct (tb_file _ _ T j t c Ej) as [_ H]. exact H.
  - intros j Hj. rewrite Hd by lia. by apply Hfile.
  - intros j j' b Hj Hj'. rewrite !Hd by lia. destruct (Hfile j Hj) as (_ & _ & ->), (Hfile j' Hj') as (_ & _ & ->).
    exact (tb_apart _ _ T j j' b Hj Hj').
  - intros b Hb. simpl in Hb. unfold used. replace (BBLOCK b mkfs_sb) with 58.
    2: { unfold BBLOCK, BPB. simpl. rewrite u32_small; div_lia. }
    rewrite Hf, decide_True, (Z.mod_small b BPB) by (done || (unfold BPB, BSIZE; lia)). unfold nmeta, FSSIZE in *.
    destruct (Hmb b ltac:(lia)) as [_ ->]. rewrite bool_decide_eq_true. split.
    + intros Hlt. destruct (decide (b < 59)); [by left|right]. destruct (tb_cover _ _ T b) as (j & Hj & Ho); [unfold nmeta; lia|].
      exists j. split; [done|]. rewrite Hd by lia. by apply Hfile.
    + intros [Hlt|(j & Hj & Ho)]; [lia|]. rewrite Hd in Ho by lia. apply Hfile in Ho; [|done].
      destruct (lookup_lt_is_Some_2 A j Hj) as [[t c] Ej]. destruct (tb_file _ _ T j t c Ej) as [V _]. apply (owns_range _ _ _ _ V Ho).
  - intros j Hj Hsp. rewrite Hd by done. by apply (tb_spare _ _ T).
Qed.

End Run.

(** The files of the finished image: the root directory is padded to a whole
    number of blocks. *)
Definition mkfs_image (files : list host_file) : list (Z * list Z) :=
  (T_DIR, pad (root_entries (stored_name <$> files))) :: ((fun f => (T_FILE, mjoin (hf_reads f))) <$> files).

Lemma root_length files : fits files -> let n := Z.of_nat (length (root_entries (stored_name <$> files))) in
  n = 16 * (2 + Z.of_nat (length files)) /\ n < 8192.
Proof. intros F. pose proof (ft_inodes _ F). cbv zeta. rewrite length_root, length_fmap. lia. Qed.

Lemma mkfs_system io files e : (forall b, io b = true) -> fits files -> (2 + Z.of_nat (length files)) mod 32 <> 0 ->
  exists m, main io (Some true) files mkfs_start e = Done tt m e /\ m_len m = FSSIZE /\ file_system (blk m) (mkfs_image files).
Proof.
  intros Hio F Hm. destruct (main_files io Hio e files F) as (m1 & -> & T & B1 & Bz). destruct (root_length files F) as [Hl Hl'].
  destruct (finish_run io Hio e m1 _ _ T eq_refl Hl') as (m & E & L & B). exists m. split; [exact E|]. split; [done|].
  assert (Hb : 32 <= iblock 1) by (pose proof (iblock_range 1); lia).
  refine (table_system _ _ _ (pad_table m1 _ _ T eq_refl _) _ _ B); [rewrite Hl; div_lia| |].
  - rewrite blk_put, decide_False, B1 by lia. vm_compute. done.
  - rewrite blk_put, decide_False by lia. apply Bz; lia.
Qed.

(** C5: mkfs makes a file system with exactly the files it is given, unless their entries fill the blocks of the root
    directory exactly.  Let the build machine write the image without an error, and let the files be openable, have names without a slash, be at
    most 198, and fit a file each and the image together.  Let moreover the entries of the root directory, two more than there are files, not be a
    multiple of the 32 that fill a block (with 30, 62, 94, ... files the size of the root directory is wrong).  Then
    [main] ends without an error, and the image is 1000 blocks long: the super block in block
    1 describes the layout, the log is empty, inode 1 is a directory with an
    entry for every file, inode 2 + i has the contents of file i, no two pointers
    lead to the same block, every other inode is unused, and the free map marks
    exactly the metadata and the blocks of the files. *)
Theorem mkfs_builds io files e : (forall b, io b = true) -> fits files -> (2 + Z.of_nat (length files)) mod 32 <> 0 ->
  exists m, main io (Some true) files mkfs_start e = Done tt m e /\ m_len m = FSSIZE /\ file_system (blk m) (mkfs_image files).
Proof. apply mkfs_system. Qed.

(** The inode of the root directory when its size has been written. *)
Lemma root_inode m A R f : table m A -> A !! 0%nat = Some (T_DIR, R) -> Z.of_nat (length R) < 8192 ->
  let din := disk_inode (blk m) 1 in let din' := set_i_size ((Z.of_nat (length R) / 512 + 1) * 512) din in
  (forall b, b <> 58 -> f b = blk (put (iblock 1) (put_dinode (dinode_off 1) din' (blk m (iblock 1))) m) b) ->
  disk_inode f 1 = din' /\ forall n, 0 <= n < 12 -> fptr f din' n = fptr (blk m) din n.
Proof.
  intros T H0 Hl din din' Hf. pose proof (tb_image _ _ T) as I. destruct (iblock_range 1) as [Hb _]; [lia|].
  destruct (tb_file _ _ T 0%nat _ _ H0) as (V & Et & Ema & Emi & En & _). change (1 + Z.of_nat 0) with 1 in *. fold din in V, Et, Ema, Emi, En.
  assert (Fd : inode_fits din) by (apply (file_fits _ _ _ V (proj2 (im_free _ I))); rewrite ?Et, ?Ema, ?Emi, ?En; done).
  split.
  - unfold disk_inode at 1. rewrite Hf by lia. change (disk_inode (blk (put (iblock 1) (put_dinode (dinode_off 1) din' (blk m (iblock 1))) m)) 1 = din').
    rewrite disk_inode_put; [by rewrite decide_True|done| | |lia|lia].
    + destruct (plain_disk (blk m) 1) as (?&?&?&?&?&?&E). unfold din', din. rewrite E. by repeat eexists.
    + destruct Fd. split; try done. apply u32_small. cbn [i_size din' set_i_size]. div_lia.
  - intros n Hn. unfold fptr. by rewrite (proj2 (Z.ltb_lt n 12)) by lia.
Qed.

(** C39: When the entries fill the blocks of the root directory exactly, mkfs
    gives it a size that is one block too large: the size covers a block that
    the directory does not have. *)
Theorem mkfs_root_hole io files e : (forall b, io b = true) -> fits files -> (2 + Z.of_nat (length files)) mod 32 = 0 ->
  exists m, main io (Some true) files mkfs_start e = Done tt m e /\ let root := disk_inode (blk m) 1 in
    i_size root = 16 * (2 + Z.of_nat (length files)) + 512 /\ fptr (blk m) root ((2 + Z.of_nat (length files)) / 32) = 0.
Proof.
  intros Hio F Hm. destruct (main_files io Hio e files F) as (m1 & -> & T & B1 & Bz). destruct (root_length files F) as [Hl Hl'].
  destruct (finish_run io Hio e m1 _ _ T eq_refl Hl') as (m & E & L & B). exists m. split; [exact E|].
  destruct (root_inode m1 _ _ (blk m) T eq_refl Hl') as [-> Hp].
  { intros b Hb. rewrite B. by rewrite decide_False. }
  destruct (tb_file _ _ T 0%nat _ _ eq_refl) as (V & _ & _ & _ & _ & Es & _). change (1 + Z.of_nat 0) with 1 in *.
  pose proof (ft_inodes _ F) as Hi. cbv zeta. split; [cbn [i_size set_i_size]; rewrite Hl; div_lia|].
  rewrite Hp by div_lia. apply (fv_out _ _ _ V); [unfold MAXFILE; div_lia|]. rewrite Es, Hl. div_lia.
Qed.

(** Two files, one of them with the underscore of a user program. *)
Definition two_files : list host_file :=
  [mk_host_file [underscore; 99; 97; 116] true [[1; 2; 3]]; mk_host_file [82] true [replicate 512 7; [8]]].

Definition thirty_files : list host_file := replicate 30 (mk_host_file [82] true []).

Lemma mkfs_builds_witness : exists m, main (fun _ => true) (Some true) two_files mkfs_start [] = Done tt m []
  /\ m_len m = FSSIZE /\ file_system (blk m) (mkfs_image two_files).
Proof.
  apply mkfs_builds; [done| |done]. split; [repeat constructor..| |]; vm_compute; try congruence; set_solver.
Defined.

Lemma mkfs_root_hole_witness : exists m, main (fun _ => true) (Some true) thirty_files mkfs_start [] = Done tt m []
  /\ let root := disk_inode (blk m) 1 in i_size root = 16 * (2 + Z.of_nat (length thirty_files)) + 512
    /\ fptr (blk m) root ((2 + Z.of_nat (length thirty_files)) / 32) = 0.
Proof.
  apply mkfs_root_hole; [done| |done]. split; [repeat constructor..| |]; vm_compute; try congruence; set_solver.
Defined.
