(* ===== verification/Image.v ===== *)
(** * The kernel on the image of mkfs

    The file system that mkfs makes is one in which the kernel finds, under the
    name of each file of the build machine, an inode from which it reads the
    contents of that file. *)

From stdpp Require Import base gmap list strings sets.
From Stdlib Require Import ZArith Lia.
From S2P Require Import Prelude State Bytes Spinlock Sched Bio Cache Machine Log LogSpec Crash Transaction Fs FsFormat Icache Tx Balloc Contents Lookup Mkfs MkfsSpec.

(** ** The inodes of the image *)

(** The entries of a directory that is made of entries. *)
Lemma entries_join es : Forall (fun de => length de = 16%nat) es -> entries (mjoin es) = es.
Proof.
  intros H. assert (Hl : length (mjoin es) = (16 * length es)%nat) by (induction H as [|de es Hd H IH]; simpl; rewrite ?length_app; lia).
  unfold entries. rewrite Hl, Nat.mul_comm, Nat.div_mul by done. clear Hl. induction H as [|de es Hd H IH]; [done|].
  cbn [length seq fmap list_fmap]. f_equal.
  - rewrite Nat.mul_0_r, drop_0. change (mjoin (de :: es)) with (de ++ mjoin es). by rewrite take_app_length'.
  - rewrite <- IH at 2. rewrite <- seq_shift, <- list_fmap_compose. apply list_fmap_ext. intros _ q _. simpl.
    change (mjoin (de :: es)) with (de ++ mjoin es). f_equal. rewrite drop_app_ge by lia. f_equal. lia.
Qed.

(** Comparing names as they are stored with names as they are looked up. *)
Lemma strncmp_stored n : forall s t, Forall (fun c => 0 < c < 256) s -> Forall (fun c => 0 < c < 256) t ->
  strncmp_list (take n s) (take n (t ++ replicate n 0)) n = 0 <-> take n s = take n t.
Proof.
  induction n as [|n IH]; intros s t Hs Ht; [done|].
  assert (Hu : forall c, 0 < c < 256 -> u8 c = c) by (intros c Hc; unfold u8; apply Z.mod_small; lia).
  destruct Hs as [|c s Hc Hs], Ht as [|d t Hd Ht]; simpl.
  - done.
  - rewrite (Hu d) by done. change (u8 0) with 0. split; [lia|done].
  - rewrite (Hu c) by done. change (u8 0) with 0. unfold truth. rewrite (proj2 (Z.eqb_neq c 0)) by lia. cbn [negb andb].
    destruct (Z.eqb_spec c 0); [lia|]. split; [lia|done].
  - unfold truth. rewrite (proj2 (Z.eqb_neq c 0)) by lia. cbn [negb andb]. destruct (Z.eqb_spec c d) as [->|Hne].
    + change (t ++ 0 :: replicate n 0) with (t ++ replicate 1 0 ++ replicate n 0).
      replace (take n (t ++ replicate 1 0 ++ replicate n 0)) with (take n (t ++ replicate n 0)).
      { rewrite IH by done. split; [by intros ->|by intros [= ->]]. }
      rewrite <- replicate_add. rewrite !take_app, !take_replicate. f_equal. f_equal. lia.
    + rewrite !Hu by done. split; [lia|congruence].
Qed.

Definition name_ok (name : list Z) : Prop := Forall (fun c => 0 < c < 256) name.

Lemma de_inum_dirent inum name : 0 <= inum < 2 ^ 16 -> de_inum (dirent_bytes inum name) = inum.
Proof.
  intros Hi. unfold de_inum, dirent_bytes, rd. rewrite drop_0, take_app_length' by (by rewrite length_le_bytes). rewrite le_val_bytes.
  apply Z.mod_small. simpl. lia.
Qed.

Lemma is_entry_stored name inum name' : name_ok name -> name_ok name' -> 0 < inum < 2 ^ 16 ->
  is_entry (take DIRSIZ name) (dirent_bytes inum name') = bool_decide (take DIRSIZ name = take DIRSIZ name').
Proof.
  intros H H' Hi. pose proof (de_inum_dirent inum name' ltac:(lia)) as E1.
  assert (E2 : de_name (dirent_bytes inum name') = take DIRSIZ (name' ++ replicate DIRSIZ 0)).
  { unfold de_name, dirent_bytes, strncpy_list. rewrite drop_app_length' by (by rewrite length_le_bytes). rewrite take_take. f_equal. }
  unfold is_entry. rewrite E1, E2, (proj2 (Z.eqb_neq inum 0)) by lia. cbn [negb andb]. unfold namecmp.
  apply Bool.eq_iff_eq_true. rewrite Z.eqb_eq, bool_decide_eq_true. by apply strncmp_stored.
Qed.

(** ** The inodes of the image *)

Lemma inv_file_ok a ip n : a_held a = ∅ -> 0 <= n < 200 -> file_inv (a_blk a) (sb_size mkfs_sb) ip ->
  (forall b, 0 <= b < sb_size mkfs_sb -> owns (a_blk a) ip b -> used (a_blk a) mkfs_sb b = true) ->
  file_ok mkfs_sb 2 a (set_i_inum n (set_i_dev 1 ip)).
Proof.
  intros Hheld Hn V Hu. pose proof (iblock_range n Hn) as [Hib _].
  assert (Ep : forall m, fptr (a_blk a) (set_i_inum n (set_i_dev 1 ip)) m = fptr (a_blk a) ip m) by (intros m; by apply fptr_addrs).
  split; [done|apply V|apply V| | |].
  - intros m Hm. rewrite Ep. intros Hp. assert (Ho : owns (a_blk a) ip (fptr (a_blk a) ip m)) by (by exists m).
    pose proof (owns_range _ _ _ _ V Ho) as Hr. unfold nmeta in Hr. simpl sb_size in *. split.
    + simpl. lia.
    + apply Hu; [lia|done].
    + unfold in_log, LOGSIZE. lia.
    + intros b Hb. simpl in Hb. unfold BBLOCK, BPB. simpl. rewrite u32_small by div_lia. div_lia.
    + fold (iblock n) in Hib. change (iblock n <> fptr (a_blk a) ip m). lia.
    + by rewrite Hheld.
  - intros m m'. rewrite !Ep. apply V.
  - intros m Hm Hs. rewrite Ep. pose proof (fv_in _ _ _ V m) as H. pose proof (fv_size _ _ _ V). change (m * 512 < i_size ip) in Hs.
    unfold nmeta, MAXFILE in *. lia.
Qed.

Section Image.
Context (k : kstate) (a : cache) (A : list (Z * list Z)).
Context (S : file_system (a_blk a) A) (HA : Z.of_nat (length A) < 200) (Hsb : k_sb k = mkfs_sb).

Lemma node_disk n : node (a_blk a) (k_sb k) n = set_i_inum n (set_i_dev 1 (disk_inode (a_blk a) n)).
Proof. unfold node, disk_inode, iblock. by rewrite Hsb. Qed.

Lemma node_file j t c : A !! j = Some (t, c) -> let ip := node (a_blk a) (k_sb k) (1 + Z.of_nat j) in
  i_type ip = t /\ i_nlink ip = 1 /\ i_size ip = Z.of_nat (length c) /\ bytes (a_blk a) ip = c.
Proof.
  intros Hj. cbv zeta. rewrite node_disk. destruct (fsys_file _ _ S j t c Hj) as (H1 & _ & _ & H4 & H5 & H6). done.
Qed.

(** Every file is one that the kernel can read and write. *)
Lemma image_file j : a_held a = ∅ -> (j < length A)%nat -> file_ok (k_sb k) 2 a (node (a_blk a) (k_sb k) (1 + Z.of_nat j)).
Proof.
  intros Hheld Hj. rewrite node_disk, Hsb. pose proof (fsys_inv _ _ S j Hj) as V. pose proof (fsys_used _ _ S) as U.
  apply (inv_file_ok a (disk_inode (a_blk a) (1 + Z.of_nat j)) (1 + Z.of_nat j) Hheld ltac:(lia) V).
  intros b Hb Ho. apply U; [done|]. right. by exists j.
Qed.

(** The image as a tree, when only the root is a directory. *)
Lemma image_tree R s' : a_held a = ∅ -> s' = 2 -> map_ok k s' -> A !! 0%nat = Some (T_DIR, R) -> Z.of_nat (length R) mod 16 = 0 ->
  (forall j t c, A !! j = Some (t, c) -> t = T_DIR -> j = 0%nat) -> (forall t c, (t, c) ∈ A -> t <> 0) ->
  (forall de, de ∈ entries R -> 0 <= de_inum de <= Z.of_nat (length A)) ->
  tree k s' a (fun n => 1 <= n <= Z.of_nat (length A)).
Proof.
  intros Hheld -> M H0 Hm Hroot Ht Hde.
  assert (Hn : forall n, 1 <= n <= Z.of_nat (length A) -> exists j t c, n = 1 + Z.of_nat j /\ A !! j = Some (t, c)).
  { intros n Hn. destruct (lookup_lt_is_Some_2 A (Z.to_nat (n - 1))) as [[t c] E]; [lia|]. exists (Z.to_nat (n - 1)), t, c. split; [lia|done]. }
  split.
  - intros n Hn'. unfold in_range. pose proof (mo_size _ _ M) as Hds. rewrite Hsb in *. pose proof (iblock_range n ltac:(lia)) as [Hb _].
    unfold iblock in Hb. simpl sb_size in Hds. lia.
  - intros n (j & t & c & -> & Hj)%Hn. destruct (node_file j t c Hj) as (-> & -> & _). split; [|done].
    apply (Ht t c). by eapply list_elem_of_lookup_2.
  - intros n (j & t & c & -> & Hj)%Hn _. apply image_file; [done|]. by eapply lookup_lt_Some.
  - intros n (j & t & c & -> & Hj)%Hn. destruct (node_file j t c Hj) as (-> & _ & -> & _). intros Hd.
    pose proof (Hroot j t c Hj Hd) as ->. rewrite H0 in Hj. by simplify_eq.
  - intros n de (j & t & c & -> & Hj)%Hn. destruct (node_file j t c Hj) as (-> & _ & _ & ->). intros Hd Hin Hz.
    pose proof (Hroot j t c Hj Hd) as ->. rewrite H0 in Hj. simplify_eq. specialize (Hde de Hin). lia.
Qed.

End Image.

(** ** The root directory *)

Definition root_list (names : list (list Z)) : list (list Z) :=
  dirent_bytes 1 [dot] :: dirent_bytes 1 [dot; dot] :: imap (fun i name => dirent_bytes (2 + Z.of_nat i) name) names.

Lemma root_list_length names : Forall (fun de => length de = 16%nat) (root_list names).
Proof.
  repeat (constructor; [apply length_dirent|]). apply Forall_lookup. intros i de Hi. rewrite list_lookup_imap in Hi.
  destruct (names !! i); [|done]. simpl in Hi. simplify_eq. apply length_dirent.
Qed.

Lemma join_zeros z : mjoin (replicate z (replicate 16 0)) = replicate (16 * z) 0.
Proof.
  induction z as [|z IH]; [done|]. change (mjoin (replicate (S z) (replicate 16 0))) with (replicate 16 0 ++ mjoin (replicate z (replicate 16 0))).
  rewrite IH, <- replicate_add. f_equal. lia.
Qed.

Lemma root_pad_entries names : exists z, entries (pad (root_entries names)) = root_list names ++ replicate z (replicate 16 0).
Proof.
  pose proof (length_root names) as Hl. set (L := (2 + length names)%nat) in *.
  set (z := (Z.to_nat (Z.of_nat (16 * L) / 512 + 1) * 32 - L)%nat). exists z.
  rewrite <- (entries_join (root_list names ++ replicate z (replicate 16 0))).
  - rewrite join_app, join_zeros. unfold pad. rewrite Hl. do 3 f_equal. unfold z. div_lia.
  - apply Forall_app. split; [apply root_list_length|]. by apply Forall_replicate.
Qed.

Lemma first_index_intro {B} (f : B -> bool) l i x : l !! i = Some x -> f x = true ->
  (forall j y, (j < i)%nat -> l !! j = Some y -> f y = false) -> first_index f l = Some i.
Proof.
  revert i. induction l as [|y l IH]; intros [|i] Hi Hx Hf; try done; simpl in *.
  - simplify_eq. by rewrite Hx.
  - rewrite (Hf 0%nat y) by (done || lia). rewrite (IH i); try done. intros j w Hj Hw. apply (Hf (S j) w); [lia|done].
Qed.

(** Names that are stored and found again: not empty, without a zero, and different in
    their first 14 characters. *)
Record named (names : list (list Z)) : Prop := {
  nd_ok : Forall (fun name => name <> [] /\ name_ok name) names;
  nd_uniq : NoDup ([dot] :: [dot; dot] :: (take DIRSIZ <$> names));
  nd_count : Z.of_nat (length names) < 199
}.

Lemma root_list_lookup names q de : root_list names !! q = Some de ->
  exists inum nm, de = dirent_bytes inum nm /\ (q = 0%nat /\ inum = 1 /\ nm = [dot] \/ q = 1%nat /\ inum = 1 /\ nm = [dot; dot]
    \/ exists i, q = (2 + i)%nat /\ inum = 2 + Z.of_nat i /\ names !! i = Some nm).
Proof.
  destruct q as [|[|i]]; simpl; [intros [= <-]; eauto 10..|]. rewrite list_lookup_imap. destruct (names !! i) as [nm|] eqn:E; [|done].
  intros [= <-]. exists (2 + Z.of_nat i), nm. split; [done|]. right. right. by exists i.
Qed.

Lemma root_find names i name : named names -> names !! i = Some name ->
  dir_find (take DIRSIZ name) (pad (root_entries names)) = Some ((2 + i)%nat, 2 + Z.of_nat i).
Proof.
  intros [Hok Hu Hc] Hi. destruct (root_pad_entries names) as [z Ez]. unfold dir_find. rewrite Ez. pose proof (lookup_lt_Some _ _ _ Hi) as Hlt.
  rewrite Forall_lookup in Hok. pose proof (Hok i name Hi) as [_ Hn].
  assert (Hq : (root_list names ++ replicate z (replicate 16 0)) !! (2 + i)%nat = Some (dirent_bytes (2 + Z.of_nat i) name)).
  { apply lookup_app_l_Some. unfold root_list. simpl. by rewrite list_lookup_imap, Hi. }
  assert (E1 : de_inum (dirent_bytes (2 + Z.of_nat i) name) = 2 + Z.of_nat i) by (apply de_inum_dirent; lia).
  rewrite (first_index_intro _ _ (2 + i) _ Hq).
  - rewrite Hq. simpl default. by rewrite E1.
  - rewrite is_entry_stored by (done || lia). by apply bool_decide_eq_true.
  - intros q de Hlq Hde. rewrite lookup_app_l in Hde by (unfold root_list; simpl; rewrite length_imap; lia).
    apply root_list_lookup in Hde as (inum & nm & -> & Hcase).
    assert (name_ok nm /\ 0 < inum < 2 ^ 16 /\ take DIRSIZ name <> take DIRSIZ nm) as (H1 & H2 & H3); [|rewrite is_entry_stored by done; by apply bool_decide_eq_false].
    assert (Hneq : forall q' x, ([dot] :: [dot; dot] :: (take DIRSIZ <$> names)) !! q' = Some x -> q' <> (2 + i)%nat -> take DIRSIZ name <> x).
    { intros q' x Hx Hne E. subst x. apply Hne. apply (NoDup_lookup _ _ _ _ Hu Hx). simpl. by rewrite list_lookup_fmap, Hi. }
    destruct Hcase as [(-> & -> & ->)|[(-> & -> & ->)|(i' & -> & -> & Hi')]].
    + split; [repeat constructor; done|]. split; [lia|]. by apply (Hneq 0%nat).
    + split; [repeat constructor; done|]. split; [lia|]. by apply (Hneq 1%nat).
    + pose proof (lookup_lt_Some _ _ _ Hi'). split; [by apply (Hok i')|]. split; [lia|]. apply (Hneq (2 + i')%nat); [|lia]. simpl. by rewrite list_lookup_fmap, Hi'.
Qed.

Lemma words_single name : slash ∉ name -> words name = [name].
Proof.
  induction name as [|c name IH]; intros H; [done|]. apply not_elem_of_cons in H as [Hc H]. cbn [words].
  rewrite (proj2 (Z.eqb_neq c slash)) by congruence. by rewrite IH.
Qed.

Lemma elems_single name : slash ∉ name -> name <> [] -> elems (slash :: name) = [take DIRSIZ name].
Proof. intros H Hn. rewrite elems_slash. unfold elems. rewrite words_single by done. by rewrite filter_cons_True. Qed.

Lemma stored_no_slash f : slash ∉ hf_name f -> slash ∉ stored_name f.
Proof. unfold stored_name. destruct (hf_name f) as [|c l]; [done|]. intros H. destruct (c =? underscore); [set_solver|done]. Qed.

Lemma root_inums names de : Z.of_nat (length names) < 199 -> de ∈ entries (pad (root_entries names)) -> 0 <= de_inum de <= 1 + Z.of_nat (length names).
Proof.
  intros Hc Hin. destruct (root_pad_entries names) as [z Ez]. rewrite Ez in Hin. apply elem_of_app in Hin as [Hin|Hin].
  - apply list_elem_of_lookup in Hin as [q Hq]. apply root_list_lookup in Hq as (inum & nm & -> & Hcase).
    assert (1 <= inum <= 1 + Z.of_nat (length names)).
    { destruct Hcase as [(_ & -> & _)|[(_ & -> & _)|(i & _ & -> & Hi)]]; [lia|lia|]. apply lookup_lt_Some in Hi. lia. }
    rewrite de_inum_dirent; lia.
  - apply elem_of_replicate in Hin as [-> _]. change (de_inum (replicate 16 0)) with 0. lia.
Qed.

(** The tree of the kernel on an image of mkfs. *)
Lemma mkfs_tree files k a s : fits files -> file_system (a_blk a) (mkfs_image files) -> k_sb k = mkfs_sb -> s = 2 -> a_held a = ∅ -> map_ok k s ->
  tree k s a (fun n => 1 <= n <= 1 + Z.of_nat (length files)).
Proof.
  intros F Sy Hsb Hs Hheld M. pose proof (ft_inodes _ F) as Hi. assert (Hl : length (mkfs_image files) = S (length files)) by (simpl; by rewrite length_fmap).
  replace (1 + Z.of_nat (length files)) with (Z.of_nat (length (mkfs_image files))) by lia.
  apply (image_tree k a (mkfs_image files) Sy ltac:(lia) Hsb (pad (root_entries (stored_name <$> files)))); try done.
  - rewrite pad_length. div_lia.
  - intros [|j] t c Hj; [done|]. simpl in Hj. rewrite list_lookup_fmap in Hj. destruct (files !! j); [|done]. simpl in Hj. by simplify_eq.
  - intros t c [[= -> _]|(f & [= -> _] & _)%list_elem_of_fmap]%elem_of_cons; done.
  - intros de Hin. rewrite Hl. pose proof (root_inums (stored_name <$> files) de) as H. rewrite length_fmap in H. specialize (H ltac:(lia) Hin). lia.
Qed.

(** A path of one element. *)
Lemma resolve_name files k a i f : fits files -> named (stored_name <$> files) -> file_system (a_blk a) (mkfs_image files) -> k_sb k = mkfs_sb ->
  files !! i = Some f -> resolve false (a_blk a) (k_sb k) ROOTINO (elems (slash :: stored_name f)) = Some (2 + Z.of_nat i).
Proof.
  intros F Nd Sy Hsb Hf. pose proof (nd_ok _ Nd) as Hok. pose proof (ft_name _ F) as Hns. rewrite Forall_lookup in Hok. rewrite Forall_lookup in Hns.
  assert (Hfn : (stored_name <$> files) !! i = Some (stored_name f)) by (by rewrite list_lookup_fmap, Hf).
  rewrite elems_single; [|by apply stored_no_slash, (Hns i)|by apply (Hok i)]. cbn [resolve]. change ROOTINO with (1 + Z.of_nat 0).
  destruct (node_file k a (mkfs_image files) Sy Hsb 0 _ _ eq_refl) as (-> & _ & _ & ->). change (negb (T_DIR =? T_DIR)) with false.
  cbn [andb]. by rewrite (root_find _ i _ Nd Hfn).
Qed.

Lemma opens_file (Dev : Devsw) files k c p a bl e i f : fits files -> named (stored_name <$> files) ->
  file_system (a_blk a) (mkfs_image files) -> k_sb k = mkfs_sb -> names None k c p a 2 bl ->
  (size (held (k_inode k)) + 2 <= NINODE)%nat -> files !! i = Some f -> let l := mjoin (hf_reads f) in
  exists j k1 k2, namei (slash :: stored_name f) k e = Done (Some j) k1 e /\ ilock j k1 e = Done tt k2 e
    /\ i_type (inode_at k2 j) = T_FILE /\ i_size (inode_at k2 j) = Z.of_nat (length l)
    /\ forall off n, 0 <= off <= Z.of_nat (length l) -> 0 <= n < 2 ^ 31 -> let r := Z.min n (Z.of_nat (length l) - off) in
       exists k3, readi j off n k2 e = Done (r, take (Z.to_nat r) (drop (Z.to_nat off) l)) k3 e.
Proof.
  intros F Nd Sy Hsb N Hroom Hf l. pose proof (nm_rest _ _ _ _ _ _ _ N) as [Q T M B Hh]. pose proof (lookup_lt_Some _ _ _ Hf) as Hi.
  pose proof (mkfs_tree files k a 2 F Sy Hsb eq_refl Hh M) as Tr.
  assert (D1 : 1 <= ROOTINO <= 1 + Z.of_nat (length files)) by (unfold ROOTINO; lia).
  assert (D2 : 1 <= 2 + Z.of_nat i <= 1 + Z.of_nat (length files)) by lia.
  pose proof (namex_run false (slash :: stored_name f) k c p a 2 bl _ ROOTINO e N Tr eq_refl D1 Hroom) as Hnx.
  rewrite (resolve_name files k a i f F Nd Sy Hsb Hf) in Hnx. destruct Hnx as (j & k1 & E1 & N1 & F1 & _ & x & Hx & Hu).
  pose proof (nm_frame_field k_sb _ _ ltac:(done) F1) as Esb. rewrite Hsb in Esb.
  destruct (walk_lock k1 c p a 2 bl _ j x (2 + Z.of_nat i) e N1 (tree_frame _ _ _ _ _ Tr F1) D2 Hx Hu)
    as (k2 & x2 & E2 & N2 & F2 & _ & H2 & (X1 & X2 & _) & Xt & _ & Xs & Xa).
  assert (Hfi : mkfs_image files !! S i = Some (T_FILE, l)) by (simpl; by rewrite list_lookup_fmap, Hf).
  pose proof (node_file k1 a _ Sy Esb _ _ _ Hfi) as Hnf. replace (1 + Z.of_nat (S i)) with (2 + Z.of_nat i) in Hnf by lia.
  destruct Hnf as (Nt & _ & Ns & Nb). rewrite Nt in Xt. rewrite Ns in Xs. assert (Ei : inode_at k2 j = x2) by (unfold inode_at; by rewrite H2).
  exists j, k1, k2. split; [unfold namei; by run E1|]. split; [done|]. rewrite Ei. split; [done|]. split; [done|]. intros off n Ho Hn r.
  pose proof (image_file k1 a (mkfs_image files) Sy ltac:(simpl; rewrite length_fmap; pose proof (ft_inodes _ F); lia) Esb (S i) Hh
    ltac:(by eapply lookup_lt_Some)) as O. replace (1 + Z.of_nat (S i)) with (2 + Z.of_nat i) in O by lia.
  assert (O2 : file_ok (k_sb k2) 2 a x2).
  { rewrite (nm_frame_field k_sb _ _ ltac:(done) F2). apply (file_ok_like _ _ _ _ _ O); [exact X1|exact X2|congruence|done]. }
  assert (Rd : reads k2 c p a 2 bl (inode_at k2 j)).
  { rewrite Ei. pose proof (nm_rest _ _ _ _ _ _ _ N2) as [Q2 T2 M2 B2 _]. split; try done. by rewrite Hh, dom_empty_L, size_empty. }
  pose proof (fi_size _ _ _ _ O2) as Hsz. unfold MAXFILE in Hsz. rewrite Xs in Hsz.
  destruct (proj2 (readi_run k2 c p j a 2 bl off n e Rd ltac:(rewrite Ei, Xt; done) ltac:(lia) ltac:(lia))) as (k3 & E3 & _);
    rewrite ?Ei; [lia|lia|]. rewrite Ei, Xs in E3. exists k3. rewrite E3. fold r. do 2 f_equal.
  assert (Eb : bytes (a_blk a) x2 = l) by (rewrite <- Nb; apply bytes_like; [done|congruence]). rewrite <- Eb. unfold bytes.
  rewrite <- fbytes_part by (rewrite Xs; lia). by rewrite Z2Nat.id by lia.
Qed.

(** C7: The kernel finds the files that mkfs was given.  The files can be opened, have names without a slash, are at most 198 and fit the image, and with the
    two entries of the directory itself their number is not a multiple of 32.  The names as mkfs stores them, without a leading
    underscore, are not empty, contain no zero byte, and differ in their first 14 characters from each other and from the names of one
    and of two points.  Then on the image that mkfs made, mounted by reading its super block, a path of a slash and the stored name of a
    file leads [namei] to an inode; once [ilock] has read it, it is a file, and
    [readi] returns the bytes of the file of the build machine, from any offset. *)
Theorem mkfs_opens (Dev : Devsw) (io : Z -> bool) (files : list host_file) (h : environment mkfs) (m : mkfs)
    (k : kstate) (c p : nat) (a : cache) (bl : list Z) (e : environment kstate) (i : nat) (f : host_file) :
  (forall b, io b = true) -> fits files -> (2 + Z.of_nat (length files)) mod 32 <> 0 -> named (stored_name <$> files) ->
  main io (Some true) files mkfs_start h = Done tt m h ->
  a_blk a = blk m -> k_sb k = decode_sb (a_blk a 1) -> names None k c p a (sb_logstart (k_sb k)) bl ->
  (size (held (k_inode k)) + 2 <= NINODE)%nat -> files !! i = Some f -> let l := mjoin (hf_reads f) in
  exists j k1 k2, namei (slash :: stored_name f) k e = Done (Some j) k1 e /\ ilock j k1 e = Done tt k2 e
    /\ i_type (inode_at k2 j) = T_FILE /\ i_size (inode_at k2 j) = Z.of_nat (length l)
    /\ forall off n, 0 <= off <= Z.of_nat (length l) -> 0 <= n < 2 ^ 31 -> let r := Z.min n (Z.of_nat (length l) - off) in
       exists k3, readi j off n k2 e = Done (r, take (Z.to_nat r) (drop (Z.to_nat off) l)) k3 e.
Proof.
  intros Hio F Hm Nd Em Ea Esb N Hroom Hf l. destruct (mkfs_system io files h Hio F Hm) as (m' & Em' & _ & Sy).
  rewrite Em in Em'. injection Em' as <-. rewrite <- Ea in Sy. rewrite (fsys_sb _ _ Sy) in Esb. rewrite Esb in N. change (sb_logstart mkfs_sb) with 2 in N.
  apply (opens_file Dev files k c p a bl e i f F Nd Sy Esb N Hroom Hf).
Qed.

(** ** The small machine with an image of mkfs as its disk *)

Lemma empty_table_ok f sb pid : table_ok f sb None pid (replicate NINODE zero_inode).
Proof.
  assert (H : forall i ip, replicate NINODE zero_inode !! i = Some ip -> ip = zero_inode) by (intros i ip Hi; by apply lookup_replicate in Hi as [-> _]).
  split.
  - apply length_replicate.
  - split; [by apply Forall_replicate|]. intros dev inum i j x y Hx _ Ux. by rewrite (H i x Hx) in Ux.
  - intros i ip Hi. by rewrite (H i ip Hi).
  - done.
  - intros i ip Hi. rewrite (H i ip Hi). done.
Qed.

Lemma image_machine d : block_sized d -> exists k, names None k 0 0 (fresh_cache d) 2 [] /\ k_sb k = mkfs_sb
  /\ (size (held (k_inode k)) + 2 <= NINODE)%nat.
Proof.
  intros Hd. destruct (machine_rest d Hd) as (k0 & _ & Q & C & Hl & Hdk & Hs & _).
  set (k := set_k_inode (replicate NINODE zero_inode) (set_k_sb mkfs_sb (upd_log one_more k0))).
  assert (Es : k_disksize k = 1000) by exact Hs. assert (E1000 : u32 1000 = 1000) by done.
  assert (El : k_log k = one_more machine_log) by (unfold k; simpl; by rewrite Hl).
  exists k. split; [|split; [done|by vm_compute; lia]]. split; [|apply empty_table_ok]. split.
  - by apply (quiet_ext k0).
  - split; [by apply (cache_ok_ext k0)| |done|].
    + split; rewrite ?El, ?Es; try done. apply geometry_machine; [unfold LOGSIZE; simpl; lia|constructor..].
    + intros n _. unfold disk_block. change (k_disk k) with (k_disk k0). by rewrite Hdk.
  - split; rewrite ?Es, ?E1000; [simpl; lia|]. intros b Hb. simpl in Hb.
    assert (E : BBLOCK b (k_sb k) = 58) by (unfold BBLOCK, BPB; simpl; rewrite u32_small; div_lia).
    rewrite E. unfold in_range, in_log, LOGSIZE. rewrite Es, E1000. lia.
  - simpl. unfold NBUF. lia.
  - done.
Qed.

Lemma two_files_fit : fits two_files.
Proof. split; [repeat constructor..| |]; vm_compute; try congruence; set_solver. Qed.

Lemma two_files_named : named (stored_name <$> two_files).
Proof.
  split; [|apply (bool_decide_unpack _); by vm_compute|by vm_compute].
  repeat (constructor; [split; [done|repeat (constructor; [lia|]); constructor]|]). constructor.
Qed.

(** The image of two files, mounted. *)
Lemma two_files_mounted : exists m k, main (fun _ => true) (Some true) two_files mkfs_start [] = Done tt m []
  /\ file_system (blk m) (mkfs_image two_files) /\ names None k 0 0 (fresh_cache (m_img m)) 2 [] /\ k_sb k = mkfs_sb
  /\ (size (held (k_inode k)) + 2 <= NINODE)%nat.
Proof.
  destruct (mkfs_system (fun _ => true) two_files [] (fun _ => eq_refl) two_files_fit ltac:(done)) as (m & E & _ & Sy).
  destruct (image_machine (m_img m)) as (k & N & Hsb & Hr); [exact (fsys_block _ _ Sy)|].
  exists m, k. exact (conj E (conj Sy (conj N (conj Hsb Hr)))).
Qed.

Lemma mkfs_opens_witness : exists k j k1 k2 k3, @namei no_devices [slash; 99; 97; 116] k [] = Done (Some j) k1 []
  /\ ilock j k1 [] = Done tt k2 [] /\ @readi no_devices j 0 512 k2 [] = Done (3, [1; 2; 3]) k3 [].
Proof.
  destruct two_files_mounted as (m & k & Em & Sy & N & Hsb & Hr).
  assert (Esb : k_sb k = decode_sb (a_blk (fresh_cache (m_img m)) 1)) by (rewrite Hsb; symmetry; exact (fsys_sb _ _ Sy)).
  assert (N' : names None k 0 0 (fresh_cache (m_img m)) (sb_logstart (k_sb k)) []) by (rewrite Hsb; exact N).
  destruct (mkfs_opens no_devices (fun _ => true) two_files [] m k 0 0 (fresh_cache (m_img m)) [] [] 0 _ (fun _ => eq_refl) two_files_fit
    ltac:(done) two_files_named Em eq_refl Esb N' Hr eq_refl) as (j & k1 & k2 & E1 & E2 & _ & _ & H).
  destruct (H 0 512) as (k3 & E3); [simpl; lia|lia|]. exists k, j, k1, k2, k3. split; [exact E1|]. split; [exact E2|exact E3].
Defined.

(** The name of the second file is found, another one is not. *)
Lemma namei_resolves_witness : exists k j k1 k2, @namei no_devices [slash; 82] k [] = Done (Some j) k1 []
  /\ @namei no_devices [slash; 83] k [] = Done None k2 [].
Proof.
  destruct two_files_mounted as (m & k & Em & Sy & N & Hsb & Hr).
  pose proof (mkfs_tree two_files k (fresh_cache (m_img m)) 2 two_files_fit Sy Hsb eq_refl eq_refl (ar_map _ _ _ _ _ _ (nm_rest _ _ _ _ _ _ _ N))) as T.
  pose proof (proj1 (namei_resolves no_devices [slash; 82] k 0 0 (fresh_cache (m_img m)) 2 [] _ ROOTINO [] N T eq_refl ltac:(vm_compute; split; congruence) Hr)) as H1.
  pose proof (proj1 (namei_resolves no_devices [slash; 83] k 0 0 (fresh_cache (m_img m)) 2 [] _ ROOTINO [] N T eq_refl ltac:(vm_compute; split; congruence) Hr)) as H2.
  change [slash; 82] with (slash :: stored_name (mk_host_file [82] true [replicate 512 7; [8]])) in H1.
  rewrite (resolve_name two_files k (fresh_cache (m_img m)) 1 _ two_files_fit two_files_named Sy Hsb eq_refl) in H1.
  assert (E2 : resolve false (a_blk (fresh_cache (m_img m))) (k_sb k) ROOTINO (elems [slash; 83]) = None).
  { change (elems [slash; 83]) with [[83]]. cbn [resolve]. change ROOTINO with (1 + Z.of_nat 0).
    destruct (node_file k (fresh_cache (m_img m)) (mkfs_image two_files) Sy Hsb 0 _ _ eq_refl) as (-> & _ & _ & ->). by vm_compute. }
  rewrite E2 in H2. destruct H1 as (j & k1 & E1 & _). destruct H2 as (k2 & E2' & _). exists k, j, k1, k2. split; [exact E1|exact E2'].
Defined.
