(* ===== verification/User.v ===== *)
(** * User programs

    A user program is an interaction tree over the system calls of user.h: the
    calls are its events, and a loop of the program is a loop of the tree, so a
    program that never ends is modelled as it is written.  [run] executes a
    program against a model [h] of the system; a call that does not come back
    ([exit], an [exec] that succeeds) ends the run.

    [io] is such a model for programs that read and write streams. *)

From Stdlib Require Import String Ascii ZArith Lia.
From stdpp Require Import base gmap list strings.
From ITree Require Import ITree.
From ITree.Eq Require Shallow.
From S2P Require Import Prelude State Console Fs.

(** ** The system calls

    The declarations of user.h.  A buffer the kernel fills is part of the
    result: [read] gives back the bytes read, [pipe] the two descriptors,
    [fstat] the [struct stat]. *)
Variant sysE : Type -> Type :=
| Sys_fork : sysE Z
| Sys_exit : sysE Empty_set
| Sys_wait : sysE Z
| Sys_pipe : sysE (Z * (Z * Z))
| Sys_write (fd : Z) (data : list Z) : sysE Z
| Sys_read (fd n : Z) : sysE (Z * list Z)
| Sys_close (fd : Z) : sysE Z
| Sys_kill (pid : Z) : sysE Z
| Sys_exec (path : list Z) (argv : list (list Z)) : sysE Z
| Sys_open (path : list Z) (mode : Z) : sysE Z
| Sys_mknod (path : list Z) (major minor : Z) : sysE Z
| Sys_unlink (path : list Z) : sysE Z
| Sys_fstat (fd : Z) : sysE (Z * stat)
| Sys_link (old new : list Z) : sysE Z
| Sys_mkdir (path : list Z) : sysE Z
| Sys_chdir (path : list Z) : sysE Z
| Sys_dup (fd : Z) : sysE Z
| Sys_getpid : sysE Z
| Sys_sbrk (n : Z) : sysE Z
| Sys_sleep (n : Z) : sysE Z
| Sys_uptime : sysE Z
| Sys_cps : sysE Z
| Sys_shm_alloc (size : Z) : sysE Z
| Sys_describe : sysE Z.

Definition O_RDONLY : Z := 0x000.
Definition O_WRONLY : Z := 0x001.
Definition O_RDWR : Z := 0x002.
Definition O_CREATE : Z := 0x200.

Definition prog (A : Type) : Type := itree sysE A.

Declare Scope user_scope.
Delimit Scope user_scope with user.
Notation "x <- m ;; f" := (ITree.bind m (fun x => f))
  (at level 100, m at next level, f at level 200, right associativity) : user_scope.
Notation "m ;; f" := (ITree.bind m (fun _ => f))
  (at level 100, f at level 200, right associativity) : user_scope.

Definition sys {X} (e : sysE X) : prog X := ITree.trigger e.

Open Scope user_scope.

(** [exit] does not return, so what follows it can have any type. *)
Definition exit {A} : prog A := x <- sys Sys_exit;; match x : Empty_set with end.

(** A loop over the elements of a list. *)
Fixpoint each {A} (f : A -> prog unit) (l : list A) : prog unit :=
  match l with
  | [] => Ret tt
  | a :: l => f a;; each f l
  end.

(** A loop over a list whose body can leave it ([break]). *)
Fixpoint each_until {A} (f : A -> prog bool) (l : list A) : prog unit :=
  match l with
  | [] => Ret tt
  | a :: l => go <- f a;; if (go : bool) then each_until f l else Ret tt
  end.

Lemma observe_bind {A B} (p : prog A) (k : A -> prog B) :
  observe (ITree.bind p k)
  = match observe p with
    | RetF a => observe (k a)
    | TauF p => TauF (ITree.bind p k)
    | VisF e q => VisF e (fun x => ITree.bind (q x) k)
    end.
Proof. rewrite Shallow.observe_bind. by destruct (observe p). Qed.

(** ** Running a program

    The system answers a call with its new state and the result, or with no
    result when the call does not return. *)
Section Run.
Context {S : Type} (h : forall X, sysE X -> S -> S * option X).

Inductive result (A : Type) : Type := Returned (a : A) | Exited.
Arguments Returned {A} a.
Arguments Exited {A}.

Fixpoint run {A} (fuel : nat) (p : prog A) (s : S) : option (S * result A) :=
  match fuel with
  | O => None
  | Datatypes.S fuel =>
      match observe p with
      | RetF a => Some (s, Returned a)
      | TauF p => run fuel p s
      | VisF e k =>
          match h _ e s with
          | (s, Some x) => run fuel (k x) s
          | (s, None) => Some (s, Exited)
          end
      end
  end.

(** [p] started in [s] ends in [s'] with [r]. *)
Definition runs {A} (p : prog A) (s s' : S) (r : result A) : Prop :=
  exists fuel, run fuel p s = Some (s', r).

Lemma run_more {A} n m (p : prog A) s x : run n p s = Some x -> (n <= m)%nat -> run m p s = Some x.
Proof.
  revert m p s. induction n as [|n IH]; intros m p s; [done|].
  destruct m as [|m]; [lia|]. simpl. intros H Hm.
  destruct (observe p) as [a|p'|X e k]; [done|apply IH; [done|lia]|].
  destruct (h X e s) as [s1 [x1|]]; [|done]. apply IH; [done|lia].
Qed.

Lemma runs_ret {A} (a : A) s : runs (Ret a) s s (Returned a).
Proof. by exists 1%nat. Qed.

(** Runs are deterministic. *)
Lemma runs_det {A} (p : prog A) s s1 s2 r1 r2 :
  runs p s s1 r1 -> runs p s s2 r2 -> s1 = s2 /\ r1 = r2.
Proof.
  intros [n Hn] [m Hm]. pose proof (run_more _ (n + m) _ _ _ Hn ltac:(lia)) as H1.
  pose proof (run_more _ (n + m) _ _ _ Hm ltac:(lia)) as H2. by simplify_eq.
Qed.

Lemma run_bind {A B} n m (p : prog A) (k : A -> prog B) s s1 a x :
  run n p s = Some (s1, Returned a) -> run m (k a) s1 = Some x ->
  run (n + m) (ITree.bind p k) s = Some x.
Proof.
  revert p s. induction n as [|n IH]; intros p s; [done|]. intros H1 H2.
  cbn [run Nat.add] in *. rewrite observe_bind. destruct (observe p) as [a'|p'|X e q].
  - injection H1 as -> ->. change (run (Datatypes.S (n + m)) (k a) s1 = Some x).
    by apply (run_more m); [|lia].
  - by apply IH.
  - destruct (h X e s) as [s2 [y|]]; [|done]. by apply IH.
Qed.

Lemma runs_bind {A B} (p : prog A) (k : A -> prog B) s s1 a s2 r :
  runs p s s1 (Returned a) -> runs (k a) s1 s2 r -> runs (ITree.bind p k) s s2 r.
Proof. intros [n Hn] [m Hm]. exists (n + m)%nat. by eapply run_bind. Qed.

Lemma runs_bind_exit {A B} (p : prog A) (k : A -> prog B) s s1 :
  runs p s s1 Exited -> runs (ITree.bind p k) s s1 Exited.
Proof.
  intros [n Hn]. exists n. revert p s Hn. induction n as [|n IH]; intros p s; [done|].
  cbn [run]. rewrite observe_bind. destruct (observe p) as [a'|p'|X e q]; [done|apply IH|].
  destruct (h X e s) as [s2 [y|]]; [apply IH|]. by intros [= ->].
Qed.

Lemma runs_sys {X B} (e : sysE X) (k : X -> prog B) s s1 x s2 r :
  h X e s = (s1, Some x) -> runs (k x) s1 s2 r -> runs (ITree.bind (sys e) k) s s2 r.
Proof.
  intros H1 [n Hn]. exists (2 + n)%nat. eapply (run_bind 2); [|exact Hn].
  simpl. by rewrite H1.
Qed.

Lemma runs_iter {I R} (body : I -> prog (I + R)) i s s1 x s2 r :
  runs (body i) s s1 (Returned x) ->
  match x with
  | inl i' => runs (ITree.iter body i') s1 s2 r
  | inr a => s2 = s1 /\ r = Returned a
  end -> runs (ITree.iter body i) s s2 r.
Proof.
  intros H1 H2.
  assert (H : runs (ITree.bind (body i) (fun lr => match lr with inl l => Tau (ITree.iter body l) | inr a => Ret a end)) s s2 r).
  { eapply runs_bind; [exact H1|]. destruct x as [i'|a].
    - destruct H2 as [n Hn]. by exists (Datatypes.S n).
    - destruct H2 as [-> ->]. apply runs_ret. }
  destruct H as [[|n] Hn]; [done|]. by exists (Datatypes.S n).
Qed.

End Run.

Arguments Returned {A} a.
Arguments Exited {A}.

Lemma runs_exit {S A B} (h : forall X, sysE X -> S -> S * option X) (k : A -> prog B) s s' :
  h _ Sys_exit s = (s', None) -> runs h (ITree.bind exit k) s s' Exited.
Proof.
  intros H. apply runs_bind_exit. exists 1%nat. simpl. by rewrite H.
Qed.

(** [u_step H] makes the system call at the head of a program, whose answer is
    [H]. *)
Ltac u_step H := eapply runs_sys; [exact H|]; cbv beta.

(** ** A system of streams

    [io_in] holds, for each descriptor open for reading, what the reads will
    deliver: a list of pieces, a read returning at most one (the whole of a
    file is one piece, what is typed at a terminal or comes through a pipe is
    several).  [io_out] holds what was written to each descriptor, [io_files]
    the files that can be opened.  Calls that concern neither fail. *)
Record io : Type := mk_io {
  io_in : gmap Z (list (list Z));
  io_out : gmap Z (list Z);
  io_files : gmap (list Z) (list Z);
}.

Definition set_in (fd : Z) (cs : list (list Z)) (s : io) : io :=
  mk_io (<[fd := cs]> (io_in s)) (io_out s) (io_files s).

Definition io_write (fd : Z) (l : list Z) (s : io) : io :=
  mk_io (io_in s) (<[fd := default [] (io_out s !! fd) ++ l]> (io_out s)) (io_files s).

(** What is left of the pieces after a read of [n] bytes. *)
Definition pieces_drop (n : nat) (cs : list (list Z)) : list (list Z) :=
  match cs with
  | [] => []
  | c :: cs => if decide (drop n c = []) then cs else drop n c :: cs
  end.

Definition pieces_take (n : nat) (cs : list (list Z)) : list Z := take n (List.hd [] cs).

(** The lowest descriptor not in use. *)
Definition free_fd (s : io) : Z :=
  let used := elements (dom (io_in s) ∪ dom (io_out s)) in
  Z.of_nat (default O (first_index (fun n => bool_decide (Z.of_nat n ∉ used)) (seq 0 (S (length used))))).

Definition io_step (X : Type) (e : sysE X) : io -> io * option X :=
  match e in sysE X return io -> io * option X with
  | Sys_exit => fun s => (s, None)
  | Sys_read fd n => fun s =>
      match io_in s !! fd with
      | None => (s, Some (-1, []))
      | Some cs =>
          let l := pieces_take (Z.to_nat n) cs in
          (set_in fd (pieces_drop (Z.to_nat n) cs) s, Some (Z.of_nat (length l), l))
      end
  | Sys_write fd l => fun s =>
      match io_out s !! fd with
      | None => (s, Some (-1))
      | Some _ => (io_write fd l s, Some (Z.of_nat (length l)))
      end
  | Sys_open path _ => fun s =>
      match io_files s !! path with
      | None => (s, Some (-1))
      | Some c => let fd := free_fd s in (set_in fd (if decide (c = []) then [] else [c]) s, Some fd)
      end
  | Sys_close fd => fun s =>
      (mk_io (delete fd (io_in s)) (delete fd (io_out s)) (io_files s), Some 0)
  | Sys_pipe => fun s => (s, Some (-1, (0, 0)))
  | Sys_fstat _ => fun s => (s, Some (-1, mk_stat 0 0 0 0 0))
  | Sys_fork | Sys_wait | Sys_kill _ | Sys_exec _ _ | Sys_mknod _ _ _ | Sys_unlink _ | Sys_link _ _
  | Sys_mkdir _ | Sys_chdir _ | Sys_dup _ | Sys_getpid | Sys_sbrk _ | Sys_sleep _ | Sys_uptime
  | Sys_cps | Sys_shm_alloc _ | Sys_describe => fun s => (s, Some (-1))
  end.

Abbreviation io_runs := (runs io_step).

Definition nonempty {A} (l : list A) : Prop := l <> [].

Lemma io_write_nil fd s l : io_out s !! fd = Some l -> io_write fd [] s = s.
Proof. intros H. destruct s as [i o f]. unfold io_write. simpl in *. by rewrite H, app_nil_r, insert_id. Qed.

Lemma io_write_app fd l1 l2 s : io_write fd l2 (io_write fd l1 s) = io_write fd (l1 ++ l2) s.
Proof.
  unfold io_write. simpl. rewrite lookup_insert_eq, insert_insert_eq. simpl. by rewrite (assoc_L (++)).
Qed.

Lemma io_write_cons fd c l s : io_write fd l (io_write fd [c] s) = io_write fd (c :: l) s.
Proof. apply io_write_app. Qed.

Lemma is_Some_io_write fd fd' l s : is_Some (io_out s !! fd) -> is_Some (io_out (io_write fd' l s) !! fd).
Proof. simpl. rewrite lookup_insert. case_decide; [eauto|done]. Qed.

(** A write to an open descriptor. *)
Lemma io_runs_write {B} fd l (k : Z -> prog B) s s' r :
  is_Some (io_out s !! fd) -> io_runs (k (Z.of_nat (length l))) (io_write fd l s) s' r ->
  io_runs (ITree.bind (sys (Sys_write fd l)) k) s s' r.
Proof.
  intros [o Ho] H. eapply runs_sys; [|exact H]. simpl. by rewrite Ho.
Qed.

Lemma io_runs_read {B} fd n cs (k : Z * list Z -> prog B) s s' r :
  io_in s !! fd = Some cs ->
  io_runs (k (Z.of_nat (length (pieces_take (Z.to_nat n) cs)), pieces_take (Z.to_nat n) cs))
    (set_in fd (pieces_drop (Z.to_nat n) cs) s) s' r ->
  io_runs (ITree.bind (sys (Sys_read fd n)) k) s s' r.
Proof.
  intros Hc H. eapply runs_sys; [|exact H]. simpl. by rewrite Hc.
Qed.

(** Reading drains the pieces: a read returns something as long as there is
    something, and what it returns is the front of the stream. *)
Lemma pieces_read n cs :
  (0 < n)%nat -> Forall nonempty cs ->
  concat cs = pieces_take n cs ++ concat (pieces_drop n cs)
  /\ Forall nonempty (pieces_drop n cs)
  /\ (cs <> [] -> pieces_take n cs <> []).
Proof.
  intros Hn Hc. unfold pieces_take, pieces_drop. destruct Hc as [|c cs H1 H2]; simpl; [by rewrite take_nil|].
  split; [|split].
  - rewrite <- (take_drop n c) at 1. case_decide as E; [by rewrite E, app_nil_r|].
    simpl. by rewrite (assoc_L (++)).
  - case_decide; [done|by constructor].
  - intros _. destruct c; [by destruct H1|]. by destruct n; [lia|].
Qed.
