(* ===== verification/Ulib.v ===== *)
(** * The user library: strings, input lines and printf (ulib.c, printf.c)

    A C string is the list of its bytes, without the terminating zero; the
    routines that move bytes work on the byte memory.  [printf] writes its output
    one byte per system call, as the code does. *)

From Stdlib Require Import String Ascii ZArith Lia.
From stdpp Require Import base gmap list strings.
From ITree Require Import ITree.
From S2P Require Import Prelude Memory State Console CString ConsoleSpec Fs User.

Open Scope user_scope.

(** ** ulib.c *)

(** The C string at the start of a buffer. *)
Fixpoint cstr (l : list Z) : list Z :=
  match l with
  | [] => []
  | c :: l => if c =? 0 then [] else c :: cstr l
  end.

(** The loop ends with the byte it copies being zero; [fuel] bounds it. *)
Fixpoint strcpy (fuel : nat) (s t : Z) (m : gmap Z Z) : option (gmap Z Z) :=
  match fuel with
  | O => None
  | S fuel =>
      let c := load8 m t in
      let m := store8 s c m in
      if c =? 0 then Some m else strcpy fuel (s + 1) (t + 1) m
  end.

Fixpoint strcmp (p q : list Z) : Z :=
  match p, q with
  | [], [] => 0
  | [], c :: _ => 0 - c
  | c :: _, [] => c
  | c :: p, d :: q => if c =? d then strcmp p q else c - d
  end.

Definition strlen (s : list Z) : Z := Z.of_nat (length s).

Definition memset (dst c n : Z) (m : gmap Z Z) : gmap Z Z := stosb dst c (Z.to_nat n) m.

(** The tail of the string from the first [c], if there is one. *)
Fixpoint strchr (s : list Z) (c : Z) : option (list Z) :=
  match s with
  | [] => None
  | d :: s' => if d =? c then Some s else strchr s' c
  end.

(** The loop of [gets] with room for [n] more bytes. *)
Fixpoint gets_loop (n : nat) : prog (list Z) :=
  match n with
  | O => Ret []
  | S n =>
      r <- sys (Sys_read 0 1);;
      let '(cc, l) := r in
      if cc <? 1 then Ret [] else
      let c := List.hd 0 l in
      if (c =? NL) || (c =? CR) then Ret [c] else
      rest <- gets_loop n;; Ret (c :: rest)
  end.

(** The string left in [buf]. *)
Definition gets (max : Z) : prog (list Z) := gets_loop (Z.to_nat (max - 1)).

Definition stat (n : list Z) : prog (Z * Fs.stat) :=
  fd <- sys (Sys_open n O_RDONLY);;
  if fd <? 0 then Ret (-1, mk_stat 0 0 0 0 0) else
  r <- sys (Sys_fstat fd);;
  sys (Sys_close fd);;
  Ret r.

(** The loop of [atoi] on an [int]. *)
Fixpoint atoi_loop (s : list Z) (n : Z) : Z :=
  match s with
  | [] => n
  | c :: s => if (48 <=? c) && (c <=? 57) then atoi_loop s (s32 (n * 10 + c - 48)) else n
  end.

Definition atoi (s : list Z) : Z := atoi_loop s 0.

(** Always upwards. *)
Definition memmove (vdst vsrc n : Z) (m : gmap Z Z) : gmap Z Z := copy_up vdst vsrc (Z.to_nat n) m.

(** ** printf.c *)

Definition putc (fd c : Z) : prog unit := sys (Sys_write fd [u8 c]);; Ret tt.

Definition udigits : list Z := chars "0123456789ABCDEF".

Fixpoint uprint_digits (fuel : nat) (x base : Z) : list Z :=
  match fuel with
  | O => []
  | S fuel =>
      default 0 (udigits !! Z.to_nat (x mod base))
      :: (if x / base =? 0 then [] else uprint_digits fuel (x / base) base)
  end.

(** [buf] from its end. *)
Definition uprintint_chars (xx base sgn : Z) : list Z :=
  let neg := truth sgn && (xx <? 0) in
  let x := if neg then u32 (- xx) else u32 xx in
  let buf := uprint_digits 32 x base in
  rev (if neg then buf ++ [ch "-"] else buf).

Definition printint (fd xx base sgn : Z) : prog unit := each (putc fd) (uprintint_chars xx base sgn).

(** The loop over the format; [state] is 0 or the character [%]. *)
Fixpoint printf_loop (fd : Z) (fmt : list Z) (state : Z) (ap : list farg) : prog unit :=
  match fmt with
  | [] => Ret tt
  | c :: fmt =>
      if state =? 0 then
        if c =? ch "%" then printf_loop fd fmt (ch "%") ap
        else putc fd c;; printf_loop fd fmt 0 ap
      else
        let arg := List.hd (FInt 0) ap in
        if c =? ch "d" then printint fd (s32 (farg_int arg)) 10 1;; printf_loop fd fmt 0 (List.tl ap)
        else if (c =? ch "x") || (c =? ch "p") then
          printint fd (s32 (farg_int arg)) 16 0;; printf_loop fd fmt 0 (List.tl ap)
        else if c =? ch "s" then each (putc fd) (farg_str arg);; printf_loop fd fmt 0 (List.tl ap)
        else if c =? ch "c" then putc fd (farg_int arg);; printf_loop fd fmt 0 (List.tl ap)
        else if c =? ch "%" then putc fd c;; printf_loop fd fmt 0 ap
        else putc fd (ch "%");; putc fd c;; printf_loop fd fmt 0 ap
  end.

Definition printf (fd : Z) (fmt : string) (ap : list farg) : prog unit :=
  printf_loop fd (chars fmt) 0 ap.

(** ** Searching and comparing *)

Lemma cstr_id l : (0 ∉ l) -> cstr l = l.
Proof.
  induction l as [|c l IH]; simpl; [done|]. rewrite not_elem_of_cons. intros [H1 H2].
  destruct (Z.eqb_spec c 0); [congruence|]. by rewrite IH.
Qed.

Lemma strchr_None s c : strchr s c = None <-> (c ∉ s).
Proof.
  induction s as [|d s IH]; simpl; [split; [intros _; apply not_elem_of_nil|done]|].
  rewrite not_elem_of_cons, <- IH. destruct (Z.eqb_spec d c); naive_solver.
Qed.

Lemma strchr_Some s c r : strchr s c = Some r -> exists l, s = l ++ r /\ (c ∉ l) /\ List.hd 0 r = c /\ r <> [].
Proof.
  induction s as [|d s IH]; simpl; [done|]. destruct (Z.eqb_spec d c) as [->|Hd].
  - intros [= <-]. exists []. split_and!; [done|apply not_elem_of_nil|done..].
  - intros (l & -> & H1 & H2 & H3)%IH. exists (d :: l). split_and!; [done| |done..].
    apply not_elem_of_cons. naive_solver.
Qed.

Lemma strcmp_eq p q : Forall (fun c => c <> 0) p -> Forall (fun c => c <> 0) q -> strcmp p q = 0 <-> p = q.
Proof.
  intros Hp. revert q. induction Hp as [|c p Hc Hp IH]; intros q Hq; destruct Hq as [|d q Hd Hq]; simpl.
  - done.
  - split; [lia|done].
  - split; [lia|done].
  - destruct (Z.eqb_spec c d) as [->|Hn]; [rewrite IH by done; naive_solver|].
    split; [lia|by intros [= -> _]].
Qed.

(** ** Output *)

Lemma io_runs_putc {B} fd c (k : prog B) s s' r :
  is_Some (io_out s !! fd) -> io_runs k (io_write fd [u8 c] s) s' r -> io_runs (putc fd c;; k) s s' r.
Proof.
  intros Ho H. eapply runs_bind; [|exact H]. unfold putc. apply io_runs_write; [done|]. apply runs_ret.
Qed.

Lemma io_runs_each_putc {B} fd l (k : prog B) s s' r :
  is_Some (io_out s !! fd) -> io_runs k (io_write fd (u8 <$> l) s) s' r ->
  io_runs (each (putc fd) l;; k) s s' r.
Proof.
  intros Ho H. eapply runs_bind; [|exact H]. clear H. revert s Ho.
  induction l as [|c l IH]; intros s Ho; cbn [each fmap list_fmap].
  - destruct Ho as [o Ho]. rewrite (io_write_nil _ _ _ Ho). apply runs_ret.
  - apply io_runs_putc; [done|]. rewrite <- (io_write_cons _ _ (u8 <$> _)).
    apply IH. by apply is_Some_io_write.
Qed.

(** What [printf] prints. *)
Fixpoint format (fmt : list Z) (state : Z) (ap : list farg) : list Z :=
  match fmt with
  | [] => []
  | c :: fmt =>
      if state =? 0 then if c =? ch "%" then format fmt (ch "%") ap else c :: format fmt 0 ap
      else
        let arg := List.hd (FInt 0) ap in
        if c =? ch "d" then uprintint_chars (s32 (farg_int arg)) 10 1 ++ format fmt 0 (List.tl ap)
        else if (c =? ch "x") || (c =? ch "p") then
          uprintint_chars (s32 (farg_int arg)) 16 0 ++ format fmt 0 (List.tl ap)
        else if c =? ch "s" then farg_str arg ++ format fmt 0 (List.tl ap)
        else if c =? ch "c" then farg_int arg :: format fmt 0 (List.tl ap)
        else if c =? ch "%" then c :: format fmt 0 ap
        else ch "%" :: c :: format fmt 0 ap
  end.

Lemma io_runs_printf_loop fd fmt : forall state ap s,
  is_Some (io_out s !! fd) ->
  io_runs (printf_loop fd fmt state ap) s (io_write fd (u8 <$> format fmt state ap) s) (Returned tt).
Proof.
  induction fmt as [|c fmt IH]; intros state ap s Ho; cbn [printf_loop format].
  - destruct Ho as [o Ho]. rewrite (io_write_nil _ _ _ Ho : io_write fd (u8 <$> []) s = s). apply runs_ret.
  - assert (P : forall l st ap', io_runs (each (putc fd) l;; printf_loop fd fmt st ap') s
        (io_write fd (u8 <$> l ++ format fmt st ap') s) (Returned tt)).
    { intros l st ap'. apply io_runs_each_putc; [done|]. rewrite fmap_app, <- io_write_app.
      by apply IH, is_Some_io_write. }
    assert (P1 : forall c st ap', io_runs (putc fd c;; printf_loop fd fmt st ap') s
        (io_write fd (u8 <$> c :: format fmt st ap') s) (Returned tt)).
    { intros c' st ap'. apply io_runs_putc; [done|]. rewrite fmap_cons, <- (io_write_cons _ _ (u8 <$> _)).
      by apply IH, is_Some_io_write. }
    destruct (state =? 0); [destruct (c =? ch "%"); [by apply IH|apply P1]|].
    cbv zeta. destruct (c =? ch "d"); [apply P|]. destruct (_ || _); [apply P|].
    destruct (c =? ch "s"); [apply P|]. destruct (c =? ch "c"); [apply P1|].
    destruct (c =? ch "%"); [apply P1|]. apply io_runs_putc; [done|].
    rewrite fmap_cons, <- (io_write_cons _ _ (u8 <$> _)). apply io_runs_putc; [by apply is_Some_io_write|].
    rewrite fmap_cons, <- (io_write_cons _ _ (u8 <$> _)). by apply IH, is_Some_io_write, is_Some_io_write.
Qed.

(** ** Numbers *)

Lemma udigits_low d : 0 <= d < 10 -> udigits !! Z.to_nat d = digits !! Z.to_nat d.
Proof.
  intros H. assert (exists n, d = Z.of_nat n /\ (n < 10)%nat) as (n & -> & Hn) by (exists (Z.to_nat d); lia).
  rewrite Nat2Z.id. do 10 (destruct n as [|n]; [done|]). lia.
Qed.

(** In base 10 the two [printint] print the same. *)
Lemma uprint_digits_10 fuel : forall x, uprint_digits fuel x 10 = print_digits fuel x 10.
Proof.
  induction fuel as [|fuel IH]; intros x; simpl; [done|]. rewrite IH.
  by rewrite udigits_low by (apply Z.mod_pos_bound; lia).
Qed.

Lemma read_number_ge l : forall n, Forall (is_digit 10) l -> 0 <= n ->
  n <= fold_left (fun a c => a * 10 + digit_val c) l n.
Proof.
  induction l as [|c l IH]; intros n Hl Hn; simpl; [lia|]. apply Forall_cons in Hl as [[Hc _] Hl].
  specialize (IH (n * 10 + digit_val c) Hl ltac:(lia)). lia.
Qed.

(** [atoi] reads decimal numerals, as long as the number fits an [int]. *)
Lemma atoi_loop_reads l : forall n, Forall (is_digit 10) l -> 0 <= n ->
  fold_left (fun a c => a * 10 + digit_val c) l n < 2 ^ 31 ->
  atoi_loop l n = fold_left (fun a c => a * 10 + digit_val c) l n.
Proof.
  induction l as [|c l IH]; intros n Hl Hn Hv; simpl; [done|]. apply Forall_cons in Hl as [[Hc Hr] Hl].
  assert (Hc' : 48 <= c <= 57) by (unfold digit_val in Hc; destruct (Z.leb_spec c 57); lia).
  assert (Ed : digit_val c = c - 48) by (unfold digit_val; destruct (Z.leb_spec c 57); lia).
  replace ((48 <=? c) && (c <=? 57)) with true by (symmetry; lia).
  cbn [fold_left] in Hv. pose proof (read_number_ge l (n * 10 + digit_val c) Hl ltac:(lia)).
  rewrite s32_small by lia. replace (n * 10 + c - 48) with (n * 10 + digit_val c) by lia.
  apply IH; [done|lia|done].
Qed.

(** What [printf] prints with [%d], [atoi] reads.  For every non-negative
    [int] the bytes that [printf] writes are a numeral of which [atoi] returns
    the number. *)
Theorem printf_atoi (fd x : Z) (s : io) :
  0 <= x < 2 ^ 31 -> is_Some (io_out s !! fd) ->
  exists l, io_runs (printf fd "%d" [FInt x]) s (io_write fd l s) (Returned tt) /\ atoi l = x.
Proof.
  intros Hx Ho. exists (uprintint_chars x 10 1).
  assert (Hb : 0 <= x < 10 ^ Z.of_nat 32) by (simpl; lia).
  destruct (print_digits_ok 32 x 10 ltac:(lia) Hb ltac:(lia)) as (D1 & D2 & _).
  assert (E : uprintint_chars x 10 1 = rev (print_digits 32 x 10)).
  { unfold uprintint_chars. rewrite (proj2 (Z.ltb_ge x 0)) by lia. rewrite andb_false_r. cbv zeta.
    rewrite u32_small, uprint_digits_10 by lia. done. }
  pose proof (Forall_rev D2) as D2'. split.
  - pose proof (io_runs_printf_loop fd (chars "%d") 0 [FInt x] s Ho) as H.
    change (format (chars "%d") 0 [FInt x]) with (uprintint_chars (s32 x) 10 1 ++ []) in H.
    rewrite s32_small, app_nil_r in H by lia.
    replace (u8 <$> uprintint_chars x 10 1) with (uprintint_chars x 10 1) in H; [exact H|].
    rewrite E. symmetry. etrans; [|apply list_fmap_id]. apply list_fmap_ext. intros i c Hc. eapply Forall_lookup_1 in D2' as [_ Hr]; [|exact Hc].
    change (u8 c = c). unfold u8. apply Z.mod_small. lia.
  - rewrite E. unfold atoi. rewrite atoi_loop_reads; [|done|lia|]; rewrite <- fold_left_rev_right, rev_involutive, D1; lia.
Qed.

Lemma printf_atoi_witness :
  let s := mk_io ∅ {[1 := []]} ∅ in
  exists l, io_runs (printf 1 "%d" [FInt 4096]) s (io_write 1 l s) (Returned tt) /\ atoi l = 4096.
Proof. intros s. apply (printf_atoi 1 4096 s); [lia|by exists []]. Defined.
