(* ===== verification/Grep.v ===== *)
(** * grep (grep.c)

    The matcher of Kernighan and Pike against the language its pattern denotes,
    and the program that prints the matching lines of its input. *)

From Stdlib Require Import String Ascii ZArith Lia.
From stdpp Require Import base gmap list strings.
From ITree Require Import ITree.
From S2P Require Import Prelude State Console Fs User Ulib.

Open Scope user_scope.

(** ** The matcher

    [matchhere] recurses on the pattern; [matchstar] on the text, with [m] the
    [matchhere] of the rest of the pattern. *)

Fixpoint matchstar (m : list Z -> bool) (c : Z) (text : list Z) : bool :=
  if m text then true
  else match text with
  | [] => false
  | t :: text => if (t =? c) || (c =? ch ".") then matchstar m c text else false
  end.

Fixpoint matchhere (re text : list Z) : bool :=
  match re with
  | [] => true
  | c :: re1 =>
      let go :=
        if (c =? ch "$") && bool_decide (re1 = []) then bool_decide (text = [])
        else match text with
        | [] => false
        | t :: text => if (c =? ch ".") || (c =? t) then matchhere re1 text else false
        end in
      match re1 with
      | star :: re2 => if star =? ch "*" then matchstar (matchhere re2) c text else go
      | [] => go
      end
  end.

(** The [do ... while] loop of [match]. *)
Fixpoint match_from (re text : list Z) : bool :=
  if matchhere re text then true
  else match text with [] => false | _ :: text => match_from re text end.

Definition match_re (re text : list Z) : bool :=
  match re with
  | c :: re1 => if c =? ch "^" then matchhere re1 text else match_from re text
  | [] => match_from re text
  end.

(** ** The program *)

Definition GREPBUF : Z := 1024.

(** The loop over the lines in [buf] from [p] on; it leaves what follows the
    last newline.  Each round takes a byte at least, so the length of the
    buffer bounds it. *)
Fixpoint grep_lines (fuel : nat) (pattern p : list Z) : prog (list Z) :=
  match fuel with
  | O => Ret p
  | S fuel =>
      match first_index (fun c => c =? NL) (cstr p) with
      | None => Ret p
      | Some i =>
          let line := take i p in
          (if match_re pattern line then sys (Sys_write 1 (line ++ [NL]));; Ret tt else Ret tt);;
          grep_lines fuel pattern (drop (S i) p)
      end
  end.

(** One round of the loop on [read], with [m] bytes kept in [buf]. *)
Definition grep_body (pattern : list Z) (fd : Z) (kept : list Z) : prog (list Z + unit) :=
  let m := Z.of_nat (length kept) in
  r <- sys (Sys_read fd (GREPBUF - m - 1));;
  let '(n, data) := r in
  if n <=? 0 then Ret (inr tt) else
  let buf := kept ++ data in
  p <- grep_lines (length buf) pattern buf;;
  Ret (inl (if bool_decide (length p = length buf) then [] else p)).

Definition grep (pattern : list Z) (fd : Z) : prog unit := ITree.iter (grep_body pattern fd) [].

Definition grep_main (argv : list (list Z)) : prog unit :=
  match argv with
  | _ :: pattern :: [] => grep pattern 0;; exit
  | _ :: pattern :: files =>
      each (fun f =>
        fd <- sys (Sys_open f 0);;
        (if fd <? 0 then printf 1 ("grep: cannot open %s" ++ newline) [FStr (Some f)];; exit else Ret tt);;
        grep pattern fd;;
        sys (Sys_close fd);; Ret tt) files;;
      exit
  | _ => printf 2 ("usage: grep pattern [file ...]" ++ newline) [];; exit
  end.

(** ** The language of a pattern

    A pattern is a sequence of items, each a character or a repeated character
    (a point stands for any), perhaps tied to the start and to the end of the
    line. *)
Inductive item : Type := One (c : Z) | Many (c : Z).

Definition fits (c t : Z) : Prop := c = ch "." \/ c = t.

Inductive denotes : list item -> list Z -> Prop :=
| denotes_nil : denotes [] []
| denotes_one c t items l : fits c t -> denotes items l -> denotes (One c :: items) (t :: l)
| denotes_many c ts items l : Forall (fits c) ts -> denotes items l -> denotes (Many c :: items) (ts ++ l).

(** The items of a pattern and whether a final [$] ties it to the end. *)
Fixpoint items_of (re : list Z) : list item * bool :=
  match re with
  | [] => ([], false)
  | c :: re1 =>
      let go :=
        if (c =? ch "$") && bool_decide (re1 = []) then ([], true)
        else let '(items, e) := items_of re1 in (One c :: items, e) in
      match re1 with
      | star :: re2 => if star =? ch "*" then let '(items, e) := items_of re2 in (Many c :: items, e) else go
      | [] => go
      end
  end.

(** The pattern matches at the start of [text]. *)
Definition prefix_in (re text : list Z) : Prop :=
  exists mid post, text = mid ++ post /\ denotes (items_of re).1 mid /\ ((items_of re).2 = true -> post = []).

Lemma fits_spec c t : (c =? ch ".") || (c =? t) = true <-> fits c t.
Proof. unfold fits. rewrite orb_true_iff, !Z.eqb_eq. done. Qed.

Lemma matchstar_spec m c text :
  matchstar m c text = true <-> exists ts rest, text = ts ++ rest /\ Forall (fits c) ts /\ m rest = true.
Proof.
  induction text as [|t text IH]; simpl.
  - destruct (m []) eqn:E; split; [intros _; by exists [], []|done..|].
    intros (ts & rest & [-> ->]%symmetry%app_nil & _ & H). congruence.
  - destruct (m (t :: text)) eqn:E.
    { split; [|done]. intros _. by exists [], (t :: text). }
    rewrite orb_comm, (Z.eqb_sym t c). destruct (_ || _) eqn:F.
    + apply fits_spec in F. rewrite IH. split.
      * intros (ts & rest & -> & H1 & H2). exists (t :: ts), rest. split_and!; [done|by constructor|done].
      * intros ([|t' ts] & rest & H & H1 & H2); simpl in H; [congruence|]. injection H as <- ->.
        apply Forall_cons in H1 as [_ H1]. by exists ts, rest.
    + split; [done|]. intros ([|t' ts] & rest & H & H1 & H2); simpl in H; [congruence|].
      injection H as <- ->. apply Forall_cons in H1 as [H1 _]. apply fits_spec in H1. congruence.
Qed.

Lemma prefix_in_one c re1 text :
  (exists t rest, text = t :: rest /\ fits c t /\ prefix_in re1 rest) <->
  exists mid post, text = mid ++ post /\ denotes (One c :: (items_of re1).1) mid
    /\ ((items_of re1).2 = true -> post = []).
Proof.
  split.
  - intros (t & rest & -> & F & mid & post & -> & H1 & H2). exists (t :: mid), post.
    split_and!; [done|by constructor|done].
  - intros (mid & post & -> & H1 & H2). inversion H1; subst. eexists _, _. split_and!; [done|done|].
    by eexists _, _.
Qed.

Lemma matchhere_spec re : forall text, matchhere re text = true <-> prefix_in re text.
Proof.
  induction re as [re IH] using (induction_ltof1 _ (@length Z)); unfold ltof in IH. intros text.
  destruct re as [|c re1].
  { split; [|done]. intros _. exists [], text. split_and!; [done|constructor|done]. }
  assert (Go : forall (g : bool) its,
     g = (if (c =? ch "$") && bool_decide (re1 = []) then bool_decide (text = [])
          else match text with [] => false | t :: text => if (c =? ch ".") || (c =? t) then matchhere re1 text else false end) ->
     its = (if (c =? ch "$") && bool_decide (re1 = []) then ([], true)
        else let '(items, e) := items_of re1 in (One c :: items, e)) ->
     g = true <-> exists mid post, text = mid ++ post /\ denotes its.1 mid /\ (its.2 = true -> post = [])).
  { intros g its -> ->. destruct (_ && _).
    - rewrite bool_decide_eq_true. split.
      + intros ->. exists [], []. split_and!; [done|constructor|done].
      + intros (mid & post & -> & H1 & H2). inversion H1. by rewrite H2.
    - destruct (items_of re1) as [items e] eqn:Ei.
      pose proof (prefix_in_one c re1 text) as P. rewrite Ei in P. simpl in *. rewrite <- P. clear P.
      destruct text as [|t text]; [naive_solver|].
      specialize (IH re1 ltac:(simpl; lia) text). destruct (_ || _) eqn:F.
      + apply fits_spec in F. rewrite IH. naive_solver.
      + split; [done|]. intros (t' & rest & [= <- <-] & H & _). apply fits_spec in H. congruence. }
  unfold prefix_in. cbn [matchhere items_of]. destruct re1 as [|star re2]; [by apply Go|].
  destruct (star =? ch "*"); [|by apply Go].
  destruct (items_of re2) as [items e] eqn:Ei. rewrite matchstar_spec. simpl.
  split.
  - intros (ts & rest & -> & H1 & H2). apply IH in H2 as (mid & post & -> & H2 & H3); [|simpl; lia].
    rewrite Ei in H2, H3. exists (ts ++ mid), post. split_and!; [by rewrite (assoc_L (++))|by constructor|done].
  - intros (mid & post & -> & H1 & H2). inversion H1; subst. exists ts, (l ++ post).
    split_and!; [by rewrite (assoc_L (++))|done|]. apply IH; [simpl; lia|]. exists l, post. by rewrite Ei.
Qed.

Lemma match_from_spec re text : match_from re text = true <-> exists pre rest, text = pre ++ rest /\ prefix_in re rest.
Proof.
  induction text as [|t text IH]; simpl; destruct (matchhere re _) eqn:E.
  - split; [|done]. intros _. exists [], []. split; [done|]. by apply matchhere_spec.
  - split; [done|]. intros (pre & rest & [-> ->]%symmetry%app_nil & H). apply matchhere_spec in H. congruence.
  - split; [|done]. intros _. exists [], (t :: text). split; [done|]. by apply matchhere_spec.
  - rewrite IH. split.
    + intros (pre & rest & -> & H). by exists (t :: pre), rest.
    + intros ([|t' pre] & rest & H1 & H2); simpl in H1; [|injection H1 as <- ->; by exists pre, rest].
      subst. apply matchhere_spec in H2. congruence.
Qed.

(** C26: [match] decides the language of its pattern.  It answers 1 exactly when
    some part of the line is denoted by the items of the pattern, that part
    starting the line when the pattern begins with [^] and ending it when the
    pattern ends with [$]. *)
Theorem match_decides (re text : list Z) :
  let tied := bool_decide (List.hd 0 re = ch "^") in
  let re' := if tied then List.tl re else re in
  match_re re text = true <->
  exists pre mid post, text = pre ++ mid ++ post /\ denotes (items_of re').1 mid
    /\ (tied = true -> pre = []) /\ ((items_of re').2 = true -> post = []).
Proof.
  intros tied re'.
  assert (E : match_re re text = if tied then matchhere re' text else match_from re' text).
  { unfold re', tied, match_re. destruct re as [|c re1]; [done|]. simpl.
    destruct (Z.eqb_spec c (ch "^")); case_bool_decide; done. }
  rewrite E. clearbody re'. clear E. destruct tied.
  - rewrite matchhere_spec. split.
    + intros (mid & post & -> & H1 & H2). by exists [], mid, post.
    + intros (pre & mid & post & -> & H1 & H2 & H3). rewrite (H2 eq_refl). by exists mid, post.
  - rewrite match_from_spec. split.
    + intros (pre & rest & -> & mid & post & -> & H1 & H2). by exists pre, mid, post.
    + intros (pre & mid & post & -> & H1 & H2 & H3). exists pre, (mid ++ post). split; [done|]. by exists mid, post.
Qed.

(** ** The lines of a text

    The lines that end with a newline, without it, and what follows the last
    newline. *)
Fixpoint split_lines (l : list Z) : list (list Z) * list Z :=
  match l with
  | [] => ([], [])
  | c :: l =>
      let '(ls, r) := split_lines l in
      if c =? NL then ([] :: ls, r)
      else match ls with
      | [] => ([], c :: r)
      | x :: xs => ((c :: x) :: xs, r)
      end
  end.

Definition lines_of (l : list Z) : list (list Z) := (split_lines l).1.
Definition tail_of (l : list Z) : list Z := (split_lines l).2.

(** What [grep] should print. *)
Definition selected (pattern : list Z) (ls : list (list Z)) : list Z :=
  concat ((fun l => l ++ [NL]) <$> filter (fun l => match_re pattern l = true) ls).

Lemma split_lines_app l r : (NL ∉ l) ->
  split_lines (l ++ NL :: r) = (l :: lines_of r, tail_of r).
Proof.
  induction l as [|c l IH]; simpl; intros H.
  - unfold lines_of, tail_of. by destruct (split_lines r).
  - apply not_elem_of_cons in H as [H1 H2]. rewrite IH by done. destruct (Z.eqb_spec c NL); [congruence|done].
Qed.

Lemma split_lines_none l : (NL ∉ l) -> split_lines l = ([], l).
Proof.
  induction l as [|c l IH]; simpl; intros H; [done|]. apply not_elem_of_cons in H as [H1 H2].
  rewrite IH by done. by destruct (Z.eqb_spec c NL).
Qed.

(** Splitting in two steps: the tail of the first part goes with the second. *)
Lemma split_lines_cat l r :
  lines_of (l ++ r) = lines_of l ++ lines_of (tail_of l ++ r) /\ tail_of (l ++ r) = tail_of (tail_of l ++ r).
Proof.
  unfold lines_of, tail_of. induction l as [|c l IH]; simpl; [done|].
  destruct (split_lines (l ++ r)) as [ls t] eqn:E, (split_lines l) as [ls1 t1] eqn:E1. simpl in IH.
  destruct IH as [I1 I2]. destruct (c =? NL) eqn:Ec; simpl; [by rewrite I1, I2|].
  destruct ls1 as [|x xs]; simpl in *.
  - rewrite Ec. destruct (split_lines (t1 ++ r)) as [ls2 t2]. simpl in *. subst. by destruct ls2.
  - by rewrite I1, I2.
Qed.

Lemma split_lines_nil_inv l : lines_of l = [] -> tail_of l = l /\ (NL ∉ l).
Proof.
  unfold lines_of, tail_of. induction l as [|c l IH]; simpl; [split; [done|apply not_elem_of_nil]|].
  destruct (split_lines l) as [ls t]. simpl in IH. destruct (Z.eqb_spec c NL); [done|].
  destruct ls; [|done]. intros _. destruct IH as [<- IH]; [done|]. split; [done|]. by apply not_elem_of_cons.
Qed.

Lemma length_tail_of l : lines_of l <> [] -> (length (tail_of l) < length l)%nat.
Proof.
  unfold lines_of, tail_of. induction l as [|c l IH]; simpl; [done|].
  pose proof (split_lines_nil_inv l) as N. unfold lines_of, tail_of in N.
  destruct (split_lines l) as [ls t]. simpl in *. destruct (c =? NL).
  - intros _. simpl. destruct ls; [destruct N as [-> _]; [done|]; lia|]. specialize (IH ltac:(done)). lia.
  - destruct ls; [done|]. intros _. specialize (IH ltac:(done)). simpl. lia.
Qed.

(** The loop over the lines of the buffer. *)
Lemma grep_lines_runs pattern : forall fuel p s,
  (length p <= fuel)%nat -> (0 ∉ p) -> is_Some (io_out s !! 1) ->
  io_runs (grep_lines fuel pattern p) s (io_write 1 (selected pattern (lines_of p)) s) (Returned (tail_of p)).
Proof.
  induction fuel as [|fuel IH]; intros p s Hf Hz Ho.
  { destruct p; [|simpl in Hf; lia]. destruct Ho as [o Ho].
    change (io_runs (Ret (@nil Z)) s (io_write 1 [] s) (Returned [])). rewrite (io_write_nil _ _ _ Ho). apply runs_ret. }
  cbn [grep_lines]. rewrite cstr_id by done. destruct (first_index (fun c => c =? NL) p) as [i|] eqn:Ei.
  - apply first_index_Some in Ei as (c & Hi & Hc & Hb). apply Z.eqb_eq in Hc as ->.
    assert (Hl : NL ∉ take i p).
    { intros (j & Hj)%list_elem_of_lookup. apply lookup_take_Some in Hj as [Hj Hlt].
      specialize (Hb j NL Hlt Hj). by rewrite Z.eqb_refl in Hb. }
    pose proof (take_drop_middle p i NL Hi) as Ep. set (line := take i p) in *. set (rest := drop (S i) p) in *.
    assert (Hr : (length rest <= fuel)%nat) by (rewrite <- Ep, length_app in Hf; simpl in Hf; lia).
    assert (Hz' : 0 ∉ rest) by (rewrite <- Ep, elem_of_app, elem_of_cons in Hz; tauto).
    pose proof (split_lines_app line rest Hl) as Es. rewrite Ep in Es.
    unfold lines_of, tail_of at 1. rewrite Es. cbn [fst snd]. fold (lines_of rest) (tail_of rest).
    destruct (match_re pattern line) eqn:Em.
    + replace (selected pattern (line :: lines_of rest)) with ((line ++ [NL]) ++ selected pattern (lines_of rest)).
      2: { unfold selected. rewrite filter_cons_True by done. done. }
      rewrite <- io_write_app. eapply runs_bind; [|apply IH; [done|done|by apply is_Some_io_write]].
      apply io_runs_write; [done|]. apply runs_ret.
    + replace (selected pattern (line :: lines_of rest)) with (selected pattern (lines_of rest)).
      2: { unfold selected. rewrite filter_cons_False by congruence. done. }
      eapply runs_bind; [apply runs_ret|]. by apply IH.
  - assert (Hn : NL ∉ p).
    { apply first_index_None in Ei. intros Hin. rewrite Forall_forall in Ei. specialize (Ei NL Hin).
      by rewrite Z.eqb_refl in Ei. }
    unfold lines_of, tail_of. rewrite split_lines_none by done. cbn [fst snd]. destruct Ho as [o Ho].
    change (selected pattern []) with (@nil Z). rewrite (io_write_nil _ _ _ Ho). apply runs_ret.
Qed.

(** ** Reading a file *)

(** What reads of a file deliver. *)
Definition file_pieces (text : list Z) : list (list Z) := if decide (text = []) then [] else [text].

Lemma file_pieces_take n text : pieces_take n (file_pieces text) = take n text.
Proof. unfold pieces_take, file_pieces. destruct (decide (text = [])) as [->|]; done. Qed.

Lemma file_pieces_drop n text : pieces_drop n (file_pieces text) = file_pieces (drop n text).
Proof. unfold file_pieces. destruct (decide (text = [])) as [->|]; [by rewrite drop_nil, decide_True|done]. Qed.

Lemma tail_of_suffix l : exists l', l = l' ++ tail_of l.
Proof.
  unfold tail_of. induction l as [|c l [l' IH]]; simpl; [by exists []|].
  destruct (split_lines l) as [ls t] eqn:E. simpl in *. destruct (c =? NL); [exists (c :: l'); simpl; congruence|].
  destruct ls; [|exists (c :: l'); simpl; congruence]. exists [].
  pose proof (split_lines_nil_inv l) as N. unfold lines_of, tail_of in N. rewrite E in N. simpl in *.
  destruct N as [-> _]; done.
Qed.

Lemma tail_of_no_newline l : NL ∉ tail_of l.
Proof.
  unfold tail_of. induction l as [|c l IH]; simpl; [apply not_elem_of_nil|].
  destruct (split_lines l) as [ls t]. simpl in *. destruct (Z.eqb_spec c NL); [done|].
  destruct ls; [|done]. by apply not_elem_of_cons.
Qed.

(** Text without a newline stays within the first line. *)
Lemma first_line_long l r n : (NL ∉ l) -> (n < length l)%nat ->
  Forall (fun x => (length x <= n)%nat) (lines_of (l ++ r)) -> NL ∉ r.
Proof.
  intros Hl Hn HF Hr. apply list_elem_of_split_l in Hr as (r1 & r2 & -> & Hr1).
  rewrite (assoc_L (++)) in HF. unfold lines_of in HF. rewrite split_lines_app in HF.
  2: { rewrite elem_of_app. tauto. }
  cbn [fst] in HF. apply Forall_cons in HF as [HF _]. rewrite length_app in HF. lia.
Qed.

Lemma selected_app pattern l1 l2 : selected pattern (l1 ++ l2) = selected pattern l1 ++ selected pattern l2.
Proof. unfold selected. by rewrite filter_app, fmap_app, concat_app. Qed.

Lemma io_write_set_in fd cs cs' l1 l2 s :
  io_write 1 l2 (set_in fd cs' (io_write 1 l1 (set_in fd cs s))) = io_write 1 (l1 ++ l2) (set_in fd cs' s).
Proof.
  unfold io_write, set_in. simpl. rewrite lookup_insert_eq, !insert_insert_eq. simpl. by rewrite (assoc_L (++)).
Qed.

(** One round on the rest [rem] of a file. *)
Lemma grep_body_runs pattern fd kept rem s :
  io_in s !! fd = Some (file_pieces rem) -> is_Some (io_out s !! 1) -> (0 ∉ kept ++ rem) ->
  (length kept <= 1022)%nat -> rem <> [] ->
  let k := (1023 - length kept)%nat in let buf := kept ++ take k rem in
  io_runs (grep_body pattern fd kept) s
    (io_write 1 (selected pattern (lines_of buf)) (set_in fd (file_pieces (drop k rem)) s))
    (Returned (inl (if decide (lines_of buf = []) then [] else tail_of buf))).
Proof.
  intros Hin Ho Hz Hk Hne k buf. unfold grep_body.
  replace (GREPBUF - Z.of_nat (length kept) - 1) with (Z.of_nat k) by (unfold GREPBUF; lia).
  eapply io_runs_read; [exact Hin|]. rewrite Nat2Z.id, file_pieces_take, file_pieces_drop. cbv beta iota zeta.
  fold buf. rewrite (proj2 (Z.leb_gt _ _)).
  2: { rewrite length_take. destruct rem; [done|]. cbn [length]. lia. }
  eapply runs_bind.
  - apply grep_lines_runs; [lia| |done]. intros H. apply Hz. unfold buf in H.
    rewrite <- (take_drop k rem), !elem_of_app. rewrite elem_of_app in H. tauto.
  - replace (if bool_decide (length (tail_of buf) = length buf) then [] else tail_of buf)
      with (if decide (lines_of buf = []) then [] else tail_of buf); [apply runs_ret|].
    case_decide as E; case_bool_decide as E'; [done| | |done].
    + destruct E'. by destruct (split_lines_nil_inv _ E) as [-> _].
    + pose proof (length_tail_of _ E). lia.
Qed.

(** What a round keeps: the lines still to come are those after it, and the
    bytes kept leave room for the next read. *)
Lemma grep_keeps kept rem :
  let k := (1023 - length kept)%nat in let buf := kept ++ take k rem in
  let kept' := if decide (lines_of buf = []) then [] else tail_of buf in
  (0 ∉ kept ++ rem) -> (length kept <= 1022)%nat ->
  Forall (fun l => (length l <= 1022)%nat) (lines_of (kept ++ rem)) ->
  lines_of (kept ++ rem) = lines_of buf ++ lines_of (kept' ++ drop k rem)
  /\ (NL ∉ kept') /\ (length kept' <= 1022)%nat /\ (0 ∉ kept' ++ drop k rem).
Proof.
  intros k buf kept' Hz Hk HF.
  assert (Eb : kept ++ rem = buf ++ drop k rem) by (unfold buf; by rewrite <- (assoc_L (++)), take_drop).
  rewrite Eb in *. unfold kept'. case_decide as E.
  - split; [|split; [apply not_elem_of_nil|split; [simpl; lia|rewrite elem_of_app in Hz; simpl; tauto]]].
    rewrite E. simpl. destruct (split_lines_nil_inv _ E) as [_ Hb].
    destruct (decide (drop k rem = [])) as [Ed|Ed]; [by rewrite Ed, app_nil_r|].
    assert (Hr : NL ∉ drop k rem).
    { apply (first_line_long buf (drop k rem) 1022); [done| |done].
      unfold buf. rewrite length_app, length_take. destruct (Nat.le_gt_cases (length rem) k) as [H|H]; [|lia].
      destruct Ed. by apply drop_ge. }
    unfold lines_of. rewrite !split_lines_none; [done|done|]. rewrite elem_of_app. tauto.
  - split; [apply split_lines_cat|]. split; [apply tail_of_no_newline|].
    pose proof (length_tail_of _ E). destruct (tail_of_suffix buf) as [l' El].
    split; [unfold buf in *; rewrite length_app, length_take in *; lia|].
    rewrite El, !elem_of_app in Hz. rewrite elem_of_app. tauto.
Qed.

(** The loop on the rest of the file. *)
Lemma grep_loop_runs pattern fd : forall N rem kept s,
  (length rem <= N)%nat -> io_in s !! fd = Some (file_pieces rem) -> is_Some (io_out s !! 1) ->
  (0 ∉ kept ++ rem) -> (length kept <= 1022)%nat -> (NL ∉ kept) ->
  Forall (fun l => (length l <= 1022)%nat) (lines_of (kept ++ rem)) ->
  io_runs (ITree.iter (grep_body pattern fd) kept) s
    (io_write 1 (selected pattern (lines_of (kept ++ rem))) (set_in fd [] s)) (Returned tt).
Proof.
  induction N as [|N IH]; intros rem kept s HN Hin Ho Hz Hk Hnl HF; destruct (decide (rem = [])) as [->|Hne];
    [|destruct rem; [done|simpl in HN; lia]| |].
  1, 2: rewrite app_nil_r; unfold lines_of; rewrite split_lines_none by done; cbn [fst];
    change (selected pattern []) with (@nil Z); destruct Ho as [o Ho];
    rewrite (io_write_nil 1 _ o) by done; eapply (runs_iter _ _ _ _ _ (inr tt)); [|split; reflexivity];
    unfold grep_body; eapply io_runs_read; [exact Hin|]; rewrite file_pieces_take, file_pieces_drop, take_nil, drop_nil;
    apply runs_ret.
  destruct (grep_keeps kept rem Hz Hk HF) as (Hs & H1 & H2 & H3).
  eapply runs_iter; [apply grep_body_runs; done|]. cbv iota. rewrite Hs, selected_app.
  rewrite <- (io_write_set_in fd (file_pieces (drop (1023 - length kept) rem))).
  apply IH; [rewrite length_drop; lia|apply lookup_insert_eq|by apply is_Some_io_write|done..|].
  rewrite Hs, Forall_app in HF. apply HF.
Qed.

(** C33: [grep] prints the matching lines.  Run on a file without zero bytes whose
    lines fit the buffer with their newline (1023 bytes), [grep] reads the whole
    file and writes to its output exactly the lines that [match] accepts, in
    order and each with its newline; text after the last newline is not a line. *)
Theorem grep_prints (pattern text : list Z) (fd : Z) (s : io) :
  io_in s !! fd = Some (file_pieces text) -> is_Some (io_out s !! 1) -> (0 ∉ text) ->
  Forall (fun l => (length l <= 1022)%nat) (lines_of text) ->
  io_runs (grep pattern fd) s (io_write 1 (selected pattern (lines_of text)) (set_in fd [] s)) (Returned tt).
Proof.
  intros Hin Ho Hz HF. apply (grep_loop_runs pattern fd (length text) text [] s); simpl; try done; [lia|].
  apply not_elem_of_nil.
Qed.

(** The output of [grep] in the first place of the witness. *)
Definition demo_text : list Z := chars ("one" ++ newline ++ "two" ++ newline ++ "three" ++ newline ++ "last").
Definition demo_io : io := mk_io {[3 := file_pieces demo_text]} {[1 := []]} ∅.

Lemma grep_prints_witness :
  exists s, io_runs (grep (chars "^t.*") 3) demo_io s (Returned tt)
    /\ io_out s !! 1 = Some (chars ("two" ++ newline ++ "three" ++ newline)).
Proof.
  eexists. split.
  - apply (grep_prints (chars "^t.*") demo_text 3 demo_io); [reflexivity|by exists []| |].
    + apply (bool_decide_unpack _). vm_compute. exact I.
    + vm_compute. repeat constructor.
  - reflexivity.
Defined.

(** C37: [grep] loses input that arrives in pieces.  When a read delivers a piece
    without a newline, [grep] behaves from then on as if the piece had never
    arrived: the rest of that line is taken for a whole line, so what comes
    through a pipe or from the console in more than one read is searched
    wrongly. *)
Theorem grep_loses_piece (pattern c : list Z) (cs : list (list Z)) (fd : Z) (s s' : io) (r : result unit) :
  io_in s !! fd = Some (c :: cs) -> is_Some (io_out s !! 1) -> c <> [] -> (length c <= 1023)%nat ->
  (0 ∉ c) -> (NL ∉ c) ->
  io_runs (grep pattern fd) (set_in fd cs s) s' r -> io_runs (grep pattern fd) s s' r.
Proof.
  intros Hin Ho Hc Hl Hz Hn H. eapply (runs_iter _ _ _ _ _ (inl [])); [|exact H].
  unfold grep_body. eapply io_runs_read; [exact Hin|].
  change (Z.to_nat (GREPBUF - Z.of_nat (length []) - 1)) with 1023%nat.
  unfold pieces_take, pieces_drop. simpl List.hd. rewrite drop_ge, take_ge by lia.
  rewrite decide_True by done. cbv beta iota zeta. destruct (Z.leb_spec (Z.of_nat (length c)) 0); [destruct c; done|].
  change ([] ++ c) with c. destruct Ho as [o Ho].
  assert (G : io_runs (grep_lines (length c) pattern c) (set_in fd cs s) (set_in fd cs s) (Returned c)).
  { pose proof (grep_lines_runs pattern (length c) c (set_in fd cs s) ltac:(lia) Hz ltac:(by exists o)) as G.
    unfold lines_of, tail_of in G. rewrite split_lines_none in G by done.
    change (selected pattern ([], c).1) with (@nil Z) in G. by rewrite (io_write_nil _ _ o) in G by done. }
  eapply runs_bind; [exact G|]. rewrite bool_decide_true by done. apply runs_ret.
Qed.

Lemma grep_loses_piece_witness :
  let s := mk_io {[0 := [chars "hel"; chars ("lo" ++ newline)]]} {[1 := []]} ∅ in
  exists s', io_runs (grep (chars "hello") 0) s s' (Returned tt) /\ io_out s' !! 1 = Some []
    /\ match_re (chars "hello") (chars "hello") = true.
Proof.
  intros s. eexists. split.
  - apply (grep_loses_piece (chars "hello") (chars "hel") [chars ("lo" ++ newline)] 0 s);
      [reflexivity|by exists []|done|by vm_compute; lia|
       by apply (bool_decide_unpack _); vm_compute|by apply (bool_decide_unpack _); vm_compute|].
    exists 40%nat. vm_compute. reflexivity.
  - split; vm_compute; reflexivity.
Defined.
