(* ===== verification/Utils.v ===== *)
(** * The small user programs

    cat.c, wc.c, echo.c, ls.c, kill.c, ln.c, mkdir.c, rm.c, zombie.c, ps.c,
    init.c, shmtest.c, testdescribe.c, stressfs.c and forktest.c, each function as
    a program over the system calls; [argv] is the list of the arguments,
    the name of the program first.  Then what [cat] copies and what [wc] counts. *)

From Stdlib Require Import String Ascii ZArith Lia.
From stdpp Require Import base gmap list strings.
From ITree Require Import ITree.
From S2P Require Import Prelude State Console Fs User Ulib.

Open Scope user_scope.

Definition line (s : string) : string := (s ++ newline)%string.

(** ** cat.c *)

Definition cat_body (fd : Z) (_ : unit) : prog (unit + unit) :=
  r <- sys (Sys_read fd 512);;
  let '(n, buf) := r in
  if 0 <? n then
    w <- sys (Sys_write 1 buf);;
    if negb (w =? n) then printf 1 (line "cat: write error") [];; exit else Ret (inl tt)
  else if n <? 0 then printf 1 (line "cat: read error") [];; exit
  else Ret (inr tt).

Definition cat (fd : Z) : prog unit := ITree.iter (cat_body fd) tt.

Definition cat_main (argv : list (list Z)) : prog unit :=
  match argv with
  | _ :: ((_ :: _) as files) =>
      each (fun f =>
        fd <- sys (Sys_open f 0);;
        (if fd <? 0 then printf 1 (line "cat: cannot open %s") [FStr (Some f)];; exit else Ret tt);;
        cat fd;;
        sys (Sys_close fd);; Ret tt) files;;
      exit
  | _ => cat 0;; exit
  end.

(** ** wc.c *)

Record counts : Type := mk_counts { wc_l : Z; wc_w : Z; wc_c : Z; wc_inword : bool }.

Definition wc_space : list Z := [32; 13; 9; 10; 11].

(** The body of the loop over the bytes read. *)
Definition wc_byte (k : counts) (b : Z) : counts :=
  let c := wc_c k + 1 in
  let l := if b =? NL then wc_l k + 1 else wc_l k in
  match strchr wc_space b with
  | Some _ => mk_counts l (wc_w k) c false
  | None => if wc_inword k then mk_counts l (wc_w k) c true else mk_counts l (wc_w k + 1) c true
  end.

Definition wc_body (fd : Z) (k : counts) : prog (counts + counts) :=
  r <- sys (Sys_read fd 512);;
  let '(n, buf) := r in
  if 0 <? n then Ret (inl (fold_left wc_byte (take (Z.to_nat n) buf) k))
  else if n <? 0 then printf 1 (line "wc: read error") [];; exit
  else Ret (inr k).

Definition wc (fd : Z) (name : list Z) : prog unit :=
  k <- ITree.iter (wc_body fd) (mk_counts 0 0 0 false);;
  printf 1 (line "%d %d %d %s") [FInt (wc_l k); FInt (wc_w k); FInt (wc_c k); FStr (Some name)].

Definition wc_main (argv : list (list Z)) : prog unit :=
  match argv with
  | _ :: ((_ :: _) as files) =>
      each (fun f =>
        fd <- sys (Sys_open f 0);;
        (if fd <? 0 then printf 1 (line "wc: cannot open %s") [FStr (Some f)];; exit else Ret tt);;
        wc fd f;;
        sys (Sys_close fd);; Ret tt) files;;
      exit
  | _ => wc 0 [];; exit
  end.

(** ** echo.c, kill.c, ln.c, mkdir.c, rm.c, zombie.c, ps.c *)

Fixpoint echo_loop (args : list (list Z)) : prog unit :=
  match args with
  | [] => Ret tt
  | a :: args =>
      printf 1 "%s%s" [FStr (Some a); FStr (Some (match args with [] => [NL] | _ => chars " " end))];;
      echo_loop args
  end.

Definition echo_main (argv : list (list Z)) : prog unit := echo_loop (List.tl argv);; exit.

Definition kill_main (argv : list (list Z)) : prog unit :=
  if Z.of_nat (length argv) <? 2 then printf 2 (line "usage: kill pid...") [];; exit else
  each (fun a => sys (Sys_kill (atoi a));; Ret tt) (List.tl argv);;
  exit.

Definition ln_main (argv : list (list Z)) : prog unit :=
  match argv with
  | [_; old; new] =>
      r <- sys (Sys_link old new);;
      (if r <? 0 then printf 2 (line "link %s %s: failed") [FStr (Some old); FStr (Some new)] else Ret tt);;
      exit
  | _ => printf 2 (line "Usage: ln old new") [];; exit
  end.

Definition mkdir_main (argv : list (list Z)) : prog unit :=
  if Z.of_nat (length argv) <? 2 then printf 2 (line "Usage: mkdir files...") [];; exit else
  each_until (fun a =>
    r <- sys (Sys_mkdir a);;
    if r <? 0 then printf 2 (line "mkdir: %s failed to create") [FStr (Some a)];; Ret false else Ret true)
    (List.tl argv);;
  exit.

Definition rm_main (argv : list (list Z)) : prog unit :=
  if Z.of_nat (length argv) <? 2 then printf 2 (line "Usage: rm files...") [];; exit else
  each_until (fun a =>
    r <- sys (Sys_unlink a);;
    if r <? 0 then printf 2 (line "rm: %s failed to delete") [FStr (Some a)];; Ret false else Ret true)
    (List.tl argv);;
  exit.

Definition zombie_main : prog unit :=
  pid <- sys Sys_fork;;
  (if 0 <? pid then sys (Sys_sleep 5);; Ret tt else Ret tt);;
  exit.

Definition ps_main : prog unit := sys Sys_cps;; exit.

(** ** ls.c *)

Definition slash_char : Z := ch "/".

(** The first character after the last slash, then blanks up to [DIRSIZ]. *)
Fixpoint last_name (path : list Z) : list Z :=
  match path with
  | [] => []
  | c :: path' =>
      match strchr path' slash_char with
      | Some _ => last_name path'
      | None => if c =? slash_char then path' else path
      end
  end.

Definition fmtname (path : list Z) : list Z :=
  let p := last_name path in
  if Z.of_nat DIRSIZ <=? strlen p then p else p ++ replicate (DIRSIZ - length p) (ch " ").

Definition ls_line (path : list Z) (st : Fs.stat) : prog unit :=
  printf 1 (line "%s %d %d %d") [FStr (Some (fmtname path)); FInt (st_type st); FInt (st_ino st); FInt (st_size st)].

(** One round of the loop over the directory: [de] is the 16 bytes read; a name
    ends at a zero byte or fills its 14 bytes. *)
Definition ls_entry (fd : Z) (path : list Z) (_ : unit) : prog (unit + unit) :=
  r <- sys (Sys_read fd 16);;
  let '(n, de) := r in
  if negb (n =? 16) then Ret (inr tt) else
  if le_val (take 2 de) =? 0 then Ret (inl tt) else
  let buf := path ++ [slash_char] ++ cstr (take DIRSIZ (drop 2 de)) in
  r <- Ulib.stat buf;;
  let '(rc, st) := r in
  (if rc <? 0 then printf 1 (line "ls: cannot stat %s") [FStr (Some buf)] else ls_line buf st);;
  Ret (inl tt).

Definition ls (path : list Z) : prog unit :=
  fd <- sys (Sys_open path 0);;
  if fd <? 0 then printf 2 (line "ls: cannot open %s") [FStr (Some path)] else
  r <- sys (Sys_fstat fd);;
  let '(rc, st) := r in
  if rc <? 0 then
    printf 2 (line "ls: cannot stat %s") [FStr (Some path)];;
    sys (Sys_close fd);; Ret tt
  else
  (if st_type st =? T_FILE then ls_line path st
   else if st_type st =? T_DIR then
     if 512 <? strlen path + 1 + Z.of_nat DIRSIZ + 1 then printf 1 (line "ls: path too long") []
     else ITree.iter (ls_entry fd path) tt
   else Ret tt);;
  sys (Sys_close fd);; Ret tt.

Definition ls_main (argv : list (list Z)) : prog unit :=
  match argv with
  | _ :: ((_ :: _) as args) => each ls args;; exit
  | _ => ls (chars ".");; exit
  end.

(** ** init.c *)

(** A round of the loop that keeps a shell running. *)
Definition init_body (_ : unit) : prog (unit + Empty_set) :=
  printf 1 (line "init: starting sh") [];;
  pid <- sys Sys_fork;;
  (if pid <? 0 then printf 1 (line "init: fork failed") [];; exit else Ret tt);;
  (if pid =? 0 then
     sys (Sys_exec (chars "sh") [chars "sh"]);;
     printf 1 (line "init: exec sh failed") [];;
     exit
   else Ret tt);;
  wpid <- sys Sys_wait;;
  (if 0 <=? wpid then printf 1 (line "init: shell exited, shutting down...") [] else Ret tt);;
  Ret (inl tt).

Definition init_main : prog Empty_set :=
  fd <- sys (Sys_open (chars "console") O_RDWR);;
  (if fd <? 0 then
     sys (Sys_mknod (chars "console") 1 1);;
     sys (Sys_open (chars "console") O_RDWR);; Ret tt
   else Ret tt);;
  sys (Sys_dup 0);;
  sys (Sys_dup 0);;
  ITree.iter init_body tt.

(** ** shmtest.c, testdescribe.c, stressfs.c, forktest.c *)

Definition shmtest_main : prog Z :=
  addr <- sys (Sys_shm_alloc 4096);;
  (if addr =? -1 then printf 1 (line "Shared memory allocation failed") []
   else printf 1 (line "Shared memory allocated at address: %p") [FInt addr]);;
  Ret 0.

Definition testdescribe_main : prog Z :=
  printf 1 (line (line "Testing the sys_describe system call:")) [];;
  sys Sys_describe;;
  Ret 0.

(** The number of children forked before the first [fork] that returns a
    positive number, 4 at most. *)
Fixpoint stressfs_forks (n : nat) (i : Z) : prog Z :=
  match n with
  | O => Ret i
  | S n => pid <- sys Sys_fork;; if 0 <? pid then Ret i else stressfs_forks n (i + 1)
  end.

Definition stressfs_main : prog unit :=
  printf 1 (line "stressfs starting") [];;
  let data := replicate 512 (ch "a") in
  i <- stressfs_forks 4 0;;
  printf 1 (line "write %d") [FInt i];;
  let path := chars "stressfs" ++ [ch "0" + i] in
  fd <- sys (Sys_open path (Z.lor O_CREATE O_RDWR));;
  each (fun _ => sys (Sys_write fd data);; Ret tt) (seq 0 20);;
  sys (Sys_close fd);;
  printf 1 (line "read") [];;
  fd <- sys (Sys_open path O_RDONLY);;
  each (fun _ => sys (Sys_read fd 512);; Ret tt) (seq 0 20);;
  sys (Sys_close fd);;
  sys Sys_wait;;
  exit.

(** forktest.c has a [printf] of its own, which writes the format. *)
Definition forktest_printf (fd : Z) (s : string) : prog unit := sys (Sys_write fd (chars s));; Ret tt.

Fixpoint forktest_forks (n : nat) (i : Z) : prog Z :=
  match n with
  | O => Ret i
  | S n =>
      pid <- sys Sys_fork;;
      if pid <? 0 then Ret i else if pid =? 0 then exit else forktest_forks n (i + 1)
  end.

Definition forktest : prog unit :=
  forktest_printf 1 (line "fork test");;
  n <- forktest_forks 1000 0;;
  (if n =? 1000 then forktest_printf 1 (line "fork claimed to work N times!");; exit else Ret tt);;
  each (fun _ =>
    r <- sys Sys_wait;;
    if r <? 0 then forktest_printf 1 (line "wait stopped early");; exit else Ret tt) (seq 0 (Z.to_nat n));;
  r <- sys Sys_wait;;
  (if negb (r =? -1) then forktest_printf 1 (line "wait got too many");; exit else Ret tt);;
  forktest_printf 1 (line "fork test OK").

Definition forktest_main : prog unit := forktest;; exit.

(** ** Reading a stream to its end

    Induction over a stream of pieces: a read of 512 bytes takes something off
    the front until nothing is left. *)
Lemma pieces_ind (P : list (list Z) -> Prop) :
  P [] ->
  (forall cs, cs <> [] -> Forall nonempty cs -> P (pieces_drop 512 cs) -> P cs) ->
  forall cs, Forall nonempty cs -> P cs.
Proof.
  intros H0 HS cs. remember (length (concat cs)) as n eqn:En. revert cs En.
  induction n as [n IH] using lt_wf_ind. intros cs -> Hc.
  destruct (decide (cs = [])) as [->|Hne]; [done|]. apply HS; [done|done|].
  destruct (pieces_read 512 cs ltac:(lia) Hc) as (E & Hc' & Ht). apply (IH (length (concat (pieces_drop 512 cs)))).
  - rewrite E, length_app. specialize (Ht Hne). destruct (pieces_take 512 cs); [done|simpl; lia].
  - done.
  - done.
Qed.

Lemma set_in_set_in fd cs cs' s : set_in fd cs (set_in fd cs' s) = set_in fd cs s.
Proof. unfold set_in. simpl. by rewrite insert_insert_eq. Qed.

Lemma set_in_write fd cs fd' l s : set_in fd cs (io_write fd' l s) = io_write fd' l (set_in fd cs s).
Proof. done. Qed.

Lemma pieces_take_len cs : cs <> [] -> Forall nonempty cs -> 0 < Z.of_nat (length (pieces_take 512 cs)).
Proof.
  intros Hne Hc. destruct (pieces_read 512 cs ltac:(lia) Hc) as (_ & _ & Ht).
  specialize (Ht Hne). destruct (pieces_take 512 cs); [done|simpl; lia].
Qed.

(** [cat] copies its input.  However the input arrives in pieces, [cat] writes
    all of it to its output, in order and nothing else, and returns at the end
    of the input. *)
Theorem cat_copies (fd : Z) (cs : list (list Z)) (s : io) :
  io_in s !! fd = Some cs -> Forall nonempty cs -> is_Some (io_out s !! 1) ->
  io_runs (cat fd) s (io_write 1 (concat cs) (set_in fd [] s)) (Returned tt).
Proof.
  intros Hin Hc. revert cs Hc s Hin. apply (pieces_ind (fun cs => forall s, _ -> _ -> _)).
  - intros s Hin [o Ho]. rewrite (io_write_nil 1 _ o) by done.
    eapply (runs_iter _ _ _ _ _ (inr tt)); [|split; reflexivity].
    eapply io_runs_read; [exact Hin|]. apply runs_ret.
  - intros cs Hne Hc IH s Hin Ho. destruct (pieces_read 512 cs ltac:(lia) Hc) as (E & _ & _).
    pose proof (pieces_take_len cs Hne Hc) as Hl.
    eapply (runs_iter _ _ _ _ _ (inl tt)).
    + eapply io_runs_read; [exact Hin|]. cbv beta iota. change (Z.to_nat 512) with 512%nat.
      rewrite (proj2 (Z.ltb_lt _ _) Hl). apply io_runs_write; [done|]. rewrite Z.eqb_refl. apply runs_ret.
    + cbv iota. rewrite E, <- io_write_app. set (s1 := io_write 1 _ (set_in fd (pieces_drop 512 cs) s)).
      replace (io_write 1 (pieces_take 512 cs) (set_in fd [] s)) with (set_in fd [] s1).
      * apply IH; [apply lookup_insert_eq|]. by apply is_Some_io_write.
      * unfold s1. by rewrite set_in_write, set_in_set_in.
Qed.

Lemma cat_copies_witness :
  let s := mk_io {[0 := [chars "ab"; chars "c"]]} {[1 := []]} ∅ in
  io_runs (cat 0) s (io_write 1 (chars "abc") (set_in 0 [] s)) (Returned tt).
Proof.
  intros s. apply (cat_copies 0 [chars "ab"; chars "c"] s); [done|by repeat constructor|by exists []].
Defined.

(** ** Counting words

    The words of a text: it is cut at the blanks, and the pieces that are not
    empty are the words. *)
Definition is_space (c : Z) : bool := bool_decide (c ∈ wc_space).

Fixpoint cut (l : list Z) : list Z * list (list Z) :=
  match l with
  | [] => ([], [])
  | c :: l => let '(w, ws) := cut l in if is_space c then ([], w :: ws) else (c :: w, ws)
  end.

Definition words (l : list Z) : list (list Z) :=
  filter nonempty ((cut l).1 :: (cut l).2).

Definition newlines (l : list Z) : Z := Z.of_nat (length (filter (fun c => c = NL) l)).

Lemma is_space_strchr b : is_space b = match strchr wc_space b with Some _ => true | None => false end.
Proof.
  unfold is_space. destruct (strchr wc_space b) eqn:E.
  - apply bool_decide_eq_true. destruct (decide (b ∈ wc_space)) as [|Hn]; [done|].
    apply strchr_None in Hn. congruence.
  - apply bool_decide_eq_false. by apply strchr_None.
Qed.

(** What the loop adds: a word that continues the one it is in does not count
    again. *)
Lemma wc_bytes_count l : forall k,
  let k' := fold_left wc_byte l k in
  wc_l k' = wc_l k + newlines l /\ wc_c k' = wc_c k + Z.of_nat (length l)
  /\ wc_w k' = wc_w k + Z.of_nat (length (words l))
       - (if wc_inword k && negb (bool_decide ((cut l).1 = [])) then 1 else 0).
Proof.
  induction l as [|c l IH]; intros k; cbv zeta.
  { cbn. rewrite andb_false_r. unfold newlines, words. simpl. lia. }
  destruct (IH (wc_byte k c)) as (I1 & I2 & I3). cbn [fold_left]. rewrite I1, I2, I3. clear IH I1 I2 I3.
  unfold newlines, words, wc_byte. cbn [cut]. pose proof (is_space_strchr c) as Es.
  destruct (cut l) as [w ws]. split; [|split].
  - rewrite filter_cons. destruct (Z.eqb_spec c NL), (strchr wc_space c), (wc_inword k); case_decide; simpl; (lia || done).
  - destruct (strchr wc_space c), (wc_inword k); simpl; lia.
  - destruct (strchr wc_space c), (wc_inword k); rewrite Es; cbn [fst snd wc_w wc_inword andb negb];
      rewrite ?filter_cons; repeat case_decide; repeat case_bool_decide; unfold nonempty in *; simpl; (lia || done || congruence || naive_solver).
Qed.

Definition wc_report (text name : list Z) : list Z :=
  u8 <$> format (chars (line "%d %d %d %s")) 0
    [FInt (newlines text); FInt (Z.of_nat (length (words text))); FInt (Z.of_nat (length text)); FStr (Some name)].

(** [wc] counts.  However the input arrives in pieces, [wc] prints the number
    of its newlines, of its words (the non-empty pieces between blanks) and of
    its bytes: a word that two reads share is counted once. *)
Theorem wc_counts (fd : Z) (name : list Z) (cs : list (list Z)) (s : io) :
  io_in s !! fd = Some cs -> Forall nonempty cs -> is_Some (io_out s !! 1) ->
  io_runs (wc fd name) s (io_write 1 (wc_report (concat cs) name) (set_in fd [] s)) (Returned tt).
Proof.
  intros Hin Hc Ho.
  assert (L : forall cs, Forall nonempty cs -> forall k s, io_in s !! fd = Some cs ->
     io_runs (ITree.iter (wc_body fd) k) s (set_in fd [] s) (Returned (fold_left wc_byte (concat cs) k))).
  { clear. apply (pieces_ind (fun cs => forall k s, _ -> _)).
    - intros k s Hin. eapply (runs_iter _ _ _ _ _ (inr k)); [|split; reflexivity].
      eapply io_runs_read; [exact Hin|]. apply runs_ret.
    - intros cs Hne Hc IH k s Hin. destruct (pieces_read 512 cs ltac:(lia) Hc) as (E & _ & _).
      pose proof (pieces_take_len cs Hne Hc) as Hl.
      eapply (runs_iter _ _ _ _ _ (inl (fold_left wc_byte (pieces_take 512 cs) k))).
      + eapply io_runs_read; [exact Hin|]. cbv beta iota. change (Z.to_nat 512) with 512%nat.
        rewrite (proj2 (Z.ltb_lt _ _) Hl), Nat2Z.id, take_ge by done. apply runs_ret.
      + cbv iota. rewrite E, fold_left_app. rewrite <- (set_in_set_in fd [] (pieces_drop 512 cs) s).
        apply IH, lookup_insert_eq. }
  eapply runs_bind; [by apply L|].
  destruct (wc_bytes_count (concat cs) (mk_counts 0 0 0 false)) as (C1 & C2 & C3).
  rewrite C1, C2, C3. simpl wc_l. simpl wc_w. simpl wc_c. cbn [wc_inword andb]. rewrite Z.sub_0_r, !Z.add_0_l.
  by apply io_runs_printf_loop.
Qed.

Lemma wc_counts_witness :
  let s := mk_io {[0 := [chars "one t"; chars ("wo" ++ newline)]]} {[1 := []]} ∅ in
  exists s', io_runs (wc 0 []) s s' (Returned tt) /\ io_out s' !! 1 = Some (chars ("1 2 8 " ++ newline)).
Proof.
  intros s. eexists. split.
  - apply (wc_counts 0 [] [chars "one t"; chars ("wo" ++ newline)] s); [done|by repeat constructor|by exists []].
  - vm_compute. reflexivity.
Defined.
