(* ===== verification/ShParse.v ===== *)
(** * The shell's parser (sh.c)

    The line is in the buffer [buf]; [es] is the number of its bytes.  A pointer
    into the line that the parser advances is the rest of the line from there; a
    pointer that is stored in a command is an offset.  The parser either builds a
    command or calls [panic], which prints and exits; a result without fuel left
    ([Fuel]) is excluded by a theorem. *)

From Stdlib Require Import String Ascii ZArith Lia.
From stdpp Require Import base list strings.
From S2P Require Import Prelude State Console Fs User Ulib.

(** ** Commands

    [argv] and [eargv] hold the starts and the ends of the words, [file] and
    [efile] of a file name. *)
Inductive cmd : Type :=
| execcmd (args : list (nat * nat))
| redircmd (c : cmd) (file efile : nat) (mode fd : Z)
| pipecmd (left right : cmd)
| listcmd (left right : cmd)
| backcmd (c : cmd).

Definition MAXARGS : nat := 10.

(** ** Tokens *)

Definition whitespace : list Z := [32; 9; 13; 10; 11].
Definition symbols : list Z := chars "<|>&;()".

Definition is_in (set : list Z) (c : Z) : bool :=
  match strchr set c with Some _ => true | None => false end.

(** The loops that advance [s] while it is before [es] and [f] holds of its byte. *)
Fixpoint skip_while (f : Z -> bool) (s : list Z) : list Z :=
  match s with
  | [] => []
  | c :: s' => if f c then skip_while f s' else s
  end.

Definition skip_ws : list Z -> list Z := skip_while (is_in whitespace).

Definition word_char (c : Z) : bool := negb (is_in whitespace c) && negb (is_in symbols c).

(** The token, where it starts and ends, and what is left of the line. *)
Definition gettoken (es : nat) (ps : list Z) : Z * nat * nat * list Z :=
  let s := skip_ws ps in
  let q := (es - length s)%nat in
  let '(ret, s) :=
    match s with
    | [] => (0, s)
    | c :: s' =>
        if is_in (chars "|();&<") c then (c, s')
        else if c =? ch ">" then
          match s' with
          | d :: s'' => if d =? ch ">" then (ch "+", s'') else (c, s')
          | [] => (c, s')
          end
        else (ch "a", skip_while word_char s)
    end in
  (ret, q, (es - length s)%nat, skip_ws s).

Definition after_token (es : nat) (ps : list Z) : list Z := (gettoken es ps).2.

Definition peek (ps toks : list Z) : bool * list Z :=
  let s := skip_ws ps in
  (match s with [] => false | c :: _ => is_in toks c end, s).

(** ** Results *)

Inductive parsed (A : Type) : Type :=
| Ok (a : A)
| Panicked (msg : string)
| Leftovers (rest : list Z)
| Fuel.
Arguments Ok {A} a.
Arguments Panicked {A} msg.
Arguments Leftovers {A} rest.
Arguments Fuel {A}.

Definition pbind {A B} (m : parsed A) (f : A -> parsed B) : parsed B :=
  match m with
  | Ok a => f a
  | Panicked msg => Panicked msg
  | Leftovers rest => Leftovers rest
  | Fuel => Fuel
  end.

Declare Scope parse_scope.
Delimit Scope parse_scope with parse.
Notation "'let*' p := m 'in' f" := (pbind m (fun x => match x with p => f end))
  (at level 10, p strict pattern, m at level 200, f at level 200) : parse_scope.
Local Open Scope parse_scope.

(** ** The parser *)

Fixpoint parseredirs (fuel es : nat) (c : cmd) (ps : list Z) : parsed (cmd * list Z) :=
  match fuel with
  | O => Fuel
  | S fuel =>
      let '(more, ps) := peek ps (chars "<>") in
      if more then
        let '(tok, _, _, ps) := gettoken es ps in
        let '(tok', q, eq, ps) := gettoken es ps in
        if negb (tok' =? ch "a") then Panicked "missing file for redirection" else
        let c :=
          if tok =? ch "<" then redircmd c q eq O_RDONLY 0
          else redircmd c q eq (Z.lor O_WRONLY O_CREATE) 1 in
        parseredirs fuel es c ps
      else Ok (c, ps)
  end.

(** The arguments go into the [execcmd] inside the redirections made so far. *)
Fixpoint set_argv (args : list (nat * nat)) (c : cmd) : cmd :=
  match c with
  | redircmd c q eq m fd => redircmd (set_argv args c) q eq m fd
  | _ => execcmd args
  end.

(** The loop over the words; [args] are those found so far. *)
Fixpoint parseargs (fuel es : nat) (args : list (nat * nat)) (c : cmd) (ps : list Z) : parsed (cmd * list Z) :=
  match fuel with
  | O => Fuel
  | S fuel =>
      let '(stop, ps) := peek ps (chars "|)&;") in
      if stop then Ok (set_argv args c, ps) else
      let '(tok, q, eq, ps) := gettoken es ps in
      if tok =? 0 then Ok (set_argv args c, ps) else
      if negb (tok =? ch "a") then Panicked "syntax" else
      let args := args ++ [(q, eq)] in
      if (MAXARGS <=? length args)%nat then Panicked "too many args" else
      let* (c, ps) := parseredirs fuel es c ps in
      parseargs fuel es args c ps
  end.

(** The loop of [parseline] over the ampersands. *)
Fixpoint parsebacks (fuel es : nat) (c : cmd) (ps : list Z) : parsed (cmd * list Z) :=
  match fuel with
  | O => Fuel
  | S fuel =>
      let '(more, ps) := peek ps (chars "&") in
      if more then parsebacks fuel es (backcmd c) (after_token es ps) else Ok (c, ps)
  end.

Fixpoint parseline (fuel es : nat) (ps : list Z) : parsed (cmd * list Z) :=
  match fuel with
  | O => Fuel
  | S fuel =>
      let* (c, ps) := parsepipe fuel es ps in
      let* (c, ps) := parsebacks fuel es c ps in
      let '(more, ps) := peek ps (chars ";") in
      if more then
        let* (r, ps) := parseline fuel es (after_token es ps) in
        Ok (listcmd c r, ps)
      else Ok (c, ps)
  end
with parsepipe (fuel es : nat) (ps : list Z) : parsed (cmd * list Z) :=
  match fuel with
  | O => Fuel
  | S fuel =>
      let* (c, ps) := parseexec fuel es ps in
      let '(more, ps) := peek ps (chars "|") in
      if more then
        let* (r, ps) := parsepipe fuel es (after_token es ps) in
        Ok (pipecmd c r, ps)
      else Ok (c, ps)
  end
with parseblock (fuel es : nat) (ps : list Z) : parsed (cmd * list Z) :=
  match fuel with
  | O => Fuel
  | S fuel =>
      let '(opened, ps) := peek ps (chars "(") in
      if negb opened then Panicked "parseblock" else
      let* (c, ps) := parseline fuel es (after_token es ps) in
      let '(closed, ps) := peek ps (chars ")") in
      if negb closed then Panicked "syntax - missing )" else
      parseredirs fuel es c (after_token es ps)
  end
with parseexec (fuel es : nat) (ps : list Z) : parsed (cmd * list Z) :=
  match fuel with
  | O => Fuel
  | S fuel =>
      let '(block, ps) := peek ps (chars "(") in
      if block then parseblock fuel es ps else
      let* (c, ps) := parseredirs fuel es (execcmd []) ps in
      parseargs fuel es [] c ps
  end.

(** The ends of the words and names of a command, which [nulterminate] sets to
    zero. *)
Fixpoint ends (c : cmd) : list nat :=
  match c with
  | execcmd args => args.*2
  | redircmd c _ efile _ _ => ends c ++ [efile]
  | pipecmd l r => ends l ++ ends r
  | listcmd l r => ends l ++ ends r
  | backcmd c => ends c
  end.

Definition nulterminate (c : cmd) (buf : list Z) : list Z :=
  fold_left (fun b i => <[i := 0]> b) (ends c) buf.

(** Four levels of calls for each parenthesis. *)
Definition parse_fuel (s : list Z) : nat := (4 * length s + 4)%nat.

(** The command and the line after [nulterminate]. *)
Definition parsecmd (s : list Z) : parsed (cmd * list Z) :=
  let es := length s in
  let* (c, ps) := parseline (parse_fuel s) es s in
  let '(_, ps) := peek ps [] in
  if bool_decide (ps <> []) then Leftovers ps else
  Ok (c, nulterminate c (s ++ [0])).
