(* ===== verification/ShSpec.v ===== *)
(** * Properties of the shell's parser

    The parser ends on every line, and the strings of a command are the words of
    the line after [nulterminate]. *)

From Stdlib Require Import String Ascii ZArith Lia.
From stdpp Require Import base list strings sets.
From S2P Require Import Prelude State Console Fs User Ulib ShParse.

(** ** Tokens take something off the line *)

Lemma skip_while_split f s :
  exists pre, s = pre ++ skip_while f s /\ Forall (fun c => f c = true) pre.
Proof.
  induction s as [|c s (pre & E & H)]; simpl; [by exists []|]. destruct (f c) eqn:Ec; [|by exists []].
  exists (c :: pre). split; [simpl; congruence|by constructor].
Qed.

Lemma skip_while_head f s : match skip_while f s with [] => True | c :: _ => f c = false end.
Proof. induction s as [|c s IH]; simpl; [done|]. by destruct (f c) eqn:Ec. Qed.

Lemma skip_while_id f s : match s with [] => True | c :: _ => f c = false end -> skip_while f s = s.
Proof. destruct s as [|c s]; simpl; [done|]. by intros ->. Qed.

Lemma skip_while_idemp f s : skip_while f (skip_while f s) = skip_while f s.
Proof. apply skip_while_id, skip_while_head. Qed.

Lemma length_skip_while f s : (length (skip_while f s) <= length s)%nat.
Proof. destruct (skip_while_split f s) as (pre & E & _). rewrite E at 2. rewrite length_app. lia. Qed.

Lemma is_in_spec set c : is_in set c = true <-> c ∈ set.
Proof.
  unfold is_in. destruct (strchr set c) as [r|] eqn:E.
  - split; [|done]. intros _. apply strchr_Some in E as (l & -> & _ & Hh & Hn).
    destruct r as [|d r]; [done|]. simpl in Hh. subst. apply elem_of_app. right. left.
  - apply strchr_None in E. naive_solver.
Qed.

(** The characters the switch of [gettoken] does not list are those of words. *)
Lemma default_word_char c :
  is_in whitespace c = false -> is_in (chars "|();&<") c = false -> (c =? ch ">") = false -> word_char c = true.
Proof.
  intros H1 H2 H3. unfold word_char. rewrite H1. simpl. apply negb_true_iff, not_true_is_false.
  intros H. apply is_in_spec in H. apply not_true_iff_false in H2. rewrite is_in_spec in H2.
  unfold symbols in H. vm_compute in H, H2, H3. set_solver.
Qed.

Lemma gettoken_shorter es ps :
  skip_ws ps <> [] -> (length (after_token es ps) < length (skip_ws ps))%nat.
Proof.
  intros Hne. unfold after_token, gettoken. destruct (skip_ws ps) as [|c s'] eqn:E; [done|]. clear Hne.
  pose proof (skip_while_head (is_in whitespace) ps) as Hc. unfold skip_ws in E. rewrite E in Hc.
  destruct (is_in (chars "|();&<") c) eqn:E1; [simpl; pose proof (length_skip_while (is_in whitespace) s'); unfold skip_ws; lia|].
  destruct (c =? ch ">") eqn:E2.
  - destruct s' as [|d s'']; [simpl; lia|].
    destruct (d =? ch ">"); simpl; pose proof (length_skip_while (is_in whitespace) s'');
      pose proof (length_skip_while (is_in whitespace) (d :: s'')); unfold skip_ws; simpl in *; lia.
  - simpl. rewrite (default_word_char c Hc E1 E2).
    pose proof (length_skip_while word_char s'). pose proof (length_skip_while (is_in whitespace) (skip_while word_char s')).
    unfold skip_ws. lia.
Qed.

Lemma peek_spec ps toks b ps' : peek ps toks = (b, ps') -> ps' = skip_ws ps /\ (b = true -> ps' <> []).
Proof. unfold peek. destruct (skip_ws ps); intros [= <- <-]; by split. Qed.

Lemma length_skip_ws ps : (length (skip_ws ps) <= length ps)%nat.
Proof. apply length_skip_while. Qed.

Lemma skip_ws_idemp ps : skip_ws (skip_ws ps) = skip_ws ps.
Proof. apply skip_while_idemp. Qed.

(** ** Termination

    [shrinks n r]: the result [r] did not run out of fuel and leaves at most [n]
    bytes of the line. *)
Definition shrinks {A} (n : nat) (r : parsed (A * list Z)) : Prop :=
  match r with Ok (_, ps) => (length ps <= n)%nat | Fuel => False | _ => True end.

Lemma shrinks_bind {A B} n m (r : parsed (A * list Z)) (f : A * list Z -> parsed (B * list Z)) :
  shrinks n r -> (forall a ps, (length ps <= n)%nat -> shrinks m (f (a, ps))) -> shrinks m (pbind r f).
Proof. destruct r as [[a ps]| | |]; simpl; eauto. Qed.

Lemma shrinks_le {A} n m (r : parsed (A * list Z)) : shrinks n r -> (n <= m)%nat -> shrinks m r.
Proof. destruct r as [[a ps]| | |]; simpl; [lia|done..]. Qed.

(** Steps through a [peek], keeping what it says about the length of the line. *)
Ltac peeked ps :=
  match goal with
  | |- context [peek ps ?toks] =>
      let b := fresh "b" in let ps' := fresh "ps'" in let E := fresh "E" in let N := fresh "N" in
      let L := fresh "L" in
      destruct (peek ps toks) as [b ps'] eqn:E; apply peek_spec in E as [E N];
      pose proof (length_skip_ws ps) as L; rewrite <- E in L
  end.

Lemma after_peek es ps ps' : ps' = skip_ws ps -> ps' <> [] -> (length (after_token es ps') < length ps')%nat.
Proof.
  intros -> H. pose proof (gettoken_shorter es (skip_ws ps)) as G. rewrite skip_ws_idemp in G. by apply G.
Qed.

Lemma gettoken_le es ps tok q eq ps' : gettoken es ps = (tok, q, eq, ps') -> (length ps' <= length ps)%nat.
Proof.
  intros E. destruct (decide (skip_ws ps = [])) as [H|H].
  - unfold gettoken in E. rewrite H in E. injection E as <- <- <- <-. simpl. lia.
  - pose proof (gettoken_shorter es ps H) as G. unfold after_token in G. rewrite E in G. simpl in G.
    pose proof (length_skip_ws ps). lia.
Qed.

Lemma gettoken_lt es ps tok q eq ps' :
  gettoken es ps = (tok, q, eq, ps') -> tok <> 0 -> (length ps' < length ps)%nat.
Proof.
  intros E Ht. destruct (decide (skip_ws ps = [])) as [H|H].
  - unfold gettoken in E. rewrite H in E. by injection E as <- <- <- <-.
  - pose proof (gettoken_shorter es ps H) as G. unfold after_token in G. rewrite E in G. simpl in G.
    pose proof (length_skip_ws ps). lia.
Qed.

Lemma parseredirs_ends fuel es : forall c ps,
  (length ps < fuel)%nat -> shrinks (length ps) (parseredirs fuel es c ps).
Proof.
  induction fuel as [|fuel IH]; intros c ps Hf; [lia|]. cbn [parseredirs]. peeked ps.
  destruct b; [|simpl; lia]. specialize (N eq_refl). pose proof (after_peek es ps ps' E N) as A. unfold after_token in A.
  destruct (gettoken es ps') as [[[tok q] eq] ps1] eqn:G1. destruct (gettoken es ps1) as [[[tok' q'] eq'] ps2] eqn:G2.
  apply gettoken_le in G2. simpl in A. destruct (negb _); [done|].
  eapply shrinks_le; [apply IH|]; lia.
Qed.

Lemma parseargs_ends fuel es : forall args c ps,
  (length ps < fuel)%nat -> shrinks (length ps) (parseargs fuel es args c ps).
Proof.
  induction fuel as [|fuel IH]; intros args c ps Hf; [lia|]. cbn [parseargs]. peeked ps.
  destruct b; [simpl; lia|]. destruct (gettoken es ps') as [[[tok q] eq] ps1] eqn:G.
  destruct (Z.eqb_spec tok 0) as [->|Ht]; [apply gettoken_le in G; simpl; lia|].
  apply gettoken_lt in G; [|done]. destruct (negb _); [done|]. cbv zeta. destruct (_ <=? _)%nat; [done|].
  eapply shrinks_bind; [apply parseredirs_ends; lia|]. intros c' ps2 H2.
  eapply shrinks_le; [apply IH|]; lia.
Qed.

Lemma parsebacks_ends fuel es : forall c ps,
  (length ps < fuel)%nat -> shrinks (length ps) (parsebacks fuel es c ps).
Proof.
  induction fuel as [|fuel IH]; intros c ps Hf; [lia|]. cbn [parsebacks]. peeked ps.
  destruct b; [|simpl; lia]. pose proof (after_peek es ps ps' E (N eq_refl)).
  eapply shrinks_le; [apply IH|]; lia.
Qed.

(** Each level of the grammar with the fuel it needs. *)
Lemma parse_ends fuel es : forall ps,
  let n := length ps in
  ((4 * n + 4 <= fuel)%nat -> shrinks n (parseline fuel es ps))
  /\ ((4 * n + 3 <= fuel)%nat -> shrinks n (parsepipe fuel es ps))
  /\ ((4 * n + 1 <= fuel)%nat -> shrinks n (parseblock fuel es ps))
  /\ ((4 * n + 2 <= fuel)%nat -> shrinks n (parseexec fuel es ps)).
Proof.
  induction fuel as [|fuel IH]; intros ps n; [split_and!; lia|].
  split_and!; intros Hf; cbn [parseline parsepipe parseblock parseexec].
  - eapply shrinks_bind; [apply (IH ps); lia|]. intros c ps1 H1.
    eapply shrinks_bind; [apply parsebacks_ends; lia|]. intros c2 ps2 H2. peeked ps2.
    destruct b; [|simpl; lia]. pose proof (after_peek es ps2 ps' E (N eq_refl)).
    eapply shrinks_bind; [apply (IH (after_token es ps')); lia|]. intros c3 ps3 H3. simpl. lia.
  - eapply shrinks_bind; [apply (IH ps); lia|]. intros c ps1 H1. peeked ps1.
    destruct b; [|simpl; lia]. pose proof (after_peek es ps1 ps' E (N eq_refl)).
    eapply shrinks_bind; [apply (IH (after_token es ps')); lia|]. intros c3 ps3 H3. simpl. lia.
  - peeked ps. destruct b; [|done]. simpl negb. cbv iota. pose proof (after_peek es ps ps' E (N eq_refl)).
    eapply shrinks_bind; [apply (IH (after_token es ps')); lia|]. intros c3 ps3 H3. peeked ps3.
    destruct b; [|done]. simpl negb. cbv iota. pose proof (after_peek es ps3 ps'0 E0 (N0 eq_refl)).
    eapply shrinks_le; [apply parseredirs_ends|]; lia.
  - peeked ps. destruct b; [eapply shrinks_le; [apply (IH ps')|]; lia|].
    eapply shrinks_bind; [apply parseredirs_ends; lia|]. intros c3 ps3 H3.
    eapply shrinks_le; [apply parseargs_ends|]; lia.
Qed.

(** C34: the parser ends.  On every line, [parsecmd] builds a command or panics:
    the mutual recursion through parentheses, pipes and lists and the loops
    over words and redirections always come to an end. *)
Theorem parsecmd_ends (s : list Z) : parsecmd s <> Fuel.
Proof.
  unfold parsecmd. pose proof (proj1 (parse_ends (parse_fuel s) (length s) s) ltac:(unfold parse_fuel; lia)) as H.
  destruct (parseline _ _ s) as [[c ps]| | |]; simpl; [|done..]. destruct (peek ps []) as [b ps'].
  by case_bool_decide.
Qed.

(** ** Words and file names

    The commands of the shell with their strings, and the two ways to read
    those of a parsed command: as parts of the line, and as C strings in the
    buffer. *)
Inductive scmd : Type :=
| SExec (argv : list (list Z))
| SRedir (c : scmd) (file : list Z) (mode fd : Z)
| SPipe (left right : scmd)
| SList (left right : scmd)
| SBack (c : scmd).

Fixpoint read_cmd (str : nat * nat -> list Z) (c : cmd) : scmd :=
  match c with
  | execcmd args => SExec (str <$> args)
  | redircmd c q eq mode fd => SRedir (read_cmd str c) (str (q, eq)) mode fd
  | pipecmd l r => SPipe (read_cmd str l) (read_cmd str r)
  | listcmd l r => SList (read_cmd str l) (read_cmd str r)
  | backcmd c => SBack (read_cmd str c)
  end.

Definition slice (line : list Z) (t : nat * nat) : list Z := take (t.2 - t.1) (drop t.1 line).
Definition text (line : list Z) : cmd -> scmd := read_cmd (slice line).
Definition strings (buf : list Z) : cmd -> scmd := read_cmd (fun t => cstr (drop t.1 buf)).

Fixpoint tokens (c : cmd) : list (nat * nat) :=
  match c with
  | execcmd args => args
  | redircmd c q eq _ _ => tokens c ++ [(q, eq)]
  | pipecmd l r => tokens l ++ tokens r
  | listcmd l r => tokens l ++ tokens r
  | backcmd c => tokens c
  end.

Lemma ends_tokens c : ends c = (tokens c).*2.
Proof.
  induction c as [args|c IH q eq m fd|l IHl r IHr|l IHl r IHr|c IH]; simpl; rewrite ?fmap_app, ?IH, ?IHl, ?IHr; done.
Qed.

Lemma read_cmd_ext f g c : Forall (fun t => f t = g t) (tokens c) -> read_cmd f c = read_cmd g c.
Proof.
  induction c as [args|c IH q eq m fd|l IHl r IHr|l IHl r IHr|c IH]; simpl; rewrite ?Forall_app.
  - intros H. f_equal. apply list_fmap_ext. intros i t Ht. by eapply Forall_lookup_1 in H.
  - intros [H1 H2]. apply Forall_cons in H2 as [H2 _]. by rewrite IH, H2.
  - intros [H1 H2]. by rewrite IHl, IHr.
  - intros [H1 H2]. by rewrite IHl, IHr.
  - intros H. by rewrite IH.
Qed.

(** A word of the line: it is not empty, its characters are those of words, and
    the character after it is not. *)
Definition tok_ok (line : list Z) (t : nat * nat) : Prop :=
  exists pre w post, line = pre ++ w ++ post /\ t = (length pre, length pre + length w)%nat
    /\ w <> [] /\ Forall (fun c => word_char c = true) w
    /\ match post with [] => True | c :: _ => word_char c = false end.

Lemma gettoken_suffix es ps tok q eq ps' : gettoken es ps = (tok, q, eq, ps') -> ps' `suffix_of` ps.
Proof.
  assert (W : forall f s, skip_while f s `suffix_of` s).
  { intros f s. destruct (skip_while_split f s) as (pre & E & _). by exists pre. }
  intros E. transitivity (skip_ws ps); [|apply W]. unfold gettoken in E.
  destruct (skip_ws ps) as [|c s'] eqn:Es; [injection E as <- <- <- <-; apply suffix_nil|].
  destruct (is_in _ c); [injection E as <- <- <- <-; transitivity s'; [apply W|by apply suffix_cons_r]|].
  destruct (c =? ch ">"); [|injection E as <- <- <- <-; transitivity (skip_while word_char (c :: s')); [apply W|exact (W word_char (c :: s'))]].
  destruct s' as [|d s'']; [injection E as <- <- <- <-; apply suffix_nil|].
  destruct (d =? _); injection E as <- <- <- <-;
    [transitivity s''; [apply W|]; by apply suffix_cons_r, suffix_cons_r
    |transitivity (d :: s''); [apply W|]; by apply suffix_cons_r].
Qed.

Lemma gettoken_word line ps q eq ps' :
  ps `suffix_of` line -> gettoken (length line) ps = (ch "a", q, eq, ps') -> tok_ok line (q, eq).
Proof.
  intros [k Hk] E. destruct (skip_while_split (is_in whitespace) ps) as (ws & Ews & _).
  unfold gettoken, skip_ws in E. pose proof (skip_while_head (is_in whitespace) ps) as Hh.
  destruct (skip_while (is_in whitespace) ps) as [|c s'] eqn:Es; [discriminate E|].
  destruct (is_in (chars "|();&<") c) eqn:E1.
  { injection E as -> _ _ _. vm_compute in E1. done. }
  destruct (c =? ch ">") eqn:E2.
  { apply Z.eqb_eq in E2 as ->. destruct s' as [|d s'']; [discriminate E|]. by destruct (d =? _). }
  destruct (skip_while_split word_char (c :: s')) as (w & Ew & Hw).
  pose proof (skip_while_head word_char (c :: s')) as Hp.
  pose proof (default_word_char c Hh E1 E2) as Hc.
  assert (Hne : w <> []).
  { intros ->. simpl in Ew. rewrite Hc in Ew. pose proof (length_skip_while word_char s').
    apply (f_equal length) in Ew. simpl in Ew. lia. }
  set (post := skip_while word_char (c :: s')) in *. clearbody post.
  exists (k ++ ws), w, post. assert (El : line = (k ++ ws) ++ w ++ post) by (rewrite Hk, Ews, Ew, <- (assoc_L (++)); done).
  split_and!; [done| |done..]. pose proof (f_equal length Ew) as Lw. pose proof (f_equal length El) as Ll.
  rewrite !length_app in *. cbn [length] in *. injection E as <- <- _. f_equal; lia.
Qed.

(** ** The tokens of a parsed command are words of the line *)

Definition good (line : list Z) (r : parsed (cmd * list Z)) : Prop :=
  match r with
  | Ok (c, ps) => Forall (tok_ok line) (tokens c) /\ ps `suffix_of` line
  | _ => True
  end.

Lemma good_bind line r f :
  good line r ->
  (forall c ps, Forall (tok_ok line) (tokens c) -> ps `suffix_of` line -> good line (f (c, ps))) ->
  good line (pbind r f).
Proof. destruct r as [[c ps]| | |]; simpl; naive_solver. Qed.

Lemma peek_suffix ps toks b ps' line : peek ps toks = (b, ps') -> ps `suffix_of` line -> ps' `suffix_of` line.
Proof.
  intros [-> _]%peek_spec H. etrans; [|exact H]. destruct (skip_while_split (is_in whitespace) ps) as (pre & E & _).
  by exists pre.
Qed.

Lemma after_token_suffix es ps line : ps `suffix_of` line -> after_token es ps `suffix_of` line.
Proof.
  intros H. etrans; [|exact H]. unfold after_token. destruct (gettoken es ps) as [[[tok q] eq] ps'] eqn:E.
  by eapply gettoken_suffix.
Qed.

Section Good.
Context (line : list Z).
Local Abbreviation es := (length line).

Lemma parseredirs_good fuel : forall c ps,
  Forall (tok_ok line) (tokens c) -> ps `suffix_of` line -> good line (parseredirs fuel es c ps).
Proof.
  induction fuel as [|fuel IH]; intros c ps Hc Hs; [done|]. cbn [parseredirs].
  destruct (peek ps _) as [b ps1] eqn:P. pose proof (peek_suffix _ _ _ _ _ P Hs) as H1. destruct b; [|done].
  destruct (gettoken es ps1) as [[[tok q0] eq0] ps2] eqn:G1.
  destruct (gettoken es ps2) as [[[tok' q] eq] ps3] eqn:G2.
  pose proof (gettoken_suffix _ _ _ _ _ _ G1). pose proof (gettoken_suffix _ _ _ _ _ _ G2).
  destruct (negb (tok' =? ch "a")) eqn:Ht; [done|]. apply negb_false_iff, Z.eqb_eq in Ht as ->.
  assert (H2 : ps2 `suffix_of` line) by (by etrans).
  pose proof (gettoken_word _ _ _ _ _ H2 G2). apply IH; [|by etrans].
  destruct (tok =? ch "<"); simpl; apply Forall_app; by split; [|apply Forall_singleton].
Qed.

Lemma set_argv_tokens args c :
  Forall (tok_ok line) args -> Forall (tok_ok line) (tokens c) -> Forall (tok_ok line) (tokens (set_argv args c)).
Proof. induction c; simpl; rewrite ?Forall_app; naive_solver. Qed.

Lemma parseargs_good fuel : forall args c ps,
  Forall (tok_ok line) args -> Forall (tok_ok line) (tokens c) -> ps `suffix_of` line ->
  good line (parseargs fuel es args c ps).
Proof.
  induction fuel as [|fuel IH]; intros args c ps Ha Hc Hs; [done|]. cbn [parseargs].
  destruct (peek ps _) as [b ps1] eqn:P. pose proof (peek_suffix _ _ _ _ _ P Hs) as H1.
  destruct b; [split; [by apply set_argv_tokens|done]|].
  destruct (gettoken es ps1) as [[[tok q] eq] ps2] eqn:G. pose proof (gettoken_suffix _ _ _ _ _ _ G).
  assert (H2 : ps2 `suffix_of` line) by (by etrans).
  destruct (tok =? 0); [split; [by apply set_argv_tokens|done]|].
  destruct (negb (tok =? ch "a")) eqn:Ht; [done|]. apply negb_false_iff, Z.eqb_eq in Ht as ->.
  pose proof (gettoken_word _ _ _ _ _ H1 G). cbv zeta. destruct (_ <=? _)%nat; [done|].
  apply good_bind; [by apply parseredirs_good|]. intros c' ps' Hc' Hs'. apply IH; [|done..].
  apply Forall_app. by split; [|apply Forall_singleton].
Qed.

Lemma parsebacks_good fuel : forall c ps,
  Forall (tok_ok line) (tokens c) -> ps `suffix_of` line -> good line (parsebacks fuel es c ps).
Proof.
  induction fuel as [|fuel IH]; intros c ps Hc Hs; [done|]. cbn [parsebacks].
  destruct (peek ps _) as [b ps1] eqn:P. pose proof (peek_suffix _ _ _ _ _ P Hs). destruct b; [|done].
  apply IH; [done|]. by apply after_token_suffix.
Qed.

Lemma parse_good fuel : forall ps, ps `suffix_of` line ->
  good line (parseline fuel es ps) /\ good line (parsepipe fuel es ps)
  /\ good line (parseblock fuel es ps) /\ good line (parseexec fuel es ps).
Proof.
  induction fuel as [|fuel IH]; intros ps Hs; [done|]. destruct (IH ps Hs) as (I1 & I2 & I3 & I4).
  split_and!; cbn [parseline parsepipe parseblock parseexec].
  - apply good_bind; [done|]. intros c ps1 Hc H1. apply good_bind; [by apply parsebacks_good|].
    intros c2 ps2 Hc2 H2. destruct (peek ps2 _) as [b ps3] eqn:P. pose proof (peek_suffix _ _ _ _ _ P H2).
    destruct b; [|done]. apply good_bind; [by apply IH, after_token_suffix|]. intros c4 ps4 Hc4 H4.
    split; [by apply Forall_app|done].
  - apply good_bind; [done|]. intros c ps1 Hc H1. destruct (peek ps1 _) as [b ps3] eqn:P.
    pose proof (peek_suffix _ _ _ _ _ P H1). destruct b; [|done].
    apply good_bind; [by apply IH, after_token_suffix|]. intros c4 ps4 Hc4 H4. split; [by apply Forall_app|done].
  - destruct (peek ps _) as [b ps1] eqn:P. pose proof (peek_suffix _ _ _ _ _ P Hs). destruct (negb b); [done|].
    apply good_bind; [by apply IH, after_token_suffix|]. intros c ps2 Hc H2.
    destruct (peek ps2 _) as [b' ps3] eqn:P'. pose proof (peek_suffix _ _ _ _ _ P' H2). destruct (negb b'); [done|].
    apply parseredirs_good; [done|by apply after_token_suffix].
  - destruct (peek ps _) as [b ps1] eqn:P. pose proof (peek_suffix _ _ _ _ _ P Hs).
    destruct b; [by apply IH|]. apply good_bind; [by apply parseredirs_good|]. intros c ps2 Hc H2.
    by apply parseargs_good.
Qed.

End Good.

(** ** The strings after [nulterminate] *)

Definition zeros_at (l : list nat) (buf : list Z) : list Z := fold_left (fun b i => <[i := 0]> b) l buf.

Lemma length_zeros_at l : forall buf, length (zeros_at l buf) = length buf.
Proof. induction l as [|j l IH]; intros buf; simpl; [done|]. by rewrite IH, length_insert. Qed.

Lemma zeros_at_out l : forall buf i, (i ∉ l) -> zeros_at l buf !! i = buf !! i.
Proof.
  induction l as [|j l IH]; intros buf i; simpl; [done|]. intros [H1 H2]%not_elem_of_cons.
  rewrite IH by done. by apply list_lookup_insert_ne.
Qed.

Lemma zeros_at_in l : forall buf i, i ∈ l -> (i < length buf)%nat -> zeros_at l buf !! i = Some 0.
Proof.
  induction l as [|j l IH]; intros buf i; simpl; [by intros ?%not_elem_of_nil|]. intros Hi Hl.
  destruct (decide (i ∈ l)) as [H|H]; [apply IH; [done|by rewrite length_insert]|].
  apply elem_of_cons in Hi as [->|]; [|done]. rewrite zeros_at_out by done. by apply list_lookup_insert_eq.
Qed.

Lemma cstr_prefix w : forall l,
  (0 ∉ w) -> (forall i, (i < length w)%nat -> l !! i = w !! i) -> l !! length w = Some 0 -> cstr l = w.
Proof.
  induction w as [|c w IH]; intros l Hz Hl He.
  - destruct l as [|d l]; [done|]. injection He as ->. done.
  - pose proof (Hl O ltac:(simpl; lia)) as H0. destruct l as [|d l]; [done|]. injection H0 as ->.
    apply not_elem_of_cons in Hz as [Hc Hz]. simpl. destruct (Z.eqb_spec c 0); [congruence|].
    f_equal. apply IH; [done| |done]. intros i Hi. apply (Hl (S i)). simpl. lia.
Qed.

(** No word contains the end of another. *)
Lemma tok_ok_end line q eq c :
  tok_ok line (q, eq) -> line !! eq = Some c -> word_char c = false.
Proof.
  intros (pre & w & post & -> & [= -> ->] & _ & _ & Hp) Hl.
  rewrite lookup_app_r, lookup_app_r in Hl by lia.
  replace (length pre + length w - length pre - length w)%nat with O in Hl by lia.
  destruct post; [done|]. by injection Hl as ->.
Qed.

Lemma word_string line buf c t :
  (0 ∉ line) -> Forall (tok_ok line) (tokens c) -> buf = nulterminate c (line ++ [0]) -> t ∈ tokens c ->
  cstr (drop t.1 buf) = slice line t.
Proof.
  intros Hz Hc -> Ht. pose proof (proj1 (Forall_forall _ _) Hc t Ht) as (pre & w & post & El & -> & Hw & Hwc & Hp).
  unfold slice, nulterminate. cbn [fst snd]. replace (length pre + length w - length pre)%nat with (length w) by lia.
  rewrite El at 2. rewrite drop_app_length, take_app_length. apply cstr_prefix.
  - intros H. apply Hz. rewrite El, !elem_of_app. tauto.
  - intros i Hi. rewrite lookup_drop. fold (zeros_at (ends c) (line ++ [0])). rewrite zeros_at_out.
    + rewrite El, <- !(assoc_L (++)), lookup_app_r by lia. replace (length pre + i - length pre)%nat with i by lia.
      by rewrite lookup_app_l.
    + intros He. rewrite ends_tokens in He. apply list_elem_of_fmap in He as ([q e] & E & Hin). simpl in E. subst e.
      destruct (lookup_lt_is_Some_2 w i Hi) as [x Hx].
      assert (Hx' : line !! (length pre + i)%nat = Some x).
      { rewrite El, lookup_app_r by lia. replace (length pre + i - length pre)%nat with i by lia.
        by rewrite lookup_app_l. }
      pose proof (tok_ok_end line q (length pre + i) x (proj1 (Forall_forall _ _) Hc _ Hin) Hx').
      eapply Forall_lookup_1 in Hwc; [|exact Hx]. congruence.
  - rewrite lookup_drop. apply zeros_at_in.
    + rewrite ends_tokens. apply list_elem_of_fmap. eexists. by split; [|exact Ht].
    + rewrite El, !length_app. simpl. lia.
Qed.

Lemma parsecmd_reads (s : list Z) (c : cmd) (buf : list Z) :
  (0 ∉ s) -> parsecmd s = Ok (c, buf) ->
  Forall (tok_ok s) (tokens c) /\ length buf = S (length s) /\ strings buf c = text s c.
Proof.
  intros Hz. unfold parsecmd. pose proof (proj1 (parse_good s (parse_fuel s) s ltac:(done))) as G.
  destruct (parseline _ _ s) as [[c' ps]| | |]; simpl; [|done..]. destruct G as [G _].
  destruct (peek ps []) as [b ps']. case_bool_decide; [done|]. intros [= <- <-]. split_and!; [done| |].
  - etrans; [apply length_zeros_at|]. rewrite length_app. simpl. lia.
  - apply read_cmd_ext, Forall_forall. intros t Ht. by apply (word_string s _ c').
Qed.

(** [nulterminate] makes the words strings.  When [parsecmd] builds a command
    from a line, every word and file name of the command lies in the line, is
    not empty, ends where its characters end, and after [nulterminate] the C
    string at its start is exactly that word: the zeros written for one word
    never cut or extend another. *)
Theorem parsecmd_strings (s : list Z) (c : cmd) (buf : list Z) :
  (0 ∉ s) -> parsecmd s = Ok (c, buf) ->
  Forall (tok_ok s) (tokens c) /\ length buf = S (length s) /\ strings buf c = text s c.
Proof. apply parsecmd_reads. Qed.

Lemma parsecmd_strings_witness :
  exists c buf, parsecmd (chars "a b>f|c") = Ok (c, buf)
    /\ strings buf c = SPipe (SRedir (SExec [chars "a"; chars "b"]) (chars "f") 0x201 1) (SExec [chars "c"]).
Proof.
  eexists _, _. split; [vm_compute; reflexivity|].
  destruct (parsecmd_strings (chars "a b>f|c") _ _ ltac:(by apply (bool_decide_unpack _); vm_compute)
    ltac:(vm_compute; reflexivity)) as (_ & _ & ->).
  vm_compute. reflexivity.
Defined.
