(* ===== verification/ShPrint.v ===== *)
(** * The shell's parser inverts printing

    A command is printed with parentheses only where the grammar needs them; the
    parser reads the line back as the same command. *)

From Stdlib Require Import String Ascii ZArith Lia.
From stdpp Require Import base list strings sets.
From S2P Require Import Prelude State Console Fs User Ulib ShParse ShSpec.

Local Open Scope parse_scope.

(** ** Printing

    The levels of the grammar: 0 a line, 1 a line without a semicolon, 2 a
    pipeline, 3 one command with its redirections. *)

Fixpoint join (argv : list (list Z)) : list Z :=
  match argv with
  | [] => []
  | [w] => w
  | w :: argv => w ++ [32] ++ join argv
  end.

Definition parens (b : bool) (s : list Z) : list Z := if b then [ch "("] ++ s ++ [ch ")"] else s.

Definition redir_sym (fd : Z) : Z := if fd =? 0 then ch "<" else ch ">".

Fixpoint print (lvl : nat) (c : scmd) : list Z :=
  match c with
  | SExec argv => join argv
  | SRedir c f _ fd => print 3 c ++ [redir_sym fd] ++ f
  | SPipe l r => parens (3 <=? lvl)%nat (print 3 l ++ [ch "|"] ++ print 2 r)
  | SBack c => parens (2 <=? lvl)%nat (print 1 c ++ [ch "&"])
  | SList l r => parens (1 <=? lvl)%nat (print 1 l ++ [ch ";"] ++ print 0 r)
  end.

Definition word_ok (w : list Z) : Prop := w <> [] /\ Forall (fun c => word_char c = true) w /\ (0 ∉ w).

(** The commands that can be written: words of word characters, at most nine of
    them, and the redirections the shell has. *)
Fixpoint writable (c : scmd) : Prop :=
  match c with
  | SExec argv => (length argv < MAXARGS)%nat /\ Forall word_ok argv
  | SRedir c f mode fd =>
      writable c /\ word_ok f
      /\ (mode = O_RDONLY /\ fd = 0 \/ mode = Z.lor O_WRONLY O_CREATE /\ fd = 1)
  | SPipe l r => writable l /\ writable r
  | SList l r => writable l /\ writable r
  | SBack c => writable c
  end.

(** ** Tokens of printed text *)

(** [rest] is empty or goes on with one of the characters of [set]. *)
Definition starts (set : list Z) (rest : list Z) : Prop :=
  match rest with [] => True | c :: _ => c ∈ set end.

Lemma starts_mono set set' rest : (forall c, c ∈ set -> c ∈ set') -> starts set rest -> starts set' rest.
Proof. destruct rest; simpl; auto. Qed.

(** Solves membership in and exclusion from constant sets of characters. *)
Ltac charset := simpl; apply (bool_decide_unpack _); vm_compute; exact I.

Definition stops : list Z := chars "<>|)&;".

Lemma stops_spec c : c ∈ stops -> is_in whitespace c = false /\ word_char c = false /\ c <> ch "(".
Proof.
  intros H. assert (F : Forall (fun c => is_in whitespace c = false /\ word_char c = false /\ c <> ch "(") stops).
  { repeat constructor; done. }
  by eapply Forall_forall in F.
Qed.

Lemma skip_ws_stops rest : starts stops rest -> skip_ws rest = rest.
Proof. intros H. apply skip_while_id. destruct rest; [done|]. by apply stops_spec. Qed.

Lemma skip_ws_word w rest : w <> [] -> Forall (fun c => word_char c = true) w -> skip_ws (w ++ rest) = w ++ rest.
Proof.
  intros Hn Hw. apply skip_while_id. destruct Hw as [|c w Hc _]; [done|]. simpl.
  unfold word_char in Hc. apply andb_true_iff in Hc as [Hc _]. by apply negb_true_iff in Hc.
Qed.

Lemma skip_while_word w rest : Forall (fun c => word_char c = true) w ->
  match rest with [] => True | c :: _ => word_char c = false end -> skip_while word_char (w ++ rest) = rest.
Proof. induction 1 as [|c w Hc Hw IH]; simpl; intros H; [by apply skip_while_id|]. rewrite Hc. by apply IH. Qed.

Lemma word_char_default c : word_char c = true ->
  is_in (chars "|();&<") c = false /\ (c =? ch ">") = false /\ is_in (chars "|)&;") c = false
  /\ is_in (chars "<>") c = false /\ is_in (chars "(") c = false.
Proof.
  intros H. unfold word_char in H. apply andb_true_iff in H as [_ H]. apply negb_true_iff in H.
  assert (N : forall set, (forall x, x ∈ set -> x ∈ symbols) -> is_in set c = false).
  { intros set Hs. apply not_true_is_false. intros Hc. apply is_in_spec, Hs, is_in_spec in Hc. congruence. }
  assert (S : forall set, Forall (fun x => x ∈ symbols) set -> forall x, x ∈ set -> x ∈ symbols).
  { intros set F x Hx. by eapply Forall_forall in F. }
  split_and!; try (apply N, S; apply (bool_decide_unpack _); vm_compute; exact I).
  apply not_true_is_false. intros E. apply Z.eqb_eq in E as ->. vm_compute in H. done.
Qed.

Lemma gettoken_of_word es w rest :
  w <> [] -> Forall (fun c => word_char c = true) w ->
  match rest with [] => True | c :: _ => word_char c = false end ->
  gettoken es (w ++ rest) = (ch "a", (es - length (w ++ rest))%nat, (es - length rest)%nat, skip_ws rest).
Proof.
  intros Hn Hw Hr. unfold gettoken. rewrite skip_ws_word by done. destruct Hw as [|c w Hc Hw]; [done|]. cbn [app].
  destruct (word_char_default c Hc) as (E1 & E2 & _). rewrite E1, E2.
  change (c :: w ++ rest) with ((c :: w) ++ rest). rewrite skip_while_word; [done|by constructor|done].
Qed.

Lemma gettoken_of_sym es c rest :
  c ∈ chars "|();&<" -> gettoken es (c :: rest) = (c, (es - S (length rest))%nat, (es - length rest)%nat, skip_ws rest).
Proof.
  intros H. unfold gettoken.
  assert (F : Forall (fun c => skip_ws (c :: rest) = c :: rest /\ is_in (chars "|();&<") c = true) (chars "|();&<")).
  { repeat constructor. }
  eapply Forall_forall in F as [F1 F2]; [|exact H]. by rewrite F1, F2.
Qed.

Lemma gettoken_of_gt es rest :
  match rest with [] => True | c :: _ => c <> ch ">" end ->
  gettoken es (ch ">" :: rest) = (ch ">", (es - S (length rest))%nat, (es - length rest)%nat, skip_ws rest).
Proof.
  intros H. unfold gettoken. change (skip_ws (ch ">" :: rest)) with (ch ">" :: rest).
  change (is_in (chars "|();&<") (ch ">")) with false. change (ch ">" =? ch ">") with true. cbv iota.
  destruct rest as [|d rest]; [done|]. by destruct (Z.eqb_spec d (ch ">")).
Qed.

Lemma peek_stops rest toks : starts stops rest ->
  peek rest toks = (match rest with [] => false | c :: _ => is_in toks c end, rest).
Proof. intros H. unfold peek. by rewrite skip_ws_stops. Qed.

Lemma peek_word w rest toks : w <> [] -> Forall (fun c => word_char c = true) w ->
  toks ∈ [chars "|)&;"; chars "<>"; chars "("] -> peek (w ++ rest) toks = (false, w ++ rest).
Proof.
  intros Hn Hw Ht. unfold peek. rewrite skip_ws_word by done. destruct Hw as [|c w Hc Hw]; [done|].
  destruct (word_char_default c Hc) as (_ & _ & E1 & E2 & E3). simpl. f_equal.
  rewrite !elem_of_cons in Ht. destruct Ht as [->|[->|[->|Ht]]]; [done..|]. by apply not_elem_of_nil in Ht.
Qed.

Lemma slice_suffix line w rest :
  (w ++ rest) `suffix_of` line ->
  slice line ((length line - length (w ++ rest))%nat, (length line - length rest)%nat) = w.
Proof.
  intros [k ->]. unfold slice. cbn [fst snd]. rewrite !length_app.
  replace (length k + (length w + length rest) - (length w + length rest))%nat with (length k) by lia.
  rewrite drop_app_length.
  replace (length k + (length w + length rest) - length rest - length k)%nat with (length w) by lia.
  apply take_app_length.
Qed.

(** ** Reading back one level at a time *)

Section Line.
Context (line : list Z).
Local Abbreviation es := (length line).

Lemma suffix_drop w rest : (w ++ rest) `suffix_of` line -> rest `suffix_of` line.
Proof. intros H. etrans; [|exact H]. by exists w. Qed.

(** One redirection. *)
Lemma redir_step fuel c0 f mode fd rest :
  word_ok f -> (mode = O_RDONLY /\ fd = 0 \/ mode = Z.lor O_WRONLY O_CREATE /\ fd = 1) ->
  starts stops rest -> (redir_sym fd :: f ++ rest) `suffix_of` line ->
  exists q e, parseredirs (S fuel) es c0 (redir_sym fd :: f ++ rest)
      = parseredirs fuel es (redircmd c0 q e mode fd) rest
    /\ slice line (q, e) = f.
Proof.
  intros (Hn & Hw & _) Hm Hs Hsuf. exists (es - length (f ++ rest))%nat, (es - length rest)%nat.
  split; [|apply slice_suffix; by apply (suffix_drop [redir_sym fd])].
  assert (Hr : match rest with [] => True | c :: _ => word_char c = false end).
  { destruct rest; [done|]. by apply stops_spec. }
  assert (G : gettoken es (redir_sym fd :: f ++ rest)
    = (redir_sym fd, (es - S (length (f ++ rest)))%nat, (es - length (f ++ rest))%nat, f ++ rest)).
  { unfold redir_sym. destruct (fd =? 0).
    - rewrite gettoken_of_sym, skip_ws_word by (done || charset). done.
    - rewrite gettoken_of_gt, skip_ws_word; [done..|]. destruct Hw as [|c w Hc _]; [done|]. simpl.
      intros ->. vm_compute in Hc. done. }
  cbn [parseredirs]. assert (P : peek (redir_sym fd :: f ++ rest) (chars "<>") = (true, redir_sym fd :: f ++ rest)).
  { rewrite peek_stops; unfold redir_sym; destruct (fd =? 0); (done || charset). }
  rewrite P, G, gettoken_of_word, skip_ws_stops by done. cbn [negb].
  destruct Hm as [[-> ->]|[-> ->]]; done.
Qed.

Lemma redirs_done fuel c rest :
  starts (chars "|)&;") rest -> parseredirs (S fuel) es c rest = Ok (c, rest).
Proof.
  intros H. assert (Hs : starts stops rest).
  { eapply starts_mono; [|exact H]. intros x Hx. vm_compute in Hx |- *. set_solver. }
  cbn [parseredirs]. rewrite peek_stops by done. destruct rest as [|x rest]; [done|].
  assert (F : Forall (fun c => is_in (chars "<>") c = false) (chars "|)&;")) by repeat constructor.
  eapply Forall_forall in F; [|exact H]. by rewrite F.
Qed.

Lemma args_done fuel args c rest :
  starts (chars "|)&;") rest -> parseargs (S fuel) es args c rest = Ok (set_argv args c, rest).
Proof.
  intros H. assert (Hs : starts stops rest).
  { eapply starts_mono; [|exact H]. intros x Hx. vm_compute in Hx |- *. set_solver. }
  cbn [parseargs]. rewrite peek_stops by done. destruct rest as [|x rest]; [done|].
  apply is_in_spec in H. by rewrite H.
Qed.

(** The words of a command, up to its redirections. *)
Lemma words_step ws : forall args fuel c0 rest,
  ws <> [] -> Forall word_ok ws -> (length args + length ws < MAXARGS)%nat -> starts stops rest ->
  (join ws ++ rest) `suffix_of` line -> (length (join ws ++ rest) < fuel)%nat ->
  exists f toks, parseargs fuel es args c0 (join ws ++ rest)
      = (let* (c, ps) := parseredirs f es c0 rest in parseargs f es (args ++ toks) c ps)
    /\ (length rest < f)%nat /\ slice line <$> toks = ws.
Proof.
  induction ws as [|w ws IH]; intros args fuel c0 rest Hne Hws Hl Hs Hsuf Hf; [done|]. clear Hne.
  apply Forall_cons in Hws as [(Hn & Hw & Hz) Hws].
  set (rest1 := match ws with [] => rest | _ => [32] ++ join ws ++ rest end).
  assert (Ej : join (w :: ws) ++ rest = w ++ rest1).
  { unfold rest1. destruct ws; simpl; rewrite <- ?(assoc_L (++)); done. }
  rewrite Ej in *. destruct fuel as [|fuel]; [lia|]. cbn [parseargs].
  assert (Hr : match rest1 with [] => True | c :: _ => word_char c = false end).
  { unfold rest1. destruct ws; [|done]. destruct rest; [done|]. by apply stops_spec. }
  rewrite peek_word, gettoken_of_word by (done || left).
  change (ch "a" =? 0) with false. rewrite Z.eqb_refl. cbv iota zeta. cbn [negb].
  set (t := ((es - length (w ++ rest1))%nat, (es - length rest1)%nat)).
  assert (Et : slice line t = w) by by apply slice_suffix.
  rewrite (proj2 (Nat.leb_gt _ _)) by (rewrite length_app; simpl in *; unfold MAXARGS in *; lia).
  rewrite length_app in Hf. assert (1 <= length w)%nat by (destruct w; [done|simpl; lia]).
  destruct ws as [|w' ws].
  - unfold rest1 in *. rewrite skip_ws_stops by done. exists fuel, [t]. split_and!; [done|lia|]. simpl. by rewrite Et.
  - unfold rest1 in *. change (skip_ws ([32] ++ join (w' :: ws) ++ rest)) with (skip_ws (join (w' :: ws) ++ rest)).
    pose proof Hws as ((Hn' & Hw' & _) & _)%Forall_cons.
    assert (Ej' : exists r, join (w' :: ws) ++ rest = w' ++ r).
    { destruct ws; [by exists rest|]. eexists. simpl. by rewrite <- (assoc_L (++)). }
    destruct Ej' as [r Ej']. rewrite (length_app [32]) in Hf. change (length [32]) with 1%nat in Hf.
    destruct (IH (args ++ [t]) fuel c0 rest) as (f & toks & E & Hf' & Et'); [done|done| |done| |lia|].
    { rewrite length_app. simpl in *. lia. }
    { apply (suffix_drop (w ++ [32])). by rewrite <- (assoc_L (++)). }
    exists f, (t :: toks). split_and!; [|done|by rewrite fmap_cons, Et, Et'].
    rewrite Ej' in *. rewrite skip_ws_word by done. destruct fuel as [|fuel]; [lia|].
    cbn [parseredirs]. rewrite peek_word by (done || (right; left)). cbn [pbind]. cbv beta iota.
    rewrite E. by rewrite <- (assoc_L (++)).
Qed.

(** What the functions of the parser do with the printed command in front of
    [rest]; the redirections in [rest], if any, still belong to a command of
    level 3. *)
Definition reads_exec (c : scmd) : Prop := forall rest fuel,
  starts stops rest -> (print 3 c ++ rest) `suffix_of` line -> (4 * length (print 3 c ++ rest) + 2 <= fuel)%nat ->
  exists f c0 (fx : cmd -> cmd) K,
    parseexec fuel es (print 3 c ++ rest) = pbind (parseredirs f es c0 rest) K
    /\ (length rest < f)%nat /\ text line (fx c0) = c
    /\ (forall c q e m d, fx (redircmd c q e m d) = redircmd (fx c) q e m d)
    /\ (forall c1 rest', starts (chars "|)&;") rest' -> K (c1, rest') = Ok (fx c1, rest')).

Definition reads_pipe (c : scmd) : Prop := forall rest fuel,
  starts (chars ")&;") rest -> (print 2 c ++ rest) `suffix_of` line -> (4 * length (print 2 c ++ rest) + 3 <= fuel)%nat ->
  exists c0, parsepipe fuel es (print 2 c ++ rest) = Ok (c0, rest) /\ text line c0 = c.

Definition reads_back (c : scmd) : Prop := forall rest fuel,
  starts (chars ")&;") rest -> (print 1 c ++ rest) `suffix_of` line -> (4 * length (print 1 c ++ rest) + 3 <= fuel)%nat ->
  exists c0 ps0 c1, parsepipe fuel es (print 1 c ++ rest) = Ok (c0, ps0) /\ text line c1 = c
    /\ (length ps0 <= length (print 1 c ++ rest))%nat
    /\ (forall f, (length ps0 < f)%nat ->
        exists f', (length rest < f')%nat /\ parsebacks f es c0 ps0 = parsebacks f' es c1 rest).

Definition reads_line (c : scmd) : Prop := forall rest fuel,
  starts (chars ")") rest -> (print 0 c ++ rest) `suffix_of` line -> (4 * length (print 0 c ++ rest) + 4 <= fuel)%nat ->
  exists c0, parseline fuel es (print 0 c ++ rest) = Ok (c0, rest) /\ text line c0 = c.

Lemma starts_sub set set' rest :
  forallb (fun c => bool_decide (c ∈ set')) set = true -> starts set rest -> starts set' rest.
Proof.
  intros H. apply starts_mono. intros c Hc. rewrite forallb_forall in H.
  specialize (H c ltac:(by apply list_elem_of_In)). by apply bool_decide_eq_true in H.
Qed.

(** A character of one set is not in the other. *)
Lemma peek_not set toks rest :
  forallb (fun c => bool_decide (c ∈ stops) && negb (is_in toks c)) set = true -> starts set rest ->
  peek rest toks = (false, rest).
Proof.
  intros H Hs. rewrite forallb_forall in H. destruct rest as [|c rest]; [done|].
  specialize (H c ltac:(by apply list_elem_of_In)). apply andb_true_iff in H as [H1 H2].
  apply bool_decide_eq_true in H1. rewrite peek_stops by done. apply negb_true_iff in H2. by rewrite H2.
Qed.

(** [after_token] over a symbol, in front of text that does not start with a blank. *)
Lemma after_sym c s : c ∈ chars "|();&<" -> skip_ws s = s -> after_token es (c :: s) = s.
Proof. intros Hc Hs. unfold after_token. by rewrite gettoken_of_sym. Qed.

Lemma exec_reads c : reads_exec c -> forall rest fuel,
  starts (chars "|)&;") rest -> (print 3 c ++ rest) `suffix_of` line -> (4 * length (print 3 c ++ rest) + 2 <= fuel)%nat ->
  exists c0, parseexec fuel es (print 3 c ++ rest) = Ok (c0, rest) /\ text line c0 = c.
Proof.
  intros H rest fuel Hs Hsuf Hf.
  destruct (H rest fuel ltac:(eapply starts_sub; [|exact Hs]; done) Hsuf Hf) as (f & c0 & fx & K & E & Hl & Ht & _ & HK).
  exists (fx c0). split; [|done]. rewrite E. destruct f as [|f]; [lia|]. rewrite redirs_done by done. by apply HK.
Qed.

Lemma pipe_of_exec c : print 2 c = print 3 c -> reads_exec c -> reads_pipe c.
Proof.
  intros Ep H rest fuel Hs Hsuf Hf. rewrite Ep in *. destruct fuel as [|fuel]; [lia|].
  destruct (exec_reads c H rest fuel ltac:(eapply starts_sub; [|exact Hs]; done) Hsuf ltac:(lia)) as (c0 & E & Ht).
  exists c0. split; [|done]. cbn [parsepipe]. rewrite E. cbn [pbind]. by rewrite (peek_not (chars ")&;")) by done.
Qed.

Lemma back_of_pipe c : print 1 c = print 2 c -> reads_pipe c -> reads_back c.
Proof.
  intros Ep H rest fuel Hs Hsuf Hf. rewrite Ep in *. destruct (H rest fuel Hs Hsuf Hf) as (c0 & E & Ht).
  exists c0, rest, c0. split_and!; [done|done|rewrite length_app; lia|]. intros f Hf'. by exists f.
Qed.

Lemma line_of_back c : print 0 c = print 1 c -> reads_back c -> reads_line c.
Proof.
  intros Ep H rest fuel Hs Hsuf Hf. rewrite Ep in *. destruct fuel as [|fuel]; [lia|].
  destruct (H rest fuel ltac:(eapply starts_sub; [|exact Hs]; done) Hsuf ltac:(lia)) as (c0 & ps0 & c1 & E & Ht & Hl & HB).
  destruct (HB fuel ltac:(lia)) as (f' & Hf' & EB). destruct f' as [|f']; [lia|].
  exists c1. split; [|done]. cbn [parseline]. rewrite E. cbn [pbind]. rewrite EB. cbn [parsebacks].
  rewrite (peek_not (chars ")")) by done. cbn [pbind]. by rewrite (peek_not (chars ")")) by done.
Qed.

(** Printed commands do not start with a blank. *)
Lemma print_no_blank c : writable c -> forall lvl rest, starts stops rest ->
  skip_ws (print lvl c ++ rest) = print lvl c ++ rest.
Proof.
  induction c as [argv|c IH f m fd|l IHl r IHr|l IHl r IHr|c IH]; intros Hw lvl rest Hs; cbn [print writable] in *.
  - destruct Hw as [_ Hw]. destruct Hw as [|w ws (Hn & Hwc & _) _]; [by apply skip_ws_stops|].
    destruct ws; cbn [join]; rewrite <- ?(assoc_L (++)); by apply skip_ws_word.
  - destruct Hw as (Hw & _ & _). rewrite <- (assoc_L (++)). apply IH; [done|].
    unfold redir_sym. simpl. destruct (fd =? 0); charset.
  - destruct Hw as [Hl Hr]. unfold parens. destruct (_ <=? _)%nat; [done|]. rewrite <- !(assoc_L (++)).
    apply IHl; [done|]. charset.
  - destruct Hw as [Hl Hr]. unfold parens. destruct (_ <=? _)%nat; [done|]. rewrite <- !(assoc_L (++)).
    apply IHl; [done|]. charset.
  - unfold parens. destruct (_ <=? _)%nat; [done|]. rewrite <- !(assoc_L (++)). apply IH; [done|]. charset.
Qed.

Lemma exec_of_line c :
  writable c -> print 3 c = [ch "("] ++ print 0 c ++ [ch ")"] -> reads_line c -> reads_exec c.
Proof.
  intros Hw Ep H rest fuel Hs Hsuf Hf. rewrite Ep, <- !(assoc_L (++)) in *.
  rewrite (length_app [_]) in Hf. change (length [ch "("]) with 1%nat in Hf.
  destruct fuel as [|[|fuel]]; [lia|lia|].
  destruct (H (ch ")" :: rest) fuel) as (c0 & E & Ht); [charset|by apply (suffix_drop [ch "("])|simpl in *; lia|].
  exists fuel, c0, id, Ok. split_and!; [| |done|done|done].
  - cbn [parseexec app].
    assert (P : peek (ch "(" :: print 0 c ++ ch ")" :: rest) (chars "(") = (true, ch "(" :: print 0 c ++ ch ")" :: rest)) by done.
    rewrite P. cbn [parseblock]. rewrite P. cbn [negb].
    rewrite after_sym; [|charset|apply print_no_blank; [done|charset]]. rewrite E. cbn [pbind].
    rewrite (peek_stops (ch ")" :: rest)) by charset. change (is_in (chars ")") (ch ")")) with true. cbn [negb].
    rewrite after_sym; [|charset|by apply skip_ws_stops]. by destruct (parseredirs fuel es c0 rest) as [[? ?]| | |].
  - rewrite !length_app in Hf. simpl in Hf. lia.
Qed.

Lemma exec_words argv : (length argv < MAXARGS)%nat -> Forall word_ok argv -> reads_exec (SExec argv).
Proof.
  intros Hl Hw rest fuel Hs Hsuf Hf. cbn [print] in *. destruct fuel as [|[|fuel]]; [lia|lia|].
  destruct (decide (argv = [])) as [->|Hne].
  - exists (S fuel), (execcmd []), (set_argv []), (fun x => parseargs (S fuel) es [] x.1 x.2).
    simpl app in *. split_and!; [|lia|done|done|].
    + cbn [parseexec]. rewrite peek_stops by done.
      replace (match rest with [] => false | c :: _ => is_in (chars "(") c end) with false.
      2: { destruct rest as [|x rest]; [done|]. symmetry. apply not_true_is_false. intros H.
           apply is_in_spec in H. apply list_elem_of_singleton in H. by apply stops_spec in Hs as (_ & _ & Hx). }
      by destruct (parseredirs (S fuel) es (execcmd []) rest) as [[? ?]| | |].
    + intros c1 rest' H. by apply args_done.
  - destruct (words_step argv [] (S fuel) (execcmd []) rest) as (f & toks & E & Hf' & Et); [done|done|done|done|done|lia|].
    exists f, (execcmd []), (set_argv toks), (fun x => parseargs f es toks x.1 x.2).
    split_and!; [|done|simpl; unfold text; simpl; by rewrite Et|done|].
    + destruct argv as [|w ws]; [done|]. apply Forall_cons in Hw as [(Hn & Hwc & _) _].
      assert (Ej : exists r, join (w :: ws) ++ rest = w ++ r).
      { destruct ws; [by exists rest|]. eexists. simpl. by rewrite <- (assoc_L (++)). }
      destruct Ej as [r Ej]. cbn [parseexec]. rewrite Ej. rewrite peek_word by (done || (right; right; left)).
      cbn [parseredirs]. rewrite peek_word by (done || (right; left)). cbn [pbind]. rewrite <- Ej, E.
      by destruct (parseredirs f es (execcmd []) rest) as [[? ?]| | |].
    + intros c1 rest' H. destruct f as [|f]; [lia|]. by apply args_done.
Qed.

Lemma exec_redir c f mode fd :
  reads_exec c -> word_ok f -> (mode = O_RDONLY /\ fd = 0 \/ mode = Z.lor O_WRONLY O_CREATE /\ fd = 1) ->
  reads_exec (SRedir c f mode fd).
Proof.
  intros H Hf Hm rest fuel Hs Hsuf Hfu. cbn [print] in *. rewrite <- !(assoc_L (++)) in *. cbn [app] in *.
  destruct (H (redir_sym fd :: f ++ rest) fuel) as (f1 & c0 & fx & K & E & Hl & Ht & Hfx & HK); [|done|done|].
  { unfold redir_sym. simpl. destruct (fd =? 0); charset. }
  destruct f1 as [|f1]; [lia|].
  destruct (redir_step f1 c0 f mode fd rest Hf Hm Hs) as (q & e & E' & Eq); [by eapply suffix_drop|].
  exists f1, (redircmd c0 q e mode fd), fx, K. split_and!; [by rewrite E, E'| | |done|done].
  - simpl in Hl. rewrite length_app in Hl. lia.
  - rewrite Hfx. unfold text in *. simpl. by rewrite Ht, Eq.
Qed.

Lemma pipe_pipe l r : writable r -> reads_exec l -> reads_pipe r -> reads_pipe (SPipe l r).
Proof.
  intros Hw Hl Hr rest fuel Hs Hsuf Hf. cbn [print] in *. unfold parens in *. simpl Nat.leb in *. cbv iota in *.
  rewrite <- !(assoc_L (++)) in *. cbn [app] in *. destruct fuel as [|fuel]; [lia|].
  rewrite length_app in Hf. simpl length in Hf.
  destruct (exec_reads l Hl (ch "|" :: print 2 r ++ rest) fuel) as (c1 & E1 & T1); [charset|done|rewrite length_app; simpl; lia|].
  destruct (Hr rest fuel Hs) as (c2 & E2 & T2); [apply (suffix_drop (print 3 l ++ [ch "|"])); by rewrite <- (assoc_L (++))|lia|].
  exists (pipecmd c1 c2). split; [|unfold text in *; simpl; congruence]. cbn [parsepipe]. rewrite E1. cbn [pbind].
  rewrite (peek_stops (_ :: _)) by charset. change (is_in (chars "|") (ch "|")) with true. cbv iota.
  rewrite after_sym; [by rewrite E2|charset|]. apply print_no_blank; [done|]. eapply starts_sub; [|exact Hs]; done.
Qed.

Lemma back_back c : reads_back c -> reads_back (SBack c).
Proof.
  intros H rest fuel Hs Hsuf Hf. cbn [print] in *. unfold parens in *. simpl Nat.leb in *. cbv iota in *.
  rewrite <- !(assoc_L (++)) in *. cbn [app] in *.
  destruct (H (ch "&" :: rest) fuel) as (c0 & ps0 & c1 & E & Ht & Hl & HB); [charset|done|done|].
  exists c0, ps0, (backcmd c1). split_and!; [done|unfold text in *; simpl; congruence|done|].
  intros f Hf'. destruct (HB f Hf') as (f' & Hf'' & EB). simpl in Hf''. destruct f' as [|f']; [lia|].
  exists f'. split; [lia|]. rewrite EB. cbn [parsebacks]. rewrite (peek_stops (_ :: _)) by charset.
  change (is_in (chars "&") (ch "&")) with true. cbv iota. rewrite after_sym; [done|charset|].
  apply skip_ws_stops. eapply starts_sub; [|exact Hs]; done.
Qed.

Lemma line_list l r : writable r -> reads_back l -> reads_line r -> reads_line (SList l r).
Proof.
  intros Hw Hl Hr rest fuel Hs Hsuf Hf. cbn [print] in *. unfold parens in *. simpl Nat.leb in *. cbv iota in *.
  rewrite <- !(assoc_L (++)) in *. cbn [app] in *. destruct fuel as [|fuel]; [lia|].
  rewrite length_app in Hf. simpl length in Hf.
  destruct (Hl (ch ";" :: print 0 r ++ rest) fuel) as (c0 & ps0 & c1 & E & Ht & Hln & HB); [charset|done|rewrite length_app; simpl; lia|].
  destruct (Hr rest fuel Hs) as (c2 & E2 & T2); [apply (suffix_drop (print 1 l ++ [ch ";"])); by rewrite <- (assoc_L (++))|lia|].
  rewrite length_app in Hln. simpl length in Hln.
  destruct (HB fuel ltac:(lia)) as (f' & Hf' & EB). destruct f' as [|f']; [lia|].
  exists (listcmd c1 c2). split; [|unfold text in *; simpl; congruence]. cbn [parseline]. rewrite E. cbn [pbind].
  rewrite EB. cbn [parsebacks]. rewrite (peek_stops (_ :: _)) by charset.
  change (is_in (chars "&") (ch ";")) with false. cbn [pbind]. rewrite (peek_stops (_ :: _)) by charset.
  change (is_in (chars ";") (ch ";")) with true. cbv iota.
  rewrite after_sym; [by rewrite E2|charset|]. apply print_no_blank; [done|]. eapply starts_sub; [|exact Hs]; done.
Qed.

Lemma reads_all c : writable c -> reads_exec c /\ reads_pipe c /\ reads_back c /\ reads_line c.
Proof.
  assert (X : forall c, print 2 c = print 3 c -> print 1 c = print 2 c -> print 0 c = print 1 c ->
     reads_exec c -> reads_exec c /\ reads_pipe c /\ reads_back c /\ reads_line c).
  { clear c. intros c E2 E1 E0 H. pose proof (pipe_of_exec c E2 H) as P. pose proof (back_of_pipe c E1 P) as B.
    split_and!; [done..|]. by apply line_of_back. }
  induction c as [argv|c IH f m fd|l IHl r IHr|l IHl r IHr|c IH]; cbn [writable]; intros Hw.
  - apply X; [done..|]. destruct Hw. by apply exec_words.
  - destruct Hw as (Hw & Hf & Hm). apply X; [done..|]. by apply exec_redir; [apply IH|..].
  - destruct Hw as [Hl Hr]. destruct (IHl Hl) as (Le & _), (IHr Hr) as (_ & Rp & _).
    pose proof (pipe_pipe l r Hr Le Rp) as P. pose proof (back_of_pipe (SPipe l r) eq_refl P) as B.
    pose proof (line_of_back (SPipe l r) eq_refl B) as L. split_and!; [|done..]. by apply exec_of_line.
  - destruct Hw as [Hl Hr]. destruct (IHl Hl) as (_ & _ & Lb & _), (IHr Hr) as (_ & _ & _ & Rl).
    pose proof (line_list l r Hr Lb Rl) as L.
    assert (E : reads_exec (SList l r)) by by apply exec_of_line.
    pose proof (pipe_of_exec (SList l r) eq_refl E) as P. split_and!; [done|done| |done]. by apply back_of_pipe.
  - destruct (IH Hw) as (_ & _ & Cb & _). pose proof (back_back c Cb) as B.
    pose proof (line_of_back (SBack c) eq_refl B) as L.
    assert (E : reads_exec (SBack c)) by by apply exec_of_line.
    split_and!; [done| |done|done]. by apply pipe_of_exec.
Qed.

End Line.

Lemma print_no_nul c : writable c -> forall lvl, 0 ∉ print lvl c.
Proof.
  assert (J : forall argv, Forall word_ok argv -> 0 ∉ join argv).
  { induction 1 as [|w ws (_ & _ & Hz) _ IH]; [apply not_elem_of_nil|]. destruct ws; [done|].
    cbn [join]. rewrite !elem_of_app. intros [?|[H|?]]; [done| |done]. by apply list_elem_of_singleton in H. }
  assert (S1 : forall s, (0 ∉ s) -> forall b, 0 ∉ parens b s).
  { intros s Hs b. unfold parens. destruct b; [|done]. rewrite !elem_of_app, !list_elem_of_singleton. by intros [?|[?|?]]. }
  induction c as [argv|c IH f m fd|l IHl r IHr|l IHl r IHr|c IH]; cbn [print writable]; intros Hw lvl.
  - destruct Hw. by apply J.
  - destruct Hw as (Hw & (_ & _ & Hz) & _). specialize (IH Hw 3%nat). rewrite !elem_of_app, list_elem_of_singleton.
    unfold redir_sym. destruct (fd =? 0); by intros [?|[?|?]].
  - destruct Hw as [Hl Hr]. specialize (IHl Hl 3%nat). specialize (IHr Hr 2%nat). apply S1.
    rewrite !elem_of_app, list_elem_of_singleton. by intros [?|[?|?]].
  - destruct Hw as [Hl Hr]. specialize (IHl Hl 1%nat). specialize (IHr Hr 0%nat). apply S1.
    rewrite !elem_of_app, list_elem_of_singleton. by intros [?|[?|?]].
  - specialize (IH Hw 1%nat). apply S1. rewrite !elem_of_app, list_elem_of_singleton. by intros [?|?].
Qed.

(** C15: the parser inverts printing.  Every command the shell has, printed with
    parentheses only where the grammar needs them, is parsed back as the same
    command with the same strings. *)
Theorem parse_print (c : scmd) :
  writable c -> exists c0 buf, parsecmd (print 0 c) = Ok (c0, buf) /\ strings buf c0 = c.
Proof.
  intros Hw. destruct (reads_all (print 0 c) c Hw) as (_ & _ & _ & L).
  destruct (L [] (parse_fuel (print 0 c))) as (c0 & E & Ht);
    [done|by rewrite app_nil_r|rewrite app_nil_r; unfold parse_fuel; lia|]. rewrite app_nil_r in E.
  assert (P : exists buf, parsecmd (print 0 c) = Ok (c0, buf)).
  { unfold parsecmd. rewrite E. cbn [pbind]. by eexists. }
  destruct P as [buf P]. exists c0, buf. split; [done|].
  destruct (parsecmd_reads _ _ _ (print_no_nul c Hw 0) P) as (_ & _ & ->). done.
Qed.

Lemma word_ok_chars s :
  forallb word_char (chars s) && bool_decide (chars s <> []) && bool_decide (0 ∉ chars s) = true -> word_ok (chars s).
Proof.
  rewrite !andb_true_iff, !bool_decide_eq_true. intros [[H1 H2] H3]. split_and!; [done| |done].
  apply Forall_forall. intros x Hx. rewrite forallb_forall in H1. apply H1. by apply list_elem_of_In.
Qed.

(** Solves [writable c] for a constant command. *)
Ltac solve_writable :=
  cbn [writable];
  repeat match goal with
  | |- _ /\ _ => split
  | |- Forall _ _ => constructor
  | |- word_ok _ => apply word_ok_chars; vm_compute; reflexivity
  | |- (_ < _)%nat => vm_compute; lia
  | |- _ \/ _ => first [left; split; reflexivity | right; split; reflexivity]
  end.

Definition demo_cmd : scmd :=
  SList (SBack (SPipe (SRedir (SExec [chars "cat"; chars "-n"]) (chars "in") 0 0) (SExec [chars "wc"])))
        (SRedir (SList (SExec [chars "echo"; chars "hi"]) (SExec [])) (chars "out") 0x201 1).

Lemma parse_print_witness :
  print 0 demo_cmd = chars "cat -n<in|wc&;(echo hi;)>out"
  /\ exists c0 buf, parsecmd (print 0 demo_cmd) = Ok (c0, buf) /\ strings buf c0 = demo_cmd.
Proof.
  split; [reflexivity|]. apply (parse_print demo_cmd).
  unfold demo_cmd. solve_writable.
Defined.
