(* ===== verification/ShRun.v ===== *)
(** * Running the shell's commands (sh.c)

    [runcmd], [getcmd] and [main] as programs over the system calls, and the
    descriptors of the programs they start: what a pipeline, a list or a
    redirection connects. *)

From Stdlib Require Import String Ascii ZArith Lia.
From stdpp Require Import base gmap list strings.
From ITree Require Import ITree.
From S2P Require Import Prelude State Console Fs User Ulib ShParse ShSpec ShPrint.

Open Scope user_scope.

(** ** The program *)

Definition sh_panic {A} (s : string) : prog A := printf 2 ("%s" ++ newline) [FStr (Some (chars s))];; exit.

Definition fork1 : prog Z :=
  pid <- sys Sys_fork;;
  if pid =? -1 then sh_panic "fork" else Ret pid.

(** [runcmd] never returns.  [dup] and [wait] are called for their effect. *)
Fixpoint runcmd (c : scmd) : prog Empty_set :=
  match c with
  | SExec [] => exit
  | SExec ((a0 :: _) as argv) =>
      sys (Sys_exec a0 argv);;
      printf 2 ("exec %s failed" ++ newline) [FStr (Some a0)];;
      exit
  | SRedir c file mode fd =>
      sys (Sys_close fd);;
      r <- sys (Sys_open file mode);;
      if r <? 0 then printf 2 ("open %s failed" ++ newline) [FStr (Some file)];; exit
      else runcmd c
  | SList l r =>
      pid <- fork1;;
      if pid =? 0 then runcmd l else
      sys Sys_wait;;
      runcmd r
  | SPipe l r =>
      p <- sys Sys_pipe;;
      let '(rc, (p0, p1)) := p in
      if rc <? 0 then sh_panic "pipe" else
      pid <- fork1;;
      if pid =? 0 then
        sys (Sys_close 1);;
        sys (Sys_dup p1);;
        sys (Sys_close p0);;
        sys (Sys_close p1);;
        runcmd l
      else
      pid <- fork1;;
      if pid =? 0 then
        sys (Sys_close 0);;
        sys (Sys_dup p0);;
        sys (Sys_close p0);;
        sys (Sys_close p1);;
        runcmd r
      else
      sys (Sys_close p0);;
      sys (Sys_close p1);;
      sys Sys_wait;;
      sys Sys_wait;;
      exit
  | SBack c =>
      pid <- fork1;;
      if pid =? 0 then runcmd c else exit
  end.

(** The line, or the end of the shell at the end of its input. *)
Definition getcmd : prog (list Z) :=
  printf 2 "$ " [];;
  buf <- gets 100;;
  match cstr buf with
  | [] => exit
  | _ => Ret buf
  end.

(** What a child does with a line. *)
Definition run_line (buf : list Z) : prog Empty_set :=
  match parsecmd (cstr buf) with
  | Ok (c, b) => runcmd (strings b c)
  | Panicked msg => sh_panic msg
  | Leftovers rest =>
      printf 2 ("leftovers: %s" ++ newline) [FStr (Some rest)];;
      sh_panic "syntax"
  | Fuel => exit
  end.

Definition sh_body (_ : unit) : prog (unit + Empty_set) :=
  buf <- getcmd;;
  let line := cstr buf in
  if bool_decide (take 3 line = chars "cd ") then
    let dir := drop 3 (take (length line - 1) line) in
    r <- sys (Sys_chdir dir);;
    (if r <? 0 then printf 2 ("cannot cd %s" ++ newline) [FStr (Some dir)] else Ret tt);;
    Ret (inl tt)
  else
    pid <- fork1;;
    (if pid =? 0 then x <- run_line buf;; match x : Empty_set with end else Ret tt);;
    sys Sys_wait;;
    Ret (inl tt).

(** Open the console until three descriptors are in use. *)
Definition sh_console (_ : unit) : prog (unit + unit) :=
  fd <- sys (Sys_open (chars "console") O_RDWR);;
  if fd <? 0 then Ret (inr tt)
  else if 3 <=? fd then sys (Sys_close fd);; Ret (inr tt)
  else Ret (inl tt).

Definition sh_main : prog Empty_set :=
  ITree.iter sh_console tt;;
  ITree.iter sh_body tt.

(** ** The processes a program starts

    What a descriptor refers to: something open from the start, a file, or an
    end of the pipe with the given number. *)
Inductive object : Type :=
| Given (i : Z)
| Opened (path : list Z) (mode : Z)
| ReadEnd (n : Z)
| WriteEnd (n : Z).

Definition fdtable : Type := gmap Z object.

(** The lowest of the 16 descriptors that is not in use. *)
Definition lowest (t : fdtable) : Z :=
  match first_index (fun n => bool_decide (t !! Z.of_nat n = None)) (seq 0 16) with
  | Some n => Z.of_nat n
  | None => -1
  end.

(** The programs executed by the process and its descendants, with their
    descriptors, when the calls succeed; [n] numbers the pipes. *)
Fixpoint spawn (fuel : nat) (p : prog Empty_set) (t : fdtable) (n : Z)
  : option (list (list (list Z) * fdtable) * Z) :=
  match fuel with
  | O => None
  | S fuel =>
      match observe p with
      | RetF x => match x : Empty_set with end
      | TauF p => spawn fuel p t n
      | VisF e k =>
          match e in sysE X return (X -> prog Empty_set) -> option (list (list (list Z) * fdtable) * Z) with
          | Sys_fork => fun k =>
              '(l1, n) ← spawn fuel (k 0) t n;
              '(l2, n) ← spawn fuel (k 1) t n;
              Some (l1 ++ l2, n)
          | Sys_exit => fun _ => Some ([], n)
          | Sys_exec _ argv => fun _ => Some ([(argv, t)], n)
          | Sys_pipe => fun k =>
              let r := lowest t in
              let t := <[r := ReadEnd n]> t in
              let w := lowest t in
              spawn fuel (k (0, (r, w))) (<[w := WriteEnd n]> t) (n + 1)
          | Sys_close fd => fun k => spawn fuel (k 0) (delete fd t) n
          | Sys_dup fd => fun k =>
              match t !! fd with
              | Some o => let d := lowest t in spawn fuel (k d) (<[d := o]> t) n
              | None => spawn fuel (k (-1)) t n
              end
          | Sys_open path mode => fun k =>
              let d := lowest t in spawn fuel (k d) (<[d := Opened path mode]> t) n
          | Sys_wait => fun k => spawn fuel (k 1) t n
          | Sys_write _ l => fun k => spawn fuel (k (Z.of_nat (length l))) t n
          | Sys_read _ _ => fun k => spawn fuel (k (0, [])) t n
          | Sys_fstat _ => fun k => spawn fuel (k (-1, mk_stat 0 0 0 0 0)) t n
          | Sys_kill _ | Sys_mknod _ _ _ | Sys_unlink _ | Sys_link _ _ | Sys_mkdir _ | Sys_chdir _
          | Sys_getpid | Sys_sbrk _ | Sys_sleep _ | Sys_uptime | Sys_cps | Sys_shm_alloc _ | Sys_describe =>
              fun k => spawn fuel (k (-1)) t n
          end k
      end
  end.

Definition spawns (p : prog Empty_set) (t : fdtable) (n : Z) (l : list (list (list Z) * fdtable)) (n' : Z) : Prop :=
  exists fuel, spawn fuel p t n = Some (l, n').

(** ** What a command should start

    The three standard descriptors, and the programs of a command with theirs:
    the left side of a pipe writes into it and the right side reads from it, a
    redirection replaces one descriptor, and nothing else is open. *)
Definition std (i o e : object) : fdtable := <[0 := i]> (<[1 := o]> {[2 := e]}).

Fixpoint plan (c : scmd) (i o e : object) (n : Z) : list (list (list Z) * fdtable) * Z :=
  match c with
  | SExec [] => ([], n)
  | SExec argv => ([(argv, std i o e)], n)
  | SRedir c file mode fd =>
      if fd =? 0 then plan c (Opened file mode) o e n else plan c i (Opened file mode) e n
  | SList l r =>
      let '(l1, n) := plan l i o e n in
      let '(l2, n) := plan r i o e n in (l1 ++ l2, n)
  | SPipe l r =>
      let '(l1, n1) := plan l i (WriteEnd n) e (n + 1) in
      let '(l2, n2) := plan r (ReadEnd n) o e n1 in (l1 ++ l2, n2)
  | SBack c => plan c i o e n
  end.

(** ** The steps of a process *)

Lemma spawn_more n m p t k x : spawn n p t k = Some x -> (n <= m)%nat -> spawn m p t k = Some x.
Proof.
  revert m p t k x. induction n as [|n IH]; intros m p t k x; [done|].
  destruct m as [|m]; [lia|]. cbn [spawn]. intros H Hm. assert (Hm' : (n <= m)%nat) by lia.
  destruct (observe p) as [[]|p'|X e q]; [by apply IH|].
  destruct e; cbv zeta in *; try (by apply IH); try done; simpl in *.
  - destruct (spawn n (q 0) t k) as [[l1 n1]|] eqn:E1; [|done]. rewrite (IH m _ _ _ _ E1 Hm'). simpl in *.
    destruct (spawn n (q 1) t n1) as [[l2 n2]|] eqn:E2; [|done]. by rewrite (IH m _ _ _ _ E2 Hm').
  - destruct (t !! fd); by apply IH.
Qed.

(** A call whose answer is [x] and that leaves [t'] and [n']. *)
Lemma spawns_sys {X} (e : sysE X) (k : X -> prog Empty_set) t n x t' n' l n'' :
  (forall f q, spawn (S f) (Vis e q) t n = spawn f (q x) t' n') ->
  spawns (k x) t' n' l n'' -> spawns (ITree.bind (sys e) k) t n l n''.
Proof.
  intros H [f Hf]. destruct f as [|f]; [done|]. exists (S (S f)).
  transitivity (spawn (S (S f)) (Vis e (fun y => ITree.bind (Ret y) k)) t n); [done|]. rewrite H. exact Hf.
Qed.

Lemma spawns_fork (k : Z -> prog Empty_set) t n l1 n1 l2 n2 :
  spawns (k 0) t n l1 n1 -> spawns (k 1) t n1 l2 n2 ->
  spawns (ITree.bind fork1 k) t n (l1 ++ l2) n2.
Proof.
  intros [f1 H1] [f2 H2]. exists (S (S (f1 + f2))).
  assert (B1 : spawn (S (f1 + f2)) (k 0) t n = Some (l1, n1)) by (eapply spawn_more; [exact H1|lia]).
  assert (B2 : spawn (S (f1 + f2)) (k 1) t n1 = Some (l2, n2)) by (eapply spawn_more; [exact H2|lia]).
  change (spawn (S (S (f1 + f2))) (ITree.bind fork1 k) t n)
    with ('(l1, n) ← spawn (S (f1 + f2)) (k 0) t n; '(l2, n) ← spawn (S (f1 + f2)) (k 1) t n; Some (l1 ++ l2, n)).
  rewrite B1. cbn [mbind option_bind]. by rewrite B2.
Qed.

Lemma spawns_exit (t : fdtable) n : spawns exit t n [] n.
Proof. by exists 1%nat. Qed.

(** Makes one call; the table it leaves is computed. *)
Tactic Notation "s_call" uconstr(t') :=
  refine (spawns_sys _ _ _ _ _ (t' : fdtable) _ _ _ _ _); [intros; reflexivity|]; cbv beta.

Section Pipe.
Context (i o e : object) (n : Z).

Definition piped : fdtable := <[4 := WriteEnd n]> (<[3 := ReadEnd n]> (std i o e)).

Lemma lowest_std : lowest (std i o e) = 3 /\ lowest (<[3 := ReadEnd n]> (std i o e)) = 4.
Proof. by vm_compute. Qed.

(** The left child's descriptors become those of the program, with the write
    end as its output. *)
Lemma left_end (k : prog Empty_set) m l m' :
  spawns k (std i (WriteEnd n) e) m l m' ->
  spawns (sys (Sys_close 1);; sys (Sys_dup 4);; sys (Sys_close 3);; sys (Sys_close 4);; k) piped m l m'.
Proof.
  intros H. s_call (<[4 := WriteEnd n]> (<[3 := ReadEnd n]> (<[0 := i]> {[2 := e]}))).
  s_call (<[4 := WriteEnd n]> (<[3 := ReadEnd n]> (std i (WriteEnd n) e))).
  s_call (<[4 := WriteEnd n]> (std i (WriteEnd n) e)). s_call (std i (WriteEnd n) e). exact H.
Qed.

Lemma right_end (k : prog Empty_set) m l m' :
  spawns k (std (ReadEnd n) o e) m l m' ->
  spawns (sys (Sys_close 0);; sys (Sys_dup 3);; sys (Sys_close 3);; sys (Sys_close 4);; k) piped m l m'.
Proof.
  intros H. s_call (<[4 := WriteEnd n]> (<[3 := ReadEnd n]> (<[1 := o]> {[2 := e]}))).
  s_call (<[4 := WriteEnd n]> (<[3 := ReadEnd n]> (std (ReadEnd n) o e))).
  s_call (<[4 := WriteEnd n]> (std (ReadEnd n) o e)). s_call (std (ReadEnd n) o e). exact H.
Qed.

End Pipe.

(** C27: the shell connects its commands as written.  When the system calls that it makes succeed, and started with the three
    standard descriptors, [runcmd] of any command of the shell runs exactly the
    programs of the command, each with exactly three descriptors open: the
    pipes between neighbours, the files of its redirections, or those the shell
    was given.  No end of a pipe is left open in any of them. *)
Theorem runcmd_connects (c : scmd) : writable c -> forall (i o e : object) (n : Z),
  spawns (runcmd c) (std i o e) n (plan c i o e n).1 (plan c i o e n).2.
Proof.
  induction c as [argv|c IH f m fd|l IHl r IHr|l IHl r IHr|c IH]; cbn [writable]; intros Hw i o e n; cbn [runcmd plan].
  - destruct argv as [|a0 argv]; [apply spawns_exit|]. by exists 1%nat.
  - destruct Hw as (Hw & _ & Hm). destruct Hm as [[-> ->]|[-> ->]]; simpl Z.eqb; cbv iota.
    + s_call (<[1 := o]> ({[2 := e]} : fdtable)). s_call (std (Opened f O_RDONLY) o e). by apply IH.
    + s_call (<[0 := i]> ({[2 := e]} : fdtable)). s_call (std i (Opened f (Z.lor O_WRONLY O_CREATE)) e). by apply IH.
  - destruct Hw as [Hl Hr]. specialize (IHl Hl i (WriteEnd n) e (n + 1)).
    destruct (plan l i (WriteEnd n) e (n + 1)) as [l1 n1]. specialize (IHr Hr (ReadEnd n) o e n1).
    destruct (plan r (ReadEnd n) o e n1) as [l2 n2]. cbn [fst snd] in *.
    apply (spawns_sys _ _ _ _ (0, (3, 4)) (piped i o e n) (n + 1)).
    { intros f q. destruct (lowest_std i o e n) as [L1 L2]. cbn [spawn observe _observe]. cbv zeta. by rewrite L1, L2. }
    cbv beta iota. simpl Z.ltb. cbv iota. apply (spawns_fork _ _ _ l1 n1 l2 n2); simpl Z.eqb; cbv iota.
    + by apply left_end.
    + rewrite <- (app_nil_r l2). apply (spawns_fork _ _ _ l2 n2 [] n2); simpl Z.eqb; cbv iota; [by apply right_end|].
      s_call (<[4 := WriteEnd n]> (std i o e)). s_call (std i o e). s_call (std i o e). s_call (std i o e). apply spawns_exit.
  - destruct Hw as [Hl Hr]. specialize (IHl Hl i o e n). destruct (plan l i o e n) as [l1 n1].
    specialize (IHr Hr i o e n1). destruct (plan r i o e n1) as [l2 n2]. cbn [fst snd] in *.
    apply (spawns_fork _ _ _ l1 n1 l2 n2); simpl Z.eqb; cbv iota; [done|]. s_call (std i o e). done.
  - rewrite <- (app_nil_r (plan c i o e n).1). apply (spawns_fork _ _ _ _ (plan c i o e n).2); simpl Z.eqb; cbv iota;
      [by apply IH|apply spawns_exit].
Qed.

Lemma runcmd_connects_witness :
  let ls := [chars "ls"] in let wc := [chars "wc"] in
  spawns (runcmd (SPipe (SExec ls) (SRedir (SExec wc) (chars "out") 0x201 1)))
    (std (Given 0) (Given 1) (Given 2)) 7
    [(ls, std (Given 0) (WriteEnd 7) (Given 2)); (wc, std (ReadEnd 7) (Opened (chars "out") 0x201) (Given 2))] 8.
Proof.
  intros ls wc. apply (runcmd_connects (SPipe (SExec ls) (SRedir (SExec wc) (chars "out") 0x201 1))).
  unfold ls, wc. solve_writable.
Defined.
