(* ===== verification/Umalloc.v ===== *)
(** * The user allocator (umalloc.c)

    Memory is a map from the addresses of headers to their two words [s.ptr] and
    [s.size]; a header is 8 bytes, so [p + n] on headers is [p + 8 * n] on
    addresses.  [base] is the address of the static header, [limit] how far
    [sbrk] can move the end of the process.  The two loops walk the circular
    free list and carry fuel; the theorems give the fuel that is enough. *)

From Stdlib Require Import ZArith Lia Sorted.
From stdpp Require Import base gmap list.
From S2P Require Import Prelude.

Record header : Type := mk_header { s_ptr : Z; s_size : Z }.

Record umem : Type := mk_umem { u_mem : gmap Z header; u_freep : Z; u_brk : Z }.

Definition hdr (m : gmap Z header) (a : Z) : header := default (mk_header 0 0) (m !! a).
Definition ptr_at (m : gmap Z header) (a : Z) : Z := s_ptr (hdr m a).
Definition size_at (m : gmap Z header) (a : Z) : Z := s_size (hdr m a).

Definition set_ptr (a v : Z) (m : gmap Z header) : gmap Z header := <[a := mk_header v (size_at m a)]> m.
Definition set_size (a v : Z) (m : gmap Z header) : gmap Z header := <[a := mk_header (ptr_at m a) (u32 v)]> m.

Section Allocator.
Context (base limit : Z).

(** The loop of [free] that looks for the neighbours of [bp]. *)
Fixpoint free_find (fuel : nat) (m : gmap Z header) (bp p : Z) : option Z :=
  match fuel with
  | O => None
  | S fuel =>
      let next := ptr_at m p in
      if (p <? bp) && (bp <? next) then Some p
      else if (next <=? p) && ((p <? bp) || (bp <? next)) then Some p
      else free_find fuel m bp next
  end.

(** The two joins of [free]. *)
Definition join_upper (bp p : Z) (m : gmap Z header) : gmap Z header :=
  let next := ptr_at m p in
  if bp + 8 * size_at m bp =? next
  then set_ptr bp (ptr_at m next) (set_size bp (size_at m bp + size_at m next) m)
  else set_ptr bp next m.

Definition join_lower (bp p : Z) (m : gmap Z header) : gmap Z header :=
  if p + 8 * size_at m p =? bp
  then set_ptr p (ptr_at m bp) (set_size p (size_at m p + size_at m bp) m)
  else set_ptr p bp m.

Definition free (fuel : nat) (ap : Z) (u : umem) : option umem :=
  let bp := ap - 8 in
  p ← free_find fuel (u_mem u) bp (u_freep u);
  Some (mk_umem (join_lower bp p (join_upper bp p (u_mem u))) p (u_brk u)).

(** [sbrk] moves the end of the process by [n] bytes and returns the old end. *)
Definition sbrk (n : Z) (u : umem) : option (Z * umem) :=
  let n := s32 n in
  if (0 <=? u_brk u + n) && (u_brk u + n <=? limit)
  then Some (u_brk u, mk_umem (u_mem u) (u_freep u) (u_brk u + n))
  else None.

(** The address returned is 0 when there is no more memory. *)
Definition morecore (fuel : nat) (nu : Z) (u : umem) : option (Z * umem) :=
  let nu := if nu <? 4096 then 4096 else nu in
  match sbrk (u32 (nu * 8)) u with
  | None => Some (0, u)
  | Some (p, u) =>
      u ← free fuel (p + 8) (mk_umem (set_size p nu (u_mem u)) (u_freep u) (u_brk u));
      Some (u_freep u, u)
  end.

(** Taking [nunits] units out of the block at [p]. *)
Definition take_units (nunits prevp p : Z) (u : umem) : Z * umem :=
  let m := u_mem u in
  if size_at m p =? nunits then (p + 8, mk_umem (set_ptr prevp (ptr_at m p) m) prevp (u_brk u))
  else
    let m := set_size p (size_at m p - nunits) m in
    let p := p + 8 * size_at m p in
    (p + 8, mk_umem (set_size p nunits m) prevp (u_brk u)).

Fixpoint malloc_loop (fuel : nat) (nunits prevp p : Z) (u : umem) : option (Z * umem) :=
  match fuel with
  | O => None
  | S fuel =>
      if nunits <=? size_at (u_mem u) p then Some (take_units nunits prevp p u)
      else if p =? u_freep u then
        '(p, u) ← morecore fuel nunits u;
        if p =? 0 then Some (0, u) else malloc_loop fuel nunits p (ptr_at (u_mem u) p) u
      else malloc_loop fuel nunits p (ptr_at (u_mem u) p) u
  end.

Definition units (nbytes : Z) : Z := u32 (u32 (nbytes + 8 - 1) / 8 + 1).

Definition malloc (fuel : nat) (nbytes : Z) (u : umem) : option (Z * umem) :=
  let u :=
    if u_freep u =? 0
    then mk_umem (set_size base 0 (set_ptr base base (u_mem u))) base (u_brk u)
    else u in
  malloc_loop fuel (units nbytes) (u_freep u) (ptr_at (u_mem u) (u_freep u)) u.

(** ** The heap as a row of tiles

    From [h0] to the end of the process the memory is a row of blocks, each a
    number of units and whether it is free. *)
Definition tile : Type := Z * bool.

Fixpoint span (T : list tile) : Z :=
  match T with
  | [] => 0
  | (s, _) :: T => 8 * s + span T
  end.

(** The addresses of the free ones. *)
Fixpoint frees (a : Z) (T : list tile) : list Z :=
  match T with
  | [] => []
  | (s, f) :: T => (if f : bool then [a] else []) ++ frees (a + 8 * s) T
  end.

Fixpoint headers (m : gmap Z header) (a : Z) (T : list tile) : Prop :=
  match T with
  | [] => True
  | (s, _) :: T => size_at m a = s /\ headers m (a + 8 * s) T
  end.

(** From [x] the pointers lead through [l] to [z]. *)
Fixpoint linked (m : gmap Z header) (x : Z) (l : list Z) (z : Z) : Prop :=
  match l with
  | [] => ptr_at m x = z
  | y :: l => ptr_at m x = y /\ linked m y l z
  end.

(** No two free blocks are neighbours. *)
Fixpoint apart (T : list tile) : Prop :=
  match T with
  | [] => True
  | (_, f) :: T => match T with [] => True | (_, g) :: _ => f && g = false end /\ apart T
  end.

Context (h0 : Z).

Record heap_ok (u : umem) (T : list tile) : Prop := {
  ho_headers : headers (u_mem u) h0 T;
  ho_base : size_at (u_mem u) base = 0;
  ho_ring : linked (u_mem u) base (frees h0 T) base;
  ho_freep : u_freep u ∈ base :: frees h0 T;
  ho_brk : u_brk u = h0 + span T;
  ho_sizes : Forall (fun t => 0 < t.1) T;
  ho_apart : apart T;
}.

(** The layout of the process: the static header is below the heap, which ends
    below 2^31. *)
Definition layout : Prop := 0 < base /\ base + 8 <= h0 /\ limit < 2 ^ 31.

(** ** Rows and lists *)

(** The last of the nodes from [x] on. *)
Fixpoint last_of (x : Z) (l : list Z) : Z :=
  match l with
  | [] => x
  | y :: l => last_of y l
  end.

Lemma last_of_app x l1 y l2 : last_of x (l1 ++ y :: l2) = last_of y l2.
Proof. revert x. induction l1 as [|w l1 IH]; intros x; simpl; [done|]. apply IH. Qed.

Lemma last_of_elem x l : last_of x l ∈ x :: l.
Proof. revert x. induction l as [|y l IH]; intros x; simpl; [left|]. right. apply IH. Qed.

Lemma span_app T1 T2 : span (T1 ++ T2) = span T1 + span T2.
Proof. induction T1 as [|[s f] T1 IH]; simpl; [done|]. rewrite IH. lia. Qed.

Lemma span_pos T : Forall (fun t => 0 < t.1) T -> 0 <= span T.
Proof. induction 1 as [|[s f] T H _ IH]; simpl in *; lia. Qed.

Lemma frees_app a T1 T2 : frees a (T1 ++ T2) = frees a T1 ++ frees (a + span T1) T2.
Proof.
  revert a. induction T1 as [|[s f] T1 IH]; intros a; simpl; [by rewrite Z.add_0_r|].
  rewrite IH, <- (assoc_L (++)). by rewrite Z.add_assoc.
Qed.

Lemma headers_app m a T1 T2 : headers m a (T1 ++ T2) <-> headers m a T1 /\ headers m (a + span T1) T2.
Proof.
  revert a. induction T1 as [|[s f] T1 IH]; intros a; simpl; [rewrite Z.add_0_r; tauto|].
  rewrite IH, Z.add_assoc. tauto.
Qed.

Lemma linked_app m x l1 y l2 z : linked m x (l1 ++ y :: l2) z <-> linked m x l1 y /\ linked m y l2 z.
Proof. revert x. induction l1 as [|w l1 IH]; intros x; simpl; [done|]. rewrite IH. tauto. Qed.

Lemma frees_range a T : Forall (fun t => 0 < t.1) T -> Forall (fun x => a <= x < a + span T) (frees a T).
Proof.
  intros H. revert a. induction H as [|[s f] T Hs H IH]; intros a; simpl in *; [constructor|].
  pose proof (span_pos T H). apply Forall_app. split.
  - destruct f; [|constructor]. apply Forall_singleton. lia.
  - eapply Forall_impl; [apply IH|]. intros x Hx. simpl in Hx. lia.
Qed.

(** ** The search of [free]

    The nodes of the ring below [bp] are [base :: A], those above are [B], both
    in ascending order. *)
Section Find.
Context (m : gmap Z header) (bp : Z) (A B : list Z).
Hypothesis Hring : linked m base (A ++ B) base.
Hypothesis HA : StronglySorted Z.lt (base :: A).
Hypothesis HAlt : Forall (fun x => x < bp) (base :: A).
Hypothesis HB : StronglySorted Z.lt B.
Hypothesis HBgt : Forall (fun x => bp < x) B.

(** Below [bp] the search ends at the last node. *)
Lemma find_below l : forall x pre fuel, base :: A = pre ++ x :: l -> linked m x (l ++ B) base ->
  (length l < fuel)%nat -> free_find fuel m bp x = Some (last_of x l).
Proof.
  induction l as [|y l IH]; intros x pre fuel E L Hf; destruct fuel as [|fuel]; try lia; cbn [free_find].
  - rewrite E in HAlt. apply Forall_app in HAlt as [_ [Hx _]%Forall_cons].
    rewrite (proj2 (Z.ltb_lt x bp)) by done. cbn [app] in L. destruct B as [|b B'].
    + simpl in L. rewrite L. destruct (bp <? base) eqn:Eb; [done|]. simpl.
      assert (Hb : base <= x).
      { destruct pre as [|w pre]; simpl in E; injection E as E1 E2; [subst; lia|]. subst w.
        apply StronglySorted_inv in HA as [_ HF]. rewrite E2 in HF. apply Forall_app in HF as [_ [HF _]%Forall_cons]. lia. }
      rewrite (proj2 (Z.leb_le base x)) by done. done.
    + destruct L as [-> _]. apply Forall_cons in HBgt as [Hb _]. by rewrite (proj2 (Z.ltb_lt bp b)).
  - destruct L as [Ly L]. rewrite Ly.
    assert (Hxy : x < y /\ y < bp).
    { split.
      - rewrite E in HA. clear -HA. induction pre as [|w pre IH]; simpl in HA; apply StronglySorted_inv in HA as [HA HF];
          [by apply Forall_cons in HF as [HF _]|by apply IH].
      - rewrite E in HAlt. apply Forall_app in HAlt as [_ HF]. apply Forall_cons in HF as [_ [HF _]%Forall_cons]. done. }
    rewrite (proj2 (Z.ltb_ge bp y)) by lia. rewrite andb_false_r. rewrite (proj2 (Z.leb_gt y x)) by lia. simpl andb. cbv iota.
    apply (IH y (pre ++ [x]) fuel); [by rewrite <- (assoc_L (++))|done|simpl in Hf; lia].
Qed.

(** Above [bp] it goes on to the start of the ring. *)
Lemma find_above l : forall x pre fuel, B = pre ++ x :: l -> linked m x l base ->
  (length l + 1 + (length A + 1) <= fuel)%nat -> free_find fuel m bp x = Some (last_of base A).
Proof.
  induction l as [|y l IH]; intros x pre fuel E L Hf; destruct fuel as [|fuel]; try lia; cbn [free_find];
    assert (Hx : bp < x) by (rewrite E in HBgt; by apply Forall_app in HBgt as [_ [HF _]%Forall_cons]);
    rewrite (proj2 (Z.ltb_ge x bp)) by lia; simpl andb; cbv iota; cbn [orb].
  - simpl in L. rewrite L. pose proof (Forall_inv HAlt) as Hb. simpl in Hb. rewrite (proj2 (Z.ltb_ge bp base)) by lia.
    rewrite andb_false_r. apply (find_below A base []); [done|done|]. simpl in Hf. lia.
  - destruct L as [Ly L]. rewrite Ly.
    assert (Hxy : x < y).
    { rewrite E in HB. clear -HB. induction pre as [|w pre IH]; simpl in HB; apply StronglySorted_inv in HB as [HB HF];
        [by apply Forall_cons in HF as [HF _]|by apply IH]. }
    rewrite (proj2 (Z.leb_gt y x)) by lia. simpl andb. cbv iota.
    apply (IH y (pre ++ [x])); [by rewrite <- (assoc_L (++))|done|simpl in Hf; lia].
Qed.

Lemma free_find_spec x fuel : x ∈ base :: A ++ B -> (length A + length B + 2 <= fuel)%nat ->
  free_find fuel m bp x = Some (last_of base A).
Proof.
  intros Hx Hf. change (base :: A ++ B) with ((base :: A) ++ B) in Hx. apply elem_of_app in Hx as [Hx|Hx].
  - apply list_elem_of_split in Hx as (pre & l & E).
    assert (L : linked m x (l ++ B) base).
    { destruct pre as [|w pre]; simpl in E; injection E as E1 E2; [by subst|]. subst w.
      rewrite E2, <- (assoc_L (++)) in Hring. by apply linked_app in Hring as [_ H]. }
    rewrite (find_below l x pre fuel E L).
    + f_equal. destruct pre as [|w pre]; simpl in E; injection E as E1 E2; subst; [done|]. by rewrite last_of_app.
    + apply (f_equal length) in E. rewrite length_app in E. simpl in E. lia.
  - apply list_elem_of_split in Hx as (pre & l & E).
    apply (find_above l x pre); [done| |].
    + rewrite E, (assoc_L (++)) in Hring. by apply linked_app in Hring as [_ H].
    + apply (f_equal length) in E. rewrite length_app in E. simpl in E. lia.
Qed.

End Find.

(** ** Updates of headers *)

Lemma ptr_set_ptr a v m x : ptr_at (set_ptr a v m) x = if decide (x = a) then v else ptr_at m x.
Proof. unfold ptr_at, hdr, set_ptr. rewrite lookup_insert. repeat case_decide; subst; done. Qed.

Lemma size_set_ptr a v m x : size_at (set_ptr a v m) x = size_at m x.
Proof. unfold size_at, hdr, set_ptr. rewrite lookup_insert. case_decide; [by subst|done]. Qed.

Lemma ptr_set_size a v m x : ptr_at (set_size a v m) x = ptr_at m x.
Proof. unfold ptr_at, hdr, set_size. rewrite lookup_insert. case_decide; [by subst|done]. Qed.

Lemma size_set_size a v m x : size_at (set_size a v m) x = if decide (x = a) then u32 v else size_at m x.
Proof. unfold size_at, hdr, set_size. rewrite lookup_insert. repeat case_decide; subst; done. Qed.

Lemma set_ptr_ne a v m x : x <> a -> set_ptr a v m !! x = m !! x.
Proof. intros H. unfold set_ptr. by rewrite lookup_insert_ne. Qed.

Lemma set_size_ne a v m x : x <> a -> set_size a v m !! x = m !! x.
Proof. intros H. unfold set_size. by rewrite lookup_insert_ne. Qed.

(** Memories that agree on the pointers of the nodes, on the sizes of the tiles. *)
Lemma linked_ext m m' x l z :
  (forall y, y ∈ x :: l -> ptr_at m' y = ptr_at m y) -> linked m x l z -> linked m' x l z.
Proof.
  revert x. induction l as [|y l IH]; intros x H; simpl.
  - intros <-. apply H. left.
  - intros [H1 H2]. split; [rewrite H; [done|left]|]. apply IH; [|done]. intros w Hw. apply H. by right.
Qed.

Lemma headers_ext m m' a T :
  Forall (fun t => 0 < t.1) T ->
  (forall y, a <= y < a + span T -> size_at m' y = size_at m y) -> headers m a T -> headers m' a T.
Proof.
  intros HT. revert a. induction HT as [|[s f] T Hs HT IH]; intros a H; simpl in *; [done|].
  pose proof (span_pos T HT). intros [H1 H2]. split; [rewrite H; [done|lia]|].
  apply IH; [|done]. intros y Hy. apply H. lia.
Qed.

(** Redirecting the last node of a path. *)
Lemma linked_relast m x l z z' :
  NoDup (x :: l) -> linked m x l z -> linked (set_ptr (last_of x l) z' m) x l z'.
Proof.
  revert x. induction l as [|y l IH]; intros x Hnd H; cbn [linked last_of].
  - rewrite ptr_set_ptr. by case_decide.
  - destruct H as [H1 H2]. apply NoDup_cons in Hnd as [Hx Hnd]. split; [|by apply IH].
    rewrite ptr_set_ptr, decide_False; [done|]. intros E. apply Hx. rewrite E. apply last_of_elem.
Qed.

(** A node points where another did. *)
Lemma linked_from m m' x x' l z :
  ptr_at m' x' = ptr_at m x -> (forall y, y ∈ l -> ptr_at m' y = ptr_at m y) -> linked m x l z -> linked m' x' l z.
Proof.
  intros E H. destruct l as [|y l]; simpl; [congruence|]. intros [H1 H2]. split; [congruence|]. by eapply linked_ext.
Qed.

Lemma frees_sorted a T : Forall (fun t => 0 < t.1) T -> StronglySorted Z.lt (frees a T).
Proof.
  intros H. revert a. induction H as [|[s f] T Hs H IH]; intros a; simpl in *; [constructor|].
  destruct f; simpl; [|apply IH]. constructor; [apply IH|].
  eapply Forall_impl; [by apply frees_range|]. intros x Hx. simpl in Hx. lia.
Qed.

Lemma sorted_nodup l : StronglySorted Z.lt l -> NoDup l.
Proof.
  induction 1 as [|x l H IH HF]; constructor; [|done]. intros Hx. eapply Forall_forall in HF; [|exact Hx]. lia.
Qed.

(** Free blocks end before the row does. *)
Lemma frees_end m a T : Forall (fun t => 0 < t.1) T -> headers m a T ->
  Forall (fun x => x + 8 * size_at m x <= a + span T) (frees a T).
Proof.
  intros HT. revert a. induction HT as [|[s f] T Hs HT IH]; intros a H; simpl in *; [constructor|].
  destruct H as [H1 H2]. pose proof (span_pos T HT). apply Forall_app. split.
  - destruct f; [|constructor]. apply Forall_singleton. rewrite H1. lia.
  - eapply Forall_impl; [by apply IH|]. intros x Hx. simpl in Hx. lia.
Qed.

Lemma apart_app T1 T2 : apart (T1 ++ T2) -> apart T1 /\ apart T2.
Proof.
  induction T1 as [|[s f] T1 IH]; simpl; [done|]. intros [H1 H2]. apply IH in H2 as [H2 H3].
  split; [|done]. split; [|done]. by destruct T1.
Qed.

Lemma apart_glue T1 s T2 f :
  apart (T1 ++ [(s, f)]) -> apart ((s, f) :: T2) -> apart (T1 ++ (s, f) :: T2).
Proof.
  induction T1 as [|[s1 f1] T1 IH]; simpl; [done|]. intros [H1 H2] H3. split; [|by apply IH].
  by destruct T1 as [|[? ?] ?].
Qed.

(** What giving back a block of [s] units between [T1] and [T2] makes of the
    row: it is joined with the free blocks next to it. *)
Definition release (T1 : list tile) (s : Z) (T2 : list tile) : list tile :=
  let '(s, T2) := match T2 with (s2, true) :: T2 => (s + s2, T2) | _ => (s, T2) end in
  match reverse T1 with
  | (s1, true) :: R => reverse R ++ (s1 + s, true) :: T2
  | _ => T1 ++ (s, true) :: T2
  end.

(** ** Giving a block back *)

Definition grown (s : Z) (T2 : list tile) : Z * list tile :=
  match T2 with (s2, true) :: T2 => (s + s2, T2) | _ => (s, T2) end.

Lemma join_upper_spec m bp p s T2 :
  size_at m bp = s -> 0 < s -> Forall (fun t => 0 < t.1) T2 -> headers m (bp + 8 * s) T2 ->
  base < bp -> linked m p (frees (bp + 8 * s) T2) base -> p <> bp -> 8 * s + span T2 < 2 ^ 31 ->
  let m1 := join_upper bp p m in let '(s', T2') := grown s T2 in
  linked m1 bp (frees (bp + 8 * s') T2') base /\ size_at m1 bp = s' /\ (forall x, x <> bp -> m1 !! x = m !! x).
Proof.
  intros Hsz Hs HT HH Hb HL Hp Hbd m1. unfold m1, join_upper.
  assert (HX : forall v, ptr_at m p = v -> v <> bp + 8 * s -> linked m p (frees (bp + 8 * s) T2) base ->
     let m1 := if bp + 8 * size_at m bp =? v then set_ptr bp (ptr_at m v) (set_size bp (size_at m bp + size_at m v) m)
               else set_ptr bp v m in
     linked m1 bp (frees (bp + 8 * s) T2) base /\ size_at m1 bp = s /\ (forall x, x <> bp -> m1 !! x = m !! x)).
  { intros v Hv Hne L. rewrite Hsz. destruct (Z.eqb_spec (bp + 8 * s) v) as [|_]; [congruence|]. cbv zeta. split_and!.
    - eapply linked_from; [| |exact L]; [rewrite ptr_set_ptr; case_decide; congruence|].
      intros y Hy. rewrite ptr_set_ptr, decide_False; [done|]. intros ->.
      eapply Forall_forall in Hy; [|by apply frees_range]. simpl in Hy. lia.
    - by rewrite size_set_ptr.
    - intros x Hx. by apply set_ptr_ne. }
  destruct HT as [|[s2 [|]] T2 Hs2 HT]; cbn [grown].
  - apply (HX (ptr_at m p)); [done| |done]. simpl in HL. lia.
  - simpl in HL, HH, Hs2, Hbd. destruct HL as [HL1 HL2], HH as [HH1 HH2]. pose proof (span_pos T2 HT). rewrite HL1, Hsz, Z.eqb_refl.
    assert (HR : forall y, y ∈ frees (bp + 8 * s + 8 * s2) T2 -> y <> bp).
    { intros y Hy ->. eapply Forall_forall in Hy; [|by apply frees_range]. simpl in Hy. lia. }
    replace (bp + 8 * (s + s2)) with (bp + 8 * s + 8 * s2) by lia. split_and!.
    + eapply linked_from; [| |exact HL2]; [rewrite ptr_set_ptr; by case_decide|].
      intros y Hy. rewrite ptr_set_ptr, decide_False by auto. by rewrite ptr_set_size.
    + rewrite size_set_ptr, size_set_size, decide_True, HH1 by done. apply u32_small. lia.
    + intros x Hx. rewrite set_ptr_ne, set_size_ne by done. done.
  - simpl in Hs2. pose proof (span_pos T2 HT).
    assert (Hr : Forall (fun x => bp + 8 * s < x) (frees (bp + 8 * s) ((s2, false) :: T2))).
    { simpl. eapply Forall_impl; [by apply frees_range|]. intros x Hx. simpl in Hx. lia. }
    eapply HX; [reflexivity| |done]. destruct (frees (bp + 8 * s) ((s2, false) :: T2)) as [|y l]; simpl in HL; [lia|].
    destruct HL as [-> _]. apply Forall_inv in Hr. lia.
Qed.

Lemma linked_last_of m x l l' z : linked m x (l ++ l') z ->
  linked m x l (List.hd z l') /\ linked m (last_of x l) l' z.
Proof.
  revert x. induction l as [|y l IH]; intros x H; simpl in *.
  - destruct l'; simpl in *; tauto.
  - destruct H as [H1 H2]. apply IH in H2. tauto.
Qed.

(** A row that ends with a free block. *)
Lemma join_lower_merge m1 T1 s1 s' T2' z :
  let p := h0 + span T1 in let bp := p + 8 * s1 in
  Forall (fun t => 0 < t.1) (T1 ++ [(s1, true)]) -> Forall (fun t => 0 < t.1) T2' -> 0 < s' -> base + 8 <= h0 ->
  headers m1 h0 (T1 ++ [(s1, true)]) -> linked m1 base (frees h0 T1 ++ [p]) z ->
  linked m1 bp (frees (bp + 8 * s') T2') base -> size_at m1 bp = s' -> headers m1 (bp + 8 * s') T2' ->
  size_at m1 base = 0 -> s1 + s' < 2 ^ 32 ->
  let m2 := join_lower bp p m1 in let T' := T1 ++ (s1 + s', true) :: T2' in
  headers m2 h0 T' /\ size_at m2 base = 0 /\ linked m2 base (frees h0 T') base /\ p ∈ base :: frees h0 T'.
Proof.
  intros p bp HP HP2 Hs' Hb HH HL HL' Hsz HH' Hbs Hbd m2 T'.
  apply Forall_app in HP as [HP [Hs1 _]%Forall_cons]. simpl in Hs1. pose proof (span_pos T1 HP) as Hsp.
  apply headers_app in HH as [HH [HHp _]]. fold p in HHp. apply linked_app in HL as [HL _].
  assert (E : m2 = set_ptr p (ptr_at m1 bp) (set_size p (s1 + s') m1)).
  { unfold m2, join_lower. rewrite HHp, Hsz. unfold bp at 1. by rewrite Z.eqb_refl. }
  assert (Esz : forall y, y <> p -> size_at m2 y = size_at m1 y).
  { intros y Hy. rewrite E, size_set_ptr, size_set_size. by rewrite decide_False. }
  assert (Ept : forall y, y <> p -> ptr_at m2 y = ptr_at m1 y).
  { intros y Hy. rewrite E, ptr_set_ptr, ptr_set_size. by rewrite decide_False. }
  assert (EF : frees h0 T' = frees h0 T1 ++ p :: frees (bp + 8 * s') T2').
  { unfold T'. rewrite frees_app. simpl. fold p. do 2 f_equal. f_equal. unfold bp. lia. }
  split_and!.
  - apply headers_app. fold p. split; [eapply headers_ext; [done| |exact HH]; intros y Hy; apply Esz; unfold p; lia|].
    split; [rewrite E, size_set_ptr, size_set_size, decide_True by done; apply u32_small; lia|].
    replace (p + 8 * (s1 + s')) with (bp + 8 * s') by (unfold bp; lia).
    eapply headers_ext; [done| |exact HH']. intros y Hy. apply Esz. unfold bp in Hy. lia.
  - rewrite Esz by lia. done.
  - rewrite EF. apply linked_app. split.
    + eapply linked_ext; [|exact HL]. intros y Hy. apply Ept. apply elem_of_cons in Hy as [->|Hy]; [lia|].
      eapply Forall_forall in Hy; [|by apply frees_range]. simpl in Hy. lia.
    + eapply linked_from; [| |exact HL']; [rewrite E, ptr_set_ptr; by rewrite decide_True|].
      intros y Hy. apply Ept. eapply Forall_forall in Hy; [|by apply frees_range]. simpl in Hy. unfold bp in Hy. lia.
  - rewrite EF. right. apply elem_of_app. right. left.
Qed.

(** A row that does not. *)
Lemma join_lower_alone m1 T1 s' T2' z :
  let bp := h0 + span T1 in let p := last_of base (frees h0 T1) in
  match reverse T1 with (_, true) :: _ => False | _ => True end ->
  Forall (fun t => 0 < t.1) T1 -> Forall (fun t => 0 < t.1) T2' -> 0 < s' -> base + 8 <= h0 ->
  headers m1 h0 T1 -> linked m1 base (frees h0 T1) z ->
  linked m1 bp (frees (bp + 8 * s') T2') base -> size_at m1 bp = s' -> headers m1 (bp + 8 * s') T2' ->
  size_at m1 base = 0 ->
  let m2 := join_lower bp p m1 in let T' := T1 ++ (s', true) :: T2' in
  headers m2 h0 T' /\ size_at m2 base = 0 /\ linked m2 base (frees h0 T') base /\ p ∈ base :: frees h0 T'.
Proof.
  intros bp p Hr HP HP2 Hs' Hb HH HL HL' Hsz HH' Hbs m2 T'. pose proof (span_pos T1 HP) as Hsp.
  assert (Hbelow : Forall (fun x => x + 8 * size_at m1 x < bp) (base :: frees h0 T1)).
  { constructor; [rewrite Hbs; unfold bp; lia|]. destruct T1 as [|t T1 _] using rev_ind; [constructor|].
    rewrite reverse_app in Hr. destruct t as [s1 [|]]; [done|].
    apply Forall_app in HP as [HP [Hs1 _]%Forall_cons]. apply headers_app in HH as [HH _]. simpl in Hs1.
    rewrite frees_app. simpl. rewrite app_nil_r. unfold bp. rewrite span_app. simpl.
    eapply Forall_impl; [by apply frees_end|]. intros x Hx. simpl in Hx. lia. }
  assert (Hlt : Forall (fun x => x < bp) (base :: frees h0 T1)).
  { constructor; [unfold bp; lia|]. eapply Forall_impl; [by apply frees_range|]. intros x Hx. simpl in Hx. unfold bp. lia. }
  assert (Hp : p ∈ base :: frees h0 T1) by apply last_of_elem.
  assert (E : m2 = set_ptr p bp m1).
  { unfold m2, join_lower. destruct (Z.eqb_spec (p + 8 * size_at m1 p) bp) as [Ee|]; [|done].
    eapply Forall_forall in Hbelow; [|exact Hp]. lia. }
  assert (EF : frees h0 T' = frees h0 T1 ++ bp :: frees (bp + 8 * s') T2') by (unfold T'; by rewrite frees_app).
  assert (Hpb : p < bp) by (eapply Forall_forall in Hlt; [|exact Hp]; done).
  split_and!.
  - apply headers_app. fold bp. split; [eapply headers_ext; [done| |exact HH]; intros y Hy; rewrite E; by apply size_set_ptr|].
    split; [by rewrite E, size_set_ptr|]. eapply headers_ext; [done| |exact HH']. intros y Hy. rewrite E. by apply size_set_ptr.
  - by rewrite E, size_set_ptr.
  - rewrite EF. apply linked_app. split.
    + rewrite E. eapply linked_relast; [|exact HL]. constructor; [|by apply sorted_nodup, frees_sorted].
      intros Hin. eapply Forall_forall in Hin; [|by apply frees_range]. simpl in Hin. lia.
    + eapply linked_ext; [|exact HL']. intros y Hy. rewrite E, ptr_set_ptr, decide_False; [done|]. intros ->.
      apply elem_of_cons in Hy as [Hy|Hy]; [lia|]. eapply Forall_forall in Hy; [|by apply frees_range]. simpl in Hy. lia.
  - rewrite EF. apply elem_of_cons in Hp as [->|Hp]; [left|right]. apply elem_of_app. by left.
Qed.

Lemma apart_resize T a b f : apart (T ++ [(a, f)]) -> apart (T ++ [(b, f)]).
Proof.
  induction T as [|[s g] T IH]; simpl; [done|]. intros [H1 H2]. split; [|by apply IH].
  by destruct T as [|[? ?] ?].
Qed.

Lemma apart_grown s T2 x : apart T2 -> apart ((x, true) :: (grown s T2).2).
Proof.
  intros H. destruct T2 as [|[s2 [|]] T2]; simpl in *; [done| |done].
  destruct H as [H1 H2]. split; [|done]. by destruct T2 as [|[? []] ?].
Qed.

Lemma apart_used T s1 s : apart (T ++ [(s1, false)]) -> apart ((T ++ [(s1, false)]) ++ [(s, true)]).
Proof.
  induction T as [|[q g] T IH]; simpl; [done|]. intros [H1 H2]. split; [|by apply IH]. by destruct T as [|[? ?] ?].
Qed.

(** What [grown] keeps. *)
Lemma grown_ok m a s T2 :
  0 < s -> Forall (fun t => 0 < t.1) T2 -> headers m (a + 8 * s) T2 ->
  let '(s', T2') := grown s T2 in
  0 < s' /\ Forall (fun t => 0 < t.1) T2' /\ 8 * s' + span T2' = 8 * s + span T2 /\ headers m (a + 8 * s') T2'.
Proof.
  intros Hs HP HH. destruct HP as [|[s2 [|]] T2 H2 HP]; simpl in *; split; try lia; (split; [done || by constructor|split; [lia|done]]) || idtac.
  split; [done|]. split; [lia|]. destruct HH as [_ HH]. by replace (a + 8 * (s + s2)) with (a + 8 * s + 8 * s2) by lia.
Qed.

(** Giving back keeps the row well formed, and its length. *)
Lemma release_ok T1 s T2 :
  Forall (fun t => 0 < t.1) (T1 ++ (s, false) :: T2) -> apart (T1 ++ (s, false) :: T2) ->
  Forall (fun t => 0 < t.1) (release T1 s T2) /\ apart (release T1 s T2)
  /\ span (release T1 s T2) = span (T1 ++ (s, false) :: T2).
Proof.
  intros HP HA. apply Forall_app in HP as [HP1 [Hs HP2]%Forall_cons]. simpl in Hs.
  pose proof (proj2 (apart_app _ _ HA)) as [_ HA2]. pose proof (apart_grown s T2) as HG.
  assert (G : 0 < (grown s T2).1 /\ Forall (fun t => 0 < t.1) (grown s T2).2
     /\ 8 * (grown s T2).1 + span (grown s T2).2 = 8 * s + span T2).
  { destruct HP2 as [|[s2 [|]] T2 H2 HP2]; simpl in *; (split; [lia|split; [done || by constructor|lia]]). }
  unfold release. fold (grown s T2). destruct (grown s T2) as [s' T2']. cbn [fst snd] in *.
  destruct G as (G1 & G2 & G3). rewrite (span_app T1). simpl.
  destruct T1 as [|[s1 [|]] T1 _] using rev_ind; [|rewrite reverse_snoc, ?reverse_involutive..].
  - split; [by constructor|]. split; [by apply HG|simpl; lia].
  - apply Forall_app in HP1 as [HP1 [Hs1 _]%Forall_cons]. simpl in Hs1. split; [|split].
    + apply Forall_app. split; [done|]. constructor; [simpl; lia|done].
    + apply apart_glue; [|by apply HG]. eapply apart_resize. by apply (proj1 (apart_app _ _ HA)).
    + rewrite !span_app. simpl. lia.
  - split; [|split].
    + apply Forall_app. split; [done|]. by constructor.
    + apply apart_glue; [|by apply HG]. apply apart_used. by apply (proj1 (apart_app _ _ HA)).
    + rewrite !span_app. simpl. lia.
Qed.

Lemma length_frees a T : (length (frees a T) <= length T)%nat.
Proof.
  revert a. induction T as [|[s f] T IH]; intros a; simpl; [done|]. rewrite length_app. specialize (IH (a + 8 * s)).
  destruct f; simpl; lia.
Qed.

(** Both cases of the lower join. *)
Lemma join_lower_spec m1 T1 s s' T2 T2' z :
  let bp := h0 + span T1 in let p := last_of base (frees h0 T1) in
  grown s T2 = (s', T2') ->
  Forall (fun t => 0 < t.1) T1 -> Forall (fun t => 0 < t.1) T2' -> 0 < s' -> base + 8 <= h0 ->
  headers m1 h0 T1 -> linked m1 base (frees h0 T1) z ->
  linked m1 bp (frees (bp + 8 * s') T2') base -> size_at m1 bp = s' -> headers m1 (bp + 8 * s') T2' ->
  size_at m1 base = 0 -> span T1 + 8 * s' < 2 ^ 31 ->
  let m2 := join_lower bp p m1 in let T' := release T1 s T2 in
  headers m2 h0 T' /\ size_at m2 base = 0 /\ linked m2 base (frees h0 T') base /\ p ∈ base :: frees h0 T'.
Proof.
  intros bp p G HP HP2 Hs' Hb HH HL HL' Hsz HH' Hbs Hbd m2 T'. unfold T', release. fold (grown s T2). rewrite G.
  destruct (reverse T1) as [|[s1 [|]] R] eqn:ER.
  - apply (join_lower_alone m1 T1 s' T2' z); try done. by rewrite ER.
  - assert (ET : T1 = reverse R ++ [(s1, true)]) by (rewrite <- (reverse_involutive T1), ER; apply reverse_cons).
    assert (EA : frees h0 T1 = frees h0 (reverse R) ++ [h0 + span (reverse R)]) by (rewrite ET, frees_app; done).
    assert (Ep : p = h0 + span (reverse R)) by (unfold p; rewrite EA; apply last_of_app).
    assert (Eb : bp = p + 8 * s1) by (unfold bp; rewrite ET, span_app, Ep; simpl; lia).
    assert (Hs1 : 0 < s1 /\ 8 * s1 <= span T1).
    { rewrite ET in HP |- *. apply Forall_app in HP as [HPR [Hx _]%Forall_cons]. simpl in Hx. pose proof (span_pos _ HPR).
      rewrite span_app. simpl. lia. }
    unfold m2. clearbody bp p m2. subst bp p. rewrite EA in HL. rewrite ET in HH, HP.
    apply (join_lower_merge m1 (reverse R) s1 s' T2' z); (done || lia).
  - apply (join_lower_alone m1 T1 s' T2' z); try done. by rewrite ER.
Qed.

(** The ring around a block in use: where the search ends, and the parts of the
    list before and after. *)
Lemma ring_around u T1 s T2 fuel :
  layout -> heap_ok u (T1 ++ (s, false) :: T2) -> (length T1 + length T2 + 2 <= fuel)%nat ->
  let bp := h0 + span T1 in let p := last_of base (frees h0 T1) in let B := frees (bp + 8 * s) T2 in
  free_find fuel (u_mem u) bp (u_freep u) = Some p
  /\ (p ∈ base :: frees h0 T1) /\ Forall (fun x => x < bp) (base :: frees h0 T1)
  /\ linked (u_mem u) base (frees h0 T1) (List.hd base B) /\ linked (u_mem u) p B base.
Proof.
  intros (Hb0 & Hbh & Hlim) [HH Hbs HR HF Hbrk HP HA] Hfu bp p B.
  rewrite frees_app in HR, HF. simpl in HR, HF. fold bp B in HR, HF.
  apply Forall_app in HP as [HP1 [Hs HP2]%Forall_cons]. simpl in Hs. pose proof (span_pos T1 HP1) as Hsp1.
  assert (HAlt : Forall (fun x => x < bp) (base :: frees h0 T1)).
  { constructor; [unfold bp; lia|]. eapply Forall_impl; [by apply frees_range|]. intros x Hx. simpl in Hx. unfold bp. lia. }
  split.
  - apply (free_find_spec (u_mem u) bp (frees h0 T1) B); [done| |done|by apply frees_sorted| |done|].
    + constructor; [by apply frees_sorted|]. eapply Forall_impl; [by apply frees_range|]. intros x Hx. simpl in Hx. lia.
    + eapply Forall_impl; [by apply frees_range|]. intros x Hx. simpl in Hx. lia.
    + pose proof (length_frees h0 T1). pose proof (length_frees (bp + 8 * s) T2). unfold B, tile in *. lia.
  - split; [apply last_of_elem|]. split; [done|]. by apply linked_last_of.
Qed.

(** [free] of a block in use. *)
Lemma free_spec u T1 s T2 fuel :
  layout -> heap_ok u (T1 ++ (s, false) :: T2) -> u_brk u <= limit -> (length T1 + length T2 + 2 <= fuel)%nat ->
  let bp := h0 + span T1 in
  exists u', free fuel (bp + 8) u = Some u' /\ heap_ok u' (release T1 s T2) /\ u_brk u' = u_brk u
    /\ (forall x, x <> bp -> (x ∉ base :: frees h0 T1) -> u_mem u' !! x = u_mem u !! x).
Proof.
  intros HL Hok Hl Hfu bp. destruct (ring_around u T1 s T2 fuel HL Hok Hfu) as (E & Hp & HAlt & HLA & HLB).
  fold bp in E, HAlt, HLA, HLB. destruct HL as (Hb0 & Hbh & Hlim), Hok as [HH Hbs _ _ Hbrk HP HA].
  destruct (release_ok T1 s T2 HP HA) as (RP & RA & RS). set (m := u_mem u) in *. set (p := last_of base (frees h0 T1)) in *.
  apply Forall_app in HP as [HP1 [Hs HP2]%Forall_cons]. simpl in Hs.
  apply headers_app in HH as [HH1 [HHb HH2]]. fold bp in HHb, HH2.
  pose proof (span_pos T1 HP1) as Hsp1. pose proof (span_pos T2 HP2) as Hsp2. rewrite span_app in Hbrk, RS. simpl in Hbrk, RS.
  assert (Hpb : p < bp) by (eapply Forall_forall in HAlt; [|exact Hp]; done).
  pose proof (join_upper_spec m bp p s T2 HHb Hs HP2 HH2 ltac:(unfold bp; lia) HLB ltac:(lia) ltac:(lia)) as U.
  pose proof (grown_ok m bp s T2 Hs HP2 HH2) as G'. cbv zeta in U. set (m1 := join_upper bp p m) in *.
  destruct (grown s T2) as [s' T2'] eqn:G. destruct U as (U1 & U2 & U3), G' as (Hs' & HP2' & Gs & HH2').
  pose proof (span_pos T2' HP2').
  assert (Esz : forall x, x <> bp -> size_at m1 x = size_at m x) by (intros x Hx; unfold size_at, hdr; by rewrite U3).
  assert (L1 : linked m1 base (frees h0 T1) (List.hd base (frees (bp + 8 * s) T2))).
  { eapply linked_ext; [|exact HLA]. intros y Hy. eapply Forall_forall in Hy; [|exact HAlt]. simpl in Hy.
    unfold ptr_at, hdr. rewrite U3 by lia. done. }
  destruct (join_lower_spec m1 T1 s s' T2 T2' (List.hd base (frees (bp + 8 * s) T2)) G HP1 HP2' Hs' Hbh)
    as (F1 & F2 & F3 & F4); [|done|done|done| | | |].
  { eapply headers_ext; [done| |exact HH1]. intros y Hy. apply Esz. unfold bp. lia. }
  { eapply headers_ext; [done| |exact HH2']. intros y Hy. apply Esz. fold bp in Hy. lia. }
  { rewrite Esz by (unfold bp; lia). done. }
  { lia. }
  exists (mk_umem (join_lower bp p m1) p (u_brk u)). split; [|split; [|split]].
  - unfold free. replace (bp + 8 - 8) with bp by lia. fold m. rewrite E. done.
  - split; try done. simpl. lia.
  - done.
  - intros x Hx Hn. simpl. transitivity (m1 !! x); [|by apply U3].
    assert (Hxp : x <> p) by (intros ->; done). unfold join_lower.
    destruct (_ =? _); by rewrite ?set_ptr_ne, ?set_size_ne.
Qed.

(** ** Taking a block *)

(** The address [x] lies in a block in use. *)
Fixpoint used_at (a : Z) (T : list tile) (x : Z) : Prop :=
  match T with
  | [] => False
  | (s, f) :: T => (a <= x < a + 8 * s /\ f = false) \/ (a + 8 * s <= x /\ used_at (a + 8 * s) T x)
  end.

Lemma used_range a T x : Forall (fun t => 0 < t.1) T -> used_at a T x -> a <= x < a + span T.
Proof.
  intros HT. revert a. induction HT as [|[s f] T Hs HT IH]; intros a; simpl in *; [done|].
  pose proof (span_pos T HT). intros [H1|[H1 H2]]; [lia|]. apply IH in H2. lia.
Qed.

Lemma used_ge a T x : Forall (fun t => 0 < t.1) T -> used_at a T x -> a <= x.
Proof. intros HT H. apply used_range in H; [lia|done]. Qed.

Lemma used_app a T1 T2 x : Forall (fun t => 0 < t.1) (T1 ++ T2) ->
  used_at a (T1 ++ T2) x <-> (x < a + span T1 /\ used_at a T1 x) \/ (a + span T1 <= x /\ used_at (a + span T1) T2 x).
Proof.
  intros [HT HT2]%Forall_app. revert a. induction HT as [|[s f] T1 Hs HT IH]; intros a; simpl in *.
  { rewrite Z.add_0_r. split; [|naive_solver]. intros H. right. split; [by eapply used_ge|done]. }
  rewrite IH, Z.add_assoc. pose proof (span_pos T1 HT). intuition lia.
Qed.

(** A free block is not in use, and its header is not that of a used one. *)
Lemma used_not_free a T x : Forall (fun t => 0 < t.1) T -> used_at a T x -> x ∉ frees a T.
Proof.
  intros HT. revert a. induction HT as [|[s f] T Hs HT IH]; intros a; simpl in *; [done|].
  intros H. rewrite elem_of_app. intros [Hx|Hx].
  - destruct f; [|by apply not_elem_of_nil in Hx]. apply list_elem_of_singleton in Hx as ->. destruct H as [[_ ?]|[? _]]; [done|lia].
  - pose proof Hx as Hr. eapply Forall_forall in Hr; [|by apply frees_range]. simpl in Hr.
    destruct H as [[? _]|[_ H]]; [lia|]. by apply (IH _ H).
Qed.

Lemma linked_cut m x A p B z : NoDup (x :: A ++ p :: B) ->
  linked m x (A ++ p :: B) z -> linked (set_ptr (last_of x A) (ptr_at m p) m) x (A ++ B) z.
Proof.
  revert x. induction A as [|y A IH]; intros x Hnd H; cbn [app last_of linked] in *.
  - destruct H as [_ H]. eapply linked_from; [| |exact H]; [rewrite ptr_set_ptr; by case_decide|].
    intros w Hw. rewrite ptr_set_ptr, decide_False; [done|]. intros ->. apply NoDup_cons in Hnd as [Hn _]. apply Hn. by right.
  - destruct H as [H1 H2]. apply NoDup_cons in Hnd as [Hn Hnd]. split; [|by apply IH].
    rewrite ptr_set_ptr, decide_False; [done|]. intros E. apply Hn.
    change (y :: A ++ p :: B) with ((y :: A) ++ p :: B). apply elem_of_app. left. rewrite E. apply last_of_elem.
Qed.

Lemma apart_use T1 s T2 : apart (T1 ++ (s, true) :: T2) -> apart (T1 ++ (s, false) :: T2).
Proof.
  induction T1 as [|[q g] T1 IH]; simpl.
  - intros [H1 H2]. split; [by destruct T2 as [|[? ?] ?]|done].
  - intros [H1 H2]. split; [|by apply IH]. destruct T1 as [|[? ?] ?]; [by destruct g|done].
Qed.

Lemma apart_split T1 s a b T2 : apart (T1 ++ (s, true) :: T2) -> apart (T1 ++ (a, true) :: (b, false) :: T2).
Proof.
  intros H. pose proof (apart_app _ _ H) as [_ [_ HT2]]. apply apart_glue.
  - apply (apart_resize _ s). rewrite cons_middle, (assoc_L (++)) in H. by apply apart_app in H as [H _].
  - simpl. split; [done|]. split; [by destruct T2 as [|[? ?] ?]|done].
Qed.

(** The row after [n] units are taken from the end of a free block of [s]. *)
Definition taken (T1 : list tile) (s n : Z) (T2 : list tile) : list tile :=
  T1 ++ (if s =? n then [] else [(s - n, true)]) ++ (n, false) :: T2.

(** The heap around a free block. *)
Lemma free_block u T1 s T2 :
  layout -> heap_ok u (T1 ++ (s, true) :: T2) -> u_brk u <= limit ->
  let p := h0 + span T1 in let F := frees h0 T1 ++ p :: frees (p + 8 * s) T2 in
  (headers (u_mem u) h0 T1 /\ size_at (u_mem u) p = s /\ headers (u_mem u) (p + 8 * s) T2)
  /\ (linked (u_mem u) base F base /\ NoDup (base :: F))
  /\ (Forall (fun t => 0 < t.1) T1 /\ 0 < s < 2 ^ 31 /\ Forall (fun t => 0 < t.1) T2)
  /\ (0 <= span T1 /\ u_brk u = p + 8 * s + span T2 /\ base + 8 <= h0).
Proof.
  intros (Hb0 & Hbh & Hlim) [HH Hbs HR HF Hbrk HP HA] Hl p F.
  assert (EF : frees h0 (T1 ++ (s, true) :: T2) = F) by (by rewrite frees_app).
  pose proof HP as [HP1 [Hs HP2]%Forall_cons]%Forall_app. simpl in Hs.
  pose proof (span_pos T1 HP1). pose proof (span_pos T2 HP2). rewrite span_app in Hbrk. simpl in Hbrk.
  apply headers_app in HH as [HH1 [HHp HH2]]. rewrite EF in HR.
  split; [done|]. split; [|split; [split; [done|split; [lia|done]]|unfold p; lia]]. split; [done|].
  apply sorted_nodup. pose proof (frees_sorted h0 _ HP) as S. pose proof (frees_range h0 _ HP) as R. rewrite EF in S, R.
  constructor; [exact S|]. eapply Forall_impl; [exact R|]. intros x Hx. simpl in Hx. lia.
Qed.

Lemma last_of_in x A B : last_of x A ∈ x :: A ++ B.
Proof.
  pose proof (last_of_elem x A) as [->|Hx]%elem_of_cons; [left|]. right. apply elem_of_app. by left.
Qed.

(** The whole block is taken. *)
Lemma take_whole u T1 s T2 :
  layout -> heap_ok u (T1 ++ (s, true) :: T2) -> u_brk u <= limit ->
  let p := h0 + span T1 in let pv := last_of base (frees h0 T1) in
  heap_ok (mk_umem (set_ptr pv (ptr_at (u_mem u) p) (u_mem u)) pv (u_brk u)) (T1 ++ (s, false) :: T2).
Proof.
  intros HL Hok Hl p pv.
  destruct (free_block u T1 s T2 HL Hok Hl) as ((H1 & H2 & H3) & (H4 & H5) & (H6 & H7 & H8) & (H9 & H10 & H11)).
  fold p in H2, H3, H4, H5. destruct Hok as [_ Hbs _ _ Hbrk _ HA].
  split; cbn [u_mem u_freep u_brk]; rewrite ?frees_app, ?span_app; simpl; fold p.
  - apply headers_app. split; [eapply headers_ext; [done| |exact H1]; intros; apply size_set_ptr|].
    split; [by rewrite size_set_ptr|]. eapply headers_ext; [done| |exact H3]. intros; apply size_set_ptr.
  - by rewrite size_set_ptr.
  - by apply linked_cut.
  - apply last_of_in.
  - unfold p in H10. lia.
  - apply Forall_app. split; [done|]. constructor; [simpl; lia|done].
  - by apply apart_use.
Qed.

(** Its end is taken. *)
Lemma take_end u T1 s T2 n :
  layout -> heap_ok u (T1 ++ (s, true) :: T2) -> u_brk u <= limit -> 0 < n < s ->
  let p := h0 + span T1 in let pv := last_of base (frees h0 T1) in
  heap_ok (mk_umem (set_size (p + 8 * (s - n)) n (set_size p (s - n) (u_mem u))) pv (u_brk u))
    (T1 ++ (s - n, true) :: (n, false) :: T2).
Proof.
  intros HL Hok Hl Hn p pv.
  destruct (free_block u T1 s T2 HL Hok Hl) as ((H1 & H2 & H3) & (H4 & H5) & (H6 & H7 & H8) & (H9 & H10 & H11)).
  fold p in H2, H3, H4, H5. destruct Hok as [_ Hbs _ _ Hbrk _ HA].
  assert (Esz : forall y, y <> p -> y <> p + 8 * (s - n) ->
     size_at (set_size (p + 8 * (s - n)) n (set_size p (s - n) (u_mem u))) y = size_at (u_mem u) y).
  { intros y Hy1 Hy2. by rewrite !size_set_size, !decide_False. }
  split; cbn [u_mem u_freep u_brk]; rewrite ?frees_app, ?span_app; simpl; fold p;
    replace (p + 8 * (s - n) + 8 * n) with (p + 8 * s) by lia.
  - apply headers_app. fold p. split; [eapply headers_ext; [done| |exact H1]; intros y Hy; apply Esz; unfold p; lia|].
    simpl. replace (p + 8 * (s - n) + 8 * n) with (p + 8 * s) by lia. split; [|split].
    + rewrite size_set_size, decide_False, size_set_size, decide_True by lia. apply u32_small. lia.
    + rewrite size_set_size, decide_True by done. apply u32_small. lia.
    + eapply headers_ext; [done| |exact H3]. intros y Hy. apply Esz; lia.
  - rewrite Esz by (unfold p; lia). done.
  - eapply linked_ext; [|exact H4]. intros y _. by rewrite !ptr_set_size.
  - apply last_of_in.
  - unfold p in H10. lia.
  - apply Forall_app. split; [done|]. constructor; [simpl; lia|]. constructor; [simpl; lia|done].
  - by apply (apart_split T1 s).
Qed.

Lemma take_spec u T1 s T2 n :
  layout -> heap_ok u (T1 ++ (s, true) :: T2) -> u_brk u <= limit -> 0 < n <= s ->
  let p := h0 + span T1 in
  exists u', take_units n (last_of base (frees h0 T1)) p u = (p + 8 * (s - n) + 8, u')
    /\ heap_ok u' (taken T1 s n T2) /\ u_brk u' = u_brk u
    /\ (forall x, (x ∉ base :: frees h0 T1) -> ~ (p <= x < p + 8 * s) -> u_mem u' !! x = u_mem u !! x).
Proof.
  intros HL Hok Hl Hn p. destruct (free_block u T1 s T2 HL Hok Hl) as ((_ & H2 & _) & _ & (_ & Hs & _) & _).
  fold p in H2. unfold take_units, taken. rewrite H2. destruct (Z.eqb_spec s n) as [<-|Hne].
  - eexists. split; [by replace (p + 8 * (s - s) + 8) with (p + 8) by lia|]. split; [by apply (take_whole u)|]. split; [done|].
    intros x Hx _. apply set_ptr_ne. intros ->. apply Hx. apply last_of_elem.
  - rewrite size_set_size, decide_True, u32_small by (done || lia). eexists. split; [done|].
    split; [apply (take_end u); (done || lia)|]. split; [done|].
    intros x _ Hx. cbn [u_mem]. rewrite !set_size_ne by lia. done.
Qed.

(** ** The search of [malloc] *)

(** The ring from any of its nodes. *)
Lemma ring_rotate m F f : linked m base F base -> NoDup (base :: F) -> f ∈ base :: F ->
  exists W, linked m f W f /\ (f ∉ W) /\ length W = length F /\ (forall x, x ∈ base :: F <-> x ∈ f :: W).
Proof.
  intros HR Hnd Hf. apply list_elem_of_split in Hf as (l1 & l2 & E). destruct l1 as [|b l1]; simpl in E; injection E as E1 E2.
  - subst f l2. exists F. split_and!; [done|by apply NoDup_cons in Hnd as [? _]|done|done].
  - subst b F. exists (l2 ++ base :: l1). apply linked_app in HR as [H1 H2]. split_and!.
    + apply linked_app. by split.
    + rewrite elem_of_app, elem_of_cons. apply NoDup_cons in Hnd as [Hb Hnd]. apply NoDup_app in Hnd as (N1 & N2 & N3).
      apply NoDup_cons in N3 as [N3 _]. intros [H|[H|H]]; [done| |].
      * subst f. apply Hb. apply elem_of_app. right. left.
      * apply (N2 f H). left.
    + rewrite !length_app. simpl. lia.
    + intros x. rewrite !elem_of_cons, !elem_of_app, !elem_of_cons. tauto.
Qed.

(** In a ring only the node before [p] points to it. *)
Lemma ring_pred m x0 A p B z x : NoDup (x0 :: A ++ p :: B) -> (z ∉ A ++ p :: B) ->
  linked m x0 (A ++ p :: B) z -> x ∈ x0 :: A ++ p :: B -> ptr_at m x = p -> x = last_of x0 A.
Proof.
  revert x0. induction A as [|y A IH]; intros x0 Hnd Hz H Hx Hp; cbn [app last_of] in *.
  - destruct H as [_ H]. apply elem_of_cons in Hx as [->|Hx]; [done|]. exfalso.
    apply NoDup_cons in Hnd as [_ Hnd]. clear -H Hx Hp Hnd Hz.
    assert (G : forall l w, linked m w l z -> x ∈ w :: l -> ptr_at m x = z \/ ptr_at m x ∈ l).
    { induction l as [|v l IH]; intros w H1 H2; simpl in H1.
      - apply elem_of_cons in H2 as [->|H2]; [by left|by apply not_elem_of_nil in H2].
      - destruct H1 as [H1 H3]. apply elem_of_cons in H2 as [->|H2]; [right; rewrite H1; left|].
        destruct (IH v H3 H2) as [?|?]; [by left|]. right. by right. }
    destruct (G B p H Hx) as [E|E]; rewrite Hp in E.
    + subst. apply Hz. left.
    + apply NoDup_cons in Hnd as [Hn _]. done.
  - destruct H as [H1 H2]. apply NoDup_cons in Hnd as [Hn Hnd]. apply elem_of_cons in Hx as [->|Hx].
    + exfalso. rewrite H1 in Hp. subst. apply NoDup_cons in Hnd as [Hn' _]. apply Hn'. apply elem_of_app. right. left.
    + apply IH; [done|by intros ?; apply Hz; right|done|done|done].
Qed.

Definition more (fuel : nat) (n : Z) (u : umem) : option (Z * umem) :=
  '(p, u) ← morecore fuel n u;
  if p =? 0 then Some (0, u) else malloc_loop fuel n p (ptr_at (u_mem u) p) u.

(** The loop along [W] up to [freep]: it takes the first block that is large
    enough, or goes to [morecore]. *)
Lemma malloc_walk u n : forall W prevp fuel,
  linked (u_mem u) prevp W (u_freep u) -> (u_freep u ∉ W) -> (length W < fuel)%nat ->
  (exists prevp' p, prevp' ∈ prevp :: W /\ p ∈ W ++ [u_freep u] /\ ptr_at (u_mem u) prevp' = p
     /\ n <= size_at (u_mem u) p
     /\ malloc_loop fuel n prevp (List.hd (u_freep u) W) u = Some (take_units n prevp' p u))
  \/ (Forall (fun x => size_at (u_mem u) x < n) (W ++ [u_freep u])
     /\ malloc_loop fuel n prevp (List.hd (u_freep u) W) u = more (fuel - length W - 1) n u).
Proof.
  induction W as [|y W IH]; intros prevp fuel HL Hf Hfu; destruct fuel as [|fuel]; try (simpl in Hfu; lia);
    cbn [List.hd malloc_loop linked app] in *.
  - destruct (Z.leb_spec n (size_at (u_mem u) (u_freep u))) as [Hs|Hs].
    + left. exists prevp, (u_freep u). split_and!; [left|left|done|done|done].
    + right. split; [by apply Forall_singleton|]. rewrite Z.eqb_refl. simpl length. by replace (S fuel - 0 - 1)%nat with fuel by lia.
  - destruct HL as [H1 H2]. apply not_elem_of_cons in Hf as [Hy Hf].
    destruct (Z.leb_spec n (size_at (u_mem u) y)) as [Hs|Hs].
    + left. exists prevp, y. split_and!; [left|left|done|done|done].
    + destruct (Z.eqb_spec y (u_freep u)); [congruence|].
      replace (ptr_at (u_mem u) y) with (List.hd (u_freep u) W) by (destruct W; simpl in H2; [done|by destruct H2]).
      destruct (IH y fuel H2 Hf ltac:(simpl in Hfu; lia)) as [(pv & p & H3 & H4 & H5 & H6 & H7)|[H3 H4]].
      * left. exists pv, p. split_and!; [by right|by right|done|done|done].
      * right. split; [by constructor|]. by rewrite H4.
Qed.

(** A node with some units is a free block of the row. *)
Lemma node_tile u T p : heap_ok u T -> p ∈ base :: frees h0 T -> 0 < size_at (u_mem u) p ->
  exists T1 T2, T = T1 ++ (size_at (u_mem u) p, true) :: T2 /\ p = h0 + span T1.
Proof.
  intros [HH Hbs _ _ _ _ _] Hp Hs. apply elem_of_cons in Hp as [->|Hp]; [lia|]. clear Hbs Hs. revert HH Hp.
  generalize h0. induction T as [|[s f] T IH]; intros a HH Hp; simpl in *; [by apply not_elem_of_nil in Hp|].
  destruct HH as [H1 H2]. apply elem_of_app in Hp as [Hp|Hp].
  - destruct f; [|by apply not_elem_of_nil in Hp]. apply list_elem_of_singleton in Hp as ->.
    exists [], T. split; [by rewrite H1|simpl; lia].
  - destruct (IH _ H2 Hp) as (T1 & T2 & -> & E). exists ((s, f) :: T1), T2. split; [done|]. simpl. lia.
Qed.

(** The nodes of the ring are distinct and above 0. *)
Lemma ring_nodup u T : layout -> heap_ok u T -> NoDup (base :: frees h0 T) /\ Forall (fun x => 0 < x) (base :: frees h0 T).
Proof.
  intros (Hb0 & Hbh & _) [_ _ _ _ _ HP _]. pose proof (frees_range h0 T HP) as R. split.
  - apply sorted_nodup. constructor; [by apply frees_sorted|]. eapply Forall_impl; [exact R|]. intros x Hx. simpl in Hx. lia.
  - constructor; [done|]. eapply Forall_impl; [exact R|]. intros x Hx. simpl in Hx. lia.
Qed.

(** The search on a well-formed heap. *)
Lemma malloc_search u T n fuel :
  layout -> heap_ok u T -> u_brk u <= limit -> 0 < n -> (length T + 1 <= fuel)%nat ->
  (exists T1 s T2 u', T = T1 ++ (s, true) :: T2 /\ n <= s
     /\ malloc_loop fuel n (u_freep u) (ptr_at (u_mem u) (u_freep u)) u = Some (h0 + span T1 + 8 * (s - n) + 8, u')
     /\ heap_ok u' (taken T1 s n T2) /\ u_brk u' = u_brk u
     /\ (forall x, used_at h0 T x -> u_mem u' !! x = u_mem u !! x))
  \/ ((forall s, (s, true) ∈ T -> s < n)
     /\ exists fuel', (fuel - length T - 1 <= fuel')%nat
        /\ malloc_loop fuel n (u_freep u) (ptr_at (u_mem u) (u_freep u)) u = more fuel' n u).
Proof.
  intros HL Hok Hl Hn Hfu. pose proof (ring_nodup u T HL Hok) as [Hnd _].
  destruct (ring_rotate _ _ _ (ho_ring _ _ Hok) Hnd (ho_freep _ _ Hok)) as (W & HW & Hf & Hlen & Heq).
  pose proof (length_frees h0 T) as Hlf.
  replace (ptr_at (u_mem u) (u_freep u)) with (List.hd (u_freep u) W) by (destruct W; simpl in HW; [done|by destruct HW]).
  destruct (malloc_walk u n W (u_freep u) fuel HW Hf ltac:(lia)) as [(pv & p & H1 & H2 & H3 & H4 & H5)|[H1 H2]].
  - left. assert (Hp : p ∈ base :: frees h0 T).
    { apply Heq. apply elem_of_app in H2 as [H2|H2]; [by right|]. apply list_elem_of_singleton in H2 as ->. left. }
    destruct (node_tile u T p Hok Hp ltac:(lia)) as (T1 & T2 & ET & Ep). set (s := size_at (u_mem u) p) in *.
    assert (EF : frees h0 T = frees h0 T1 ++ p :: frees (p + 8 * s) T2) by (rewrite ET, frees_app, Ep; done).
    assert (Epv : pv = last_of base (frees h0 T1)).
    { rewrite EF in Hnd. apply (ring_pred (u_mem u) base _ p (frees (p + 8 * s) T2) base); [done| | | |done].
      - by apply NoDup_cons in Hnd as [? _].
      - rewrite <- EF. apply Hok.
      - rewrite <- EF. by apply Heq. }
    pose proof Hok as Hok'. rewrite ET in Hok'. destruct (take_spec u T1 s T2 n HL Hok' Hl ltac:(lia)) as (u' & E & Hu & Hb & Hfr).
    exists T1, s, T2, u'. split_and!; [done|done| |done|done|].
    + rewrite H5, Epv, Ep. f_equal. exact E.
    + intros x Hx. pose proof (ho_sizes _ _ Hok') as HP. rewrite ET in Hx.
      pose proof HP as [HP1 [Hs HP2]%Forall_cons]%Forall_app. pose proof (span_pos _ HP1).
      pose proof (used_not_free _ _ _ HP Hx) as Hnf. pose proof (used_range _ _ _ HP Hx).
      destruct HL as (_ & Hbh & _). apply Hfr.
      * apply not_elem_of_cons. split; [lia|]. rewrite frees_app, elem_of_app in Hnf. tauto.
      * apply used_app in Hx; [|done]. simpl in Hx. destruct Hx as [[Hx _]|[_ [[_ ?]|[Hx _]]]]; [lia|done|lia].
  - right. split.
    + intros s Hs. apply list_elem_of_split in Hs as (T1 & T2 & ET). pose proof (ho_headers _ _ Hok) as HH.
      rewrite ET in HH. apply headers_app in HH as [_ [HH _]]. rewrite <- HH.
      assert (Hp : h0 + span T1 ∈ u_freep u :: W).
      { apply Heq. right. rewrite ET, frees_app. simpl. apply elem_of_app. right. left. }
      apply Forall_app in H1 as [H1 [H1' _]%Forall_cons]. apply elem_of_cons in Hp as [->|Hp]; [done|].
      by eapply Forall_forall in H1.
    + exists (fuel - length W - 1)%nat. split; [lia|done].
Qed.

(** ** What the operations do to the set of addresses in use *)

Lemma used_taken T1 s n T2 x :
  Forall (fun t => 0 < t.1) (T1 ++ (s, true) :: T2) -> 0 < n <= s ->
  let b := h0 + span T1 + 8 * (s - n) in
  (used_at h0 (taken T1 s n T2) x <-> used_at h0 (T1 ++ (s, true) :: T2) x \/ b <= x < b + 8 * n)
  /\ (b <= x < b + 8 * n -> ~ used_at h0 (T1 ++ (s, true) :: T2) x).
Proof.
  intros HP Hn b. pose proof HP as [HP1 [Hs HP2]%Forall_cons]%Forall_app. simpl in Hs. pose proof (span_pos T1 HP1).
  assert (HPt : Forall (fun t => 0 < t.1) (taken T1 s n T2)).
  { unfold taken. apply Forall_app. split; [done|]. apply Forall_app.
    split; [|constructor; [simpl; lia|done]]. destruct (Z.eqb_spec s n); constructor; [simpl; lia|constructor]. }
  rewrite used_app by done. unfold taken in *. rewrite used_app by done.
  replace (span T1 + 8 * (s - n)) with (span T1 + 8 * (s - n)) by lia. fold b.
  assert (HU : used_at h0 T1 x -> h0 <= x < h0 + span T1) by by apply used_range.
  destruct (Z.eqb_spec s n) as [<-|Hne]; cbn [app used_at].
  - unfold b. replace (8 * (s - s)) with 0 by lia. split; [split|]; intros; intuition (discriminate || lia).
  - replace (h0 + span T1 + 8 * (s - n) + 8 * n) with (h0 + span T1 + 8 * s) by lia. unfold b.
    split; [split|]; intros; intuition (discriminate || lia).
Qed.

Lemma used_release T1 s T2 x :
  Forall (fun t => 0 < t.1) (T1 ++ (s, false) :: T2) ->
  used_at h0 (release T1 s T2) x <-> used_at h0 (T1 ++ (s, true) :: T2) x.
Proof.
  intros HP. pose proof HP as [HP1 [Hs HP2]%Forall_cons]%Forall_app. simpl in Hs.
  assert (G : forall a y, used_at a (((grown s T2).1, true) :: (grown s T2).2) y <-> used_at a ((s, true) :: T2) y).
  { intros a y. destruct HP2 as [|[s2 [|]] T2 H2 HP2]; simpl; [tauto| |tauto]. simpl in H2.
    replace (a + 8 * (s + s2)) with (a + 8 * s + 8 * s2) by lia. split; intros; intuition (discriminate || lia). }
  assert (P : 0 < (grown s T2).1 /\ Forall (fun t => 0 < t.1) (grown s T2).2).
  { destruct HP2 as [|[s2 [|]] T2 H2 HP2]; simpl in *; (split; [lia|done || by constructor]). }
  unfold release. fold (grown s T2). destruct (grown s T2) as [s' T2']. cbn [fst snd] in *. destruct P as [P1 P2].
  assert (Alone : used_at h0 (T1 ++ (s', true) :: T2') x <-> used_at h0 (T1 ++ (s, true) :: T2) x).
  { rewrite !used_app by (apply Forall_app; split; [done|by constructor]). by rewrite G. }
  unfold tile in *. destruct (reverse T1) as [|[s1 [|]] R] eqn:ER; [exact Alone| |exact Alone]. rewrite <- Alone.
  assert (ET : T1 = reverse R ++ [(s1, true)]) by (rewrite <- (reverse_involutive T1), ER; apply reverse_cons).
  rewrite ET in *. apply Forall_app in HP1 as [HPR [Hs1 _]%Forall_cons]. simpl in Hs1. rewrite <- (assoc_L (++)).
  rewrite !used_app by (apply Forall_app; split; [done|]; repeat constructor; simpl; (done || lia)).
  simpl. replace (h0 + span (reverse R) + 8 * (s1 + s')) with (h0 + span (reverse R) + 8 * s1 + 8 * s') by lia.
  split; intros; intuition (discriminate || lia).
Qed.

Lemma apart_snoc T s : apart T -> apart (T ++ [(s, false)]).
Proof.
  induction T as [|[q g] T IH]; simpl; [done|]. intros [H1 H2]. split; [|by apply IH].
  destruct T as [|[? ?] ?]; [by destruct g|done].
Qed.

Definition core_units (n : Z) : Z := if n <? 4096 then 4096 else n.

Lemma morecore_spec u T n fuel :
  layout -> heap_ok u T -> u_brk u <= limit -> 0 < n -> 8 * core_units n < 2 ^ 31 -> (length T + 2 <= fuel)%nat ->
  if decide (u_brk u + 8 * core_units n <= limit) then
    exists u', morecore fuel n u = Some (u_freep u', u') /\ heap_ok u' (release T (core_units n) [])
      /\ u_brk u' = u_brk u + 8 * core_units n
      /\ (forall x, used_at h0 T x -> u_mem u' !! x = u_mem u !! x)
  else morecore fuel n u = Some (0, u).
Proof.
  intros HL Hok Hl Hn Hnu Hfu. unfold morecore. fold (core_units n). set (nu := core_units n) in *.
  assert (Hnu0 : n <= nu /\ 4096 <= nu) by (unfold nu, core_units; destruct (Z.ltb_spec n 4096); lia).
  pose proof HL as (Hb0 & Hbh & Hlim). destruct Hok as [HH Hbs HR HF Hbrk HP HA]. pose proof (span_pos T HP).
  unfold sbrk. rewrite u32_small, s32_small by lia. replace (nu * 8) with (8 * nu) by lia.
  rewrite (proj2 (Z.leb_le 0 (u_brk u + 8 * nu))) by lia. cbn [andb]. case_decide as Hd; destruct (Z.leb_spec (u_brk u + 8 * nu) limit); try lia; [|done].
  cbn [u_mem u_freep u_brk]. set (u1 := mk_umem (set_size (u_brk u) nu (u_mem u)) (u_freep u) (u_brk u + 8 * nu)).
  assert (H1 : heap_ok u1 (T ++ [(nu, false)])).
  { split; unfold u1; cbn [u_mem u_freep u_brk].
    - apply headers_app. split; [eapply headers_ext; [done| |exact HH]; intros y Hy; rewrite size_set_size, decide_False by lia; done|].
      simpl. split; [|done]. rewrite size_set_size, decide_True by lia. apply u32_small. lia.
    - rewrite size_set_size, decide_False by lia. done.
    - rewrite frees_app. simpl. rewrite app_nil_r. eapply linked_ext; [|exact HR]. intros y _. by rewrite ptr_set_size.
    - rewrite frees_app. simpl. by rewrite app_nil_r.
    - rewrite span_app. simpl. lia.
    - apply Forall_app. split; [done|]. constructor; [simpl; lia|constructor].
    - by apply apart_snoc. }
  destruct (free_spec u1 T nu [] fuel HL H1) as (u' & E & Hu & Hb & Hfr); [unfold u1; simpl; lia|unfold tile in *; simpl; lia|].
  rewrite Hbrk. rewrite E. exists u'. cbn [mbind option_bind]. split; [done|]. split; [done|]. split; [rewrite Hb; unfold u1; simpl; lia|].
  intros x Hx. pose proof (used_range _ _ _ HP Hx). rewrite Hfr; [|lia|].
  - unfold u1. simpl. apply set_size_ne. lia.
  - apply not_elem_of_cons. split; [lia|]. by apply used_not_free.
Qed.

Lemma length_release T1 s T2 : (length (release T1 s T2) <= length T1 + length T2 + 1)%nat.
Proof.
  unfold release. fold (grown s T2).
  assert (G : (length (grown s T2).2 <= length T2)%nat) by (destruct T2 as [|[? []] ?]; simpl; lia).
  destruct (grown s T2) as [s' T2']. simpl in G. unfold tile in *.
  destruct (reverse T1) as [|[s1 [|]] R] eqn:ER; rewrite !length_app; simpl; try lia.
  assert (L : length (reverse T1) = length T1) by apply length_reverse. rewrite ER in L. simpl in L.
  rewrite length_reverse. lia.
Qed.

Lemma release_last T s : Forall (fun t => 0 < t.1) T -> exists x, (x, true) ∈ release T s [] /\ s <= x.
Proof.
  intros HP. unfold release. destruct T as [|[s1 [|]] T _] using rev_ind; [|rewrite reverse_snoc..].
  - exists s. split; [left|lia].
  - apply Forall_app in HP as [_ [Hs _]%Forall_cons]. simpl in Hs. exists (s1 + s). split; [|lia].
    apply elem_of_app. right. left.
  - exists s. split; [|lia]. apply elem_of_app. right. left.
Qed.

(** ** The allocator *)

(** Before the first [malloc] there is no list and no heap. *)
Definition ready (u : umem) (T : list tile) : Prop :=
  heap_ok u T \/ (T = [] /\ u_freep u = 0 /\ u_brk u = h0).

(** The block of [n] units at [r - 8] is new: it is in use now and was not. *)
Definition allocated (T : list tile) (u' : umem) (n r : Z) : Prop :=
  exists T1 T2, let T' := T1 ++ (n, false) :: T2 in
    r = h0 + span T1 + 8 /\ heap_ok u' T' /\ u_brk u' <= limit
    /\ (forall x, used_at h0 T' x <-> used_at h0 T x \/ r - 8 <= x < r - 8 + 8 * n)
    /\ (forall x, r - 8 <= x < r - 8 + 8 * n -> ~ used_at h0 T x).

Lemma allocated_taken T Tg T1 s T2 n u' :
  Tg = T1 ++ (s, true) :: T2 -> Forall (fun t => 0 < t.1) Tg -> 0 < n <= s ->
  heap_ok u' (taken T1 s n T2) -> u_brk u' <= limit -> (forall x, used_at h0 Tg x <-> used_at h0 T x) ->
  allocated T u' n (h0 + span T1 + 8 * (s - n) + 8).
Proof.
  intros -> HP Hn Hok Hl Hu. exists (T1 ++ (if s =? n then [] else [(s - n, true)])), T2. cbv zeta.
  rewrite <- (assoc_L (++)). fold (taken T1 s n T2).
  replace (h0 + span T1 + 8 * (s - n) + 8 - 8) with (h0 + span T1 + 8 * (s - n)) by lia. split; [|split; [done|split; [done|split]]].
  - rewrite span_app. destruct (Z.eqb_spec s n) as [->|]; simpl; lia.
  - intros x. rewrite (proj1 (used_taken T1 s n T2 x HP Hn)), Hu. done.
  - intros x Hx Hux. apply (proj2 (used_taken T1 s n T2 x HP Hn) Hx). by apply Hu.
Qed.

Lemma malloc_main u T n fuel :
  layout -> heap_ok u T -> u_brk u <= limit -> 0 < n -> 8 * core_units n < 2 ^ 31 -> (2 * length T + 6 <= fuel)%nat ->
  exists r u', malloc_loop fuel n (u_freep u) (ptr_at (u_mem u) (u_freep u)) u = Some (r, u')
    /\ (forall x, used_at h0 T x -> u_mem u' !! x = u_mem u !! x)
    /\ (allocated T u' n r
        \/ (r = 0 /\ u' = u /\ (forall s, (s, true) ∈ T -> s < n) /\ limit < u_brk u + 8 * core_units n)).
Proof.
  intros HL Hok Hl Hn Hnu Hfu. pose proof (ho_sizes _ _ Hok) as HP.
  destruct (malloc_search u T n fuel HL Hok Hl Hn ltac:(lia)) as [(T1 & s & T2 & u' & ET & Hs & E & Hu & Hb & Hfr)|(Hno & fuel' & Hf' & E)].
  { exists (h0 + span T1 + 8 * (s - n) + 8), u'. split; [done|]. split; [done|]. left.
    eapply (allocated_taken T T); [done|done|lia|done|lia|done]. }
  rewrite E. unfold more. pose proof (morecore_spec u T n fuel' HL Hok Hl Hn Hnu ltac:(lia)) as M.
  case_decide as Hd; [|rewrite M; exists 0, u; split; [done|]; split; [done|]; right; split_and!; [done|done|done|lia]].
  destruct M as (u1 & EM & Hok1 & Hb1 & Hfr1). rewrite EM. cbn [mbind option_bind].
  assert (HP' : Forall (fun t => 0 < t.1) (T ++ [(core_units n, false)])).
  { apply Forall_app. split; [done|]. constructor; [|constructor]. unfold core_units. destruct (Z.ltb_spec n 4096); simpl; lia. }
  assert (Hused : forall x, used_at h0 (release T (core_units n) []) x <-> used_at h0 T x).
  { intros x. rewrite used_release by done. rewrite used_app by (apply Forall_app in HP' as [H1 [H2 _]%Forall_cons]; apply Forall_app; split; [done|by constructor]).
    simpl. split; [intros [[_ H]|[_ [[_ ?]|[_ []]]]]; done|]. intros H. left. split; [|done]. apply used_range in H; [lia|done]. }
  pose proof (ring_nodup u1 _ HL Hok1) as [_ Hpos]. pose proof (ho_freep _ _ Hok1) as Hin.
  eapply Forall_forall in Hpos; [|exact Hin]. destruct (Z.eqb_spec (u_freep u1) 0); [lia|].
  pose proof (length_release T (core_units n) []) as Hlen. simpl in Hlen. unfold tile in *.
  destruct (malloc_search u1 _ n fuel' HL Hok1 ltac:(lia) Hn ltac:(unfold tile in *; lia))
    as [(T1 & s & T2 & u' & ET & Hs & E' & Hu & Hb & Hfr)|(Hno' & _)].
  - exists (h0 + span T1 + 8 * (s - n) + 8), u'. split; [done|]. split.
    + intros x Hx. rewrite Hfr by (by apply Hused). by apply Hfr1.
    + left. eapply (allocated_taken T (release T (core_units n) [])); [done|apply Hok1|lia|done|lia|done].
  - exfalso. destruct (release_last T (core_units n) HP) as (x & Hx & Hge). specialize (Hno' x Hx).
    unfold core_units in Hge. destruct (Z.ltb_spec n 4096); lia.
Qed.

End Allocator.

(** C22: [malloc] allocates.  On a well-formed heap, and before the first call, for
    every request below 2^31 - 32 bytes, [malloc] comes to an end.  Either it
    returns a block that is large enough, in the heap, and no part of which was
    in use: afterwards exactly that block is in use in addition, and the heap is
    well formed again, its free blocks in one ascending ring without neighbours.
    Or it returns 0 with nothing changed, and then no free block is large enough
    and [sbrk] has no more memory.  No memory in use is written. *)
Theorem malloc_allocates (base limit h0 : Z) (u : umem) (T : list tile) (nbytes : Z) (fuel : nat) :
  layout base limit h0 -> ready base h0 u T -> u_brk u <= limit -> 0 <= nbytes < 2 ^ 31 - 32 ->
  (2 * length T + 6 <= fuel)%nat ->
  let n := units nbytes in
  nbytes <= 8 * (n - 1)
  /\ exists r u', malloc base limit fuel nbytes u = Some (r, u')
    /\ (forall x, used_at h0 T x -> u_mem u' !! x = u_mem u !! x)
    /\ (allocated base limit h0 T u' n r
        \/ (r = 0 /\ ready base h0 u' T /\ u_brk u' = u_brk u
            /\ (forall s, (s, true) ∈ T -> s < n) /\ limit < u_brk u + 8 * core_units n)).
Proof.
  intros HL Hr Hl Hb Hf n.
  assert (En : n = (nbytes + 7) / 8 + 1).
  { unfold n, units. replace (nbytes + 8 - 1) with (nbytes + 7) by lia. rewrite (u32_small (nbytes + 7)) by lia.
    apply u32_small. pose proof (Z.div_le_upper_bound (nbytes + 7) 8 (2 ^ 31) ltac:(lia) ltac:(lia)).
    pose proof (Z.div_pos (nbytes + 7) 8). lia. }
  split; [rewrite En; div_lia|].
  assert (H8 : 0 < n /\ 8 * core_units n < 2 ^ 31).
  { unfold core_units. destruct (Z.ltb_spec n 4096); rewrite En in *; div_lia. }
  unfold malloc. fold n. destruct HL as (Hb0 & Hbh & Hlim). destruct Hr as [Hok|(-> & Hf0 & Hbrk)].
  - pose proof (ring_nodup base limit h0 u T ltac:(by split) Hok) as [_ Hpos]. pose proof (ho_freep _ _ _ _ Hok) as Hin.
    eapply Forall_forall in Hpos; [|exact Hin]. destruct (Z.eqb_spec (u_freep u) 0); [lia|].
    destruct (malloc_main base limit h0 u T n fuel) as (r & u' & E & Hfr & H); [by split|done|done|lia|lia|done|].
    exists r, u'. split; [done|]. split; [done|]. destruct H as [H|(-> & -> & H1 & H2)]; [by left|]. right.
    split_and!; [done|by left|done|done|done].
  - rewrite Hf0. simpl Z.eqb. cbv iota. set (u0 := mk_umem _ base (u_brk u)).
    assert (Hok : heap_ok base h0 u0 []).
    { split; unfold u0; cbn [u_mem u_freep u_brk frees headers linked span apart]; [done| | |left|lia|constructor|done].
      - by rewrite size_set_size, decide_True.
      - by rewrite ptr_set_size, ptr_set_ptr, decide_True. }
    destruct (malloc_main base limit h0 u0 [] n fuel) as (r & u' & E & Hfr & H); [by split|done|done|lia|lia|done|].
    exists r, u'. split; [done|]. split; [done|]. destruct H as [H|(-> & -> & H1 & H2)]; [by left|]. right.
    split_and!; [done|by left|done|done|done].
Qed.

(** [free] gives back.  For a block in use, [free] comes to an end and puts the
    block on the ring, joined with the free blocks on either side: exactly its
    addresses are no longer in use, the heap is well formed again, and no memory
    still in use is written. *)
Theorem free_releases (base limit h0 : Z) (u : umem) (T1 : list tile) (s : Z) (T2 : list tile) (fuel : nat) :
  layout base limit h0 -> heap_ok base h0 u (T1 ++ (s, false) :: T2) -> u_brk u <= limit ->
  (length T1 + length T2 + 2 <= fuel)%nat ->
  let bp := h0 + span T1 in let T' := release T1 s T2 in
  exists u', free fuel (bp + 8) u = Some u' /\ heap_ok base h0 u' T' /\ u_brk u' = u_brk u
    /\ (forall x, used_at h0 T' x <-> used_at h0 (T1 ++ (s, false) :: T2) x /\ ~ (bp <= x < bp + 8 * s))
    /\ (forall x, used_at h0 T' x -> u_mem u' !! x = u_mem u !! x).
Proof.
  intros HL Hok Hl Hf bp T'. destruct (free_spec base limit h0 u T1 s T2 fuel HL Hok Hl Hf) as (u' & E & Hu & Hb & Hfr).
  pose proof (ho_sizes _ _ _ _ Hok) as HP. pose proof HP as [HP1 [Hs HP2]%Forall_cons]%Forall_app. simpl in Hs.
  assert (HPt : Forall (fun t : tile => 0 < t.1) (T1 ++ (s, true) :: T2)) by (apply Forall_app; split; [done|by constructor]).
  assert (HU : forall x, used_at h0 T' x <-> used_at h0 (T1 ++ (s, false) :: T2) x /\ ~ (bp <= x < bp + 8 * s)).
  { intros x. unfold T'. rewrite used_release, !used_app by done. simpl. fold bp. intuition (discriminate || lia). }
  exists u'. split; [done|]. split; [done|]. split; [done|]. split; [done|].
  intros x Hx. destruct (proj1 (HU x) Hx) as [H1 H2]. pose proof (span_pos T1 HP1). apply Hfr; [unfold bp in *; lia|].
  pose proof (used_range _ _ _ HP H1) as Hr. pose proof (used_not_free _ _ _ HP H1) as Hn. destruct HL as (_ & Hbh & _).
  apply not_elem_of_cons. split; [lia|]. rewrite frees_app, elem_of_app in Hn. tauto.
Qed.

(** ** Instances *)

Definition new_process : umem := mk_umem ∅ 0 8192.

Lemma malloc_allocates_witness :
  exists r u', malloc 4000 1000000 10 100 new_process = Some (r, u') /\ allocated 4000 1000000 8192 [] u' 14 r.
Proof.
  destruct (malloc_allocates 4000 1000000 8192 new_process [] 100 10) as (_ & r & u' & E & _ & H).
  - unfold layout. lia.
  - right. done.
  - unfold new_process. simpl. lia.
  - lia.
  - simpl. lia.
  - exists r, u'. split; [exact E|]. destruct H as [H|(-> & _)]; [exact H|]. vm_compute in E. discriminate E.
Defined.

Lemma free_releases_witness :
  exists u u', malloc 4000 1000000 10 100 new_process = Some (40856, u)
    /\ free 10 40856 u = Some u' /\ heap_ok 4000 8192 u' [(4096, true)].
Proof.
  destruct (malloc 4000 1000000 10 100 new_process) as [[r u]|] eqn:E; [|vm_compute in E; discriminate E].
  assert (Er : r = 40856) by (vm_compute in E; congruence). subst r. exists u.
  assert (Hok : heap_ok 4000 8192 u ([(4082, true)] ++ (14, false) :: [])).
  { vm_compute in E. injection E as <-. split; try (vm_compute; done).
    - vm_compute. left.
    - repeat constructor. }
  destruct (free_releases 4000 1000000 8192 u [(4082, true)] 14 [] 10) as (u' & E' & H & _).
  - unfold layout. lia.
  - exact Hok.
  - rewrite (ho_brk _ _ _ _ Hok). simpl. lia.
  - simpl. lia.
  - exists u'. split; [reflexivity|]. split; [exact E'|exact H].
Defined.
