(* ===== verification/CustomShell.v ===== *)
(** * The custom shell of Project 2 (main.c, commands.c)

    Arrays of characters are lists of their bytes, written in place; reading or
    writing outside one is undefined in C and is the panic [undefined] here.  A
    loop that may not come to an end carries fuel, and running out of it is
    [Stuck].  Of the C library, [opendir], [fopen], [fread], [fwrite] and
    [remove] act on a set of directories and a map of files.  How the
    operating system resolves a name, and in which directory a file is, are
    parameters; the shell never calls [chdir], so that they do not change with
    its [directory_path].  Permissions are not modelled, and [closedir] of a null
    pointer is taken to do nothing, as in the GNU C library. *)

From Stdlib Require Import String Ascii ZArith Lia.
From stdpp Require Import base gmap list strings.
From S2P Require Import User Ulib.
From S2P Require Import Prelude State Console Fs.

Open Scope c_scope.

Definition BUFFER_SIZE : nat := 4096.
Definition ARGUMENTS_SIZE : nat := 16.

Record world : Type := mk_world {
  w_dirs : list (list Z);
  w_files : gmap (list Z) (list Z);
  w_out : list Z;
}.

Definition W (A : Type) : Type := M world A.

Definition undefined {A} : W A := panic "undefined".

Definition slash : Z := ch "/".
Definition dot : Z := ch ".".
Definition quote : Z := 34.

(** ** Arrays and strings *)

Definition rd (a : list Z) (i : Z) : W Z :=
  if i <? 0 then undefined else match a !! Z.to_nat i with Some c => ret c | None => undefined end.

Definition wr (i c : Z) (a : list Z) : W (list Z) :=
  if (i <? 0) || (Z.of_nat (length a) <=? i) then undefined else ret (<[Z.to_nat i := c]> a).

Definition slen (a : list Z) : W Z :=
  match first_index (fun c => c =? 0) a with Some n => ret (Z.of_nat n) | None => undefined end.

(** [strcpy] of the string in [src] to the start of [dst]. *)
Definition scpy (dst src : list Z) : W (list Z) :=
  n <- slen src;;
  if (length dst <=? Z.to_nat n)%nat then undefined
  else ret (take (Z.to_nat n) src ++ 0 :: drop (S (Z.to_nat n)) dst).

Definition zeros (n : nat) : list Z := replicate n 0.

Definition out (l : list Z) : W unit := modify (fun w => mk_world (w_dirs w) (w_files w) (w_out w ++ l)).

Definition say (s : string) : W unit := out (chars (s ++ newline)).

Section Shell.
Context (resolve parent : list Z -> list Z).

(** ** The C library *)

Definition opendir (path : list Z) : W bool :=
  gets (fun w => bool_decide (resolve path ∈ w_dirs w)).

(** A directory can be opened for reading; it reads as an empty file. *)
Definition fopen_rb (path : list Z) : W bool :=
  gets (fun w => bool_decide (is_Some (w_files w !! resolve path)) || bool_decide (resolve path ∈ w_dirs w)).

(** Opening for writing creates or empties the file. *)
Definition fopen_wb (path : list Z) : W bool :=
  w <- get;;
  let p := resolve path in
  if bool_decide (parent p ∈ w_dirs w) && negb (bool_decide (p ∈ w_dirs w))
  then modify (fun w => mk_world (w_dirs w) (<[p := []]> (w_files w)) (w_out w));; ret true
  else ret false.

(** What a file holds. *)
Definition contents (path : list Z) (w : world) : list Z := default [] (w_files w !! resolve path).

Definition fread_at (path : list Z) (off n : nat) : W (list Z) :=
  gets (fun w => take n (drop off (contents path w))).

Definition fappend (path data : list Z) : W unit :=
  modify (fun w => mk_world (w_dirs w) (<[resolve path := contents path w ++ data]> (w_files w)) (w_out w)).

(** A directory is removed when nothing is in it. *)
Definition remove (path : list Z) : W unit :=
  modify (fun w =>
    let p := resolve path in
    if bool_decide (p ∈ w_dirs w) then
      if forallb (fun q => negb (bool_decide (parent q = p))) (w_dirs w ++ (map_to_list (w_files w)).*1)
      then mk_world (filter (.≠ p) (w_dirs w)) (w_files w) (w_out w)
      else w
    else mk_world (w_dirs w) (delete p (w_files w)) (w_out w)).

(** ** commands.c *)

(** What [fgets] reads: up to a newline or [n] bytes. *)
Fixpoint fgets_chunk (n : nat) (l : list Z) : list Z :=
  match n, l with
  | S n, c :: l => c :: (if c =? NL then [] else fgets_chunk n l)
  | _, _ => []
  end.

Fixpoint cat_loop (fuel : nat) (data : list Z) : W unit :=
  match fuel with
  | O => fun w _ => Stuck w
  | S fuel =>
      match fgets_chunk (BUFFER_SIZE - 1) data with
      | [] => ret tt
      | buffer => out (cstr buffer);; cat_loop fuel (drop (length buffer) data)
      end
  end.

(** The loop over the arguments, from the one numbered [index] on. *)
Fixpoint cat_args (args : list (list Z)) (index : Z) : W unit :=
  match args with
  | [] => undefined
  | a :: args =>
      c <- rd a 0;;
      if c =? 0 then
        if index =? 0 then say "Usage: cat ${INPUT_FILE_1} ${INPUT_FILE_2} ..." else ret tt
      else
      ok <- fopen_rb (cstr a);;
      if negb ok then say "Error in opening file(s)." else
      data <- gets (contents (cstr a));;
      cat_loop (S (length data)) data;;
      out [NL];;
      cat_args args (index + 1)
  end.

Definition custom_cat (args : list (list Z)) : W unit := cat_args args 0.

Definition not_a_directory (arg : list Z) : W unit := out (cstr arg ++ chars (": Not a directory." ++ newline)).

(** [for (i = strlen(path) - 1; path[i] != '/'; i--) path[i] = 0;] *)
Fixpoint erase_back (n : nat) (path : list Z) : W (list Z) :=
  match n with
  | O => undefined
  | S i =>
      c <- rd path (Z.of_nat i);;
      if c =? slash then ret path
      else p <- wr (Z.of_nat i) 0 path;; erase_back i p
  end.

(** Drops the last component of a path, taken to end with a slash. *)
Definition go_up (path : list Z) : W (list Z) :=
  n <- slen path;;
  path <- (if negb (n =? 1) then wr (n - 1) 0 path else ret path);;
  n <- slen path;;
  erase_back (Z.to_nat n) path.

(** One round of the loop over the characters of a relative path, shared by
    [cd], [cp] and [mv] but for the offset [look] at which the zero after a
    single point is looked for (2 in [custom_cd], 1 in the others).  [inr] leaves
    the loop: with the path, or with [None] after [Not a directory]. *)
Definition path_body (look : Z) (arg : list Z) (st : list Z * Z) : W ((list Z * Z) + option (list Z)) :=
  let '(path, index) := st in
  c <- rd arg index;;
  if c =? 0 then ret (inr (Some path)) else
  if c =? dot then
    c1 <- rd arg (index + 1);;
    skip <- (if c1 =? slash then ret true else c2 <- rd arg (index + look);; ret (c2 =? 0));;
    let index := if (skip : bool) then index + 2 else index in
    c1 <- rd arg (index + 1);;
    if c1 =? dot then
      c2 <- rd arg (index + 2);;
      if (c2 =? slash) || (c2 =? 0) then
        path <- go_up path;; ret (inl (path, index + 3))
      else not_a_directory arg;; ret (inr None)
    else ret (inl (path, index))
  else
    n <- slen path;;
    path <- wr n c path;;
    ret (inl (path, index + 1)).

(** The path that [arg] leads to from [path]: a slash is appended if need be, the
    loop is run, and a slash at the end is dropped. *)
Definition build_path (fuel : nat) (look : Z) (arg path : list Z) : W (option (list Z)) :=
  n <- slen path;;
  c <- rd path (n - 1);;
  path <- (if negb (c =? slash) then wr n slash path else ret path);;
  r <- iter fuel (path_body look arg) (path, 0);;
  match r with
  | None => ret None
  | Some path =>
      n <- slen path;;
      c <- rd path (n - 1);;
      path <- (if negb (n =? 1) && (c =? slash) then wr (n - 1) 0 path else ret path);;
      ret (Some path)
  end.

(** Returns the new [directory_path]; [user] is the environment's [USER]. *)
Definition custom_cd (fuel : nat) (user : option (list Z)) (arg directory_path : list Z) : W (list Z) :=
  c <- rd arg 0;;
  if c =? 0 then
    match user with
    | Some username => scpy (zeros BUFFER_SIZE) (take (BUFFER_SIZE - 1) (chars "/home/" ++ username) ++ [0])
    | None => undefined
    end
  else if c =? slash then
    ok <- opendir (cstr arg);;
    if negb ok then not_a_directory arg;; ret directory_path
    else scpy (zeros BUFFER_SIZE) arg
  else
    let old_path := directory_path in
    r <- build_path fuel 2 arg directory_path;;
    match r with
    | None => scpy (zeros BUFFER_SIZE) old_path
    | Some path =>
        ok <- opendir (cstr path);;
        if negb ok then not_a_directory arg;; scpy (zeros BUFFER_SIZE) old_path
        else ret path
    end.

(** [while (args[index][0] != 0) index++;] *)
Fixpoint count_args (args : list (list Z)) (index : nat) : W nat :=
  match args with
  | [] => undefined
  | a :: args => c <- rd a 0;; if c =? 0 then ret index else count_args args (S index)
  end.

Fixpoint copy_loop (fuel : nat) (from to : list Z) (off : nat) : W unit :=
  match fuel with
  | O => fun w _ => Stuck w
  | S fuel =>
      buffer <- fread_at from off BUFFER_SIZE;;
      match buffer with
      | [] => ret tt
      | _ => fappend to buffer;; copy_loop fuel from to (off + length buffer)
      end
  end.

(** Copies one argument into the directory [temp_path]; [false] when a file
    cannot be opened. *)
Definition copy_file (arg temp_path : list Z) : W bool :=
  file <- fopen_rb (cstr arg);;
  new_path <- scpy (zeros BUFFER_SIZE) temp_path;;
  n <- slen new_path;;
  new_path <- wr n slash new_path;;
  let new_path := cstr new_path ++ cstr arg in
  if (BUFFER_SIZE <=? length new_path)%nat then undefined else
  new <- fopen_wb new_path;;
  if negb file || negb new then say "Error in opening file(s).";; ret false else
  data <- gets (contents (cstr arg));;
  copy_loop (S (length data)) (cstr arg) new_path 0;;
  ret true.

(** The loop of [cp] and [mv] over the arguments from the last to the first. *)
Fixpoint copy_args (move : bool) (args : list (list Z)) (temp_path : list Z) : W unit :=
  match args with
  | [] => ret tt
  | a :: args =>
      ok <- copy_file a temp_path;;
      if negb ok then ret tt else
      when move (remove (cstr a));;
      copy_args move args temp_path
  end.

(** [custom_cp] and [custom_mv] differ in the call of [remove] only; [junk] is
    what [temp_path] holds before it is written. *)
Definition copy_command (fuel : nat) (move : bool) (junk : list Z) (args : list (list Z)) (directory_path : list Z) : W unit :=
  index <- count_args args 0;;
  if (index <=? 1)%nat then
    say "Usage: mv ${INPUT_FILE_1} ${INPUT_FILE_2} ... ${DESTINATION_DIRECTORY}"
  else
  let dest := nth (index - 1) args [] in
  c <- rd dest 0;;
  temp_path <- (if c =? slash then p <- scpy junk dest;; ret (Some p)
                else p <- scpy junk directory_path;; build_path fuel 1 dest p);;
  match temp_path with
  | None => ret tt
  | Some temp_path =>
      ok <- opendir (cstr temp_path);;
      if negb ok then not_a_directory dest
      else copy_args move (reverse (take (index - 1) args)) temp_path
  end.

Definition custom_cp (fuel : nat) (junk : list Z) (args : list (list Z)) (directory_path : list Z) : W unit :=
  copy_command fuel false junk args directory_path.

Definition custom_mv (fuel : nat) (junk : list Z) (args : list (list Z)) (directory_path : list Z) : W unit :=
  copy_command fuel true junk args directory_path.

(** The entries that [readdir] delivers, each with whether it is a directory. *)
Definition custom_ls (entries : option (list (list Z * bool))) : W unit :=
  match entries with
  | None => undefined
  | Some l =>
      for_each (fun e : list Z * bool =>
        out (chars (if e.2 then "Folder: " else "File: ") ++ e.1 ++ [NL])) l
  end.

(** ** main.c *)

(** [commands[command][index] = c]. *)
Definition put_char (command index : nat) (c : Z) (rows : list (list Z)) : W (list (list Z)) :=
  match rows !! command with
  | Some row => if (length row <=? index)%nat then undefined else ret (<[command := <[index := c]> row]> rows)
  | None => undefined
  end.

(** The inner loops: the rest of a word, and text in quotes.  At the end of
    the input [scanf] leaves [c] as it is, and the loops go on for ever or until
    they write outside the array.  The blank that ends
    the word comes first in the result. *)
Fixpoint read_word (input : list Z) (rows : list (list Z)) (command index : nat)
  : W (Z * list (list Z) * nat * list Z) :=
  match input with
  | [] => fun w _ => Stuck w
  | c :: input =>
      if c =? quote then read_quoted input rows command index
      else if (c =? 32) || (c =? 9) || (c =? NL) then ret (c, rows, S command, input)
      else rows <- put_char command index c rows;; read_word input rows command (S index)
  end
with read_quoted (input : list Z) (rows : list (list Z)) (command index : nat)
  : W (Z * list (list Z) * nat * list Z) :=
  match input with
  | [] => fun w _ => Stuck w
  | c :: input =>
      if c =? quote then read_word input rows (S command) index
      else rows <- put_char command index c rows;; read_quoted input rows command (S index)
  end.

Fixpoint read_words (fuel : nat) (input : list Z) (rows : list (list Z)) (command : nat)
  : W (list (list Z) * list Z) :=
  match fuel with
  | O => fun w _ => Stuck w
  | S fuel =>
      r <- read_word input rows command 0;;
      let '(c, rows, command, input) := r in
      if c =? NL then ret (rows, input) else read_words fuel input rows command
  end.

Definition read_command (input : list Z) : W (list (list Z) * list Z) :=
  read_words (S (length input)) input (replicate ARGUMENTS_SIZE (zeros 1024)) 0.

(** A round of the loop of [main]: the directory and the input after it, or
    [None] after [exit].  [entries] are those of the directory [path] in
    the order of [readdir]. *)
Definition main_body (fuel : nat) (user : option (list Z)) (junk : list Z)
    (entries : world -> list Z -> list (list Z * bool)) (input directory_path : list Z)
  : W (option (list Z * list Z)) :=
  directory <- opendir (cstr directory_path);;
  out (cstr directory_path ++ chars "$: ");;
  r <- read_command input;;
  let '(rows, input) := r in
  let name := cstr (nth 0 rows []) in
  let args := List.tl rows in
  let go_on := ret (Some (directory_path, input)) in
  if bool_decide (name = []) then go_on
  else if bool_decide (name = chars "cat") then custom_cat args;; go_on
  else if bool_decide (name = chars "cd") then
    d <- custom_cd fuel user (nth 0 args []) directory_path;; ret (Some (d, input))
  else if bool_decide (name = chars "cp") then custom_cp fuel junk args directory_path;; go_on
  else if bool_decide (name = chars "ls") then
    w <- get;;
    custom_ls (if (directory : bool) then Some (entries w (cstr directory_path)) else None);; go_on
  else if bool_decide (name = chars "mv") then custom_mv fuel junk args directory_path;; go_on
  else if bool_decide (name = chars "exit") then ret None
  else out (name ++ chars (": Command not found." ++ newline));; go_on.

End Shell.
