(* ===== verification/CustomSpec.v ===== *)
(** * What the commands of the custom shell do

    The directory commands are described on arrays [pad n s]: the string [s]
    followed by zeros.  [cd] with a plain name enters the directory of that name
    or stays where it is; a name with a point in its middle keeps it in its loop
    for ever.  [cp] to an absolute destination copies every file.  A line of plain
    words is split into them. *)

From Stdlib Require Import String Ascii ZArith Lia.
From stdpp Require Import base gmap list strings.
From S2P Require Import User Ulib.
From S2P Require Import Prelude State Console Fs CustomShell.

Open Scope c_scope.

(** ** Strings in arrays *)

Definition pad (n : nat) (s : list Z) : list Z := s ++ zeros (n - length s).

Lemma length_pad n s : (length s <= n)%nat -> length (pad n s) = n.
Proof. intros. unfold pad, zeros. rewrite length_app, length_replicate. lia. Qed.

Lemma pad_end n s : (length s < n)%nat -> pad n s = s ++ 0 :: zeros (n - S (length s)).
Proof. intros. unfold pad. by replace (n - length s)%nat with (S (n - S (length s))) by lia. Qed.

Lemma lookup_pad n s i c : s !! i = Some c -> pad n s !! i = Some c.
Proof. apply lookup_app_l_Some. Qed.

Lemma lookup_pad_zero n s i : (length s <= i)%nat -> (i < n)%nat -> pad n s !! i = Some 0.
Proof.
  intros. unfold pad, zeros. rewrite lookup_app_r by done. apply lookup_replicate. split; [done|lia].
Qed.

Lemma first_zero s r : 0 ∉ s -> first_index (fun c => c =? 0) (s ++ 0 :: r) = Some (length s).
Proof.
  induction s as [|c s IH]; [done|]. intros [H0 H]%not_elem_of_cons. simpl.
  rewrite IH by done. by destruct (Z.eqb_spec c 0) as [->|].
Qed.

Lemma cstr_zero s r : 0 ∉ s -> cstr (s ++ 0 :: r) = s.
Proof.
  induction s as [|c s IH]; [done|]. intros [H0 H]%not_elem_of_cons. simpl.
  rewrite IH by done. by destruct (Z.eqb_spec c 0) as [->|].
Qed.

Lemma cstr_pad n s : 0 ∉ s -> (length s < n)%nat -> cstr (pad n s) = s.
Proof. intros. rewrite pad_end by done. by apply cstr_zero. Qed.

Lemma slen_pad n s w e : 0 ∉ s -> (length s < n)%nat -> slen (pad n s) w e = Done (Z.of_nat (length s)) w e.
Proof. intros. unfold slen. by rewrite pad_end, first_zero. Qed.

Lemma rd_at a i c w e : a !! i = Some c -> rd a (Z.of_nat i) w e = Done c w e.
Proof. intros H. unfold rd. rewrite Nat2Z.id, H. by destruct (Z.ltb_spec (Z.of_nat i) 0); [lia|]. Qed.

Lemma rd_Z a z c w e : 0 <= z -> a !! Z.to_nat z = Some c -> rd a z w e = Done c w e.
Proof. intros Hz H. rewrite <- (Z2Nat.id z) at 1 by done. by apply rd_at. Qed.

Lemma wr_at a i c w e : (i < length a)%nat -> wr (Z.of_nat i) c a w e = Done (<[i := c]> a) w e.
Proof.
  intros H. unfold wr. rewrite Nat2Z.id.
  destruct (Z.ltb_spec (Z.of_nat i) 0), (Z.leb_spec (Z.of_nat (length a)) (Z.of_nat i)); [lia..|done].
Qed.

(** Writing at the end of the string appends to it. *)
Lemma pad_push n s c : (length s < n)%nat -> <[length s := c]> (pad n s) = pad n (s ++ [c]).
Proof.
  intros H. rewrite pad_end by done. rewrite <- (Nat.add_0_r (length s)) at 1. rewrite insert_app_r. simpl.
  unfold pad. rewrite length_app, <- app_assoc. simpl. do 3 f_equal. lia.
Qed.

Lemma wr_push n s c w e : (length s < n)%nat ->
  wr (Z.of_nat (length s)) c (pad n s) w e = Done (pad n (s ++ [c])) w e.
Proof. intros H. rewrite wr_at by (rewrite length_pad; lia). by rewrite pad_push. Qed.

Lemma scpy_zeros n m s w e : 0 ∉ s -> (length s < n)%nat -> (length s < m)%nat ->
  scpy (zeros n) (pad m s) w e = Done (pad n s) w e.
Proof.
  intros H0 Hn Hm. unfold scpy. run (slen_pad m s w e H0 Hm). rewrite Nat2Z.id.
  unfold zeros at 1. rewrite length_replicate. destruct (Nat.leb_spec n (length s)); [lia|].
  unfold ret. f_equal. rewrite (pad_end m), (pad_end n), take_app_length by done.
  unfold zeros. by rewrite drop_replicate.
Qed.

(** ** The directory commands *)

(** A name without a point, a zero or a slash at its ends. *)
Definition plain (s : list Z) : bool :=
  forallb (fun c => negb (c =? 0) && negb (c =? dot)) s
  && match s with c :: _ => negb (c =? slash) | [] => false end
  && negb (bool_decide (last s = Some slash)).

(** A directory other than the root. *)
Definition proper_dir (s : list Z) : bool :=
  forallb (fun c => negb (c =? 0)) s
  && match s with [] => false | _ => true end
  && negb (bool_decide (last s = Some slash)).

Lemma proper_dir_spec s : proper_dir s = true ->
  (0 ∉ s) /\ exists c, last s = Some c /\ c <> slash.
Proof.
  unfold proper_dir. rewrite !andb_true_iff, negb_true_iff, bool_decide_eq_false, forallb_forall.
  intros [[H Hn] Hl]. split.
  - intros Hin. apply list_elem_of_In in Hin. by apply H in Hin.
  - destruct (last s) as [c|] eqn:E; [exists c; split; congruence|]. by apply last_None in E as ->.
Qed.

Lemma plain_spec s : plain s = true ->
  Forall (fun c => c <> 0 /\ c <> dot) s /\ (exists c s', s = c :: s' /\ c <> slash)
  /\ (exists c, last s = Some c /\ c <> slash).
Proof.
  unfold plain. rewrite !andb_true_iff, negb_true_iff, bool_decide_eq_false, forallb_forall.
  intros [[H Hn] Hl]. split; [|split].
  - apply Forall_forall. intros c Hin. apply list_elem_of_In in Hin. apply H in Hin.
    apply andb_true_iff in Hin as [H1 H2]. split; intros ->; done.
  - destruct s as [|c s]; [done|]. exists c, s. split; [done|]. intros ->. done.
  - destruct (last s) as [c|] eqn:E; [exists c; split; congruence|]. by apply last_None in E as ->.
Qed.

Section Directories.
Context (resolve : list Z -> list Z).

Local Abbreviation cd := (custom_cd resolve).

(** The loop copies a stretch of the argument without points. *)
Lemma path_plain look arg n name : forall pre rest s k w e,
  arg = pre ++ name ++ rest -> Forall (fun c => c <> 0 /\ c <> dot) name ->
  0 ∉ s -> (length s + length name < n)%nat ->
  iter (length name + k) (path_body look arg) (pad n s, Z.of_nat (length pre)) w e
  = iter k (path_body look arg) (pad n (s ++ name), Z.of_nat (length (pre ++ name))) w e.
Proof.
  induction name as [|c name IH]; intros pre rest s k w e -> Hn Hs Hl; [by rewrite !app_nil_r|].
  apply Forall_cons in Hn as [[Hc0 Hcd] Hn]. simpl in Hl. cbn [length Nat.add iter].
  unfold path_body at 1, bind at 1. erewrite (bind_done (rd _ _)).
  2: { apply rd_at. rewrite lookup_app_r, Nat.sub_diag by lia. done. }
  rewrite (proj2 (Z.eqb_neq c 0)), (proj2 (Z.eqb_neq c dot)) by done.
  run (slen_pad n s w e Hs ltac:(lia)). run (wr_push n s c w e ltac:(lia)). unfold ret at 1.
  replace (Z.of_nat (length pre) + 1) with (Z.of_nat (length (pre ++ [c]))) by (rewrite length_app; simpl; lia).
  rewrite (IH (pre ++ [c]) rest (s ++ [c]) k); [by rewrite <- !app_assoc| |done| |rewrite length_app; simpl; lia].
  - by rewrite <- !app_assoc.
  - rewrite not_elem_of_app, list_elem_of_singleton. naive_solver.
Qed.

(** At the end of the argument the loop is left. *)
Lemma path_end look arg n i path w e : arg !! i = Some 0 ->
  iter (S n) (path_body look arg) (path, Z.of_nat i) w e = Done (Some path) w e.
Proof. intros H. cbn [iter]. unfold path_body at 1, bind at 1. by rewrite (bind_done _ _ _ _ _ _ _ (rd_at _ _ _ _ _ H)). Qed.

(** Reading the last byte of a string. *)
Lemma rd_last n s c w e : last s = Some c ->
  rd (pad n s) (Z.of_nat (length s) - 1) w e = Done c w e.
Proof.
  intros H. rewrite last_lookup in H. assert (length s <> O) by (by destruct s).
  apply rd_Z; [lia|]. apply lookup_pad. rewrite <- H. f_equal. lia.
Qed.

(** What comes before the loop: the slash is appended. *)
Lemma build_path_start fuel look arg n s w e :
  proper_dir s = true -> (S (length s) < n)%nat ->
  build_path fuel look arg (pad n s) w e
  = bind (iter fuel (path_body look arg) (pad n (s ++ [slash]), 0))
      (fun r => match r with
        | None => ret None
        | Some path =>
            n <- slen path;;
            c <- rd path (n - 1);;
            path <- (if negb (n =? 1) && (c =? slash) then wr (n - 1) 0 path else ret path);;
            ret (Some path)
        end) w e.
Proof.
  intros (H0 & c & Hl & Hc)%proper_dir_spec Hn. unfold build_path.
  run (slen_pad n s w e H0 ltac:(lia)). run (rd_last n s c w e Hl).
  rewrite (proj2 (Z.eqb_neq c slash)) by done. cbn [negb].
  by run (wr_push n s slash w e ltac:(lia)).
Qed.

Lemma plain_no_zero s : Forall (fun c => c <> 0 /\ c <> dot) s -> 0 ∉ s.
Proof. rewrite Forall_forall. intros H Hin. by destruct (H 0 Hin). Qed.

Lemma dir_slash s : proper_dir s = true -> 0 ∉ s ++ [slash].
Proof. intros [H _]%proper_dir_spec. rewrite not_elem_of_app, list_elem_of_singleton. by split. Qed.

(** A plain name is appended to the directory. *)
Lemma build_path_plain fuel look m n s name w e :
  proper_dir s = true -> plain name = true -> (length name < fuel)%nat -> (length name < m)%nat ->
  (length s + S (length name) < n)%nat ->
  build_path fuel look (pad m name) (pad n s) w e = Done (Some (pad n (s ++ [slash] ++ name))) w e.
Proof.
  intros Hs Hp Hf Hm Hn. rewrite build_path_start by (done || lia).
  pose proof (dir_slash s Hs) as H0. apply plain_spec in Hp as (Hp & _ & c & Hl & Hc).
  replace fuel with (length name + S (fuel - length name - 1))%nat by lia.
  erewrite (bind_done (iter _ _ _)).
  2: { etrans; [apply (path_plain look _ n name [] (zeros (m - length name))); [done|done|done|rewrite length_app; simpl; lia]|].
       apply path_end. apply lookup_pad_zero; [done|]. simpl. lia. }
  rewrite <- app_assoc.
  assert (0 ∉ s ++ [slash] ++ name) as H0'.
  { rewrite app_assoc, not_elem_of_app. split; [done|by apply plain_no_zero]. }
  assert (length (s ++ [slash] ++ name) < n)%nat as Hlen by (rewrite !length_app; simpl; lia).
  assert (last (s ++ [slash] ++ name) = Some c) as Hl' by (by rewrite !last_app, Hl).
  run (slen_pad n _ w e H0' Hlen). run (rd_last n _ c w e Hl').
  rewrite (proj2 (Z.eqb_neq c slash)), andb_false_r by done. by c_simpl.
Qed.

Lemma opendir_eq path w e : opendir resolve path w e = Done (bool_decide (resolve path ∈ w_dirs w)) w e.
Proof. done. Qed.

(** The message of a failed [cd]. *)
Definition complain (name : list Z) (w : world) : world :=
  mk_world (w_dirs w) (w_files w) (w_out w ++ name ++ chars (": Not a directory." ++ newline)).

(** [cd] with a relative name without points, from a directory other than the
    root, comes to an end; it makes the directory of that name below the current one
    the current directory if it exists, and otherwise says so and leaves
    the current directory as it was. *)
Theorem custom_cd_enters fuel user m s name w e :
  proper_dir s = true -> plain name = true -> (length name < fuel)%nat -> (length name < m)%nat ->
  (length s + S (length name) < BUFFER_SIZE)%nat ->
  cd fuel user (pad m name) (pad BUFFER_SIZE s) w e
  = if bool_decide (resolve (s ++ [slash] ++ name) ∈ w_dirs w)
    then Done (pad BUFFER_SIZE (s ++ [slash] ++ name)) w e
    else Done (pad BUFFER_SIZE s) (complain name w) e.
Proof.
  intros Hs Hp Hf Hm Hn. destruct (plain_spec name Hp) as (Hz & (c & name' & -> & Hc) & _).
  destruct (proper_dir_spec s Hs) as [H0 _]. pose proof (plain_no_zero _ Hz) as Hz'.
  apply Forall_cons in Hz as [[Hc0 _] _].
  unfold custom_cd. run (rd_at (pad m (c :: name')) 0 c w e eq_refl).
  rewrite (proj2 (Z.eqb_neq c 0)), (proj2 (Z.eqb_neq c slash)) by done.
  run (build_path_plain fuel 2 m BUFFER_SIZE s (c :: name') w e Hs Hp Hf Hm Hn).
  rewrite cstr_pad.
  2: { rewrite !not_elem_of_app, list_elem_of_singleton. naive_solver. }
  2: { rewrite !length_app. simpl in *. lia. }
  run (opendir_eq (s ++ [slash] ++ c :: name') w e). case_bool_decide; [done|]. cbn [negb].
  unfold not_a_directory, out. rewrite cstr_pad by done. c_simpl.
  rewrite scpy_zeros by (done || simpl in *; lia). done.
Qed.

(** When the loop adds nothing, the slash it was given is dropped again. *)
Lemma build_path_same fuel look arg n s w e :
  proper_dir s = true -> (S (length s) < n)%nat ->
  (forall path, iter fuel (path_body look arg) (path, 0) w e = Done (Some path) w e) ->
  build_path fuel look arg (pad n s) w e = Done (Some (pad n s)) w e.
Proof.
  intros Hs Hn Hloop. rewrite build_path_start by done. run (Hloop (pad n (s ++ [slash]))).
  assert (length (s ++ [slash]) = S (length s)) as Hlen by (rewrite length_app; simpl; lia).
  run (slen_pad n (s ++ [slash]) w e (dir_slash s Hs) ltac:(lia)).
  run (rd_last n (s ++ [slash]) slash w e (last_snoc slash s)). rewrite Hlen.
  destruct (Z.eqb_spec (Z.of_nat (S (length s))) 1) as [?|_].
  { apply proper_dir_spec in Hs as (_ & c & Hl & _). destruct s; [done|simpl in *; lia]. }
  change (slash =? slash) with true. cbn [negb andb].
  replace (Z.of_nat (S (length s)) - 1) with (Z.of_nat (length s)) by lia.
  rewrite (bind_done _ _ _ _ _ _ _ (wr_at (pad n (s ++ [slash])) (length s) 0 w e ltac:(rewrite length_pad; lia))).
  unfold ret. do 2 f_equal. unfold pad. rewrite <- app_assoc, Hlen.
  rewrite <- (Nat.add_0_r (length s)) at 1. rewrite insert_app_r. simpl. f_equal.
  by replace (n - length s)%nat with (S (n - S (length s))) by lia.
Qed.

(** Two points: the test for a single point looks one place too far, and both are
    skipped. *)
Lemma path_two_points fuel m path w e : (3 < m)%nat ->
  iter (S (S fuel)) (path_body 2 (pad m [dot; dot])) (path, 0) w e = Done (Some path) w e.
Proof.
  intros Hm. set (arg := pad m [dot; dot]).
  assert (forall i, (2 <= i < 4)%nat -> arg !! i = Some 0) as Hz by (intros; apply lookup_pad_zero; simpl; lia).
  rewrite <- (path_end 2 arg fuel 2 path w e (Hz 2%nat ltac:(lia))). cbn [iter].
  unfold bind at 1. unfold path_body at 1.
  run (rd_at arg 0 dot w e eq_refl). change (dot =? 0) with false. change (dot =? dot) with true. cbv iota.
  run (rd_at arg 1 dot w e eq_refl). change (dot =? slash) with false. cbv iota.
  rewrite (bind_done _ _ _ _ true w e).
  - by run (rd_at arg 3 0 w e (Hz 3%nat ltac:(lia))).
  - by run (rd_at arg 2 0 w e (Hz 2%nat ltac:(lia))).
Qed.

(** [cd ..] stays where it is. *)
Lemma custom_cd_parent fuel user m s w e :
  proper_dir s = true -> (1 < fuel)%nat -> (3 < m)%nat -> (S (length s) < BUFFER_SIZE)%nat ->
  resolve s ∈ w_dirs w ->
  cd fuel user (pad m [dot; dot]) (pad BUFFER_SIZE s) w e = Done (pad BUFFER_SIZE s) w e.
Proof.
  intros Hs Hf Hm Hn Hw. unfold custom_cd. run (rd_at (pad m [dot; dot]) 0 dot w e eq_refl).
  change (dot =? 0) with false. change (dot =? slash) with false. cbv iota.
  destruct fuel as [|[|fuel]]; [lia..|]. destruct (proper_dir_spec s Hs) as (H0 & _).
  run (build_path_same (S (S fuel)) 2 (pad m [dot; dot]) BUFFER_SIZE s w e Hs Hn
         (fun path => path_two_points fuel m path w e Hm)).
  rewrite cstr_pad by (done || lia). run (opendir_eq s w e). by rewrite bool_decide_true by done.
Qed.

(** At a point in the middle of a name the loop does not move on. *)
Lemma path_point_stuck look arg i c1 c2 path w e :
  arg !! i = Some dot -> arg !! S i = Some c1 -> c1 <> slash -> c1 <> dot ->
  arg !! (i + Z.to_nat look)%nat = Some c2 -> c2 <> 0 -> 0 <= look ->
  forall fuel, iter fuel (path_body look arg) (path, Z.of_nat i) w e = Stuck w.
Proof.
  intros Hd H1 Hs Hdot H2 H0 Hl. induction fuel as [|fuel IH]; [done|].
  cbn [iter]. rewrite <- IH. unfold bind at 1. unfold path_body at 1.
  run (rd_at arg i dot w e Hd). change (dot =? 0) with false. change (dot =? dot) with true. cbv iota.
  assert (rd arg (Z.of_nat i + 1) w e = Done c1 w e) as E1.
  { apply rd_Z; [lia|]. by replace (Z.to_nat (Z.of_nat i + 1)) with (S i) by lia. }
  assert (rd arg (Z.of_nat i + look) w e = Done c2 w e) as E2.
  { apply rd_Z; [lia|]. by replace (Z.to_nat (Z.of_nat i + look)) with (i + Z.to_nat look)%nat by lia. }
  run E1. rewrite (proj2 (Z.eqb_neq c1 slash)) by done. rewrite (bind_done _ _ _ _ false w e).
  - run E1. by rewrite (proj2 (Z.eqb_neq c1 dot)).
  - run E2. by rewrite (proj2 (Z.eqb_neq c2 0)).
Qed.

(** C40: [cd] with a name that has a point followed by two more characters, the first
    of them neither a slash nor a point (as in [a.txt]), never returns, however
    many rounds its loop is given and whatever directories there are. *)
Theorem custom_cd_dotted_hangs fuel user m s name c1 c2 rest w e :
  proper_dir s = true -> plain name = true -> c1 <> slash -> c1 <> dot -> c2 <> 0 ->
  (length s + S (length name) < BUFFER_SIZE)%nat -> (length name <= fuel)%nat ->
  cd fuel user (pad m (name ++ [dot; c1; c2] ++ rest)) (pad BUFFER_SIZE s) w e = Stuck w.
Proof.
  intros Hs Hp H1 H1' H2 Hn Hf. pose proof (dir_slash s Hs) as H0.
  destruct (plain_spec name Hp) as (Hz & (c & name' & -> & Hc) & _).
  apply Forall_cons in Hz as Hz'. destruct Hz' as [[Hc0 _] _].
  unfold custom_cd. run (rd_at (pad m ((c :: name') ++ [dot; c1; c2] ++ rest)) 0 c w e eq_refl).
  rewrite (proj2 (Z.eqb_neq c 0)), (proj2 (Z.eqb_neq c slash)) by done.
  set (name := c :: name') in *. set (arg := pad m (name ++ [dot; c1; c2] ++ rest)).
  assert (arg = name ++ [dot; c1; c2] ++ rest ++ zeros (m - length (name ++ [dot; c1; c2] ++ rest))) as Ha.
  { unfold arg, pad. by rewrite <- !app_assoc. }
  assert (forall fuel, iter fuel (path_body 2 arg) (pad BUFFER_SIZE ((s ++ [slash]) ++ name), Z.of_nat (length name)) w e = Stuck w) as Hst.
  { intros f. apply (path_point_stuck 2 arg _ c1 c2); try done;
      rewrite Ha, lookup_app_r by lia; [rewrite Nat.sub_diag|replace (S _ - _)%nat with 1%nat by lia|
      replace (_ + _ - _)%nat with 2%nat by (simpl; lia)]; done. }
  assert (build_path fuel 2 arg (pad BUFFER_SIZE s) w e = Stuck w) as E.
  { rewrite build_path_start by (done || simpl in *; lia). unfold bind at 1.
    replace fuel with (length name + (fuel - length name))%nat by lia.
    rewrite (path_plain 2 arg BUFFER_SIZE name [] _ (s ++ [slash]) _ w e Ha Hz H0) by (rewrite length_app; simpl in *; lia).
    by rewrite Hst. }
  unfold bind at 1. by rewrite E.
Qed.

End Directories.

(** ** Copying and moving *)

Section Copying.
Context (resolve parent : list Z -> list Z).

Definition set_file (p data : list Z) (w : world) : world := mk_world (w_dirs w) (<[p := data]> (w_files w)) (w_out w).

Lemma set_file_id p data w : w_files w !! p = Some data -> set_file p data w = w.
Proof. intros H. destruct w. unfold set_file. simpl in *. by rewrite insert_id. Qed.

Lemma take_more {A} (l : list A) off n :
  take off l ++ take n (drop off l) = take (off + length (take n (drop off l))) l.
Proof.
  rewrite take_take_drop, length_take, length_drop.
  destruct (le_lt_dec n (length l - off)); [f_equal; lia|]. rewrite !take_ge by lia. done.
Qed.

(** The loop appends what is left of one file to another. *)
Lemma copy_loop_copies from to data e : resolve from <> resolve to -> forall fuel off w,
  w_files w !! resolve from = Some data -> w_files w !! resolve to = Some (take off data) ->
  (length data - off < fuel)%nat ->
  copy_loop resolve fuel from to off w e = Done tt (set_file (resolve to) data w) e.
Proof.
  intros Hne. induction fuel as [|fuel IH]; intros off w Hf Ht Hl; [lia|].
  cbn [copy_loop]. unfold fread_at. c_simpl.
  assert (contents resolve from w = data) as -> by (unfold contents; by rewrite Hf).
  pose proof (take_more data off BUFFER_SIZE) as Hmore.
  assert (length (take BUFFER_SIZE (drop off data)) = BUFFER_SIZE `min` (length data - off))%nat as HL
    by (by rewrite length_take, length_drop).
  destruct (take BUFFER_SIZE (drop off data)) as [|c l] eqn:E.
  - rewrite take_ge in Ht by (cbn [length] in HL; unfold BUFFER_SIZE in HL; lia). by rewrite set_file_id.
  - unfold fappend. c_simpl.
    assert (contents resolve to w = take off data) as -> by (unfold contents; by rewrite Ht).
    change (mk_world _ _ _) with (set_file (resolve to) (take off data ++ c :: l) w).
    rewrite IH; cbn [set_file w_files].
    + unfold set_file. simpl. by rewrite insert_insert_eq.
    + by rewrite lookup_insert_ne.
    + by rewrite lookup_insert_eq, Hmore.
    + cbn [length] in HL |- *. lia.
Qed.

(** A file is copied below the directory [dest]. *)
Definition target (dest name : list Z) : list Z := dest ++ [slash] ++ name.

(** The file [name] can be copied to [dest]. *)
Definition ready (dest name : list Z) (w : world) : Prop :=
  (0 ∉ name) /\ (exists c name', name = c :: name' /\ c <> 0)
  /\ is_Some (w_files w !! resolve name) /\ (resolve name ∉ w_dirs w)
  /\ (parent (resolve (target dest name)) ∈ w_dirs w) /\ (resolve (target dest name) ∉ w_dirs w)
  /\ resolve name <> resolve (target dest name) /\ (length (target dest name) < BUFFER_SIZE)%nat.

Lemma copy_file_copies m dest r name w e data :
  0 ∉ dest -> ready dest name w -> (length name < m)%nat -> w_files w !! resolve name = Some data ->
  copy_file resolve parent (pad m name) (dest ++ 0 :: r) w e
  = Done true (set_file (resolve (target dest name)) data w) e.
Proof.
  intros Hd (H0 & _ & _ & _ & Hpar & Htd & Hne & Hlen) Hm Hdata.
  unfold target in Hlen. rewrite !length_app in Hlen. simpl in Hlen.
  unfold copy_file, fopen_rb. rewrite cstr_pad by done. c_simpl. rewrite Hdata, bool_decide_true by done.
  assert (scpy (zeros BUFFER_SIZE) (dest ++ 0 :: r) w e = Done (pad BUFFER_SIZE dest) w e) as E.
  { rewrite <- (scpy_zeros BUFFER_SIZE (S (length dest)) dest w e) by (done || lia).
    unfold scpy, slen. rewrite (pad_end (S (length dest))) by lia. rewrite !first_zero by done.
    c_simpl. by rewrite Nat2Z.id, !take_app_length. }
  run E. run (slen_pad BUFFER_SIZE dest w e Hd ltac:(lia)). run (wr_push BUFFER_SIZE dest slash w e ltac:(lia)).
  rewrite cstr_pad; [|rewrite not_elem_of_app, list_elem_of_singleton; by split|rewrite length_app; simpl; lia].
  rewrite <- app_assoc. fold (target dest name).
  destruct (Nat.leb_spec BUFFER_SIZE (length (target dest name))); [unfold target in *; rewrite !length_app in *; simpl in *; lia|].
  unfold fopen_wb. rewrite bind_assoc. unfold get at 1. unfold bind at 1.
  rewrite bool_decide_true, bool_decide_false by done. cbn [negb andb]. rewrite bind_assoc. c_simpl. cbn [negb orb].
  change (mk_world _ _ _) with (set_file (resolve (target dest name)) [] w).
  assert (w_files (set_file (resolve (target dest name)) [] w) !! resolve name = Some data) as Hdata'
    by (simpl; by rewrite lookup_insert_ne).
  c_simpl. assert (contents resolve name (set_file (resolve (target dest name)) [] w) = data) as ->
    by (unfold contents; by rewrite Hdata').
  run (copy_loop_copies name (target dest name) data e Hne (S (length data)) 0 _ Hdata'
         (lookup_insert_eq _ _ _) ltac:(lia)).
  unfold set_file. simpl. by rewrite insert_insert_eq.
Qed.

(** The files after [names] were copied or moved to [dest]. *)
Definition transferred (move : bool) (dest : list Z) (names : list (list Z)) (w w' : world) : Prop :=
  w_dirs w' = w_dirs w /\ w_out w' = w_out w
  /\ (forall a, a ∈ names -> w_files w' !! resolve (target dest a) = w_files w !! resolve a)
  /\ (forall a, a ∈ names -> w_files w' !! resolve a = if move then None else w_files w !! resolve a)
  /\ (forall p, (p ∉ (resolve ∘ target dest) <$> names) -> (p ∉ resolve <$> names) -> w_files w' !! p = w_files w !! p).

(** The files to copy are distinct, and so are they and their copies. *)
Definition apart (dest : list Z) (names : list (list Z)) : Prop :=
  NoDup (resolve <$> names) /\ NoDup ((resolve ∘ target dest) <$> names)
  /\ forall a b, a ∈ names -> b ∈ names -> resolve a <> resolve (target dest b).

(** The world after one file was copied or moved. *)
Definition transfer (move : bool) (dest name data : list Z) (w : world) : world :=
  let w' := set_file (resolve (target dest name)) data w in
  if move then mk_world (w_dirs w') (delete (resolve name) (w_files w')) (w_out w') else w'.

Lemma transfer_dirs move dest name data w : w_dirs (transfer move dest name data w) = w_dirs w.
Proof. by destruct move. Qed.

Lemma transfer_out move dest name data w : w_out (transfer move dest name data w) = w_out w.
Proof. by destruct move. Qed.

Lemma transfer_other move dest name data w p : p <> resolve (target dest name) -> p <> resolve name ->
  w_files (transfer move dest name data w) !! p = w_files w !! p.
Proof. intros. destruct move; simpl; by rewrite ?lookup_delete_ne, lookup_insert_ne by done. Qed.

Lemma transfer_source move dest name data w : resolve name <> resolve (target dest name) ->
  w_files (transfer move dest name data w) !! resolve name
  = if move then None else w_files w !! resolve name.
Proof. intros. destruct move; simpl; [by rewrite lookup_delete_eq|by rewrite lookup_insert_ne by done]. Qed.

Lemma transfer_target move dest name data w : resolve name <> resolve (target dest name) ->
  w_files (transfer move dest name data w) !! resolve (target dest name) = Some data.
Proof. intros. destruct move; simpl; rewrite ?lookup_delete_ne, lookup_insert_eq by done; done. Qed.

Lemma remove_eq name data dest w e : (resolve name ∉ w_dirs w) ->
  remove resolve parent name (transfer false dest name data w) e
  = Done tt (transfer true dest name data w) e.
Proof. intros H. unfold remove, modify. rewrite bool_decide_false by done. done. Qed.

(** What holds of the remaining files after the first. *)
Lemma apart_cons dest a names : apart dest (a :: names) ->
  apart dest names
  /\ (forall b, b ∈ names -> resolve b <> resolve a /\ resolve (target dest b) <> resolve (target dest a))
  /\ forall b c, b ∈ a :: names -> c ∈ a :: names -> resolve b <> resolve (target dest c).
Proof.
  intros (Hn1 & Hn2 & Ha). rewrite !fmap_cons, !NoDup_cons in *.
  destruct Hn1 as [Hf1 Hn1], Hn2 as [Hf2 Hn2]. split; [split; [done|split; [done|]]|split; [|done]].
  - intros b c Hb Hc. apply Ha; by right.
  - intros b Hb. split.
    + intros Heq. apply Hf1. rewrite <- Heq. by apply list_elem_of_fmap_2.
    + intros Heq. apply Hf2. unfold compose. rewrite <- Heq. by apply (list_elem_of_fmap_2 (resolve ∘ target dest)).
Qed.

Lemma transfer_rest move dest a data names w b : apart dest (a :: names) -> b ∈ names ->
  w_files (transfer move dest a data w) !! resolve b = w_files w !! resolve b.
Proof.
  intros (_ & Hd & Hne)%apart_cons Hb. apply transfer_other; [apply Hne; by constructor|by apply Hd].
Qed.

Lemma transferred_cons move dest a data names w w' :
  apart dest (a :: names) -> w_files w !! resolve a = Some data ->
  transferred move dest names (transfer move dest a data w) w' -> transferred move dest (a :: names) w w'.
Proof.
  intros Hap Hdata (H1 & H2 & H3 & H4 & H5). destruct (apart_cons dest a names Hap) as (_ & Hd & Hne).
  assert (resolve a <> resolve (target dest a)) as Haa by (apply Hne; left).
  assert (forall b, b ∈ names -> b ∈ a :: names) as Hin by (by right).
  split; [by rewrite H1, transfer_dirs|]. split; [by rewrite H2, transfer_out|]. split; [|split].
  - intros b [->|Hb]%elem_of_cons; [|by rewrite H3, (transfer_rest _ _ _ _ names)].
    rewrite H5, transfer_target, Hdata by (done || set_solver). done.
  - intros b [->|Hb]%elem_of_cons; [|by rewrite H4, (transfer_rest _ _ _ _ names)].
    rewrite H5, transfer_source by (done || set_solver). done.
  - intros p [Hp1 Hp2]%not_elem_of_cons [Hp3 Hp4]%not_elem_of_cons.
    rewrite H5 by done. by apply transfer_other.
Qed.

Lemma copy_args_transfer move m dest r names : forall w e,
  0 ∉ dest -> Forall (fun a => ready dest a w /\ (length a < m)%nat) names -> apart dest names ->
  exists w', copy_args resolve parent move (pad m <$> names) (dest ++ 0 :: r) w e = Done tt w' e
    /\ transferred move dest names w w'.
Proof.
  induction names as [|a names IH]; intros w e Hd Hr Hap.
  { exists w. split; [done|]. split; [done|]. split; [done|]. repeat split; set_solver. }
  apply Forall_cons in Hr as [[Hra Hm] Hr]. pose proof Hra as (H0 & _ & [data Hdata] & Hnd & _).
  pose proof (copy_file_copies m dest r a w e data Hd Hra Hm Hdata) as E.
  destruct (IH (transfer move dest a data w) e Hd) as (w' & Hrun & Ht).
  { rewrite Forall_forall in Hr |- *. intros b Hb. destruct (Hr b Hb) as [Hrb Hmb]. split; [|done].
    unfold ready. rewrite transfer_dirs, (transfer_rest _ _ _ _ names) by done. exact Hrb. }
  { by apply apart_cons in Hap as [? _]. }
  exists w'. split; [|by eapply transferred_cons].
  cbn [copy_args fmap list_fmap]. run E. cbn [negb]. rewrite cstr_pad by done.
  destruct move; cbn [when]; [run (remove_eq a data dest w e Hnd)|c_simpl]; exact Hrun.
Qed.

(** The arguments of a command as [main] passes them: rows of 1024 bytes, at least
    one of them empty. *)
Definition arg_rows (words : list (list Z)) : list (list Z) :=
  (pad 1024 <$> words) ++ replicate (ARGUMENTS_SIZE - 1 - length words) (zeros 1024).

Lemma count_args_rows words : forall i w e,
  Forall (fun a => exists c a', a = c :: a' /\ c <> 0) words ->
  forall k, count_args ((pad 1024 <$> words) ++ replicate (S k) (zeros 1024)) i w e
  = Done (i + length words)%nat w e.
Proof.
  induction words as [|a words IH]; intros i w e Hw k; [by rewrite Nat.add_0_r|].
  apply Forall_cons in Hw as [(c & a' & -> & Hc) Hw].
  cbn [fmap list_fmap app count_args]. run (rd_at (pad 1024 (c :: a')) 0 c w e eq_refl).
  rewrite (proj2 (Z.eqb_neq c 0)), IH by done. f_equal. simpl. lia.
Qed.

Lemma apart_rev dest names : apart dest names -> apart dest (reverse names).
Proof.
  intros (H1 & H2 & H3). unfold apart. rewrite !fmap_reverse, !reverse_Permutation. split; [done|split; [done|]].
  intros a b Ha Hb. apply H3; by apply elem_of_reverse.
Qed.

Lemma transferred_rev move dest names w w' : transferred move dest (reverse names) w w' -> transferred move dest names w w'.
Proof.
  intros (H1 & H2 & H3 & H4 & H5). split; [done|]. split; [done|]. split; [|split].
  - intros a Ha. apply H3. by apply elem_of_reverse.
  - intros a Ha. apply H4. by apply elem_of_reverse.
  - intros p Hp1 Hp2. apply H5; by rewrite fmap_reverse, elem_of_reverse.
Qed.

(** Up to the loop: the destination is copied and is a directory. *)
Lemma copy_command_start fuel move junk dest names directory_path w e :
  (0 ∉ dest) -> head dest = Some slash -> resolve dest ∈ w_dirs w ->
  Forall (fun a => exists c a', a = c :: a' /\ c <> 0) names ->
  names <> [] -> (length names <= 13)%nat -> (length dest < 1024)%nat -> length junk = BUFFER_SIZE ->
  copy_command resolve parent fuel move junk (arg_rows (names ++ [dest])) directory_path w e
  = copy_args resolve parent move (pad 1024 <$> reverse names) (dest ++ 0 :: drop (S (length dest)) junk) w e.
Proof.
  intros H0 Hh Hdir Hn Hne Hlen Hdl Hj. destruct dest as [|c dest']; [done|]. injection Hh as ->.
  set (dest := slash :: dest') in *. unfold copy_command, arg_rows. rewrite length_app. cbn [length].
  assert (1 <= length names)%nat by (destruct names; [done|simpl; lia]).
  replace (ARGUMENTS_SIZE - 1 - (length names + 1))%nat with (S (ARGUMENTS_SIZE - 3 - length names))
    by (unfold ARGUMENTS_SIZE; lia).
  erewrite bind_done; [|apply count_args_rows].
  2: { apply Forall_app. split; [done|]. repeat constructor. by exists slash, dest'. }
  rewrite length_app. cbn [length]. destruct (Nat.leb_spec (0 + (length names + 1)) 1); [lia|].
  replace (0 + (length names + 1) - 1)%nat with (length names) by lia.
  rewrite fmap_app, <- app_assoc, <- (length_fmap (pad 1024) names).
  change (pad 1024 <$> [dest]) with [pad 1024 dest]. cbn [app]. rewrite nth_middle, take_app_length.
  run (rd_at (pad 1024 dest) 0 slash w e eq_refl). change (slash =? slash) with true. cbv iota.
  assert (scpy junk (pad 1024 dest) w e = Done (dest ++ 0 :: drop (S (length dest)) junk) w e) as E.
  { unfold scpy. run (slen_pad 1024 dest w e H0 Hdl). rewrite Nat2Z.id, Hj.
    destruct (Nat.leb_spec BUFFER_SIZE (length dest)); [unfold BUFFER_SIZE in *; lia|].
    by rewrite (pad_end 1024), take_app_length. }
  rewrite bind_assoc. run E. c_simpl. rewrite cstr_zero by done. run (opendir_eq resolve dest w e).
  rewrite bool_decide_true by done. by rewrite fmap_reverse.
Qed.

(** C35: [cp] and [mv] of files to an absolute destination: when every file exists,
    the destination and its directory are as they should be, and no file is copied onto
    one of the others, the command ends, each copy holds what the file held, the file
    itself is as before ([cp]) or is gone ([mv]), and no other file, no
    directory and no output has changed; what the path buffer held before does
    not matter. *)
Theorem copy_command_transfers fuel (move : bool) junk dest names directory_path w e :
  (0 ∉ dest) -> head dest = Some slash -> resolve dest ∈ w_dirs w ->
  Forall (fun a => ready dest a w /\ (length a < 1024)%nat) names -> apart dest names ->
  names <> [] -> (length names <= 13)%nat -> (length dest < 1024)%nat -> length junk = BUFFER_SIZE ->
  exists w', (if move then custom_mv resolve parent fuel junk (arg_rows (names ++ [dest])) directory_path
              else custom_cp resolve parent fuel junk (arg_rows (names ++ [dest])) directory_path) w e
    = Done tt w' e /\ transferred move dest names w w'.
Proof.
  intros H0 Hh Hdir Hr Hap Hne Hlen Hdl Hj.
  assert ((if move then custom_mv resolve parent fuel junk (arg_rows (names ++ [dest])) directory_path
          else custom_cp resolve parent fuel junk (arg_rows (names ++ [dest])) directory_path)
    = copy_command resolve parent fuel move junk (arg_rows (names ++ [dest])) directory_path) as ->
    by (by destruct move).
  destruct (copy_args_transfer move 1024 dest (drop (S (length dest)) junk) (reverse names) w e H0)
    as (w' & Hrun & Ht); [by apply Forall_reverse|by apply apart_rev|].
  exists w'. split; [|by apply transferred_rev]. rewrite <- Hrun.
  apply copy_command_start; try done. eapply Forall_impl; [exact Hr|]. intros a [(_ & Hx & _) _]. exact Hx.
Qed.

End Copying.

(** ** Lines *)

Definition blank (c : Z) : bool := (c =? 32) || (c =? 9) || (c =? NL).

(** A character of a plain word. *)
Definition word_char (c : Z) : bool := negb (c =? quote) && negb (blank c).

(** A line of words with single spaces between them. *)
Fixpoint line (words : list (list Z)) : list Z :=
  match words with
  | [] => []
  | [word] => word ++ [NL]
  | word :: words => word ++ 32 :: line words
  end.

Lemma put_char_push command index c pre rows w e :
  rows !! command = Some (pad 1024 pre) -> index = length pre -> (index < 1024)%nat ->
  put_char command index c rows w e = Done (<[command := pad 1024 (pre ++ [c])]> rows) w e.
Proof.
  intros Hr -> Hl. unfold put_char. rewrite Hr, length_pad by lia.
  destruct (Nat.leb_spec 1024 (length pre)); [lia|]. by rewrite pad_push.
Qed.

(** A plain word goes to its row, up to the blank after it. *)
Lemma read_word_plain word : forall pre rows command c input w e,
  Forall (fun c => word_char c = true) word -> blank c = true ->
  rows !! command = Some (pad 1024 pre) -> (length pre + length word <= 1024)%nat ->
  read_word (word ++ c :: input) rows command (length pre) w e
  = Done (c, <[command := pad 1024 (pre ++ word)]> rows, S command, input) w e.
Proof.
  induction word as [|x word IH]; intros pre rows command c input w e Hw Hb Hr Hl.
  - rewrite app_nil_r, list_insert_id by done. cbn [app read_word].
    unfold blank in Hb. destruct (Z.eqb_spec c quote) as [->|_]; [done|]. by rewrite Hb.
  - apply Forall_cons in Hw as [Hx Hw]. simpl in Hl.
    apply andb_true_iff in Hx as [Hq Hx]. apply negb_true_iff in Hq, Hx. unfold blank in Hx.
    cbn [app read_word]. rewrite Hq, Hx. run (put_char_push command (length pre) x pre rows w e Hr eq_refl ltac:(lia)).
    replace (S (length pre)) with (length (pre ++ [x])) by (rewrite length_app; simpl; lia).
    rewrite IH; [|done|done| |rewrite length_app; simpl; lia].
    + by rewrite list_insert_insert_eq, <- app_assoc.
    + apply list_lookup_insert_eq. by eapply lookup_lt_Some.
Qed.

(** The rows once [words] are read. *)
Definition rows_of (words : list (list Z)) : list (list Z) :=
  (pad 1024 <$> words) ++ replicate (ARGUMENTS_SIZE - length words) (zeros 1024).

Lemma rows_of_snoc words word : (length words < ARGUMENTS_SIZE)%nat ->
  rows_of words !! length words = Some (pad 1024 [])
  /\ <[length words := pad 1024 word]> (rows_of words) = rows_of (words ++ [word]).
Proof.
  intros H. unfold rows_of. rewrite fmap_app, length_app. cbn [length fmap list_fmap].
  replace (ARGUMENTS_SIZE - length words)%nat with (S (ARGUMENTS_SIZE - (length words + 1))) by lia.
  cbn [replicate]. rewrite <- (length_fmap (pad 1024) words) at 1 3. split.
  - rewrite lookup_app_r, Nat.sub_diag by done. done.
  - rewrite <- (Nat.add_0_r (length (pad 1024 <$> words))), insert_app_r. simpl. by rewrite <- app_assoc.
Qed.

Lemma read_words_line words : forall before fuel input w e,
  words <> [] -> Forall (fun word => Forall (fun c => word_char c = true) word /\ (length word <= 1024)%nat) words ->
  (length before + length words <= ARGUMENTS_SIZE)%nat -> (length words <= fuel)%nat ->
  read_words fuel (line words ++ input) (rows_of before) (length before) w e
  = Done (rows_of (before ++ words), input) w e.
Proof.
  induction words as [|word words IH]; intros before fuel input w e Hne Hw Hl Hf; [done|].
  apply Forall_cons in Hw as [[Hc Hlw] Hw]. destruct fuel as [|fuel]; [simpl in Hf; lia|].
  cbn [length] in Hl, Hf. destruct (rows_of_snoc before word) as [Hrow Hins]; [lia|].
  assert (forall c rest, blank c = true -> read_word (word ++ c :: rest) (rows_of before) (length before) 0 w e
    = Done (c, rows_of (before ++ [word]), S (length before), rest) w e) as E.
  { intros c rest Hb. rewrite <- Hins. by apply (read_word_plain word []). }
  cbn [read_words]. destruct words as [|word2 words].
  - cbn [line]. rewrite <- app_assoc. by run (E NL input eq_refl).
  - cbn [line]. rewrite <- app_assoc. rewrite <- app_comm_cons. run (E 32 (line (word2 :: words) ++ input) eq_refl).
    replace (S (length before)) with (length (before ++ [word])) by (rewrite length_app; simpl; lia).
    change (32 =? NL) with false. cbv iota.
    rewrite IH; [by rewrite <- app_assoc|done|done|rewrite length_app; simpl in *; lia|simpl in *; lia].
Qed.

(** a line of at most sixteen plain words with single spaces between them is
    split into exactly these words, each in a row of its own filled up with zeros, and
    the input after the line is left for the next command. *)
Theorem read_command_words words input w e :
  words <> [] -> Forall (fun word => Forall (fun c => word_char c = true) word /\ (length word <= 1024)%nat) words ->
  (length words <= ARGUMENTS_SIZE)%nat ->
  read_command (line words ++ input) w e = Done (rows_of words, input) w e.
Proof.
  intros Hne Hw Hl. unfold read_command. apply (read_words_line words []); try done.
  rewrite length_app. assert (length words <= length (line words))%nat; [|lia].
  clear. induction words as [|a [|b l] IH]; cbn [line length] in *; rewrite ?length_app; simpl in *; lia.
Qed.

Lemma read_command_words_witness :
  exists w, read_command (line [chars "cp"; chars "a"; chars "/d"] ++ chars "ls") w []
    = Done (rows_of [chars "cp"; chars "a"; chars "/d"], chars "ls") w [].
Proof.
  exists (mk_world [] ∅ []). apply read_command_words; [done| |vm_compute; lia].
  repeat apply Forall_cons_2; try apply Forall_nil_2; (split; [repeat constructor|vm_compute; lia]).
Defined.

(** ** Examples

    A process started in [/w]: other names are relative to it. *)

Definition example_resolve (p : list Z) : list Z :=
  match p with
  | c :: _ => if c =? slash then p else chars "/w/" ++ p
  | [] => chars "/w/"
  end.

(** The directory of an absolute name. *)
Fixpoint example_parent (p : list Z) : list Z :=
  match p with
  | [] => []
  | c :: p => if bool_decide (slash ∈ p) then c :: example_parent p else []
  end.

Definition example_world : world :=
  mk_world [chars "/w"; chars "/d"; chars "/w/b"] {[ chars "/w/f" := chars "text" ]} [].

Lemma custom_cd_enters_witness :
  custom_cd example_resolve 10 None (pad 1024 (chars "b")) (pad BUFFER_SIZE (chars "/w")) example_world []
  = Done (pad BUFFER_SIZE (chars "/w/b")) example_world [].
Proof.
  etrans; [apply (custom_cd_enters example_resolve 10 None 1024 (chars "/w") (chars "b"));
    apply (bool_decide_unpack _); by vm_compute|].
  rewrite bool_decide_true; [reflexivity|]. right. right. left.
Defined.

Lemma custom_cd_dotted_hangs_witness : exists m : nat,
  custom_cd example_resolve 1000 None (pad m (chars "a.txt")) (pad BUFFER_SIZE (chars "/w")) example_world []
  = Stuck example_world.
Proof.
  exists 1024%nat.
  apply (custom_cd_dotted_hangs example_resolve 1000 None 1024 (chars "/w") (chars "a") (ch "t") (ch "x") (chars "t"));
    apply (bool_decide_unpack _); by vm_compute.
Defined.

Lemma copy_command_transfers_witness : exists w',
  custom_mv example_resolve example_parent 0 (zeros BUFFER_SIZE) (arg_rows [chars "f"; chars "/d"]) [] example_world []
  = Done tt w' []
  /\ transferred example_resolve true (chars "/d") [chars "f"] example_world w'.
Proof.
  apply (copy_command_transfers example_resolve example_parent 0 true (zeros BUFFER_SIZE) (chars "/d") [chars "f"]);
    try (vm_compute; lia).
  - by apply (bool_decide_unpack _); vm_compute.
  - reflexivity.
  - by apply (bool_decide_unpack _); vm_compute.
  - apply Forall_cons_2; [|apply Forall_nil_2]. split; [|vm_compute; lia].
    split; [by apply (bool_decide_unpack _); vm_compute|].
    split; [by exists (ch "f"), []|]. split; [by exists (chars "text")|].
    repeat split; try (by apply (bool_decide_unpack _); vm_compute); try (vm_compute; lia).
  - split; [by apply (bool_decide_unpack _); vm_compute|split; [by apply (bool_decide_unpack _); vm_compute|]].
    intros a b ->%list_elem_of_singleton ->%list_elem_of_singleton.
    by apply (bool_decide_unpack _); vm_compute.
  - done.
Defined.
